(* ===== verification/_CoqProject ===== *)
-Q . S2P
Prelude.v
JsString.v
JsValue.v
NodePath.v
World.v
Luxon.v
LuxonUtc.v
Calculations.v
AsyncLock.v
Zod.v
Schemas.v
Network.v
Providers.v
PrayerTimes.v
NormalizeSource.v
Encryption.v
EnvManager.v
Sse.v
ConfigStore.v
Outputs.v
Migration.v
Masking.v
ConfigService.v
Storage.v
Wiring.v
Health.v
Voice.v
AudioAssets.v
AssetMigration.v
Automation.v
Scheduler.v
Frames.v
Diagnostics.v
Workflow.v
Http.v
SettingsController.v
SystemController.v
Auth.v
ApiControllers.v
Routes.v
Logger.v
Server.v
TypeSafety.v
Dashboard.v
Countdown.v
ClientSettings.v
ClientPrefs.v
Session.v
ClientAudio.v
FileManager.v
TriggerCard.v
PrayerCard.v
IqamahCard.v
OutputCard.v
SettingsShell.v
Credentials.v
SourceSettings.v
SearchSelect.v
VoiceLibrary.v
DisplaySettings.v
HealthTab.v
Developer.v
DashboardControls.v
AutomationGeneral.v
SourceStatus.v
Console.v
Login.v
SettingsPages.v
AppDashboard.v
