(* ===== verification/Prelude.v ===== *)
(** * Azan Dashboard: a verification development

    Azan Dashboard shows the prayer times of a mosque or a home and announces
    them.  A Node.js server ([src/]) fetches a year of times from a remote
    provider, keeps them in a cache, books the announcements of the day as
    timed jobs and plays, casts or streams their audio; a browser application
    ([client/src/]) shows the times and edits the settings over an HTTP API.
    This library translates the JavaScript of both into executable definitions
    and proves what makes them correct.

    ** How the code is read

    - A JavaScript value is a [JsValue.val], an object the list of its
      properties in insertion order; a number is a rational.  A string is a
      sequence of code units below 256.
    - The state of the server process is one record, [World.world]: the
      variables of its modules, the environment, the file system, the clock,
      the log of remote calls.  A function of the source is a computation of
      the monad [Prelude.M] over it, which returns or throws and keeps what was
      changed before a throw.
    - Node runs one callback at a time.  Where calls that overlap matter (the
      de-duplicator, [initScheduler], the refresh of the voices, the hooks of
      the browser) a function is cut at its [await]s and the interleavings are
      sequences of the pieces.
    - Third-party code is a type class, its documented behaviour a class of
      laws: [Luxon], [Zod], [Net], [Crypto], [Jwt], [Intl], [Locale], [Host],
      [Dotenv], [DiskSpace], [Tts], [Words], [Digest], [Pace], [Timer],
      [Counters], [Express], [Multer], [Web], [Router], [Regex]; the server as
      the browser sees it is [Backend].  Concrete instances
      ([LuxonUtc.utc], [Zod.zod_ref], [Encryption.toy_crypto] and small ones
      beside the witnesses) show that the laws can hold.  [OutputRegistry] is
      an interface inside the program: the configuration and migration services
      are proved against it, and [Wiring] discharges it with the factory of
      [Outputs], as [src/server.js] does at start-up.

    ** The files

    Foundations: [Prelude] (monad, tactics, lists), [JsString], [JsValue],
    [NodePath], [World], [Frames] (what an operation leaves alone).

    Prayer times: [Calculations] ([src/utils/calculations.js]), [AsyncLock]
    ([src/utils/asyncLock.js]), [Network] (the SSRF filter of
    [src/utils/networkUtils.js]), [Providers] ([src/providers/]), [PrayerTimes]
    ([src/services/core/prayerTimeService.js]).  A date that is cached is
    served without a call; a miss fetches the year from the primary source with
    failover to the backup and merges it into the cache; overrides and the rows
    of the dashboard follow the configuration; the errors of the providers are
    classified; callers that overlap share one run.

    Configuration: [Schemas] over [Zod] ([src/config/schemas.js]),
    [ConfigService] with [ConfigStore], [Migration], [Masking], [Encryption],
    [EnvManager].  A validated configuration has the types the services rely
    on, and [TypeSafety] goes through the functions that read it as it is: none
    of them throws.  An update is all or nothing; secrets are encrypted on disk,
    masked on the page, and survive the round trip; an old configuration
    migrates to the latest version.

    Announcements: [NormalizeSource], [Outputs] ([src/outputs/]),
    [AudioAssets], [AssetMigration], [Voice], [Automation], [Scheduler].  An
    audio source never leaves the audio directory; a played command is one of
    the allowed players; the jobs booked are exactly the ones the day and the
    configuration call for, early enough for the slowest output; all outputs
    of an event start together.

    The API: [Http] (middleware), [Routes], [Auth], [SettingsController],
    [SystemController], [ApiControllers], [Workflow] (saving the settings),
    [Diagnostics], [Health], [Storage], [Sse], [Logger], and [Server] (the
    start).  No request without a session reaches a protected handler; a save
    stores what was sent and brings times, audio and jobs in line with it; the
    newest logs are kept; the start always comes to an end.

    The browser, where each component's state is a record and its callbacks
    steps on it: [Dashboard] ([client/src/hooks/usePrayerTimes.js],
    [useMidnightObserver.js]) keeps the page on the last answer asked for;
    [Countdown] (the focus card of [components/dashboard/]) fetches again when
    a countdown ends; [ClientSettings] ([contexts/SettingsContext.jsx],
    [utils/validation.js]) edits a draft and sends it only when it is checked;
    [ClientPrefs] ([contexts/ClientPreferencesContext.jsx]) stores what this
    device mutes; [Session] ([contexts/AuthContext.jsx], [App.jsx]) leads to a
    page by redirects that come to rest; [ClientAudio] ([hooks/useSSE.js],
    [useAudio.js], [useWakeLock.js]) plays what the server announces unless
    the preferences silence it; [PrayerCard] ([components/dashboard/]) marks
    the rows truthfully, slides without a jump and loses no gesture;
    [TriggerCard] ([components/settings/], [views/settings/]) stores a trigger
    where the scheduler reads it; [FileManager] ([FileManagerView.jsx]) sends
    only what the user asked for, and an upload it does not ask about replaces
    nothing as long as its listing is complete; [IqamahCard]
    ([IqamahTimingCard.jsx]) promises the congregation times the scheduler
    books; [OutputCard] ([OutputStrategyCard.jsx]) shows what the server's
    check of an output finds and sets the lead time that is played;
    [SettingsShell] ([components/layout/SettingsLayout.jsx],
    [SaveProcessModal.jsx]) marks the changed pages and brings every save to
    a dialogue that can be closed; [Credentials]
    ([CredentialStrategyCard.jsx], [CredentialsSettingsView.jsx]) stores
    secrets on the word of the user after a test; [SourceSettings]
    ([GeneralSettingsView.jsx], [SourceConfigurator.jsx]) keeps the two sources
    of the times apart; [SearchSelect] and [VoiceLibrary] list and choose what
    was searched for; [DisplaySettings] ([ClientSettingsModal.jsx]) has a table
    of what this device plays that agrees with the plan of the scheduler;
    [HealthTab] shows what a check of the server found, and [SourceStatus]
    ([PrayerSourceStatusCard.jsx]) which source the times came from;
    [Developer] ([DeveloperSettingsView.jsx], [components/settings/developer/])
    shows the plan of the day and runs one action at a time;
    [AutomationGeneral] ([AutomationGeneralTab.jsx]) flips the switches the
    scheduler obeys and sets the minutes it counts back; [SettingsPages] ([views/settings/]) fetches the lists of
    the pages and keeps the tab in the address; [DashboardControls]
    ([TopControls.jsx], [DashboardView.jsx], [useTour.js]) warns of the faults
    that silence something, holds the wake lock and welcomes; [AppDashboard]
    ([App.jsx]) keeps the dashboard at today while the days are not to be
    turned; [Login] ([LoginView.jsx]) leads back to the page asked for; and
    [Console] ([src/utils/loggerInitializer.js], [SystemLogsTab.jsx]) carries
    what the server prints to the end of the log on the page.

    ** Bounds and fuel

    Loops of the source run over lists and are structural.  Fuel is used where
    the code counts: [JsValue.frac_digits] prints at most 20 digits of a
    fraction, more than a double shows; the batches of
    [AssetMigration] have the length of the list as fuel, each batch taking at
    least one element ([AssetMigration.batches_join]); the days of the calendar requests are windows of 7
    and 15 days, written as ranges.  Integers of the source are doubles well
    below 2^53; no theorem relies on wrap-around.

    ** Not modelled

    - The Python speech service ([src/microservices/tts/]) is the parameter
      [Tts]: another language and process.
    - The calls of [console] within the modelled functions are left out: what
      one does is [Console.console], but which lines are printed is not part
      of the computations.
    - The markup of the browser: classes, icons and fixed texts, the dialogues
      that only ask ([ConfirmModal.jsx], [WelcomeModal.jsx]) and the drawing of
      the tour; React itself is third-party.
    - Texts beyond Latin-1 (the Arabic prayer names) are carried as their UTF-8
      bytes; the text of log lines is left out.
    - Timers fire in any order in the browser models; on the server the time
      an [await] takes is left open, and a list of operations the source starts
      together is run in order, unless a theorem is about their overlap. *)
From Stdlib Require Export ZArith QArith Qround Lia.
From stdpp Require Export base tactics decidable option list gmap sets strings pretty.

#[global] Open Scope Z_scope.

(** ** The scope of the development's own notations *)
Declare Scope azan_scope.
Delimit Scope azan_scope with azan.
#[global] Open Scope azan_scope.

(** ** JavaScript exceptions

    What a [catch] clause of the source reads of an [Error]: its class
    ([name], also used for [instanceof]), its [message], its [code]
    ([ENOENT], ...), and the [userFriendly] flag of the provider errors. *)
Record jserr := JsErr {
  e_name : string;
  e_msg : string;
  e_code : string;
  e_friendly : bool
}.

(** [new Error(msg)]. *)
Definition Error (msg : string) : jserr := JsErr "Error" msg "" false.
(** The error V8 raises for a property access on [null] or [undefined], and
    for a call of something that is not a function. *)
Definition TypeError (msg : string) : jserr := JsErr "TypeError" msg "" false.

#[export] Instance jserr_eq_dec : EqDecision jserr.
Proof. solve_decision. Defined.

(** ** Lists *)
Lemma mjoin_nil {A} (ll : list (list A)) : mjoin ll = [] <-> Forall (fun l => l = []) ll.
Proof.
  induction ll as [|l ll IH]; [done|]. change (mjoin (l :: ll)) with (l ++ mjoin ll). rewrite Forall_cons, <- IH. split; [apply app_nil|].
  intros [-> ->]. done.
Qed.

(** ** Completions and the state-and-exception monad

    A computation of the source runs in a world [W]; it returns normally or
    throws, and what it changed before throwing stays changed. *)
Inductive result (A : Type) : Type :=
| Ok (a : A)
| Throw (e : jserr).
Arguments Ok {A} a.
Arguments Throw {A} e.

#[export] Instance result_ret : MRet result := fun A a => Ok a.
#[export] Instance result_bind : MBind result :=
  fun A B f r => match r with Ok a => f a | Throw e => Throw e end.
#[export] Instance result_fmap : FMap result :=
  fun A B f r => match r with Ok a => Ok (f a) | Throw e => Throw e end.

Definition is_ok {A} (r : result A) : bool :=
  match r with Ok _ => true | Throw _ => false end.

Definition M (W A : Type) : Type := W -> result A * W.

#[export] Instance M_ret {W} : MRet (M W) := fun A a w => (Ok a, w).
#[export] Instance M_bind {W} : MBind (M W) :=
  fun A B f m w => match m w with
                   | (Ok a, w') => f a w'
                   | (Throw e, w') => (Throw e, w')
                   end.

Section monad_ops.
Context {W : Type}.

Definition ret {A} (a : A) : M W A := fun w => (Ok a, w).
Definition throw {A} (e : jserr) : M W A := fun w => (Throw e, w).
Definition lift {A} (r : result A) : M W A := fun w => (r, w).
Definition getw : M W W := fun w => (Ok w, w).
Definition gets {A} (f : W -> A) : M W A := fun w => (Ok (f w), w).
Definition modify (f : W -> W) : M W unit := fun w => (Ok tt, f w).

(** [try { m } catch (e) { h e }] *)
Definition try_catch {A} (m : M W A) (h : jserr -> M W A) : M W A :=
  fun w => match m w with
           | (Ok a, w') => (Ok a, w')
           | (Throw e, w') => h e w'
           end.

(** [try { m } finally { f }], where [f] itself does not throw. *)
Definition try_finally {A} (m : M W A) (f : W -> W) : M W A :=
  fun w => let '(r, w') := m w in (r, f w').

(** [Promise.allSettled]-style capture of the completion. *)
Definition settle {A} (m : M W A) : M W (result A) :=
  fun w => let '(r, w') := m w in (Ok r, w').

(** [if (b) m] *)
Definition when (b : bool) (m : M W unit) : M W unit := if b then m else ret tt.

(** [for (const x of l) f x] with no result. *)
Fixpoint for_each {A} (f : A -> M W unit) (l : list A) : M W unit :=
  match l with
  | [] => ret tt
  | x :: l' => fun w => match f x w with
                        | (Ok _, w') => for_each f l' w'
                        | (Throw e, w') => (Throw e, w')
                        end
  end.

(** A loop that collects the results ([await Promise.all(l.map(f))] run in
    order, or a [for] that pushes). *)
Fixpoint map_m {A B} (f : A -> M W B) (l : list A) : M W (list B) :=
  match l with
  | [] => ret []
  | x :: l' => x' ← f x; l'' ← map_m f l'; ret (x' :: l'')
  end.
End monad_ops.

(** [m1 ;; m2] for statements. *)
Notation "m1 ;; m2" := (mbind (fun _ : unit => m2) m1)
  (at level 100, m2 at level 200, right associativity) : azan_scope.

(** ** Tactics *)

(** Unfolds the monad's operations so that a run of a handler reduces. *)
Ltac munfold :=
  unfold mbind, M_bind, mret, M_ret, ret, throw, lift, getw, gets, modify,
    try_catch, try_finally, settle, when in *.

(** Splits every match the goal or a hypothesis is stuck on. *)
Ltac mcases := repeat (case_match; simplify_eq/=; try done).

(** One step of symbolic execution of a monadic run in the goal. *)
Ltac mstep := munfold; simpl; try (case_match; simplify_eq/=).

(** ** The monad's laws, used to reassociate runs *)
Lemma M_bind_assoc {W A B C} (m : M W A) (f : A -> M W B) (g : B -> M W C) w :
  mbind g (mbind f m) w = mbind (fun a => mbind g (f a)) m w.
Proof. munfold. by destruct (m w) as [[a|e] w']. Qed.

Lemma result_bind_inv {A B} (f : A -> result B) (r : result A) b :
  r ≫= f = Ok b -> exists a, r = Ok a /\ f a = Ok b.
Proof. destruct r as [a|]; [|done]. by exists a. Qed.

Lemma M_bind_ok {W A B} (m : M W A) (f : A -> M W B) w a w' :
  m w = (Ok a, w') -> mbind f m w = f a w'.
Proof. intros H. munfold. by rewrite H. Qed.

Lemma M_bind_throw {W A B} (m : M W A) (f : A -> M W B) w e w' :
  m w = (Throw e, w') -> mbind f m w = (Throw e, w').
Proof. intros H. munfold. by rewrite H. Qed.

Lemma M_bind_inv {W A B} (m : M W A) (f : A -> M W B) w b w' :
  mbind f m w = (Ok b, w') ->
  exists a w1, m w = (Ok a, w1) /\ f a w1 = (Ok b, w').
Proof. munfold. destruct (m w) as [[a|e] w1]; naive_solver. Qed.

(** ** Frames: what a computation leaves as it was *)
Definition keeps {W A B} (f : W -> B) (m : M W A) : Prop := forall w, f (m w).2 = f w.

Section frames.
Context {W B : Type} (f : W -> B).

Lemma keeps_ret {A} (a : A) : keeps f (ret a).
Proof. by intros w. Qed.
Lemma keeps_throw {A} e : keeps f (throw (A := A) e).
Proof. by intros w. Qed.
Lemma keeps_lift {A} (r : result A) : keeps f (lift r).
Proof. by intros w. Qed.
Lemma keeps_gets {A} (g : W -> A) : keeps f (gets g).
Proof. by intros w. Qed.
Lemma keeps_modify g : (forall w, f (g w) = f w) -> keeps f (modify g).
Proof. intros H w. apply H. Qed.
Lemma keeps_bind {A C} (m : M W A) (k : A -> M W C) :
  keeps f m -> (forall a, keeps f (k a)) -> keeps f (mbind k m).
Proof.
  intros Hm Hk w. munfold. specialize (Hm w). destruct (m w) as [[a|e] w']; cbn in *; [|done].
  rewrite <- Hm. apply Hk.
Qed.
Lemma keeps_try {A} (m : M W A) h :
  keeps f m -> (forall e, keeps f (h e)) -> keeps f (try_catch m h).
Proof.
  intros Hm Hh w. munfold. specialize (Hm w). destruct (m w) as [[a|e] w']; cbn in *; [done|].
  rewrite <- Hm. apply Hh.
Qed.
Lemma keeps_finally {A} (m : M W A) g : keeps f m -> (forall w, f (g w) = f w) -> keeps f (try_finally m g).
Proof. intros Hm Hg w. munfold. specialize (Hm w). destruct (m w) as [r w']; cbn in *. by rewrite Hg. Qed.
Lemma keeps_when b (m : M W unit) : keeps f m -> keeps f (when b m).
Proof. intros H. unfold when. by destruct b. Qed.
Lemma keeps_map_m {A C} (g : A -> M W C) l : (forall a, keeps f (g a)) -> keeps f (map_m g l).
Proof.
  intros Hg. induction l as [|x l IH]; [apply keeps_ret|].
  cbn [map_m]. apply keeps_bind; [done|]. intros x'. apply keeps_bind; [done|].
  intros. apply keeps_ret.
Qed.
Lemma keeps_for_each {A} (g : A -> M W unit) l : (forall a, keeps f (g a)) -> keeps f (for_each g l).
Proof.
  intros Hg. induction l as [|x l IH]; [apply keeps_ret|]. intros w. cbn [for_each].
  pose proof (Hg x w) as Hx. destruct (g x w) as [[a|e] w']; cbn in *; [|done].
  rewrite <- Hx. apply IH.
Qed.
End frames.

(** ** Hint databases

    [js] closes goals about JavaScript values, [azan] the side conditions of
    the components' lemmas; [azan_rw] holds the rewrite rules of lookups. *)
Create HintDb js.
Create HintDb azan.
Create Rewrite HintDb js_rw.
Create Rewrite HintDb azan_rw.
#[export] Hint Resolve keeps_ret keeps_throw keeps_lift keeps_gets keeps_bind keeps_try keeps_when
  keeps_map_m keeps_for_each : azan.

(** Proves a frame by following the computation. *)
Ltac keeps_step := repeat first
  [ progress intros
  | solve [auto 2 with azan]
  | apply keeps_ret | apply keeps_throw | apply keeps_lift | apply keeps_gets
  | apply keeps_bind | apply keeps_try | apply keeps_finally | apply keeps_when | apply keeps_map_m | apply keeps_for_each
  | case_match ].
