(* ===== verification/JsString.v ===== *)
(** * JavaScript strings

    The string operations of the language and its standard library that the
    source uses.  A string is a sequence of code units; the model keeps those
    below 256 (Rocq's [ascii]), and case mapping is the ASCII one, which is
    what the identifiers, keys, paths and times handled here are made of. *)
From S2P Require Import Prelude.
From Stdlib Require Export Ascii.

#[export] Instance ascii_eq_dec' : EqDecision ascii := ascii_dec.

(** Control characters the source names. *)
Definition LF : ascii := "010"%char.
Definition CR : ascii := "013"%char.

(** ** Tests *)

(** [s.startsWith(p)] *)
Definition starts_with (p s : string) : bool := String.prefix p s.

(** [s.slice(n)] for [n >= 0] *)
Fixpoint slice_from (n : nat) (s : string) : string :=
  match n, s with
  | O, _ => s
  | S n', String _ s' => slice_from n' s'
  | S _, EmptyString => ""
  end.

(** [s.endsWith(p)] *)
Definition ends_with (p s : string) : bool :=
  (String.length p <=? String.length s)%nat &&
  String.eqb (slice_from (String.length s - String.length p) s) p.

(** [s.includes(p)] *)
Fixpoint includes (p s : string) : bool :=
  starts_with p s ||
  match s with
  | EmptyString => false
  | String _ s' => includes p s'
  end.

(** [s.includes(c)] for a one-character needle *)
Fixpoint has_char (c : ascii) (s : string) : bool :=
  match s with
  | EmptyString => false
  | String a s' => Ascii.eqb a c || has_char c s'
  end.

(** ** Splitting and joining *)

(** [s.split(c)] for a one-character separator *)
Fixpoint split_on (c : ascii) (s : string) : list string :=
  match s with
  | EmptyString => [""]
  | String a s' =>
      if Ascii.eqb a c then "" :: split_on c s'
      else match split_on c s' with
           | [] => [String a ""]
           | p :: ps => String a p :: ps
           end
  end.

(** [l.join(c)] for a one-character separator *)
Fixpoint join_with (c : ascii) (l : list string) : string :=
  match l with
  | [] => ""
  | [p] => p
  | p :: ps => p +:+ String c (join_with c ps)
  end.

(** [l.join(sep)] *)
Definition join (sep : string) (l : list string) : string := String.concat sep l.

(** Drops one trailing carriage return. *)
Fixpoint chomp (s : string) : string :=
  match s with
  | EmptyString => ""
  | String a EmptyString => if Ascii.eqb a CR then "" else s
  | String a s' => String a (chomp s')
  end.

(** Applies [f] to every element but the last. *)
Fixpoint map_init {A} (f : A -> A) (l : list A) : list A :=
  match l with
  | [] => []
  | [x] => [x]
  | x :: l' => f x :: map_init f l'
  end.

(** [s.split(/\r?\n/)] *)
Definition split_lines (s : string) : list string := map_init chomp (split_on LF s).

(** [s.split(c)[0]] *)
Fixpoint before_char (c : ascii) (s : string) : string :=
  match s with
  | EmptyString => ""
  | String a s' => if Ascii.eqb a c then "" else String a (before_char c s')
  end.

(** ** Case and blanks *)
Definition upper_char (a : ascii) : ascii :=
  let n := nat_of_ascii a in
  if ((97 <=? n) && (n <=? 122))%nat then ascii_of_nat (n - 32) else a.
Definition lower_char (a : ascii) : ascii :=
  let n := nat_of_ascii a in
  if ((65 <=? n) && (n <=? 90))%nat then ascii_of_nat (n + 32) else a.

Fixpoint smap (f : ascii -> ascii) (s : string) : string :=
  match s with
  | EmptyString => ""
  | String a s' => String (f a) (smap f s')
  end.

(** [s.toUpperCase()] and [s.toLowerCase()] *)
Definition to_upper (s : string) : string := smap upper_char s.
Definition to_lower (s : string) : string := smap lower_char s.

(** [s.charAt(0).toUpperCase() + s.slice(1)] *)
Definition capitalise (s : string) : string :=
  match s with
  | EmptyString => ""
  | String a s' => String (upper_char a) s'
  end.

(** The blanks [trim] removes. *)
Definition is_blank (a : ascii) : bool :=
  let n := nat_of_ascii a in
  ((9 <=? n) && (n <=? 13) || (n =? 32))%nat.

Fixpoint trim_start (s : string) : string :=
  match s with
  | EmptyString => ""
  | String a s' => if is_blank a then trim_start s' else s
  end.

Fixpoint all_blank (s : string) : bool :=
  match s with
  | EmptyString => true
  | String a s' => is_blank a && all_blank s'
  end.

Fixpoint trim_end (s : string) : string :=
  match s with
  | EmptyString => ""
  | String a s' => if all_blank s then "" else String a (trim_end s')
  end.

(** [s.length], in UTF-16 units, of a UTF-8 text *)
Fixpoint utf16_length (s : string) : Z :=
  match s with
  | EmptyString => 0
  | String a s' =>
      let n := nat_of_ascii a in
      (if Nat.ltb n 128 then 1 else if Nat.ltb n 192 then 0 else if Nat.ltb n 240 then 1 else 2)
      + utf16_length s'
  end.

(** [s.substring(0, n)], in whole characters *)
Fixpoint utf16_take (n : Z) (s : string) : string :=
  match s with
  | EmptyString => EmptyString
  | String a s' =>
      let c := nat_of_ascii a in
      let size := if Nat.ltb c 128 then 1 else if Nat.ltb c 192 then 0
                  else if Nat.ltb c 240 then 1 else 2 in
      if n <? size then EmptyString
      else if (n =? 0) && negb (size =? 0) then EmptyString
      else String a (utf16_take (n - size) s')
  end.

(** [s.trim()] *)
Definition trim (s : string) : string := trim_start (trim_end s).

(** Every character of the string satisfies [f]. *)
Fixpoint sforall (f : ascii -> bool) (s : string) : bool :=
  match s with
  | EmptyString => true
  | String a s' => f a && sforall f s'
  end.

(** ** Numbers read from text

    [Number(s)] for the texts that are not a finite number gives [NaN] (or an
    infinity, which every use in the source treats alike); an element read
    past the end of an array is [undefined]. *)
Inductive jsnum := NUndef | NNaN | NFin (q : Q).

Definition digit_val (a : ascii) : option Z :=
  let n := nat_of_ascii a in
  if ((48 <=? n) && (n <=? 57))%nat then Some (Z.of_nat n - 48) else None.

(** Reads digits; the accumulated value, the number of digits and the rest. *)
Fixpoint read_digits (s : string) (acc : Z) (k : nat) : Z * nat * string :=
  match s with
  | EmptyString => (acc, k, "")
  | String a s' => match digit_val a with
                   | Some d => read_digits s' (acc * 10 + d) (S k)
                   | None => (acc, k, s)
                   end
  end.

(** An optional exponent after a mantissa [m] over [10^k]. *)
Definition read_exponent (m : Z) (k : nat) (s : string) : jsnum :=
  let scaled (e : Z) :=
    let e' := e - Z.of_nat k in
    NFin (Qred (if e' <? 0 then Qmake m (Z.to_pos (10 ^ (- e')))
                else inject_Z (m * 10 ^ e'))) in
  let finish (sign : Z) (r : string) :=
    let '(e, n, r') := read_digits r 0 0 in
    if (n =? 0)%nat || negb (String.eqb r' "") then NNaN else scaled (sign * e) in
  match s with
  | EmptyString => scaled 0
  | String a r =>
      if Ascii.eqb a "e"%char || Ascii.eqb a "E"%char then
        match r with
        | String b r' =>
            if Ascii.eqb b "-"%char then finish (-1) r'
            else if Ascii.eqb b "+"%char then finish 1 r'
            else finish 1 r
        | EmptyString => NNaN
        end
      else NNaN
  end.

(** Decimal literals: digits, an optional fraction, an optional exponent. *)
Definition read_decimal (s : string) : jsnum :=
  let '(i, k, r) := read_digits s 0 0 in
  match r with
  | String "."%char r' =>
      let '(f, kf, r'') := read_digits r' i 0 in
      if (k + kf =? 0)%nat then NNaN else read_exponent f kf r''
  | _ => if (k =? 0)%nat then NNaN else read_exponent i 0 r
  end.

Definition radix_val (base : Z) (a : ascii) : option Z :=
  let n := Z.of_nat (nat_of_ascii (lower_char a)) in
  let d := if (48 <=? n) && (n <=? 57) then n - 48
           else if (97 <=? n) && (n <=? 102) then n - 87 else 99 in
  if d <? base then Some d else None.

(** The digits after a [0x], [0o] or [0b] prefix. *)
Fixpoint read_radix (base : Z) (s : string) (acc : Z) (k : nat) : jsnum :=
  match s with
  | EmptyString => if (k =? 0)%nat then NNaN else NFin (inject_Z acc)
  | String a s' => match radix_val base a with
                   | Some d => read_radix base s' (acc * base + d) (S k)
                   | None => NNaN
                   end
  end.

(** [Number(s)] *)
Definition js_number (s : string) : jsnum :=
  match trim s with
  | EmptyString => NFin 0
  | String "0"%char (String "x"%char r) | String "0"%char (String "X"%char r) =>
      read_radix 16 r 0 0
  | String "0"%char (String "o"%char r) | String "0"%char (String "O"%char r) =>
      read_radix 8 r 0 0
  | String "0"%char (String "b"%char r) | String "0"%char (String "B"%char r) =>
      read_radix 2 r 0 0
  | String "-"%char r =>
      match read_decimal r with NFin q => NFin (- q) | n => n end
  | String "+"%char r => read_decimal r
  | r => read_decimal r
  end.

(** Element [i] of an array of numbers, [undefined] out of range. *)
Definition num_at (l : list jsnum) (i : nat) : jsnum :=
  match l !! i with Some n => n | None => NUndef end.

(** ** Lemmas *)
Lemma str_cons_app a s t : String a s +:+ t = String a (s +:+ t).
Proof. reflexivity. Qed.

Lemma str_nil_app s : "" +:+ s = s.
Proof. reflexivity. Qed.

Lemma str_app_nil_r s : s +:+ "" = s.
Proof. induction s as [|a s IH]; [done|]. by rewrite str_cons_app, IH. Qed.

Lemma str_app_assoc s1 s2 s3 : s1 +:+ (s2 +:+ s3) = (s1 +:+ s2) +:+ s3.
Proof. induction s1 as [|a s IH]; [done|]. by rewrite !str_cons_app, IH. Qed.

Lemma str_length_app s1 s2 :
  String.length (s1 +:+ s2) = (String.length s1 + String.length s2)%nat.
Proof. induction s1 as [|a s IH]; [done|]. rewrite str_cons_app. cbn. by rewrite IH. Qed.

Lemma starts_with_nil s : starts_with "" s = true.
Proof. by destruct s. Qed.

Lemma starts_with_app p s : starts_with p (p +:+ s) = true.
Proof.
  unfold starts_with. induction p as [|a p IH]; [by destruct s|].
  rewrite str_cons_app. cbn. by rewrite IH; destruct (ascii_dec a a).
Qed.

Lemma starts_with_inv p s : starts_with p s = true -> exists r, s = p +:+ r.
Proof.
  unfold starts_with. revert s. induction p as [|a p IH]; intros [|b s]; cbn; try done.
  - by exists "".
  - by exists (String b s).
  - destruct (ascii_dec a b) as [->|]; [|done].
    intros [r ->]%IH. by exists r.
Qed.

Lemma slice_from_app p s : slice_from (String.length p) (p +:+ s) = s.
Proof. by induction p. Qed.

Lemma includes_app_r p s1 s2 : includes p s2 = true -> includes p (s1 +:+ s2) = true.
Proof.
  induction s1 as [|a s1 IH]; [done|]. intros H. rewrite str_cons_app. cbn [includes].
  rewrite IH by done. apply orb_true_r.
Qed.

Lemma includes_prefix p s : includes p (p +:+ s) = true.
Proof.
  destruct p as [|a p]; [by destruct s|].
  change (starts_with (String a p) (String a p +:+ s) || includes (String a p) (p +:+ s) = true).
  by rewrite starts_with_app.
Qed.

Lemma has_char_app c s1 s2 : has_char c (s1 +:+ s2) = has_char c s1 || has_char c s2.
Proof. induction s1 as [|a s IH]; [done|]. rewrite str_cons_app. cbn. by rewrite IH, orb_assoc. Qed.

Lemma split_on_nonempty c s : split_on c s <> [].
Proof.
  destruct s as [|a s]; cbn; [done|]. destruct (Ascii.eqb a c); [done|].
  by destruct (split_on c s).
Qed.

Lemma split_on_no_char c s : has_char c s = false -> split_on c s = [s].
Proof.
  induction s as [|a s IH]; [done|]. cbn. intros [H1 H2]%orb_false_iff.
  by rewrite H1, IH.
Qed.

Lemma split_on_app c p s :
  has_char c p = false -> split_on c (p +:+ String c s) = p :: split_on c s.
Proof.
  induction p as [|a p IH].
  - intros _. change (split_on c (String c s) = "" :: split_on c s). cbn.
    by rewrite Ascii.eqb_refl.
  - rewrite str_cons_app. cbn. intros [H1 H2]%orb_false_iff. rewrite H1. by rewrite (IH H2).
Qed.

(** [l.join(c).split(c)] gives [l] back when no part holds [c]. *)
Lemma split_join c l :
  l <> [] -> Forall (fun p => has_char c p = false) l ->
  split_on c (join_with c l) = l.
Proof.
  intros Hne HF. induction HF as [|p l Hp HF IH]; [done|].
  destruct l as [|q l].
  - by apply split_on_no_char.
  - change (join_with c (p :: q :: l)) with (p +:+ String c (join_with c (q :: l))).
    rewrite split_on_app by done. by rewrite IH.
Qed.

(** [s.split(c).join(c)] is [s]. *)
Lemma join_split c s : join_with c (split_on c s) = s.
Proof.
  induction s as [|a s IH]; [done|]. cbn [split_on].
  destruct (Ascii.eqb_spec a c) as [->|Hne].
  - destruct (split_on c s) as [|p ps] eqn:E; [by apply split_on_nonempty in E|].
    change (String c (join_with c (p :: ps)) = String c s). by rewrite IH.
  - destruct (split_on c s) as [|p ps] eqn:E; [by apply split_on_nonempty in E|].
    rewrite <- IH. by destruct ps.
Qed.

Lemma split_on_parts c s : Forall (fun p => has_char c p = false) (split_on c s).
Proof.
  induction s as [|a s IH]; cbn; [by constructor|].
  destruct (Ascii.eqb_spec a c) as [->|Hne]; [by constructor|].
  inversion IH as [|p ps Hp Hps Heq]; cbn.
  - constructor; [|done]. cbn. by apply Ascii.eqb_neq in Hne as ->.
  - constructor; [|done]. cbn. apply Ascii.eqb_neq in Hne as ->. done.
Qed.

Lemma before_char_none c s : has_char c s = false -> before_char c s = s.
Proof.
  induction s as [|a s IH]; [done|]. cbn. intros [H1 H2]%orb_false_iff.
  by rewrite H1, IH.
Qed.

Lemma sforall_app f s1 s2 : sforall f (s1 +:+ s2) = sforall f s1 && sforall f s2.
Proof. induction s1 as [|a s IH]; [done|]. rewrite str_cons_app. cbn. by rewrite IH, andb_assoc. Qed.

Lemma sforall_has_char f c s : sforall f s = true -> f c = false -> has_char c s = false.
Proof.
  intros H Hc. induction s as [|a s IH]; [done|]. cbn in *.
  apply andb_true_iff in H as [Ha Hs]. rewrite (IH Hs), orb_false_r.
  apply Ascii.eqb_neq. intros ->. congruence.
Qed.

Lemma sforall_impl (f g : ascii -> bool) s :
  (forall a, f a = true -> g a = true) -> sforall f s = true -> sforall g s = true.
Proof.
  intros Hfg. induction s as [|a s IH]; [done|]. cbn.
  intros [Ha Hs]%andb_true_iff. by rewrite (Hfg _ Ha), (IH Hs).
Qed.

Lemma string_eqb_refl s : String.eqb s s = true.
Proof. apply String.eqb_refl. Qed.

#[export] Hint Rewrite str_app_nil_r string_eqb_refl Ascii.eqb_refl : js_rw.
#[export] Hint Resolve starts_with_app includes_prefix includes_app_r split_on_nonempty : js.
