(* ===== verification/JsValue.v ===== *)
(** * JavaScript values

    The dynamically typed values the source passes around: configuration
    objects, prayer-time maps, metadata sidecars, request bodies.  An object is
    the list of its own properties in insertion order, which is what
    [Object.entries], [for ... in], spreads and [JSON.stringify] follow (no
    key of the source is an array index).  Numbers are rationals: every finite
    double is one, and the source's comparisons and clamps are exact. *)
From S2P Require Import Prelude JsString.

Unset Elimination Schemes.
Inductive val :=
| VUndef
| VNull
| VBool (b : bool)
| VNum (q : Q)
| VStr (s : string)
| VArr (l : list val)
| VObj (o : list (string * val)).
Set Elimination Schemes.

(** Induction through arrays and objects. *)
Definition val_ind (P : val -> Prop)
    (Hundef : P VUndef) (Hnull : P VNull) (Hbool : forall b, P (VBool b))
    (Hnum : forall q, P (VNum q)) (Hstr : forall s, P (VStr s))
    (Harr : forall l, Forall P l -> P (VArr l))
    (Hobj : forall o, Forall (fun kv => P kv.2) o -> P (VObj o)) : forall v, P v :=
  fix F v := match v with
  | VUndef => Hundef | VNull => Hnull | VBool b => Hbool b
  | VNum q => Hnum q | VStr s => Hstr s
  | VArr l => Harr l ((fix G l := match l return Forall P l with
      | [] => Forall_nil_2 P
      | x :: l' => Forall_cons_2 P x l' (F x) (G l') end) l)
  | VObj o => Hobj o ((fix G o := match o return Forall (fun kv => P kv.2) o with
      | [] => Forall_nil_2 _
      | kv :: o' => Forall_cons_2 (fun kv => P kv.2) kv o' (F kv.2) (G o') end) o)
  end.

Definition VInt (z : Z) : val := VNum (inject_Z z).

#[export] Instance Q_eq_dec : EqDecision Q.
Proof. solve_decision. Defined.

Fixpoint val_eqb (a b : val) : bool :=
  match a, b with
  | VUndef, VUndef | VNull, VNull => true
  | VBool x, VBool y => Bool.eqb x y
  | VNum x, VNum y => bool_decide (x = y)
  | VStr x, VStr y => String.eqb x y
  | VArr l, VArr l' =>
      (fix go l l' := match l, l' with
       | [], [] => true
       | x :: l, y :: l' => val_eqb x y && go l l'
       | _, _ => false end) l l'
  | VObj o, VObj o' =>
      (fix go o o' := match o, o' with
       | [], [] => true
       | (k, x) :: o, (k', y) :: o' => String.eqb k k' && val_eqb x y && go o o'
       | _, _ => false end) o o'
  | _, _ => false
  end.

(** ** Property lists *)

(** [o[k]], [undefined] when absent. *)
Fixpoint oget (k : string) (o : list (string * val)) : val :=
  match o with
  | [] => VUndef
  | (k', v) :: o' => if String.eqb k k' then v else oget k o'
  end.

(** [k in o] for own properties *)
Fixpoint ohas (k : string) (o : list (string * val)) : bool :=
  match o with
  | [] => false
  | (k', _) :: o' => String.eqb k k' || ohas k o'
  end.

(** [o[k] = v]: in place when the key exists, appended otherwise. *)
Fixpoint oset (k : string) (v : val) (o : list (string * val)) : list (string * val) :=
  match o with
  | [] => [(k, v)]
  | (k', v') :: o' => if String.eqb k k' then (k, v) :: o' else (k', v') :: oset k v o'
  end.

(** [delete o[k]] *)
Fixpoint odel (k : string) (o : list (string * val)) : list (string * val) :=
  match o with
  | [] => []
  | (k', v') :: o' => if String.eqb k k' then odel k o' else (k', v') :: odel k o'
  end.

(** [{...a, ...b}] *)
Definition ospread (a b : list (string * val)) : list (string * val) :=
  foldl (fun acc kv => oset kv.1 kv.2 acc) a b.

(** [Object.keys] *)
Definition okeys (o : list (string * val)) : list string := o.*1.

(** ** Values *)

(** The own properties of a value, as a spread or [Object.entries] sees them. *)
Definition props (v : val) : list (string * val) :=
  match v with VObj o => o | _ => [] end.

(** [v?.k]: [undefined] on [null], [undefined] and primitives. *)
Definition prop (v : val) (k : string) : val :=
  match v with
  | VObj o => oget k o
  | _ => VUndef
  end.

(** [v.k]: a [TypeError] on [null] and [undefined]. *)
Definition get (v : val) (k : string) : result val :=
  match v with
  | VUndef => Throw (TypeError ("Cannot read properties of undefined (reading " +:+ k +:+ ")"))
  | VNull => Throw (TypeError ("Cannot read properties of null (reading " +:+ k +:+ ")"))
  | _ => Ok (prop v k)
  end.

(** [v.k = x] on an object; other values keep no property. *)
Definition setp (v : val) (k : string) (x : val) : val :=
  match v with VObj o => VObj (oset k x o) | _ => v end.

Definition delp (v : val) (k : string) : val :=
  match v with VObj o => VObj (odel k o) | _ => v end.

(** [v.k = x] in strict mode: a [TypeError] on [null], [undefined] and
    primitives; a name given to an array is not part of its JSON. *)
Definition put (v : val) (k : string) (x : val) : result val :=
  match v with
  | VObj o => Ok (VObj (oset k x o))
  | VArr _ => Ok v
  | _ => Throw (TypeError ("Cannot set properties of a primitive (setting " +:+ k +:+ ")"))
  end.

(** Assignment inside [v.k]: [f] is what happens to [v.k]. *)
Definition put_in (v : val) (k : string) (f : val -> result val) : result val :=
  x ← get v k; x' ← f x; put v k x'.

(** [{...v}] of an object; the index keys of an array or a text are left out. *)
Definition spread (v : val) : val := VObj (props v).

(** ToBoolean *)
Definition truthy (v : val) : bool :=
  match v with
  | VUndef | VNull => false
  | VBool b => b
  | VNum q => negb (Qeq_bool q 0)
  | VStr s => negb (String.eqb s "")
  | VArr _ | VObj _ => true
  end.

(** [a || b] *)
Definition js_or (a b : val) : val := if truthy a then a else b.

(** [if (!v.k) v.k = d] *)
Definition ensure (k : string) (d v : val) : result val :=
  x ← get v k; if truthy x then Ok v else put v k d.

(** [a === b] between primitives; two objects are never the same object here. *)
Definition seq (a b : val) : bool :=
  match a, b with
  | VUndef, VUndef | VNull, VNull => true
  | VBool x, VBool y => Bool.eqb x y
  | VNum x, VNum y => Qeq_bool x y
  | VStr x, VStr y => String.eqb x y
  | _, _ => false
  end.

Definition is_undef (v : val) : bool := match v with VUndef => true | _ => false end.
Definition is_nullish (v : val) : bool :=
  match v with VUndef | VNull => true | _ => false end.
(** [typeof v === "object" && v !== null] *)
Definition is_object (v : val) : bool :=
  match v with VArr _ | VObj _ => true | _ => false end.
Definition is_array (v : val) : bool := match v with VArr _ => true | _ => false end.
Definition is_string (v : val) : bool := match v with VStr _ => true | _ => false end.
Definition is_number (v : val) : bool := match v with VNum _ => true | _ => false end.
Definition is_bool (v : val) : bool := match v with VBool _ => true | _ => false end.

(** Text of a value known to be a string. *)
Definition str_of (v : val) : string := match v with VStr s => s | _ => "" end.
(** Elements of a value known to be an array. *)
Definition arr_of (v : val) : list val := match v with VArr l => l | _ => [] end.
(** A number, with [0] for anything that is not one. *)
Definition num_of (v : val) : Q := match v with VNum q => q | _ => 0 end.

(** ToNumber.  An array or a plain object is not converted by the source. *)
Definition to_number (v : val) : jsnum :=
  match v with
  | VNum q => NFin q
  | VStr s => js_number s
  | VNull => NFin 0
  | VBool b => NFin (if b then 1 else 0)
  | _ => NNaN
  end.

(** The decimal text of a number.  Numbers come from JSON and from integer
    arithmetic, so their expansions are finite and at most 17 digits long. *)
Definition show_Z (z : Z) : string := pretty z.

Fixpoint frac_digits (fuel : nat) (num den : Z) : string :=
  match fuel with
  | O => ""
  | S fuel' => if num =? 0 then ""
               else show_Z (num * 10 / den) +:+ frac_digits fuel' (num * 10 mod den) den
  end.

Definition show_Q (q : Q) : string :=
  let n := Z.abs (Qnum q) in let d := Z.pos (Qden q) in
  let body := show_Z (n / d) +:+
              (if n mod d =? 0 then "" else "." +:+ frac_digits 20 (n mod d) d) in
  if Qnum q <? 0 then "-" +:+ body else body.

(** The text of a value inside a template literal. *)
Definition show (v : val) : string :=
  match v with
  | VUndef => "undefined"
  | VNull => "null"
  | VBool true => "true"
  | VBool false => "false"
  | VNum q => show_Q q
  | VStr s => s
  | VArr _ => ""
  | VObj _ => "[object Object]"
  end.

(** Element of an array by position. *)
Definition arr_at (l : list val) (i : nat) : val :=
  match l !! i with Some v => v | None => VUndef end.

(** ** [JSON.parse(JSON.stringify(v))]

    Undefined properties are dropped, undefined elements become [null]. *)
Fixpoint json_clone (v : val) : val :=
  match v with
  | VNum q => VNum (Qred q)
  | VArr l =>
      VArr ((fix go l := match l with
             | [] => []
             | x :: l' => match x with VUndef => VNull | _ => json_clone x end :: go l'
             end) l)
  | VObj o =>
      VObj ((fix go o := match o with
             | [] => []
             | (k, x) :: o' => match x with VUndef => go o' | _ => (k, json_clone x) :: go o' end
             end) o)
  | _ => v
  end.

(** ** [JSON.stringify(v)], the text *)
Definition hex_digit (n : nat) : string := String.substring n 1 "0123456789abcdef".
Definition quote_char (c : ascii) : string :=
  let n := nat_of_ascii c in
  if Ascii.eqb c "034" || Ascii.eqb c "\" then String "\" (String c "")
  else if Nat.eqb n 8 then "\b" else if Nat.eqb n 9 then "\t" else if Nat.eqb n 10 then "\n"
  else if Nat.eqb n 12 then "\f" else if Nat.eqb n 13 then "\r"
  else if Nat.ltb n 32 then "\u00" +:+ hex_digit (n / 16) +:+ hex_digit (n mod 16)
  else String c "".
Fixpoint quote_chars (s : string) : string :=
  match s with "" => "" | String c s => quote_char c +:+ quote_chars s end.
Definition json_quote (s : string) : string := String "034" (quote_chars s +:+ String "034" "").

(** The text of a value other than [undefined] *)
Fixpoint stringified (v : val) : string :=
  match v with
  | VStr s => json_quote s
  | VArr l => "[" +:+ join "," (stringified <$> l) +:+ "]"
  | VObj o =>
      "{" +:+ join "," (omap (fun kx => match kx.2 with VUndef => None | _ => Some (json_quote kx.1 +:+ ":" +:+ stringified kx.2) end) o) +:+ "}"
  | VUndef => "null"
  | v => show v
  end.

(** [JSON.stringify(a) === JSON.stringify(b)]: the texts agree exactly when
    the serialised trees do, key order included. *)
Definition stringify_eqb (a b : val) : bool := val_eqb (json_clone a) (json_clone b).

(** ** Lemmas on property lists *)
Lemma oget_oset k v o : oget k (oset k v o) = v.
Proof.
  induction o as [|[k' v'] o IH]; cbn; [by rewrite String.eqb_refl|].
  destruct (String.eqb k k') eqn:E; cbn; [by rewrite String.eqb_refl|]. by rewrite E.
Qed.

Lemma oget_oset_ne k k' v o : k <> k' -> oget k (oset k' v o) = oget k o.
Proof.
  intros Hne%String.eqb_neq. induction o as [|[k2 v2] o IH]; cbn; [by rewrite Hne|].
  destruct (String.eqb k' k2) eqn:E; cbn.
  - apply String.eqb_eq in E as ->. by rewrite Hne.
  - by destruct (String.eqb k k2).
Qed.

Lemma oget_odel k o : oget k (odel k o) = VUndef.
Proof.
  induction o as [|[k' v'] o IH]; cbn; [done|].
  destruct (String.eqb k k') eqn:E; cbn; [done|]. by rewrite E.
Qed.

Lemma oget_odel_ne k k' o : k <> k' -> oget k (odel k' o) = oget k o.
Proof.
  intros Hne. induction o as [|[k2 v2] o IH]; cbn; [done|].
  destruct (String.eqb_spec k' k2) as [->|]; cbn.
  - apply String.eqb_neq in Hne. by rewrite Hne.
  - by destruct (String.eqb k k2).
Qed.

Lemma ohas_false_oget k o : ohas k o = false -> oget k o = VUndef.
Proof.
  induction o as [|[k' v] o IH]; cbn; [done|].
  intros [-> H]%orb_false_iff. by apply IH.
Qed.

Lemma ohas_oset k k' v o : ohas k (oset k' v o) = String.eqb k k' || ohas k o.
Proof.
  induction o as [|[k2 v2] o IH]; cbn; [done|].
  destruct (String.eqb_spec k' k2) as [->|]; cbn.
  - by destruct (String.eqb k k2).
  - rewrite IH. by destruct (String.eqb k k2), (String.eqb k k').
Qed.

Lemma ohas_okeys k o : ohas k o = true <-> k ∈ okeys o.
Proof.
  induction o as [|[k' v] o IH]; cbn; [split; [done|by intros ?%not_elem_of_nil]|].
  rewrite elem_of_cons, <- IH.
  destruct (String.eqb_spec k k') as [->|]; cbn; naive_solver.
Qed.

(** What a spread reads: the last of the overriding values. *)
Lemma oget_ospread k a b :
  NoDup (okeys b) -> oget k (ospread a b) = if ohas k b then oget k b else oget k a.
Proof.
  revert a. induction b as [|[k' v] b IH]; intros a; [done|]. cbn.
  intros [Hni Hnd]%NoDup_cons. rewrite IH by done.
  destruct (String.eqb_spec k k') as [->|Hne]; cbn.
  - destruct (ohas k' b) eqn:E; [by apply ohas_okeys in E|]. apply oget_oset.
  - destruct (ohas k b); [done|]. by apply oget_oset_ne.
Qed.

(** [{...b}] *)
Lemma oget_ospread_nil k b : NoDup (okeys b) -> oget k (ospread [] b) = oget k b.
Proof.
  intros H. rewrite oget_ospread by done. destruct (ohas k b) eqn:E; [done|].
  symmetry. by apply ohas_false_oget.
Qed.

Lemma oget_ospread_not k a b : ohas k b = false -> oget k (ospread a b) = oget k a.
Proof.
  revert a. induction b as [|[k' v] b IH]; intros a; [done|]. cbn.
  intros [Hne Hb]%orb_false_iff. rewrite IH by done.
  apply oget_oset_ne. by apply String.eqb_neq.
Qed.

Lemma ohas_ospread k a b : ohas k (ospread a b) = ohas k b || ohas k a.
Proof.
  revert a. induction b as [|[k' v] b IH]; intros a; [done|].
  cbn. rewrite IH, ohas_oset. destruct (String.eqb k k'), (ohas k b), (ohas k a); done.
Qed.

Lemma okeys_oset k v o : k ∈ okeys o -> okeys (oset k v o) = okeys o.
Proof.
  induction o as [|[k' v'] o IH]; [by intros ?%not_elem_of_nil|].
  cbn. destruct (String.eqb_spec k k') as [->|Hne]; cbn; [done|].
  intros [?|H]%elem_of_cons; [done|]. f_equal. by apply IH.
Qed.

Lemma okeys_oset_new k v o : k ∉ okeys o -> okeys (oset k v o) = okeys o ++ [k].
Proof.
  induction o as [|[k' v'] o IH]; [done|]. cbn.
  intros [Hne Hni]%not_elem_of_cons. apply String.eqb_neq in Hne as ->.
  cbn. f_equal. by apply IH.
Qed.

Lemma NoDup_oset k v o : NoDup (okeys o) -> NoDup (okeys (oset k v o)).
Proof.
  intros H. destruct (decide (k ∈ okeys o)) as [Hin|Hin].
  - by rewrite okeys_oset.
  - rewrite okeys_oset_new by done. apply NoDup_app. split; [done|]. split.
    + intros x Hx ?%list_elem_of_singleton. by subst.
    + apply NoDup_singleton.
Qed.

Lemma NoDup_ospread a b : NoDup (okeys a) -> NoDup (okeys (ospread a b)).
Proof.
  revert a. induction b as [|[k v] b IH]; intros a H; [done|].
  cbn. apply IH. by apply NoDup_oset.
Qed.

Lemma okeys_odel k o x : x ∈ okeys (odel k o) <-> x ∈ okeys o /\ x <> k.
Proof.
  rewrite <- !ohas_okeys. induction o as [|[k' v] o IH]; cbn; [naive_solver|].
  destruct (String.eqb_spec k k') as [->|Hne]; cbn.
  - rewrite IH. destruct (String.eqb_spec x k') as [->|]; cbn; naive_solver.
  - destruct (String.eqb_spec x k') as [->|]; cbn; naive_solver.
Qed.

Lemma NoDup_odel k o : NoDup (okeys o) -> NoDup (okeys (odel k o)).
Proof.
  induction o as [|[k' v] o IH]; [done|]. cbn. intros [Hni Hnd]%NoDup_cons.
  destruct (String.eqb k k') eqn:E; cbn; [auto|].
  apply NoDup_cons. split; [|auto]. by rewrite okeys_odel; intros [??].
Qed.

(** ** Lemmas on values *)
Lemma prop_setp v k x : is_object v = true -> is_array v = false -> prop (setp v k x) k = x.
Proof. destruct v; try done. intros _ _. apply oget_oset. Qed.

Lemma prop_setp_ne v k k' x : k <> k' -> prop (setp v k' x) k = prop v k.
Proof. destruct v; try done. intros. by apply oget_oset_ne. Qed.

Lemma prop_delp v k : prop (delp v k) k = VUndef.
Proof. destruct v; try done. apply oget_odel. Qed.

Lemma prop_delp_ne v k k' : k <> k' -> prop (delp v k') k = prop v k.
Proof. destruct v; try done. intros. by apply oget_odel_ne. Qed.

Lemma got_prop v k x : get v k = Ok x -> x = prop v k.
Proof. destruct v; cbn; congruence. Qed.

Lemma get_ok v k : is_nullish v = false -> get v k = Ok (prop v k).
Proof. by destruct v. Qed.

Lemma truthy_js_or a b : truthy (js_or a b) = truthy a || truthy b.
Proof. unfold js_or. by destruct (truthy a) eqn:E; [rewrite E|]. Qed.

Lemma truthy_not_nullish v : truthy v = true -> is_nullish v = false.
Proof. by destruct v. Qed.

Lemma oget_ohas k o : oget k o <> VUndef -> ohas k o = true.
Proof.
  intros H. destruct (ohas k o) eqn:E; [done|]. by apply ohas_false_oget in E.
Qed.

Lemma truthy_str s : s <> "" -> truthy (VStr s) = true.
Proof. intros H. cbn. by apply String.eqb_neq in H as ->. Qed.

Lemma truthy_ohas v k : truthy (prop v k) = true -> ohas k (props v) = true.
Proof. destruct v; try done. cbn. intros H. apply oget_ohas. by intros E; rewrite E in H. Qed.

Lemma truthy_json_clone v : truthy (json_clone v) = truthy v.
Proof.
  destruct v; try done. cbn. f_equal. apply eq_iff_eq_true. rewrite !Qeq_bool_iff.
  by rewrite Qred_correct.
Qed.

(** A clone keeps the properties that are not [undefined]. *)
Lemma prop_json_clone v k : prop v k <> VUndef -> prop (json_clone v) k = json_clone (prop v k).
Proof.
  destruct v as [| | | | | |o]; try done. cbn. induction o as [|[k' x] o IH]; [done|]. cbn.
  destruct (String.eqb k k') eqn:E.
  - intros Hx. destruct x; cbn; rewrite ?E; done.
  - intros Hx. destruct x; cbn; rewrite ?E; by apply IH.
Qed.

Lemma js_or_truthy a b : truthy a = true -> js_or a b = a.
Proof. unfold js_or. by intros ->. Qed.

(** [(v || {})[k]] *)
Lemma prop_or_empty v k : oget k (props (js_or v (VObj []))) = prop v k.
Proof. unfold js_or. destruct v; cbn; try done; by case_match. Qed.

Lemma val_eqb_eq a : forall b, val_eqb a b = true <-> a = b.
Proof.
  induction a as [| |x|q|s|l IH|o IH] using val_ind; intros [| |y|q'|s'|l'|o'];
    cbn; try (split; [done|discriminate]); try done.
  - rewrite eqb_true_iff. naive_solver.
  - rewrite bool_decide_eq_true. naive_solver.
  - rewrite String.eqb_eq. naive_solver.
  - revert l'. induction IH as [|x l Hx Hl IH']; intros [|y l']; try (split; [done|discriminate]); try done.
    rewrite andb_true_iff, Hx, IH'. naive_solver.
  - revert o'. induction IH as [|[k x] o Hx Ho IH']; intros [|[k' y] o'];
      try (split; [done|discriminate]); try done.
    rewrite !andb_true_iff, Hx, IH', String.eqb_eq. cbn. naive_solver.
Qed.

#[export] Instance val_eq_dec : EqDecision val.
Proof.
  intros a b. destruct (val_eqb a b) eqn:E; [left|right].
  - by apply val_eqb_eq.
  - intros H%val_eqb_eq. congruence.
Defined.

(** Cloning is idempotent: a parsed JSON tree serialises to itself. *)
Lemma json_clone_idem v : json_clone (json_clone v) = json_clone v.
Proof.
  induction v as [| |x|q|s|l IH|o IH] using val_ind; cbn; try done.
  - f_equal. apply Qred_complete, Qred_correct.
  - f_equal. induction IH as [|x l Hx Hl IH']; [done|]. rewrite IH'. f_equal.
    destruct x; cbn in *; congruence.
  - f_equal. induction IH as [|[k x] o Hx Ho IH']; [done|].
    destruct x; cbn in *; try (rewrite IH'; congruence); done.
Qed.

#[export] Hint Rewrite oget_oset oget_odel prop_delp : js_rw.
#[export] Hint Resolve NoDup_oset NoDup_odel NoDup_ospread truthy_not_nullish : js.

(** ** Membership of a list of values *)

(** [l.includes(key)] *)
Definition array_includes (key : val) (l : list val) : bool := existsb (fun k => seq k key) l.

(** [l.includes(key) ? l.filter((k) => k !== key) : [...l, key]] *)
Definition flip_in (key : val) (l : list val) : list val :=
  if array_includes key l then List.filter (fun k => negb (seq k key)) l else l ++ [key].

Lemma includes_cons key x l : array_includes key (x :: l) = seq x key || array_includes key l.
Proof. done. Qed.

Lemma seq_text x key : seq x (VStr key) = true -> x = VStr key.
Proof. destruct x; try done. cbn. by intros ->%String.eqb_eq. Qed.

Lemma filter_other key other l :
  key <> other -> array_includes (VStr other) (List.filter (fun k => negb (seq k (VStr key))) l) = array_includes (VStr other) l.
Proof.
  intros Hne. induction l as [|x l IH]; [done|]. cbn [List.filter]. rewrite includes_cons.
  destruct (seq x (VStr key)) eqn:E; cbn [negb]; [|by rewrite includes_cons, IH].
  apply seq_text in E as ->. rewrite IH. cbn. by rewrite (proj2 (String.eqb_neq key other) Hne).
Qed.

Lemma filter_self key l : array_includes (VStr key) (List.filter (fun k => negb (seq k (VStr key))) l) = false.
Proof.
  induction l as [|x l IH]; [done|]. cbn [List.filter]. destruct (seq x (VStr key)) eqn:E; cbn [negb]; [done|].
  by rewrite includes_cons, E, IH.
Qed.

Lemma includes_app key l x : array_includes key (l ++ [x]) = array_includes key l || seq x key.
Proof. unfold array_includes. rewrite existsb_app. cbn. by rewrite orb_false_r. Qed.

(** Flipping a text turns its membership over, and no other text's. *)
Lemma flip_in_includes key other l :
  array_includes (VStr other) (flip_in (VStr key) l) = xorb (String.eqb key other) (array_includes (VStr other) l).
Proof.
  unfold flip_in. destruct (String.eqb_spec key other) as [<-|Hne].
  - destruct (array_includes (VStr key) l) eqn:E; [apply filter_self|].
    rewrite includes_app, E. cbn. apply String.eqb_refl.
  - destruct (array_includes (VStr key) l); [by rewrite filter_other by done; destruct (array_includes _ l)|].
    rewrite includes_app. cbn. rewrite (proj2 (String.eqb_neq key other) Hne), orb_false_r. by destruct (array_includes _ l).
Qed.

(** ** Values as they come from JSON *)
Definition json_like (v : val) : Prop := json_clone v = v.

Definition json_value (v : val) : Prop := v <> VUndef /\ json_like v.
Definition json_entry (kv : string * val) : Prop := json_value kv.2.

Lemma clone_length o o' : json_clone (VObj o) = VObj o' -> (length o' <= length o)%nat.
Proof.
  revert o'. induction o as [|[k x] o IH]; intros o' E; [by injection E as <-|].
  cbn in E. assert (exists o2, json_clone (VObj o) = VObj o2) as [o2 E2] by (cbn; by eexists).
  pose proof (IH o2 E2) as Hl. cbn in E2. injection E2 as E2.
  destruct x; rewrite E2 in E; injection E as <-; cbn; lia.
Qed.

Lemma json_obj o : json_like (VObj o) <-> Forall json_entry o.
Proof.
  unfold json_like. induction o as [|[k x] o IH]; [split; [by constructor|done]|].
  assert (exists o2, json_clone (VObj o) = VObj o2) as [o2 E2] by (cbn; by eexists).
  pose proof (clone_length _ _ E2) as Hl. rewrite Forall_cons, <- IH, E2. unfold json_entry, json_value, json_like. cbn [snd].
  cbn in E2. injection E2 as E2.
  destruct (decide (x = VUndef)) as [->|Hx].
  - cbn. rewrite E2. split; [|by intros [[? _] _]]. intros [= ->]. cbn in Hl. lia.
  - assert (json_clone (VObj ((k, x) :: o)) = VObj ((k, json_clone x) :: o2)) as -> by (cbn; rewrite E2; by destruct x).
    split; [by intros [= H1 ->]|by intros [[_ ->] [= ->]]].
Qed.

Lemma json_prop v k : json_like v -> json_like (prop v k).
Proof.
  intros H. destruct (decide (prop v k = VUndef)) as [E|E]; [by rewrite E|].
  unfold json_like. by rewrite <- prop_json_clone, H.
Qed.

Lemma stringify_same a b : json_like a -> json_like b -> stringify_eqb a b = true <-> a = b.
Proof. unfold stringify_eqb, json_like. intros -> ->. apply val_eqb_eq. Qed.

Lemma json_oset k v o : json_value v -> Forall json_entry o -> Forall json_entry (oset k v o).
Proof.
  intros Hv. induction 1 as [|[k' x] o Hx Ho IH]; cbn; [by constructor|].
  destruct (String.eqb k k'); by constructor.
Qed.

Lemma json_get k o : Forall json_entry o -> json_like (oget k o).
Proof. intros H. apply (json_prop (VObj o) k). by apply json_obj. Qed.

Lemma json_props v : json_like v -> Forall json_entry (props v).
Proof. destruct v; try (by constructor). by rewrite json_obj. Qed.

Lemma json_arr l : json_like (VArr l) -> Forall json_like l.
Proof.
  unfold json_like. induction l as [|x l IH]; intros E; [by constructor|]. cbn in E. injection E as E1 E2.
  constructor; [by destruct x|]. apply IH. cbn. by rewrite E2.
Qed.
