(* ===== verification/NodePath.v ===== *)
(** * Node's [path] module (POSIX)

    [normalize], [relative], [join], [basename], [extname] and [isAbsolute] as
    the runtime's standard library defines them, on the list of segments
    between slashes. *)
From S2P Require Import Prelude JsString.

Definition SLASH : ascii := "/"%char.

(** [path.isAbsolute(p)] *)
Definition is_absolute (p : string) : bool :=
  match p with String a _ => Ascii.eqb a SLASH | EmptyString => false end.

(** One segment of [normalizeString]: [stack] is the output so far, reversed. *)
Definition norm_step (above : bool) (stack : list string) (seg : string) : list string :=
  if String.eqb seg "" || String.eqb seg "." then stack
  else if String.eqb seg ".." then
    match stack with
    | top :: rest => if String.eqb top ".." then (if above then ".." :: stack else stack)
                     else rest
    | [] => if above then [".."] else []
    end
  else seg :: stack.

Definition norm_segs (above : bool) (p : string) : list string :=
  reverse (foldl (norm_step above) [] (split_on SLASH p)).

Definition ends_with_slash (p : string) : bool := ends_with "/" p.

(** [path.normalize(p)] *)
Definition normalize (p : string) : string :=
  if String.eqb p "" then "." else
  let abs := is_absolute p in
  let trail := ends_with_slash p in
  match norm_segs (negb abs) p with
  | [] => if abs then "/" else if trail then "./" else "."
  | segs => let body := join "/" segs +:+ (if trail then "/" else "") in
            if abs then "/" +:+ body else body
  end.

(** The segments of [path.resolve(cwd, p)]. *)
Definition resolve_segs (cwd p : string) : list string :=
  if is_absolute p then norm_segs false p else norm_segs false (cwd +:+ "/" +:+ p).

Definition of_segs (segs : list string) : string := "/" +:+ join "/" segs.

(** [path.resolve(p)] *)
Definition resolve (cwd p : string) : string := of_segs (resolve_segs cwd p).

Fixpoint common_len (a b : list string) : nat :=
  match a, b with
  | x :: a', y :: b' => if String.eqb x y then S (common_len a' b') else 0%nat
  | _, _ => 0%nat
  end.

(** [path.relative(from, to)] *)
Definition relative_segs (from to : list string) : list string :=
  let n := common_len from to in
  replicate (length from - n)%nat ".." ++ drop n to.
Definition relative (cwd from to : string) : string :=
  join "/" (relative_segs (resolve_segs cwd from) (resolve_segs cwd to)).

(** [path.join(a, b)] for non-empty arguments *)
Definition path_join (a b : string) : string := normalize (a +:+ "/" +:+ b).

(** [path.basename(p)] *)
Definition basename (p : string) : string :=
  match filter (fun s => s <> "") (reverse (split_on SLASH p)) with
  | [] => ""
  | s :: _ => s
  end.

(** Position of the last dot. *)
Fixpoint last_dot (s : string) (i : nat) (acc : option nat) : option nat :=
  match s with
  | EmptyString => acc
  | String a s' => last_dot s' (S i) (if Ascii.eqb a "."%char then Some i else acc)
  end.

(** [path.extname(p)] *)
Definition extname (p : string) : string :=
  let b := basename p in
  match last_dot b 0 None with
  | None | Some O => ""
  | Some i => if String.eqb b ".." then "" else slice_from i b
  end.

(** ** Lemmas *)

(** A normal segment: no slash, not empty, not a dot, not a parent. *)
Definition plain_seg (s : string) : Prop :=
  has_char SLASH s = false /\ s <> "" /\ s <> "." /\ s <> "..".

Lemma foldl_norm_plain segs stack :
  Forall plain_seg stack ->
  Forall (fun s => has_char SLASH s = false) segs ->
  Forall plain_seg (foldl (norm_step false) stack segs).
Proof.
  intros Hst HF. revert stack Hst. induction HF as [|s segs Hs HF IH]; intros stack Hst; [done|].
  cbn. apply IH. unfold norm_step.
  destruct (String.eqb_spec s ""), (String.eqb_spec s "."), (String.eqb_spec s "..");
    cbn; try done.
  - destruct stack as [|t st]; [done|].
    inversion Hst; subst. by destruct (String.eqb t "..").
  - constructor; [|done]. by repeat split.
Qed.

(** The segments of an absolute path are plain: no way up is left in it. *)
Lemma norm_segs_plain p : Forall plain_seg (norm_segs false p).
Proof.
  unfold norm_segs. apply Forall_reverse, foldl_norm_plain; [constructor|].
  apply split_on_parts.
Qed.

Lemma foldl_norm_id above segs stack :
  Forall plain_seg segs -> foldl (norm_step above) stack segs = reverse segs ++ stack.
Proof.
  intros HF. revert stack. induction HF as [|s segs (?&?&?&?) HF IH]; intros stack; [done|].
  cbn [foldl]. rewrite IH, reverse_cons, <- app_assoc. f_equal. unfold norm_step.
  by destruct (String.eqb_spec s ""), (String.eqb_spec s "."), (String.eqb_spec s "..").
Qed.

Lemma join_join_with segs : join "/" segs = join_with SLASH segs.
Proof.
  induction segs as [|s segs IH]; [done|]. destruct segs as [|t segs]; [done|].
  change (join "/" (s :: t :: segs)) with (s +:+ "/" +:+ join "/" (t :: segs)).
  rewrite IH. by rewrite str_cons_app.
Qed.

(** Writing plain segments as an absolute path and reading them back. *)
Lemma norm_segs_of_segs segs :
  Forall plain_seg segs -> norm_segs false (of_segs segs) = segs.
Proof.
  intros HF. unfold norm_segs, of_segs. rewrite join_join_with, str_cons_app.
  change (String "/" ("" +:+ join_with SLASH segs)) with ("" +:+ String SLASH (join_with SLASH segs)).
  rewrite split_on_app by done. cbn [foldl].
  destruct segs as [|s segs]; [done|].
  rewrite split_join; [|done|].
  - change (norm_step false [] "") with (@nil string).
    rewrite foldl_norm_id by done. by rewrite app_nil_r, reverse_involutive.
  - eapply Forall_impl; [exact HF|]. by intros ? (?&?).
Qed.

(** A trailing slash denotes the same path. *)
Lemma norm_segs_trailing segs :
  Forall plain_seg segs -> norm_segs false (of_segs segs +:+ String SLASH "") = segs.
Proof.
  intros HF. unfold norm_segs.
  assert (forall p, foldl (norm_step false) [] (split_on SLASH (p +:+ String SLASH "")) =
    foldl (norm_step false) [] (split_on SLASH p)) as ->; [|by apply norm_segs_of_segs].
  intros p. rewrite <- (join_split SLASH p) at 1.
  assert (split_on SLASH (join_with SLASH (split_on SLASH p) +:+ String SLASH "") =
    split_on SLASH p ++ [""]) as ->.
  { pose proof (split_on_nonempty SLASH p) as Hne. pose proof (split_on_parts SLASH p) as Hp.
    induction Hp as [|x l Hx Hl IH]; [done|]. destruct l as [|y l].
    - cbn [join_with]. by rewrite split_on_app.
    - change (join_with SLASH (x :: y :: l)) with (x +:+ String SLASH (join_with SLASH (y :: l))).
      rewrite <- str_app_assoc, str_cons_app, split_on_app by done. by rewrite IH. }
  rewrite foldl_app. cbn. done.
Qed.

(** Normalising is idempotent on absolute paths. *)
Lemma resolve_segs_idem cwd p :
  resolve_segs cwd (resolve cwd p) = resolve_segs cwd p.
Proof.
  unfold resolve. set (segs := resolve_segs cwd p).
  assert (Forall plain_seg segs) by (unfold segs, resolve_segs; case_match; apply norm_segs_plain).
  change (norm_segs false (of_segs segs) = segs). by apply norm_segs_of_segs.
Qed.

Lemma common_len_spec a b :
  exists r s, a = take (common_len a b) a ++ r /\ b = take (common_len a b) a ++ s /\
  match r, s with x :: _, y :: _ => x <> y | _, _ => True end.
Proof.
  revert b. induction a as [|x a IH]; intros [|y b]; cbn.
  - by exists [], [].
  - by exists [], (y :: b).
  - by exists (x :: a), [].
  - destruct (String.eqb_spec x y) as [->|Hne]; cbn.
    + destruct (IH b) as (r & s & H1 & H2 & H3). exists r, s.
      split_and!; [by f_equal|by f_equal|done].
    + by exists (x :: a), (y :: b).
Qed.

Lemma common_len_prefix a s : common_len a (a ++ s) = length a.
Proof. induction a as [|x a IH]; cbn; [by destruct s|]. by rewrite String.eqb_refl, IH. Qed.

Lemma relative_segs_prefix a s : relative_segs a (a ++ s) = s.
Proof.
  unfold relative_segs. rewrite common_len_prefix, Nat.sub_diag. cbn. apply drop_app_length.
Qed.

Lemma join_cons_starts s segs : exists r, join "/" (s :: segs) = s +:+ r.
Proof.
  destruct segs as [|t segs].
  - exists "". by rewrite str_app_nil_r.
  - by exists ("/" +:+ join "/" (t :: segs)).
Qed.

(** A relative path that does not begin with two dots stays below. *)
Lemma relative_inside a b :
  starts_with ".." (join "/" (relative_segs a b)) = false -> exists s, b = a ++ s.
Proof.
  intros H. destruct (common_len_spec a b) as (r & s & H1 & H2 & _).
  unfold relative_segs in H.
  destruct (length a - common_len a b)%nat as [|n] eqn:E.
  - exists s. assert (r = []) as ->.
    { apply (f_equal length) in H1. rewrite length_app, length_take in H1.
      destruct r; [done|]. cbn in H1. lia. }
    rewrite app_nil_r in H1. by rewrite <- H1 in H2.
  - exfalso. cbn [replicate app] in H.
    destruct (join_cons_starts ".." (replicate n ".." ++ drop (common_len a b) b)) as [q Hq].
    rewrite Hq in H. by rewrite starts_with_app in H.
Qed.

(** A file of a directory *)
Lemma join_snoc segs x : segs <> [] -> join "/" (segs ++ [x]) = join "/" segs +:+ ("/" +:+ x).
Proof.
  intros Hne. rewrite !join_join_with. induction segs as [|s segs IH]; [done|]. clear Hne.
  destruct segs as [|t segs]; [done|]. cbn [app].
  change (join_with SLASH (s :: t :: segs ++ [x])) with (s +:+ String SLASH (join_with SLASH ((t :: segs) ++ [x]))).
  rewrite IH by done. change (join_with SLASH (s :: t :: segs)) with (s +:+ String SLASH (join_with SLASH (t :: segs))).
  by rewrite <- str_app_assoc.
Qed.

Lemma of_segs_snoc segs x : segs <> [] -> of_segs (segs ++ [x]) = of_segs segs +:+ ("/" +:+ x).
Proof. intros H. unfold of_segs. by rewrite join_snoc. Qed.

Lemma plain_not_absolute x : plain_seg x -> is_absolute x = false.
Proof. intros (Hs & Hne & _). destruct x as [|a x]; [done|]. cbn in *. by apply orb_false_iff in Hs as [? _]. Qed.

(** Resolving a plain name below a directory names a file of that directory. *)
Lemma resolve_child segs x :
  segs <> [] -> Forall plain_seg segs -> plain_seg x ->
  resolve (of_segs segs) x = of_segs (segs ++ [x]).
Proof.
  intros Hne Hs Hx. unfold resolve, resolve_segs. rewrite plain_not_absolute by done.
  rewrite <- of_segs_snoc by done. rewrite norm_segs_of_segs; [done|].
  apply Forall_app. split; [done|]. by constructor.
Qed.

Lemma resolve_segs_of_segs cwd segs : Forall plain_seg segs -> resolve_segs cwd (of_segs segs) = segs.
Proof. intros Hs. change (norm_segs false (of_segs segs) = segs). by apply norm_segs_of_segs. Qed.

Lemma relative_child cwd segs x :
  Forall plain_seg segs -> plain_seg x -> relative cwd (of_segs segs) (of_segs (segs ++ [x])) = x.
Proof.
  intros Hs Hx. unfold relative. rewrite !resolve_segs_of_segs; [by rewrite relative_segs_prefix| |done].
  apply Forall_app. split; [done|by constructor].
Qed.
