(* ===== verification/World.v ===== *)
(** * The shared state of the server process

    One record holds what the modules of the source keep in module-level
    variables and singletons, together with the process environment, the file
    system, the clock and the log of calls to remote services.  A handler is a
    computation of the monad [M world].  An [await] between two statements is
    where another handler may run; the components that depend on it
    (AsyncLock, the scheduler) have an interleaved model of their own. *)
From S2P Require Import Prelude JsString JsValue.

(** ** Files

    The text of a JSON file is kept as the tree it parses to ([Json]); any
    other text is [Text], and does not parse.  An audio file is its size and
    what the metadata reader reports of it. *)
Inductive content :=
| Text (s : string)
| Json (v : val)
| Audio (size : Z) (format : val).

Record file := File { f_content : content; f_mtime : Z }.

Record fs_state := Fs {
  fs_files : gmap string file;   (* by absolute path *)
  fs_denied : gset string        (* paths that cannot be written or removed *)
}.

(** ** The scheduler's jobs *)
Inductive trigger_time :=
| At (ms : option Z)    (* scheduleJob(date, ...); None for an invalid date *)
| Cron (spec : string). (* scheduleJob(name, "m h d M w", ...) *)

Record job := Job {
  j_id : nat;
  j_name : string;
  j_category : string;
  j_when : trigger_time;
  j_prayer : string;
  j_event : string
}.

Record sched_state := Sched {
  s_jobs : list job;               (* the module's [jobs] array *)
  s_active : list job;             (* the jobs the timer library holds *)
  s_next : nat;                    (* identity of the next job object *)
  s_callbacks : bool;              (* maintenanceCallbacks filled in *)
  s_fired : list (string * string) (* catch-up calls of triggerEvent *)
}.

(** ** Server-sent events *)
Record sse_state := Sse {
  sse_clients : list (nat * list val);  (* a client and what it was sent *)
  sse_history : list val                (* logHistory *)
}.

(** ** ConfigService's fields *)
Record cfg_state := Cfg {
  c_config : val;          (* _config, [null] before the first load *)
  c_initialized : bool;    (* _isInitialized *)
  c_saving : bool          (* _isSaving *)
}.

(** ** The voice list's cache *)
Record voice_state := Voice {
  v_voices : val;
  v_fetching : bool;
  v_last : option Z
}.

Record world := World {
  w_clock : Z;                   (* Date.now(), in milliseconds *)
  w_env : gmap string string;    (* process.env *)
  w_fs : fs_state;
  w_net : list string;           (* remote calls made so far, latest first *)
  w_pcache : val;                (* prayerTimeService.inMemoryCache *)
  w_cfg : cfg_state;
  w_sched : sched_state;
  w_sse : sse_state;
  w_health : val;                (* healthCheck.healthCache *)
  w_voice : voice_state;
  w_listing : val * Z;           (* systemController._fileListCache: data, timestamp *)
  w_rng : nat                    (* draws made from crypto.randomBytes *)
}.

Definition empty_world : world :=
  World 0 ∅ (Fs ∅ ∅) [] VNull (Cfg VNull false false) (Sched [] [] 0 false [])
    (Sse [] []) VNull (Voice (VArr []) false None) (VNull, 0) 0.

(** ** Field updates *)
Definition set_env (e : gmap string string) (w : world) : world :=
  World (w_clock w) e (w_fs w) (w_net w) (w_pcache w) (w_cfg w) (w_sched w) (w_sse w)
    (w_health w) (w_voice w) (w_listing w) (w_rng w).
Definition set_files (f : gmap string file) (w : world) : world :=
  World (w_clock w) (w_env w) (Fs f (fs_denied (w_fs w))) (w_net w) (w_pcache w) (w_cfg w)
    (w_sched w) (w_sse w) (w_health w) (w_voice w) (w_listing w) (w_rng w).
Definition set_net (n : list string) (w : world) : world :=
  World (w_clock w) (w_env w) (w_fs w) n (w_pcache w) (w_cfg w) (w_sched w) (w_sse w)
    (w_health w) (w_voice w) (w_listing w) (w_rng w).
Definition set_pcache (v : val) (w : world) : world :=
  World (w_clock w) (w_env w) (w_fs w) (w_net w) v (w_cfg w) (w_sched w) (w_sse w)
    (w_health w) (w_voice w) (w_listing w) (w_rng w).
Definition set_cfg (c : cfg_state) (w : world) : world :=
  World (w_clock w) (w_env w) (w_fs w) (w_net w) (w_pcache w) c (w_sched w) (w_sse w)
    (w_health w) (w_voice w) (w_listing w) (w_rng w).
Definition set_sched (s : sched_state) (w : world) : world :=
  World (w_clock w) (w_env w) (w_fs w) (w_net w) (w_pcache w) (w_cfg w) s (w_sse w)
    (w_health w) (w_voice w) (w_listing w) (w_rng w).
Definition set_sse (s : sse_state) (w : world) : world :=
  World (w_clock w) (w_env w) (w_fs w) (w_net w) (w_pcache w) (w_cfg w) (w_sched w) s
    (w_health w) (w_voice w) (w_listing w) (w_rng w).
Definition set_health (h : val) (w : world) : world :=
  World (w_clock w) (w_env w) (w_fs w) (w_net w) (w_pcache w) (w_cfg w) (w_sched w) (w_sse w)
    h (w_voice w) (w_listing w) (w_rng w).
Definition set_voice (v : voice_state) (w : world) : world :=
  World (w_clock w) (w_env w) (w_fs w) (w_net w) (w_pcache w) (w_cfg w) (w_sched w) (w_sse w)
    (w_health w) v (w_listing w) (w_rng w).

Definition set_listing (l : val * Z) (w : world) : world :=
  World (w_clock w) (w_env w) (w_fs w) (w_net w) (w_pcache w) (w_cfg w) (w_sched w) (w_sse w)
    (w_health w) (w_voice w) l (w_rng w).
Definition set_rng (n : nat) (w : world) : world :=
  World (w_clock w) (w_env w) (w_fs w) (w_net w) (w_pcache w) (w_cfg w) (w_sched w) (w_sse w)
    (w_health w) (w_voice w) (w_listing w) n.
Definition set_clock (t : Z) (w : world) : world :=
  World t (w_env w) (w_fs w) (w_net w) (w_pcache w) (w_cfg w) (w_sched w) (w_sse w)
    (w_health w) (w_voice w) (w_listing w) (w_rng w).

Definition files (w : world) : gmap string file := fs_files (w_fs w).

(** ** [fs.promises] *)
Definition enoent (p : string) : jserr :=
  JsErr "Error" ("ENOENT: no such file or directory, " +:+ p) "ENOENT" false.
Definition eacces (p : string) : jserr :=
  JsErr "Error" ("EACCES: permission denied, " +:+ p) "EACCES" false.
Definition syntax_error : jserr :=
  JsErr "SyntaxError" "Unexpected token in JSON" "" false.

Definition denied (w : world) (p : string) : bool :=
  bool_decide (p ∈ fs_denied (w_fs w)).

(** [fs.access(p)] *)
Definition fs_access (p : string) : M world unit := fun w =>
  match files w !! p with
  | Some _ => (Ok tt, w)
  | None => (Throw (enoent p), w)
  end.

(** [fs.readFile(p)] *)
Definition fs_read (p : string) : M world content := fun w =>
  match files w !! p with
  | Some f => (Ok (f_content f), w)
  | None => (Throw (enoent p), w)
  end.

(** [fs.writeFile(p, c)] *)
Definition fs_write (p : string) (c : content) : M world unit := fun w =>
  if denied w p then (Throw (eacces p), w)
  else (Ok tt, set_files (<[p := File c (w_clock w)]> (files w)) w).

(** [fs.unlink(p)] *)
Definition fs_unlink (p : string) : M world unit := fun w =>
  match files w !! p with
  | None => (Throw (enoent p), w)
  | Some _ => if denied w p then (Throw (eacces p), w)
              else (Ok tt, set_files (delete p (files w)) w)
  end.

(** [fs.access(d)] of a directory: it is seen through the files in it. *)
Definition fs_access_dir (d : string) : M world unit := fun w =>
  if existsb (fun kv => starts_with (d +:+ "/") kv.1) (map_to_list (files w))
  then (Ok tt, w) else (Throw (enoent d), w).

(** [fs.mkdir(d, { recursive: true })] *)
Definition fs_mkdir (d : string) : M world unit := fun w =>
  if denied w d then (Throw (eacces d), w) else (Ok tt, w).

(** [fs.rename(a, b)] *)
Definition fs_rename (a b : string) : M world unit := fun w =>
  match files w !! a with
  | None => (Throw (enoent a), w)
  | Some f => if denied w a || denied w b then (Throw (eacces b), w)
              else (Ok tt, set_files (<[b := f]> (delete a (files w))) w)
  end.

(** [JSON.parse] of a file's text *)
Definition json_parse (c : content) : result val :=
  match c with Json v => Ok (json_clone v) | _ => Throw syntax_error end.

(** [content.trim().length > 0] *)
Definition content_nonblank (c : content) : bool :=
  match c with Text s => negb (all_blank s) | _ => true end.

(** ** [process.env] *)
Definition env_get (k : string) (w : world) : val :=
  match w_env w !! k with Some s => VStr s | None => VUndef end.

(** ** Lemmas *)
Lemma fs_write_ok p c w :
  denied w p = false -> fs_write p c w = (Ok tt, set_files (<[p := File c (w_clock w)]> (files w)) w).
Proof. intros H. unfold fs_write. by rewrite H. Qed.

Lemma fs_write_denied p c w : denied w p = true -> fs_write p c w = (Throw (eacces p), w).
Proof. intros H. unfold fs_write. by rewrite H. Qed.

Lemma fs_read_ok p f w : files w !! p = Some f -> fs_read p w = (Ok (f_content f), w).
Proof. intros H. unfold fs_read. by rewrite H. Qed.

Lemma fs_access_ok p f w : files w !! p = Some f -> fs_access p w = (Ok tt, w).
Proof. intros H. unfold fs_access. by rewrite H. Qed.

Lemma fs_access_none p w : files w !! p = None -> fs_access p w = (Throw (enoent p), w).
Proof. intros H. unfold fs_access. by rewrite H. Qed.

Lemma fs_read_none p w : files w !! p = None -> fs_read p w = (Throw (enoent p), w).
Proof. intros H. unfold fs_read. by rewrite H. Qed.

(** Reading changes nothing; writing changes the files only. *)
Lemma keeps_fs_read {B} (f : world -> B) p : keeps f (fs_read p).
Proof. intros w. unfold fs_read. by case_match. Qed.

Lemma keeps_fs_access {B} (f : world -> B) p : keeps f (fs_access p).
Proof. intros w. unfold fs_access. by case_match. Qed.

Lemma keeps_fs_write {B} (f : world -> B) p c :
  (forall fs w, f (set_files fs w) = f w) -> keeps f (fs_write p c).
Proof. intros H w. unfold fs_write. case_match; [done|apply H]. Qed.

Lemma keeps_fs_unlink {B} (f : world -> B) p :
  (forall fs w, f (set_files fs w) = f w) -> keeps f (fs_unlink p).
Proof. intros H w. unfold fs_unlink. repeat case_match; try done. apply H. Qed.

Lemma keeps_fs_rename {B} (f : world -> B) a b :
  (forall fs w, f (set_files fs w) = f w) -> keeps f (fs_rename a b).
Proof. intros H w. unfold fs_rename. repeat case_match; try done. apply H. Qed.

#[export] Hint Resolve keeps_fs_rename keeps_fs_read keeps_fs_access keeps_fs_write keeps_fs_unlink : azan.
#[export] Hint Rewrite fs_write_ok using done : azan_rw.
