(* ===== verification/Luxon.v ===== *)
(** * The date library, as an interface

    Luxon is a third-party package, so its [DateTime] is a parameter: the class
    [Luxon] names the calls the source makes, [LuxonLaws] the documented
    behaviour the theorems rely on.  [LuxonUtc] is a concrete implementation
    on the UTC zone that satisfies the laws. *)
From S2P Require Import Prelude JsString JsValue.

(** The fields given to [DateTime.set]; [NUndef] leaves a field as it is. *)
Record time_fields := Fields {
  fd_hour : jsnum;
  fd_minute : jsnum;
  fd_second : jsnum;
  fd_ms : jsnum
}.

Class Luxon := {
  dt : Type;
  dt_now : Z -> dt;                           (* DateTime.now() at a clock value *)
  dt_fromISO : string -> dt;                  (* DateTime.fromISO(s) *)
  dt_fromISO_zone : string -> string -> dt;   (* DateTime.fromISO(s, { zone }) *)
  dt_fromObject : val -> val -> val -> string -> result dt; (* year, month, day, zone *)
  dt_setZone : dt -> string -> dt;
  dt_ms : dt -> option Z;                     (* valueOf(); None when invalid (NaN) *)
  dt_zone : dt -> string;
  dt_minute : dt -> Z;
  dt_year : dt -> Z;
  dt_set : dt -> time_fields -> result dt;    (* throws on a number that is not finite *)
  dt_plus_minutes : dt -> Q -> dt;
  dt_plus_ms : dt -> Q -> dt;
  dt_plus_days : dt -> Z -> dt;
  dt_startOf_day : dt -> dt;
  dt_diff_days : dt -> dt -> option Q;        (* a.diff(b, "days").days; None for NaN *)
  dt_toISO : dt -> val;                       (* null when invalid *)
  dt_toISODate : dt -> val;
  zone_valid : string -> bool;                (* IANAZone.isValidZone *)
  zone_offset : string -> Z -> Z              (* minutes ahead of UTC at an instant *)
}.

Section derived.
Context `{L : Luxon}.

(** [d.isValid] *)
Definition dt_valid (d : dt) : bool := match dt_ms d with Some _ => true | None => false end.

(** [a < b] and [a > b] on DateTimes compare [valueOf()]; [NaN] compares false. *)
Definition dt_lt (a b : dt) : bool :=
  match dt_ms a, dt_ms b with Some x, Some y => x <? y | _, _ => false end.

(** [DateTime.fromISO(s).setZone(tz)] *)
Definition dt_parse (s tz : string) : dt := dt_setZone (dt_fromISO s) tz.

(** Milliseconds of the wall clock at [d] since 1970. *)
Definition local_ms (d : dt) (t : Z) : Z := t + 60000 * zone_offset (dt_zone d) t.

(** No change of the zone's offset within a day of [t]. *)
Definition steady (z : string) (t : Z) : Prop :=
  forall t', t - 86400000 <= t' <= t + 86400000 -> zone_offset z t' = zone_offset z t.
End derived.

(** The time range of ECMAScript dates. *)
Definition representable (t : Z) : Prop := -8640000000000000 <= t <= 8640000000000000.
(** Instants whose year has four digits. *)
Definition four_digit_year (t : Z) : Prop := -62167219200000 <= t <= 253402300799999.

Class LuxonLaws `(L : Luxon) : Prop := {
  (** Time arithmetic is exact; it does not move the zone. *)
  law_plus_minutes d t k :
    dt_ms d = Some t -> representable (t + 60000 * k) ->
    dt_ms (dt_plus_minutes d (inject_Z k)) = Some (t + 60000 * k);
  law_plus_minutes_zone d q : dt_zone (dt_plus_minutes d q) = dt_zone d;
  law_plus_ms d t k :
    dt_ms d = Some t -> representable (t + k) ->
    dt_ms (dt_plus_ms d (inject_Z k)) = Some (t + k);
  (** The minute of the wall clock. *)
  law_minute d t :
    dt_ms d = Some t -> dt_minute d = (local_ms d t / 60000) mod 60;
  (** Zeroing seconds and milliseconds goes back to the start of the minute:
      offsets are whole minutes. *)
  law_set_seconds d t :
    dt_ms d = Some t -> representable (t - t mod 60000) ->
    exists d', dt_set d (Fields NUndef NUndef (NFin 0) (NFin 0)) = Ok d' /\
      dt_zone d' = dt_zone d /\ dt_ms d' = Some (t - t mod 60000);
  (** Setting the wall clock on a day with no offset change. *)
  law_set_clock d t h m :
    dt_ms d = Some t -> steady (dt_zone d) t -> 0 <= h < 24 -> 0 <= m < 60 ->
    representable (t - 86400000) -> representable (t + 86400000) ->
    exists d', dt_set d (Fields (NFin (inject_Z h)) (NFin (inject_Z m)) (NFin 0) (NFin 0)) = Ok d' /\
      dt_zone d' = dt_zone d /\
      dt_ms d' = Some (t - local_ms d t mod 86400000 + 3600000 * h + 60000 * m);
  (** A number that is not finite is refused. *)
  law_set_nan d t f :
    dt_ms d = Some t -> fd_hour f = NNaN \/ fd_minute f = NNaN -> is_ok (dt_set d f) = false;
  (** Changing the zone keeps the instant. *)
  law_setZone d z :
    zone_valid z = true -> dt_ms (dt_setZone d z) = dt_ms d /\
      (is_Some (dt_ms d) -> dt_zone (dt_setZone d z) = z);
  (** ISO texts denote the instant they were printed from. *)
  law_toISO d t :
    dt_ms d = Some t -> four_digit_year t ->
    exists s, dt_toISO d = VStr s /\ s <> "" /\ dt_ms (dt_fromISO s) = Some t;
  law_now t : representable t -> dt_ms (dt_now t) = Some t
}.

Section laws.
Context `{LL : LuxonLaws}.

(** Parsing a printed instant in a valid zone. *)
Lemma dt_parse_toISO d t z :
  dt_ms d = Some t -> four_digit_year t -> zone_valid z = true ->
  exists s, dt_toISO d = VStr s /\ s <> "" /\ dt_ms (dt_parse s z) = Some t.
Proof.
  intros Hd Hy Hz. destruct (law_toISO d t Hd Hy) as (s & Hs & Hne & Hms).
  exists s. split_and!; [done|done|]. unfold dt_parse.
  destruct (law_setZone (dt_fromISO s) z Hz) as [-> _]. done.
Qed.

Lemma dt_valid_ms d t : dt_ms d = Some t -> dt_valid d = true.
Proof. unfold dt_valid. by intros ->. Qed.
End laws.
