(* ===== verification/LuxonUtc.v ===== *)
(** * A DateTime implementation on the UTC zone

    Discharges the laws of [Luxon] with the proleptic Gregorian calendar and
    ISO 8601 texts of four-digit years, so that the theorems stated against
    the interface can be run on concrete dates. *)
From S2P Require Import Prelude JsString JsValue Luxon.

(** ** The civil calendar *)

(** Year, month and day of a day number (day 0 is 1970-01-01). *)
Definition civil_of_days (z : Z) : Z * Z * Z :=
  let z := z + 719468 in
  let era := z / 146097 in
  let doe := z mod 146097 in
  let yoe := (doe - doe / 1460 + doe / 36524 - doe / 146096) / 365 in
  let doy := doe - (365 * yoe + yoe / 4 - yoe / 100) in
  let mp := (5 * doy + 2) / 153 in
  let d := doy - (153 * mp + 2) / 5 + 1 in
  let m := if mp <? 10 then mp + 3 else mp - 9 in
  (yoe + era * 400 + (if m <=? 2 then 1 else 0), m, d).

Definition days_of_civil (y m d : Z) : Z :=
  let y' := if m <=? 2 then y - 1 else y in
  let era := y' / 400 in
  let yoe := y' mod 400 in
  let mp := if 2 <? m then m - 3 else m + 9 in
  let doy := (153 * mp + 2) / 5 + d - 1 in
  era * 146097 + yoe * 365 + yoe / 4 - yoe / 100 + doy - 719468.

(** ** ISO 8601 texts *)
Definition digit (n : Z) : ascii := ascii_of_nat (Z.to_nat (48 + n)).

(** [n] on [k] digits *)
Fixpoint pad (k : nat) (n : Z) : string :=
  match k with
  | O => ""
  | S k' => String (digit (n / 10 ^ Z.of_nat k')) (pad k' (n mod 10 ^ Z.of_nat k'))
  end.

Fixpoint read_pad (k : nat) (acc : Z) (s : string) : option (Z * string) :=
  match k, s with
  | O, _ => Some (acc, s)
  | S k', String a s' => d ← digit_val a; read_pad k' (acc * 10 + d) s'
  | S _, EmptyString => None
  end.

(** Consumes one expected character. *)
Definition expect (c : ascii) (s : string) : option string :=
  match s with String a s' => if Ascii.eqb a c then Some s' else None | _ => None end.

Definition day_ms : Z := 86400000.

Definition date_text (days : Z) : string :=
  let '(y, m, d) := civil_of_days days in
  pad 4 y +:+ String "-" (pad 2 m +:+ String "-" (pad 2 d)).

Definition iso_text (t : Z) : string :=
  let '(y, m, d) := civil_of_days (t / day_ms) in
  let r := t mod day_ms in
  pad 4 y +:+ String "-" (pad 2 m +:+ String "-" (pad 2 d +:+ String "T"
    (pad 2 (r / 3600000) +:+ String ":" (pad 2 (r / 60000 mod 60) +:+ String ":"
      (pad 2 (r / 1000 mod 60) +:+ String "." (pad 3 (r mod 1000) +:+ "Z")))))).

Definition read_date (s : string) : option (Z * string) :=
  '(y, s) ← read_pad 4 0 s; s ← expect "-" s;
  '(m, s) ← read_pad 2 0 s; s ← expect "-" s;
  '(d, s) ← read_pad 2 0 s;
  let days := days_of_civil y m d in
  if bool_decide (civil_of_days days = (y, m, d)) then Some (days, s) else None.

(** A date, or a date and a time of day to the millisecond. *)
Definition parse_iso (s : string) : option Z :=
  '(days, s) ← read_date s;
  match s with
  | EmptyString => Some (days * day_ms)
  | _ =>
      s ← expect "T" s;
      '(h, s) ← read_pad 2 0 s; s ← expect ":" s;
      '(mi, s) ← read_pad 2 0 s; s ← expect ":" s;
      '(sec, s) ← read_pad 2 0 s; s ← expect "." s;
      '(ms, s) ← read_pad 3 0 s;
      if String.eqb s "Z" then Some (days * day_ms + h * 3600000 + mi * 60000 + sec * 1000 + ms)
      else None
  end.

(** ** The implementation *)
Record udt := Udt { u_ms : option Z; u_zone : string }.

Definition clip (t : Z) : option Z :=
  if (-8640000000000000 <=? t) && (t <=? 8640000000000000) then Some t else None.

Definition umap (f : Z -> Z) (d : udt) : udt :=
  Udt (t ← u_ms d; clip (f t)) (u_zone d).

Definition field_or (cur : Z) (n : jsnum) : option Z :=
  match n with NUndef => Some cur | NNaN => None | NFin q => Some (Qfloor q) end.

Definition u_set (d : udt) (f : time_fields) : result udt :=
  match u_ms d with
  | None => Ok d
  | Some t =>
      let r := t mod day_ms in
      match field_or (r / 3600000) (fd_hour f), field_or (r / 60000 mod 60) (fd_minute f),
            field_or (r / 1000 mod 60) (fd_second f), field_or (r mod 1000) (fd_ms f) with
      | Some h, Some m, Some s, Some ms =>
          Ok (umap (fun t => t - t mod day_ms + h * 3600000 + m * 60000 + s * 1000 + ms) d)
      | _, _, _, _ => Throw (Error "Invalid unit value")
      end
  end.

(** A field of [fromObject]: numbers and numeric texts. *)
Definition num_field (v : val) : option Z :=
  match v with
  | VNum q => Some (Qfloor q)
  | VStr s => match js_number s with NFin q => if String.eqb s "" then None else Some (Qfloor q)
              | _ => None end
  | VUndef => Some 1
  | _ => None
  end.

Definition u_fromObject (y m d : val) (z : string) : result udt :=
  match num_field y, num_field m, num_field d with
  | Some y, Some m, Some d =>
      let days := days_of_civil y m d in
      Ok (Udt (if bool_decide (civil_of_days days = (y, m, d)) then clip (days * day_ms)
               else None) z)
  | _, _, _ => Throw (Error "Invalid unit value")
  end.

#[export] Instance utc : Luxon := {|
  dt := udt;
  dt_now t := Udt (clip t) "UTC";
  dt_fromISO s := Udt (t ← parse_iso s; clip t) "UTC";
  dt_fromISO_zone s z := Udt (t ← parse_iso s; clip t) z;
  dt_fromObject := u_fromObject;
  dt_setZone d z := Udt (u_ms d) z;
  dt_ms := u_ms;
  dt_zone := u_zone;
  dt_minute d := match u_ms d with Some t => t / 60000 mod 60 | None => 0 end;
  dt_year d := match u_ms d with
               | Some t => (civil_of_days (t / day_ms)).1.1 | None => 0 end;
  dt_set := u_set;
  dt_plus_minutes d q := umap (fun t => t + Qfloor (q * 60000)) d;
  dt_plus_ms d q := umap (fun t => t + Qfloor q) d;
  dt_plus_days d k := umap (fun t => t + day_ms * k) d;
  dt_startOf_day := umap (fun t => t - t mod day_ms);
  dt_diff_days a b := match u_ms a, u_ms b with
                      | Some x, Some y => Some (inject_Z (x - y) / inject_Z day_ms)%Q
                      | _, _ => None end;
  dt_toISO d := match u_ms d with Some t => VStr (iso_text t) | None => VNull end;
  dt_toISODate d := match u_ms d with Some t => VStr (date_text (t / day_ms)) | None => VNull end;
  zone_valid _ := true;
  zone_offset _ _ := 0
|}.

(** ** The calendar is invertible *)
Section arith.
Ltac Zify.zify_post_hook ::= Z.div_mod_to_equations.

Lemma yoe_bounds doe :
  0 <= doe <= 146096 -> 0 <= (doe - doe / 1460 + doe / 36524 - doe / 146096) / 365 <= 399.
Proof. lia. Qed.

Lemma doy_bounds doe :
  0 <= doe <= 146096 ->
  let yoe := (doe - doe / 1460 + doe / 36524 - doe / 146096) / 365 in
  0 <= doe - (365 * yoe + yoe / 4 - yoe / 100) <= 365.
Proof. intros H yoe. subst yoe. lia. Qed.

Lemma month_bounds doy : 0 <= doy <= 365 -> 0 <= (5 * doy + 2) / 153 <= 11.
Proof. lia. Qed.

Lemma clip_Some t : representable t -> clip t = Some t.
Proof. unfold clip, representable. intros [H1 H2]. by apply Z.leb_le in H1 as ->, H2 as ->. Qed.

Lemma clip_inv t t' : clip t = Some t' -> t' = t /\ representable t.
Proof.
  unfold clip, representable. intros H. case_match eqn:E; simplify_eq.
  apply andb_true_iff in E as [?%Z.leb_le ?%Z.leb_le]. done.
Qed.

Lemma days_of_civil_of_days z y m d :
  civil_of_days z = (y, m, d) -> days_of_civil y m d = z.
Proof.
  unfold civil_of_days, days_of_civil. intros [= <- <- <-].
  set (doe := (z + 719468) mod 146097). set (era := (z + 719468) / 146097).
  assert (Hz : z + 719468 = era * 146097 + doe) by (unfold era, doe; lia).
  assert (0 <= doe <= 146096) as Hdoe by (unfold doe; lia).
  pose proof (yoe_bounds doe Hdoe) as Hy. pose proof (doy_bounds doe Hdoe) as Hd. cbn in Hd.
  set (yoe := (doe - doe / 1460 + doe / 36524 - doe / 146096) / 365) in *.
  set (doy := doe - (365 * yoe + yoe / 4 - yoe / 100)) in *.
  pose proof (month_bounds doy Hd) as Hm. set (mp := (5 * doy + 2) / 153) in *.
  assert (Hy' : forall b, (yoe + era * 400 + b - b) / 400 = era /\ (yoe + era * 400 + b - b) mod 400 = yoe) by lia.
  destruct (Z.ltb_spec mp 10) as [Hlt|Hge].
  - destruct (Z.leb_spec (mp + 3) 2); [lia|]. destruct (Z.ltb_spec 2 (mp + 3)); [|lia].
    destruct (Hy' 0) as [E1 E2]. rewrite !Z.sub_0_r in E1, E2. rewrite E1, E2. lia.
  - destruct (Z.leb_spec (mp - 9) 2); [|lia]. destruct (Z.ltb_spec 2 (mp - 9)); [lia|].
    destruct (Hy' 1) as [E1 E2]. rewrite E1, E2. lia.
Qed.

Lemma civil_bounds z y m d :
  civil_of_days z = (y, m, d) -> 1 <= m <= 12 /\ 1 <= d <= 31.
Proof.
  unfold civil_of_days. intros [= _ <- <-].
  set (doe := (z + 719468) mod 146097).
  assert (0 <= doe <= 146096) as Hdoe by (unfold doe; lia).
  pose proof (doy_bounds doe Hdoe) as Hd. cbn in Hd.
  set (yoe := (doe - doe / 1460 + doe / 36524 - doe / 146096) / 365) in *.
  set (doy := doe - (365 * yoe + yoe / 4 - yoe / 100)) in *.
  pose proof (month_bounds doy Hd) as Hm.
  destruct (Z.ltb_spec ((5 * doy + 2) / 153) 10); lia.
Qed.

Lemma civil_year z y m d :
  -719528 <= z <= 2932896 -> civil_of_days z = (y, m, d) -> 0 <= y <= 9999.
Proof.
  intros Hz. unfold civil_of_days. intros [= <- _ _].
  set (doe := (z + 719468) mod 146097). set (era := (z + 719468) / 146097).
  assert (z + 719468 = era * 146097 + doe) as Hz' by (unfold era, doe; lia).
  assert (0 <= doe <= 146096) as Hdoe by (unfold doe; lia).
  assert (-1 <= era <= 24) as He by lia. clearbody doe era.
  pose proof (yoe_bounds doe Hdoe) as Hy. pose proof (doy_bounds doe Hdoe) as Hd. cbn in Hd.
  set (yoe := (doe - doe / 1460 + doe / 36524 - doe / 146096) / 365) in *.
  assert (era = 24 -> yoe = 399 -> doe <= 146036) as H1 by lia.
  assert (era = -1 -> yoe = 399 /\ 146037 <= doe) as H2 by lia.
  clearbody yoe.
  set (doy := doe - (365 * yoe + yoe / 4 - yoe / 100)) in *.
  assert (yoe = 399 -> doy = doe - 145731) as H3 by (intros ->; reflexivity).
  clearbody doy.
  destruct (Z.ltb_spec ((5 * doy + 2) / 153) 10) as [Hm|Hm].
  - destruct (Z.leb_spec ((5 * doy + 2) / 153 + 3) 2); lia.
  - destruct (Z.leb_spec ((5 * doy + 2) / 153 - 9) 2); lia.
Qed.

Lemma split_day r :
  0 <= r < 86400000 ->
  r = r / 3600000 * 3600000 + r / 60000 mod 60 * 60000 + r / 1000 mod 60 * 1000 + r mod 1000.
Proof. lia. Qed.

Lemma floor_minute t :
  t - t mod 86400000 + t mod 86400000 / 3600000 * 3600000
    + t mod 86400000 / 60000 mod 60 * 60000 + 0 * 1000 + 0 = t - t mod 60000.
Proof. lia. Qed.
End arith.

(** ** Printing and reading back *)
Lemma digit_val_digit n : 0 <= n <= 9 -> digit_val (digit n) = Some n.
Proof.
  intros H. replace n with (Z.of_nat (Z.to_nat n)) by lia.
  generalize (Z.to_nat n), (ltac:(lia) : (Z.to_nat n < 10)%nat). clear.
  intros k Hk. do 10 (destruct k as [|k]; [done|]). lia.
Qed.

Lemma read_pad_pad k n acc s :
  0 <= n < 10 ^ Z.of_nat k ->
  read_pad k acc (pad k n +:+ s) = Some (acc * 10 ^ Z.of_nat k + n, s).
Proof.
  revert n acc. induction k as [|k IH]; intros n acc Hn.
  - cbn in *. assert (n = 0) as -> by lia. f_equal. f_equal. lia.
  - cbn [pad read_pad]. rewrite str_cons_app.
    assert (Hp : 0 < 10 ^ Z.of_nat k) by (apply Z.pow_pos_nonneg; lia).
    assert (Hs : 10 ^ Z.of_nat (S k) = 10 * 10 ^ Z.of_nat k)
      by (rewrite Nat2Z.inj_succ, Z.pow_succ_r; lia).
    rewrite Hs in *. cbn [read_pad].
    rewrite digit_val_digit.
    2: { split; [apply Z.div_pos; lia|].
         assert (n / 10 ^ Z.of_nat k < 10) by (apply Z.div_lt_upper_bound; lia). lia. }
    cbn [mbind option_bind]. rewrite IH by (apply Z.mod_pos_bound; lia).
    f_equal. f_equal. pose proof (Z.div_mod n (10 ^ Z.of_nat k)). lia.
Qed.

Lemma read_pad_pad0 k n s :
  0 <= n < 10 ^ Z.of_nat k -> read_pad k 0 (pad k n +:+ s) = Some (n, s).
Proof. intros H. rewrite read_pad_pad by done. f_equal. Qed.

Lemma read_date_pads y m d s :
  0 <= y <= 9999 -> 0 <= m <= 99 -> 0 <= d <= 99 ->
  civil_of_days (days_of_civil y m d) = (y, m, d) ->
  read_date (pad 4 y +:+ String "-" (pad 2 m +:+ String "-" (pad 2 d +:+ s))) =
  Some (days_of_civil y m d, s).
Proof.
  intros Hy Hm Hd Hc. unfold read_date.
  rewrite read_pad_pad0 by (change (10 ^ Z.of_nat 4) with 10000; lia). cbn [mbind option_bind expect].
  rewrite Ascii.eqb_refl. cbn [mbind option_bind].
  rewrite read_pad_pad0 by (change (10 ^ Z.of_nat 2) with 100; lia). cbn [mbind option_bind expect].
  rewrite Ascii.eqb_refl. cbn [mbind option_bind].
  rewrite read_pad_pad0 by (change (10 ^ Z.of_nat 2) with 100; lia). cbn [mbind option_bind].
  by rewrite Hc, bool_decide_true.
Qed.

Lemma parse_iso_text t : four_digit_year t -> parse_iso (iso_text t) = Some t.
Proof.
  unfold four_digit_year. intros Ht. unfold iso_text, parse_iso.
  destruct (civil_of_days (t / day_ms)) as [[y m] d] eqn:Hc.
  pose proof (days_of_civil_of_days _ _ _ _ Hc) as Hinv.
  pose proof (civil_bounds _ _ _ _ Hc) as Hb.
  assert (Hr : 0 <= t mod day_ms < day_ms) by (apply Z.mod_pos_bound; reflexivity).
  assert (-719528 <= t / day_ms <= 2932896) as Hdays.
  { unfold day_ms. split; [apply Z.div_le_lower_bound; lia|].
    assert (t / 86400000 < 2932897); [apply Z.div_lt_upper_bound; lia|lia]. }
  pose proof (civil_year _ _ _ _ Hdays Hc) as Hy.
  rewrite read_date_pads; [|lia|lia|lia|by rewrite Hinv].
  cbn [mbind option_bind]. rewrite Hinv.
  set (r := t mod day_ms) in *. unfold day_ms in Hr.
  assert (0 <= r / 3600000 < 24) by (split; [apply Z.div_pos; lia|apply Z.div_lt_upper_bound; lia]).
  assert (forall x, 0 <= x mod 60 < 60) as H60 by (intros; apply Z.mod_pos_bound; lia).
  assert (0 <= r mod 1000 < 1000) by (apply Z.mod_pos_bound; lia).
  pose proof (H60 (r / 60000)). pose proof (H60 (r / 1000)).
  cbn [expect]. rewrite Ascii.eqb_refl. cbn [mbind option_bind].
  do 3 (rewrite read_pad_pad0 by (change (10 ^ Z.of_nat 2) with 100; lia);
        cbn [mbind option_bind expect]; rewrite Ascii.eqb_refl; cbn [mbind option_bind]).
  rewrite read_pad_pad0 by (change (10 ^ Z.of_nat 3) with 1000; lia).
  cbn [mbind option_bind]. rewrite String.eqb_refl. f_equal.
  pose proof (Z.div_mod t day_ms ltac:(done)) as Ht'. fold r in Ht'. unfold day_ms in *.
  pose proof (split_day r Hr). lia.
Qed.

Lemma iso_text_nonempty t : iso_text t <> "".
Proof. unfold iso_text. by destruct (civil_of_days _) as [[y m] d]. Qed.

Lemma Qfloor_Z k : Qfloor (inject_Z k) = k.
Proof. unfold Qfloor, inject_Z. by rewrite Z.div_1_r. Qed.

Lemma Qfloor_mul k n : Qfloor (inject_Z k * inject_Z n) = k * n.
Proof. by rewrite <- inject_Z_mult, Qfloor_Z. Qed.

Lemma umap_ms f d t : u_ms d = Some t -> representable (f t) -> u_ms (umap f d) = Some (f t).
Proof. intros H Hr. unfold umap. cbn. rewrite H. cbn. by apply clip_Some. Qed.

#[export] Instance utc_laws : LuxonLaws utc.
Proof.
  constructor; cbn [dt dt_now dt_fromISO dt_setZone dt_ms dt_zone dt_minute dt_set
    dt_plus_minutes dt_plus_ms dt_toISO zone_valid zone_offset utc].
  - intros d t k Hd Hr. pose proof (Qfloor_mul k 60000) as E.
    change (inject_Z 60000) with 60000%Q in E.
    rewrite (umap_ms _ _ t), E; [f_equal; lia|done|]. by rewrite E, Z.mul_comm.
  - done.
  - intros d t k Hd Hr. by rewrite (umap_ms _ _ t), Qfloor_Z; rewrite ?Qfloor_Z.
  - intros d t Hd. unfold dt_ms, local_ms. cbn [dt_minute utc zone_offset]. rewrite Hd.
    by rewrite Z.mul_0_r, Z.add_0_r.
  - intros d t Hd Hr. unfold u_set. rewrite Hd. cbn [field_or fd_hour fd_minute fd_second fd_ms].
    eexists. split_and!; [done|done|].
    pose proof (floor_minute t) as E. fold day_ms in E.
    rewrite (umap_ms _ _ t); change (Qfloor 0) with 0; by rewrite ?E.
  - intros d t h m Hd _ Hh Hm Hl Hu. unfold u_set. rewrite Hd.
    cbn [field_or fd_hour fd_minute fd_second fd_ms]. rewrite !Qfloor_Z.
    eexists. split_and!; [done|done|]. unfold local_ms. cbn [zone_offset utc].
    rewrite Z.mul_0_r, Z.add_0_r.
    assert (0 <= t mod day_ms < day_ms) by (apply Z.mod_pos_bound; reflexivity).
    change (Qfloor 0) with 0. unfold day_ms, representable in *.
    rewrite (umap_ms _ _ t); [f_equal; lia|done|]. unfold representable. lia.
  - intros d t f Hd [H|H]; unfold u_set; rewrite Hd, H; cbn [field_or]; repeat case_match; done.
  - intros d z _. done.
  - intros d t Hd Hy. rewrite Hd. eexists. split_and!; [done|apply iso_text_nonempty|].
    cbn [u_ms]. rewrite parse_iso_text by done. cbn. apply clip_Some.
    unfold representable, four_digit_year in *. lia.
  - intros t Ht. by apply clip_Some.
Qed.

Example utc_iso_text : iso_text 1736919000123 = "2025-01-15T05:30:00.123Z".
Proof. reflexivity. Qed.
