(* ===== verification/Calculations.v ===== *)
(** * Prayer time calculations ([src/utils/calculations.js])

    [calculateIqamah] derives a congregation time from a prayer's start and its
    settings; [calculateNextPrayer] picks the next prayer of a day. *)
From Stdlib Require Import Sorting.Sorted.
From S2P Require Import Prelude JsString JsValue Luxon LuxonUtc.

(** The order in which every service walks the prayers of a day. *)
Definition PRAYER_NAMES : list string :=
  ["fajr"; "sunrise"; "dhuhr"; "asr"; "maghrib"; "isha"].

(** [a % b] on numbers, for [a >= 0] and [b > 0]. *)
Definition js_rem (a b : Q) : Q := Qred (a - b * inject_Z (Qfloor (a / b)))%Q.

(** A unit of a Luxon duration: [undefined] counts for nothing, and what is
    not a number is refused. *)
Definition duration_unit (v : val) : result Q :=
  match v with
  | VUndef | VNull => Ok 0%Q
  | VNum q => Ok (Qred q)
  | VStr s => match js_number s with
              | NFin q => if String.eqb s "" then Throw (Error "Invalid unit value") else Ok q
              | _ => Throw (Error "Invalid unit value")
              end
  | _ => Throw (Error "Invalid unit value")
  end.

Section calculations.
Context `{L : Luxon}.

(** The rounding step: up to the next multiple of [roundTo] minutes. *)
Definition round_up (t : dt) (roundTo : val) : dt :=
  match to_number roundTo with
  | NFin q =>
      if negb (Qle_bool q 0) then
        let remainder := js_rem (inject_Z (dt_minute t)) q in
        if negb (Qeq_bool remainder 0)
        then dt_plus_minutes t (Qred (q - remainder)%Q)
        else t
      else t
  | _ => t
  end.

Definition calculateIqamah (prayerStartISO settings timezone : val) : result val :=
  if negb (truthy prayerStartISO) || negb (truthy settings) || negb (truthy timezone)
  then Throw (Error "Invalid arguments passed to calculateIqamah") else
  let prayerTime := dt_parse (str_of prayerStartISO) (str_of timezone) in
  if negb (dt_valid prayerTime)
  then Throw (Error "Invalid prayerStartISO format") else
  let fixedTime := prop settings "fixedTime" in
  if truthy fixedTime then
    if negb (is_string fixedTime)
    then Throw (TypeError "settings.fixedTime.split is not a function") else
    let parts := js_number <$> split_on ":" (str_of fixedTime) in
    d ← dt_set prayerTime (Fields (num_at parts 0) (num_at parts 1) (NFin 0) (NFin 0));
    Ok (dt_toISO d)
  else
    offset ← duration_unit (prop settings "iqamahOffset");
    d ← dt_set (dt_plus_minutes prayerTime offset) (Fields NUndef NUndef (NFin 0) (NFin 0));
    Ok (dt_toISO (round_up d (prop settings "roundTo"))).

(** The start time of a prayer row, when it has one. *)
Definition row_start (prayers : val) (name : string) : val :=
  if truthy (prop prayers name) then prop (prop prayers name) "start" else VUndef.

Definition next_of (prayers : val) (now : dt) (name : string) : bool :=
  truthy (row_start prayers name) &&
  dt_lt now (dt_fromISO (str_of (row_start prayers name))).

Fixpoint first_next (prayers : val) (now : dt) (names : list string) : val :=
  match names with
  | [] => VNull
  | name :: names' =>
      if next_of prayers now name
      then VObj [("name", VStr name); ("time", row_start prayers name);
                 ("isTomorrow", VBool false)]
      else first_next prayers now names'
  end.

Definition calculateNextPrayer (prayers : val) (now : dt) : val :=
  first_next prayers now PRAYER_NAMES.

(** The instant a row starts at, when it has a readable one. *)
Definition start_ms (prayers : val) (name : string) : option Z :=
  if truthy (row_start prayers name) then dt_ms (dt_fromISO (str_of (row_start prayers name)))
  else None.

(** The starts of a day do not go back in time along [names]. *)
Definition chronological (prayers : val) : list string -> Prop :=
  StronglySorted (fun a b => forall x y,
    start_ms prayers a = Some x -> start_ms prayers b = Some y -> x <= y).
End calculations.

(** ** Arithmetic of the rounding step *)
Lemma Qred_inject k : Qred (inject_Z k) = inject_Z k.
Proof.
  unfold Qred, inject_Z. pose proof (Z.ggcd_gcd k 1) as Hg.
  pose proof (Z.ggcd_correct_divisors k 1) as Hd.
  destruct (Z.ggcd k 1) as [g [a b]]. cbn in *.
  rewrite Z.gcd_1_r in Hg. subst g. destruct Hd as [Ha Hb].
  rewrite Z.mul_1_l in Ha, Hb. by subst.
Qed.

Lemma Qred_to_inject q k : (q == inject_Z k)%Q -> Qred q = inject_Z k.
Proof. intros H. rewrite (Qred_complete _ _ H). apply Qred_inject. Qed.

Lemma js_rem_Z m r : 0 < r -> js_rem (inject_Z m) (inject_Z r) = inject_Z (m mod r).
Proof.
  intros Hr. unfold js_rem. apply Qred_to_inject.
  assert (Qfloor (inject_Z m / inject_Z r)%Q = m / r) as ->.
  { destruct r as [|p|p]; [lia| |lia]. unfold Qfloor, Qdiv, Qmult, Qinv, inject_Z. cbn.
    by rewrite Z.mul_1_r. }
  rewrite <- inject_Z_mult. unfold Qminus. rewrite <- inject_Z_opp, <- inject_Z_plus.
  rewrite (Z.mod_eq m r) by lia. reflexivity.
Qed.

Lemma Qsub_inject a b : Qred (inject_Z a - inject_Z b)%Q = inject_Z (a - b).
Proof.
  apply Qred_to_inject. unfold Qminus. by rewrite <- inject_Z_opp, <- inject_Z_plus.
Qed.

(** The minutes [round_up] adds to a wall-clock minute [m]. *)
Definition rounding (r m : Z) : Z := (r - m mod r) mod r.

Lemma rounding_bounds r m : 0 < r -> 0 <= rounding r m < r.
Proof. intros. apply Z.mod_pos_bound. lia. Qed.

Lemma rounding_multiple r m : 0 < r -> (m + rounding r m) mod r = 0.
Proof.
  intros Hr. unfold rounding. rewrite Zplus_mod_idemp_r.
  replace (m + (r - m mod r)) with (r + (m - m mod r)) by lia.
  rewrite (Z.mod_eq m r) by lia.
  replace (r + (m - (m - r * (m / r)))) with ((1 + m / r) * r) by lia.
  apply Z.mod_mul. lia.
Qed.

Lemma rounding_zero r m : 0 < r -> m mod r = 0 -> rounding r m = 0.
Proof. intros Hr Hm. unfold rounding. by rewrite Hm, Z.sub_0_r, Z.mod_same by lia. Qed.

Lemma rounding_nonzero r m : 0 < r -> m mod r <> 0 -> rounding r m = r - m mod r.
Proof.
  intros Hr Hm. unfold rounding. apply Z.mod_small.
  pose proof (Z.mod_pos_bound m r Hr). lia.
Qed.

Lemma rounding_least r m k :
  0 < r -> (r | 60) -> 0 <= k -> (m + k) mod r = 0 -> rounding r (m mod 60) <= k.
Proof.
  intros Hr Hdiv Hk Hmul.
  assert ((m mod 60) mod r = m mod r) as E.
  { destruct Hdiv as [q Hq]. rewrite Hq, Z.mul_comm, Z.rem_mul_r by nia.
    by rewrite Z.mul_comm, Z_mod_plus_full, Z.mod_mod by lia. }
  unfold rounding. rewrite E.
  assert ((r - m mod r) mod r = k mod r) as ->.
  { apply Z.mod_divide in Hmul as [j Hj]; [|lia].
    replace k with (- m + j * r) by lia. rewrite Z_mod_plus_full.
    replace (r - m mod r) with (- m + (m / r + 1) * r); [by rewrite Z_mod_plus_full|].
    rewrite (Z.mod_eq m r) by lia. lia. }
  apply Z.mod_le; lia.
Qed.

Section laws.
Context `{LL : LuxonLaws}.

Lemma round_up_ms d t r :
  dt_ms d = Some t -> 0 < r ->
  representable t -> representable (t + 60000 * r) ->
  dt_ms (round_up d (VInt r)) = Some (t + 60000 * rounding r (dt_minute d)) /\
  dt_zone (round_up d (VInt r)) = dt_zone d.
Proof.
  intros Hd Hr Ht Htr. unfold round_up, VInt. cbn [to_number].
  assert (Qle_bool (inject_Z r) 0 = false) as ->.
  { apply not_true_is_false. rewrite Qle_bool_iff. unfold Qle. cbn. lia. }
  cbn [negb]. rewrite js_rem_Z by done.
  pose proof (Z.mod_pos_bound (dt_minute d) r Hr) as Hb.
  destruct (decide (dt_minute d mod r = 0)) as [E|E].
  - rewrite E, rounding_zero by done. change (negb (Qeq_bool (inject_Z 0) 0)) with false.
    cbv beta iota zeta. rewrite Hd. split; [f_equal; lia|done].
  - assert (Qeq_bool (inject_Z (dt_minute d mod r)) 0 = false) as ->.
    { apply not_true_is_false. rewrite Qeq_bool_iff. unfold Qeq. cbn. lia. }
    cbn [negb]. rewrite Qsub_inject, rounding_nonzero by done.
    split; [|apply law_plus_minutes_zone].
    apply law_plus_minutes; [done|]. unfold representable in *. lia.
Qed.

Lemma wall_minute z t k :
  (forall t', t <= t' <= t + 60000 * k -> zone_offset z t' = zone_offset z t) -> 0 <= k ->
  (t + 60000 * k + 60000 * zone_offset z (t + 60000 * k)) / 60000 =
  (t + 60000 * zone_offset z t) / 60000 + k.
Proof.
  intros Hz Hk. rewrite (Hz (t + 60000 * k)) by lia.
  replace (t + 60000 * k + 60000 * zone_offset z t)
    with (t + 60000 * zone_offset z t + k * 60000) by lia.
  by rewrite Z.div_add by lia.
Qed.

(** When [r] divides the hour and the zone's offset is steady, the rounded
    time shows a minute that is a multiple of [r]. *)
Lemma round_up_minute d t r :
  dt_ms d = Some t -> 0 < r -> (r | 60) -> steady (dt_zone d) t ->
  representable t -> representable (t + 60000 * r) ->
  dt_minute (round_up d (VInt r)) mod r = 0.
Proof.
  intros Hd Hr Hdiv Hst Ht Htr. destruct (round_up_ms d t r Hd Hr Ht Htr) as [Hm Hz].
  rewrite (law_minute _ _ Hm). unfold local_ms. rewrite Hz.
  pose proof (rounding_bounds r (dt_minute d) Hr) as Hb.
  assert (r <= 60) by (apply Z.divide_pos_le; [lia|done]).
  rewrite wall_minute by (try lia; intros; apply Hst; lia).
  assert (forall x, (x mod 60) mod r = x mod r) as Hmm.
  { intros x. destruct Hdiv as [q Hq]. rewrite Hq, Z.mul_comm.
    rewrite Z.rem_mul_r by nia. by rewrite Z.mul_comm, Z_mod_plus_full, Z.mod_mod by lia. }
  rewrite Hmm, (law_minute _ _ Hd).
  unfold rounding. rewrite Hmm. fold (rounding r (local_ms d t / 60000)).
  by apply rounding_multiple.
Qed.

Lemma next_of_spec prayers now n name :
  dt_ms now = Some n ->
  next_of prayers now name = true <-> exists x, start_ms prayers name = Some x /\ n < x.
Proof.
  intros Hn. unfold next_of, start_ms, dt_lt. rewrite Hn.
  destruct (truthy _); cbn; [|naive_solver].
  destruct (dt_ms (dt_fromISO _)) as [x|]; [|naive_solver]. rewrite Z.ltb_lt. naive_solver.
Qed.

Lemma first_next_spec prayers now n names :
  dt_ms now = Some n -> chronological prayers names ->
  match first_next prayers now names with
  | VNull => forall name x, name ∈ names -> start_ms prayers name = Some x -> x <= n
  | v => exists name x,
      v = VObj [("name", VStr name); ("time", row_start prayers name);
                ("isTomorrow", VBool false)] /\
      name ∈ names /\ start_ms prayers name = Some x /\ n < x /\
      forall name' x', name' ∈ names -> start_ms prayers name' = Some x' ->
        n < x' -> x <= x'
  end.
Proof.
  intros Hn Hc. induction Hc as [|a names Hc IH Ha]; cbn.
  { intros name x H. by apply not_elem_of_nil in H. }
  rewrite Forall_forall in Ha. pose proof (next_of_spec prayers now n a Hn) as Hspec.
  destruct (next_of prayers now a).
  - destruct Hspec as [(x & Hx & Hlt) _]; [done|]. exists a, x. split_and!; try done; [set_solver|].
    intros name' x' [->|Hin]%elem_of_cons Hx' _; [simplify_eq; lia|]. by eapply Ha.
  - assert (forall x, start_ms prayers a = Some x -> x <= n) as Hpast.
    { intros x Hx. apply Z.nlt_ge. intros Hlt. by discriminate (proj2 Hspec ltac:(eauto)). }
    destruct (first_next prayers now names); try (destruct IH as (?&?&?&?); done).
    + intros name x [->|Hin]%elem_of_cons; eauto.
    + destruct IH as (name & x & ? & ? & ? & ? & Hmin). exists name, x.
      split_and!; try done; [set_solver|].
      intros name' x' [->|Hin]%elem_of_cons Hx' Hlt; [|eauto]. specialize (Hpast _ Hx'). lia.
Qed.
End laws.

(** ** Properties *)
Section properties.
Context `{LL : LuxonLaws}.

(** Without a fixed time the result is the start plus the configured
    offset, taken back to the whole minute and then forward by fewer than
    [roundTo] minutes; it is the first such minute whose wall-clock minute is a
    multiple of [roundTo] whenever [roundTo] divides the hour. *)
Theorem calculateIqamah_dynamic s tz settings t o r :
  s <> "" -> tz <> "" -> truthy settings = true ->
  dt_ms (dt_parse s tz) = Some t ->
  truthy (prop settings "fixedTime") = false ->
  prop settings "iqamahOffset" = VInt o -> prop settings "roundTo" = VInt r -> 0 < r ->
  let u := t + 60000 * o - (t + 60000 * o) mod 60000 in
  representable (t + 60000 * o) -> representable u -> representable (u + 60000 * r) ->
  exists d k,
    calculateIqamah (VStr s) settings (VStr tz) = Ok (dt_toISO d) /\
    dt_ms d = Some (u + 60000 * k) /\ 0 <= k < r /\
    ((r | 60) -> steady (dt_zone d) u ->
       dt_minute d mod r = 0 /\
       forall k', 0 <= k' -> (local_ms d u / 60000 + k') mod r = 0 -> k <= k').
Proof.
  intros Hs Htz Hset Ht Hf Ho Hr Hpos u R1 R2 R3.
  unfold calculateIqamah. cbn [truthy str_of]. apply String.eqb_neq in Hs as ->, Htz as ->.
  rewrite Hset. cbn [negb orb]. rewrite (dt_valid_ms _ _ Ht). cbn [negb]. rewrite Hf, Ho.
  cbn [duration_unit VInt mbind result_bind]. rewrite Qred_inject.
  assert (Hp := law_plus_minutes _ _ o Ht R1).
  destruct (law_set_seconds _ _ Hp R2) as (d & Hd & Hz & Hms). fold u in Hms.
  rewrite Hd. cbn [mbind result_bind]. rewrite Hr.
  destruct (round_up_ms d u r Hms Hpos R2 R3) as [Hm Hzr].
  eexists _, (rounding r (dt_minute d)). split; [done|]. split; [done|].
  split; [by apply rounding_bounds|]. rewrite Hzr. intros Hdiv Hst.
  split; [by eapply round_up_minute|]. intros k' Hk' Hmul.
  unfold local_ms in Hmul. rewrite Hzr in Hmul. fold (local_ms d u) in Hmul.
  rewrite (law_minute _ _ Hms). by apply rounding_least.
Qed.

(** A fixed time [h:m] is the congregation time of the day, whatever the
    offset and the rounding say. *)
Theorem calculateIqamah_fixed s tz settings t hs ms rest h m :
  s <> "" -> tz <> "" -> truthy settings = true ->
  dt_ms (dt_parse s tz) = Some t ->
  prop settings "fixedTime" = VStr (join_with ":" (hs :: ms :: rest)) ->
  Forall (fun p => has_char ":" p = false) (hs :: ms :: rest) ->
  js_number hs = NFin (inject_Z h) -> js_number ms = NFin (inject_Z m) ->
  0 <= h < 24 -> 0 <= m < 60 -> steady (dt_zone (dt_parse s tz)) t ->
  representable (t - 86400000) -> representable (t + 86400000) ->
  exists d,
    calculateIqamah (VStr s) settings (VStr tz) = Ok (dt_toISO d) /\
    dt_ms d = Some (t - local_ms (dt_parse s tz) t mod 86400000 + 3600000 * h + 60000 * m).
Proof.
  intros Hs Htz Hset Ht Hf Hno Hh Hm Hhb Hmb Hst R1 R2.
  unfold calculateIqamah. cbn [truthy str_of]. apply String.eqb_neq in Hs as ->, Htz as ->.
  rewrite Hset. cbn [negb orb]. rewrite (dt_valid_ms _ _ Ht). cbn [negb]. rewrite Hf.
  assert (truthy (VStr (join_with ":" (hs :: ms :: rest))) = true) as ->.
  { cbn. by destruct hs. }
  cbn [is_string negb str_of]. rewrite split_join by done. cbn [fmap list_fmap].
  rewrite Hh, Hm. cbn [num_at].
  destruct (law_set_clock _ _ h m Ht Hst Hhb Hmb R1 R2) as (d & Hd & _ & Hdm).
  exists d. cbn. rewrite Hd. by split.
Qed.

(** For a day whose starts are in the canonical order, the next prayer is
    the earliest one that starts strictly after [now], and [null] means that
    every start has passed. *)
Theorem calculateNextPrayer_earliest prayers now n :
  dt_ms now = Some n -> chronological prayers PRAYER_NAMES ->
  match calculateNextPrayer prayers now with
  | VNull => forall name x, name ∈ PRAYER_NAMES -> start_ms prayers name = Some x -> x <= n
  | v => exists name x,
      v = VObj [("name", VStr name); ("time", row_start prayers name);
                ("isTomorrow", VBool false)] /\
      name ∈ PRAYER_NAMES /\ start_ms prayers name = Some x /\ n < x /\
      forall name' x', name' ∈ PRAYER_NAMES -> start_ms prayers name' = Some x' ->
        n < x' -> x <= x'
  end.
Proof. intros Hn Hc. by apply first_next_spec. Qed.
End properties.

(** ** Witnesses, on the UTC implementation *)
Definition sample_settings (more : list (string * val)) : val :=
  VObj ([("iqamahOffset", VInt 17); ("roundTo", VInt 5)] ++ more).

Lemma calculateIqamah_dynamic_witness :
  exists d k,
    calculateIqamah (VStr "2025-01-15T05:30:42.123Z") (sample_settings []) (VStr "Etc/UTC")
      = Ok (dt_toISO d) /\
    dt_ms d = Some (1736920020000 + 60000 * k) /\ 0 <= k < 5 /\
    ((5 | 60) -> steady (dt_zone d) 1736920020000 ->
       dt_minute d mod 5 = 0 /\
       forall k', 0 <= k' ->
         (local_ms d 1736920020000 / 60000 + k') mod 5 = 0 -> k <= k').
Proof.
  apply (calculateIqamah_dynamic (L := utc) "2025-01-15T05:30:42.123Z" "Etc/UTC"
    (sample_settings []) 1736919042123 17 5); try done; vm_compute; split; discriminate.
Defined.

Lemma calculateIqamah_fixed_witness :
  exists d,
    calculateIqamah (VStr "2025-01-15T05:30:42.123Z")
      (sample_settings [("fixedTime", VStr "06:15")]) (VStr "Etc/UTC") = Ok (dt_toISO d) /\
    dt_ms d = Some 1736921700000.
Proof.
  apply (calculateIqamah_fixed (L := utc) "2025-01-15T05:30:42.123Z" "Etc/UTC"
    (sample_settings [("fixedTime", VStr "06:15")]) 1736919042123 "06" "15" [] 6 15);
    try done; try (vm_compute; split; discriminate); repeat constructor.
Defined.

Definition sample_day : val :=
  VObj [("fajr", VObj [("start", VStr "2025-01-15T05:30:00.000Z")]);
        ("dhuhr", VObj [("start", VStr "2025-01-15T12:15:00.000Z")]);
        ("isha", VObj [("start", VStr "2025-01-15T18:00:00.000Z")])].

Lemma calculateNextPrayer_earliest_witness :
  exists name x,
    calculateNextPrayer (L := utc) sample_day (dt_now 1736940000000)
      = VObj [("name", VStr name); ("time", row_start sample_day name);
              ("isTomorrow", VBool false)] /\
    name ∈ PRAYER_NAMES /\ start_ms (L := utc) sample_day name = Some x /\
    1736940000000 < x /\
    forall name' x', name' ∈ PRAYER_NAMES -> start_ms (L := utc) sample_day name' = Some x' ->
      1736940000000 < x' -> x <= x'.
Proof.
  apply (calculateNextPrayer_earliest (L := utc) sample_day (dt_now 1736940000000)
    1736940000000); [done|].
  repeat constructor; vm_compute; intros ?? [= <-] [= <-]; discriminate.
Defined.
