(* ===== verification/AsyncLock.v ===== *)
(** * The request de-duplicator ([src/utils/asyncLock.js],
      [BaseProvider.deduplicateRequest])

    Node runs one callback at a time, so the interleavings of concurrent
    callers are the sequences of two events: a call of [run], up to its first
    [await], and the completion of an operation in flight, with the [finally]
    block that follows it.  [exec] plays such a sequence on the lock's state. *)
From S2P Require Import Prelude.

(** What an async body does when it is called: it either hands back a promise
    or, when it is not an [async] function, may throw on the spot. *)
Class Body (F : Type) := sync_throw : F -> option jserr.

Section lock.
Context {F R : Type} `{HB : Body F}.

(** A promise: the key and body it was created for, and its completion once it
    is settled.  Promises are identified by their order of creation. *)
Record promise := Promise {
  p_key : string;
  p_body : F;
  p_value : option (result R)
}.

Record lock := Lock {
  pending : gmap string nat;     (* this.pending / this.activeRequests *)
  promises : list promise
}.

Definition empty_lock : lock := Lock ∅ [].

(** [AsyncLock.run]: the promise the caller is given.  A body that throws
    before its first [await] runs the [finally] block before [pending.set]. *)
Definition run (key : string) (fn : F) (st : lock) : nat * lock :=
  match pending st !! key with
  | Some p => (p, st)
  | None =>
      let p := length (promises st) in
      match sync_throw fn with
      | None => (p, Lock (<[key := p]> (pending st)) (promises st ++ [Promise key fn None]))
      | Some e => (p, Lock (<[key := p]> (delete key (pending st)))
                        (promises st ++ [Promise key fn (Some (Throw e))]))
      end
  end.

(** [BaseProvider.deduplicateRequest]: the body is called before the key is
    recorded, so a body that throws on the spot records nothing. *)
Definition deduplicateRequest (key : string) (fetchFn : F) (st : lock) : nat * lock :=
  match pending st !! key with
  | Some p => (p, st)
  | None =>
      let p := length (promises st) in
      match sync_throw fetchFn with
      | None => (p, Lock (<[key := p]> (pending st)) (promises st ++ [Promise key fetchFn None]))
      | Some e => (p, Lock (pending st) (promises st ++ [Promise key fetchFn (Some (Throw e))]))
      end
  end.

(** The operation behind promise [p] completes, and its [finally] runs. *)
Definition settled (p : nat) (r : result R) (st : lock) : lock :=
  match promises st !! p with
  | Some (Promise k f None) =>
      Lock (delete k (pending st)) (<[p := Promise k f (Some r)]> (promises st))
  | _ => st
  end.

Inductive event :=
| Call (key : string) (fn : F)
| Dedup (key : string) (fn : F)
| Done (p : nat) (r : result R).

Definition step (st : lock) (e : event) : lock :=
  match e with
  | Call k f => (run k f st).2
  | Dedup k f => (deduplicateRequest k f st).2
  | Done p r => settled p r st
  end.

Definition exec (es : list event) (st : lock) : lock := foldl step st es.

(** The value promise [p] has, if it is settled. *)
Definition value_of (p : nat) (st : lock) : option (result R) :=
  pr ← promises st !! p; p_value pr.

Definition in_flight (p : nat) (k : string) (st : lock) : Prop :=
  exists f, promises st !! p = Some (Promise k f None).

(** ** Invariant: the map holds exactly the operations in flight *)
Definition lock_inv (st : lock) : Prop :=
  forall k p, pending st !! k = Some p <-> in_flight p k st.

(** No body of the sequence throws before its first [await]: every caller in
    the source passes an [async] function. *)
Definition all_async (es : list event) : Prop :=
  Forall (fun e => match e with
                   | Call _ f | Dedup _ f => sync_throw f = None
                   | Done _ _ => True end) es.

Lemma lock_inv_empty : lock_inv empty_lock.
Proof. intros k p. split; [done|]. intros [f Hf]. done. Qed.

Lemma in_flight_app p k pend pr l :
  in_flight p k (Lock pend (l ++ [pr])) <->
  (exists f, l !! p = Some (Promise k f None)) \/
  (p = length l /\ exists f, pr = Promise k f None).
Proof.
  unfold in_flight. cbn [promises]. split.
  - intros [f Hf]. apply lookup_app_Some in Hf as [Hf|[Hle Hf]]; [left; eauto|right].
    apply list_lookup_singleton_Some in Hf as [? ->]. split; [lia|eauto].
  - intros [[f Hf]|[-> [f ->]]]; exists f; [by apply lookup_app_l_Some|].
    by rewrite lookup_app_r, Nat.sub_diag by done.
Qed.

Lemma run_inv k f st :
  lock_inv st -> pending st !! k = None -> lock_inv
    (Lock (<[k := length (promises st)]> (pending st)) (promises st ++ [Promise k f None])).
Proof.
  intros Hinv Hk k' p. rewrite in_flight_app. cbn [pending].
  rewrite lookup_insert_Some, (Hinv k' p). unfold in_flight. split.
  - intros [[<- <-]|[Hne Hf]]; [right; eauto|by left].
  - intros [[f' Hf]|[-> [f' [= <- _]]]]; [|by left]. right. split; [|eauto].
    intros <-. assert (in_flight p k st) as Hp by (by exists f').
    by apply Hinv in Hp; rewrite Hk in Hp.
Qed.

Lemma settled_inv p r st : lock_inv st -> lock_inv (settled p r st).
Proof.
  intros Hinv. unfold settled. destruct (promises st !! p) as [[k f [v|]]|] eqn:Hp; [done| |done].
  intros k' p'. cbn [pending]. rewrite lookup_delete_Some, (Hinv k' p'). unfold in_flight. cbn [promises].
  assert (p < length (promises st))%nat as Hlt by by eapply lookup_lt_Some.
  split.
  - intros [Hne [f' Hf']]. exists f'. rewrite list_lookup_insert_ne; [done|].
    intros <-. by simplify_eq.
  - intros [f' Hf']. apply list_lookup_insert_Some in Hf' as [(_ & ? & _)|[Hne Hf']]; [done|].
    split; [|eauto]. intros <-.
    assert (in_flight p k st) as H1%Hinv by (by exists f).
    assert (in_flight p' k st) as H2%Hinv by (by exists f'). by simplify_eq.
Qed.

Lemma exec_inv es st : lock_inv st -> all_async es -> lock_inv (exec es st).
Proof.
  intros Hst Hes. revert st Hst. induction Hes as [|e es He Hes IH]; intros st Hst; [done|].
  cbn. apply IH. destruct e as [k f|k f|p r]; cbn in *; [| |by apply settled_inv].
  - unfold run. destruct (pending st !! k) eqn:Hk; [done|]. rewrite He. by apply run_inv.
  - unfold deduplicateRequest. destruct (pending st !! k) eqn:Hk; [done|].
    rewrite He. by apply run_inv.
Qed.

(** ** A promise that is created stays, and a settled one keeps its value *)
Lemma step_promise st e p pr :
  promises st !! p = Some pr ->
  exists v, promises (step st e) !! p = Some (Promise (p_key pr) (p_body pr) v) /\
    (p_value pr <> None -> v = p_value pr).
Proof.
  intros Hp. assert (forall (l : list promise) pr', l !! p = Some pr' -> pr' = pr ->
    exists v, l !! p = Some (Promise (p_key pr) (p_body pr) v) /\
      (p_value pr <> None -> v = p_value pr)) as Hkeep.
  { intros l pr' Hl ->. exists (p_value pr). by destruct pr. }
  destruct e as [k f|k f|p' r]; cbn; unfold run, deduplicateRequest, settled.
  - destruct (pending st !! k); [eauto|]. destruct (sync_throw f); cbn;
      (eapply Hkeep; [by apply lookup_app_l_Some|done]).
  - destruct (pending st !! k); [eauto|]. destruct (sync_throw f); cbn;
      (eapply Hkeep; [by apply lookup_app_l_Some|done]).
  - destruct (promises st !! p') as [[k f [v|]]|] eqn:Hp'; eauto. cbn.
    destruct (decide (p = p')) as [->|Hne].
    + simplify_eq. exists (Some r). cbn. split; [|done].
      rewrite list_lookup_insert_eq; [done|]. by eapply lookup_lt_Some.
    + eapply Hkeep; [by rewrite list_lookup_insert_ne|done].
Qed.

Lemma exec_promise es st p pr :
  promises st !! p = Some pr ->
  exists v, promises (exec es st) !! p = Some (Promise (p_key pr) (p_body pr) v) /\
    (p_value pr <> None -> v = p_value pr).
Proof.
  revert st pr. induction es as [|e es IH]; intros st pr Hp; cbn.
  { exists (p_value pr). split; [by destruct pr|done]. }
  destruct (step_promise st e p pr Hp) as (v & Hv & Hkeep).
  destruct (IH _ _ Hv) as (v' & Hv' & Hkeep'). cbn in *. exists v'. split; [done|].
  intros Hn. rewrite <- (Hkeep Hn). apply Hkeep'. by rewrite Hkeep.
Qed.

(** A key recorded for a settled promise, with no operation of its own in
    flight, is never released again. *)
Definition leaked (k : string) (p : nat) (v : result R) (st : lock) : Prop :=
  pending st !! k = Some p /\ value_of p st = Some v /\ forall p', ~ in_flight p' k st.

Lemma leaked_add k p v st k' f v' pend :
  leaked k p v st -> k <> k' -> pend !! k = Some p ->
  leaked k p v (Lock pend (promises st ++ [Promise k' f v'])).
Proof.
  intros (Hk & Hv & Hno) Hne Hk'. split_and!; [done| |].
  - unfold value_of in *. cbn. destruct (promises st !! p) as [pr|] eqn:Hp; [|done].
    by rewrite (lookup_app_l_Some _ _ _ _ Hp).
  - intros p' [f' Hf']. cbn in Hf'. apply lookup_app_Some in Hf' as [Hf'|[_ Hf']].
    + by apply (Hno p'); exists f'.
    + apply list_lookup_singleton_Some in Hf' as [_ ?]. by simplify_eq.
Qed.

Lemma leaked_step k p v st e : leaked k p v st -> leaked k p v (step st e).
Proof.
  intros Hl. pose proof Hl as (Hk & Hv & Hno).
  destruct e as [k' f|k' f|p' r]; cbn; unfold run, deduplicateRequest, settled.
  1,2: destruct (decide (k = k')) as [->|]; [by rewrite Hk|];
    destruct (pending st !! k') eqn:?; [done|]; destruct (sync_throw f); cbn;
    apply leaked_add; try done; by simplify_map_eq.
  destruct (promises st !! p') as [[k' f [v'|]]|] eqn:Hp'; [done| |done].
  destruct (decide (k' = k)) as [->|Hne]; [by exfalso; apply (Hno p'); exists f|].
  split_and!; cbn; [by rewrite lookup_delete_ne| |].
  - unfold value_of in *. cbn. destruct (decide (p' = p)) as [->|].
    + by rewrite Hp' in Hv.
    + by rewrite list_lookup_insert_ne.
  - intros q [g Hg]. cbn in Hg.
    apply list_lookup_insert_Some in Hg as [(_ & ? & _)|[_ Hg]]; [done|].
    apply (Hno q). by exists g.
Qed.

Lemma leaked_exec k p v es st : leaked k p v st -> leaked k p v (exec es st).
Proof. revert st. induction es as [|e es IH]; intros st Hl; [done|].
  cbn. by apply IH, leaked_step. Qed.

Lemma settled_value p k f r st :
  promises st !! p = Some (Promise k f None) ->
  promises (settled p r st) !! p = Some (Promise k f (Some r)) /\
  pending (settled p r st) !! k = None.
Proof.
  intros Hp. unfold settled. rewrite Hp. cbn. rewrite lookup_delete_eq.
  split; [|done]. apply list_lookup_insert_eq. by eapply lookup_lt_Some.
Qed.

Lemma in_flight_run st k p f :
  lock_inv st -> in_flight p k st ->
  run k f st = (p, st) /\ deduplicateRequest k f st = (p, st).
Proof. intros Hinv Hp%Hinv. unfold run, deduplicateRequest. by rewrite Hp. Qed.

(** ** Properties *)

(** C20: at most one operation per key is in flight; while it is, every caller
    of that key is handed its promise and starts nothing; when none is, the
    caller's own body is started under a fresh promise. *)
Theorem single_flight es :
  all_async es ->
  let st := exec es empty_lock in
  (forall k p1 p2, in_flight p1 k st -> in_flight p2 k st -> p1 = p2) /\
  (forall k p f, in_flight p k st -> run k f st = (p, st) /\ deduplicateRequest k f st = (p, st)) /\
  (forall k f, (forall p, ~ in_flight p k st) -> sync_throw f = None ->
     (run k f st).1 = length (promises st) /\
     promises (run k f st).2 = promises st ++ [Promise k f None] /\
     in_flight (run k f st).1 k (run k f st).2).
Proof.
  intros Hes st. assert (lock_inv st) as Hinv by (by apply exec_inv; [apply lock_inv_empty|]).
  split_and!.
  - intros k p1 p2 H1%Hinv H2%Hinv. by simplify_eq.
  - intros k p f. by apply in_flight_run.
  - intros k f Hno Hf. unfold run. destruct (pending st !! k) as [p|] eqn:Hk.
    { by apply Hinv, Hno in Hk. }
    rewrite Hf. cbn. split_and!; [done|done|]. exists f. cbn.
    by rewrite lookup_app_r, Nat.sub_diag by done.
Qed.

(** Callers that overlap share one result: the second caller of a key whose
    operation is in flight is given the first one's promise whatever body it
    brings, that promise takes the value the first operation completes with and
    keeps it, and only a call made after the completion starts a new operation. *)
Theorem callers_share_result es es1 es2 k p r (f g : F) :
  all_async es -> all_async es1 -> sync_throw g = None ->
  let st := exec es empty_lock in
  promises st !! p = Some (Promise k f None) ->
  let st1 := exec es1 (run k g st).2 in
  in_flight p k st1 ->
  (run k g st).1 = p /\
  promises (exec es2 (settled p r st1)) !! p = Some (Promise k f (Some r)) /\
  (run k g (settled p r st1)).1 <> p.
Proof.
  intros Hes Hes1 Hg st Hp st1 [f' Hp1].
  destruct (in_flight_run st k p g) as [Hrun1 _];
    [by apply exec_inv; [apply lock_inv_empty|]|by exists f|].
  assert (f' = f) as ->.
  { unfold st1 in Hp1. rewrite Hrun1 in Hp1. cbn in Hp1.
    destruct (exec_promise es1 st p _ Hp) as (v & Hv & _). cbn in Hv. by simplify_eq. }
  rewrite Hrun1. split; [done|].
  destruct (settled_value p k f r st1 Hp1) as [Hv Hk].
  destruct (exec_promise es2 _ _ _ Hv) as (v & -> & Hkeep). cbn in *. rewrite Hkeep by done.
  split; [done|]. unfold run. rewrite Hk, Hg. cbn.
  apply lookup_lt_Some in Hv. lia.
Qed.

(** A body that throws before its first [await] takes its key out of use
    for good: [pending.set] runs after the [finally] block, so every later call
    of the key is handed the same rejected promise.  [deduplicateRequest]
    records nothing in that case. *)
Theorem sync_throw_leaks_key es k (f g : F) e st :
  lock_inv st -> pending st !! k = None -> sync_throw f = Some e ->
  let st1 := (run k f st).2 in
  let st2 := exec es st1 in
  run k g st2 = ((run k f st).1, st2) /\
  value_of (run k f st).1 st2 = Some (Throw e) /\
  pending (deduplicateRequest k f st).2 = pending st.
Proof.
  intros Hinv Hk Hf st1 st2.
  assert (leaked k (run k f st).1 (Throw e) st1) as (H1 & H2 & _)%(leaked_exec _ _ _ es).
  { unfold st1, run. rewrite Hk, Hf. split_and!; cbn.
    - by simplify_map_eq.
    - unfold value_of. cbn. by rewrite lookup_app_r, Nat.sub_diag by done.
    - intros p [h Hp]. cbn in Hp. apply lookup_app_Some in Hp as [Hp|[_ Hp]].
      + assert (in_flight p k st) as Hq%Hinv by (by exists h). by rewrite Hk in Hq.
      + apply list_lookup_singleton_Some in Hp as [_ ?]. by simplify_eq. }
  fold st2 in H1, H2. split_and!; [|done|].
  - unfold run at 1. by rewrite H1.
  - unfold deduplicateRequest. by rewrite Hk, Hf.
Qed.
End lock.

Arguments promise : clear implicits.
Arguments lock : clear implicits.
Arguments event : clear implicits.

(** ** Witnesses: bodies named by a number, number 0 throwing on the spot *)
Definition sample_body : Body nat := fun n => match n with O => Some (Error "boom") | _ => None end.

Definition sample_events : list (event nat nat) := [Call "fetch-2025" 1%nat; Call "voices" 2%nat].

Lemma single_flight_witness :
  let st := exec (HB := sample_body) sample_events empty_lock in
  in_flight 0 "fetch-2025" st /\ run (HB := sample_body) "fetch-2025" 3%nat st = (0%nat, st).
Proof.
  split; [by exists 1%nat|].
  apply (single_flight (HB := sample_body) sample_events); [by repeat constructor|by exists 1%nat].
Defined.

Lemma callers_share_result_witness :
  let st := exec (HB := sample_body) sample_events empty_lock in
  (run (HB := sample_body) "fetch-2025" 3%nat st).1 = 0%nat.
Proof.
  apply (callers_share_result (HB := sample_body) sample_events [Done 1%nat (Ok 7%nat)] []
    "fetch-2025" 0%nat (Ok 9%nat) 1%nat 3%nat); try by repeat constructor. by exists 1%nat.
Defined.

Lemma sync_throw_leaks_key_witness :
  let st2 := exec (HB := sample_body) [Done 0%nat (Ok 1%nat); Call "k" 5%nat]
    (run (HB := sample_body) "k" 0%nat empty_lock).2 in
  run (HB := sample_body) "k" 4%nat st2 = (0%nat, st2).
Proof.
  apply (sync_throw_leaks_key (HB := sample_body) [Done 0%nat (Ok 1%nat); Call "k" 5%nat] "k" 0%nat
    4%nat (Error "boom") empty_lock); [apply lock_inv_empty|done|done].
Defined.
