(* ===== verification/Zod.v ===== *)
(** * The schema library, as an interface

    Zod is a third-party package.  What the source writes is the schemas, so a
    schema is data here (one constructor per combinator the source uses), the
    parser is a parameter ([Zod]), and the law the theorems rely on is the
    documented one: what [parse] returns has the shape the schema describes, and
    an object schema leaves the keys it does not name out, unless it is a
    [passthrough] one.
    [zod_ref] is a parser that satisfies it. *)
From S2P Require Import Prelude JsString JsValue.

Unset Elimination Schemes.
Inductive schema :=
| ZAny
| ZString (checks : list (string -> bool))       (* z.string().max(..)/.regex(..) *)
| ZNumber (checks : list (Q -> bool))            (* z.number().min(..).max(..).int() *)
| ZCoerceNumber (checks : list (Q -> bool))      (* z.coerce.number()... *)
| ZBool
| ZEnum (l : list string)                        (* z.enum, z.literal *)
| ZArray (s : schema)
| ZObject (passthrough : bool) (fields : list (string * schema))
| ZRecord (s : schema)                           (* z.record(z.string(), s) *)
| ZUnion (l : list schema)
| ZNullable (s : schema)
| ZOptional (s : schema)
| ZDefault (d : val) (s : schema)
| ZRefine (p : val -> bool) (s : schema)
| ZTransform (f : val -> val) (s : schema).
Set Elimination Schemes.

Definition schema_ind (P : schema -> Prop)
    (Hany : P ZAny) (Hstr : forall c, P (ZString c)) (Hnum : forall c, P (ZNumber c))
    (Hco : forall c, P (ZCoerceNumber c)) (Hbool : P ZBool) (Henum : forall l, P (ZEnum l))
    (Harr : forall s, P s -> P (ZArray s))
    (Hobj : forall b fs, Forall (fun kv => P kv.2) fs -> P (ZObject b fs))
    (Hrec : forall s, P s -> P (ZRecord s))
    (Hun : forall l, Forall P l -> P (ZUnion l))
    (Hnul : forall s, P s -> P (ZNullable s)) (Hopt : forall s, P s -> P (ZOptional s))
    (Hdef : forall d s, P s -> P (ZDefault d s)) (Href : forall p s, P s -> P (ZRefine p s))
    (Htr : forall f s, P s -> P (ZTransform f s)) : forall s, P s :=
  fix F s := match s with
  | ZAny => Hany | ZString c => Hstr c | ZNumber c => Hnum c | ZCoerceNumber c => Hco c
  | ZBool => Hbool | ZEnum l => Henum l
  | ZArray s => Harr s (F s)
  | ZObject b fs => Hobj b fs ((fix G fs := match fs return Forall (fun kv => P kv.2) fs with
      | [] => Forall_nil_2 _
      | kv :: fs' => Forall_cons_2 (fun kv => P kv.2) kv fs' (F kv.2) (G fs') end) fs)
  | ZRecord s => Hrec s (F s)
  | ZUnion l => Hun l ((fix G l := match l return Forall P l with
      | [] => Forall_nil_2 P
      | x :: l' => Forall_cons_2 P x l' (F x) (G l') end) l)
  | ZNullable s => Hnul s (F s) | ZOptional s => Hopt s (F s)
  | ZDefault d s => Hdef d s (F s) | ZRefine p s => Href p s (F s)
  | ZTransform f s => Htr f s (F s)
  end.

(** The values [parse] may return. *)
Fixpoint conforms (s : schema) (v : val) : Prop :=
  match s with
  | ZAny => True
  | ZString cs => exists x, v = VStr x /\ forallb (fun c => c x) cs = true
  | ZNumber cs | ZCoerceNumber cs => exists q, v = VNum q /\ forallb (fun c => c q) cs = true
  | ZBool => exists b, v = VBool b
  | ZEnum l => exists x, v = VStr x /\ x ∈ l
  | ZArray s => exists l, v = VArr l /\ Forall (conforms s) l
  | ZObject pass fs => exists o, v = VObj o /\
      (if pass then True else NoDup o.*1 /\ Forall (fun kv => kv.1 ∈ fs.*1) o) /\
      (fix go fs := match fs with
       | [] => True
       | (k, s) :: fs' => conforms s (oget k o) /\ go fs'
       end) fs
  | ZRecord s => exists o, v = VObj o /\ Forall (fun kv => conforms s kv.2) o
  | ZUnion l => (fix go l := match l with
                 | [] => False
                 | s :: l' => conforms s v \/ go l'
                 end) l
  | ZNullable s => v = VNull \/ conforms s v
  | ZOptional s => v = VUndef \/ conforms s v
  | ZDefault d s => v = d \/ conforms s v
  | ZRefine p s => conforms s v /\ p v = true
  | ZTransform f s => exists x, conforms s x /\ v = f x
  end.

(** Object schemas name each field once, at every depth. *)
Fixpoint schema_wf (s : schema) : bool :=
  match s with
  | ZArray s | ZRecord s | ZNullable s | ZOptional s | ZDefault _ s | ZRefine _ s
  | ZTransform _ s => schema_wf s
  | ZUnion l => forallb schema_wf l
  | ZObject _ fs =>
      bool_decide (NoDup fs.*1) &&
      (fix go fs := match fs with [] => true | (_, s) :: fs' => schema_wf s && go fs' end) fs
  | _ => true
  end.

(** [schema.parse(v)]: [None] stands for a thrown [ZodError]. *)
Class Zod := zparse : schema -> val -> option val.

Class ZodLaws (Z : Zod) : Prop :=
  zparse_sound s v v' : schema_wf s = true -> zparse s v = Some v' -> conforms s v'.

Definition zod_error : jserr := JsErr "ZodError" "validation failed" "" false.

(** [schema.parse] with its exception. *)
Definition zod_parse {Z : Zod} (s : schema) (v : val) : result val :=
  match zparse s v with Some v' => Ok v' | None => Throw zod_error end.

(** ** A reference parser

    Object fields are parsed in the order of the schema; a field that is absent
    and parses to [undefined] stays absent; unknown keys are dropped, or kept
    after the known ones by [passthrough]; a default is returned as it is. *)
Fixpoint parse_ref (s : schema) (v : val) : option val :=
  match s with
  | ZAny => Some v
  | ZString cs => match v with
                  | VStr x => if forallb (fun c => c x) cs then Some v else None
                  | _ => None end
  | ZNumber cs => match v with
                  | VNum q => if forallb (fun c => c q) cs then Some v else None
                  | _ => None end
  | ZCoerceNumber cs => match to_number v with
                        | NFin q => if forallb (fun c => c q) cs then Some (VNum q) else None
                        | _ => None end
  | ZBool => if is_bool v then Some v else None
  | ZEnum l => match v with
               | VStr x => if bool_decide (x ∈ l) then Some v else None
               | _ => None end
  | ZArray s => match v with
                | VArr l => VArr <$> mapM (parse_ref s) l
                | _ => None end
  | ZObject pass fs =>
      match v with
      | VObj o =>
          known ← (fix go fs := match fs with
            | [] => Some []
            | (k, s) :: fs' =>
                v' ← parse_ref s (oget k o);
                r ← go fs';
                Some (if is_undef v' && negb (ohas k o) then r else (k, v') :: r)
            end) fs;
          Some (VObj (if pass then known ++ filter (fun kv => kv.1 ∉ fs.*1) o else known))
      | _ => None
      end
  | ZRecord s => match v with
                 | VObj o => VObj <$> mapM (fun kv => pair kv.1 <$> parse_ref s kv.2) o
                 | _ => None end
  | ZUnion l => (fix go l := match l with
                 | [] => None
                 | s :: l' => match parse_ref s v with Some v' => Some v' | None => go l' end
                 end) l
  | ZNullable s => match v with VNull => Some VNull | _ => parse_ref s v end
  | ZOptional s => match v with VUndef => Some VUndef | _ => parse_ref s v end
  | ZDefault d s => match v with VUndef => Some d | _ => parse_ref s v end
  | ZRefine p s => v' ← parse_ref s v; if p v' then Some v' else None
  | ZTransform f s => f <$> parse_ref s v
  end.

#[export] Instance zod_ref : Zod := parse_ref.

Lemma oget_app k a b : oget k (a ++ b) = if ohas k a then oget k a else oget k b.
Proof.
  induction a as [|[k' v] a IH]; [done|]. cbn. rewrite IH. by destruct (String.eqb k k').
Qed.

Lemma oget_filter_out k (l : list string) o :
  k ∈ l -> oget k (filter (fun kv : string * val => kv.1 ∉ l) o) = VUndef.
Proof.
  intros Hk. induction o as [|[k' v] o IH]; [done|]. rewrite filter_cons.
  destruct (decide _) as [Hni|]; [|done]. cbn in *.
  destruct (String.eqb_spec k k') as [->|]; [done|]. apply IH.
Qed.

(** The fields an object schema parsed, in the object it returns. *)
Lemma parse_fields_sound (fs : list (string * schema)) o known :
  Forall (fun kv => forall v v', parse_ref kv.2 v = Some v' -> conforms kv.2 v') fs ->
  (fix go fs := match fs with
   | [] => Some []
   | (k, s) :: fs' =>
       v' ← parse_ref s (oget k o);
       r ← go fs';
       Some (if is_undef v' && negb (ohas k o) then r else (k, v') :: r)
   end) fs = Some known ->
  NoDup fs.*1 ->
  (NoDup known.*1 /\ Forall (fun kv => kv.1 ∈ fs.*1) known) /\
  (forall k s, (k, s) ∈ fs -> conforms s (oget k known)).
Proof.
  intros HF. revert known. induction HF as [|[k s] fs Hs HF IH]; intros known Hk Hnd.
  { simplify_eq/=. split; [split; constructor|]. intros k s H. by apply not_elem_of_nil in H. }
  cbn in Hk. destruct (parse_ref s (oget k o)) as [v'|] eqn:Ev; [|done]. cbn in Hk.
  match type of Hk with mbind _ ?g = _ => destruct g as [r|] eqn:Er; [|done] end.
  cbn in *. apply NoDup_cons in Hnd as [Hni Hnd]. destruct (IH r eq_refl Hnd) as [[Hndr Hkeys] Hval].
  assert (k ∉ r.*1) as Hkn.
  { intros ([k0 x] & -> & H)%list_elem_of_fmap. rewrite Forall_forall in Hkeys. by apply Hni, (Hkeys _ H). }
  assert (ohas k r = false) as Hkr.
  { apply not_true_is_false. by intros H%ohas_okeys. }
  assert (Forall (fun kv : string * val => kv.1 ∈ k :: fs.*1) r) as Hkeys'.
  { eapply Forall_impl; [exact Hkeys|]. intros kv H. by right. }
  injection Hk as <-. destruct (is_undef v' && negb (ohas k o)) eqn:Eu.
  - split; [done|]. intros k0 s0 [[= -> ->]|Hin]%elem_of_cons; [|eauto].
    rewrite (ohas_false_oget _ _ Hkr). apply Hs in Ev. by destruct v'.
  - split.
    + split; [by constructor|]. constructor; [by left|done].
    + intros k0 s0 [[= -> ->]|Hin]%elem_of_cons; cbn; [rewrite String.eqb_refl; eauto|].
      destruct (String.eqb_spec k0 k) as [->|]; [|eauto]. exfalso. apply Hni.
      by apply (list_elem_of_fmap_2 fst) in Hin.
Qed.


Lemma mapM_sound {A B} (f : A -> option B) (P : B -> Prop) l l' :
  (forall x y, f x = Some y -> P y) -> mapM f l = Some l' -> Forall P l'.
Proof.
  intros Hf Hl. apply mapM_Some_1 in Hl. induction Hl; constructor; eauto.
Qed.

#[export] Instance zod_ref_laws : ZodLaws zod_ref.
Proof.
  intros s. unfold zparse, zod_ref. induction s using schema_ind; intros v v' Hwf Hp; cbn in *.
  - done.
  - destruct v; try done. case_match; simplify_eq; eauto.
  - destruct v; try done. case_match; simplify_eq; eauto.
  - destruct (to_number v); try done. case_match; simplify_eq; eauto.
  - destruct v; try done. cbn in Hp. simplify_eq. eauto.
  - destruct v; try done. case_bool_decide; simplify_eq; eauto.
  - destruct v; try done. apply fmap_Some in Hp as (l' & Hl & ->). exists l'. split; [done|].
    by eapply mapM_sound; [|done]; eauto.
  - apply andb_true_iff in Hwf as [Hnd%bool_decide_eq_true Hwf].
    destruct v as [| | | | | |o]; try done.
    apply bind_Some in Hp as (known & Hk & [= <-]).
    assert (Forall (fun kv => forall v v', parse_ref kv.2 v = Some v' -> conforms kv.2 v') fs)
      as HF.
    { clear -H Hwf. induction H as [|[k s] fs Hs HF IH]; [done|]. cbn in *.
      apply andb_true_iff in Hwf as [H1 H2]. constructor; eauto. }
    destruct (parse_fields_sound fs o known HF Hk Hnd) as [Hkeys Hval].
    eexists. split; [done|]. split; [by destruct b|].
    assert (forall k s, (k, s) ∈ fs -> conforms s (oget k
      (if b then known ++ filter (fun kv : string * val => kv.1 ∉ fs.*1) o else known))) as Hall.
    { intros k s Hin. specialize (Hval _ _ Hin). destruct b; [|done]. rewrite oget_app.
      destruct (ohas k known) eqn:E; [done|].
      rewrite oget_filter_out; [by rewrite (ohas_false_oget _ _ E) in Hval|].
      by apply (list_elem_of_fmap_2 fst) in Hin. }
    clear -Hall. revert Hall. generalize (if b then known ++ filter (fun kv : string * val =>
      kv.1 ∉ fs.*1) o else known). intros l. induction fs as [|[k s] fs IH]; intros Hall; [done|].
    split; [apply Hall; set_solver|]. apply IH. intros. apply Hall. set_solver.
  - destruct v as [| | | | | |o]; try done. apply fmap_Some in Hp as (l' & Hl & ->).
    exists l'. split; [done|]. eapply mapM_sound; [|done].
    intros [k x] y Hy. apply fmap_Some in Hy as (z & Hz & ->). cbn. eauto.
  - induction H as [|s l Hs Hl IH]; [done|]. cbn in *. apply andb_true_iff in Hwf as [H1 H2].
    destruct (parse_ref s v) eqn:E; simplify_eq; [left; by eauto|right; by apply IH].
  - destruct v; simplify_eq; eauto.
  - destruct v; simplify_eq; eauto.
  - destruct v; simplify_eq; eauto.
  - apply bind_Some in Hp as (x & Hx & Hp). case_match; simplify_eq. eauto.
  - apply fmap_Some in Hp as (x & Hx & ->). eauto.
Qed.

Lemma zod_parse_ok {Z : Zod} {ZL : ZodLaws Z} s v v' :
  schema_wf s = true -> zod_parse s v = Ok v' -> conforms s v'.
Proof.
  unfold zod_parse. intros Hwf H. destruct (zparse s v) eqn:E; simplify_eq.
  by eapply zparse_sound.
Qed.
