(* ===== verification/Schemas.v ===== *)
(** * The configuration schemas ([src/config/schemas.js])

    The schemas are data, parsed by the [Zod] interface.  [well_typed_config]
    is the abstract type invariant the services rely on; a configuration that
    passed [configSchema] has it. *)
From S2P Require Import Prelude JsString JsValue Zod.

(** [Intl.DateTimeFormat(undefined, { timeZone })] does not throw. *)
Class Intl := intl_zone_ok : string -> bool.

Definition TTS_TEMPLATE_MAX_LENGTH : nat := 50.

(** [z.number().min(a)], [.max(b)], [.int()] *)
Definition qmin (a : Q) : Q -> bool := fun q => Qle_bool a q.
Definition qmax (b : Q) : Q -> bool := fun q => Qle_bool q b.
Definition qint : Q -> bool := fun q =>
  Qeq_bool q (inject_Z (Qfloor q)) && qmin (-9007199254740991) q && qmax 9007199254740991 q.
Definition max_length (n : nat) : string -> bool := fun s => Nat.leb (String.length s) n.

Definition prayerSettingSchema : schema := ZObject false
  [("iqamahOffset", ZNumber []); ("roundTo", ZNumber []);
   ("fixedTime", ZNullable (ZString [])); ("iqamahOverride", ZDefault (VBool false) ZBool)].

Definition triggerActionSchema : schema := ZEnum ["tts"; "file"; "url"].

(** [arr.filter((t) => t !== "browser")] *)
Definition without_browser (v : val) : val :=
  VArr (filter (fun t => seq t (VStr "browser") = false) (arr_of v)).

Definition triggerEventSchema : schema := ZObject false
  [("enabled", ZBool);
   ("offsetMinutes", ZOptional (ZNumber [qmin 0; qmax 60]));
   ("type", triggerActionSchema);
   ("template", ZOptional (ZString [max_length TTS_TEMPLATE_MAX_LENGTH]));
   ("path", ZOptional (ZString [])); ("url", ZOptional (ZString []));
   ("voice", ZOptional (ZString []));
   ("targets", ZDefault (VArr []) (ZTransform without_browser (ZArray (ZString []))))].

Definition prayerTriggersSchema : schema := ZObject false
  [("preAdhan", triggerEventSchema); ("adhan", triggerEventSchema);
   ("preIqamah", triggerEventSchema); ("iqamah", triggerEventSchema)].

Definition sunriseTriggersSchema : schema := ZObject false
  [("preAdhan", triggerEventSchema); ("adhan", triggerEventSchema)].

Definition outputConfigSchema : schema := ZObject false
  [("enabled", ZDefault (VBool false) ZBool); ("verified", ZDefault (VBool false) ZBool);
   ("leadTimeMs", ZDefault (VInt 0) (ZNumber [qmin (-30000); qmax 30000]));
   ("params", ZDefault (VObj []) (ZRecord ZAny))].

Definition automationSchema : schema := ZObject true
  [("global", ZDefault (VObj []) (ZObject false
     [("enabled", ZDefault (VBool true) ZBool); ("preAdhanEnabled", ZDefault (VBool true) ZBool);
      ("adhanEnabled", ZDefault (VBool true) ZBool);
      ("preIqamahEnabled", ZDefault (VBool true) ZBool);
      ("iqamahEnabled", ZDefault (VBool true) ZBool)]));
   ("baseUrl", ZOptional (ZString [])); ("pythonServiceUrl", ZOptional (ZString []));
   ("defaultVoice", ZOptional (ZString []));
   ("outputs", ZDefault (VObj []) (ZRecord outputConfigSchema));
   ("triggers", ZObject false
     [("fajr", prayerTriggersSchema); ("sunrise", sunriseTriggersSchema);
      ("dhuhr", prayerTriggersSchema); ("asr", prayerTriggersSchema);
      ("maghrib", prayerTriggersSchema); ("isha", prayerTriggersSchema)])].

Definition dataSchema : schema := ZObject false
  [("staleCheckDays", ZDefault (VInt 7) (ZNumber []));
   ("storageLimit", ZDefault (VInt 1) (ZNumber [qmin (1 # 10)]))].

Definition default_health : val := VObj [("api", VBool true); ("tts", VBool true)].
Definition default_tours : val :=
  VObj [("dashboardSeen", VBool false); ("adminSeen", VBool false)].

Definition systemSchema : schema :=
  ZDefault (VObj [("healthChecks", default_health); ("tours", default_tours)]) (ZObject false
  [("healthChecks", ZDefault default_health (ZRecord ZBool));
   ("tours", ZDefault default_tours (ZObject false
      [("dashboardSeen", ZDefault (VBool false) ZBool);
       ("adminSeen", ZDefault (VBool false) ZBool)]))]).

Definition securitySchema : schema :=
  ZDefault (VObj [("tokenVersion", VInt 1)]) (ZObject false
  [("tokenVersion", ZDefault (VInt 1) (ZNumber [qint]))]).

Definition configSchema `{I : Intl} : schema := ZObject false
  [("version", ZDefault (VInt 1) (ZOptional (ZNumber [])));
   ("location", ZObject false
     [("timezone", ZRefine (fun v => intl_zone_ok (str_of v)) (ZString []));
      ("coordinates", ZObject false
        [("lat", ZNumber [qmin (-90); qmax 90]); ("long", ZNumber [qmin (-180); qmax 180])])]);
   ("prayers", ZObject false
     [("fajr", prayerSettingSchema); ("dhuhr", prayerSettingSchema); ("asr", prayerSettingSchema);
      ("maghrib", prayerSettingSchema); ("isha", prayerSettingSchema)]);
   ("sources", ZObject false
     [("primary", ZObject true [("type", ZString [])]);
      ("backup", ZOptional (ZNullable (ZObject true
         [("type", ZString []); ("enabled", ZOptional ZBool)])))]);
   ("data", dataSchema); ("automation", automationSchema); ("system", systemSchema);
   ("security", securitySchema)].

(** ** Updates of the environment file *)
Definition env_blacklist : list string :=
  ["PATH"; "NODE_OPTIONS"; "SHELL"; "USER"; "HOME"; "LD_PRELOAD"].

Definition env_suffixes : list string :=
  ["_KEY"; "_TOKEN"; "_SECRET"; "_URL"; "_ID"; "_DEVICE"].

Definition env_key_allowed (k : string) : bool :=
  if existsb (String.eqb k) env_blacklist then false
  else starts_with "AZAN_" k || existsb (fun s => ends_with s k) env_suffixes ||
       existsb (String.eqb k) ["PORT"; "TZ"; "LOG_LEVEL"].

Definition envUpdateSchema : schema := ZObject false
  [("key", ZRefine (fun v => env_key_allowed (str_of v)) (ZString [])); ("value", ZString [])].

(** ** What a validated configuration guarantees *)
Definition number_between (a b : Q) (v : val) : Prop :=
  exists q, v = VNum q /\ (a <= q)%Q /\ (q <= b)%Q.

Definition typed_prayer (p : val) : Prop :=
  (exists q, prop p "iqamahOffset" = VNum q) /\ (exists q, prop p "roundTo" = VNum q) /\
  (prop p "fixedTime" = VNull \/ exists s, prop p "fixedTime" = VStr s) /\
  (exists b, prop p "iqamahOverride" = VBool b).

Definition typed_event (t : val) : Prop :=
  (exists b, prop t "enabled" = VBool b) /\
  (exists s, prop t "type" = VStr s /\ s ∈ ["tts"; "file"; "url"]) /\
  (prop t "offsetMinutes" = VUndef \/ number_between 0 60 (prop t "offsetMinutes")) /\
  (exists l, prop t "targets" = VArr l /\ Forall (fun x => exists s, x = VStr s /\ s <> "browser") l).

Definition typed_output (o : val) : Prop :=
  (exists b, prop o "enabled" = VBool b) /\ number_between (-30000) 30000 (prop o "leadTimeMs").

Record well_typed_config (c : val) : Prop := {
  wt_timezone : exists tz, prop (prop c "location") "timezone" = VStr tz;
  wt_coords : number_between (-90) 90 (prop (prop (prop c "location") "coordinates") "lat") /\
              number_between (-180) 180 (prop (prop (prop c "location") "coordinates") "long");
  wt_prayers : forall p, p ∈ ["fajr"; "dhuhr"; "asr"; "maghrib"; "isha"] ->
    typed_prayer (prop (prop c "prayers") p);
  wt_primary : exists t, prop (prop (prop c "sources") "primary") "type" = VStr t;
  wt_storage : exists q, prop (prop c "data") "storageLimit" = VNum q /\ (1 # 10 <= q)%Q;
  wt_outputs : forall id, prop (prop (prop c "automation") "outputs") id = VUndef \/
    typed_output (prop (prop (prop c "automation") "outputs") id);
  wt_triggers : forall p e, p ∈ ["fajr"; "dhuhr"; "asr"; "maghrib"; "isha"] ->
    e ∈ ["preAdhan"; "adhan"; "preIqamah"; "iqamah"] ->
    typed_event (prop (prop (prop (prop c "automation") "triggers") p) e);
  wt_sunrise : forall e, e ∈ ["preAdhan"; "adhan"] ->
    typed_event (prop (prop (prop (prop c "automation") "triggers") "sunrise") e);
  wt_token : exists q, prop (prop c "security") "tokenVersion" = VNum q
}.

(** Takes a conformance hypothesis apart, down to the fields. *)
Ltac zinv := repeat match goal with
  | H : _ /\ _ |- _ => destruct H
  | H : exists _, _ |- _ => destruct H
  | H : True |- _ => clear H
  end; simplify_eq/=.

Lemma qbounds_ok a b q : forallb (fun c => c q) [qmin a; qmax b] = true -> (a <= q)%Q /\ (q <= b)%Q.
Proof.
  cbn. rewrite andb_true_r, andb_true_iff. unfold qmin, qmax. by rewrite !Qle_bool_iff.
Qed.

Lemma conforms_field pass fs o k s :
  conforms (ZObject pass fs) (VObj o) -> (k, s) ∈ fs -> conforms s (oget k o).
Proof.
  intros (o' & [= <-] & _ & H) Hin. induction fs as [|[k' s'] fs IH]; [by apply not_elem_of_nil in Hin|].
  destruct H as [H1 H2]. apply elem_of_cons in Hin as [[= -> ->]|Hin]; [done|by apply IH].
Qed.

(** A field of an object schema, by the position of its name. *)
Lemma conforms_prop pass fs v k s :
  conforms (ZObject pass fs) v -> (k, s) ∈ fs -> conforms s (prop v k).
Proof.
  intros (o & -> & H) Hin. eapply (conforms_field pass); [|done]. by exists o.
Qed.

(** An object schema that is not a [passthrough] one leaves no other key. *)
Lemma conforms_field_only fs v k :
  conforms (ZObject false fs) v -> prop v k = VUndef \/ exists s, (k, s) ∈ fs /\ conforms s (prop v k).
Proof.
  intros H. destruct (decide (k ∈ fs.*1)) as [Hin|Hn].
  - right. apply list_elem_of_fmap in Hin as ([k' s] & -> & Hin). exists s. split; [done|].
    by eapply conforms_prop.
  - left. destruct H as (o & -> & [_ Ho] & _). cbn [prop]. apply ohas_false_oget.
    apply not_true_iff_false. intros ([k' x] & -> & H)%ohas_okeys%list_elem_of_fmap.
    rewrite Forall_forall in Ho. by apply Hn, (Ho _ H).
Qed.

Lemma oget_nodup k x o : NoDup o.*1 -> (k, x) ∈ o -> oget k o = x.
Proof.
  induction o as [|[k' y] o IH]; [by intros _ ?%not_elem_of_nil|]. cbn [fmap list_fmap fst oget].
  intros [Hn Hd]%NoDup_cons [[= -> ->]|Hin]%elem_of_cons; [by rewrite String.eqb_refl|].
  destruct (String.eqb_spec k k') as [->|]; [|by apply IH].
  exfalso. by apply Hn, (list_elem_of_fmap_2 fst _ (k', x)).
Qed.

(** The entries of such an object conform, each to the schema of its key. *)
Lemma conforms_entry fs v k x :
  conforms (ZObject false fs) v -> (k, x) ∈ props v -> exists s, (k, s) ∈ fs /\ conforms s x.
Proof.
  intros H Hin. assert (prop v k = x) as <-.
  { destruct H as (o & -> & [Hd _] & _). by apply oget_nodup. }
  assert (k ∈ fs.*1) as ([k' s] & -> & Hs)%list_elem_of_fmap.
  { destruct H as (o & -> & [_ Ho] & _). rewrite Forall_forall in Ho. exact (Ho _ Hin). }
  exists s. split; [done|]. by apply (conforms_prop _ _ _ _ _ H Hs).
Qed.

Lemma conforms_between a b v :
  conforms (ZNumber [qmin a; qmax b]) v -> number_between a b v.
Proof. intros (q & -> & H). exists q. split; [done|by apply qbounds_ok]. Qed.

Ltac zin := repeat first [apply list_elem_of_here | apply list_elem_of_further].

(** Splits a name known to be one of a literal list. *)
Ltac each_name H :=
  rewrite ?elem_of_cons in H; destruct_or! H; [subst..|by apply not_elem_of_nil in H].

(** Looks a literal field name up in a literal object schema. *)
Ltac zfield H k :=
  let F := fresh "F" in
  pose proof (conforms_prop _ _ _ k _ H ltac:(zin))
    as F; cbn [conforms] in F.

Lemma prayerSetting_typed v : conforms prayerSettingSchema v -> typed_prayer v.
Proof.
  intros H. unfold prayerSettingSchema in H.
  zfield H "iqamahOffset". zfield H "roundTo". zfield H "fixedTime". zfield H "iqamahOverride".
  unfold typed_prayer. split_and!; naive_solver.
Qed.

Lemma triggerEvent_typed v : conforms triggerEventSchema v -> typed_event v.
Proof.
  intros H. unfold triggerEventSchema in H.
  zfield H "enabled". zfield H "type". zfield H "offsetMinutes". zfield H "targets".
  unfold typed_event. split_and!; [done|done| |].
  - destruct F1 as [?|F1]; [by left|right]. by apply conforms_between.
  - destruct F2 as [->|(x & (l & -> & Hl) & ->)]; [by exists []|].
    eexists. split; [done|]. cbn [arr_of]. rewrite Forall_forall in Hl |- *.
    intros y [Hy Hin]%list_elem_of_filter. destruct (Hl _ Hin) as (s & -> & _).
    exists s. split; [done|]. intros ->. done.
Qed.

Lemma oget_in k o : oget k o = VUndef \/ exists v, oget k o = v /\ (k, v) ∈ o.
Proof.
  induction o as [|[k' v] o IH]; [by left|]. cbn.
  destruct (String.eqb_spec k k') as [->|]; [right; eexists; split; [done|set_solver]|].
  destruct IH as [?|(v' & ? & ?)]; [by left|right]. exists v'. split; [done|set_solver].
Qed.

Lemma conforms_record s o k : conforms (ZRecord s) (VObj o) ->
  oget k o = VUndef \/ conforms s (oget k o).
Proof.
  intros (o' & [= <-] & HF). destruct (oget_in k o) as [?|(v & -> & Hin)]; [by left|right].
  rewrite Forall_forall in HF. by apply (HF _ Hin).
Qed.

Lemma outputConfig_typed v : conforms outputConfigSchema v -> typed_output v.
Proof.
  intros H. unfold outputConfigSchema in H. zfield H "enabled". zfield H "leadTimeMs". split.
  - naive_solver.
  - destruct F0 as [->|F0]; [|by apply conforms_between].
    exists (inject_Z 0). split; [done|]. split; discriminate.
Qed.

Lemma automation_typed v : conforms automationSchema v ->
  (forall id, prop (prop v "outputs") id = VUndef \/ typed_output (prop (prop v "outputs") id)) /\
  (forall p e, p ∈ ["fajr"; "dhuhr"; "asr"; "maghrib"; "isha"] ->
     e ∈ ["preAdhan"; "adhan"; "preIqamah"; "iqamah"] ->
     typed_event (prop (prop (prop v "triggers") p) e)) /\
  (forall e, e ∈ ["preAdhan"; "adhan"] ->
     typed_event (prop (prop (prop v "triggers") "sunrise") e)).
Proof.
  intros H. unfold automationSchema in H.
  pose proof (conforms_prop _ _ _ "outputs" _ H ltac:(zin)) as Ho.
  pose proof (conforms_prop _ _ _ "triggers" _ H ltac:(zin)) as Ht.
  split_and!.
  - intros id. destruct Ho as [->|(o & E & HF)]; [by left|]. rewrite E. cbn [prop].
    destruct (conforms_record outputConfigSchema o id) as [?|?]; [by exists o|by left|].
    right. by apply outputConfig_typed.
  - intros p e Hp He. assert (conforms prayerTriggersSchema (prop (prop v "triggers") p)) as Hpt.
    { eapply conforms_prop; [exact Ht|]. each_name Hp; zin. }
    apply triggerEvent_typed. eapply conforms_prop; [exact Hpt|]. each_name He; zin.
  - intros e He. assert (conforms sunriseTriggersSchema (prop (prop v "triggers") "sunrise")) as Hpt.
    { eapply conforms_prop; [exact Ht|]. zin. }
    apply triggerEvent_typed. eapply conforms_prop; [exact Hpt|]. each_name He; zin.
Qed.

Lemma conforms_config_typed `{Intl} c : conforms configSchema c -> well_typed_config c.
Proof.
  intros Hc. unfold configSchema in Hc.
  pose proof (conforms_prop _ _ _ "location" _ Hc ltac:(zin)) as Hl.
  pose proof (conforms_prop _ _ _ "prayers" _ Hc ltac:(zin)) as Hp.
  pose proof (conforms_prop _ _ _ "sources" _ Hc ltac:(zin)) as Hs.
  pose proof (conforms_prop _ _ _ "data" _ Hc ltac:(zin)) as Hd.
  pose proof (conforms_prop _ _ _ "automation" _ Hc ltac:(zin)) as Ha.
  pose proof (conforms_prop _ _ _ "security" _ Hc ltac:(zin)) as Hk.
  destruct (automation_typed _ Ha) as (Ho & Ht & Hsun).
  constructor; try done.
  - pose proof (conforms_prop _ _ _ "timezone" _ Hl ltac:(zin)) as [(s & ? & _) _]. eauto.
  - pose proof (conforms_prop _ _ _ "coordinates" _ Hl ltac:(zin)) as Hco.
    split; apply conforms_between; (eapply conforms_prop; [exact Hco|zin]).
  - intros p Hin. apply prayerSetting_typed. eapply conforms_prop; [exact Hp|]. each_name Hin; zin.
  - pose proof (conforms_prop _ _ _ "primary" _ Hs ltac:(zin)) as Hpr.
    pose proof (conforms_prop _ _ _ "type" _ Hpr ltac:(zin)) as (s & ? & _). eauto.
  - pose proof (conforms_prop _ _ _ "storageLimit" _ Hd ltac:(zin)) as [E|(q & E & Hq)].
    + exists (inject_Z 1). rewrite E. split; [done|discriminate].
    + exists q. split; [done|]. cbn in Hq. rewrite andb_true_r in Hq.
      by apply Qle_bool_iff in Hq.
  - destruct Hk as [->|Hk]; [by exists (inject_Z 1)|].
    pose proof (conforms_prop _ _ _ "tokenVersion" _ Hk ltac:(zin)) as [E|(q & E & _)];
      rewrite E; [by exists (inject_Z 1)|by exists q].
Qed.

(** ** Properties *)
Section properties.
Context `{ZL : ZodLaws} `{I : Intl}.

(** A configuration that passed validation has the types and ranges the
    services rely on: numeric offsets and roundings for the five prayers,
    trigger events with a known action, offsets within the hour and no explicit
    browser target, output lead times within thirty seconds, a storage limit
    of at least 0.1 GB, coordinates on the globe. *)
Theorem validated_config_typed raw c :
  zod_parse configSchema raw = Ok c -> well_typed_config c.
Proof.
  intros H. apply conforms_config_typed. by eapply (zod_parse_ok (ZL := ZL)).
Qed.

(** No accepted update of the environment file names a critical system
    variable, and every accepted key matches one of the allowed patterns. *)
Theorem env_update_keys raw u :
  zod_parse envUpdateSchema raw = Ok u ->
  exists k s, prop u "key" = VStr k /\ prop u "value" = VStr s /\
    (k ∉ ["PATH"; "NODE_OPTIONS"; "SHELL"; "USER"; "HOME"; "LD_PRELOAD"]) /\
    (starts_with "AZAN_" k = true \/
     (exists suf, suf ∈ ["_KEY"; "_TOKEN"; "_SECRET"; "_URL"; "_ID"; "_DEVICE"] /\
        ends_with suf k = true) \/
     k ∈ ["PORT"; "TZ"; "LOG_LEVEL"]).
Proof.
  intros H%(zod_parse_ok (ZL := ZL)); [|done].
  pose proof (conforms_prop _ _ _ "key" _ H ltac:(zin)) as [(k & Hk & _) Hok].
  pose proof (conforms_prop _ _ _ "value" _ H ltac:(zin)) as (s & Hs & _).
  exists k, s. rewrite Hk in Hok. cbn [str_of] in Hok. unfold env_key_allowed in Hok.
  destruct (existsb (String.eqb k) env_blacklist) eqn:Hb; [done|].
  split_and!; [done|done| |].
  - intros Hin. apply not_true_iff_false in Hb. apply Hb, existsb_exists. exists k.
    split; [by apply list_elem_of_In|by apply String.eqb_eq].
  - rewrite !orb_true_iff, !existsb_exists in Hok.
    destruct Hok as [[?|(suf & Hin & ?)]|(k' & Hin & ->%String.eqb_eq)];
      [by left|right; left|right; right; by apply list_elem_of_In].
    exists suf. split; [by apply list_elem_of_In|done].
Qed.
End properties.

(** ** Witnesses, on the reference parser *)
Definition any_zone : Intl := fun tz => negb (String.eqb tz "").

Definition sample_event : val :=
  VObj [("enabled", VBool true); ("type", VStr "tts"); ("template", VStr "It is {prayerEnglish}");
        ("targets", VArr [VStr "voicemonkey"; VStr "browser"])].

Definition sample_triggers (names : list string) : val :=
  VObj ((fun e => (e, sample_event)) <$> names).

Definition sample_prayer : val :=
  VObj [("iqamahOffset", VInt 15); ("roundTo", VInt 5); ("fixedTime", VNull)].

Definition four_events : list string := ["preAdhan"; "adhan"; "preIqamah"; "iqamah"].

Definition sample_config : val := VObj
  [("location", VObj [("timezone", VStr "Europe/London");
      ("coordinates", VObj [("lat", VInt 51); ("long", VInt 0)])]);
   ("prayers", VObj ((fun p => (p, sample_prayer)) <$> ["fajr"; "dhuhr"; "asr"; "maghrib"; "isha"]));
   ("sources", VObj [("primary", VObj [("type", VStr "aladhan"); ("method", VInt 15)]);
                     ("backup", VNull)]);
   ("data", VObj []);
   ("automation", VObj
     [("outputs", VObj [("voicemonkey", VObj [("enabled", VBool true); ("leadTimeMs", VInt 2000)])]);
      ("triggers", VObj
        [("fajr", sample_triggers four_events); ("sunrise", sample_triggers ["preAdhan"; "adhan"]);
         ("dhuhr", sample_triggers four_events); ("asr", sample_triggers four_events);
         ("maghrib", sample_triggers four_events); ("isha", sample_triggers four_events)])])].

(** The sample, as validation returns it. *)
Definition valid_config : val :=
  match zod_parse (Z := zod_ref) (configSchema (I := any_zone)) sample_config with
  | Ok c => c | Throw _ => VUndef end.

Lemma validated_config_typed_witness : well_typed_config valid_config.
Proof.
  apply (validated_config_typed (ZL := zod_ref_laws) (I := any_zone) sample_config). vm_compute.
  reflexivity.
Defined.

Lemma env_update_keys_witness :
  exists k s, prop (VObj [("key", VStr "ALADHAN_KEY"); ("value", VStr "x")]) "key" = VStr k /\
    prop (VObj [("key", VStr "ALADHAN_KEY"); ("value", VStr "x")]) "value" = VStr s /\
    (k ∉ ["PATH"; "NODE_OPTIONS"; "SHELL"; "USER"; "HOME"; "LD_PRELOAD"]) /\
    (starts_with "AZAN_" k = true \/
     (exists suf, suf ∈ ["_KEY"; "_TOKEN"; "_SECRET"; "_URL"; "_ID"; "_DEVICE"] /\
        ends_with suf k = true) \/
     k ∈ ["PORT"; "TZ"; "LOG_LEVEL"]).
Proof.
  apply (env_update_keys (ZL := zod_ref_laws)
    (VObj [("key", VStr "ALADHAN_KEY"); ("value", VStr "x")])). vm_compute. reflexivity.
Defined.
