(* ===== verification/Network.v ===== *)
(** * The network, and the address filter ([src/utils/networkUtils.js])

    Remote services are an oracle: what [fetch] gives for a URL may depend on
    the calls made before.  The calls are logged in the world.  The address
    filter behind the SSRF-safe agents is the source's, regular expressions
    written out. *)
From S2P Require Import Prelude JsString JsValue World.

Record response := Response {
  r_ok : bool;                 (* status 200 .. 299 *)
  r_status : Z;
  r_statusText : string;
  r_json : result val          (* await response.json() *)
}.

Class Net := net_fetch : list string -> string -> result response.

(** [await fetch(url)] *)
Definition fetch {N : Net} (url : string) : M world response :=
  fun w => (net_fetch (w_net w) url, set_net (url :: w_net w) w).

(** ** [ssrfSafeLookup] *)

(** [172.(1[6-9]|2[0-9]|3[0-1]).] *)
Definition range_172 (s : string) : bool :=
  existsb (fun n => starts_with ("172." +:+ show_Z n +:+ ".") s)
    (seqZ 16 16).

Definition ipv4Private (addr : string) : bool :=
  starts_with "127." addr || starts_with "10." addr || starts_with "192.168." addr ||
  range_172 addr || starts_with "169.254." addr.

Definition ipv6Private (addr : string) : bool :=
  String.eqb (to_lower addr) "::1" || starts_with "fe80:" (to_lower addr) ||
  starts_with "fc00:" (to_lower addr) || starts_with "fd00:" (to_lower addr).

Definition isPrivate (addr : string) : bool := ipv4Private addr || ipv6Private addr.

(** The lookup callback: the error or the address it is given.  [dns.lookup] is
    a parameter. *)
Definition ssrfSafeLookup (dns_lookup : string -> result (string * Z)) (hostname : string)
    : result (string * Z) :=
  match dns_lookup hostname with
  | Throw e => Throw e
  | Ok (address, family) =>
      if isPrivate address
      then Throw (Error "Invalid URL: Private IP ranges are not allowed.")
      else Ok (address, family)
  end.

(** *** IPv4 addresses *)
Definition ipv4_text (a b c d : Z) : string :=
  show_Z a +:+ "." +:+ show_Z b +:+ "." +:+ show_Z c +:+ "." +:+ show_Z d.

Definition octet (z : Z) : Prop := 0 <= z <= 255.

(** The ranges the source's comment lists. *)
Definition private_range (a b : Z) : Prop :=
  a = 127 \/ a = 10 \/ (a = 192 /\ b = 168) \/ (a = 172 /\ 16 <= b <= 31) \/ (a = 169 /\ b = 254).
#[export] Instance private_range_dec a b : Decision (private_range a b).
Proof. unfold private_range. solve_decision. Defined.

(** A prefix that ends at a dot compares whole components. *)
Lemma starts_with_dot p q s r :
  has_char "." p = false -> has_char "." q = false ->
  starts_with (p +:+ String "." s) (q +:+ String "." r) = String.eqb p q && starts_with s r.
Proof.
  revert q. induction p as [|a p IH]; intros [|b q]; rewrite ?str_cons_app, ?str_nil_app;
    cbn [has_char]; intros Hp Hq.
  - done.
  - apply orb_false_iff in Hq as [Hb%Ascii.eqb_neq _]. unfold starts_with. cbn -[ascii_dec].
    by destruct (ascii_dec "." b).
  - apply orb_false_iff in Hp as [Ha%Ascii.eqb_neq _]. unfold starts_with. cbn -[ascii_dec].
    by destruct (ascii_dec a ".").
  - apply orb_false_iff in Hp as [Ha Hp], Hq as [Hb Hq]. unfold starts_with in *. cbn.
    destruct (ascii_dec a b) as [->|Hne]; [rewrite Ascii.eqb_refl; by apply IH|].
    by apply Ascii.eqb_neq in Hne as ->.
Qed.

(** Octets are few: facts on their texts are checked by running through them. *)
Definition octets : list Z := seqZ 0 256.

Lemma octet_in z : octet z -> z ∈ octets.
Proof. intros [H1 H2]. apply elem_of_seqZ. lia. Qed.

Lemma octets_forall (f : Z -> bool) z : forallb f octets = true -> octet z -> f z = true.
Proof.
  intros Hf Hz. eapply forallb_forall in Hf; [exact Hf|]. by apply list_elem_of_In, octet_in.
Qed.

Lemma octet_no_dot z : octet z -> has_char "." (show_Z z) = false.
Proof.
  intros Hz. apply negb_true_iff.
  by apply (octets_forall (fun z => negb (has_char "." (show_Z z)))).
Qed.

Lemma octet_head z r :
  octet z -> ipv6Private (show_Z z +:+ String "." r) = false.
Proof.
  intros Hz. assert (match show_Z z with String c _ =>
    bool_decide (is_Some (digit_val c)) | _ => false end = true) as H.
  { by apply (octets_forall (fun z => match show_Z z with String c _ =>
      bool_decide (is_Some (digit_val c)) | _ => false end)). }
  destruct (show_Z z) as [|c t]; [done|]. rewrite str_cons_app.
  destruct c as [[] [] [] [] [] [] [] []]; done.
Qed.

Lemma string_eqb_show_Z a n : String.eqb (show_Z n) (show_Z a) = bool_decide (n = a).
Proof.
  destruct (String.eqb_spec (show_Z n) (show_Z a)) as [E|E]; symmetry.
  - apply bool_decide_eq_true. by apply (inj (pretty (A := Z))).
  - apply bool_decide_eq_false. by intros ->.
Qed.

Lemma prefix_one n a r :
  octet n -> octet a ->
  starts_with (show_Z n +:+ ".") (show_Z a +:+ String "." r) = bool_decide (n = a).
Proof.
  intros Hn Ha. rewrite starts_with_dot by (by apply octet_no_dot).
  rewrite starts_with_nil. by rewrite andb_true_r, string_eqb_show_Z.
Qed.

Lemma prefix_two n1 n2 a b r :
  octet n1 -> octet n2 -> octet a -> octet b ->
  starts_with (show_Z n1 +:+ String "." (show_Z n2 +:+ "."))
    (show_Z a +:+ String "." (show_Z b +:+ String "." r)) =
  bool_decide (n1 = a) && bool_decide (n2 = b).
Proof.
  intros H1 H2 Ha Hb. rewrite starts_with_dot by (by apply octet_no_dot).
  rewrite starts_with_dot by (by apply octet_no_dot).
  rewrite starts_with_nil. by rewrite andb_true_r, !string_eqb_show_Z.
Qed.

Lemma isPrivate_ipv4 a b c d :
  octet a -> octet b -> isPrivate (ipv4_text a b c d) = bool_decide (private_range a b).
Proof.
  intros Ha Hb. unfold isPrivate, ipv4_text.
  change (show_Z a +:+ "." +:+ show_Z b +:+ "." +:+ show_Z c +:+ "." +:+ show_Z d)
    with (show_Z a +:+ String "." (show_Z b +:+ String "." (show_Z c +:+ "." +:+ show_Z d))).
  set (r := show_Z c +:+ "." +:+ show_Z d).
  rewrite octet_head by done. rewrite orb_false_r. unfold ipv4Private.
  rewrite (prefix_one 127), (prefix_one 10) by (done || (split; lia)).
  rewrite (prefix_two 192 168), (prefix_two 169 254) by (done || (split; lia)).
  assert (range_172 (show_Z a +:+ String "." (show_Z b +:+ String "." r)) =
    bool_decide (a = 172) && bool_decide (16 <= b <= 31)) as ->.
  { assert (forall n, octet n -> starts_with ("172." +:+ show_Z n +:+ ".")
      (show_Z a +:+ String "." (show_Z b +:+ String "." r)) =
      bool_decide (172 = a) && bool_decide (n = b)) as Hn.
    { intros n Hn. by apply (prefix_two 172 n a b r). }
    apply eq_iff_eq_true. unfold range_172.
    rewrite existsb_exists, andb_true_iff, !bool_decide_eq_true. split.
    - intros (n & Hin%list_elem_of_In%elem_of_seqZ & H). rewrite Hn in H by (split; lia).
      rewrite andb_true_iff, !bool_decide_eq_true in H. lia.
    - intros [-> Hb']. exists b. split; [apply list_elem_of_In, elem_of_seqZ; lia|].
      by rewrite Hn, !bool_decide_eq_true_2. }
  apply eq_iff_eq_true. unfold private_range.
  rewrite !orb_true_iff, !andb_true_iff, !bool_decide_eq_true. lia.
Qed.

(** ** Properties *)

(** The SSRF filter is exact on IPv4: a lookup that resolves to
    [a.b.c.d] succeeds exactly when the address is in none of the private
    ranges 127/8, 10/8, 192.168/16, 172.16/12, 169.254/16; otherwise it is an
    error, and errors of the resolver are passed on. *)
Theorem ssrf_lookup_ipv4 dns_lookup hostname :
  match dns_lookup hostname with
  | Throw e => ssrfSafeLookup dns_lookup hostname = Throw e
  | Ok (address, family) => forall a b c d, octet a -> octet b ->
      address = ipv4_text a b c d ->
      ssrfSafeLookup dns_lookup hostname =
        if bool_decide (private_range a b)
        then Throw (Error "Invalid URL: Private IP ranges are not allowed.")
        else Ok (address, family)
  end.
Proof.
  destruct (dns_lookup hostname) as [[address family]|e] eqn:E.
  - intros a b c d Ha Hb ->. unfold ssrfSafeLookup. by rewrite E, isPrivate_ipv4.
  - unfold ssrfSafeLookup. by rewrite E.
Qed.

(** The IPv6 pattern covers [fd00:] but not the rest of fc00::/7. *)
Example fd12_not_blocked :
  ssrfSafeLookup (fun _ => Ok ("fd12:3456:789a::1", 6)) "nas.lan" = Ok ("fd12:3456:789a::1", 6).
Proof. reflexivity. Qed.

Lemma ssrf_lookup_ipv4_witness :
  ssrfSafeLookup (fun _ => Ok ("172.31.0.7", 4)) "nas.lan" =
    Throw (Error "Invalid URL: Private IP ranges are not allowed.") /\
  ssrfSafeLookup (fun _ => Ok ("172.32.0.7", 4)) "nas.lan" = Ok ("172.32.0.7", 4).
Proof.
  split.
  - by rewrite (ssrf_lookup_ipv4 (fun _ => Ok ("172.31.0.7", 4)) "nas.lan" 172 31 0 7).
  - by rewrite (ssrf_lookup_ipv4 (fun _ => Ok ("172.32.0.7", 4)) "nas.lan" 172 32 0 7).
Defined.
