(* ===== verification/Providers.v ===== *)
(** * Prayer time providers ([src/providers/])

    The provider classes, the error classes and the factory.  A provider is its
    configuration; [getAnnualTimes] is a computation that calls the remote
    service, validates the response and normalises it to a map from ISO dates
    to prayer times.  The rate limiter of each class only delays a request and
    is left out. *)
From S2P Require Import Prelude JsString JsValue World Luxon LuxonUtc Zod Schemas Network.

(** ** errors.js *)
Definition ProviderConnectionError (msg : string) : jserr :=
  JsErr "ProviderConnectionError" msg "" false.
Definition ProviderValidationError (msg : string) (userFriendly : bool) : jserr :=
  JsErr "ProviderValidationError" msg "" userFriendly.

(** [error instanceof ProviderValidationError] *)
Definition is_validation_error (e : jserr) : bool :=
  String.eqb (e_name e) "ProviderValidationError".

(** ** Constants of the Aladhan API ([src/utils/constants.js]) *)
Definition CALCULATION_METHODS : list (Z * string) :=
  [(0, "Jafari (Shia Ithna Ashari)"); (1, "University of Islamic Sciences, Karachi");
   (2, "Islamic Society of North America (ISNA)"); (3, "Muslim World League (MWL)");
   (4, "Umm al-Qura University, Makkah"); (5, "Egyptian General Authority of Survey");
   (7, "Institute of Geophysics, University of Tehran"); (8, "Gulf Region"); (9, "Kuwait");
   (10, "Qatar"); (11, "Majlis Ugama Islam Singapura, Singapore");
   (12, "Union Organization Islamic de France"); (13, "Diyanet İşleri Başkanlığı, Turkey");
   (14, "Spiritual Administration of Muslims of Russia");
   (15, "Moonsighting Committee Worldwide (MWC)"); (16, "Dubai (experimental)");
   (17, "Jabatan Kemajuan Islam Malaysia (JAKIM)"); (18, "Tunisia"); (19, "Algeria");
   (20, "Kementerian Agama Republik Indonesia (Kemenag)"); (21, "Morocco");
   (22, "Comunidade Islamica de Lisboa, Portugal");
   (23, "Ministry of Awqaf, Islamic Affairs and Holy Places, Jordan")].

Definition ASR_JURISTIC_METHODS : list (Z * string) := [(0, "Standard/Shafi'i"); (1, "Hanafi")].

Definition LATITUDE_ADJUSTMENT_METHODS : list (Z * string) :=
  [(0, "None"); (1, "Middle of the Night"); (2, "One Seventh of the Night"); (3, "Angle Based")].

Definition MIDNIGHT_MODES : list (Z * string) :=
  [(0, "Standard (Mid Sunset to Sunrise)"); (1, "Jafari (Mid Sunset to Fajr)")].

Definition API_BASE_URL : string := "http://api.aladhan.com/v1".

(** ** Response schemas *)
Definition strings (names : list string) : list (string * schema) :=
  (fun n => (n, ZString [])) <$> names.

Definition AladhanDaySchema : schema := ZObject true
  [("timings", ZObject true (strings
      ["Fajr"; "Sunrise"; "Dhuhr"; "Asr"; "Sunset"; "Maghrib"; "Isha"; "Imsak"; "Midnight"]));
   ("date", ZObject true [("gregorian", ZObject true
      [("date", ZString []); ("day", ZString []);
       ("month", ZObject true [("number", ZNumber [])]); ("year", ZString [])])]);
   ("meta", ZObject true [("timezone", ZString [])])].

Definition AladhanAnnualResponseSchema : schema := ZObject false
  [("code", ZNumber []); ("status", ZString []); ("data", ZRecord (ZArray AladhanDaySchema))].

Definition MyMasjidSalahEntrySchema : schema := ZObject true
  [("salahName", ZString []); ("salahTime", ZString []); ("iqamahTime", ZNullable (ZString []))].

Definition mymasjid_prayers : list string := ["fajr"; "zuhr"; "asr"; "maghrib"; "isha"; "shouruq"].

Definition MyMasjidNestedDaySchema : schema := ZObject true
  ([("day", ZNumber []); ("month", ZNumber [])] ++
   ((fun n => (n, ZArray MyMasjidSalahEntrySchema)) <$> mymasjid_prayers)).

Definition MyMasjidFlatDaySchema : schema := ZObject true
  ([("day", ZNumber []); ("month", ZNumber [])] ++ strings mymasjid_prayers ++
   ((fun n => (n, ZOptional (ZNullable (ZString [])))) <$>
      ["iqamah_Fajr"; "iqamah_Zuhr"; "iqamah_Asr"; "iqamah_Maghrib"; "iqamah_Isha"])).

Definition MyMasjidBulkResponseSchema : schema := ZObject false
  [("model", ZObject true [("salahTimings",
     ZUnion [ZArray MyMasjidNestedDaySchema; ZArray MyMasjidFlatDaySchema])])].

(** ** Configuration schemas and metadata *)
Definition zid (lo hi : Z) (d : Z) : schema :=
  ZDefault (VInt d) (ZCoerceNumber [qint; qmin (inject_Z lo); qmax (inject_Z hi)]).

Definition Aladhan_getConfigSchema : schema := ZObject true
  [("type", ZEnum ["aladhan"]); ("method", zid 0 23 15); ("madhab", zid 0 1 1);
   ("latitudeAdjustmentMethod", zid 0 3 0); ("midnightMode", zid 0 1 0)].

Definition is_hex (a : ascii) : bool :=
  match radix_val 16 a with Some _ => true | None => false end.

(** [/^[0-9a-fA-F]{8}-....-[0-9a-fA-F]{12}$/] *)
Definition is_guid (s : string) : bool :=
  bool_decide (String.length <$> split_on "-" s = [8%nat; 4%nat; 4%nat; 4%nat; 12%nat]) &&
  forallb (sforall is_hex) (split_on "-" s).

Definition MyMasjid_getConfigSchema : schema := ZObject true
  [("type", ZEnum ["mymasjid"]); ("masjidId", ZString [is_guid])].

(** [String.prototype.localeCompare], of the host's locale *)
Class Locale := locale_le : string -> string -> bool.

Section metadata.
Context `{Loc : Locale}.

Fixpoint insert_label (x : Z * string) (l : list (Z * string)) : list (Z * string) :=
  match l with
  | [] => [x]
  | y :: l' => if locale_le x.2 y.2 then x :: l else y :: insert_label x l'
  end.

(** [Object.entries(obj).map(..).sort((a, b) => a.label.localeCompare(b.label))] *)
Definition toOptions (obj : list (Z * string)) : val :=
  VArr ((fun p => VObj [("id", VInt p.1); ("label", VStr p.2)]) <$> foldr insert_label [] obj).

Definition select_param (key label description : string) (d : Z) (opts : list (Z * string)) : val :=
  VObj [("key", VStr key); ("type", VStr "select"); ("label", VStr label);
        ("description", VStr description); ("default", VInt d);
        ("constraints", VObj [("required", VBool true); ("options", toOptions opts)])].

Definition Aladhan_getMetadata : val := VObj
  [("id", VStr "aladhan"); ("label", VStr "Aladhan.com");
   ("description", VStr "Global prayer times from Aladhan.com API");
   ("requiresCoordinates", VBool true);
   ("capabilities", VObj [("providesIqamah", VBool false)]);
   ("branding", VObj [("accentColor", VStr "blue"); ("icon", VStr "Globe")]);
   ("parameters", VArr
     [select_param "method" "Calculation Method" "The method used to calculate prayer times." 15
        CALCULATION_METHODS;
      select_param "madhab" "Madhab (Asr)" "Juristic method for Asr prayer time." 1
        ASR_JURISTIC_METHODS;
      select_param "latitudeAdjustmentMethod" "Latitude Adjustment"
        "Method for adjusting times at high latitudes." 0 LATITUDE_ADJUSTMENT_METHODS;
      select_param "midnightMode" "Midnight Mode" "The method used to calculate midnight." 0
        MIDNIGHT_MODES])].

Definition MyMasjid_getMetadata : val := VObj
  [("id", VStr "mymasjid"); ("label", VStr "MyMasjid");
   ("description", VStr "Prayer times from MyMasjid.ca / MasjidBox");
   ("requiresCoordinates", VBool false);
   ("capabilities", VObj [("providesIqamah", VBool true)]);
   ("branding", VObj [("accentColor", VStr "emerald"); ("icon", VStr "Database")]);
   ("parameters", VArr
     [VObj [("key", VStr "masjidId"); ("type", VStr "text"); ("label", VStr "Masjid ID (GUID)");
        ("placeholder", VStr "e.g. 94f1c71b-xxxx-xxxx-xxxx-xxxxxxxxxxxx");
        ("sensitive", VBool false); ("default", VStr "");
        ("constraints", VObj [("required", VBool true);
          ("pattern", VStr "^[0-9a-fA-F]{8}-[0-9a-fA-F]{4}-[0-9a-fA-F]{4}-[0-9a-fA-F]{4}-[0-9a-fA-F]{12}$")])]])].

Definition getRegisteredProviders : list val := [Aladhan_getMetadata; MyMasjid_getMetadata].

(** [ProviderFactory.getProviderClass(type).getMetadata()]: the registry's keys
    are the ids of the metadata. *)
Definition provider_metadata (type : val) : result val :=
  match find (fun p => seq (prop p "id") type) getRegisteredProviders with
  | Some p => Ok p
  | None => Throw (Error ("Unknown provider type: " +:+ show type))
  end.
End metadata.

(** ** Names of methods to numbers

    The first entry whose label satisfies a test, in the order of the keys. *)
Definition find_id (test : string -> bool) (l : list (Z * string)) (d : Z) : Z :=
  match find (fun p => test p.2) l with Some p => p.1 | None => d end.

Definition _getCalculationMethodId (methodName : val) : Z :=
  find_id (fun name => seq (VStr name) methodName || includes (show methodName) name)
    CALCULATION_METHODS 2.

Definition _getMadhabId (madhabName : val) : Z :=
  find_id (includes (show madhabName)) ASR_JURISTIC_METHODS 0.

Definition _getLatAdjId (name : val) : Z :=
  if negb (truthy name) then 0 else find_id (includes (show name)) LATITUDE_ADJUSTMENT_METHODS 0.

Definition _getMidnightId (name : val) : Z :=
  if negb (truthy name) then 0 else find_id (includes (show name)) MIDNIGHT_MODES 0.

Definition number_or (v : val) (f : val -> Z) : string :=
  if is_number v then show v else show_Z (f v).

(** [Array.isArray(l) ? l : throw], for the callbacks of [forEach] *)
Definition as_array (v : val) : result (list val) :=
  match v with VArr l => Ok l | _ => Throw (TypeError "forEach is not a function") end.

(** A [forEach] that threads the object it fills. *)
Fixpoint fold_result {A B} (f : B -> A -> result B) (acc : B) (l : list A) : result B :=
  match l with
  | [] => Ok acc
  | x :: l' => acc' ← f acc x; fold_result f acc' l'
  end.

Section providers.
Context `{L : Luxon} {Zd : Zod} {N : Net}.

(** ** Aladhan *)

(** [cleanTime]: "05:00 (GST)" on the day [dateObj]. *)
Definition cleanTime (dateObj : dt) (timeStr : val) : result val :=
  if negb (truthy timeStr) then Ok VNull else
  let t := before_char " " (str_of timeStr) in
  let parts := js_number <$> split_on ":" t in
  d ← dt_set dateObj (Fields (num_at parts 0) (num_at parts 1) (NFin 0) NUndef);
  Ok (dt_toISO d).

Definition str_at (l : list string) (i : nat) : val :=
  match l !! i with Some s => VStr s | None => VUndef end.

(** One day of the calendar: its key and its times. *)
Definition aladhan_day (timezone : string) (dayInfo : val) : result (string * val) :=
  date ← get dayInfo "date";
  gregorian ← get date "gregorian";
  let parts := split_on "-" (str_of (prop gregorian "date")) in
  dateObj ← dt_fromObject (str_at parts 2) (str_at parts 1) (str_at parts 0) timezone;
  timings ← get dayInfo "timings";
  fajr ← cleanTime dateObj (prop timings "Fajr");
  sunrise ← cleanTime dateObj (prop timings "Sunrise");
  dhuhr ← cleanTime dateObj (prop timings "Dhuhr");
  asr ← cleanTime dateObj (prop timings "Asr");
  maghrib ← cleanTime dateObj (prop timings "Maghrib");
  isha ← cleanTime dateObj (prop timings "Isha");
  Ok (show (dt_toISODate dateObj),
      VObj [("fajr", fajr); ("sunrise", sunrise); ("dhuhr", dhuhr); ("asr", asr);
            ("maghrib", maghrib); ("isha", isha); ("iqamah", VObj [])]).

Definition add_aladhan_day (tz : string) (m : list (string * val)) (day : val)
    : result (list (string * val)) :=
  kv ← aladhan_day tz day; Ok (oset kv.1 kv.2 m).

Definition Aladhan_normalizeResponse (validData : val) (timezone : val) : result val :=
  VObj <$> fold_result (fun m monthDays =>
             days ← as_array monthDays;
             fold_result (add_aladhan_day (str_of timezone)) m days)
           [] (props (prop validData "data")).*2.

Definition aladhan_url (year : Z) (sourceConfig coordinates : val) : string :=
  API_BASE_URL +:+ "/calendar/" +:+ show_Z year +:+
  "?latitude=" +:+ show (prop coordinates "lat") +:+
  "&longitude=" +:+ show (prop coordinates "long") +:+
  "&method=" +:+ number_or (prop sourceConfig "method") _getCalculationMethodId +:+
  "&school=" +:+ number_or (prop sourceConfig "madhab") _getMadhabId +:+
  "&latitudeAdjustmentMethod=" +:+
    number_or (prop sourceConfig "latitudeAdjustmentMethod") _getLatAdjId +:+
  "&midnightMode=" +:+ number_or (prop sourceConfig "midnightMode") _getMidnightId.

(** [schema.parse] with the provider's own error. *)
Definition parse_response (s : schema) (msg : string) (json : val) : result val :=
  match zod_parse s json with
  | Ok v => Ok v
  | Throw _ => Throw (ProviderValidationError msg false)
  end.

(** The request, with a failure to connect as the provider's error. *)
Definition fetch_or (name : string) (url : string) : M world response :=
  try_catch (fetch url) (fun e => throw (ProviderConnectionError
    ("Failed to connect to " +:+ name +:+ " API: " +:+ e_msg e))).

Definition aladhan_status_error (r : response) : jserr :=
  let message := "Aladhan API Error: " +:+ r_statusText r in
  if 500 <=? r_status r then ProviderConnectionError message
  else ProviderValidationError message false.

Definition Aladhan_doFetch (sourceConfig globalConfig : val) (year : Z) : M world val :=
  location ← lift (get globalConfig "location");
  coordinates ← lift (get location "coordinates");
  _ ← lift (get coordinates "lat");
  response ← fetch_or "Aladhan" (aladhan_url year sourceConfig coordinates);
  if negb (r_ok response) then throw (aladhan_status_error response) else
  json ← lift (r_json response);
  validData ← lift (parse_response AladhanAnnualResponseSchema
                      "Aladhan Schema Validation Failed" json);
  lift (Aladhan_normalizeResponse validData (prop location "timezone")).

Definition healthy (b : bool) (message : string) : val :=
  VObj [("healthy", VBool b); ("message", VStr message)].

Definition Aladhan_healthCheck : M world val :=
  try_catch (response ← fetch (API_BASE_URL +:+ "/methods");
             ret (if r_ok response then healthy true "Reachable"
                  else healthy false ("API returned " +:+ show_Z (r_status response))))
            (fun e => ret (healthy false (e_msg e))).

(** ** MyMasjid *)
Definition mymasjid_url (id : string) : string :=
  "https://time.my-masjid.com/api/TimingsInfoScreen/GetMasjidTimings?GuidId=" +:+ id.

Definition formatTime (dateBase : dt) (t : val) : result val :=
  if negb (truthy t) then Ok VNull else
  let parts := js_number <$> split_on ":" (str_of t) in
  d ← dt_set dateBase (Fields (num_at parts 0) (num_at parts 1) (NFin 0) NUndef);
  Ok (dt_toISO d).

Definition getTime (key : string) (dayObj : val) : result val :=
  match prop dayObj key with
  | VArr (entry :: _) => get entry "salahTime"
  | VArr [] => Ok VNull
  | VStr s => Ok (VStr s)
  | _ => Ok VNull
  end.

Definition getIqamah (key : string) (dayObj : val) : result val :=
  match prop dayObj key with
  | VArr (entry :: _) => get entry "iqamahTime"
  | VArr [] => Ok VNull
  | _ => match prop dayObj ("iqamah_" +:+ capitalise key) with
         | VStr s => Ok (VStr s)
         | _ => Ok VNull
         end
  end.

Definition time_of (day : val) (dateObj : dt) (key : string) : result val :=
  t ← getTime key day; formatTime dateObj t.
Definition iqamah_of (day : val) (dateObj : dt) (key : string) : result val :=
  t ← getIqamah key day; formatTime dateObj t.

Definition add_mymasjid_day (timezone : string) (currentYear : Z) (m : list (string * val))
    (day : val) : result (list (string * val)) :=
  dateObj ← dt_fromObject (VInt currentYear) (prop day "month") (prop day "day") timezone;
  if negb (dt_valid dateObj) then Ok m else
  fajr ← time_of day dateObj "fajr";
  sunrise ← time_of day dateObj "shouruq";
  dhuhr ← time_of day dateObj "zuhr";
  asr ← time_of day dateObj "asr";
  maghrib ← time_of day dateObj "maghrib";
  isha ← time_of day dateObj "isha";
  ifajr ← iqamah_of day dateObj "fajr";
  idhuhr ← iqamah_of day dateObj "zuhr";
  iasr ← iqamah_of day dateObj "asr";
  imaghrib ← iqamah_of day dateObj "maghrib";
  iisha ← iqamah_of day dateObj "isha";
  Ok (oset (show (dt_toISODate dateObj))
        (VObj [("fajr", fajr); ("sunrise", sunrise); ("dhuhr", dhuhr); ("asr", asr);
               ("maghrib", maghrib); ("isha", isha);
               ("iqamah", VObj [("fajr", ifajr); ("dhuhr", idhuhr); ("asr", iasr);
                                ("maghrib", imaghrib); ("isha", iisha)])]) m).

Definition MyMasjid_normalizeResponse (validData timezone : val) (now : Z) : result val :=
  let currentYear := dt_year (dt_setZone (dt_now now) (str_of timezone)) in
  model ← get validData "model";
  days ← as_array (prop model "salahTimings");
  VObj <$> fold_result (add_mymasjid_day (str_of timezone) currentYear) [] days.

Definition mymasjid_status_error (r : response) : jserr :=
  let message := "MyMasjid API Error: " +:+ r_statusText r in
  if 500 <=? r_status r then ProviderConnectionError message
  else if r_status r =? 400
  then ProviderValidationError "Invalid Masjid ID: The ID provided is incorrect." true
  else if r_status r =? 404 then ProviderValidationError "Masjid ID not found." true
  else ProviderValidationError message false.

Definition MyMasjid_doFetch (sourceConfig globalConfig : val) (_year : Z) : M world val :=
  let masjidId := prop sourceConfig "masjidId" in
  location ← lift (get globalConfig "location");
  timezone ← lift (get location "timezone");
  if negb (truthy masjidId)
  then throw (ProviderValidationError "Masjid ID is required" false) else
  response ← fetch_or "MyMasjid" (mymasjid_url (show masjidId));
  if negb (r_ok response) then throw (mymasjid_status_error response) else
  json ← lift (r_json response);
  validData ← lift (parse_response MyMasjidBulkResponseSchema
                      "MyMasjid Schema Validation Failed" json);
  now ← gets w_clock;
  lift (MyMasjid_normalizeResponse validData timezone now).

Definition MyMasjid_healthCheck : M world val :=
  try_catch (response ← fetch (mymasjid_url "00000000-0000-0000-0000-000000000000");
             ret (if r_status response <? 500 then healthy true "Reachable"
                  else healthy false ("API returned " +:+ show_Z (r_status response))))
            (fun e => ret (healthy false (e_msg e))).

(** ** The factory *)
Record ProviderClass := Provider {
  pc_type : string;
  pc_getAnnualTimes : val -> val -> Z -> M world val;  (* sourceConfig, globalConfig, year *)
  pc_healthCheck : M world val;
  pc_schema : schema
}.

(** [this.deduplicateRequest(key, ...)]: the instance is fresh, so its
    [activeRequests] is empty and the request runs (see AsyncLock). *)
Definition Aladhan_getAnnualTimes (sourceConfig globalConfig : val) (year : Z) : M world val :=
  location ← lift (get globalConfig "location");
  coordinates ← lift (get location "coordinates");
  _ ← lift (get coordinates "lat");
  Aladhan_doFetch sourceConfig globalConfig year.

Definition MyMasjid_getAnnualTimes (sourceConfig globalConfig : val) (year : Z) : M world val :=
  MyMasjid_doFetch sourceConfig globalConfig year.

Definition registry : list (string * ProviderClass) :=
  [("aladhan", Provider "aladhan" Aladhan_getAnnualTimes Aladhan_healthCheck
                 Aladhan_getConfigSchema);
   ("mymasjid", Provider "mymasjid" MyMasjid_getAnnualTimes MyMasjid_healthCheck
                 MyMasjid_getConfigSchema)].

Fixpoint assoc {A} (k : string) (l : list (string * A)) : option A :=
  match l with
  | [] => None
  | (k', a) :: l' => if String.eqb k k' then Some a else assoc k l'
  end.

(** [this.registry.get(type)] *)
Definition getProviderClass (type : val) : result ProviderClass :=
  match (match type with VStr t => assoc t registry | _ => None end) with
  | Some P => Ok P
  | None => Throw (Error ("Unknown provider type: " +:+ show type))
  end.

(** [ProviderFactory.create(sourceConfig, globalConfig).getAnnualTimes(year)] *)
Definition getAnnualTimes (sourceConfig globalConfig : val) (year : Z) : M world val :=
  P ← lift (getProviderClass (prop sourceConfig "type"));
  pc_getAnnualTimes P sourceConfig globalConfig year.
End providers.

(** ** Lemmas *)
Lemma fold_result_app {A B} (f : B -> A -> result B) l1 l2 acc :
  fold_result f acc (l1 ++ l2) = (acc' ← fold_result f acc l1; fold_result f acc' l2).
Proof. revert acc. induction l1 as [|x l1 IH]; intros acc; cbn; [done|].
  destruct (f acc x); cbn; [apply IH|done].
Qed.

(** What an invariant of each step gives for the whole loop. *)
Lemma fold_result_inv {A B} (P : B -> Prop) (f : B -> A -> result B) l acc b :
  (forall b x b', P b -> f b x = Ok b' -> P b') ->
  P acc -> fold_result f acc l = Ok b -> P b.
Proof.
  intros Hf. revert acc. induction l as [|x l IH]; intros acc Hacc; cbn; [by intros [= <-]|].
  destruct (f acc x) eqn:E; [|done]. cbn. eauto.
Qed.

Section provider_lemmas.
Context `{LL : LuxonLaws} {Zd : Zod} {N : Net}.

Lemma fetch_or_spec name url w :
  fetch_or name url w =
  (match net_fetch (w_net w) url with
   | Ok r => Ok r
   | Throw e => Throw (ProviderConnectionError
       ("Failed to connect to " +:+ name +:+ " API: " +:+ e_msg e))
   end, set_net (url :: w_net w) w).
Proof. unfold fetch_or, try_catch, fetch. by destruct (net_fetch (w_net w) url). Qed.

(** How a provider reports what came back from the service. *)
Definition classified (s : schema) (reply : result response) (res : result val) : Prop :=
  match reply with
  | Throw _ => exists msg, res = Throw (ProviderConnectionError msg)
  | Ok r =>
      if r_ok r then
        match r_json r with
        | Throw e => res = Throw e
        | Ok json => is_ok (zod_parse s json) = false ->
            exists msg, res = Throw (ProviderValidationError msg false)
        end
      else if 500 <=? r_status r then exists msg, res = Throw (ProviderConnectionError msg)
      else exists msg f, res = Throw (ProviderValidationError msg f)
  end.

Lemma Aladhan_classified sc gc y w coords :
  prop (prop gc "location") "coordinates" = VObj coords ->
  let url := aladhan_url y sc (VObj coords) in
  (Aladhan_getAnnualTimes sc gc y w).2 = set_net (url :: w_net w) w /\
  classified AladhanAnnualResponseSchema (net_fetch (w_net w) url)
    (Aladhan_getAnnualTimes sc gc y w).1.
Proof.
  intros Hc url.
  assert (get gc "location" = Ok (prop gc "location")) as E1 by (destruct gc; cbn in *; congruence).
  assert (get (prop gc "location") "coordinates" = Ok (VObj coords)) as E2.
  { destruct (prop gc "location"); cbn in *; congruence. }
  unfold Aladhan_getAnnualTimes, Aladhan_doFetch, mbind, M_bind, lift. rewrite E1, E2.
  cbn [get is_nullish]. fold url. rewrite fetch_or_spec.
  destruct (net_fetch (w_net w) url) as [r|e]; cbn; [|eauto].
  destruct (r_ok r); cbn.
  - destruct (r_json r) as [json|e]; cbn; [|done]. unfold parse_response.
    destruct (zod_parse _ json); cbn; [done|eauto].
  - unfold throw, aladhan_status_error. destruct (500 <=? r_status r); cbn; eauto.
Qed.

Lemma MyMasjid_classified sc gc y w :
  truthy (prop sc "masjidId") = true -> is_object (prop gc "location") = true ->
  let url := mymasjid_url (show (prop sc "masjidId")) in
  (MyMasjid_getAnnualTimes sc gc y w).2 = set_net (url :: w_net w) w /\
  classified MyMasjidBulkResponseSchema (net_fetch (w_net w) url)
    (MyMasjid_getAnnualTimes sc gc y w).1.
Proof.
  intros Hid Hl url.
  assert (get gc "location" = Ok (prop gc "location")) as E1 by (destruct gc; cbn in *; congruence).
  assert (exists tz, get (prop gc "location") "timezone" = Ok tz) as [tz E2].
  { destruct (prop gc "location"); try done; cbn; eauto. }
  unfold MyMasjid_getAnnualTimes, MyMasjid_doFetch, mbind, M_bind, lift. rewrite E1, E2, Hid.
  cbn [negb]. fold url. rewrite fetch_or_spec.
  destruct (net_fetch (w_net w) url) as [r|e]; cbn; [|eauto].
  destruct (r_ok r); cbn.
  - destruct (r_json r) as [json|e]; cbn; [|done]. unfold parse_response.
    destruct (zod_parse _ json); cbn; [done|eauto].
  - unfold throw, mymasjid_status_error. repeat case_match; cbn; eauto.
Qed.

(** The days of an Aladhan response, month by month. *)
Definition all_days (validData : val) : list val :=
  mjoin (arr_of <$> (props (prop validData "data")).*2).

(** The map that a run over [days] makes of [acc]. *)
Definition days_map (tz : string) (acc : list (string * val)) (days : list val)
    (m : list (string * val)) : Prop :=
  (forall day, day ∈ days -> exists k row, aladhan_day tz day = Ok (k, row) /\ k ∈ okeys m) /\
  (forall k, k ∈ okeys m ->
     (k ∈ okeys acc /\ oget k m = oget k acc) \/
     exists day, day ∈ days /\ aladhan_day tz day = Ok (k, oget k m)) /\
  (forall k, k ∈ okeys acc -> k ∈ okeys m).

Lemma days_map_nil tz acc : days_map tz acc [] acc.
Proof. split_and!; [|by left|done]. intros day H. by apply not_elem_of_nil in H. Qed.

Lemma days_map_step tz acc day m :
  add_aladhan_day tz acc day = Ok m -> days_map tz acc [day] m.
Proof.
  unfold add_aladhan_day. destruct (aladhan_day tz day) as [[k row]|] eqn:E; [|done].
  cbn. intros [= <-]. split_and!.
  - intros day' ->%list_elem_of_singleton. exists k, row. split; [done|].
    apply ohas_okeys. by rewrite ohas_oset, String.eqb_refl.
  - intros k' Hk'. destruct (decide (k' = k)) as [->|Hne].
    + right. exists day. rewrite oget_oset. split; [set_solver|done].
    + left. rewrite oget_oset_ne by done. split; [|done]. apply ohas_okeys in Hk'.
      rewrite ohas_oset in Hk'. apply String.eqb_neq in Hne. rewrite Hne in Hk'.
      by apply ohas_okeys.
  - intros k' Hk'. apply ohas_okeys. rewrite ohas_oset. apply ohas_okeys in Hk'.
    by rewrite Hk', orb_true_r.
Qed.

Lemma days_map_app tz acc l1 m1 l2 m2 :
  days_map tz acc l1 m1 -> days_map tz m1 l2 m2 -> days_map tz acc (l1 ++ l2) m2.
Proof.
  intros (A1 & B1 & C1) (A2 & B2 & C2). split_and!.
  - intros day [Hd|Hd]%elem_of_app; [|eauto].
    destruct (A1 _ Hd) as (k & row & ? & ?). eauto.
  - intros k Hk. destruct (B2 k Hk) as [[Hk1 ->]|(day & ? & ?)].
    + destruct (B1 k Hk1) as [?|(day & ? & ?)]; [by left|right].
      exists day. rewrite elem_of_app. auto.
    + right. exists day. rewrite elem_of_app. auto.
  - auto.
Qed.

Lemma days_map_fold tz days acc m :
  fold_result (add_aladhan_day tz) acc days = Ok m -> days_map tz acc days m.
Proof.
  revert acc. induction days as [|day days IH]; intros acc; cbn.
  { intros [= <-]. apply days_map_nil. }
  destruct (add_aladhan_day tz acc day) as [m1|] eqn:E; [|done]. cbn. intros H.
  apply (days_map_app _ _ [day] m1); [by apply days_map_step|by apply IH].
Qed.

(** ** Properties *)

(** The normalised Aladhan year has one row per day of the response and
    nothing else: every day's date is a key, and the row of each key is the
    normalisation of a day of the response. *)
Theorem Aladhan_normalize_rows v tz m :
  Aladhan_normalizeResponse v (VStr tz) = Ok (VObj m) ->
  (forall day, day ∈ all_days v -> exists k row, aladhan_day tz day = Ok (k, row) /\ k ∈ okeys m) /\
  (forall k, k ∈ okeys m -> exists day, day ∈ all_days v /\ aladhan_day tz day = Ok (k, oget k m)).
Proof.
  unfold Aladhan_normalizeResponse, all_days. cbn [str_of].
  destruct (fold_result _ _ _) as [m'|] eqn:Hf; [|done]. cbn. intros [= ->].
  assert (days_map tz [] (mjoin (arr_of <$> (props (prop v "data")).*2)) m) as (A & B & _).
  { revert Hf. generalize (props (prop v "data")).*2, (@nil (string * val)).
    intros months. induction months as [|month months IH]; intros acc; cbn.
    { intros [= <-]. apply days_map_nil. }
    destruct (as_array month) as [days|] eqn:Ea; [|done]. cbn.
    destruct (fold_result _ acc days) as [m1|] eqn:E; [|done]. cbn. intros H.
    apply (days_map_app _ _ _ m1); [|by apply IH].
    destruct month; try done. injection Ea as ->. by apply days_map_fold. }
  split; [exact A|]. intros k Hk. destruct (B k Hk) as [[Hk' _]|?]; [|done].
  by apply not_elem_of_nil in Hk'.
Qed.

(** C30: both providers turn what the service did into the error class the
    caller's failover depends on: no connection and a status of 500 or more are
    connection errors, any other failing status and a response of the wrong
    shape are validation errors; and exactly one request is made. *)
Theorem provider_errors_classified sc gc y w coords :
  prop (prop gc "location") "coordinates" = VObj coords ->
  (prop sc "type" = VStr "aladhan" ->
     exists url, (getAnnualTimes sc gc y w).2 = set_net (url :: w_net w) w /\
       classified AladhanAnnualResponseSchema (net_fetch (w_net w) url)
         (getAnnualTimes sc gc y w).1) /\
  (prop sc "type" = VStr "mymasjid" -> truthy (prop sc "masjidId") = true ->
     exists url, (getAnnualTimes sc gc y w).2 = set_net (url :: w_net w) w /\
       classified MyMasjidBulkResponseSchema (net_fetch (w_net w) url)
         (getAnnualTimes sc gc y w).1).
Proof.
  intros Hc. split.
  - intros Ht. eexists. unfold getAnnualTimes, getProviderClass. rewrite Ht. cbn [assoc registry].
    by apply Aladhan_classified.
  - intros Ht Hid. eexists. unfold getAnnualTimes, getProviderClass. rewrite Ht.
    cbn [assoc registry]. apply MyMasjid_classified; [done|].
    by destruct (prop gc "location").
Qed.

(** The MyMasjid provider does not look at the year it is asked for: the
    result is the same for every year, and each date in it belongs to the year
    the clock shows in the configured zone. *)
Theorem MyMasjid_ignores_year sc gc y y' w :
  MyMasjid_getAnnualTimes sc gc y w = MyMasjid_getAnnualTimes sc gc y' w /\
  forall m w', MyMasjid_getAnnualTimes sc gc y w = (Ok (VObj m), w') ->
    exists tz, forall k, k ∈ okeys m -> exists month day d,
      dt_fromObject (VInt (dt_year (dt_setZone (dt_now (w_clock w)) tz))) month day tz = Ok d /\
      dt_valid d = true /\ k = show (dt_toISODate d).
Proof.
  split; [done|]. intros m w'. unfold MyMasjid_getAnnualTimes, MyMasjid_doFetch. intros H.
  apply M_bind_inv in H as (loc & w1 & H1 & H). unfold lift in H1.
  assert (w1 = w) as -> by congruence. clear H1.
  apply M_bind_inv in H as (tz & w1 & H1 & H). unfold lift in H1.
  assert (w1 = w) as -> by congruence. clear H1.
  destruct (negb (truthy _)); [done|].
  apply M_bind_inv in H as (r & w1 & H1 & H). rewrite fetch_or_spec in H1.
  assert (w_clock w1 = w_clock w) as Hclk by (injection H1 as _ <-; done).
  destruct (negb (r_ok r)); [done|].
  apply M_bind_inv in H as (json & w2 & H2 & H). unfold lift in H2. injection H2 as _ <-.
  apply M_bind_inv in H as (v & w2 & H2 & H). unfold lift in H2. injection H2 as _ <-.
  cbn in H. injection H as H _. rewrite Hclk in H. exists (str_of tz).
  unfold MyMasjid_normalizeResponse in H.
  destruct (get v "model") as [model|]; [|done]. cbn in H.
  destruct (as_array _) as [days|]; [|done]. cbn in H.
  destruct (fold_result _ [] days) as [m'|] eqn:Hf; [|done]. cbn in H. injection H as <-.
  eapply (fold_result_inv (fun m => forall k, k ∈ okeys m -> _)); [| |exact Hf].
  2: { intros k Hk. by apply not_elem_of_nil in Hk. }
  clear. intros m day m' IH Hstep k Hk. unfold add_mymasjid_day in Hstep.
  destruct (dt_fromObject _ _ _ _) as [d|] eqn:Hd; [|done]. cbn in Hstep.
  destruct (dt_valid d) eqn:Hv; [|injection Hstep as <-; by apply IH]. cbn in Hstep.
  repeat match type of Hstep with
  | mbind _ ?x = _ => destruct x; [|done]; cbn in Hstep
  end.
  injection Hstep as <-. apply ohas_okeys in Hk. rewrite ohas_oset in Hk.
  apply orb_true_iff in Hk as [->%String.eqb_eq|Hk%ohas_okeys]; [|by apply IH].
  by exists (prop day "month"), (prop day "day"), d.
Qed.
End provider_lemmas.

(** ** Witnesses *)
Definition sample_flat_day : val :=
  VObj [("day", VInt 15); ("month", VInt 1); ("fajr", VStr "05:30"); ("zuhr", VStr "12:15");
        ("asr", VStr "14:30"); ("maghrib", VStr "16:20"); ("isha", VStr "18:00");
        ("shouruq", VStr "07:50"); ("iqamah_Fajr", VStr "06:00")].

Definition sample_aladhan_day : val :=
  VObj [("timings", VObj ((fun n => (n, VStr "05:30 (GMT)")) <$>
           ["Fajr"; "Sunrise"; "Dhuhr"; "Asr"; "Sunset"; "Maghrib"; "Isha"; "Imsak"; "Midnight"]));
        ("date", VObj [("gregorian", VObj [("date", VStr "15-01-2025"); ("day", VStr "15");
           ("month", VObj [("number", VInt 1)]); ("year", VStr "2025")])]);
        ("meta", VObj [("timezone", VStr "Europe/London")])].

Definition sample_aladhan_json : val :=
  VObj [("code", VInt 200); ("status", VStr "OK");
        ("data", VObj [("1", VArr [sample_aladhan_day])])].

(** A service that answers Aladhan calendars and MyMasjid timetables. *)
Definition sample_net : Net := fun _ url =>
  if starts_with API_BASE_URL url then Ok (Response true 200 "OK" (Ok sample_aladhan_json))
  else Ok (Response true 200 "OK"
    (Ok (VObj [("model", VObj [("salahTimings", VArr [sample_flat_day])])]))).

Definition sample_globals : val :=
  VObj [("location", VObj [("timezone", VStr "Europe/London");
          ("coordinates", VObj [("lat", VInt 51); ("long", VInt 0)])])].

Definition sample_mymasjid : val :=
  VObj [("type", VStr "mymasjid"); ("masjidId", VStr "94f1c71b-0000-0000-0000-000000000000")].

Lemma Aladhan_normalize_rows_witness :
  exists day, day ∈ all_days sample_aladhan_json /\
    aladhan_day (L := utc) "Europe/London" day = Ok ("2025-01-15",
      VObj [("fajr", VStr "2025-01-15T05:30:00.000Z"); ("sunrise", VStr "2025-01-15T05:30:00.000Z");
            ("dhuhr", VStr "2025-01-15T05:30:00.000Z"); ("asr", VStr "2025-01-15T05:30:00.000Z");
            ("maghrib", VStr "2025-01-15T05:30:00.000Z"); ("isha", VStr "2025-01-15T05:30:00.000Z");
            ("iqamah", VObj [])]).
Proof.
  apply (Aladhan_normalize_rows (L := utc) sample_aladhan_json "Europe/London"
    [("2025-01-15", VObj [("fajr", VStr "2025-01-15T05:30:00.000Z");
        ("sunrise", VStr "2025-01-15T05:30:00.000Z"); ("dhuhr", VStr "2025-01-15T05:30:00.000Z");
        ("asr", VStr "2025-01-15T05:30:00.000Z"); ("maghrib", VStr "2025-01-15T05:30:00.000Z");
        ("isha", VStr "2025-01-15T05:30:00.000Z"); ("iqamah", VObj [])])] ); [reflexivity|].
  apply list_elem_of_here.
Defined.

Lemma provider_errors_classified_witness :
  exists url,
    (getAnnualTimes (L := utc) (N := sample_net) sample_mymasjid sample_globals 2026 empty_world).2
      = set_net (url :: w_net empty_world) empty_world /\
    classified MyMasjidBulkResponseSchema (sample_net (w_net empty_world) url)
      (getAnnualTimes (L := utc) (N := sample_net) sample_mymasjid sample_globals 2026 empty_world).1.
Proof.
  apply (provider_errors_classified (L := utc) (N := sample_net) sample_mymasjid sample_globals 2026
    empty_world [("lat", VInt 51); ("long", VInt 0)]); reflexivity.
Defined.

(** Asked for 2026 while the clock shows 2025, the provider returns 2025. *)
Definition clock_2025 : world := set_clock 1736940000000 empty_world.

Lemma MyMasjid_ignores_year_witness :
  exists tz, forall k, k ∈ ["2025-01-15"] -> exists month day d,
      dt_fromObject (Luxon := utc) (VInt (dt_year (dt_setZone (dt_now 1736940000000) tz)))
        month day tz = Ok d /\
      dt_valid d = true /\ k = show (dt_toISODate d).
Proof.
  pose (m := match (MyMasjid_getAnnualTimes (L := utc) (N := sample_net) sample_mymasjid
    sample_globals 2026 clock_2025).1 with Ok v => props v | _ => [] end).
  assert (okeys m = ["2025-01-15"]) as <- by reflexivity.
  apply (proj2 (MyMasjid_ignores_year (L := utc) (N := sample_net) sample_mymasjid sample_globals
    2026 2025 clock_2025) m (MyMasjid_getAnnualTimes (L := utc) (N := sample_net) sample_mymasjid
    sample_globals 2026 clock_2025).2).
  reflexivity.
Defined.
