(* ===== verification/PrayerTimes.v ===== *)
(** * The prayer time service ([src/services/core/prayerTimeService.js])

    A year of prayer times is fetched at a time, from the primary source with
    failover to the backup, merged into a cache kept in memory and on disk, and
    read back per date with the configured congregation times on top. *)
From S2P Require Import Prelude JsString JsValue World Luxon LuxonUtc Calculations Zod Schemas.
From S2P Require Import Network Providers AsyncLock.

(** [path.join(process.cwd(), "data", "cache.json")], the server running in
    [/app]. *)
Definition DATA_DIR : string := "/app/data".
Definition CACHE_FILE : string := "/app/data/cache.json".

(** The prayers that have a congregation time. *)
Definition IQAMAH_PRAYERS : list string := ["fajr"; "dhuhr"; "asr"; "maghrib"; "isha"].

(** A map with no entries, or no map at all. *)
Definition empty_map (v : val) : bool :=
  negb (truthy v) || match okeys (props v) with [] => true | _ => false end.

Arguments empty_map : simpl never.

Definition ensureDataDir : M world unit :=
  try_catch (fs_access_dir DATA_DIR) (fun _ => fs_mkdir DATA_DIR).

Definition set_memory (v : val) : M world val := modify (set_pcache v) ;; ret v.

Definition readCache : M world val :=
  try_catch
    (fs_access CACHE_FILE ;;
     content ← fs_read CACHE_FILE;
     match json_parse content with
     | Ok v => set_memory v
     | Throw _ => set_memory (VObj [])
     end)
    (fun _ => set_memory (VObj [])).

Definition writeCache (data : val) : M world unit :=
  try_catch
    (ensureDataDir ;; fs_write CACHE_FILE (Json data) ;; modify (set_pcache data))
    (fun _ => ret tt).

Section service.
Context `{L : Luxon} {Zd : Zod} {N : Net}.

(** One prayer of [applyOverrides]: an exception leaves the time as it is. *)
Definition override_one (prayers config : val) (iqamah : list (string * val)) (prayer : string)
    : list (string * val) :=
  let pConfig := prop (prop config "prayers") prayer in
  if truthy pConfig && truthy (prop pConfig "iqamahOverride") && truthy (prop prayers prayer) then
    match (location ← get config "location"; timezone ← get location "timezone";
           calculateIqamah (prop prayers prayer) pConfig timezone) with
    | Ok t => oset prayer t iqamah
    | Throw _ => iqamah
    end
  else iqamah.

Definition applyOverrides (prayers config : val) : val :=
  if negb (truthy prayers) then prayers else
  if negb (truthy config) || negb (truthy (prop config "prayers")) then prayers else
  let iqamah := foldl (override_one prayers config)
                  (ospread [] (props (js_or (prop prayers "iqamah") (VObj [])))) IQAMAH_PRAYERS in
  VObj (oset "iqamah" (VObj iqamah) (ospread [] (props prayers))).

(** *** Fetching *)
Definition tryFetch (config sourceConfig : val) (year : Z) : M world val :=
  if negb (truthy sourceConfig) || negb (truthy (prop sourceConfig "type")) then ret VNull
  else getAnnualTimes sourceConfig config year.

Definition backup_enabled (config : val) : bool :=
  let backup := prop (prop config "sources") "backup" in
  truthy backup && negb (seq (prop backup "enabled") (VBool false)).

(** The [catch] of the primary fetch: [newDataMap] is what the primary left. *)
Definition failover (config : val) (year : Z) (newDataMap : val) (error : jserr)
    : M world (val * val) :=
  if is_validation_error error then throw error else
  let backup := prop (prop config "sources") "backup" in
  r ← (if backup_enabled config then
         res ← settle (tryFetch config backup year);
         ret match res with
             | Ok m => (m, if empty_map m then VNull else prop backup "type")
             | Throw _ => (newDataMap, VNull)
             end
       else ret (newDataMap, VNull));
  if empty_map r.1 then throw error else ret r.

(** The data of a year and the source it came from. *)
Definition fetch_bulk (config : val) (year : Z) : M world (val * val) :=
  let primary := prop (prop config "sources") "primary" in
  res ← settle (tryFetch config primary year);
  match res with
  | Ok m =>
      if empty_map m
      then failover config year m
             (Error ("Primary source (" +:+ show (prop primary "type") +:+ ") returned empty data."))
      else ret (m, prop primary "type")
  | Throw e => failover config year VNull e
  end.

Definition times_result (dateKey source lastFetched : val) (cached : bool) (prayers : val) : val :=
  VObj [("meta", VObj [("date", dateKey); ("source", source); ("lastFetched", lastFetched);
                       ("cached", VBool cached)]);
        ("prayers", prayers)].

Definition cache_hit (cache config dateKey : val) : result val :=
  meta ← get cache "meta";
  source ← get meta "source";
  lastFetched ← get meta "lastFetched";
  Ok (times_result dateKey source lastFetched true
        (applyOverrides (prop (prop cache "data") (show dateKey)) config)).

Definition merged_cache (cache newDataMap sourceUsed : val) (now : Z) : val :=
  VObj [("meta", VObj [("lastFetched", dt_toISO (dt_now now)); ("source", sourceUsed)]);
        ("data", VObj (ospread (props (js_or (prop cache "data") (VObj []))) (props newDataMap)))].

(** The body run under the lock. *)
Definition lookup_or_fetch (config : val) (date : dt) : M world val :=
  let dateKey := dt_toISODate date in
  let year := dt_year date in
  mem ← gets w_pcache;
  if truthy mem && truthy (prop mem "data") && truthy (prop (prop mem "data") (show dateKey))
  then lift (cache_hit mem config dateKey) else
  cache ← readCache;
  data ← lift (get cache "data");
  if truthy data && truthy (prop data (show dateKey))
  then lift (cache_hit cache config dateKey) else
  fetched ← fetch_bulk config year;
  now ← gets w_clock;
  let updatedCache := merged_cache cache fetched.1 fetched.2 now in
  writeCache updatedCache ;;
  let resultForDate := prop (prop updatedCache "data") (show dateKey) in
  if negb (truthy resultForDate)
  then throw (Error ("Data for " +:+ show dateKey +:+ " not found in bulk response.")) else
  ret (times_result dateKey fetched.2 (prop (prop updatedCache "meta") "lastFetched") false
         (applyOverrides resultForDate config)).

Definition lockKey (config : val) (date : dt) : string :=
  "fetch-" +:+ show (prop (prop (prop config "sources") "primary") "type") +:+ "-" +:+
  show_Z (dt_year date).

(** [getPrayerTimes] with no other call of the same key in flight. *)
Definition getPrayerTimes (config : val) (date : dt) : M world val :=
  sources ← lift (get config "sources");
  primary ← lift (get sources "primary");
  _ ← lift (get primary "type");
  lookup_or_fetch config date.

Definition forceRefresh (config : val) : M world val :=
  modify (set_pcache VNull) ;;
  try_catch (fs_unlink CACHE_FILE) (fun _ => ret tt) ;;
  now ← gets w_clock;
  getPrayerTimes config (dt_now now).

(** *** Dashboard rows *)
Definition row_iqamah (rawData config timezone : val) (name : string) (startISO : val)
    : result val :=
  if String.eqb name "sunrise" then Ok VNull else
  let explicit := prop (prop rawData "prayers") "iqamah" in
  if truthy explicit && truthy (prop explicit name) then Ok (prop explicit name) else
  prayers ← get config "prayers";
  settings ← get prayers name;
  if truthy settings then calculateIqamah startISO settings timezone else Ok VNull.

Definition add_row (rawData config timezone : val) (rows : list (string * val)) (name : string)
    : result (list (string * val)) :=
  let startISO := prop (prop rawData "prayers") name in
  if negb (truthy startISO) then Ok rows else
  iqamahISO ← row_iqamah rawData config timezone name startISO;
  Ok (oset name (VObj [("start", startISO); ("iqamah", iqamahISO)]) rows).

Definition buildPrayerRows (rawData config timezone : val) : result val :=
  VObj <$> fold_result (add_row rawData config timezone) [] PRAYER_NAMES.

(** Tomorrow's first prayer, when it can be had. *)
Definition tomorrow_fajr (config : val) (now : dt) : M world val :=
  try_catch
    (tomorrowData ← getPrayerTimes config (dt_plus_days now 1);
     let fajr := prop (prop tomorrowData "prayers") "fajr" in
     ret (if truthy fajr
          then VObj [("name", VStr "fajr"); ("time", fajr); ("isTomorrow", VBool true)]
          else VNull))
    (fun _ => ret VNull).

Definition getPrayersWithNext (config timezone : val) (referenceDate : dt) : M world val :=
  let now := dt_setZone referenceDate (str_of timezone) in
  rawData ← getPrayerTimes config now;
  prayers ← lift (buildPrayerRows rawData config timezone);
  let next := calculateNextPrayer prayers now in
  nextPrayer ← (if truthy next then ret next else tomorrow_fajr config now);
  let meta := prop rawData "meta" in
  ret (VObj [("meta", VObj [("date", prop meta "date"); ("location", timezone);
                            ("source", prop meta "source"); ("cached", prop meta "cached")]);
             ("prayers", prayers); ("nextPrayer", nextPrayer)]).

(** *** The calendar window *)
Definition getDirectionalWindowStart (cursorDate direction timezone : val) : dt :=
  let cursor := dt_startOf_day (dt_fromISO_zone (str_of cursorDate) (str_of timezone)) in
  if seq direction (VStr "past") then dt_plus_days cursor (-1) else dt_plus_days cursor 1.

(** The rows of one date. *)
Definition calendar_day (config timezone : val) (date : dt) : M world (string * val) :=
  rawData ← getPrayerTimes config date;
  rows ← lift (buildPrayerRows rawData config timezone);
  ret (show (dt_toISODate date), rows).

(** The directional loop: it stops at the first date that fails. *)
Fixpoint walk (config timezone : val) (step : Z) (n : nat) (date : dt)
    : M world (list (string * val)) :=
  match n with
  | O => ret []
  | S n' =>
      r ← settle (calendar_day config timezone date);
      match r with
      | Throw _ => ret []
      | Ok entry => rest ← walk config timezone step n' (dt_plus_days date step);
                    ret (entry :: rest)
      end
  end.

(** The default window's loop: a date that fails is skipped. *)
Fixpoint window (config timezone : val) (startDate : dt) (offsets : list Z)
    (calendar : list (string * val)) : M world val :=
  match offsets with
  | [] => ret (VObj calendar)
  | offset :: offsets' =>
      r ← settle (calendar_day config timezone (dt_plus_days startDate offset));
      match r with
      | Throw _ => window config timezone startDate offsets' calendar
      | Ok entry => window config timezone startDate offsets' (oset entry.1 entry.2 calendar)
      end
  end.

(** [Object.fromEntries] *)
Definition fromEntries (l : list (string * val)) : val := VObj (ospread [] l).

Definition getPrayerCalendarWindow (config timezone options : val) (referenceDate : dt)
    : M world val :=
  let cursorDate := prop options "cursorDate" in
  let direction := prop options "direction" in
  if truthy cursorDate && truthy direction then
    let past := seq direction (VStr "past") in
    entries ← walk config timezone (if past then -1 else 1) 7
                (getDirectionalWindowStart cursorDate direction timezone);
    ret (fromEntries (if past then reverse entries else entries))
  else
    window config timezone
      (dt_plus_days (dt_startOf_day (dt_setZone referenceDate (str_of timezone))) (-7))
      (seqZ 0 15) [].
End service.

(** ** Lemmas *)

(** A source with a type is consulted. *)
(** The configured sources of a validated configuration. *)
Definition has_primary (config : val) : Prop :=
  exists t, prop (prop (prop config "sources") "primary") "type" = VStr t.

Lemma prop_nonundef v k x : prop v k = x -> x <> VUndef -> is_nullish v = false.
Proof. intros <-. by destruct v. Qed.

Section service_lemmas.
Context `{L : Luxon} {Zd : Zod} {N : Net}.

Lemma getPrayerTimes_lookup config date w :
  has_primary config -> getPrayerTimes config date w = lookup_or_fetch config date w.
Proof.
  intros [t Ht].
  assert (is_nullish (prop (prop config "sources") "primary") = false) as H1
    by (by eapply prop_nonundef).
  assert (is_nullish (prop config "sources") = false) as H2
    by (destruct (prop config "sources"); done).
  assert (is_nullish config = false) as H3 by (destruct config; done).
  unfold getPrayerTimes, mbind, M_bind, lift. by rewrite !get_ok.
Qed.

(** A cache that holds the date: a truthy entry and a [meta] to report. *)
Definition holds (cache : val) (key : string) : Prop :=
  truthy (prop (prop cache "data") key) = true /\ is_nullish (prop cache "meta") = false.

Definition hit_result (cache config dateKey : val) : val :=
  times_result dateKey (prop (prop cache "meta") "source") (prop (prop cache "meta") "lastFetched")
    true (applyOverrides (prop (prop cache "data") (show dateKey)) config).

Lemma holds_truthy cache key :
  holds cache key -> truthy cache && truthy (prop cache "data") &&
    truthy (prop (prop cache "data") key) = true /\ is_nullish cache = false.
Proof.
  intros [H1 H2]. rewrite H1. destruct cache as [| | | | | |o]; try done.
  cbn in *. by destruct (oget "data" o).
Qed.

Lemma cache_hit_ok cache config dateKey :
  holds cache (show dateKey) -> cache_hit cache config dateKey = Ok (hit_result cache config dateKey).
Proof.
  intros H. pose proof (holds_truthy _ _ H) as [_ Hn]. destruct H as [_ Hm].
  unfold cache_hit. rewrite get_ok by done. cbn [mbind result_bind].
  by rewrite !get_ok by done.
Qed.

Lemma lookup_memory_hit config date w :
  holds (w_pcache w) (show (dt_toISODate date)) ->
  lookup_or_fetch config date w =
    (Ok (hit_result (w_pcache w) config (dt_toISODate date)), w).
Proof.
  intros H. unfold lookup_or_fetch, mbind, M_bind, gets, lift.
  destruct (holds_truthy _ _ H) as [-> _]. by rewrite cache_hit_ok.
Qed.

(** What [readCache] leaves in memory. *)
Definition disk_cache (w : world) : val :=
  match files w !! CACHE_FILE with
  | Some f => match json_parse (f_content f) with Ok v => v | Throw _ => VObj [] end
  | None => VObj []
  end.

Lemma readCache_spec w : readCache w = (Ok (disk_cache w), set_pcache (disk_cache w) w).
Proof.
  unfold readCache, try_catch, mbind, M_bind, fs_access, fs_read, disk_cache.
  destruct (files w !! CACHE_FILE) as [f|] eqn:E; [|done]. rewrite E.
  by destruct (json_parse (f_content f)).
Qed.

Lemma writeCache_ok data w :
  denied w CACHE_FILE = false -> denied w DATA_DIR = false ->
  writeCache data w = (Ok tt,
    set_pcache data (set_files (<[CACHE_FILE := File (Json data) (w_clock w)]> (files w)) w)).
Proof.
  intros H1 H2. unfold writeCache, ensureDataDir, try_catch, mbind, M_bind, fs_access_dir, fs_mkdir.
  destruct (existsb _ _); [|rewrite H2]; by rewrite fs_write_ok.
Qed.

(** A cache whose data is an object or missing does not stop a lookup. *)
Lemma lookup_miss config date w :
  let key := show (dt_toISODate date) in
  truthy (prop (prop (w_pcache w) "data") key) = false ->
  truthy (prop (prop (disk_cache w) "data") key) = false ->
  is_nullish (disk_cache w) = false ->
  lookup_or_fetch config date w =
    (fetched ← fetch_bulk config (dt_year date);
     now ← gets w_clock;
     let updatedCache := merged_cache (disk_cache w) fetched.1 fetched.2 now in
     writeCache updatedCache ;;
     let resultForDate := prop (prop updatedCache "data") key in
     if negb (truthy resultForDate)
     then throw (Error ("Data for " +:+ key +:+ " not found in bulk response.")) else
     ret (times_result (dt_toISODate date) fetched.2
            (prop (prop updatedCache "meta") "lastFetched") false
            (applyOverrides resultForDate config))) (set_pcache (disk_cache w) w).
Proof.
  intros key Hm Hd Hn. unfold lookup_or_fetch. cbv zeta. fold key.
  erewrite M_bind_ok by reflexivity. cbv beta. rewrite Hm, andb_false_r.
  rewrite (M_bind_ok _ _ _ _ _ (readCache_spec w)).
  rewrite (M_bind_ok (lift (get (disk_cache w) "data")) _ _ (prop (disk_cache w) "data")
    (set_pcache (disk_cache w) w)) by (unfold lift; by rewrite get_ok).
  cbv beta. by rewrite Hd, andb_false_r.
Qed.

Lemma prop_merged cache m src now k :
  NoDup (okeys (props m)) -> is_object m = true -> is_array m = false ->
  prop (prop (merged_cache cache m src now) "data") k =
    if ohas k (props m) then prop m k else prop (prop cache "data") k.
Proof.
  intros Hnd Ho Ha. destruct m as [| | | | | |o]; try done. cbn in *.
  rewrite oget_ospread by done. destruct (ohas k o); [done|]. apply prop_or_empty.
Qed.

(** Neither cache holds the date, and the cache file can be written. *)
Record cache_miss (config : val) (date : dt) (w : world) : Prop := {
  miss_primary : has_primary config;
  miss_memory : truthy (prop (prop (w_pcache w) "data") (show (dt_toISODate date))) = false;
  miss_disk : truthy (prop (prop (disk_cache w) "data") (show (dt_toISODate date))) = false;
  miss_readable : is_nullish (disk_cache w) = false;
  miss_file : denied w CACHE_FILE = false;
  miss_dir : denied w DATA_DIR = false
}.

(** *** A fetch changes nothing but the log of remote calls *)
Definition net_only {A} (m : M world A) : Prop :=
  forall w, exists n, (m w).2 = set_net n w.

Lemma net_only_same {A} (r : world -> result A) : net_only (fun w => (r w, w)).
Proof. intros w. exists (w_net w). by destruct w. Qed.

Lemma net_only_bind {A B} (m : M world A) (f : A -> M world B) :
  net_only m -> (forall a, net_only (f a)) -> net_only (mbind f m).
Proof.
  intros Hm Hf w. destruct (Hm w) as [n Hn]. unfold mbind, M_bind.
  destruct (m w) as [[a|e] w1]; cbn in *; subst; [|by exists n].
  destruct (Hf a (set_net n w)) as [n' Hn']. exists n'. by rewrite Hn'.
Qed.

Lemma net_only_if {A} (b : bool) (m1 m2 : M world A) :
  net_only m1 -> net_only m2 -> net_only (if b then m1 else m2).
Proof. by destruct b. Qed.

Lemma net_only_settle {A} (m : M world A) : net_only m -> net_only (settle m).
Proof. intros H w. destruct (H w) as [n Hn]. exists n. unfold settle. by destruct (m w). Qed.

Lemma net_only_catch {A} (m : M world A) h :
  net_only m -> (forall e, net_only (h e)) -> net_only (try_catch m h).
Proof.
  intros Hm Hh w. destruct (Hm w) as [n Hn]. unfold try_catch.
  destruct (m w) as [[a|e] w1]; cbn in *; subst; [by exists n|].
  destruct (Hh e (set_net n w)) as [n' Hn']. exists n'. by rewrite Hn'.
Qed.

Lemma net_only_fetch url : net_only (fetch url).
Proof. intros w. by eexists. Qed.

Ltac net_only := repeat first
  [ apply net_only_fetch | apply net_only_settle | apply net_only_if
  | apply net_only_bind; [|intros ?] | apply net_only_catch; [|intros ?]
  | apply (net_only_same (fun _ => _)) | apply net_only_same ].

Lemma Aladhan_net sc gc y : net_only (Aladhan_getAnnualTimes sc gc y).
Proof. unfold Aladhan_getAnnualTimes, Aladhan_doFetch, fetch_or. net_only. Qed.

Lemma MyMasjid_net sc gc y : net_only (MyMasjid_getAnnualTimes sc gc y).
Proof. unfold MyMasjid_getAnnualTimes, MyMasjid_doFetch, fetch_or. net_only. Qed.

Lemma getAnnualTimes_net sc gc year : net_only (getAnnualTimes sc gc year).
Proof.
  unfold getAnnualTimes, getProviderClass. destruct (prop sc "type") as [| | | |t| |];
    try (intros w; exists (w_net w); by destruct w).
  cbn [assoc registry]. destruct (String.eqb t "aladhan"); [apply Aladhan_net|].
  destruct (String.eqb t "mymasjid"); [apply MyMasjid_net|].
  intros w. exists (w_net w). by destruct w.
Qed.

Lemma tryFetch_net config sc year : net_only (tryFetch config sc year).
Proof. unfold tryFetch. apply net_only_if; [net_only|apply getAnnualTimes_net]. Qed.

Lemma failover_net config year m e : net_only (failover config year m e).
Proof.
  unfold failover. destruct (is_validation_error e); [net_only|].
  apply net_only_bind.
  - apply net_only_if; [|net_only]. apply net_only_bind; [apply net_only_settle, tryFetch_net|].
    intros res. net_only.
  - intros r. net_only.
Qed.

Lemma fetch_bulk_net config year : net_only (fetch_bulk config year).
Proof.
  unfold fetch_bulk. apply net_only_bind; [apply net_only_settle, tryFetch_net|].
  intros [m|e]; [|apply failover_net]. apply net_only_if; [apply failover_net|net_only].
Qed.

(** A date that memory does not hold and the file does. *)
Lemma lookup_disk_hit config date w :
  truthy (prop (prop (w_pcache w) "data") (show (dt_toISODate date))) = false ->
  holds (disk_cache w) (show (dt_toISODate date)) ->
  lookup_or_fetch config date w =
    (Ok (hit_result (disk_cache w) config (dt_toISODate date)), set_pcache (disk_cache w) w).
Proof.
  intros Hm Hh. unfold lookup_or_fetch. cbv zeta. destruct (holds_truthy _ _ Hh) as [Ht Hn].
  erewrite M_bind_ok by reflexivity. cbv beta. rewrite Hm, andb_false_r.
  rewrite (M_bind_ok _ _ _ _ _ (readCache_spec w)).
  rewrite (M_bind_ok (lift (get (disk_cache w) "data")) _ _ (prop (disk_cache w) "data")
    (set_pcache (disk_cache w) w)) by (unfold lift; by rewrite get_ok).
  cbv beta. apply andb_true_iff in Ht as [Ht1 ->]. apply andb_true_iff in Ht1 as [_ ->].
  cbn [andb]. unfold lift. by rewrite cache_hit_ok.
Qed.

(** The whole run of a miss, given the outcome of the fetch. *)
Lemma miss_run config date w r w1 :
  cache_miss config date w ->
  fetch_bulk config (dt_year date) (set_pcache (disk_cache w) w) = (r, w1) ->
  getPrayerTimes config date w =
    match r with
    | Throw e => (Throw e, set_pcache (disk_cache w) (set_net (w_net w1) w))
    | Ok (m, src) =>
        let cache := merged_cache (disk_cache w) m src (w_clock w) in
        let entry := prop (prop cache "data") (show (dt_toISODate date)) in
        (if truthy entry
         then Ok (times_result (dt_toISODate date) src (prop (prop cache "meta") "lastFetched")
                    false (applyOverrides entry config))
         else Throw (Error ("Data for " +:+ show (dt_toISODate date) +:+
                            " not found in bulk response.")),
         set_pcache cache (set_files
           (<[CACHE_FILE := File (Json cache) (w_clock w)]> (files w)) w1))
    end.
Proof.
  intros [Hprim Hm Hd Hn Hw1 Hw2] Hf. rewrite getPrayerTimes_lookup, lookup_miss by done.
  destruct (fetch_bulk_net config (dt_year date) (set_pcache (disk_cache w) w)) as [n Hnet].
  rewrite Hf in Hnet. cbn in Hnet. subst w1.
  destruct r as [[m src]|e]; [|by rewrite (M_bind_throw _ _ _ _ _ Hf)].
  rewrite (M_bind_ok _ _ _ _ _ Hf).
  erewrite M_bind_ok by reflexivity. cbv beta zeta. cbn [fst snd].
  set (cache := merged_cache _ m src _).
  rewrite (M_bind_ok (writeCache cache) _ _ _ _
    (writeCache_ok cache (set_net n (set_pcache (disk_cache w) w)) Hw1 Hw2)).
  cbv beta. change (merged_cache (disk_cache w) m src (w_clock w)) with cache.
  by destruct (truthy (prop (prop cache "data") _)).
Qed.
(** *** Congregation times *)

(** The time the overriding gives prayer [p] on top of [old]. *)
Definition overridden (prayers config : val) (p : string) (old : val) : val :=
  let pConfig := prop (prop config "prayers") p in
  if truthy pConfig && truthy (prop pConfig "iqamahOverride") && truthy (prop prayers p) then
    match (location ← get config "location"; timezone ← get location "timezone";
           calculateIqamah (prop prayers p) pConfig timezone) with
    | Ok t => t
    | Throw _ => old
    end
  else old.

Lemma override_one_get prayers config iq p q :
  oget q (override_one prayers config iq p) =
    if String.eqb q p then overridden prayers config p (oget q iq) else oget q iq.
Proof.
  unfold override_one, overridden. destruct (String.eqb_spec q p) as [->|Hne];
    repeat case_match; rewrite ?oget_oset; try rewrite oget_oset_ne by done; done.
Qed.

Lemma overrides_get prayers config names iq q :
  NoDup names ->
  oget q (foldl (override_one prayers config) iq names) =
    if bool_decide (q ∈ names) then overridden prayers config q (oget q iq) else oget q iq.
Proof.
  intros Hnd. revert iq. induction Hnd as [|p names Hni Hnd IH]; intros iq; [done|].
  cbn [foldl]. rewrite IH, override_one_get.
  destruct (String.eqb_spec q p) as [->|Hne].
  - rewrite (bool_decide_eq_false_2 (p ∈ names)), (bool_decide_eq_true_2 (p ∈ p :: names)); set_solver.
  - case_bool_decide as H1; case_bool_decide as H2; try done; exfalso; set_solver.
Qed.

(** One pass of [buildPrayerRows] over names that do not repeat. *)
Lemma rows_get raw config tz names acc rows :
  NoDup names -> fold_result (add_row raw config tz) acc names = Ok rows ->
  forall q, ((q ∉ names) /\ oget q rows = oget q acc) \/
    (q ∈ names /\
     ((truthy (prop (prop raw "prayers") q) = false /\ oget q rows = oget q acc) \/
      (truthy (prop (prop raw "prayers") q) = true /\ exists iq,
         row_iqamah raw config tz q (prop (prop raw "prayers") q) = Ok iq /\
         oget q rows = VObj [("start", prop (prop raw "prayers") q); ("iqamah", iq)]))).
Proof.
  intros Hnd. revert acc. induction Hnd as [|p names Hni Hnd IH]; intros acc H q.
  { injection H as <-. left. split; [by apply not_elem_of_nil|done]. }
  cbn in H. destruct (add_row raw config tz acc p) as [acc'|] eqn:E; [|done]. cbn in H.
  specialize (IH acc' H q). unfold add_row in E.
  destruct (decide (q = p)) as [->|Hne].
  - destruct IH as [[_ ->]|[? _]]; [|done]. right. split; [set_solver|].
    destruct (truthy (prop (prop raw "prayers") p)); cbn in E; [right|left; by simplify_eq].
    destruct (row_iqamah raw config tz p _) as [iq|]; [|done]. cbn in E.
    injection E as <-. split; [done|]. exists iq. by rewrite oget_oset.
  - assert (oget q acc' = oget q acc) as <-.
    { destruct (truthy (prop (prop raw "prayers") p)); cbn in E; [|by simplify_eq].
      destruct (row_iqamah raw config tz p _) as [iq|]; [|done]. cbn in E.
      injection E as <-. by rewrite oget_oset_ne. }
    destruct IH as [[? ?]|[? ?]]; [left|right]; (split; [set_solver|done]).
Qed.

(** Forcing a refresh empties both caches first. *)
Definition emptied (w : world) : world :=
  set_pcache VNull (set_files (delete CACHE_FILE (files w)) w).

Lemma set_files_same w : set_files (files w) w = w.
Proof. by destruct w as [? ? [] ? ? ? ? ? ? ? ?]. Qed.

Lemma forceRefresh_run config w :
  denied w CACHE_FILE = false ->
  forceRefresh config w = getPrayerTimes config (dt_now (w_clock w)) (emptied w).
Proof.
  intros Hw. unfold forceRefresh. erewrite M_bind_ok by reflexivity.
  assert (try_catch (fs_unlink CACHE_FILE) (fun _ => ret tt) (set_pcache VNull w) =
    (Ok tt, emptied w)) as E.
  { unfold try_catch, fs_unlink, emptied. change (files (set_pcache VNull w)) with (files w).
    destruct (files w !! CACHE_FILE) eqn:Hf.
    - change (denied (set_pcache VNull w) CACHE_FILE) with (denied w CACHE_FILE). by rewrite Hw.
    - rewrite delete_id by done. by rewrite set_files_same. }
  rewrite (M_bind_ok _ _ _ _ _ E). by erewrite M_bind_ok by reflexivity.
Qed.

Lemma emptied_miss config date w :
  has_primary config -> denied w CACHE_FILE = false -> denied w DATA_DIR = false ->
  cache_miss config date (emptied w) /\ disk_cache (emptied w) = VObj [].
Proof.
  intros Hp H1 H2. assert (disk_cache (emptied w) = VObj []) as E.
  { unfold disk_cache, emptied. cbn. by rewrite lookup_delete_eq. }
  split; [|done]. constructor; rewrite ?E; done.
Qed.

(** *** The calendar loops *)
Lemma okeys_ospread k a b : k ∈ okeys (ospread a b) -> k ∈ okeys a \/ k ∈ okeys b.
Proof.
  revert a. induction b as [|[k' v] b IH]; intros a; cbn; [by left|].
  intros [H|H]%IH; [|right; set_solver]. apply ohas_okeys in H. rewrite ohas_oset in H.
  apply orb_true_iff in H as [->%String.eqb_eq|H%ohas_okeys]; [right; set_solver|by left].
Qed.

Lemma okeys_ospread_nil k b : k ∈ okeys (ospread [] b) -> k ∈ okeys b.
Proof. intros [H|H]%okeys_ospread; [by apply not_elem_of_nil in H|done]. Qed.

Lemma okeys_reverse k (l : list (string * val)) : k ∈ okeys (reverse l) -> k ∈ okeys l.
Proof. unfold okeys. by rewrite fmap_reverse, elem_of_reverse. Qed.

Lemma calendar_day_key config tz date w e w' :
  calendar_day config tz date w = (Ok e, w') -> e.1 = show (dt_toISODate date).
Proof.
  unfold calendar_day. intros (raw & w1 & _ & H)%M_bind_inv.
  apply M_bind_inv in H as (rows & w2 & _ & H). by injection H as <- _.
Qed.

Lemma walk_spec config tz step n date w :
  exists es w', walk config tz step n date w = (Ok es, w') /\ (length es <= n)%nat /\
    forall i e, es !! i = Some e ->
      e.1 = show (dt_toISODate (Nat.iter i (fun d => dt_plus_days d step) date)).
Proof.
  revert date w. induction n as [|n IH]; intros date w; cbn [walk].
  { by exists [], w. }
  unfold mbind, M_bind, settle. destruct (calendar_day config tz date w) as [[e|err] w1] eqn:E.
  - destruct (IH (dt_plus_days date step) w1) as (es & w2 & -> & Hl & Hk).
    exists (e :: es), w2. split; [done|]. split; [cbn; lia|]. intros [|i] e' Hi; cbn in Hi.
    + simplify_eq. by eapply calendar_day_key.
    + rewrite (Hk _ _ Hi). by rewrite Nat.iter_succ_r.
  - exists [], w1. split; [done|]. split; [cbn; lia|done].
Qed.

Lemma window_spec config tz start (P : string -> Prop) offsets acc w :
  (forall k, k ∈ okeys acc -> P k) ->
  (forall i, i ∈ offsets -> P (show (dt_toISODate (dt_plus_days start i)))) ->
  exists m, (window config tz start offsets acc w).1 = Ok (VObj m) /\ forall k, k ∈ okeys m -> P k.
Proof.
  revert acc w. induction offsets as [|o offsets IH]; intros acc w Hacc Hoff; cbn [window].
  { by exists acc. }
  unfold mbind, M_bind, settle.
  destruct (calendar_day config tz _ w) as [[e|err] w1] eqn:E; apply IH; try set_solver.
  intros k Hk%ohas_okeys. rewrite ohas_oset in Hk.
  apply orb_true_iff in Hk as [->%String.eqb_eq|Hk%ohas_okeys]; [|by apply Hacc].
  rewrite (calendar_day_key _ _ _ _ _ _ E). apply Hoff. set_solver.
Qed.
End service_lemmas.

(** A lookup is an [async] function. *)
#[export] Instance lookup_body `{L : Luxon} : Body dt := fun _ => None.

(** ** Properties *)
Section properties.
Context `{L : Luxon} {Zd : Zod} {N : Net}.

(** C1: the failover policy.  A primary source that gives data decides; a
    validation error of the primary is final and the backup is not asked; any
    other failure, and an empty answer, goes to the backup when there is one
    that is not switched off; when that fails too the caller sees the
    primary's error. *)
Theorem failover_policy config year w rp w1 rb w2 :
  let primary := prop (prop config "sources") "primary" in
  let backup := prop (prop config "sources") "backup" in
  tryFetch config primary year w = (rp, w1) ->
  tryFetch config backup year w1 = (rb, w2) ->
  let failed e :=
    if is_validation_error e then (Throw e, w1)
    else if backup_enabled config then
      match rb with
      | Ok m => if empty_map m then (Throw e, w2) else (Ok (m, prop backup "type"), w2)
      | Throw _ => (Throw e, w2)
      end
    else (Throw e, w1) in
  fetch_bulk config year w =
    match rp with
    | Ok m =>
        if empty_map m
        then failed (Error ("Primary source (" +:+ show (prop primary "type") +:+
                            ") returned empty data."))
        else (Ok (m, prop primary "type"), w1)
    | Throw e => failed e
    end.
Proof.
  intros primary backup Hp Hb failed.
  assert (forall m e, empty_map m = true -> failover config year m e w1 = failed e) as Hfail.
  { intros m e Hm. unfold failover, failed. destruct (is_validation_error e); [done|].
    unfold mbind, M_bind. fold backup. destruct (backup_enabled config).
    - unfold settle. rewrite Hb. destruct rb as [m'|e']; cbn; [|by rewrite Hm].
      by destruct (empty_map m').
    - cbn. by rewrite Hm. }
  unfold fetch_bulk. fold primary. unfold mbind, M_bind, settle at 1. rewrite Hp.
  destruct rp as [m|e]; [|by apply Hfail].
  destruct (empty_map m) eqn:Em; [by apply Hfail|done].
Qed.

(** C2: a date that neither cache holds is fetched.  When the fetch fails its
    error is the caller's and no file changes; when it succeeds the new dates
    are merged over the cached ones, nothing else is forgotten, the file and
    the memory agree, and the answer for the date is the merged entry, or an
    error when the year fetched does not contain it. *)
Theorem miss_fetches_and_merges config date w r w1 :
  cache_miss config date w ->
  fetch_bulk config (dt_year date) (set_pcache (disk_cache w) w) = (r, w1) ->
  match r with
  | Throw e => (getPrayerTimes config date w).1 = Throw e /\
               files (getPrayerTimes config date w).2 = files w
  | Ok (m, src) =>
      NoDup (okeys (props m)) -> is_object m = true -> is_array m = false ->
      let key := show (dt_toISODate date) in
      exists cache res,
        getPrayerTimes config date w = (res, set_pcache cache (set_files
          (<[CACHE_FILE := File (Json cache) (w_clock w)]> (files w)) w1)) /\
        (forall k, prop (prop cache "data") k =
           if ohas k (props m) then prop m k else prop (prop (disk_cache w) "data") k) /\
        prop (prop cache "meta") "source" = src /\
        (if truthy (prop (prop cache "data") key)
         then exists lastFetched, res = Ok (times_result (dt_toISODate date) src lastFetched false
                (applyOverrides (prop (prop cache "data") key) config))
         else res = Throw (Error ("Data for " +:+ key +:+ " not found in bulk response.")))
  end.
Proof.
  intros Hmiss Hf. pose proof (miss_run config date w r w1 Hmiss Hf) as Hrun.
  destruct r as [[m src]|e].
  - intros Hnd Ho Ha key. rewrite Hrun. set (cache := merged_cache _ _ _ _). exists cache.
    eexists. split; [done|].
    assert (forall k, prop (prop cache "data") k = if ohas k (props m) then prop m k
      else prop (prop (disk_cache w) "data") k) as Hk by (intros k; by apply prop_merged).
    split; [done|]. split; [done|]. fold key.
    destruct (truthy (prop (prop cache "data") key)); eauto.
  - by rewrite Hrun.
Qed.

(** C3: a fetched year is served from the caches.  After a fetch that answered,
    any date of the fetched map, under any configuration, is answered from
    memory with no remote call and no change of state; and after a restart it
    is answered from the file, again with no remote call. *)
Theorem fetched_year_served config date w m t w1 config2 date2 :
  cache_miss config date w -> has_primary config2 ->
  fetch_bulk config (dt_year date) (set_pcache (disk_cache w) w) = (Ok (m, VStr t), w1) ->
  NoDup (okeys (props m)) -> is_object m = true -> is_array m = false ->
  let key2 := show (dt_toISODate date2) in
  truthy (prop m key2) = true ->
  let w' := (getPrayerTimes config date w).2 in
  (exists lastFetched, getPrayerTimes config2 date2 w' =
     (Ok (times_result (dt_toISODate date2) (VStr t) lastFetched true
            (applyOverrides (prop m key2) config2)), w')) /\
  (exists lastFetched w'', getPrayerTimes config2 date2 (set_pcache VNull w') =
     (Ok (times_result (dt_toISODate date2) (VStr t) lastFetched true
            (applyOverrides (json_clone (prop m key2)) config2)), w'') /\ w_net w'' = w_net w').
Proof.
  intros Hmiss Hp2 Hf Hnd Ho Ha key2 Ht w'.
  pose proof (miss_run config date w _ w1 Hmiss Hf) as Hrun. unfold w'. rewrite Hrun. cbn [snd].
  set (cache := merged_cache _ _ _ _). set (W := set_pcache cache _).
  assert (prop (prop cache "data") key2 = prop m key2) as Hk.
  { unfold cache. rewrite prop_merged by done. by rewrite (truthy_ohas m key2). }
  rewrite !getPrayerTimes_lookup by done. split.
  - eexists. rewrite (lookup_memory_hit config2 date2 W); [|split; [|done]].
    2: { change (truthy (prop (prop cache "data") key2) = true). by rewrite Hk. }
    unfold hit_result. change (w_pcache W) with cache. fold key2. by rewrite Hk.
  - assert (disk_cache (set_pcache VNull W) = json_clone cache) as Hd.
    { unfold disk_cache, W. cbn. by rewrite lookup_insert_eq. }
    assert (prop (prop (json_clone cache) "data") key2 = json_clone (prop m key2)) as Hck.
    { rewrite <- Hk. rewrite <- prop_json_clone; [by rewrite <- prop_json_clone|].
      rewrite Hk. by intros E; rewrite E in Ht. }
    eexists _, _. split; [rewrite lookup_disk_hit; [|done|]|].
    + assert (prop (prop (json_clone cache) "meta") "source" = VStr t) as Hsrc.
      { rewrite prop_json_clone by done. by rewrite prop_json_clone. }
      unfold hit_result. rewrite Hd, Hsrc. fold key2. by rewrite Hck.
    + rewrite Hd. fold key2. split; [by rewrite Hck, truthy_json_clone|done].
    + done.
Qed.

(** Forcing a refresh forgets every cached date before it fetches: after a
    successful fetch the caches hold the fetched dates and no other, and when
    the fetch fails the cache file is gone. *)
Theorem forceRefresh_drops_cache config w r w1 :
  has_primary config -> denied w CACHE_FILE = false -> denied w DATA_DIR = false ->
  fetch_bulk config (dt_year (dt_now (w_clock w))) (set_pcache (VObj []) (emptied w)) = (r, w1) ->
  let w' := (forceRefresh config w).2 in
  match r with
  | Throw e => (forceRefresh config w).1 = Throw e /\ files w' = delete CACHE_FILE (files w)
  | Ok (m, src) =>
      NoDup (okeys (props m)) -> is_object m = true -> is_array m = false ->
      files w' !! CACHE_FILE = Some (File (Json (w_pcache w')) (w_clock w)) /\
      forall k, prop (prop (w_pcache w') "data") k = prop m k
  end.
Proof.
  intros Hp H1 H2 Hf. rewrite forceRefresh_run by done.
  destruct (emptied_miss config (dt_now (w_clock w)) w Hp H1 H2) as [Hmiss Hd].
  rewrite <- Hd in Hf. rewrite (miss_run _ _ _ _ _ Hmiss Hf).
  intros w'. subst w'. destruct r as [[m src]|e]; [|done].
  intros Hnd Ho Ha. cbv zeta. cbn [snd]. split; [apply lookup_insert_eq|]. intros k.
  cbn [w_pcache set_pcache]. rewrite prop_merged by done. rewrite Hd.
  destruct (ohas k (props m)) eqn:E; [done|]. destruct m; try done. cbn in *.
  symmetry. by apply ohas_false_oget.
Qed.

(** Local congregation overrides.  Every other property of the day is left
    as the source gave it; the congregation time of a prayer is the one
    calculated from the configuration exactly when the prayer's override is on,
    the day has a start for it and the calculation succeeds, and is the source's
    otherwise. *)
Theorem applyOverrides_spec ps config :
  let prayers := VObj ps in
  NoDup (okeys ps) -> NoDup (okeys (props (prop prayers "iqamah"))) ->
  truthy (prop config "prayers") = true ->
  let res := applyOverrides prayers config in
  (forall k, k <> "iqamah" -> prop res k = prop prayers k) /\
  (forall p, prop (prop res "iqamah") p =
     let own := prop (prop prayers "iqamah") p in
     if bool_decide (p ∈ IQAMAH_PRAYERS) then overridden prayers config p own else own).
Proof.
  intros prayers Hnd Hnd' Hc res. unfold res, applyOverrides. cbn [truthy prayers negb].
  rewrite Hc. assert (truthy config = true) as -> by (by destruct config).
  cbn [negb orb]. split.
  - intros k Hk. cbn [prop]. rewrite oget_oset_ne by done. by apply oget_ospread_nil.
  - intros p. cbn [prop]. rewrite oget_oset. cbn [prop]. rewrite overrides_get.
    2: { repeat constructor; set_solver. }
    assert (oget p (ospread [] (props (js_or (prop prayers "iqamah") (VObj [])))) =
      prop (prop prayers "iqamah") p) as ->; [|done].
    rewrite oget_ospread_nil; [apply prop_or_empty|].
    unfold js_or; case_match; [done|constructor].
Qed.

(** Dashboard rows.  A prayer has a row exactly when the day gives it a
    start; the row keeps that start, and its congregation time is absent for
    sunrise, the day's own when it has one, and calculated from the prayer's
    settings otherwise. *)
Theorem buildPrayerRows_spec raw config tz rows :
  buildPrayerRows raw config tz = Ok rows ->
  forall name, name ∈ PRAYER_NAMES ->
    let start := prop (prop raw "prayers") name in
    let explicit := prop (prop (prop raw "prayers") "iqamah") name in
    let settings := prop (prop config "prayers") name in
    if truthy start then
      exists iqamah, prop rows name = VObj [("start", start); ("iqamah", iqamah)] /\
        (name = "sunrise" -> iqamah = VNull) /\
        (name <> "sunrise" -> truthy explicit = true -> iqamah = explicit) /\
        (name <> "sunrise" -> truthy explicit = false ->
           if truthy settings then calculateIqamah start settings tz = Ok iqamah
           else iqamah = VNull)
    else prop rows name = VUndef.
Proof.
  unfold buildPrayerRows. destruct (fold_result _ _ _) as [l|] eqn:Hf; [|done].
  cbn. intros [= <-] name Hin. assert (NoDup PRAYER_NAMES) as Hnd by (repeat constructor; set_solver).
  destruct (rows_get raw config tz _ _ _ Hnd Hf name) as [[? _]|[_ [[-> H]|[-> (iq & Hiq & H)]]]];
    [done|exact H|].
  exists iq. split; [exact H|]. unfold row_iqamah in Hiq.
  destruct (String.eqb_spec name "sunrise") as [->|Hns]; [by simplify_eq|].
  split; [done|]. split.
  - intros _ Ht. assert (truthy (prop (prop raw "prayers") "iqamah") = true) as Hi.
    { by destruct (prop (prop raw "prayers") "iqamah"). }
    rewrite Hi, Ht in Hiq. by injection Hiq.
  - intros _ Ht. rewrite Ht, andb_false_r in Hiq.
    destruct (get config "prayers") as [pr|] eqn:E1; [|done]. cbn in Hiq.
    destruct (get pr name) as [st|] eqn:E2; [|done]. cbn in Hiq.
    assert (prop config "prayers" = pr) as -> by (destruct config; simplify_eq/=; done).
    assert (prop pr name = st) as -> by (destruct pr; simplify_eq/=; done).
    destruct (truthy st); [done|by simplify_eq].
Qed.

(** The dashboard's next prayer.  When today's times can be had, the answer
    is never an error: the next prayer is today's when one is left, otherwise
    tomorrow's fajr marked as such, and [null] when tomorrow's times fail. *)
Theorem getPrayersWithNext_next config tz date w raw rows w1 :
  let now := dt_setZone date tz in
  getPrayerTimes config now w = (Ok raw, w1) ->
  buildPrayerRows raw config (VStr tz) = Ok rows ->
  exists next w2 meta,
    getPrayersWithNext config (VStr tz) date w =
      (Ok (VObj [("meta", meta); ("prayers", rows); ("nextPrayer", next)]), w2) /\
    (if truthy (calculateNextPrayer rows now) then next = calculateNextPrayer rows now /\ w2 = w1
     else match getPrayerTimes config (dt_plus_days now 1) w1 with
          | (Ok tomorrow, w') => w2 = w' /\
              let fajr := prop (prop tomorrow "prayers") "fajr" in
              if truthy fajr
              then next = VObj [("name", VStr "fajr"); ("time", fajr); ("isTomorrow", VBool true)]
              else next = VNull
          | (Throw _, w') => w2 = w' /\ next = VNull
          end).
Proof.
  intros now Ht Hr. unfold getPrayersWithNext. cbn [str_of]. fold now.
  rewrite (M_bind_ok _ _ _ _ _ Ht). rewrite (M_bind_ok (lift _) _ _ rows w1) by (unfold lift; by rewrite Hr).
  destruct (truthy (calculateNextPrayer rows now)) eqn:E.
  - erewrite M_bind_ok by reflexivity. do 3 eexists. split; [reflexivity|done].
  - unfold tomorrow_fajr, try_catch, mbind, M_bind.
    destruct (getPrayerTimes config (dt_plus_days now 1) w1) as [[t|e] w2]; cbn.
    + do 3 eexists. split; [reflexivity|]. split; [done|]. by destruct (truthy (prop (prop t "prayers") "fajr")).
    + do 3 eexists. by split.
Qed.

(** The calendar never fails as a whole: dates that cannot be had are left
    out.  With a cursor and a direction its keys are at most seven consecutive
    dates from the cursor's neighbour on; without, they lie in the fifteen days
    around the reference date. *)
Theorem calendar_window_total config tz options date w :
  exists m, (getPrayerCalendarWindow config (VStr tz) options date w).1 = Ok (VObj m) /\
    forall k, k ∈ okeys m ->
      if truthy (prop options "cursorDate") && truthy (prop options "direction") then
        exists i, (i < 7)%nat /\ k = show (dt_toISODate (Nat.iter i
          (fun d => dt_plus_days d (if seq (prop options "direction") (VStr "past") then -1 else 1))
          (getDirectionalWindowStart (prop options "cursorDate") (prop options "direction") (VStr tz))))
      else exists i, 0 <= i < 15 /\ k = show (dt_toISODate (dt_plus_days
          (dt_plus_days (dt_startOf_day (dt_setZone date tz)) (-7)) i)).
Proof.
  unfold getPrayerCalendarWindow. destruct (truthy _ && truthy _).
  - set (start := getDirectionalWindowStart _ _ _). set (past := seq _ _).
    destruct (walk_spec config (VStr tz) (if past then -1 else 1) 7 start w) as (es & w' & Hw & Hl & Hk).
    rewrite (M_bind_ok _ _ _ _ _ Hw). eexists. split; [reflexivity|].
    intros k Hin. apply okeys_ospread_nil in Hin.
    assert (k ∈ okeys es) as Hin' by (destruct past; [by apply okeys_reverse|done]).
    apply list_elem_of_fmap in Hin' as (e & -> & [i Hi]%list_elem_of_lookup).
    exists i. rewrite (Hk _ _ Hi). split; [|by destruct past].
    apply lookup_lt_Some in Hi. lia.
  - cbn [str_of]. apply (window_spec config (VStr tz) _ (fun k => exists i, 0 <= i < 15 /\
      k = show (dt_toISODate (dt_plus_days _ i)))).
    + intros k Hk. by apply not_elem_of_nil in Hk.
    + intros i Hi%elem_of_seqZ. exists i. split; [lia|done].
Qed.

(** The lock key does not name the date: while the lookup of one date is
    in flight, a call for another date of the same year is handed that lookup's
    promise, and so the first date's answer. *)
Theorem overlapping_dates_share_answer config d1 d2 r :
  dt_year d1 = dt_year d2 ->
  let st := exec (R := val) [Call (lockKey config d1) d1] empty_lock in
  let '(p, st') := AsyncLock.run (lockKey config d2) d2 st in
  st' = st /\ promises st !! p = Some (Promise (lockKey config d1) d1 None) /\
  value_of p (settled p r st') = Some r.
Proof.
  intros Hy. assert (lockKey config d2 = lockKey config d1) as -> by (unfold lockKey; by rewrite Hy).
  intros st. assert (in_flight 0 (lockKey config d1) st) as Hp by (by exists d1).
  destruct (in_flight_run st (lockKey config d1) 0 d2) as [-> _]; [|done|].
  - apply exec_inv; [apply lock_inv_empty|by repeat constructor].
  - split_and!; [done|done|]. unfold value_of.
    by destruct (settled_value 0 (lockKey config d1) d1 r st) as [-> _].
Qed.
End properties.

(** ** Witnesses: the UTC dates, the reference parser, a service that is up and
    one whose primary is down *)
Definition both_sources : val :=
  setp (setp valid_config "sources" (VObj
    [("primary", VObj [("type", VStr "aladhan"); ("method", VInt 15)]); ("backup", sample_mymasjid)]))
    "location" (prop sample_globals "location").

Definition primary_down : Net := fun log url =>
  if starts_with API_BASE_URL url then Throw (TypeError "fetch failed") else sample_net log url.

Definition jan15 : dt (Luxon := utc) := dt_now (Luxon := utc) 1736940000000.

(** The year each service gives. *)
Definition aladhan_year : val :=
  match (tryFetch (L := utc) (N := sample_net) both_sources
           (prop (prop both_sources "sources") "primary") 2025 clock_2025).1 with
  | Ok m => m | Throw _ => VUndef end.

Lemma failover_policy_witness :
  (fetch_bulk (L := utc) (N := primary_down) both_sources 2025 clock_2025).1 =
  Ok (VObj (match (MyMasjid_getAnnualTimes (L := utc) (N := sample_net) sample_mymasjid
             both_sources 2025 clock_2025).1 with Ok m => props m | _ => [] end), VStr "mymasjid").
Proof.
  rewrite (failover_policy (L := utc) (N := primary_down) both_sources 2025 clock_2025 _ _ _ _
    (surjective_pairing _) (surjective_pairing _)).
  vm_compute. reflexivity.
Defined.

Lemma aladhan_year_NoDup : NoDup (okeys (props aladhan_year)).
Proof. apply (bool_decide_eq_true_1 _). vm_compute. reflexivity. Qed.

Lemma sample_miss : cache_miss (L := utc) both_sources jan15 clock_2025.
Proof. constructor; try reflexivity. by eexists. Qed.

Lemma sample_fetch :
  fetch_bulk (L := utc) (N := sample_net) both_sources (dt_year jan15)
    (set_pcache (disk_cache clock_2025) clock_2025) =
  (Ok (aladhan_year, VStr "aladhan"),
   (fetch_bulk (L := utc) (N := sample_net) both_sources (dt_year jan15)
      (set_pcache (disk_cache clock_2025) clock_2025)).2).
Proof. vm_compute. reflexivity. Qed.

Lemma miss_fetches_and_merges_witness :
  exists cache, (getPrayerTimes (L := utc) (N := sample_net) both_sources jan15 clock_2025).2 =
    set_pcache cache (set_files (<[CACHE_FILE := File (Json cache) (w_clock clock_2025)]>
      (files clock_2025)) (fetch_bulk (L := utc) (N := sample_net) both_sources (dt_year jan15)
      (set_pcache (disk_cache clock_2025) clock_2025)).2) /\
    forall k, prop (prop cache "data") k =
      if ohas k (props aladhan_year) then prop aladhan_year k else VUndef.
Proof.
  destruct (miss_fetches_and_merges (L := utc) (N := sample_net) both_sources jan15 clock_2025 _ _
    sample_miss sample_fetch) as (cache & res & Hrun & Hk & _).
  - apply aladhan_year_NoDup.
  - vm_compute. reflexivity.
  - vm_compute. reflexivity.
  - exists cache. rewrite Hrun. split; [reflexivity|exact Hk].
Defined.

Lemma fetched_year_served_witness :
  let w' := (getPrayerTimes (L := utc) (N := sample_net) both_sources jan15 clock_2025).2 in
  exists lastFetched, getPrayerTimes (L := utc) (N := sample_net) valid_config jan15 w' =
    (Ok (times_result (VStr "2025-01-15") (VStr "aladhan") lastFetched true
       (applyOverrides (L := utc) (prop aladhan_year "2025-01-15") valid_config)), w').
Proof.
  apply (fetched_year_served (L := utc) (N := sample_net) both_sources jan15 clock_2025
    aladhan_year "aladhan" (fetch_bulk (L := utc) (N := sample_net) both_sources (dt_year jan15)
      (set_pcache (disk_cache clock_2025) clock_2025)).2 valid_config jan15 sample_miss);
    [by eexists|exact sample_fetch|..].
  - apply aladhan_year_NoDup.
  - vm_compute. reflexivity.
  - vm_compute. reflexivity.
  - vm_compute. reflexivity.
Defined.

Lemma forceRefresh_drops_cache_witness :
  let w := set_pcache (VObj [("data", VObj [("2024-12-31", VObj [])])]) clock_2025 in
  let w' := (forceRefresh (L := utc) (N := sample_net) both_sources w).2 in
  prop (prop (w_pcache w') "data") "2024-12-31" = prop aladhan_year "2024-12-31".
Proof.
  apply (forceRefresh_drops_cache (L := utc) (N := sample_net) both_sources
    (set_pcache (VObj [("data", VObj [("2024-12-31", VObj [])])]) clock_2025)
    (Ok (aladhan_year, VStr "aladhan"))
    (fetch_bulk (L := utc) (N := sample_net) both_sources (dt_year jan15)
      (set_pcache (VObj []) (emptied clock_2025))).2).
  - by eexists.
  - reflexivity.
  - reflexivity.
  - vm_compute. reflexivity.
  - apply aladhan_year_NoDup.
  - vm_compute. reflexivity.
  - vm_compute. reflexivity.
Defined.

Definition override_config : val :=
  setp valid_config "prayers" (VObj [("fajr",
    VObj [("iqamahOffset", VInt 20); ("roundTo", VInt 15); ("fixedTime", VNull);
          ("iqamahOverride", VBool true)])]).

Definition sample_times : list (string * val) :=
  [("fajr", VStr "2025-01-15T05:30:00.000Z"); ("isha", VStr "2025-01-15T18:00:00.000Z");
   ("iqamah", VObj [("fajr", VStr "2025-01-15T05:45:00.000Z");
                    ("isha", VStr "2025-01-15T18:20:00.000Z")])].

Lemma applyOverrides_spec_witness :
  let res := applyOverrides (L := utc) (VObj sample_times) override_config in
  prop (prop res "iqamah") "fajr" = VStr "2025-01-15T06:00:00.000Z" /\
  prop (prop res "iqamah") "isha" = VStr "2025-01-15T18:20:00.000Z".
Proof.
  destruct (applyOverrides_spec (L := utc) sample_times override_config) as [_ H].
  - repeat constructor; set_solver.
  - repeat constructor; set_solver.
  - reflexivity.
  - split; rewrite H; vm_compute; reflexivity.
Defined.

Definition sample_raw : val :=
  VObj [("prayers", VObj sample_times)].

Definition sample_rows : val :=
  match buildPrayerRows (L := utc) sample_raw valid_config (VStr "Etc/UTC") with
  | Ok rows => rows | Throw _ => VUndef end.

Lemma buildPrayerRows_spec_witness :
  exists iqamah, prop sample_rows "fajr" =
    VObj [("start", VStr "2025-01-15T05:30:00.000Z"); ("iqamah", iqamah)] /\
    iqamah = VStr "2025-01-15T05:45:00.000Z".
Proof.
  destruct (buildPrayerRows_spec (L := utc) sample_raw valid_config (VStr "Etc/UTC") sample_rows
    ltac:(vm_compute; reflexivity) "fajr" ltac:(set_solver)) as (iq & H1 & _ & H2 & _).
  exists iq. split; [exact H1|]. apply H2; [done|vm_compute; reflexivity].
Defined.

Definition today_run : result val * world :=
  getPrayerTimes (L := utc) (N := sample_net) both_sources (dt_setZone jan15 "Etc/UTC") clock_2025.
Definition today_raw : val := match today_run.1 with Ok v => v | Throw _ => VUndef end.
Definition today_rows : val :=
  match buildPrayerRows (L := utc) today_raw both_sources (VStr "Etc/UTC") with
  | Ok rows => rows | Throw _ => VUndef end.

Lemma today_run_ok :
  getPrayerTimes (L := utc) (N := sample_net) both_sources (dt_setZone jan15 "Etc/UTC") clock_2025 =
  (Ok today_raw, today_run.2).
Proof. vm_compute. reflexivity. Qed.

Lemma today_rows_ok :
  buildPrayerRows (L := utc) today_raw both_sources (VStr "Etc/UTC") = Ok today_rows.
Proof. vm_compute. reflexivity. Qed.

Lemma getPrayersWithNext_next_witness :
  exists next w2 meta,
    getPrayersWithNext (L := utc) (N := sample_net) both_sources (VStr "Etc/UTC") jan15 clock_2025 =
      (Ok (VObj [("meta", meta); ("prayers", today_rows); ("nextPrayer", next)]), w2).
Proof.
  destruct (getPrayersWithNext_next (L := utc) (N := sample_net) both_sources "Etc/UTC" jan15
    clock_2025 today_raw today_rows today_run.2 today_run_ok today_rows_ok)
    as (next & w2 & meta & H & _).
  exists next, w2, meta. exact H.
Defined.

Lemma calendar_window_total_witness :
  exists m, (getPrayerCalendarWindow (L := utc) (N := sample_net) both_sources (VStr "Etc/UTC")
    VUndef jan15 clock_2025).1 = Ok (VObj m).
Proof.
  destruct (calendar_window_total (L := utc) (N := sample_net) both_sources "Etc/UTC" VUndef jan15
    clock_2025) as (m & H & _).
  by exists m.
Defined.

(** Two dates of 2025, six months apart, get one answer. *)
Lemma overlapping_dates_share_answer_witness :
  let july := dt_now (Luxon := utc) 1752580800000 in
  let st := exec (R := val) [Call (lockKey both_sources jan15) jan15] empty_lock in
  dt_toISODate july = VStr "2025-07-15" /\
  let '(p, st') := AsyncLock.run (lockKey both_sources july) july st in
  st' = st /\ promises st !! p = Some (Promise (lockKey both_sources jan15) jan15 None) /\
  value_of p (settled p (Ok (VStr "15 January")) st') = Some (Ok (VStr "15 January")).
Proof.
  split; [reflexivity|].
  apply (overlapping_dates_share_answer (L := utc) both_sources jan15
    (dt_now (Luxon := utc) 1752580800000) (Ok (VStr "15 January"))).
  vm_compute. reflexivity.
Defined.
