(* ===== verification/NormalizeSource.v ===== *)
(** * Audio sources ([src/utils/pathUtils.js], [src/utils/normalizeSource.js])

    Every audio source, from a trigger, a test button or the file manager, is
    brought to one of two shapes, a file below the audio directory or an HTTP
    URL, or refused. *)
From S2P Require Import Prelude JsString JsValue NodePath.

(** The server's directory, [process.cwd()]. *)
Definition CWD : string := "/app".

(** [path.resolve(__dirname, "../../public/audio")] *)
Definition AUDIO_ROOT : string := "/app/public/audio".
Definition PUBLIC_AUDIO_PREFIX : string := "/public/audio/".

Definition isWithinRoot (rootPath targetPath : string) : bool :=
  if negb (is_absolute rootPath) || negb (is_absolute targetPath) then false else
  let relativePath := relative CWD (normalize rootPath) (normalize targetPath) in
  String.eqb relativePath "" ||
  (negb (starts_with ".." relativePath) && negb (is_absolute relativePath)).

(** [/^[a-zA-Z][a-zA-Z0-9+.-]*:/i] *)
Definition is_alpha (a : ascii) : bool :=
  let n := nat_of_ascii a in
  (Nat.leb 65 n && Nat.leb n 90) || (Nat.leb 97 n && Nat.leb n 122).
Definition scheme_char (a : ascii) : bool :=
  is_alpha a || match digit_val a with Some _ => true | None => false end ||
  Ascii.eqb a "+" || Ascii.eqb a "." || Ascii.eqb a "-".

Fixpoint scheme_rest (s : string) : bool :=
  match s with
  | EmptyString => false
  | String a s' => Ascii.eqb a ":" || (scheme_char a && scheme_rest s')
  end.

Definition _hasProtocol (url : string) : bool :=
  match url with String a s => is_alpha a && scheme_rest s | EmptyString => false end.

(** [/^https?:\/\//i] *)
Definition is_http (url : string) : bool :=
  starts_with "http://" (to_lower url) || starts_with "https://" (to_lower url).

Definition _validateUrlProtocol (url : string) : result unit :=
  if is_http url then Ok tt else Throw (Error "Only http and https URLs are allowed").

Definition _validatePathTraversal (absolutePath : string) : result unit :=
  if isWithinRoot AUDIO_ROOT absolutePath then Ok tt
  else Throw (Error "Path traversal detected: resolved path is outside audio directory").

(** [typeof v === "string" && v.length > 0] *)
Definition text_of (v : val) : option string :=
  match v with VStr s => if String.eqb s "" then None else Some s | _ => None end.

(** [s.replace(/^\//, "")] *)
Definition drop_slash (s : string) : string :=
  match s with String "/"%char r => r | _ => s end.

Definition file_source (filePath url : string) : val :=
  VObj [("type", VStr "file"); ("filePath", VStr filePath); ("url", VStr url)].
Definition url_source (url : string) : val := VObj [("type", VStr "url"); ("url", VStr url)].

Definition undetermined : jserr := Error "Invalid source: could not determine source type".

Definition _buildFileSource (path filePath url : option string) : result val :=
  relativePath ← match path, filePath, url with
    | Some p, _, _ => Ok (drop_slash p)
    | None, Some f, _ => Ok (relative CWD AUDIO_ROOT f)
    | None, None, Some u =>
        if starts_with PUBLIC_AUDIO_PREFIX u
        then Ok (slice_from (String.length PUBLIC_AUDIO_PREFIX) u)
        else Throw undetermined
    | None, None, None => Throw undetermined
    end;
  let absolutePath := match filePath with
    | Some f => normalize f
    | None => normalize (AUDIO_ROOT +:+ "/" +:+ relativePath)
    end in
  _ ← _validatePathTraversal absolutePath;
  Ok (file_source absolutePath (default (PUBLIC_AUDIO_PREFIX +:+ relativePath) url)).

(** A URL with a scheme must be HTTP. *)
Definition check_url (url : option string) : result unit :=
  match url with
  | Some u => if _hasProtocol u then _validateUrlProtocol u else Ok tt
  | None => Ok tt
  end.

Definition normalizeSource (source : val) : result val :=
  if negb (truthy source) || negb (is_object source)
  then Throw (Error "Invalid source: must be a non-null object") else
  let path := text_of (prop source "path") in
  let filePath := text_of (prop source "filePath") in
  let url := text_of (prop source "url") in
  if seq (prop source "type") (VStr "file") then
    match filePath, url with
    | None, None => Throw (Error "Invalid source: typed file source requires filePath or url")
    | _, _ => _ ← check_url url; _buildFileSource None filePath url
    end
  else if seq (prop source "type") (VStr "url") then
    match url with
    | None => Throw (Error "Invalid source: typed url source requires url")
    | Some u => _ ← _validateUrlProtocol u; Ok (url_source u)
    end
  else
    match path, filePath, url with
    | None, None, None =>
        Throw (Error "Invalid source: must contain at least one of path, filePath, or url")
    | _, _, _ =>
        match url with
        | Some u => if _hasProtocol u then _ ← _validateUrlProtocol u; Ok (url_source u)
                    else _buildFileSource path filePath url
        | None => _buildFileSource path filePath url
        end
    end.

(** ** Lemmas *)
Definition below_root (p : string) : Prop :=
  is_absolute p = true /\
  exists s, resolve_segs CWD p = ["app"; "public"; "audio"] ++ s /\ Forall plain_seg s.

Lemma norm_segs_root : norm_segs false (normalize AUDIO_ROOT) = ["app"; "public"; "audio"].
Proof. reflexivity. Qed.

(** Normalising an absolute path keeps it absolute and keeps what it denotes. *)
Lemma normalize_absolute p :
  is_absolute p = true ->
  is_absolute (normalize p) = true /\ norm_segs false (normalize p) = norm_segs false p.
Proof.
  intros Ha. unfold normalize. destruct (String.eqb_spec p "") as [->|_]; [done|].
  rewrite Ha. cbn [negb].
  destruct (norm_segs false p) as [|s segs] eqn:E; [done|].
  pose proof (norm_segs_plain p) as Hp. rewrite E in Hp.
  assert (norm_segs false ("/" +:+ join "/" (s :: segs)) = s :: segs) as H1
    by (by apply (norm_segs_of_segs (s :: segs))).
  destruct (ends_with_slash p).
  - split; [done|].
    assert ("/" +:+ (join "/" (s :: segs) +:+ "/") = of_segs (s :: segs) +:+ String SLASH "") as ->.
    { unfold of_segs. by rewrite str_app_assoc. }
    by apply norm_segs_trailing.
  - split; [done|]. by rewrite str_app_nil_r.
Qed.

Lemma isWithinRoot_below p : isWithinRoot AUDIO_ROOT p = true -> below_root p.
Proof.
  unfold isWithinRoot. destruct (is_absolute p) eqn:Ha; [|intros H; cbn in H; done].
  change (is_absolute AUDIO_ROOT) with true. cbn [negb orb]. intros H. split; [done|].
  destruct (normalize_absolute p Ha) as [Hna Hnp].
  assert (resolve_segs CWD p = norm_segs false p) as E by (unfold resolve_segs; by rewrite Ha).
  unfold relative in H.
  assert (starts_with ".." (join "/" (relative_segs ["app"; "public"; "audio"]
    (norm_segs false p))) = false) as Hs.
  { revert H. unfold resolve_segs. change (is_absolute (normalize AUDIO_ROOT)) with true.
    cbv iota. rewrite norm_segs_root, Hna, Hnp.
    destruct (String.eqb_spec (join "/" (relative_segs ["app"; "public"; "audio"]
      (norm_segs false p))) "") as [->|_]; [done|]. cbn [orb].
    rewrite andb_true_iff, negb_true_iff. tauto. }
  apply relative_inside in Hs as [s Hs]. exists s. rewrite E. split; [done|].
  pose proof (norm_segs_plain p) as Hp. rewrite Hs in Hp. by apply Forall_app in Hp as [_ ?].
Qed.

Lemma url_scheme_ok u :
  (_ ← _validateUrlProtocol u; Ok (url_source u)) = Ok (url_source u) \/
  is_ok (_ ← _validateUrlProtocol u; Ok (url_source u)) = false.
Proof. unfold _validateUrlProtocol. destruct (is_http u); auto. Qed.

(** The two shapes a source may have. *)
Definition canonical (r : val) : Prop :=
  (exists f u, r = file_source f u /\ below_root f) \/
  (exists u, r = url_source u /\ is_http u = true).

Lemma build_canonical p f u r : _buildFileSource p f u = Ok r -> canonical r.
Proof.
  unfold _buildFileSource. destruct (match p with Some _ => _ | None => _ end) as [rel|]; [|done].
  cbn. unfold _validatePathTraversal. set (a := match f with Some _ => _ | None => _ end).
  destruct (isWithinRoot AUDIO_ROOT a) eqn:E; [|done]. cbn. intros [= <-]. left.
  do 2 eexists. split; [done|]. by apply isWithinRoot_below.
Qed.

Lemma url_canonical u r : (_ ← _validateUrlProtocol u; Ok (url_source u)) = Ok r -> canonical r.
Proof.
  unfold _validateUrlProtocol. destruct (is_http u) eqn:E; [|done]. cbn. intros [= <-].
  right. eauto.
Qed.

Lemma normalizeSource_canonical source r : normalizeSource source = Ok r -> canonical r.
Proof.
  unfold normalizeSource. destruct (_ || _); [done|].
  set (pth := text_of (prop source "path")). set (fp := text_of (prop source "filePath")).
  destruct (seq _ (VStr "file")); [|destruct (seq _ (VStr "url"))].
  - destruct fp as [f|], (text_of (prop source "url")) as [u|]; try done;
      (destruct (check_url _); [cbn [mbind result_bind]; apply build_canonical|done]).
  - destruct (text_of (prop source "url")); [apply url_canonical|done].
  - destruct (text_of (prop source "url")) as [u|].
    + destruct (_hasProtocol u).
      * destruct pth, fp; apply url_canonical.
      * destruct pth, fp; apply build_canonical.
    + destruct pth, fp; try done; apply build_canonical.
Qed.

(** ** Properties *)

(** C4: whatever a caller hands in, a source that is accepted is either a file
    whose path resolves to a place inside the audio directory, with no way up
    left in it, or an http(s) URL. *)
Theorem normalizeSource_safe source r :
  normalizeSource source = Ok r -> canonical r.
Proof. apply normalizeSource_canonical. Qed.

Lemma normalizeSource_safe_witness :
  canonical (file_source "/app/public/audio/cache/tts_fajr_adhan.mp3"
    "/public/audio/cache/tts_fajr_adhan.mp3").
Proof.
  apply (normalizeSource_safe (VObj [("path", VStr "custom/../cache/./tts_fajr_adhan.mp3");
    ("url", VStr "/public/audio/cache/tts_fajr_adhan.mp3")])).
  vm_compute. reflexivity.
Defined.

(** Ways out that are refused. *)
Example traversal_refused :
  is_ok (normalizeSource (VObj [("path", VStr "../../config/local.json")])) = false /\
  is_ok (normalizeSource (VObj [("path", VStr "/etc/passwd"); ("filePath", VStr "/etc/passwd")]))
    = false /\
  is_ok (normalizeSource (VObj [("filePath", VStr "/app/public/audio-old/x.mp3")])) = false /\
  is_ok (normalizeSource (VObj [("url", VStr "file:///etc/passwd")])) = false.
Proof. vm_compute. done. Qed.
