(* ===== verification/Encryption.v ===== *)
(** * Secrets at rest ([src/utils/encryption.js], [src/utils/passwordUtils.js])

    Node's crypto module is a parameter: [Crypto] names the primitives,
    [CryptoLaws] the documented behaviour the theorems rely on, [toy_crypto] is
    an implementation that satisfies it.  Byte strings are [string]s. *)
From S2P Require Import Prelude JsString JsValue World.

Class Crypto := {
  scrypt : string -> string -> Z -> string;            (* password, salt, length *)
  random_bytes : nat -> Z -> string;                   (* the n-th draw, length *)
  gcm_seal : string -> string -> string -> string * string;  (* key, iv, text: tag, data *)
  gcm_open : string -> string -> string -> string -> option string; (* key, iv, tag, data *)
  to_hex : string -> string;
  from_hex : string -> string
}.

Definition hex_char (a : ascii) : bool :=
  match radix_val 16 a with Some _ => true | None => false end.

Class CryptoLaws `(C : Crypto) : Prop := {
  law_hex s : from_hex (to_hex s) = s;
  law_hex_chars s : sforall hex_char (to_hex s) = true;
  law_hex_empty s : to_hex s = "" -> s = "";
  (** What was sealed opens under the same key and nonce. *)
  law_open k iv p : gcm_open k iv (gcm_seal k iv p).1 (gcm_seal k iv p).2 = Some p;
  law_scrypt_nonempty p s n : 0 < n -> scrypt p s n <> "";
  law_random_nonempty i n : 0 < n -> random_bytes i n <> ""
}.

Definition MASK : string := "********".
Definition mask : val := VStr MASK.
Definition isMasked (value : val) : bool := seq value (VStr MASK).

Section encryption.
Context `{C : Crypto}.

(** [crypto.randomBytes(n)] *)
Definition randomBytes (n : Z) : M world string :=
  fun w => (Ok (random_bytes (w_rng w) n), set_rng (S (w_rng w)) w).

Definition _deriveKey (secret : string) : M world string :=
  salt ← gets (env_get "ENCRYPTION_SALT");
  if negb (truthy salt) then throw (Error "ENCRYPTION_SALT environment variable is required")
  else ret (scrypt secret (str_of salt) 32).

Definition encrypt (plaintext key : string) : M world string :=
  if String.eqb plaintext "" then ret plaintext else
  derivedKey ← _deriveKey key;
  iv ← randomBytes 12;
  let '(authTag, encrypted) := gcm_seal derivedKey iv plaintext in
  ret (to_hex iv +:+ String ":" (to_hex authTag +:+ String ":" (to_hex encrypted))).

Definition decrypt (ciphertext key : string) : M world string :=
  if String.eqb ciphertext "" || negb (has_char ":" ciphertext) then ret ciphertext else
  match split_on ":" ciphertext with
  | [ivHex; authTagHex; encrypted] =>
      derivedKey ← _deriveKey key;
      match gcm_open derivedKey (from_hex ivHex) (from_hex authTagHex) (from_hex encrypted) with
      | Some decrypted => ret decrypted
      | None => throw (Error "Unsupported state or unable to authenticate data")
      end
  | _ => throw (Error "Invalid ciphertext format")
  end.

(** ** Passwords *)
Definition hashPassword (password : string) : M world string :=
  salt ← randomBytes 16;
  ret (to_hex salt +:+ String ":" (to_hex (scrypt password (to_hex salt) 64))).

Definition verifyPassword (password : string) (storedHash : val) : bool :=
  if negb (truthy storedHash) || negb (has_char ":" (str_of storedHash)) then false else
  match split_on ":" (str_of storedHash) with
  | salt :: originalHash :: _ =>
      if String.eqb salt "" || String.eqb originalHash "" then false
      else String.eqb originalHash (to_hex (scrypt password salt 64))
  | _ => false
  end.
End encryption.

(** ** Lemmas *)
Section lemmas.
Context `{CL : CryptoLaws}.

Lemma to_hex_no_colon s : has_char ":" (to_hex s) = false.
Proof. by eapply sforall_has_char; [apply law_hex_chars|]. Qed.

(** A text of three hexadecimal fields splits back into them. *)
Lemma split_cipher a b c :
  split_on ":" (to_hex a +:+ String ":" (to_hex b +:+ String ":" (to_hex c))) =
  [to_hex a; to_hex b; to_hex c].
Proof.
  rewrite split_on_app by apply to_hex_no_colon.
  rewrite split_on_app by apply to_hex_no_colon.
  by rewrite split_on_no_char by apply to_hex_no_colon.
Qed.

Lemma has_char_colon_app a b : has_char ":" (a +:+ String ":" b) = true.
Proof. rewrite has_char_app. cbn. by rewrite orb_true_r. Qed.

Lemma cipher_nonempty a b : String.eqb (a +:+ String ":" b) "" = false.
Proof. by destruct a. Qed.

Lemma to_hex_inj a b : to_hex a = to_hex b -> a = b.
Proof. intros H. by rewrite <- (law_hex a), <- (law_hex b), H. Qed.

(** The salt of the environment. *)
Definition salted (w : world) (salt : string) : Prop :=
  w_env w !! "ENCRYPTION_SALT" = Some salt /\ salt <> "".

Lemma deriveKey_ok w salt secret :
  salted w salt -> _deriveKey secret w = (Ok (scrypt secret salt 32), w).
Proof.
  intros [Hs Hne]. unfold _deriveKey, mbind, M_bind, gets, env_get. rewrite Hs. cbn.
  by destruct (String.eqb_spec salt "").
Qed.

(** What [encrypt] writes. *)
Lemma encrypt_ok w salt p key :
  salted w salt -> p <> "" ->
  exists iv tag data,
    encrypt p key w = (Ok (to_hex iv +:+ String ":" (to_hex tag +:+ String ":" (to_hex data))),
                       set_rng (S (w_rng w)) w) /\
    gcm_seal (scrypt key salt 32) iv p = (tag, data).
Proof.
  intros Hs Hne. unfold encrypt. apply String.eqb_neq in Hne as ->.
  rewrite (M_bind_ok _ _ _ _ _ (deriveKey_ok w salt key Hs)).
  erewrite M_bind_ok by reflexivity.
  destruct (gcm_seal (scrypt key salt 32) (random_bytes (w_rng w) 12) p) as [tag data] eqn:E.
  eauto 6.
Qed.

Lemma decrypt_fields w salt key iv tag data :
  salted w salt ->
  decrypt (to_hex iv +:+ String ":" (to_hex tag +:+ String ":" (to_hex data))) key w =
  (match gcm_open (scrypt key salt 32) iv tag data with
   | Some p => Ok p
   | None => Throw (Error "Unsupported state or unable to authenticate data")
   end, w).
Proof.
  intros Hs. unfold decrypt. rewrite cipher_nonempty, has_char_colon_app. cbn [orb negb].
  rewrite split_cipher. rewrite (M_bind_ok _ _ _ _ _ (deriveKey_ok w salt key Hs)).
  rewrite !law_hex. by destruct (gcm_open _ _ _ _).
Qed.

(** ** Properties *)

(** Encryption round trip.  A non-empty secret is written as three
    hexadecimal fields between colons, so it is recognised as encrypted and
    never as the mask; the same key reads it back whatever else happened in
    between, and any key gets what the cipher authenticates under it or an
    error, never an unauthenticated text. *)
Theorem encrypt_decrypt w w' salt p key :
  salted w salt -> salted w' salt -> p <> "" ->
  exists iv tag data,
    let c := to_hex iv +:+ String ":" (to_hex tag +:+ String ":" (to_hex data)) in
    encrypt p key w = (Ok c, set_rng (S (w_rng w)) w) /\
    has_char ":" c = true /\ isMasked (VStr c) = false /\
    decrypt c key w' = (Ok p, w') /\
    forall key', (decrypt c key' w').1 =
      match gcm_open (scrypt key' salt 32) iv tag data with
      | Some q => Ok q
      | None => Throw (Error "Unsupported state or unable to authenticate data")
      end.
Proof.
  intros Hs Hs' Hne. destruct (encrypt_ok w salt p key Hs Hne) as (iv & tag & data & E & Hseal).
  exists iv, tag, data. split; [done|]. split; [apply has_char_colon_app|]. split.
  - unfold isMasked, seq. apply String.eqb_neq. intros H.
    apply (f_equal (has_char ":")) in H. by rewrite has_char_colon_app in H.
  - pose proof (law_open (scrypt key salt 32) iv p) as Hopen. rewrite Hseal in Hopen. cbn in Hopen.
    split; [|intros key']; rewrite !(decrypt_fields w' salt) by done; [by rewrite Hopen|done].
Qed.

(** What is stored for a password *)
Lemma hashPassword_spec w p :
  exists h salt, hashPassword p w = (Ok h, set_rng (S (w_rng w)) w) /\ h <> "" /\
    forall q, verifyPassword q (VStr h) = bool_decide (scrypt q salt 64 = scrypt p salt 64).
Proof.
  unfold hashPassword. erewrite M_bind_ok by reflexivity.
  set (salt := to_hex (random_bytes (w_rng w) 16)). eexists; exists salt. split; [reflexivity|].
  split; [by apply String.eqb_neq, cipher_nonempty|]. intros q. unfold verifyPassword. cbn [truthy str_of]. rewrite cipher_nonempty, has_char_colon_app.
  cbn [negb orb]. rewrite split_on_app by apply to_hex_no_colon.
  rewrite split_on_no_char by apply to_hex_no_colon.
  assert (salt <> "") as Hs.
  { intros E. apply law_hex_empty in E. by apply law_random_nonempty in E. }
  assert (to_hex (scrypt p salt 64) <> "") as Hh.
  { intros E. apply law_hex_empty in E. by apply law_scrypt_nonempty in E. }
  apply String.eqb_neq in Hs as ->, Hh as ->. cbn [orb].
  case_bool_decide as E; [rewrite E; apply String.eqb_refl|].
  apply String.eqb_neq. intros H%to_hex_inj. congruence.
Qed.

(** Passwords.  The stored text verifies the password it was made from, and
    exactly the passwords with the same derived hash; a missing value or a text
    without a salt and a hash verifies nothing. *)
Theorem password_roundtrip w p q :
  exists h w' salt, hashPassword p w = (Ok h, w') /\ verifyPassword p (VStr h) = true /\
    verifyPassword q (VStr h) = bool_decide (scrypt q salt 64 = scrypt p salt 64) /\
    verifyPassword q VUndef = false /\
    forall plain, has_char ":" plain = false -> verifyPassword q (VStr plain) = false.
Proof.
  destruct (hashPassword_spec w p) as (h & salt & Hh & _ & Hv). exists h, (set_rng (S (w_rng w)) w), salt.
  split; [exact Hh|]. split; [rewrite Hv; by apply bool_decide_eq_true_2|].
  split; [apply Hv|]. split; [done|].
  intros plain Hp. unfold verifyPassword. cbn [str_of]. rewrite Hp. cbn [negb].
  by rewrite orb_true_r.
Qed.
End lemmas.

(** ** An implementation: nothing is hidden, but the laws hold *)
Definition nibble (n : nat) : ascii :=
  ascii_of_nat (if Nat.ltb n 10 then 48 + n else 87 + n).

Fixpoint hex_of (s : string) : string :=
  match s with
  | EmptyString => ""
  | String a s' => let n := nat_of_ascii a in
                   String (nibble (n / 16)) (String (nibble (n mod 16)) (hex_of s'))
  end.

Definition nibble_val (a : ascii) : nat :=
  match radix_val 16 a with Some z => Z.to_nat z | None => 0 end.

Fixpoint unhex (s : string) : string :=
  match s with
  | String a (String b s') => String (ascii_of_nat (nibble_val a * 16 + nibble_val b)) (unhex s')
  | _ => ""
  end.

Definition toy_crypto : Crypto := {|
  scrypt p s n := "k" +:+ p;
  random_bytes i n := "r" +:+ show_Z (Z.of_nat i);
  gcm_seal k iv p := (k, p);
  gcm_open k iv tag data := if String.eqb k tag then Some data else None;
  to_hex := hex_of;
  from_hex := unhex
|}.

Lemma hex_byte a :
  ascii_of_nat (nibble_val (nibble (nat_of_ascii a / 16)) * 16 +
                nibble_val (nibble (nat_of_ascii a mod 16))) = a /\
  hex_char (nibble (nat_of_ascii a / 16)) = true /\
  hex_char (nibble (nat_of_ascii a mod 16)) = true.
Proof. destruct a as [[] [] [] [] [] [] [] []]; vm_compute; done. Qed.

#[export] Instance toy_crypto_laws : CryptoLaws toy_crypto.
Proof.
  constructor; cbn.
  - induction s as [|a s IH]; [done|]. cbn [hex_of unhex]. rewrite IH.
    by destruct (hex_byte a) as [-> _].
  - induction s as [|a s IH]; [done|]. cbn [hex_of sforall]. rewrite IH.
    destruct (hex_byte a) as [_ [-> ->]]. done.
  - by intros [|a s].
  - intros k iv p. by rewrite String.eqb_refl.
  - done.
  - done.
Qed.

Definition salted_world : world :=
  set_env {["ENCRYPTION_SALT" := "pepper"]} empty_world.

Lemma salted_world_ok : salted salted_world "pepper".
Proof. by split. Qed.

Lemma encrypt_decrypt_witness :
  exists c, encrypt (C := toy_crypto) "s3cret" "jwt" salted_world =
      (Ok c, set_rng (S (w_rng salted_world)) salted_world) /\
    decrypt (C := toy_crypto) c "jwt" salted_world = (Ok "s3cret", salted_world).
Proof.
  destruct (encrypt_decrypt (CL := toy_crypto_laws) salted_world salted_world "pepper" "s3cret"
    "jwt" salted_world_ok salted_world_ok ltac:(done)) as (iv & tag & data & H1 & _ & _ & H2 & _).
  eexists. split; [exact H1|exact H2].
Defined.

Lemma password_roundtrip_witness :
  exists h w', hashPassword (C := toy_crypto) "hunter2" empty_world = (Ok h, w') /\
    verifyPassword (C := toy_crypto) "hunter2" (VStr h) = true /\
    forall plain, has_char ":" plain = false ->
      verifyPassword (C := toy_crypto) "hunter3" (VStr plain) = false.
Proof.
  destruct (password_roundtrip (CL := toy_crypto_laws) empty_world "hunter2" "hunter3")
    as (h & w' & salt & H1 & H2 & _ & _ & H3).
  exists h, w'. split; [exact H1|]. split; [exact H2|exact H3].
Defined.
