(* ===== verification/EnvManager.v ===== *)
(** * The environment file ([src/utils/envManager.js],
      [src/controllers/envController.js])

    A [.env] file is text; a key is set by rewriting the lines that begin with
    it, or appending one, and the process environment follows. *)
From S2P Require Import Prelude JsString JsValue World Zod Schemas Encryption.

(** [path.join(__dirname, "../../.env")], when ENV_FILE_PATH does not say
    otherwise. *)
Definition ENV_PATH : string := "/app/.env".

Definition text (c : content) : string := match c with Text s => s | _ => "" end.

(** The two line terminators beyond LF and CR, in UTF-8. *)
Definition U2028 : string := String "226" (String "128" (String "168" "")).
Definition U2029 : string := String "226" (String "128" (String "169" "")).

Definition has_terminator (s : string) : bool :=
  has_char CR s || has_char LF s || includes U2028 s || includes U2029 s.

(** What follows the first [c], when there is one. *)
Fixpoint after_char (c : ascii) (s : string) : option string :=
  match s with
  | EmptyString => None
  | String a s' => if Ascii.eqb a c then Some s' else after_char c s'
  end.

(** The match of a line: a key without an equals sign, an equals sign and the
    rest of the line; both groups are trimmed. *)
Definition parse_line (line : string) : option (string * string) :=
  match before_char "=" line, after_char "=" line with
  | EmptyString, _ | _, None => None
  | k, Some v => if has_terminator v then None else Some (trim k, trim v)
  end.

Definition add_line (acc : list (string * val)) (line : string) : list (string * val) :=
  match parse_line line with Some (k, v) => oset k (VStr v) acc | None => acc end.

Definition parse_text (content : string) : list (string * val) :=
  foldl add_line [] (split_lines content).

Definition parseEnv : M world val :=
  try_catch
    (fs_access ENV_PATH ;;
     content ← fs_read ENV_PATH;
     ret (VObj (parse_text (text content))))
    (fun _ => ret (VObj [])).

(** [line.trim().startsWith(`${key}=`)] *)
Definition sets_key (key line : string) : bool := starts_with (key +:+ "=") (trim line).

(** The lines of the new file. *)
Definition set_lines (key value : string) (lines : list string) : list string :=
  let newLines := (fun line => if sets_key key line then key +:+ "=" +:+ value else line) <$> lines in
  if existsb (sets_key key) lines then newLines else
  (if match last newLines with Some l => negb (String.eqb l "") | None => false end
   then newLines ++ [""] else newLines) ++ [key +:+ "=" +:+ value].

Definition read_or_empty : M world string :=
  try_catch (fs_access ENV_PATH ;; content ← fs_read ENV_PATH; ret (text content))
            (fun _ => ret "").

Definition env_set (k v : string) (w : world) : world := set_env (<[k := v]> (w_env w)) w.
Definition env_del (k : string) (w : world) : world := set_env (delete k (w_env w)) w.

Definition setEnvValue (key value : string) : M world unit :=
  content ← read_or_empty;
  fs_write ENV_PATH (Text (join_with LF (set_lines key value (split_lines content)))) ;;
  modify (env_set key value).

(** The part of [deleteEnvValue] after the file was read *)
Definition delete_lines (key content : string) : M world unit :=
  let lines := split_lines content in
  let newLines := filter (fun line => sets_key key line = false) lines in
  if Nat.eqb (length newLines) (length lines) then ret tt
  else fs_write ENV_PATH (Text (join_with LF newLines)) ;; modify (env_del key).

Definition deleteEnvValue (key : string) : M world unit :=
  try_catch
    (fs_access ENV_PATH ;; content ← fs_read ENV_PATH; delete_lines key (text content))
    (fun _ => ret tt).

(** [crypto.randomBytes(length).toString("hex")] *)
Definition generateSecret `{C : Crypto} (length : Z) : M world string :=
  bytes ← randomBytes length; ret (to_hex bytes).

(** [!!process.env.ADMIN_PASSWORD] *)
Definition isConfigured (w : world) : bool := truthy (env_get "ADMIN_PASSWORD" w).

(** ** Lemmas *)

(** A variable name: no white space, no equals sign, no line break. *)
Definition key_char (a : ascii) : bool := negb (is_blank a) && negb (Ascii.eqb a "=").
Definition plain_key (k : string) : Prop := k <> "" /\ sforall key_char k = true.

Lemma plain_key_chars k :
  plain_key k -> has_char "=" k = false /\ has_char LF k = false /\ has_char CR k = false.
Proof.
  intros [_ H]. split_and!; by eapply sforall_has_char.
Qed.

Lemma before_after c s r :
  after_char c s = Some r -> s = before_char c s +:+ String c r /\
  has_char c (before_char c s) = false.
Proof.
  induction s as [|a s IH]; [done|]. cbn. destruct (Ascii.eqb_spec a c) as [->|Hne].
  - by intros [= ->].
  - intros H. destruct (IH H) as [E Hc]. rewrite str_cons_app, <- E. split; [done|].
    cbn. apply Ascii.eqb_neq in Hne as ->. done.
Qed.

Lemma after_app c p r : has_char c p = false ->
  before_char c (p +:+ String c r) = p /\ after_char c (p +:+ String c r) = Some r.
Proof.
  induction p as [|a p IH]; cbn [has_char].
  - intros _. rewrite str_nil_app. cbn. by rewrite Ascii.eqb_refl.
  - intros [Ha Hp]%orb_false_iff. rewrite str_cons_app. cbn. rewrite Ha.
    by destruct (IH Hp) as [-> ->].
Qed.

Lemma trim_start_split s : exists ws, all_blank ws = true /\ s = ws +:+ trim_start s.
Proof.
  induction s as [|a s (ws & Hws & E)]; [by exists ""|]. cbn.
  destruct (is_blank a) eqn:Ha.
  - exists (String a ws). cbn. rewrite Ha, str_cons_app, <- E. done.
  - by exists "".
Qed.

Lemma trim_end_split s : exists ws, all_blank ws = true /\ s = trim_end s +:+ ws.
Proof.
  induction s as [|a s (ws & Hws & E)]; [by exists ""|]. cbn [trim_end].
  destruct (all_blank (String a s)) eqn:Ha; [by exists (String a s)|].
  exists ws. by rewrite str_cons_app, <- E.
Qed.

Lemma all_blank_app a b : all_blank (a +:+ b) = all_blank a && all_blank b.
Proof.
  induction a as [|x a IH]; [done|]. rewrite str_cons_app. cbn. rewrite IH. by rewrite andb_assoc.
Qed.

Lemma all_blank_no_char c s : is_blank c = false -> all_blank s = true -> has_char c s = false.
Proof.
  intros Hc. induction s as [|a s IH]; [done|]. cbn. intros [Ha Hs]%andb_true_iff.
  rewrite IH by done. rewrite orb_false_r. apply Ascii.eqb_neq. intros ->. congruence.
Qed.

Lemma key_not_blank a : key_char a = true -> is_blank a = false.
Proof. unfold key_char. by intros [?%negb_true_iff _]%andb_true_iff. Qed.

Lemma trim_key ws k : all_blank ws = true -> plain_key k -> trim (ws +:+ k) = k.
Proof.
  intros Hws [Hne Hk]. unfold trim.
  assert (forall t, sforall key_char t = true -> trim_end t = t /\
    (t <> "" -> all_blank t = false)) as Ht.
  { induction t as [|a t IH]; [done|]. cbn [sforall trim_end]. intros [Ha Ht]%andb_true_iff.
    apply key_not_blank in Ha. cbn [all_blank]. rewrite Ha. cbn [andb].
    destruct (IH Ht) as [-> _]. done. }
  destruct (Ht k Hk) as [Hend Hnb]. specialize (Hnb Hne).
  assert (trim_end (ws +:+ k) = ws +:+ k) as ->.
  { clear Hws. induction ws as [|a ws IH]; [by rewrite str_nil_app|]. rewrite str_cons_app.
    cbn [trim_end]. rewrite IH. cbn [all_blank]. rewrite all_blank_app, Hnb, !andb_false_r. done. }
  induction ws as [|a ws IH].
  - rewrite str_nil_app. destruct k as [|a k]; [done|]. cbn in *.
    apply andb_true_iff in Hk as [Ha%key_not_blank _]. by rewrite Ha.
  - rewrite str_cons_app. cbn in *. apply andb_true_iff in Hws as [-> Hws]. by apply IH.
Qed.

(** The line that sets a key parses to it. *)
Lemma parse_set_line key value :
  plain_key key -> has_terminator value = false ->
  parse_line (key +:+ "=" +:+ value) = Some (key, trim value).
Proof.
  intros Hk Hv. destruct (plain_key_chars key Hk) as (He & _).
  unfold parse_line. change ("=" +:+ value) with (String "=" value).
  destruct (after_app "=" key value He) as [-> ->].
  pose proof (trim_key "" key eq_refl Hk) as Ht. rewrite str_nil_app in Ht.
  destruct Hk as [Hne _]. destruct key; [done|]. by rewrite Hv, Ht.
Qed.

(** A line that [setEnvValue] would rewrite sets that key, or nothing. *)
Lemma sets_key_parse key line k v :
  plain_key key -> sets_key key line = true -> parse_line line = Some (k, v) -> k = key.
Proof.
  intros Hk Hs. apply starts_with_inv in Hs as [r Hr].
  destruct (plain_key_chars key Hk) as (He & _).
  destruct (trim_end_split line) as (w2 & Hw2 & E2).
  destruct (trim_start_split (trim_end line)) as (w1 & Hw1 & E1).
  unfold trim in Hr. rewrite Hr in E1.
  assert (line = (w1 +:+ key) +:+ String "=" (r +:+ w2)) as ->.
  { rewrite E2, E1. rewrite <- !str_app_assoc. cbn. done. }
  assert (has_char "=" (w1 +:+ key) = false) as Hc.
  { rewrite has_char_app, He, orb_false_r. by apply all_blank_no_char. }
  unfold parse_line. destruct (after_app "=" (w1 +:+ key) (r +:+ w2) Hc) as [-> ->].
  destruct (w1 +:+ key) eqn:E; [done|]. case_match; [done|]. intros [= <- _].
  rewrite <- E. by apply trim_key.
Qed.

(** The value a list of lines gives a key: the last line that sets it wins. *)
Definition line_value (k : string) (acc : val) (line : string) : val :=
  match parse_line line with
  | Some (k', v) => if String.eqb k k' then VStr v else acc
  | None => acc
  end.

Fixpoint last_value (k : string) (acc : val) (lines : list string) : val :=
  match lines with
  | [] => acc
  | line :: lines' => last_value k (line_value k acc line) lines'
  end.

Lemma oget_lines k acc lines :
  oget k (foldl add_line acc lines) = last_value k (oget k acc) lines.
Proof.
  revert acc. induction lines as [|l lines IH]; intros acc; [done|]. cbn. rewrite IH. f_equal.
  unfold add_line, line_value. destruct (parse_line l) as [[k' v]|]; [|done].
  destruct (String.eqb_spec k k') as [->|]; [apply oget_oset|by apply oget_oset_ne].
Qed.

Lemma last_value_app k acc l1 l2 :
  last_value k acc (l1 ++ l2) = last_value k (last_value k acc l1) l2.
Proof. revert acc. induction l1; intros acc; cbn; auto. Qed.

(** Rewriting the lines of [key] leaves every other key's value. *)
Lemma last_value_rewritten key value k acc lines :
  plain_key key -> has_terminator value = false -> k <> key ->
  last_value k acc ((fun line => if sets_key key line then key +:+ "=" +:+ value else line) <$> lines)
  = last_value k acc lines.
Proof.
  intros Hk Hv Hne. revert acc. induction lines as [|l lines IH]; intros acc; [done|].
  cbn. rewrite IH. f_equal. destruct (sets_key key l) eqn:Hs; [|done]. unfold line_value.
  rewrite parse_set_line by done. apply String.eqb_neq in Hne as Hne'. rewrite Hne'.
  destruct (parse_line l) as [[k' v]|] eqn:E; [|done].
  rewrite (sets_key_parse key l k' v Hk Hs E). by rewrite Hne'.
Qed.

(** Every line that would be read as [key] is one that [setEnvValue] finds. *)
Definition found_by_prefix (key : string) (lines : list string) : Prop :=
  Forall (fun l => forall v, parse_line l = Some (key, v) -> sets_key key l = true) lines.

Lemma last_value_set key value acc lines :
  plain_key key -> has_terminator value = false -> found_by_prefix key lines ->
  last_value key acc ((fun line => if sets_key key line then key +:+ "=" +:+ value else line) <$> lines)
  = if existsb (sets_key key) lines then VStr (trim value) else acc.
Proof.
  intros Hk Hv HF. revert acc. induction HF as [|l lines Hl HF IH]; intros acc; [done|].
  cbn. rewrite IH. unfold line_value. destruct (sets_key key l) eqn:Hs; cbn.
  - rewrite parse_set_line, String.eqb_refl by done. by destruct (existsb _ lines).
  - destruct (existsb _ lines); [done|]. destruct (parse_line l) as [[k' v]|] eqn:E; [|done].
    destruct (String.eqb_spec key k') as [<-|]; [|done].
    by specialize (Hl v eq_refl).
Qed.

Lemma chomp_id s : has_char CR s = false -> chomp s = s.
Proof.
  induction s as [|a s IH]; [done|]. cbn. intros [Ha Hs]%orb_false_iff. rewrite Ha.
  rewrite IH by done. by destruct s.
Qed.

(** Lines without line breaks come back from the text they are joined into. *)
Definition one_line (l : string) : Prop := has_char LF l = false /\ has_char CR l = false.

Lemma split_joined lines :
  lines <> [] -> Forall one_line lines -> split_lines (join_with LF lines) = lines.
Proof.
  intros Hne HF. unfold split_lines. rewrite split_join; [|done|].
  - clear Hne. induction HF as [|l lines [_ Hl] HF IH]; [done|]. cbn.
    destruct lines as [|l' lines]; [done|]. by rewrite chomp_id, IH.
  - eapply Forall_impl; [exact HF|]. by intros l [].
Qed.

(** What the file gives a key before the change. *)
Definition old_text (w : world) : string :=
  match files w !! ENV_PATH with Some f => text (f_content f) | None => "" end.

Lemma read_or_empty_ok w : read_or_empty w = (Ok (old_text w), w).
Proof.
  unfold read_or_empty, try_catch, mbind, M_bind, fs_access, fs_read, old_text.
  by destruct (files w !! ENV_PATH) eqn:E; [rewrite E|].
Qed.

Lemma setEnvValue_ok key value w :
  denied w ENV_PATH = false ->
  setEnvValue key value w = (Ok tt, env_set key value (set_files (<[ENV_PATH := File
    (Text (join_with LF (set_lines key value (split_lines (old_text w))))) (w_clock w)]> (files w)) w)).
Proof.
  intros Hw. unfold setEnvValue. rewrite (M_bind_ok _ _ _ _ _ (read_or_empty_ok w)).
  rewrite (M_bind_ok _ _ _ _ _ (fs_write_ok ENV_PATH _ w Hw)). reflexivity.
Qed.

Lemma parseEnv_ok s t w :
  files w !! ENV_PATH = Some (File (Text s) t) -> parseEnv w = (Ok (VObj (parse_text s)), w).
Proof.
  intros H. unfold parseEnv, try_catch, mbind, M_bind. rewrite (fs_access_ok _ _ _ H).
  by rewrite (fs_read_ok _ _ _ H).
Qed.

Lemma set_lines_nonempty key value lines : lines <> [] -> set_lines key value lines <> [].
Proof.
  intros H. unfold set_lines. destruct (existsb _ lines); [by destruct lines|].
  intros E. by apply app_eq_nil in E as [_ ?].
Qed.

Lemma split_lines_nonempty s : split_lines s <> [].
Proof.
  unfold split_lines. pose proof (split_on_nonempty LF s) as H.
  destruct (split_on LF s) as [|x [|y l]]; done.
Qed.

Lemma set_lines_one_line key value lines :
  one_line (key +:+ "=" +:+ value) -> Forall one_line lines ->
  Forall one_line (set_lines key value lines).
Proof.
  intros Hn HF. unfold set_lines.
  assert (Forall one_line ((fun line => if sets_key key line then key +:+ "=" +:+ value else line)
    <$> lines)) as HF'.
  { apply Forall_fmap. eapply Forall_impl; [exact HF|]. intros l Hl. cbn. by destruct (sets_key key l). }
  destruct (existsb _ lines); [done|]. apply Forall_app. split; [|by constructor].
  destruct (match last _ with Some _ => _ | None => _ end); [|done].
  apply Forall_app. split; [done|]. by repeat constructor.
Qed.

(** The value of each key in the new lines. *)
Lemma set_lines_value key value lines k :
  plain_key key -> has_terminator value = false ->
  (k = key -> found_by_prefix key lines) ->
  last_value k VUndef (set_lines key value lines) =
    if String.eqb k key then VStr (trim value) else last_value k VUndef lines.
Proof.
  intros Hk Hv Hf. unfold set_lines.
  assert (forall acc, line_value k acc (key +:+ "=" +:+ value) =
    if String.eqb k key then VStr (trim value) else acc) as Hnew.
  { intros acc. unfold line_value. by rewrite parse_set_line. }
  destruct (existsb (sets_key key) lines) eqn:He.
  - destruct (String.eqb_spec k key) as [->|Hne].
    + rewrite last_value_set by auto. by rewrite He.
    + by apply last_value_rewritten.
  - rewrite last_value_app. cbn [last_value]. rewrite Hnew.
    destruct (String.eqb_spec k key) as [->|Hne]; [done|].
    destruct (match last _ with Some _ => _ | None => _ end).
    + rewrite last_value_app. cbn [last_value]. by apply last_value_rewritten.
    + by apply last_value_rewritten.
Qed.

(** ** Properties *)

(** The environment file round trip.  Setting a variable to a value without
    a line break makes the process see the value and the file read back as its
    trimmed text; every other variable of the file, and of the process, keeps
    its value. *)
Theorem setEnvValue_parse key value w :
  denied w ENV_PATH = false -> plain_key key -> has_terminator value = false ->
  Forall one_line (split_lines (old_text w)) ->
  found_by_prefix key (split_lines (old_text w)) ->
  exists w' o, setEnvValue key value w = (Ok tt, w') /\ parseEnv w' = (Ok (VObj o), w') /\
    oget key o = VStr (trim value) /\ w_env w' = <[key := value]> (w_env w) /\
    (forall k, k <> key -> oget k o = oget k (parse_text (old_text w))).
Proof.
  intros Hw Hk Hv Hl Hf. rewrite setEnvValue_ok by done.
  destruct (plain_key_chars key Hk) as (_ & Hlf & Hcr).
  set (lines := split_lines (old_text w)) in *.
  assert (one_line (key +:+ "=" +:+ value)) as Hone.
  { unfold has_terminator in Hv. rewrite !orb_false_iff in Hv. destruct Hv as [[[??]?]?].
    split; rewrite !has_char_app; rewrite ?Hlf, ?Hcr; cbn; done. }
  do 2 eexists. split; [done|]. split; [eapply parseEnv_ok; apply lookup_insert_eq|].
  assert (forall k, oget k (parse_text (join_with LF (set_lines key value lines))) =
    last_value k VUndef (set_lines key value lines)) as Hget.
  { intros k. unfold parse_text. rewrite split_joined; [apply oget_lines| |].
    - apply set_lines_nonempty, split_lines_nonempty.
    - by apply set_lines_one_line. }
  split; [|split; [done|]].
  - rewrite Hget, set_lines_value by done. by rewrite String.eqb_refl.
  - intros k Hne. rewrite Hget, set_lines_value by done.
    apply String.eqb_neq in Hne as ->. unfold parse_text. by rewrite oget_lines.
Qed.

(** A value may carry a line break, and then it sets other variables: with
    an accepted key, a value that contains a second assignment makes the file
    define that variable too, whatever its name. *)
Theorem setEnvValue_injection key v1 k2 v2 w :
  denied w ENV_PATH = false -> files w !! ENV_PATH = None ->
  plain_key key -> plain_key k2 -> k2 <> key ->
  has_terminator v1 = false -> has_terminator v2 = false ->
  let value := v1 +:+ String LF (k2 +:+ "=" +:+ v2) in
  exists w' o, setEnvValue key value w = (Ok tt, w') /\ parseEnv w' = (Ok (VObj o), w') /\
    oget k2 o = VStr (trim v2).
Proof.
  intros Hw Hnone Hk Hk2 Hne Hv1 Hv2 value. rewrite setEnvValue_ok by done.
  assert (old_text w = "") as -> by (unfold old_text; by rewrite Hnone).
  do 2 eexists. split; [done|]. split; [eapply parseEnv_ok; apply lookup_insert_eq|].
  assert (set_lines key value (split_lines "") = [""; key +:+ "=" +:+ value]) as ->.
  { unfold set_lines, sets_key. cbn. destruct key as [|a key]; [by destruct Hk|]. done. }
  destruct (plain_key_chars key Hk) as (_ & Hlf & Hcr).
  destruct (plain_key_chars k2 Hk2) as (_ & Hlf2 & Hcr2).
  assert (one_line (key +:+ "=" +:+ v1) /\ one_line (k2 +:+ "=" +:+ v2)) as [Ho1 Ho2].
  { unfold has_terminator in *. rewrite !orb_false_iff in Hv1, Hv2.
    split; split; rewrite !has_char_app; rewrite ?Hlf, ?Hcr, ?Hlf2, ?Hcr2; cbn; tauto. }
  assert (join_with LF [""; key +:+ "=" +:+ value] =
    join_with LF [""; key +:+ "=" +:+ v1; k2 +:+ "=" +:+ v2]) as ->.
  { cbn [join_with]. f_equal. f_equal. unfold value. by rewrite !str_app_assoc. }
  unfold parse_text. rewrite split_joined; [|done|by repeat constructor; try apply Ho1; try apply Ho2].
  rewrite oget_lines. cbn [last_value]. unfold line_value at 1.
  by rewrite parse_set_line, String.eqb_refl.
Qed.

(** ** Witnesses *)
Definition env_world : world :=
  set_files {[ENV_PATH := File (Text ("PORT=3000" +:+ String LF "ADMIN_PASSWORD=aa:bb")) 0]}
    empty_world.

Lemma setEnvValue_parse_witness :
  exists w' o, setEnvValue "PORT" "8080 " env_world = (Ok tt, w') /\
    parseEnv w' = (Ok (VObj o), w') /\ oget "PORT" o = VStr "8080" /\
    oget "ADMIN_PASSWORD" o = VStr "aa:bb".
Proof.
  destruct (setEnvValue_parse "PORT" "8080 " env_world) as (w' & o & H1 & H2 & H3 & _ & H4).
  - reflexivity.
  - split; [done|reflexivity].
  - reflexivity.
  - vm_compute. repeat constructor.
  - vm_compute. repeat constructor; done.
  - exists w', o. split_and!; [exact H1|exact H2|exact H3|].
    rewrite H4 by done. vm_compute. reflexivity.
Defined.

(** The key is one the update schema accepts; the second variable is not. *)
Lemma setEnvValue_injection_witness :
  let value := "x" +:+ String LF ("NODE_OPTIONS" +:+ "=" +:+ "--require /tmp/evil.js") in
  zod_parse (Z := zod_ref) envUpdateSchema
    (VObj [("key", VStr "BASE_URL"); ("value", VStr value)])
    = Ok (VObj [("key", VStr "BASE_URL"); ("value", VStr value)]) /\
  exists w' o, setEnvValue "BASE_URL" value empty_world = (Ok tt, w') /\
    parseEnv w' = (Ok (VObj o), w') /\
    oget "NODE_OPTIONS" o = VStr (trim "--require /tmp/evil.js").
Proof.
  split; [vm_compute; reflexivity|].
  apply (setEnvValue_injection "BASE_URL" "x" "NODE_OPTIONS" "--require /tmp/evil.js" empty_world);
    try reflexivity; try done; split; done.
Defined.
