(* ===== verification/Sse.v ===== *)
(** * Server-sent events ([src/services/system/sseService.js],
      [src/utils/loggerInitializer.js])

    The connected browsers, each with the messages written to its response, and
    the bounded history of log entries that a new client is sent.  The server
    intercepts [console.log] before anything else runs, so that a line printed
    by this service is an entry of its own stream; the lines printed by the
    other components are left out of the model.  So are the keep-alive
    comments, which carry no message, and the append to the log file, whose
    failure is only reported. *)
From S2P Require Import Prelude JsString JsValue World LuxonUtc.

Definition MAX_HISTORY : nat := 1000.

Definition log_message (entry : val) : val := VObj [("type", VStr "LOG"); ("payload", entry)].

(** [new Date().toISOString()] *)
Definition iso_of (now : Z) : val := VStr (iso_text now).
Definition isoNow (w : world) : val := iso_of (w_clock w).

Definition log_entry (now : Z) (message level : string) : val :=
  VObj [("timestamp", iso_of now); ("level", VStr level); ("message", VStr message)].

Definition sse_broadcast (data : val) (s : sse_state) : sse_state :=
  Sse ((fun c => (c.1, c.2 ++ [data])) <$> sse_clients s) (sse_history s).

(** [logHistory.push(entry)], dropping the oldest beyond the limit. *)
Definition push_history (entry : val) (h : list val) : list val :=
  let h' := h ++ [entry] in
  if Nat.ltb MAX_HISTORY (length h') then tail h' else h'.

Definition sse_log (now : Z) (message level : string) (s : sse_state) : sse_state :=
  let entry := log_entry now message level in
  sse_broadcast (log_message entry) (Sse (sse_clients s) (push_history entry (sse_history s))).

(** The intercepted [console.log] of one text *)
Definition console_log (now : Z) (message : string) (s : sse_state) : sse_state :=
  sse_log now message "info" s.

Definition client_notice (what : string) (s : sse_state) : string :=
  "[SSE] Client " +:+ what +:+ ". Total clients: " +:+ show_Z (Z.of_nat (length (sse_clients s))).

(** [logHistory.forEach((entry) => res.write(...))] *)
Definition send_history (res : nat) (s : sse_state) : sse_state :=
  Sse ((fun c => if Nat.eqb c.1 res then (c.1, c.2 ++ (log_message <$> sse_history s)) else c)
         <$> sse_clients s) (sse_history s).

Definition sse_join (res : nat) (s : sse_state) : sse_state :=
  Sse (sse_clients s ++ [(res, [])]) (sse_history s).

Definition sse_add (now : Z) (res : nat) (s : sse_state) : sse_state :=
  let s := sse_join res s in
  send_history res (console_log now (client_notice "connected" s) s).

(** [res.on("close")] *)
Definition sse_leave (res : nat) (s : sse_state) : sse_state :=
  Sse (filter (fun c => c.1 <> res) (sse_clients s)) (sse_history s).
Definition sse_close (now : Z) (res : nat) (s : sse_state) : sse_state :=
  let s := sse_leave res s in console_log now (client_notice "disconnected" s) s.

Definition on_sse (f : Z -> sse_state -> sse_state) : M world unit :=
  modify (fun w => set_sse (f (w_clock w) (w_sse w)) w).

Definition addClient (res : nat) : M world unit := on_sse (fun now => sse_add now res).
Definition closeClient (res : nat) : M world unit := on_sse (fun now => sse_close now res).
Definition broadcast (data : val) : M world unit := on_sse (fun _ => sse_broadcast data).
Definition log (message level : string) : M world unit :=
  on_sse (fun now => sse_log now message level).

(** ** Sequences of operations *)
Inductive sse_op :=
| Add (res : nat)
| Close (res : nat)
| Broadcast (data : val)
| Log (message level : string).

(** An operation at a time *)
Definition sse_step (s : sse_state) (o : Z * sse_op) : sse_state :=
  match o.2 with
  | Add res => sse_add o.1 res s
  | Close res => sse_close o.1 res s
  | Broadcast data => sse_broadcast data s
  | Log message level => sse_log o.1 message level s
  end.

Definition sse_run (ops : list (Z * sse_op)) (s : sse_state) : sse_state := foldl sse_step s ops.

(** The entry an operation logs, if any *)
Definition entry_of (s : sse_state) (o : Z * sse_op) : list val :=
  match o.2 with
  | Add res => [log_entry o.1 (client_notice "connected" (sse_join res s)) "info"]
  | Close res => [log_entry o.1 (client_notice "disconnected" (sse_leave res s)) "info"]
  | Broadcast _ => []
  | Log message level => [log_entry o.1 message level]
  end.

(** What an operation sends to everyone connected *)
Definition sent_by (s : sse_state) (o : Z * sse_op) : list val :=
  match o.2 with
  | Broadcast data => [data]
  | _ => log_message <$> entry_of s o
  end.

(** Along a run from [s] *)
Fixpoint along (f : sse_state -> Z * sse_op -> list val) (ops : list (Z * sse_op))
    (s : sse_state) : list val :=
  match ops with
  | [] => []
  | o :: ops => f s o ++ along f ops (sse_step s o)
  end.

(** The same response object does not connect again, nor leave. *)
Definition touches (res : nat) (o : sse_op) : bool :=
  match o with Add r | Close r => Nat.eqb r res | _ => false end.

(** The last [n] of a list *)
Definition last_n {A} (n : nat) (l : list A) : list A := drop (length l - n) l.

(** ** Lemmas *)
Lemma last_n_short {A} n (l : list A) : (length l <= n)%nat -> last_n n l = l.
Proof. intros H. unfold last_n. by replace (length l - n)%nat with 0%nat by lia. Qed.

Lemma last_n_length {A} n (l : list A) : (length (last_n n l) <= n)%nat.
Proof. unfold last_n. rewrite length_drop. lia. Qed.

(** Sliding the window by one entry. *)
Lemma push_last_n e l : push_history e (last_n MAX_HISTORY l) = last_n MAX_HISTORY (l ++ [e]).
Proof.
  unfold push_history. generalize MAX_HISTORY. intros n. rewrite length_app. cbn [length].
  destruct (Nat.ltb_spec n (length (last_n n l) + 1)) as [H|H].
  - pose proof (last_n_length n l) as Hl. assert (length (last_n n l) = n) as Hn by lia.
    unfold last_n in *. rewrite length_drop in Hn. rewrite length_app. cbn [length].
    replace (length l + 1 - n)%nat with (length l - n + 1)%nat by lia.
    rewrite <- drop_drop, drop_app_le by lia.
    by destruct (drop (length l - n)%nat l ++ [e]).
  - unfold last_n in *. rewrite length_drop in H.
    rewrite length_app. cbn [length].
    assert (length l < n)%nat as Hlt by lia.
    replace (length l - n)%nat with 0%nat by lia.
    by replace (length l + 1 - n)%nat with 0%nat by lia.
Qed.

Lemma history_run ops s l :
  sse_history s = last_n MAX_HISTORY l ->
  sse_history (sse_run ops s) = last_n MAX_HISTORY (l ++ along entry_of ops s).
Proof.
  revert s l. induction ops as [|[now o] ops IH]; intros s l Hs; cbn [along sse_run foldl].
  { by rewrite app_nil_r. }
  rewrite app_assoc. apply IH. destruct o; cbn -[push_history log_entry]; rewrite ?app_nil_r;
    try done; rewrite Hs; apply push_last_n.
Qed.

(** What a connected client has received. *)
Lemma received_run ops s res msgs :
  (res, msgs) ∈ sse_clients s -> forallb (fun o => negb (touches res o.2)) ops = true ->
  (res, msgs ++ along sent_by ops s) ∈ sse_clients (sse_run ops s).
Proof.
  revert s msgs. induction ops as [|[now o] ops IH]; intros s msgs Hin Hops; cbn [along sse_run foldl].
  { by rewrite app_nil_r. }
  cbn in Hops. apply andb_true_iff in Hops as [Ho Hops]. rewrite app_assoc. apply IH; [|done].
  destruct o as [r|r|d|m l]; cbn -[log_entry] in *.
  - apply list_elem_of_fmap.
    exists (res, msgs ++ [log_message (log_entry now (client_notice "connected" (sse_join r s)) "info")]).
    cbn [fst]. rewrite Nat.eqb_sym. apply negb_true_iff in Ho. rewrite Ho. split; [done|].
    apply list_elem_of_fmap. exists (res, msgs). split; [done|]. apply elem_of_app. by left.
  - apply list_elem_of_fmap. exists (res, msgs). split; [done|].
    apply list_elem_of_filter. split; [|done]. cbn.
    apply negb_true_iff, Nat.eqb_neq in Ho. congruence.
  - apply list_elem_of_fmap. by exists (res, msgs).
  - apply list_elem_of_fmap. by exists (res, msgs).
Qed.

(** ** Properties *)

(** The event stream.  Along any sequence of connections, disconnections,
    broadcasts and log calls, the history is exactly the last thousand entries
    logged, the stream's own notices among them.  A client that connects is
    written the notice of its own connection, then the history, which ends with
    that same notice a second time, and from then on every message broadcast or
    logged while it stays connected, once and in order. *)
Theorem sse_stream ops now res ops' :
  let s := sse_run ops (Sse [] []) in
  let notice := log_entry now (client_notice "connected" (sse_join res s)) "info" in
  let history := last_n MAX_HISTORY (along entry_of ops (Sse [] []) ++ [notice]) in
  let s' := sse_add now res s in
  sse_history s' = history /\ (length history <= MAX_HISTORY)%nat /\
  (forallb (fun o => negb (touches res o.2)) ops' = true ->
   (res, log_message notice :: (log_message <$> history) ++ along sent_by ops' s') ∈
     sse_clients (sse_run ops' s')).
Proof.
  intros s notice history s'.
  assert (sse_history s' = history) as Hh.
  { change s' with (sse_run [(now, Add res)] s).
    rewrite (history_run _ s (along entry_of ops (Sse [] []))).
    - unfold history. by rewrite <- (app_nil_r (along _ _ _ ++ [notice])), <- app_assoc.
    - by apply (history_run ops (Sse [] []) []). }
  split; [done|]. split; [apply last_n_length|]. intros Hops.
  rewrite app_comm_cons. apply received_run; [|done].
  apply list_elem_of_fmap. exists (res, [log_message notice]). cbn [fst snd].
  rewrite Nat.eqb_refl. split; [by rewrite <- Hh|].
  apply list_elem_of_fmap. exists (res, []). split; [done|].
  apply elem_of_app. right. set_solver.
Qed.

Lemma sse_stream_witness :
  let notice := log_message
    (log_entry 5 "[SSE] Client connected. Total clients: 1" "info") in
  (7%nat, [notice; log_message (log_entry 0 "boot" "info"); notice; VStr "ping"]) ∈
    sse_clients (sse_run [(6, Broadcast (VStr "ping"))]
      (sse_add 5 7%nat (sse_run [(0, Log "boot" "info")] (Sse [] [])))).
Proof.
  apply (sse_stream [(0, Log "boot" "info")] 5 7%nat [(6, Broadcast (VStr "ping"))]).
  reflexivity.
Defined.
