(* ===== verification/ConfigStore.v ===== *)
(** * The configuration in memory ([ConfigService.get])

    What the other services see of the configuration service: the object it
    holds, or an error before the first load. *)
From S2P Require Import Prelude JsString JsValue World.

Definition ConfigNotInitializedError : jserr :=
  JsErr "ConfigNotInitializedError" "ConfigService not initialised. Call init() first." "" false.
Definition CriticalConfigurationError (msg : string) : jserr :=
  JsErr "CriticalConfigurationError" msg "" false.

Definition config_get : M world val := fun w =>
  if truthy (c_config (w_cfg w)) then (Ok (c_config (w_cfg w)), w)
  else (Throw ConfigNotInitializedError, w).

Definition configured (config : val) (w : world) : Prop :=
  c_config (w_cfg w) = config /\ truthy config = true.

Lemma config_get_ok config w : configured config w -> config_get w = (Ok config, w).
Proof. intros [<- H]. unfold config_get. by rewrite H. Qed.

(** [config.automation?.outputs?.[id]] *)
Definition output_config (config : val) (id : string) : val :=
  prop (prop (prop config "automation") "outputs") id.
