(* ===== verification/Outputs.v ===== *)
(** * Output strategies ([src/outputs/])

    The base class's template method, the three strategies and their factory.
    The audio player, the other processes of the host and the HTTP client are
    parameters ([Host]); what is played and requested is logged in the world. *)
From Stdlib Require Import Qabs.
From S2P Require Import Prelude JsString JsValue NodePath World LuxonUtc NormalizeSource Sse.
From S2P Require Import ConfigStore.

Class Host := {
  host_linux : bool;                              (* process.platform === "linux" *)
  host_exec : string -> result unit;              (* execFile(player, ["--version"]) *)
  host_play : list string -> string -> string -> list string -> result unit;
                                                  (* log, player, source, options *)
  host_get : list string -> string -> val -> result val  (* axios.get: log, url, params; data *)
}.

(** A strategy: its metadata and its methods.  The flag of the hooks tells
    whether the signal aborts the execution. *)
Record Strategy := MkStrategy {
  st_meta : val;
  st_file : val -> val -> bool -> M world unit;    (* payload, metadata, aborted *)
  st_url : val -> val -> bool -> M world unit;
  st_health : val -> M world val;
  st_verify : val -> M world val;
  st_validateTrigger : val -> val -> list string;
  st_issues : val -> result (list string)
}.

Definition st_id (s : Strategy) : string := str_of (prop (st_meta s) "id").
Definition st_label (s : Strategy) : string := show (prop (st_meta s) "label").

(** A double quote, inside the messages. *)
Definition quoted (s : string) : string := String "034" (s +:+ String "034" EmptyString).

(** ** BaseOutput *)
Definition PROJECT_PUBLIC_ROOT : string := "/app/public/audio".
Definition SRC_PUBLIC_ROOT : string := "/app/src/public/audio".

(** [path.normalize(`${SRC_PUBLIC_ROOT}/${relative}.json`)] *)
Definition sidecar_path (filePath : string) : string :=
  normalize (SRC_PUBLIC_ROOT +:+ "/" +:+ relative CWD PROJECT_PUBLIC_ROOT filePath +:+ ".json").

(** [false] when the sidecar says the file is incompatible. *)
Definition _checkSidecarCompatibility (s : Strategy) (filePath : string) : M world bool :=
  if String.eqb filePath "" || negb (isWithinRoot PROJECT_PUBLIC_ROOT filePath) then ret true else
  let metaPath := sidecar_path filePath in
  if negb (isWithinRoot SRC_PUBLIC_ROOT metaPath) then ret true else
  try_catch
    (fs_access metaPath ;;
     metaContent ← fs_read metaPath;
     sidecar ← lift (json_parse metaContent);
     compatibility ← lift (get sidecar "compatibility");
     ret (negb (seq (prop (prop compatibility (st_id s)) "valid") (VBool false))))
    (fun _ => ret true).

Definition execute (s : Strategy) (payload metadata : val) (aborted : bool) : M world unit :=
  if negb (truthy payload) || negb (is_object payload)
  then throw (Error "BaseOutput.execute() requires payload to be a non-null object") else
  if is_nullish (prop payload "source")
  then throw (Error "BaseOutput.execute() requires payload.source") else
  normalized ← lift (normalizeSource (prop payload "source"));
  let type := prop normalized "type" in
  if negb (existsb (seq type) (arr_of (prop (st_meta s) "supportedSourceTypes")))
  then throw (Error ("Source type " +:+ quoted (show type) +:+ " is not supported by " +:+ st_label s)) else
  let dispatchPayload := setp payload "source" normalized in
  if seq type (VStr "file") then
    let filePath := str_of (prop normalized "filePath") in
    try_catch (fs_access filePath)
      (fun _ => throw (Error ("Audio file not found: " +:+ basename filePath))) ;;
    isCompatible ← _checkSidecarCompatibility s filePath;
    if negb isCompatible then ret tt else st_file s dispatchPayload metadata aborted
  else st_url s dispatchPayload metadata aborted.

Definition sensitive_keys (params : val) : list string :=
  (fun p => str_of (prop p "key")) <$> filter (fun p => truthy (prop p "sensitive") = true) (arr_of params).

Definition getSecretRequirementKeys (s : Strategy) : list string :=
  sensitive_keys (prop (st_meta s) "params").

Definition validateAsset (s : Strategy) (metadata : val) : M world val :=
  issues ← lift (st_issues s metadata);
  lastChecked ← gets isoNow;
  ret (VObj [("valid", VBool (match issues with [] => true | _ => false end));
             ("lastChecked", lastChecked); ("issues", VArr (VStr <$> issues))]).

Definition health_status (healthy : bool) (message : string) : val :=
  VObj [("healthy", VBool healthy); ("message", VStr message)].

(** ** BrowserOutput *)
Definition Browser_getMetadata : val := VObj
  [("id", VStr "browser"); ("label", VStr "Browser (SSE)");
   ("supportedSourceTypes", VArr [VStr "file"; VStr "url"]); ("timeoutMs", VInt 1000);
   ("hidden", VBool true); ("params", VArr [])].

Definition _broadcastUrl (payload metadata : val) (aborted : bool) : M world unit :=
  broadcast (VObj [("type", VStr "AUDIO_PLAY");
    ("payload", VObj [("prayer", prop payload "prayer"); ("event", prop payload "event");
                      ("url", prop (prop payload "source") "url")])]).

Definition BrowserOutput : Strategy := MkStrategy Browser_getMetadata _broadcastUrl _broadcastUrl
  (fun _ => ret (health_status true "Ready")) (fun _ => ret (VObj [("success", VBool true)]))
  (fun _ _ => []) (fun _ => Ok []).

Section host.
Context `{H : Host}.

(** ** LocalOutput *)
Definition ALLOWED_AUDIO_PLAYERS : list string := ["mpg123"; "omxplayer"; "aplay"; "mplayer"; "cvlc"].

Definition Local_getMetadata : val := VObj
  [("id", VStr "local"); ("label", VStr "Local Audio");
   ("supportedSourceTypes", VArr [VStr "file"; VStr "url"]); ("timeoutMs", VInt 30000);
   ("defaultLeadTimeMs", VInt 0); ("hidden", VBool false);
   ("params", VArr [VObj
     [("key", VStr "audioPlayer"); ("type", VStr "select"); ("label", VStr "Audio Player");
      ("default", VStr "mpg123"); ("options", VArr (VStr <$> ALLOWED_AUDIO_PLAYERS));
      ("sensitive", VBool false); ("requiredForHealth", VBool true);
      ("subtext", VStr "Only change this if you know what you're doing")]])].

Definition content_text (c : content) : string := match c with Text s => s | _ => "" end.

Definition _isWSL : M world bool :=
  if negb host_linux then ret false else
  try_catch (version ← fs_read "/proc/version";
             ret (includes "microsoft" (to_lower (content_text version)) ||
                  includes "wsl" (to_lower (content_text version))))
            (fun _ => ret false).

Definition allowed_player (v : val) : bool :=
  match v with VStr p => existsb (String.eqb p) ALLOWED_AUDIO_PLAYERS | _ => false end.

Definition play_text (player source : string) : string := "PLAY " +:+ player +:+ " " +:+ source.

(** [player.play(...)]: the process is started, whether or not it is killed. *)
Definition play (player source : string) (options : list string) (aborted : bool) : M world unit :=
  fun w => (if aborted then Throw (Error "Playback aborted")
            else host_play (w_net w) player source options,
            set_net (play_text player source :: w_net w) w).

Definition _playAudio (audioSource : string) (payload : val) (aborted : bool) : M world unit :=
  let audioPlayer := js_or (prop (prop payload "params") "audioPlayer") (VStr "mpg123") in
  if negb (allowed_player audioPlayer) then throw (Error "Invalid audio player") else
  isWsl ← _isWSL;
  play (str_of audioPlayer) audioSource
    (if isWsl && String.eqb (str_of audioPlayer) "mpg123" then ["-o"; "pulse"] else []) aborted.

Definition Local_executeFromFile (payload metadata : val) (aborted : bool) : M world unit :=
  _playAudio (str_of (prop (prop payload "source") "filePath")) payload aborted.
Definition Local_executeFromUrl (payload metadata : val) (aborted : bool) : M world unit :=
  _playAudio (str_of (prop (prop payload "source") "url")) payload aborted.

Definition accessible (p : string) (w : world) : bool := is_ok (fs_access p w).1.

Definition is_docker (w : world) : bool :=
  accessible "/.dockerenv" w ||
  match (fs_read "/proc/1/cgroup" w).1 with
  | Ok cgroup => includes "docker" (content_text cgroup)
  | Throw _ => false
  end.

Definition Local_healthCheck (requestedParams : val) : M world val :=
  config ← config_get;
  let audioPlayer := js_or (prop requestedParams "audioPlayer")
    (js_or (prop (prop (output_config config "local") "params") "audioPlayer") (VStr "mpg123")) in
  if negb (allowed_player audioPlayer) then ret (health_status false "Invalid Audio Player") else
  match host_exec (str_of audioPlayer) with
  | Throw _ => ret (health_status false (str_of audioPlayer +:+ " Not Found"))
  | Ok _ =>
      isWsl ← _isWSL;
      w ← getw;
      if host_linux && negb isWsl && negb (accessible "/dev/snd" w)
      then ret (health_status false (if is_docker w then "Docker: No Audio HW" else "No Audio Device"))
      else ret (health_status true "Ready")
  end.

Definition LocalOutput : Strategy := MkStrategy Local_getMetadata
  Local_executeFromFile Local_executeFromUrl Local_healthCheck
  (fun _ => ret (VObj [("success", VBool true)])) (fun _ _ => []) (fun _ => Ok []).

(** ** VoiceMonkeyOutput *)
Definition ANNOUNCEMENT_URL : string := "https://api-v2.voicemonkey.io/announcement".

Definition VoiceMonkey_getMetadata : val := VObj
  [("id", VStr "voicemonkey"); ("label", VStr "VoiceMonkey (Alexa)"); ("timeoutMs", VInt 10000);
   ("defaultLeadTimeMs", VInt 2000); ("hidden", VBool false);
   ("supportedSourceTypes", VArr [VStr "file"; VStr "url"]);
   ("params", VArr
     [VObj [("key", VStr "token"); ("type", VStr "string"); ("label", VStr "API Token");
            ("sensitive", VBool true); ("requiredForHealth", VBool true)];
      VObj [("key", VStr "device"); ("type", VStr "string"); ("label", VStr "Device ID");
            ("sensitive", VBool true); ("requiredForHealth", VBool false)]])].

(** The text under which a request is logged. *)
Definition request_text (url : string) (params : val) : string :=
  url +:+ "?" +:+ join "&" ((fun kv => kv.1 +:+ "=" +:+ show kv.2) <$> props params).

Definition axios_get (url : string) (params : val) : M world val :=
  fun w => (host_get (w_net w) url params, set_net (request_text url params :: w_net w) w).

(** [x && x.startsWith("https://")] *)
Definition is_https (v : val) : result bool :=
  if negb (truthy v) then Ok false else
  match v with
  | VStr s => Ok (starts_with "https://" s)
  | _ => Throw (TypeError "baseUrl.startsWith is not a function")
  end.

(** The result is [None] when the requirements are not met. *)
Definition _resolvePublicUrl (sourceUrl : string) (payload : val) : M world (option string) :=
  if starts_with "https://" sourceUrl then ret (Some sourceUrl) else
  if starts_with "http://" sourceUrl then ret None else
  config ← config_get;
  let baseUrl := js_or (prop payload "baseUrl") (prop (prop config "automation") "baseUrl") in
  https ← lift (is_https baseUrl);
  ret (if (https : bool) then Some (str_of baseUrl +:+ sourceUrl) else None).

Definition vm_param (payload config : val) (key : string) : val :=
  js_or (prop (prop payload "params") key)
        (prop (prop (output_config config "voicemonkey") "params") key).

Definition announcement (token device : val) (audioUrl : string) : val :=
  VObj [("token", token); ("device", device); ("audio", VStr audioUrl)].

Definition _sendToApi (audioUrl : string) (payload : val) (aborted : bool) : M world unit :=
  config ← config_get;
  let token := vm_param payload config "token" in
  let device := vm_param payload config "device" in
  if negb (truthy token) || negb (truthy device) then ret tt else
  try_catch
    (_ ← axios_get ANNOUNCEMENT_URL (announcement token device audioUrl);
     if aborted then throw (JsErr "CanceledError" "canceled" "ERR_CANCELED" false) else ret tt)
    (fun error => if String.eqb (e_name error) "CanceledError" || String.eqb (e_name error) "AbortError"
                  then ret tt else throw error).

Definition VoiceMonkey_executeFromFile (payload metadata : val) (aborted : bool) : M world unit :=
  audioUrl ← _resolvePublicUrl (str_of (prop (prop payload "source") "url")) payload;
  match audioUrl with
  | None => ret tt
  | Some u => _sendToApi u payload aborted
  end.

Definition VoiceMonkey_executeFromUrl (payload metadata : val) (aborted : bool) : M world unit :=
  let audioUrl := str_of (prop (prop payload "source") "url") in
  if negb (starts_with "https://" audioUrl)
  then throw (Error "Alexa requires HTTPS audio URLs")
  else _sendToApi audioUrl payload aborted.

Definition or_text (v : val) (d : string) : string := if truthy v then show v else d.

(** A test announcement: its error message, or nothing on success. *)
Definition test_announcement (token device : val) (failure : string) : M world unit :=
  data ← axios_get ANNOUNCEMENT_URL
           (VObj [("token", token); ("device", device); ("text", VStr "Test")]);
  if seq (prop data "success") (VBool true) then ret tt
  else throw (Error (or_text (prop data "error") failure)).

Definition message_or (e : jserr) (d : string) : string :=
  if String.eqb (e_msg e) "" then d else e_msg e.

Definition VoiceMonkey_healthCheck (requestedParams : val) : M world val :=
  config ← config_get;
  let token := vm_param (VObj [("params", requestedParams)]) config "token" in
  https ← lift (is_https (prop (prop config "automation") "baseUrl"));
  if negb https then ret (health_status false "Offline: HTTPS Base URL required") else
  if negb (truthy token) then ret (health_status false "Token Missing") else
  now ← gets w_clock;
  try_catch
    (test_announcement token (VStr ("azan_check_" +:+ show_Z now)) "API Failure" ;;
     ret (health_status true "Online"))
    (fun e => ret (health_status false (message_or e "Error"))).

Definition VoiceMonkey_verifyCredentials (credentials : val) : M world val :=
  let token := prop credentials "token" in
  let device := prop credentials "device" in
  if negb (truthy token) || negb (truthy device) then throw (Error "Missing token or device") else
  try_catch
    (test_announcement token device "Verification Failed" ;; ret (VObj [("success", VBool true)]))
    (fun e => throw (Error (message_or e "Verification Failed"))).

(** [audioFiles.find(...)] *)
Definition trigger_file (trigger context f : val) : bool :=
  (seq (prop trigger "type") (VStr "file") && seq (prop f "path") (prop trigger "path")) ||
  (seq (prop trigger "type") (VStr "tts") &&
   seq (prop f "name") (VStr ("tts_" +:+ show (prop context "prayer") +:+ "_" +:+
                              show (prop context "triggerType") +:+ ".mp3"))).

Definition VoiceMonkey_validateTrigger (trigger context : val) : list string :=
  match find (trigger_file trigger context) (arr_of (prop context "audioFiles")) with
  | None => []
  | Some file =>
      let vm := prop (prop file "compatibility") "voicemonkey" in
      if seq (prop vm "valid") (VBool false) then
        let issues := if truthy (prop vm "issues") then show <$> arr_of (prop vm "issues")
                      else ["Unknown issues"] in
        [show (prop context "niceName") +:+ ": Audio incompatible with Alexa (" +:+
         join ", " issues +:+ ")"]
      else []
  end.

(** [x.toFixed(2)], rounding half up as it does on a rational. *)
Definition to_fixed2 (q : Q) : string :=
  let n := Qfloor (Qabs q * 100 + (1 # 2)) in
  (if Qle_bool 0 q then "" else "-") +:+ show_Z (n / 100) +:+ "." +:+
  show_Z (n / 10 mod 10) +:+ show_Z (n mod 10).

Definition allowedMimeTypes : list string :=
  ["audio/mpeg"; "audio/wav"; "audio/ogg"; "audio/opus"; "audio/aac"].

(** The container and codec names that are accepted without a MIME type. *)
Definition alexa_format (format codec : string) : bool :=
  (includes "mp3" format || includes "mp3" codec ||
   (String.eqb format "mpeg" && includes "3" codec)) ||
  includes "wav" format ||
  (includes "ogg" format || includes "vorbis" codec || includes "opus" codec) ||
  (includes "aac" format || includes "adts" format || includes "aac" codec).

(** [(x || "").toLowerCase()], for a name the metadata reader gives as text. *)
Definition lower_of (v : val) : string := to_lower (str_of v).

Definition format_issue (m : val) : list string :=
  let mime := prop m "mimeType" in
  if truthy mime then
    if existsb (fun a => seq mime (VStr a)) allowedMimeTypes then []
    else ["Unsupported format: " +:+ show (prop m "format") +:+ " / " +:+ show (prop m "codec") +:+
          " (" +:+ show mime +:+ "). Alexa requires MP3, AAC, OGG, OPUS or WAV."]
  else if alexa_format (lower_of (prop m "format")) (lower_of (prop m "codec")) then []
  else ["Unsupported format: " +:+ show (prop m "format") +:+ " / " +:+ show (prop m "codec") +:+
        ". Alexa requires MP3, AAC, OGG, OPUS or WAV."].

(** [if (v) { const x = v / unit; if (x > limit) issues.push(msg(x)); }] *)
Definition limit_issue (v : val) (unit limit : Q) (msg : Q -> string) : list string :=
  if truthy v then
    match to_number v with
    | NFin q => if negb (Qle_bool (q / unit) limit) then [msg (q / unit)%Q] else []
    | _ => []
    end
  else [].

Definition duration_issue (v : val) : result (list string) :=
  if truthy v then
    match to_number v with
    | NFin q =>
        if negb (Qle_bool q 240) then
          if is_number v then Ok ["Duration too long: " +:+ to_fixed2 q +:+ "s (Max 240s)"]
          else Throw (TypeError "metadata.duration.toFixed is not a function")
        else Ok []
    | _ => Ok []
    end
  else Ok [].

Definition _getValidationIssues (m : val) : result (list string) :=
  duration ← duration_issue (prop m "duration");
  Ok (format_issue m ++
      limit_issue (prop m "bitrate") 1000 (14112 # 10)
        (fun q => "Bitrate too high: " +:+ to_fixed2 q +:+ " kbps (Max 1411.2 kbps)") ++
      limit_issue (prop m "sampleRate") 1000 48
        (fun q => "Sample rate too high: " +:+ to_fixed2 q +:+ " kHz (Max 48 kHz)") ++
      limit_issue (prop m "size") 1048576 10
        (fun q => "File size too large: " +:+ to_fixed2 q +:+ " MB (Max 10 MB)") ++
      duration).

Definition VoiceMonkeyOutput : Strategy := MkStrategy VoiceMonkey_getMetadata
  VoiceMonkey_executeFromFile VoiceMonkey_executeFromUrl VoiceMonkey_healthCheck
  VoiceMonkey_verifyCredentials VoiceMonkey_validateTrigger _getValidationIssues.

(** ** OutputFactory *)

(** [register]: a strategy needs an id; one of the same id is replaced. *)
Definition register (strategies : list Strategy) (s : Strategy) : result (list Strategy) :=
  if negb (truthy (st_meta s)) || negb (truthy (prop (st_meta s) "id"))
  then Throw (Error "Strategy must have valid metadata with an ID")
  else Ok (if existsb (fun t => String.eqb (st_id t) (st_id s)) strategies
           then (fun t => if String.eqb (st_id t) (st_id s) then s else t) <$> strategies
           else strategies ++ [s]).

(** The strategies registered at start-up ([src/outputs/index.js]). *)
Definition strategies : list Strategy := [LocalOutput; VoiceMonkeyOutput; BrowserOutput].

Definition getStrategy (id : string) : result Strategy :=
  match find (fun s => String.eqb (st_id s) id) strategies with
  | Some s => Ok s
  | None => Throw (Error ("Strategy '" +:+ id +:+ "' not found"))
  end.

Definition getAllStrategies : list val := st_meta <$> strategies.

(** [{ strategyId, key }] of every sensitive parameter *)
Definition getSecretRequirements : list (string * string) :=
  mjoin ((fun s => (fun k => (st_id s, k)) <$> getSecretRequirementKeys s) <$> strategies).
End host.

(** ** Lemmas *)
Definition supported (s : Strategy) (nrm : val) : bool :=
  existsb (seq (prop nrm "type")) (arr_of (prop (st_meta s) "supportedSourceTypes")).

Lemma fs_access_same p w : (fs_access p w).2 = w.
Proof. unfold fs_access. by case_match. Qed.

Lemma fs_read_same p w : (fs_read p w).2 = w.
Proof. unfold fs_read. by case_match. Qed.

(** The sidecar is only read, and never makes an execution fail. *)
Lemma sidecar_pure s p w : exists b, _checkSidecarCompatibility s p w = (Ok b, w).
Proof.
  unfold _checkSidecarCompatibility. case_match; [eexists; reflexivity|]. cbv zeta.
  case_match; [eexists; reflexivity|]. munfold. unfold fs_access, fs_read.
  destruct (files w !! sidecar_path p) as [[c ?]|] eqn:E; cbn; [|eexists; reflexivity].
  rewrite E. cbn. destruct (json_parse c) as [v|]; [|eexists; reflexivity].
  destruct (get v "compatibility"); eexists; reflexivity.
Qed.

(** The hook that a kind of source is dispatched to *)
Definition hook (s : Strategy) (nrm : val) : val -> val -> bool -> M world unit :=
  if seq (prop nrm "type") (VStr "file") then st_file s else st_url s.

(** The source [nrm] may be dispatched: for a file, it exists and its sidecar
    does not mark it incompatible with the strategy. *)
Definition playable (s : Strategy) (nrm : val) (w : world) : Prop :=
  supported s nrm = true /\
  (seq (prop nrm "type") (VStr "file") = true ->
   accessible (str_of (prop nrm "filePath")) w = true /\
   (_checkSidecarCompatibility s (str_of (prop nrm "filePath")) w).1 = Ok true).

Lemma execute_runs s payload metadata aborted w nrm :
  is_object payload = true -> is_nullish (prop payload "source") = false ->
  normalizeSource (prop payload "source") = Ok nrm -> playable s nrm w ->
  execute s payload metadata aborted w
  = hook s nrm (setp payload "source" nrm) metadata aborted w.
Proof.
  intros Ho Hs Hn [Hsup Hf]. unfold execute. rewrite Ho, Hs.
  replace (truthy payload) with true by (by destruct payload). cbn [negb orb].
  erewrite M_bind_ok by (by unfold lift; rewrite Hn). cbv zeta.
  unfold supported in Hsup. rewrite Hsup. cbn [negb]. unfold hook.
  destruct (seq (prop nrm "type") (VStr "file")); [|done]. destruct (Hf eq_refl) as [Ha Hc].
  erewrite M_bind_ok; [|].
  2:{ unfold try_catch. unfold accessible, fs_access in *. case_match; done. }
  destruct (sidecar_pure s (str_of (prop nrm "filePath")) w) as [b Hb].
  rewrite Hb in Hc. cbn in Hc. simplify_eq. by erewrite M_bind_ok by done.
Qed.

(** An execution dispatches an admissible source, or changes nothing. *)
Lemma execute_cases s payload metadata aborted w :
  (exists nrm, normalizeSource (prop payload "source") = Ok nrm /\ playable s nrm w /\
     execute s payload metadata aborted w
     = hook s nrm (setp payload "source" nrm) metadata aborted w) \/
  (execute s payload metadata aborted w).2 = w.
Proof.
  destruct (is_object payload) eqn:Ho.
  2:{ right. unfold execute. rewrite Ho. by rewrite orb_true_r. }
  destruct (is_nullish (prop payload "source")) eqn:Hs.
  { right. unfold execute. rewrite Hs. by destruct (_ || _). }
  destruct (normalizeSource (prop payload "source")) as [nrm|e] eqn:Hn.
  2:{ right. unfold execute. rewrite Hs. destruct (negb (truthy payload) || _); [done|]. erewrite M_bind_throw; [done|].
      unfold lift. by rewrite Hn. }
  destruct (supported s nrm) eqn:Hsup.
  2:{ right. unfold execute. rewrite Hs. destruct (negb (truthy payload) || _); [done|].
      erewrite M_bind_ok by (by unfold lift; rewrite Hn). cbv zeta.
      unfold supported in Hsup. by rewrite Hsup. }
  destruct (seq (prop nrm "type") (VStr "file")) eqn:Ht.
  2:{ left. exists nrm. assert (playable s nrm w) as Hp by (split; [done|by rewrite Ht]).
      split_and!; [done..|]. by apply execute_runs. }
  destruct (sidecar_pure s (str_of (prop nrm "filePath")) w) as [b Hb].
  destruct (accessible (str_of (prop nrm "filePath")) w && b) eqn:E.
  - apply andb_true_iff in E as [Ha ->]. left. exists nrm.
    assert (playable s nrm w) as Hp by (split; [done|]; by rewrite Hb).
    split_and!; [done..|]. by apply execute_runs.
  - right. unfold execute. rewrite Hs. destruct (negb (truthy payload) || _); [done|].
    erewrite M_bind_ok by (by unfold lift; rewrite Hn). cbv zeta.
    unfold supported in Hsup. rewrite Hsup, Ht. cbn [negb].
    unfold accessible, fs_access in E. munfold. unfold fs_access.
    destruct (files w !! _); cbn in *; [|done]. rewrite Hb. cbn. by rewrite E.
Qed.

Lemma dispatched_source payload nrm k :
  normalizeSource (prop payload "source") = Ok nrm ->
  prop (prop (setp payload "source" nrm) "source") k = prop nrm k.
Proof.
  intros Hn. assert (is_object payload = true /\ is_array payload = false) as [Ho Ha]
    by (by destruct payload).
  by rewrite prop_setp.
Qed.

Section hosted.
Context `{H : Host}.

Lemma isWSL_pure w : exists b, _isWSL w = (Ok b, w).
Proof.
  unfold _isWSL. case_match; [eexists; reflexivity|]. munfold. unfold fs_read.
  destruct (files w !! "/proc/version") as [f|] eqn:E; eexists; reflexivity.
Qed.

(** Playing starts an allowed player on the given source, or nothing. *)
Lemma playAudio_log src payload aborted w :
  let w' := (_playAudio src payload aborted w).2 in
  w_net w' = w_net w \/
  exists p, p ∈ ALLOWED_AUDIO_PLAYERS /\ w_net w' = play_text p src :: w_net w.
Proof.
  cbv zeta. unfold _playAudio. cbv zeta. set (pl := js_or _ (VStr "mpg123")).
  destruct (allowed_player pl) eqn:E; cbn [negb]; [|by left].
  destruct (isWSL_pure w) as [b Hb]. erewrite M_bind_ok by done. right.
  destruct pl as [| | | |p| |]; try done. exists p. split; [|done].
  unfold allowed_player in E. apply existsb_exists in E as (x & Hx & ->%String.eqb_eq).
  by apply list_elem_of_In.
Qed.

(** An announcement is sent with a token and a device, or not at all. *)
Lemma sendToApi_log url payload aborted w :
  let w' := (_sendToApi url payload aborted w).2 in
  w_net w' = w_net w \/
  exists token device, truthy token = true /\ truthy device = true /\
    w_net w' = request_text ANNOUNCEMENT_URL (announcement token device url) :: w_net w.
Proof.
  cbv zeta. unfold _sendToApi, config_get. munfold.
  destruct (truthy (c_config (w_cfg w))); [|by left]. cbv zeta.
  destruct (truthy (vm_param _ _ "token")) eqn:Et; [|by left].
  destruct (truthy (vm_param _ _ "device")) eqn:Ed; [|by left]. cbn [negb orb].
  right. do 2 eexists. split_and!; [exact Et|exact Ed|]. unfold axios_get.
  destruct (host_get _ _ _) as [d|e]; [destruct aborted|]; cbn; [done..|].
  by case_match.
Qed.

Lemma resolvePublicUrl_https url payload w u :
  (_resolvePublicUrl url payload w).1 = Ok (Some u) -> starts_with "https://" u = true.
Proof.
  unfold _resolvePublicUrl. destruct (starts_with "https://" url) eqn:E; [by intros [= <-]|].
  case_match; [done|]. unfold config_get. munfold.
  destruct (truthy (c_config (w_cfg w))); [|done]. cbv zeta. cbn.
  set (b := js_or _ _). unfold is_https. destruct (truthy b); cbn; [|done].
  destruct b as [| | | |s| |]; cbn; try done.
  destruct (starts_with "https://" s) eqn:Es; [|done]. intros [= <-].
  apply starts_with_inv in Es as [r ->]. rewrite <- str_app_assoc. apply starts_with_app.
Qed.

Lemma resolvePublicUrl_pure url payload w : (_resolvePublicUrl url payload w).2 = w.
Proof.
  unfold _resolvePublicUrl, config_get. do 2 (case_match; [done|]). munfold.
  destruct (truthy (c_config (w_cfg w))); [|done]. cbn. by destruct (is_https _).
Qed.

Definition local_source (src : string) : Prop := below_root src \/ is_http src = true.

End hosted.

(** ** Assets for Alexa *)

(** A number of the metadata, when there is one, is at most [limit]. *)
Definition number_or_missing (v : val) : Prop := v = VUndef \/ exists q, v = VNum q.
Definition at_most (limit : Q) (v : val) : Prop := (num_of v <= limit)%Q.

Definition alexa_accepts_format (m : val) : bool :=
  if truthy (prop m "mimeType")
  then existsb (fun a => seq (prop m "mimeType") (VStr a)) allowedMimeTypes
  else alexa_format (lower_of (prop m "format")) (lower_of (prop m "codec")).

Lemma format_issue_nil m : format_issue m = [] <-> alexa_accepts_format m = true.
Proof. unfold format_issue, alexa_accepts_format. by repeat case_match. Qed.

Lemma limit_issue_nil v unit limit top msg :
  number_or_missing v -> (0 < unit)%Q -> (0 <= top)%Q -> (limit * unit == top)%Q ->
  limit_issue v unit limit msg = [] <-> at_most top v.
Proof.
  intros Hv Hu H0 Hl. unfold limit_issue, at_most. rewrite <- Hl in *.
  destruct Hv as [->|[q ->]]; cbn [truthy to_number num_of negb]; [done|].
  destruct (Qeq_bool q 0) eqn:E; cbn [negb].
  - apply Qeq_bool_iff in E. by rewrite E.
  - assert ((q / unit <= limit)%Q <-> (q <= limit * unit)%Q) as Hd.
    { assert (~ unit == 0)%Q as Hz by (intros Hz; rewrite Hz in Hu; by apply Qlt_irrefl in Hu).
      split; intros Hq; [|by apply Qle_shift_div_r].
      rewrite <- (Qmult_div_r q unit Hz), Qmult_comm. by apply Qmult_le_compat_r, Qlt_le_weak. }
    rewrite <- Hd, <- Qle_bool_iff. by destruct (Qle_bool _ _).
Qed.

Lemma duration_issue_nil v :
  number_or_missing v -> exists l, duration_issue v = Ok l /\ (l = [] <-> at_most 240 v).
Proof.
  intros [->|[q ->]]; unfold duration_issue, at_most; cbn; [by exists []|].
  destruct (Qeq_bool q 0) eqn:E; cbn [negb].
  - exists []. apply Qeq_bool_iff in E. by rewrite E.
  - destruct (Qle_bool q 240) eqn:E2; eexists; (split; [reflexivity|]);
      rewrite <- Qle_bool_iff, E2; by split.
Qed.

(** What Alexa accepts.  For metadata whose figures are numbers or missing,
    the validation completes, and an asset is recorded as valid exactly when
    its format is one of MP3, WAV, OGG, OPUS and AAC, its bit rate at most
    1411.2 kbps, its sample rate at most 48 kHz, its size at most 10 MiB and
    its duration at most 240 seconds. *)
Theorem validateAsset_alexa {host : Host} m w :
  number_or_missing (prop m "bitrate") -> number_or_missing (prop m "sampleRate") ->
  number_or_missing (prop m "size") -> number_or_missing (prop m "duration") ->
  exists verdict, validateAsset VoiceMonkeyOutput m w = (Ok verdict, w) /\
    (prop verdict "valid" = VBool true <->
     alexa_accepts_format m = true /\ at_most 1411200 (prop m "bitrate") /\
     at_most 48000 (prop m "sampleRate") /\ at_most 10485760 (prop m "size") /\
     at_most 240 (prop m "duration")).
Proof.
  intros Hb Hr Hs Hd. destruct (duration_issue_nil _ Hd) as (l & Hl & Hd').
  unfold validateAsset.
  change (st_issues VoiceMonkeyOutput m) with (_getValidationIssues m). unfold lift, gets, mbind, M_bind, ret.
  unfold _getValidationIssues. rewrite Hl. cbn [mbind result_bind].
  eexists. split; [reflexivity|]. rewrite <- format_issue_nil.
  cbn [prop oget]. set (issues := format_issue m ++ _). trans (issues = []); [by destruct issues|].
  unfold issues. rewrite !app_nil.
  rewrite (limit_issue_nil _ _ _ 1411200), (limit_issue_nil _ _ _ 48000),
    (limit_issue_nil _ _ _ 10485760), Hd' by done.
  done.
Qed.

(** A host with a player and an API that accepts everything *)
Definition quiet_host : Host := {|
  host_linux := true; host_exec := fun _ => Ok tt; host_play := fun _ _ _ _ => Ok tt;
  host_get := fun _ _ _ => Ok (VObj [("success", VBool true)]) |}.

Lemma validateAsset_alexa_witness :
  exists verdict, validateAsset (VoiceMonkeyOutput (H := quiet_host))
    (VObj [("mimeType", VStr "audio/mpeg"); ("bitrate", VInt 128000);
           ("size", VInt 204800); ("duration", VInt 241)]) empty_world = (Ok verdict, empty_world) /\
    prop verdict "valid" <> VBool true.
Proof.
  destruct (validateAsset_alexa (host := quiet_host)
    (VObj [("mimeType", VStr "audio/mpeg"); ("bitrate", VInt 128000);
           ("size", VInt 204800); ("duration", VInt 241)]) empty_world) as (v & Hv & Hiff).
  - right. by eexists.
  - by left.
  - right. by eexists.
  - right. by eexists.
  - exists v. split; [done|]. intros (_ & _ & _ & _ & Hd)%Hiff. by apply Hd.
Defined.
