(* ===== verification/Migration.v ===== *)
(** * Configuration migrations ([src/services/system/migrationService.js])

    A configuration written by an older release is brought, one version at a
    time, to the current one; secrets found in the environment are moved into
    it.  The source works on a fresh clone and mutates it; here each step
    returns the new tree.  What the service is told of the output strategies
    at start-up is the interface [OutputRegistry]. *)
From S2P Require Import Prelude JsString JsValue World Providers.

(** The resolvers injected by the server: the metadata of a strategy, and the
    sensitive parameters [{ strategyId, key }] of all of them. *)
Class OutputRegistry := {
  strategy_metadata : string -> result val;
  secret_requirements : list (string * string)
}.

(** The keys of the sensitive entries of a [params] or [parameters] list *)
Definition sensitive_of (params : val) : list string :=
  (fun p => str_of (prop p "key")) <$> filter (fun p => truthy (prop p "sensitive") = true)
    (arr_of params).

(** ** The steps *)
Definition legacy_output (legacy : val) : val :=
  VObj [("enabled", VBool (truthy (prop legacy "enabled"))); ("leadTimeMs", VInt 0);
        ("params", VObj [("token", prop legacy "token"); ("device", prop legacy "device")])].

Definition migrate_voiceMonkey (automation : val) : result val :=
  let legacy := prop automation "voiceMonkey" in
  if truthy legacy then
    automation ← put_in automation "outputs" (fun o => put o "voicemonkey" (legacy_output legacy));
    Ok (delp automation "voiceMonkey")
  else Ok automation.

Definition migrateV1toV2 (config : val) : result val :=
  v2Config ← ensure "automation" (VObj []) (setp (spread config) "version" (VInt 2));
  put_in v2Config "automation" (fun automation =>
    automation ← ensure "outputs" (VObj []) automation;
    migrate_voiceMonkey automation).

(** [primary.k = calculation.k] for the four fields, in order *)
Definition calculation_fields : list string :=
  ["method"; "madhab"; "latitudeAdjustmentMethod"; "midnightMode"].

Definition move_calculation (calculation primary : val) : result val :=
  if seq (prop primary "type") (VStr "aladhan")
  then fold_result (fun p k => put p k (prop calculation k)) primary calculation_fields
  else Ok primary.

Definition migrateV2toV3 (config : val) : result val :=
  let v3Config := setp (spread config) "version" (VInt 3) in
  if truthy (prop v3Config "calculation") && truthy (prop v3Config "sources") &&
     truthy (prop (prop v3Config "sources") "primary")
  then
    v3Config ← put_in v3Config "sources" (fun sources =>
      put_in sources "primary" (move_calculation (prop v3Config "calculation")));
    Ok (delp v3Config "calculation")
  else Ok v3Config.

Definition health_defaults : val := VObj [("api", VBool true); ("tts", VBool true)].

Definition migrateV3toV4 (config : val) : result val :=
  let v4Config := setp (spread config) "version" (VInt 4) in
  if negb (truthy (prop v4Config "system"))
  then put v4Config "system" (VObj [("healthChecks", health_defaults)])
  else if negb (truthy (prop (prop v4Config "system") "healthChecks"))
  then put_in v4Config "system" (fun system => put system "healthChecks" health_defaults)
  else Ok v4Config.

Definition migrateV4toV5 (config : val) : result val :=
  let v5Config := setp (spread config) "version" (VInt 5) in
  if negb (truthy (prop v5Config "security"))
  then put v5Config "security" (VObj [("tokenVersion", VInt 1)])
  else if is_undef (prop (prop v5Config "security") "tokenVersion")
  then put_in v5Config "security" (fun security => put security "tokenVersion" (VInt 1))
  else Ok v5Config.

(** [if (config.version === n) config = step(config)] *)
Definition at_version (n : Z) (step : val -> result val) (config : val) : result val :=
  if seq (prop config "version") (VInt n) then step config else Ok config.

Definition migrateConfig (config : val) : result val :=
  let newConfig := json_clone config in
  version ← get newConfig "version";
  newConfig ← (if negb (truthy version) || seq version (VInt 1)
               then migrateV1toV2 newConfig else Ok newConfig);
  newConfig ← at_version 2 migrateV2toV3 newConfig;
  newConfig ← at_version 3 migrateV3toV4 newConfig;
  at_version 4 migrateV4toV5 newConfig.

(** ** Secrets of the environment *)
Record env_migration := EnvMigration {
  em_config : val;
  em_changed : bool;
  em_keys : list string
}.

(** [`${strategyId.toUpperCase()}_${key.toUpperCase()}`] *)
Definition env_key (strategyId key : string) : string :=
  to_upper strategyId +:+ "_" +:+ to_upper key.

Definition new_output : val := VObj [("enabled", VBool false); ("params", VObj [])].

(** The missing containers on the way to [outputs[strategyId].params], with [f]
    applied to the parameters. *)
Definition in_params (strategyId : string) (fresh : val) (f : val -> result val) (config : val)
    : result val :=
  config ← ensure "automation" (VObj []) config;
  put_in config "automation" (fun automation =>
    automation ← ensure "outputs" (VObj []) automation;
    put_in automation "outputs" (fun outputs =>
      outputs ← ensure strategyId fresh outputs;
      put_in outputs strategyId (fun output =>
        output ← ensure "params" (VObj []) output;
        put_in output "params" f))).

Definition params_of (config : val) (strategyId : string) : val :=
  prop (prop (prop (prop config "automation") "outputs") strategyId) "params".

Definition migrate_output_secret (env : gmap string string) (acc : env_migration)
    (req : string * string) : result env_migration :=
  let '(strategyId, key) := req in
  let envKey := env_key strategyId key in
  match env !! envKey with
  | Some envValue =>
      if String.eqb envValue "" then Ok acc else
      config ← in_params strategyId new_output Ok (em_config acc);
      if truthy (prop (params_of config strategyId) key)
      then Ok (EnvMigration config (em_changed acc) (em_keys acc))
      else
        config ← in_params strategyId new_output (fun p => put p key (VStr envValue)) config;
        Ok (EnvMigration config true (em_keys acc ++ [envKey]))
  | None => Ok acc
  end.

Definition source_of (config : val) (role : string) : val := prop (prop config "sources") role.

(** One role of one sensitive key of a provider *)
Definition migrate_source_secret (providerId : val) (sKey envValue : string) (acc : env_migration)
    (role : string) : result env_migration :=
  let envKey := to_upper sKey in
  let source := source_of (em_config acc) role in
  if seq (prop source "type") providerId && negb (truthy (prop source sKey)) then
    config ← put_in (em_config acc) "sources" (fun s =>
      put_in s role (fun source => put source sKey (VStr envValue)));
    Ok (EnvMigration config true
          (if existsb (String.eqb envKey) (em_keys acc) then em_keys acc
           else em_keys acc ++ [envKey]))
  else Ok acc.

Definition migrate_provider_secret (env : gmap string string) (providerId : val)
    (acc : env_migration) (sKey : string) : result env_migration :=
  match env !! to_upper sKey with
  | Some envValue =>
      if String.eqb envValue "" then Ok acc
      else fold_result (migrate_source_secret providerId sKey envValue) acc ["primary"; "backup"]
  | None => Ok acc
  end.

Section env_secrets.
Context `{R : OutputRegistry} `{Loc : Locale}.

Definition migrateEnvSecrets (env : gmap string string) (config : val) : result env_migration :=
  acc ← fold_result (migrate_output_secret env) (EnvMigration config false []) secret_requirements;
  fold_result (fun acc provider =>
    fold_result (migrate_provider_secret env (prop provider "id")) acc
      (sensitive_of (prop provider "parameters"))) acc getRegisteredProviders.
End env_secrets.

(** ** Lemmas *)
Definition plain (v : val) : Prop := exists o, v = VObj o.

(** [c'] has the properties of [c] but for [ks]. *)
Definition same_but (ks : list string) (c c' : val) : Prop :=
  forall k, k ∉ ks -> prop c' k = prop c k.

Lemma same_but_refl ks c : same_but ks c c.
Proof. by intros k. Qed.

Lemma same_but_trans ks a b c : same_but ks a b -> same_but ks b c -> same_but ks a c.
Proof. intros Ha Hb k Hk. by rewrite Hb, Ha. Qed.

Lemma same_but_weaken ks ks' a b : ks ⊆ ks' -> same_but ks a b -> same_but ks' a b.
Proof. intros Hs H k Hk. apply H. set_solver. Qed.

Lemma put_spec v k x v' :
  plain v -> put v k x = Ok v' -> plain v' /\ prop v' k = x /\ same_but [k] v v'.
Proof.
  intros [o ->] [= <-]. split; [by eexists|]. split; [apply oget_oset|].
  intros k' Hk. apply oget_oset_ne. set_solver.
Qed.

Lemma setp_spec v k x : plain v -> plain (setp v k x) /\ prop (setp v k x) k = x /\ same_but [k] v (setp v k x).
Proof. intros H. apply put_spec; [done|]. by destruct H as [o ->]. Qed.

Lemma put_in_spec v k f v' :
  plain v -> put_in v k f = Ok v' ->
  exists x, f (prop v k) = Ok x /\ plain v' /\ prop v' k = x /\ same_but [k] v v'.
Proof.
  intros Hv H. unfold put_in in H. destruct Hv as [o ->]. cbn in H.
  destruct (f (oget k o)) as [x|] eqn:E; [|done]. cbn in H. exists x. split; [done|].
  by apply put_spec; [by eexists|].
Qed.

Lemma ensure_spec k d v v' :
  plain v -> ensure k d v = Ok v' ->
  plain v' /\ prop v' k = js_or (prop v k) d /\ same_but [k] v v'.
Proof.
  intros [o ->] H. cbn in H. unfold js_or. cbn. destruct (truthy (oget k o)).
  - injection H as <-. split; [by eexists|]. split; [done|apply same_but_refl].
  - apply put_spec; [by eexists|done].
Qed.

Lemma delp_spec v k : plain v -> plain (delp v k) /\ same_but [k] v (delp v k).
Proof.
  intros [o ->]. split; [by eexists|]. intros k' Hk. apply oget_odel_ne. set_solver.
Qed.

Lemma spread_plain v : plain (spread v).
Proof. by eexists. Qed.

Lemma spread_id v : plain v -> spread v = v.
Proof. by intros [o ->]. Qed.

(** A step gives a configuration of the next version and touches what it says. *)
Definition step_ok (n : Z) (ks : list string) (c c' : val) : Prop :=
  plain c' /\ prop c' "version" = VInt n /\ same_but ("version" :: ks) c c'.

Lemma stamp_spec n c ks : plain c -> step_ok n ks c (setp (spread c) "version" (VInt n)).
Proof.
  intros Hc. rewrite spread_id by done. destruct (setp_spec c "version" (VInt n) Hc) as (? & ? & Hs).
  split; [done|]. split; [done|]. eapply same_but_weaken; [|done]. set_solver.
Qed.

Lemma step_then n ks c c' c'' :
  step_ok n ks c c' -> "version" ∉ ks -> plain c'' -> same_but ks c' c'' -> step_ok n ks c c''.
Proof.
  intros (H1 & H2 & H3) Hv H4 H5. split; [done|]. split; [by rewrite H5|].
  intros k Hk. rewrite H5 by set_solver. by apply H3.
Qed.

Ltac fresh_keys := solve [set_solver | vm_compute; intros [=] | repeat (apply not_elem_of_cons; split; [done|]); apply not_elem_of_nil].

Lemma migrateV1toV2_ok c c' :
  plain c -> migrateV1toV2 c = Ok c' -> step_ok 2 ["automation"] c c'.
Proof.
  intros Hc H. unfold migrateV1toV2 in H. pose proof (stamp_spec 2 c ["automation"] Hc) as Hs.
  destruct (ensure _ _ _) as [v2|] eqn:E; [|done]. cbn [mbind result_bind] in H.
  destruct (ensure_spec _ _ _ _ (proj1 Hs) E) as (Hp2 & _ & Hs2).
  apply put_in_spec in H as (x & _ & Hp3 & _ & Hs3); [|done].
  eapply (step_then 2); [exact Hs|fresh_keys|done|].
  by eapply same_but_trans.
Qed.

Lemma migrateV2toV3_ok c c' :
  plain c -> migrateV2toV3 c = Ok c' -> step_ok 3 ["sources"; "calculation"] c c'.
Proof.
  intros Hc H. unfold migrateV2toV3 in H.
  pose proof (stamp_spec 3 c ["sources"; "calculation"] Hc) as Hs. cbv zeta in H.
  destruct (_ && _); [|by injection H as <-].
  destruct (put_in _ _ _) as [v3|] eqn:E; [|done]. injection H as <-.
  apply put_in_spec in E as (x & _ & Hp & _ & Hs3); [|apply Hs].
  destruct (delp_spec v3 "calculation" Hp) as [Hp4 Hs4].
  eapply (step_then 3); [done|fresh_keys|done|].
  eapply same_but_trans; (eapply same_but_weaken; [|eassumption]); set_solver.
Qed.

Lemma migrateV3toV4_ok c c' :
  plain c -> migrateV3toV4 c = Ok c' ->
  step_ok 4 ["system"] c c' /\
  (plain (prop c "system") \/ truthy (prop c "system") = false ->
   truthy (prop (prop c' "system") "healthChecks") = true).
Proof.
  intros Hc H. unfold migrateV3toV4 in H. cbv zeta in H.
  pose proof (stamp_spec 4 c ["system"] Hc) as Hs.
  pose proof (proj1 Hs) as Hp.
  assert (prop (setp (spread c) "version" (VInt 4)) "system" = prop c "system") as Hsys
    by (rewrite spread_id by done; by apply prop_setp_ne).
  rewrite Hsys in H. destruct (truthy (prop c "system")) eqn:E; cbn [negb] in H.
  - destruct (truthy (prop (prop c "system") "healthChecks")) eqn:E2; cbn [negb] in H.
    + assert (Hc' : setp (spread c) "version" (VInt 4) = c') by congruence. subst c'.
      rewrite Hsys. by split.
    + apply put_in_spec in H as (x & Hx & Hp2 & Hx2 & Hs2); [|done]. split.
      * by eapply (step_then 4); [exact Hs|fresh_keys|..].
      * rewrite Hx2. rewrite Hsys in Hx. intros [Hpl|]; [|done].
        by apply put_spec in Hx as (_ & -> & _).
  - apply put_spec in H as (Hp2 & Hx2 & Hs2); [|done]. split.
    + by eapply (step_then 4); [exact Hs|fresh_keys|..].
    + intros _. by rewrite Hx2.
Qed.

Lemma migrateV4toV5_ok c c' :
  plain c -> migrateV4toV5 c = Ok c' ->
  step_ok 5 ["security"] c c' /\
  (plain (prop c "security") \/ truthy (prop c "security") = false ->
   prop (prop c' "security") "tokenVersion" <> VUndef).
Proof.
  intros Hc H. unfold migrateV4toV5 in H. cbv zeta in H.
  pose proof (stamp_spec 5 c ["security"] Hc) as Hs.
  pose proof (proj1 Hs) as Hp.
  assert (prop (setp (spread c) "version" (VInt 5)) "security" = prop c "security") as Hsys
    by (rewrite spread_id by done; by apply prop_setp_ne).
  rewrite Hsys in H. destruct (truthy (prop c "security")) eqn:E; cbn [negb] in H.
  - destruct (is_undef (prop (prop c "security") "tokenVersion")) eqn:E2.
    + apply put_in_spec in H as (x & Hx & Hp2 & Hx2 & Hs2); [|done]. split.
      * by eapply (step_then 5); [exact Hs|fresh_keys|..].
      * rewrite Hx2. rewrite Hsys in Hx. intros [Hpl|]; [|done].
        by apply put_spec in Hx as (_ & -> & _).
    + assert (Hc' : setp (spread c) "version" (VInt 5) = c') by congruence. subst c'.
      rewrite Hsys. split; [done|].
      intros _ Hu. by rewrite Hu in E2.
  - apply put_spec in H as (Hp2 & Hx2 & Hs2); [|done]. split.
    + by eapply (step_then 5); [exact Hs|fresh_keys|..].
    + intros _. by rewrite Hx2.
Qed.

(** The rest of the chain, from a version on *)
Definition from_2 (c : val) : result val :=
  c ← at_version 2 migrateV2toV3 c; c ← at_version 3 migrateV3toV4 c;
  at_version 4 migrateV4toV5 c.

Definition migrated_keys : list string :=
  ["version"; "automation"; "sources"; "calculation"; "system"; "security"].

Lemma at_version_hit n f c : prop c "version" = VInt n -> at_version n f c = f c.
Proof.
  intros H. unfold at_version. rewrite H. cbn. unfold Qeq_bool. cbn. by rewrite Z.eqb_refl.
Qed.

Lemma at_version_miss n m f c : prop c "version" = VInt m -> m <> n -> at_version n f c = Ok c.
Proof.
  intros H Hne. unfold at_version. rewrite H. cbn.
  destruct (Qeq_bool (inject_Z m) (inject_Z n)) eqn:E; [|done].
  apply Qeq_bool_iff in E. unfold Qeq in E. cbn in E. lia.
Qed.

Lemma step_weaken n ks ks' c c' : ks ⊆ ks' -> step_ok n ks c c' -> step_ok n ks' c c'.
Proof.
  intros Hs (H1 & H2 & H3). split; [done|]. split; [done|].
  eapply same_but_weaken; [|done]. set_solver.
Qed.

(** From version [m] the chain ends at version 5. *)
Lemma from_2_latest m c c' :
  plain c -> prop c "version" = VInt m -> 2 <= m <= 5 -> from_2 c = Ok c' ->
  prop c' "version" = VInt 5 /\ plain c' /\
  same_but ["version"; "sources"; "calculation"; "system"; "security"] c c'.
Proof.
  intros Hc Hv Hm H. unfold from_2 in H.
  assert (forall k c0 c1 f ks, plain c0 -> prop c0 "version" = VInt k ->
    (forall d d', plain d -> f d = Ok d' -> step_ok (k + 1) ks d d') ->
    at_version k f c0 = Ok c1 -> step_ok (k + 1) ks c0 c1) as Hstep.
  { intros k c0 c1 f ks Hp Hk Hf Ha. rewrite at_version_hit in Ha by done. by apply Hf. }
  assert (exists c3, at_version 2 migrateV2toV3 c = Ok c3 /\ plain c3 /\
    same_but ["version"; "sources"; "calculation"; "system"; "security"] c c3 /\
    exists m3, prop c3 "version" = VInt m3 /\ 3 <= m3 <= 5) as (c3 & E3 & Hp3 & Hs3 & m3 & Hv3 & Hm3).
  { destruct (at_version 2 migrateV2toV3 c) as [c3|] eqn:E; [|done]. exists c3. split; [done|].
    destruct (Z.eq_dec m 2) as [->|Hne].
    - apply (Hstep 2 _ _ _ _ Hc Hv migrateV2toV3_ok) in E as (? & ? & Hs). split; [done|].
      split; [eapply same_but_weaken; [|done]; set_solver|]. exists 3. split; [done|lia].
    - rewrite (at_version_miss _ m) in E by done. injection E as <-. split; [done|].
      split; [apply same_but_refl|]. exists m. split; [done|lia]. }
  rewrite E3 in H. cbn [mbind result_bind] in H.
  assert (exists c4, at_version 3 migrateV3toV4 c3 = Ok c4 /\ plain c4 /\
    same_but ["version"; "sources"; "calculation"; "system"; "security"] c c4 /\
    exists m4, prop c4 "version" = VInt m4 /\ 4 <= m4 <= 5) as (c4 & E4 & Hp4 & Hs4 & m4 & Hv4 & Hm4).
  { destruct (at_version 3 migrateV3toV4 c3) as [c4|] eqn:E; [|done]. exists c4. split; [done|].
    destruct (Z.eq_dec m3 3) as [->|Hne].
    - apply (Hstep 3 _ _ _ _ Hp3 Hv3 (fun d d' Hd Hf => proj1 (migrateV3toV4_ok d d' Hd Hf)))
        in E as (? & ? & Hs). split; [done|].
      split; [eapply same_but_trans; [done|]; eapply same_but_weaken; [|done]; set_solver|].
      exists 4. split; [done|lia].
    - rewrite (at_version_miss _ m3) in E by done. injection E as <-. split; [done|].
      split; [done|]. exists m3. split; [done|lia]. }
  rewrite E4 in H. cbn [mbind result_bind] in H.
  destruct (Z.eq_dec m4 4) as [->|Hne].
  - apply (Hstep 4 _ _ _ _ Hp4 Hv4 (fun d d' Hd Hf => proj1 (migrateV4toV5_ok d d' Hd Hf)))
      in H as (? & ? & Hs). split; [done|]. split; [done|].
    eapply same_but_trans; [done|]. eapply same_but_weaken; [|done]. set_solver.
  - rewrite (at_version_miss _ m4) in H by done. injection H as <-.
    replace m4 with 5 in Hv4 by lia. done.
Qed.

(** What a clone holds is its own clone. *)
Lemma clone_prop_fixed c k : json_clone (prop (json_clone c) k) = prop (json_clone c) k.
Proof.
  destruct c as [| | | | | |o]; try done. cbn. induction o as [|[k' v] o IH]; [done|].
  destruct v; cbn; try done; destruct (String.eqb k k'); try done; cbn.
  - by rewrite (Qred_complete _ _ (Qred_correct q)).
  - apply (json_clone_idem (VArr l)).
  - apply (json_clone_idem (VObj o0)).
Qed.

Lemma Qred_int q n : (q == inject_Z n)%Q -> Qred q = inject_Z n.
Proof.
  intros E%Qred_complete. rewrite E. unfold inject_Z, Qred.
  destruct (Z.ggcd n 1) as [g [a b]] eqn:Eg.
  pose proof (Z.ggcd_gcd n 1) as Hg. pose proof (Z.ggcd_correct_divisors n 1) as Hd.
  rewrite Eg in Hg, Hd. cbn in Hg. rewrite Z.gcd_1_r in Hg. subst g.
  destruct Hd as [-> Hb]. rewrite Z.mul_1_l in Hb. rewrite Z.mul_1_l. by subst b.
Qed.

(** The number of a cloned configuration *)
Lemma clone_version c n :
  seq (prop (json_clone c) "version") (VInt n) = true -> prop (json_clone c) "version" = VInt n.
Proof.
  intros E. rewrite <- clone_prop_fixed.
  destruct (prop (json_clone c) "version"); try done. unfold VInt, json_clone.
  f_equal. apply Qred_int. by apply Qeq_bool_iff.
Qed.

Lemma json_clone_plain c : plain c -> plain (json_clone c).
Proof. intros [o ->]. by eexists. Qed.

(** A configuration of the current version is only cloned. *)
Lemma migrateConfig_current c :
  plain c -> prop c "version" = VInt 5 -> migrateConfig c = Ok (json_clone c).
Proof.
  intros Hc Hv. unfold migrateConfig. destruct (json_clone_plain c Hc) as [o Ho].
  assert (prop (json_clone c) "version" = VInt 5) as Hv'
    by (rewrite prop_json_clone; rewrite Hv; done).
  rewrite Ho in *. cbn [get mbind result_bind]. change (oget "version" o) with (prop (VObj o) "version").
  rewrite Hv'. cbn [truthy negb]. change (negb _ || _) with false. cbn [mbind result_bind].
  change (at_version 2 migrateV2toV3 (VObj o) ≫= _) with (from_2 (VObj o)). unfold from_2.
  do 2 (rewrite (at_version_miss _ 5) by done; cbn [mbind result_bind]).
  by rewrite (at_version_miss _ 5) by done.
Qed.

Lemma put_plain v k x : plain v -> exists v', put v k x = Ok v'.
Proof. intros [o ->]. by eexists. Qed.

(** The legacy output of version 1 becomes an output of its own. *)
Lemma V1toV2_legacy c c' automation :
  plain c -> prop c "automation" = automation -> plain automation ->
  truthy (prop automation "outputs") = false \/ plain (prop automation "outputs") ->
  truthy (prop automation "voiceMonkey") = true -> migrateV1toV2 c = Ok c' ->
  prop (prop (prop c' "automation") "outputs") "voicemonkey"
    = legacy_output (prop automation "voiceMonkey") /\
  prop (prop c' "automation") "voiceMonkey" = VUndef.
Proof.
  intros Hc <- Ha Ho Hl H. unfold migrateV1toV2 in H.
  destruct (ensure _ _ _) as [v2|] eqn:E; [|done]. cbn [mbind result_bind] in H.
  apply ensure_spec in E as (Hp2 & Hv2 & _); [|by apply setp_spec, spread_plain].
  rewrite spread_id, prop_setp_ne in Hv2 by done.
  assert (prop v2 "automation" = prop c "automation") as Hv2'
    by (rewrite Hv2; destruct Ha as [o ->]; done).
  apply put_in_spec in H as (x & Hx & _ & -> & _); [|done]. rewrite Hv2' in Hx.
  destruct (ensure "outputs" _ _) as [a|] eqn:Ea; [|done]. cbn [mbind result_bind] in Hx.
  apply ensure_spec in Ea as (Hpa & Hao & Has); [|done].
  unfold migrate_voiceMonkey in Hx. cbv zeta in Hx.
  rewrite (Has "voiceMonkey") in Hx by set_solver. rewrite Hl in Hx.
  destruct (put_in _ _ _) as [a2|] eqn:E2; [|done]. cbn [mbind result_bind] in Hx.
  injection Hx as <-. apply put_in_spec in E2 as (y & Hy & Hp3 & Hy2 & _); [|done].
  split; [|apply prop_delp]. rewrite prop_delp_ne by done. rewrite Hy2.
  apply put_spec in Hy as (_ & Hy & _); [done|]. rewrite Hao. unfold js_or.
  destruct Ho as [->|[o E]]; [by eexists|]. rewrite E. by eexists.
Qed.

(** The calculation settings of version 2 move to an Aladhan primary source. *)
Lemma V2toV3_calculation c c' k :
  plain c -> truthy (prop c "calculation") = true -> plain (prop c "sources") ->
  plain (source_of c "primary") ->
  prop (source_of c "primary") "type" = VStr "aladhan" -> k ∈ calculation_fields ->
  migrateV2toV3 c = Ok c' ->
  prop (source_of c' "primary") k = prop (prop c "calculation") k /\
  prop c' "calculation" = VUndef.
Proof.
  intros Hc Ht Hs Hp Hty Hk H. unfold migrateV2toV3 in H. cbv zeta in H.
  rewrite spread_id in H by done. rewrite !prop_setp_ne in H by done. rewrite Ht in H.
  unfold source_of in *. destruct Hs as [so Hso], Hp as [po Hpo].
  rewrite Hso in H, Hpo, Hty. rewrite Hpo in H. cbn [truthy andb] in H.
  destruct (put_in _ _ _) as [v3|] eqn:E; [|done]. cbn [mbind result_bind] in H.
  injection H as <-. split; [|apply prop_delp]. rewrite prop_delp_ne by done.
  apply put_in_spec in E as (s & Hs & _ & -> & _); [|by apply setp_spec].
  rewrite prop_setp_ne, Hso in Hs by done.
  apply put_in_spec in Hs as (p & Hp & _ & -> & _); [|by eexists].
  rewrite Hpo in *. unfold move_calculation in Hp. rewrite Hty in Hp. cbn in Hp.
  injection Hp as <-. cbn [prop]. unfold calculation_fields in Hk.
  rewrite !elem_of_cons in Hk. destruct_or! Hk; [subst k..|by apply not_elem_of_nil in Hk];
    rewrite ?oget_oset, ?oget_oset_ne by done; rewrite ?oget_oset; try done;
    rewrite ?oget_oset_ne by done; rewrite ?oget_oset; try done;
    rewrite ?oget_oset_ne by done; by rewrite ?oget_oset.
Qed.

(** ** Properties *)

(** A configuration that some released version wrote *)
Definition released (c : val) : Prop :=
  truthy (prop c "version") = false \/ exists n, 1 <= n <= 5 /\ seq (prop c "version") (VInt n) = true.

Definition first_version (c : val) : bool :=
  negb (truthy (prop c "version")) || seq (prop c "version") (VInt 1).

Lemma migrateConfig_chain c c' :
  plain c -> migrateConfig c = Ok c' ->
  exists c2, (if first_version (json_clone c) then migrateV1toV2 (json_clone c)
              else Ok (json_clone c)) = Ok c2 /\ from_2 c2 = Ok c'.
Proof.
  intros Hc H. unfold migrateConfig in H. destruct (json_clone_plain c Hc) as [o Ho].
  rewrite Ho in *. cbn [get mbind result_bind] in H. unfold first_version.
  change (oget "version" o) with (prop (VObj o) "version") in H.
  destruct (if _ || _ then _ else _) as [c2|] eqn:E; [|done]. by exists c2.
Qed.

(** C32: migration.  A configuration written by any released version is brought
    to version 5, and a further migration changes nothing; everything outside
    the migrated sections is kept as it was.  A version 1 configuration's
    legacy VoiceMonkey block becomes the output of that name with its token,
    device and switch, and is removed. *)
Theorem migrateConfig_latest c c' :
  plain c -> released (json_clone c) -> migrateConfig c = Ok c' ->
  prop c' "version" = VInt 5 /\ migrateConfig c' = Ok (json_clone c') /\
  same_but migrated_keys (json_clone c) c' /\
  (let automation := prop (json_clone c) "automation" in
   first_version (json_clone c) = true -> plain automation ->
   truthy (prop automation "outputs") = false \/ plain (prop automation "outputs") ->
   truthy (prop automation "voiceMonkey") = true ->
   prop (prop (prop c' "automation") "outputs") "voicemonkey"
     = legacy_output (prop automation "voiceMonkey") /\
   prop (prop c' "automation") "voiceMonkey" = VUndef).
Proof.
  intros Hc Hr H. apply migrateConfig_chain in H as (c2 & E & H); [|done].
  pose proof (json_clone_plain c Hc) as Hcl.
  assert (exists m, prop c2 "version" = VInt m /\ 2 <= m <= 5 /\ plain c2 /\
    same_but ["version"; "automation"] (json_clone c) c2) as (m & Hm & Hm2 & Hp2 & Hs2).
  { destruct (first_version (json_clone c)) eqn:Ef.
    - apply migrateV1toV2_ok in E as (? & ? & ?); [|done]. exists 2. by split_and!.
    - injection E as <-. unfold first_version in Ef. apply orb_false_iff in Ef as [Et E1].
      destruct Hr as [Hr|(n & Hn & Hr)]; [by rewrite Hr in Et|]. exists n.
      split; [by apply clone_version|]. split; [|split; [done|apply same_but_refl]].
      destruct (Z.eq_dec n 1) as [->|]; [by rewrite Hr in E1|lia]. }
  destruct (from_2_latest m c2 c' Hp2 Hm Hm2 H) as (H5 & Hp5 & Hs5).
  split; [done|]. split; [by apply migrateConfig_current|]. split.
  - eapply same_but_trans; (eapply same_but_weaken; [|eassumption]);
      unfold migrated_keys; set_solver.
  - cbv zeta. intros Hf Ha Ho Hl. rewrite Hf in E.
    rewrite (Hs5 "automation") by set_solver. by apply (V1toV2_legacy (json_clone c)).
Qed.

Definition old_config : val := VObj
  [("location", VStr "x"); ("automation", VObj [("voiceMonkey",
     VObj [("enabled", VInt 1); ("token", VStr "t"); ("device", VStr "d")])])].

Lemma migrateConfig_latest_witness :
  exists c', migrateConfig old_config = Ok c' /\ prop c' "version" = VInt 5 /\
    prop (prop (prop c' "automation") "outputs") "voicemonkey"
      = legacy_output (VObj [("enabled", VInt 1); ("token", VStr "t"); ("device", VStr "d")]).
Proof.
  eexists. split; [reflexivity|].
  destruct (migrateConfig_latest old_config _ (ex_intro _ _ eq_refl) (or_introl eq_refl) eq_refl)
    as (Hv & _ & _ & Hm).
  split; [exact Hv|]. apply Hm; [reflexivity|by eexists|by left|reflexivity].
Defined.
