(* ===== verification/Masking.v ===== *)
(** * Masking of secrets ([src/utils/configUnmasker.js], and [_maskSecrets] of
      [src/controllers/settingsController.js])

    The settings page is shown a copy of the configuration whose secrets are a
    mask; what it sends back is unmasked against the current configuration.
    Both mutate the tree they are given, which no one else holds: here they
    return it. *)
From S2P Require Import Prelude JsString JsValue Encryption Providers Migration.

Section masking.
Context `{R : OutputRegistry} `{Loc : Locale}.

(** [for (const [id, output] of Object.entries(outputs))], in place *)
Definition map_values (f : string -> val -> val) (v : val) : val :=
  match v with VObj o => VObj ((fun kv => (kv.1, f kv.1 kv.2)) <$> o) | _ => v end.

(** [if (v.k) v.k = f(v.k)] in place *)
Definition update_at (k : string) (f : val -> val) (v : val) : val :=
  if truthy (prop v k) then setp v k (f (prop v k)) else v.

Definition map_outputs (f : string -> val -> val) (config : val) : val :=
  update_at "automation" (update_at "outputs" (map_values f)) config.

Definition sensitive_params (strategyId : string) : result (list string) :=
  metadata ← strategy_metadata strategyId; Ok (sensitive_of (prop metadata "params")).

Definition source_secrets (source : val) : list string :=
  if truthy (prop source "type") then
    match provider_metadata (prop source "type") with
    | Ok metadata => sensitive_of (prop metadata "parameters")
    | Throw _ => []
    end
  else [].

Definition map_sources (f : string -> val -> val) (config : val) : val :=
  update_at "sources" (fun sources =>
    update_at "backup" (f "backup") (update_at "primary" (f "primary") sources)) config.

(** ** Masking *)
Definition mask_keys (keys : list string) (params : val) : val :=
  foldl (fun p sKey => if truthy (prop p sKey) then setp p sKey mask else p) params keys.

Definition mask_output (id : string) (outputConfig : val) : val :=
  match sensitive_params id with
  | Ok sensitiveKeys => update_at "params" (mask_keys sensitiveKeys) outputConfig
  | Throw _ => outputConfig
  end.

Definition mask_source (role : string) (source : val) : val :=
  mask_keys (source_secrets source) source.

Definition _maskSecrets (config : val) : val :=
  map_sources mask_source (map_outputs mask_output config).

(** ** Unmasking *)
Definition unmask_key (current params : val) (sKey : string) : val :=
  if isMasked (prop params sKey) then
    if truthy (prop current sKey) then setp params sKey (prop current sKey) else delp params sKey
  else params.

Definition unmask_keys (keys : list string) (current params : val) : val :=
  foldl (unmask_key current) params keys.

(** An unknown strategy leaves the parameters alone. *)
Definition unmaskParams (strategyId : string) (params currentConfig : val) : val :=
  if negb (truthy params) || negb (is_object params) then params else
  match sensitive_params strategyId with
  | Ok sensitiveKeys => unmask_keys sensitiveKeys (params_of currentConfig strategyId) params
  | Throw _ => params
  end.

Definition unmask_output (currentConfig : val) (id : string) (outputConfig : val) : val :=
  update_at "params" (fun params => unmaskParams id params currentConfig) outputConfig.

Definition unmask_source (currentConfig : val) (role : string) (source : val) : val :=
  unmask_keys (source_secrets source) (source_of currentConfig role) source.

(** A [null] output has no [params] to read. *)
Definition unmaskSecrets (newConfig currentConfig : val) : result val :=
  if existsb (fun kv => is_nullish kv.2) (props (prop (prop newConfig "automation") "outputs"))
  then Throw (TypeError "Cannot read properties of null (reading params)")
  else Ok (map_sources (unmask_source currentConfig)
             (map_outputs (unmask_output currentConfig) newConfig)).

(** ** Lemmas *)
Lemma oset_same k o : ohas k o = true -> oset k (oget k o) o = o.
Proof.
  induction o as [|[k' v] o IH]; [done|]. cbn. destruct (String.eqb_spec k k') as [->|]; [done|].
  cbn. intros H. by rewrite IH.
Qed.

(** Property lists with the same keys and values are the same. *)
Lemma obj_ext a b :
  NoDup (okeys a) -> okeys a = okeys b -> (forall k, oget k a = oget k b) -> a = b.
Proof.
  revert b. induction a as [|[k v] a IH]; intros [|[k' v'] b]; try done.
  cbn. intros [Hni Hnd]%NoDup_cons [= -> Hk] Hg. pose proof (Hg k') as H1.
  rewrite String.eqb_refl in H1. subst v'. f_equal. apply IH; [done..|].
  intros x. specialize (Hg x). destruct (String.eqb_spec x k') as [E|_]; [subst x|done].
  assert (ohas k' a = false /\ ohas k' b = false) as [Ha Hb].
  { split; apply not_true_is_false; rewrite ohas_okeys; [done|]. unfold okeys in *. by rewrite <- Hk. }
  by rewrite !ohas_false_oget.
Qed.

Lemma oget_map f k o :
  oget k ((fun kv => (kv.1, f kv.1 kv.2)) <$> o)
  = if ohas k o then f k (oget k o) else VUndef.
Proof.
  induction o as [|[k' v] o IH]; [done|]. cbn. destruct (String.eqb_spec k k') as [->|]; [done|].
  apply IH.
Qed.

Lemma prop_update_at_ne k k' f v : k <> k' -> prop (update_at k' f v) k = prop v k.
Proof. intros H. unfold update_at. case_match; [|done]. by apply prop_setp_ne. Qed.

Lemma prop_update_at k f v :
  prop (update_at k f v) k = if truthy (prop v k) then f (prop v k) else prop v k.
Proof.
  unfold update_at. destruct (truthy (prop v k)) eqn:E; [|done].
  destruct v as [| | | | | |o]; try done. apply oget_oset.
Qed.

(** What masking leaves in each key, and where *)
Lemma mask_keys_spec keys o :
  exists o', mask_keys keys (VObj o) = VObj o' /\ okeys o' = okeys o /\
    forall k, oget k o' =
      if existsb (String.eqb k) keys && truthy (oget k o) then mask else oget k o.
Proof.
  revert o. induction keys as [|s keys IH]; intros o; [by exists o|].
  unfold mask_keys. cbn [foldl]. destruct (truthy (prop (VObj o) s)) eqn:E.
  - destruct (IH (oset s mask o)) as (o' & Ho' & Hk & Hg). exists o'. split; [done|]. split.
    { rewrite Hk. apply okeys_oset, ohas_okeys. by apply (truthy_ohas (VObj o)). }
    intros k. rewrite Hg. cbn [existsb]. destruct (String.eqb_spec k s) as [->|Hne].
    + rewrite oget_oset. cbn in E. rewrite E. by destruct (existsb _ keys).
    + by rewrite oget_oset_ne.
  - destruct (IH o) as (o' & Ho' & Hk & Hg). exists o'. split; [done|]. split; [done|].
    intros k. rewrite Hg. cbn [existsb]. destruct (String.eqb_spec k s) as [->|Hne]; [|done].
    cbn in E. by rewrite E, !andb_false_r.
Qed.

Lemma isMasked_truthy v : isMasked v = true -> truthy v = true.
Proof. destruct v; try done. unfold isMasked. cbn. by intros ->%String.eqb_eq. Qed.

(** What unmasking leaves in each key, and where *)
Lemma unmask_keys_spec keys current o :
  exists o', unmask_keys keys current (VObj o) = VObj o' /\
    ((forall k, isMasked (oget k o) = true -> truthy (prop current k) = true) ->
     okeys o' = okeys o) /\
    forall k, oget k o' =
      if existsb (String.eqb k) keys && isMasked (oget k o)
      then (if truthy (prop current k) then prop current k else VUndef) else oget k o.
Proof.
  revert o. induction keys as [|s keys IH]; intros o; [by exists o|].
  unfold unmask_keys. cbn [foldl]. unfold unmask_key at 2. cbn [prop setp delp].
  destruct (isMasked (oget s o)) eqn:E; [destruct (truthy (prop current s)) eqn:Ec|].
  - destruct (IH (oset s (prop current s) o)) as (o' & Ho' & Hk & Hg). exists o'. split; [done|].
    split.
    + intros Hm. rewrite Hk.
      * apply okeys_oset, ohas_okeys, (truthy_ohas (VObj o)). by apply isMasked_truthy.
      * intros k. destruct (String.eqb_spec k s) as [->|Hne]; [done|].
        rewrite oget_oset_ne by done. apply Hm.
    + intros k. rewrite Hg. cbn [existsb]. destruct (String.eqb_spec k s) as [->|Hne].
      * rewrite oget_oset, E, Ec. cbn. by destruct (existsb _ _ && _).
      * by rewrite oget_oset_ne.
  - destruct (IH (odel s o)) as (o' & Ho' & Hk & Hg). exists o'. split; [done|]. split.
    + intros Hm. by rewrite Hm in Ec.
    + intros k. rewrite Hg. cbn [existsb]. destruct (String.eqb_spec k s) as [->|Hne].
      * rewrite oget_odel, E, Ec. cbn. by rewrite andb_false_r.
      * by rewrite oget_odel_ne.
  - destruct (IH o) as (o' & Ho' & Hk & Hg). exists o'. split; [done|]. split; [done|].
    intros k. rewrite Hg. cbn [existsb]. destruct (String.eqb_spec k s) as [->|Hne]; [|done].
    by rewrite E, !andb_false_r.
Qed.

Lemma unmask_mask_keys keys o :
  NoDup (okeys o) -> unmask_keys keys (VObj o) (mask_keys keys (VObj o)) = VObj o.
Proof.
  intros Hnd. destruct (mask_keys_spec keys o) as (o1 & -> & Hk1 & Hg1).
  destruct (unmask_keys_spec keys (VObj o) o1) as (o2 & -> & Hk2 & Hg2). f_equal. symmetry.
  assert (forall k, isMasked (oget k o1) = true -> truthy (prop (VObj o) k) = true) as Hm.
  { intros k. rewrite Hg1. cbn [prop]. destruct (existsb _ _ && truthy (oget k o)) eqn:E.
    - by apply andb_true_iff in E as [_ ->].
    - apply isMasked_truthy. }
  apply obj_ext; [done|by rewrite Hk2, Hk1|]. intros k. rewrite Hg2. specialize (Hm k).
  rewrite Hg1 in *. cbn [prop] in *. destruct (existsb (String.eqb k) keys); cbn [andb]; [|done].
  destruct (truthy (oget k o)) eqn:E; [done|].
  destruct (isMasked (oget k o)) eqn:Em; [by apply isMasked_truthy in Em; congruence|done].
Qed.

(** No provider of this release has a secret parameter. *)
Lemma source_secrets_nil source : source_secrets source = [].
Proof.
  unfold source_secrets, provider_metadata. case_match; [|done]. cbn [getRegisteredProviders find].
  by repeat case_match; simplify_eq.
Qed.

Lemma oset_oset k a b o : oset k a (oset k b o) = oset k a o.
Proof.
  induction o as [|[k' v] o IH]; cbn; [by rewrite String.eqb_refl|].
  destruct (String.eqb k k') eqn:E; cbn; [by rewrite String.eqb_refl|]. by rewrite E, IH.
Qed.

Lemma update_at_id k f v : f (prop v k) = prop v k -> update_at k f v = v.
Proof.
  unfold update_at. intros ->. destruct (truthy (prop v k)) eqn:E; [|done].
  destruct v as [| | | | | |o]; try done. cbn in *. f_equal. apply oset_same.
  by apply (truthy_ohas (VObj o)).
Qed.

Lemma update_at_twice k f g v :
  truthy (f (prop v k)) = true -> update_at k g (update_at k f v) = update_at k (fun x => g (f x)) v.
Proof.
  intros Hf. unfold update_at at 1. rewrite prop_update_at. unfold update_at.
  destruct (truthy (prop v k)) eqn:E; [|by rewrite E]. rewrite Hf.
  destruct v as [| | | | | |o]; try done. cbn [setp prop]. by rewrite oset_oset.
Qed.

Lemma map_sources_id f c : (forall role s, f role s = s) -> map_sources f c = c.
Proof.
  intros Hf. unfold map_sources. apply update_at_id. by rewrite !update_at_id by (rewrite ?Hf; done).
Qed.

(** The shape a validated configuration has, down to the parameters *)
Record maskable (c : val) (outputs : list (string * val)) : Prop := {
  mk_outputs : prop (prop c "automation") "outputs" = VObj outputs;
  mk_nodup : NoDup (okeys outputs);
  mk_params : forall id v, (id, v) ∈ outputs -> exists o p, v = VObj o /\
    oget "params" o = VObj p /\ NoDup (okeys p)
}.

Lemma oget_in_nodup k v o : NoDup (okeys o) -> (k, v) ∈ o -> oget k o = v.
Proof.
  induction o as [|[k' v'] o IH]; [by intros _ ?%not_elem_of_nil|].
  cbn. intros [Hni Hnd]%NoDup_cons [[= -> ->]|Hin]%elem_of_cons.
  - by rewrite String.eqb_refl.
  - destruct (String.eqb_spec k k') as [->|]; [|auto]. exfalso. apply Hni.
    by apply (list_elem_of_fmap_2 fst) in Hin.
Qed.

Lemma ohas_entry k o : ohas k o = true -> exists v, oget k o = v /\ (k, v) ∈ o.
Proof.
  induction o as [|[k' v'] o IH]; [done|]. cbn. destruct (String.eqb_spec k k') as [->|]; cbn.
  - intros _. exists v'. split; [done|]. apply list_elem_of_here.
  - intros (v & Hv & Hin)%IH. exists v. split; [done|]. by apply list_elem_of_further.
Qed.

Lemma unmask_mask_output c outputs id v :
  maskable c outputs -> (id, v) ∈ outputs -> unmask_output c id (mask_output id v) = v.
Proof.
  intros [Ho Hnd Hp] Hin. destruct (Hp _ _ Hin) as (o & p & -> & Hpar & Hndp).
  unfold unmask_output, mask_output, unmaskParams. destruct (sensitive_params id) as [keys|e].
  - destruct (mask_keys_spec keys p) as (p1 & Hm & _).
    rewrite update_at_twice by (cbn [prop]; rewrite Hpar; by rewrite Hm).
    apply update_at_id. cbn [prop]. rewrite Hpar, Hm. cbn [truthy negb is_object orb]. rewrite <- Hm.
    unfold params_of. rewrite Ho. cbn [prop]. rewrite (oget_in_nodup _ _ _ Hnd Hin). cbn [prop].
    rewrite Hpar. by apply unmask_mask_keys.
  - apply update_at_id. by case_match.
Qed.

Lemma map_values_compose f g o :
  map_values g (map_values f (VObj o)) = map_values (fun k v => g k (f k v)) (VObj o).
Proof. cbn. f_equal. rewrite <- list_fmap_compose. by apply list_fmap_ext. Qed.

Lemma map_values_id f o : (forall k v, (k, v) ∈ o -> f k v = v) -> map_values f (VObj o) = VObj o.
Proof.
  intros Hf. cbn. f_equal. rewrite <- (list_fmap_id o) at 2. apply list_fmap_ext.
  intros i [k v] Hi. cbn. f_equal. apply Hf. by eapply list_elem_of_lookup_2.
Qed.

Lemma outputs_mapped f c outputs :
  maskable c outputs ->
  prop (prop (map_outputs f c) "automation") "outputs" = map_values f (VObj outputs).
Proof.
  intros [Ho _ _]. unfold map_outputs. rewrite prop_update_at.
  destruct (prop c "automation") as [| | | | | |a] eqn:Ea; try done. cbn [truthy].
  rewrite prop_update_at, Ho. done.
Qed.

Lemma mask_output_plain id o : exists o', mask_output id (VObj o) = VObj o'.
Proof.
  unfold mask_output. destruct (sensitive_params id); [|by eexists]. unfold update_at.
  case_match; by eexists.
Qed.

Lemma mask_is_outputs c : _maskSecrets c = map_outputs mask_output c.
Proof.
  apply map_sources_id. intros role s. unfold mask_source. by rewrite source_secrets_nil.
Qed.

(** ** Properties *)

(** C29: the settings round trip.  In the masked copy of a configuration no
    sensitive parameter of any output can be read: it is the mask, or was
    empty.  Sending the masked copy back unchanged restores the configuration
    exactly. *)
Theorem settings_roundtrip c outputs :
  maskable c outputs ->
  (forall id keys k, sensitive_params id = Ok keys -> k ∈ keys ->
     prop (params_of (_maskSecrets c) id) k = mask \/
     truthy (prop (params_of (_maskSecrets c) id) k) = false) /\
  unmaskSecrets (_maskSecrets c) c = Ok c.
Proof.
  intros Hc. pose proof (outputs_mapped mask_output c outputs Hc) as Hm.
  rewrite mask_is_outputs. split.
  - intros id keys k Hk Hin. unfold params_of. rewrite Hm. cbn [map_values prop].
    rewrite oget_map. destruct (ohas id outputs) eqn:E; [|by right].
    destruct (ohas_entry _ _ E) as (v & Hv & Hin').
    rewrite Hv. destruct (mk_params _ _ Hc _ _ Hin') as (o & p & -> & Hp & _).
    unfold mask_output. rewrite Hk, prop_update_at. cbn [prop]. rewrite Hp. cbn [truthy].
    destruct (mask_keys_spec keys p) as (p' & -> & _ & Hg). cbn [prop]. rewrite Hg.
    assert (existsb (String.eqb k) keys = true) as ->.
    { apply existsb_exists. exists k. split; [by apply list_elem_of_In|apply String.eqb_refl]. }
    destruct (truthy (oget k p)) eqn:Et; [by left|by right].
  - unfold unmaskSecrets. rewrite Hm. cbn [map_values props].
    match goal with |- context [existsb ?f ?l] => destruct (existsb f l) eqn:En end.
    { exfalso. apply existsb_exists in En as ([id v] & Hin & Hn).
      apply list_elem_of_In, list_elem_of_fmap in Hin as ([id' v'] & [= -> ->] & Hin).
      destruct (mk_params _ _ Hc _ _ Hin) as (o & p & -> & _). cbn in Hn.
      destruct (mask_output_plain id' o) as [o' Ho']. by rewrite Ho' in Hn. }
    f_equal. rewrite map_sources_id
      by (intros; unfold unmask_source; by rewrite source_secrets_nil).
    pose proof (mk_outputs _ _ Hc) as Ho. unfold map_outputs.
    assert (truthy (prop c "automation") = true) as Ha by (by destruct (prop c "automation")).
    rewrite update_at_twice
      by (unfold update_at; destruct (prop c "automation"); try done; by case_match).
    apply update_at_id. rewrite update_at_twice by (by rewrite Ho). apply update_at_id. rewrite Ho.
    rewrite map_values_compose. apply map_values_id. intros id v Hin.
    by apply (unmask_mask_output c outputs).
Qed.
End masking.

(** A strategy with two secrets *)
Definition two_secrets : OutputRegistry := {|
  strategy_metadata := fun id => if String.eqb id "voicemonkey"
    then Ok (VObj [("params", VArr [VObj [("key", VStr "token"); ("sensitive", VBool true)];
                                    VObj [("key", VStr "device"); ("sensitive", VBool true)]])])
    else Throw (Error "not found");
  secret_requirements := [("voicemonkey", "token"); ("voicemonkey", "device")] |}.

Definition bytes_locale : Locale := fun a b => negb (String.ltb b a).

Definition secret_config : val := VObj [("automation", VObj [("outputs", VObj
  [("voicemonkey", VObj [("enabled", VBool true);
      ("params", VObj [("token", VStr "t0ken"); ("volume", VInt 3)])])])])].

Lemma settings_roundtrip_witness :
  prop (params_of (_maskSecrets (R := two_secrets) (Loc := bytes_locale) secret_config)
          "voicemonkey") "token" = mask /\
  unmaskSecrets (R := two_secrets) (Loc := bytes_locale)
    (_maskSecrets (R := two_secrets) (Loc := bytes_locale) secret_config) secret_config
  = Ok secret_config.
Proof.
  destruct (settings_roundtrip (R := two_secrets) (Loc := bytes_locale) secret_config
    [("voicemonkey", VObj [("enabled", VBool true);
      ("params", VObj [("token", VStr "t0ken"); ("volume", VInt 3)])])]) as [Hl Hr].
  - split; [done| |].
    + apply NoDup_singleton.
    + intros id v [= -> ->]%list_elem_of_singleton. do 2 eexists. split; [done|]. split; [done|].
      cbn. apply NoDup_cons. split; [|apply NoDup_singleton].
      by intros ?%list_elem_of_singleton.
  - split; [|exact Hr].
    destruct (Hl "voicemonkey" ["token"; "device"] "token" eq_refl (list_elem_of_here _ _))
      as [H|H]; [exact H|]. vm_compute in H. discriminate H.
Defined.
