(* ===== verification/ConfigService.v ===== *)
(** * The configuration service ([src/config/ConfigService.js])

    The configuration is [default.json] overlaid with [local.json] and the
    environment, validated on every load; an update is validated before it is
    written, atomically, and the service then reloads.  The output strategies
    are known through [OutputRegistry] and the provider metadata; the .env
    loader, the schema library and the cipher are parameters.  Merging copies
    every object it descends into, so that the trees below share nothing that
    is later mutated, and each step returns the new tree. *)
From S2P Require Import Prelude JsString JsValue World Zod Schemas Providers Encryption.
From S2P Require Import EnvManager ConfigStore Migration Masking.

(** The .env loader's parser (dotenv): the pairs of a text *)
Class Dotenv := dotenv_pairs : string -> list (string * string).

Definition CONFIG_PATH : string := "/app/src/config/default.json".
Definition LOCAL_PATH : string := "/app/src/config/local.json".
Definition TEMP_PATH : string := LOCAL_PATH +:+ ".tmp".

(** ** Merging *)
Definition forbidden_key (key : string) : bool :=
  String.eqb key "__proto__" || String.eqb key "constructor" || String.eqb key "prototype".

Fixpoint mergeDeep (target source : val) {struct source} : val :=
  if negb (is_object target) then source else
  match source with
  | VObj o =>
      (fix go (output : val) (o : list (string * val)) : val :=
         match o with
         | [] => output
         | (key, x) :: o' =>
             go (if forbidden_key key then output else
                 match x with
                 | VObj _ =>
                     setp output key
                       (mergeDeep (if is_object (prop output key) then prop output key else VObj []) x)
                 | _ => setp output key x
                 end) o'
         end) target o
  | _ => target
  end.

(** ** Constraints *)
Definition clamp_lead (output : val) : val :=
  match prop output "leadTimeMs" with
  | VNum q => if negb (Qle_bool (-30000) q) then setp output "leadTimeMs" (VInt (-30000))
              else if negb (Qle_bool q 30000) then setp output "leadTimeMs" (VInt 30000) else output
  | _ => output
  end.

(** [playerParam?.options || []] of a strategy *)
Definition player_options (metadata : val) : list val :=
  match find (fun p => seq (prop p "key") (VStr "audioPlayer")) (arr_of (prop metadata "params")) with
  | Some p => arr_of (prop p "options")
  | None => []
  end.

Definition revert_player (metadata output : val) : val :=
  let player := prop (prop output "params") "audioPlayer" in
  if truthy player && negb (existsb (seq player) (player_options metadata))
  then setp output "params" (setp (prop output "params") "audioPlayer" (VStr "mpg123"))
  else output.

(** ** Sources *)
Section sources.
Context `{Loc : Locale} `{Zd : Zod}.

Definition allowed_keys (provider : val) : list string :=
  ["type"; "enabled"] ++ ((fun p => str_of (prop p "key")) <$> arr_of (prop provider "parameters")) ++
  sensitive_of (prop provider "parameters").

Definition clean_source (source : val) : val :=
  if negb (truthy (prop source "type")) then source else
  match find (fun p => seq (prop p "id") (prop source "type")) getRegisteredProviders with
  | None => source
  | Some activeProvider =>
      match source with
      | VObj o => VObj (filter (fun kv => kv.1 ∈ allowed_keys activeProvider) o)
      | _ => source
      end
  end.

Definition _cleanSourceData (config : val) : val := map_sources (fun _ => clean_source) config.

Definition with_enabled (s : schema) : schema :=
  match s with ZObject pass fs => ZObject pass (fs ++ [("enabled", ZOptional ZBool)]) | _ => s end.

(** [providerClass.getConfigSchema()] *)
Definition getConfigSchema (type : val) : result schema :=
  match type with
  | VStr "aladhan" => Ok Aladhan_getConfigSchema
  | VStr "mymasjid" => Ok MyMasjid_getConfigSchema
  | _ => Throw (Error ("Unknown provider type: " +:+ show type))
  end.

(** [try { m } catch (e) { if (ZodError) throw new Error(prefix + issues); throw e }] *)
Definition reporting {A} (prefix : string) (m : result A) : result A :=
  match m with
  | Ok a => Ok a
  | Throw e => Throw (if String.eqb (e_name e) "ZodError" then Error (prefix +:+ e_msg e) else e)
  end.

Definition validate_source (config : val) (role : string) : result unit :=
  let source := source_of config role in
  if negb (truthy source) || negb (truthy (prop source "type")) then Ok tt else
  reporting ("[" +:+ to_upper role +:+ " Source] ")
    (schema ← getConfigSchema (prop source "type");
     _ ← zod_parse (if String.eqb role "backup" then with_enabled schema else schema) source;
     Ok tt).

Definition _validateSources (config : val) : result unit :=
  if negb (truthy (prop config "sources")) then Ok tt else
  _ ← validate_source config "primary"; validate_source config "backup".
End sources.

(** ** Environment overrides *)
Definition env_text (env : gmap string string) (k : string) : val :=
  match env !! k with Some s => VStr s | None => VUndef end.

Section service.
Context `{R : OutputRegistry} `{Loc : Locale} `{Zd : Zod} `{I : Intl} `{C : Crypto} `{D : Dotenv}.

(** The strategy is not found, or the output has no parameters to look at: the
    entry is left alone. *)
Definition constrain_output (id : string) (output : val) : val :=
  match strategy_metadata id with
  | Ok metadata => let output := clamp_lead output in
                   if String.eqb id "local" then revert_player metadata output else output
  | Throw _ => output
  end.

Definition _validateConstraints (config : val) : val := map_outputs constrain_output config.

(** [if (env[k]) config.automation[field] = env[k]] *)
Definition override_field (env : gmap string string) (k field : string) (config : val) : result val :=
  if truthy (env_text env k)
  then put_in config "automation" (fun a => put a field (env_text env k)) else Ok config.

Definition override_output (env : gmap string string) (config : val) (req : string * string)
    : result val :=
  let value := env_text env (env_key req.1 req.2) in
  if truthy value
  then in_params req.1 (VObj [("params", VObj [])]) (fun params => put params req.2 value) config
  else Ok config.

Definition override_source (env : gmap string string) (providerId : val) (config : val)
    (sKey : string) : result val :=
  let value := env_text env (to_upper sKey) in
  if negb (truthy value) then Ok config else
  fold_result (fun config role =>
    if seq (prop (source_of config role) "type") providerId
    then put_in config "sources" (fun s => put_in s role (fun source => put source sKey value))
    else Ok config) config ["primary"; "backup"].

Definition _applyEnvOverrides (env : gmap string string) (config : val) : result val :=
  if negb (truthy (prop config "automation")) then Ok config else
  config ← override_field env "BASE_URL" "baseUrl" config;
  config ← override_field env "PYTHON_SERVICE_URL" "pythonServiceUrl" config;
  config ← fold_result (override_output env) config secret_requirements;
  fold_result (fun config provider =>
    fold_result (override_source env (prop provider "id")) config
      (sensitive_of (prop provider "parameters"))) config getRegisteredProviders.

(** [delete config.automation[field]] *)
Definition strip_field (env : gmap string string) (k field : string) (config : val) : val :=
  if truthy (env_text env k) then setp config "automation" (delp (prop config "automation") field)
  else config.

Definition strip_output (env : gmap string string) (config : val) (req : string * string) : val :=
  if truthy (env_text env (env_key req.1 req.2)) &&
     negb (is_undef (prop (params_of config req.1) req.2))
  then map_outputs (fun id output =>
         if String.eqb id req.1 then setp output "params" (delp (prop output "params") req.2)
         else output) config
  else config.

Definition strip_source (providerId : val) (keys : list string) (source : val) : val :=
  if seq (prop source "type") providerId then foldl delp source keys else source.

Definition _stripSecrets (env : gmap string string) (config : val) : val :=
  let config :=
    if truthy (prop config "automation") then
      let config := strip_field env "BASE_URL" "baseUrl" config in
      let config := strip_field env "PYTHON_SERVICE_URL" "pythonServiceUrl" config in
      foldl (strip_output env) config secret_requirements
    else config in
  foldl (fun config provider =>
    map_sources (fun _ => strip_source (prop provider "id")
                            (sensitive_of (prop provider "parameters"))) config)
    config getRegisteredProviders.

(** ** Secrets at rest *)
Inductive action := Encrypt | Decrypt.

Definition _getEncryptionKey : M world string :=
  key ← gets (env_get "JWT_SECRET");
  if negb (truthy key)
  then throw (CriticalConfigurationError "JWT_SECRET environment variable is required for security.")
  else ret (str_of key).

(** One sensitive key.  A text that fails to decrypt is kept. *)
Definition process_value (act : action) (key s : string) : M world string :=
  match act with
  | Encrypt => if negb (has_char ":" s) && negb (isMasked (VStr s)) then encrypt s key else ret s
  | Decrypt => if has_char ":" s then try_catch (decrypt s key) (fun _ => ret s) else ret s
  end.

(** The keys in order; what was done before a failure stays done, and the
    failure is swallowed with the rest of the entry. *)
Fixpoint process_keys (act : action) (key : string) (keys : list string) (container : val)
    : M world val :=
  match keys with
  | [] => ret container
  | sKey :: keys' =>
      match prop container sKey with
      | VStr s =>
          if String.eqb s "" then process_keys act key keys' container else
          fun w => match process_value act key s w with
                   | (Ok s', w') => process_keys act key keys' (setp container sKey (VStr s')) w'
                   | (Throw _, w') => (Ok container, w')
                   end
      | _ => process_keys act key keys' container
      end
  end.

Definition process_output (act : action) (key : string) (id : string) (output : val) : M world val :=
  match sensitive_params id with
  | Ok sensitiveKeys =>
      if truthy (prop output "params")
      then params ← process_keys act key sensitiveKeys (prop output "params");
           ret (setp output "params" params)
      else ret output
  | Throw _ => ret output
  end.

(** [for (const [id, output] of Object.entries(outputs))] *)
Definition process_outputs (act : action) (key : string) (outputs : val) : M world val :=
  match outputs with
  | VObj o =>
      o' ← map_m (fun kv => output ← process_output act key kv.1 kv.2; ret (kv.1, output)) o;
      ret (VObj o')
  | _ => ret outputs
  end.

Definition process_source (act : action) (key role : string) (config : val) : M world val :=
  let source := source_of config role in
  if truthy source && truthy (prop source "type") then
    source ← process_keys act key (source_secrets source) source;
    ret (setp config "sources" (setp (prop config "sources") role source))
  else ret config.

Definition _processSensitiveFields (act : action) (obj : val) : M world val :=
  if negb (truthy obj) || negb (is_object obj) then ret obj else
  key ← _getEncryptionKey;
  let automation := prop obj "automation" in
  obj ← (if truthy (prop automation "outputs")
         then outputs ← process_outputs act key (prop automation "outputs");
              ret (setp obj "automation" (setp automation "outputs" outputs))
         else ret obj);
  if truthy (prop obj "sources") then
    obj ← process_source act key "primary" obj; process_source act key "backup" obj
  else ret obj.

(** ** Saving *)
Definition _saveLocal (config : val) : M world unit :=
  copy ← _processSensitiveFields Encrypt (json_clone config);
  try_catch
    (fs_write TEMP_PATH (Json copy) ;;
     verifyContent ← fs_read TEMP_PATH;
     _ ← lift (json_parse verifyContent);
     fs_rename TEMP_PATH LOCAL_PATH)
    (fun error =>
       try_catch (fs_unlink TEMP_PATH) (fun _ => ret tt) ;;
       throw (Error ("Atomic configuration save failed: " +:+ e_msg error))).

(** ** Loading *)

(** [a > b] *)
Definition js_gt (a b : val) : bool :=
  match to_number a, to_number b with
  | NFin x, NFin y => negb (Qle_bool x y)
  | _, _ => false
  end.

Definition version_or_0 (config : val) : val := js_or (prop config "version") (VInt 0).

(** [local.json] over the defaults; a local file that cannot be used is left
    out, with a warning. *)
Definition load_local (rawConfig : val) : M world val :=
  try_catch
    (fs_access LOCAL_PATH ;;
     localContent ← fs_read LOCAL_PATH;
     if negb (content_nonblank localContent) then ret rawConfig else
     localConfig ← lift (json_parse localContent);
     migratedLocal ← lift (migrateConfig localConfig);
     localConfig ← (if js_gt (version_or_0 migratedLocal) (version_or_0 localConfig)
                    then _saveLocal migratedLocal ;; ret migratedLocal
                    else ret localConfig);
     ret (mergeDeep rawConfig localConfig))
    (fun _ => ret rawConfig).

(** [dotenv.config({ override: true })]; a missing file is ignored. *)
Definition load_env : M world unit := fun w =>
  match files w !! ENV_PATH with
  | Some f => (Ok tt, foldl (fun w kv => env_set kv.1 kv.2 w) w (dotenv_pairs (text (f_content f))))
  | None => (Ok tt, w)
  end.

Definition read_defaults : M world val :=
  defaultContent ← fs_read CONFIG_PATH; lift (json_parse defaultContent).

Definition parse_config (config : val) : result val :=
  reporting "Configuration Validation Failed: " (zod_parse configSchema config).

(** What is made of the merged, decrypted and migrated tree, without a pause *)
Definition finalize (env : gmap string string) (rawConfig : val) : result val :=
  rawConfig ← _applyEnvOverrides env rawConfig;
  let rawConfig := _cleanSourceData (_validateConstraints rawConfig) in
  _ ← _validateSources rawConfig;
  parse_config rawConfig.

Definition set_config (config : val) : M world unit :=
  modify (fun w => set_cfg (Cfg config (c_initialized (w_cfg w)) (c_saving (w_cfg w))) w).

(** The removals of migrated secrets from the .env file are started, not
    awaited: they take effect when the rest of the load has run, and they
    advance together, each reading the file before any of them writes it. *)
Definition forget_keys (keys : list string) (w : world) : world :=
  match files w !! ENV_PATH with
  | Some f => foldl (fun w k => (delete_lines k (text (f_content f)) w).2) w keys
  | None => w
  end.

Definition then_forget (keys : list string) (m : M world unit) : M world unit :=
  fun w => let '(r, w1) := m w in (r, forget_keys keys w1).

(** Defaults, local file, decryption, migrations *)
Definition load_raw : M world env_migration :=
  load_env ;;
  rawConfig ← read_defaults;
  rawConfig ← load_local rawConfig;
  rawConfig ← _processSensitiveFields Decrypt rawConfig;
  rawConfig ← lift (migrateConfig rawConfig);
  env ← gets w_env;
  migrated ← lift (migrateEnvSecrets env rawConfig);
  when (em_changed migrated) (_saveLocal (em_config migrated)) ;;
  ret migrated.

Definition reload : M world unit :=
  migrated ← load_raw;
  env ← gets w_env;
  then_forget (if em_changed migrated then em_keys migrated else [])
    (config ← lift (finalize env (em_config migrated)); set_config config).

Definition require_env (k : string) : M world unit :=
  value ← gets (env_get k);
  if truthy value then ret tt
  else throw (CriticalConfigurationError (k +:+ " environment variable is required for security.")).

Definition init : M world unit :=
  cfg ← gets w_cfg;
  if c_initialized cfg then ret tt else
  reload ;; require_env "JWT_SECRET" ;; require_env "ENCRYPTION_SALT" ;;
  modify (fun w => set_cfg (Cfg (c_config (w_cfg w)) true (c_saving (w_cfg w))) w).

(** ** Updating *)
Definition set_saving (b : bool) (w : world) : world :=
  set_cfg (Cfg (c_config (w_cfg w)) (c_initialized (w_cfg w)) b) w.

(** A missing or corrupt local file counts as empty. *)
Definition current_local : M world val :=
  try_catch
    (localContent ← fs_read LOCAL_PATH;
     if content_nonblank localContent then lift (json_parse localContent) else ret (VObj []))
    (fun e => if negb (String.eqb (e_code e) "ENOENT") && negb (String.eqb (e_name e) "SyntaxError")
              then throw e else ret (VObj [])).

(** The new contents of [local.json], once they are known to be valid *)
Definition new_local (partialConfig : val) : M world val :=
  currentLocal ← current_local;
  env ← gets w_env;
  let newLocalCandidate :=
    _stripSecrets env (_cleanSourceData (mergeDeep currentLocal partialConfig)) in
  defaultConfig ← read_defaults;
  fullCandidate ← lift (_applyEnvOverrides env (mergeDeep defaultConfig newLocalCandidate));
  _ ← lift (parse_config fullCandidate);
  _ ← lift (_validateSources fullCandidate);
  ret newLocalCandidate.

Definition update (partialConfig : val) : M world unit :=
  cfg ← gets w_cfg;
  if c_saving cfg then throw (Error "Configuration save in progress") else
  modify (set_saving true) ;;
  try_finally
    (newLocal ← new_local partialConfig; _saveLocal newLocal ;; reload)
    (set_saving false).
End service.

(** ** Lemmas: merging *)

(** The keys of every object are distinct, as in any JavaScript value. *)
Fixpoint js_wf (v : val) : Prop :=
  match v with
  | VObj o =>
      NoDup (okeys o) /\
      (fix go o := match o with [] => True | (_, x) :: o' => js_wf x /\ go o' end) o
  | _ => True
  end.

Definition merge_key (output : val) (kv : string * val) : val :=
  if forbidden_key kv.1 then output else
  match kv.2 with
  | VObj _ => setp output kv.1
      (mergeDeep (if is_object (prop output kv.1) then prop output kv.1 else VObj []) kv.2)
  | x => setp output kv.1 x
  end.

Lemma mergeDeep_obj t o :
  mergeDeep t (VObj o) = if is_object t then foldl merge_key t o else VObj o.
Proof.
  cbn [mergeDeep]. destruct (is_object t); [|done]. cbn [negb].
  revert t. induction o as [|[k x] o IH]; intros t; [done|]. cbn [foldl]. rewrite <- IH.
  unfold merge_key. cbn [fst snd]. by destruct (forbidden_key k), x.
Qed.

Lemma js_wf_get o k : js_wf (VObj o) -> js_wf (oget k o).
Proof.
  intros [_ H]. induction o as [|[k' x] o IH]; [done|]. destruct H as [H1 H2]. cbn.
  destruct (String.eqb k k'); [done|by apply IH].
Qed.

Definition merged_value (old x : val) : val :=
  match x with
  | VObj _ => mergeDeep (if is_object old then old else VObj []) x
  | _ => x
  end.

Lemma merge_key_plain t kv : plain t -> plain (merge_key t kv).
Proof.
  intros Ht. unfold merge_key. destruct kv as [k x]. cbn.
  destruct (forbidden_key k); [done|]. destruct x; by apply setp_spec.
Qed.

Lemma merge_key_get t k x k' : plain t ->
  prop (merge_key t (k, x)) k' =
  if String.eqb k' k && negb (forbidden_key k) then merged_value (prop t k) x else prop t k'.
Proof.
  intros Ht. unfold merge_key. cbn [fst snd]. destruct (forbidden_key k).
  { by rewrite andb_false_r. }
  rewrite andb_true_r. destruct (String.eqb_spec k' k) as [->|Hne].
  - destruct x; apply setp_spec; done.
  - destruct x; by apply prop_setp_ne.
Qed.

(** What one level of a merge leaves under a key *)
Lemma merge_get t o k : plain t -> NoDup (okeys o) ->
  prop (foldl merge_key t o) k =
  if ohas k o && negb (forbidden_key k) then merged_value (prop t k) (oget k o) else prop t k.
Proof.
  revert t. induction o as [|[k' x] o IH]; intros t Ht; [done|].
  cbn [okeys fmap list_fmap fst]. intros [Hni Hnd]%NoDup_cons. cbn [foldl].
  rewrite IH by (try done; by apply merge_key_plain). rewrite !merge_key_get by done.
  cbn [ohas oget]. destruct (String.eqb_spec k k') as [->|Hne]; cbn [orb andb]; [|done].
  assert (ohas k' o = false) as -> by (apply not_true_is_false; by rewrite ohas_okeys).
  done.
Qed.

(** Reading along a path of keys *)
Fixpoint at_path (path : list string) (v : val) : val :=
  match path with [] => v | k :: path' => at_path path' (prop v k) end.

(** The source does not define anything on the way to the end of the path, or
    only under a forbidden key. *)
Fixpoint untouched (path : list string) (s : val) : bool :=
  match path, s with
  | k :: path', VObj o =>
      negb (ohas k o) || forbidden_key k ||
      match oget k o with VObj _ => untouched path' (oget k o) | _ => false end
  | _, _ => false
  end.

(** No array on the way in the target *)
Fixpoint no_arrays (path : list string) (t : val) : Prop :=
  is_array t = false /\ match path with [] => True | k :: path' => no_arrays path' (prop t k) end.

Lemma at_path_none path v : path <> [] -> props v = [] -> at_path path v = VUndef.
Proof.
  intros Hp Hv. destruct path as [|k path]; [done|]. cbn.
  assert (prop v k = VUndef) as -> by (destruct v as [| | | | | |[|]]; done).
  clear. by induction path.
Qed.

Lemma no_arrays_empty path : no_arrays path (VObj []).
Proof. destruct path as [|k path]; cbn; [done|]. split; [done|]. by induction path. Qed.

(** The target of a nested merge *)
Lemma nested_target path old :
  no_arrays path old ->
  exists t, (if is_object old then old else VObj []) = t /\ plain t /\ no_arrays path t /\
    (path <> [] -> at_path path t = at_path path old).
Proof.
  intros Hn. destruct old as [| | | | |l|o]; cbn [is_object];
    try (exists (VObj []); split; [done|]; split; [by eexists|]; split; [apply no_arrays_empty|];
         intros Hp; by rewrite !at_path_none).
  - by destruct path, Hn.
  - exists (VObj o). split; [done|]. split; [by eexists|]. done.
Qed.

Lemma merge_untouched path : forall t s,
  plain t -> js_wf s -> no_arrays path t -> untouched path s = true ->
  at_path path (mergeDeep t s) = at_path path t.
Proof.
  induction path as [|k path IH]; intros t s Ht Hs Hn Hu; [by destruct s|].
  destruct s as [| | | | | |o]; try done. rewrite mergeDeep_obj.
  destruct Ht as [to ->]. cbn [is_object at_path]. rewrite merge_get by (try apply Hs; by eexists).
  cbn [untouched] in Hu. destruct (ohas k o) eqn:Eh; cbn [andb negb orb] in *; [|done].
  destruct (forbidden_key k); cbn [negb orb] in *; [done|].
  pose proof (js_wf_get o k Hs) as Hx. destruct (oget k o) eqn:Eo; try done. cbn [merged_value].
  destruct Hn as [_ Hn]. destruct (nested_target path _ Hn) as (t & -> & Htp & Htn & Hta).
  rewrite IH by done. apply Hta. intros ->. done.
Qed.

Lemma merge_leaf path : forall t s leaf,
  plain t -> js_wf s -> no_arrays path t -> path <> [] ->
  forallb (fun k => negb (forbidden_key k)) path = true ->
  at_path path s = leaf -> leaf <> VUndef -> ~ plain leaf ->
  at_path path (mergeDeep t s) = leaf.
Proof.
  induction path as [|k path IH]; intros t s leaf Ht Hs Hn Hne Hf Hl Hu Hp; [done|].
  destruct s as [| | | | | |o];
    try (exfalso; apply Hu; rewrite <- Hl; by apply (at_path_none (k :: path))).
  rewrite mergeDeep_obj. destruct Ht as [to ->]. cbn [is_object at_path] in *.
  rewrite merge_get by (try apply Hs; by eexists). cbn in Hf. apply andb_true_iff in Hf as [-> Hf].
  change (prop (VObj o) k) with (oget k o) in Hl.
  assert (oget k o <> VUndef) as Hx.
  { intros E. apply Hu. rewrite <- Hl, E. clear. by induction path. }
  rewrite (oget_ohas _ _ Hx). cbn [andb].
  pose proof (js_wf_get o k Hs) as Hw. destruct path as [|k' path].
  - cbn in *. subst leaf. destruct (oget k o); try done. exfalso. apply Hp. by eexists.
  - destruct (oget k o) eqn:Eo;
      try (exfalso; apply Hu; rewrite <- Hl; by apply (at_path_none (k' :: path))).
    cbn [merged_value]. destruct Hn as [_ Hn].
    destruct (nested_target (k' :: path) _ Hn) as (t & -> & Htp & Htn & Hta). by apply IH.
Qed.

(** ** Lemmas: saving *)

(** What encryption does not touch: everything but the random draws *)
Definition core (w : world) : fs_state * cfg_state * gmap string string * Z :=
  (w_fs w, w_cfg w, w_env w, w_clock w).

Section saving.
Context `{R : OutputRegistry} `{Loc : Locale} `{Zd : Zod} `{I : Intl} `{C : Crypto} `{D : Dotenv}.

(** A view of the world that the random draws do not change *)
Section draws.
Context {B : Type} (core : world -> B) (Hrng : forall n w, core (set_rng n w) = core w).

Lemma keeps_random n : keeps core (randomBytes n).
Proof. intros w. apply Hrng. Qed.

Lemma keeps_encrypt s key : keeps core (encrypt s key).
Proof.
  unfold encrypt, _deriveKey. keeps_step. apply keeps_random.
Qed.

Lemma keeps_decrypt s key : keeps core (decrypt s key).
Proof. unfold decrypt, _deriveKey. keeps_step. Qed.

Lemma keeps_process_value act key s : keeps core (process_value act key s).
Proof.
  unfold process_value. pose proof keeps_encrypt. pose proof keeps_decrypt. keeps_step; eauto.
Qed.

Lemma keeps_process_keys act key keys v : keeps core (process_keys act key keys v).
Proof.
  revert v. induction keys as [|k keys IH]; intros v; [apply keeps_ret|]. cbn [process_keys].
  destruct (prop v k) as [| | | |s| |]; try apply IH.
  destruct (String.eqb s ""); [apply IH|]. intros w.
  pose proof (keeps_process_value act key s w) as Hv.
  destruct (process_value act key s w) as [[s'|e] w']; cbn in *; [|done].
  rewrite <- Hv. apply IH.
Qed.

Lemma keeps_process act obj : keeps core (_processSensitiveFields act obj).
Proof.
  pose proof keeps_process_keys.
  unfold _processSensitiveFields, _getEncryptionKey, process_outputs, process_output,
    process_source. keeps_step; eauto.
Qed.

End draws.

(** The outcomes of a save.  On success the local file is the new one and the
    temporary file is gone; on failure every other file is as it was. *)
Lemma saveLocal_cases config w r w' :
  _saveLocal config w = (r, w') ->
  w_cfg w' = w_cfg w /\ w_env w' = w_env w /\
  match r with
  | Ok _ => exists copy,
      (_processSensitiveFields Encrypt (json_clone config) w).1 = Ok copy /\
      files w' = <[LOCAL_PATH := File (Json copy) (w_clock w)]> (delete TEMP_PATH (files w))
  | Throw _ => forall p, p <> TEMP_PATH -> files w' !! p = files w !! p
  end.
Proof.
  unfold _saveLocal. intros H. pose proof (keeps_process core (fun _ _ => eq_refl) Encrypt (json_clone config) w) as Hk.
  munfold. destruct (_processSensitiveFields Encrypt (json_clone config) w) as [[copy|e] w1];
    cbn in Hk; unfold core in Hk; injection Hk as Hfs Hcfg Henv Hclk.
  2:{ injection H as <- <-. rewrite Hcfg, Henv. unfold files. by rewrite Hfs. }
  unfold fs_write, fs_unlink, fs_read, fs_rename, denied, files in *. rewrite <- Hfs.
  destruct (bool_decide (TEMP_PATH ∈ fs_denied (w_fs w1))) eqn:Ed; cbn in H.
  - destruct (fs_files (w_fs w1) !! TEMP_PATH); cbn in H; rewrite ?Ed in H; cbn in H;
      injection H as <- <-; by rewrite Hcfg, Henv.
  - rewrite lookup_insert_eq in H. cbn in H. rewrite lookup_insert_eq, Ed in H. cbn in H.
    destruct (bool_decide (LOCAL_PATH ∈ fs_denied (w_fs w1))); cbn in H.
    + rewrite lookup_insert_eq, Ed in H. cbn in H. injection H as <- <-. cbn.
      rewrite Hcfg, Henv. split_and!; [done..|]. intros p Hp.
      by rewrite lookup_delete_ne, lookup_insert_ne.
    + injection H as <- <-. cbn. rewrite Hcfg, Henv, Hclk. split_and!; [done..|].
      exists copy. split; [done|]. f_equal. apply map_eq. intros p.
      destruct (decide (p = TEMP_PATH)) as [->|Hne]; [by rewrite !lookup_delete_eq|].
      by rewrite !lookup_delete_ne, lookup_insert_ne by done.
Qed.

(** ** Lemmas: loading and updating *)
(** A view of the world that loading a configuration does not change: neither
    the draws, nor the files, nor the environment *)
Section loads.
Context {B : Type} (f : world -> B) (Hrng : forall n w, f (set_rng n w) = f w)
  (Hfiles : forall fs w, f (set_files fs w) = f w) (Henv : forall e w, f (set_env e w) = f w).

Lemma keeps_saveLocal config : keeps f (_saveLocal config).
Proof. pose proof (keeps_process f Hrng). unfold _saveLocal. keeps_step; auto. Qed.

Lemma keeps_load_env : keeps f load_env.
Proof.
  intros w. unfold load_env. destruct (files w !! ENV_PATH) as [fl|]; [|done]. cbn.
  revert w. induction (dotenv_pairs (text (f_content fl))) as [|kv l IH]; intros w; [done|].
  cbn. rewrite IH. apply Henv.
Qed.

Lemma keeps_load_raw : keeps f load_raw.
Proof.
  unfold load_raw, read_defaults, load_local.
  pose proof keeps_saveLocal. pose proof keeps_load_env. pose proof (keeps_process f Hrng).
  keeps_step; eauto.
Qed.

Lemma keeps_forget keys w : f (forget_keys keys w) = f w.
Proof.
  unfold forget_keys. destruct (files w !! ENV_PATH) as [fl|]; [|done].
  revert w. induction keys as [|k keys IH]; intros w; [done|]. cbn [foldl]. rewrite IH.
  unfold delete_lines. cbv zeta. case_match; [done|].
  munfold. unfold fs_write. destruct (denied w ENV_PATH); cbn; [done|].
  unfold env_del. by rewrite Henv, Hfiles.
Qed.

(** ... nor the configuration service's own fields *)
Lemma keeps_reload : (forall c w, f (set_cfg c w) = f w) -> keeps f reload.
Proof.
  intros Hc. unfold reload, then_forget, set_config. pose proof keeps_load_raw.
  apply keeps_bind; [done|]. intros mg. apply keeps_bind; [apply keeps_gets|]. intros env w.
  unfold lift, modify, mbind, M_bind. destruct (finalize env (em_config mg)); cbn [snd];
    rewrite keeps_forget; [apply Hc|done].
Qed.
End loads.

(** A load replaces the configuration by a validated one, or leaves it. *)
Lemma reload_memory w r w' :
  reload w = (r, w') ->
  c_saving (w_cfg w') = c_saving (w_cfg w) /\ c_initialized (w_cfg w') = c_initialized (w_cfg w) /\
  match r with
  | Ok _ => exists raw, zod_parse configSchema raw = Ok (c_config (w_cfg w'))
  | Throw _ => c_config (w_cfg w') = c_config (w_cfg w)
  end.
Proof.
  unfold reload. intros H. 
  pose proof (keeps_load_raw w_cfg (fun _ _ => eq_refl) (fun _ _ => eq_refl) (fun _ _ => eq_refl) w) as Hk. unfold mbind, M_bind, gets in H.
  destruct (load_raw w) as [[mg|e] w1]; cbn in Hk; [|injection H as <- <-; by rewrite Hk].
  unfold then_forget, lift in H. destruct (finalize (w_env w1) (em_config mg)) as [c|e] eqn:E;
    injection H as <- <-; rewrite (keeps_forget w_cfg), <- Hk by done; [|done]. split; [done|]. split; [done|].
  unfold finalize in E. destruct (_applyEnvOverrides _ _) as [c0|]; [|done].
  cbn [mbind result_bind] in E. set (c1 := _cleanSourceData _) in E.
  destruct (_validateSources c1); [|done]. cbn [mbind result_bind] in E.
  unfold parse_config, reporting in E. destruct (zod_parse configSchema c1) as [c'|] eqn:Ez; [|done].
  injection E as ->. exists c1. by rewrite Ez.
Qed.

(** Checking an update only reads. *)
Lemma new_local_pure partial w : (new_local partial w).2 = w.
Proof.
  assert (keeps (fun w => w) (new_local partial)) as H; [|apply H].
  unfold new_local, current_local, read_defaults. keeps_step.
Qed.

(** What is about to be saved was checked together with the defaults and the
    environment. *)
Definition checked (w : world) (newLocal : val) : Prop :=
  exists defaults full config,
    (read_defaults w).1 = Ok defaults /\
    _applyEnvOverrides (w_env w) (mergeDeep defaults newLocal) = Ok full /\
    _validateSources full = Ok tt /\
    zod_parse configSchema full = Ok config.

Lemma new_local_checked partial w newLocal :
  (new_local partial w).1 = Ok newLocal -> checked w newLocal.
Proof.
  pose proof (new_local_pure partial w) as Hp. destruct (new_local partial w) as [r w'] eqn:E.
  cbn in *. subst w'. intros ->. unfold new_local in E.
  apply M_bind_inv in E as (current & w1 & H1 & E).
  assert (w1 = w) as ->.
  { assert (keeps (fun w => w) current_local) as Hk by (unfold current_local; keeps_step).
    specialize (Hk w). by rewrite H1 in Hk. }
  apply M_bind_inv in E as (env & w2 & [= <- <-] & E).
  apply M_bind_inv in E as (defaults & w3 & H3 & E).
  assert (w3 = w) as ->.
  { assert (keeps (fun w => w) read_defaults) as Hk by (unfold read_defaults; keeps_step).
    specialize (Hk w). by rewrite H3 in Hk. }
  apply M_bind_inv in E as (full & w4 & [= H4 <-] & E).
  apply M_bind_inv in E as (config & w5 & [= H5 <-] & E).
  apply M_bind_inv in E as ([] & w6 & [= H6 <-] & E). injection E as <-.
  unfold parse_config, reporting in H5. destruct (zod_parse configSchema full) as [c|] eqn:Ez; [|done].
  exists defaults, full, c. by rewrite H3.
Qed.

Lemma checked_saving b w newLocal : checked (set_saving b w) newLocal -> checked w newLocal.
Proof.
  intros (defaults & full & config & H & Hrest). exists defaults, full, config. split; [|exact Hrest].
  rewrite <- H. unfold read_defaults, mbind, M_bind, fs_read. change (files (set_saving b w)) with (files w).
  by destruct (files w !! CONFIG_PATH).
Qed.

Lemma set_saving_back w : c_saving (w_cfg w) = false -> set_saving false (set_saving true w) = w.
Proof.
  destruct w as [? ? ? ? ? [c i s] ? ? ? ? ?]. cbn. intros ->. done.
Qed.

Lemma keeps_update {B} (f : world -> B) partial :
  (forall n w, f (set_rng n w) = f w) -> (forall fs w, f (set_files fs w) = f w) ->
  (forall e w, f (set_env e w) = f w) -> (forall c w, f (set_cfg c w) = f w) ->
  keeps f (update partial).
Proof.
  intros Hr Hf He Hc. unfold update. pose proof (keeps_saveLocal f Hr Hf). pose proof (keeps_reload f Hr Hf He Hc).
  apply keeps_bind; [apply keeps_gets|]. intros cfg. destruct (c_saving cfg); [apply keeps_throw|].
  apply keeps_bind; [apply keeps_modify; intros; apply Hc|]. intros [].
  apply keeps_finally; [|intros; apply Hc]. apply keeps_bind; [|intros; by apply keeps_bind].
  intros w. by rewrite new_local_pure.
Qed.

(** The outcome of an update, on every path *)
Definition update_outcome (partial : val) (w : world) (r : result unit) (w' : world) : Prop :=
  (c_saving (w_cfg w) = true -> is_ok r = false /\ w' = w) /\
  (c_saving (w_cfg w) = false ->
   c_saving (w_cfg w') = false /\
   match (new_local partial (set_saving true w)).1 with
   | Throw e => r = Throw e /\ w' = w
   | Ok newLocal =>
       checked w newLocal /\
       (is_ok (_saveLocal newLocal (set_saving true w)).1 = false ->
        is_ok r = false /\ forall p, p <> TEMP_PATH -> files w' !! p = files w !! p) /\
       (well_typed_config (c_config (w_cfg w')) \/ is_ok r = false) /\
       (is_ok r = false -> c_config (w_cfg w') = c_config (w_cfg w))
   end).

Lemma update_cases {ZL : ZodLaws Zd} partial w r w' :
  update partial w = (r, w') -> update_outcome partial w r w'.
Proof.
  intros H. unfold update_outcome. unfold update, gets in H. unfold mbind, M_bind at 1 in H.
  destruct (c_saving (w_cfg w)) eqn:Es.
  { split; [|done]. intros _. by injection H as <- <-. }
  split; [done|]. intros _. unfold modify, try_finally, mbind, M_bind in H.
  set (w1 := set_saving true w) in *.
  pose proof (new_local_pure partial w1) as Hp.
  pose proof (new_local_checked partial w1) as Hv.
  destruct (new_local partial w1) as [[nl|e] w2]; cbn in Hp; subst w2; cbn [fst] in *.
  2:{ injection H as <- <-. unfold w1. by rewrite set_saving_back. }
  assert (checked w nl) as Hck by exact (checked_saving true w nl (Hv nl eq_refl)). clear Hv.
  destruct (_saveLocal nl w1) as [[[]|e] w2] eqn:Esave; cbn [fst is_ok].
  - apply saveLocal_cases in Esave as (Hc & _ & _).
    destruct (reload w2) as [r3 w3] eqn:Er. injection H as <- <-.
    apply reload_memory in Er as (_ & _ & Hr). split; [done|]. split; [done|]. split; [done|].
    destruct r3 as [[]|e]; cbn [is_ok].
    + split; [left|done]. destruct Hr as [raw Hr]. cbn.
      apply conforms_config_typed. by eapply (zod_parse_ok (ZL := ZL)).
    + split; [by right|]. intros _. cbn. by rewrite Hr, Hc.
  - apply saveLocal_cases in Esave as (Hc & _ & Hf). injection H as <- <-.
    split; [done|]. split; [done|]. split; [intros _; split; [done|exact Hf]|]. split; [by right|].
    intros _. cbn. by rewrite Hc.
Qed.

(** What a successful update saves: the local file becomes the old one with the
    update merged in, its sources cleaned, what the environment provides left
    out and its secrets encrypted, after a check together with the defaults; no
    other file but the temporary one changes.  The configuration in memory is
    then loaded from the files. *)
Definition saves (partial : val) (w w' : world) : Prop :=
  exists current copy w1 w2,
    (current_local w).1 = Ok current /\
    let newLocal := _stripSecrets (w_env w) (_cleanSourceData (mergeDeep current partial)) in
    checked w newLocal /\
    (_processSensitiveFields Encrypt (json_clone newLocal) (set_saving true w)).1 = Ok copy /\
    _saveLocal newLocal (set_saving true w) = (Ok tt, w1) /\
    files w1 = <[LOCAL_PATH := File (Json copy) (w_clock w)]> (delete TEMP_PATH (files w)) /\
    reload w1 = (Ok tt, w2) /\ w' = set_saving false w2.

Lemma new_local_merge partial w newLocal :
  (new_local partial w).1 = Ok newLocal ->
  exists current, (current_local w).1 = Ok current /\
    newLocal = _stripSecrets (w_env w) (_cleanSourceData (mergeDeep current partial)).
Proof.
  pose proof (new_local_pure partial w) as Hp. destruct (new_local partial w) as [r w'] eqn:E.
  cbn in *. subst w'. intros ->. unfold new_local in E.
  apply M_bind_inv in E as (current & w1 & H1 & E).
  assert (w1 = w) as ->.
  { assert (keeps (fun w => w) current_local) as Hk by (unfold current_local; keeps_step).
    specialize (Hk w). by rewrite H1 in Hk. }
  apply M_bind_inv in E as (env & w2 & [= <- <-] & E).
  do 4 (apply M_bind_inv in E as (? & ? & _ & E)). injection E as <- _. exists current. by rewrite H1.
Qed.

Lemma update_saves partial w w' : update partial w = (Ok tt, w') -> saves partial w w'.
Proof.
  intros H. unfold update, gets in H. unfold mbind, M_bind at 1 in H.
  destruct (c_saving (w_cfg w)) eqn:Es; [done|].
  unfold modify, try_finally, mbind, M_bind in H. set (w1 := set_saving true w) in *.
  pose proof (new_local_pure partial w1) as Hp. pose proof (new_local_checked partial w1) as Hv.
  pose proof (new_local_merge partial w1) as Hm.
  destruct (new_local partial w1) as [[nl|e] w2]; cbn in Hp; subst w2; [|done]. cbn [fst] in *.
  destruct (Hm nl eq_refl) as (current & Hcur & ->). specialize (Hv _ eq_refl). cbv zeta in *.
  destruct (_saveLocal _ w1) as [[[]|e] w2] eqn:Esave; [|done].
  destruct (saveLocal_cases _ _ _ _ Esave) as (_ & _ & copy & Hcopy & Hf).
  destruct (reload w2) as [[[]|e] w3] eqn:Er; [|done]. injection H as <-.
  exists current, copy, w2, w3. split; [|cbv zeta; split; [by apply (checked_saving true)|by split_and!]].
  rewrite <- Hcur. unfold current_local, try_catch, mbind, M_bind, fs_read.
  change (files w1) with (files w). destruct (files w !! LOCAL_PATH) as [f|]; [|done].
  destruct (content_nonblank (f_content f)); [|done]. by destruct (f_content f).
Qed.

Lemma update_config {ZL : ZodLaws Zd} partial w r w' :
  update partial w = (r, w') ->
  match r with
  | Ok _ => well_typed_config (c_config (w_cfg w'))
  | Throw _ => c_config (w_cfg w') = c_config (w_cfg w)
  end.
Proof.
  intros H. destruct (update_cases _ _ _ _ H) as [Ht Hf].
  destruct (c_saving (w_cfg w)); [destruct (Ht eq_refl) as [Hr ->]; by destruct r|].
  destruct (Hf eq_refl) as [_ Hm]. destruct (new_local _ _).1 as [nl|e].
  - destruct Hm as (_ & _ & [Hw|Hr] & Hk); destruct r; try done; by apply Hk.
  - destruct Hm as [-> ->]. done.
Qed.

(** ** Properties *)

(** C26: merging.  A leaf the update defines replaces what was there; whatever it
    does not reach keeps its value, and nothing under a key of the prototype
    chain is ever taken from it. *)
Theorem mergeDeep_paths target source path :
  plain target -> js_wf source -> no_arrays path target ->
  (untouched path source = true ->
   at_path path (mergeDeep target source) = at_path path target) /\
  (forall leaf, path <> [] -> forallb (fun k => negb (forbidden_key k)) path = true ->
   at_path path source = leaf -> leaf <> VUndef -> ~ plain leaf ->
   at_path path (mergeDeep target source) = leaf).
Proof.
  intros Ht Hs Hn. split; [by apply merge_untouched|]. intros leaf Hp Hf. by apply merge_leaf.
Qed.

(** C6: updates are transactional.  While one is in progress another is refused
    and changes nothing.  An update that fails validation changes nothing
    either; what is saved was valid together with the defaults and the
    environment, sources included.  An update whose write fails leaves every file but the temporary
    one, and the configuration in memory, as they were.  In the end the
    configuration in memory is a validated one, or the one from before, and
    the service is free for the next update. *)
Theorem update_transactional {ZL : ZodLaws Zd} partial w r w' :
  update partial w = (r, w') ->
  (c_saving (w_cfg w) = true -> is_ok r = false /\ w' = w) /\
  (c_saving (w_cfg w) = false ->
   c_saving (w_cfg w') = false /\
   match (new_local partial (set_saving true w)).1 with
   | Throw e => r = Throw e /\ w' = w
   | Ok newLocal =>
       checked w newLocal /\
       (is_ok (_saveLocal newLocal (set_saving true w)).1 = false ->
        is_ok r = false /\ forall p, p <> TEMP_PATH -> files w' !! p = files w !! p) /\
       (well_typed_config (c_config (w_cfg w')) \/ is_ok r = false) /\
       (is_ok r = false -> c_config (w_cfg w') = c_config (w_cfg w))
   end).
Proof. apply update_cases. Qed.
End saving.

(** ** Secrets at rest *)
Section secrets.
Context `{R : OutputRegistry} `{Loc : Locale} `{CL : CryptoLaws}.
Variables (key salt : string).

(** The process has the signing secret and the salt it had. *)
Definition keyed (w : world) : Prop :=
  salted w salt /\ w_env w !! "JWT_SECRET" = Some key /\ key <> "".

(** A value the encryption step does encrypt, or has nothing to do with *)
Definition encryptable (v : val) : Prop :=
  forall s, v = VStr s -> has_char ":" s = false /\ isMasked (VStr s) = false.

(** [y] is what is written for [x]. *)
Definition sealed (x y : val) : Prop :=
  match x with
  | VStr s =>
      if String.eqb s "" then y = x else
      exists c, y = VStr c /\ has_char ":" c = true /\ c <> "" /\
        forall w, salted w salt -> decrypt c key w = (Ok s, w)
  | _ => y = x
  end.

Lemma setp_same v k : truthy (prop v k) = true -> setp v k (prop v k) = v.
Proof.
  intros H. destruct v as [| | | | | |o]; try done. cbn. f_equal. apply oset_same.
  by apply (truthy_ohas (VObj o)).
Qed.

Lemma salted_rng n w : salted w salt -> salted (set_rng n w) salt.
Proof. done. Qed.

Lemma encrypt_sealed s w :
  salted w salt -> s <> "" -> encryptable (VStr s) ->
  exists c, process_value Encrypt key s w = (Ok c, set_rng (S (w_rng w)) w) /\
    sealed (VStr s) (VStr c).
Proof.
  intros Hw Hs He. destruct (He s eq_refl) as [Hc Hm]. unfold process_value. rewrite Hc, Hm.
  cbn [negb andb]. destruct (encrypt_ok w salt s key Hw Hs) as (iv & tag & data & -> & Hg).
  eexists. split; [done|]. unfold sealed. apply String.eqb_neq in Hs as ->.
  eexists. split; [done|]. split; [apply has_char_colon_app|]. split.
  - intros E. pose proof (cipher_nonempty (to_hex iv) (to_hex tag +:+ String ":" (to_hex data))) as Hn.
    by rewrite E in Hn.
  - intros w' Hw'. rewrite (decrypt_fields w' salt) by done.
    pose proof (law_open (scrypt key salt 32) iv s) as Ho. rewrite Hg in Ho. cbn in Ho.
    by rewrite Ho.
Qed.

(** Encrypting the keys of a container seals each of them, and only them. *)
Lemma encrypt_keys keys : forall o w,
  NoDup keys -> salted w salt -> (forall k, k ∈ keys -> encryptable (oget k o)) ->
  exists o1 n, process_keys Encrypt key keys (VObj o) w = (Ok (VObj o1), set_rng n w) /\
    okeys o1 = okeys o /\
    forall k, if existsb (String.eqb k) keys then sealed (oget k o) (oget k o1)
              else oget k o1 = oget k o.
Proof.
  induction keys as [|s keys IH]; intros o w Hnd Hw He.
  { exists o, (w_rng w). split; [by destruct w|]. by split. }
  apply NoDup_cons in Hnd as [Hni Hnd]. cbn [process_keys prop].
  assert (existsb (String.eqb s) keys = false) as Hex.
  { apply not_true_is_false. intros (x & Hx & ->%String.eqb_eq)%existsb_exists.
    by apply Hni, list_elem_of_In. }
  assert (forall k, k ∈ keys -> encryptable (oget k o)) as He' by (intros; apply He; set_solver).
  assert (process_keys Encrypt key (s :: keys) (VObj o) w = process_keys Encrypt key keys (VObj o) w
    -> sealed (oget s o) (oget s o) -> exists o1 n,
      process_keys Encrypt key (s :: keys) (VObj o) w = (Ok (VObj o1), set_rng n w) /\
      okeys o1 = okeys o /\
      forall k, if existsb (String.eqb k) (s :: keys) then sealed (oget k o) (oget k o1)
                else oget k o1 = oget k o) as Hskip.
  { intros E Hsame. rewrite E. destruct (IH o w Hnd Hw He') as (o1 & n & -> & Hk & Hg).
    exists o1, n. split; [done|]. split; [done|]. intros k. cbn [existsb].
    destruct (String.eqb_spec k s) as [->|]; [|apply Hg]. specialize (Hg s). rewrite Hex in Hg.
    cbn. by rewrite Hg. }
  cbn [process_keys prop] in Hskip.
  destruct (oget s o) as [| | | |t| |] eqn:Es; try (by apply Hskip).
  destruct (String.eqb_spec t "") as [->|Hne]; [by apply Hskip|]. clear Hskip.
  destruct (encrypt_sealed t w Hw Hne) as (c & -> & Hsl); [by rewrite <- Es; apply He; set_solver|].
  destruct (IH (oset s (VStr c) o) (set_rng (S (w_rng w)) w) Hnd Hw) as (o1 & n & Hr & Hk & Hg).
  { intros k Hin. rewrite oget_oset_ne; [by apply He'|]. intros ->. done. }
  cbn [setp]. rewrite Hr. exists o1, n. split; [done|]. split.
  { rewrite Hk. apply okeys_oset, ohas_okeys, oget_ohas. by rewrite Es. }
  intros k. cbn [existsb]. specialize (Hg k). destruct (String.eqb_spec k s) as [->|Hks].
  - rewrite Hex, oget_oset in Hg. by rewrite Hg, Es.
  - by rewrite oget_oset_ne in Hg.
Qed.

(** Decrypting sealed keys restores them. *)
Lemma decrypt_keys keys : forall o o1 w,
  NoDup keys -> salted w salt -> NoDup (okeys o) -> okeys o1 = okeys o ->
  (forall k, k ∈ keys -> encryptable (oget k o)) ->
  (forall k, if existsb (String.eqb k) keys then sealed (oget k o) (oget k o1)
             else oget k o1 = oget k o) ->
  process_keys Decrypt key keys (VObj o1) w = (Ok (VObj o), w).
Proof.
  induction keys as [|s keys IH]; intros o o1 w Hnd Hw Ho Hk He Hg.
  { assert (o1 = o) as ->; [|done]. apply obj_ext; [by rewrite Hk|done|apply Hg]. }
  apply NoDup_cons in Hnd as [Hni Hnd]. cbn [process_keys prop].
  assert (forall o2, okeys o2 = okeys o -> oget s o2 = oget s o ->
    (forall k, k <> s -> oget k o2 = oget k o1) ->
    process_keys Decrypt key keys (VObj o2) w = (Ok (VObj o), w)) as Hrest.
  { intros o2 Hk2 Hs2 Hg2. apply IH; try done; [intros; apply He; set_solver|].
    intros k. specialize (Hg k). cbn [existsb] in Hg.
    destruct (String.eqb_spec k s) as [E|Hne]; [subst k|by rewrite Hg2].
    assert (existsb (String.eqb s) keys = false) as ->; [|done].
    apply not_true_is_false. intros (x & Hx & ->%String.eqb_eq)%existsb_exists.
    by apply Hni, list_elem_of_In. }
  pose proof (Hg s) as Hs. cbn [existsb] in Hs. rewrite String.eqb_refl in Hs. cbn [orb] in Hs.
  unfold sealed in Hs. destruct (oget s o) as [| | | |t| |] eqn:Es;
    try (rewrite Hs; apply Hrest; [done|by rewrite Hs|done]).
  destruct (String.eqb_spec t "") as [->|Hne].
  { rewrite Hs. cbn. apply Hrest; [done|by rewrite Hs|done]. }
  destruct Hs as (c & -> & Hc & Hcn & Hd). apply String.eqb_neq in Hcn as ->.
  unfold process_value. rewrite Hc. unfold try_catch. rewrite Hd by done. cbn [setp].
  apply Hrest; [|apply oget_oset|intros; by apply oget_oset_ne].
  rewrite okeys_oset; [done|]. rewrite Hk. apply ohas_okeys, oget_ohas. by rewrite Es.
Qed.

(** A configuration with distinct sensitive keys and encryptable values *)
Record storable (c : val) (outputs : list (string * val)) : Prop := {
  sto_maskable : maskable c outputs;
  sto_keys : forall id keys, sensitive_params id = Ok keys -> NoDup keys;
  sto_values : forall id v keys k, (id, v) ∈ outputs -> sensitive_params id = Ok keys ->
    k ∈ keys -> encryptable (prop (prop v "params") k)
}.

(** [v1] is what is written for the output [v] of [id]. *)
Definition sealed_output (id : string) (v v1 : val) : Prop :=
  (forall w, salted w salt -> process_output Decrypt key id v1 w = (Ok v, w)) /\
  (forall keys k, sensitive_params id = Ok keys -> k ∈ keys ->
     sealed (prop (prop v "params") k) (prop (prop v1 "params") k)).

Lemma in_existsb k keys : k ∈ keys -> existsb (String.eqb k) keys = true.
Proof.
  intros H. apply existsb_exists. exists k. split; [by apply list_elem_of_In|apply String.eqb_refl].
Qed.

Lemma encrypt_output c outputs id v w :
  storable c outputs -> (id, v) ∈ outputs -> salted w salt ->
  exists v1 n, process_output Encrypt key id v w = (Ok v1, set_rng n w) /\ sealed_output id v v1.
Proof.
  intros [Hm Hk Hv] Hin Hw. destruct (mk_params _ _ Hm _ _ Hin) as (o & p & -> & Hp & Hnd).
  unfold process_output, sealed_output, process_output.
  destruct (sensitive_params id) as [keys|e] eqn:Es.
  2:{ exists (VObj o), (w_rng w). split; [by destruct w|]. by split. }
  cbn [prop]. rewrite Hp. cbn [truthy].
  assert (forall k, k ∈ keys -> encryptable (oget k p)) as He.
  { intros k Hin'. pose proof (Hv _ _ _ k Hin Es Hin') as H. cbn in H. by rewrite Hp in H. }
  destruct (encrypt_keys keys p w (Hk _ _ Es) Hw He) as (p1 & n & Hr & Hkp & Hg).
  rewrite (M_bind_ok _ _ _ _ _ Hr). exists (setp (VObj o) "params" (VObj p1)), n.
  split; [done|]. cbn [setp prop]. rewrite oget_oset. cbn [truthy]. split.
  - intros w' Hw'. erewrite M_bind_ok by (by eapply decrypt_keys; eauto).
    unfold ret. cbn [setp]. rewrite oset_oset, <- Hp, oset_same; [done|].
    apply oget_ohas. by rewrite Hp.
  - intros keys' k [= <-] Hin'. specialize (Hg k). by rewrite in_existsb in Hg.
Qed.

(** The loop over the outputs *)
Definition process_entry (act : action) (kv : string * val) : M world (string * val) :=
  output ← process_output act key kv.1 kv.2; ret (kv.1, output).

Lemma encrypt_entries c outputs l w :
  storable c outputs -> (forall kv, kv ∈ l -> kv ∈ outputs) -> salted w salt ->
  exists l1 n, map_m (process_entry Encrypt) l w = (Ok l1, set_rng n w) /\
    Forall2 (fun kv kv1 => kv1.1 = kv.1 /\ sealed_output kv.1 kv.2 kv1.2) l l1.
Proof.
  intros Hs. revert w. induction l as [|[id v] l IH]; intros w Hl Hw.
  { exists [], (w_rng w). split; [by destruct w|constructor]. }
  destruct (encrypt_output c outputs id v w Hs) as (v1 & n & Hr & Hsl); [|done|].
  { apply Hl. apply list_elem_of_here. }
  destruct (IH (set_rng n w)) as (l1 & n' & Hr' & Hf); [|done|].
  { intros kv Hin. apply Hl. by apply list_elem_of_further. }
  exists ((id, v1) :: l1), n'. split; [|by constructor]. cbn [map_m].
  erewrite M_bind_ok by (unfold process_entry; cbn [fst snd]; by rewrite (M_bind_ok _ _ _ _ _ Hr)).
  by rewrite (M_bind_ok _ _ _ _ _ Hr').
Qed.

Lemma decrypt_entries l l1 w :
  Forall2 (fun kv kv1 => kv1.1 = kv.1 /\ sealed_output kv.1 kv.2 kv1.2) l l1 -> salted w salt ->
  map_m (process_entry Decrypt) l1 w = (Ok l, w).
Proof.
  intros Hf Hw. induction Hf as [|[id v] [id1 v1] l l1 [Hid [Hd _]] Hf IH]; [done|].
  cbn [fst snd] in *. subst id1. cbn [map_m].
  erewrite M_bind_ok by (unfold process_entry; cbn [fst snd]; by rewrite (M_bind_ok _ _ _ _ _ (Hd w Hw))).
  by rewrite (M_bind_ok _ _ _ _ _ IH).
Qed.

Lemma process_source_id act role c w : process_source act key role c w = (Ok c, w).
Proof.
  unfold process_source. cbv zeta. destruct (_ && _) eqn:E; [|done].
  apply andb_true_iff in E as [E _]. rewrite source_secrets_nil. cbn [process_keys].
  unfold mbind, M_bind, ret, source_of in *. rewrite (setp_same _ _ E).
  rewrite setp_same; [done|]. by destruct (prop c "sources").
Qed.

(** The whole tree, given the loop over its outputs *)
Lemma process_tree act c outputs l w w1 :
  keyed w -> prop (prop c "automation") "outputs" = VObj outputs ->
  map_m (process_entry act) outputs w = (Ok l, w1) ->
  _processSensitiveFields act c w
  = (Ok (setp c "automation" (setp (prop c "automation") "outputs" (VObj l))), w1).
Proof.
  intros (Hs & Hj & Hne) Ho Hl. unfold _processSensitiveFields.
  assert (exists o, c = VObj o) as [o Hc].
  { destruct c; try done. by eexists. }
  rewrite Hc. cbn [truthy is_object negb orb].
  assert (_getEncryptionKey w = (Ok key, w)) as Hk.
  { unfold _getEncryptionKey, gets, mbind, M_bind, env_get. rewrite Hj. cbn.
    apply String.eqb_neq in Hne. by rewrite Hne. }
  rewrite (M_bind_ok _ _ _ _ _ Hk). cbv zeta. rewrite <- Hc, Ho. cbn [truthy].
  erewrite M_bind_ok.
  2:{ unfold process_outputs. erewrite M_bind_ok; [reflexivity|].
      by rewrite (M_bind_ok _ _ _ _ _ Hl). }
  set (c' := setp c "automation" _). cbv beta.
  destruct (truthy (prop c' "sources")); [|done].
  rewrite (M_bind_ok _ _ _ _ _ (process_source_id act "primary" c' w1)).
  apply process_source_id.
Qed.

End secrets.

(** ** Witnesses *)
Definition line_dotenv : Dotenv := fun s => omap parse_line (split_lines s).

Lemma mergeDeep_paths_witness :
  let t := VObj [("a", VObj [("b", VInt 1); ("c", VInt 2)])] in
  let s := VObj [("a", VObj [("b", VInt 3); ("__proto__", VObj [("c", VInt 9)])])] in
  at_path ["a"; "b"] (mergeDeep t s) = VInt 3 /\ at_path ["a"; "c"] (mergeDeep t s) = VInt 2 /\
  at_path ["a"; "__proto__"; "c"] (mergeDeep t s) = VUndef.
Proof.
  assert (js_wf (VObj [("a", VObj [("b", VInt 3); ("__proto__", VObj [("c", VInt 9)])])])) as Hw.
  { cbn. split_and!; try done; try apply NoDup_singleton.
    apply NoDup_cons. split; [by intros ?%list_elem_of_singleton|apply NoDup_singleton]. }
  intros t s. split; [|split].
  - apply (proj2 (mergeDeep_paths t s ["a"; "b"] (ex_intro _ _ eq_refl) Hw
      ltac:(by repeat split))); try done. by intros [? [=]].
  - rewrite (proj1 (mergeDeep_paths t s ["a"; "c"] (ex_intro _ _ eq_refl) Hw
      ltac:(by repeat split))); vm_compute; reflexivity.
  - rewrite (proj1 (mergeDeep_paths t s ["a"; "__proto__"; "c"] (ex_intro _ _ eq_refl) Hw
      ltac:(by repeat split))); vm_compute; reflexivity.
Defined.

(** A fresh installation with both secrets of the process set *)
Definition installed : world :=
  set_files {[ CONFIG_PATH := File (Json sample_config) 0 ]}
    (set_env {[ "JWT_SECRET" := "s3cret"; "ENCRYPTION_SALT" := "pepper" ]} empty_world).

Lemma update_transactional_witness :
  let update := update (R := two_secrets) (Loc := bytes_locale) (Zd := zod_ref) (I := any_zone)
    (C := toy_crypto) (D := line_dotenv) in
  let partial := VObj [("data", VObj [("storageLimit", VInt 2)])] in
  update partial (set_saving true installed)
    = (Throw (Error "Configuration save in progress"), set_saving true installed) /\
  well_typed_config (c_config (w_cfg (update partial installed).2)).
Proof.
  intros upd partial. split.
  - destruct (update_transactional (R := two_secrets) (Loc := bytes_locale) (I := any_zone)
      (C := toy_crypto) (D := line_dotenv) (ZL := zod_ref_laws) partial
      (set_saving true installed) _ _ (surjective_pairing _)) as [H _].
    destruct (H eq_refl) as [_ H2]. unfold upd. rewrite (surjective_pairing (update _ _)), H2. done.
  - destruct (update_transactional (R := two_secrets) (Loc := bytes_locale) (I := any_zone)
      (C := toy_crypto) (D := line_dotenv) (ZL := zod_ref_laws) partial
      installed _ _ (surjective_pairing _)) as [_ H].
    destruct (H eq_refl) as [_ H2]. clear H.
    match type of H2 with match ?x with _ => _ end =>
      assert (is_ok x = true) as Hx by (vm_compute; reflexivity);
      destruct x as [v|e]; [clear Hx|discriminate Hx] end.
    destruct H2 as (_ & _ & [H2|H2] & _); [exact H2|].
    exfalso. vm_compute in H2. discriminate H2.
Defined.


(** ** What the model shows *)
Definition token_config (token : string) : val := VObj [("automation", VObj [("outputs", VObj
  [("voicemonkey", VObj [("params", VObj [("token", VStr token)])])])])].

(** The token in the file a save writes *)
Definition saved_token (config : val) (w : world) : option val :=
  match files (_saveLocal (R := two_secrets) (Loc := bytes_locale) (C := toy_crypto) config w).2
        !! LOCAL_PATH with
  | Some (File (Json copy) _) => Some (prop (params_of copy "voicemonkey") "token")
  | _ => None
  end.

(** A secret with a colon in it is taken for an encrypted one and written as it
    is; without the salt, so is every secret, as the failure is swallowed. *)
Example plain_secrets_saved :
  saved_token (token_config "id:t0ken") installed = Some (VStr "id:t0ken") /\
  saved_token (token_config "t0ken") (set_env {[ "JWT_SECRET" := "s3cret" ]} installed)
    = Some (VStr "t0ken").
Proof. vm_compute. done. Qed.

(** Two secrets migrated out of the .env file together: the second removal
    rewrites the text it read before the first one, whose line is back. *)
Example forget_race :
  let w := set_files {[ ENV_PATH := File (Text ("VOICEMONKEY_TOKEN=t" +:+ String LF
                          ("VOICEMONKEY_DEVICE=d" +:+ String LF "PORT=3000"))) 0 ]} installed in
  files (forget_keys ["VOICEMONKEY_TOKEN"; "VOICEMONKEY_DEVICE"] w) !! ENV_PATH
  = Some (File (Text ("VOICEMONKEY_TOKEN=t" +:+ String LF "PORT=3000")) 0).
Proof. vm_compute. done. Qed.

(** A load with the token in the environment writes it to the local file. *)
Example env_secret_persisted :
  let w := set_env {[ "JWT_SECRET" := "s3cret"; "ENCRYPTION_SALT" := "pepper";
                      "VOICEMONKEY_TOKEN" := "t0ken" ]} installed in
  let w' := (reload (R := two_secrets) (Loc := bytes_locale) (Zd := zod_ref) (I := any_zone)
               (C := toy_crypto) (D := line_dotenv) w).2 in
  is_ok (fs_access LOCAL_PATH w').1 = true.
Proof. vm_compute. done. Qed.
