(* ===== verification/Storage.v ===== *)
(** * Storage quota ([src/services/system/storageService.js])

    Directories are implicit in the model's file system, which has no links, so
    the recursive walk of the source is a sum over the files below a
    directory.  The free space of the disk is a parameter. *)
From S2P Require Import Prelude JsString JsValue World ConfigStore.

Definition AUDIO_DIR : string := "/app/public/audio".
Definition CUSTOM_DIR : string := AUDIO_DIR +:+ "/custom".
Definition CACHE_DIR : string := AUDIO_DIR +:+ "/cache".

Definition content_size (c : content) : Z :=
  match c with
  | Audio size _ => size
  | Text s => Z.of_nat (String.length s)
  | Json v => Z.of_nat (String.length (stringified v))
  end.

Definition zsum (l : list Z) : Z := foldr Z.add 0 l.

(** The files below a directory *)
Definition below (dirPath : string) (w : world) : list (string * file) :=
  filter (fun kv => starts_with (dirPath +:+ "/") kv.1 = true) (map_to_list (files w)).

Definition getDirSize (dirPath : string) (w : world) : Z :=
  zsum ((fun kv => content_size (f_content kv.2)) <$> below dirPath w).

Definition getUsage (w : world) : val :=
  let customSize := getDirSize CUSTOM_DIR w in
  let cacheSize := getDirSize CACHE_DIR w in
  VObj [("total", VInt (customSize + cacheSize)); ("custom", VInt customSize);
        ("cache", VInt cacheSize)].

(** [checkDiskSpace(path).free] *)
Class DiskSpace := free_space : string -> result Z.

Definition getSystemStats `{D : DiskSpace} : val :=
  match free_space AUDIO_DIR with Ok n => VInt n | Throw _ => VNull end.

Definition GIB : Q := 1073741824.

Definition quota_result (success : bool) (message : string) : val :=
  VObj [("success", VBool success); ("message", VStr message)].

Definition checkQuota (bytesToAdd : Z) : M world val :=
  config ← config_get;
  usage ← gets getUsage;
  let limitBytes := (num_of (js_or (prop (prop config "data") "storageLimit") (VInt 1)) * GIB)%Q in
  let totalAfter := (num_of (prop usage "total") + inject_Z bytesToAdd)%Q in
  ret (if Qle_bool totalAfter limitBytes then quota_result true "Quota check passed"
       else quota_result false "Storage Limit Exceeded").

(** The enabled events of a type *)
Definition enabled_of_type (triggers : val) (type : string) : Z :=
  zsum ((fun p => Z.of_nat (length (filter (fun kv =>
           truthy (prop kv.2 "enabled") && seq (prop kv.2 "type") (VStr type) = true) (props p.2))))
        <$> props triggers).

Definition Qmax (a b : Q) : Q := if Qle_bool a b then b else a.

Definition calculateRecommendedLimit : M world val :=
  config ← config_get;
  let triggers := prop (prop config "automation") "triggers" in
  if negb (truthy triggers) then ret (VNum (1 # 2)) else
  let fileCount := inject_Z (enabled_of_type triggers "file") in
  let ttsCount := inject_Z (enabled_of_type triggers "tts") in
  let estimatedBytes := ((fileCount * (1 # 2) + ttsCount * (1 # 10)) * 1048576)%Q in
  let recommendedBytes := (estimatedBytes * 2 + 104857600)%Q in
  ret (VNum (Qmax (1 # 2) (inject_Z (Qceiling (recommendedBytes / GIB * 10)) / 10)%Q)).

(** ** Lemmas *)
Lemma zsum_nonneg l : Forall (fun z => 0 <= z) l -> 0 <= zsum l.
Proof. unfold zsum. induction 1; cbn; lia. Qed.

(** The quota check, in bytes, for a limit of [limit] GB *)
Lemma checkQuota_spec bytes config limit w :
  configured config w -> prop (prop config "data") "storageLimit" = VNum limit -> ~ (limit == 0)%Q ->
  checkQuota bytes w =
  (Ok (if Qle_bool (inject_Z (getDirSize CUSTOM_DIR w + getDirSize CACHE_DIR w + bytes))
                   (limit * GIB)
       then quota_result true "Quota check passed"
       else quota_result false "Storage Limit Exceeded"), w).
Proof.
  intros Hc Hl Hne. unfold checkQuota. rewrite (M_bind_ok _ _ _ _ _ (config_get_ok config w Hc)).
  unfold gets, mbind, M_bind, ret. rewrite Hl. unfold js_or. cbn [truthy].
  destruct (Qeq_bool limit 0) eqn:E; [by apply Qeq_bool_iff in E|]. cbn [negb num_of getUsage prop oget].
  cbn -[Qle_bool getDirSize]. by rewrite <- inject_Z_plus.
Qed.
