(* ===== verification/Wiring.v ===== *)
(** * Wiring ([src/server.js])

    At start-up the server gives the configuration and migration services
    their view of the output strategies: the interface [OutputRegistry] is
    implemented by the factory. *)
From S2P Require Import Prelude JsString JsValue World Outputs Migration.

#[export] Instance output_wiring `{H : Host} : OutputRegistry := {|
  strategy_metadata := fun id => strategy ← getStrategy id; Ok (st_meta strategy);
  secret_requirements := getSecretRequirements
|}.

(** What the services are told: the strategies' own metadata and secrets. *)
Lemma wired_secrets `{H : Host} :
  secret_requirements = [("voicemonkey", "token"); ("voicemonkey", "device")].
Proof. reflexivity. Qed.

Lemma wired_strategy `{H : Host} id m :
  strategy_metadata id = Ok m -> id ∈ ["local"; "voicemonkey"; "browser"] /\
  prop m "id" = VStr id.
Proof.
  cbn -[st_meta elem_of]. unfold getStrategy, strategies. cbn [find].
  destruct (String.eqb_spec (st_id LocalOutput) id) as [<-|_];
    [|destruct (String.eqb_spec (st_id VoiceMonkeyOutput) id) as [<-|_];
      [|destruct (String.eqb_spec (st_id BrowserOutput) id) as [<-|_]; [|done]]];
    intros [= <-]; (split; [set_solver|done]).
Qed.
