(* ===== verification/Health.v ===== *)
(** * Health of the services ([src/services/system/healthCheck.js])

    The last status of every service, and the checks that refresh it.  A
    refresh runs under a lock keyed by its arguments (see AsyncLock: callers
    that overlap share one run); what runs is modelled here.  The checks of a
    refresh are started together, and none waits for another: they are listed
    in order. *)
From S2P Require Import Prelude JsString JsValue World Luxon LuxonUtc Zod Schemas Network.
From S2P Require Import Providers Encryption Sse ConfigStore Outputs Migration Masking.
From S2P Require Import ConfigService Wiring.

Definition status (healthy : bool) (message : string) (lastChecked : val) : val :=
  VObj [("healthy", VBool healthy); ("message", VStr message); ("lastChecked", lastChecked)].

Definition initialising : val := status false "Initialising..." VNull.

(** [process.env[k] || d] *)
Definition env_or (k : string) (d : val) (w : world) : val := js_or (env_get k w) d.

(** [new URL(url).port] of an http(s) URL: the digits after the host, unless
    they are the scheme's default. *)
Definition url_port (url : string) : string :=
  match split_on "/" url with
  | _ :: _ :: authority :: _ =>
      match split_on ":" (before_char "?" (before_char "#" authority)) with
      | [_; port] => if starts_with "https:" (to_lower url)
                     then (if String.eqb port "443" then "" else port)
                     else (if String.eqb port "80" then "" else port)
      | _ => ""
      end
  | _ => ""
  end.

Section health.
Context `{L : Luxon} `{Zd : Zod} `{N : Net} `{H : Host}.

Definition initial_cache (w : world) : list (string * val) :=
  foldl (fun cache meta =>
           if truthy (prop meta "hidden") then cache
           else oset (str_of (prop meta "id")) initialising cache)
    [("api", status true "Ready" VNull); ("local", status true "Online" VNull);
     ("tts", initialising); ("primarySource", initialising); ("backupSource", initialising);
     ("ports", VObj [("api", env_or "PORT" (VInt 3000) w); ("tts", VInt 8000)])]
    getAllStrategies.

(** [init]: the cache is filled once. *)
Definition init_health : M world unit :=
  healthCache ← gets w_health;
  if truthy healthCache then ret tt else modify (fun w => set_health (VObj (initial_cache w)) w).

Definition checkSource (target : string) : M world val :=
  config ← config_get;
  sources ← lift (get config "sources");
  source ← lift (get sources target);
  if negb (truthy source) then ret (health_status false "Not Configured") else
  if String.eqb target "backup" && seq (prop source "enabled") (VBool false)
  then ret (health_status false "Disabled") else
  try_catch
    (P ← lift (getProviderClass (prop source "type")); pc_healthCheck P)
    (fun e => ret (health_status false (message_or e "Offline"))).

Definition tts_url (w : world) : string :=
  show (env_or "PYTHON_SERVICE_URL" (VStr "http://localhost:8000") w).

Definition checkPythonService : M world val :=
  ttsUrl ← gets tts_url;
  try_catch
    (_ ← axios_get (ttsUrl +:+ "/docs") (VObj []); ret (health_status true "Online"))
    (fun _ => ret (health_status false "Service Unreachable")).

(** The parameters of a strategy's check, from those the caller sent *)
Definition strategy_params (target : string) (meta params config : val) : val :=
  if truthy params && truthy (prop meta "params") then
    let chosen := VObj (foldl (fun o p =>
      let key := str_of (prop p "key") in
      if truthy (prop p "requiredForHealth") && negb (is_undef (prop params key))
      then oset key (prop params key) o else o) [] (arr_of (prop meta "params"))) in
    let chosen := unmaskParams target chosen config in
    match props chosen with [] => VNull | _ => chosen end
  else VNull.

Definition _refreshTarget (target : string) (params : val) (force : bool) : M world val :=
  config ← config_get;
  let healthChecks := prop (prop config "system") "healthChecks" in
  if String.eqb target "api" then ret (health_status true "Ready") else
  if negb force && seq (prop healthChecks target) (VBool false)
  then ret (health_status false "Monitoring Disabled") else
  if String.eqb target "tts" then checkPythonService else
  if String.eqb target "primarySource" then checkSource "primary" else
  if String.eqb target "backupSource" then checkSource "backup" else
  try_catch
    (strategy ← lift (getStrategy target);
     st_health strategy (strategy_params target (st_meta strategy) params config))
    (fun e => ret (health_status false (e_msg e))).

Definition all_targets : list string :=
  ["api"; "tts"; "primarySource"; "backupSource"] ++
  ((fun m => str_of (prop m "id")) <$>
     filter (fun m => negb (truthy (prop m "hidden")) = true) getAllStrategies).

(** A disabled check keeps the time of the last one that ran. *)
Definition stamped (healthCache : val) (now : val) (target : string) (res : val) : val :=
  let lastChecked :=
    if seq (prop res "message") (VStr "Monitoring Disabled")
    then js_or (prop (prop healthCache target) "lastChecked") VNull else now in
  VObj (ospread (props res) [("lastChecked", lastChecked)]).

Definition refresh_ports (w : world) (healthCache : val) : val :=
  let port := url_port (tts_url w) in
  let ports := prop healthCache "ports" in
  let ports := if String.eqb port "" then ports else setp ports "tts" (VStr port) in
  setp healthCache "ports" (setp ports "api" (env_or "PORT" (VInt 3000) w)).

Definition getHealth : M world val :=
  init_health ;; healthCache ← gets w_health; ret (json_clone healthCache).

Definition refresh_health (target : string) (params : val) (force : bool) : M world val :=
  init_health ;;
  let targets := if String.eqb target "all" then all_targets else [target] in
  now ← gets isoNow;
  updates ← map_m (fun t =>
    res ← _refreshTarget t params force;
    healthCache ← gets w_health;
    ret (t, stamped healthCache now t res)) targets;
  modify (fun w => set_health
    (refresh_ports w (VObj (ospread (props (w_health w)) updates))) w) ;;
  getHealth.

Definition runDailyMaintenance : M world val := refresh_health "all" VNull false.
Definition runStartupChecks : M world val := refresh_health "all" VNull true.

Section toggling.
Context `{Loc : Locale} `{I : Intl} `{C : Crypto} `{D : Dotenv}.

Definition toggle (serviceId : string) (enabled : val) : M world unit :=
  config ← config_get;
  let healthChecks := ospread [] (props (prop (prop config "system") "healthChecks")) in
  ConfigService.update (VObj [("system",
    VObj [("healthChecks", VObj (oset serviceId enabled healthChecks))])]).
End toggling.
End health.

(** ** Lemmas *)
Section refreshing.
Context `{L : Luxon} `{Zd : Zod} `{N : Net} `{H : Host}.

(** One target refreshed: its result is what the server keeps and answers. *)
Lemma refresh_one target params force w v w' :
  target <> "all" -> target <> "ports" ->
  refresh_health target params force w = (Ok v, w') ->
  v = json_clone (w_health w') /\
  exists w1 w2 res now old, w_cfg w1 = w_cfg w /\ _refreshTarget target params force w1 = (Ok res, w2) /\
    prop (w_health w') target = stamped old now target res.
Proof.
  intros Ha Hp. unfold refresh_health. apply String.eqb_neq in Ha. rewrite Ha. munfold. cbn [map_m]. munfold.
  assert (w_cfg (init_health w).2 = w_cfg w) as Hc by (unfold init_health; munfold; by destruct (truthy _)).
  destruct (init_health w) as [[[]|e] w0]; [|done]. cbn [snd] in Hc.
  destruct (_refreshTarget target params force w0) as [[res|e] w2] eqn:Er; [|done].
  unfold getHealth, init_health. munfold. cbn. intros E. injection E as <- <-. cbn.
  split; [done|]. exists w0, w2, res, (isoNow w0), (w_health w2). split; [done|]. split; [done|].
  apply String.eqb_neq in Hp. by rewrite !oget_oset_ne, oget_oset by (by apply String.eqb_neq).
Qed.
End refreshing.
