(* ===== verification/Voice.v ===== *)
(** * The list of voices ([src/services/system/voiceService.js])

    The voices of the speech service, kept in memory and on disk for a day.  A
    refresh awaits its look at the disk before it marks itself as fetching: its
    two parts are [voice_check] and [voice_fetch], and refreshes that overlap
    interleave there. *)
From S2P Require Import Prelude JsString JsValue World Luxon LuxonUtc Zod Sse ConfigStore Outputs.

Definition VOICE_DIR : string := "/app/src/data".
Definition VOICE_FILE : string := VOICE_DIR +:+ "/voices.json".
Definition CACHE_DURATION_MS : Z := 24 * 60 * 60 * 1000.

(** [new Date(v)], [None] for an invalid date.  The texts are those the service
    itself writes, in ISO format; any other text counts as invalid. *)
Definition js_date (v : val) : option Z :=
  match v with
  | VStr s => parse_iso s
  | VNum q => Some (Qfloor q)
  | VBool b => Some (if b then 1 else 0)
  | VNull => Some 0
  | _ => None
  end.

(** [v.length] *)
Definition js_length (v : val) : result val :=
  match v with
  | VArr l => Ok (VInt (Z.of_nat (length l)))
  | VStr s => Ok (VInt (utf16_length s))
  | _ => get v "length"
  end.

(** [v > 0] *)
Definition positive_number (v : val) : bool :=
  match to_number v with NFin q => negb (Qle_bool q 0) | _ => false end.

Definition on_voice (f : voice_state -> voice_state) : M world unit :=
  modify (fun w => set_voice (f (w_voice w)) w).

Definition set_voices (voices : val) (s : voice_state) : voice_state :=
  Voice voices (v_fetching s) (v_last s).
Definition set_last (t : option Z) (s : voice_state) : voice_state :=
  Voice (v_voices s) (v_fetching s) t.
Definition set_fetching (b : bool) (s : voice_state) : voice_state :=
  Voice (v_voices s) b (v_last s).

(** An invalid date is no more a valid cache than none. *)
Definition _isCacheValid (w : world) : bool :=
  match v_last (w_voice w) with
  | None => false
  | Some lastFetched => w_clock w - lastFetched <? CACHE_DURATION_MS
  end.

Definition current_voices : M world val := gets (fun w => v_voices (w_voice w)).

Definition _loadFromCache : M world val :=
  try_catch
    (present ← settle (fs_access VOICE_FILE);
     if negb (is_ok present) then ret VNull else
     content ← fs_read VOICE_FILE;
     data ← lift (json_parse content);
     timestamp ← lift (get data "timestamp");
     on_voice (set_last (js_date timestamp)) ;;
     valid ← gets _isCacheValid;
     if negb valid then ret VNull else
     on_voice (set_voices (prop data "voices")) ;;
     _ ← lift (js_length (prop data "voices"));
     ret (prop data "voices"))
    (fun _ => ret VNull).

Definition _saveToCache (newVoices : val) : M world unit :=
  try_catch
    (try_catch (fs_access_dir VOICE_DIR) (fun _ => fs_mkdir VOICE_DIR) ;;
     timestamp ← gets isoNow;
     fs_write VOICE_FILE (Json (VObj [("timestamp", timestamp); ("voices", newVoices)])))
    (fun _ => ret tt).

Section service.
Context `{H : Host}.

(** Voices that need no fetching; [None] when a fetch must follow *)
Definition voice_check : M world (option val) :=
  fetching ← gets (fun w => v_fetching (w_voice w));
  voices ← current_voices;
  if (fetching : bool) then ret (Some voices) else
  count ← lift (js_length voices);
  valid ← gets _isCacheValid;
  if positive_number count && valid then ret (Some voices) else
  diskCache ← _loadFromCache;
  ret (if truthy diskCache then Some diskCache else None).

Definition voices_url (config : val) : string :=
  show (js_or (prop (prop config "automation") "pythonServiceUrl") (VStr "http://localhost:8000"))
    +:+ "/voices".

(** What a fetch that succeeds does with the reply *)
Definition take_voices (data : val) : M world unit :=
  when (is_array data)
    (on_voice (set_voices data) ;;
     now ← gets w_clock;
     on_voice (set_last (Some now)) ;;
     _saveToCache data).

Definition voice_fetch : M world val :=
  config ← config_get;
  on_voice (set_fetching true) ;;
  try_finally
    (try_catch (data ← axios_get (voices_url config) (VObj []); take_voices data ;; current_voices)
       (fun _ => current_voices))
    (fun w => set_voice (set_fetching false (w_voice w)) w).

Definition refreshVoices : M world val :=
  found ← voice_check;
  match found with Some voices => ret voices | None => voice_fetch end.

Definition init_voices : M world unit := _ ← refreshVoices; ret tt.
Definition getVoices : M world val := current_voices.
End service.

(** ** Lemmas *)
Lemma on_voice_run f w : on_voice f w = (Ok tt, set_voice (f (w_voice w)) w).
Proof. done. Qed.

(** Saving never fails, and touches the disk only. *)
Lemma saveToCache_run v w :
  exists fs, _saveToCache v w = (Ok tt, set_files fs w) /\
    (denied w VOICE_DIR = false -> denied w VOICE_FILE = false ->
     fs = <[VOICE_FILE := File (Json (VObj [("timestamp", isoNow w); ("voices", v)])) (w_clock w)]>
            (files w)).
Proof.
  assert (w = set_files (files w) w) as Hw by (by destruct w as [? ? []]).
  unfold _saveToCache, fs_access_dir, fs_mkdir, fs_write. munfold. destruct (existsb _ _) eqn:Ee.
  - cbn beta iota. destruct (denied w VOICE_FILE); eexists; (split; [by first [exact (f_equal _ Hw)|done]|done]).
  - destruct (denied w VOICE_DIR); cbn beta iota.
    + exists (files w). split; [exact (f_equal _ Hw)|done].
    + destruct (denied w VOICE_FILE); eexists; (split; [by first [exact (f_equal _ Hw)|done]|done]).
Qed.

Section lemmas.
Context `{H : Host}.

(** The world in which the service has been asked *)
Definition asked (config : val) (w : world) : world :=
  set_net (request_text (voices_url config) (VObj []) :: w_net w)
    (set_voice (set_fetching true (w_voice w)) w).

Lemma voice_fetch_run config w :
  configured config w ->
  voice_fetch w =
    match host_get (w_net w) (voices_url config) (VObj []) with
    | Ok data => let w1 := (take_voices data (asked config w)).2 in
                 (Ok (v_voices (w_voice w1)), set_voice (set_fetching false (w_voice w1)) w1)
    | Throw _ => (Ok (v_voices (w_voice w)),
                  set_voice (set_fetching false (w_voice w)) (asked config w))
    end.
Proof.
  intros Hc. unfold voice_fetch. rewrite (M_bind_ok _ _ _ _ _ (config_get_ok _ _ Hc)).
  erewrite M_bind_ok by reflexivity. unfold try_finally, try_catch, axios_get.
  destruct (host_get (w_net w) (voices_url config) (VObj [])) as [data|e] eqn:Eg.
  2:{ munfold. cbn [w_net set_voice]. by rewrite Eg. }
  erewrite (M_bind_ok _ _ _ data).
  2:{ cbn [w_net set_voice]. by rewrite Eg. }
  change (set_net _ _) with (asked config w).
  assert (exists w1, take_voices data (asked config w) = (Ok tt, w1)) as [w1 H1].
  { unfold take_voices, when. destruct (is_array data); [|by eexists].
    rewrite (M_bind_ok _ _ _ _ _ (on_voice_run _ _)). erewrite M_bind_ok by reflexivity. cbv beta.
    rewrite (M_bind_ok _ _ _ _ _ (on_voice_run _ _)).
    edestruct (saveToCache_run data) as (fs & Hs & _). eexists. exact Hs. }
  rewrite H1. by erewrite M_bind_ok by exact H1.
Qed.

(** A list that arrives is taken, and written to the disk when it can be. *)
Lemma voice_fetch_list config w l :
  configured config w -> host_get (w_net w) (voices_url config) (VObj []) = Ok (VArr l) ->
  exists fs, voice_fetch w = (Ok (VArr l),
      set_files fs (set_net (request_text (voices_url config) (VObj []) :: w_net w)
        (set_voice (Voice (VArr l) false (Some (w_clock w))) w))) /\
    (denied w VOICE_DIR = false -> denied w VOICE_FILE = false ->
     fs = <[VOICE_FILE := File (Json (VObj [("timestamp", isoNow w); ("voices", VArr l)]))
              (w_clock w)]> (files w)).
Proof.
  intros Hc Hg. rewrite (voice_fetch_run config w Hc), Hg. cbv zeta. unfold take_voices.
  cbn [is_array when].
  rewrite (M_bind_ok _ _ _ _ _ (on_voice_run _ _)). erewrite M_bind_ok by reflexivity. cbv beta.
  rewrite (M_bind_ok _ _ _ _ _ (on_voice_run _ _)).
  edestruct (saveToCache_run (VArr l)) as (fs & Hs & Hfs). rewrite Hs.
  exists fs. split; [reflexivity|exact Hfs].
Qed.
End lemmas.

(** The check of a service that is not fetching *)
Lemma voice_check_run w l :
  v_fetching (w_voice w) = false -> v_voices (w_voice w) = VArr l ->
  voice_check w =
    if bool_decide (l <> []) && _isCacheValid w then (Ok (Some (VArr l)), w)
    else (diskCache ← _loadFromCache; ret (if truthy diskCache then Some diskCache else None)) w.
Proof.
  intros Hf Hv. unfold voice_check, current_voices. do 2 erewrite M_bind_ok by reflexivity.
  cbv beta. rewrite Hf, Hv. do 2 erewrite M_bind_ok by reflexivity. cbv beta.
  by destruct l, (_isCacheValid w).
Qed.

Lemma fresh_valid w t :
  v_last (w_voice w) = Some t -> w_clock w - t < CACHE_DURATION_MS -> _isCacheValid w = true.
Proof. intros Hl Ht. unfold _isCacheValid. rewrite Hl. by apply Z.ltb_lt. Qed.

(** Fresh voices in memory are served as they are. *)
Lemma fresh_memory `{H : Host} w l t :
  w_voice w = Voice (VArr l) false (Some t) -> l <> [] -> w_clock w - t < CACHE_DURATION_MS ->
  refreshVoices w = (Ok (VArr l), w).
Proof.
  intros Hv Hne Ht. unfold refreshVoices. rewrite (M_bind_ok _ _ _ (Some (VArr l)) w); [done|].
  rewrite (voice_check_run w l) by (by rewrite Hv). rewrite (fresh_valid w t) by (by rewrite ?Hv).
  by rewrite bool_decide_true by done.
Qed.

(** A disk that holds a list made less than a day ago spares the request. *)
Lemma disk_served `{H : Host} w l s t m :
  w_voice w = Voice (VArr []) false None ->
  files w !! VOICE_FILE = Some (File (Json (VObj [("timestamp", VStr s); ("voices", VArr l)])) m) ->
  json_clone (VArr l) = VArr l -> parse_iso s = Some t -> w_clock w - t < CACHE_DURATION_MS ->
  refreshVoices w = (Ok (VArr l), set_voice (Voice (VArr l) false (Some t)) w).
Proof.
  intros Hv Hf Hj Hs Ht.
  assert (_loadFromCache w = (Ok (VArr l), set_voice (Voice (VArr l) false (Some t)) w)) as Hload.
  { unfold _loadFromCache, try_catch. erewrite M_bind_ok by (unfold settle; by rewrite (fs_access_ok _ _ _ Hf)).
    cbn [is_ok negb]. rewrite (M_bind_ok _ _ _ _ _ (fs_read_ok _ _ _ Hf)). cbn [f_content json_parse].
    change (json_clone (VObj [("timestamp", VStr s); ("voices", VArr l)]))
      with (VObj [("timestamp", VStr s); ("voices", json_clone (VArr l))]). rewrite Hj.
    do 2 erewrite M_bind_ok by reflexivity. rewrite (M_bind_ok _ _ _ _ _ (on_voice_run _ _)).
    erewrite M_bind_ok by reflexivity. cbn [js_date prop oget String.eqb Ascii.eqb Bool.eqb]. rewrite Hs, Hv.
    rewrite (fresh_valid _ t) by done. cbn [negb].
    rewrite (M_bind_ok _ _ _ _ _ (on_voice_run _ _)). by erewrite M_bind_ok by reflexivity. }
  unfold refreshVoices. rewrite (M_bind_ok _ _ _ (Some (VArr l))
    (set_voice (Voice (VArr l) false (Some t)) w)); [done|].
  rewrite (voice_check_run w []) by (by rewrite Hv). rewrite bool_decide_false by auto. cbn [andb]. by erewrite M_bind_ok by exact Hload.
Qed.

Lemma nothing_found w :
  w_voice w = Voice (VArr []) false None -> files w !! VOICE_FILE = None ->
  voice_check w = (Ok None, w).
Proof.
  intros Hv Hf. rewrite (voice_check_run w []) by (by rewrite Hv). rewrite bool_decide_false by auto.
  cbn [andb]. rewrite (M_bind_ok _ _ _ VNull w); [done|]. unfold _loadFromCache, try_catch.
  by erewrite M_bind_ok by (unfold settle; by rewrite fs_access_none).
Qed.

Section properties.
Context `{H : Host}.

(** The voices survive a restart.  A refresh that finds nothing usable asks the
    service once and returns its list.  For a day after it, a server that
    starts with the disk as that refresh left it has the same voices again,
    without a request; and while they are in memory and fresh, further refreshes
    change nothing at all. *)
Theorem voices_survive_restart config w l :
  configured config w -> w_voice w = Voice (VArr []) false None ->
  files w !! VOICE_FILE = None -> denied w VOICE_DIR = false -> denied w VOICE_FILE = false ->
  host_get (w_net w) (voices_url config) (VObj []) = Ok (VArr l) ->
  json_clone (VArr l) = VArr l -> l <> [] -> four_digit_year (w_clock w) ->
  exists w', refreshVoices w = (Ok (VArr l), w') /\
    w_voice w' = Voice (VArr l) false (Some (w_clock w)) /\
    w_net w' = request_text (voices_url config) (VObj []) :: w_net w /\
    (forall w2, w_voice w2 = Voice (VArr []) false None -> files w2 !! VOICE_FILE = files w' !! VOICE_FILE ->
       w_clock w2 - w_clock w < CACHE_DURATION_MS ->
       refreshVoices w2 = (Ok (VArr l), set_voice (Voice (VArr l) false (Some (w_clock w))) w2)) /\
    (forall w2, w_voice w2 = w_voice w' -> w_clock w2 - w_clock w < CACHE_DURATION_MS ->
       refreshVoices w2 = (Ok (VArr l), w2)).
Proof.
  intros Hc Hv Hf Hd Hd2 Hg Hj Hne Hy.
  pose proof (nothing_found w Hv Hf) as Hcheck.
  unfold refreshVoices at 1. rewrite (M_bind_ok _ _ _ _ _ Hcheck).
  destruct (voice_fetch_list config w l Hc Hg) as (fs & Hrun & Hfs). specialize (Hfs Hd Hd2). subst fs.
  rewrite Hrun. eexists. split; [reflexivity|]. split; [reflexivity|]. split; [reflexivity|]. split.
  - intros w2 Hv2 Hf2 Ht. unfold files in Hf2 at 2. cbn [w_fs set_files fs_files] in Hf2.
    rewrite lookup_insert_eq in Hf2. eapply disk_served; try done. cbn. by apply parse_iso_text.
  - intros w2 Hv2 Ht. by apply (fresh_memory _ _ _ Hv2).
Qed.

(** Refreshes that overlap all ask the service: the mark is set after the look at
    the disk, so the second caller does not see the first. *)
Theorem overlapping_refreshes_ask_twice config w l1 l2 :
  configured config w -> w_voice w = Voice (VArr []) false None -> files w !! VOICE_FILE = None ->
  host_get (w_net w) (voices_url config) (VObj []) = Ok (VArr l1) ->
  host_get (request_text (voices_url config) (VObj []) :: w_net w) (voices_url config) (VObj [])
    = Ok (VArr l2) ->
  let w' := (_ ← voice_check; _ ← voice_check; _ ← voice_fetch; voice_fetch) w in
  w'.1 = Ok (VArr l2) /\
  w_net w'.2 = request_text (voices_url config) (VObj []) :: request_text (voices_url config) (VObj []) ::
                 w_net w.
Proof.
  intros Hc Hv Hf H1 H2. pose proof (nothing_found w Hv Hf) as Hn. cbv zeta.
  do 2 rewrite (M_bind_ok _ _ _ _ _ Hn). destruct (voice_fetch_list config w l1 Hc H1) as (fs & Hr & _).
  rewrite (M_bind_ok _ _ _ _ _ Hr). set (w1 := set_files fs _).
  assert (configured config w1) as Hc1 by exact Hc.
  destruct (voice_fetch_list config w1 l2 Hc1 H2) as (fs2 & Hr2 & _). by rewrite Hr2.
Qed.

(** A file that is fresh but has no list costs the service its own: the list in
    memory becomes [undefined], and when the speech service cannot be reached
    every later refresh fails for good. *)
Theorem bad_file_loses_voices config w s t m e :
  configured config w -> w_voice w = Voice (VArr []) false None ->
  files w !! VOICE_FILE = Some (File (Json (VObj [("timestamp", VStr s)])) m) ->
  parse_iso s = Some t -> w_clock w - t < CACHE_DURATION_MS ->
  host_get (w_net w) (voices_url config) (VObj []) = Throw e ->
  exists w', refreshVoices w = (Ok VUndef, w') /\ getVoices w' = (Ok VUndef, w') /\
    forall w2, w_voice w2 = w_voice w' -> is_ok (refreshVoices w2).1 = false.
Proof.
  intros Hc Hv Hf Hs Ht Hg. set (w1 := set_voice (Voice VUndef false (Some t)) w).
  assert (voice_check w = (Ok None, w1)) as Hcheck.
  { rewrite (voice_check_run w []) by (by rewrite Hv). rewrite bool_decide_false by auto.
    cbn [andb]. rewrite (M_bind_ok _ _ _ VNull w1); [done|]. unfold _loadFromCache, try_catch.
    erewrite M_bind_ok by (unfold settle; by rewrite (fs_access_ok _ _ _ Hf)).
    cbn [is_ok negb]. rewrite (M_bind_ok _ _ _ _ _ (fs_read_ok _ _ _ Hf)).
    do 2 erewrite M_bind_ok by reflexivity. rewrite (M_bind_ok _ _ _ _ _ (on_voice_run _ _)).
    erewrite M_bind_ok by reflexivity. change (js_date _) with (parse_iso s).
    rewrite Hs, Hv. rewrite (fresh_valid _ t) by done.
    reflexivity. }
  unfold refreshVoices at 1. rewrite (M_bind_ok _ _ _ _ _ Hcheck).
  rewrite (voice_fetch_run config w1 Hc). change (w_net w1) with (w_net w). rewrite Hg.
  eexists. split; [reflexivity|]. split; [reflexivity|]. intros w2 Hv2.
  unfold refreshVoices, voice_check, current_voices. munfold. by rewrite Hv2.
Qed.
End properties.

(** ** Witnesses *)
Definition two_voices : list val := [VObj [("ShortName", VStr "ar-SA-HamedNeural")]; VObj []].

Definition voices_host : Host := {|
  host_linux := true;
  host_exec _ := Ok tt;
  host_play _ _ _ _ := Ok tt;
  host_get _ _ _ := Ok (VArr two_voices)
|}.

Definition voices_start : world :=
  set_clock 1736940000000 (set_cfg (Cfg (VObj []) true false) empty_world).

Lemma voices_survive_restart_witness :
  let refreshVoices := refreshVoices (H := voices_host) in
  (refreshVoices voices_start).1 = Ok (VArr two_voices) /\
  exists w', refreshVoices voices_start = (Ok (VArr two_voices), w') /\
    refreshVoices (set_voice (Voice (VArr []) false None) w') =
      (Ok (VArr two_voices), set_voice (Voice (VArr two_voices) false (Some 1736940000000))
         (set_voice (Voice (VArr []) false None) w')).
Proof.
  intros refresh.
  destruct (voices_survive_restart (H := voices_host) (VObj []) voices_start two_voices)
    as (w' & H1 & _ & _ & H4 & _); [done..|vm_compute; split; discriminate|].
  split; [unfold refresh; by rewrite H1|]. exists w'. split; [exact H1|].
  apply H4; [done..|]. assert (w' = (refresh voices_start).2) as -> by (unfold refresh; by rewrite H1).
  by vm_compute.
Defined.
