(* ===== verification/AudioAssets.v ===== *)
(** * Audio assets ([src/services/system/audioAssetService.js],
      [src/utils/audioValidator.js])

    The speech files of the announcements, with a metadata sidecar each, and
    the cleaning of the audio directories.  The speech service writes its files
    into the shared audio directory: it is a parameter that replies and names
    the files it wrote, as are the library that puts numbers into words and the
    digest.  At most three generations run at once in the source; here they
    run one after the other. *)
From S2P Require Import Prelude JsString JsValue NodePath World Luxon LuxonUtc Zod Network.
From S2P Require Import Providers Encryption Sse ConfigStore Outputs Health Storage.

Class Tts := tts_post : list string -> string -> val -> result (val * list (string * content)).
Class Words := to_words : val -> result string.
Class Digest := md5_hex : string -> string.

Definition AUDIO_CACHE_DIR : string := CACHE_DIR.
Definition AUDIO_TEMP_DIR : string := AUDIO_DIR +:+ "/temp".
Definition AUDIO_CUSTOM_DIR : string := CUSTOM_DIR.
Definition META_CACHE_DIR : string := SRC_PUBLIC_ROOT +:+ "/cache".
Definition META_CUSTOM_DIR : string := SRC_PUBLIC_ROOT +:+ "/custom".

Definition ARABIC_NAMES : list (string * string) :=
  [("fajr", "فجر"); ("sunrise", "شُروق"); ("dhuhr", "ظُهْر"); ("asr", "عصر");
   ("maghrib", "مغرب"); ("isha", "عِشَا")].

Definition PRAYER_NAMES : list string := ["fajr"; "sunrise"; "dhuhr"; "asr"; "maghrib"; "isha"].

Definition audioExtensions : list string :=
  [".mp3"; ".wav"; ".aac"; ".ogg"; ".opus"; ".flac"; ".m4a"].

Definition in_dir (dir file : string) : string := dir +:+ "/" +:+ file.

(** [fs.readdir(dir)]: the files of the directory itself *)
Definition dir_files (dir : string) (w : world) : list string :=
  filter (fun name => has_char "/" name = false)
    ((fun kv => slice_from (S (String.length dir)) kv.1) <$> below dir w).

Definition fs_readdir (dir : string) : M world (list string) :=
  fun w => match below dir w with
           | [] => (Throw (enoent dir), w)
           | _ => (Ok (dir_files dir w), w)
           end.

Definition fs_mtime (p : string) : M world Z := fun w =>
  match files w !! p with Some f => (Ok (f_mtime f), w) | None => (Throw (enoent p), w) end.

(** [fs.utimes(p, now, now)] *)
Definition fs_touch (p : string) : M world unit := fun w =>
  match files w !! p with
  | Some f => (Ok tt, set_files (<[p := File (f_content f) (w_clock w)]> (files w)) w)
  | None => (Throw (enoent p), w)
  end.

(** [fs.copyFile(a, b)] *)
Definition fs_copy (a b : string) : M world unit := c ← fs_read a; fs_write b c.

(** [try { m } catch {}] *)
Definition ignoring (m : M world unit) : M world unit := try_catch m (fun _ => ret tt).

Definition ensureDir (dir : string) : M world unit :=
  try_catch (fs_access_dir dir) (fun _ => fs_mkdir dir).

Definition ensureDirs : M world unit :=
  for_each ensureDir [AUDIO_CACHE_DIR; AUDIO_TEMP_DIR; AUDIO_CUSTOM_DIR; META_CACHE_DIR;
                      META_CUSTOM_DIR].

(** ** audioValidator *)
Definition getMimeType (format : val) (filePath : string) : string :=
  let container := lower_of (prop format "container") in
  let codec := lower_of (prop format "codec") in
  let ext := to_lower (extname filePath) in
  if String.eqb codec "opus" then "audio/opus" else
  if includes "aac" codec then "audio/aac" else
  if String.eqb container "wav" || String.eqb container "wave" then "audio/wav" else
  if String.eqb container "ogg" then "audio/ogg" else
  if String.eqb container "adts" then "audio/aac" else
  if String.eqb container "flac" then "audio/flac" else
  if String.eqb container "mpeg" && includes "3" codec then "audio/mpeg" else
  if String.eqb ext ".mp3" then "audio/mpeg" else
  if String.eqb ext ".wav" then "audio/wav" else
  if String.eqb ext ".aac" then "audio/aac" else
  if String.eqb ext ".ogg" then "audio/ogg" else
  if String.eqb ext ".opus" then "audio/opus" else
  if String.eqb ext ".flac" then "audio/flac" else
  if truthy (prop format "lossless") then "audio/wav" else "audio/mpeg".

(** What the metadata reader reports of a file is kept with its content. *)
Definition parseFile (filePath : string) : M world (val * Z) :=
  content ← fs_read filePath;
  match content with
  | Audio size format => ret (format, size)
  | _ => throw (Error "Failed to determine audio format")
  end.

Definition analyseAudioFile (filePath : string) : M world val :=
  parsed ← parseFile filePath;
  let format := parsed.1 in
  ret (VObj [("format", prop format "container"); ("codec", prop format "codec");
             ("bitrate", prop format "bitrate"); ("sampleRate", prop format "sampleRate");
             ("duration", prop format "duration"); ("size", VInt parsed.2);
             ("mimeType", VStr (getMimeType format filePath))]).

(** ** Templates *)

(** [s.replace(/p/g, r)] for a literal pattern and a replacement without [$];
    [skip] characters of an occurrence are left to pass over. *)
Fixpoint replace_from (p r s : string) (skip : nat) : string :=
  match s with
  | EmptyString => EmptyString
  | String a s' =>
      match skip with
      | S skip' => replace_from p r s' skip'
      | O => if starts_with p s then r +:+ replace_from p r s' (String.length p - 1)%nat
             else String a (replace_from p r s' 0)
      end
  end.
Definition replace_all (p r s : string) : string := replace_from p r s 0.

Section assets.
Context `{L : Luxon} `{Zd : Zod} `{N : Net} `{Ho : Host} `{T : Tts} `{W : Words} `{G : Digest}.

Definition resolveTemplate (template : val) (prayerKey : string) (offsetMinutes : val)
    : result string :=
  match template with
  | VStr t =>
      let result := replace_all "{prayerEnglish}" (capitalise prayerKey) t in
      let result := replace_all "{prayerArabic}"
                      (default prayerKey (assoc prayerKey ARABIC_NAMES)) result in
      if is_undef offsetMinutes then Ok result else
      words ← to_words offsetMinutes;
      Ok (replace_all "{minutes}" words result)
  | _ => Throw (TypeError "result.replace is not a function")
  end.

(** [axios.post(url, body)]: the service may have written files. *)
Definition axios_post (url : string) (body : val) : M world val := fun w =>
  let w' := set_net (request_text url body :: w_net w) w in
  match tts_post (w_net w) url body with
  | Throw e => (Throw e, w')
  | Ok (data, written) =>
      (Ok data, set_files (foldl (fun fs kv => <[kv.1 := File kv.2 (w_clock w)]> fs)
                             (files w') written) w')
  end.

Definition generateTTS (filename text : string) (serviceUrl voice : val) : M world unit :=
  _ ← axios_post (show serviceUrl +:+ "/generate-tts")
        (VObj [("text", VStr text); ("filename", VStr filename); ("voice", voice)]);
  ret tt.

(** ** Metadata *)
Definition enrichMetadata (basicMetadata : val) : M world val :=
  compatibility ← map_m (fun s => verdict ← validateAsset s basicMetadata; ret (st_id s, verdict))
                    strategies;
  updatedAt ← gets isoNow;
  ret (VObj (ospread (props basicMetadata)
         [("compatibility", VObj compatibility); ("updatedAt", updatedAt)])).

Definition enriched (audioPath : string) : M world val :=
  basicMetadata ← analyseAudioFile audioPath; enrichMetadata basicMetadata.

Definition read_json (p : string) : M world val := content ← fs_read p; lift (json_parse content).

Definition analyzeFile (audioPath : string) : M world val :=
  enrichedMetadata ← enriched audioPath;
  let metaDir := if includes "cache" audioPath then META_CACHE_DIR else META_CUSTOM_DIR in
  let metaPath := in_dir metaDir (basename audioPath +:+ ".json") in
  existingData ← try_catch (read_json metaPath) (fun _ => ret (VObj []));
  let finalMetadata := VObj (ospread (props existingData) (props enrichedMetadata)) in
  fs_write metaPath (Json finalMetadata) ;;
  ret finalMetadata.

(** ** Cleaning *)
Definition CACHE_MAX_AGE : Z := 30 * 24 * 60 * 60 * 1000.
Definition TEMP_MAX_AGE : Z := 1 * 60 * 60 * 1000.

Definition clean_cached (now : Z) (file : string) : M world unit :=
  let filePath := in_dir AUDIO_CACHE_DIR file in
  mtime ← fs_mtime filePath;
  when (CACHE_MAX_AGE <? now - mtime)
    (fs_unlink filePath ;;
     let metaPath := in_dir META_CACHE_DIR (file +:+ ".json") in
     ignoring (fs_access metaPath ;; fs_unlink metaPath)).

Definition cleanupCache : M world unit :=
  ensureDirs ;;
  now ← gets w_clock;
  ignoring (names ← fs_readdir AUDIO_CACHE_DIR; for_each (clean_cached now) names).

Definition clean_temp (force : bool) (now : Z) (file : string) : M world unit :=
  if negb (existsb (String.eqb (to_lower (extname file))) audioExtensions) then ret tt else
  let filePath := in_dir AUDIO_TEMP_DIR file in
  mtime ← fs_mtime filePath;
  when (force || (TEMP_MAX_AGE <? now - mtime)) (fs_unlink filePath).

Definition cleanupTempAudio (force : bool) : M world unit :=
  present ← settle (fs_access_dir AUDIO_TEMP_DIR);
  if negb (is_ok present) then ret tt else
  now ← gets w_clock;
  ignoring (names ← fs_readdir AUDIO_TEMP_DIR; for_each (clean_temp force now) names).

(** ** Speech files *)
Definition tts_filename (prayer event : string) : string :=
  "tts_" +:+ prayer +:+ "_" +:+ event +:+ ".mp3".

Definition tts_result (success : bool) (message : string) (generated : bool) : val :=
  VObj [("success", VBool success); ("message", VStr message); ("generated", VBool generated)].

Definition python_url (config : val) : val :=
  js_or (prop (prop config "automation") "pythonServiceUrl") (VStr "http://localhost:8000").

Definition effective_voice (settings config : val) : val :=
  js_or (prop settings "voice")
    (js_or (prop (prop config "automation") "defaultVoice") (VStr "ar-SA-HamedNeural")).

(** The file exists and was made from the same text and voice; its time is
    renewed.  A failure on the way means that it must be made again. *)
Definition tts_current (audioPath metaPath text : string) (voice : val) : M world bool :=
  try_catch
    (fs_access audioPath ;; fs_access metaPath ;;
     meta ← read_json metaPath;
     storedText ← lift (get meta "text");
     if seq storedText (VStr text) && seq (prop meta "voice") voice
     then fs_touch audioPath ;; fs_touch metaPath ;; ret true
     else ret false)
    (fun _ => ret false).

Definition make_tts (filename audioPath metaPath text : string) (serviceUrl voice : val)
    : M world val :=
  try_catch
    (generateTTS filename text serviceUrl voice ;;
     enrichedMetadata ← enriched audioPath;
     generatedAt ← gets isoNow;
     fs_write metaPath (Json (VObj (ospread
       [("text", VStr text); ("voice", voice); ("generatedAt", generatedAt)]
       (props enrichedMetadata)))) ;;
     ret (tts_result true "Successfully generated" true))
    (fun e => ret (tts_result false (e_msg e) false)).

Definition ensureTTSFile (prayer event : string) (settings config : val) : M world val :=
  text ← lift (resolveTemplate (prop settings "template") prayer (prop settings "offsetMinutes"));
  let filename := tts_filename prayer event in
  let audioPath := in_dir AUDIO_CACHE_DIR filename in
  let metaPath := in_dir META_CACHE_DIR (filename +:+ ".json") in
  let effectiveVoice := effective_voice settings config in
  current ← tts_current audioPath metaPath text effectiveVoice;
  if (current : bool) then ret (tts_result true "Valid file exists" false) else
  ttsHealth ← refresh_health "tts" VNull false;
  if negb (truthy (prop (prop ttsHealth "tts") "healthy"))
  then ret (tts_result false
    "TTS Service Offline. Generation will be attempted again at trigger time." false) else
  quotaCheck ← checkQuota (utf16_length text * 1024);
  if negb (truthy (prop quotaCheck "success"))
  then throw (Error ("Storage Limit Exceeded: " +:+ show (prop quotaCheck "message"))) else
  make_tts filename audioPath metaPath text (python_url config) effectiveVoice.

(** ** Synchronisation *)
Definition force_clean (dir : string) : M world unit :=
  ignoring (fs_access_dir dir ;; names ← fs_readdir dir;
            _ ← map_m (fun f => settle (fs_unlink (in_dir dir f))) names; ret tt).

Definition sync_tasks (triggers : val) : list (string * string * val) :=
  mjoin ((fun prayer =>
    (fun kv => (prayer, kv.1, kv.2)) <$>
      filter (fun kv => truthy (prop kv.2 "enabled") && seq (prop kv.2 "type") (VStr "tts") &&
                        truthy (prop kv.2 "template") = true)
        (props (prop triggers prayer))) <$> PRAYER_NAMES).

Definition is_upper (a : ascii) : bool :=
  let n := nat_of_ascii a in Nat.leb 65 n && Nat.leb n 90.

(** [event.replace(/([A-Z])/g, " $1")] *)
Fixpoint space_capitals (s : string) : string :=
  match s with
  | EmptyString => EmptyString
  | String a s' => (if is_upper a then String " " (String a "") else String a "") +:+
                   space_capitals s'
  end.

Definition niceName (prayer event : string) : string :=
  capitalise prayer +:+ " " +:+ capitalise (space_capitals event).

(** The warning a finished task leaves *)
Definition task_warning (task : string * string * val) (result : result val) : list val :=
  let warn message := [VStr (niceName task.1.1 task.1.2 +:+ ": " +:+ message)] in
  match result with
  | Throw e => warn (e_msg e)
  | Ok v => if truthy (prop v "success") then [] else warn (show (prop v "message"))
  end.

Definition syncAudioAssets (forceClean : bool) : M world val :=
  ensureDirs ;;
  config ← config_get;
  let triggers := prop (prop config "automation") "triggers" in
  when forceClean (force_clean AUDIO_CACHE_DIR ;; force_clean META_CACHE_DIR) ;;
  if negb (truthy triggers) then ret (VObj [("warnings", VArr [])]) else
  warnings ← map_m (fun task =>
    result ← settle (ensureTTSFile task.1.1 task.1.2 task.2 config);
    ret (task_warning task result)) (sync_tasks triggers);
  cleanupCache ;;
  cleanupTempAudio false ;;
  ret (VObj [("warnings", VArr (mjoin warnings))]).

(** ** The test sound *)
Definition move_file (a b : string) : M world unit :=
  try_catch (fs_copy a b ;; fs_unlink a) (fun _ => fs_rename a b).

Definition ensureTestAudio : M world unit :=
  ensureDirs ;;
  let testAudioPath := in_dir AUDIO_CUSTOM_DIR "test.mp3" in
  let testMetaPath := in_dir META_CUSTOM_DIR "test.mp3.json" in
  present ← settle (fs_access testAudioPath ;; fs_access testMetaPath);
  if is_ok present then ret tt else
  config ← config_get;
  let voice := VStr "en-GB-RyanNeural" in
  let text := "This is a test of the notification system!" in
  ignoring
    (generateTTS "test.mp3" text (python_url config) voice ;;
     let cacheAudioPath := in_dir AUDIO_CACHE_DIR "test.mp3" in
     ignoring
       (fs_access cacheAudioPath ;;
        move_file cacheAudioPath testAudioPath ;;
        enrichedMetadata ← enriched testAudioPath;
        generatedAt ← gets isoNow;
        fs_write testMetaPath (Json (VObj (ospread
          [("text", VStr text); ("voice", voice); ("generatedAt", generatedAt);
           ("hidden", VBool true)] (props enrichedMetadata)))))).

(** ** Previews *)
Definition prefix_of (n : nat) (s : string) : string := String.substring 0 n s.

Definition previewTTS (template : val) (prayerKey : string) (offsetMinutes voice : val)
    : M world val :=
  text ← lift (resolveTemplate template (to_lower prayerKey) offsetMinutes);
  config ← config_get;
  let filename := "preview_" +:+ prefix_of 12 (md5_hex (text +:+ "|" +:+ show voice)) +:+ ".mp3" in
  let audioPath := in_dir AUDIO_TEMP_DIR filename in
  fresh ← try_catch
    (fs_access audioPath ;;
     mtime ← fs_mtime audioPath;
     now ← gets w_clock;
     if now - mtime <? TEMP_MAX_AGE then fs_touch audioPath ;; ret true else ret false)
    (fun _ => ret false);
  if (fresh : bool) then ret (VObj [("url", VStr ("/public/audio/temp/" +:+ filename))]) else
  axios_post (show (python_url config) +:+ "/preview-tts")
    (VObj [("text", VStr text); ("voice", voice); ("filename", VStr filename)]).

(** ** Sidecars of existing files *)
Definition legacy_data (legacyMetaPath redundantMetaPath : string) : M world val :=
  try_catch (fs_access legacyMetaPath ;; read_json legacyMetaPath)
    (fun _ => try_catch (fs_access redundantMetaPath ;; read_json redundantMetaPath)
                (fun _ => ret (VObj []))).

Definition make_sidecar (audioDir metaDir file : string) : M world unit :=
  let audioPath := in_dir audioDir file in
  let metaPath := in_dir metaDir (file +:+ ".json") in
  let legacyMetaPath := audioPath +:+ ".json" in
  let redundantMetaPath := audioPath +:+ ".meta.json" in
  try_catch (fs_access metaPath)
    (fun _ => ignoring
      (enrichedMetadata ← enriched audioPath;
       existingData ← legacy_data legacyMetaPath redundantMetaPath;
       existingData ← (if String.eqb file "azan.mp3"
                       then lift (put existingData "protected" (VBool true)) else ret existingData);
       fs_write metaPath (Json (VObj (ospread (ospread [] (props existingData))
                                        (props enrichedMetadata)))) ;;
       ignoring (fs_unlink legacyMetaPath) ;;
       ignoring (fs_unlink redundantMetaPath))).

Definition generateMetadataForExistingFiles : M world unit :=
  ensureDirs ;;
  for_each (fun dirs : string * string =>
    present ← settle (fs_access_dir dirs.1);
    if negb (is_ok present) then ret tt else
    names ← fs_readdir dirs.1;
    for_each (make_sidecar dirs.1 dirs.2)
      (filter (fun f => existsb (String.eqb (to_lower (extname f))) audioExtensions = true) names))
    [(AUDIO_CUSTOM_DIR, META_CUSTOM_DIR); (AUDIO_CACHE_DIR, META_CACHE_DIR)].

(** ** Lemmas *)

(** The sidecar at [metaPath] records the text and the voice. *)
Definition recorded (metaPath text : string) (voice : val) (w : world) : Prop :=
  exists m t, files w !! metaPath = Some (File (Json m) t) /\
    prop (json_clone m) "text" = VStr text /\ seq (prop (json_clone m) "voice") voice = true.

Definition present (p : string) (w : world) : Prop := is_Some (files w !! p).

Lemma seq_str v s : seq v (VStr s) = true -> v = VStr s.
Proof. destruct v; try done. cbn. by intros ->%String.eqb_eq. Qed.

Lemma tts_current_ok audioPath metaPath text voice w w' :
  audioPath <> metaPath -> tts_current audioPath metaPath text voice w = (Ok true, w') ->
  present audioPath w' /\ recorded metaPath text voice w' /\ w_net w' = w_net w.
Proof.
  intros Hne H. unfold tts_current, try_catch in H.
  match type of H with context [match ?m with _ => _ end] => destruct m as [[b|e] w0] eqn:E end;
    [|done]. injection H as -> <-.
  apply M_bind_inv in E as ([] & w1 & H1 & E). apply M_bind_inv in E as ([] & w2 & H2 & E).
  apply M_bind_inv in E as (meta & w3 & H3 & E). apply M_bind_inv in E as (st & w4 & H4 & E).
  unfold fs_access in H1, H2. destruct (files w !! audioPath) as [fa|] eqn:Ea; [|done].
  injection H1 as <-. destruct (files w !! metaPath) as [[c tm]|] eqn:Em; [|done].
  injection H2 as <-. unfold read_json in H3. apply M_bind_inv in H3 as (c' & w5 & Hr & H3).
  unfold fs_read in Hr. rewrite Em in Hr. injection Hr as <- <-. unfold lift in H3, H4.
  cbn in H3. injection H3 as H3 <-. injection H4 as H4 <-.
  destruct (seq st (VStr text)) eqn:Es; [|done]. cbn [andb] in E.
  destruct (seq (prop meta "voice") voice) eqn:Ev; [|done].
  apply M_bind_inv in E as ([] & w6 & H6 & E). apply M_bind_inv in E as ([] & w7 & H7 & E).
  injection E as <-. unfold fs_touch in H6, H7. rewrite Ea in H6. injection H6 as <-.
  unfold files in H7, Em. cbn in H7. rewrite lookup_insert_ne, Em in H7 by done. injection H7 as <-.
  destruct c as [|m|]; try done. injection H3 as <-.
  split; [|split; [|done]].
  - unfold present, files. cbn. rewrite lookup_insert_ne, lookup_insert_eq by done. by eexists.
  - exists m, (w_clock w). unfold files. cbn. rewrite lookup_insert_eq. split; [done|].
    split; [|done]. apply seq_str in Es as ->. by destruct (json_clone m); try done; injection H4.
Qed.

(** Metadata of a file has no text or voice of its own. *)
Lemma enriched_keys audioPath w e w' k :
  enriched audioPath w = (Ok e, w') -> k = "text" \/ k = "voice" ->
  ohas k (props e) = false /\ is_Some (files w' !! audioPath).
Proof.
  unfold enriched, analyseAudioFile, parseFile, enrichMetadata. intros H Hk.
  apply M_bind_inv in H as (basic & w1 & Hb & H).
  apply M_bind_inv in Hb as ([format size] & w2 & Hp & Hb). cbv zeta in Hb.
  injection Hb as <- <-. apply M_bind_inv in Hp as (c & w3 & Hr & Hp).
  unfold fs_read in Hr. destruct (files w !! audioPath) as [f|] eqn:Ef; [|done].
  injection Hr as <- <-. assert (w2 = w) as ->.
  { destruct (f_content f); try done. by injection Hp. }
  apply M_bind_inv in H as (compat & w4 & Hc & H).
  apply M_bind_inv in H as (ts & w5 & Ht & H). injection Ht as <- <-. injection H as <- <-.
  split.
  - cbn [props ohas]. by destruct Hk as [-> | ->].
  - assert (w4 = w) as ->; [|by eexists].
    assert (keeps (fun w => w) (map_m (fun s =>
      verdict ← validateAsset s (VObj [("format", prop format "container");
        ("codec", prop format "codec"); ("bitrate", prop format "bitrate");
        ("sampleRate", prop format "sampleRate"); ("duration", prop format "duration");
        ("size", VInt size); ("mimeType", VStr (getMimeType format audioPath))]);
      ret (st_id s, verdict)) strategies)) as Hk'.
    { unfold validateAsset. keeps_step. }
    specialize (Hk' w). cbn [fst snd] in Hc. by rewrite Hc in Hk'.
Qed.

(** A text recorded when the sidecar is written *)
Lemma make_tts_ok filename audioPath metaPath text url v w r w' :
  audioPath <> metaPath ->
  make_tts filename audioPath metaPath text url (VStr v) w = (Ok r, w') ->
  truthy (prop r "success") = true ->
  present audioPath w' /\ recorded metaPath text (VStr v) w'.
Proof.
  intros Hne H Hs. unfold make_tts, try_catch in H.
  match type of H with context [match ?m with _ => _ end] => destruct m as [[r0|e] w0] eqn:E end.
  2:{ injection H as <- <-. done. }
  injection H as <- <-. apply M_bind_inv in E as ([] & w1 & _ & E).
  apply M_bind_inv in E as (em & w2 & He & E). apply M_bind_inv in E as (ga & w3 & Hga & E).
  injection Hga as <- <-. apply M_bind_inv in E as ([] & w4 & Hw & E). injection E as <- <-.
  destruct (enriched_keys _ _ _ _ "text" He (or_introl eq_refl)) as [Htext [fa Ha]].
  destruct (enriched_keys _ _ _ _ "voice" He (or_intror eq_refl)) as [Hvoice _].
  unfold fs_write in Hw. destruct (denied w2 metaPath); [done|]. injection Hw as <-.
  unfold present, recorded, files. cbn [w_fs set_files fs_files]. split.
  - exists fa. by rewrite lookup_insert_ne.
  - do 2 eexists. rewrite lookup_insert_eq. split; [done|].
    rewrite !prop_json_clone; cbn [prop]; rewrite ?oget_ospread_not by done; cbn; try done.
    by rewrite String.eqb_refl.
Qed.

Lemma tts_paths_differ filename :
  in_dir AUDIO_CACHE_DIR filename <> in_dir META_CACHE_DIR (filename +:+ ".json").
Proof. by intros [=]. Qed.

Lemma ensureTTSFile_ok prayer event settings config v w r w' :
  effective_voice settings config = VStr v ->
  ensureTTSFile prayer event settings config w = (Ok r, w') ->
  truthy (prop r "success") = true ->
  exists text,
    resolveTemplate (prop settings "template") prayer (prop settings "offsetMinutes") = Ok text /\
    present (in_dir AUDIO_CACHE_DIR (tts_filename prayer event)) w' /\
    recorded (in_dir META_CACHE_DIR (tts_filename prayer event +:+ ".json")) text (VStr v) w' /\
    (prop r "generated" = VBool false -> w_net w' = w_net w).
Proof.
  intros Hv H Hs. unfold ensureTTSFile in H. apply M_bind_inv in H as (text & w1 & Ht & H).
  unfold lift in Ht. injection Ht as Ht <-. exists text. split; [done|].
  rewrite Hv in H. cbv zeta in H. pose proof (tts_paths_differ (tts_filename prayer event)) as Hne.
  apply M_bind_inv in H as (current & w2 & Hc & H). destruct current.
  - injection H as <- <-. destruct (tts_current_ok _ _ _ _ _ _ Hne Hc) as (? & ? & ?). auto.
  - apply M_bind_inv in H as (th & w3 & _ & H).
    destruct (negb (truthy (prop (prop th "tts") "healthy"))); [by injection H as <- <-|].
    apply M_bind_inv in H as (qc & w4 & _ & H).
    destruct (negb (truthy (prop qc "success"))); [done|].
    destruct (make_tts_ok _ _ _ _ _ _ _ _ _ Hne H Hs) as [? ?]. split; [done|]. split; [done|].
    intros Hg. exfalso. unfold make_tts, try_catch in H.
    match type of H with context [match ?m with _ => _ end] => destruct m as [[r0|e] w0] eqn:E end;
      injection H as <- <-; [|done].
    apply M_bind_inv in E as (? & ? & _ & E). apply M_bind_inv in E as (? & ? & _ & E).
    apply M_bind_inv in E as (? & ? & _ & E). apply M_bind_inv in E as (? & ? & _ & E).
    injection E as <- <-. done.
Qed.
End assets.

(** ** Properties *)
Section properties.
Context `{L : Luxon} `{Zd : Zod} `{N : Net} `{Ho : Host} `{T : Tts} `{W : Words} `{G : Digest}.

(** C23: speech is ready.  When an announcement's speech file is reported as
    ready, the audio file is in the cache and its sidecar records the very text
    and voice of the current settings; and when it was not generated, no
    service was called. *)
Theorem ensureTTSFile_ready prayer event settings config v w r w' :
  effective_voice settings config = VStr v ->
  ensureTTSFile prayer event settings config w = (Ok r, w') ->
  truthy (prop r "success") = true ->
  exists text,
    resolveTemplate (prop settings "template") prayer (prop settings "offsetMinutes") = Ok text /\
    present (in_dir AUDIO_CACHE_DIR (tts_filename prayer event)) w' /\
    recorded (in_dir META_CACHE_DIR (tts_filename prayer event +:+ ".json")) text (VStr v) w' /\
    (prop r "generated" = VBool false -> w_net w' = w_net w).
Proof. apply ensureTTSFile_ok. Qed.
End properties.

Definition some_words : Words := fun v => Ok (show v).
Definition no_net : Net := fun _ _ => Throw (Error "offline").
Definition no_tts : Tts := fun _ _ _ => Throw (Error "offline").

Definition speech_settings : val :=
  VObj [("enabled", VBool true); ("type", VStr "tts");
        ("template", VStr "{minutes} minutes till {prayerEnglish}"); ("offsetMinutes", VInt 15)].

Definition speech_world : world :=
  set_files
    {[ "/app/public/audio/cache/tts_fajr_preAdhan.mp3" := File (Audio 9000 (VObj [])) 0;
       "/app/src/public/audio/cache/tts_fajr_preAdhan.mp3.json" :=
         File (Json (VObj [("text", VStr "15 minutes till Fajr");
                           ("voice", VStr "ar-SA-HamedNeural")])) 0 ]} empty_world.

Lemma ensureTTSFile_ready_witness :
  exists w', recorded (in_dir META_CACHE_DIR "tts_fajr_preAdhan.mp3.json") "15 minutes till Fajr"
      (VStr "ar-SA-HamedNeural") w' /\ w_net w' = [].
Proof.
  destruct (ensureTTSFile_ready (L := utc) (Zd := zod_ref) (N := no_net) (Ho := quiet_host)
    (T := no_tts) (W := some_words) "fajr" "preAdhan" speech_settings (VObj [])
    "ar-SA-HamedNeural" speech_world (tts_result true "Valid file exists" false)
    (set_files (files (ensureTTSFile (L := utc) (Zd := zod_ref) (N := no_net) (Ho := quiet_host)
      (T := no_tts) (W := some_words) "fajr" "preAdhan" speech_settings (VObj []) speech_world).2)
      speech_world)) as (text & Ht & _ & Hr & Hn).
  - reflexivity.
  - vm_compute. reflexivity.
  - reflexivity.
  - vm_compute in Ht. injection Ht as <-. eexists. split; [exact Hr|]. by apply Hn.
Defined.
