(* ===== verification/AssetMigration.v ===== *)
(** * Completing the sidecars at start-up
      ([src/services/system/assetMigrationService.js])

    A sidecar written before an output strategy existed has no verdict for it;
    the scan adds the missing ones.  The files of a batch are migrated together
    in the source, each on its own sidecar: here one after the other. *)
From S2P Require Import Prelude JsString JsValue NodePath World Sse ConfigStore Outputs Storage.
From S2P Require Import AudioAssets.

Definition BATCH_SIZE : nat := 50.

Record dir_set := DirSet { ds_audio : string; ds_meta : string }.

Definition migration_dirs : list dir_set :=
  [DirSet AUDIO_CUSTOM_DIR META_CUSTOM_DIR; DirSet AUDIO_CACHE_DIR META_CACHE_DIR].

(** [for (let i = 0; i < l.length; i += n)]: the slices, one fuel unit each *)
Fixpoint batches {A} (fuel : nat) (n : nat) (l : list A) : list (list A) :=
  match fuel, l with
  | S fuel', _ :: _ => take n l :: batches fuel' n (drop n l)
  | _, _ => []
  end.

Definition batched {A} (l : list A) : list (list A) := batches (length l) BATCH_SIZE l.

(** [Object.assign(target, source)] *)
Definition assign (target source : val) : val :=
  match target with VObj o => VObj (ospread o (props source)) | _ => target end.

Definition sidecar_of (dirSet : dir_set) (file : string) : string :=
  in_dir (ds_meta dirSet) (file +:+ ".json").

Section migration.
Context `{Host0 : Host}.

(** The metadata, the verdicts, and whether any was missing *)
Definition scan : Type := val * val * bool.

Definition check_strategy (audioPath : string) (acc : scan) (strategy : Strategy) : M world scan :=
  let '(metadata, compatibility, needsUpdate) := acc in
  if truthy (prop compatibility (st_id strategy)) then ret acc else
  metadata ← (if negb (truthy (prop metadata "format")) || negb (truthy (prop metadata "bitrate"))
              then analysed ← analyseAudioFile audioPath; ret (assign metadata analysed)
              else ret metadata);
  verdict ← validateAsset strategy metadata;
  compatibility ← lift (put compatibility (st_id strategy) verdict);
  ret (metadata, compatibility, true).

Fixpoint check_strategies (audioPath : string) (l : list Strategy) (acc : scan) : M world scan :=
  match l with
  | [] => ret acc
  | s :: l' => acc' ← check_strategy audioPath acc s; check_strategies audioPath l' acc'
  end.

Definition _migrateFile (file : string) (dirSet : dir_set) : M world bool :=
  let audioPath := in_dir (ds_audio dirSet) file in
  let metaPath := sidecar_of dirSet file in
  try_catch
    (present ← settle (fs_access metaPath);
     if negb (is_ok present) then ret false else
     content ← fs_read metaPath;
     match json_parse content with
     | Throw _ => ret false
     | Ok metadata =>
         stored ← lift (get metadata "compatibility");
         checked ← check_strategies audioPath strategies (metadata, js_or stored (VObj []), false);
         let '(metadata, compatibility, needsUpdate) := checked in
         if negb needsUpdate then ret false else
         metadata ← lift (put metadata "compatibility" compatibility);
         updatedAt ← gets isoNow;
         metadata ← lift (put metadata "updatedAt" updatedAt);
         fs_write metaPath (Json metadata) ;;
         ret true
     end)
    (fun _ => ret false).

(** The counts of the scan: processed and updated *)
Definition migrate_dir (dirSet : dir_set) : M world (nat * nat) :=
  present ← settle (fs_access_dir (ds_audio dirSet));
  if negb (is_ok present) then ret (0, 0)%nat else
  names ← fs_readdir (ds_audio dirSet);
  let files := filter (fun f => existsb (String.eqb (to_lower (extname f))) audioExtensions = true) names in
  results ← map_m (fun batch => map_m (fun file => _migrateFile file dirSet) batch) (batched files);
  ret (length files, length (filter (fun r : bool => r = true) (mjoin results))).

Definition migrateAll : M world (nat * nat) :=
  try_catch
    (counts ← map_m migrate_dir migration_dirs;
     ret (foldr (fun c acc => (c.1 + acc.1, c.2 + acc.2)%nat) (0, 0)%nat counts))
    (fun _ => ret (0, 0)%nat).

(** ** Lemmas *)

(** The batches are the list, whole and in order. *)
Lemma batches_join {A} fuel n (l : list A) :
  (0 < n)%nat -> (length l <= fuel)%nat -> mjoin (batches fuel n l) = l.
Proof.
  revert l. induction fuel as [|fuel IH]; intros [|x l] Hn Hf; try done; cbn in Hf; [lia|].
  cbn [batches]. transitivity (take n (x :: l) ++ mjoin (batches fuel n (drop n (x :: l)))); [done|].
  rewrite IH, take_drop; [done|done|]. rewrite length_drop. cbn. lia.
Qed.

Lemma batched_join {A} (l : list A) : mjoin (batched l) = l.
Proof. apply batches_join; unfold BATCH_SIZE; lia. Qed.

Lemma batches_size {A} fuel n (l : list A) : Forall (fun b => (length b <= n)%nat) (batches fuel n l).
Proof.
  revert l. induction fuel as [|fuel IH]; intros [|x l]; cbn [batches]; constructor; [|apply IH].
  rewrite length_take. lia.
Qed.

(** Validation and analysis only read. *)
Lemma validateAsset_reads s m w r w' : validateAsset s m w = (r, w') -> w' = w.
Proof.
  unfold validateAsset. munfold. destruct (st_issues s m); by intros [= _ <-].
Qed.

Lemma validateAsset_truthy s m w v w' : validateAsset s m w = (Ok v, w') -> truthy v = true.
Proof. unfold validateAsset. munfold. destruct (st_issues s m); by intros [= <- _]. Qed.

Lemma analyse_reads p w r w' : analyseAudioFile p w = (r, w') -> w' = w.
Proof.
  unfold analyseAudioFile, parseFile, fs_read. munfold.
  destruct (files w !! p) as [[[] ?]|]; cbn; by intros [= _ <-].
Qed.

(** What the scan of one sidecar keeps: verdicts that were there, and the rest *)
Definition grows (a b : scan) : Prop :=
  (exists o o', a.1.2 = VObj o /\ b.1.2 = VObj o' /\
     forall k, truthy (oget k o) = true -> oget k o' = oget k o) /\
  (is_array a.1.1 = false -> is_object a.1.1 = true -> is_array b.1.1 = false /\ is_object b.1.1 = true) /\
  (a.2 = true -> b.2 = true).

Lemma check_strategy_spec p acc s w acc' w' :
  (exists o, acc.1.2 = VObj o) -> check_strategy p acc s w = (Ok acc', w') ->
  w' = w /\ grows acc acc' /\ truthy (prop acc'.1.2 (st_id s)) = true /\
  (acc' = acc \/ acc'.2 = true).
Proof.
  destruct acc as [[m c] b]. intros [o Ho] H. cbn in Ho. subst c. unfold check_strategy in H.
  destruct (truthy (prop (VObj o) (st_id s))) eqn:Et.
  { injection H as <- <-. split; [done|]. split; [|by split; [|left]].
    split; [by exists o, o|]. done. }
  apply M_bind_inv in H as (m' & w1 & Hm & H). apply M_bind_inv in H as (v & w2 & Hv & H).
  apply M_bind_inv in H as (c' & w3 & Hc & H). injection Hc as <- <-. injection H as <- <-.
  apply validateAsset_reads in Hv as Hw2. apply validateAsset_truthy in Hv as Htv. subst w2.
  assert (w1 = w /\ (m' = m \/ exists a, m' = assign m a)) as [-> Hm'].
  { case_match; [|injection Hm as <- <-; split; [done|by left]].
    apply M_bind_inv in Hm as (a & w4 & Ha & Hm). apply analyse_reads in Ha as ->.
    injection Hm as <- <-. split; [done|]. right. by exists a. }
  split; [done|]. cbn [fst snd prop]. rewrite oget_oset. split; [|by split; [|right]].
  split; [|split; [|done]].
  - exists o, (oset (st_id s) v o). split; [done|]. split; [done|]. intros k Hk.
    apply oget_oset_ne. intros ->. cbn in Et. congruence.
  - cbn [fst snd]. destruct Hm' as [->|[a ->]]; [done|]. by destruct m.
Qed.

Lemma grows_trans a b c : grows a b -> grows b c -> grows a c.
Proof.
  intros ((o & o1 & E1 & E2 & Ho) & Hm & Hb) ((o1' & o2 & E3 & E4 & Ho2) & Hm2 & Hb2).
  split; [|split; [|by auto]].
  - exists o, o2. split; [done|]. split; [done|]. intros k Hk. assert (o1' = o1) as -> by congruence.
    rewrite <- (Ho k Hk). apply Ho2. by rewrite (Ho k Hk).
  - intros H1 H2. destruct (Hm H1 H2). by apply Hm2.
Qed.

Lemma check_strategies_spec p l acc w acc' w' :
  (exists o, acc.1.2 = VObj o) -> check_strategies p l acc w = (Ok acc', w') ->
  w' = w /\ grows acc acc' /\ (forall s, s ∈ l -> truthy (prop acc'.1.2 (st_id s)) = true) /\
  (acc' = acc \/ acc'.2 = true).
Proof.
  revert acc w. induction l as [|s l IH]; intros acc w Ho H.
  { injection H as <- <-. split; [done|]. split; [|split; [by intros s ?%not_elem_of_nil|by left]].
    destruct Ho as [o Ho]. split; [by exists o, o|]. done. }
  cbn [check_strategies] in H. apply M_bind_inv in H as (a1 & w1 & H1 & H).
  destruct (check_strategy_spec _ _ _ _ _ _ Ho H1) as (-> & Hg & Ht & Hs).
  destruct (IH a1 w) as (-> & Hg2 & Ht2 & Hs2); [|done|].
  { destruct Hg as ((o1 & o2 & _ & E & _) & _). by exists o2. }
  split; [done|]. split; [by eapply grows_trans|]. split.
  - intros x [->|Hx]%elem_of_cons; [|by apply Ht2].
    destruct Hg2 as ((o1 & o2 & E1 & E2 & Hk) & _). rewrite E1 in Ht. rewrite E2. cbn in *. by rewrite Hk.
  - destruct Hs2 as [->|?]; [done|by right].
Qed.

(** Complete verdicts leave nothing to do. *)
Lemma check_complete p l m c w :
  (forall s, s ∈ l -> truthy (prop c (st_id s)) = true) ->
  check_strategies p l (m, c, false) w = (Ok (m, c, false), w).
Proof.
  induction l as [|s l IH]; intros Ht; [done|]. cbn [check_strategies].
  rewrite (M_bind_ok _ _ _ (m, c, false) w); [by apply IH; intros; apply Ht; right|].
  unfold check_strategy. by rewrite Ht by left.
Qed.

Lemma keeps_analyse p : keeps (fun w => w) (analyseAudioFile p).
Proof. intros w. by eapply analyse_reads, surjective_pairing. Qed.
Lemma keeps_verdict s m : keeps (fun w => w) (validateAsset s m).
Proof. intros w. by eapply validateAsset_reads, surjective_pairing. Qed.
#[local] Hint Resolve keeps_analyse keeps_verdict : azan.

Lemma keeps_check p l acc : keeps (fun w => w) (check_strategies p l acc).
Proof.
  revert acc. induction l as [|s l IH]; intros acc; [apply keeps_ret|]. cbn [check_strategies].
  apply keeps_bind; [|intros; apply IH]. unfold check_strategy. keeps_step.
Qed.

(** The sidecar's own verdicts, as the scan reads them *)
Definition verdicts (m : val) : val := js_or (prop m "compatibility") (VObj []).

Definition complete (m : val) : Prop :=
  forall s, s ∈ strategies -> truthy (prop (verdicts m) (st_id s)) = true.

(** A complete sidecar is left alone. *)
Lemma migrate_complete file ds w m t :
  files w !! sidecar_of ds file = Some (File (Json m) t) ->
  is_nullish (json_clone m) = false -> complete (json_clone m) ->
  _migrateFile file ds w = (Ok false, w).
Proof.
  intros Hf Hn Hc. unfold _migrateFile, try_catch.
  erewrite M_bind_ok by (unfold settle; by rewrite (fs_access_ok _ _ _ Hf)). cbn [is_ok negb].
  rewrite (M_bind_ok _ _ _ _ _ (fs_read_ok _ _ _ Hf)). cbn [f_content json_parse].
  unfold lift. rewrite get_ok by done. erewrite M_bind_ok by reflexivity.
  erewrite M_bind_ok by (by apply check_complete). done.
Qed.

Lemma complete_stored o u c :
  is_object (VObj o) = true -> (forall s, s ∈ strategies -> truthy (prop (VObj c) (st_id s)) = true) ->
  complete (json_clone (VObj (oset "updatedAt" u (oset "compatibility" (VObj c) o)))).
Proof.
  intros _ Hc s Hs. specialize (Hc s Hs). unfold verdicts.
  assert (prop (VObj (oset "updatedAt" u (oset "compatibility" (VObj c) o))) "compatibility" = VObj c) as Hp.
  { cbn [prop]. by rewrite oget_oset_ne, oget_oset by done. }
  rewrite prop_json_clone by (by rewrite Hp). rewrite Hp. unfold js_or. cbn [truthy].
  change (truthy (json_clone (VObj c))) with true. cbn beta iota.
  rewrite prop_json_clone, truthy_json_clone; [done|]. by intros E; rewrite E in Hc.
Qed.

(** The scan of a sidecar.  It never fails; a sidecar that is not rewritten
    leaves everything as it was.  One that is rewritten has a verdict of every
    strategy afterwards, keeps the verdicts it had, is the only file that
    changed, and is left alone by every later scan. *)
Theorem migrateFile_completes file ds w o t :
  files w !! sidecar_of ds file = Some (File (Json (VObj o)) t) ->
  (exists c, verdicts (json_clone (VObj o)) = VObj c) ->
  exists updated w', _migrateFile file ds w = (Ok updated, w') /\
    (updated = false -> w' = w) /\
    (updated = true -> exists m,
       w' = set_files (<[sidecar_of ds file := File (Json m) (w_clock w)]> (files w)) w /\
       complete m /\
       (forall k, truthy (prop (verdicts (json_clone (VObj o))) k) = true ->
          prop (verdicts m) k = prop (verdicts (json_clone (VObj o))) k) /\
       forall w2, files w2 !! sidecar_of ds file = files w' !! sidecar_of ds file ->
         _migrateFile file ds w2 = (Ok false, w2)).
Proof.
  intros Hf [c0 Hc0]. unfold _migrateFile at 1, try_catch.
  erewrite M_bind_ok by (unfold settle; by rewrite (fs_access_ok _ _ _ Hf)). cbn [is_ok negb].
  rewrite (M_bind_ok _ _ _ _ _ (fs_read_ok _ _ _ Hf)). cbn [f_content json_parse].
  assert (exists o1, json_clone (VObj o) = VObj o1) as [o1 Ho1] by (by eexists).
  rewrite Ho1 in *. unfold lift at 1. rewrite get_ok by done. erewrite M_bind_ok by reflexivity.
  change (js_or (prop (VObj o1) "compatibility") (VObj [])) with (verdicts (VObj o1)). rewrite Hc0.
  pose proof (keeps_check (in_dir (ds_audio ds) file) strategies (VObj o1, VObj c0, false) w) as Hkeep.
  destruct (check_strategies (in_dir (ds_audio ds) file) strategies (VObj o1, VObj c0, false) w)
    as [[[[m1 c1] b1]|e] w1] eqn:Ec; cbn [snd] in Hkeep; subst w1.
  2:{ rewrite (M_bind_throw _ _ _ _ _ Ec). by exists false, w. }
  assert (exists c, (VObj o1, VObj c0, false).1.2 = VObj c) as Hex by (by exists c0).
  destruct (check_strategies_spec _ _ _ _ _ _ Hex Ec) as (_ & Hg & Ht & _).
  destruct Hg as ((c & c' & [= <-] & Hc1 & Hk) & Hm & _). cbn [fst snd] in *. subst c1.
  destruct (Hm eq_refl eq_refl) as [Harr Hobj]. destruct m1 as [| | | | | |om]; try done.
  rewrite (M_bind_ok _ _ _ _ _ Ec). destruct b1; cbn [negb]; [|by exists false, w].
  do 3 erewrite M_bind_ok by reflexivity. set (m2 := VObj (oset "updatedAt" _ _)).
  assert (verdicts m2 = VObj c') as Hv2.
  { unfold verdicts, m2. cbn [prop]. by rewrite oget_oset_ne, oget_oset by done. }
  destruct (denied w (sidecar_of ds file)) eqn:Ed.
  { exists false, w. rewrite (M_bind_throw _ _ _ _ _ (fs_write_denied _ _ _ Ed)). done. }
  rewrite (M_bind_ok _ _ _ _ _ (fs_write_ok _ _ _ Ed)).
  exists true. eexists. split; [reflexivity|]. split; [done|]. intros _. exists m2. split; [done|].
  split; [intros s Hs; rewrite Hv2; by apply Ht|]. split; [intros k Htk; rewrite Hv2; by apply Hk|].
  intros w2 Hf2. unfold files in Hf2 at 2. cbn [w_fs set_files fs_files] in Hf2.
  rewrite lookup_insert_eq in Hf2. eapply migrate_complete; [exact Hf2|done|].
  by apply complete_stored.
Qed.
End migration.

(** ** Witness *)
Definition old_sidecar : list (string * val) :=
  [("format", VStr "MPEG"); ("bitrate", VInt 128000);
   ("compatibility", VObj [("local", VObj [("valid", VBool true)])])].

Definition custom_dirs : dir_set := DirSet AUDIO_CUSTOM_DIR META_CUSTOM_DIR.

Definition old_world : world :=
  set_files {[ sidecar_of custom_dirs "a.mp3" := File (Json (VObj old_sidecar)) 0 ]} empty_world.

Lemma migrateFile_completes_witness :
  exists w', _migrateFile (Host0 := quiet_host) "a.mp3" custom_dirs old_world = (Ok true, w') /\
    _migrateFile (Host0 := quiet_host) "a.mp3" custom_dirs w' = (Ok false, w').
Proof.
  destruct (migrateFile_completes (Host0 := quiet_host) "a.mp3" custom_dirs old_world old_sidecar 0)
    as (b & w' & H & _ & Hb); [done|by eexists|].
  assert (b = true) as ->.
  { assert ((_migrateFile (Host0 := quiet_host) "a.mp3" custom_dirs old_world).1 = Ok true) as E
      by (vm_compute; reflexivity). rewrite H in E. by injection E. }
  exists w'. split; [exact H|]. destruct (Hb eq_refl) as (m & _ & _ & _ & Hl). by apply Hl.
Defined.
