(* ===== verification/Automation.v ===== *)
(** * Announcements ([src/services/core/automationService.js])

    When an event is due, its audio is checked or made, and every enabled
    output is given it.  Outputs differ in latency: each is started after the
    difference between the largest lead time and its own.  The executions run
    side by side in the source; here they follow one another in the order in
    which they start, each at its own instant.  Whether an execution outlasts
    its time limit, and is aborted, is a parameter ([Pace]). *)
From Stdlib Require Import Sorting.Sorted.
From S2P Require Import Prelude JsString JsValue NodePath World Luxon LuxonUtc Zod Network.
From S2P Require Import NormalizeSource Providers Encryption Sse ConfigStore Outputs Health.
From S2P Require Import Storage AudioAssets.

Class Pace := overruns : string -> bool.

Definition getAudioSource (settings : val) (prayer event : string) : val :=
  if seq (prop settings "type") (VStr "tts")
  then VObj [("path", VStr ("cache/" +:+ tts_filename prayer event))] else
  if seq (prop settings "type") (VStr "file") then
    match text_of (prop settings "path") with
    | Some p => VObj [("path", VStr p)]
    | None => VNull
    end
  else if seq (prop settings "type") (VStr "url") then
    match text_of (prop settings "url") with
    | Some u => VObj [("url", VStr u)]
    | None => VNull
    end
  else VNull.

(** [withTimeout]: only an [AbortError] is turned into the given message. *)
Definition withTimeout {A} (task : M world A) (errorMsg : string) : M world A :=
  try_catch task (fun error =>
    throw (if String.eqb (e_name error) "AbortError" then Error errorMsg else error)).

(** An entry of the live log *)
Definition notice (message : string) (type : list (string * val)) : M world unit :=
  timestamp ← gets isoNow;
  broadcast (VObj [("type", VStr "LOG");
    ("payload", VObj ([("message", VStr message); ("timestamp", timestamp)] ++ type))]).

Definition error_type : list (string * val) := [("type", VStr "error")].

(** ** Targets *)

(** [new Set([...targets, "browser"])], in insertion order *)
Definition target_set (settings : val) : list string :=
  foldl (fun acc t => if existsb (String.eqb t) acc then acc else acc ++ [t]) []
    ((str_of <$> arr_of (js_or (prop settings "targets") (VArr []))) ++ ["browser"]).

Definition target_enabled (config : val) (targetId : string) : bool :=
  let enabled := prop (output_config config targetId) "enabled" in
  if String.eqb targetId "browser" then negb (seq enabled (VBool false)) else truthy enabled.

(** [outputConfig?.leadTimeMs || 0] *)
Definition lead_time (config : val) (targetId : string) : Q :=
  num_of (js_or (prop (output_config config targetId) "leadTimeMs") (VInt 0)).

(** One target: the largest lead time so far, and the active targets *)
Definition add_target (config : val) (acc : Q * list (string * Q)) (targetId : string)
    : Q * list (string * Q) :=
  if target_enabled config targetId then
    let leadTime := lead_time config targetId in
    (if Qle_bool leadTime acc.1 then acc.1 else leadTime, acc.2 ++ [(targetId, leadTime)])
  else acc.

(** The master lead time and the active targets *)
Definition _getActiveTargets (config settings : val) : Q * list (string * Q) :=
  foldl (add_target config) (0%Q, []) (target_set settings).

(** [masterLeadTime - leadTime], waited for when positive *)
Definition wait_delay (master lead : Q) : Q := (master - lead)%Q.

(** The instant, in milliseconds, at which a target that waits [q] starts *)
Definition after_wait (start : Z) (q : Q) : Z :=
  if Qle_bool q 0 then start else start + Qceiling q.

(** The targets in the order of their start *)
Fixpoint insert_target (t : string * Q) (l : list (string * Q)) : list (string * Q) :=
  match l with
  | [] => [t]
  | u :: l' => if Qle_bool u.2 t.2 && negb (Qle_bool t.2 u.2) then t :: l
               else u :: insert_target t l'
  end.
Definition launch_order (targets : list (string * Q)) : list (string * Q) :=
  foldl (fun l t => insert_target t l) [] targets.

Section automation.
Context `{L : Luxon} `{Zd : Zod} `{N : Net} `{H : Host} `{T : Tts} `{W : Words} `{P : Pace}.

(** The audio of an event: checked for a file, made for speech. *)
Definition _validateAndPrepareAudio (settings : val) (prayer event : string) (config : val)
    : M world (option val) :=
  let source := getAudioSource settings prayer event in
  if seq (prop settings "type") (VStr "tts") then
    try_catch
      (ttsResult ← ensureTTSFile prayer event settings config;
       if truthy (prop ttsResult "success") then ret (Some source)
       else notice ("Skipped " +:+ prayer +:+ " " +:+ event +:+ ": TTS Service Offline") error_type ;;
            ret None)
      (fun _ => ret None)
  else if seq (prop settings "type") (VStr "file") then
    let filePath := match (if truthy source then normalizeSource source else Ok VNull) with
                    | Ok n => if seq (prop n "type") (VStr "file") then prop n "filePath" else VNull
                    | Throw _ => VNull
                    end in
    exists_ ← settle (if truthy filePath then fs_access (str_of filePath) else throw (enoent ""));
    if is_ok exists_ then ret (Some source)
    else notice ("Skipped " +:+ prayer +:+ " " +:+ event +:+ ": Custom file missing") error_type ;;
         ret None
  else ret (Some source).

(** A failure is reported and goes no further. *)
Definition _executeTarget (start : Z) (masterLeadTime : Q) (payload metadata : val)
    (target : string * Q) : M world unit :=
  let '(targetId, leadTime) := target in
  try_catch
    (strategy ← lift (getStrategy targetId);
     withTimeout
       (modify (set_clock (after_wait start (wait_delay masterLeadTime leadTime))) ;;
        execute strategy payload metadata (overruns targetId))
       ("Strategy " +:+ targetId +:+ " timed out"))
    (fun _ => ret tt).

Definition event_payload (prayer event : string) (source config : val) : val :=
  VObj [("prayer", VStr prayer); ("event", VStr event); ("source", source);
        ("baseUrl", prop (prop config "automation") "baseUrl")].

(** The trigger settings of an event *)
Definition trigger_settings (config : val) (prayer event : string) : val :=
  prop (prop (prop (prop config "automation") "triggers") prayer) event.

Definition triggerEvent (prayer event : string) : M world unit :=
  config ← config_get;
  let settings := trigger_settings config prayer event in
  if negb (truthy settings) || negb (truthy (prop settings "enabled")) then ret tt else
  prepared ← _validateAndPrepareAudio settings prayer event config;
  match prepared with
  | None => ret tt
  | Some source =>
      notice ("Triggering " +:+ prayer +:+ " " +:+ event) [] ;;
      let '(masterLeadTime, activeTargets) := _getActiveTargets config settings in
      start ← gets w_clock;
      for_each (_executeTarget start masterLeadTime (event_payload prayer event source config)
                  (VObj [("isTest", VBool false)])) (launch_order activeTargets)
  end.
End automation.

(** ** Lemmas *)
Lemma dedup_spec l acc :
  NoDup acc ->
  NoDup (foldl (fun acc t => if existsb (String.eqb t) acc then acc else acc ++ [t]) acc l) /\
  forall x : string,
    x ∈ foldl (fun acc t => if existsb (String.eqb t) acc then acc else acc ++ [t]) acc l <->
    x ∈ acc \/ x ∈ l.
Proof.
  revert acc. induction l as [|t l IH]; intros acc Hnd; cbn [foldl].
  { split; [done|]. intros x. rewrite elem_of_nil. tauto. }
  destruct (existsb (String.eqb t) acc) eqn:E.
  - destruct (IH acc Hnd) as [H1 H2]. split; [done|]. intros x. rewrite H2, elem_of_cons.
    apply existsb_exists in E as (y & Hy & ->%String.eqb_eq). apply list_elem_of_In in Hy.
    naive_solver.
  - assert (t ∉ acc) as Hni.
    { intros Hin. assert (existsb (String.eqb t) acc = true); [|congruence].
      apply existsb_exists. exists t. split; [by apply list_elem_of_In|apply String.eqb_refl]. }
    destruct (IH (acc ++ [t])) as [H1 H2].
    { apply NoDup_app. split; [done|]. split; [|apply NoDup_singleton].
      intros x Hx ->%list_elem_of_singleton. done. }
    split; [done|]. intros x. rewrite H2, elem_of_app, list_elem_of_singleton, elem_of_cons. tauto.
Qed.

Definition configured_targets (settings : val) : list string :=
  str_of <$> arr_of (js_or (prop settings "targets") (VArr [])).

Lemma target_set_spec settings :
  NoDup (target_set settings) /\
  forall t, t ∈ target_set settings <-> t ∈ configured_targets settings \/ t = "browser".
Proof.
  destruct (dedup_spec (configured_targets settings ++ ["browser"]) [] (NoDup_nil_2)) as [H1 H2].
  split; [exact H1|]. intros t. unfold target_set. fold (configured_targets settings).
  rewrite H2, elem_of_app, list_elem_of_singleton, elem_of_nil. tauto.
Qed.

(** What the loop over the targets accumulates *)
Lemma active_targets_fold config l master active :
  let r := foldl (add_target config) (master, active) l in
  (exists more, r.2 = active ++ more /\
     more = (fun t => (t, lead_time config t)) <$> filter (fun t => target_enabled config t = true) l) /\
  (master <= r.1)%Q /\ (forall t, t ∈ l -> target_enabled config t = true -> (lead_time config t <= r.1)%Q) /\
  (r.1 = master \/ exists t, t ∈ l /\ target_enabled config t = true /\ r.1 = lead_time config t).
Proof.
  cbv zeta. revert master active. induction l as [|t l IH]; intros master active; cbn [foldl].
  { cbn. split; [exists []; by rewrite app_nil_r|]. split; [apply Qle_refl|].
    split; [by intros t ?%not_elem_of_nil|by left]. }
  destruct (add_target config (master, active) t) as [master' active'] eqn:Ea.
  unfold add_target in Ea. cbn [fst snd] in Ea. rewrite filter_cons.
  destruct (target_enabled config t) eqn:Et.
  - injection Ea as Ha <-. symmetry in Ha.
    assert ((master <= master')%Q /\ (lead_time config t <= master')%Q /\
            (master' = master \/ master' = lead_time config t)) as (Hm1 & Hm2 & Hm3).
    { subst master'. destruct (Qle_bool (lead_time config t) master) eqn:Eq.
      - apply Qle_bool_iff in Eq. split; [apply Qle_refl|]. split; [done|by left].
      - assert (master <= lead_time config t)%Q as Hle.
        { destruct (Qlt_le_dec master (lead_time config t)) as [Hlt|Hle]; [by apply Qlt_le_weak|].
          apply Qle_bool_iff in Hle. congruence. }
        split; [done|]. split; [apply Qle_refl|by right]. }
    destruct (IH master' (active ++ [(t, lead_time config t)])) as ((more & -> & ->) & H2 & H3 & H4).
    split; [|split; [|split]].
    + eexists. rewrite <- app_assoc. split; [done|]. by rewrite decide_True.
    + by eapply Qle_trans.
    + intros u [->|Hu]%elem_of_cons He; [by eapply Qle_trans|by apply H3].
    + destruct H4 as [->|(u & Hu & He & ->)].
      * destruct Hm3 as [->| ->]; [by left|]. right. exists t. split; [apply list_elem_of_here|done].
      * right. exists u. split; [by apply list_elem_of_further|done].
  - injection Ea as <- <-. destruct (IH master active) as ((more & -> & ->) & H2 & H3 & H4).
    split; [|split; [done|split]].
    + eexists. split; [done|]. by rewrite decide_False.
    + intros u [->|Hu]%elem_of_cons He; [congruence|by apply H3].
    + destruct H4 as [->|(u & Hu & He & ->)]; [by left|]. right. exists u.
      split; [by apply list_elem_of_further|done].
Qed.

Lemma insert_target_perm t l : insert_target t l ≡ₚ t :: l.
Proof.
  induction l as [|u l IH]; [done|]. cbn. destruct (_ && _); [done|]. rewrite IH.
  apply Permutation_swap.
Qed.

Lemma launch_order_perm_acc targets acc :
  foldl (fun l t => insert_target t l) acc targets ≡ₚ targets ++ acc.
Proof.
  revert acc. induction targets as [|t targets IH]; intros acc; [done|]. cbn [foldl].
  rewrite IH, insert_target_perm. symmetry. apply Permutation_middle.
Qed.

Lemma launch_order_perm targets : launch_order targets ≡ₚ targets.
Proof. unfold launch_order. by rewrite launch_order_perm_acc, app_nil_r. Qed.

(** Largest lead first: the shortest wait. *)
Definition lead_ge (t u : string * Q) : Prop := (u.2 <= t.2)%Q.

Lemma insert_target_sorted t l :
  StronglySorted lead_ge l -> StronglySorted lead_ge (insert_target t l).
Proof.
  induction 1 as [|u l Hs IH Hall]; cbn; [by repeat constructor|].
  destruct (Qle_bool u.2 t.2 && negb (Qle_bool t.2 u.2)) eqn:E.
  - apply andb_true_iff in E as [E%Qle_bool_iff _]. constructor; [by constructor|].
    constructor; [done|]. eapply Forall_impl; [exact Hall|]. intros v Hv.
    unfold lead_ge in *. by eapply Qle_trans.
  - constructor; [done|]. rewrite insert_target_perm. constructor; [|done].
    unfold lead_ge. destruct (Qle_bool t.2 u.2) eqn:Et; [by apply Qle_bool_iff|].
    rewrite andb_true_r in E. destruct (Qlt_le_dec t.2 u.2) as [Hlt|Hle]; [by apply Qlt_le_weak|].
    apply Qle_bool_iff in Hle. congruence.
Qed.

Lemma launch_order_sorted targets : StronglySorted lead_ge (launch_order targets).
Proof.
  unfold launch_order. assert (StronglySorted lead_ge []) as H by constructor. revert H.
  generalize (@nil (string * Q)). induction targets as [|t targets IH]; intros l Hl; [done|].
  cbn. apply IH. by apply insert_target_sorted.
Qed.

Section facts.
Context `{L : Luxon} `{Zd : Zod} `{N : Net} `{H : Host} `{T : Tts} `{W : Words} `{P : Pace}.

Lemma executeTarget_total start master payload metadata target w :
  (_executeTarget start master payload metadata target w).1 = Ok tt.
Proof.
  unfold _executeTarget. destruct target as [id lead]. unfold try_catch.
  match goal with |- context [match ?m with _ => _ end] => destruct m as [[[]|e] w'] end; done.
Qed.

Lemma for_each_total {A} (f : A -> M world unit) l w :
  (forall x w, (f x w).1 = Ok tt) -> (for_each f l w).1 = Ok tt.
Proof.
  intros Hf. revert w. induction l as [|x l IH]; intros w; [done|]. cbn [for_each].
  specialize (Hf x w). destruct (f x w) as [r w']. cbn in Hf. by subst r.
Qed.

Lemma settle_ok {A} (m : M world A) w : settle m w = (Ok (m w).1, (m w).2).
Proof. unfold settle. by destruct (m w). Qed.

Lemma prepare_total settings prayer event config w :
  is_ok (_validateAndPrepareAudio settings prayer event config w).1 = true.
Proof.
  unfold _validateAndPrepareAudio. cbv zeta. destruct (seq _ (VStr "tts")).
  - unfold try_catch.
    match goal with |- context [match ?m with _ => _ end] => by destruct m as [[|e] w'] end.
  - destruct (seq _ (VStr "file")); [|done]. rewrite (M_bind_ok _ _ _ _ _ (settle_ok _ _)).
    match goal with |- context [is_ok (?m w).1] => by destruct (is_ok (m w).1) end.
Qed.

(** C15: an announcement reaches its targets.  The active targets are the
    configured ones and the browser, each once, that are enabled; the master
    lead time is the largest of theirs, and at least zero.  Once the audio is
    ready, every one of them is executed, the longest lead first, whatever
    becomes of the others; an event never fails. *)
Theorem triggerEvent_targets prayer event config w :
  configured config w ->
  let settings := trigger_settings config prayer event in
  let '(master, active) := _getActiveTargets config settings in
  (NoDup active.*1 /\
   (forall id lead, (id, lead) ∈ active <->
      (id ∈ configured_targets settings \/ id = "browser") /\ target_enabled config id = true /\
      lead = lead_time config id) /\
   (0 <= master)%Q /\ Forall (fun t => (t.2 <= master)%Q) active /\
   (master = 0%Q \/ exists id, (id, master) ∈ active)) /\
  is_ok (triggerEvent prayer event w).1 = true /\
  (truthy (prop settings "enabled") = true -> forall source w',
     _validateAndPrepareAudio settings prayer event config w = (Ok (Some source), w') ->
     exists order w'', order ≡ₚ active /\ StronglySorted lead_ge order /\
       notice ("Triggering " +:+ prayer +:+ " " +:+ event) [] w' = (Ok tt, w'') /\
       triggerEvent prayer event w =
       for_each (_executeTarget (w_clock w'') master (event_payload prayer event source config)
                   (VObj [("isTest", VBool false)])) order w'').
Proof.
  intros Hc settings. destruct (_getActiveTargets config settings) as [master active] eqn:Eg.
  split; [|split].
  - unfold _getActiveTargets in Eg.
    destruct (active_targets_fold config (target_set settings) 0 []) as ((more & Hm & ->) & H2 & H3 & H4).
    rewrite Eg in *. cbn [fst snd app] in *. subst active.
    destruct (target_set_spec settings) as [Hnd Hset]. split; [|split; [|split; [done|split]]].
    + rewrite <- list_fmap_compose. cbn. rewrite list_fmap_id. by apply NoDup_filter.
    + intros id lead. rewrite list_elem_of_fmap, <- Hset. split.
      * intros (t & [= -> ->] & Ht). apply list_elem_of_filter in Ht. naive_solver.
      * intros (Ht & He & ->). exists id. split; [done|]. by apply list_elem_of_filter.
    + apply Forall_forall. intros [id lead] (t & [= -> ->] & [He Ht]%list_elem_of_filter)%list_elem_of_fmap.
      by apply H3.
    + destruct H4 as [->|(t & Ht & He & ->)]; [by left|]. right. exists t. apply list_elem_of_fmap.
      exists t. split; [done|]. by apply list_elem_of_filter.
  - unfold triggerEvent. rewrite (M_bind_ok _ _ _ _ _ (config_get_ok config w Hc)). cbv zeta.
    fold settings. case_match; [done|].
    pose proof (prepare_total settings prayer event config w) as Hp. unfold mbind, M_bind at 1.
    destruct (_validateAndPrepareAudio settings prayer event config w) as [[[source|]|e] w1]; try done.
    rewrite Eg. unfold notice, gets, broadcast, on_sse, modify, mbind, M_bind. cbv beta iota.
    rewrite for_each_total; [done|]. intros. apply executeTarget_total.
  - intros He source w' Hp. exists (launch_order active). eexists.
    split; [apply launch_order_perm|]. split; [apply launch_order_sorted|]. split; [reflexivity|].
    unfold triggerEvent. rewrite (M_bind_ok _ _ _ _ _ (config_get_ok config w Hc)). cbv zeta.
    fold settings. rewrite He. replace (truthy settings) with true by (by destruct settings).
    cbn [negb orb]. rewrite (M_bind_ok _ _ _ _ _ Hp). erewrite M_bind_ok by reflexivity.
    by rewrite Eg.
Qed.
End facts.

(** ** A call to prayer on three outputs *)
Definition azan_settings : val :=
  VObj [("enabled", VBool true); ("type", VStr "file"); ("path", VStr "custom/azan.mp3");
        ("targets", VArr [VStr "local"; VStr "voicemonkey"; VStr "local"])].

Definition azan_config : val := VObj [("automation", VObj
  [("baseUrl", VStr "https://azan.example");
   ("outputs", VObj
     [("local", VObj [("enabled", VBool true); ("leadTimeMs", VInt (-500)); ("params", VObj [])]);
      ("voicemonkey", VObj [("enabled", VBool true); ("leadTimeMs", VInt 2000);
         ("params", VObj [("token", VStr "t"); ("device", VStr "d")])])]);
   ("triggers", VObj [("fajr", VObj [("adhan", azan_settings)])])])].

Definition azan_world : world :=
  set_cfg (Cfg azan_config true false)
    (set_files {[ "/app/public/audio/custom/azan.mp3" := File (Audio 204800 (VObj [])) 0 ]}
       (set_clock 1000 empty_world)).

Definition on_time : Pace := fun _ => false.

Lemma triggerEvent_targets_witness :
  is_ok (triggerEvent (L := utc) (Zd := zod_ref) (N := no_net) (H := quiet_host) (T := no_tts)
           (W := some_words) (P := on_time) "fajr" "adhan" azan_world).1 = true /\
  ("voicemonkey", 2000%Q) ∈ (_getActiveTargets azan_config azan_settings).2 /\
  NoDup (_getActiveTargets azan_config azan_settings).2.*1.
Proof.
  pose proof (triggerEvent_targets (L := utc) (Zd := zod_ref) (N := no_net) (H := quiet_host)
    (T := no_tts) (W := some_words) (P := on_time) "fajr" "adhan" azan_config azan_world
    (conj eq_refl eq_refl)) as Hw. cbv zeta in Hw.
  change (trigger_settings azan_config "fajr" "adhan") with azan_settings in Hw.
  destruct (_getActiveTargets azan_config azan_settings) as [master active].
  destruct Hw as ((Hnd & Hin & _) & Hok & _). split; [exact Hok|]. split; [|exact Hnd].
  apply Hin. split; [left|by split]. cbn. apply list_elem_of_further, list_elem_of_here.
Defined.

(** The announcement is sent first, the browser 2.0 s later, the local player
    half a second after that. *)
Example azan_run :
  let w := (triggerEvent (L := utc) (Zd := zod_ref) (N := no_net) (H := quiet_host) (T := no_tts)
    (W := some_words) (P := on_time) "fajr" "adhan" azan_world).2 in
  w_net w = [play_text "mpg123" "/app/public/audio/custom/azan.mp3";
             request_text ANNOUNCEMENT_URL (announcement (VStr "t") (VStr "d")
               "https://azan.example/public/audio/custom/azan.mp3")] /\
  w_clock w = 3500.
Proof. vm_compute. done. Qed.
