(* ===== verification/Scheduler.v ===== *)
(** * The scheduler ([src/services/core/schedulerService.js])

    The jobs of a day: five recurring maintenance jobs and the announcements of
    each prayer, started early enough for the slowest output.  The timer
    library is a parameter ([Timer]): whether it takes a job, and when it would
    next run it.  An announcement that is started without being awaited is
    recorded ([s_fired]); its run is [triggerEvent].  [initScheduler] awaits
    the prayer times half-way: its two synchronous parts are [init_begin] and
    [init_finish], and calls that overlap interleave there. *)
From S2P Require Import Prelude JsString JsValue World Luxon LuxonUtc Zod Schemas Calculations.
From S2P Require Import Network Providers PrayerTimes Encryption Sse ConfigStore Outputs.
From S2P Require Import Migration Masking ConfigService Wiring Health Storage AudioAssets.
From S2P Require Import Automation.

(** What [nextInvocation()] may return. *)
Inductive invocation :=
| CronDate (ms : Z)        (* an object with toDate() *)
| JsDate (ms : Z)          (* a Date *)
| IsoDate (iso : val)      (* an object with toISO() *)
| OtherDate (ms : option Z). (* whatever new Date() makes of it *)

Class Timer := {
  (** [scheduleJob] returned a job: given the live jobs, a name, a time, the clock *)
  timer_accepts : list job -> string -> trigger_time -> Z -> bool;
  timer_next : job -> Z -> result (option invocation)
}.

(** Documented behaviour: a future date, and a recurrence under a name that is
    not in use, are accepted. *)
Class TimerLaws `(Tm : Timer) : Prop := {
  law_future live name t now : now < t -> timer_accepts live name (At (Some t)) now = true;
  law_cron live name spec now :
    name ∉ j_name <$> live -> timer_accepts live name (Cron spec) now = true
}.

(** ** [jobConstants] *)
Definition JOB_STALE_CHECK : string := "Maintenance: Stale Check".
Definition JOB_YEAR_BOUNDARY : string := "Maintenance: Year Boundary".
Definition JOB_HEALTH_CHECK : string := "Maintenance: Health Check".
Definition JOB_AUDIO_ASSETS : string := "Maintenance: Audio Assets".
Definition JOB_MIDNIGHT_REFRESH : string := "System: Midnight Refresh".

(** ** The module's state *)
Definition on_sched (f : sched_state -> sched_state) : M world unit :=
  modify (fun w => set_sched (f (w_sched w)) w).

(** [j.cancel()] of every job of the array; the array is emptied. *)
Definition clear_jobs (s : sched_state) : sched_state :=
  Sched [] (filter (fun j => j_id j ∉ j_id <$> s_jobs s) (s_active s))
    (s_next s) (s_callbacks s) (s_fired s).
Definition clearJobs : M world unit := on_sched clear_jobs.

(** [scheduleJob], and the job pushed on the array when there is one *)
Definition add_job `{Tm : Timer} (now : Z) (name category : string) (time : trigger_time)
    (prayer event : string) (s : sched_state) : sched_state :=
  if timer_accepts (s_active s) name time now then
    let j := Job (s_next s) name category time prayer event in
    Sched (s_jobs s ++ [j]) (s_active s ++ [j]) (S (s_next s)) (s_callbacks s) (s_fired s)
  else s.

(** [automationService.triggerEvent(...)], not awaited *)
Definition fire (prayer event : string) (s : sched_state) : sched_state :=
  Sched (s_jobs s) (s_active s) (s_next s) (s_callbacks s) (s_fired s ++ [(prayer, event)]).

Definition set_callbacks (s : sched_state) : sched_state :=
  Sched (s_jobs s) (s_active s) (s_next s) true (s_fired s).

(** ** Lead time and switches *)
Definition getMaxLeadTime (config : val) (prayer event : string) : Q :=
  let triggerSettings := trigger_settings config prayer event in
  if negb (truthy triggerSettings) || negb (truthy (prop triggerSettings "enabled")) then 0%Q else
  foldl (fun maxLead targetId =>
    if target_enabled config targetId then
      if Qle_bool (lead_time config targetId) maxLead then maxLead else lead_time config targetId
    else maxLead) 0%Q (target_set triggerSettings).

Definition eventTypeMap : list (string * string) :=
  [("preAdhan", "preAdhanEnabled"); ("adhan", "adhanEnabled");
   ("preIqamah", "preIqamahEnabled"); ("iqamah", "iqamahEnabled")].

(** A global switch turns the event off. *)
Definition switched_off (config : val) (event : string) : bool :=
  let global := prop (prop config "automation") "global" in
  truthy global &&
  (seq (prop global "enabled") (VBool false) ||
   match find (fun kv => String.eqb kv.1 event) eventTypeMap with
   | Some kv => seq (prop global kv.2) (VBool false)
   | None => false
   end).

Definition event_name (prayer event : string) : string := prayer +:+ " - " +:+ event.

(** The action a maintenance job stands for *)
Definition maintenance_specs : list (string * string) :=
  [(JOB_STALE_CHECK, "0 3 * * 0"); (JOB_YEAR_BOUNDARY, "0 4 * * *");
   (JOB_HEALTH_CHECK, "0 0 * * *"); (JOB_AUDIO_ASSETS, "30 3 * * *");
   (JOB_MIDNIGHT_REFRESH, "0 0 * * *")].

Section scheduler.
Context `{L : Luxon} `{Tm : Timer}.

Definition scheduleEvent (date : dt) (prayer event : string) : M world unit :=
  config ← config_get;
  if switched_off config event then ret tt else
  let adjustedDate := dt_plus_ms date (- getMaxLeadTime config prayer event)%Q in
  clock ← gets w_clock;
  let now := dt_now clock in
  if dt_lt adjustedDate now then
    match dt_ms now, dt_ms adjustedDate with
    | Some n, Some a => when (n - a <=? 60 * 1000) (on_sched (fire prayer event))
    | _, _ => ret tt
    end
  else on_sched (add_job clock (event_name prayer event) "automation" (At (dt_ms adjustedDate))
                   prayer event).

Definition scheduleMaintenanceJobs : M world unit :=
  on_sched set_callbacks ;;
  clock ← gets w_clock;
  for_each (fun spec : string * string =>
    on_sched (add_job clock spec.1 "maintenance" (Cron spec.2) "" "")) maintenance_specs.

(** ** Initialisation *)

(** [start.minus({ minutes: offset })], with [offset || 0] *)
Definition minus_minutes (start : dt) (offset : val) : result dt :=
  q ← duration_unit (js_or offset (VInt 0)); Ok (dt_plus_minutes start (- q)%Q).

(** The congregation time: the source's, or the calculated one. *)
Definition iqamah_time (config prayerData : val) (timezone : string) (prayer : string)
    (startISO : val) : result (option dt) :=
  if String.eqb prayer "sunrise" then Ok None else
  prayers ← get config "prayers";
  prayerConfig ← get prayers prayer;
  let isOverride := seq (prop prayerConfig "iqamahOverride") (VBool true) in
  let explicit := prop (prop prayerData "prayers") "iqamah" in
  if negb isOverride && truthy explicit && truthy (prop explicit prayer)
  then Ok (Some (dt_parse (str_of (prop explicit prayer)) timezone))
  else if truthy prayerConfig then
    calculatedIso ← calculateIqamah startISO prayerConfig (VStr timezone);
    Ok (Some (dt_parse (str_of calculatedIso) timezone))
  else Ok None.

Definition enabled_trigger (triggersForPrayer : val) (event : string) : bool :=
  truthy (prop (prop triggersForPrayer event) "enabled").

(** An event, when its trigger is enabled, and the one ahead of it *)
Definition schedule_pair (triggersForPrayer : val) (time : dt) (prayer event preEvent : string)
    : M world unit :=
  when (enabled_trigger triggersForPrayer event) (scheduleEvent time prayer event) ;;
  when (enabled_trigger triggersForPrayer preEvent)
    (early ← lift (minus_minutes time (prop (prop triggersForPrayer preEvent) "offsetMinutes"));
     scheduleEvent early prayer preEvent).

(** One turn of the loop *)
Definition schedule_prayer (config prayerData triggers : val) (timezone prayer : string)
    : M world unit :=
  let triggersForPrayer := prop triggers prayer in
  if negb (truthy triggersForPrayer) then ret tt else
  let startISO := prop (prop prayerData "prayers") prayer in
  if negb (truthy startISO) then ret tt else
  let start := dt_parse (str_of startISO) timezone in
  iqamah ← lift (iqamah_time config prayerData timezone prayer startISO);
  schedule_pair triggersForPrayer start prayer "adhan" "preAdhan" ;;
  match iqamah with
  | Some time => schedule_pair triggersForPrayer time prayer "iqamah" "preIqamah"
  | None => ret tt
  end.

Definition init_begin : M world unit := clearJobs ;; scheduleMaintenanceJobs.

Definition init_finish (config : val) (timezone : string) (prayerData : val) : M world unit :=
  if negb (truthy prayerData) || negb (truthy (prop prayerData "prayers")) then ret tt else
  automation ← lift (get config "automation");
  triggers ← lift (get automation "triggers");
  if negb (truthy triggers) then ret tt else
  for_each (schedule_prayer config prayerData triggers timezone) PRAYER_NAMES.

(** [DateTime.now().setZone(config.location.timezone)] *)
Definition local_now (config : val) : M world (string * dt) :=
  clock ← gets w_clock;
  location ← lift (get config "location");
  timezone ← lift (get location "timezone");
  ret (str_of timezone, dt_setZone (dt_now clock) (str_of timezone)).

Section with_sources.
Context `{Zd : Zod} `{N : Net}.

Definition initScheduler : M world unit :=
  config ← config_get;
  try_catch
    (init_begin ;;
     now ← local_now config;
     prayerData ← getPrayerTimes config now.2;
     init_finish config now.1 prayerData)
    (fun _ => ret tt).

Definition hotReload : M world unit := initScheduler.
End with_sources.

(** ** Reporting *)
Definition next_iso (j : job) (now : Z) : val :=
  match timer_next j now with
  | Ok (Some (CronDate ms)) | Ok (Some (JsDate ms)) => dt_toISO (dt_now ms)
  | Ok (Some (IsoDate iso)) => iso
  | Ok (Some (OtherDate (Some ms))) => VStr (iso_text ms)
  | _ => VNull
  end.

Definition formatJob (now : Z) (j : job) : val :=
  VObj [("name", VStr (if String.eqb (j_name j) "" then "Unknown Job" else j_name j));
        ("nextInvocation", next_iso j now);
        ("category", VStr (if String.eqb (j_category j) "" then "unknown" else j_category j))].

Definition of_category (category : string) (l : list job) : list job :=
  filter (fun j => j_category j = category) l.

Definition getJobs (w : world) : val :=
  let report category := VArr (formatJob (w_clock w) <$> of_category category (s_jobs (w_sched w))) in
  VObj [("maintenance", report "maintenance"); ("automation", report "automation")].
End scheduler.

(** ** Maintenance actions *)

(** What an [async] call returns before it is awaited: a promise, which has
    none of the fields the cache has. *)
Definition promise : val := VObj [].

(** The members a plain object inherits, called without a receiver: what each
    does as a callback. *)
Definition inherited_call (name : string) : option (result unit) :=
  if existsb (String.eqb name) ["constructor"; "toString"; "isPrototypeOf"] then Some (Ok tt) else
  if existsb (String.eqb name) ["valueOf"; "hasOwnProperty"; "propertyIsEnumerable";
       "__defineGetter__"; "__defineSetter__"; "__lookupGetter__"; "__lookupSetter__"]
  then Some (Throw (TypeError "Cannot convert undefined or null to object")) else
  if String.eqb name "toLocaleString"
  then Some (Throw (TypeError "Object.prototype.toLocaleString called on null or undefined")) else
  if String.eqb name "__proto__" then Some (Throw (TypeError "callback is not a function")) else None.

Section maintenance.
Context `{L : Luxon} `{Tm : Timer} `{Zd : Zod} `{N : Net} `{Ho : Host} `{T : Tts} `{W : Words}
  `{P : Pace} `{Loc : Locale} `{I : Intl} `{C : Crypto} `{D : Dotenv}.

(** The read of the cache that is started here, and not awaited, is run at once. *)
Definition staleAction : M world unit :=
  config ← config_get;
  _ ← readCache;
  let cache := promise in
  let lastFetchedISO := prop (prop cache "meta") "lastFetched" in
  if truthy lastFetchedISO then
    clock ← gets w_clock;
    let days := dt_diff_days (dt_now clock) (dt_fromISO (str_of lastFetchedISO)) in
    let staleDays := num_of (js_or (prop (prop config "data") "staleCheckDays") (VInt 7)) in
    match days with
    | Some d => if Qle_bool d staleDays then ret tt else _ ← forceRefresh config; ret tt
    | None => ret tt
    end
  else
    clock ← gets w_clock;
    _ ← getPrayerTimes config (dt_now clock);
    ret tt.

Definition boundaryAction : M world unit :=
  config ← config_get;
  clock ← gets w_clock;
  let now := dt_now clock in
  let year := dt_year now in
  endOfYear ← lift (dt_fromObject (VInt year) (VInt 12) (VInt 31) (dt_zone now));
  match dt_diff_days endOfYear now with
  | Some diff =>
      if Qle_bool 0 diff && Qle_bool diff 7 then
        nextJan1 ← lift (dt_fromObject (VInt (year + 1)) (VInt 1) (VInt 1) (dt_zone now));
        _ ← readCache;
        let cache := promise in
        let nextKey := show (dt_toISODate nextJan1) in
        if negb (truthy (prop cache "data")) || negb (truthy (prop (prop cache "data") nextKey))
        then _ ← getPrayerTimes config nextJan1; ret tt
        else ret tt
      else ret tt
  | None => ret tt
  end.

Definition healthAction : M world unit := _ ← runDailyMaintenance; ret tt.
Definition assetAction : M world unit := _ ← syncAudioAssets false; ret tt.
Definition midnightAction : M world unit := ConfigService.reload ;; initScheduler.

(** The table of callbacks, once the jobs have been scheduled *)
Definition maintenanceCallbacks : list (string * M world unit) :=
  [(JOB_STALE_CHECK, staleAction); (JOB_YEAR_BOUNDARY, boundaryAction);
   (JOB_HEALTH_CHECK, healthAction); (JOB_AUDIO_ASSETS, assetAction);
   (JOB_MIDNIGHT_REFRESH, midnightAction)].

Definition own_callback (jobName : string) : option (M world unit) :=
  snd <$> find (fun kv => String.eqb kv.1 jobName) maintenanceCallbacks.

Definition callback_of (filled : bool) (jobName : string) : option (M world unit) :=
  match (if filled then own_callback jobName else None) with
  | Some callback => Some callback
  | None => lift <$> inherited_call jobName
  end.

Definition schedulerWrap (action : M world unit) : M world unit :=
  try_catch action (fun _ => ret tt).

Definition job_result (success : bool) (message : string) : val :=
  VObj [("success", VBool success); ("message", VStr message)].

Definition runJob (jobName : string) : M world val :=
  filled ← gets (fun w => s_callbacks (w_sched w));
  match callback_of filled jobName with
  | None => ret (job_result false ("Job " +:+ quoted jobName +:+ " not found."))
  | Some callback =>
      try_catch
        (callback ;;
         ret (job_result true ("Job " +:+ quoted jobName +:+ " executed successfully.")))
        (fun error => ret (job_result false
           (if String.eqb (e_msg error) "" then "Job execution failed." else e_msg error)))
  end.

(** A job that falls due: a one-off job is done with, the others stay. *)
Definition done_with (j : job) (s : sched_state) : sched_state :=
  Sched (s_jobs s)
    (match j_when j with
     | At _ => filter (fun j' => j_id j' <> j_id j) (s_active s)
     | Cron _ => s_active s
     end) (s_next s) (s_callbacks s) (s_fired s).

Definition run_due (j : job) : M world unit :=
  on_sched (done_with j) ;;
  match j_when j with
  | At _ => triggerEvent (j_prayer j) (j_event j)
  | Cron _ => match own_callback (j_name j) with
              | Some action => schedulerWrap action
              | None => ret tt
              end
  end.
End maintenance.

(** ** The plan of a day

    What the scheduler is meant to book, without its state: the times of the
    enabled events, and what becomes of each. *)
Inductive outcome := Off | Queued (time : option Z) | CaughtUp | Missed.

Definition event : Type := string * string.   (* prayer, event *)

Section plan.
Context `{L : Luxon}.

(** What becomes of an event at [date], the clock showing [now] *)
Definition outcome_of (config : val) (now : Z) (date : dt) (e : event) : outcome :=
  if switched_off config e.2 then Off else
  match dt_ms (dt_plus_ms date (- getMaxLeadTime config e.1 e.2)%Q) with
  | None => Queued None
  | Some t => if now <=? t then Queued (Some t)
              else if now - t <=? 60000 then CaughtUp else Missed
  end.

Definition events_of_pair (triggersForPrayer : val) (time : dt) (event preEvent : string)
    : list (dt * string) :=
  (if enabled_trigger triggersForPrayer event then [(time, event)] else []) ++
  (if enabled_trigger triggersForPrayer preEvent then
     match minus_minutes time (prop (prop triggersForPrayer preEvent) "offsetMinutes") with
     | Ok early => [(early, preEvent)]
     | Throw _ => []
     end
   else []).

(** The events of a prayer that has a trigger and a start, with their times *)
Definition prayer_events (config prayerData triggers : val) (timezone prayer : string)
    : list (dt * event) :=
  let triggersForPrayer := prop triggers prayer in
  let startISO := prop (prop prayerData "prayers") prayer in
  if truthy triggersForPrayer && truthy startISO then
    (fun te => (te.1, (prayer, te.2))) <$>
      (events_of_pair triggersForPrayer (dt_parse (str_of startISO) timezone) "adhan" "preAdhan" ++
       match iqamah_time config prayerData timezone prayer startISO with
       | Ok (Some time) => events_of_pair triggersForPrayer time "iqamah" "preIqamah"
       | _ => []
       end)
  else [].

Definition day_events (config prayerData triggers : val) (timezone : string) : list (dt * event) :=
  mjoin (prayer_events config prayerData triggers timezone <$> PRAYER_NAMES).

(** Every time can be computed. *)
Definition computable (config prayerData triggers : val) (timezone : string) : bool :=
  forallb (fun prayer =>
    let startISO := prop (prop prayerData "prayers") prayer in
    negb (truthy (prop triggers prayer) && truthy startISO) ||
    is_ok (iqamah_time config prayerData timezone prayer startISO) &&
    forallb (fun preEvent => is_ok (duration_unit
      (js_or (prop (prop (prop triggers prayer) preEvent) "offsetMinutes") (VInt 0))))
      ["preAdhan"; "preIqamah"]) PRAYER_NAMES.
End plan.

(** A job without its identity *)
Definition shape (j : job) : string * string * trigger_time * event :=
  (j_name j, j_category j, j_when j, (j_prayer j, j_event j)).

Definition maintenance_shapes : list (string * string * trigger_time * event) :=
  (fun spec => (spec.1, "maintenance", Cron spec.2, ("", ""))) <$> maintenance_specs.

Definition queued_shapes (l : list (event * outcome)) : list (string * string * trigger_time * event) :=
  omap (fun eo => match eo.2 with
                  | Queued time => Some (event_name eo.1.1 eo.1.2, "automation", At time, eo.1)
                  | _ => None
                  end) l.

Definition caught_up (l : list (event * outcome)) : list event :=
  omap (fun eo => match eo.2 with CaughtUp => Some eo.1 | _ => None end) l.

Definition outcomes `{L : Luxon} (config : val) (now : Z) (l : list (dt * event))
    : list (event * outcome) :=
  (fun de => (de.2, outcome_of config now de.1 de.2)) <$> l.

(** Every job the timer library holds is in the array, and can be cancelled. *)
Definition tracked (s : sched_state) : Prop := forall j, j ∈ s_active s -> j ∈ s_jobs s.

(** ** Lemmas *)
Lemma clear_jobs_live s : tracked s -> s_active (clear_jobs s) = [].
Proof.
  intros Ht. cbn. destruct (filter _ (s_active s)) as [|j l] eqn:E; [done|]. exfalso.
  assert (j ∈ filter (fun j => j_id j ∉ j_id <$> s_jobs s) (s_active s)) as Hj
    by (rewrite E; apply list_elem_of_here).
  apply list_elem_of_filter in Hj as [Hn Hj]. apply Hn, list_elem_of_fmap_2, Ht, Hj.
Qed.

Lemma tracked_clear s : tracked s -> tracked (clear_jobs s).
Proof. intros Ht j. rewrite (clear_jobs_live s Ht). by intros ?%not_elem_of_nil. Qed.

Lemma tracked_add `{Tm : Timer} now name category time p e s :
  tracked s -> tracked (add_job now name category time p e s).
Proof.
  intros Ht j. unfold add_job. case_match; [|apply Ht]. cbn.
  rewrite !elem_of_app. intros [Hj|Hj]; [left; by apply Ht|by right].
Qed.

Lemma tracked_done j s : tracked s -> tracked (done_with j s).
Proof.
  intros Ht j' Hj. apply Ht. cbn in Hj. destruct (j_when j); [|done].
  by apply list_elem_of_filter in Hj as [_ Hj].
Qed.

Lemma for_each_on_sched {A} (g : A -> sched_state -> sched_state) l w :
  for_each (fun a => on_sched (g a)) l w =
  (Ok tt, set_sched (foldl (fun s a => g a s) (w_sched w) l) w).
Proof.
  revert w. induction l as [|a l IH]; intros w; [by destruct w|]. cbn [for_each foldl].
  cbn. by rewrite IH.
Qed.

Lemma for_each_app {A} (f : A -> M world unit) l k w :
  for_each f (l ++ k) w = (for_each f l ;; for_each f k) w.
Proof.
  revert w. induction l as [|x l IH]; intros w; [done|]. cbn [for_each app].
  unfold mbind, M_bind. cbn [for_each]. destruct (f x w) as [[[]|e] w']; [|done]. apply IH.
Qed.

Lemma for_each_join {A B} (f : A -> M world unit) (g : B -> M world unit) (h : B -> list A) l w :
  (forall b w, b ∈ l -> g b w = for_each f (h b) w) ->
  for_each g l w = for_each f (mjoin (h <$> l)) w.
Proof.
  revert w. induction l as [|b l IH]; intros w Hg; [done|].
  cbn [fmap list_fmap mjoin list_join for_each]. rewrite for_each_app, Hg by apply list_elem_of_here.
  unfold mbind, M_bind. destruct (for_each f (h b) w) as [[[]|e] w']; [|done].
  apply IH. intros b' w'' Hb. apply Hg. by apply list_elem_of_further.
Qed.

(** What the scheduler does with an event *)
Definition book `{Tm : Timer} (now : Z) (s : sched_state) (eo : event * outcome) : sched_state :=
  match eo.2 with
  | Queued time => add_job now (event_name eo.1.1 eo.1.2) "automation" (At time) eo.1.1 eo.1.2 s
  | CaughtUp => fire eo.1.1 eo.1.2 s
  | Off | Missed => s
  end.

(** The queued events lie in the future. *)
Definition upcoming (now : Z) (l : list (event * outcome)) : Prop :=
  Forall (fun eo => match eo.2 with
                    | Queued time => exists t, time = Some t /\ now < t
                    | _ => True
                    end) l.

Lemma tracked_book `{Tm : Timer} now eo s : tracked s -> tracked (book now s eo).
Proof.
  intros Ht. unfold book. case_match; [done|by apply tracked_add| |done]. exact Ht.
Qed.

Lemma tracked_fold {A} (f : sched_state -> A -> sched_state) l s :
  (forall a s, tracked s -> tracked (f s a)) -> tracked s -> tracked (foldl f s l).
Proof. intros Hf. revert s. induction l as [|a l IH]; intros s Hs; [done|]. apply IH, Hf, Hs. Qed.

Lemma add_job_accepted `{Tm : Timer} now name category time p e s :
  timer_accepts (s_active s) name time now = true ->
  let s' := add_job now name category time p e s in
  shape <$> s_jobs s' = (shape <$> s_jobs s) ++ [(name, category, time, (p, e))] /\
  shape <$> s_active s' = (shape <$> s_active s) ++ [(name, category, time, (p, e))] /\
  s_fired s' = s_fired s.
Proof. intros H. unfold add_job. rewrite H. cbn. by rewrite !fmap_app. Qed.

Lemma book_all `{TL : TimerLaws} now l s :
  upcoming now l ->
  let s' := foldl (book now) s l in
  shape <$> s_jobs s' = (shape <$> s_jobs s) ++ queued_shapes l /\
  shape <$> s_active s' = (shape <$> s_active s) ++ queued_shapes l /\
  s_fired s' = s_fired s ++ caught_up l.
Proof.
  cbv zeta. revert s. induction l as [|[e o] l IH]; intros s Hl.
  { cbn. by rewrite !app_nil_r. }
  apply Forall_cons in Hl as [Ho Hl]. cbn [foldl].
  destruct (IH (book now s (e, o)) Hl) as (-> & -> & ->). unfold book. cbn [snd fst] in *.
  destruct o as [|time| |]; try done.
  - destruct Ho as (t & -> & Ht).
    destruct (add_job_accepted now (event_name e.1 e.2) "automation" (At (Some t)) e.1 e.2 s
                (law_future _ _ _ _ Ht)) as (-> & -> & ->).
    cbn. rewrite <- !app_assoc. by destruct e.
  - cbn. rewrite <- app_assoc. by destruct e.
Qed.

(** The maintenance jobs are all taken when no job is live. *)
Lemma add_maintenance `{TL : TimerLaws} now specs s :
  NoDup specs.*1 -> (forall n, n ∈ specs.*1 -> n ∉ j_name <$> s_active s) ->
  let s' := foldl (fun s spec => add_job now spec.1 "maintenance" (Cron spec.2) "" "" s) s specs in
  let shapes := (fun spec => (spec.1, "maintenance", Cron spec.2, ("", ""))) <$> specs in
  shape <$> s_jobs s' = (shape <$> s_jobs s) ++ shapes /\
  shape <$> s_active s' = (shape <$> s_active s) ++ shapes /\
  s_fired s' = s_fired s.
Proof.
  cbv zeta. revert s. induction specs as [|[n c] specs IH]; intros s Hnd Hfree.
  { cbn. by rewrite !app_nil_r. }
  apply NoDup_cons in Hnd as [Hn Hnd]. cbn [foldl fst snd].
  assert (timer_accepts (s_active s) n (Cron c) now = true) as Hacc
    by apply law_cron, Hfree, list_elem_of_here.
  destruct (IH (add_job now n "maintenance" (Cron c) "" "" s) Hnd) as (-> & -> & ->).
  - intros n' Hn'. unfold add_job. rewrite Hacc. cbn. rewrite fmap_app, elem_of_app. cbn.
    intros [Hin| ->%list_elem_of_singleton]; [|done].
    by apply (Hfree n'); [apply list_elem_of_further|].
  - destruct (add_job_accepted now n "maintenance" (Cron c) "" "" s Hacc) as (-> & -> & ->).
    cbn. by rewrite <- !app_assoc.
Qed.

Section runs.
Context `{LL : LuxonLaws} `{TL : TimerLaws}.

Lemma scheduleEvent_run config date prayer e w :
  configured config w -> representable (w_clock w) ->
  scheduleEvent date prayer e w =
    (Ok tt, set_sched (book (w_clock w) (w_sched w)
              ((prayer, e), outcome_of config (w_clock w) date (prayer, e))) w).
Proof.
  intros Hc Hr. unfold scheduleEvent, outcome_of. cbn [fst snd].
  rewrite (M_bind_ok _ _ _ _ _ (config_get_ok _ _ Hc)).
  destruct (switched_off config e); [by destruct w|]. cbv zeta.
  erewrite M_bind_ok by reflexivity. cbv beta. unfold dt_lt.
  rewrite (law_now (w_clock w) Hr). set (a := dt_plus_ms _ _).
  destruct (dt_ms a) as [t|]; [|done]. rewrite Z.ltb_antisym. destruct (w_clock w <=? t); [done|].
  cbn [negb]. unfold when. change (60 * 1000) with 60000.
  destruct (w_clock w - t <=? 60000); [done|]. by destruct w.
Qed.

Lemma schedule_all_run config (evs : list (dt * event)) w :
  configured config w -> representable (w_clock w) ->
  for_each (fun de => scheduleEvent de.1 de.2.1 de.2.2) evs w =
    (Ok tt, set_sched (foldl (book (w_clock w)) (w_sched w) (outcomes config (w_clock w) evs)) w).
Proof.
  intros Hc Hr. revert w Hc Hr. induction evs as [|[d [p e]] evs IH]; intros w Hc Hr.
  { by destruct w. }
  cbn [for_each]. cbn [fst snd]. rewrite (scheduleEvent_run config) by done. by rewrite IH.
Qed.

Lemma schedule_pair_run trig time prayer e pre w :
  is_ok (duration_unit (js_or (prop (prop trig pre) "offsetMinutes") (VInt 0))) = true ->
  schedule_pair trig time prayer e pre w =
  for_each (fun de => scheduleEvent de.1 de.2.1 de.2.2)
    ((fun te => (te.1, (prayer, te.2))) <$> events_of_pair trig time e pre) w.
Proof.
  intros Hok. unfold schedule_pair, events_of_pair, minus_minutes, when.
  rewrite fmap_app, for_each_app.
  assert (forall b (k : M world unit) w, (if b : bool then scheduleEvent time prayer e else ret tt) w =
    for_each (fun de => scheduleEvent de.1 de.2.1 de.2.2)
      ((fun te : dt * string => (te.1, (prayer, te.2))) <$> (if b then [(time, e)] else [])) w) as H1.
  { intros [|] _ w0; [|done]. cbn. by destruct (scheduleEvent time prayer e w0) as [[[]|?] ?]. }
  unfold mbind, M_bind. rewrite (H1 _ (ret tt)).
  destruct (for_each _ _ w) as [[[]|?] w']; [|done].
  destruct (enabled_trigger trig pre); [|done]. unfold lift.
  destruct (duration_unit _) as [q|]; [|done]. cbn.
  by destruct (scheduleEvent _ prayer pre w') as [[[]|?] ?].
Qed.

Lemma schedule_prayer_run config data triggers tz prayer w :
  computable config data triggers tz = true -> prayer ∈ PRAYER_NAMES ->
  schedule_prayer config data triggers tz prayer w =
  for_each (fun de => scheduleEvent de.1 de.2.1 de.2.2) (prayer_events config data triggers tz prayer) w.
Proof.
  intros Hok Hin. pose proof (proj1 (forallb_forall _ _) Hok _ (proj1 (list_elem_of_In _ _) Hin)) as Hp.
  cbv beta zeta in Hp. clear Hok.
  unfold schedule_prayer, prayer_events. cbv zeta.
  destruct (truthy (prop triggers prayer)); [|done].
  destruct (truthy (prop (prop data "prayers") prayer)); [|done].
  cbn [negb andb orb] in *. apply andb_true_iff in Hp as [Hiq Hpre].
  cbn [forallb] in Hpre. apply andb_true_iff in Hpre as [Hpre (Hpre' & _)%andb_true_iff].
  destruct (iqamah_time _ _ _ _ _) as [iq|]; [|done]. erewrite M_bind_ok by reflexivity.
  cbv beta. rewrite fmap_app, for_each_app. unfold mbind, M_bind.
  rewrite schedule_pair_run by exact Hpre.
  destruct (for_each _ _ w) as [[[]|?] w']; [|done]. destruct iq as [time|]; [|done].
  by apply schedule_pair_run.
Qed.

(** The second part of an initialisation books the day's events. *)
Lemma init_finish_run config data tz w :
  configured config w -> representable (w_clock w) ->
  let triggers := prop (prop config "automation") "triggers" in
  truthy (prop data "prayers") = true -> truthy triggers = true ->
  computable config data triggers tz = true ->
  init_finish config tz data w =
    (Ok tt, set_sched (foldl (book (w_clock w)) (w_sched w)
              (outcomes config (w_clock w) (day_events config data triggers tz))) w).
Proof.
  intros Hc Hr triggers Hd Ht Hok. unfold init_finish.
  assert (truthy data = true) as -> by (by destruct data). rewrite Hd. cbn [negb orb].
  rewrite (M_bind_ok (lift (get config "automation")) _ _ (prop config "automation") w)
    by (unfold lift; by rewrite get_ok by apply truthy_not_nullish, Hc).
  rewrite (M_bind_ok (lift (get _ "triggers")) _ _ triggers w)
    by (unfold lift; rewrite get_ok; [done|]; subst triggers; by destruct (prop config "automation")).
  rewrite Ht. cbn [negb].
  rewrite (for_each_join (fun de : dt * event => scheduleEvent de.1 de.2.1 de.2.2) _
    (prayer_events config data triggers tz)) by (intros; by apply schedule_prayer_run).
  by apply schedule_all_run.
Qed.

(** The first part leaves exactly the maintenance jobs. *)
Definition begun (now : Z) (s : sched_state) : sched_state :=
  foldl (fun s spec => add_job now spec.1 "maintenance" (Cron spec.2) "" "" s)
    (set_callbacks (clear_jobs s)) maintenance_specs.

Lemma init_begin_run w : init_begin w = (Ok tt, set_sched (begun (w_clock w) (w_sched w)) w).
Proof.
  unfold init_begin, clearJobs, scheduleMaintenanceJobs. erewrite M_bind_ok by reflexivity.
  erewrite M_bind_ok by reflexivity. erewrite M_bind_ok by reflexivity. cbv beta.
  by rewrite (for_each_on_sched (fun (spec : string * string) s =>
    add_job _ spec.1 "maintenance" (Cron spec.2) "" "" s)).
Qed.

Lemma begun_spec now s :
  tracked s ->
  shape <$> s_jobs (begun now s) = maintenance_shapes /\
  shape <$> s_active (begun now s) = maintenance_shapes /\
  s_fired (begun now s) = s_fired s.
Proof.
  intros Ht. unfold begun.
  destruct (add_maintenance now maintenance_specs (set_callbacks (clear_jobs s))) as (-> & -> & ->).
  - apply (bool_decide_eq_true_1 _). reflexivity.
  - intros n _. cbn [s_active set_callbacks]. rewrite (clear_jobs_live s Ht). apply not_elem_of_nil.
  - cbn [s_active set_callbacks]. by rewrite (clear_jobs_live s Ht).
Qed.

Lemma tracked_begun now s : tracked s -> tracked (begun now s).
Proof.
  intros Ht. apply tracked_fold; [intros; by apply tracked_add|]. by apply tracked_clear.
Qed.
End runs.
Arguments begun : simpl never.

(** *** What fetching the prayer times leaves alone *)
Definition beside_times (w : world) : sched_state * cfg_state * Z :=
  (w_sched w, w_cfg w, w_clock w).

Lemma getPrayerTimes_beside `{L : Luxon} `{Zd : Zod} `{N : Net} config date :
  keeps beside_times (getPrayerTimes config date).
Proof.
  assert (forall year, keeps beside_times (fetch_bulk config year)) as Hf.
  { intros year w. destruct (fetch_bulk_net config year w) as [n ->]. done. }
  assert (keeps beside_times readCache) as Hr.
  { unfold readCache, set_memory. keeps_step; intros w; done. }
  assert (forall d, keeps beside_times (writeCache d)) as Hw.
  { intros d. unfold writeCache, ensureDataDir, fs_access_dir, fs_mkdir. keeps_step;
      try (intros w; by case_match); try (apply keeps_fs_write; done); intros w; done. }
  unfold getPrayerTimes, lookup_or_fetch. keeps_step.
Qed.

(** Each event of the day is planned once. *)
Definition EVENTS : list string := ["adhan"; "preAdhan"; "iqamah"; "preIqamah"].

Lemma events_of_pair_sub `{L : Luxon} trig time e pre :
  (events_of_pair trig time e pre).*2 `sublist_of` [e; pre].
Proof.
  unfold events_of_pair. rewrite fmap_app. change [e; pre] with ([e] ++ [pre]).
  apply sublist_app; [case_match; [done|apply sublist_nil_l]|].
  destruct (enabled_trigger trig pre); [|apply sublist_nil_l].
  destruct (minus_minutes _ _); [done|apply sublist_nil_l].
Qed.

Lemma tagged_events {A} (p : string) (l : list (A * string)) :
  ((fun te => (te.1, (p, te.2))) <$> l).*2 = pair p <$> l.*2.
Proof. induction l as [|[t e] l IH]; [done|]. cbn. by f_equal. Qed.

Lemma day_events_NoDup `{L : Luxon} config data triggers tz :
  NoDup (day_events config data triggers tz).*2.
Proof.
  assert (forall names, (mjoin (prayer_events config data triggers tz <$> names)).*2 `sublist_of`
            mjoin ((fun p => pair p <$> EVENTS) <$> names)) as Hs.
  { induction names as [|p names IH]; [done|].
    cbn [fmap list_fmap mjoin list_join]. rewrite fmap_app. apply sublist_app; [|exact IH].
    unfold prayer_events. cbv zeta. case_match; [|apply sublist_nil_l].
    rewrite tagged_events. apply fmap_sublist. rewrite fmap_app.
    change EVENTS with (["adhan"; "preAdhan"] ++ ["iqamah"; "preIqamah"]).
    apply sublist_app; [apply events_of_pair_sub|].
    destruct (iqamah_time _ _ _ _ _) as [[time|]|]; try apply sublist_nil_l.
    apply events_of_pair_sub. }
  eapply sublist_NoDup; [|exact (Hs PRAYER_NAMES)].
  apply (bool_decide_eq_true_1 _). vm_compute. reflexivity.
Qed.

(** *** The second part keeps the jobs tracked, whatever it is given. *)
Definition tracking {A} (m : M world A) : Prop :=
  forall w, tracked (w_sched w) -> tracked (w_sched (m w).2).

Lemma tracking_bind {A B} (m : M world A) (k : A -> M world B) :
  tracking m -> (forall a, tracking (k a)) -> tracking (mbind k m).
Proof.
  intros Hm Hk w Hw. unfold mbind, M_bind. specialize (Hm w Hw).
  destruct (m w) as [[a|e] w']; [by apply Hk|exact Hm].
Qed.

Lemma tracking_try {A} (m : M world A) h :
  tracking m -> (forall e, tracking (h e)) -> tracking (try_catch m h).
Proof.
  intros Hm Hh w Hw. unfold try_catch. specialize (Hm w Hw).
  destruct (m w) as [[a|e] w']; [exact Hm|by apply Hh].
Qed.

Lemma tracking_keeps {A} (m : M world A) : keeps w_sched m -> tracking m.
Proof. intros Hm w Hw. by rewrite Hm. Qed.

Lemma tracking_on f : (forall s, tracked s -> tracked (f s)) -> tracking (on_sched f).
Proof. intros Hf w Hw. by apply Hf. Qed.

Lemma tracking_for_each {A} (f : A -> M world unit) l :
  (forall a, tracking (f a)) -> tracking (for_each f l).
Proof.
  intros Hf. induction l as [|a l IH]; intros w Hw; [done|]. cbn [for_each].
  specialize (Hf a w Hw). destruct (f a w) as [[[]|e] w']; [by apply IH|exact Hf].
Qed.

Ltac track := repeat first
  [ progress intros | solve [auto 1 with azan] | apply tracking_bind | apply tracking_for_each
  | apply tracking_on; intros; first [by apply tracked_add | assumption]
  | case_match | solve [apply tracking_keeps; auto with azan] ].

Section tracking.
Context `{L : Luxon} `{Tm : Timer}.

Lemma tracking_scheduleEvent date prayer e : tracking (scheduleEvent date prayer e).
Proof.
  unfold scheduleEvent, when. apply tracking_bind.
  { intros w Hw. unfold config_get. by case_match. }
  track.
Qed.
#[local] Hint Resolve tracking_scheduleEvent : azan.

Lemma tracking_finish config tz data : tracking (init_finish config tz data).
Proof.
  assert (forall t d p e e', tracking (schedule_pair t d p e e')) as Hp.
  { intros. unfold schedule_pair, when. track. }
  unfold init_finish, schedule_prayer. track.
Qed.
End tracking.

Section init_lemmas.
Context `{LL : LuxonLaws} `{TL : TimerLaws} `{Zd : Zod} `{N : Net}.

(** The world in which the prayer times are asked for *)
Definition after_begin (w : world) : world := set_sched (begun (w_clock w) (w_sched w)) w.

Definition zone_of (config : val) : string := str_of (prop (prop config "location") "timezone").

Definition today (config : val) (w : world) : dt :=
  dt_setZone (dt_now (w_clock w)) (zone_of config).

Lemma init_run config w :
  configured config w -> is_nullish (prop config "location") = false ->
  initScheduler w =
    match getPrayerTimes config (today config w) (after_begin w) with
    | (Ok data, w2) => (Ok tt, (init_finish config (zone_of config) data w2).2)
    | (Throw _, w2) => (Ok tt, w2)
    end.
Proof.
  intros Hc Hl. unfold initScheduler. rewrite (M_bind_ok _ _ _ _ _ (config_get_ok _ _ Hc)).
  unfold try_catch. rewrite (M_bind_ok _ _ _ _ _ (init_begin_run w)). fold (after_begin w).
  assert (local_now config (after_begin w) = (Ok (zone_of config, today config w), after_begin w)) as Hn.
  { unfold local_now, lift. erewrite M_bind_ok by reflexivity. cbv beta.
    rewrite get_ok by apply truthy_not_nullish, Hc. erewrite M_bind_ok by reflexivity. cbv beta.
    by rewrite get_ok by done. }
  rewrite (M_bind_ok _ _ _ _ _ Hn). cbn [fst snd]. unfold mbind, M_bind.
  destruct (getPrayerTimes _ _ _) as [[data|e] w2]; [|done].
  by destruct (init_finish _ _ _ w2) as [[[]|e] w3].
Qed.

(** The state in which the times arrive: as it was left, apart from the cache. *)
Lemma times_arrive config date w r w2 :
  getPrayerTimes config date (after_begin w) = (r, w2) ->
  w_sched w2 = begun (w_clock w) (w_sched w) /\ w_cfg w2 = w_cfg w /\ w_clock w2 = w_clock w.
Proof.
  intros H. pose proof (getPrayerTimes_beside config date (after_begin w)) as Hk.
  rewrite H in Hk. unfold beside_times in Hk. cbn in Hk. by injection Hk as -> -> ->.
Qed.

(** The times of the day, as [config] has them, can be booked. *)
Record bookable (config data : val) (w : world) : Prop := {
  bk_config : configured config w;
  bk_clock : representable (w_clock w);
  bk_prayers : truthy (prop data "prayers") = true;
  bk_triggers : truthy (prop (prop config "automation") "triggers") = true;
  bk_times : computable config data (prop (prop config "automation") "triggers") (zone_of config) = true;
  bk_future : upcoming (w_clock w) (outcomes config (w_clock w)
    (day_events config data (prop (prop config "automation") "triggers") (zone_of config)))
}.

(** What becomes of the day's events *)
Definition plan (config data : val) (now : Z) : list (event * outcome) :=
  outcomes config now
    (day_events config data (prop (prop config "automation") "triggers") (zone_of config)).

Lemma bookable_same config data w w' :
  w_cfg w' = w_cfg w -> w_clock w' = w_clock w -> bookable config data w -> bookable config data w'.
Proof. intros Hc Ht []. constructor; rewrite ?Ht; try done. unfold configured. by rewrite Hc. Qed.

Lemma tracking_init : tracking initScheduler.
Proof.
  unfold initScheduler. apply tracking_bind; [intros w Hw; unfold config_get; by case_match|].
  intros config. apply tracking_try; [|intros e w Hw; exact Hw].
  apply tracking_bind; [intros w Hw; rewrite init_begin_run; by apply tracked_begun|]. intros _.
  apply tracking_bind; [apply tracking_keeps; unfold local_now; keeps_step|]. intros [tz now].
  apply tracking_bind; [|intros data; apply tracking_finish].
  apply tracking_keeps. intros w. pose proof (getPrayerTimes_beside config now w) as Hk.
  by injection Hk.
Qed.

Lemma finish_run config data w :
  bookable config data w ->
  init_finish config (zone_of config) data w =
    (Ok tt, set_sched (foldl (book (w_clock w)) (w_sched w) (plan config data (w_clock w))) w).
Proof. intros []. by apply init_finish_run. Qed.
End init_lemmas.

(** *** Lead times *)
Lemma max_lead_master config prayer e :
  truthy (prop (trigger_settings config prayer e) "enabled") = true ->
  getMaxLeadTime config prayer e = (_getActiveTargets config (trigger_settings config prayer e)).1.
Proof.
  intros He. unfold getMaxLeadTime, _getActiveTargets. rewrite He. cbn [negb].
  replace (truthy (trigger_settings config prayer e)) with true
    by (by destruct (trigger_settings config prayer e)). cbn [negb orb].
  generalize 0%Q, (@nil (string * Q)). induction (target_set _) as [|t l IH]; intros q acc; [done|].
  cbn [foldl]. unfold add_target at 2. cbn [fst snd].
  destruct (target_enabled config t); apply IH.
Qed.

Lemma after_wait_Z start m k :
  k <= m -> after_wait start (wait_delay (inject_Z m) (inject_Z k)) = start + (m - k).
Proof.
  intros Hk. unfold after_wait, wait_delay.
  assert (inject_Z m - inject_Z k == inject_Z (m - k))%Q as Hq.
  { unfold Qminus, Z.sub. by rewrite <- inject_Z_opp, <- inject_Z_plus. }
  destruct (Qle_bool _ 0) eqn:E.
  - apply Qle_bool_iff in E. rewrite Hq in E. change 0%Q with (inject_Z 0) in E.
    rewrite <- Zle_Qle in E. lia.
  - rewrite Hq. by rewrite Qceiling_Z.
Qed.

Section properties.
Context `{LL : LuxonLaws} `{TL : TimerLaws} `{Zd : Zod} `{N : Net}.

(** Initialising the scheduler, every event of the day included: the live jobs and
    the array become the maintenance jobs and one job per planned event still to
    come, and the events that fell due within the last minute are started. *)
Lemma initScheduler_plan config w data w2 :
  tracked (w_sched w) -> bookable config data w -> is_nullish (prop config "location") = false ->
  getPrayerTimes config (today config w) (after_begin w) = (Ok data, w2) ->
  let day := plan config data (w_clock w) in
  let s' := w_sched (initScheduler w).2 in
  (initScheduler w).1 = Ok tt /\ tracked s' /\ NoDup day.*1 /\
  shape <$> s_jobs s' = maintenance_shapes ++ queued_shapes day /\
  shape <$> s_active s' = maintenance_shapes ++ queued_shapes day /\
  s_fired s' = s_fired (w_sched w) ++ caught_up day.
Proof.
  intros Ht Hb Hl Hd day s'. pose proof (times_arrive _ _ _ _ _ Hd) as (Hs2 & Hc2 & Hk2).
  assert (initScheduler w = (Ok tt, set_sched (foldl (book (w_clock w)) (begun (w_clock w) (w_sched w)) day) w2))
    as Hrun.
  { rewrite (init_run config) by (try apply Hb; done). rewrite Hd.
    rewrite finish_run by (by apply (bookable_same config data w)). by rewrite Hs2, Hk2. }
  subst s'. rewrite Hrun. cbn [fst snd w_sched set_sched]. split; [done|].
  destruct (begun_spec (w_clock w) (w_sched w) Ht) as (E1 & E2 & E3).
  destruct (book_all (w_clock w) day (begun (w_clock w) (w_sched w)) (bk_future _ _ _ Hb)) as (-> & -> & ->).
  rewrite E1, E2, E3. split; [|split; [|done]].
  - apply tracked_fold; [intros; by apply tracked_book|by apply tracked_begun].
  - unfold day, plan, outcomes. rewrite <- list_fmap_compose. apply day_events_NoDup.
Qed.

(** C9: initialising the scheduler implements the day's plan.  If every live job
    is in the array, then, once the prayer times have come, the live jobs and
    the array are exactly the five maintenance jobs and one job per planned
    event still to come, each event at most once: a past event gets no job.
    Whatever was scheduled before is gone, and every live job can be cancelled
    again.  At a moment when no event fell due within the last minute, no
    announcement is started. *)
Theorem initScheduler_exact config w data w2 :
  tracked (w_sched w) -> bookable config data w -> is_nullish (prop config "location") = false ->
  getPrayerTimes config (today config w) (after_begin w) = (Ok data, w2) ->
  let day := plan config data (w_clock w) in
  let s' := w_sched (initScheduler w).2 in
  (initScheduler w).1 = Ok tt /\ tracked s' /\ NoDup day.*1 /\
  shape <$> s_jobs s' = maintenance_shapes ++ queued_shapes day /\
  shape <$> s_active s' = maintenance_shapes ++ queued_shapes day /\
  (caught_up day = [] -> s_fired s' = s_fired (w_sched w)).
Proof.
  intros Ht Hb Hl Hd day s'.
  destruct (initScheduler_plan config w data w2 Ht Hb Hl Hd) as (? & ? & ? & ? & ? & Hf).
  split_and!; try done. intros Hn. subst s'. rewrite Hf. fold day. by rewrite Hn, app_nil_r.
Qed.

(** On every path, with or without prayer times, with any configuration, the
    live jobs stay in the array, so that stopping the scheduler leaves no job
    alive; a configured scheduler never fails to initialise. *)
Theorem initScheduler_tracked w :
  tracked (w_sched w) ->
  tracked (w_sched (initScheduler w).2) /\
  s_active (w_sched (clearJobs (initScheduler w).2).2) = [] /\
  ((exists config, configured config w) -> (initScheduler w).1 = Ok tt).
Proof.
  intros Ht. pose proof (tracking_init w Ht) as Hi. split; [exact Hi|].
  split; [by apply clear_jobs_live|]. intros [config Hc].
  unfold initScheduler. rewrite (M_bind_ok _ _ _ _ _ (config_get_ok _ _ Hc)). unfold try_catch.
  match goal with |- context [match ?m with _ => _ end] => by destruct m as [[[]|e] w'] end.
Qed.

(** What becomes of one event, on every path: switched off, booked, started at
    once when it fell due within the last minute, or dropped.  Nothing records
    that an event has been started: this depends on the clock only. *)
Theorem scheduleEvent_outcomes config date prayer e w T lead :
  configured config w -> representable (w_clock w) ->
  dt_ms date = Some T -> getMaxLeadTime config prayer e = inject_Z lead -> representable (T - lead) ->
  let s := w_sched w in
  exists s', scheduleEvent date prayer e w = (Ok tt, set_sched s' w) /\
    (switched_off config e = true -> s' = s) /\
    (switched_off config e = false ->
      (w_clock w < T - lead ->
         shape <$> s_active s' = (shape <$> s_active s) ++
           [(event_name prayer e, "automation", At (Some (T - lead)), (prayer, e))] /\
         s_fired s' = s_fired s) /\
      (T - lead < w_clock w <= T - lead + 60000 -> s' = fire prayer e s) /\
      (T - lead + 60000 < w_clock w -> s' = s)).
Proof.
  intros Hc Hr HT Hm Hrep s. subst s. eexists. rewrite (scheduleEvent_run config) by done. split; [reflexivity|].
  unfold outcome_of. cbn [fst snd]. rewrite Hm.
  change (- inject_Z lead)%Q with (inject_Z (- lead)). change (T - lead) with (T + - lead) in *.
  rewrite (law_plus_ms date T (- lead)) by done. unfold book.
  split; [by intros ->|]. intros ->. cbn [fst snd]. split; [|split].
  - intros Hlt. rewrite (proj2 (Z.leb_le _ _)) by lia.
    destruct (add_job_accepted (w_clock w) (event_name prayer e) "automation" (At (Some (T + - lead)))
      prayer e (w_sched w) (law_future _ _ _ _ Hlt)) as (_ & -> & ->). done.
  - intros Hd. rewrite (proj2 (Z.leb_gt _ _)) by lia. by rewrite (proj2 (Z.leb_le _ _)) by lia.
  - intros Hd. by rewrite !(proj2 (Z.leb_gt _ _)) by lia.
Qed.

(** C22: an event is booked early enough for its slowest output.  With [T] its
    time and [lead] the largest lead time of its outputs, a switched-off event
    changes nothing; one that is due later gets one more live job, at [T - lead]
    exactly, and is not started now; one that is past is not booked, and once it
    has been past for a minute nothing happens at all. *)
Theorem scheduleEvent_cases config date prayer e w T lead :
  configured config w -> representable (w_clock w) ->
  dt_ms date = Some T -> getMaxLeadTime config prayer e = inject_Z lead -> representable (T - lead) ->
  let s := w_sched w in
  exists s', scheduleEvent date prayer e w = (Ok tt, set_sched s' w) /\
    (switched_off config e = true -> s' = s) /\
    (switched_off config e = false ->
      (w_clock w < T - lead ->
         shape <$> s_active s' = (shape <$> s_active s) ++
           [(event_name prayer e, "automation", At (Some (T - lead)), (prayer, e))] /\
         s_fired s' = s_fired s) /\
      (T - lead < w_clock w -> s_active s' = s_active s /\ s_jobs s' = s_jobs s) /\
      (T - lead + 60000 < w_clock w -> s' = s)).
Proof.
  intros Hc Hr HT Hm Hrep s.
  destruct (scheduleEvent_outcomes config date prayer e w T lead Hc Hr HT Hm Hrep) as (s' & Hs & Hoff & Hon).
  exists s'. split; [done|]. split; [done|]. intros Ho. destruct (Hon Ho) as (Hq & Hl & Hd).
  split; [done|]. split; [|done]. intros Hp.
  destruct (decide (w_clock w <= T - lead + 60000)); [by rewrite Hl by lia|by rewrite Hd by lia].
Qed.

(** C25: the outputs of an announcement start together with the event.  When the
    lead times are whole milliseconds, the lead time the scheduler subtracts is
    the one the announcement waits against: whenever the announcement starts at
    [T] less that lead, each active output is started at [T] less its own. *)
Theorem staggered_start config prayer e T :
  let settings := trigger_settings config prayer e in
  truthy (prop settings "enabled") = true ->
  (forall id, target_enabled config id = true -> exists k, lead_time config id = inject_Z k) ->
  exists m, 0 <= m /\ getMaxLeadTime config prayer e = inject_Z m /\
    (_getActiveTargets config settings).1 = inject_Z m /\
    forall id lead, (id, lead) ∈ (_getActiveTargets config settings).2 ->
      exists k, lead = inject_Z k /\ k <= m /\
        after_wait (T - m) (wait_delay (inject_Z m) lead) = T - k.
Proof.
  intros settings He Hint.
  destruct (active_targets_fold config (target_set settings) 0 []) as ((more & Hm & ->) & H0 & H3 & H4).
  fold (_getActiveTargets config settings) in *. cbn [app] in Hm.
  assert (exists m, (_getActiveTargets config settings).1 = inject_Z m) as [m Em].
  { destruct H4 as [E|(id & _ & Hen & E)]; rewrite E; [by exists 0|by apply Hint]. }
  rewrite Em in *. exists m. split; [by rewrite Zle_Qle|]. split; [|split; [done|]].
  { rewrite <- Em. by apply max_lead_master. }
  intros id lead Hin. rewrite Hm in Hin.
  apply list_elem_of_fmap in Hin as (t & [= -> ->] & [Ht Hi]%list_elem_of_filter).
  destruct (Hint t Ht) as [k Ek]. exists k. specialize (H3 t Hi Ht). rewrite Ek in *.
  rewrite <- Zle_Qle in H3. split; [done|]. split; [done|].
  rewrite after_wait_Z by done. lia.
Qed.

(** Initialisations that overlap book the day twice.  When a second one
    begins before the first has its prayer times, the first one's events are
    added after the second has cleared the array, and its own follow: every
    event still to come has two live jobs, and is announced twice. *)
Theorem overlapping_inits_duplicate config w data w2 :
  tracked (w_sched w) -> bookable config data w ->
  getPrayerTimes config (today config w) (after_begin (after_begin w)) = (Ok data, w2) ->
  let day := plan config data (w_clock w) in
  let finish := init_finish config (zone_of config) data in
  let s' := w_sched ((finish ;; finish) w2).2 in
  shape <$> s_active s' = maintenance_shapes ++ queued_shapes day ++ queued_shapes day /\
  s_fired s' = s_fired (w_sched w) ++ caught_up day ++ caught_up day.
Proof.
  intros Ht Hb Hd day finish s'.
  pose proof (times_arrive _ _ (after_begin w) _ _ Hd) as (Hs2 & Hc2 & Hk2). cbn in Hs2, Hc2, Hk2.
  subst s'. unfold finish. rewrite (M_bind_ok _ _ _ _ _ (finish_run config data w2
    (bookable_same config data w w2 Hc2 Hk2 Hb))).
  rewrite finish_run by (by apply (bookable_same config data w)). cbn [snd w_sched set_sched].
  rewrite Hs2. cbn [w_clock set_sched]. rewrite Hk2.
  destruct (begun_spec (w_clock w) (begun (w_clock w) (w_sched w)) (tracked_begun _ _ Ht)) as (_ & E2 & E3).
  destruct (begun_spec (w_clock w) (w_sched w) Ht) as (_ & _ & E3').
  fold day. pose proof (bk_future _ _ _ Hb : upcoming (w_clock w) day) as Hup.
  destruct (book_all (w_clock w) day (foldl (book (w_clock w))
    (begun (w_clock w) (begun (w_clock w) (w_sched w))) day) Hup) as (_ & -> & ->).
  destruct (book_all (w_clock w) day (begun (w_clock w) (begun (w_clock w) (w_sched w))) Hup)
    as (_ & -> & ->).
  by rewrite E2, E3, E3', <- !app_assoc.
Qed.
End properties.

(** *** Maintenance and manual runs *)
Section maintenance_properties.
Context `{L : Luxon} `{Tm : Timer} `{Zd : Zod} `{N : Net} `{Ho : Host} `{T : Tts} `{W : Words}
  `{P : Pace} `{Loc : Locale} `{I : Intl} `{C : Crypto} `{D : Dotenv}.

(** The weekly check never refreshes stale data.  It looks for the time of
    the last fetch in the promise of an unfinished read, and so takes the
    branch without one: when the cache file holds today's times, the check
    leaves everything but the copy in memory as it was, and calls no service,
    however old the data is. *)
Theorem staleAction_never_refreshes config w :
  configured config w -> has_primary config ->
  holds (disk_cache w) (show (dt_toISODate (dt_now (w_clock w)))) ->
  staleAction w = (Ok tt, set_pcache (disk_cache w) w).
Proof.
  intros Hc Hp Hh. unfold staleAction. rewrite (M_bind_ok _ _ _ _ _ (config_get_ok _ _ Hc)).
  rewrite (M_bind_ok _ _ _ _ _ (readCache_spec w)). cbv zeta.
  change (truthy (prop (prop promise "meta") "lastFetched")) with false. cbv iota.
  erewrite M_bind_ok by reflexivity. cbv beta.
  rewrite (M_bind_ok _ _ _ (hit_result (disk_cache w) config (dt_toISODate (dt_now (w_clock w))))
    (set_pcache (disk_cache w) w)); [done|].
  rewrite getPrayerTimes_lookup by done. by rewrite lookup_memory_hit.
Qed.

(** What a manual run reports: the outcome of the action, for the jobs that
    exist; a name the table inherits is taken for a job. *)
Lemma runJob_reports jobName w :
  s_callbacks (w_sched w) = true ->
  runJob jobName w =
    match own_callback jobName with
    | Some action => let '(r, w') := action w in
        (Ok (match r with
             | Ok _ => job_result true ("Job " +:+ quoted jobName +:+ " executed successfully.")
             | Throw e => job_result false
                 (if String.eqb (e_msg e) "" then "Job execution failed." else e_msg e)
             end), w')
    | None => (Ok (match inherited_call jobName with
                   | Some (Ok _) => job_result true ("Job " +:+ quoted jobName +:+ " executed successfully.")
                   | Some (Throw e) => job_result false
                       (if String.eqb (e_msg e) "" then "Job execution failed." else e_msg e)
                   | None => job_result false ("Job " +:+ quoted jobName +:+ " not found.")
                   end), w)
    end.
Proof.
  intros Hs. unfold runJob. erewrite M_bind_ok by reflexivity. cbv beta. rewrite Hs.
  unfold callback_of. destruct (own_callback jobName) as [action|].
  - unfold try_catch, mbind, M_bind. by destruct (action w) as [[[]|e] w'].
  - by destruct (inherited_call jobName) as [[[]|e]|].
Qed.
End maintenance_properties.

(** ** A day in a deployment: the year is in memory, it is eight in the morning. *)
Definition lenient : Timer := {|
  timer_accepts live name time now :=
    match time with
    | At (Some t) => now <? t
    | At None => false
    | Cron _ => negb (existsb (String.eqb name) (j_name <$> live))
    end;
  timer_next j now := Ok (match j_when j with
                          | At (Some t) => if now <? t then Some (JsDate t) else None
                          | _ => None
                          end)
|}.

#[local] Instance lenient_laws : TimerLaws lenient.
Proof.
  split; cbn.
  - intros. by apply Z.ltb_lt.
  - intros live name _ _ Hn. apply negb_true_iff, not_true_iff_false.
    intros (x & Hx & ->%String.eqb_eq)%existsb_exists. by apply Hn, list_elem_of_In.
Qed.

Definition speech (lead : Z) : val :=
  VObj [("enabled", VBool true); ("type", VStr "file"); ("path", VStr "custom/azan.mp3");
        ("targets", VArr [VStr "voicemonkey"]); ("offsetMinutes", VInt lead)].

Definition day_config : val := VObj
  [("location", VObj [("timezone", VStr "Etc/UTC")]);
   ("sources", VObj [("primary", VObj [("type", VStr "aladhan")])]);
   ("prayers", VObj [("fajr", VObj [("iqamahOffset", VInt 30)]);
                     ("dhuhr", VObj [("iqamahOffset", VInt 15); ("roundTo", VInt 5)])]);
   ("automation", VObj
     [("global", VObj [("enabled", VBool true); ("preIqamahEnabled", VBool false)]);
      ("outputs", VObj [("voicemonkey", VObj [("enabled", VBool true); ("leadTimeMs", VInt 2000)])]);
      ("triggers", VObj [("fajr", VObj [("adhan", speech 0); ("iqamah", speech 0)]);
                         ("dhuhr", VObj [("adhan", speech 0); ("preAdhan", speech 10);
                                         ("iqamah", speech 0); ("preIqamah", speech 5)])])])].

Definition day_data : val := VObj
  [("fajr", VStr "2025-01-15T06:00:00.000Z"); ("dhuhr", VStr "2025-01-15T12:10:00.000Z")].

(** 06:00:20 *)
Definition early_morning : Z := 1736920820000.

Definition day_world : world :=
  set_pcache (VObj [("meta", VObj [("source", VStr "aladhan"); ("lastFetched", VStr "")]);
                    ("data", VObj [("2025-01-15", day_data)])])
    (set_cfg (Cfg day_config true false) (set_clock early_morning empty_world)).

Definition day_times : val := hit_result (L := utc) (w_pcache day_world) day_config (VStr "2025-01-15").

(** Fajr was missed by twenty seconds, and is caught up; the rest is to come,
    except the reminder that is switched off. *)
Example day_plan :
  plan (L := utc) day_config day_times early_morning =
  [(("fajr", "adhan"), CaughtUp);
   (("fajr", "iqamah"), Queued (Some 1736922598000));
   (("dhuhr", "adhan"), Queued (Some 1736942998000));
   (("dhuhr", "preAdhan"), Queued (Some 1736942398000));
   (("dhuhr", "iqamah"), Queued (Some 1736943898000));
   (("dhuhr", "preIqamah"), Off)].
Proof. vm_compute. reflexivity. Qed.

Lemma day_bookable : bookable (L := utc) day_config day_times day_world.
Proof.
  constructor.
  - by split.
  - vm_compute. split; discriminate.
  - vm_compute. reflexivity.
  - reflexivity.
  - vm_compute. reflexivity.
  - fold (plan (L := utc) day_config day_times (w_clock day_world)).
    change (w_clock day_world) with early_morning. rewrite day_plan.
    repeat constructor; (eexists; split; [reflexivity|]; reflexivity).
Qed.

Lemma empty_tracked w : s_active (w_sched w) = [] -> tracked (w_sched w).
Proof. intros H j. rewrite H. by intros ?%not_elem_of_nil. Qed.

(** Ten o'clock, with the day's noon events to come *)
Definition mid_morning : Z := 1736935200000.
Definition morning_world : world := set_clock mid_morning day_world.

Definition noon_job (e : string) (time : Z) : string * string * trigger_time * event :=
  (event_name "dhuhr" e, "automation", At (Some time), ("dhuhr", e)).

Lemma initScheduler_exact_witness :
  let s := w_sched (initScheduler (L := utc) (Tm := lenient) (Zd := zod_ref) (N := no_net) morning_world).2 in
  shape <$> s_active s = maintenance_shapes ++
    [noon_job "adhan" 1736942998000; noon_job "preAdhan" 1736942398000; noon_job "iqamah" 1736943898000] /\
  s_fired s = [].
Proof.
  assert (plan (L := utc) day_config day_times mid_morning =
    [(("fajr", "adhan"), Missed); (("fajr", "iqamah"), Missed);
     (("dhuhr", "adhan"), Queued (Some 1736942998000)); (("dhuhr", "preAdhan"), Queued (Some 1736942398000));
     (("dhuhr", "iqamah"), Queued (Some 1736943898000)); (("dhuhr", "preIqamah"), Off)]) as Hp
    by (vm_compute; reflexivity).
  destruct (initScheduler_exact (L := utc) (Tm := lenient) (Zd := zod_ref) (N := no_net) day_config
    morning_world day_times (after_begin (Tm := lenient) morning_world)) as (_ & _ & _ & _ & Ha & Hf);
    [by apply empty_tracked| |reflexivity|vm_compute; reflexivity|].
  - constructor; [by split|vm_compute; split; discriminate|vm_compute; reflexivity|reflexivity|vm_compute; reflexivity|].
    change (upcoming mid_morning (plan (L := utc) day_config day_times mid_morning)). rewrite Hp.
    repeat constructor; (eexists; split; [reflexivity|]; reflexivity).
  - change (w_clock morning_world) with mid_morning in *. rewrite Hp in Ha, Hf. split; [exact Ha|].
    by apply Hf.
Defined.

Lemma initScheduler_tracked_witness :
  s_active (w_sched (clearJobs (initScheduler (L := utc) (Tm := lenient) (Zd := zod_ref) (N := no_net)
    day_world).2).2) = [].
Proof.
  apply (initScheduler_tracked (L := utc) (Tm := lenient) (Zd := zod_ref) (N := no_net)).
  by apply empty_tracked.
Defined.

Lemma scheduleEvent_cases_witness :
  exists s', scheduleEvent (L := utc) (Tm := lenient) (dt_now (Luxon := utc) 1736943000000) "dhuhr" "adhan"
      day_world = (Ok tt, set_sched s' day_world) /\
    shape <$> s_active s' = [(event_name "dhuhr" "adhan", "automation", At (Some 1736942998000), ("dhuhr", "adhan"))].
Proof.
  destruct (scheduleEvent_cases (L := utc) (Tm := lenient) day_config
    (dt_now (Luxon := utc) 1736943000000) "dhuhr" "adhan" day_world 1736943000000 2000)
    as (s' & Hr & _ & Hon); try done; try (vm_compute; split; discriminate); try by split.
  exists s'. split; [exact Hr|]. destruct (Hon eq_refl) as (Hq & _). by destruct (Hq eq_refl) as [-> _].
Defined.

Lemma staggered_start_witness :
  exists m, getMaxLeadTime azan_config "fajr" "adhan" = inject_Z m /\
    exists k, 2000%Q = inject_Z k /\ after_wait (5000 - m) (wait_delay (inject_Z m) 2000%Q) = 5000 - k.
Proof.
  destruct (staggered_start azan_config "fajr" "adhan" 5000) as (m & _ & Hm & _ & Hact); [done|..].
  - intros id. unfold target_enabled, lead_time, output_config. cbn.
    destruct (String.eqb_spec id "local") as [->|]; [by exists (-500)|].
    destruct (String.eqb_spec id "voicemonkey") as [->|]; [by exists 2000|]. by exists 0.
  - exists m. split; [exact Hm|]. destruct (Hact "voicemonkey" 2000%Q) as (k & Hk & _ & Ha).
    + vm_compute. apply list_elem_of_further, list_elem_of_here.
    + by exists k.
Defined.

Lemma overlapping_inits_duplicate_witness :
  length (s_active (w_sched ((init_finish (L := utc) (Tm := lenient) day_config "Etc/UTC" day_times ;;
    init_finish (L := utc) (Tm := lenient) day_config "Etc/UTC" day_times)
    (after_begin (Tm := lenient) (after_begin (Tm := lenient) day_world))).2)) = 13%nat.
Proof.
  destruct (overlapping_inits_duplicate (L := utc) (Tm := lenient) (Zd := zod_ref) (N := no_net)
    day_config day_world day_times (after_begin (Tm := lenient) (after_begin (Tm := lenient) day_world)))
    as [Hs _].
  - by apply empty_tracked.
  - exact day_bookable.
  - vm_compute. reflexivity.
  - apply (f_equal length) in Hs. rewrite length_fmap in Hs. exact Hs.
Defined.

(** The cache is a year old, and stays so. *)
Definition old_cache_world : world :=
  set_files {[ CACHE_FILE := File (Json (setp (w_pcache day_world) "meta"
    (VObj [("source", VStr "aladhan"); ("lastFetched", VStr "2024-01-15T00:00:00.000Z")]))) 0 ]} day_world.

Lemma staleAction_never_refreshes_witness :
  w_net (staleAction (L := utc) (Zd := zod_ref) (N := no_net) old_cache_world).2 = [].
Proof.
  rewrite (staleAction_never_refreshes (L := utc) (Zd := zod_ref) (N := no_net) day_config).
  - reflexivity.
  - by split.
  - by exists "aladhan".
  - vm_compute. done.
Defined.
