(* ===== verification/Frames.v ===== *)
(** * What the components leave alone

    A component owns some fields of the world; every other view of the world is
    the same before and after its operations.  The lemmas are stated for any
    view [f] that the component's own updates do not change. *)
From S2P Require Import Prelude JsString JsValue NodePath World Luxon LuxonUtc Zod Schemas.
From S2P Require Import Calculations.
From S2P Require Import Network Providers PrayerTimes Encryption Sse ConfigStore Outputs.
From S2P Require Import Migration.
From S2P Require Import Masking ConfigService Wiring Health Storage AudioAssets Automation.
From S2P Require Import Scheduler.

(** A computation that only reads or only changes what [f] does not see *)
Ltac frame_leaf :=
  intros ?; unfold fs_read, fs_access, fs_write, fs_unlink, fs_rename, fs_access_dir, fs_mkdir, fs_mtime,
    fs_touch, fs_readdir, config_get, on_sched, on_sse, modify, settle, axios_get, axios_post, lift, throw, gets, ret;
  repeat case_match; simplify_eq/=; auto; fail.
Ltac frame := keeps_step; try solve [frame_leaf | auto].

(** A computation that changes nothing but the log of remote calls *)
Ltac net_frame := repeat first
  [ apply net_only_fetch | apply net_only_settle | apply net_only_if
  | apply net_only_bind; [|intros ?] | apply net_only_catch; [|intros ?]
  | apply (net_only_same (fun _ => _)) | apply net_only_same ].

Lemma keeps_settle {W A B} (f : W -> B) (m : M W A) : keeps f m -> keeps f (settle m).
Proof. intros H w. unfold settle. specialize (H w). by destruct (m w). Qed.

Lemma keeps_net_only {A B} (f : world -> B) (m : M world A) :
  (forall n w, f (set_net n w) = f w) -> net_only m -> keeps f m.
Proof. intros Hf Hm w. destruct (Hm w) as [n ->]. apply Hf. Qed.

Section outside.
Context `{L : Luxon} `{Zd : Zod} `{N : Net} `{Ho : Host} `{T : Tts} `{W : Words} `{G : Digest}.
Context {B : Type} (f : world -> B).
Hypothesis Hnet : forall n w, f (set_net n w) = f w.
Hypothesis Hfiles : forall fs w, f (set_files fs w) = f w.

Lemma keeps_dir dir : keeps f (fs_access_dir dir).
Proof. intros w. unfold fs_access_dir. by case_match. Qed.
Lemma keeps_mkdir dir : keeps f (fs_mkdir dir).
Proof. intros w. unfold fs_mkdir. by case_match. Qed.
Lemma keeps_readdir dir : keeps f (fs_readdir dir).
Proof. intros w. unfold fs_readdir. by case_match. Qed.
Lemma keeps_mtime p : keeps f (fs_mtime p).
Proof. intros w. unfold fs_mtime. by case_match. Qed.
Lemma keeps_touch p : keeps f (fs_touch p).
Proof. intros w. unfold fs_touch. case_match; [apply Hfiles|done]. Qed.
Lemma keeps_config : keeps f config_get.
Proof. intros w. unfold config_get. by case_match. Qed.
Lemma keeps_get url params : keeps f (axios_get url params).
Proof. intros w. apply Hnet. Qed.
Lemma keeps_post url body : keeps f (axios_post url body).
Proof.
  intros w. unfold axios_post. destruct (tts_post _ _ _) as [[data written]|]; cbn;
    [by rewrite Hfiles, Hnet|apply Hnet].
Qed.
Lemma keeps_fetch url : keeps f (fetch url).
Proof. intros w. apply Hnet. Qed.
#[local] Hint Resolve keeps_dir keeps_mkdir keeps_readdir keeps_mtime keeps_touch keeps_config keeps_get
  keeps_post keeps_fetch keeps_settle : azan.

(** *** Providers and outputs *)
Lemma keeps_annual source config year : keeps f (getAnnualTimes source config year).
Proof. apply keeps_net_only; [exact Hnet|apply getAnnualTimes_net]. Qed.

Lemma keeps_provider_check type P : getProviderClass type = Ok P -> keeps f (pc_healthCheck P).
Proof.
  unfold getProviderClass, registry. destruct type as [| | | |t| |]; try done. cbn [assoc].
  destruct (String.eqb t "aladhan").
  { intros [= <-]. cbn. unfold Aladhan_healthCheck. frame. }
  destruct (String.eqb t "mymasjid"); [|done].
  intros [= <-]. cbn. unfold MyMasjid_healthCheck. frame.
Qed.

Lemma keeps_output_check id s params : getStrategy id = Ok s -> keeps f (st_health s params).
Proof.
  unfold getStrategy, strategies. cbn [find].
  destruct (String.eqb (st_id LocalOutput) id).
  { intros [= <-]. cbn. unfold Local_healthCheck, _isWSL. frame. }
  destruct (String.eqb (st_id VoiceMonkeyOutput) id).
  { intros [= <-]. cbn. unfold VoiceMonkey_healthCheck, test_announcement. frame. }
  destruct (String.eqb (st_id BrowserOutput) id); [|done]. intros [= <-]. cbn. frame.
Qed.

(** *** Health *)
Hypothesis Hhealth : forall h w, f (set_health h w) = f w.

Lemma keeps_checkSource target : keeps f (checkSource target).
Proof.
  unfold checkSource. apply keeps_bind; [apply keeps_config|]. intros config.
  apply keeps_bind; [apply keeps_lift|]. intros sources. apply keeps_bind; [apply keeps_lift|]. intros source.
  destruct (negb _); [apply keeps_ret|]. destruct (_ && _); [apply keeps_ret|].
  apply keeps_try; [|frame]. intros w. unfold mbind, M_bind, lift.
  destruct (getProviderClass _) as [P|] eqn:E; [|done]. by apply (keeps_provider_check _ _ E).
Qed.

Lemma keeps_getHealth : keeps f getHealth.
Proof. unfold getHealth, init_health. frame. Qed.

Lemma keeps_refreshTarget t params force : keeps f (_refreshTarget t params force).
Proof.
  unfold _refreshTarget, checkPythonService. pose proof keeps_checkSource.
  apply keeps_bind; [apply keeps_config|]. intros config. cbv zeta.
  do 3 (case_match; [frame|]). do 2 (case_match; [auto|]). apply keeps_try; [|frame]. intros w. unfold mbind, M_bind, lift.
  destruct (getStrategy t) as [s|] eqn:E; [|done]. by apply (keeps_output_check _ _ _ E).
Qed.

Lemma keeps_refresh_health t params force : keeps f (refresh_health t params force).
Proof.
  unfold refresh_health, init_health. pose proof keeps_refreshTarget. pose proof keeps_getHealth. frame.
Qed.

(** *** Audio assets *)
Lemma keeps_ensureDirs : keeps f ensureDirs.
Proof. unfold ensureDirs, ensureDir. frame. Qed.

Lemma keeps_enriched p : keeps f (enriched p).
Proof. unfold enriched, analyseAudioFile, parseFile, enrichMetadata, validateAsset. frame. Qed.

Lemma keeps_ensureTTS prayer event settings config : keeps f (ensureTTSFile prayer event settings config).
Proof.
  unfold ensureTTSFile, tts_current, make_tts, generateTTS, read_json, checkQuota.
  pose proof keeps_refresh_health. pose proof keeps_enriched. frame.
Qed.

Lemma keeps_cleaning : keeps f cleanupCache /\ forall force, keeps f (cleanupTempAudio force).
Proof.
  pose proof keeps_ensureDirs. unfold cleanupCache, cleanupTempAudio, ignoring, clean_cached, clean_temp.
  split; intros; unfold ignoring; frame.
Qed.

Lemma keeps_sync force : keeps f (syncAudioAssets force).
Proof.
  pose proof keeps_ensureDirs. pose proof keeps_ensureTTS. destruct keeps_cleaning as [Hc Ht].
  unfold syncAudioAssets, force_clean, ignoring. frame.
Qed.

(** *** Prayer times and the scheduler *)
Hypothesis Hpcache : forall v w, f (set_pcache v w) = f w.

Lemma keeps_times config date : keeps f (getPrayerTimes config date).
Proof.
  assert (forall year, keeps f (fetch_bulk config year)) as Hf.
  { intros year. apply keeps_net_only; [exact Hnet|apply fetch_bulk_net]. }
  unfold getPrayerTimes, lookup_or_fetch, readCache, writeCache, ensureDataDir, set_memory. frame.
Qed.

Lemma keeps_forceRefresh config : keeps f (forceRefresh config).
Proof. unfold forceRefresh. pose proof keeps_times. frame. Qed.

Hypothesis Hsched : forall s w, f (set_sched s w) = f w.

Lemma keeps_initScheduler `{Tm : Timer} : keeps f initScheduler.
Proof.
  unfold initScheduler, init_begin, init_finish, local_now, clearJobs, scheduleMaintenanceJobs, schedule_prayer,
    schedule_pair, scheduleEvent, on_sched. pose proof keeps_times. frame.
Qed.
End outside.
