(* ===== verification/Diagnostics.v ===== *)
(** * Diagnostics ([src/services/system/diagnosticsService.js])

    The status page: for every event of the day its time and whether it has
    passed, and for every speech trigger whether its audio file is there.  The
    checks of the audio files are started together; none waits for another,
    and they are listed in order. *)
From S2P Require Import Prelude JsString JsValue NodePath World Luxon LuxonUtc Zod Schemas.
From S2P Require Import Calculations.
From S2P Require Import Network Providers PrayerTimes Encryption Sse ConfigStore Outputs.
From S2P Require Import Migration.
From S2P Require Import Masking ConfigService Wiring Health Storage AudioAssets Automation.
From S2P Require Import Scheduler.

(** [path.basename(v)] of a value that is not [undefined] *)
Definition basename_of (v : val) : result string :=
  match v with
  | VStr s => Ok (basename s)
  | _ => Throw (TypeError "The path argument must be of type string")
  end.

(** A text in quotes, as it stands *)
Definition in_quotes (s : string) : string := String "034" (s +:+ String "034" EmptyString).

(** The first thirty characters in double quotes, with dots when there are more *)
Definition template_excerpt (template : val) : result string :=
  match template with
  | VStr t => Ok (in_quotes (utf16_take 30 t +:+ (if 30 <? utf16_length t then "..." else "")))
  | _ => Throw (TypeError "triggerConfig.template.substring is not a function")
  end.

(** What an audio trigger plays, as text *)
Definition source_text (triggerConfig : val) (type : val) : result string :=
  let field k := prop triggerConfig k in
  if seq type (VStr "file") then
    if truthy (field "path") then basename_of (field "path") else Ok "No File"
  else if seq type (VStr "url") then Ok (show (js_or (field "url") (VStr "No URL")))
  else if seq type (VStr "tts") then
    if truthy (field "template") then template_excerpt (field "template") else Ok "No Template"
  else Ok "Unknown".

(** [x.join(", ")] of an array of texts *)
Definition join_targets (targets : val) : result string :=
  match targets with
  | VArr l => Ok (join ", " ((fun v => if is_nullish v then "" else show v) <$> l))
  | _ => Throw (TypeError "targets.join is not a function")
  end.

Definition trigger_type (triggerConfig : val) : val := js_or (prop triggerConfig "type") (VStr "file").

Definition trigger_details (triggerConfig : val) : result val :=
  source ← source_text triggerConfig (trigger_type triggerConfig);
  targets ← join_targets (js_or (prop triggerConfig "targets") (VArr []));
  Ok (VObj [("type", trigger_type triggerConfig); ("source", VStr source); ("targets", VStr targets)]).

Section diagnostics.
Context `{L : Luxon}.

(** *** getAutomationStatus *)
Definition DISABLED : val := VObj [("status", VStr "DISABLED")].

Definition event_entry (now time : dt) (details : val) : val :=
  VObj [("status", VStr (if dt_lt time now then "PASSED" else "UPCOMING"));
        ("time", dt_toISO time); ("details", details)].

Definition getStatus (now : dt) (triggerConfig : val) (time : option dt) : result val :=
  if negb (truthy (prop triggerConfig "enabled")) then Ok DISABLED else
  match time with
  | None => Ok (VObj [("status", VStr "ERROR"); ("error", VStr "Time calculation failed")])
  | Some time => details ← trigger_details triggerConfig; Ok (event_entry now time details)
  end.

Definition status_iqamah (config prayers : val) (timezone prayer : string) (startISO : val)
    : result (option dt) :=
  all ← get config "prayers";
  prayerConfig ← get all prayer;
  let isOverride := seq (prop prayerConfig "iqamahOverride") (VBool true) in
  let explicit := prop prayers "iqamah" in
  if negb isOverride && truthy explicit && truthy (prop explicit prayer)
  then Ok (Some (dt_parse (str_of (prop explicit prayer)) timezone))
  else if truthy prayerConfig then
    calculatedIso ← calculateIqamah startISO prayerConfig (VStr timezone);
    Ok (Some (dt_parse (str_of calculatedIso) timezone))
  else Ok None.

(** An event and the one ahead of it *)
Definition status_pair (now : dt) (prayerTriggers : val) (time : option dt) (event preEvent : string)
    : result (list (string * val)) :=
  st ← getStatus now (prop prayerTriggers event) time;
  early ← match time with
          | Some t => t' ← minus_minutes t (prop (prop prayerTriggers preEvent) "offsetMinutes"); Ok (Some t')
          | None => Ok None
          end;
  pre ← getStatus now (prop prayerTriggers preEvent) early;
  Ok [(event, st); (preEvent, pre)].

Definition prayer_status (config triggers prayerData : val) (timezone : string) (now : dt)
    (prayer : string) : result val :=
  own ← get triggers prayer;
  let prayerTriggers := js_or own (VObj []) in
  prayers ← get prayerData "prayers";
  startISO ← get prayers prayer;
  if negb (truthy startISO) then Ok (VObj [("error", VStr "No time data")]) else
  let start := dt_parse (str_of startISO) timezone in
  iqamah ← status_iqamah config prayers timezone prayer startISO;
  adhans ← status_pair now prayerTriggers (Some start) "adhan" "preAdhan";
  if String.eqb prayer "sunrise" then Ok (VObj adhans) else
  iqamahs ← status_pair now prayerTriggers iqamah "iqamah" "preIqamah";
  Ok (VObj (adhans ++ iqamahs)).

Fixpoint each_prayer (f : string -> result val) (l : list string) : result (list (string * val)) :=
  match l with
  | [] => Ok []
  | prayer :: l' => v ← f prayer; rest ← each_prayer f l'; Ok ((prayer, v) :: rest)
  end.

Section with_sources.
Context `{Zd : Zod} `{N : Net}.

Definition getAutomationStatus (config : val) : M world val :=
  location ← lift (get config "location");
  timezone ← lift (get location "timezone");
  clock ← gets w_clock;
  let now := dt_setZone (dt_now clock) (str_of timezone) in
  automation ← lift (get config "automation");
  triggers ← lift (get automation "triggers");
  data ← settle (getPrayerTimes config now);
  match data with
  | Throw _ => ret (VObj [])
  | Ok prayerData =>
      result ← lift (each_prayer
        (prayer_status config triggers prayerData (str_of timezone) now) PRAYER_NAMES);
      ret (VObj result)
  end.
End with_sources.
End diagnostics.

(** *** getTTSStatus *)
Section tts.
Context `{W : Words}.

Definition tts_events (prayer : string) : list string :=
  if String.eqb prayer "sunrise" then ["preAdhan"; "adhan"]
  else ["preAdhan"; "adhan"; "preIqamah"; "iqamah"].

Definition tts_entry (status : string) (detail : list (string * val)) : val :=
  VObj (("status", VStr status) :: detail).

(** An entry that is known at once, or the check that will give it *)
Inductive tts_answer := Known (v : val) | Speech (triggerConfig : val).

Definition tts_known (triggerConfig : val) : result tts_answer :=
  if negb (truthy triggerConfig) || negb (truthy (prop triggerConfig "enabled"))
  then Ok (Known DISABLED) else
  let audioType := trigger_type triggerConfig in
  if seq audioType (VStr "url")
  then Ok (Known (tts_entry "URL" [("detail", prop triggerConfig "url")])) else
  if seq audioType (VStr "file") then
    filename ← (if truthy (prop triggerConfig "path") then basename_of (prop triggerConfig "path")
                else Ok "Unknown");
    Ok (Known (tts_entry "CUSTOM_FILE" [("detail", VStr filename)]))
  else if seq audioType (VStr "tts") then Ok (Speech triggerConfig)
  else Ok (Known (tts_entry "UNKNOWN" [])).

Definition check_speech (prayer event : string) (triggerConfig : val) : M world val :=
  let expectedFilename := tts_filename prayer event in
  let audioPath := in_dir AUDIO_CACHE_DIR expectedFilename in
  let metaPath := in_dir META_CACHE_DIR (expectedFilename +:+ ".json") in
  try_catch
    (fs_access audioPath ;; fs_access metaPath ;;
     meta ← read_json metaPath;
     expectedText ← lift (resolveTemplate (prop triggerConfig "template") prayer
                            (prop triggerConfig "offsetMinutes"));
     text ← lift (get meta "text");
     ret (if seq text (VStr expectedText)
          then tts_entry "GENERATED" [("detail", prop meta "generatedAt")]
          else tts_entry "MISMATCH" [("detail", VStr "Template changed")]))
    (fun e => ret (if String.eqb (e_code e) "ENOENT" then tts_entry "MISSING" []
                   else tts_entry "ERROR" [("detail", VStr "Corrupt Meta or Access Denied")])).

(** The triggers of a prayer, event by event *)
Definition prayer_answers (config : val) (prayer : string) : result (list (string * tts_answer)) :=
  automation ← get config "automation";
  triggers ← get automation "triggers";
  own ← get triggers prayer;
  let prayerTriggers := js_or own (VObj []) in
  foldr (fun event acc => answer ← tts_known (prop prayerTriggers event); rest ← acc;
                          Ok ((event, answer) :: rest)) (Ok []) (tts_events prayer).

Fixpoint all_answers (config : val) (prayers : list string)
    : result (list (string * list (string * tts_answer))) :=
  match prayers with
  | [] => Ok []
  | prayer :: l' => answers ← prayer_answers config prayer; rest ← all_answers config l';
                    Ok ((prayer, answers) :: rest)
  end.

Definition known_part (answers : list (string * tts_answer)) : list (string * val) :=
  omap (fun ea => match ea.2 with Known v => Some (ea.1, v) | Speech _ => None end) answers.

Definition speech_part (answers : list (string * list (string * tts_answer)))
    : list (string * string * val) :=
  mjoin ((fun pa => omap (fun ea : string * tts_answer =>
    match ea.2 with Speech c => Some (pa.1, ea.1, c) | Known _ => None end) pa.2) <$> answers).

(** [result[prayer][event] = v] *)
Definition set_entry (result : val) (prayer event : string) (v : val) : val :=
  setp result prayer (setp (prop result prayer) event v).

Definition getTTSStatus (config : val) : M world val :=
  answers ← lift (all_answers config PRAYER_NAMES);
  checked ← map_m (fun task => v ← check_speech task.1.1 task.1.2 task.2; ret (task, v))
              (speech_part answers);
  ret (foldl (fun r tv => set_entry r tv.1.1.1 tv.1.1.2 tv.2)
         (VObj ((fun pa => (pa.1, VObj (known_part pa.2))) <$> answers)) checked).
End tts.

(** ** Lemmas *)
Section lemmas.
Context `{L : Luxon}.

Lemma each_prayer_in f l r prayer :
  each_prayer f l = Ok r -> NoDup l -> prayer ∈ l -> f prayer = Ok (oget prayer r).
Proof.
  revert r. induction l as [|p l IH]; intros r H Hnd Hin; [by apply not_elem_of_nil in Hin|].
  cbn in H. destruct (f p) as [v|] eqn:Ef; [|done]. cbn in H.
  destruct (each_prayer f l) as [rest|] eqn:Er; [|done]. injection H as <-.
  apply NoDup_cons in Hnd as [Hni Hnd]. cbn [oget].
  destruct (String.eqb_spec prayer p) as [->|Hne]; [done|].
  apply IH; [done..|]. by apply elem_of_cons in Hin as [?|?].
Qed.

Lemma each_prayer_keys f l r : each_prayer f l = Ok r -> okeys r = l.
Proof.
  revert r. induction l as [|p l IH]; intros r H; [by injection H as <-|].
  cbn in H. destruct (f p); [|done]. cbn in H. destruct (each_prayer f l) as [rest|]; [|done].
  injection H as <-. cbn. f_equal. by apply IH.
Qed.

Lemma get_inv {W} v k x (w w' : W) : (get v k, w) = (Ok x, w') -> x = prop v k /\ w' = w.
Proof. intros [= ->%got_prop ->]. done. Qed.

(** An entry that shows an event, with its details *)
Definition shows (now : dt) (triggers : val) (date : dt) (e : string) (v : val) : Prop :=
  exists details, trigger_details (prop triggers e) = Ok details /\ v = event_entry now date details.

(** Entries that show no event *)
Definition silent (v : val) : Prop :=
  v = DISABLED \/ v = VObj [("status", VStr "ERROR"); ("error", VStr "Time calculation failed")].

(** Entries that are exactly the planned events, the others being silent *)
Definition agrees (now : dt) (triggers : val) (plan : list (dt * string)) (entries : list (string * val))
    : Prop :=
  (forall date e, (date, e) ∈ plan -> exists v, (e, v) ∈ entries /\ shows now triggers date e v) /\
  (forall e v, (e, v) ∈ entries -> silent v \/ exists date, (date, e) ∈ plan /\ shows now triggers date e v).

Lemma agrees_app now triggers p1 p2 e1 e2 :
  agrees now triggers p1 e1 -> agrees now triggers p2 e2 -> agrees now triggers (p1 ++ p2) (e1 ++ e2).
Proof.
  intros [A1 B1] [A2 B2]. split.
  - intros date e [Hin|Hin]%elem_of_app.
    + destruct (A1 _ _ Hin) as (v & Hv & ?). exists v. split; [apply elem_of_app; by left|done].
    + destruct (A2 _ _ Hin) as (v & Hv & ?). exists v. split; [apply elem_of_app; by right|done].
  - intros e v [Hin|Hin]%elem_of_app.
    + destruct (B1 _ _ Hin) as [?|(date & ? & ?)]; [by left|right; exists date; split; [|done]].
      apply elem_of_app. by left.
    + destruct (B2 _ _ Hin) as [?|(date & ? & ?)]; [by left|right; exists date; split; [|done]].
      apply elem_of_app. by right.
Qed.

(** One event: shown at its time when enabled, silent otherwise *)
Lemma getStatus_agrees now triggers time e v :
  getStatus now (prop triggers e) (Some time) = Ok v ->
  agrees now triggers (if enabled_trigger triggers e then [(time, e)] else []) [(e, v)].
Proof.
  unfold getStatus, enabled_trigger. destruct (truthy (prop (prop triggers e) "enabled")); cbn [negb].
  - destruct (trigger_details (prop triggers e)) as [details|] eqn:Ed; [|done]. intros [= <-].
    split; intros ? ? ?%list_elem_of_singleton; simplify_eq.
    + eexists. split; [apply list_elem_of_here|]. by exists details.
    + right. exists time. split; [apply list_elem_of_here|]. by exists details.
  - intros [= <-]. split; intros ? ? ?; [by apply not_elem_of_nil in H|]. left. left.
    apply list_elem_of_singleton in H. by simplify_eq.
Qed.

Lemma status_pair_agrees now triggers time event preEvent entries :
  status_pair now triggers (Some time) event preEvent = Ok entries ->
  agrees now triggers (events_of_pair triggers time event preEvent) entries.
Proof.
  unfold status_pair, events_of_pair. destruct (getStatus now _ _) as [st|] eqn:E1; [|done]. cbn.
  destruct (minus_minutes time _) as [early|] eqn:Em; [|done]. cbn.
  destruct (getStatus now (prop triggers preEvent) _) as [pre|] eqn:E2; [|done]. intros [= <-].
  change [(event, st); (preEvent, pre)] with ([(event, st)] ++ [(preEvent, pre)]).
  apply agrees_app; by apply getStatus_agrees.
Qed.

Lemma status_pair_none now triggers event preEvent entries :
  status_pair now triggers None event preEvent = Ok entries -> agrees now triggers [] entries.
Proof.
  unfold status_pair, getStatus. intros H. split; [by intros ? ? ?%not_elem_of_nil|].
  intros e v Hin. left. unfold silent.
  repeat (case_match; cbn in H; simplify_eq/=);
    repeat (apply elem_of_cons in Hin as [[= -> ->]|Hin]); try (by auto); by apply not_elem_of_nil in Hin.
Qed.

Lemma status_pair_keys now triggers time event preEvent entries :
  status_pair now triggers time event preEvent = Ok entries -> okeys entries = [event; preEvent].
Proof.
  unfold status_pair. intros H. destruct (getStatus now (prop triggers event) _); [|done]. cbn in H.
  destruct time as [t|]; cbn in H; [destruct (minus_minutes t _); [|done]; cbn in H|];
    (destruct (getStatus _ (prop triggers preEvent) _); [|done]; by injection H as <-).
Qed.

(** The planned events of a prayer, without its name *)
Definition own_events (config prayerData triggers : val) (timezone prayer : string) : list (dt * string) :=
  let startISO := prop (prop prayerData "prayers") prayer in
  if truthy (prop triggers prayer) && truthy startISO then
    events_of_pair (prop triggers prayer) (dt_parse (str_of startISO) timezone) "adhan" "preAdhan" ++
    match iqamah_time config prayerData timezone prayer startISO with
    | Ok (Some time) => events_of_pair (prop triggers prayer) time "iqamah" "preIqamah"
    | _ => []
    end
  else [].

Lemma own_events_in config prayerData triggers timezone date prayer e :
  prayer ∈ PRAYER_NAMES ->
  (date, (prayer, e)) ∈ day_events config prayerData triggers timezone <->
  (date, e) ∈ own_events config prayerData triggers timezone prayer.
Proof.
  intros Hp. unfold day_events, own_events. rewrite list_elem_of_join. split.
  - intros (l & Hin & Hl). apply list_elem_of_fmap in Hl as (p & -> & _).
    unfold prayer_events in Hin. case_match eqn:Ec; [|by apply not_elem_of_nil in Hin].
    apply list_elem_of_fmap in Hin as ([d e'] & [= -> -> ->] & Hin). by rewrite Ec.
  - intros Hin. exists (prayer_events config prayerData triggers timezone prayer). split.
    + unfold prayer_events. case_match; [|by apply not_elem_of_nil in Hin].
      apply list_elem_of_fmap. by exists (date, e).
    + by apply list_elem_of_fmap_2.
Qed.

Lemma falsy_events own time event preEvent :
  events_of_pair (VObj []) time event preEvent = [] /\
  (truthy own = true -> js_or own (VObj []) = own) /\ (truthy own = false -> js_or own (VObj []) = VObj []).
Proof. unfold js_or. split; [done|]. by destruct (truthy own). Qed.

Lemma agrees_silent now triggers entries :
  agrees now (VObj []) [] entries -> agrees now triggers [] entries.
Proof.
  intros [_ B]. split; [by intros ? ? ?%not_elem_of_nil|]. intros e v Hin.
  destruct (B e v Hin) as [?|(date & Hd & _)]; [by left|by apply not_elem_of_nil in Hd].
Qed.

Lemma prayer_status_agrees config triggers prayerData timezone now prayer v :
  prayer_status config triggers prayerData timezone now prayer = Ok v ->
  truthy (prop (prop prayerData "prayers") prayer) = true ->
  exists entries, v = VObj entries /\ NoDup (okeys entries) /\
    agrees now (prop triggers prayer) (own_events config prayerData triggers timezone prayer) entries.
Proof.
  intros H Hs. unfold prayer_status in H.
  assert (forall x k (f : val -> result val), (y ← get x k; f y) = Ok v -> f (prop x k) = Ok v) as Hget.
  { intros x k f. unfold get. destruct x; done. }
  do 3 apply Hget in H. rewrite Hs in H. cbn [negb] in H.
  set (pt := js_or (prop triggers prayer) (VObj [])) in *.
  destruct (status_iqamah _ _ _ _ _) as [iq|] eqn:Ei; [|done]. cbn [mbind result_bind] in H.
  destruct (status_pair now pt (Some _) _ _) as [adhans|] eqn:Ea; [|done]. cbn [mbind result_bind] in H.
  pose proof (status_pair_keys _ _ _ _ _ _ Ea) as Hka. apply status_pair_agrees in Ea.
  unfold own_events. rewrite Hs, andb_true_r. destruct (String.eqb_spec prayer "sunrise") as [->|Hne].
  - injection H as <-. exists adhans. split; [done|]. split; [rewrite Hka; by apply (bool_decide_unpack _); vm_compute|].
    rewrite app_nil_r. destruct (truthy (prop triggers "sunrise")) eqn:Et.
    + unfold pt in Ea. by rewrite (proj1 (proj2 (falsy_events _ (dt_parse "" "") "" ""))) in Ea by done.
    + unfold pt in Ea. rewrite (proj2 (proj2 (falsy_events _ (dt_parse "" "") "" ""))) in Ea by done.
      by apply agrees_silent.
  - destruct (status_pair now pt iq _ _) as [iqamahs|] eqn:Eq; [|done]. cbn [mbind result_bind] in H.
    injection H as <-. exists (adhans ++ iqamahs). split; [done|].
    pose proof (status_pair_keys _ _ _ _ _ _ Eq) as Hki. split.
    { unfold okeys. rewrite fmap_app. unfold okeys in Hka, Hki. rewrite Hka, Hki.
      by apply (bool_decide_unpack _); vm_compute. }
    assert (iqamah_time config prayerData timezone prayer (prop (prop prayerData "prayers") prayer) = Ok iq) as ->.
    { unfold iqamah_time. apply String.eqb_neq in Hne. rewrite Hne. exact Ei. }
    assert (agrees now pt (match iq with Some t => events_of_pair pt t "iqamah" "preIqamah" | None => [] end)
              iqamahs) as Hq.
    { destruct iq; [by apply status_pair_agrees|by eapply status_pair_none]. }
    pose proof (agrees_app _ _ _ _ _ _ Ea Hq) as Hall. unfold pt in Hall.
    destruct (truthy (prop triggers prayer)) eqn:Et.
    + by rewrite (proj1 (proj2 (falsy_events _ (dt_parse "" "") "" ""))) in Hall by done.
    + rewrite (proj2 (proj2 (falsy_events _ (dt_parse "" "") "" ""))) in Hall by done.
      apply agrees_silent. by destruct iq.
Qed.
End lemmas.

Section properties.
Context `{L : Luxon} `{Zd : Zod} `{N : Net}.

(** The status page and the scheduler agree.  When the page can be computed it
    leaves what fetching the times leaves, and for each prayer with a time it
    shows exactly the events of the scheduler's plan, each at the plan's time
    and as passed or upcoming by the clock; every other entry is silent. *)
Theorem status_matches_plan config w result w' data w1 :
  getAutomationStatus config w = (Ok result, w') ->
  getPrayerTimes config (today config w) w = (Ok data, w1) ->
  let triggers := prop (prop config "automation") "triggers" in
  w' = w1 /\ NoDup (okeys (props result)) /\
  forall prayer, prayer ∈ PRAYER_NAMES -> truthy (prop (prop data "prayers") prayer) = true ->
    NoDup (okeys (props (prop result prayer))) /\
    (forall date e, (date, (prayer, e)) ∈ day_events config data triggers (zone_of config) ->
       shows (today config w) (prop triggers prayer) date e (prop (prop result prayer) e)) /\
    (forall e v, (e, v) ∈ props (prop result prayer) ->
       silent v \/ exists date, (date, (prayer, e)) ∈ day_events config data triggers (zone_of config) /\
         shows (today config w) (prop triggers prayer) date e v).
Proof.
  intros H Hd triggers. unfold getAutomationStatus in H.
  apply M_bind_inv in H as (location & wa & E1 & H). apply M_bind_inv in H as (timezone & wb & E2 & H).
  apply M_bind_inv in H as (clock & wc & E3 & H). apply M_bind_inv in H as (automation & wd & E4 & H).
  apply M_bind_inv in H as (trg & we & E5 & H). apply M_bind_inv in H as (r & wf & E6 & H).
  unfold lift, gets, settle in *. apply get_inv in E1 as [-> ->], E2 as [-> ->].
  injection E3 as <- <-. apply get_inv in E4 as [-> ->], E5 as [-> ->].
  change (dt_setZone _ _) with (today config w) in *. rewrite Hd in E6. injection E6 as <- <-.
  apply M_bind_inv in H as (entries & wg & E7 & H). injection H as <- <-.
  pose proof (f_equal snd E7) as Hw. apply (f_equal fst) in E7. cbn [fst snd] in E7, Hw.
  split; [done|]. split.
  { cbn [props]. rewrite (each_prayer_keys _ _ _ E7). by apply (bool_decide_unpack _); vm_compute. }
  intros prayer Hp Hs. pose proof (each_prayer_in _ _ _ _ E7 ltac:(by apply (bool_decide_unpack _); vm_compute) Hp) as Hv.
  destruct (prayer_status_agrees _ _ _ _ _ _ _ Hv Hs) as (es & He & Hnd & A & B).
  cbn [prop]. rewrite He. cbn [props prop]. split; [done|]. split.
  - intros date e Hin%own_events_in; [|done]. destruct (A date e Hin) as (v & Hin' & Hsh).
    by rewrite (oget_in_nodup e v es Hnd Hin').
  - intros e v Hin. destruct (B e v Hin) as [?|(date & Hpl & Hsh)]; [by left|right].
    exists date. split; [by apply own_events_in|done].
Qed.
End properties.

Section speech.
Context `{L : Luxon} `{Zd : Zod} `{N : Net} `{Ho : Host} `{T : Tts} `{W : Words}.

Definition speech_audio (prayer event : string) : string :=
  in_dir AUDIO_CACHE_DIR (tts_filename prayer event).
Definition speech_meta (prayer event : string) : string :=
  in_dir META_CACHE_DIR (tts_filename prayer event +:+ ".json").

(** The sidecar records the text, whatever the voice. *)
Definition text_recorded (metaPath text : string) (w : world) : Prop :=
  exists m t, files w !! metaPath = Some (File (Json m) t) /\ prop (json_clone m) "text" = VStr text.

Lemma check_speech_missing prayer event c w :
  files w !! speech_audio prayer event = None \/ files w !! speech_meta prayer event = None ->
  check_speech prayer event c w = (Ok (tts_entry "MISSING" []), w).
Proof.
  intros Hm. unfold check_speech, try_catch. fold (speech_audio prayer event) (speech_meta prayer event).
  destruct (files w !! speech_audio prayer event) as [fa|] eqn:Ea.
  - rewrite (M_bind_ok _ _ _ _ _ (fs_access_ok _ _ _ Ea)). destruct Hm as [?|Hm]; [done|].
    by rewrite (M_bind_throw _ _ _ _ _ (fs_access_none _ _ Hm)).
  - by rewrite (M_bind_throw _ _ _ _ _ (fs_access_none _ _ Ea)).
Qed.

(** What is reported of two files that are there *)
Definition speech_report (c : content) (text : string) : val :=
  match json_parse c with
  | Ok meta => if is_nullish meta then tts_entry "ERROR" [("detail", VStr "Corrupt Meta or Access Denied")]
               else if seq (prop meta "text") (VStr text)
               then tts_entry "GENERATED" [("detail", prop meta "generatedAt")]
               else tts_entry "MISMATCH" [("detail", VStr "Template changed")]
  | Throw _ => tts_entry "ERROR" [("detail", VStr "Corrupt Meta or Access Denied")]
  end.

Lemma check_speech_present prayer event cfg w fa fm text :
  files w !! speech_audio prayer event = Some fa -> files w !! speech_meta prayer event = Some fm ->
  resolveTemplate (prop cfg "template") prayer (prop cfg "offsetMinutes") = Ok text ->
  check_speech prayer event cfg w = (Ok (speech_report (f_content fm) text), w).
Proof.
  intros Ha Hm Ht. unfold check_speech, try_catch.
  fold (speech_audio prayer event) (speech_meta prayer event).
  rewrite (M_bind_ok _ _ _ _ _ (fs_access_ok _ _ _ Ha)), (M_bind_ok _ _ _ _ _ (fs_access_ok _ _ _ Hm)).
  unfold read_json. rewrite M_bind_assoc, (M_bind_ok _ _ _ _ _ (fs_read_ok _ _ _ Hm)).
  unfold speech_report. destruct (f_content fm) as [s|m|n v]; cbn [json_parse]; [done| |done].
  erewrite M_bind_ok by reflexivity. rewrite Ht. erewrite M_bind_ok by reflexivity.
  unfold lift. destruct (is_nullish (json_clone m)) eqn:En.
  - by destruct (json_clone m).
  - rewrite get_ok by done. by erewrite M_bind_ok by reflexivity.
Qed.

(** Speech files on the status page.  The check of a speech trigger changes
    nothing; it reports a file as missing exactly when the audio or the sidecar
    is not there, and as generated exactly when both are and the sidecar
    records the text the template gives now; and right after the assets service
    has made the file ready, it is reported as generated. *)
Theorem speech_status prayer event cfg config v w text :
  resolveTemplate (prop cfg "template") prayer (prop cfg "offsetMinutes") = Ok text ->
  effective_voice cfg config = VStr v ->
  let status w := prop (match (check_speech prayer event cfg w).1 with Ok s => s | Throw _ => VUndef end)
                    "status" in
  (check_speech prayer event cfg w).2 = w /\
  (status w = VStr "MISSING" <->
     files w !! speech_audio prayer event = None \/ files w !! speech_meta prayer event = None) /\
  (status w = VStr "GENERATED" <->
     present (speech_audio prayer event) w /\ text_recorded (speech_meta prayer event) text w) /\
  (forall r w', ensureTTSFile prayer event cfg config w = (Ok r, w') -> truthy (prop r "success") = true ->
     status w' = VStr "GENERATED").
Proof.
  intros Ht Hv status.
  assert (forall w, (check_speech prayer event cfg w).2 = w /\
    (status w = VStr "MISSING" <->
       files w !! speech_audio prayer event = None \/ files w !! speech_meta prayer event = None) /\
    (status w = VStr "GENERATED" <->
       present (speech_audio prayer event) w /\ text_recorded (speech_meta prayer event) text w)) as Hall.
  { intros x. unfold status.
    destruct (files x !! speech_audio prayer event) as [fa|] eqn:Ea;
      [destruct (files x !! speech_meta prayer event) as [fm|] eqn:Em|].
    2,3: rewrite check_speech_missing by auto; cbn [fst snd]; split; [done|]; split;
      [split; [by auto|done]|]; split; [done|];
      intros [[? ?] (? & ? & ? & _)]; congruence.
    rewrite (check_speech_present _ _ _ _ _ _ _ Ea Em Ht). split; [done|]. cbn [fst].
    split.
    - split; [|by intros [?|?]]. unfold speech_report. repeat case_match; intros Hx; cbn in Hx; discriminate.
    - unfold present, text_recorded. rewrite Ea, Em. split.
      + intros Hg. split; [by eexists|]. destruct fm as [[s|m|n f] t]; try done. exists m, t. split; [done|].
        unfold speech_report in Hg. cbn [f_content json_parse] in Hg.
        destruct (is_nullish (json_clone m)); [done|].
        destruct (seq (prop (json_clone m) "text") (VStr text)) eqn:Es; [|done]. by apply seq_str in Es.
      + intros [_ (m & t & [= ->] & Hm)]. unfold speech_report. cbn [f_content json_parse].
        assert (is_nullish (json_clone m) = false) as -> by (by destruct (json_clone m)).
        rewrite Hm. cbn [seq]. by rewrite String.eqb_refl. }
  destruct (Hall w) as (H1 & H2 & H3). split; [done|]. split; [done|]. split; [done|].
  intros r w' He Hs. apply (proj2 (proj2 (Hall w'))).
  destruct (ensureTTSFile_ok _ _ _ _ _ _ _ _ Hv He Hs) as (text' & Ht' & Hp & (m & t & Hm & Hx & _) & _).
  rewrite Ht in Ht'. injection Ht' as <-. split; [exact Hp|]. by exists m, t.
Qed.
End speech.

(** ** Witnesses *)
Lemma status_matches_plan_witness :
  exists result date, (getAutomationStatus (L := utc) (Zd := zod_ref) (N := no_net) day_config day_world).1
      = Ok result /\
    shows (L := utc) (today (L := utc) day_config day_world) (prop (prop (prop day_config "automation") "triggers") "fajr")
      date "adhan" (prop (prop result "fajr") "adhan").
Proof.
  destruct (getAutomationStatus (L := utc) (Zd := zod_ref) (N := no_net) day_config day_world)
    as [r w'] eqn:E.
  assert (is_ok r = true) as Hr.
  { change r with (r, w').1. rewrite <- E. vm_compute. reflexivity. }
  destruct r as [result|]; [|done].
  destruct (status_matches_plan (L := utc) (Zd := zod_ref) (N := no_net) day_config day_world result w'
    day_times day_world E) as (_ & _ & H); [vm_compute; reflexivity|].
  destruct (H "fajr") as (_ & Hplan & _); [by apply (bool_decide_unpack _); vm_compute|reflexivity|].
  assert (exists date l, day_events (L := utc) day_config day_times
    (prop (prop day_config "automation") "triggers") (zone_of day_config) =
    (date, ("fajr", "adhan")) :: l) as (date & l & Hd) by (vm_compute; eauto).
  exists result, date. split; [done|]. apply Hplan. rewrite Hd. apply list_elem_of_here.
Defined.

Lemma speech_status_witness :
  check_speech (W := some_words) "fajr" "preAdhan" speech_settings speech_world =
    (Ok (tts_entry "GENERATED" [("detail", VUndef)]), speech_world) /\
  present (speech_audio "fajr" "preAdhan") speech_world.
Proof.
  split; [vm_compute; reflexivity|].
  destruct (speech_status (L := utc) (Zd := zod_ref) (N := no_net) (Ho := quiet_host) (T := no_tts)
    (W := some_words) "fajr" "preAdhan" speech_settings (VObj []) "ar-SA-HamedNeural" speech_world
    "15 minutes till Fajr") as (_ & _ & Hg & _); [vm_compute; reflexivity|reflexivity|].
  apply Hg. vm_compute. reflexivity.
Defined.
