(* ===== verification/Workflow.v ===== *)
(** * Saving the settings ([src/services/core/validationService.js],
      [src/services/system/configurationWorkflowService.js])

    The settings page sends a whole configuration.  Its secrets are unmasked,
    its sources tried out when they or the location changed, and it is saved;
    then the prayer times, the speech files and the scheduler are brought in
    line, and what is amiss is collected as warnings.  Progress is broadcast to
    the browsers at every stage. *)
From S2P Require Import Prelude JsString JsValue NodePath World Luxon LuxonUtc Zod Schemas.
From S2P Require Import Calculations.
From S2P Require Import Network Providers PrayerTimes Encryption Sse ConfigStore Outputs.
From S2P Require Import Migration.
From S2P Require Import Masking ConfigService Wiring Health Storage AudioAssets Automation.
From S2P Require Import Scheduler Frames.

(** ** validationService *)
Section validation.
Context `{L : Luxon} `{Zd : Zod} `{N : Net} `{Loc : Locale}.

(** [`${role.toUpperCase()} Source (${metadata.label}) `] *)
Definition source_prefix (role : string) (metadata : val) : string :=
  to_upper role +:+ " Source (" +:+ show (prop metadata "label") +:+ ") ".

(** The message of a schema's error is the list of its issues, formatted. *)
Definition check_schema (role : string) (metadata source : val) : result unit :=
  match (schema ← getConfigSchema (prop source "type"); zod_parse schema source) with
  | Ok _ => Ok tt
  | Throw e => Throw (Error (source_prefix role metadata +:+ "Validation Failed: " +:+ e_msg e))
  end.

Definition check_coordinates (role : string) (metadata newConfig : val) : result unit :=
  if truthy (prop metadata "requiresCoordinates") then
    let coords := prop (prop newConfig "location") "coordinates" in
    if negb (truthy coords) || is_undef (prop coords "lat") || is_undef (prop coords "long")
    then Throw (Error ("Coordinates (Latitude/Longitude) are required for " +:+
                       show (prop metadata "label") +:+ " (" +:+ role +:+ ") source"))
    else Ok tt
  else Ok tt.

(** A fetch that fails is reported under the role, except an error of the
    provider's own, which keeps its message for the user. *)
Definition connection_error (role : string) (metadata : val) (e : jserr) : jserr :=
  if String.eqb (e_name e) "ProviderValidationError" then ProviderValidationError (e_msg e) (e_friendly e)
  else Error (source_prefix role metadata +:+ "Connection Failed: " +:+ e_msg e).

Definition validate_role (newConfig : val) (year : Z) (role : string) : M world unit :=
  let source := prop (prop newConfig "sources") role in
  if negb (truthy source) || (String.eqb role "backup" && seq (prop source "enabled") (VBool false))
  then ret tt else
  _ ← lift (getProviderClass (prop source "type"));
  metadata ← lift (provider_metadata (prop source "type"));
  lift (check_schema role metadata source) ;;
  lift (check_coordinates role metadata newConfig) ;;
  try_catch (_ ← getAnnualTimes source newConfig year; ret tt)
    (fun e => throw (connection_error role metadata e)).

Definition validateConfigSource (newConfig : val) : M world unit :=
  if negb (truthy (prop newConfig "sources")) || negb (truthy (prop (prop newConfig "sources") "primary"))
  then ret tt else
  clock ← gets w_clock;
  for_each (validate_role newConfig (dt_year (dt_now clock))) ["primary"; "backup"].
End validation.

(** ** configurationWorkflowService *)

(** [Object.entries(v)] and [Object.values(v)] of an object *)
Definition entries (v : val) : result (list (string * val)) :=
  if is_nullish v then Throw (TypeError "Cannot convert undefined or null to object") else Ok (props v).

(** [for (x of l) f x], collecting *)
Fixpoint gather {A B} (f : A -> result (list B)) (l : list A) : result (list B) :=
  match l with
  | [] => Ok []
  | x :: l' => here ← f x; rest ← gather f l'; Ok (here ++ rest)
  end.

(** [v.forEach] of an array *)
Definition elements (v : val) : result (list val) :=
  match v with VArr l => Ok l | _ => Throw (TypeError "forEach is not a function") end.

Definition progress (label : string) : M world unit :=
  broadcast (VObj [("type", VStr "PROCESS_UPDATE"); ("payload", VObj [("label", VStr label)])]).

(** *** _getUsedServices: a set, in insertion order *)
Definition set_add (v : val) (s : list val) : list val := if bool_decide (v ∈ s) then s else s ++ [v].

Definition trigger_services (trigger : val) : result (list val) :=
  enabled ← get trigger "enabled";
  if negb (truthy enabled) then Ok [] else
  targets ← (if truthy (prop trigger "targets") then elements (prop trigger "targets") else Ok []);
  Ok ((if seq (prop trigger "type") (VStr "tts") then [VStr "tts"] else []) ++
      filter (fun t => negb (seq t (VStr "browser")) = true) targets).

Definition _getUsedServices (config : val) : result (list val) :=
  let triggers := prop (prop config "automation") "triggers" in
  if negb (truthy triggers) then Ok [] else
  services ← gather (fun kv => own ← entries kv.2; gather (fun te => trigger_services te.2) own)
               (props triggers);
  Ok (foldl (fun s v => set_add v s) [] services).

Section warnings.
Context `{Ho : Host}.

(** *** _collectWarnings *)
Definition find_strategy (targetId : val) : option val :=
  find (fun s => seq (prop s "id") targetId) getAllStrategies.

Definition healthy_of (status : val) : bool := truthy (prop status "healthy").

(** The warnings about one target of an enabled trigger *)
Definition target_warnings (health finalConfig trigger : val) (prayer type niceName : string)
    (targetId : val) : list val :=
  match find_strategy targetId with
  | None => []
  | Some strategy =>
      if seq targetId (VStr "browser") then [] else
      let outputConfig := output_config finalConfig (str_of targetId) in
      let strategyHealth := prop health (str_of targetId) in
      let label := show (prop strategy "label") in
      (if negb (truthy outputConfig) || negb (truthy (prop outputConfig "enabled"))
       then [VStr (niceName +:+ ": " +:+ label +:+ " output is disabled in settings")]
       else if truthy strategyHealth && negb (healthy_of strategyHealth)
       then [VStr (niceName +:+ ": " +:+ label +:+ " output is offline (" +:+
                   show (js_or (prop strategyHealth "message") (VStr "unreachable")) +:+ ")")]
       else []) ++
      match getStrategy (str_of targetId) with
      | Ok instance => VStr <$> st_validateTrigger instance trigger
          (VObj [("audioFiles", VArr []); ("prayer", VStr prayer); ("triggerType", VStr type);
                 ("niceName", VStr niceName)])
      | Throw _ => []
      end
  end.

Definition trigger_warnings (health finalConfig : val) (prayer type : string) (trigger : val)
    : result (list val) :=
  enabled ← get trigger "enabled";
  if negb (truthy enabled) then Ok [] else
  let nice := niceName prayer type in
  targets ← elements (js_or (prop trigger "targets") (VArr []));
  Ok ((if seq (prop trigger "type") (VStr "tts") && negb (healthy_of (prop health "tts"))
       then [VStr (nice +:+ ": TTS Service is offline")] else []) ++
      mjoin (target_warnings health finalConfig trigger prayer type nice <$> targets)).

Definition integration_message (strategy status : val) : string :=
  show (prop strategy "label") +:+ " Integration: " +:+ show (js_or (prop status "message") (VStr "Offline")).

Definition add_integration (health finalConfig : val) (warnings : list val) (strategy : val) : list val :=
  if truthy (prop strategy "hidden") || seq (prop strategy "id") (VStr "browser") then warnings else
  let id := str_of (prop strategy "id") in
  if truthy (prop (output_config finalConfig id) "enabled") then
    let status := prop health id in
    let msg := integration_message strategy status in
    if truthy status && negb (healthy_of status) && negb (existsb (fun w => includes msg (str_of w)) warnings)
    then warnings ++ [VStr msg] else warnings
  else warnings.

Definition _collectWarnings (syncResult health finalConfig : val) : result (list val) :=
  let warnings := arr_of (js_or (prop syncResult "warnings") (VArr [])) in
  let triggers := prop (prop finalConfig "automation") "triggers" in
  own ← (if truthy triggers then
           gather (fun pt => ts ← entries pt.2;
                             gather (fun te => trigger_warnings health finalConfig pt.1 te.1 te.2) ts)
             (props triggers)
         else Ok []);
  Ok (foldl (add_integration health finalConfig) (warnings ++ own) getAllStrategies).
End warnings.

Section workflow.
Context `{L : Luxon} `{Tm : Timer} `{Zd : Zod} `{N : Net} `{Ho : Host} `{T : Tts} `{W : Words}
  `{Loc : Locale} `{I : Intl} `{C : Crypto} `{D : Dotenv}.

(** The parts of a configuration that the prayer times depend on *)
Definition requires_refresh (previousConfig newConfig : val) : bool :=
  negb (stringify_eqb (prop previousConfig "sources") (prop newConfig "sources")) ||
  negb (stringify_eqb (prop previousConfig "location") (prop newConfig "location")).

(** Stages 1 to 3: the new configuration is accepted and saved. *)
Definition save_stage (newConfig : val) : M world bool :=
  previousConfig ← config_get;
  newConfig ← lift (unmaskSecrets newConfig previousConfig);
  _ ← lift (get newConfig "sources");
  let requiresRefresh := requires_refresh previousConfig newConfig in
  when requiresRefresh (progress "Validating Configuration..." ;; validateConfigSource newConfig) ;;
  progress "Saving to Disk..." ;;
  ConfigService.update newConfig ;;
  ret requiresRefresh.

(** Stage 4 *)
Definition refresh_stage (requiresRefresh : bool) : M world val :=
  if requiresRefresh then
    progress "Refreshing Prayer Data..." ;;
    config ← config_get; forceRefresh config
  else ret (VObj [("meta", VObj [("skip", VBool true)])]).

(** Stages 5 to 7 *)
Definition reload_stage (result : val) : M world val :=
  progress "Generating Audio Assets..." ;;
  syncResult ← try_catch (syncAudioAssets false)
    (fun err => ret (VObj [("warnings", VArr [VStr ("Audio Synchronisation Warning: " +:+ e_msg err)])]));
  progress "Restarting Scheduler..." ;;
  initScheduler ;;
  health ← getHealth;
  finalConfig ← config_get;
  warnings ← lift (_collectWarnings syncResult health finalConfig);
  progress "Configuration Saved" ;;
  meta ← lift (get result "meta");
  ret (VObj [("message", VStr "Settings updated successfully."); ("meta", meta);
             ("warnings", VArr warnings)]).

Definition executeUpdate (newConfig : val) : M world val :=
  requiresRefresh ← save_stage newConfig;
  result ← refresh_stage requiresRefresh;
  reload_stage result.
End workflow.

(** ** Lemmas *)

(** What the prayer times and the scheduler hold *)
Definition served (w : world) : val * sched_state := (w_pcache w, w_sched w).
(** What was saved, and what the scheduler holds *)
Definition committed (w : world) : cfg_state * sched_state := (w_cfg w, w_sched w).

Section lemmas.
Context `{L : Luxon} `{Tm : Timer} `{Zd : Zod} `{N : Net} `{Ho : Host} `{T : Tts} `{W : Words}
  `{Loc : Locale} `{I : Intl} `{C : Crypto} `{D : Dotenv}.

(** Trying the sources out calls them, and nothing else. *)
Lemma validateConfigSource_net newConfig : net_only (validateConfigSource newConfig).
Proof.
  unfold validateConfigSource. apply net_only_if; [net_frame|]. apply net_only_bind; [net_frame|].
  intros clock. assert (forall role, net_only (validate_role newConfig (dt_year (dt_now clock)) role)) as Hv.
  { intros role. unfold validate_role. apply net_only_if; [net_frame|].
    do 4 (apply net_only_bind; [net_frame|intros ?]). apply net_only_catch; [|intros; net_frame].
    apply net_only_bind; [apply getAnnualTimes_net|intros; net_frame]. }
  cbn [for_each]. intros w. destruct (Hv "primary" w) as [n Hn].
  destruct (validate_role _ _ "primary" w) as [[u|e] w1]; cbn in Hn; subst w1; [|by exists n].
  destruct (Hv "backup" (set_net n w)) as [n2 Hn2].
  destruct (validate_role _ _ "backup" _) as [[u2|e] w2]; cbn in Hn2; subst w2; by exists n2.
Qed.

Lemma progress_run label w : exists s, progress label w = (Ok tt, set_sse s w).
Proof. by eexists. Qed.

Lemma keeps_progress {B} (f : world -> B) label : (forall s w, f (set_sse s w) = f w) -> keeps f (progress label).
Proof. intros Hf w. destruct (progress_run label w) as [s ->]. apply Hf. Qed.

Lemma validation_keeps {B} (f : world -> B) newConfig :
  (forall n w, f (set_net n w) = f w) -> keeps f (validateConfigSource newConfig).
Proof. intros Hf. apply keeps_net_only; [exact Hf|apply validateConfigSource_net]. Qed.

(** Saving leaves the prayer times and the jobs alone. *)
Lemma save_stage_served newConfig : keeps served (save_stage newConfig).
Proof.
  unfold save_stage.
  assert (keeps served (ConfigService.update newConfig)) by (by apply keeps_update).
  assert (forall label, keeps served (progress label)) by (intros; by apply keeps_progress).
  apply keeps_bind; [apply keeps_config|]. intros prev. apply keeps_bind; [apply keeps_lift|]. intros nc.
  apply keeps_bind; [apply keeps_lift|]. intros _. cbv zeta.
  assert (keeps served (validateConfigSource nc)) by (by apply validation_keeps).
  assert (keeps served (ConfigService.update nc)) by (by apply keeps_update).
  frame.
Qed.

(** A configuration that is refused stays out of memory. *)
Lemma save_stage_config {ZL : ZodLaws Zd} newConfig w r w' :
  save_stage newConfig w = (r, w') ->
  match r with
  | Ok _ => well_typed_config (c_config (w_cfg w'))
  | Throw _ => c_config (w_cfg w') = c_config (w_cfg w)
  end.
Proof.
  unfold save_stage. intros H. unfold config_get at 1 in H.
  unfold mbind at 1, M_bind at 1 in H. destruct (truthy (c_config (w_cfg w))); [|by injection H as <- <-].
  unfold lift at 1, mbind at 1, M_bind at 1 in H.
  destruct (unmaskSecrets _ _) as [nc|]; [|by injection H as <- <-].
  unfold lift at 1, mbind at 1, M_bind at 1 in H.
  destruct (get nc "sources"); [|by injection H as <- <-]. cbv zeta in H.
  set (b := requires_refresh _ nc) in H.
  match type of H with mbind _ ?m _ = _ => set (check := m) in H end.
  assert (keeps w_cfg check) as Hk.
  { unfold check. apply keeps_when, keeps_bind; [by apply keeps_progress|].
    intros []. by apply validation_keeps. }
  specialize (Hk w). destruct (check w) as [[[]|e] w1] eqn:Ec; cbn [snd] in Hk.
  2:{ rewrite (M_bind_throw _ _ _ _ _ Ec) in H. injection H as <- <-. by rewrite Hk. }
  rewrite (M_bind_ok _ _ _ _ _ Ec) in H.
  destruct (progress_run "Saving to Disk..." w1) as [s Hs].
  rewrite (M_bind_ok _ _ _ _ _ Hs) in H. set (w2 := set_sse s w1) in H.
  destruct (ConfigService.update nc w2) as [[[]|e] w3] eqn:Eu.
  - rewrite (M_bind_ok _ _ _ _ _ Eu) in H. injection H as <- <-. by apply (update_config _ _ _ _ Eu).
  - rewrite (M_bind_throw _ _ _ _ _ Eu) in H. injection H as <- <-.
    rewrite (update_config _ _ _ _ Eu). unfold w2. cbn. by rewrite Hk.
Qed.

(** What saving reads: the files, the environment, the clock, the configuration *)
Definition save_view (w : world) : gmap string file * gmap string string * Z * cfg_state :=
  (files w, w_env w, w_clock w, w_cfg w).

(** A configuration that is accepted is saved, its masked secrets restored. *)
Lemma save_stage_saves newConfig w b w1 :
  save_stage newConfig w = (Ok b, w1) ->
  exists nc ws, unmaskSecrets newConfig (c_config (w_cfg w)) = Ok nc /\
    b = requires_refresh (c_config (w_cfg w)) nc /\ save_view ws = save_view w /\ saves nc ws w1.
Proof.
  intros H. unfold save_stage in H. apply M_bind_inv in H as (prev & w0 & Hp & H).
  unfold config_get in Hp. destruct (truthy (c_config (w_cfg w))); [|done]. injection Hp as <- <-.
  apply M_bind_inv in H as (nc & w2 & [= Hnc <-] & H).
  apply M_bind_inv in H as (src & w3 & [= _ <-] & H). cbv zeta in H.
  apply M_bind_inv in H as ([] & w4 & Hc & H). apply M_bind_inv in H as ([] & w5 & Hpr & H).
  apply M_bind_inv in H as ([] & w6 & Hu & [= <- <-]). exists nc, w5. split; [done|]. split; [done|].
  split; [|by apply update_saves].
  assert (keeps save_view (when (requires_refresh (c_config (w_cfg w)) nc)
    (progress "Validating Configuration..." ;; validateConfigSource nc))) as Hk.
  { apply keeps_when, keeps_bind; [by apply keeps_progress|]. intros []. by apply validation_keeps. }
  specialize (Hk w). rewrite Hc in Hk. cbn [snd] in Hk. rewrite <- Hk.
  destruct (progress_run "Saving to Disk..." w4) as [s Hs]. rewrite Hs in Hpr. by injection Hpr as <-.
Qed.

Lemma refresh_stage_committed b : keeps committed (refresh_stage b).
Proof.
  unfold refresh_stage. assert (forall c, keeps committed (forceRefresh c)) by (intros; by apply keeps_forceRefresh).
  assert (forall label, keeps committed (progress label)) by (intros; by apply keeps_progress).
  assert (keeps committed config_get) by apply keeps_config. frame.
Qed.

(** The stage after the refresh re-initialises the scheduler, on the saved
    configuration, whatever happens to the speech files. *)
Lemma reload_stage_sched result w r w' :
  reload_stage result w = (r, w') ->
  w_cfg w' = w_cfg w /\
  ((exists config, configured config w) ->
   exists w1, w_cfg w1 = w_cfg w /\ w_sched w1 = w_sched w /\ w_sched w' = w_sched (initScheduler w1).2).
Proof.
  unfold reload_stage. intros H.
  destruct (progress_run "Generating Audio Assets..." w) as [s1 Hs1].
  rewrite (M_bind_ok _ _ _ _ _ Hs1) in H. set (w1 := set_sse s1 w) in H.
  match type of H with mbind _ ?m _ = _ => set (sync := m) in H end.
  assert (keeps committed sync) as Hk.
  { unfold sync. apply keeps_try; [by apply keeps_sync|intros; apply keeps_ret]. }
  assert (exists v w2, sync w1 = (Ok v, w2)) as (v & w2 & E2).
  { unfold sync, try_catch. destruct (syncAudioAssets false w1) as [[v|e] w2]; by do 2 eexists. }
  specialize (Hk w1). rewrite E2 in Hk. cbn [snd] in Hk. injection Hk as Hc2 Hsch2.
  rewrite (M_bind_ok _ _ _ _ _ E2) in H.
  destruct (progress_run "Restarting Scheduler..." w2) as [s3 Hs3].
  rewrite (M_bind_ok _ _ _ _ _ Hs3) in H. set (w3 := set_sse s3 w2) in H.
  assert (w_cfg w3 = w_cfg w /\ w_sched w3 = w_sched w) as [Hc3 Hsch3] by (by rewrite <- Hc2, <- Hsch2).
  assert (w_cfg (initScheduler w3).2 = w_cfg w3) as Hci.
  { by apply (keeps_initScheduler w_cfg). }
  match type of H with mbind (fun _ : unit => ?m) _ _ = _ => set (rest := m) in H end.
  assert (keeps committed rest) as Hr.
  { unfold rest. assert (forall label, keeps committed (progress label)) by (intros; by apply keeps_progress).
    assert (keeps committed getHealth) by (by apply keeps_getHealth).
    assert (keeps committed config_get) by apply keeps_config. frame. }
  destruct (initScheduler w3) as [[[]|e] w4] eqn:Ei; cbn [snd] in Hci.
  - rewrite (M_bind_ok _ _ _ _ _ Ei) in H. specialize (Hr w4). rewrite H in Hr. injection Hr as Hcr Hsr.
    split; [congruence|]. intros _. exists w3. rewrite Ei. by split_and!.
  - rewrite (M_bind_throw _ _ _ _ _ Ei) in H. injection H as <- <-. split; [congruence|].
    intros [config [Hc Ht]]. exists w3. by rewrite Ei.
Qed.
End lemmas.

Lemma typed_truthy c : well_typed_config c -> truthy c = true.
Proof. intros Hc. destruct (wt_timezone c Hc) as [tz Ht]. by destruct c. Qed.

(** *** Warnings: an empty list hides nothing. *)
Lemma gather_nil {A B} (f : A -> result (list B)) l :
  gather f l = Ok [] -> forall x, x ∈ l -> f x = Ok [].
Proof.
  induction l as [|y l IH]; [by intros _ x ?%not_elem_of_nil|]. cbn [gather].
  destruct (f y) as [here|] eqn:Ef; [|done]. cbn [mbind result_bind].
  destruct (gather f l) as [rest|]; [|done]. intros [= [-> ->]%app_eq_nil] x [->|Hx]%elem_of_cons;
    [done|by apply IH].
Qed.

Lemma integrations_extend `{Ho : Host} health config l warnings :
  exists more, foldl (add_integration health config) warnings l = warnings ++ more.
Proof.
  revert warnings. induction l as [|s l IH]; intros warnings; [by exists []; rewrite app_nil_r|].
  cbn [foldl]. destruct (IH (add_integration health config warnings s)) as [more ->].
  unfold add_integration. repeat case_match; try (by exists more).
  eexists. by rewrite <- app_assoc.
Qed.

Section properties.
Context `{L : Luxon} `{Tm : Timer} `{Zd : Zod} `{N : Net} `{Ho : Host} `{T : Tts} `{W : Words}
  `{Loc : Locale} `{I : Intl} `{C : Crypto} `{D : Dotenv}.

(** C7: saving the settings.  When a stage up to the save fails, the error is the
    reply, the configuration in memory is the old one, and the prayer times and
    the jobs are untouched.  Otherwise what was sent, with its masked secrets
    restored, has been merged into the local file, its secrets encrypted; the
    configuration loaded from there is a validated one and stays in memory to
    the end.  The scheduler is then re-initialised on it, whatever becomes of
    the speech files and the warnings, unless the prayer times cannot be
    fetched: then an error is replied although the configuration is saved, and
    the scheduler keeps the old jobs. *)
Theorem executeUpdate_commits {ZL : ZodLaws Zd} newConfig w r w' :
  executeUpdate newConfig w = (r, w') ->
  match save_stage newConfig w with
  | (Throw e, w1) =>
      r = Throw e /\ w' = w1 /\ c_config (w_cfg w') = c_config (w_cfg w) /\ served w' = served w
  | (Ok requiresRefresh, w1) =>
      (exists nc ws, unmaskSecrets newConfig (c_config (w_cfg w)) = Ok nc /\
         requiresRefresh = requires_refresh (c_config (w_cfg w)) nc /\
         save_view ws = save_view w /\ saves nc ws w1) /\
      well_typed_config (c_config (w_cfg w')) /\ w_cfg w' = w_cfg w1 /\
      match refresh_stage requiresRefresh w1 with
      | (Ok _, _) => exists w2, w_cfg w2 = w_cfg w1 /\ w_sched w2 = w_sched w /\
                      w_sched w' = w_sched (initScheduler w2).2
      | (Throw e, _) => requiresRefresh = true /\ r = Throw e /\ w_sched w' = w_sched w
      end
  end.
Proof.
  intros H. unfold executeUpdate in H. pose proof (save_stage_served newConfig w) as Hs.
  destruct (save_stage newConfig w) as [[b|e] w1] eqn:E1; cbn [snd] in Hs; pose proof (save_stage_config _ _ _ _ E1) as Hc.
  2:{ rewrite (M_bind_throw _ _ _ _ _ E1) in H. by injection H as <- <-. }
  rewrite (M_bind_ok _ _ _ _ _ E1) in H. injection Hs as _ Hs. split; [by apply save_stage_saves|].
  pose proof (refresh_stage_committed b w1) as Hr.
  destruct (refresh_stage b w1) as [[v|e] w2] eqn:E2; cbn [snd] in Hr; injection Hr as Hrc Hrs.
  - rewrite (M_bind_ok _ _ _ _ _ E2) in H. destruct (reload_stage_sched _ _ _ _ H) as [Hc' Hi].
    rewrite Hc', Hrc. split; [done|]. split; [done|].
    destruct Hi as (w3 & Hc3 & Hs3 & Hi).
    { exists (c_config (w_cfg w2)). split; [done|]. rewrite Hrc. by apply typed_truthy. }
    exists w3. by rewrite Hc3, Hs3, Hrc, Hrs, Hs.
  - rewrite (M_bind_throw _ _ _ _ _ E2) in H. injection H as <- <-. rewrite Hrc, Hrs. split_and!; try done.
    destruct b; [done|]. by unfold refresh_stage in E2.
Qed.

(** No warnings, nothing amiss.  When the warnings collected after a save are
    empty, the speech files were synchronised without any, every enabled
    trigger that speaks finds the speech service healthy, and each of its
    known outputs, the browser apart, is enabled and not known to be down. *)
Theorem no_warnings_nothing_amiss syncResult health finalConfig :
  _collectWarnings syncResult health finalConfig = Ok [] ->
  arr_of (js_or (prop syncResult "warnings") (VArr [])) = [] /\
  forall prayer type ts trigger targets target strategy,
    (prayer, ts) ∈ props (prop (prop finalConfig "automation") "triggers") ->
    (type, trigger) ∈ props ts -> truthy (prop trigger "enabled") = true ->
    (seq (prop trigger "type") (VStr "tts") = true -> healthy_of (prop health "tts") = true) /\
    (prop trigger "targets" = VArr targets -> VStr target ∈ targets ->
     find_strategy (VStr target) = Some strategy -> target <> "browser" ->
     truthy (prop (output_config finalConfig target) "enabled") = true /\
     (truthy (prop health target) = true -> healthy_of (prop health target) = true)).
Proof.
  unfold _collectWarnings. intros H.
  set (ws := arr_of _) in *. set (triggers := prop (prop finalConfig "automation") "triggers") in *.
  match type of H with mbind _ ?m = _ => destruct m as [own|] eqn:Eo end; [|done].
  cbn [mbind result_bind] in H.
  apply (f_equal (fun r => match r with Ok v => v | Throw _ => [] end)) in H. cbv beta iota in H.
  destruct (integrations_extend health finalConfig getAllStrategies (ws ++ own)) as [more Hm].
  rewrite Hm in H. apply app_eq_nil in H as [[Hws Hown]%app_eq_nil _]. split; [done|].
  intros prayer type ts trigger targets target strategy Hp Ht Hen. subst own.
  assert (truthy triggers = true) as Htr.
  { destruct triggers as [| | | | | |o]; try (by apply not_elem_of_nil in Hp). done. }
  rewrite Htr in Eo. pose proof (gather_nil _ _ Eo _ Hp) as Hg. cbn [fst snd] in Hg.
  destruct (entries ts) as [tes|] eqn:Ets; [|done]. cbn [mbind result_bind] in Hg.
  assert (tes = props ts) as -> by (unfold entries in Ets; destruct (is_nullish ts); [done|by injection Ets]).
  pose proof (gather_nil _ _ Hg _ Ht) as Hw. cbn [fst snd] in Hw. unfold trigger_warnings in Hw.
  assert (get trigger "enabled" = Ok (prop trigger "enabled")) as Hget by (by destruct trigger).
  rewrite Hget in Hw. cbn [mbind result_bind] in Hw. rewrite Hen in Hw. cbn [negb] in Hw.
  destruct (elements _) as [targets'|] eqn:Ee; [|done]. cbn [mbind result_bind] in Hw.
  injection Hw as [Hspeech Htg]%app_eq_nil. split.
  - intros Hty. rewrite Hty in Hspeech. cbn [andb] in Hspeech. by destruct (healthy_of _).
  - intros Htgs Hin Hf Hnb. rewrite Htgs in Ee. injection Ee as <-.
    pose proof (proj1 (Forall_forall _ _) (proj1 (mjoin_nil _) Htg) (target_warnings health finalConfig trigger
      prayer type (niceName prayer type) (VStr target)) ltac:(by apply list_elem_of_fmap_2)) as Hn. cbn beta in Hn.
    unfold target_warnings in Hn. rewrite Hf in Hn. cbn [seq str_of] in Hn.
    apply String.eqb_neq in Hnb. rewrite Hnb in Hn. apply app_eq_nil in Hn as [Hn _].
    destruct (truthy (output_config finalConfig target)); [|done].
    destruct (truthy (prop (output_config finalConfig target) "enabled")); [|done]. split; [done|].
    intros Hh. cbn [negb orb] in Hn. rewrite Hh in Hn. by destruct (healthy_of (prop health target)).
Qed.
End properties.

(** ** Witnesses *)

(** A server that has loaded its configuration, and no network *)
Definition running : world :=
  (reload (R := two_secrets) (Loc := bytes_locale) (Zd := zod_ref) (I := any_zone) (C := toy_crypto)
     (D := line_dotenv) installed).2.

Definition more_storage : val := VObj [("data", VObj [("storageLimit", VInt 2)])].

Lemma executeUpdate_commits_witness :
  let run := executeUpdate (L := utc) (Tm := lenient) (Zd := zod_ref) (N := no_net) (Ho := quiet_host)
    (T := no_tts) (W := some_words) (Loc := bytes_locale) (I := any_zone) (C := toy_crypto)
    (D := line_dotenv) more_storage running in
  is_ok run.1 = false /\ well_typed_config (c_config (w_cfg run.2)) /\
  prop (prop (c_config (w_cfg run.2)) "data") "storageLimit" = VInt 2.
Proof.
  intros run. split; [vm_compute; reflexivity|]. split; [|vm_compute; reflexivity].
  pose proof (executeUpdate_commits (L := utc) (Tm := lenient) (Zd := zod_ref) (N := no_net)
    (Ho := quiet_host) (T := no_tts) (W := some_words) (Loc := bytes_locale) (I := any_zone)
    (C := toy_crypto) (D := line_dotenv) (ZL := zod_ref_laws) more_storage running run.1 run.2
    (surjective_pairing _)) as H.
  match type of H with match ?x with _ => _ end =>
    assert (is_ok x.1 = true) as Hx by (vm_compute; reflexivity); destruct x as [[v|e] w1] end;
    [|discriminate Hx]. apply H.
Defined.

Lemma no_warnings_nothing_amiss_witness :
  truthy (prop (output_config day_config "voicemonkey") "enabled") = true.
Proof.
  destruct (no_warnings_nothing_amiss (Ho := quiet_host) (VObj []) (VObj []) day_config) as [_ H];
    [vm_compute; reflexivity|].
  destruct (H "fajr" "adhan" (VObj [("adhan", speech 0); ("iqamah", speech 0)]) (speech 0)
    [VStr "voicemonkey"] "voicemonkey" (VoiceMonkey_getMetadata)) as [_ Ht];
    [by left|by left|reflexivity|].
  apply Ht; [reflexivity|by left|reflexivity|done].
Defined.
