(* ===== verification/Http.v ===== *)
(** * Requests, replies and middleware ([src/middleware/], [src/routes/])

    A handler takes a request and computes a reply; an exception that leaves
    it reaches the error handler.  Express itself, the rate limiter's counters
    and the multipart parser are third-party: whether a limiter lets a request
    pass is a parameter, what it replies when it does not is the source's. *)
From S2P Require Import Prelude JsString JsValue NodePath World LuxonUtc Sse ConfigStore Storage.

Record request := Request {
  rq_method : string;
  rq_path : string;          (* req.originalUrl *)
  rq_ip : string;            (* req.ip *)
  rq_token : val;            (* req.cookies.auth_token *)
  rq_body : val;
  rq_query : val;
  rq_params : val;
  rq_content_length : val    (* the header, as text *)
}.

(** A cookie that is set, or cleared *)
Definition cookie : Type := string * option string.

Record reply := Reply { rp_status : Z; rp_body : val; rp_cookies : list cookie }.

Definition handler : Type := request -> M world reply.

Definition json (status : Z) (body : val) : reply := Reply status body [].
Definition error_body (message : string) : val := VObj [("error", VStr message)].
Definition refuse (status : Z) (message : string) : M world reply := ret (json status (error_body message)).

(** ** The error handler *)

(** What the handler reads of the error *)
Definition err_val (e : jserr) : val :=
  VObj ([("name", VStr (e_name e)); ("message", VStr (e_msg e))] ++
        (if String.eqb (e_code e) "" then [] else [("code", VStr (e_code e))])).

Definition errorHandler (err : val) : reply :=
  let status := js_or (prop err "status")
    (if truthy (prop err "response") then prop (prop err "response") "status" else VInt 500) in
  json (Qfloor (num_of status))
    (VObj [("success", VBool false); ("error", js_or (prop err "message") (VStr "Internal Server Error"))]).

(** [Promise.resolve(fn(req, res, next)).catch(next)] *)
Definition asyncHandler (fn : handler) : handler := fun req =>
  try_catch (fn req) (fun e => ret (errorHandler (err_val e))).

(** ** Middleware: the request goes on, or is answered. *)
Inductive verdict := Next | Answer (r : reply).

Definition middleware : Type := request -> M world verdict.

Fixpoint chain (ms : list middleware) (fn : handler) : handler := fun req =>
  match ms with
  | [] => fn req
  | m :: ms' => v ← m req;
                match v with Next => chain ms' fn req | Answer r => ret r end
  end.

(** *** storageCheck *)

(** [parseInt(s, 10)]; [None] for NaN *)
Definition parse_int (s : string) : option Z :=
  let s := trim_start s in
  let '(neg, s) := match s with
                   | String "-" r => (true, r)
                   | String "+" r => (false, r)
                   | _ => (false, s)
                   end in
  match read_digits s 0 0 with
  | (_, O, _) => None
  | (n, _, _) => Some (if neg then - n else n)
  end.

Definition storageCheck : middleware := fun req =>
  match parse_int (str_of (rq_content_length req)) with
  | None => ret Next
  | Some contentLength =>
      try_catch
        (quotaCheck ← checkQuota contentLength;
         ret (if truthy (prop quotaCheck "success") then Next
              else Answer (json 413 (VObj
                [("error", VStr "Storage Limit Exceeded");
                 ("message", js_or (prop quotaCheck "message")
                    (VStr "The uploaded file would exceed the storage quota."))]))))
        (fun _ => ret Next)
  end.

(** *** fileUpload: the directory, the name and the filter given to multer *)
Definition UPLOAD_DIR : string := "/app/public/audio/temp".
Definition MAX_UPLOAD : Z := 10 * 1024 * 1024.

(** [/[a-z0-9.]/i] *)
Definition name_char (a : ascii) : bool :=
  let n := nat_of_ascii (lower_char a) in
  (Nat.leb 97 n && Nat.leb n 122) || (Nat.leb 48 n && Nat.leb n 57) || Ascii.eqb a ".".

Definition upload_filename (originalname : string) : string :=
  smap (fun a => if name_char a then a else "_"%char) (basename originalname).

Definition upload_extensions : list string :=
  [".mp3"; ".wav"; ".aac"; ".ogg"; ".opus"; ".flac"; ".m4a"].

Definition fileFilter (mimetype originalname : string) : result unit :=
  if starts_with "audio/" mimetype ||
     existsb (String.eqb (to_lower (extname originalname))) upload_extensions
  then Ok tt else Throw (Error "Only audio files are allowed").

(** *** rateLimiters *)
Record limiter := Limiter { lm_window : Z; lm_max : Z; lm_message : string }.

Definition securityLimiter : limiter :=
  Limiter (1 * 60 * 1000) 20 "Too many authentication attempts. Please try again in a minute.".
Definition operationsLimiter : limiter :=
  Limiter (10 * 1000) 10 "Too many operation requests. Please wait 10 seconds.".
Definition globalReadLimiter : limiter :=
  Limiter (10 * 1000) 50 "Too many read requests. Please wait 10 seconds.".
Definition globalWriteLimiter : limiter :=
  Limiter (10 * 1000) 10 "Too many update requests. Please wait 10 seconds.".
Definition sseLimiter : limiter := Limiter (60 * 1000) 50 "Too many log connection attempts.".

(** The counters: the [Retry-After] header of a request over the limit *)
Class Counters := exceeded : limiter -> request -> Z -> option val.

Definition skipTest (w : world) : bool :=
  seq (env_get "NODE_ENV" w) (VStr "test") && negb (truthy (env_get "FORCE_RATE_LIMIT" w)).

Definition limitHandler (baseMessage : string) (retryAfter : val) (req : request) : M world reply :=
  let waitMsg := if truthy retryAfter
                 then " - Please try again in " +:+ show retryAfter +:+ " seconds." else "" in
  let fullMessage := baseMessage +:+ waitMsg in
  Sse.log ("Rate limit exceeded for " +:+ rq_ip req +:+ " on " +:+ rq_path req +:+ ": " +:+ fullMessage)
    "WARN" ;;
  ret (json 429 (VObj [("success", VBool false); ("error", VStr "Too many requests");
                       ("message", VStr fullMessage); ("retryAfter", retryAfter)])).

Definition rateLimit `{K : Counters} (l : limiter) : middleware := fun req =>
  w ← getw;
  if skipTest w then ret Next else
  match exceeded l req (w_clock w) with
  | None => ret Next
  | Some retryAfter => r ← limitHandler (lm_message l) retryAfter req; ret (Answer r)
  end.

(** ** Lemmas *)
Lemma chain_answered m ms fn req w r w' :
  m req w = (Ok (Answer r), w') -> chain (m :: ms) fn req w = (Ok r, w').
Proof. intros H. cbn [chain]. by rewrite (M_bind_ok _ _ _ _ _ H). Qed.

Lemma chain_next m ms fn req w w' :
  m req w = (Ok Next, w') -> chain (m :: ms) fn req w = chain ms fn req w'.
Proof. intros H. cbn [chain]. by rewrite (M_bind_ok _ _ _ _ _ H). Qed.

(** The stored name of an upload has no directory. *)
Lemma smap_sforall (p : ascii -> bool) f s :
  (forall a, p (f a) = true) -> sforall p (smap f s) = true.
Proof. intros Hf. induction s as [|a s IH]; [done|]. cbn. by rewrite Hf, IH. Qed.

Lemma upload_filename_plain originalname :
  sforall (fun a => name_char a || Ascii.eqb a "_") (upload_filename originalname) = true.
Proof.
  apply smap_sforall. intros a. destruct (name_char a) eqn:E; [by rewrite E|].
  by rewrite Ascii.eqb_refl, orb_true_r.
Qed.
