(* ===== verification/SettingsController.v ===== *)
(** * The settings API ([src/controllers/settingsController.js])

    Reading the settings with their secrets masked, the public subset, updates,
    resets, and the custom audio files: upload, deletion, re-analysis.  What a
    handler throws is the error handler's business (Http, asyncHandler). *)
From S2P Require Import Prelude JsString JsValue NodePath World Luxon LuxonUtc Zod Schemas.
From S2P Require Import Calculations.
From S2P Require Import Network Providers PrayerTimes Encryption EnvManager Sse ConfigStore.
From S2P Require Import Outputs.
From S2P Require Import Migration Masking ConfigService Wiring Health Storage AudioAssets.
From S2P Require Import Automation.
From S2P Require Import NormalizeSource Scheduler Frames Workflow Http.

(** ** File names from the user *)

(** [/[\w._-]/] *)
Definition file_char (a : ascii) : bool :=
  let n := nat_of_ascii (lower_char a) in
  (Nat.leb 97 n && Nat.leb n 122) || (Nat.leb 48 n && Nat.leb n 57) ||
  Ascii.eqb a "_" || Ascii.eqb a "." || Ascii.eqb a "-".

Definition clean_name (raw : string) : string :=
  smap (fun a => if file_char a then a else "_"%char) (basename raw).

Definition sanitizeFilename (raw : val) : result string :=
  match raw with
  | VStr r =>
      let cleaned := clean_name r in
      if String.eqb cleaned "" || negb (String.eqb cleaned r) || String.eqb cleaned "." ||
         String.eqb cleaned ".."
      then Throw (Error "Invalid filename") else Ok cleaned
  | _ => Throw (Error "Invalid filename")
  end.

(** [path.relative(dir, p)] does not lead out of [dir]. *)
Definition contained (dir p : string) : bool :=
  let r := relative CWD dir p in
  String.eqb r "" || (negb (starts_with ".." r) && negb (is_absolute r)).

Definition MAX_CUSTOM_FILES : nat := 500.

(** [systemController.invalidateFileCache()] *)
Definition invalidateFileCache : M world unit := modify (set_listing (VNull, 0)).

Definition message_body (error message : string) : val :=
  VObj [("error", VStr error); ("message", VStr message)].

Section controller.
Context `{L : Luxon} `{Tm : Timer} `{Zd : Zod} `{N : Net} `{Ho : Host} `{T : Tts} `{W : Words}
  `{Loc : Locale} `{I : Intl} `{C : Crypto} `{D : Dotenv}.

Definition getSettings : handler := fun _ =>
  ConfigService.reload ;;
  config ← config_get;
  ret (json 200 (_maskSecrets (json_clone config))).

(** *** The public subset *)

(** [if (outputs[strategyId]?.params?.[key]) delete outputs[strategyId].params[key]] *)
Definition drop_secret (outputs : val) (secret : string * string) : val :=
  let params := prop (prop outputs secret.1) "params" in
  if truthy (prop params secret.2)
  then setp outputs secret.1 (setp (prop outputs secret.1) "params" (delp params secret.2))
  else outputs.

Definition public_automation (config : val) : val :=
  let automation := json_clone (js_or (prop config "automation") (VObj [])) in
  let automation :=
    if truthy (prop automation "outputs")
    then setp automation "outputs" (foldl drop_secret (prop automation "outputs") secret_requirements)
    else automation in
  delp automation "voiceMonkey".

Definition public_settings (config : val) : val :=
  VObj [("location", prop config "location"); ("prayers", prop config "prayers");
        ("sources", prop config "sources"); ("automation", public_automation config);
        ("system", VObj [("tours", prop (prop config "system") "tours")])].

Definition getPublicSettings : handler := fun _ =>
  ConfigService.reload ;;
  config ← config_get;
  ret (json 200 (public_settings config)).

(** *** Updates *)
Definition updateSettings : handler := fun req =>
  try_catch
    (result ← executeUpdate (rq_body req); ret (json 200 result))
    (fun error => ret (json (if includes "Validation Failed" (e_msg error) then 400 else 500)
                         (message_body "Update Failed" (e_msg error)))).

(** A synchronisation whose failure ends the request *)
Definition synchronised (force : bool) (failure : string) (next : val -> M world reply) : M world reply :=
  res ← settle (syncAudioAssets force);
  match res with
  | Ok syncRes => next syncRes
  | Throw e => ret (json 400 (message_body "Sync Failed" (failure +:+ e_msg e)))
  end.

Definition resetSettings : handler := fun _ =>
  ignoring (fs_access LOCAL_PATH ;; fs_unlink LOCAL_PATH) ;;
  ConfigService.reload ;;
  config ← config_get;
  result ← forceRefresh config;
  synchronised true "Settings reset, but audio synchronisation failed: " (fun syncRes =>
    initScheduler ;;
    meta ← lift (get result "meta");
    ret (json 200 (VObj [("message", VStr "Settings reset to defaults."); ("meta", meta);
                         ("warnings", js_or (prop syncRes "warnings") (VArr []))]))).

Definition refreshCache : handler := fun _ =>
  ConfigService.reload ;;
  config ← config_get;
  primaryHealth ← checkSource "primary";
  sources ← lift (get config "sources");
  backup ← lift (get sources "backup");
  backupHealth ← (if truthy backup && negb (seq (prop backup "enabled") (VBool false))
                  then checkSource "backup" else ret (VObj [("healthy", VBool false)]));
  if negb (truthy (prop primaryHealth "healthy")) && negb (truthy (prop backupHealth "healthy"))
  then refuse 503
    "System is relying on cache. Cannot reload cache until at least one Prayer API is online." else
  result ← forceRefresh config;
  clearJobs ;;
  synchronised false "Cache refreshed, but audio synchronisation failed: " (fun syncRes =>
    initScheduler ;;
    meta ← lift (get result "meta");
    ret (json 200 (VObj [("message", VStr "Cache refreshed and scheduler reloaded"); ("meta", meta);
                         ("warnings", VArr (arr_of (prop syncRes "warnings")))]))).

(** *** Custom audio files *)

(** The files of a directory, none when it cannot be read *)
Definition names_in (dir : string) : M world (list string) :=
  try_catch (fs_readdir dir) (fun _ => ret []).

Definition uploaded_path (filename : string) : string := path_join UPLOAD_DIR filename.

(** The metadata of a file that is audio *)
Definition audio_metadata (p : string) : M world val :=
  basicMetadata ← analyseAudioFile p;
  let mime := prop basicMetadata "mimeType" in
  if negb (truthy mime) || negb (starts_with "audio/" (str_of mime))
  then throw (Error "Invalid file format: Not a valid audio file") else ret basicMetadata.

(** [file] is the name multer stored the upload under, in [UPLOAD_DIR]. *)
Definition uploadFile (file : option string) : M world reply :=
  match file with
  | None => refuse 400 "No file uploaded"
  | Some filename =>
      let tempPath := uploaded_path filename in
      let targetPath := path_join AUDIO_CUSTOM_DIR filename in
      let metaPath := path_join META_CUSTOM_DIR (filename +:+ ".json") in
      try_catch
        (fs_mkdir AUDIO_CUSTOM_DIR ;; fs_mkdir META_CUSTOM_DIR ;;
         existingFiles ← names_in AUDIO_CUSTOM_DIR;
         if Nat.leb MAX_CUSTOM_FILES (length existingFiles) then
           ignoring (fs_unlink tempPath) ;;
           ret (json 400 (message_body "Limit Reached"
             "Maximum of 500 custom audio files allowed. Please delete some files before uploading more."))
         else
         checked ← settle (audio_metadata tempPath);
         match checked with
         | Throw e => ignoring (fs_unlink tempPath) ;;
                      ret (json 400 (message_body "Invalid File" (e_msg e)))
         | Ok basicMetadata =>
             fs_copy tempPath targetPath ;; fs_unlink tempPath ;;
             enrichedMetadata ← enrichMetadata basicMetadata;
             fs_write metaPath (Json enrichedMetadata) ;;
             invalidateFileCache ;;
             ret (json 200 (VObj (ospread
               [("message", VStr "File uploaded and analysed successfully");
                ("filename", VStr filename); ("path", VStr ("custom/" +:+ filename))]
               (props enrichedMetadata))))
         end)
        (fun error => ignoring (fs_unlink tempPath) ;;
                      ret (json 500 (message_body "Upload Failed" (e_msg error))))
  end.

(** [if (await exists(p)) { await unlink(p); return true }] *)
Definition delete_if_there (p : string) : M world bool :=
  present ← settle (fs_access p);
  if is_ok present then fs_unlink p ;; ret true else ret false.

(** The sidecar says so; a missing or corrupt one does not. *)
Definition is_protected (metaPath : string) : M world bool :=
  try_catch (fs_access metaPath ;; metadata ← read_json metaPath;
             protected ← lift (get metadata "protected"); ret (truthy protected))
            (fun _ => ret false).

Definition deleteFile : handler := fun req =>
  filename ← lift (get (rq_body req) "filename");
  if negb (truthy filename) then refuse 400 "Missing filename" else
  match sanitizeFilename filename with
  | Throw _ => refuse 400 "Invalid filename"
  | Ok sanitised =>
      let audioPath := resolve AUDIO_CUSTOM_DIR sanitised in
      let metaPath := resolve META_CUSTOM_DIR (sanitised +:+ ".json") in
      if negb (contained AUDIO_CUSTOM_DIR audioPath) || negb (contained META_CUSTOM_DIR metaPath)
      then refuse 400 "Invalid filename" else
      protected ← is_protected metaPath;
      if (protected : bool) then refuse 403 "Forbidden: File is protected and cannot be deleted" else
      outcome ← settle (audio ← delete_if_there audioPath; meta ← delete_if_there metaPath; ret (audio || meta));
      match outcome with
      | Throw _ => refuse 500 "Internal Server Error: Failed to delete file"
      | Ok true => invalidateFileCache ;;
                   ret (json 200 (VObj [("success", VBool true);
                                        ("message", VStr "File and metadata deleted")]))
      | Ok false => refuse 404 "File not found"
      end
  end.

Definition revalidateFile : handler := fun req =>
  filename ← lift (get (rq_body req) "filename");
  type ← lift (get (rq_body req) "type");
  if negb (truthy filename) || negb (truthy type) then refuse 400 "Filename and type are required" else
  match sanitizeFilename filename with
  | Throw _ => refuse 400 "Invalid filename"
  | Ok sanitised =>
      let audioDir := if seq type (VStr "cache") then AUDIO_CACHE_DIR else AUDIO_CUSTOM_DIR in
      let filePath := resolve audioDir sanitised in
      if negb (contained audioDir filePath) then refuse 400 "Invalid filename" else
      try_catch
        (fs_access filePath ;;
         metadata ← analyzeFile filePath;
         invalidateFileCache ;;
         ret (json 200 metadata))
        (fun error => ret (json (if String.eqb (e_code error) "ENOENT" then 404 else 500)
                             (message_body "Revalidation Failed" (e_msg error))))
  end.

(** *** The onboarding tours *)
Definition not_boolean (v : val) : bool := negb (is_undef v) && negb (is_bool v).

Definition updateTourState : handler := fun req =>
  dashboardSeen ← lift (get (rq_body req) "dashboardSeen");
  adminSeen ← lift (get (rq_body req) "adminSeen");
  if not_boolean dashboardSeen then refuse 400 "Invalid tour state" else
  if not_boolean adminSeen then refuse 400 "Invalid tour state" else
  ConfigService.update (VObj [("system", VObj [("tours", rq_body req)])]) ;;
  ret (json 200 (VObj [("success", VBool true)])).
End controller.

(** ** Lemmas: names and paths *)
Definition custom_segs : list string := ["app"; "public"; "audio"; "custom"].
Definition meta_segs : list string := ["app"; "src"; "public"; "audio"; "custom"].

Definition custom_file (name : string) : string := in_dir AUDIO_CUSTOM_DIR name.
Definition custom_meta (name : string) : string := in_dir META_CUSTOM_DIR (name +:+ ".json").

(** The names the handlers accept *)
Definition acceptable (name : string) : bool :=
  is_ok (sanitizeFilename (VStr name)) && negb (starts_with ".." name).

Lemma sanitize_chars name s :
  sanitizeFilename (VStr name) = Ok s -> s = name /\ name <> "" /\ name <> "." /\ name <> ".." /\
    sforall file_char name = true.
Proof.
  cbn. destruct (String.eqb_spec (clean_name name) ""); [done|].
  destruct (String.eqb_spec (clean_name name) name) as [E|]; [|done].
  destruct (String.eqb_spec (clean_name name) "."); [done|].
  destruct (String.eqb_spec (clean_name name) ".."); [done|]. cbn. intros [= <-]. rewrite E in *.
  split_and!; try done. rewrite <- E. apply smap_sforall. intros a. by destruct (file_char a) eqn:Ea.
Qed.

Lemma acceptable_plain name ext :
  acceptable name = true -> sforall file_char ext = true ->
  sanitizeFilename (VStr name) = Ok name /\ plain_seg (name +:+ ext) /\ starts_with ".." (name +:+ ext) = false.
Proof.
  intros [Hok Hd]%andb_true_iff Hext. destruct (sanitizeFilename (VStr name)) as [s|] eqn:E; [|done].
  destruct (sanitize_chars _ _ E) as (-> & Hne & Hd1 & Hd2 & Hc). split; [done|].
  apply negb_true_iff in Hd.
  assert (sforall file_char (name +:+ ext) = true) as Hall by (by rewrite sforall_app, Hc).
  assert (starts_with ".." (name +:+ ext) = false) as Hs.
  { destruct name as [|a [|b name]]; [done| |].
    - change (String a "" +:+ ext) with (String a ext). unfold starts_with. cbn [String.prefix].
      case_match; [congruence|done].
    - change (String a (String b name) +:+ ext) with (String a (String b (name +:+ ext))).
      unfold starts_with in *. cbn [String.prefix] in *. repeat case_match; try done.
      by destruct name. }
  split; [|done]. split; [by apply (sforall_has_char file_char)|].
  destruct name as [|a name]; [done|].
  change (String a name +:+ ext) with (String a (name +:+ ext)) in *.
  split_and!; [done| |by intros Hx; rewrite Hx in Hs]. intros [= -> Hx].
  destruct name as [|b name]; [done|]. by change (String b name +:+ ext) with (String b (name +:+ ext)) in Hx.
Qed.

Lemma custom_paths name :
  acceptable name = true ->
  resolve AUDIO_CUSTOM_DIR name = custom_file name /\
  resolve META_CUSTOM_DIR (name +:+ ".json") = custom_meta name /\
  contained AUDIO_CUSTOM_DIR (custom_file name) = true /\
  contained META_CUSTOM_DIR (custom_meta name) = true.
Proof.
  intros Ha. destruct (acceptable_plain name "" Ha eq_refl) as (_ & Hp & Hs).
  destruct (acceptable_plain name ".json" Ha eq_refl) as (_ & Hpj & Hsj). rewrite str_app_nil_r in Hp, Hs.
  assert (Forall plain_seg custom_segs /\ Forall plain_seg meta_segs) as [Hc Hm].
  { split; repeat (constructor; [by repeat split|]); constructor. }
  assert (forall segs x, segs <> [] -> of_segs segs +:+ ("/" +:+ x) = of_segs (segs ++ [x])) as Hsnoc
    by (intros; by rewrite of_segs_snoc).
  assert (custom_file name = of_segs (custom_segs ++ [name])) as Ef by exact (Hsnoc custom_segs name ltac:(done)).
  assert (custom_meta name = of_segs (meta_segs ++ [name +:+ ".json"])) as Em
    by exact (Hsnoc meta_segs (name +:+ ".json") ltac:(done)).
  assert (forall segs x, Forall plain_seg segs -> plain_seg x -> starts_with ".." x = false ->
    contained (of_segs segs) (of_segs (segs ++ [x])) = true) as Hcont.
  { intros segs x H1 H2 H3. unfold contained. rewrite relative_child by done. rewrite H3.
    rewrite plain_not_absolute by done. cbn. apply orb_true_r. }
  rewrite Ef, Em. change AUDIO_CUSTOM_DIR with (of_segs custom_segs).
  change META_CUSTOM_DIR with (of_segs meta_segs). split_and!.
  - by apply resolve_child.
  - by apply resolve_child.
  - by apply Hcont.
  - by apply Hcont.
Qed.

Lemma dots_refused name :
  sanitizeFilename (VStr name) = Ok name -> negb (starts_with ".." name) = false ->
  contained AUDIO_CUSTOM_DIR (resolve AUDIO_CUSTOM_DIR name) = false.
Proof.
  intros Hs Hd. destruct (sanitize_chars _ _ Hs) as (_ & Hne & Hd1 & Hd2 & Hc).
  assert (Forall plain_seg custom_segs) as Hp by (repeat (constructor; [by repeat split|]); constructor).
  assert (plain_seg name) as Hn by (split; [by apply (sforall_has_char file_char)|done]).
  change AUDIO_CUSTOM_DIR with (of_segs custom_segs). rewrite resolve_child by done.
  unfold contained. rewrite relative_child, Hd by done. by apply String.eqb_neq in Hne as ->.
Qed.

(** The sidecar at the path protects its file. *)
Definition protects (f : option file) : bool :=
  match f with
  | Some (File (Json v) _) => truthy (prop (json_clone v) "protected")
  | _ => false
  end.

Lemma is_protected_run p w : is_protected p w = (Ok (protects (files w !! p)), w).
Proof.
  unfold is_protected, try_catch. destruct (files w !! p) as [f|] eqn:Ef.
  - rewrite (M_bind_ok _ _ _ _ _ (fs_access_ok _ _ _ Ef)). unfold read_json. rewrite M_bind_assoc.
    rewrite (M_bind_ok _ _ _ _ _ (fs_read_ok _ _ _ Ef)). destruct f as [[s|v|n v] t]; cbn [f_content json_parse]; [done| |done].
    erewrite M_bind_ok by reflexivity. cbn [protects]. unfold lift. by destruct (json_clone v).
  - by rewrite (M_bind_throw _ _ _ _ _ (fs_access_none _ _ Ef)).
Qed.

Definition there (p : string) (w : world) : bool := bool_decide (is_Some (files w !! p)).

Lemma delete_if_there_run p w :
  delete_if_there p w =
    if there p w then (if denied w p then (Throw (eacces p), w) else (Ok true, set_files (delete p (files w)) w))
    else (Ok false, w).
Proof.
  unfold delete_if_there, there, settle, fs_access, fs_unlink. munfold.
  destruct (files w !! p) as [f|] eqn:Ef; cbn.
  - rewrite Ef. by destruct (denied w p).
  - done.
Qed.

Lemma files_back w : set_files (files w) w = w.
Proof. by destruct w as [? ? []]. Qed.

(** Removing two files *)
Lemma delete_both a m w :
  a <> m -> exists r fs,
    (audio ← delete_if_there a; meta ← delete_if_there m; ret (audio || meta)) w = (r, set_files fs w) /\
    (forall p, p <> a -> p <> m -> fs !! p = files w !! p) /\
    (denied w a = false -> denied w m = false ->
     r = Ok (there a w || there m w) /\ fs = delete m (delete a (files w))).
Proof.
  intros Ham. unfold mbind, M_bind. rewrite delete_if_there_run.
  assert (forall q, there q w = false -> files w !! q = None) as Hnone.
  { intros q Hq. by apply bool_decide_eq_false, eq_None_not_Some in Hq. }
  destruct (there a w) eqn:Ta; [destruct (denied w a) eqn:Da|].
  { exists (Throw (eacces a)), (files w). by rewrite files_back. }
  - set (w1 := set_files _ w). rewrite delete_if_there_run.
    assert (there m w1 = there m w) as ->.
    { unfold there, w1, files. cbn. by rewrite lookup_delete_ne. }
    change (denied w1 m) with (denied w m). change (files w1) with (delete a (files w)).
    destruct (there m w) eqn:Tm; [destruct (denied w m) eqn:Dm|].
    + exists (Throw (eacces m)), (delete a (files w)). split; [done|]. split; [|done].
      intros p Hp _. by rewrite lookup_delete_ne.
    + exists (Ok true), (delete m (delete a (files w))). split; [done|]. split; [|done].
      intros p Hp Hp2. by rewrite !lookup_delete_ne.
    + exists (Ok true), (delete a (files w)). split; [done|]. split.
      * intros p Hp _. by rewrite lookup_delete_ne.
      * intros _ _. split; [done|].
        rewrite (delete_id (delete a (files w)) m); [done|].
        rewrite lookup_delete_ne by done. by apply Hnone.
  - rewrite delete_if_there_run. destruct (there m w) eqn:Tm; [destruct (denied w m) eqn:Dm|].
    + exists (Throw (eacces m)), (files w). by rewrite files_back.
    + exists (Ok true), (delete m (files w)). split; [done|]. split.
      * intros p _ Hp. by rewrite lookup_delete_ne.
      * intros _ _. by rewrite (delete_id (files w) a) by (by apply Hnone).
    + exists (Ok false), (files w). rewrite files_back. split; [done|]. split; [done|].
      intros _ _. split; [done|]. rewrite (delete_id (files w) a) by (by apply Hnone).
      by rewrite delete_id by (by apply Hnone).
Qed.

Definition deleted_reply : reply :=
  json 200 (VObj [("success", VBool true); ("message", VStr "File and metadata deleted")]).

(** *** Metadata of an upload *)
Lemma ohas_clone k o : ohas k o = false -> prop (json_clone (VObj o)) k = VUndef.
Proof.
  cbn. induction o as [|[k' v] o IH]; [done|]. cbn. intros [Hk Ho]%orb_false_iff.
  destruct v; cbn; rewrite ?Hk; by apply IH.
Qed.

(** Every type the validator names is an audio type. *)
Lemma mime_is_audio format p : starts_with "audio/" (getMimeType format p) = true /\ getMimeType format p <> "".
Proof. unfold getMimeType. repeat case_match; by vm_compute. Qed.

Lemma audio_metadata_audio p w size format t :
  files w !! p = Some (File (Audio size format) t) ->
  exists o, audio_metadata p w = (Ok (VObj o), w) /\ analyseAudioFile p w = (Ok (VObj o), w) /\
    ohas "protected" o = false.
Proof.
  intros Hf. unfold audio_metadata, analyseAudioFile, parseFile. eexists.
  erewrite M_bind_ok by (erewrite M_bind_ok by (by rewrite (M_bind_ok _ _ _ _ _ (fs_read_ok _ _ _ Hf)));
    reflexivity).
  cbn [prop oget String.eqb Ascii.eqb Bool.eqb fst snd str_of].
  destruct (mime_is_audio format p) as [Ha Hne]. split; [|split].
  - rewrite truthy_str by done. by rewrite Ha.
  - by erewrite M_bind_ok by (by rewrite (M_bind_ok _ _ _ _ _ (fs_read_ok _ _ _ Hf))).
  - done.
Qed.

Lemma M_bind_assoc_unit {A} (a b : M world unit) (k : M world A) w :
  ((a ;; b) ;; k) w = (a ;; b ;; k) w.
Proof. apply M_bind_assoc. Qed.

Lemma names_in_run dir w : names_in dir w = (Ok (dir_files dir w), w).
Proof. unfold names_in, try_catch, fs_readdir, dir_files. by destruct (below dir w). Qed.

Lemma mkdir_run dir w : denied w dir = false -> fs_mkdir dir w = (Ok tt, w).
Proof. unfold fs_mkdir. by intros ->. Qed.

Lemma unlink_quietly p w :
  denied w p = false -> ignoring (fs_unlink p) w = (Ok tt, set_files (delete p (files w)) w).
Proof.
  intros Hd. unfold ignoring, try_catch, fs_unlink. destruct (files w !! p) eqn:E; [by rewrite Hd|].
  unfold ret. by rewrite delete_id, files_back.
Qed.

(** Moving a file that is there *)
Lemma move_run a b w c t :
  a <> b -> files w !! a = Some (File c t) -> denied w a = false -> denied w b = false ->
  (fs_copy a b ;; fs_unlink a) w =
    (Ok tt, set_files (delete a (<[b := File c (w_clock w)]> (files w))) w).
Proof.
  intros Hab Hf Ha Hb. unfold fs_copy. rewrite M_bind_assoc, (M_bind_ok _ _ _ _ _ (fs_read_ok _ _ _ Hf)).
  rewrite (M_bind_ok _ _ _ _ _ (fs_write_ok _ _ _ Hb)). unfold fs_unlink. unfold files at 1. cbn.
  rewrite lookup_insert_ne, Hf by done. change (denied (set_files ?f w) a) with (denied w a). by rewrite Ha.
Qed.

(** The metadata written for an upload protect nothing. *)
Lemma enriched_unprotected `{Ho : Host} basic em w w' :
  enrichMetadata (VObj basic) w = (Ok em, w') -> ohas "protected" basic = false ->
  truthy (prop (json_clone em) "protected") = false.
Proof.
  intros Hw Hp. unfold enrichMetadata in Hw. apply M_bind_inv in Hw as (compat & w3 & _ & Hw).
  apply M_bind_inv in Hw as (ts & w4 & _ & Hw). injection Hw as <- _.
  rewrite ohas_clone; [done|]. by rewrite !ohas_oset, Hp.
Qed.

Lemma audio_metadata_other p w :
  (forall size format t, files w !! p <> Some (File (Audio size format) t)) ->
  exists e, audio_metadata p w = (Throw e, w).
Proof.
  intros Hf. unfold audio_metadata, analyseAudioFile, parseFile, fs_read. munfold.
  destruct (files w !! p) as [[[s|v|n v] t]|] eqn:E; try by eexists. by destruct (Hf n v t).
Qed.

Lemma enrich_run `{Ho : Host} basic w :
  exists g, forall w2, w_clock w2 = w_clock w -> enrichMetadata basic w2 = (g, w2).
Proof.
  assert (forall l, exists g, forall w2, w_clock w2 = w_clock w ->
    map_m (fun s => verdict ← validateAsset s basic; ret (st_id s, verdict)) l w2 = (g, w2)) as Hmap.
  { induction l as [|s l [g IH]]; [by exists (Ok [])|]. cbn [map_m].
    assert (exists g0, forall w2, w_clock w2 = w_clock w -> validateAsset s basic w2 = (g0, w2)) as [g0 H0].
    { unfold validateAsset. munfold. destruct (st_issues s basic) as [i|e]; [|by exists (Throw e)].
      eexists. intros w2 Hc. unfold isoNow. by rewrite Hc. }
    destruct g0 as [v|e].
    - destruct g as [l'|e].
      + exists (Ok ((st_id s, v) :: l')). intros w2 Hc. munfold. by rewrite H0, IH.
      + exists (Throw e). intros w2 Hc. munfold. by rewrite H0, IH.
    - exists (Throw e). intros w2 Hc. munfold. by rewrite H0. }
  destruct (Hmap strategies) as [g Hg]. unfold enrichMetadata. destruct g as [compat|e].
  - eexists. intros w2 Hc. rewrite (M_bind_ok _ _ _ _ _ (Hg w2 Hc)). munfold. unfold isoNow. by rewrite Hc.
  - exists (Throw e). intros w2 Hc. by rewrite (M_bind_throw _ _ _ _ _ (Hg w2 Hc)).
Qed.

(** *** The public subset *)
Definition secret_in (outputs : val) (secret : string * string) : val :=
  prop (prop (prop outputs secret.1) "params") secret.2.

Lemma prop_setp_truthy v k x k' : truthy (prop v k') = true -> prop (setp v k x) k = x.
Proof. destruct v; try done. intros _. apply oget_oset. Qed.

Lemma drop_secret_clears outputs s t :
  truthy (secret_in outputs t) = false \/ s = t -> truthy (secret_in (drop_secret outputs s) t) = false.
Proof.
  unfold drop_secret, secret_in. destruct s as [id key], t as [id' key']. cbn [fst snd].
  destruct (truthy (prop (prop (prop outputs id) "params") key)) eqn:Et; [|by intros [?|[= <- <-]]].
  assert (truthy (prop (prop outputs id) "params") = true) as Hp by (by destruct (prop (prop outputs id) "params")).
  assert (truthy (prop outputs id) = true) as Ho by (by destruct (prop outputs id)).
  destruct (String.eqb_spec id' id) as [->|Hne].
  - rewrite (prop_setp_truthy _ _ _ id) by done. rewrite (prop_setp_truthy _ _ _ "params") by done.
    destruct (String.eqb_spec key' key) as [->|Hk]; [by rewrite prop_delp|].
    rewrite prop_delp_ne by done. intros [?|[= <-]]; [done|]. done.
  - rewrite prop_setp_ne by done. intros [?|[= ->]]; [done|]. done.
Qed.

Lemma drop_secrets_clear l outputs t :
  truthy (secret_in outputs t) = false \/ t ∈ l -> truthy (secret_in (foldl drop_secret outputs l) t) = false.
Proof.
  revert outputs. induction l as [|s l IH]; intros outputs.
  - intros [?|?%not_elem_of_nil]; done.
  - cbn [foldl]. intros [H|[->|H]%elem_of_cons]; apply IH; [left|left|by right];
      apply drop_secret_clears; auto.
Qed.

Section properties.
Context `{L : Luxon} `{Tm : Timer} `{Zd : Zod} `{N : Net} `{Ho : Host} `{T : Tts} `{W : Words}
  `{Loc : Locale} `{I : Intl} `{C : Crypto} `{D : Dotenv}.


(** C13: the public settings give no secret away.  The reply has no value for any
    parameter that an output strategy declares as sensitive, whatever the
    configuration holds. *)
Theorem public_settings_no_secret req w r w' id key :
  getPublicSettings req w = (Ok r, w') -> (id, key) ∈ secret_requirements ->
  rp_status r = 200 /\
  truthy (prop (prop (prop (prop (prop (rp_body r) "automation") "outputs") id) "params") key) = false.
Proof.
  intros H Hin. unfold getPublicSettings in H. apply M_bind_inv in H as ([] & w1 & _ & H).
  apply M_bind_inv in H as (config & w2 & _ & H). injection H as <- <-. split; [done|].
  cbn [rp_body json]. change (prop (public_settings config) "automation") with (public_automation config).
  unfold public_automation. rewrite prop_delp_ne by done.
  set (automation := json_clone _). destruct (truthy (prop automation "outputs")) eqn:Et.
  - rewrite (prop_setp_truthy _ _ _ "outputs") by done.
    apply (drop_secrets_clear secret_requirements _ (id, key)). by right.
  - by destruct (prop automation "outputs").
Qed.

(** A failed synchronisation stops the announcements.  The refresh of the
    cache cancels every job before it synchronises the speech files; when that
    fails, it replies with an error and books no job again. *)
Theorem refreshCache_failure_stops req w r w' :
  tracked (w_sched w) -> refreshCache req w = (Ok r, w') -> rp_status r = 400 ->
  s_jobs (w_sched w') = [] /\ s_active (w_sched w') = [].
Proof.
  intros Htr H Hst. unfold refreshCache in H.
  apply M_bind_inv in H as ([] & w1 & H1 & H). apply M_bind_inv in H as (config & w2 & H2 & H).
  apply M_bind_inv in H as (ph & w3 & H3 & H). apply M_bind_inv in H as (sources & w4 & H4 & H).
  apply M_bind_inv in H as (backup & w4' & H4' & H). apply M_bind_inv in H as (bh & w5 & H5 & H).
  assert (w_sched w5 = w_sched w) as Hs5.
  { pose proof (keeps_reload w_sched (fun _ _ => eq_refl) (fun _ _ => eq_refl) (fun _ _ => eq_refl)
      (fun _ _ => eq_refl) w) as K1. rewrite H1 in K1.
    pose proof (keeps_config w_sched w1) as K2. rewrite H2 in K2.
    pose proof (keeps_checkSource w_sched (fun _ _ => eq_refl) "primary" w2) as K3. rewrite H3 in K3.
    injection H4 as _ <-. injection H4' as _ <-.
    assert (w_sched w5 = w_sched w3) as K5; [|cbn in *; congruence].
    destruct (_ && _) in H5; [|by injection H5 as <- <-].
    pose proof (keeps_checkSource w_sched (fun _ _ => eq_refl) "backup" w3) as K. by rewrite H5 in K. }
  destruct (negb _ && negb _) in H; [by injection H as <- <-|].
  apply M_bind_inv in H as (result & w6 & H6 & H).
  assert (w_sched w6 = w_sched w) as Hs6.
  { pose proof (keeps_forceRefresh w_sched (fun _ _ => eq_refl) (fun _ _ => eq_refl) (fun _ _ => eq_refl)
      config w5) as K. rewrite H6 in K. cbn in K. congruence. }
  apply M_bind_inv in H as ([] & w7 & H7 & H). injection H7 as <-.
  unfold synchronised in H. apply M_bind_inv in H as (res & w8 & H8 & H).
  pose proof (keeps_settle w_sched _ (keeps_sync w_sched (fun _ _ => eq_refl) (fun _ _ => eq_refl)
    (fun _ _ => eq_refl) false) (set_sched (clear_jobs (w_sched w6)) w6)) as K. rewrite H8 in K. cbn [snd] in K.
  destruct res as [v|e].
  - apply M_bind_inv in H as ([] & w9 & _ & H). apply M_bind_inv in H as (meta & w10 & _ & H).
    injection H as <- <-. done.
  - injection H as _ <-. rewrite K. cbn [w_sched set_sched]. split; [done|]. rewrite Hs6.
    pose proof (clear_jobs_live (w_sched w) Htr) as Hl. exact Hl.
Qed.

(** An upload takes the name it is given.  A full directory and a file that
    is not audio are refused, the temporary file removed.  Otherwise the audio
    and its new sidecar are stored under that name, whatever was stored under it
    before: a protected file is replaced, and its protection is gone. *)
Theorem uploadFile_spec name w :
  let temp := uploaded_path name in
  let target := path_join AUDIO_CUSTOM_DIR name in
  let meta := path_join META_CUSTOM_DIR (name +:+ ".json") in
  denied w AUDIO_CUSTOM_DIR = false -> denied w META_CUSTOM_DIR = false -> NoDup [temp; target; meta] ->
  denied w temp = false -> denied w target = false -> denied w meta = false ->
  let full := bool_decide (500 <= length (dir_files AUDIO_CUSTOM_DIR w))%nat in
  (full = true -> exists message,
     uploadFile (Some name) w =
       (Ok (json 400 (message_body "Limit Reached" message)), set_files (delete temp (files w)) w)) /\
  (full = false -> (forall size format t, files w !! temp <> Some (File (Audio size format) t)) ->
     exists message, uploadFile (Some name) w =
       (Ok (json 400 (message_body "Invalid File" message)), set_files (delete temp (files w)) w)) /\
  (full = false -> forall size format t em,
     files w !! temp = Some (File (Audio size format) t) ->
     (enriched temp w).1 = Ok em -> exists w1,
     uploadFile (Some name) w =
       (Ok (json 200 (VObj (ospread [("message", VStr "File uploaded and analysed successfully");
              ("filename", VStr name); ("path", VStr ("custom/" +:+ name))] (props em)))), w1) /\
     files w1 = <[meta := File (Json em) (w_clock w)]>
                  (delete temp (<[target := File (Audio size format) (w_clock w)]> (files w))) /\
     w_listing w1 = (VNull, 0) /\ protects (files w1 !! meta) = false).
Proof.
  intros temp target meta Hda Hdm Hnd Dt Dg Dm full.
  apply NoDup_cons in Hnd as [Ht Hnd]. apply NoDup_cons in Hnd as [Hg _].
  assert (temp <> target /\ temp <> meta /\ target <> meta) as (Htg & Htm & Hgm) by set_solver.
  assert (Nat.leb MAX_CUSTOM_FILES (length (dir_files AUDIO_CUSTOM_DIR w)) = full) as Hfull.
  { unfold full. destruct (Nat.leb_spec MAX_CUSTOM_FILES (length (dir_files AUDIO_CUSTOM_DIR w)));
      symmetry; [apply bool_decide_eq_true_2|apply bool_decide_eq_false_2]; unfold MAX_CUSTOM_FILES in *; lia. }
  unfold uploadFile. fold temp target meta. unfold try_catch.
  rewrite (M_bind_ok _ _ _ _ _ (mkdir_run _ _ Hda)), (M_bind_ok _ _ _ _ _ (mkdir_run _ _ Hdm)).
  rewrite (M_bind_ok _ _ _ _ _ (names_in_run _ _)), Hfull.
  split; [|split].
  - intros ->. eexists. by rewrite (M_bind_ok _ _ _ _ _ (unlink_quietly temp w Dt)).
  - intros -> Hna. destruct (audio_metadata_other temp w Hna) as [e He].
    rewrite (M_bind_ok _ _ _ (Throw e) w) by (unfold settle; by rewrite He).
    eexists. by rewrite (M_bind_ok _ _ _ _ _ (unlink_quietly temp w Dt)).
  - intros -> size format t em Hf Hem.
    destruct (audio_metadata_audio temp w size format t Hf) as (basic & Hb & Hbo & Hbp).
    rewrite (M_bind_ok _ _ _ (Ok (VObj basic)) w) by (unfold settle; by rewrite Hb).
    destruct (enrich_run (VObj basic) w) as [g Hen]. unfold enriched in Hem.
    rewrite (M_bind_ok _ _ _ _ _ Hbo), Hen in Hem by done. cbn [fst] in Hem. subst g.
    rewrite <- M_bind_assoc_unit, (M_bind_ok _ _ _ _ _ (move_run _ _ _ _ _ Htg Hf Dt Dg)).
    set (w2 := set_files _ w). rewrite (M_bind_ok _ _ _ _ _ (Hen w2 eq_refl)).
    assert (denied w2 meta = false) as Dm2 by done. rewrite (M_bind_ok _ _ _ _ _ (fs_write_ok _ _ _ Dm2)).
    eexists. split; [reflexivity|]. split; [reflexivity|]. split; [reflexivity|].
    unfold files at 1. cbn [w_fs set_listing set_files fs_files]. rewrite lookup_insert_eq. cbn [protects].
    by apply (enriched_unprotected basic em w w); [apply Hen|].
Qed.
End properties.

(** ** Witnesses *)
Definition body_request (body : val) : request :=
  Request "POST" "/api/settings" "10.0.0.7" VUndef body (VObj []) (VObj []) VUndef.

Definition protected_world : world :=
  set_files {[ custom_file "azan.mp3" := File (Audio 9000 (VObj [])) 0;
               custom_meta "azan.mp3" := File (Json (VObj [("protected", VBool true)])) 0;
               custom_file "old.mp3" := File (Audio 9000 (VObj [])) 0 ]} empty_world.


Lemma public_settings_no_secret_witness :
  exists r w', getPublicSettings (Zd := zod_ref) (Ho := quiet_host) (Loc := bytes_locale) (I := any_zone)
      (C := toy_crypto) (D := line_dotenv) (body_request VUndef) installed = (Ok r, w') /\
    truthy (prop (prop (prop (prop (prop (rp_body r) "automation") "outputs") "voicemonkey") "params") "token")
      = false.
Proof.
  destruct (getPublicSettings (Zd := zod_ref) (Ho := quiet_host) (Loc := bytes_locale) (I := any_zone)
    (C := toy_crypto) (D := line_dotenv) (body_request VUndef) installed) as [r w'] eqn:E.
  assert (is_ok r = true) as Hr.
  { change r with (r, w').1. rewrite <- E. vm_compute. reflexivity. }
  destruct r as [r|]; [|done]. exists r, w'. split; [done|].
  apply (public_settings_no_secret (Zd := zod_ref) (Ho := quiet_host) (Loc := bytes_locale) (I := any_zone)
    (C := toy_crypto) (D := line_dotenv) _ _ _ _ "voicemonkey" "token" E). left.
Defined.

Lemma uploadFile_spec_witness :
  let w := set_files (<[uploaded_path "azan.mp3" := File (Audio 100 (VObj [])) 0]> (files protected_world))
             protected_world in
  exists r w', uploadFile (Ho := quiet_host) (Some "azan.mp3") w = (Ok r, w') /\ rp_status r = 200 /\
    protects (files protected_world !! custom_meta "azan.mp3") = true /\
    protects (files w' !! path_join META_CUSTOM_DIR "azan.mp3.json") = false.
Proof.
  intros w. destruct (uploadFile_spec (Ho := quiet_host) "azan.mp3" w) as (_ & _ & H);
    [done|done|by apply (bool_decide_unpack _); vm_compute|done..|].
  destruct (enriched (Ho := quiet_host) (uploaded_path "azan.mp3") w) as [[em|e] w1] eqn:Ee.
  - destruct (H ltac:(vm_compute; reflexivity) 100 (VObj []) 0 em) as (w' & H1 & _ & _ & H4);
      [vm_compute; reflexivity|reflexivity|].
    do 2 eexists. split; [exact H1|]. split; [reflexivity|]. split; [vm_compute; reflexivity|exact H4].
  - assert (is_ok (enriched (Ho := quiet_host) (uploaded_path "azan.mp3") w).1 = true) as Hx
      by (vm_compute; reflexivity). exfalso. pose proof (f_equal (fun r => is_ok r.1) Ee) as Hy. cbn beta in Hy.
    rewrite Hx in Hy. discriminate Hy.
Defined.
