(* ===== verification/SystemController.v ===== *)
(** * The system API ([src/controllers/systemController.js])

    Health, jobs, the listing of the audio files, diagnostics, the speech
    service, the output strategies.  The listing is cached for a minute and
    served in pages.  The URL parser and the client that tries a URL out are
    parameters ([Web]). *)
From S2P Require Import Prelude JsString JsValue NodePath World Luxon LuxonUtc Zod Schemas.
From S2P Require Import Calculations.
From S2P Require Import Network Providers PrayerTimes Encryption EnvManager Sse ConfigStore.
From S2P Require Import Outputs.
From S2P Require Import Migration Masking ConfigService Wiring Health Voice Storage AudioAssets.
From S2P Require Import Automation.
From S2P Require Import Scheduler Frames Diagnostics Http SettingsController.

(** [new URL(s).protocol]; [axios.head] and [axios.get] through agents that look
    names up with [ssrfSafeLookup] *)
Class Web := {
  url_protocol : val -> result string;
  web_head : list string -> string -> result unit;
  (** the status of the response, when the failure has one *)
  web_get : list string -> string -> result unit * option val
}.

Definition _CACHE_TTL : Z := 60000.

(** [parseInt(s)]: hexadecimal after [0x] *)
Definition hex_digits (s : string) : option Z :=
  match (fix go (s : string) (acc : Z) (k : nat) : Z * nat :=
           match s with
           | String a s' => match radix_val 16 a with
                            | Some d => go s' (acc * 16 + d) (S k)
                            | None => (acc, k)
                            end
           | EmptyString => (acc, k)
           end) s 0 0%nat with
  | (_, O) => None
  | (n, _) => Some n
  end.

Definition parse_int_any (s : string) : option Z :=
  match trim_start s with
  | String "-" (String "0" (String "x" r)) | String "-" (String "0" (String "X" r)) => Z.opp <$> hex_digits r
  | String "+" (String "0" (String "x" r)) | String "+" (String "0" (String "X" r))
  | String "0" (String "x" r) | String "0" (String "X" r) => hex_digits r
  | _ => parse_int s
  end.

(** [parseInt(v) || d], for a query parameter: absent, a text, or several *)
Definition query_number (v : val) (d : Z) : Z :=
  let text := match v with VArr l => join "," (show <$> l) | _ => show v end in
  match parse_int_any text with Some n => if n =? 0 then d else n | None => d end.

(** [l.slice(a, b)]: negative positions count from the end. *)
Definition js_slice {A} (a b : Z) (l : list A) : list A :=
  let n := Z.of_nat (length l) in
  let at_pos z := Z.max 0 (Z.min n (if z <? 0 then n + z else z)) in
  take (Z.to_nat (at_pos b - at_pos a)) (drop (Z.to_nat (at_pos a)) l).

(** [Math.ceil(a / b)] *)
Definition ceil_div (a b : Z) : Z := - ((- a) / b).

Definition page_of (files : list val) (page limit : Z) : val :=
  let total := Z.of_nat (length files) in
  let startIndex := (page - 1) * limit in
  VObj [("files", VArr (js_slice startIndex (startIndex + limit) files)); ("total", VInt total);
        ("page", VInt page); ("limit", VInt limit); ("totalPages", VInt (ceil_div total limit))].

(** The audio files of a directory, and what the listing says of one *)
Definition audio_entries (audioDir type : string) : M world (list (string * string)) :=
  names ← names_in audioDir;
  ret ((fun f => (f, type)) <$>
       filter (fun f => existsb (String.eqb (to_lower (extname f))) audioExtensions = true) names).

Definition file_entry (entry : string * string) : M world val :=
  let '(f, type) := entry in
  let metaDir := if String.eqb type "custom" then META_CUSTOM_DIR else META_CACHE_DIR in
  metadata ← try_catch (read_json (in_dir metaDir (f +:+ ".json"))) (fun _ => ret (VObj []));
  ret (VObj [("name", VStr f); ("type", VStr type); ("path", VStr (type +:+ "/" +:+ f));
             ("url", VStr ("/public/audio/" +:+ type +:+ "/" +:+ f)); ("metadata", metadata)]).

(** [allResults.filter((file) => !file.metadata.hidden)] *)
Fixpoint visible (l : list val) : result (list val) :=
  match l with
  | [] => Ok []
  | file :: l' => hidden ← get (prop file "metadata") "hidden"; rest ← visible l';
                  Ok (if truthy hidden then rest else file :: rest)
  end.

Definition list_files : M world (list val) :=
  fs_mkdir AUDIO_CUSTOM_DIR ;; fs_mkdir AUDIO_CACHE_DIR ;; fs_mkdir META_CUSTOM_DIR ;;
  fs_mkdir META_CACHE_DIR ;;
  customEntries ← audio_entries AUDIO_CUSTOM_DIR "custom";
  cacheEntries ← audio_entries AUDIO_CACHE_DIR "cache";
  allResults ← map_m file_entry (customEntries ++ cacheEntries);
  lift (visible allResults).

Definition _getAudioFilesWithMetadata (page limit : Z) : M world val :=
  now ← gets w_clock;
  cache ← gets w_listing;
  if truthy cache.1 && (now - cache.2 <? _CACHE_TTL) then ret (page_of (arr_of cache.1) page limit) else
  filteredFiles ← list_files;
  modify (set_listing (VArr filteredFiles, now)) ;;
  ret (page_of filteredFiles page limit).

Section controller.
Context `{L : Luxon} `{Tm : Timer} `{Zd : Zod} `{N : Net} `{Ho : Host} `{T : Tts} `{W : Words} `{G : Digest}
  `{P : Pace} `{Loc : Locale} `{I : Intl} `{C : Crypto} `{D : Dotenv} `{Sp : DiskSpace} `{B : Web}.

(** *** Health *)
Definition available (config_sources health : val) : bool :=
  let healthy k := truthy (prop (prop health k) "healthy") in
  let isBackupNeeded := negb (seq (prop (prop config_sources "backup") "enabled") (VBool false)) in
  healthy "local" && healthy "tts" &&
  (healthy "primarySource" || (isBackupNeeded && healthy "backupSource")).

Definition getHealth_handler : handler := fun _ =>
  health ← getHealth;
  config ← config_get;
  sources ← lift (get config "sources");
  _ ← lift (get sources "backup");
  ret (json (if available sources health then 200 else 503) health).

Definition failure_body (error : string) : val := VObj [("success", VBool false); ("error", VStr error)].
Definition failure_message (message : string) : val :=
  VObj [("success", VBool false); ("message", VStr message)].
Definition success_message (message : string) : val :=
  VObj [("success", VBool true); ("message", VStr message)].

Definition toggleHealthCheck : handler := fun req =>
  serviceId ← lift (get (rq_body req) "serviceId");
  let enabled := prop (rq_body req) "enabled" in
  if negb (truthy serviceId) || negb (is_bool enabled)
  then ret (json 400 (failure_body "serviceId and enabled (boolean) are required.")) else
  toggle (show serviceId) enabled ;;
  ret (json 200 (VObj [("success", VBool true)])).

Definition refresh_as (force : bool) : handler := fun req =>
  target ← lift (get (rq_body req) "target");
  result ← refresh_health (show (js_or target (VStr "all"))) (prop (rq_body req) "params") force;
  ret (json 200 result).
Definition forceRefreshHealth : handler := refresh_as true.
Definition refreshHealth : handler := refresh_as false.

Definition getJobs_handler : handler := fun _ => jobs ← gets getJobs; ret (json 200 jobs).
Definition getLogs (res : nat) : M world unit := addClient res.

(** *** Files and constants *)
Definition getAudioFiles : handler := fun req =>
  result ← _getAudioFilesWithMetadata (query_number (prop (rq_query req) "page") 1)
             (query_number (prop (rq_query req) "limit") 50);
  ret (json 200 result).

Definition getConstants : handler := fun _ =>
  ret (json 200 (VObj [("calculationMethods", toOptions CALCULATION_METHODS);
                       ("madhabs", toOptions ASR_JURISTIC_METHODS);
                       ("latitudeAdjustments", toOptions LATITUDE_ADJUSTMENT_METHODS);
                       ("midnightModes", toOptions MIDNIGHT_MODES)])).

(** *** Diagnostics and jobs *)
Definition reloaded (f : val -> M world val) : handler := fun _ =>
  ConfigService.reload ;; config ← config_get; status ← f config; ret (json 200 status).
Definition getAutomationStatus_handler : handler := reloaded getAutomationStatus.
Definition getTTSStatus_handler : handler := reloaded getTTSStatus.

Definition regenerateTTS : handler := fun _ =>
  try_catch
    (ConfigService.reload ;; _ ← syncAudioAssets true;
     ret (json 200 (success_message "Audio assets cleared and synchronised.")))
    (fun error => ret (json 400 (failure_message ("Regeneration failed: " +:+ e_msg error)))).

Definition restartScheduler : handler := fun _ =>
  ConfigService.reload ;; hotReload ;;
  ret (json 200 (success_message "Scheduler restarted.")).

Definition runJob_handler : handler := fun req =>
  jobName ← lift (get (rq_body req) "jobName");
  if negb (truthy jobName) then ret (json 400 (failure_message "jobName is required")) else
  try_catch
    (result ← runJob (show jobName);
     if negb (truthy (prop result "success")) then ret (json 400 result) else
     Sse.log ("Manual trigger: " +:+ show jobName) "info" ;;
     ret (json 200 result))
    (fun error => ret (json 500 (failure_message (message_or error "Failed to trigger job")))).

(** *** Trying a URL and a source out *)
Definition validity (valid : bool) (error : list (string * val)) : val := VObj (("valid", VBool valid) :: error).

Definition on_net {A} (f : list string -> A) (entry : string) : M world A := fun w =>
  (Ok (f (w_net w)), set_net (entry :: w_net w) w).

Definition try_url (urlString : string) : M world reply :=
  head ← on_net (fun log => web_head log urlString) ("HEAD " +:+ urlString);
  match head with
  | Ok _ => ret (json 200 (validity true []))
  | Throw _ =>
      got ← on_net (fun log => web_get log urlString) urlString;
      match got with
      | (Ok _, _) => ret (json 200 (validity true []))
      | (Throw e2, status) =>
          let msg := match status with Some s => "Status " +:+ show s | None => e_msg e2 end in
          ret (json 200 (validity false [("error", VStr msg)]))
      end
  end.

Definition validateUrl : handler := fun req =>
  urlString ← lift (get (rq_body req) "url");
  if negb (truthy urlString) then ret (json 400 (validity false [("error", VStr "URL is required")])) else
  match url_protocol urlString with
  | Throw e => ret (json 200 (validity false [("error", VStr (e_msg e))]))
  | Ok protocol =>
      if negb (String.eqb protocol "http:") && negb (String.eqb protocol "https:")
      then ret (json 200 (validity false
             [("error", VStr "Invalid protocol. Only http and https are allowed.")]))
      else try_url (show urlString)
  end.

Definition is_role (target : val) : bool := seq target (VStr "primary") || seq target (VStr "backup").

Definition testSource : handler := fun req =>
  target ← lift (get (rq_body req) "target");
  if negb (truthy target) || negb (is_role target)
  then ret (json 400 (failure_body ("Invalid target. Expected " +:+ quoted "primary" +:+ " or " +:+
                                    quoted "backup" +:+ "."))) else
  ConfigService.reload ;;
  config ← config_get;
  sources ← lift (get config "sources");
  targetSource ← lift (get sources (str_of target));
  if negb (truthy targetSource)
  then ret (json 400 (failure_body ("Source " +:+ quoted (str_of target) +:+ " is not configured."))) else
  if seq target (VStr "backup") && seq (prop targetSource "enabled") (VBool false)
  then ret (json 400 (failure_body "Backup source is currently disabled.")) else
  let healthKey := if seq target (VStr "primary") then "primarySource" else "backupSource" in
  result ← refresh_health healthKey VNull true;
  let sourceHealth := prop result healthKey in
  let said d := show (js_or (prop sourceHealth "message") (VStr d)) in
  ret (if truthy (prop sourceHealth "healthy")
       then json 200 (success_message (said "Source is online and responding."))
       else json 400 (failure_body (said "Source test failed."))).

(** *** Storage, voices and previews *)
Definition getStorageStatus : handler := fun _ =>
  config ← config_get;
  usage ← gets getUsage;
  recommendedLimit ← calculateRecommendedLimit;
  let limitGB := num_of (js_or (prop (prop config "data") "storageLimit") (VInt 1)) in
  ret (json 200 (VObj
    [("usedBytes", prop usage "total"); ("limitBytes", VNum (limitGB * GIB)%Q);
     ("systemFreeBytes", getSystemStats); ("recommendedLimitGB", recommendedLimit);
     ("breakdown", VObj [("custom", prop usage "custom"); ("cache", prop usage "cache")])])).

Definition getVoices_handler : handler := fun _ => voices ← getVoices; ret (json 200 voices).

(** [v.length > n] *)
Definition longer_than (n : Z) (v : val) : bool :=
  match js_length v with
  | Ok len => match to_number len with NFin q => negb (Qle_bool q (inject_Z n)) | _ => false end
  | Throw _ => false
  end.

(** [prayerKey.toLowerCase()] is called on what was sent. *)
Definition preview (template prayerKey offsetMinutes voice : val) : M world val :=
  match prayerKey with
  | VStr k => previewTTS template k offsetMinutes voice
  | _ => throw (TypeError "prayerKey.toLowerCase is not a function")
  end.

Definition previewTTS_handler : handler := fun req =>
  template ← lift (get (rq_body req) "template");
  let field k := prop (rq_body req) k in
  if negb (truthy template) || negb (truthy (field "prayerKey")) || negb (truthy (field "voice"))
  then refuse 400 "Template, prayerKey, and voice are required" else
  if longer_than 50 template then refuse 400 "TTS template must be 50 characters or less" else
  try_catch
    (data ← preview template (field "prayerKey") (field "offsetMinutes") (field "voice"); ret (json 200 data))
    (fun error => refuse 500 (message_or error "Failed to generate preview audio")).

Definition cleanupTempTTS : handler := fun _ =>
  try_catch
    (cleanupTempAudio true ;;
     ret (json 200 (success_message "Temporary TTS files cleaned up successfully.")))
    (fun _ => refuse 500 "Failed to clean up temporary files").

(** *** Registries and output strategies *)
Definition getProviders : handler := fun _ => ret (json 200 (VArr getRegisteredProviders)).

Definition getServiceRegistry : handler := fun _ =>
  ret (json 200 (VArr [VObj [("id", VStr "api"); ("label", VStr "API Server")];
                       VObj [("id", VStr "tts"); ("label", VStr "TTS Service")]])).

Definition getOutputRegistry : handler := fun _ => ret (json 200 (VArr getAllStrategies)).

Definition strategy_id (req : request) : string := str_of (prop (rq_params req) "strategyId").

(** The strategy and the parameters of the request, unmasked *)
Definition with_strategy (req : request) (f : val -> val -> Strategy -> M world reply) : M world reply :=
  try_catch
    (currentConfig ← config_get;
     let params := unmaskParams (strategy_id req) (rq_body req) currentConfig in
     strategy ← lift (getStrategy (strategy_id req));
     f currentConfig params strategy)
    (fun error => ret (json 400 (error_body (e_msg error)))).

Definition verifyOutput : handler := fun req =>
  with_strategy req (fun _ params strategy => result ← st_verify strategy params; ret (json 200 result)).

Definition testOutput : handler := fun req =>
  source ← lift (get (rq_body req) "source");
  with_strategy req (fun currentConfig params strategy =>
    if negb (is_object source) then refuse 400 "Audio source is required for testing" else
    execute strategy
      (VObj [("params", params); ("source", source);
             ("baseUrl", prop (prop currentConfig "automation") "baseUrl")])
      (VObj [("isTest", VBool true)]) false ;;
    ret (json 200 (VObj [("success", VBool true)]))).
End controller.

(** ** Lemmas: pages *)
Lemma js_slice_take {A} a b (l : list A) :
  0 <= a <= b -> js_slice a b l = take (Z.to_nat (b - a)) (drop (Z.to_nat a) l).
Proof.
  intros Hab. unfold js_slice. set (n := Z.of_nat (length l)).
  replace (a <? 0) with false by (symmetry; apply Z.ltb_ge; lia).
  replace (b <? 0) with false by (symmetry; apply Z.ltb_ge; lia).
  destruct (Z.le_gt_cases n a).
  - rewrite !(drop_ge l) by lia. by rewrite !take_nil.
  - replace (Z.max 0 (Z.min n a)) with a by lia. destruct (Z.le_gt_cases n b).
    + rewrite !take_ge; [done|rewrite length_drop; lia..].
    + by replace (Z.max 0 (Z.min n b)) with b by lia.
Qed.

Lemma slices_join {A} (n k : nat) (l : list A) :
  mjoin ((fun i => take n (drop (i * n) l)) <$> List.seq 0 k) = take (k * n) l.
Proof.
  induction k as [|k IH]; [done|]. rewrite List.seq_S, fmap_app, join_app, IH. cbn [fmap list_fmap mjoin].
  rewrite Nat.add_0_l. change (mjoin [?x]) with (x ++ []).
  unfold mjoin, list_join. rewrite app_nil_r, take_take_drop. f_equal. lia.
Qed.

Lemma ceil_div_cover a b : 0 <= a -> 0 < b -> 0 <= ceil_div a b /\ a <= ceil_div a b * b < a + b.
Proof.
  intros Ha Hb. unfold ceil_div. pose proof (Z.div_mod (- a) b ltac:(lia)).
  pose proof (Z.mod_pos_bound (- a) b Hb). nia.
Qed.

Definition page_files (files : list val) (page limit : Z) : list val :=
  arr_of (prop (page_of files page limit) "files").

Lemma page_files_take files i limit :
  0 < limit -> page_files files (Z.of_nat i + 1) limit =
    take (Z.to_nat limit) (drop (i * Z.to_nat limit) files).
Proof.
  intros Hl. change (page_files files (Z.of_nat i + 1) limit) with
    (js_slice ((Z.of_nat i + 1 - 1) * limit) ((Z.of_nat i + 1 - 1) * limit + limit) files).
  rewrite js_slice_take by nia. f_equal; [lia|]. f_equal. nia.
Qed.

(** ** Lemmas: the listing *)
Lemma visible_spec l files :
  visible l = Ok files ->
  files = filter (fun f => truthy (prop (prop f "metadata") "hidden") = false) l.
Proof.
  revert files. induction l as [|f l IH]; intros files H; [by injection H as <-|]. cbn [visible] in H.
  destruct (get (prop f "metadata") "hidden") as [h|] eqn:Eh; [|done].
  assert (h = prop (prop f "metadata") "hidden") as ->.
  { unfold get in Eh. by destruct (prop f "metadata"); simplify_eq. }
  cbn [mbind result_bind] in H. destruct (visible l) as [rest|]; [|done]. cbn [mbind result_bind] in H.
  injection H as <-. rewrite filter_cons, <- (IH rest eq_refl).
  destruct (truthy (prop (prop f "metadata") "hidden")); by case_decide.
Qed.

(** Paging.  With a positive page size the pages of a listing, first to last,
    are the listing: nothing is left out or shown twice; each has at most that
    many files, and the page after the last is empty. *)
Theorem pages_partition files limit :
  0 < limit ->
  let total := ceil_div (Z.of_nat (length files)) limit in
  prop (page_of files 1 limit) "totalPages" = VInt total /\
  mjoin ((fun i => page_files files (Z.of_nat i + 1) limit) <$> List.seq 0 (Z.to_nat total)) = files /\
  (forall i : nat, Z.of_nat (length (page_files files (Z.of_nat i + 1) limit)) <= limit) /\
  page_files files (total + 1) limit = [].
Proof.
  intros Hl total. destruct (ceil_div_cover (Z.of_nat (length files)) limit) as (H0 & H1 & H2); [lia..|].
  fold total in H0, H1, H2. split; [done|]. split; [|split].
  - rewrite (list_fmap_ext _ (fun i => take (Z.to_nat limit) (drop (i * Z.to_nat limit) files)))
      by (intros; by apply page_files_take).
    rewrite slices_join. apply take_ge. nia.
  - intros i. rewrite page_files_take, length_take by done. lia.
  - replace total with (Z.of_nat (Z.to_nat total)) by lia. rewrite page_files_take by done.
    rewrite drop_ge by nia. apply take_nil.
Qed.

(** The listing is cached for a minute.  While it is, a request is answered
    from it and changes nothing.  Otherwise the directories are read: what is
    then answered and kept is a list without the hidden files, with the present
    time, so that requests of the next minute are answered from it whatever
    happens on the disk, until the cache is dropped. *)
Theorem getAudioFiles_cached req w :
  let page := query_number (prop (rq_query req) "page") 1 in
  let limit := query_number (prop (rq_query req) "limit") 50 in
  (forall files t, w_listing w = (VArr files, t) -> w_clock w - t < _CACHE_TTL ->
     getAudioFiles req w = (Ok (json 200 (page_of files page limit)), w)) /\
  (forall r w', w_listing w = (VNull, 0) -> getAudioFiles req w = (Ok r, w') ->
     exists files, r = json 200 (page_of files page limit) /\
       w_listing w' = (VArr files, w_clock w) /\
       (forall f, f ∈ files -> truthy (prop (prop f "metadata") "hidden") = false) /\
       forall req2 w2, w_listing w2 = w_listing w' -> w_clock w2 - w_clock w < _CACHE_TTL ->
         getAudioFiles req2 w2 =
           (Ok (json 200 (page_of files (query_number (prop (rq_query req2) "page") 1)
                            (query_number (prop (rq_query req2) "limit") 50))), w2)).
Proof.
  assert (forall req w files t, w_listing w = (VArr files, t) -> w_clock w - t < _CACHE_TTL ->
     getAudioFiles req w = (Ok (json 200 (page_of files (query_number (prop (rq_query req) "page") 1)
                            (query_number (prop (rq_query req) "limit") 50))), w)) as Hhit.
  { intros rq x files t Hl Ht. unfold getAudioFiles, _getAudioFilesWithMetadata. munfold. rewrite Hl.
    cbn [fst snd truthy andb]. by apply Z.ltb_lt in Ht as ->. }
  intros page limit. split; [intros; by eapply Hhit|]. intros r w' Hl H. unfold getAudioFiles in H.
  apply M_bind_inv in H as (result & w1 & H1 & H). injection H as <- <-.
  unfold _getAudioFilesWithMetadata in H1. do 2 erewrite M_bind_ok in H1 by reflexivity. cbv beta in H1.
  rewrite Hl in H1. cbn [fst snd truthy andb] in H1. apply M_bind_inv in H1 as (files & w2 & H2 & H1).
  injection H1 as <- <-. exists files. split; [done|]. split; [done|]. split.
  - unfold list_files in H2. repeat (apply M_bind_inv in H2 as (? & ? & _ & H2)).
    injection H2 as H2 _. intros f Hf. apply visible_spec in H2. subst files.
    by apply list_elem_of_filter in Hf as [? _].
  - intros req2 w3 Hl3 Ht. by apply (Hhit req2 w3 files (w_clock w)).
Qed.

(** ** Witnesses *)
Lemma pages_partition_witness :
  let files := [VInt 1; VInt 2; VInt 3] in
  page_files files 1 2 ++ page_files files 2 2 = files /\ page_files files 3 2 = [].
Proof.
  intros files. destruct (pages_partition files 2) as (_ & H & _ & He); [done|]. split; [|exact He].
  rewrite <- H at 3. reflexivity.
Defined.

Definition page_request (page limit : string) : request :=
  Request "GET" "/api/system/audio-files" "10.0.0.7" VUndef VUndef
    (VObj [("page", VStr page); ("limit", VStr limit)]) (VObj []) VUndef.

Lemma getAudioFiles_cached_witness :
  let w' := (getAudioFiles (page_request "1" "1") protected_world).2 in
  exists files, w_listing w' = (VArr files, 0) /\ length files = 2%nat /\
    getAudioFiles (page_request "2" "1") w' = (Ok (json 200 (page_of files 2 1)), w').
Proof.
  intros w'. destruct (getAudioFiles_cached (page_request "1" "1") protected_world) as [_ H].
  assert (exists x, (getAudioFiles (page_request "1" "1") protected_world).1 = Ok x) as [x Hx]
    by (vm_compute; by eexists).
  destruct (H x w' eq_refl) as (files & _ & Hl & _ & Hc).
  { unfold w'. rewrite <- Hx. apply surjective_pairing. }
  exists files. split; [exact Hl|]. split.
  - change files with (arr_of (VArr files, w_clock protected_world).1). rewrite <- Hl.
    vm_compute. reflexivity.
  - apply (Hc (page_request "2" "1") w' eq_refl). vm_compute. reflexivity.
Defined.
