(* ===== verification/Auth.v ===== *)
(** * Sessions ([src/controllers/authController.js], [src/middleware/auth.js])

    The admin's password is hashed in the environment; a login answers with a
    signed token in a cookie, which names the configuration's token version.
    The token library is a parameter ([Jwt]). *)
From S2P Require Import Prelude JsString JsValue World Zod Schemas Encryption EnvManager.
From S2P Require Import Providers.
From S2P Require Import ConfigStore Migration Masking ConfigService Storage Http.

(** [jwt.sign(payload, secret, { expiresIn: "24h" })] and [jwt.verify] at a
    clock value *)
Class Jwt := {
  jwt_sign : val -> string -> Z -> string;
  jwt_verify : string -> string -> Z -> result val
}.

Definition TOKEN_LIFE : Z := 24 * 60 * 60 * 1000.

(** Documented behaviour: a token verifies under the secret it was signed with
    until it expires, and yields the numbers and texts of its payload. *)
Definition claim_value (v : val) : bool := is_number v || is_string v.

Class JwtLaws (J : Jwt) : Prop := {
  law_jwt_nonempty p s now : jwt_sign p s now <> "";
  law_jwt_ok p s now t :
    now <= t < now + TOKEN_LIFE ->
    exists user, jwt_verify (jwt_sign p s now) s t = Ok user /\
      forall k, claim_value (prop p k) = true -> prop user k = prop p k;
  law_jwt_expired p s now t :
    now + TOKEN_LIFE <= t -> is_ok (jwt_verify (jwt_sign p s now) s t) = false
}.

Definition success_body (message : list (string * val)) : val :=
  VObj (("success", VBool true) :: message).

Section auth.
Context `{J : Jwt} `{C : Crypto}.

(** *** The middleware *)
Definition token_version : M world val :=
  config ← config_get; security ← lift (get config "security"); lift (get security "tokenVersion").

Definition authenticateToken : middleware := fun req =>
  let token := rq_token req in
  if negb (truthy token) then ret (Answer (json 401 (error_body "Unauthorized"))) else
  secret ← gets (env_get "JWT_SECRET");
  if negb (truthy secret) then ret (Answer (json 500 (error_body "Server configuration error"))) else
  now ← gets w_clock;
  match jwt_verify (str_of token) (str_of secret) now with
  | Throw _ => ret (Answer (json 403 (error_body "Forbidden")))
  | Ok user =>
      currentVersion ← token_version;
      ret (if seq (prop user "tokenVersion") currentVersion then Next
           else Answer (json 401 (error_body "Session expired. Please login again.")))
  end.

(** *** The controller *)
Definition checkStatus : handler := fun _ =>
  w ← getw;
  ret (json 200 (VObj [("configured", VBool (isConfigured w));
                       ("requiresSetup", VBool (negb (truthy (env_get "ADMIN_PASSWORD" w))))])).

(** [!password || password.length < 5] *)
Definition too_short (password : val) : bool :=
  negb (truthy password) ||
  match password with
  | VStr s => utf16_length s <? 5
  | VArr l => Z.of_nat (length l) <? 5
  | _ => match to_number (prop password "length") with
         | NFin q => negb (Qle_bool 5 q)
         | _ => false
         end
  end.

(** scrypt takes a text: anything else is refused, after the salt is drawn. *)
Definition hash_value (password : val) : M world string :=
  match password with
  | VStr p => hashPassword p
  | _ => _ ← randomBytes 16; throw (TypeError "The password argument must be of type string")
  end.

(** The stored text has a salt and a hash. *)
Definition verifiable (storedHash : val) : bool :=
  truthy storedHash && has_char ":" (str_of storedHash) &&
  match split_on ":" (str_of storedHash) with
  | salt :: originalHash :: _ => negb (String.eqb salt "") && negb (String.eqb originalHash "")
  | _ => false
  end.

Definition verify_value (password storedHash : val) : M world bool :=
  match password with
  | VStr p => ret (verifyPassword p storedHash)
  | _ => if verifiable storedHash
         then throw (TypeError "The password argument must be of type string") else ret false
  end.

(** An existing secret, or a new one that is stored *)
Definition ensure_secret (key : string) (length : Z) : M world string :=
  current ← gets (env_get key);
  if truthy current then ret (str_of current) else
  secret ← generateSecret length;
  setEnvValue key secret ;;
  ret secret.

Definition session_payload (tokenVersion : val) : val :=
  VObj [("role", VStr "admin"); ("tokenVersion", tokenVersion)].

(** The token of a new session *)
Definition issue_token (secret : string) : M world string :=
  tokenVersion ← token_version;
  now ← gets w_clock;
  ret (jwt_sign (session_payload tokenVersion) secret now).

Definition session_cookie (token : string) : cookie := ("auth_token", Some token).

Definition setup : handler := fun req =>
  adminPassword ← gets (env_get "ADMIN_PASSWORD");
  if truthy adminPassword
  then refuse 403 "System already configured. Login to change settings." else
  password ← lift (get (rq_body req) "password");
  if too_short password then refuse 400 "Password too short" else
  try_catch
    (hashed ← hash_value password;
     setEnvValue "ADMIN_PASSWORD" hashed ;;
     jwtSecret ← ensure_secret "JWT_SECRET" 64;
     _ ← ensure_secret "ENCRYPTION_SALT" 32;
     token ← issue_token jwtSecret;
     ret (Reply 200 (success_body [("message", VStr "Structure secured and logged in.")])
            [session_cookie token]))
    (fun _ => refuse 500 "Failed to write configuration").

Definition login : handler := fun req =>
  password ← lift (get (rq_body req) "password");
  adminPassword ← gets (env_get "ADMIN_PASSWORD");
  if negb (truthy adminPassword)
  then ret (json 500 (VObj [("error", VStr "Server authentication not configured");
                            ("code", VStr "SETUP_REQUIRED")])) else
  isValid ← verify_value password adminPassword;
  if (isValid : bool) then
    secret ← gets (env_get "JWT_SECRET");
    if negb (truthy secret)
    then refuse 500 "System security not fully configured (Missing JWT Secret)" else
    token ← issue_token (str_of secret);
    ret (Reply 200 (success_body []) [session_cookie token])
  else refuse 401 "Invalid password".

Definition logout : handler := fun _ => ret (Reply 200 (success_body []) [("auth_token", None)]).
Definition checkAuth : handler := fun _ => ret (json 200 (VObj [("authenticated", VBool true)])).

Section password.
Context `{R : OutputRegistry} `{Loc : Locale} `{Zd : Zod} `{I : Intl} `{D : Dotenv}.

(** [(currentConfig.security?.tokenVersion || 0) + 1] *)
Definition next_version (config : val) : val :=
  VNum (Qred (num_of (js_or (prop (prop config "security") "tokenVersion") (VInt 0)) + 1)).

Definition changePassword : handler := fun req =>
  password ← lift (get (rq_body req) "password");
  if negb (truthy password) then refuse 400 "Missing password" else
  try_catch
    (hashed ← hash_value password;
     setEnvValue "ADMIN_PASSWORD" hashed ;;
     currentConfig ← config_get;
     ConfigService.update
       (VObj [("security", VObj [("tokenVersion", next_version currentConfig)])]) ;;
     ret (json 200 (success_body [("message", VStr "Password updated")])))
    (fun _ => refuse 500 "Failed to update password").
End password.
End auth.

(** ** Lemmas *)
Section lemmas.
Context `{JL : JwtLaws} `{CL : CryptoLaws}.

(** What a step on the environment leaves alone *)
Definition env_step (w w' : world) : Prop :=
  w_cfg w' = w_cfg w /\ w_clock w' = w_clock w /\ fs_denied (w_fs w') = fs_denied (w_fs w).

#[local] Instance env_step_pre : PreOrder env_step.
Proof.
  split; [by intros w|]. intros a b c (H1 & H2 & H3) (H4 & H5 & H6).
  repeat split; congruence.
Qed.

Lemma setEnvValue_step key value w :
  denied w ENV_PATH = false ->
  exists w', setEnvValue key value w = (Ok tt, w') /\ env_step w w' /\
    w_env w' = <[key := value]> (w_env w).
Proof. intros Hd. eexists. split; [by apply setEnvValue_ok|]. by repeat split. Qed.

Lemma env_step_denied w w' : env_step w w' -> denied w ENV_PATH = false -> denied w' ENV_PATH = false.
Proof. intros (_ & _ & H). unfold denied. by rewrite H. Qed.

Lemma env_step_configured w w' config : env_step w w' -> configured config w -> configured config w'.
Proof. intros (H & _) [Hc Ht]. split; [by rewrite H|done]. Qed.

Lemma env_get_some k w s : w_env w !! k = Some s -> env_get k w = VStr s.
Proof. unfold env_get. by intros ->. Qed.

Lemma random_hex_nonempty i n : 0 < n -> to_hex (random_bytes i n) <> "".
Proof. intros Hn E%law_hex_empty. by apply law_random_nonempty in E. Qed.

Lemma ensure_secret_ok key n w :
  0 < n -> denied w ENV_PATH = false ->
  exists s w', ensure_secret key n w = (Ok s, w') /\ env_step w w' /\ s <> "" /\
    w_env w' = <[key := s]> (w_env w) /\
    (truthy (env_get key w) = true -> s = str_of (env_get key w)).
Proof.
  intros Hn Hd. unfold ensure_secret. erewrite M_bind_ok by reflexivity. cbv beta.
  destruct (truthy (env_get key w)) eqn:Et.
  - exists (str_of (env_get key w)), w. split; [done|]. unfold env_get in *.
    destruct (w_env w !! key) as [s|] eqn:E; [|done]. cbn in *. split; [done|].
    apply negb_true_iff, String.eqb_neq in Et. split; [done|]. by rewrite insert_id.
  - unfold generateSecret. rewrite M_bind_assoc. erewrite M_bind_ok by reflexivity.
    erewrite M_bind_ok by reflexivity. set (s := to_hex _). set (w1 := set_rng _ w).
    destruct (setEnvValue_step key s w1) as (w' & Hs & Hst & He); [done|].
    rewrite (M_bind_ok _ _ _ _ _ Hs). exists s, w'. split; [done|]. split; [exact Hst|].
    split; [by apply random_hex_nonempty|]. by rewrite He.
Qed.

(** The version a session is bound to *)
Definition version_of (config : val) : val := prop (prop config "security") "tokenVersion".

Lemma token_version_ok config w :
  configured config w -> is_nullish (prop config "security") = false ->
  token_version w = (Ok (version_of config), w).
Proof.
  intros Hc Hs. unfold token_version. rewrite (M_bind_ok _ _ _ _ _ (config_get_ok _ _ Hc)).
  unfold lift. rewrite get_ok by (apply truthy_not_nullish, Hc). erewrite M_bind_ok by reflexivity.
  by rewrite get_ok by done.
Qed.

(** A token that verifies is worth its version. *)
Lemma authenticate_ok req w secret config user :
  truthy (rq_token req) = true -> w_env w !! "JWT_SECRET" = Some secret -> secret <> "" ->
  configured config w -> is_nullish (prop config "security") = false ->
  jwt_verify (str_of (rq_token req)) secret (w_clock w) = Ok user ->
  authenticateToken req w =
    (Ok (if seq (prop user "tokenVersion") (version_of config) then Next
         else Answer (json 401 (error_body "Session expired. Please login again."))), w).
Proof.
  intros Ht Hs Hne Hc Hn Hv. unfold authenticateToken. rewrite Ht. cbn [negb].
  erewrite M_bind_ok by reflexivity. cbv beta. rewrite (env_get_some _ _ _ Hs), truthy_str by done.
  cbn [negb str_of]. erewrite M_bind_ok by reflexivity. cbv beta. rewrite Hv.
  by rewrite (M_bind_ok _ _ _ _ _ (token_version_ok _ _ Hc Hn)).
Qed.

Lemma authenticate_bad req w secret e :
  truthy (rq_token req) = true -> w_env w !! "JWT_SECRET" = Some secret -> secret <> "" ->
  jwt_verify (str_of (rq_token req)) secret (w_clock w) = Throw e ->
  authenticateToken req w = (Ok (Answer (json 403 (error_body "Forbidden"))), w).
Proof.
  intros Ht Hs Hne Hv. unfold authenticateToken. rewrite Ht. cbn [negb].
  erewrite M_bind_ok by reflexivity. cbv beta. rewrite (env_get_some _ _ _ Hs), truthy_str by done.
  cbn [negb str_of]. erewrite M_bind_ok by reflexivity. cbv beta. by rewrite Hv.
Qed.

(** The token of a session, presented later *)
Definition session_token (config : val) (secret : string) (now : Z) : string :=
  jwt_sign (session_payload (version_of config)) secret now.

Lemma session_accepted req w config secret now config0 :
  rq_token req = VStr (session_token config0 secret now) ->
  w_env w !! "JWT_SECRET" = Some secret -> secret <> "" ->
  configured config w -> is_nullish (prop config "security") = false ->
  now <= w_clock w < now + TOKEN_LIFE -> claim_value (version_of config0) = true ->
  authenticateToken req w =
    (Ok (if seq (version_of config0) (version_of config) then Next
         else Answer (json 401 (error_body "Session expired. Please login again."))), w).
Proof.
  intros Ht Hs Hne Hc Hn Hlife Hcl.
  destruct (law_jwt_ok (session_payload (version_of config0)) secret now (w_clock w) Hlife)
    as (user & Hv & Hp). specialize (Hp "tokenVersion" Hcl).
  rewrite (authenticate_ok req w secret config user); try done.
  - by rewrite Hp.
  - rewrite Ht. apply truthy_str, law_jwt_nonempty.
  - by rewrite Ht.
Qed.

Lemma session_expired req w config0 secret now :
  rq_token req = VStr (session_token config0 secret now) ->
  w_env w !! "JWT_SECRET" = Some secret -> secret <> "" -> now + TOKEN_LIFE <= w_clock w ->
  authenticateToken req w = (Ok (Answer (json 403 (error_body "Forbidden"))), w).
Proof.
  intros Ht Hs Hne Hlife.
  pose proof (law_jwt_expired (session_payload (version_of config0)) secret now _ Hlife) as Hx.
  destruct (jwt_verify _ secret (w_clock w)) as [|e] eqn:Hv; [done|].
  apply (authenticate_bad req w secret e); [|done..|].
  - rewrite Ht. apply truthy_str, law_jwt_nonempty.
  - by rewrite Ht.
Qed.

Lemma issue_token_ok config secret w :
  configured config w -> is_nullish (prop config "security") = false ->
  issue_token secret w = (Ok (session_token config secret (w_clock w)), w).
Proof.
  intros Hc Hn. unfold issue_token. by rewrite (M_bind_ok _ _ _ _ _ (token_version_ok _ _ Hc Hn)).
Qed.

Lemma busy_update `{R : OutputRegistry} `{Loc : Locale} `{Zd : Zod} `{I : Intl} `{D : Dotenv} partial w :
  c_saving (w_cfg w) = true ->
  ConfigService.update partial w = (Throw (Error "Configuration save in progress"), w).
Proof. intros H. unfold ConfigService.update. erewrite M_bind_ok by reflexivity. by rewrite H. Qed.
End lemmas.

Section properties.
Context `{JL : JwtLaws} `{CL : CryptoLaws}.


(** Setting up.  A server without a password accepts one of at least five
    characters, once: the hash that is stored verifies it, and exactly the
    passwords with the same derived key; the secrets of the process exist
    afterwards, those that were there unchanged; the reply carries a token that
    opens the API at once; and any further setup is refused. *)
Theorem setup_secures req w config password :
  truthy (env_get "ADMIN_PASSWORD" w) = false -> denied w ENV_PATH = false ->
  configured config w -> is_nullish (prop config "security") = false ->
  is_nullish (rq_body req) = false -> prop (rq_body req) "password" = VStr password ->
  5 <= utf16_length password -> is_number (version_of config) = true ->
  exists hash secret salt token w',
    setup req w = (Ok (Reply 200 (success_body [("message", VStr "Structure secured and logged in.")])
                         [session_cookie token]), w') /\
    w_cfg w' = w_cfg w /\
    w_env w' = <["ENCRYPTION_SALT" := salt]> (<["JWT_SECRET" := secret]>
                 (<["ADMIN_PASSWORD" := hash]> (w_env w))) /\
    (exists k, forall q, verifyPassword q (VStr hash) =
                         bool_decide (scrypt q k 64 = scrypt password k 64)) /\
    secret <> "" /\ salt <> "" /\
    (truthy (env_get "JWT_SECRET" w) = true -> VStr secret = env_get "JWT_SECRET" w) /\
    (forall req', rq_token req' = VStr token -> authenticateToken req' w' = (Ok Next, w')) /\
    (forall req', setup req' w' =
       (Ok (json 403 (error_body "System already configured. Login to change settings.")), w')).
Proof.
  intros Ha Hd Hc Hn Hb Hp Hlen Hu. unfold setup at 1. erewrite M_bind_ok by reflexivity. cbv beta.
  rewrite Ha. unfold lift. rewrite get_ok by done. erewrite M_bind_ok by reflexivity. rewrite Hp.
  assert (too_short (VStr password) = false) as ->.
  { unfold too_short. destruct (String.eqb_spec password "") as [->|Hne]; [done|].
    rewrite truthy_str by done. cbn [negb orb]. by apply Z.ltb_ge. }
  cbn [hash_value]. unfold try_catch.
  destruct (hashPassword_spec w password) as (hash & k & Hh & Hhne & Hv).
  rewrite (M_bind_ok _ _ _ _ _ Hh). set (w1 := set_rng _ w).
  destruct (setEnvValue_step "ADMIN_PASSWORD" hash w1) as (w2 & H2 & S2 & E2); [done|].
  rewrite (M_bind_ok _ _ _ _ _ H2).
  assert (denied w2 ENV_PATH = false) as D2 by (by eapply env_step_denied).
  destruct (ensure_secret_ok "JWT_SECRET" 64 w2) as (secret & w3 & H3 & S3 & Hsne & E3 & Hold); [lia|done|].
  rewrite (M_bind_ok _ _ _ _ _ H3).
  assert (denied w3 ENV_PATH = false) as D3 by (by eapply env_step_denied).
  destruct (ensure_secret_ok "ENCRYPTION_SALT" 32 w3) as (salt & w4 & H4 & S4 & Hslt & E4 & _); [lia|done|].
  rewrite (M_bind_ok _ _ _ _ _ H4).
  assert (configured config w4) as Hc4.
  { eapply env_step_configured; [exact S4|]. eapply env_step_configured; [exact S3|].
    by eapply env_step_configured. }
  rewrite (M_bind_ok _ _ _ _ _ (issue_token_ok config secret w4 Hc4 Hn)).
  exists hash, secret, salt, (session_token config secret (w_clock w4)), w4.
  assert (w_env w4 !! "JWT_SECRET" = Some secret) as Hsec.
  { rewrite E4, E3, lookup_insert_ne, lookup_insert_eq; done. }
  split; [reflexivity|]. split; [by rewrite (proj1 S4), (proj1 S3), (proj1 S2)|].
  split; [by rewrite E4, E3, E2|]. split; [by exists k|]. split; [done|]. split; [done|].
  split; [|split].
  - intros Ht. assert (env_get "JWT_SECRET" w2 = env_get "JWT_SECRET" w) as Ee.
    { unfold env_get. rewrite E2, lookup_insert_ne by done. done. }
    rewrite Ee in Hold. rewrite (Hold Ht). clear -Ht. unfold env_get in *.
    by destruct (w_env w !! "JWT_SECRET").
  - intros req' Ht. rewrite (session_accepted req' w4 config secret (w_clock w4) config); try done.
    + destruct (version_of config) as [| | |q| | |]; try done. cbn [seq].
      by rewrite (proj2 (Qeq_bool_iff q q) (Qeq_refl q)).
    + unfold TOKEN_LIFE. lia.
    + unfold claim_value. by rewrite Hu.
  - intros req'. unfold setup. erewrite M_bind_ok by reflexivity. cbv beta.
    rewrite (env_get_some "ADMIN_PASSWORD" w4 hash), truthy_str; try done.
    by rewrite E4, lookup_insert_ne, E3, lookup_insert_ne, E2, lookup_insert_eq by done.
Qed.

(** A password change is not atomic.  The new hash is stored before the token
    version is raised: when the configuration cannot be saved (another save is
    in progress), the reply is an error, the new password is already the valid
    one, and the sessions of the old one stay open. *)
Theorem changePassword_not_atomic `{R : OutputRegistry} `{Loc : Locale} `{Zd : Zod} `{I : Intl}
    `{D : Dotenv} req w config secret password token :
  configured config w -> denied w ENV_PATH = false -> c_saving (w_cfg w) = true ->
  w_env w !! "JWT_SECRET" = Some secret ->
  is_nullish (rq_body req) = false -> prop (rq_body req) "password" = VStr password -> password <> "" ->
  (forall req', rq_token req' = VStr token -> authenticateToken req' w = (Ok Next, w)) ->
  exists hash w',
    changePassword req w = (Ok (json 500 (error_body "Failed to update password")), w') /\
    w_env w' !! "ADMIN_PASSWORD" = Some hash /\ verifyPassword password (VStr hash) = true /\
    forall req', rq_token req' = VStr token -> authenticateToken req' w' = (Ok Next, w').
Proof.
  intros Hc Hd Hb Hs Hbody Hp Hne Hold. unfold changePassword, lift. rewrite get_ok by done.
  erewrite M_bind_ok by reflexivity. rewrite Hp, truthy_str by done. cbn [negb hash_value].
  unfold try_catch. destruct (hashPassword_spec w password) as (hash & k & Hh & Hhne & Hv).
  rewrite (M_bind_ok _ _ _ _ _ Hh). set (w1 := set_rng _ w).
  destruct (setEnvValue_step "ADMIN_PASSWORD" hash w1) as (w2 & H2 & S2 & E2); [done|].
  rewrite (M_bind_ok _ _ _ _ _ H2).
  assert (configured config w2) as Hc2 by (by eapply env_step_configured).
  rewrite (M_bind_ok _ _ _ _ _ (config_get_ok _ _ Hc2)).
  rewrite (M_bind_throw _ _ _ _ _ (busy_update _ w2
    ltac:(rewrite (proj1 S2); exact Hb))).
  exists hash, w2. split; [done|]. split; [by rewrite E2, lookup_insert_eq|].
  split; [rewrite Hv; by apply bool_decide_eq_true_2|].
  intros req' Ht. specialize (Hold req' Ht). unfold authenticateToken in *.
  destruct (truthy (rq_token req')); [|done]. cbn [negb] in *.
  assert (env_get "JWT_SECRET" w2 = env_get "JWT_SECRET" w) as Ee.
  { unfold env_get. rewrite E2, lookup_insert_ne by done. done. }
  unfold gets, mbind, M_bind in *. rewrite Ee.
  destruct (truthy (env_get "JWT_SECRET" w)); [|done]. cbn [negb] in *.
  rewrite (proj1 (proj2 S2)). change (w_clock w1) with (w_clock w).
  destruct (jwt_verify _ _ _) as [user|]; [|done]. unfold token_version, config_get, lift, mbind, M_bind in *.
  rewrite (proj1 S2). change (w_cfg w1) with (w_cfg w).
  destruct (truthy (c_config (w_cfg w))); [|done].
  destruct (get _ "security") as [sec|]; [|done]. destruct (get sec "tokenVersion") as [v|]; [|done].
  cbv beta iota in *. unfold ret in *. by destruct (seq _ v).
Qed.
End properties.

(** ** Witnesses *)

(** A token library whose token is the text of its claims, secret and date *)
Definition claims : Type := list (string * (Q + string)).

#[local] Instance Q_countable : Countable Q :=
  inj_countable' (fun q => (Qnum q, Qden q)) (fun p => (p.1 # p.2)%Q)
    (fun q => match q with (_ # _)%Q => eq_refl end).

Definition claim_of (kv : string * val) : option (string * (Q + string)) :=
  match kv.2 with
  | VNum q => Some (kv.1, inl q)
  | VStr s => Some (kv.1, inr s)
  | _ => None
  end.

Definition of_claim (kv : string * (Q + string)) : string * val :=
  (kv.1, match kv.2 with inl q => VNum q | inr s => VStr s end).

Fixpoint pos_text (p : positive) : string :=
  match p with
  | xH => "1"
  | xO p => String "0" (pos_text p)
  | xI p => String "i" (pos_text p)
  end.

Fixpoint text_pos (s : string) : positive :=
  match s with
  | String "0" s => xO (text_pos s)
  | String "i" s => xI (text_pos s)
  | _ => xH
  end.

Definition toy_jwt : Jwt := {|
  jwt_sign p s now := pos_text (encode (omap claim_of (props p) : claims, s, now));
  jwt_verify token s t :=
    match (decode (text_pos token) : option (claims * string * Z)) with
    | Some (cs, s', now) =>
        if String.eqb s s' && (t <? now + TOKEN_LIFE) then Ok (VObj (of_claim <$> cs))
        else Throw (Error "invalid token")
    | None => Throw (Error "jwt malformed")
    end
|}.

Lemma text_pos_text p : text_pos (pos_text p) = p.
Proof. induction p as [p IH|p IH|]; cbn; by rewrite ?IH. Qed.

Lemma claims_kept o k :
  claim_value (oget k o) = true -> oget k (of_claim <$> omap claim_of o) = oget k o.
Proof.
  induction o as [|[k' v] o IH]; [done|]. cbn. destruct (String.eqb k k') eqn:E.
  - destruct v; try done; cbn; by rewrite E.
  - intros H. destruct v; cbn; rewrite ?E; by apply IH.
Qed.

#[export] Instance toy_jwt_laws : JwtLaws toy_jwt.
Proof.
  constructor; cbn.
  - intros p s now. by destruct (encode _).
  - intros p s now t Ht. rewrite text_pos_text, decode_encode, String.eqb_refl.
    replace (t <? now + TOKEN_LIFE) with true by (symmetry; apply Z.ltb_lt; lia).
    eexists. split; [done|]. intros k. destruct p; try done. apply claims_kept.
  - intros p s now t Ht. rewrite text_pos_text, decode_encode, String.eqb_refl.
    by replace (t <? now + TOKEN_LIFE) with false by (symmetry; apply Z.ltb_ge; lia).
Qed.

Definition secured_config : val := VObj [("security", VObj [("tokenVersion", VInt 1)])].

Definition a_request (body token : val) : request :=
  Request "POST" "/api/auth" "10.0.0.7" token body (VObj []) (VObj []) VUndef.

Definition new_password : val := VObj [("password", VStr "hunter2")].


Lemma setup_secures_witness :
  exists r token w', setup (J := toy_jwt) (C := toy_crypto) (a_request new_password VUndef)
      (set_cfg (Cfg secured_config true false) empty_world) = (Ok r, w') /\
    rp_cookies r = [("auth_token", Some token)] /\
    authenticateToken (J := toy_jwt) (a_request VUndef (VStr token)) w' = (Ok Next, w').
Proof.
  destruct (setup_secures (JL := toy_jwt_laws) (CL := toy_crypto_laws) (a_request new_password VUndef)
    (set_cfg (Cfg secured_config true false) empty_world) secured_config "hunter2")
    as (hash & secret & salt & token & w' & H & _ & _ & _ & _ & _ & _ & Ha & _);
    [done..|vm_compute; discriminate|done|].
  exists (Reply 200 (success_body [("message", VStr "Structure secured and logged in.")])
            [session_cookie token]), token, w'. split; [exact H|]. split; [done|]. by apply Ha.
Defined.

Lemma changePassword_not_atomic_witness :
  let w := set_cfg (Cfg secured_config true true)
             (set_env {[ "JWT_SECRET" := "s3cret"; "ADMIN_PASSWORD" := "aa:bb" ]} empty_world) in
  exists w', changePassword (C := toy_crypto) (R := two_secrets) (Loc := bytes_locale)
      (Zd := zod_ref) (I := any_zone) (D := line_dotenv) (a_request new_password VUndef) w =
    (Ok (json 500 (error_body "Failed to update password")), w').
Proof.
  intros w.
  destruct (changePassword_not_atomic (J := toy_jwt) (CL := toy_crypto_laws) (R := two_secrets)
    (Loc := bytes_locale) (Zd := zod_ref) (I := any_zone) (D := line_dotenv)
    (a_request new_password VUndef) w secured_config "s3cret" "hunter2"
    (session_token (J := toy_jwt) secured_config "s3cret" 0)) as (hash & w' & H & _); [done..| |by exists w'].
  intros req Ht. by rewrite (session_accepted (JL := toy_jwt_laws) req w secured_config "s3cret" 0
    secured_config Ht).
Defined.
