(* ===== verification/ApiControllers.v ===== *)
(** * The prayer and environment controllers
      ([src/controllers/prayerController.js], [src/controllers/envController.js])

    The public reply with the times of today and the calendar around them, and
    the update of one variable of the environment file. *)
From S2P Require Import Prelude JsString JsValue World Luxon LuxonUtc Zod Schemas Calculations.
From S2P Require Import Network Providers PrayerTimes Encryption EnvManager Sse ConfigStore.
From S2P Require Import Outputs.
From S2P Require Import Migration Masking ConfigService Wiring Http SettingsController.

(** ** The calendar query *)

(** A text of the form of a pattern, in which [0] stands for a digit *)
Fixpoint shaped (pattern s : string) : bool :=
  match pattern, s with
  | EmptyString, EmptyString => true
  | String p pattern', String a s' =>
      (if Ascii.eqb p "0" then bool_decide (is_Some (digit_val a)) else Ascii.eqb p a) && shaped pattern' s'
  | _, _ => false
  end.

(** [/^\d{4}-\d{2}-\d{2}$/] *)
Definition date_shape : string -> bool := shaped "0000-00-00".

(** [Boolean(cursorDate) === Boolean(direction)] *)
Definition paired (query : val) : bool :=
  Bool.eqb (truthy (prop query "cursorDate")) (truthy (prop query "direction")).

Section controllers.
Context `{L : Luxon} `{Tm : Timer} `{Zd : Zod} `{N : Net} `{Ho : Host} `{Loc : Locale} `{I : Intl}
  `{C : Crypto} `{D : Dotenv}.

Definition prayerCalendarQuerySchema : schema :=
  ZRefine paired (ZObject false
    [("cursorDate", ZOptional (ZRefine (fun v => dt_valid (dt_fromISO (str_of v))) (ZString [date_shape])));
     ("direction", ZOptional (ZEnum ["future"; "past"]))]).

Definition prayers_reply (query : val) : M world reply :=
  config ← config_get;
  location ← lift (get config "location");
  timezone ← lift (get location "timezone");
  now ← gets w_clock;
  let requestDate := dt_setZone (dt_now now) (str_of timezone) in
  result ← getPrayersWithNext config timezone requestDate;
  calendar ← getPrayerCalendarWindow config timezone query requestDate;
  ret (json 200 (VObj (oset "calendar" calendar (props result)))).

Definition getPrayers : handler := fun req =>
  try_catch
    (match zparse prayerCalendarQuerySchema (js_or (rq_query req) (VObj [])) with
     | None => ret (json 400 (message_body "Bad Request" "Invalid prayer calendar query parameters."))
     | Some query => prayers_reply query
     end)
    (fun _ => ret (json 500 (message_body "Internal Server Error"
                       "Failed to retrieve prayer times. Please check logs."))).

(** [error.errors] is gone since version 4 of the schema library. *)
Definition updateEnv : handler := fun req =>
  try_catch
    (validated ← lift (zod_parse envUpdateSchema (rq_body req));
     let key := str_of (prop validated "key") in
     setEnvValue key (str_of (prop validated "value")) ;;
     ConfigService.reload ;;
     ret (json 200 (VObj [("success", VBool true); ("message", VStr (key +:+ " updated successfully"));
                          ("data", VObj [(key, prop validated "value")])])))
    (fun error =>
       ret (if String.eqb (e_name error) "ZodError"
            then json 400 (VObj [("success", VBool false); ("message", VStr "Validation failed");
                                 ("errors", VUndef)])
            else json 500 (VObj [("success", VBool false); ("message", VStr "Internal server error")]))).
End controllers.

(** ** Properties *)
Section properties.
Context `{L : Luxon} `{Zd : Zod} `{N : Net}.

(** A date of the calendar that a query asks for *)
Definition window_date (query : val) (timezone : string) (today : dt) (k : string) : Prop :=
  if truthy (prop query "cursorDate") then
    exists i, (i < 7)%nat /\ k = show (dt_toISODate (Nat.iter i
      (fun d => dt_plus_days d (if seq (prop query "direction") (VStr "past") then -1 else 1))
      (getDirectionalWindowStart (prop query "cursorDate") (prop query "direction") (VStr timezone))))
  else exists i, 0 <= i < 15 /\
    k = show (dt_toISODate (dt_plus_days (dt_plus_days (dt_startOf_day (dt_setZone today timezone)) (-7)) i)).

(** the dashboard's request.  It is always answered.  A query that the schema
    refuses, such as a cursor without a direction, changes nothing.  When the
    times of today cannot be had, neither from the cache nor from a provider,
    the answer is an error; when they can, it has their rows, the next prayer
    of today if one is left, and a calendar whose dates all belong to the window
    the query asks for, whatever becomes of the lookups of the single dates. *)
Theorem getPrayers_dashboard {ZL : ZodLaws Zd} req config timezone w :
  configured config w -> prop (prop config "location") "timezone" = VStr timezone ->
  let now := dt_setZone (dt_now (w_clock w)) timezone in
  match zparse prayerCalendarQuerySchema (js_or (rq_query req) (VObj [])) with
  | None => exists message, getPrayers req w = (Ok (json 400 (message_body "Bad Request" message)), w)
  | Some query =>
      truthy (prop query "cursorDate") = truthy (prop query "direction") /\
      match getPrayerTimes config (dt_setZone now timezone) w with
      | (Throw _, w1) => exists message,
          getPrayers req w = (Ok (json 500 (message_body "Internal Server Error" message)), w1)
      | (Ok raw, w1) => forall rows, buildPrayerRows raw config (VStr timezone) = Ok rows ->
          exists meta next calendar w2,
            getPrayers req w = (Ok (json 200 (VObj [("meta", meta); ("prayers", rows);
              ("nextPrayer", next); ("calendar", VObj calendar)])), w2) /\
            (truthy (calculateNextPrayer rows (dt_setZone now timezone)) = true ->
               next = calculateNextPrayer rows (dt_setZone now timezone)) /\
            forall k, k ∈ okeys calendar -> window_date query timezone now k
      end
  end.
Proof.
  intros Hc Htz now. unfold getPrayers, try_catch.
  destruct (zparse _ _) as [query|] eqn:Eq; [|by eexists].
  assert (paired query = true) as Hp.
  { apply (zparse_sound (ZodLaws := ZL)) in Eq as [_ Hp]; [done|reflexivity]. }
  unfold paired in Hp. apply Bool.eqb_prop in Hp. split; [done|].
  assert (is_nullish config = false /\ is_nullish (prop config "location") = false) as [Hn1 Hn2].
  { split; [destruct Hc as [_ Ht]; by destruct config|]. by destruct (prop config "location"). }
  unfold prayers_reply. rewrite (M_bind_ok _ _ _ _ _ (config_get_ok _ _ Hc)). unfold lift.
  rewrite get_ok by done. erewrite M_bind_ok by reflexivity.
  rewrite get_ok by done. erewrite M_bind_ok by reflexivity. erewrite M_bind_ok by reflexivity.
  cbv beta zeta. rewrite Htz. cbn [str_of]. fold now.
  destruct (getPrayerTimes config (dt_setZone now timezone) w) as [[raw|e] w1] eqn:Er.
  - intros rows Hrows.
    destruct (getPrayersWithNext_next config timezone now w raw rows w1 Er Hrows) as (next & w2 & meta & H & Hnext).
    rewrite (M_bind_ok _ _ _ _ _ H).
    destruct (calendar_window_total config timezone query now w2) as (calendar & Hm & Hk).
    destruct (getPrayerCalendarWindow config (VStr timezone) query now w2) as [r w3] eqn:Ew.
    cbn [fst] in Hm. subst r. rewrite (M_bind_ok _ _ _ _ _ Ew).
    exists meta, next, calendar, w3. split; [reflexivity|]. split.
    + intros Ht. rewrite Ht in Hnext. by destruct Hnext.
    + intros k Hin. specialize (Hk k Hin). unfold window_date. rewrite <- Hp, andb_diag in Hk. done.
  - assert (getPrayersWithNext config (VStr timezone) now w = (Throw e, w1)) as H.
    { unfold getPrayersWithNext. cbn [str_of]. by rewrite (M_bind_throw _ _ _ _ _ Er). }
    rewrite (M_bind_throw _ _ _ _ _ H). by eexists.
Qed.
End properties.

(** ** Witnesses: the fifteenth of January 2025, asked for the week after it *)
Definition utc_config : val :=
  setp both_sources "location" (setp (prop both_sources "location") "timezone" (VStr "Etc/UTC")).

Definition dashboard_world : world :=
  set_clock 1736940000000 (set_cfg (Cfg utc_config true false) clock_2025).

Definition week_query : request := Request "GET" "/api/prayers" "::1" VUndef VUndef
  (VObj [("cursorDate", VStr "2025-01-15"); ("direction", VStr "future")]) VUndef VUndef.

Definition dashboard_run : result val * world :=
  getPrayerTimes (L := utc) (N := sample_net) utc_config (dt_setZone jan15 "Etc/UTC") dashboard_world.
Definition dashboard_raw : val := match dashboard_run.1 with Ok v => v | Throw _ => VUndef end.
Definition dashboard_rows : val :=
  match buildPrayerRows (L := utc) dashboard_raw utc_config (VStr "Etc/UTC") with
  | Ok rows => rows | Throw _ => VUndef end.

Lemma dashboard_run_ok :
  getPrayerTimes (L := utc) (N := sample_net) utc_config
    (dt_setZone (dt_setZone (dt_now (w_clock dashboard_world)) "Etc/UTC") "Etc/UTC") dashboard_world =
  (Ok dashboard_raw, dashboard_run.2).
Proof. vm_compute. reflexivity. Qed.

Lemma dashboard_rows_ok :
  buildPrayerRows (L := utc) dashboard_raw utc_config (VStr "Etc/UTC") = Ok dashboard_rows.
Proof. vm_compute. reflexivity. Qed.

Lemma week_query_ok :
  zparse (Zod := zod_ref) (prayerCalendarQuerySchema (L := utc)) (js_or (rq_query week_query) (VObj []))
    = Some (rq_query week_query).
Proof. vm_compute. reflexivity. Qed.

Lemma dashboard_configured :
  configured utc_config dashboard_world /\
  prop (prop utc_config "location") "timezone" = VStr "Etc/UTC".
Proof. split; [split; [reflexivity|]|]; vm_compute; reflexivity. Qed.

Lemma getPrayers_dashboard_witness :
  exists meta next calendar w2,
    getPrayers (L := utc) (Zd := zod_ref) (N := sample_net) week_query dashboard_world =
      (Ok (json 200 (VObj [("meta", meta); ("prayers", dashboard_rows); ("nextPrayer", next);
                           ("calendar", VObj calendar)])), w2) /\
    forall k, k ∈ okeys calendar -> window_date (L := utc) (rq_query week_query) "Etc/UTC" jan15 k.
Proof.
  pose proof (getPrayers_dashboard (L := utc) (Zd := zod_ref) (N := sample_net) (ZL := zod_ref_laws)
    week_query utc_config "Etc/UTC" dashboard_world (proj1 dashboard_configured)
    (proj2 dashboard_configured)) as H.
  cbv zeta in H. rewrite week_query_ok, dashboard_run_ok in H. destruct H as [_ H].
  destruct (H _ dashboard_rows_ok) as (meta & next & calendar & w2 & Hr & _ & Hk).
  exists meta, next, calendar, w2. split; [exact Hr|exact Hk].
Defined.
