(* ===== verification/Routes.v ===== *)
(** * The API ([src/routes/])

    Which requests reach which handler, behind which middleware.  Express
    matches methods and paths and parses multipart bodies with multer: whether
    a request matches a route, the identity of its response object and what
    multer receives under the given settings are parameters ([Express],
    [Multer]). *)
From S2P Require Import Prelude JsString JsValue NodePath World Luxon LuxonUtc Zod Schemas.
From S2P Require Import Calculations.
From S2P Require Import Network Providers PrayerTimes Encryption EnvManager Sse ConfigStore.
From S2P Require Import Outputs.
From S2P Require Import Migration Masking ConfigService Wiring Health Voice Storage AudioAssets.
From S2P Require Import Automation.
From S2P Require Import Scheduler Frames Diagnostics Workflow Http SettingsController.
From S2P Require Import SystemController Auth.
From S2P Require Import ApiControllers.

Class Express := {
  (** the parameters of the path, when the method and the path match *)
  route_params : string -> string -> request -> option val;
  response_id : request -> nat
}.

(** [multer({ storage: { destination, filename }, fileFilter, limits }).single("file")]:
    the name the file was stored under *)
Class Multer := single :
  string -> (string -> string) -> (string -> string -> result unit) -> Z -> request -> M world (option string).

Inductive guard := Limited (l : limiter) | Authenticated | Quota.

Record route := Route {
  rt_method : string;
  rt_path : string;
  rt_guards : list guard;
  rt_handler : handler
}.

(** [router.use(prefix, routes)] *)
Definition mount (prefix : string) (routes : list route) : list route :=
  (fun r => Route (rt_method r) (prefix +:+ rt_path r) (rt_guards r) (rt_handler r)) <$> routes.

Definition is_authenticated (g : guard) : bool := match g with Authenticated => true | _ => false end.

Definition with_params (params : val) (req : request) : request :=
  Request (rq_method req) (rq_path req) (rq_ip req) (rq_token req) (rq_body req) (rq_query req) params
    (rq_content_length req).

(** [req.path] of the application *)
Definition path_of (req : request) : string := default "" (head (split_on "?" (rq_path req))).

Section routes.
Context `{L : Luxon} `{Tm : Timer} `{Zd : Zod} `{N : Net} `{Ho : Host} `{T : Tts} `{W : Words} `{G : Digest}
  `{P : Pace} `{Loc : Locale} `{I : Intl} `{C : Crypto} `{D : Dotenv} `{Sp : DiskSpace} `{B : Web}
  `{J : Jwt} `{K : Counters} `{E : Express} `{Mu : Multer}.

(** ** The tables *)
Definition auth_routes : list route :=
  [Route "GET" "/status" [] checkStatus;
   Route "POST" "/setup" [Limited securityLimiter] setup;
   Route "POST" "/change-password" [Limited securityLimiter; Authenticated] changePassword;
   Route "POST" "/login" [Limited securityLimiter] login;
   Route "POST" "/logout" [] logout;
   Route "GET" "/check" [Authenticated] checkAuth].

Definition prayer_routes : list route := [Route "GET" "/" [] getPrayers].

Definition upload : handler := fun req =>
  file ← single UPLOAD_DIR upload_filename fileFilter MAX_UPLOAD req; uploadFile file.

Definition settings_routes : list route :=
  [Route "GET" "/public" [] getPublicSettings;
   Route "GET" "/" [Authenticated] getSettings;
   Route "POST" "/env" [Authenticated] updateEnv;
   Route "POST" "/update" [Authenticated] updateSettings;
   Route "POST" "/reset" [Authenticated] resetSettings;
   Route "POST" "/refresh-cache" [Limited operationsLimiter; Authenticated] refreshCache;
   Route "POST" "/upload" [Limited operationsLimiter; Authenticated; Quota] upload;
   Route "POST" "/files/revalidate" [Limited operationsLimiter; Authenticated] revalidateFile;
   Route "DELETE" "/files" [Authenticated] deleteFile;
   Route "PATCH" "/tour-state" [Authenticated] updateTourState].

Definition system_routes : list route :=
  [Route "GET" "/health" [] getHealth_handler;
   Route "POST" "/health/toggle" [Authenticated] toggleHealthCheck;
   Route "POST" "/health/refresh" [Limited operationsLimiter; Authenticated] forceRefreshHealth;
   Route "GET" "/jobs" [Authenticated] getJobs_handler;
   Route "GET" "/audio-files" [Authenticated] getAudioFiles;
   Route "GET" "/constants" [Authenticated] getConstants;
   Route "GET" "/status/automation" [Authenticated] getAutomationStatus_handler;
   Route "GET" "/status/tts" [Authenticated] getTTSStatus_handler;
   Route "GET" "/storage" [Authenticated] getStorageStatus;
   Route "GET" "/voices" [Authenticated] getVoices_handler;
   Route "POST" "/preview-tts" [Limited operationsLimiter; Authenticated] previewTTS_handler;
   Route "POST" "/regenerate-tts" [Limited operationsLimiter; Authenticated] regenerateTTS;
   Route "POST" "/run-job" [Limited operationsLimiter; Authenticated] runJob_handler;
   Route "POST" "/restart-scheduler" [Limited operationsLimiter; Authenticated] restartScheduler;
   Route "POST" "/validate-url" [Limited operationsLimiter; Authenticated] validateUrl;
   Route "POST" "/source/test" [Limited operationsLimiter; Authenticated] testSource;
   Route "POST" "/cleanup-temp-tts" [Limited operationsLimiter; Authenticated] cleanupTempTTS;
   Route "GET" "/providers" [Authenticated] getProviders;
   Route "GET" "/services/registry" [Authenticated] getServiceRegistry;
   Route "GET" "/outputs/registry" [Authenticated] getOutputRegistry;
   Route "POST" "/outputs/:strategyId/verify" [Limited operationsLimiter; Authenticated] verifyOutput;
   Route "POST" "/outputs/:strategyId/test" [Limited operationsLimiter; Authenticated] testOutput].

(** The stream stays open: nothing but its header is answered. *)
Definition stream_logs : handler := fun req =>
  getLogs (response_id req) ;; ret (Reply 200 VUndef []).

Definition api_routes : list route :=
  mount "/api/auth" auth_routes ++ mount "/api/system" system_routes ++
  mount "/api/settings" settings_routes ++ mount "/api/prayers" prayer_routes ++
  [Route "GET" "/api/logs" [Limited sseLimiter] stream_logs].

(** ** Serving a request *)
Definition guard_middleware (g : guard) : middleware :=
  match g with
  | Limited l => rateLimit l
  | Authenticated => authenticateToken
  | Quota => storageCheck
  end.

(** What a handler or a middleware throws goes to the error handler. *)
Definition run_route (r : route) : handler :=
  asyncHandler (chain (guard_middleware <$> rt_guards r) (rt_handler r)).

(** The first route of the table that matches, and the parameters *)
Fixpoint find_route (routes : list route) (req : request) : option (route * val) :=
  match routes with
  | [] => None
  | r :: routes' => match route_params (rt_method r) (rt_path r) req with
                    | Some params => Some (r, params)
                    | None => find_route routes' req
                    end
  end.

(** The limiter of all requests; the log stream has its own. *)
Definition globalLimiter : middleware := fun req =>
  if String.eqb (rq_method req) "GET" then
    if String.eqb (path_of req) "/api/logs" then ret Next else rateLimit globalReadLimiter req
  else rateLimit globalWriteLimiter req.

(** [None] when the API has no such route and Express goes on. *)
Definition api (req : request) : M world (option reply) :=
  v ← globalLimiter req;
  match v with
  | Answer r => ret (Some r)
  | Next => match find_route api_routes req with
            | Some (r, params) => answer ← run_route r (with_params params req); ret (Some answer)
            | None => ret None
            end
  end.
End routes.

(** ** Lemmas *)
Lemma set_sse_self w : set_sse (w_sse w) w = w.
Proof. by destruct w. Qed.

Lemma errorHandler_status e : rp_status (errorHandler (err_val e)) = 500.
Proof. unfold errorHandler, err_val. by destruct (String.eqb (e_code e) ""). Qed.

Section lemmas.
Context `{L : Luxon} `{Tm : Timer} `{Zd : Zod} `{N : Net} `{Ho : Host} `{T : Tts} `{W : Words} `{G : Digest}
  `{P : Pace} `{Loc : Locale} `{I : Intl} `{C : Crypto} `{D : Dotenv} `{Sp : DiskSpace} `{B : Web}
  `{J : Jwt} `{K : Counters} `{E : Express} `{Mu : Multer}.

(** A limiter lets the request pass, or logs and refuses it. *)
Lemma rateLimit_run l req w :
  rateLimit l req w = (Ok Next, w) \/
  exists a s, rateLimit l req w = (Ok (Answer a), set_sse s w) /\ rp_status a = 429.
Proof.
  unfold rateLimit. erewrite M_bind_ok by reflexivity. destruct (skipTest w); [by left|].
  destruct (exceeded l req (w_clock w)) as [retryAfter|]; [right|by left].
  do 2 eexists. split; [|shelve]. reflexivity.
  Unshelve. done.
Qed.

Lemma globalLimiter_run req w :
  globalLimiter req w = (Ok Next, w) \/
  exists a s, globalLimiter req w = (Ok (Answer a), set_sse s w) /\ rp_status a = 429.
Proof. unfold globalLimiter. repeat case_match; try apply rateLimit_run. by left. Qed.

(** The token of the request opens a session. *)
Definition session_open (req : request) (w : world) : bool :=
  match (authenticateToken req w).1 with Ok Next => true | _ => false end.

(** The check reads, and what it does not let pass it refuses. *)
Lemma authenticate_closed req w :
  session_open req w = false ->
  (exists a, authenticateToken req w = (Ok (Answer a), w) /\ rp_status a ∈ [401; 403; 500]) \/
  (exists e, authenticateToken req w = (Throw e, w)).
Proof.
  unfold session_open, authenticateToken, token_version, config_get, get. munfold. intros H.
  repeat (case_match; simplify_eq/=); eauto; left; eexists; (split; [reflexivity|set_solver]).
Qed.

Lemma session_sse req s w : session_open req (set_sse s w) = session_open req w.
Proof.
  unfold session_open, authenticateToken. destruct (negb (truthy (rq_token req))); [done|].
  do 2 erewrite M_bind_ok by reflexivity. cbv beta.
  change (env_get "JWT_SECRET" (set_sse s w)) with (env_get "JWT_SECRET" w).
  destruct (negb _); [done|]. do 2 erewrite M_bind_ok by reflexivity. cbv beta.
  change (w_clock (set_sse s w)) with (w_clock w). destruct (jwt_verify _ _ _) as [user|]; [|done].
  unfold token_version, config_get. munfold. cbn [w_cfg set_sse].
  destruct (truthy _); [|done]. destruct (get _ "security"); [|done]. by destruct (get _ "tokenVersion").
Qed.

(** *** Routes behind the session check *)
Definition guarded (r : route) : bool :=
  match rt_guards r with
  | Authenticated :: _ | Limited _ :: Authenticated :: _ => true
  | _ => false
  end.

Definition refusal (a : reply) : Prop := rp_status a ∈ [401; 403; 429; 500].

Lemma check_closed gs fn req w :
  session_open req w = false ->
  exists a, asyncHandler (chain (guard_middleware <$> Authenticated :: gs) fn) req w = (Ok a, w) /\ refusal a.
Proof.
  intros Hs. unfold asyncHandler, try_catch. cbn [fmap list_fmap guard_middleware].
  destruct (authenticate_closed req w Hs) as [(a & Ha & Hin)|[e He]].
  - rewrite (chain_answered _ _ _ _ _ _ _ Ha). exists a. split; [done|]. unfold refusal. set_solver.
  - cbn [chain]. rewrite (M_bind_throw _ _ _ _ _ He). eexists. split; [reflexivity|].
    unfold refusal. rewrite errorHandler_status. set_solver.
Qed.

Lemma guarded_closed r req w :
  guarded r = true -> session_open req w = false ->
  exists a s, run_route r req w = (Ok a, set_sse s w) /\ refusal a.
Proof.
  unfold guarded, run_route. intros Hg Hs. destruct (rt_guards r) as [|[l| |] [|[l2| |] gs]]; try done.
  - destruct (rateLimit_run l req w) as [Hl|(a & s & Hl & Ha)].
    + destruct (check_closed gs (rt_handler r) req w Hs) as (a & Ha & Hr). exists a, (w_sse w).
      rewrite set_sse_self. split; [|done]. rewrite <- Ha. unfold asyncHandler, try_catch.
      cbn [fmap list_fmap guard_middleware]. by rewrite (chain_next _ _ _ _ _ _ Hl).
    + exists a, s. unfold asyncHandler, try_catch. cbn [fmap list_fmap guard_middleware].
      rewrite (chain_answered _ _ _ _ _ _ _ Hl). split; [done|]. unfold refusal. rewrite Ha. set_solver.
  - destruct (check_closed [] (rt_handler r) req w Hs) as (a & Ha & Hr). exists a, (w_sse w).
    by rewrite set_sse_self.
  - destruct (check_closed (Limited l2 :: gs) (rt_handler r) req w Hs) as (a & Ha & Hr). exists a, (w_sse w).
    by rewrite set_sse_self.
  - destruct (check_closed (Authenticated :: gs) (rt_handler r) req w Hs) as (a & Ha & Hr).
    exists a, (w_sse w). by rewrite set_sse_self.
  - destruct (check_closed (Quota :: gs) (rt_handler r) req w Hs) as (a & Ha & Hr). exists a, (w_sse w).
    by rewrite set_sse_self.
Qed.

(** *** The public routes *)
Definition public_routes : list (string * string) :=
  [("GET", "/api/auth/status"); ("POST", "/api/auth/setup"); ("POST", "/api/auth/login");
   ("POST", "/api/auth/logout"); ("GET", "/api/system/health"); ("GET", "/api/settings/public");
   ("GET", "/api/prayers/"); ("GET", "/api/logs")].

(** The jobs, the voices and the listing of files *)
Definition observed (w : world) : sched_state * voice_state * (val * Z) :=
  (w_sched w, w_voice w, w_listing w).

Lemma keeps_limit {A} (f : world -> A) l req :
  (forall s w, f (set_sse s w) = f w) -> keeps f (rateLimit l req).
Proof.
  intros Hf w. destruct (rateLimit_run l req w) as [->|(a & s & -> & _)]; [done|]. cbn. apply Hf.
Qed.

Lemma keeps_asyncHandler {A} (f : world -> A) fn req : keeps f (fn req) -> keeps f (asyncHandler fn req).
Proof. intros H. apply keeps_try; [done|]. intros e. apply keeps_ret. Qed.

Lemma keeps_env_write {A} (f : world -> A) key value :
  (forall fs w, f (set_files fs w) = f w) -> (forall e w, f (set_env e w) = f w) ->
  keeps f (setEnvValue key value).
Proof. intros Hf He. unfold setEnvValue, read_or_empty, env_set. frame. Qed.

Lemma keeps_setup req : keeps observed (setup req).
Proof.
  unfold setup, hash_value, hashPassword, ensure_secret, generateSecret, issue_token, token_version, randomBytes.
  pose proof (keeps_env_write observed) as He. frame.
Qed.

Lemma keeps_login req : keeps observed (login req).
Proof. unfold login, verify_value, issue_token, token_version. frame. Qed.

Lemma keeps_public_settings req : keeps observed (getPublicSettings req).
Proof.
  unfold getPublicSettings. apply keeps_bind; [by apply keeps_reload|]. intros []. frame.
Qed.

Lemma keeps_prayers req : keeps observed (getPrayers req).
Proof.
  pose proof (keeps_times observed (fun _ _ => eq_refl) (fun _ _ => eq_refl) (fun _ _ => eq_refl)) as Ht.
  assert (forall config tz date, keeps observed (calendar_day config tz date)) as Hd.
  { intros. unfold calendar_day. frame. }
  assert (forall config tz date, keeps observed (getPrayersWithNext config tz date)) as Hn.
  { intros. unfold getPrayersWithNext, tomorrow_fajr. cbv zeta. frame. }
  assert (forall config tz step n date, keeps observed (walk config tz step n date)) as Hw.
  { intros config tz step n. induction n; intros date; cbn [walk]; frame. by apply keeps_settle. }
  assert (forall config tz start l m, keeps observed (window config tz start l m)) as Hv.
  { intros config tz start l. induction l; intros m; cbn [window]; frame. by apply keeps_settle. }
  unfold getPrayers, prayers_reply, getPrayerCalendarWindow. frame.
Qed.

Lemma keeps_stream req : keeps observed (stream_logs req).
Proof. unfold stream_logs, getLogs, addClient. frame. Qed.

(** Every route is guarded or public, and the public ones keep the jobs. *)
Lemma api_table :
  Forall (fun r => guarded r = true \/
            ((rt_method r, rt_path r) ∈ public_routes /\ forall req, keeps observed (run_route r req))) api_routes.
Proof.
  assert (forall l req, keeps observed (rateLimit l req)) as Hl by (intros; by apply keeps_limit).
  pose proof keeps_setup as K1. pose proof keeps_login as K2. pose proof keeps_public_settings as K3.
  pose proof keeps_prayers as K4. pose proof keeps_stream as K5.
  unfold api_routes, mount, auth_routes, system_routes, settings_routes, prayer_routes.
  cbn [fmap list_fmap app rt_method rt_path rt_guards rt_handler].
  repeat apply Forall_cons_2; try apply Forall_nil_2; first [by left|right];
    (split; [by apply (bool_decide_unpack _); vm_compute|]); intros req; unfold run_route;
    apply keeps_asyncHandler; cbn [fmap list_fmap chain guard_middleware rt_guards rt_handler];
    try (apply keeps_bind; [done|intros [|]; [|apply keeps_ret]]); try done; frame.
Qed.

Lemma find_route_in routes req r params : find_route routes req = Some (r, params) -> r ∈ routes.
Proof.
  induction routes as [|r0 routes IH]; [done|]. cbn [find_route].
  destruct (route_params _ _ req); intros Hf; [|set_solver]. injection Hf as <- _. set_solver.
Qed.
End lemmas.

Section properties.
Context `{L : Luxon} `{Tm : Timer} `{Zd : Zod} `{N : Net} `{Ho : Host} `{T : Tts} `{W : Words} `{G : Digest}
  `{P : Pace} `{Loc : Locale} `{I : Intl} `{C : Crypto} `{D : Dotenv} `{Sp : DiskSpace} `{B : Web}
  `{J : Jwt} `{K : Counters} `{E : Express} `{Mu : Multer}.

(** C5: what a visitor without a session can do.  Every request is answered or
    passed on, and none without a session touches the jobs, the voices or the
    listing of files.  Unless it goes to one of the eight public routes it is
    refused, and changes nothing but the log: no handler behind the session
    check runs, whatever the paths that match, the counters of the limiters
    and the multipart parser. *)
Theorem anonymous_requests req w :
  session_open req w = false ->
  exists answer w', api req w = (Ok answer, w') /\ observed w' = observed w /\
    forall r params, find_route api_routes req = Some (r, params) ->
      (rt_method r, rt_path r) ∉ public_routes ->
      w' = set_sse (w_sse w') w /\ exists a, answer = Some a /\ refusal a.
Proof.
  intros Hs. unfold api.
  destruct (globalLimiter_run req w) as [Hg|(a & s & Hg & Ha)]; rewrite (M_bind_ok _ _ _ _ _ Hg).
  2:{ exists (Some a), (set_sse s w). split_and!; [done..|]. intros r params _ _. split; [done|].
      exists a. split; [done|]. unfold refusal. rewrite Ha. set_solver. }
  destruct (find_route api_routes req) as [[r params]|] eqn:Ef; [|by exists None, w].
  pose proof (proj1 (Forall_forall _ _) api_table r (find_route_in _ _ _ _ Ef)) as Ht. cbv beta in Ht.
  assert (session_open (with_params params req) w = false) as Hs' by exact Hs.
  destruct (guarded r) eqn:Eg.
  - destruct (guarded_closed r (with_params params req) w Eg Hs') as (a & s & Hr & Ha).
    rewrite (M_bind_ok _ _ _ _ _ Hr). exists (Some a), (set_sse s w). split_and!; [done..|].
    intros r' params' _ _. split; [done|]. by exists a.
  - destruct Ht as [?|[Hin Hk]]; [done|]. specialize (Hk (with_params params req) w).
    unfold run_route, asyncHandler, try_catch in *. cbv beta in *.
    destruct (chain _ _ (with_params params req) w) as [[a|e] w1] eqn:Er.
    + erewrite M_bind_ok by (cbv beta; rewrite Er; reflexivity). do 2 eexists. split; [reflexivity|].
      split; [done|]. by intros r' params' [= <- _] Hni.
    + erewrite M_bind_ok by (cbv beta; rewrite Er; reflexivity). do 2 eexists. split; [reflexivity|].
      split; [done|]. by intros r' params' [= <- _] Hni.
Qed.
End properties.

(** ** Witnesses: literal paths, no limits *)
Definition literal_paths : Express := {|
  route_params := fun method path req =>
    if String.eqb method (rq_method req) && String.eqb path (path_of req) then Some (VObj []) else None;
  response_id := fun _ => 0%nat
|}.
Definition no_limits : Counters := fun _ _ _ => None.
Definition no_upload : Multer := fun _ _ _ _ _ => ret None.
Definition offline_web : Web := {|
  url_protocol := fun _ => Throw (TypeError "Invalid URL");
  web_head := fun _ _ => Throw (Error "offline");
  web_get := fun _ _ => (Throw (Error "offline"), None)
|}.
Definition one_gib : DiskSpace := fun _ => Ok 1073741824.
Definition same_text : Digest := fun s => s.

Section witnesses.
#[local] Existing Instances literal_paths no_limits no_upload offline_web one_gib same_text lenient sample_net
  quiet_host no_tts some_words on_time bytes_locale any_zone toy_crypto line_dotenv toy_jwt.

(** A visitor asks for a file to be deleted. *)
Definition delete_request : request :=
  Request "DELETE" "/api/settings/files" "10.0.0.7" VUndef (VObj [("filename", VStr "old.mp3")]) (VObj [])
    (VObj []) VUndef.

Lemma anonymous_requests_witness :
  exists a w', api delete_request protected_world = (Ok (Some a), w') /\ refusal a /\
    files w' = files protected_world.
Proof.
  destruct (anonymous_requests delete_request protected_world) as (answer & w' & H & _ & Hr); [done|].
  assert (exists r params, find_route api_routes delete_request = Some (r, params) /\
    (rt_method r, rt_path r) = ("DELETE", "/api/settings/files")) as (r & params & Hf & Hp)
    by (do 2 eexists; split; reflexivity).
  destruct (Hr r params Hf) as [Hw (a & -> & Ha)].
  - rewrite Hp. by apply (bool_decide_unpack _); vm_compute.
  - exists a, w'. split; [exact H|]. split; [exact Ha|]. by rewrite Hw.
Defined.
End witnesses.
