(* ===== verification/Logger.v ===== *)
(** * The log files ([src/utils/logger.js])

    One file a day; at start-up all but the ten that were last modified are
    removed.  Log files hold text: an append to a file of another kind is
    outside the model and leaves it. *)
From Stdlib Require Import Sorting.Sorted.
From stdpp Require Import sorting.
From S2P Require Import Prelude JsString JsValue World Luxon LuxonUtc Storage AudioAssets.

Definition LOG_DIR : string := "/app/logs".
Definition MAX_FILES : nat := 10.

(** [if (!fs.existsSync(LOG_DIR)) fs.mkdirSync(LOG_DIR, ...)] *)
Definition ensureLogDir : M world unit := ensureDir LOG_DIR.

Definition is_log (file : string) : bool := starts_with "session-" file && ends_with ".log" file.

(** Newest first *)
Definition newer (a b : string * Z) : Prop := b.2 <= a.2.
#[export] Instance newer_dec a b : Decision (newer a b).
Proof. unfold newer. apply _. Defined.
#[export] Instance newer_total : Total newer.
Proof. intros a b. unfold newer. lia. Qed.
#[export] Instance newer_trans : Transitive newer.
Proof. intros a b c. unfold newer. lia. Qed.

(** The path and the time of a file, unless it has disappeared *)
Definition stat_log (file : string) : M world (list (string * Z)) :=
  let filePath := in_dir LOG_DIR file in
  try_catch (mtime ← fs_mtime filePath; ret [(filePath, mtime)]) (fun _ => ret []).

Definition rotateLogs : M world unit :=
  ignoring
    (ensureLogDir ;;
     names ← fs_readdir LOG_DIR;
     stats ← map_m stat_log (filter (fun f => is_log f = true) names);
     let logFiles := merge_sort newer (mjoin stats) in
     for_each (fun file => ignoring (fs_unlink file.1)) (drop MAX_FILES logFiles)).

Section writing.
Context `{L : Luxon}.

Definition getLogFilePath (w : world) : string :=
  in_dir LOG_DIR ("session-" +:+ show (dt_toISODate (dt_now (w_clock w))) +:+ ".log").

Definition log_line (entry : val) : string :=
  "[" +:+ show (prop entry "timestamp") +:+ "] [" +:+ to_upper (show (prop entry "level")) +:+ "] " +:+
  show (prop entry "message") +:+ String "010" EmptyString.

(** [fs.appendFile(p, s)] *)
Definition fs_append (p s : string) : M world unit := fun w =>
  match files w !! p with
  | None => fs_write p (Text s) w
  | Some (File (Text t) _) => fs_write p (Text (t +:+ s)) w
  | Some _ => (Ok tt, w)
  end.

Definition writeToFile (entry : val) : M world unit :=
  ignoring (filePath ← gets getLogFilePath; fs_append filePath (log_line entry)).
End writing.

(** ** Lemmas *)
Lemma in_dir_slice dir p :
  starts_with (dir +:+ "/") p = true -> in_dir dir (slice_from (S (String.length dir)) p) = p.
Proof.
  intros [r ->]%starts_with_inv. unfold in_dir.
  replace (S (String.length dir)) with (String.length (dir +:+ "/")) by (rewrite str_length_app; cbn; lia).
  by rewrite slice_from_app, str_app_assoc.
Qed.

(** The files of a directory, by their paths, are keys of the file system. *)
Lemma dir_paths_sub dir w (P : string -> Prop) `{!forall x, Decision (P x)} :
  (in_dir dir <$> filter P (dir_files dir w)) `sublist_of` (below dir w).*1.
Proof.
  unfold dir_files. assert (Forall (fun kv => starts_with (dir +:+ "/") kv.1 = true) (below dir w)) as HF.
  { apply Forall_forall. intros kv Hin. unfold below in Hin. by apply list_elem_of_filter in Hin as [? _]. }
  revert HF. generalize (below dir w) as l. induction l as [|kv l IH]; intros HF; [done|].
  apply Forall_cons in HF as [H1 HF]. specialize (IH HF). rewrite fmap_cons, filter_cons.
  case_decide; [rewrite filter_cons; case_decide|]; rewrite ?fmap_cons; [|by apply sublist_cons..].
  rewrite (in_dir_slice dir kv.1) by done. by apply sublist_skip.
Qed.

Lemma dir_paths_NoDup dir w (P : string -> Prop) `{!forall x, Decision (P x)} :
  NoDup (in_dir dir <$> filter P (dir_files dir w)).
Proof.
  eapply sublist_NoDup; [|apply dir_paths_sub]. unfold below.
  eapply sublist_NoDup; [apply (NoDup_fst_map_to_list (files w))|]. apply fmap_sublist, sublist_filter.
Qed.

(** The log files of the directory, and when a file was last modified *)
Definition log_paths (w : world) : list string :=
  in_dir LOG_DIR <$> filter (fun f => is_log f = true) (dir_files LOG_DIR w).

Definition mtime_of (w : world) (p : string) : Z :=
  match files w !! p with Some f => f_mtime f | None => 0 end.

Lemma log_paths_present w p : p ∈ log_paths w -> is_Some (files w !! p).
Proof.
  intros Hp. eapply elem_of_sublist in Hp; [|apply dir_paths_sub]. unfold below in Hp.
  apply list_elem_of_fmap in Hp as ([q f] & -> & [_ Hf]%list_elem_of_filter).
  apply elem_of_map_to_list in Hf. by exists f.
Qed.

Lemma stats_run w names :
  Forall (fun f => is_Some (files w !! in_dir LOG_DIR f)) names ->
  map_m stat_log names w = (Ok ((fun f => [(in_dir LOG_DIR f, mtime_of w (in_dir LOG_DIR f))]) <$> names), w).
Proof.
  induction names as [|f names IH]; intros HF; [done|]. apply Forall_cons in HF as [[fl Hf] HF].
  cbn [map_m]. rewrite (M_bind_ok _ _ _ [(in_dir LOG_DIR f, mtime_of w (in_dir LOG_DIR f))] w).
  - by rewrite (M_bind_ok _ _ _ _ _ (IH HF)).
  - unfold stat_log, fs_mtime, mtime_of. munfold. by rewrite Hf.
Qed.

(** Removing files one after the other, failures ignored *)
Lemma remove_all (l : list (string * Z)) w :
  exists fs, for_each (fun file => ignoring (fs_unlink file.1)) l w = (Ok tt, set_files fs w) /\
    forall p, fs !! p = if bool_decide (p ∈ l.*1) && negb (denied w p) then None else files w !! p.
Proof.
  revert w. induction l as [|[q t] l IH]; intros w.
  { exists (files w). split; [by destruct w as [? ? []]|]. intros p. by rewrite bool_decide_false by apply not_elem_of_nil. }
  cbn [for_each]. unfold ignoring at 1, try_catch, fs_unlink. cbn [fst].
  assert (forall w1, (forall p, denied w1 p = denied w p) -> (forall fs, set_files fs w1 = set_files fs w) ->
    (forall p, files w1 !! p = if bool_decide (p = q) && negb (denied w p) then None else files w !! p) ->
    exists fs, for_each (fun file => ignoring (fs_unlink file.1)) l w1 = (Ok tt, set_files fs w) /\
      forall p, fs !! p = if bool_decide (p ∈ ((q, t) :: l).*1) && negb (denied w p) then None else files w !! p)
    as Hstep.
  { intros w1 Hd Hs Hf. destruct (IH w1) as (fs & Hr & Hl). rewrite Hs in Hr. exists fs. split; [done|].
    intros p. rewrite Hl, Hd, Hf. cbn [fmap list_fmap fst].
    destruct (denied w p); rewrite ?andb_false_r; [done|]. rewrite !andb_true_r.
    repeat case_bool_decide; try done; set_solver. }
  destruct (files w !! q) as [f|] eqn:Eq; [destruct (denied w q) eqn:Ed|].
  - apply Hstep; [done..|]. intros p. case_bool_decide as E; [|done]. by rewrite E, Ed.
  - apply Hstep; [done..|]. intros p. unfold files at 1. cbn [w_fs set_files fs_files].
    case_bool_decide as E; [rewrite E, Ed, lookup_delete_eq; done|]. by rewrite lookup_delete_ne by auto.
  - apply Hstep; [done..|]. intros p. case_bool_decide as E; [|done]. rewrite E, Eq. by destruct (denied w q).
Qed.

(** The log files with their times *)
Definition log_stats (w : world) : list (string * Z) := (fun p => (p, mtime_of w p)) <$> log_paths w.

Lemma sorted_logs w : (merge_sort newer (log_stats w)).*1 ≡ₚ log_paths w.
Proof.
  rewrite merge_sort_Permutation. unfold log_stats. rewrite <- list_fmap_compose. by rewrite list_fmap_id.
Qed.

Lemma rotate_run w kv rest fs :
  below LOG_DIR w = kv :: rest ->
  for_each (fun file => ignoring (fs_unlink file.1)) (drop MAX_FILES (merge_sort newer (log_stats w))) w =
    (Ok tt, set_files fs w) ->
  rotateLogs w = (Ok tt, set_files fs w).
Proof.
  intros Eb Hr. unfold rotateLogs, ignoring at 1, try_catch, ensureLogDir, ensureDir, try_catch.
  assert (fs_access_dir LOG_DIR w = (Ok tt, w)) as Ha.
  { unfold fs_access_dir. destruct (existsb _ _) eqn:Ex; [done|]. exfalso.
    assert (kv ∈ below LOG_DIR w) as Hin by (rewrite Eb; left). unfold below in Hin.
    apply list_elem_of_filter in Hin as [Hs Hin].
    apply not_true_iff_false in Ex. apply Ex, existsb_exists. exists kv. split; [by apply list_elem_of_In|done]. }
  erewrite M_bind_ok by (rewrite Ha; reflexivity).
  erewrite M_bind_ok by (unfold fs_readdir; rewrite Eb; reflexivity).
  rewrite (M_bind_ok _ _ _ _ _ (stats_run w _ ltac:(apply Forall_forall; intros f Hf;
    apply log_paths_present; by apply list_elem_of_fmap_2))).
  assert (mjoin ((fun f => [(in_dir LOG_DIR f, mtime_of w (in_dir LOG_DIR f))]) <$>
    filter (fun f => is_log f = true) (dir_files LOG_DIR w)) = log_stats w) as ->; [|by rewrite Hr].
  unfold log_stats, log_paths. rewrite <- list_fmap_compose.
  generalize (filter (fun f => is_log f = true) (dir_files LOG_DIR w)).
  intros l. induction l as [|x l IH]; [done|]. cbn. by f_equal.
Qed.

(** ** Properties *)

(** C40: The rotation of the logs.  It never fails, and sorts the log files into at
    most ten that stay and the others, none of which is newer than one that
    stays.  The others are removed, as far as they can be; nothing else in the
    world has changed, and no other file either. *)
Theorem rotateLogs_keeps_newest w :
  exists w' kept gone, rotateLogs w = (Ok tt, w') /\ w' = set_files (files w') w /\
    kept ++ gone ≡ₚ log_paths w /\ length kept = min MAX_FILES (length (log_paths w)) /\
    (forall k g, k ∈ kept -> g ∈ gone -> mtime_of w g <= mtime_of w k) /\
    (forall p, p ∉ gone -> files w' !! p = files w !! p) /\
    (forall p, p ∈ gone -> denied w p = false -> files w' !! p = None).
Proof.
  destruct (below LOG_DIR w) as [|kv rest] eqn:Eb.
  { assert (log_paths w = []) as ->.
    { unfold log_paths, dir_files. by rewrite Eb. }
    exists w, [], []. split.
    - unfold rotateLogs, ignoring at 1, try_catch. destruct (ensureLogDir w) as [r w1] eqn:E1.
      assert (w1 = w) as ->.
      { unfold ensureLogDir, ensureDir, fs_access_dir, fs_mkdir in E1. munfold. repeat case_match; by simplify_eq. }
      destruct r as [[]|e]; [|by rewrite (M_bind_throw _ _ _ _ _ E1)]. rewrite (M_bind_ok _ _ _ _ _ E1).
      by erewrite M_bind_throw by (unfold fs_readdir; rewrite Eb; reflexivity).
    - split; [by destruct w as [? ? []]|]. split_and!; try done; [intros k g Hk; by apply not_elem_of_nil in Hk|intros p Hp; by apply not_elem_of_nil in Hp]. }
  destruct (remove_all (drop MAX_FILES (merge_sort newer (log_stats w))) w) as (fs & Hr & Hl).
  set (sorted := merge_sort newer (log_stats w)) in *.
  exists (set_files fs w), (take MAX_FILES sorted).*1, (drop MAX_FILES sorted).*1.
  split; [by eapply rotate_run|]. split; [done|]. split; [|split; [|split; [|split]]].
  - rewrite <- fmap_app, take_drop. apply sorted_logs.
  - rewrite length_fmap, length_take, <- (length_fmap fst sorted). unfold sorted. by rewrite sorted_logs.
  - intros k g (kt & -> & Hk)%list_elem_of_fmap (gt & -> & Hg)%list_elem_of_fmap.
    pose proof (StronglySorted_merge_sort newer (log_stats w)) as Hs. fold sorted in Hs.
    rewrite <- (take_drop MAX_FILES sorted) in Hs.
    pose proof (StronglySorted_app_1_elem_of newer _ _ _ _ Hs Hk Hg) as Hn. unfold newer in Hn.
    assert (forall x, x ∈ sorted -> x.2 = mtime_of w x.1) as Hx.
    { intros x Hx. unfold sorted in Hx. rewrite merge_sort_Permutation in Hx.
      by apply list_elem_of_fmap in Hx as (p & -> & _). }
    rewrite <- !Hx; [done|..]; rewrite <- (take_drop MAX_FILES sorted); set_solver.
  - intros p Hp. unfold files at 1. cbn [w_fs set_files fs_files]. rewrite Hl. by rewrite bool_decide_false.
  - intros p Hp Hd. unfold files at 1. cbn [w_fs set_files fs_files]. by rewrite Hl, bool_decide_true, Hd.
Qed.

(** ** Witness: eleven days *)
Definition log_world : world :=
  set_files (list_to_map ((fun i => (in_dir LOG_DIR ("session-2025-01-" +:+ show_Z (10 + i) +:+ ".log"),
                                     File (Text "") i)) <$> seqZ 1 11)) empty_world.

Lemma rotateLogs_keeps_newest_witness :
  exists w' kept gone, rotateLogs log_world = (Ok tt, w') /\ length kept = 10%nat /\ length gone = 1%nat /\
    forall g, g ∈ gone -> files w' !! g = None /\ forall k, k ∈ kept -> mtime_of log_world g <= mtime_of log_world k.
Proof.
  destruct (rotateLogs_keeps_newest log_world) as (w' & kept & gone & Hr & _ & Hp & Hk & Ho & _ & Hg).
  assert (length (log_paths log_world) = 11%nat) as Hn by (vm_compute; reflexivity).
  apply Permutation_length in Hp. rewrite length_app, Hk, Hn in Hp. rewrite Hn in Hk.
  exists w', kept, gone. split; [exact Hr|]. split; [exact Hk|]. split; [cbn in Hp; lia|].
  intros g Hin. split; [by apply Hg|]. intros k Hin'. by apply Ho.
Defined.
