(* ===== verification/Server.v ===== *)
(** * The start of the server ([src/server.js])

    What runs once the port is open: logs, secrets, configuration, checks,
    voices, prayer times, audio files, jobs.  The rest of the file sets Express
    up: static files, the API (Routes) and two routes of its own.  The migration
    of the sidecars is started without being awaited; it is run here before the
    scheduler. *)
From S2P Require Import Prelude JsString JsValue NodePath World Luxon LuxonUtc Zod Schemas.
From S2P Require Import Calculations.
From S2P Require Import Network Providers PrayerTimes Encryption EnvManager Sse ConfigStore.
From S2P Require Import Outputs.
From S2P Require Import Migration Masking ConfigService Wiring Health Voice Storage AudioAssets.
From S2P Require Import AssetMigration Automation Scheduler Frames Workflow Http Auth.
From S2P Require Import SettingsController.
From S2P Require Import SystemController ApiControllers Routes Logger.

Inductive startup := Exited | Started.

(** What the log says of a source reads the coordinates. *)
Definition describe_source (config source : val) : result unit :=
  if negb (truthy source) then Ok tt else
  if seq (prop source "type") (VStr "aladhan") then
    location ← get config "location";
    coordinates ← get location "coordinates";
    if is_nullish coordinates then Throw (TypeError "Cannot destructure property") else Ok tt
  else Ok tt.

Fixpoint describe_sources (config : val) (sources : list (string * val)) : result unit :=
  match sources with
  | [] => Ok tt
  | (_, source) :: sources' => _ ← describe_source config source; describe_sources config sources'
  end.

Section server.
Context `{L : Luxon} `{Tm : Timer} `{Zd : Zod} `{N : Net} `{Ho : Host} `{T : Tts} `{W : Words}
  `{Loc : Locale} `{I : Intl} `{C : Crypto} `{D : Dotenv}.

(** The sources named in the configuration *)
Definition report_sources (config : val) : M world unit :=
  sources ← lift (get config "sources");
  l ← lift (entries sources);
  lift (describe_sources config l).

Definition prepare_audio : M world unit :=
  _ ← syncAudioAssets false; ensureTestAudio ;; generateMetadataForExistingFiles.

(** After the configuration has been loaded *)
Definition start_services : M world unit :=
  init_health ;;
  config ← config_get;
  report_sources config ;;
  _ ← runStartupChecks;
  ignoring init_voices ;;
  ignoring (_ ← forceRefresh config; ret tt) ;;
  ignoring prepare_audio ;;
  _ ← migrateAll;
  initScheduler.

Definition startServer : M world startup :=
  rotateLogs ;;
  _ ← ensure_secret "JWT_SECRET" 64;
  _ ← ensure_secret "ENCRYPTION_SALT" 32;
  loaded ← settle ConfigService.init;
  match loaded with
  | Throw _ => ret Exited
  | Ok _ => start_services ;; ret Started
  end.

(** *** Requests outside the API *)
Definition basic_health (now : Z) : reply :=
  json 200 (VObj [("status", VStr "ok"); ("timestamp", VStr (iso_text now));
                  ("message", VStr "Azan Dashboard Server is running")]).
End server.

(** ** Lemmas *)
Lemma ignoring_run m w : exists w', ignoring m w = (Ok tt, w').
Proof. unfold ignoring, try_catch, ret. destruct (m w) as [[[]|e] w']; by eexists. Qed.

Lemma keeps_ignoring {A} (f : world -> A) m : keeps f m -> keeps f (ignoring m).
Proof. intros H. apply keeps_try; [done|]. intros. apply keeps_ret. Qed.

(** A computation whose every exception is caught *)
Ltac caught := unfold try_catch, ret;
  match goal with |- context [match ?m with _ => _ end] => destruct m as [[?|?] ?] end; by do 2 eexists.

(** What the services started here leave alone: the configuration, the jobs and
    the environment *)
Definition seated (w : world) : cfg_state * sched_state * gmap string string :=
  (w_cfg w, w_sched w, w_env w).

Section lemmas.
Context `{L : Luxon} `{Tm : Timer} `{Zd : Zod} `{N : Net} `{Ho : Host} `{T : Tts} `{W : Words}
  `{Loc : Locale} `{I : Intl} `{C : Crypto} `{D : Dotenv}.

Lemma keeps_rotate {A} (f : world -> A) : (forall fs w, f (set_files fs w) = f w) -> keeps f rotateLogs.
Proof. intros Hf. unfold rotateLogs, ignoring, ensureLogDir, ensureDir, stat_log. frame. Qed.

Lemma keeps_voices : keeps seated init_voices.
Proof.
  unfold init_voices, refreshVoices, voice_check, voice_fetch, _loadFromCache, take_voices, _saveToCache,
    current_voices, on_voice.
  repeat first [apply keeps_finally; [|done] | progress frame].
Qed.

Lemma keeps_audio : keeps seated prepare_audio.
Proof.
  pose proof (keeps_sync seated (fun _ _ => eq_refl) (fun _ _ => eq_refl) (fun _ _ => eq_refl) false) as K1.
  pose proof (keeps_ensureDirs seated) as K2.
  pose proof (keeps_enriched seated) as K3.
  unfold prepare_audio, ensureTestAudio, generateMetadataForExistingFiles, make_sidecar, legacy_data, generateTTS,
    move_file, ignoring, fs_copy, read_json, enrichMetadata, analyseAudioFile. frame. apply keeps_settle. frame.
Qed.

Lemma keeps_migration : keeps seated migrateAll.
Proof.
  assert (forall p l acc, keeps seated (check_strategies p l acc)) as K.
  { intros p l. induction l as [|s l IH]; intros acc; [apply keeps_ret|]. cbn [check_strategies].
    unfold check_strategy, analyseAudioFile, validateAsset. frame. }
  unfold migrateAll, migrate_dir, _migrateFile. frame.
Qed.

Lemma migrateAll_run w : exists r w', migrateAll w = (Ok r, w').
Proof. unfold migrateAll. caught. Qed.

(** The checks fail for no reason once there are sources. *)
Lemma checkSource_run target config w :
  configured config w -> is_nullish (prop config "sources") = false ->
  exists r w', checkSource target w = (Ok r, w').
Proof.
  intros Hc Hs. unfold checkSource. rewrite (M_bind_ok _ _ _ _ _ (config_get_ok _ _ Hc)). unfold lift.
  rewrite get_ok by (apply truthy_not_nullish, Hc). erewrite M_bind_ok by reflexivity.
  rewrite get_ok by done. erewrite M_bind_ok by reflexivity.
  repeat (case_match; [by do 2 eexists|]). caught.
Qed.

Lemma refreshTarget_run t params force config w :
  configured config w -> is_nullish (prop config "sources") = false ->
  exists r w', _refreshTarget t params force w = (Ok r, w').
Proof.
  intros Hc Hs. unfold _refreshTarget. rewrite (M_bind_ok _ _ _ _ _ (config_get_ok _ _ Hc)). cbv zeta.
  do 2 (case_match; [by do 2 eexists|]).
  case_match.
  { unfold checkPythonService. erewrite M_bind_ok by reflexivity. caught. }
  do 2 (case_match; [by eapply checkSource_run|]). caught.
Qed.

Lemma configured_same config w w' : w_cfg w' = w_cfg w -> configured config w -> configured config w'.
Proof. intros E [H1 H2]. split; [by rewrite E|done]. Qed.

Lemma startup_checks_run config w :
  configured config w -> is_nullish (prop config "sources") = false ->
  exists r w', runStartupChecks w = (Ok r, w') /\ seated w' = seated w.
Proof.
  intros Hc Hs.
  assert (seated (runStartupChecks w).2 = seated w) as Hk.
  { unfold runStartupChecks. by apply keeps_refresh_health. }
  assert (exists r w', runStartupChecks w = (Ok r, w')) as (r & w' & Hr); [|rewrite Hr in Hk; by do 2 eexists].
  clear Hk. unfold runStartupChecks, refresh_health, getHealth.
  assert (forall x, configured config x -> exists x', init_health x = (Ok tt, x') /\ configured config x') as Hi.
  { intros x Hx. unfold init_health. munfold. destruct (truthy (w_health x)); eexists; by split. }
  destruct (Hi w Hc) as (w1 & H1 & Hc1). rewrite (M_bind_ok _ _ _ _ _ H1). cbv zeta.
  erewrite M_bind_ok by reflexivity. cbn [String.eqb Ascii.eqb Bool.eqb].
  match goal with |- context [map_m ?g _] => set (step := g) end.
  assert (forall l x, configured config x -> exists y x', map_m step l x = (Ok y, x') /\ configured config x') as Hm.
  { intros l. induction l as [|t l IH]; intros x Hx; [by do 2 eexists|]. cbn [map_m].
    destruct (refreshTarget_run t VNull true config x Hx Hs) as (r & x1 & Hr).
    pose proof (keeps_refreshTarget w_cfg (fun _ _ => eq_refl) t VNull true x) as K. rewrite Hr in K. cbn [snd] in K.
    pose proof (configured_same config x x1 K Hx) as Hx1.
    erewrite M_bind_ok by (unfold step; rewrite (M_bind_ok _ _ _ _ _ Hr); reflexivity).
    destruct (IH x1 Hx1) as (y & x2 & Hy & Hx2). rewrite (M_bind_ok _ _ _ _ _ Hy). by do 2 eexists. }
  destruct (Hm all_targets w1 Hc1) as (y & w2 & Hy & Hc2).
  rewrite (M_bind_ok _ _ _ _ _ Hy). erewrite M_bind_ok by reflexivity.
  match goal with |- context [mbind _ init_health ?x] => destruct (Hi x) as (w3 & H3 & _); [exact Hc2|] end.
  rewrite (M_bind_ok _ _ _ _ _ H3). by do 2 eexists.
Qed.

(** A validated configuration has what the report reads. *)
Lemma report_run config w : well_typed_config config -> report_sources config w = (Ok tt, w).
Proof.
  intros Hw. destruct (wt_primary _ Hw) as [ty Ht]. destruct (wt_coords _ Hw) as [(q & Hq & _) _].
  assert (is_nullish config = false) as Hn by (by destruct config).
  assert (is_nullish (prop config "location") = false) as Hl by (by destruct (prop config "location")).
  assert (is_nullish (prop (prop config "location") "coordinates") = false) as Hco
    by (by destruct (prop (prop config "location") "coordinates")).
  unfold report_sources, lift. rewrite get_ok by done. erewrite M_bind_ok by reflexivity.
  assert (exists l, entries (prop config "sources") = Ok l) as [l ->]
    by (unfold entries; destruct (prop config "sources"); try done; by eexists).
  erewrite M_bind_ok by reflexivity. assert (describe_sources config l = Ok tt) as ->; [|done].
  induction l as [|[k s] l IH]; [done|]. cbn [describe_sources].
  assert (describe_source config s = Ok tt) as ->; [|exact IH]. unfold describe_source.
  destruct (negb _); [done|]. destruct (seq _ _); [|done]. rewrite get_ok by done. cbn [mbind result_bind].
  rewrite get_ok by done. cbn [mbind result_bind]. by rewrite Hco.
Qed.

Lemma initScheduler_run config w : configured config w -> exists w', initScheduler w = (Ok tt, w').
Proof.
  intros Hc. unfold initScheduler. rewrite (M_bind_ok _ _ _ _ _ (config_get_ok _ _ Hc)). unfold try_catch.
  match goal with |- context [match ?m with _ => _ end] => destruct m as [[[]|e] w'] end; by eexists.
Qed.

(** One service after another, whatever becomes of each *)
Lemma then_run {A B} (m : M world A) (k : A -> M world B) w :
  keeps seated m -> (exists r w', m w = (Ok r, w')) ->
  exists r w', mbind k m w = k r w' /\ seated w' = seated w.
Proof.
  intros Hk (r & w' & Hr). specialize (Hk w). rewrite Hr in Hk. exists r, w'.
  split; [by rewrite (M_bind_ok _ _ _ _ _ Hr)|done].
Qed.

Lemma services_run config w :
  configured config w -> well_typed_config config ->
  exists w2, start_services w = initScheduler w2 /\ seated w2 = seated w.
Proof.
  intros Hc Hw. unfold start_services.
  assert (exists w1, init_health w = (Ok tt, w1) /\ seated w1 = seated w) as (w1 & H1 & S1).
  { unfold init_health. munfold. destruct (truthy (w_health w)); eexists; by split. }
  assert (configured config w1) as Hc1 by (apply (configured_same _ w); [by injection S1|done]).
  rewrite (M_bind_ok _ _ _ _ _ H1), (M_bind_ok _ _ _ _ _ (config_get_ok _ _ Hc1)).
  rewrite (M_bind_ok _ _ _ _ _ (report_run _ _ Hw)).
  assert (is_nullish (prop config "sources") = false) as Hs.
  { destruct (wt_primary _ Hw) as [ty Ht]. by destruct (prop config "sources"). }
  destruct (startup_checks_run config w1 Hc1 Hs) as (r & w2 & H2 & S2). rewrite (M_bind_ok _ _ _ _ _ H2).
  pose proof (keeps_forceRefresh seated (fun _ _ => eq_refl) (fun _ _ => eq_refl) (fun _ _ => eq_refl) config) as K.
  destruct (then_run (ignoring init_voices) (fun _ => ignoring (_ ← forceRefresh config; ret tt) ;;
    ignoring prepare_audio ;; _ ← migrateAll; initScheduler) w2) as ([] & w3 & H3 & S3);
    [apply keeps_ignoring, keeps_voices|destruct (ignoring_run init_voices w2); by do 2 eexists|]. rewrite H3.
  destruct (then_run (ignoring (_ ← forceRefresh config; ret tt)) (fun _ => ignoring prepare_audio ;;
    _ ← migrateAll; initScheduler) w3) as ([] & w4 & H4 & S4);
    [apply keeps_ignoring; frame|destruct (ignoring_run (_ ← forceRefresh config; ret tt) w3); by do 2 eexists|].
  rewrite H4.
  destruct (then_run (ignoring prepare_audio) (fun _ => _ ← migrateAll; initScheduler) w4) as ([] & w5 & H5 & S5);
    [apply keeps_ignoring, keeps_audio|destruct (ignoring_run prepare_audio w4); by do 2 eexists|]. rewrite H5.
  destruct (then_run migrateAll (fun _ => initScheduler) w5) as (c & w6 & H6 & S6);
    [apply keeps_migration|apply migrateAll_run|]. rewrite H6.
  exists w6. split; [done|]. congruence.
Qed.

Lemma keeps_ensure_secret {A} (f : world -> A) key n :
  (forall fs w, f (set_files fs w) = f w) -> (forall e w, f (set_env e w) = f w) ->
  (forall k w, f (set_rng k w) = f w) -> keeps f (ensure_secret key n).
Proof.
  intros Hf He Hr. pose proof (keeps_env_write f) as K. unfold ensure_secret, generateSecret, randomBytes. frame.
Qed.

(** The first load: a validated configuration and both secrets, or an error *)
Lemma init_outcome {ZL : ZodLaws Zd} w r w' :
  c_initialized (w_cfg w) = false -> ConfigService.init w = (r, w') ->
  w_sched w' = w_sched w /\
  (is_ok r = true -> exists config, configured config w' /\ well_typed_config config /\
     truthy (env_get "JWT_SECRET" w') = true /\ truthy (env_get "ENCRYPTION_SALT" w') = true).
Proof.
  intros Hi H. unfold ConfigService.init in H. erewrite M_bind_ok in H by reflexivity. rewrite Hi in H.
  pose proof (keeps_reload w_sched (fun _ _ => eq_refl) (fun _ _ => eq_refl) (fun _ _ => eq_refl)
    (fun _ _ => eq_refl) w) as K.
  destruct (ConfigService.reload w) as [[[]|e] w1] eqn:E1; cbn [snd] in K.
  2:{ rewrite (M_bind_throw _ _ _ _ _ E1) in H. by injection H as <- <-. }
  rewrite (M_bind_ok _ _ _ _ _ E1) in H. apply reload_memory in E1 as (_ & _ & raw & Hraw).
  assert (well_typed_config (c_config (w_cfg w1))) as Hw.
  { apply conforms_config_typed. by eapply (zod_parse_ok (ZL := ZL)). }
  unfold require_env in H. munfold.
  destruct (truthy (env_get "JWT_SECRET" w1)) eqn:Ej; [|by injection H as <- <-].
  destruct (truthy (env_get "ENCRYPTION_SALT" w1)) eqn:Es; [|by injection H as <- <-].
  injection H as <- <-. split; [done|]. intros _. exists (c_config (w_cfg w1)).
  split; [split; [done|by apply typed_truthy]|]. by split_and!.
Qed.
End lemmas.

Section properties.
Context `{L : Luxon} `{Tm : Timer} `{Zd : Zod} `{N : Net} `{Ho : Host} `{T : Tts} `{W : Words}
  `{Loc : Locale} `{I : Intl} `{CL : CryptoLaws} `{D : Dotenv}.

(** C10: the start always comes to an end.  Either the configuration cannot be
    loaded and the process exits without a job; or, whatever becomes of the
    health checks, the voices, the prayer times, the audio files and the
    sidecars, the last step is a scheduler initialised on a validated
    configuration, with both secrets of the process set, and it succeeds. *)
Theorem startServer_outcome {ZL : ZodLaws Zd} w :
  c_initialized (w_cfg w) = false -> denied w ENV_PATH = false ->
  exists outcome w', startServer w = (Ok outcome, w') /\
    match outcome with
    | Exited => w_sched w' = w_sched w
    | Started => exists config w2,
        configured config w2 /\ well_typed_config config /\ initScheduler w2 = (Ok tt, w') /\
        w_sched w2 = w_sched w /\
        truthy (env_get "JWT_SECRET" w2) = true /\ truthy (env_get "ENCRYPTION_SALT" w2) = true
    end.
Proof.
  intros Hi Hd. unfold startServer.
  assert (exists w1, rotateLogs w = (Ok tt, w1)) as [w1 H1] by (unfold rotateLogs; apply ignoring_run).
  rewrite (M_bind_ok _ _ _ _ _ H1).
  pose proof (keeps_rotate (fun x => (w_cfg x, w_sched x, fs_denied (w_fs x))) (fun _ _ => eq_refl) w) as K1.
  rewrite H1 in K1. injection K1 as C1 S1 D1.
  destruct (ensure_secret_ok "JWT_SECRET" 64 w1) as (s2 & w2 & H2 & (C2 & _ & D2) & _);
    [done|unfold denied in *; by rewrite D1|].
  destruct (ensure_secret_ok "ENCRYPTION_SALT" 32 w2) as (s3 & w3 & H3 & (C3 & _ & D3) & _);
    [done|unfold denied in *; by rewrite D2, D1|].
  pose proof (keeps_ensure_secret w_sched "JWT_SECRET" 64 (fun _ _ => eq_refl) (fun _ _ => eq_refl)
    (fun _ _ => eq_refl) w1) as S2. rewrite H2 in S2.
  pose proof (keeps_ensure_secret w_sched "ENCRYPTION_SALT" 32 (fun _ _ => eq_refl) (fun _ _ => eq_refl)
    (fun _ _ => eq_refl) w2) as S3. rewrite H3 in S3. cbn [snd] in S2, S3.
  rewrite (M_bind_ok _ _ _ _ _ H2), (M_bind_ok _ _ _ _ _ H3).
  destruct (ConfigService.init w3) as [r w4] eqn:E4.
  destruct (init_outcome w3 r w4) as [S4 Hok]; [by rewrite C3, C2, C1|exact E4|].
  rewrite (M_bind_ok _ _ _ r w4) by (unfold settle; by rewrite E4).
  destruct r as [[]|e]; [|exists Exited, w4; split; [done|congruence]].
  destruct (Hok eq_refl) as (config & Hc & Hw & Hj & Hs). destruct (services_run config w4 Hc Hw) as (w5 & H5 & S5).
  injection S5 as C5 S5 V5. assert (configured config w5) as Hc5 by (by apply (configured_same _ w4)).
  destruct (initScheduler_run config w5 Hc5) as [w6 H6].
  exists Started, w6. rewrite (M_bind_ok _ _ _ tt w6) by (by rewrite H5). split; [done|].
  exists config, w5. unfold env_get in *. rewrite V5. split_and!; try done. congruence.
Qed.
End properties.

(** ** Witness: a fresh installation without secrets, every service down *)
Definition no_services : Net := fun _ _ => Throw (TypeError "fetch failed").

Section witnesses.
#[local] Existing Instances lenient no_services quiet_host no_tts some_words bytes_locale any_zone toy_crypto
  line_dotenv.

Definition fresh : world := set_files {[ CONFIG_PATH := File (Json sample_config) 0 ]} empty_world.

Lemma startServer_outcome_witness :
  exists w2 w', startServer fresh = (Ok Started, w') /\ initScheduler w2 = (Ok tt, w') /\
    truthy (env_get "JWT_SECRET" w2) = true /\ w_sched w2 = w_sched fresh.
Proof.
  destruct (startServer_outcome (ZL := zod_ref_laws) fresh) as (outcome & w' & H & Ho); [done|done|].
  assert ((startServer fresh).1 = Ok Started) as Hs by (vm_compute; reflexivity).
  rewrite H in Hs. injection Hs as ->. destruct Ho as (config & w2 & _ & _ & Hi & Hw & Hj & _).
  exists w2, w'. split; [exact H|]. split; [exact Hi|]. by split.
Defined.
End witnesses.
