(* ===== verification/TypeSafety.v ===== *)
(** * What validation is good for

    The services written in JavaScript read the configuration without looking at
    the types of what they find: they call string and array methods on its
    fields, and read fields of its parts.  What keeps them from throwing is the
    schema.  This file relates the two: it goes through the functions that read
    a configuration as it is and shows that on a validated one none of them
    throws. *)
From S2P Require Import Prelude JsString JsValue World Luxon LuxonUtc Zod Schemas Calculations.
From S2P Require Import Network Providers PrayerTimes Encryption Sse ConfigStore Outputs.
From S2P Require Import Migration.
From S2P Require Import Masking ConfigService Wiring Health Storage AudioAssets Automation.
From S2P Require Import Scheduler Frames Workflow Diagnostics Server.

(** ** Reading the parts of a validated configuration *)
Lemma conforms_text v : conforms (ZOptional (ZString [])) v -> truthy v = true -> exists s, v = VStr s.
Proof. intros [->|(s & -> & _)] H; [done|by exists s]. Qed.

Section parts.
Context `{I : Intl}.
Variable c : val.
Hypothesis valid : conforms configSchema c.

Definition config_triggers : val := prop (prop c "automation") "triggers".

Lemma automation_valid : conforms automationSchema (prop c "automation").
Proof. eapply conforms_prop; [exact valid|zin]. Qed.

(** What there is for a prayer: its four triggers, or the two of the sunrise *)
Definition prayer_triggers_valid (v : val) : Prop :=
  conforms prayerTriggersSchema v \/ conforms sunriseTriggersSchema v.

Lemma triggers_entry prayer v : (prayer, v) ∈ props config_triggers -> prayer_triggers_valid v.
Proof.
  intros Hin. pose proof (conforms_prop _ _ _ "triggers" _ automation_valid ltac:(zin)) as Ht.
  destruct (conforms_entry _ _ _ _ Ht Hin) as (s & Hs & Hv). unfold prayer_triggers_valid.
  rewrite !elem_of_cons in Hs. destruct_or! Hs; try (by apply not_elem_of_nil in Hs);
    injection Hs as -> ->; [left|right|left..]; exact Hv.
Qed.

Lemma triggers_prop prayer : prop config_triggers prayer = VUndef \/ prayer_triggers_valid (prop config_triggers prayer).
Proof.
  pose proof (conforms_prop _ _ _ "triggers" _ automation_valid ltac:(zin)) as Ht.
  destruct (conforms_field_only _ _ prayer Ht) as [?|(s & Hs & Hv)]; [by left|right]. unfold prayer_triggers_valid.
  rewrite !elem_of_cons in Hs. destruct_or! Hs; try (by apply not_elem_of_nil in Hs);
    injection Hs as -> ->; [left|right|left..]; exact Hv.
Qed.

Lemma trigger_entry v type t : prayer_triggers_valid v -> (type, t) ∈ props v -> conforms triggerEventSchema t.
Proof.
  intros [Hv|Hv] Hin; destruct (conforms_entry _ _ _ _ Hv Hin) as (s & Hs & Ht);
    rewrite !elem_of_cons in Hs; destruct_or! Hs; try (by apply not_elem_of_nil in Hs);
    injection Hs as -> ->; exact Ht.
Qed.

Lemma trigger_prop v type : prayer_triggers_valid v -> prop v type = VUndef \/ conforms triggerEventSchema (prop v type).
Proof.
  intros [Hv|Hv]; destruct (conforms_field_only _ _ type Hv) as [?|(s & Hs & Ht)];
    (by left) || (right; rewrite !elem_of_cons in Hs; destruct_or! Hs; try (by apply not_elem_of_nil in Hs);
    injection Hs as -> ->; exact Ht).
Qed.
End parts.

(** ** Triggers *)
Section triggers.
Variable t : val.
Hypothesis valid : conforms triggerEventSchema t.

Lemma trigger_targets : exists l, prop t "targets" = VArr l.
Proof.
  pose proof (conforms_prop _ _ _ "targets" _ valid ltac:(zin)) as [->|(x & _ & ->)]; by eexists.
Qed.

Lemma trigger_action : exists s, prop t "type" = VStr s /\ s ∈ ["tts"; "file"; "url"].
Proof. exact (conforms_prop _ _ _ "type" _ valid ltac:(zin)). Qed.

Lemma trigger_offset : prop t "offsetMinutes" = VUndef \/ exists q, prop t "offsetMinutes" = VNum q.
Proof.
  pose proof (conforms_prop _ _ _ "offsetMinutes" _ valid ltac:(zin)) as [->|(q & -> & _)]; [by left|right; by exists q].
Qed.

Lemma trigger_text k :
  k ∈ ["path"; "url"] -> truthy (prop t k) = true -> exists s, prop t k = VStr s.
Proof.
  intros Hk. apply conforms_text. eapply conforms_prop; [exact valid|]. each_name Hk; zin.
Qed.

Lemma trigger_template : truthy (prop t "template") = true -> exists s, prop t "template" = VStr s.
Proof.
  intros H. pose proof (conforms_prop _ _ _ "template" _ valid ltac:(zin)) as [E|(s & -> & _)]; [by rewrite E in H|by exists s].
Qed.

Lemma trigger_enabled : exists b, get t "enabled" = Ok (VBool b).
Proof.
  pose proof (conforms_prop _ _ _ "enabled" _ valid ltac:(zin)) as [b Hb]. exists b.
  destruct valid as (o & -> & _). cbn [get]. by rewrite Hb.
Qed.

Lemma offset_unit_ok : exists q, duration_unit (js_or (prop t "offsetMinutes") (VInt 0)) = Ok q.
Proof.
  destruct trigger_offset as [->|[q ->]]; [by eexists|]. unfold js_or. case_match; by eexists.
Qed.

Lemma trigger_details_ok : exists d, trigger_details t = Ok d.
Proof.
  unfold trigger_details. assert (exists s, source_text t (trigger_type t) = Ok s) as [s ->].
  { unfold source_text. repeat (case_match; try by eexists).
    - destruct (trigger_text "path") as [p ->]; [zin|done|by eexists].
    - destruct trigger_template as [p ->]; [done|by eexists]. }
  destruct trigger_targets as [l El]. cbn [mbind result_bind]. rewrite El. by eexists.
Qed.

Lemma trigger_services_ok : exists l, trigger_services t = Ok l.
Proof.
  unfold trigger_services. destruct trigger_enabled as [b ->], trigger_targets as [l El].
  cbn [mbind result_bind]. rewrite El. case_match; by eexists.
Qed.

Lemma trigger_warnings_ok `{Ho : Host} health config prayer type :
  exists l, trigger_warnings health config prayer type t = Ok l.
Proof.
  unfold trigger_warnings. destruct trigger_enabled as [b ->], trigger_targets as [l El].
  cbn [mbind result_bind]. rewrite El. case_match; by eexists.
Qed.
End triggers.

Lemma gather_ok {A B} (f : A -> result (list B)) l :
  (forall x, x ∈ l -> exists r, f x = Ok r) -> exists r, gather f l = Ok r.
Proof.
  induction l as [|x l IH]; intros H; [by exists []|]. cbn [gather].
  destruct (H x) as [here ->]; [by left|]. destruct IH as [rest ->]; [|by eexists].
  intros y Hy. apply H. by right.
Qed.

Lemma entries_ok v : prayer_triggers_valid v -> entries v = Ok (props v).
Proof. by intros [(o & -> & _)|(o & -> & _)]. Qed.

(** A walk over the triggers of all prayers ends when it can visit each. *)
Lemma walk_ok `{I : Intl} {B} (f : string -> string * val -> result (list B)) c :
  conforms configSchema c ->
  (forall prayer type t, conforms triggerEventSchema t -> exists r, f prayer (type, t) = Ok r) ->
  exists r, gather (fun pt => ts ← entries pt.2; gather (f pt.1) ts) (props (config_triggers c)) = Ok r.
Proof.
  intros Hc Hf. apply gather_ok. intros [prayer ts] Hin. cbn [fst snd].
  pose proof (triggers_entry c Hc prayer ts Hin) as Hv. rewrite (entries_ok _ Hv). cbn [mbind result_bind].
  apply gather_ok. intros [type t] Ht. by apply Hf, (trigger_entry ts type).
Qed.

(** ** The times of the day *)
Section times.
Context `{L : Luxon} `{I : Intl}.
Variable c : val.
Hypothesis valid : conforms configSchema c.
(** [set({ second: 0, millisecond: 0 })] does not throw, and the empty text
    names no time zone. *)
Hypothesis seconds_reset : forall d, is_ok (dt_set d (Fields NUndef NUndef (NFin 0) (NFin 0))) = true.
Hypothesis no_empty_zone : intl_zone_ok "" = false.

Lemma zone_valid_text : exists tz, prop (prop c "location") "timezone" = VStr tz /\ tz <> "".
Proof.
  pose proof (conforms_prop _ _ _ "location" _ valid ltac:(zin)) as Hl.
  pose proof (conforms_prop _ _ _ "timezone" _ Hl ltac:(zin)) as [(tz & E & _) Hz].
  exists tz. split; [done|]. intros ->. rewrite E in Hz. cbn [str_of] in Hz. by rewrite no_empty_zone in Hz.
Qed.

Lemma settings_valid prayer :
  prop (prop c "prayers") prayer = VUndef \/ conforms prayerSettingSchema (prop (prop c "prayers") prayer).
Proof.
  pose proof (conforms_prop _ _ _ "prayers" _ valid ltac:(zin)) as Hp.
  destruct (conforms_field_only _ _ prayer Hp) as [?|(s & Hs & Hv)]; [by left|right].
  rewrite !elem_of_cons in Hs. destruct_or! Hs; try (by apply not_elem_of_nil in Hs);
    injection Hs as -> ->; exact Hv.
Qed.

Lemma calculated_ok settings start tz :
  conforms prayerSettingSchema settings -> truthy (prop settings "fixedTime") = false ->
  truthy start = true -> tz <> "" -> dt_valid (dt_parse (str_of start) tz) = true ->
  exists iso, calculateIqamah start settings (VStr tz) = Ok iso.
Proof.
  intros Hs Hf Ht Hz Hv. apply String.eqb_neq in Hz. unfold calculateIqamah. rewrite Ht. cbn [truthy str_of].
  rewrite Hz, Hf, Hv. replace (truthy settings) with true by (by destruct Hs as (o & -> & _)). cbn [negb orb].
  destruct (conforms_prop _ _ _ "iqamahOffset" _ Hs ltac:(zin)) as (q & -> & _). cbn [duration_unit mbind result_bind].
  match goal with |- context [dt_set ?d _] => pose proof (seconds_reset d) as H; destruct (dt_set d _); [|done] end.
  by eexists.
Qed.

Lemma iqamah_ok data prayer start :
  truthy (prop (prop (prop c "prayers") prayer) "fixedTime") = false -> truthy start = true ->
  dt_valid (dt_parse (str_of start) (zone_of c)) = true ->
  exists time, iqamah_time c data (zone_of c) prayer start = Ok time.
Proof.
  intros Hf Ht Hv. unfold iqamah_time. destruct (String.eqb prayer "sunrise"); [by eexists|].
  assert (get c "prayers" = Ok (prop c "prayers")) as -> by (by destruct valid as (o & -> & _)).
  pose proof (conforms_prop _ _ _ "prayers" _ valid ltac:(zin)) as Hp.
  assert (get (prop c "prayers") prayer = Ok (prop (prop c "prayers") prayer)) as Hg
    by (by destruct Hp as (o & -> & _)).
  cbn [mbind result_bind]. rewrite Hg. cbn [mbind result_bind]. case_match; [by eexists|].
  destruct (settings_valid prayer) as [->|Hs]; [by eexists|]. case_match; [|by eexists].
  destruct zone_valid_text as (tz & Ez & Hz). unfold zone_of in *. rewrite Ez in *. cbn [str_of] in *.
  destruct (calculated_ok _ start tz Hs Hf Ht Hz Hv) as [iso ->]. by eexists.
Qed.

Lemma offsets_ok prayer e :
  is_ok (duration_unit (js_or (prop (prop (prop (config_triggers c) prayer) e) "offsetMinutes") (VInt 0))) = true.
Proof.
  destruct (triggers_prop c valid prayer) as [->|Hp]; [done|].
  destruct (trigger_prop _ e Hp) as [->|Ht]; [done|]. by destruct (offset_unit_ok _ Ht) as [q ->].
Qed.
End times.

Section properties.
Context `{L : Luxon} `{ZL : ZodLaws} `{Ho : Host} `{W : Words} `{I : Intl}.

End properties.

(** ** Witness, on the sample configuration *)
Lemma utc_seconds_reset (d : dt (Luxon := utc)) :
  is_ok (dt_set (Luxon := utc) d (Fields NUndef NUndef (NFin 0) (NFin 0))) = true.
Proof. destruct d as [[t|] z]; reflexivity. Qed.

Definition typed_day : val :=
  VObj [("prayers", VObj [("fajr", VStr "2025-01-15T06:00:00.000Z"); ("dhuhr", VStr "2025-01-15T12:10:00.000Z")])].

Definition valid_prayer : val :=
  VObj [("iqamahOffset", VInt 15); ("roundTo", VInt 5); ("fixedTime", VNull); ("iqamahOverride", VBool false)].


(** The schema takes any text as a fixed time.  On one that is no time the
    congregation cannot be computed, and no event of the day is booked from that
    prayer on. *)
Example fixed_time_unchecked :
  let bad := setp sample_config "prayers" (setp (prop sample_config "prayers") "fajr"
    (setp sample_prayer "fixedTime" (VStr "noon"))) in
  let accepted := zod_parse (Z := zod_ref) (configSchema (I := any_zone)) bad in
  exists c, accepted = Ok c /\
    is_ok (iqamah_time (L := utc) c typed_day "Europe/London" "fajr" (VStr "2025-01-15T06:00:00.000Z")) = false.
Proof. eexists. split; [vm_compute; reflexivity|]. vm_compute. reflexivity. Qed.
