(* ===== verification/Dashboard.v ===== *)
(** * The dashboard's prayer times in the browser
      ([client/src/hooks/usePrayerTimes.js], [client/src/hooks/useMidnightObserver.js])

    The hook as a state machine: its React state, its refs, its timers and the
    requests in flight.  An event is one synchronous stretch of the code: a
    call from the page, a timer, a reply.  React commits after it and runs the
    effects whose dependencies changed ([commit]).  Requests are answered in any
    order; an aborted one is answered by its abortion. *)
From S2P Require Import Prelude JsString JsValue World Luxon LuxonUtc Calculations Providers.
From S2P Require Import Masking.

Definition PRAYER_SEQUENCE : list string := ["fajr"; "sunrise"; "dhuhr"; "asr"; "maghrib"; "isha"].

(** [a < b] on texts; dates are never compared with anything else. *)
Definition js_lt (a b : val) : bool :=
  match a, b with VStr x, VStr y => String.ltb x y | _, _ => false end.

Definition getLaterDate (leftDate rightDate : val) : val :=
  if negb (truthy leftDate) then js_or rightDate VNull else
  if negb (truthy rightDate) then leftDate else
  if js_lt rightDate leftDate then leftDate else rightDate.

Definition getNextPrayerFromDay (prayerDay : val) : val :=
  match find (fun name => truthy (prop (prop prayerDay name) "start")) PRAYER_SEQUENCE with
  | Some name => VObj [("name", VStr name); ("time", prop (prop prayerDay name) "start");
                       ("isTomorrow", VBool false)]
  | None => VNull
  end.

(** The query of a request, its time stamp apart *)
Definition prayer_query (cursorDate direction : val) : list (string * val) :=
  (if truthy cursorDate then [("cursorDate", cursorDate)] else []) ++
  (if truthy direction then [("direction", direction)] else []).

(** ** The state *)
Record data := Data {
  d_prayers : val; d_next : val; d_meta : val;
  d_calendar : list (string * val);
  d_timezone : val;
  d_reference : val;      (* initialReferenceDate *)
  d_viewed : val;         (* viewedDate *)
  d_error : val;
  d_updated : Z           (* lastUpdated *)
}.

Record motion := Motion {
  m_direction : string;   (* transitionDirection *)
  m_moving : bool;        (* isTransitioning *)
  m_target : val;         (* transitionDate *)
  m_nonce : Z
}.

Record refs := Refs {
  r_reference : val; r_viewed : val;
  r_calendar : list (string * val);
  r_moving : bool;
  r_pending : Z;
  r_request : Z;
  r_controller : option nat   (* the request its controller aborts *)
}.

(** A request for the times of today, or for a part of the calendar *)
Inductive kind :=
| Poll (isInitial preserveViewedDate : bool) (captured : val)
| Chunk (direction : string) (targetDate : val) (requestId : Z) (originViewedDate : val).

Record flight := Flight { f_id : nat; f_kind : kind; f_query : list (string * val); f_aborted : bool }.

Record dash := Dash {
  s_data : data; s_motion : motion; s_refs : refs;
  s_loading : bool; s_fetching : bool;
  s_past : bool; s_future : bool;    (* navigationBoundaries *)
  s_observed : val;                  (* observedReferenceDate *)
  s_transition : option val;         (* the running transition timer, and its date *)
  s_idle : option val;               (* the running inactivity timer, and its date *)
  s_flights : list flight;
  s_next : nat
}.

Definition on_data (f : data -> data) (s : dash) : dash :=
  Dash (f (s_data s)) (s_motion s) (s_refs s) (s_loading s) (s_fetching s) (s_past s) (s_future s)
    (s_observed s) (s_transition s) (s_idle s) (s_flights s) (s_next s).
Definition set_motion (m : motion) (s : dash) : dash :=
  Dash (s_data s) m (s_refs s) (s_loading s) (s_fetching s) (s_past s) (s_future s)
    (s_observed s) (s_transition s) (s_idle s) (s_flights s) (s_next s).
Definition on_refs (f : refs -> refs) (s : dash) : dash :=
  Dash (s_data s) (s_motion s) (f (s_refs s)) (s_loading s) (s_fetching s) (s_past s) (s_future s)
    (s_observed s) (s_transition s) (s_idle s) (s_flights s) (s_next s).
Definition set_loading (b : bool) (s : dash) : dash :=
  Dash (s_data s) (s_motion s) (s_refs s) b (s_fetching s) (s_past s) (s_future s)
    (s_observed s) (s_transition s) (s_idle s) (s_flights s) (s_next s).
Definition set_fetching (b : bool) (s : dash) : dash :=
  Dash (s_data s) (s_motion s) (s_refs s) (s_loading s) b (s_past s) (s_future s)
    (s_observed s) (s_transition s) (s_idle s) (s_flights s) (s_next s).
Definition set_boundary (direction : string) (b : bool) (s : dash) : dash :=
  let past := String.eqb direction "past" in
  Dash (s_data s) (s_motion s) (s_refs s) (s_loading s) (s_fetching s)
    (if past then b else s_past s) (if past then s_future s else b)
    (s_observed s) (s_transition s) (s_idle s) (s_flights s) (s_next s).
Definition set_observed (v : val) (s : dash) : dash :=
  Dash (s_data s) (s_motion s) (s_refs s) (s_loading s) (s_fetching s) (s_past s) (s_future s)
    v (s_transition s) (s_idle s) (s_flights s) (s_next s).
Definition set_timers (transition idle : option val) (s : dash) : dash :=
  Dash (s_data s) (s_motion s) (s_refs s) (s_loading s) (s_fetching s) (s_past s) (s_future s)
    (s_observed s) transition idle (s_flights s) (s_next s).
Definition set_flights (l : list flight) (n : nat) (s : dash) : dash :=
  Dash (s_data s) (s_motion s) (s_refs s) (s_loading s) (s_fetching s) (s_past s) (s_future s)
    (s_observed s) (s_transition s) (s_idle s) l n.

Definition set_viewed (v : val) (d : data) : data :=
  Data (d_prayers d) (d_next d) (d_meta d) (d_calendar d) (d_timezone d) (d_reference d) v (d_error d) (d_updated d).
Definition set_error (v : val) (d : data) : data :=
  Data (d_prayers d) (d_next d) (d_meta d) (d_calendar d) (d_timezone d) (d_reference d) (d_viewed d) v (d_updated d).
Definition add_dates (chunk : list (string * val)) (d : data) : data :=
  Data (d_prayers d) (d_next d) (d_meta d) (ospread (d_calendar d) chunk) (d_timezone d) (d_reference d)
    (d_viewed d) VNull (d_updated d).
Definition ref_viewed (v : val) (r : refs) : refs :=
  Refs (r_reference r) v (r_calendar r) (r_moving r) (r_pending r) (r_request r) (r_controller r).
Definition ref_reference (v : val) (r : refs) : refs :=
  Refs v (r_viewed r) (r_calendar r) (r_moving r) (r_pending r) (r_request r) (r_controller r).
Definition ref_calendar (c : list (string * val)) (r : refs) : refs :=
  Refs (r_reference r) (r_viewed r) c (r_moving r) (r_pending r) (r_request r) (r_controller r).
Definition ref_moving (b : bool) (r : refs) : refs :=
  Refs (r_reference r) (r_viewed r) (r_calendar r) b (r_pending r) (r_request r) (r_controller r).
Definition ref_pending (n : Z) (r : refs) : refs :=
  Refs (r_reference r) (r_viewed r) (r_calendar r) (r_moving r) n (r_request r) (r_controller r).
Definition ref_request (n : Z) (r : refs) : refs :=
  Refs (r_reference r) (r_viewed r) (r_calendar r) (r_moving r) (r_pending r) n (r_controller r).
Definition ref_controller (c : option nat) (r : refs) : refs :=
  Refs (r_reference r) (r_viewed r) (r_calendar r) (r_moving r) (r_pending r) (r_request r) c.

Section hook.
Context `{L : Luxon}.

(** *** useMidnightObserver *)

(** [getReferenceDate(timezone)] at a clock value *)
Definition getReferenceDate (timezone : val) (now : Z) : val :=
  dt_toISODate (if truthy timezone then dt_setZone (dt_now now) (str_of timezone) else dt_now now).

Definition referenceDate (now : Z) (s : dash) : val :=
  let initial := d_reference (s_data s) in
  if truthy (s_observed s) then
    if negb (truthy initial) then s_observed s else
    if js_lt initial (s_observed s) then s_observed s else initial
  else js_or initial (getReferenceDate (d_timezone (s_data s)) now).

Definition activeReferenceDate (now : Z) (s : dash) : val :=
  js_or (d_reference (s_data s)) (referenceDate now s).

(** *** The calendar *)

(** [Math.abs(Math.round(DateTime.fromISO(date).diff(reference, "days").days)) <= 30] *)
Definition near (reference : dt) (date : string) : bool :=
  match dt_diff_days (dt_fromISO date) reference with
  | Some q => Z.abs (Qfloor (q + (1 # 2))%Q) <=? 30
  | None => false
  end.

Definition pruneCalendar (calendar : list (string * val)) (referenceDate : val) : list (string * val) :=
  if negb (truthy referenceDate) then calendar
  else filter (fun kv => near (dt_fromISO (str_of referenceDate)) kv.1 = true) calendar.

(** *** Requests *)
Definition startFetching (s : dash) : dash :=
  set_fetching true (on_refs (fun r => ref_pending (r_pending r + 1) r) s).

Definition finishFetching (s : dash) : dash :=
  let s := on_refs (fun r => ref_pending (Z.max 0 (r_pending r - 1)) r) s in
  if r_pending (s_refs s) =? 0 then set_fetching false s else s.

Definition send (k : kind) (query : list (string * val)) (s : dash) : dash :=
  set_flights (s_flights s ++ [Flight (s_next s) k query false]) (S (s_next s)) s.

Definition fetchPrayers (isInitial preserveViewedDate : bool) (s : dash) : dash :=
  let s := if isInitial then set_loading true s else s in
  send (Poll isInitial preserveViewedDate (d_reference (s_data s))) [] (startFetching s).

(** [controller.abort()] *)
Definition abort (controller : option nat) (s : dash) : dash :=
  match controller with
  | None => s
  | Some id => set_flights ((fun f => if Nat.eqb (f_id f) id
                 then Flight (f_id f) (f_kind f) (f_query f) true else f) <$> s_flights s) (s_next s) s
  end.

Definition fetchCalendarChunk (cursorDate : val) (direction : string) (targetDate : val)
    (requestId : Z) (originViewedDate : val) (s : dash) : dash :=
  let s := abort (r_controller (s_refs s)) s in
  let s := on_refs (ref_controller (Some (s_next s))) s in
  send (Chunk direction targetDate requestId originViewedDate)
    (prayer_query cursorDate (VStr direction)) (startFetching s).

(** *** Payloads *)
Definition day_of (calendar : list (string * val)) (date : val) : val := oget (show date) calendar.

Definition reference_after (captured payload : val) (s : dash) : val :=
  getLaterDate (js_or (prop (prop payload "meta") "date") VNull)
    (js_or (r_reference (s_refs s)) (js_or captured VNull)).

Definition is_stale (captured payload : val) (s : dash) : bool :=
  let payloadReferenceDate := js_or (prop (prop payload "meta") "date") VNull in
  let currentReferenceDate := js_or (r_reference (s_refs s)) (js_or captured VNull) in
  truthy payloadReferenceDate && truthy currentReferenceDate &&
  js_lt payloadReferenceDate currentReferenceDate.

Definition applyPayload (now : Z) (captured payload : val) (preserveViewedDate : bool) (s : dash) : dash :=
  let nextReference := reference_after captured payload s in
  let mergedCalendar := ospread (r_calendar (s_refs s)) (props (js_or (prop payload "calendar") (VObj []))) in
  let isStalePayload := is_stale captured payload s in
  let day := day_of mergedCalendar nextReference in
  let meta := prop payload "meta" in
  let d := s_data s in
  let s := on_data (fun _ => Data
    (if isStalePayload then js_or day (d_prayers d)
     else js_or (prop payload "prayers") (js_or day (VObj [])))
    (if isStalePayload then js_or (getNextPrayerFromDay day) (d_next d)
     else js_or (prop payload "nextPrayer") (js_or (getNextPrayerFromDay day) VNull))
    (if truthy meta then VObj (oset "date" (js_or nextReference (prop meta "date")) (props meta)) else VObj [])
    mergedCalendar
    (js_or (prop meta "location") VNull)
    (getLaterDate (d_reference d) nextReference)
    (if preserveViewedDate || isStalePayload
     then js_or (d_viewed d) (js_or nextReference VNull) else js_or nextReference VNull)
    VNull now) s in
  on_refs (fun r => ref_reference (js_or nextReference VNull) (ref_calendar mergedCalendar r)) s.

(** What a request comes to: the parsed body, or the message of what failed *)
Inductive answer := Body (payload : val) | Failed (message : string).

(** [reading] is the property the code reads first. *)
Definition body_of (reading : string) (a : answer) : result val :=
  match a with
  | Body payload => if is_nullish payload
      then Throw (TypeError ("Cannot read properties of " ++ show payload ++ " (reading '" ++ reading ++ "')"))
      else Ok payload
  | Failed message => Throw (Error message)
  end.

(** *** Transitions *)
Definition startDayTransition (targetDate : val) (direction : string) (s : dash) : dash :=
  if r_moving (s_refs s) then s else
  let m := s_motion s in
  set_timers (Some targetDate) (s_idle s)
    (set_motion (Motion direction true targetDate (m_nonce m + 1)) (on_refs (ref_moving true) s)).

Definition still (m : motion) : motion := Motion (m_direction m) false VNull (m_nonce m).

(** The timer of the transition *)
Definition endTransition (targetDate : val) (s : dash) : dash :=
  set_timers None (s_idle s) (set_motion (still (s_motion s))
    (on_data (set_viewed targetDate) (on_refs (fun r => ref_viewed targetDate (ref_moving false r)) s))).

(** The timer of the inactivity *)
Definition idleReturn (date : val) (s : dash) : dash :=
  set_timers (s_transition s) None (on_data (set_viewed date) (on_refs (ref_viewed date) s)).

(** *** Replies *)
Definition poll_reply (now : Z) (isInitial preserveViewedDate : bool) (captured : val) (a : answer) (s : dash)
    : dash :=
  let s := match body_of "meta" a with
           | Ok payload => applyPayload now captured payload preserveViewedDate s
           | Throw e => on_data (set_error (VStr (e_msg e))) s
           end in
  let s := finishFetching s in
  if isInitial then set_loading false s else s.

(** What is left of the fetch of a part: the part, when it has dates *)
Definition chunk_reply (id : nat) (direction : string) (aborted : bool) (a : answer) (s : dash)
    : list (string * val) * dash :=
  let '(chunk, s) :=
    if aborted then ([], s) else
    match body_of "calendar" a with
    | Throw e => ([], on_data (set_error (VStr (e_msg e))) s)
    | Ok payload =>
        let chunk := props (js_or (prop payload "calendar") (VObj [])) in
        match chunk with
        | [] => ([], set_boundary direction true s)
        | _ => (chunk, on_data (add_dates chunk)
                  (set_boundary direction (Nat.ltb (length chunk) 7) s))
        end
    end in
  let s := finishFetching s in
  (chunk, if bool_decide (r_controller (s_refs s) = Some id) then on_refs (ref_controller None) s else s).

(** The rest of [navigateDay], once the part has come *)
Definition arrived (chunk : list (string * val)) (direction : string) (targetDate : val) (requestId : Z)
    (originViewedDate : val) (s : dash) : dash :=
  if truthy (day_of chunk targetDate) && (r_request (s_refs s) =? requestId) &&
     seq (r_viewed (s_refs s)) originViewedDate
  then startDayTransition targetDate direction s else s.

Definition reply (now : Z) (f : flight) (a : answer) (s : dash) : dash :=
  let s := set_flights (filter (fun g => f_id g <> f_id f) (s_flights s)) (s_next s) s in
  match f_kind f with
  | Poll isInitial preserve captured => poll_reply now isInitial preserve captured a s
  | Chunk direction targetDate requestId originViewedDate =>
      let '(chunk, s) := chunk_reply (f_id f) direction (f_aborted f) a s in
      arrived chunk direction targetDate requestId originViewedDate s
  end.

(** *** Navigation *)
Section with_locale.
Context `{Loc : Locale}.

Fixpoint insert_key (x : string) (l : list string) : list string :=
  match l with
  | [] => [x]
  | y :: l' => if locale_le x y then x :: l else y :: insert_key x l'
  end.
Definition sortDateKeys (calendar : list (string * val)) : list string := foldr insert_key [] (okeys calendar).

Definition text_or_null (s : option string) : val := match s with Some x => js_or (VStr x) VNull | None => VNull end.
Definition minCachedDate (s : dash) : val := text_or_null (head (sortDateKeys (d_calendar (s_data s)))).
Definition maxCachedDate (s : dash) : val := text_or_null (last (sortDateKeys (d_calendar (s_data s)))).

Definition next_request (s : dash) : dash := on_refs (fun r => ref_request (r_request r + 1) r) s.

Definition navigateDay (delta : Z) (s : dash) : dash :=
  let viewedDate := d_viewed (s_data s) in
  if negb (truthy viewedDate) || (delta =? 0) || r_moving (s_refs s) then s else
  let direction := if 0 <? delta then "future" else "past" in
  let requestId := r_request (s_refs s) + 1 in
  let s := next_request s in
  let targetDate := dt_toISODate (dt_plus_days (dt_fromISO (str_of viewedDate)) delta) in
  if truthy (day_of (d_calendar (s_data s)) targetDate) then startDayTransition targetDate direction s else
  if (if 0 <? delta then s_future s else s_past s) then s else
  let cursorDate := if 0 <? delta then maxCachedDate s else minCachedDate s in
  if negb (truthy cursorDate) then s else
  fetchCalendarChunk cursorDate direction targetDate requestId viewedDate s.

Definition resetViewedDate (now : Z) (s : dash) : dash :=
  let active := activeReferenceDate now s in
  let viewedDate := d_viewed (s_data s) in
  if negb (truthy active) || seq viewedDate active || r_moving (s_refs s) then s else
  startDayTransition active
    (if truthy viewedDate && js_lt viewedDate active then "future" else "past") (next_request s).

Definition syncViewedDateToReference (now : Z) (s : dash) : dash :=
  let active := activeReferenceDate now s in
  if negb (truthy active) then s else
  let s := next_request s in
  set_timers None None (set_motion (still (s_motion s))
    (on_data (set_viewed active) (on_refs (fun r => ref_viewed active (ref_moving false r)) s))).

Definition canNavigateBackward (s : dash) : bool :=
  truthy (d_viewed (s_data s)) &&
  ((truthy (minCachedDate s) && js_lt (minCachedDate s) (d_viewed (s_data s))) || negb (s_past s)).

Definition canNavigateForward (s : dash) : bool :=
  truthy (d_viewed (s_data s)) &&
  ((truthy (maxCachedDate s) && js_lt (d_viewed (s_data s)) (maxCachedDate s)) || negb (s_future s)).

(** *** Midnight *)
Definition handleMidnight (nextReferenceDate : val) (s : dash) : dash :=
  let d := s_data s in
  let currentReferenceDate := js_or (r_reference (s_refs s)) (js_or (d_reference d) nextReferenceDate) in
  let currentViewedDate := r_viewed (s_refs s) in
  let nextViewedDate := if negb (truthy currentViewedDate) || seq currentViewedDate currentReferenceDate
                        then nextReferenceDate else currentViewedDate in
  let nextPrayers := js_or (day_of (r_calendar (s_refs s)) nextReferenceDate) VNull in
  on_refs (fun r => ref_reference nextReferenceDate (ref_viewed nextViewedDate r))
    (on_data (fun d => Data
       (if truthy nextPrayers then nextPrayers else d_prayers d)
       (if truthy nextPrayers then getNextPrayerFromDay nextPrayers else d_next d)
       (VObj (oset "date" nextReferenceDate (props (d_meta d))))
       (pruneCalendar (d_calendar d) nextReferenceDate) (d_timezone d)
       (getLaterDate (d_reference d) nextReferenceDate) nextViewedDate (d_error d) (d_updated d)) s).

Definition midnight (now : Z) (s : dash) : dash :=
  let nextReferenceDate := getReferenceDate (d_timezone (s_data s)) now in
  handleMidnight nextReferenceDate (set_observed nextReferenceDate s).

(** *** The commit: the refs follow the state; a change of [initialReferenceDate]
    makes a new [fetchPrayers], and with it the polling effect is torn down and
    set up again; the inactivity timer is reset when the date in view or the
    reference date has changed. *)
Definition sync_refs (old s : dash) : dash :=
  let s := if bool_decide (d_viewed (s_data s) = d_viewed (s_data old)) then s
           else on_refs (ref_viewed (d_viewed (s_data s))) s in
  if bool_decide (d_calendar (s_data s) = d_calendar (s_data old)) then s
  else on_refs (ref_calendar (d_calendar (s_data s))) s.

Definition restart_polling (s : dash) : dash :=
  fetchPrayers true false
    (abort (r_controller (s_refs s)) (set_timers None None (on_refs (ref_moving false) s))).

Definition idle_effect (now : Z) (old s : dash) : dash :=
  let active := activeReferenceDate now s in
  let viewedDate := d_viewed (s_data s) in
  if bool_decide (active = activeReferenceDate now old) && bool_decide (viewedDate = d_viewed (s_data old))
  then s else
  set_timers (s_transition s)
    (if truthy viewedDate && truthy active && negb (seq viewedDate active) then Some active else None) s.

Definition commit (now : Z) (old s : dash) : dash :=
  let s := if bool_decide (d_reference (s_data s) = d_reference (s_data old)) then s else restart_polling s in
  idle_effect now old (sync_refs old s).

(** ** Events *)
Inductive event :=
| Tick                              (* the five-minute interval, or a refetch *)
| Reply (id : nat) (a : answer)
| Navigate (delta : Z)
| ResetView
| SyncView
| SetView (v : val)
| TransitionEnds
| Idle
| Midnight.

Definition find_flight (id : nat) (s : dash) : option flight :=
  find (fun f => Nat.eqb (f_id f) id) (s_flights s).

(** [None]: the event cannot happen. *)
Definition handle (now : Z) (e : event) (s : dash) : option dash :=
  match e with
  | Tick => Some (fetchPrayers false true s)
  | Reply id a => f ← find_flight id s; Some (reply now f a s)
  | Navigate delta => Some (navigateDay delta s)
  | ResetView => Some (resetViewedDate now s)
  | SyncView => Some (syncViewedDateToReference now s)
  | SetView v => Some (on_data (set_viewed v) s)
  | TransitionEnds => targetDate ← s_transition s; Some (endTransition targetDate s)
  | Idle => date ← s_idle s; Some (idleReturn date s)
  | Midnight => Some (midnight now s)
  end.

Definition step (now : Z) (e : event) (s : dash) : option dash := commit now s <$> handle now e s.

(** The first render, and its effects *)
Definition blank (now : Z) : dash :=
  Dash (Data (VObj []) VNull (VObj []) [] VNull VNull VNull VNull now) (Motion "future" false VNull 0)
    (Refs VNull VNull [] false 0 0 None) true true false false VNull None None [] 0.
Definition mounted (now : Z) : dash := fetchPrayers true false (blank now).

Inductive reachable : dash -> Prop :=
| reach_mounted now : reachable (mounted now)
| reach_step now e s s' : reachable s -> step now e s = Some s' -> reachable s'.
Fixpoint run (l : list (Z * event)) (s : dash) : option dash :=
  match l with
  | [] => Some s
  | (now, e) :: l' => s' ← step now e s; run l' s'
  end.

End with_locale.
End hook.

(** ** Lemmas *)
Definition is_chunk (f : flight) : bool := match f_kind f with Chunk _ _ _ _ => true | _ => false end.

(** What holds between two effects: the counter counts the requests, the
    spinner shows them, identities are fresh, the ref of a transition is set
    exactly while its timer runs, the page then moving towards the timer's date,
    and at most one part of the calendar is waited for. *)
Definition core (s : dash) : Prop :=
  r_pending (s_refs s) = Z.of_nat (length (s_flights s)) /\
  s_fetching s = negb (bool_decide (s_flights s = [])) /\
  (NoDup (f_id <$> s_flights s) /\ Forall (fun f => f_id f < s_next s)%nat (s_flights s)) /\
  match s_transition s with
  | Some t => r_moving (s_refs s) = true /\ m_moving (s_motion s) = true /\ m_target (s_motion s) = t
  | None => r_moving (s_refs s) = false
  end /\
  Forall (fun f => is_chunk f = true -> f_aborted f = false -> r_controller (s_refs s) = Some (f_id f)) (s_flights s).

Definition synced (s : dash) : Prop :=
  r_viewed (s_refs s) = d_viewed (s_data s) /\ r_calendar (s_refs s) = d_calendar (s_data s).

Lemma core_send k q s :
  core s -> (is_chunk (Flight (s_next s) k q false) = true -> r_controller (s_refs s) = Some (s_next s)) ->
  core (send k q (startFetching s)).
Proof.
  intros (Hp & Hf & [Hn Hl] & Ht & Hc) Hk. unfold core. cbn. rewrite length_app, Hp. split; [cbn; lia|].
  split; [by rewrite bool_decide_false by (by destruct (s_flights s))|]. split; [split|split; [exact Ht|]].
  - rewrite fmap_app. apply NoDup_app. split; [done|]. split; [|apply NoDup_singleton].
    intros x Hx Hy%list_elem_of_singleton. cbn in Hy. subst x. apply list_elem_of_fmap in Hx as (f & Hfe & Hin).
    rewrite Forall_forall in Hl. specialize (Hl f Hin). lia.
  - apply Forall_app. split; [|apply Forall_singleton; cbn; lia].
    eapply Forall_impl; [exact Hl|]. intros f Hlt. cbn in *. lia.
  - apply Forall_app. split; [exact Hc|]. apply Forall_singleton. intros H _. by apply Hk.
Qed.

Lemma core_fetch b p s : core s -> core (fetchPrayers b p s).
Proof. intros H. unfold fetchPrayers. destruct b; by apply core_send. Qed.

(** After an abort no part of the calendar is waited for. *)
Lemma core_abort s :
  core s -> core (abort (r_controller (s_refs s)) s) /\
    Forall (fun f => is_chunk f = true -> f_aborted f = true) (s_flights (abort (r_controller (s_refs s)) s)).
Proof.
  intros H. pose proof H as (Hp & Hf & [Hn Hl] & Ht & Hc). unfold abort.
  destruct (r_controller (s_refs s)) as [id|] eqn:Ec.
  - set (g := fun f => if Nat.eqb (f_id f) id then Flight (f_id f) (f_kind f) (f_query f) true else f).
    assert (forall f, f_id (g f) = f_id f) as Hg by (intros f; unfold g; by destruct (Nat.eqb (f_id f) id)).
    split.
    + unfold core. cbn. rewrite length_fmap. split; [exact Hp|]. split.
      { rewrite Hf. by destruct (s_flights s). }
      split; [|split; [exact Ht|]].
      * rewrite <- list_fmap_compose. rewrite (list_fmap_ext (f_id ∘ g) f_id) by (intros; apply Hg).
        split; [done|]. apply Forall_fmap. eapply Forall_impl; [exact Hl|]. intros f Hlt. cbn. by rewrite Hg.
      * apply Forall_fmap. eapply Forall_impl; [exact Hc|]. intros f Hi. cbn. unfold g.
        destruct (Nat.eqb_spec (f_id f) id) as [E|E]; [done|]. intros H1 H2. specialize (Hi H1 H2). congruence.
    + cbn. apply Forall_fmap. eapply Forall_impl; [exact Hc|]. intros f Hi. cbn. unfold g.
      destruct (Nat.eqb_spec (f_id f) id) as [E|E]; [done|]. intros H1.
      destruct (f_aborted f) eqn:Ea; [done|]. specialize (Hi H1 Ea). congruence.
  - split; [exact H|]. eapply Forall_impl; [exact Hc|]. intros f Hi H1.
    destruct (f_aborted f) eqn:Ea; [done|]. by specialize (Hi H1 Ea).
Qed.

Lemma core_chunk c d t r o s : core s -> core (fetchCalendarChunk c d t r o s).
Proof.
  intros H. destruct (core_abort s H) as [(Hp & Hf & Hn & Ht & _) Hab]. unfold fetchCalendarChunk.
  apply core_send; [|done]. split; [exact Hp|split; [exact Hf|split; [exact Hn|split; [exact Ht|]]]].
  eapply Forall_impl; [exact Hab|]. intros f Hi H1 H2. cbn in *. rewrite (Hi H1) in H2. done.
Qed.

Lemma core_start t d s : core s -> core (startDayTransition t d s).
Proof.
  intros H. pose proof H as (Hp & Hf & Hn & Ht & Hc). unfold startDayTransition.
  destruct (r_moving (s_refs s)) eqn:Em; [exact H|].
  split; [exact Hp|split; [exact Hf|split; [exact Hn|split; [by split_and!|exact Hc]]]].
Qed.

(** Between the arrival of a reply and the end of its handling *)
Definition owing (s : dash) : Prop :=
  r_pending (s_refs s) = Z.of_nat (length (s_flights s)) + 1 /\ s_fetching s = true /\
  (NoDup (f_id <$> s_flights s) /\ Forall (fun f => f_id f < s_next s)%nat (s_flights s)) /\
  match s_transition s with
  | Some t => r_moving (s_refs s) = true /\ m_moving (s_motion s) = true /\ m_target (s_motion s) = t
  | None => r_moving (s_refs s) = false
  end /\
  Forall (fun f => is_chunk f = true -> f_aborted f = false -> r_controller (s_refs s) = Some (f_id f)) (s_flights s).

Lemma core_finish s : owing s -> core (finishFetching s).
Proof.
  intros (Hp & Hf & Hn & Ht & Hc). unfold finishFetching. cbv zeta.
  set (s' := on_refs _ s). assert (r_pending (s_refs s') = Z.of_nat (length (s_flights s))) as Hp' by (cbn; lia).
  destruct (Z.eqb_spec (r_pending (s_refs s')) 0) as [E|E]; rewrite Hp' in E.
  - assert (s_flights s = []) as Hnil by (destruct (s_flights s); [done|cbn in E; lia]).
    split; [exact Hp'|split; [|split; [exact Hn|split; [exact Ht|exact Hc]]]]. cbn. by rewrite Hnil.
  - split; [exact Hp'|split; [|split; [exact Hn|split; [exact Ht|exact Hc]]]]. cbn. rewrite Hf.
    by destruct (s_flights s).
Qed.

Lemma filter_one (l : list flight) f :
  NoDup (f_id <$> l) -> f ∈ l -> length (filter (fun g => f_id g <> f_id f) l) = pred (length l).
Proof.
  induction l as [|x l IH]; intros Hn Hin; [by apply not_elem_of_nil in Hin|].
  apply NoDup_cons in Hn as [Hx Hn]. rewrite filter_cons. destruct (decide (f_id x <> f_id f)) as [Hd|Hd].
  - apply elem_of_cons in Hin as [->|Hin]; [done|]. cbn. rewrite IH by done. destruct l; [by apply not_elem_of_nil in Hin|done].
  - apply dec_stable in Hd. cbn. f_equal. clear IH Hin Hn. induction l as [|y l IH]; [done|].
    rewrite filter_cons. cbn in Hx. apply not_elem_of_cons in Hx as [Hy Hx]. rewrite decide_True by congruence.
    cbn. f_equal. by apply IH.
Qed.

Lemma owing_reply f s :
  core s -> f ∈ s_flights s -> owing (set_flights (filter (fun g => f_id g <> f_id f) (s_flights s)) (s_next s) s).
Proof.
  intros (Hp & Hf & [Hn Hl] & Ht & Hc) Hin. unfold owing. cbn. rewrite filter_one, Hp by done.
  assert (0 < length (s_flights s))%nat by (destruct (s_flights s); [by apply not_elem_of_nil in Hin|cbn; lia]).
  split; [lia|]. split; [rewrite Hf, bool_decide_false; [done|by intros E; rewrite E in Hin; apply not_elem_of_nil in Hin]|].
  split; [split|split; [exact Ht|]].
  - eapply sublist_NoDup; [exact Hn|]. apply fmap_sublist, sublist_filter.
  - apply Forall_forall. intros g [_ Hg]%list_elem_of_filter. by apply (proj1 (Forall_forall _ _) Hl).
  - apply Forall_forall. intros g [_ Hg]%list_elem_of_filter. by apply (proj1 (Forall_forall _ _) Hc).
Qed.

Lemma core_poll_reply now i p c a s : owing s -> core (poll_reply now i p c a s).
Proof.
  intros H. unfold poll_reply. destruct (body_of _ a) as [payload|e].
  - destruct i; apply (core_finish (applyPayload now c payload p s)); exact H.
  - destruct i; apply (core_finish (on_data _ s)); exact H.
Qed.

(** Once its reply is in, the controller of a part is let go. *)
Lemma core_release id s :
  core s -> id ∉ f_id <$> s_flights s ->
  core (if bool_decide (r_controller (s_refs s) = Some id) then on_refs (ref_controller None) s else s).
Proof.
  intros H Hid. pose proof H as (Hp & Hf & Hn & Ht & Hc). 
  destruct (bool_decide (r_controller (s_refs s) = Some id)) eqn:E; [apply bool_decide_eq_true in E|exact H].
  split; [exact Hp|split; [exact Hf|split; [exact Hn|split; [exact Ht|]]]]. cbn.
  apply Forall_forall. intros f Hin H1 H2. rewrite Forall_forall in Hc. specialize (Hc f Hin H1 H2).
  rewrite E in Hc. injection Hc as ->. exfalso. apply Hid. by apply list_elem_of_fmap_2.
Qed.

Lemma finish_flights s : s_flights (finishFetching s) = s_flights s.
Proof. unfold finishFetching. by destruct (_ =? 0). Qed.

Lemma core_reply now f a s : core s -> f ∈ s_flights s -> core (reply now f a s).
Proof.
  intros H Hin. pose proof (owing_reply f s H Hin) as Ho. unfold reply.
  destruct (f_kind f) as [i p c|d t r o]; [by apply core_poll_reply|].
  set (s1 := set_flights _ _ s) in *.
  assert (f_id f ∉ f_id <$> s_flights s1) as Hid.
  { intros (g & E & Hg)%list_elem_of_fmap. cbn in Hg. apply list_elem_of_filter in Hg as [Hne _]. congruence. }
  assert (core (chunk_reply (f_id f) d (f_aborted f) a s1).2) as Hc.
  { unfold chunk_reply.
    assert (forall c0 s2, owing s2 -> s_flights s2 = s_flights s1 ->
      core (let s := finishFetching s2 in (c0 : list (string * val),
        if bool_decide (r_controller (s_refs s) = Some (f_id f)) then on_refs (ref_controller None) s else s)).2) as K.
    { intros c0 s2 Ho2 Hf2. cbn [snd]. apply core_release; [by apply core_finish|]. by rewrite finish_flights, Hf2. }
    destruct (f_aborted f); [by apply K|]. destruct (body_of _ a) as [payload|e]; [|by apply K].
    destruct (props _); by apply K. }
  destruct (chunk_reply _ _ _ _ s1) as [chunk s2]. cbn [snd] in Hc. unfold arrived.
  destruct (_ && _); [by apply core_start|done].
Qed.

(** ** Every event keeps [core] *)
Section steps.
Context `{L : Luxon} `{Loc : Locale}.

Lemma core_still s (f : data -> data) (g : refs -> refs) :
  (forall r, r_pending (g r) = r_pending r /\ r_controller (g r) = r_controller r /\ r_moving (g r) = false) ->
  core s -> forall idle, core (set_timers None idle (set_motion (still (s_motion s)) (on_data f (on_refs g s)))).
Proof.
  intros Hg (Hp & Hf & Hn & _ & Hc) idle. destruct (Hg (s_refs s)) as (E1 & E2 & E3).
  split; [cbn; congruence|]. split; [exact Hf|]. split; [exact Hn|]. split; [exact E3|]. cbn. by rewrite E2.
Qed.

Lemma core_navigate delta s : core s -> core (navigateDay delta s).
Proof.
  intros H. unfold navigateDay. destruct (_ || _); [exact H|]. cbv zeta.
  assert (core (next_request s)) as Hn by exact H.
  destruct (truthy _); [by apply core_start|].
  destruct (if 0 <? delta then _ else _); [done|].
  destruct (negb _); [done|]. by apply core_chunk.
Qed.

Lemma core_handle now e s s' : core s -> handle now e s = Some s' -> core s'.
Proof.
  intros H E. destruct e; cbn [handle] in E.
  - injection E as <-. by apply core_fetch.
  - unfold mbind, option_bind in E. destruct (find_flight id s) as [f|] eqn:Ef; [|done]. injection E as <-.
    apply find_some in Ef as [Hin _]. apply core_reply; [done|]. by apply list_elem_of_In.
  - injection E as <-. by apply core_navigate.
  - injection E as <-. unfold resetViewedDate. cbv zeta. destruct (_ || _); [exact H|]. by apply core_start.
  - injection E as <-. unfold syncViewedDateToReference. cbv zeta. destruct (negb _); [exact H|].
    by apply (core_still (next_request s)).
  - injection E as <-. exact H.
  - unfold mbind, option_bind in E. destruct (s_transition s) as [t|]; [|done]. injection E as <-.
    by apply (core_still s).
  - unfold mbind, option_bind in E. destruct (s_idle s) as [t|]; [|done]. injection E as <-. exact H.
  - injection E as <-. exact H.
Qed.

Lemma core_commit now old s : core s -> core (commit now old s).
Proof.
  intros H. unfold commit.
  assert (core (if bool_decide (d_reference (s_data s) = d_reference (s_data old)) then s else restart_polling s)) as K.
  { destruct (bool_decide _); [exact H|]. unfold restart_polling. apply core_fetch.
    refine (proj1 (core_abort (set_timers None None (on_refs (ref_moving false) s)) _)).
    destruct H as (Hp & Hf & Hn & _ & Hc). by split. }
  set (s1 := if bool_decide _ then s else _) in *. clearbody s1.
  assert (core (sync_refs old s1)) as K2 by (unfold sync_refs; by repeat destruct (bool_decide _)).
  unfold idle_effect. destruct (_ && _); exact K2.
Qed.

(** ** The refs follow the state

    Within an event a ref either keeps its value or takes the state's; the
    commit does the rest. *)
Definition follows (s s' : dash) : Prop :=
  (r_viewed (s_refs s') = r_viewed (s_refs s) \/ r_viewed (s_refs s') = d_viewed (s_data s')) /\
  (r_calendar (s_refs s') = r_calendar (s_refs s) \/ r_calendar (s_refs s') = d_calendar (s_data s')).

Lemma follows_refs s s' :
  r_viewed (s_refs s') = r_viewed (s_refs s) -> r_calendar (s_refs s') = r_calendar (s_refs s) -> follows s s'.
Proof. intros E1 E2. split; by left. Qed.

Lemma abort_refs c s : s_refs (abort c s) = s_refs s.
Proof. by destruct c. Qed.
Lemma abort_data c s : s_data (abort c s) = s_data s.
Proof. by destruct c. Qed.
Lemma finish_data s : s_data (finishFetching s) = s_data s.
Proof. unfold finishFetching. by destruct (_ =? 0). Qed.
Lemma finish_refs s :
  r_viewed (s_refs (finishFetching s)) = r_viewed (s_refs s) /\
  r_calendar (s_refs (finishFetching s)) = r_calendar (s_refs s) /\
  r_reference (s_refs (finishFetching s)) = r_reference (s_refs s).
Proof. unfold finishFetching. by destruct (_ =? 0). Qed.
Lemma start_refs t d s :
  r_viewed (s_refs (startDayTransition t d s)) = r_viewed (s_refs s) /\
  r_calendar (s_refs (startDayTransition t d s)) = r_calendar (s_refs s) /\
  r_reference (s_refs (startDayTransition t d s)) = r_reference (s_refs s) /\
  s_data (startDayTransition t d s) = s_data s.
Proof. unfold startDayTransition. by destruct (r_moving (s_refs s)). Qed.

(** What a poll's reply leaves in the data and the refs *)
Lemma poll_reply_parts now i p c a s :
  let s1 := match body_of "meta" a with
            | Ok payload => applyPayload now c payload p s
            | Throw e => on_data (set_error (VStr (e_msg e))) s
            end in
  s_data (poll_reply now i p c a s) = s_data s1 /\
  r_viewed (s_refs (poll_reply now i p c a s)) = r_viewed (s_refs s1) /\
  r_calendar (s_refs (poll_reply now i p c a s)) = r_calendar (s_refs s1) /\
  r_reference (s_refs (poll_reply now i p c a s)) = r_reference (s_refs s1).
Proof.
  cbv zeta. unfold poll_reply. set (s1 := match body_of _ a with Ok _ => _ | Throw _ => _ end).
  destruct (finish_refs s1) as (E1 & E2 & E3). destruct i; cbn; by rewrite finish_data.
Qed.

(** What a part's reply leaves: the date in view, the reference date and their
    refs as they were, and of the calendar's ref too. *)
Lemma chunk_parts id d ab a s :
  let s' := (chunk_reply id d ab a s).2 in
  r_viewed (s_refs s') = r_viewed (s_refs s) /\ r_calendar (s_refs s') = r_calendar (s_refs s) /\
  r_reference (s_refs s') = r_reference (s_refs s) /\
  d_reference (s_data s') = d_reference (s_data s) /\ d_viewed (s_data s') = d_viewed (s_data s).
Proof.
  cbv zeta. unfold chunk_reply.
  assert (forall c0 s2, s_refs s2 = s_refs s -> d_reference (s_data s2) = d_reference (s_data s) ->
    d_viewed (s_data s2) = d_viewed (s_data s) ->
    let s' := (let s := finishFetching s2 in (c0 : list (string * val),
      if bool_decide (r_controller (s_refs s) = Some id) then on_refs (ref_controller None) s else s)).2 in
    r_viewed (s_refs s') = r_viewed (s_refs s) /\ r_calendar (s_refs s') = r_calendar (s_refs s) /\
    r_reference (s_refs s') = r_reference (s_refs s) /\
    d_reference (s_data s') = d_reference (s_data s) /\ d_viewed (s_data s') = d_viewed (s_data s)) as K.
  { intros c0 s2 Er E1 E2. cbv zeta. destruct (finish_refs s2) as (F1 & F2 & F3).
    destruct (bool_decide _); cbn; rewrite ?finish_data; rewrite Er in *; auto. }
  destruct ab; [by apply K|]. destruct (body_of _ a) as [payload|e]; [|by apply K].
  destruct (props _); by apply K.
Qed.

(** What every event does to the refs and to the reference date *)
Definition keeps (s s' : dash) : Prop :=
  follows s s' /\
  (d_reference (s_data s') = d_reference (s_data s) \/
   exists x, d_reference (s_data s') = getLaterDate (d_reference (s_data s)) x).

Lemma keeps_same s s' :
  r_viewed (s_refs s') = r_viewed (s_refs s) -> r_calendar (s_refs s') = r_calendar (s_refs s) ->
  d_reference (s_data s') = d_reference (s_data s) -> keeps s s'.
Proof. intros E1 E2 E3. split; [by apply follows_refs|by left]. Qed.

Lemma keeps_start t d s : keeps s (startDayTransition t d s).
Proof. destruct (start_refs t d s) as (E1 & E2 & _ & E3). apply keeps_same; [done|done|by rewrite E3]. Qed.

Lemma keeps_reply now f a s : keeps s (reply now f a s).
Proof.
  unfold reply. set (s0 := set_flights _ _ s). destruct (f_kind f) as [i p c|d t r o].
  - destruct (poll_reply_parts now i p c a s0) as (E1 & E2 & E3 & _). unfold keeps, follows. rewrite E1, E2, E3.
    destruct (body_of "meta" a) as [payload|e]; [|split; [by split; left|by left]].
    split; [by split; [left|right]|]. right. by eexists.
  - pose proof (chunk_parts (f_id f) d (f_aborted f) a s0) as (E1 & E2 & _ & E4 & _).
    destruct (chunk_reply _ _ _ _ s0) as [chunk s2]. cbn [snd] in *. unfold arrived.
    destruct (_ && _); [|by apply keeps_same].
    destruct (start_refs t d s2) as (F1 & F2 & _ & F3). apply keeps_same; [by rewrite F1|by rewrite F2|by rewrite F3].
Qed.

Lemma keeps_navigate delta s : keeps s (navigateDay delta s).
Proof.
  unfold navigateDay. destruct (_ || _); [by apply keeps_same|]. cbv zeta.
  destruct (truthy _); [apply (keeps_start _ _ (next_request s))|].
  destruct (if 0 <? delta then _ else _); [by apply keeps_same|].
  destruct (negb _); [by apply keeps_same|].
  apply keeps_same; cbn; by rewrite ?abort_refs, ?abort_data.
Qed.

Lemma keeps_handle now e s s' : handle now e s = Some s' -> keeps s s'.
Proof.
  intros E. destruct e; cbn [handle] in E; unfold mbind, option_bind in E.
  - injection E as <-. by apply keeps_same.
  - destruct (find_flight id s) as [f|]; [|done]. injection E as <-. apply keeps_reply.
  - injection E as <-. apply keeps_navigate.
  - injection E as <-. unfold resetViewedDate. cbv zeta. destruct (_ || _); [by apply keeps_same|].
    apply (keeps_start _ _ (next_request s)).
  - injection E as <-. unfold syncViewedDateToReference. cbv zeta. destruct (negb _); [by apply keeps_same|].
    split; [by split; [right|left]|by left].
  - injection E as <-. by apply keeps_same.
  - destruct (s_transition s) as [t|]; [|done]. injection E as <-. split; [by split; [right|left]|by left].
  - destruct (s_idle s) as [t|]; [|done]. injection E as <-. split; [by split; [right|left]|by left].
  - injection E as <-. split; [by split; [right|left]|]. right. by eexists.
Qed.

(** The commit brings the refs in line with the data, which it leaves alone. *)
Lemma commit_data now old s : s_data (commit now old s) = s_data s.
Proof.
  unfold commit, idle_effect, sync_refs, restart_polling.
  destruct (bool_decide (d_reference _ = _)); repeat destruct (bool_decide _); cbn; by rewrite ?abort_data.
Qed.

Lemma commit_refs now old s :
  r_viewed (s_refs (commit now old s)) =
    (if bool_decide (d_viewed (s_data s) = d_viewed (s_data old)) then r_viewed (s_refs s) else d_viewed (s_data s)) /\
  r_calendar (s_refs (commit now old s)) =
    (if bool_decide (d_calendar (s_data s) = d_calendar (s_data old))
     then r_calendar (s_refs s) else d_calendar (s_data s)).
Proof.
  unfold commit.
  set (s1 := if bool_decide (d_reference _ = _) then s else _).
  assert (s_data s1 = s_data s /\ r_viewed (s_refs s1) = r_viewed (s_refs s) /\
          r_calendar (s_refs s1) = r_calendar (s_refs s)) as (E1 & E2 & E3).
  { unfold s1. destruct (bool_decide _); [done|]. unfold restart_polling. cbn. by rewrite abort_data, abort_refs. }
  clearbody s1. unfold idle_effect.
  assert (r_viewed (s_refs (sync_refs old s1)) = (if bool_decide (d_viewed (s_data s) = d_viewed (s_data old))
            then r_viewed (s_refs s) else d_viewed (s_data s)) /\
          r_calendar (s_refs (sync_refs old s1)) = (if bool_decide (d_calendar (s_data s) = d_calendar (s_data old))
            then r_calendar (s_refs s) else d_calendar (s_data s))) as K.
  { unfold sync_refs. cbv zeta. rewrite E1. destruct (bool_decide (d_viewed _ = _)); cbn; rewrite E1;
      destruct (bool_decide (d_calendar _ = _)); cbn; auto; by rewrite E2, ?E3. }
  destruct (_ && _); exact K.
Qed.

Lemma synced_commit now old s : synced old -> follows old s -> synced (commit now old s).
Proof.
  intros [Sv Sc] [Fv Fc]. destruct (commit_refs now old s) as [E1 E2].
  split; rewrite ?E1, ?E2, commit_data.
  - destruct (bool_decide (d_viewed _ = _)) eqn:E; [apply bool_decide_eq_true in E|done]. destruct Fv as [->| ->]; congruence.
  - destruct (bool_decide (d_calendar _ = _)) eqn:E; [apply bool_decide_eq_true in E|done]. destruct Fc as [->| ->]; congruence.
Qed.

Lemma step_keeps now e s s' : core s /\ synced s -> step now e s = Some s' -> core s' /\ synced s'.
Proof.
  intros [Hc Hs] E. unfold step, fmap, option_fmap, option_map in E. destruct (handle now e s) as [s1|] eqn:Eh; [|done].
  injection E as <-. split; [by eapply core_commit, core_handle|].
  apply synced_commit; [done|]. by eapply keeps_handle.
Qed.

Lemma mounted_keeps now : core (mounted now) /\ synced (mounted now).
Proof.
  split; [|by split]. split; [done|split; [done|]]. split; [|split; [done|by apply Forall_singleton]].
  split; [apply NoDup_singleton|apply Forall_singleton; cbn; lia].
Qed.

(** C11: In every state the dashboard can reach, whatever the order of replies,
    timers, midnights and clicks: the spinner shows exactly while requests are
    in flight and their counter is their number; requests have distinct
    identities; the ref that keeps a second day transition from starting is set
    exactly while the timer of one runs, and as long as it runs the page is
    marked as moving, towards the timer's date; at most one part of the calendar
    is waited for, the one the controller would abort; and the refs of the date
    in view and of the calendar agree with the page. *)
Theorem dashboard_invariant s : reachable s -> core s /\ synced s.
Proof.
  induction 1 as [now|now e s s' Hr IH E].
  - apply mounted_keeps.
  - by eapply step_keeps.
Qed.

Lemma ltb_irrefl s : String.ltb s s = false.
Proof. unfold String.ltb. pose proof (String.compare_antisym s s) as H. by destruct (String.compare s s). Qed.
Lemma ltb_asym s t : String.ltb s t = true -> String.ltb t s = false.
Proof. unfold String.ltb. rewrite (String.compare_antisym t s). by destruct (String.compare s t). Qed.
Lemma ltb_empty s : String.ltb s "" = false.
Proof. by destruct s. Qed.

(** A later date is never before the first. *)
Lemma later_not_before l x : js_lt (getLaterDate l x) l = false.
Proof.
  unfold getLaterDate. destruct (truthy l) eqn:El; cbn [negb].
  - destruct (truthy x) eqn:Ex; cbn [negb]; [destruct (js_lt x l) eqn:E; [|done]|];
      destruct l; try done; apply ltb_irrefl.
  - destruct l as [| |[]| |[|]| |]; try done; destruct (js_or x VNull); try done. apply ltb_empty.
Qed.

(** The reference date of the dashboard never goes back: whatever happens, a
    late reply, a midnight of a clock set back, the date it had is not after the
    date it has. *)
Theorem reference_never_back now e s s' :
  step now e s = Some s' -> js_lt (d_reference (s_data s')) (d_reference (s_data s)) = false.
Proof.
  intros E. unfold step, fmap, option_fmap, option_map in E. destruct (handle now e s) as [s1|] eqn:Eh; [|done].
  injection E as <-. rewrite commit_data. destruct (keeps_handle now e s s1 Eh) as [_ [->|[x ->]]].
  - pose proof (later_not_before (d_reference (s_data s)) VNull) as H. unfold getLaterDate in H.
    destruct (truthy _) eqn:Et in H; [done|]. by destruct (d_reference (s_data s)) as [| | | |[]| |].
  - apply later_not_before.
Qed.

Lemma stale_reference captured payload s :
  is_stale captured payload s = true -> truthy (r_reference (s_refs s)) = true ->
  reference_after captured payload s = r_reference (s_refs s).
Proof.
  unfold is_stale, reference_after, getLaterDate. intros H Ht.
  assert (js_or (r_reference (s_refs s)) (js_or captured VNull) = r_reference (s_refs s)) as E
    by (unfold js_or at 1; by rewrite Ht).
  rewrite E in *. apply andb_prop in H as [[H1 _]%andb_prop H2]. rewrite H1, Ht. cbn [negb].
  replace (js_lt (r_reference (s_refs s)) (js_or (prop (prop payload "meta") "date") VNull)) with false; [done|].
  symmetry. revert H2. destruct (js_or _ _), (r_reference _); try done. apply ltb_asym.
Qed.

Lemma later_self v : truthy v = true -> getLaterDate v v = v.
Proof. unfold getLaterDate. intros ->. cbn [negb]. by destruct (js_lt v v). Qed.

(** A reply that was overtaken, its day being before the reference date,
    changes neither the reference date nor the date in view; of the times it
    shows those of the reference day in the merged calendar, or leaves the ones
    on the page. *)
Theorem stale_reply_shows_reference_day now s s' id f i p c payload :
  find_flight id s = Some f -> f_kind f = Poll i p c -> is_nullish payload = false ->
  truthy (d_reference (s_data s)) = true -> r_reference (s_refs s) = d_reference (s_data s) ->
  is_stale c payload s = true -> step now (Reply id (Body payload)) s = Some s' ->
  let merged := ospread (r_calendar (s_refs s)) (props (js_or (prop payload "calendar") (VObj []))) in
  d_reference (s_data s') = d_reference (s_data s) /\
  d_viewed (s_data s') = js_or (d_viewed (s_data s)) (d_reference (s_data s)) /\
  d_prayers (s_data s') = js_or (day_of merged (d_reference (s_data s))) (d_prayers (s_data s)) /\
  d_calendar (s_data s') = merged.
Proof.
  intros Ef Ek Hp Ht Hr Hs E. cbv zeta. unfold step in E. cbn [handle] in E. rewrite Ef in E. cbn in E.
  injection E as <-. rewrite commit_data. unfold reply. rewrite Ek. set (s0 := set_flights _ _ s).
  destruct (poll_reply_parts now i p c (Body payload) s0) as (E1 & _). rewrite E1. cbn [body_of]. rewrite Hp.
  assert (reference_after c payload s0 = d_reference (s_data s)) as Ea.
  { rewrite <- Hr. apply (stale_reference c payload s0); [exact Hs|]. cbn. by rewrite Hr. }
  unfold applyPayload. cbv zeta. rewrite Ea. change (is_stale c payload s0) with (is_stale c payload s). rewrite Hs.
  cbn. rewrite later_self by done. rewrite orb_true_r. split; [done|]. split; [|done].
  unfold js_or at 2. by rewrite Ht.
Qed.

Lemma find_last l f : Forall (fun g => f_id g < f_id f)%nat l -> find (fun g => Nat.eqb (f_id g) (f_id f)) (l ++ [f]) = Some f.
Proof.
  induction 1 as [|g l Hg _ IH]; cbn; [by rewrite Nat.eqb_refl|].
  destruct (Nat.eqb_spec (f_id g) (f_id f)); [lia|exact IH].
Qed.

Lemma js_lt_truthy a b : js_lt a b = true -> truthy b = true.
Proof. destruct a, b as [| | | |[]| |]; try done. cbn. by rewrite ltb_empty. Qed.

(** The commit after a change of the reference date asks for the times again. *)
Lemma restarted now old s :
  core s -> d_reference (s_data s) <> d_reference (s_data old) ->
  let s' := commit now old s in
  find_flight (s_next s) s' = Some (Flight (s_next s) (Poll true false (d_reference (s_data s))) [] false) /\
  r_reference (s_refs s') = r_reference (s_refs s).
Proof.
  intros Hc Hd. cbv zeta. unfold commit. rewrite bool_decide_false by done.
  set (s1 := restart_polling s).
  assert (find_flight (s_next s) s1 = Some (Flight (s_next s) (Poll true false (d_reference (s_data s))) [] false)
          /\ r_reference (s_refs s1) = r_reference (s_refs s)) as K.
  { destruct (core_abort (set_timers None None (on_refs (ref_moving false) s))) as [(_ & _ & [_ Hl] & _) _].
    { destruct Hc as (Hp & Hf & Hn & _ & Hc). by split. }
    unfold s1, restart_polling, find_flight, fetchPrayers. cbn [s_flights send set_flights startFetching].
    cbn -[abort find]. rewrite abort_data, abort_refs.
    assert (s_next (abort (r_controller (s_refs s)) (set_timers None None (on_refs (ref_moving false) s))) = s_next s) as En
      by (unfold abort; by destruct (r_controller _)).
    rewrite En. split; [|done]. cbn -[abort] in Hl.
    apply (find_last _ (Flight (s_next s) (Poll true false (d_reference (s_data s))) [] false)). by rewrite En in Hl. }
  clearbody s1. unfold idle_effect, sync_refs. cbv zeta.
  destruct (_ && _); repeat destruct (bool_decide _); exact K.
Qed.

(** The reply to a request that does not keep the view shows the reference date. *)
Lemma fresh_reply now id i c payload s :
  find_flight id s = Some (Flight id (Poll i false c) [] false) -> is_nullish payload = false ->
  truthy (r_reference (s_refs s)) = true -> prop (prop payload "meta") "date" = r_reference (s_refs s) ->
  exists s', step now (Reply id (Body payload)) s = Some s' /\ d_viewed (s_data s') = r_reference (s_refs s).
Proof.
  intros Ef Hp Ht Hm. eexists. split; [unfold step; cbn [handle]; rewrite Ef; reflexivity|].
  rewrite commit_data. unfold reply. cbn [f_kind]. set (s0 := set_flights _ _ s).
  destruct (poll_reply_parts now i false c (Body payload) s0) as (-> & _). cbn [body_of]. rewrite Hp.
  assert (forall x, js_or (r_reference (s_refs s)) x = r_reference (s_refs s)) as Hor by (intros x; unfold js_or; by rewrite Ht).
  unfold applyPayload, is_stale, reference_after. cbv zeta. change (s_refs s0) with (s_refs s). rewrite Hm, !Hor.
  rewrite later_self by done.
  assert (js_lt (r_reference (s_refs s)) (r_reference (s_refs s)) = false) as ->
    by (destruct (r_reference _); try done; apply ltb_irrefl).
  rewrite andb_false_r. apply Hor.
Qed.

(** The day the user is looking at does not survive midnight.  At midnight
    the date in view is kept when it is not the reference date; but the new
    reference date restarts the polling, and the reply to the request this
    sends moves the view to the new day. *)
Theorem midnight_loses_view now now' s payload :
  core s -> synced s ->
  let next := getReferenceDate (d_timezone (s_data s)) now in
  truthy (d_reference (s_data s)) = true -> r_reference (s_refs s) = d_reference (s_data s) ->
  js_lt (d_reference (s_data s)) next = true ->
  truthy (d_viewed (s_data s)) = true -> seq (d_viewed (s_data s)) (d_reference (s_data s)) = false ->
  prop (prop payload "meta") "date" = next -> is_nullish payload = false ->
  exists s1 s2,
    step now Midnight s = Some s1 /\ d_viewed (s_data s1) = d_viewed (s_data s) /\
    step now' (Reply (s_next s) (Body payload)) s1 = Some s2 /\ d_viewed (s_data s2) = next.
Proof.
  intros Hc [Hs _] next Ht Hr Hlt Hv Hne Hm Hn.
  set (m := midnight now s). assert (d_reference (s_data m) = next) as Em.
  { cbn. unfold getLaterDate. fold next. rewrite Ht, (js_lt_truthy _ _ Hlt). cbn [negb].
    replace (js_lt next (d_reference (s_data s))) with false; [done|]. symmetry. revert Hlt.
    destruct next, (d_reference _); try done. apply ltb_asym. }
  assert (d_reference (s_data m) <> d_reference (s_data s)) as Hd.
  { rewrite Em. intros E. rewrite E in Hlt. revert Hlt. destruct (d_reference _); try done. cbn. by rewrite ltb_irrefl. }
  assert (d_viewed (s_data m) = d_viewed (s_data s)) as Ev.
  { cbn. rewrite Hs, Hv, Hr. unfold js_or at 1. rewrite Ht, Hne. done. }
  destruct (restarted now s m) as [Ef Er]; [exact Hc|exact Hd|]. change (r_reference (s_refs m)) with next in Er.
  destruct (fresh_reply now' (s_next s) true (d_reference (s_data m)) payload (commit now s m)) as (s2 & E2 & Hv2);
    [exact Ef|exact Hn|rewrite Er; exact (js_lt_truthy _ _ Hlt)|by rewrite Er|].
  exists (commit now s m), s2. split; [reflexivity|]. split; [by rewrite commit_data|]. split; [exact E2|by rewrite Hv2].
Qed.
End steps.

(** ** A run *)
Section runs.
Context `{L : Luxon} `{Loc : Locale}.

Lemma run_reachable l s s' : reachable s -> run l s = Some s' -> reachable s'.
Proof.
  revert s. induction l as [|[now e] l IH]; intros s Hs E; [by injection E as <-|].
  cbn [run] in E. unfold mbind, option_bind in E. destruct (step now e s) as [s1|] eqn:E1; [|done].
  eapply IH; [|exact E]. by eapply reach_step.
Qed.
End runs.

#[local] Existing Instance bytes_locale.
Definition day (start : string) : val := VObj [("fajr", VObj [("start", VStr start)])].
Definition payload_of (date : string) : val :=
  VObj [("meta", VObj [("date", VStr date); ("location", VStr "Etc/UTC")]);
        ("prayers", day "2024-06-01T03:00:00Z"); ("nextPrayer", VNull);
        ("calendar", VObj [("2024-05-31", day "2024-05-31T03:00:00Z");
                           ("2024-06-01", day "2024-06-01T03:00:00Z");
                           ("2024-06-02", day "2024-06-02T03:00:00Z")])].
(** The first reply, its request again, and a day back *)
Definition june_1 : Z := 1717200000000.
Definition browsing : list (Z * event) :=
  [(june_1, Reply 0 (Body (payload_of "2024-06-01"))); (june_1 + 1, Reply 1 (Body (payload_of "2024-06-01")));
   (june_1 + 1000, Navigate (-1)); (june_1 + 1300, TransitionEnds); (june_1 + 2000, Tick)].
Definition visited : dash := from_option id (mounted june_1) (run browsing (mounted june_1)).

Lemma visited_reachable : reachable visited.
Proof. apply (run_reachable browsing (mounted june_1)); [apply reach_mounted|by vm_compute]. Qed.

Lemma dashboard_invariant_witness :
  core visited /\ synced visited /\ d_viewed (s_data visited) = VStr "2024-05-31" /\ length (s_flights visited) = 1%nat.
Proof.
  destruct (dashboard_invariant visited visited_reachable) as [H1 H2].
  split; [exact H1|]. split; [exact H2|]. split; by vm_compute.
Defined.

(** A day back in view, and a poll on its way *)
Definition june : list (string * val) :=
  [("2024-05-31", day "2024-05-31T03:00:00Z"); ("2024-06-01", day "2024-06-01T03:00:00Z");
   ("2024-06-02", day "2024-06-02T03:00:00Z")].
Definition viewing : dash :=
  Dash (Data (day "2024-06-01T03:00:00Z") VNull (VObj []) june (VStr "Etc/UTC") (VStr "2024-06-01")
          (VStr "2024-05-31") VNull june_1)
    (Motion "past" false VNull 1) (Refs (VStr "2024-06-01") (VStr "2024-05-31") june false 1 1 None)
    false true false false VNull None (Some (VStr "2024-06-01"))
    [Flight 2 (Poll false true (VStr "2024-06-01")) [] false] 3.

Lemma viewing_keeps : core viewing /\ synced viewing.
Proof.
  split; [|by split]. split; [done|split; [done|]]. split; [|split; [done|by apply Forall_singleton]].
  split; [apply NoDup_singleton|apply Forall_singleton; cbn; lia].
Qed.

Lemma reference_never_back_witness :
  exists s', step june_1 (Reply 2 (Body (payload_of "2024-05-30"))) viewing = Some s' /\
    js_lt (d_reference (s_data s')) (VStr "2024-06-01") = false.
Proof.
  eexists. split; [reflexivity|].
  exact (reference_never_back june_1 (Reply 2 (Body (payload_of "2024-05-30"))) viewing _ eq_refl).
Defined.

(** A reply of the day before, while the first of June is the reference *)
Lemma stale_reply_shows_reference_day_witness :
  exists s', step june_1 (Reply 2 (Body (payload_of "2024-05-30"))) viewing = Some s' /\
    d_reference (s_data s') = VStr "2024-06-01" /\ d_viewed (s_data s') = VStr "2024-05-31" /\
    d_prayers (s_data s') = day "2024-06-01T03:00:00Z".
Proof.
  eexists. split; [reflexivity|].
  destruct (stale_reply_shows_reference_day june_1 viewing _ 2
    (Flight 2 (Poll false true (VStr "2024-06-01")) [] false) false true (VStr "2024-06-01") (payload_of "2024-05-30")
    eq_refl eq_refl eq_refl eq_refl eq_refl eq_refl eq_refl) as (H1 & H2 & H3 & _).
  split; [exact H1|split; [exact H2|exact H3]].
Defined.

Lemma midnight_loses_view_witness :
  exists s1 s2,
    step 1717286400000 Midnight viewing = Some s1 /\ d_viewed (s_data s1) = VStr "2024-05-31" /\
    step 1717286400100 (Reply 3 (Body (payload_of "2024-06-02"))) s1 = Some s2 /\
    d_viewed (s_data s2) = getReferenceDate (VStr "Etc/UTC") 1717286400000.
Proof.
  assert (getReferenceDate (VStr "Etc/UTC") 1717286400000 = VStr "2024-06-02") as E by (vm_compute; reflexivity).
  destruct viewing_keeps as [Hc Hs].
  refine (midnight_loses_view 1717286400000 1717286400100 viewing (payload_of "2024-06-02")
    Hc Hs eq_refl eq_refl _ eq_refl eq_refl _ eq_refl); cbn [viewing s_data d_timezone d_reference];
    rewrite E; reflexivity.
Defined.
