(* ===== verification/Countdown.v ===== *)
(** * The countdown card
      ([client/src/components/dashboard/FocusCard.jsx])

    The card shows the time left to the next prayer and asks for new times when
    it is over.  It renders every second, and when the page gives it new
    properties; after a render React cleans up and runs again the effects whose
    dependencies changed.  An object is compared by identity. *)
From S2P Require Import Prelude JsString JsValue Luxon LuxonUtc.

(** An object of the page's state: its identity, and its value *)
Record obj := Obj { o_id : nat; o_val : val }.

Record fprops := FProps {
  p_next : obj;                (* nextPrayer *)
  p_prayers : obj;
  p_updated : Z;               (* lastUpdated *)
  p_callback : option nat;     (* onCountdownComplete, by identity *)
  p_timezone : val;
  p_skip : bool                (* skipSunriseCountdown *)
}.

Record card := Card {
  c_props : fprops;            (* of the last render *)
  c_triggered : val;           (* lastTriggeredRef *)
  c_fetching : bool;           (* isFetchingRef *)
  c_timer : option Z;          (* when the first effect's timer is due *)
  c_retry : option Z;          (* when the second effect's timer is due *)
  c_calls : list Z             (* when onCountdownComplete was called *)
}.

Definition same_obj (a b : obj) : bool := Nat.eqb (o_id a) (o_id b).

(** ** The next prayer shown *)
Definition skips (p : fprops) : bool :=
  seq (prop (o_val (p_next p)) "name") (VStr "sunrise") && p_skip p &&
  truthy (prop (prop (o_val (p_prayers p)) "dhuhr") "start").

Definition effectiveNextPrayer (p : fprops) : val :=
  if negb (truthy (o_val (p_next p))) then VNull else
  if skips p then
    VObj [("name", VStr "dhuhr"); ("time", prop (prop (o_val (p_prayers p)) "dhuhr") "start"); ("isTomorrow", VBool false)]
  else o_val (p_next p).

(** The memo gives the same object again: its dependencies are the same, or
    both times it is [nextPrayer] itself. *)
Definition same_effective (a b : fprops) : bool :=
  (same_obj (p_next a) (p_next b) && Bool.eqb (p_skip a) (p_skip b) && same_obj (p_prayers a) (p_prayers b)) ||
  (negb (truthy (o_val (p_next a))) && negb (truthy (o_val (p_next b)))) ||
  (negb (skips a) && negb (skips b) && same_obj (p_next a) (p_next b)).

Section card.
Context `{L : Luxon}.

Definition getCurrentTime (timezone : val) (now : Z) : dt :=
  if truthy timezone then dt_setZone (dt_now now) (str_of timezone) else dt_now now.

Definition target (p : fprops) (now : Z) : dt :=
  dt_setZone (dt_fromISO (str_of (prop (effectiveNextPrayer p) "time")))
    (str_of (js_or (p_timezone p) (VStr (dt_zone (dt_now now))))).

(** [target.toMillis() - now.toMillis()]; [None] for [NaN] *)
Definition millis_left (p : fprops) (now : Z) : option Z :=
  match dt_ms (target p now), dt_ms (getCurrentTime (p_timezone p) now) with
  | Some a, Some b => Some (a - b)
  | _, _ => None
  end.

(** [Math.floor(... / 1000) <= 0], and [> 0] *)
Definition is_over (p : fprops) (now : Z) : bool :=
  match millis_left p now with Some m => m / 1000 <=? 0 | None => false end.
Definition is_ahead (p : fprops) (now : Z) : bool :=
  match millis_left p now with Some m => 0 <? m / 1000 | None => false end.

Definition armed (p : fprops) : bool :=
  truthy (effectiveNextPrayer p) && bool_decide (is_Some (p_callback p)).

(** ** The effects *)

(** [now] is a new object in every render: the effect runs after each, and the
    clean-up of its last run before it. *)
Definition completion_effect (now : Z) (s : card) : card :=
  let p := c_props s in
  let s := Card p (c_triggered s) (c_fetching s) None (c_retry s) (c_calls s) in
  if negb (armed p) then s else
  let time := prop (effectiveNextPrayer p) "time" in
  if is_over p now && negb (seq (c_triggered s) time) && negb (c_fetching s)
  then Card p time true (Some (now + 5000)) (c_retry s) (c_calls s)
  else s.

Definition retry_effect (now : Z) (s : card) : card :=
  let p := c_props s in
  let s := Card p (c_triggered s) (c_fetching s) (c_timer s) None (c_calls s) in
  if negb (c_fetching s) || negb (armed p) then s else
  if is_ahead p now then Card p (c_triggered s) false (c_timer s) None (c_calls s)
  else Card p (c_triggered s) true (c_timer s) (Some (now + 5000)) (c_calls s).

(** What the second effect depends on *)
Definition retry_changed (a b : fprops) : bool :=
  negb (same_effective a b && (p_updated a =? p_updated b) &&
        bool_decide (p_callback a = p_callback b) && seq (p_timezone a) (p_timezone b)).

Definition render (now : Z) (p : fprops) (s : card) : card :=
  let changed := retry_changed (c_props s) p in
  let s := completion_effect now
    (Card p (c_triggered s) (c_fetching s) (c_timer s) (c_retry s) (c_calls s)) in
  if changed then retry_effect now s else s.

Definition mount (now : Z) (p : fprops) : card :=
  retry_effect now (completion_effect now (Card p VNull false None None [])).

(** ** Events *)
Inductive cevent :=
| ClockTick                  (* the interval of a second *)
| NewProps (p : fprops)      (* the page renders the card *)
| TimerFires
| RetryFires.

Definition due (t : option Z) (now : Z) : bool := match t with Some d => d <=? now | None => false end.

Definition cstep (now : Z) (e : cevent) (s : card) : option card :=
  match e with
  | ClockTick => Some (render now (c_props s) s)
  | NewProps p => Some (render now p s)
  | TimerFires => if due (c_timer s) now
      then Some (Card (c_props s) (c_triggered s) (c_fetching s) None (c_retry s) (c_calls s ++ [now])) else None
  | RetryFires => if due (c_retry s) now
      then Some (Card (c_props s) (c_triggered s) (c_fetching s) (c_timer s) None (c_calls s ++ [now])) else None
  end.

Fixpoint crun (l : list (Z * cevent)) (s : card) : option card :=
  match l with
  | [] => Some s
  | (now, e) :: l' => s' ← cstep now e s; crun l' s'
  end.

(** ** The text of the countdown *)
Definition nan_or (o : option Z) : string := match o with Some z => show_Z z | None => "NaN" end.
Definition pad2 (s : string) : string := if Nat.ltb (String.length s) 2 then "0" +:+ s else s.

Definition getCountdown (now : Z) (countdownMode : string) (p : fprops) : val :=
  if negb (truthy (effectiveNextPrayer p)) then VNull else
  let left := (fun m => Z.max 0 (- ((- m) / 1000))) <$> millis_left p now in
  if match left with Some n => n <=? 0 | None => false end then VStr "0sec" else
  let hours := (fun n => n / 3600) <$> left in
  let minutes := (fun n => (n mod 3600) / 60) <$> left in
  let seconds := (fun n => n mod 60) <$> left in
  let positive o := match o with Some n => 0 <? n | None => false end in
  VStr (
    if String.eqb countdownMode "digital" then
      pad2 (nan_or hours) +:+ ":" +:+ pad2 (nan_or minutes) +:+ ":" +:+ pad2 (nan_or seconds) else
    if String.eqb countdownMode "minimal" then
      if positive hours then nan_or hours +:+ "h " +:+ nan_or minutes +:+ "m" else
      if positive minutes then nan_or minutes +:+ "m " +:+ nan_or seconds +:+ "s" else
      nan_or seconds +:+ "s"
    else
      if positive hours then nan_or hours +:+ "hr " +:+ nan_or minutes +:+ "min " +:+ nan_or seconds +:+ "sec" else
      if positive minutes then nan_or minutes +:+ "min " +:+ nan_or seconds +:+ "sec" else
      nan_or seconds +:+ "sec").

End card.

(** ** Lemmas *)
Section lemmas.
Context `{L : Luxon}.

(** The ticks come every second or so: no event is five seconds after the tick
    before it, and the page gives no new properties. *)
Fixpoint paced (last : Z) (l : list (Z * cevent)) : Prop :=
  match l with
  | [] => True
  | (t, e) :: l' =>
      last <= t < last + 5000 /\
      match e with ClockTick => paced t l' | NewProps _ => False | _ => paced last l' end
  end.

(** Nothing falls due before five seconds after the last tick. *)
Definition quiet (last : Z) (s : card) : Prop :=
  c_retry s = None /\ match c_timer s with Some d => last + 5000 <= d | None => True end.

Lemma same_props_render now s : retry_changed (c_props s) (c_props s) = false -> render now (c_props s) s = completion_effect now s.
Proof. intros H. unfold render. rewrite H. by destruct s. Qed.

(** A state without [NaN] among its properties compares equal to itself. *)
Lemma retry_same p : seq (p_timezone p) (p_timezone p) = true -> retry_changed p p = false.
Proof.
  intros H. unfold retry_changed, same_effective, same_obj.
  rewrite !Nat.eqb_refl, Bool.eqb_reflx, Z.eqb_refl, bool_decide_true, H by done. done.
Qed.

Lemma completion_cases now s :
  let s' := completion_effect now s in
  c_props s' = c_props s /\ c_retry s' = c_retry s /\ c_calls s' = c_calls s /\
  (c_fetching s = true -> c_fetching s' = true) /\
  (c_timer s' = None \/ c_timer s' = Some (now + 5000)).
Proof.
  cbv zeta. unfold completion_effect. cbv zeta. destruct (negb (armed _)); [by split_and!; try left|].
  destruct (_ && _); split_and!; try done; [by right|by left].
Qed.

Lemma paced_quiet last l s s' :
  seq (p_timezone (c_props s)) (p_timezone (c_props s)) = true ->
  quiet last s -> paced last l -> crun l s = Some s' ->
  c_calls s' = c_calls s /\ c_props s' = c_props s /\ (c_fetching s = true -> c_fetching s' = true).
Proof.
  revert last s. induction l as [|[t e] l IH]; intros last s Hz Hq Hp E; [by injection E as <-|].
  cbn [crun] in E. unfold mbind, option_bind in E. destruct Hp as [Ht Hp], Hq as [Hr Hd].
  destruct e; cbn [cstep] in E; [|done| |].
  - rewrite same_props_render in E by (by apply retry_same).
    destruct (completion_cases t s) as (Ep & Er & Ec & Ef & Htm).
    destruct (IH t (completion_effect t s)) as (I1 & I2 & I3); [by rewrite Ep| |exact Hp|exact E|].
    + split; [by rewrite Er|]. destruct Htm as [-> | ->]; [done|lia].
    + rewrite I1, I2, Ec, Ep. split_and!; auto.
  - unfold due in E. destruct (c_timer s) as [d|]; [|done].
    destruct (Z.leb_spec d t); [lia|done].
  - unfold due in E. by rewrite Hr in E.
Qed.

(** A tick after the end marks the card as fetching. *)
Lemma over_fetching now s :
  armed (c_props s) = true -> is_over (c_props s) now = true ->
  seq (c_triggered s) (prop (effectiveNextPrayer (c_props s)) "time") = false ->
  c_fetching (completion_effect now s) = true.
Proof.
  intros Ha Ho Ht. unfold completion_effect. cbv zeta. rewrite Ha. cbn [negb].
  destruct (c_fetching s) eqn:Ef; [by rewrite andb_false_r|].
  cbn [c_triggered c_props]. by rewrite Ho, Ht.
Qed.

Lemma over_ahead p now : is_ahead p now = true -> is_over p now = false.
Proof.
  unfold is_ahead, is_over. destruct (millis_left p now); [|done]. intros H%Z.ltb_lt. by apply Z.leb_gt.
Qed.

Definition unspent (s : card) : Prop := c_fetching s = true \/ c_triggered s = VNull.

Lemma completion_unspent now s : unspent s -> unspent (completion_effect now s).
Proof.
  unfold unspent, completion_effect. cbv zeta. destruct (negb (armed _)); [done|]. destruct (_ && _); [by left|done].
Qed.

Lemma paced_fetching last l s s' t :
  seq (p_timezone (c_props s)) (p_timezone (c_props s)) = true -> armed (c_props s) = true ->
  is_string (prop (effectiveNextPrayer (c_props s)) "time") = true ->
  unspent s -> quiet last s -> paced last l -> crun l s = Some s' ->
  (t, ClockTick) ∈ l -> is_over (c_props s) t = true -> c_fetching s' = true.
Proof.
  intros Hz Ha Hs. revert last s Hz Ha Hs.
  induction l as [|[u e] l IH]; intros last s Hz Ha Hs Hu [Hr Hd] Hp E Hin Ho; [by apply not_elem_of_nil in Hin|].
  destruct Hp as [Hl Hp].
  cbn [crun] in E. unfold mbind, option_bind in E.
  destruct e; cbn [cstep] in E; [|done| |]; cycle 1.
  - unfold due in E. destruct (c_timer s) as [d|]; [|done]. destruct (Z.leb_spec d u); [lia|done].
  - unfold due in E. by rewrite Hr in E.
  - rewrite same_props_render in E by (by apply retry_same).
    destruct (completion_cases u s) as (Ep & Er & Ec & Ef & Htm).
    assert (quiet u (completion_effect u s)) as Hq.
    { split; [by rewrite Er|]. destruct Htm as [-> | ->]; [done|lia]. }
    apply elem_of_cons in Hin as [[= <-]|Hin].
    + destruct (paced_quiet t l (completion_effect t s) s') as (_ & _ & H); [by rewrite Ep|exact Hq|exact Hp|exact E|].
      apply H. destruct Hu as [Hu|Hu]; [by apply Ef|]. apply over_fetching; [done|done|]. rewrite Hu.
      by destruct (prop _ "time").
    + eapply IH; [by rewrite Ep|by rewrite Ep|by rewrite Ep|by apply completion_unspent|exact Hq|exact Hp|exact E|exact Hin|].
      by rewrite Ep.
Qed.

Lemma mount_ahead now p :
  is_ahead p now = true ->
  mount now p = Card p VNull false None None [].
Proof.
  intros H. unfold mount. unfold completion_effect. cbv zeta. cbn [c_props c_fetching c_triggered].
  rewrite (over_ahead _ _ H). cbn [andb]. destruct (negb (armed p)); reflexivity.
Qed.

(** The request for new times at the end of a countdown is never sent by the
    countdown itself.  The card notes that it is fetching and starts a timer of
    five seconds; but its effect depends on the time of the render, so that the
    next tick, a second later, clears the timer, and the prayer is already
    marked as done.  Until the page gives the card new properties nothing is
    asked for, however long the countdown is over. *)
Theorem countdown_end_not_refetched t0 p l s' :
  armed p = true -> is_string (prop (effectiveNextPrayer p) "time") = true ->
  seq (p_timezone p) (p_timezone p) = true -> is_ahead p t0 = true ->
  paced t0 l -> crun l (mount t0 p) = Some s' ->
  c_calls s' = [] /\
  (forall t, (t, ClockTick) ∈ l -> is_over p t = true -> c_fetching s' = true).
Proof.
  intros Ha Hs Hz Hah Hp E. rewrite mount_ahead in E by done. set (s := Card p VNull false None None []) in E.
  assert (quiet t0 s) as Hq by (by split). split.
  - by destruct (paced_quiet t0 l s s') as (H & _ & _).
  - intros t Hin Ho. eapply (paced_fetching t0 l s); try done. by right.
Qed.

(** The ticks leave a pending retry alone. *)
Lemma ticks_retry l s s' :
  seq (p_timezone (c_props s)) (p_timezone (c_props s)) = true ->
  Forall (fun x => x.2 = ClockTick) l -> crun l s = Some s' ->
  c_retry s' = c_retry s /\ c_calls s' = c_calls s /\ c_props s' = c_props s /\ (c_fetching s = true -> c_fetching s' = true).
Proof.
  intros Hz Hl. revert s Hz. induction Hl as [|[t e] l He _ IH]; intros s Hz E; [by injection E as <-|].
  cbn in He. subst e. cbn [crun cstep] in E. unfold mbind, option_bind in E.
  rewrite same_props_render in E by (by apply retry_same).
  destruct (completion_cases t s) as (Ep & Er & Ec & Ef & _).
  destruct (IH (completion_effect t s)) as (I1 & I2 & I3 & I4); [by rewrite Ep|exact E|].
  rewrite I1, I2, I3. split_and!; auto.
Qed.

(** While the card waits for new times, every render with new times decides:
    a next prayer that is still ahead ends the wait; one that is over is asked
    for again after five seconds, and the ticks in between do not prevent it. *)
Theorem update_unlocks_or_retries now p l s s1 :
  c_fetching s = true -> armed p = true -> seq (p_timezone p) (p_timezone p) = true ->
  retry_changed (c_props s) p = true -> Forall (fun x => x.2 = ClockTick) l ->
  crun ((now, NewProps p) :: l) s = Some s1 ->
  if is_ahead p now then c_retry s1 = None /\ c_calls s1 = c_calls s
  else c_fetching s1 = true /\ forall t, now + 5000 <= t ->
    exists s2, cstep t RetryFires s1 = Some s2 /\ c_calls s2 = c_calls s ++ [t].
Proof.
  intros Hf Ha Hz Hc Hl E. cbn [crun cstep] in E. unfold mbind, option_bind, render in E. rewrite Hc in E.
  set (s0 := completion_effect now _) in E.
  assert (c_props s0 = p /\ c_calls s0 = c_calls s /\ c_fetching s0 = true) as (Ep & Ec & Ef).
  { unfold s0. match goal with |- context [completion_effect now ?x] => destruct (completion_cases now x) as (E1 & _ & E3 & E4 & _) end.
    split_and!; [done|done|by apply E4]. }
  unfold retry_effect in E. cbv zeta in E. cbn [c_fetching] in E. rewrite Ep, Ef, Ha in E. cbn [negb orb] in E.
  destruct (is_ahead p now).
  - apply ticks_retry in E as (E1 & E2 & _); [|exact Hz|exact Hl]. rewrite E1, E2. cbn. by rewrite Ec.
  - apply ticks_retry in E as (E1 & E2 & _ & E4); [|exact Hz|exact Hl]. split; [by apply E4|].
    intros t Ht. unfold cstep. rewrite E1, E2. cbn. rewrite (proj2 (Z.leb_le _ _) Ht), Ec. by eexists.
Qed.
End lemmas.

(** ** Runs *)
Definition dhuhr_at (time : string) : obj := Obj 1 (VObj [("name", VStr "dhuhr"); ("time", VStr time); ("isTomorrow", VBool false)]).
Definition sample_props : fprops :=
  FProps (dhuhr_at "2024-06-01T12:00:00.000Z") (Obj 0 (VObj [])) 1717243199000 (Some 0%nat) (VStr "UTC") false.

Example countdown_texts :
  getCountdown 1717234500000 "digital" sample_props = VStr "02:25:00" /\
  getCountdown 1717234500000 "minimal" sample_props = VStr "2h 25m" /\
  getCountdown 1717243198500 "normal" sample_props = VStr "2sec" /\
  getCountdown 1717243200000 "normal" sample_props = VStr "0sec".
Proof. by vm_compute. Qed.

(** Noon passes between the first tick and the second. *)
Definition ticks : list (Z * cevent) :=
  [(1717243199500, ClockTick); (1717243200500, ClockTick); (1717243201500, ClockTick); (1717243202500, ClockTick)].

Lemma countdown_end_not_refetched_witness :
  exists s', crun ticks (mount 1717243198500 sample_props) = Some s' /\ c_calls s' = [] /\ c_fetching s' = true.
Proof.
  eexists. split; [reflexivity|].
  destruct (countdown_end_not_refetched 1717243198500 sample_props ticks _ eq_refl eq_refl eq_refl
    ltac:(by vm_compute) ltac:(repeat split; lia) eq_refl) as [H1 H2].
  split; [exact H1|]. apply (H2 1717243200500); [right; left|by vm_compute].
Defined.

Definition waiting : card := Card sample_props (VStr "2024-06-01T12:00:00.000Z") true None None [].
Definition refreshed : fprops :=
  FProps (dhuhr_at "2024-06-01T12:00:00.000Z") (Obj 0 (VObj [])) 1717243210000 (Some 0%nat) (VStr "UTC") false.

Lemma update_unlocks_or_retries_witness :
  exists s1 s2, crun [(1717243210000, NewProps refreshed); (1717243211000, ClockTick)] waiting = Some s1 /\
    cstep 1717243215000 RetryFires s1 = Some s2 /\ c_calls s2 = [1717243215000].
Proof.
  eexists. assert (is_ahead refreshed 1717243210000 = false) as Ha by (vm_compute; reflexivity).
  pose proof (update_unlocks_or_retries 1717243210000 refreshed [(1717243211000, ClockTick)] waiting _
    eq_refl eq_refl eq_refl eq_refl ltac:(repeat constructor) eq_refl) as H.
  rewrite Ha in H. destruct H as [_ H]. destruct (H 1717243215000 ltac:(lia)) as (s2 & E & Ec).
  exists s2. split; [reflexivity|]. split; [exact E|exact Ec].
Defined.
