(* ===== verification/ClientSettings.v ===== *)
(** * The settings in the browser
      ([client/src/contexts/SettingsContext.jsx], [client/src/utils/validation.js])

    The provider keeps the configuration the server has and the draft the user
    edits.  A save checks the draft, trigger by trigger, before it is sent.  The
    server is a parameter ([Backend]); what is sent is logged, the time stamp of
    a query apart.  Setting a state is immediate here: no function of the file
    reads a state it has set.  Regular expressions come from the server's
    metadata: their engine is a parameter too ([Regex]). *)
From S2P Require Import Prelude JsString JsValue Schemas SystemController.

Record call := Call { q_method : string; q_url : string; q_body : val }.

Record reply := Reply {
  a_status : Z;
  a_retryAfter : val;             (* res.headers.get("Retry-After") *)
  a_json : result val             (* res.json() *)
}.
Definition res_ok (r : reply) : bool := (200 <=? a_status r) && (a_status r <? 300).

(** The answer may depend on what was sent before; [Throw] is a network error. *)
Class Backend := backend : list call -> call -> result reply.

(** [new RegExp(pattern)]: throws or tests *)
Class Regex := regex : string -> result (string -> bool).

Record client := Client {
  k_config : val; k_draftConfig : val; k_systemHealth : val;
  k_loading : bool; k_saving : bool; k_pausedPolling : bool;
  k_voices : val; k_voicesLoading : bool; k_voicesError : val;
  k_providers : val; k_providersLoading : bool;
  k_isAuthenticated : bool;
  k_sent : list call
}.

Definition set_config (v : val) (s : client) : client :=
  Client v (k_draftConfig s) (k_systemHealth s) (k_loading s) (k_saving s) (k_pausedPolling s) (k_voices s)
    (k_voicesLoading s) (k_voicesError s) (k_providers s) (k_providersLoading s) (k_isAuthenticated s) (k_sent s).
Definition set_draft (v : val) (s : client) : client :=
  Client (k_config s) v (k_systemHealth s) (k_loading s) (k_saving s) (k_pausedPolling s) (k_voices s)
    (k_voicesLoading s) (k_voicesError s) (k_providers s) (k_providersLoading s) (k_isAuthenticated s) (k_sent s).
Definition set_health (v : val) (s : client) : client :=
  Client (k_config s) (k_draftConfig s) v (k_loading s) (k_saving s) (k_pausedPolling s) (k_voices s)
    (k_voicesLoading s) (k_voicesError s) (k_providers s) (k_providersLoading s) (k_isAuthenticated s) (k_sent s).
Definition set_loading (b : bool) (s : client) : client :=
  Client (k_config s) (k_draftConfig s) (k_systemHealth s) b (k_saving s) (k_pausedPolling s) (k_voices s)
    (k_voicesLoading s) (k_voicesError s) (k_providers s) (k_providersLoading s) (k_isAuthenticated s) (k_sent s).
Definition set_saving (b : bool) (s : client) : client :=
  Client (k_config s) (k_draftConfig s) (k_systemHealth s) (k_loading s) b (k_pausedPolling s) (k_voices s)
    (k_voicesLoading s) (k_voicesError s) (k_providers s) (k_providersLoading s) (k_isAuthenticated s) (k_sent s).
Definition set_paused (b : bool) (s : client) : client :=
  Client (k_config s) (k_draftConfig s) (k_systemHealth s) (k_loading s) (k_saving s) b (k_voices s)
    (k_voicesLoading s) (k_voicesError s) (k_providers s) (k_providersLoading s) (k_isAuthenticated s) (k_sent s).
Definition set_voices (v : val) (loading : bool) (error : val) (s : client) : client :=
  Client (k_config s) (k_draftConfig s) (k_systemHealth s) (k_loading s) (k_saving s) (k_pausedPolling s) v
    loading error (k_providers s) (k_providersLoading s) (k_isAuthenticated s) (k_sent s).
Definition set_providers (v : val) (loading : bool) (s : client) : client :=
  Client (k_config s) (k_draftConfig s) (k_systemHealth s) (k_loading s) (k_saving s) (k_pausedPolling s) (k_voices s)
    (k_voicesLoading s) (k_voicesError s) v loading (k_isAuthenticated s) (k_sent s).
Definition log_call (c : call) (s : client) : client :=
  Client (k_config s) (k_draftConfig s) (k_systemHealth s) (k_loading s) (k_saving s) (k_pausedPolling s) (k_voices s)
    (k_voicesLoading s) (k_voicesError s) (k_providers s) (k_providersLoading s) (k_isAuthenticated s) (k_sent s ++ [c]).

(** [JSON.parse(JSON.stringify(v))]: the text of [undefined] does not parse. *)
Definition quote : ascii := "034"%char.
Definition deep_clone (v : val) : result val :=
  if is_undef v
  then Throw (JsErr "SyntaxError" (String quote ("undefined" +:+ String quote " is not valid JSON")) "" false)
  else Ok (json_clone v).

Definition failure (error : val) : val := VObj [("success", VBool false); ("error", error)].

(** ** Numbers typed by the user *)

(** The longest beginning of the text that is a decimal literal *)
Fixpoint longest_decimal (n : nat) (s : string) : jsnum :=
  match read_decimal (String.substring 0 n s) with
  | NFin q => NFin q
  | _ => match n with O => NNaN | S n' => longest_decimal n' s end
  end.

(** [parseFloat(v)] of a number, a text or nothing; an infinite result fails the range checks as [NaN] does. *)
Definition parseFloat (v : val) : jsnum :=
  match v with
  | VNum q => NFin q
  | _ =>
      match trim_start (show v) with
      | String "-" r => match longest_decimal (String.length r) r with NFin q => NFin (- q) | n => n end
      | String "+" r => longest_decimal (String.length r) r
      | r => longest_decimal (String.length r) r
      end
  end.

(** [const raw = parseInt(minutes); isNaN(raw) ? 0 : Math.min(60, Math.max(0, raw))] *)
Definition clampedMinutes (minutes : val) : Z :=
  match parse_int_any (show minutes) with
  | None => 0
  | Some raw => Z.min 60 (Z.max 0 raw)
  end.

Definition out_of_range (lo hi : Q) (n : jsnum) : bool :=
  match n with NFin q => negb (Qle_bool lo q) || negb (Qle_bool q hi) | _ => true end.

(** ** Validation ([client/src/utils/validation.js]) *)
Section validation.
Context `{B : Backend} `{R : Regex}.

Definition fetch (method url : string) (body : val) : M client reply := fun s =>
  let c := Call method url body in (backend (k_sent s) c, log_call c s).

(** [v.trim() === ""] of a truthy value; only a text has [trim]. *)
Definition blank_text (v : val) : result bool :=
  match v with VStr t => Ok (String.eqb (trim t) "") | _ => Throw (TypeError "trim is not a function") end.

Definition validate_url (url : val) : M client val :=
  try_catch (
    res ← fetch "POST" "/api/system/validate-url" (VObj [("url", url)]);
    data ← lift (a_json res);
    valid ← lift (get data "valid");
    if negb (truthy valid)
    then ret (VStr ("URL unreachable: " +:+ show (js_or (prop data "error") (VStr "Unknown error"))))
    else ret VNull)
    (fun _ => ret (VStr "Validation check failed (Network error)")).

Definition validateTrigger (trigger : val) : M client val :=
  if negb (truthy (prop trigger "enabled")) then ret VNull else
  if seq (prop trigger "type") (VStr "tts") then
    let template := prop trigger "template" in
    if negb (truthy template) then ret (VStr "TTS template is required") else
    blank ← lift (blank_text template);
    ret (if (blank : bool) then VStr "TTS template is required" else VNull)
  else if seq (prop trigger "type") (VStr "file") then
    ret (if negb (truthy (prop trigger "path")) then VStr "A file must be selected" else VNull)
  else if seq (prop trigger "type") (VStr "url") then
    let url := prop trigger "url" in
    if negb (truthy url) then ret (VStr "URL is required") else
    blank ← lift (blank_text url);
    if (blank : bool) then ret (VStr "URL is required") else
    if negb (ends_with ".mp3" (to_lower (str_of url))) then ret (VStr "URL must point to an .mp3 file")
    else validate_url url
  else ret VNull.

(** One parameter of the provider: the message, or nothing *)
Definition check_param (source param : val) : result val :=
  key ← get param "key";
  let v := prop source (show key) in
  let constraints := prop param "constraints" in
  if truthy (prop constraints "required") && (is_nullish v || seq v (VStr ""))
  then Ok (VStr (show (prop param "label") +:+ " is required")) else
  if truthy (prop constraints "pattern") && truthy v then
    test ← regex (show (prop constraints "pattern"));
    Ok (if negb ((test : string -> bool) (show v)) then VStr ("Invalid format for " +:+ show (prop param "label")) else VNull)
  else Ok VNull.

Fixpoint check_params (source : val) (l : list val) : result val :=
  match l with
  | [] => Ok VNull
  | param :: l' => e ← check_param source param; if truthy e then Ok e else check_params source l'
  end.

(** [for (const x of v)] *)
Definition iterate (v : val) : result (list val) :=
  match v with VArr l => Ok l | _ => Throw (TypeError "object is not iterable") end.

Definition validateSourceSettings (source providerMetadata : val) : result val :=
  if negb (truthy source) || negb (truthy providerMetadata) then Ok VNull else
  if seq (prop source "enabled") (VBool false) then Ok VNull else
  l ← iterate (prop providerMetadata "parameters"); check_params source l.
End validation.

(** ** Fetching *)
Section provider.
Context `{B : Backend} `{R : Regex} `{I : Intl}.

(** The minute after which polling is resumed is the event [resume]. *)
Definition handleRateLimit : client -> client := set_paused true.

(** A callback sees the [pausedPolling] and [isAuthenticated] of the render that
    made it. *)
Definition fetchSettings (pausedPolling isAuthenticated : bool) : M client unit :=
  if pausedPolling then ret tt else
  modify (set_loading true) ;;
  try_finally (try_catch (
    res ← fetch "GET" (if isAuthenticated then "/api/settings" else "/api/settings/public") VUndef;
    if a_status res =? 429 then modify handleRateLimit else
    when (res_ok res) (
      data ← lift (a_json res);
      modify (set_config data) ;;
      copy ← lift (deep_clone data);
      modify (set_draft copy)))
    (fun _ => ret tt)) (set_loading false).

Definition fetchHealth (pausedPolling : bool) : M client unit :=
  if pausedPolling then ret tt else
  try_catch (
    res ← fetch "GET" "/api/system/health" VUndef;
    if a_status res =? 429 then modify handleRateLimit else
    when (res_ok res || (a_status res =? 503)) (data ← lift (a_json res); modify (set_health data)))
    (fun _ => ret tt).

Definition fetchVoices : M client unit :=
  modify (fun s => set_voices (k_voices s) true VNull s) ;;
  try_finally (try_catch (
    res ← fetch "GET" "/api/system/voices" VUndef;
    if res_ok res
    then (data ← lift (a_json res); modify (fun s => set_voices data (k_voicesLoading s) (k_voicesError s) s))
    else modify (fun s => set_voices (k_voices s) (k_voicesLoading s) (VStr "Failed to fetch voices") s))
    (fun e => modify (fun s => set_voices (k_voices s) (k_voicesLoading s) (VStr (e_msg e)) s)))
    (fun s => set_voices (k_voices s) false (k_voicesError s) s).

Definition fetchProviders (isAuthenticated : bool) : M client unit :=
  if negb isAuthenticated then ret tt else
  modify (fun s => set_providers (k_providers s) true s) ;;
  try_finally (try_catch (
    res ← fetch "GET" "/api/system/providers" VUndef;
    when (res_ok res) (data ← lift (a_json res); modify (fun s => set_providers data (k_providersLoading s) s)))
    (fun _ => ret tt)) (fun s => set_providers (k_providers s) false s).

(** The effect of a change of session, or of the end of a pause.  The requests
    are started together; they touch states of their own. *)
Definition load : M client unit :=
  pausedPolling ← gets k_pausedPolling;
  isAuthenticated ← gets k_isAuthenticated;
  when (negb pausedPolling) (
    fetchSettings pausedPolling isAuthenticated ;; fetchHealth pausedPolling ;;
    when isAuthenticated (fetchVoices ;; fetchProviders isAuthenticated)).

Definition resume : M client unit := modify (set_paused false) ;; load.

Definition refreshHealth (target mode : val) : M client val :=
  try_catch (
    res ← fetch "POST" "/api/system/health/refresh" (VObj [("target", target); ("mode", mode)]);
    if a_status res =? 429 then
      data ← lift (a_json res);
      message ← lift (get data "message");
      ret (failure (js_or message (VStr "Too many requests")))
    else if res_ok res then
      data ← lift (a_json res);
      modify (fun s => set_health (VObj (ospread (props (k_systemHealth s)) (props data))) s) ;;
      ret data
    else ret VUndef)
    (fun _ => ret VUndef).

(** ** Editing the draft *)

(** The object of [target] and the path below it, with the value in place *)
Fixpoint set_at (parts : list string) (value target : val) : result val :=
  match parts with
  | [] => Ok value
  | [last] => put target last value
  | part :: rest =>
      x ← get target part;
      y ← set_at rest value (if is_undef x then VObj [] else x);
      put target part y
  end.

(** A throw of the updater leaves the draft. *)
Definition updateSetting (path : string) (value : val) : M client unit := fun s =>
  if negb (truthy (k_draftConfig s)) then ret tt s else
  match set_at (split_on "." path) value (json_clone (k_draftConfig s)) with
  | Ok next => ret tt (set_draft next s)
  | Throw e => throw e s
  end.

Definition PRAYERS : list string := ["fajr"; "sunrise"; "dhuhr"; "asr"; "maghrib"; "isha"].

(** Assignment at [names] below [v], when what is there is truthy *)
Fixpoint assign_if (names : list string) (key : string) (x v : val) : val :=
  match names with
  | [] => if truthy v then setp v key x else v
  | n :: names' => if is_undef (prop v n) then v else setp v n (assign_if names' key x (prop v n))
  end.

Definition skipped (eventType prayer : string) : bool :=
  String.eqb eventType "preIqamah" && String.eqb prayer "sunrise".

(** [next.automation?.triggers?.[prayer]?.[eventType]] *)
Definition trigger_at (config : val) (prayer eventType : string) : val :=
  prop (prop (prop (prop config "automation") "triggers") prayer) eventType.

Definition offsets_set (eventType : string) (minutes : Z) (config : val) : val :=
  foldl (fun next prayer =>
    if skipped eventType prayer then next else
    if truthy (trigger_at next prayer eventType)
    then assign_if ["automation"; "triggers"; prayer; eventType] "offsetMinutes" (VInt minutes) next
    else next) (json_clone config) PRAYERS.

Definition bulkUpdateOffsets (eventType : string) (minutes : val) : M client Z := fun s =>
  let draftConfig := k_draftConfig s in
  if negb (truthy draftConfig) then ret 0 s else
  let count := length (filter (fun prayer => skipped eventType prayer = false /\
                         truthy (trigger_at draftConfig prayer eventType) = true) PRAYERS) in
  ret (Z.of_nat count) (set_draft (offsets_set eventType (clampedMinutes minutes) draftConfig) s).

Definition iqamah_offsets_set (minutes : Z) (config : val) : val :=
  foldl (fun next prayer =>
    if String.eqb prayer "sunrise" then next else
    if truthy (prop (prop next "prayers") prayer)
    then assign_if ["prayers"; prayer] "iqamahOffset" (VInt minutes) next
    else next) (json_clone config) PRAYERS.

Definition bulkUpdateIqamahOffsets (minutes : val) : M client Z := fun s =>
  let draftConfig := k_draftConfig s in
  if negb (truthy draftConfig) then ret 0 s else
  let count := length (filter (fun prayer => String.eqb prayer "sunrise" = false /\
                         truthy (prop (prop draftConfig "prayers") prayer) = true) PRAYERS) in
  ret (Z.of_nat count) (set_draft (iqamah_offsets_set (clampedMinutes minutes) draftConfig) s).

Definition resetDraft : M client unit := fun s =>
  ret tt (if truthy (k_config s) then set_draft (json_clone (k_config s)) s else s).

Definition hasUnsavedChanges (s : client) : bool :=
  truthy (k_config s) && truthy (k_draftConfig s) && negb (stringify_eqb (k_config s) (k_draftConfig s)).

(** [p.split(".").reduce(...)]: stops at what is falsy or has no such part *)
Definition getVal (obj : val) (path : string) : val :=
  foldl (fun acc part => if truthy acc then prop acc part else VUndef) obj (split_on "." path).

Definition isSectionDirty (path : string) (s : client) : bool :=
  truthy (k_config s) && truthy (k_draftConfig s) &&
  negb (stringify_eqb (getVal (k_config s) path) (getVal (k_draftConfig s) path)).

(** ** The health of a section *)
Definition issue (name type : string) : val := VObj [("trigger", VStr name); ("type", VStr type)].

Definition target_issue (s : client) (name : string) (targetId : val) : list val :=
  if seq targetId (VStr "browser") then [] else
  let id := show targetId in
  let health := prop (k_systemHealth s) id in
  let outputConfig := prop (prop (prop (k_draftConfig s) "automation") "outputs") id in
  if truthy outputConfig && negb (truthy (prop outputConfig "enabled"))
  then [issue name (id +:+ " Output Disabled")] else
  if truthy health && negb (truthy (prop health "healthy")) then [issue name (id +:+ " Output Offline")] else [].

(** [(trigger.targets || []).forEach] *)
Definition targets_of (trigger : val) : result (list val) :=
  match js_or (prop trigger "targets") (VArr []) with
  | VArr l => Ok l
  | _ => Throw (TypeError "forEach is not a function")
  end.

Definition checkTrigger (s : client) (trigger : val) (name : string) : result (list val) :=
  if negb (truthy trigger) || negb (truthy (prop trigger "enabled")) then Ok [] else
  targets ← targets_of trigger;
  Ok ((if seq (prop trigger "type") (VStr "tts") && negb (truthy (prop (prop (k_systemHealth s) "tts") "healthy"))
       then [issue name "TTS Service Offline"] else []) ++ mjoin (target_issue s name <$> targets)).

(** [Object.entries(v)] *)
Definition entries (v : val) : result (list (string * val)) :=
  if is_nullish v then Throw (TypeError "Cannot convert undefined or null to object") else Ok (props v).

Fixpoint collect {A} (f : A -> result (list val)) (l : list A) : result (list val) :=
  match l with
  | [] => Ok []
  | x :: l' => a ← f x; b ← collect f l'; Ok (a ++ b)
  end.

Definition check_prayer (s : client) (prayer : string) (triggers : val) : result (list val) :=
  l ← entries triggers;
  collect (fun kv : string * val => checkTrigger s kv.2 (prayer +:+ " " +:+ kv.1)) l.

Definition section_issues (s : client) (path : string) : result (list val) :=
  let triggers := prop (prop (k_draftConfig s) "automation") "triggers" in
  if starts_with "prayers." path then
    let prayerName := default "undefined" (split_on "." path !! 1%nat) in
    let prayerTriggers := prop triggers prayerName in
    if truthy prayerTriggers then check_prayer s prayerName prayerTriggers else Ok []
  else if String.eqb path "automation" || String.eqb path "automation.triggers" then
    collect (fun kv : string * val => check_prayer s kv.1 kv.2) (props (js_or triggers (VObj [])))
  else if includes "automation.triggers." path then
    let parts := split_on "." path in
    let prayer := default "undefined" (parts !! 2%nat) in
    let type := default "undefined" (parts !! 3%nat) in
    let trigger := prop (prop triggers prayer) type in
    if truthy trigger then checkTrigger s trigger (prayer +:+ " " +:+ type) else Ok []
  else Ok [].

Definition health_of (issues : list val) : val :=
  VObj [("healthy", VBool (Nat.eqb (length issues) 0)); ("issues", VArr issues)].

Definition getSectionHealth (s : client) (path : string) : result val :=
  if negb (truthy (k_draftConfig s)) || negb (truthy (k_systemHealth s)) then Ok (health_of []) else
  if negb (truthy (getVal (k_draftConfig s) path)) then Ok (health_of []) else
  issues ← section_issues s path; Ok (health_of issues).

(** ** Saving *)
Definition TRIGGER_TYPES : list string := ["preAdhan"; "adhan"; "preIqamah"; "iqamah"].

(** [type.replace(/([A-Z])/g, " $1")] *)
Fixpoint spaced (s : string) : string :=
  match s with
  | EmptyString => ""
  | String a s' =>
      let n := nat_of_ascii a in
      if ((65 <=? n) && (n <=? 90))%nat then String " " (String a (spaced s')) else String a (spaced s')
  end.
Definition niceName (prayer type : string) : string := capitalise prayer +:+ " " +:+ capitalise (spaced type).

Definition validation_error (what : string) : val := failure (VStr ("Validation Error: " +:+ what)).

Definition check_location (configToSave : val) : result (option val) :=
  let location := prop configToSave "location" in
  if negb (truthy location) then Ok None else
  let coordinates := js_or (prop location "coordinates") (VObj []) in
  if out_of_range (-90) 90 (parseFloat (prop coordinates "lat"))
  then Ok (Some (validation_error "Latitude must be between -90 and 90")) else
  if out_of_range (-180) 180 (parseFloat (prop coordinates "long"))
  then Ok (Some (validation_error "Longitude must be between -180 and 180")) else
  let timezone := prop location "timezone" in
  if is_undef timezone || intl_zone_ok (show timezone) then Ok None
  else Ok (Some (validation_error "Invalid Timezone")).

Fixpoint find_provider (type : val) (l : list val) : result val :=
  match l with
  | [] => Ok VUndef
  | p :: l' => id ← get p "id"; if seq id type then Ok p else find_provider type l'
  end.

Definition check_source (providers sources : val) (role : string) : result (option val) :=
  let source := prop sources role in
  if negb (truthy source) || (String.eqb role "backup" && seq (prop source "enabled") (VBool false)) then Ok None else
  l ← iterate providers;
  providerMeta ← find_provider (prop source "type") l;
  sourceError ← validateSourceSettings source providerMeta;
  Ok (if truthy sourceError
      then Some (failure (VStr ("Validation Error (" +:+ to_upper role +:+ " Source): " +:+ show sourceError)))
      else None).

Definition check_sources (providers configToSave : val) : result (option val) :=
  let sources := prop configToSave "sources" in
  if negb (truthy sources) then Ok None else
  primary ← check_source providers sources "primary";
  match primary with
  | Some e => Ok (Some e)
  | None => check_source providers sources "backup"
  end.

(** The triggers that are checked, in the order of the loops *)
Definition enabled_triggers (configToSave : val) : list (string * string * val) :=
  prayer ← okeys (props (prop configToSave "prayers"));
  let triggers := prop (prop (prop configToSave "automation") "triggers") prayer in
  if negb (truthy triggers) then [] else
  type ← TRIGGER_TYPES;
  let trigger := prop triggers type in
  if truthy trigger && truthy (prop trigger "enabled") then [(prayer, type, trigger)] else [].

Fixpoint check_triggers (l : list (string * string * val)) : M client (list val) :=
  match l with
  | [] => ret []
  | (prayer, type, trigger) :: l' =>
      error ← validateTrigger trigger;
      rest ← check_triggers l';
      ret (if truthy error then VStr (niceName prayer type +:+ ": " +:+ show error) :: rest else rest)
  end.

Definition post_update (configToSave : val) : M client val :=
  res ← fetch "POST" "/api/settings/update" configToSave;
  data ← lift (a_json res);
  if a_status res =? 429 then
    let retryAfter := js_or (a_retryAfter res) (VInt 60) in
    message ← lift (get data "message");
    ret (failure (js_or message (VStr ("Too many requests. Please wait " +:+ show retryAfter +:+ " seconds."))))
  else if res_ok res then
    modify (set_config configToSave) ;;
    modify (set_draft (json_clone configToSave)) ;;
    warnings ← lift (get data "warnings");
    let backendWarnings := js_or warnings (VArr []) in
    ret (VObj [("success", VBool true); ("message", prop data "message");
               ("warning", VBool (match backendWarnings with
                                  | VArr l => Nat.ltb 0 (length l)
                                  | VStr t => negb (String.eqb t "")
                                  | _ => false end));
               ("warningsList", backendWarnings)])
  else
    error ← lift (get data "error");
    ret (failure error).

Definition save_checked (providers configToSave : val) : M client val :=
  located ← lift (check_location configToSave);
  match located with Some e => ret e | None =>
  sourced ← lift (check_sources providers configToSave);
  match sourced with Some e => ret e | None =>
  warningsList ← check_triggers (enabled_triggers configToSave);
  match warningsList with
  | _ :: _ => ret (VObj [("success", VBool false); ("error", VStr "Verification Failed");
                         ("warningsList", VArr warningsList)])
  | [] => post_update configToSave
  end end end.

(** The argument of a save: nothing or a click, or a configuration *)
Definition chosen (overrideConfig : option val) (s : client) : val :=
  match overrideConfig with
  | Some v => if truthy v && negb (truthy (prop v "nativeEvent")) then v else k_draftConfig s
  | None => k_draftConfig s
  end.

Definition saveSettings (overrideConfig : option val) : M client val := fun s0 =>
  (modify (set_saving true) ;;
   try_finally (try_catch (
     configToSave ← lift (deep_clone (chosen overrideConfig s0));
     if negb (truthy configToSave) then ret (failure (VStr "No configuration to save"))
     else save_checked (k_providers s0) configToSave)
     (fun e => ret (failure (VStr (e_msg e))))) (set_saving false)) s0.

Definition resetToDefaults : M client val := fun s0 =>
  (modify (set_saving true) ;;
   try_finally (try_catch (
     res ← fetch "POST" "/api/settings/reset" VUndef;
     if res_ok res then
       fetchSettings (k_pausedPolling s0) (k_isAuthenticated s0) ;;
       ret (VObj [("success", VBool true)])
     else
       err ← lift (a_json res);
       error ← lift (get err "error");
       ret (failure error))
     (fun e => ret (failure (VStr (e_msg e))))) (set_saving false)) s0.

Definition updateEnvSetting (key : string) (value : val) : M client val := fun s0 =>
  (modify (set_saving true) ;;
   try_finally (try_catch (
     res ← fetch "POST" "/api/settings/env" (VObj [("key", VStr key); ("value", value)]);
     data ← lift (a_json res);
     if res_ok res then
       updateSetting (if String.eqb key "BASE_URL" then "automation.baseUrl" else "automation." +:+ key) value ;;
       fetchSettings (k_pausedPolling s0) (k_isAuthenticated s0) ;;
       ret (VObj [("success", VBool true)])
     else
       message ← lift (get data "message");
       ret (failure (js_or message (VStr "Update failed"))))
     (fun e => ret (failure (VStr (e_msg e))))) (set_saving false)) s0.
End provider.

(** ** Lemmas *)
Definition add_calls (l : list call) (s : client) : client :=
  Client (k_config s) (k_draftConfig s) (k_systemHealth s) (k_loading s) (k_saving s) (k_pausedPolling s) (k_voices s)
    (k_voicesLoading s) (k_voicesError s) (k_providers s) (k_providersLoading s) (k_isAuthenticated s) (k_sent s ++ l).

Lemma add_calls_nil s : add_calls [] s = s.
Proof. unfold add_calls. rewrite app_nil_r. by destruct s. Qed.
Lemma add_calls_app a b s : add_calls b (add_calls a s) = add_calls (a ++ b) s.
Proof. unfold add_calls. cbn. by rewrite app_assoc. Qed.

Definition url_check (t : val) : call :=
  Call "POST" "/api/system/validate-url" (VObj [("url", prop t "url")]).
Definition update_call (cfg : val) : call := Call "POST" "/api/settings/update" cfg.

Section saving.
Context `{B : Backend} `{R : Regex} `{I : Intl}.

(** One of the calls [l], made after [past], tried the link of [t] out, and the
    server answered that it is valid. *)
Definition link_confirmed (past l : list call) (t : val) : Prop :=
  exists before after res data, l = before ++ url_check t :: after /\
    backend (past ++ before) (url_check t) = Ok res /\ a_json res = Ok data /\
    truthy (prop data "valid") = true.

(** What a trigger that passed has *)
Definition sound_trigger (past l : list call) (t : val) : Prop :=
  (seq (prop t "type") (VStr "tts") = true -> exists u, prop t "template" = VStr u /\ trim u <> "") /\
  (seq (prop t "type") (VStr "file") = true -> truthy (prop t "path") = true) /\
  (seq (prop t "type") (VStr "url") = true ->
     (exists u, prop t "url" = VStr u /\ trim u <> "" /\ ends_with ".mp3" (to_lower u) = true) /\
     link_confirmed past l t).

Lemma sound_before past l1 l2 t : sound_trigger past l1 t -> sound_trigger past (l1 ++ l2) t.
Proof.
  intros (H1 & H2 & H3). split_and!; [done..|]. intros Hu.
  destruct (H3 Hu) as [He (b & a & res & data & -> & Hr)]. split; [done|].
  exists b, (a ++ l2), res, data. by rewrite <- app_assoc.
Qed.

Lemma sound_after past l1 l2 t : sound_trigger (past ++ l1) l2 t -> sound_trigger past (l1 ++ l2) t.
Proof.
  intros (H1 & H2 & H3). split_and!; [done..|]. intros Hu.
  destruct (H3 Hu) as [He (b & a & res & data & -> & Hr)]. split; [done|].
  exists (l1 ++ b), a, res, data. rewrite <- !app_assoc in *. done.
Qed.

Lemma fetch_run m u b s : fetch m u b s = (backend (k_sent s) (Call m u b), add_calls [Call m u b] s).
Proof. done. Qed.

(** A check of a trigger sends at most one request and changes nothing else. *)
Definition checks_url (t : val) (l : list call) : Prop := l = [] \/ l = [url_check t].

Lemma validate_url_run t s :
  exists v, validate_url (prop t "url") s = (Ok v, add_calls [url_check t] s) /\
    (truthy v = false -> link_confirmed (k_sent s) [url_check t] t).
Proof.
  unfold validate_url. munfold. rewrite fetch_run. fold (url_check t).
  destruct (backend _ _) as [res|e] eqn:Eb; [|by eexists].
  destruct (a_json res) as [data|e] eqn:Ej; [|by eexists].
  destruct (get data "valid") as [valid|e] eqn:Eg; [|by eexists].
  assert (prop data "valid" = valid) as Hv by (unfold get in Eg; by case_match; simplify_eq).
  destruct (truthy valid) eqn:Et; cbn [negb]; [|by eexists].
  eexists. split; [done|]. intros _. exists [], [], res, data. by rewrite app_nil_r, Hv.
Qed.

Lemma seq_types a b c : a <> b -> seq c (VStr a) = true -> seq c (VStr b) = false.
Proof. intros H. destruct c; try done. cbn. intros ->%String.eqb_eq. by apply String.eqb_neq. Qed.

Lemma blank_text_false v : blank_text v = Ok false -> exists u, v = VStr u /\ trim u <> "".
Proof. destruct v; try done. cbn. intros [= H%String.eqb_neq]. by eexists. Qed.

Ltac refused := solve [eexists [], _; split; [by rewrite add_calls_nil|split; [by left|by intros ? [= <-]]]].

Lemma validateTrigger_run t s :
  truthy (prop t "enabled") = true ->
  exists l r, validateTrigger t s = (r, add_calls l s) /\ checks_url t l /\
    (forall v, r = Ok v -> truthy v = false -> sound_trigger (k_sent s) l t).
Proof.
  intros He. unfold validateTrigger. rewrite He. cbn [negb].
  destruct (seq (prop t "type") (VStr "tts")) eqn:E1.
  { destruct (truthy (prop t "template")) eqn:Et; cbn [negb]; [|refused].
    munfold. destruct (blank_text _) as [[|]|e] eqn:Eb; [refused| |refused].
    eexists [], _. split; [by rewrite add_calls_nil|]. split; [by left|]. intros v _ _.
    split; [intros _; by apply blank_text_false|]. split; intros H; exfalso;
      [by rewrite (seq_types "tts" "file") in H|by rewrite (seq_types "tts" "url") in H]. }
  destruct (seq (prop t "type") (VStr "file")) eqn:E2.
  { destruct (truthy (prop t "path")) eqn:Et; cbn [negb]; [|refused].
    eexists [], _. split; [by rewrite add_calls_nil|]. split; [by left|]. intros v _ _.
    split; [by rewrite E1|]. split; [done|]. intros H. exfalso. by rewrite (seq_types "file" "url") in H. }
  destruct (seq (prop t "type") (VStr "url")) eqn:E3; cycle 1.
  { eexists [], _. split; [by rewrite add_calls_nil|]. split; [by left|]. intros v _ _.
    unfold sound_trigger. by rewrite E1, E2, E3. }
  destruct (truthy (prop t "url")) eqn:Et; cbn [negb]; [|refused].
  unfold mbind, M_bind, lift. destruct (blank_text _) as [[|]|e] eqn:Eb; [refused| |refused].
  apply blank_text_false in Eb as (u & Eu & Hu). replace (str_of (prop t "url")) with u by (by rewrite Eu).
  destruct (ends_with ".mp3" (to_lower u)) eqn:Em; cbn [negb]; [|refused].
  destruct (validate_url_run t s) as (v & Ev & Hv). rewrite Ev. eexists _, _. split; [done|]. split; [by right|].
  intros v' [= <-] Hf. unfold sound_trigger. rewrite E1, E2. split; [done|]. split; [done|]. intros _.
  split; [by exists u|by apply Hv].
Qed.

Lemma check_triggers_run l s :
  Forall (fun x => truthy (prop x.2 "enabled") = true) l ->
  exists calls r, check_triggers l s = (r, add_calls calls s) /\
    Forall (fun c => exists x, x ∈ l /\ c = url_check x.2) calls /\
    (r = Ok [] -> Forall (fun x => sound_trigger (k_sent s) calls x.2) l).
Proof.
  induction l as [|[[prayer type] t] l IH] in s |- *; intros Hl.
  { exists [], (Ok []). by rewrite add_calls_nil. }
  apply Forall_cons in Hl as [Ht Hl]. cbn [snd] in Ht.
  destruct (validateTrigger_run t s Ht) as (l1 & r1 & E1 & H1 & H2). cbn [check_triggers]. munfold. rewrite E1.
  assert (Forall (fun c => exists x, x ∈ (prayer, type, t) :: l /\ c = url_check x.2) l1) as Hl1.
  { destruct H1 as [-> | ->]; [done|]. apply Forall_singleton. exists (prayer, type, t). split; [left|done]. }
  destruct r1 as [v|e]; [|by exists l1, (Throw e)].
  destruct (IH (add_calls l1 s) Hl) as (l2 & r2 & E2 & H3 & H4). rewrite E2, add_calls_app.
  assert (Forall (fun c => exists x, x ∈ (prayer, type, t) :: l /\ c = url_check x.2) l2) as Hl2.
  { eapply Forall_impl; [exact H3|]. intros c (x & Hx & ->). exists x. split; [by right|done]. }
  destruct r2 as [rest|e]; eexists (l1 ++ l2), _; (split; [done|]); (split; [by apply Forall_app|]); [|done].
  destruct (truthy v) eqn:Ev; [done|]. intros [= ->]. constructor; [apply sound_before; by eapply H2|].
  eapply Forall_impl; [by apply H4|]. intros x. apply sound_after.
Qed.

Lemma enabled_triggers_enabled cfg : Forall (fun x => truthy (prop x.2 "enabled") = true) (enabled_triggers cfg).
Proof.
  apply Forall_forall. intros [[p t] x]. unfold enabled_triggers. rewrite list_elem_of_bind.
  intros (prayer & Hin & _). revert Hin. cbv zeta. destruct (negb _); [by intros ?%elem_of_nil|].
  rewrite list_elem_of_bind. intros (type & Hin & _). revert Hin. cbv zeta.
  destruct (_ && _) eqn:E; [|by intros ?%elem_of_nil].
  intros [= _ _ ->]%list_elem_of_singleton. by apply andb_prop in E as [_ E].
Qed.

(** What a configuration that is sent has passed, [l] being the calls of its save *)
Definition checked (providers cfg : val) (past l : list call) : Prop :=
  check_location cfg = Ok None /\ check_sources providers cfg = Ok None /\
  Forall (fun x => sound_trigger past l x.2) (enabled_triggers cfg).

Definition stored (cfg : val) (s : client) : client := set_draft (json_clone cfg) (set_config cfg s).
Definition succeeded (r : result val) : Prop :=
  match r with Ok v => seq (prop v "success") (VBool true) = true | Throw _ => False end.

Lemma throw_fails e : ~ succeeded (Throw e).
Proof. intros []. Qed.
Lemma failure_fails v : ~ succeeded (Ok (failure v)).
Proof. intros H. discriminate H. Qed.
Lemma unsuccessful v : ~ succeeded (Ok v) -> seq (prop v "success") (VBool true) = false.
Proof. intros H. destruct (seq _ _) eqn:E; [by destruct H|done]. Qed.
Local Hint Resolve throw_fails failure_fails : core.

Lemma post_update_run cfg s :
  exists r, (post_update cfg s = (r, add_calls [update_call cfg] s) /\ ~ succeeded r) \/
            post_update cfg s = (r, stored cfg (add_calls [update_call cfg] s)).
Proof.
  unfold post_update. munfold. rewrite fetch_run. fold (update_call cfg).
  destruct (backend _ _) as [res|e]; [|eexists; left; split; [done|auto]].
  destruct (a_json res) as [data|e]; [|eexists; left; split; [done|auto]].
  destruct (a_status res =? 429).
  { destruct (get data "message"); eexists; left; (split; [done|auto]). }
  destruct (res_ok res).
  - destruct (get data "warnings"); eexists; by right.
  - destruct (get data "error"); eexists; left; (split; [done|auto]).
Qed.

(** A check of the location or the sources that says something says no. *)
Lemma check_location_fails cfg e : check_location cfg = Ok (Some e) -> seq (prop e "success") (VBool true) = false.
Proof.
  unfold check_location. destruct (negb _); [done|]. cbv zeta.
  destruct (out_of_range _ _ _); [by intros [= <-]|]. destruct (out_of_range _ _ _); [by intros [= <-]|].
  destruct (_ || _); [done|]. by intros [= <-].
Qed.

Lemma check_source_fails ps ss role e : check_source ps ss role = Ok (Some e) -> seq (prop e "success") (VBool true) = false.
Proof.
  unfold check_source. cbv zeta. destruct (_ || _); [done|]. unfold mbind, result_bind.
  destruct (iterate ps) as [l|]; [|done]. destruct (find_provider _ l) as [m|]; [|done].
  destruct (validateSourceSettings _ m) as [x|]; [|done]. destruct (truthy x); [|done]. by intros [= <-].
Qed.

Lemma check_sources_fails ps cfg e : check_sources ps cfg = Ok (Some e) -> seq (prop e "success") (VBool true) = false.
Proof.
  unfold check_sources. cbv zeta. destruct (negb _); [done|]. unfold mbind, result_bind.
  destruct (check_source ps _ "primary") as [[x|]|] eqn:E; [|by apply check_source_fails|done].
  intros [= <-]. by eapply check_source_fails.
Qed.

(** The calls of a save: checks of links first, then perhaps the update *)
Definition link_checks (cfg : val) (l : list call) : Prop :=
  Forall (fun c => exists x, x ∈ enabled_triggers cfg /\ c = url_check x.2) l.

Lemma save_checked_run providers cfg s :
  exists r l, link_checks cfg l /\
    ((save_checked providers cfg s = (r, add_calls l s) /\ ~ succeeded r) \/
     (checked providers cfg (k_sent s) l /\
      ((save_checked providers cfg s = (r, add_calls (l ++ [update_call cfg]) s) /\ ~ succeeded r) \/
       save_checked providers cfg s = (r, stored cfg (add_calls (l ++ [update_call cfg]) s))))).
Proof.
  unfold save_checked. munfold.
  destruct (check_location cfg) as [[e|]|e] eqn:E1; cycle 1; [|by exists (Throw e), []; split; [constructor|left; rewrite add_calls_nil]|].
  2: { exists (Ok e), []. split; [constructor|]. left. rewrite add_calls_nil. split; [done|]. cbn.
       by rewrite (check_location_fails _ _ E1). }
  destruct (check_sources providers cfg) as [[e|]|e] eqn:E2; cycle 1; [|by exists (Throw e), []; split; [constructor|left; rewrite add_calls_nil]|].
  2: { exists (Ok e), []. split; [constructor|]. left. rewrite add_calls_nil. split; [done|]. cbn.
       by rewrite (check_sources_fails _ _ _ E2). }
  destruct (check_triggers_run (enabled_triggers cfg) s (enabled_triggers_enabled cfg)) as (l & r & E3 & Hl & Hr).
  rewrite E3. destruct r as [[|w ws]|e]; cycle 1.
  - eexists _, l. split; [exact Hl|]. left. split; [done|intros H; discriminate H].
  - eexists (Throw e), l. split; [exact Hl|]. by left.
  - destruct (post_update_run cfg (add_calls l s)) as (r & [[E4 Hf]|E4]); exists r, l; (split; [exact Hl|]); right;
      (split; [split_and!; [done|done|by apply Hr]|]); [left|right]; rewrite E4, add_calls_app; done.
Qed.

(** Everything a save can do *)
Lemma saveSettings_run o s :
  exists v l, 
    (saveSettings o s = (Ok v, set_saving false (add_calls l s)) /\ seq (prop v "success") (VBool true) = false /\
       (l = [] \/ exists cfg, deep_clone (chosen o s) = Ok cfg /\ link_checks cfg l)) \/
    (exists cfg lc, deep_clone (chosen o s) = Ok cfg /\ checked (k_providers s) cfg (k_sent s) lc /\ link_checks cfg lc /\
       l = lc ++ [update_call cfg] /\
       ((saveSettings o s = (Ok v, set_saving false (add_calls l s)) /\ seq (prop v "success") (VBool true) = false) \/
        saveSettings o s = (Ok v, set_saving false (stored cfg (add_calls l s))))).
Proof.
  unfold saveSettings. munfold.
  assert (forall l, set_saving false (add_calls l (set_saving true s)) = set_saving false (add_calls l s)) as Hsv by done.
  destruct (deep_clone (chosen o s)) as [cfg|e] eqn:Ec; cycle 1.
  { eexists _, []. left. split; [by rewrite add_calls_nil|]. split; [done|by left]. }
  destruct (truthy cfg) eqn:Et; cbn [negb]; cycle 1.
  { eexists _, []. left. split; [by rewrite add_calls_nil|]. split; [done|by left]. }
  destruct (save_checked_run (k_providers s) cfg (set_saving true s)) as (r & l & Hl & [[E Hf]|[Hc H]]).
  - rewrite E. destruct r as [v|e]; eexists _, l; left; (split; [by rewrite <- Hsv|]); (split; [|right; by exists cfg]); [|done].
    by destruct (seq _ _) eqn:Es.
  - destruct H as [[E Hf]|E]; rewrite E; destruct r as [v|e]; eexists _, (l ++ [update_call cfg]); right;
      exists cfg, l; (split; [done|split; [done|split; [done|split; [done|]]]]).
    + left. split; [done|]. by destruct (seq _ _) eqn:Es.
    + by left.
    + by right.
    + by right.
Qed.

(** C17: What the page sends has been checked.  A save sends links of enabled
    triggers to be tried out, and at most one update, the last of its calls: it
    carries a copy of what was to be saved, whose coordinates, time zone and
    sources passed; and of the prayers it has settings for, each enabled trigger
    that speaks has a text, each that plays a file has one, and each that plays
    a link has one to an MP3, which the server has answered to be valid in this
    very save. *)
Theorem save_sends_checked o s r s' :
  saveSettings o s = (r, s') ->
  exists l, k_sent s' = k_sent s ++ l /\
    (l = [] \/ exists cfg, deep_clone (chosen o s) = Ok cfg /\
       (link_checks cfg l \/
        exists lc, l = lc ++ [update_call cfg] /\ link_checks cfg lc /\
          checked (k_providers s) cfg (k_sent s) lc)).
Proof.
  intros E. destruct (saveSettings_run o s) as (v & l & [(E1 & _ & Hl)|(cfg & lc & Hc & Hk & Hlc & -> & E1)]).
  - rewrite E1 in E. injection E as _ <-. exists l. split; [done|]. destruct Hl as [-> |(cfg & Hc & Hl)]; [by left|].
    right. exists cfg. split; [done|by left].
  - assert (k_sent s' = k_sent s ++ lc ++ [update_call cfg]) as Hs
      by (destruct E1 as [[E1 _]|E1]; rewrite E1 in E; by injection E as _ <-).
    exists (lc ++ [update_call cfg]). split; [exact Hs|]. right. exists cfg. split; [done|]. right. by exists lc.
Qed.

(** A prayer without settings of its own, as the sunrise, has none of its triggers
    checked. *)
Theorem sunrise_unchecked cfg type t :
  ohas "sunrise" (props (prop cfg "prayers")) = false ->
  ("sunrise", type, t) ∉ enabled_triggers cfg.
Proof.
  intros Hs. unfold enabled_triggers. rewrite list_elem_of_bind. intros (prayer & Hin & Hp). revert Hin. cbv zeta.
  destruct (negb _); [by intros ?%elem_of_nil|].
  rewrite list_elem_of_bind. intros (ty & Hin & _). revert Hin. cbv zeta.
  destruct (_ && _); [|by intros ?%elem_of_nil]. intros [= <- _ _]%list_elem_of_singleton.
  by apply ohas_okeys in Hp; rewrite Hs in Hp.
Qed.

Lemma unsaved_clone s v : k_config s = v -> k_draftConfig s = json_clone v -> hasUnsavedChanges s = false.
Proof.
  intros E1 E2. unfold hasUnsavedChanges, stringify_eqb. rewrite E1, E2, json_clone_idem.
  rewrite (proj2 (val_eqb_eq _ _) eq_refl). by rewrite andb_false_r.
Qed.

(** A save always answers and leaves the page usable.  It ends with the saving
    mark off; when it reports success the configuration of the page is a copy
    of what was sent, the draft equals it and there are no unsaved changes;
    otherwise configuration and draft are as they were, or, when only the
    reply's body was unreadable, as after a success. *)
Theorem saveSettings_outcome o s r s' :
  saveSettings o s = (r, s') ->
  exists v, r = Ok v /\ k_saving s' = false /\
    ((deep_clone (chosen o s) = Ok (k_config s') /\ hasUnsavedChanges s' = false) \/
     (seq (prop v "success") (VBool true) = false /\
      k_config s' = k_config s /\ k_draftConfig s' = k_draftConfig s)).
Proof.
  intros E. destruct (saveSettings_run o s) as (v & l & [(E1 & Hv & _)|(cfg & lc & Hc & _ & _ & -> & [[E1 Hv]|E1])]);
    rewrite E1 in E; injection E as <- <-; exists v; (split; [done|]); (split; [done|]); [by right|by right|left].
  split; [exact Hc|]. by apply (unsaved_clone _ cfg).
Qed.

(** Fetching the settings replaces the draft, whatever it was. *)
Lemma fetchSettings_replaces auth d res data :
  let c := Call "GET" (if auth : bool then "/api/settings" else "/api/settings/public") VUndef in
  backend (k_sent d) c = Ok res -> res_ok res = true -> a_json res = Ok data -> data <> VUndef ->
  exists s', fetchSettings false auth d = (Ok tt, s') /\ k_config s' = data /\ k_draftConfig s' = json_clone data.
Proof.
  intros c E Ho Ej Hd. unfold fetchSettings. munfold. rewrite fetch_run. fold c.
  change (k_sent (set_loading true d)) with (k_sent d). rewrite E.
  replace (a_status res =? 429) with false
    by (symmetry; apply Z.eqb_neq; unfold res_ok in Ho; apply andb_prop in Ho as [_ H%Z.ltb_lt]; lia).
  rewrite Ho, Ej. unfold deep_clone. destruct data; try done; by eexists.
Qed.

(** Storing one variable of the environment throws the draft away.  The new
    settings that are fetched afterwards replace the draft, so that every unsaved
    change of the page, and the value just set in it, is lost. *)
Theorem env_update_discards_draft key value s res1 data1 res2 data2 :
  k_pausedPolling s = false ->
  let c1 := Call "POST" "/api/settings/env" (VObj [("key", VStr key); ("value", value)]) in
  let c2 := Call "GET" (if k_isAuthenticated s then "/api/settings" else "/api/settings/public") VUndef in
  backend (k_sent s) c1 = Ok res1 -> res_ok res1 = true -> a_json res1 = Ok data1 ->
  backend (k_sent s ++ [c1]) c2 = Ok res2 -> res_ok res2 = true -> a_json res2 = Ok data2 -> data2 <> VUndef ->
  is_ok (updateSetting (if String.eqb key "BASE_URL" then "automation.baseUrl" else "automation." +:+ key) value
           (add_calls [c1] s)).1 = true ->
  exists s', updateEnvSetting key value s = (Ok (VObj [("success", VBool true)]), s') /\
    k_config s' = data2 /\ k_draftConfig s' = json_clone data2.
Proof.
  intros Hp c1 c2 E1 Ho1 Ej1 E2 Ho2 Ej2 Hd Hu. unfold updateEnvSetting. munfold. rewrite fetch_run. fold c1.
  change (k_sent (set_saving true s)) with (k_sent s). rewrite E1, Ej1, Ho1.
  unfold updateSetting in *. change (k_draftConfig (add_calls [c1] (set_saving true s))) with (k_draftConfig s).
  change (k_draftConfig (add_calls [c1] s)) with (k_draftConfig s) in Hu.
  set (path := if String.eqb key "BASE_URL" then _ else _) in *.
  assert (forall d, k_sent d = k_sent s ++ [c1] -> exists s', fetchSettings false (k_isAuthenticated s) d = (Ok tt, s') /\
            k_config s' = data2 /\ k_draftConfig s' = json_clone data2) as K
    by (intros d Es; apply fetchSettings_replaces with res2; [by rewrite Es|done..]).
  rewrite Hp. destruct (negb (truthy (k_draftConfig s))); [|destruct (set_at _ _ _) as [next|e]; [|done]].
  - destruct (K (add_calls [c1] (set_saving true s)) eq_refl) as (s' & E & H). unfold ret. rewrite E. by eexists.
  - destruct (K (set_draft next (add_calls [c1] (set_saving true s))) eq_refl) as (s' & E & H). unfold ret. rewrite E.
    by eexists.
Qed.
End saving.

(** ** Paths *)
Definition walk (parts : list string) (v : val) : val := foldl prop v parts.

Lemma prop_falsy v k : truthy v = false -> prop v k = VUndef.
Proof. by destruct v. Qed.

Lemma oget_elem k o : oget k o <> VUndef -> (k, oget k o) ∈ o.
Proof.
  induction o as [|[k' v] o IH]; [done|]. cbn [oget]. destruct (String.eqb_spec k k') as [->|Hne]; intros H; [left|right; auto].
Qed.

Lemma getVal_walk v path : getVal v path = walk (split_on "." path) v.
Proof.
  unfold getVal, walk. generalize (split_on "." path). intros l. revert v.
  induction l as [|k l IH]; intros v; [done|]. cbn [foldl]. destruct (truthy v) eqn:E; [apply IH|].
  rewrite (prop_falsy v k E). apply IH.
Qed.

Lemma walk_undef l : walk l VUndef = VUndef.
Proof. induction l as [|k l IH]; [done|]. exact IH. Qed.

(** No array on the way *)
Fixpoint no_array_on (parts : list string) (v : val) : Prop :=
  match parts with
  | [] => True
  | p :: rest => is_array v = false /\ no_array_on rest (prop v p)
  end.

(** The two paths part at some name. *)
Fixpoint diverge (p q : list string) : bool :=
  match p, q with
  | a :: p', b :: q' => if String.eqb a b then diverge p' q' else true
  | _, _ => false
  end.

Lemma put_ok v k x v' : put v k x = Ok v' -> is_array v = false -> prop v' k = x.
Proof. destruct v; try done. cbn. intros [= <-] _. apply oget_oset. Qed.

Lemma put_other v k k' x v' : put v k x = Ok v' -> k' <> k -> prop v' k' = prop v k'.
Proof. destruct v; try done; cbn; intros [= <-] H; [done|]. by apply oget_oset_ne. Qed.

Lemma no_array_undef l : no_array_on l VUndef.
Proof. induction l as [|k l IH]; [done|]. by split. Qed.

Lemma set_at_get parts value t t' :
  parts <> [] -> no_array_on parts t -> set_at parts value t = Ok t' -> walk parts t' = value.
Proof.
  revert t t'. induction parts as [|p rest IH]; intros t t' Hne Hna E; [done|]. destruct Hna as [Ha Hn].
  destruct rest as [|p2 rest]; [by apply (put_ok t)|].
  change (set_at (p :: p2 :: rest) value t) with
    (x ← get t p; y ← set_at (p2 :: rest) value (if is_undef x then VObj [] else x); put t p y) in E.
  unfold mbind, result_bind in E. destruct (get t p) as [x|] eqn:Eg; [|done].
  assert (x = prop t p) as -> by (by apply got_prop).
  destruct (set_at (p2 :: rest) value _) as [y|] eqn:Es; [|done].
  change (walk (p :: p2 :: rest) t') with (walk (p2 :: rest) (prop t' p)).
  rewrite (put_ok t p y t' E Ha). eapply IH; [done| |exact Es].
  by destruct (prop t p).
Qed.

Lemma set_at_other parts q value t t' :
  diverge parts q = true -> set_at parts value t = Ok t' -> walk q t' = walk q t.
Proof.
  revert q t t'. induction parts as [|p rest IH]; intros [|k q] t t' Hd E; try done.
  cbn [diverge] in Hd.
  change (walk (k :: q) t') with (walk q (prop t' k)). change (walk (k :: q) t) with (walk q (prop t k)).
  destruct (String.eqb_spec p k) as [->|Hne]; cycle 1.
  - destruct rest as [|p2 rest]; [by rewrite (put_other t p k _ t' E) by congruence|].
    change (set_at (p :: p2 :: rest) value t) with
      (x ← get t p; y ← set_at (p2 :: rest) value (if is_undef x then VObj [] else x); put t p y) in E.
    unfold mbind, result_bind in E. destruct (get t p) as [x|]; [|done]. destruct (set_at _ _ _) as [y|]; [|done].
    by rewrite (put_other t p k _ t' E) by congruence.
  - destruct rest as [|p2 rest]; [done|].
    change (set_at (k :: p2 :: rest) value t) with
      (x ← get t k; y ← set_at (p2 :: rest) value (if is_undef x then VObj [] else x); put t k y) in E.
    unfold mbind, result_bind in E. destruct (get t k) as [x|] eqn:Eg; [|done].
    assert (x = prop t k) as -> by (by apply got_prop).
    destruct (set_at (p2 :: rest) value _) as [y|] eqn:Es; [|done].
    destruct (is_array t) eqn:Ea; [destruct t; try done; by injection E as <-|].
    rewrite (put_ok t k y t' E Ea). rewrite (IH q _ y Hd Es).
    destruct (prop t k); try done. cbn [is_undef]. destruct q as [|k2 q]; [done|].
    exact (eq_trans (walk_undef q) (eq_sym (walk_undef q))).
Qed.

Lemma put_json v k x v' : json_like v -> json_value x -> put v k x = Ok v' -> json_value v'.
Proof.
  intros Hv Hx. destruct v; try done; cbn; intros [= <-]; (split; [done|]); [done|].
  apply json_obj, json_oset; [done|by apply json_obj].
Qed.

(** An edit leaves the draft a JSON value. *)
Lemma set_at_json parts value t t' :
  json_like t -> json_value value -> set_at parts value t = Ok t' -> json_value t'.
Proof.
  revert t t'. induction parts as [|p rest IH]; intros t t' Ht Hv E; [by injection E as <-|].
  destruct rest as [|p2 rest]; [by apply (put_json t p value)|].
  change (set_at (p :: p2 :: rest) value t) with
    (x ← get t p; y ← set_at (p2 :: rest) value (if is_undef x then VObj [] else x); put t p y) in E.
  unfold mbind, result_bind in E. destruct (get t p) as [x|] eqn:Eg; [|done].
  assert (x = prop t p) as -> by (by apply got_prop).
  destruct (set_at (p2 :: rest) value _) as [y|] eqn:Es; [|done]. eapply put_json; [exact Ht| |exact E].
  eapply IH; [|exact Hv|exact Es]. destruct (is_undef (prop t p)); [done|by apply json_prop].
Qed.

(** What an edit does to a JSON draft: nothing when it throws, else what [set_at] does. *)
Lemma updateSetting_json path value s :
  json_like (k_draftConfig s) -> json_value value ->
  let s' := (updateSetting path value s).2 in
  k_draftConfig s' = k_draftConfig s \/
  (set_at (split_on "." path) value (k_draftConfig s) = Ok (k_draftConfig s') /\ json_like (k_draftConfig s') /\
   (updateSetting path value s).1 = Ok tt).
Proof.
  intros Hj Hv. cbv zeta. unfold updateSetting. destruct (truthy (k_draftConfig s)); cbn [negb]; [|by left].
  rewrite Hj. destruct (set_at _ _ _) as [next|e] eqn:E; [right|by left]. split; [done|].
  split; [|done]. by apply (set_at_json _ _ _ _ Hj Hv E).
Qed.

(** Editing one setting changes that setting.  The draft then has the new value
    at the path, everything at a path that parts from it is as it was, the
    stored configuration is untouched, and the section is marked as changed
    exactly when the value differs from the stored one. *)
Theorem updateSetting_lens path value s s' :
  truthy (k_draftConfig s) = true -> no_array_on (split_on "." path) (json_clone (k_draftConfig s)) ->
  updateSetting path value s = (Ok tt, s') ->
  getVal (k_draftConfig s') path = value /\
  (forall other, diverge (split_on "." path) (split_on "." other) = true ->
     getVal (k_draftConfig s') other = getVal (json_clone (k_draftConfig s)) other) /\
  k_config s' = k_config s /\
  (truthy (k_config s) = true -> truthy (k_draftConfig s') = true ->
     isSectionDirty path s' = negb (stringify_eqb (getVal (k_config s) path) value)).
Proof.
  intros Ht Hn E. unfold updateSetting in E. rewrite Ht in E. cbn [negb] in E.
  destruct (set_at _ _ _) as [next|e] eqn:Es; [|done]. injection E as <-.
  assert (getVal next path = value) as Hg.
  { rewrite getVal_walk. eapply set_at_get; [apply split_on_nonempty|exact Hn|exact Es]. }
  split; [exact Hg|]. split; [|split; [done|]].
  - intros other Hd. rewrite !getVal_walk. by eapply set_at_other.
  - intros Hc Hk. unfold isSectionDirty. cbn [k_config k_draftConfig set_draft] in *. by rewrite Hc, Hk, Hg.
Qed.

(** ** Bulk edits *)
Lemma assign_if_walk names key x v :
  walk names (assign_if names key x v) =
    (if truthy (walk names v) then setp (walk names v) key x else walk names v).
Proof.
  revert v. induction names as [|n names IH]; intros v; [done|]. cbn [assign_if].
  destruct (is_undef (prop v n)) eqn:E.
  - change (walk (n :: names) v) with (walk names (prop v n)). destruct (prop v n); try done. by rewrite walk_undef.
  - change (walk (n :: names) (setp v n (assign_if names key x (prop v n))))
      with (walk names (prop (setp v n (assign_if names key x (prop v n))) n)).
    change (walk (n :: names) v) with (walk names (prop v n)).
    rewrite prop_setp; [apply IH| |]; by destruct v.
Qed.

Lemma assign_if_other names key x v q :
  diverge names q = true -> walk q (assign_if names key x v) = walk q v.
Proof.
  revert v q. induction names as [|n names IH]; intros v [|k q] Hd; try done. cbn [diverge] in Hd. cbn [assign_if].
  destruct (is_undef (prop v n)); [done|].
  change (walk (k :: q) (setp v n (assign_if names key x (prop v n))))
    with (walk q (prop (setp v n (assign_if names key x (prop v n))) k)).
  change (walk (k :: q) v) with (walk q (prop v k)).
  destruct (String.eqb_spec n k) as [->|Hne]; [|by rewrite prop_setp_ne by congruence].
  destruct v; try done. rewrite prop_setp by done. by apply IH.
Qed.

Lemma diverge_app p r q : diverge p q = true -> diverge (p ++ r) q = true.
Proof.
  revert q. induction p as [|a p IH]; intros [|b q] H; try done. cbn [app diverge] in *.
  destruct (String.eqb a b); [by apply IH|done].
Qed.

Definition trigger_path (prayer eventType : string) : list string := ["automation"; "triggers"; prayer; eventType].

Lemma trigger_diverge p e p' e' : p <> p' \/ e <> e' -> diverge (trigger_path p e) (trigger_path p' e') = true.
Proof.
  intros H. cbn. destruct (String.eqb_spec p p') as [->|]; [|done]. destruct (String.eqb_spec e e') as [->|]; [|done].
  by destruct H.
Qed.

(** One step of the loop *)
Definition offset_step (eventType : string) (minutes : Z) (next : val) (prayer : string) : val :=
  if skipped eventType prayer then next else
  if truthy (trigger_at next prayer eventType)
  then assign_if (trigger_path prayer eventType) "offsetMinutes" (VInt minutes) next else next.

Definition with_offset (minutes : Z) (trigger : val) : val :=
  if truthy trigger then setp trigger "offsetMinutes" (VInt minutes) else trigger.

Lemma offset_step_same e m next p :
  trigger_at (offset_step e m next p) p e =
    (if skipped e p then trigger_at next p e else with_offset m (trigger_at next p e)).
Proof.
  unfold offset_step, with_offset. destruct (skipped e p); [done|].
  destruct (truthy (trigger_at next p e)) eqn:E; [|done].
  pose proof (assign_if_walk (trigger_path p e) "offsetMinutes" (VInt m) next) as H.
  change (walk (trigger_path p e) (assign_if (trigger_path p e) "offsetMinutes" (VInt m) next))
    with (trigger_at (assign_if (trigger_path p e) "offsetMinutes" (VInt m) next) p e) in H.
  change (walk (trigger_path p e) next) with (trigger_at next p e) in H. by rewrite H, E.
Qed.

Lemma offset_step_other e m next p q :
  diverge (trigger_path p e) q = true -> walk q (offset_step e m next p) = walk q next.
Proof.
  intros Hd. unfold offset_step. destruct (skipped e p); [done|]. destruct (truthy _); [|done].
  by apply assign_if_other.
Qed.

Lemma offset_loop e m l next p :
  NoDup l ->
  trigger_at (foldl (offset_step e m) next l) p e =
    (if decide (p ∈ l) then if skipped e p then trigger_at next p e else with_offset m (trigger_at next p e)
     else trigger_at next p e).
Proof.
  intros Hn. revert next. induction Hn as [|x l Hx Hn IH]; intros next; [done|]. cbn [foldl]. rewrite IH.
  destruct (decide (p = x)) as [->|Hne].
  - rewrite (decide_False _ _ Hx), decide_True by left. apply offset_step_same.
  - assert (trigger_at (offset_step e m next x) p e = trigger_at next p e) as E.
    { apply (offset_step_other e m next x (trigger_path p e)). apply trigger_diverge. left. congruence. }
    rewrite E. destruct (decide (p ∈ l)) as [Hi|Hi].
    + by rewrite decide_True by (by right).
    + rewrite decide_False; [done|]. intros [?|?]%elem_of_cons; done.
Qed.

Lemma offset_loop_other e m l next q :
  (forall p, p ∈ l -> diverge (trigger_path p e) q = true) -> walk q (foldl (offset_step e m) next l) = walk q next.
Proof.
  revert next. induction l as [|x l IH]; intros next H; [done|]. cbn [foldl].
  rewrite IH by (intros p Hp; apply H; by right). apply offset_step_other, H. left.
Qed.

Lemma clamped_range v : 0 <= clampedMinutes v <= 60.
Proof. unfold clampedMinutes. destruct (parse_int_any _); lia. Qed.

(** A bulk edit sets what it says and nothing else.  Whatever is typed, the
    offset is a whole number of minutes within the range the schema takes; each
    trigger of the chosen event that exists gets it, sunrise apart for the
    announcement before the congregation; every other trigger, and everything
    outside the triggers, is as it was. *)
Theorem bulkUpdateOffsets_spec eventType minutes s n s' :
  truthy (k_draftConfig s) = true -> bulkUpdateOffsets eventType minutes s = (Ok n, s') ->
  let old := json_clone (k_draftConfig s) in
  number_between 0 60 (VInt (clampedMinutes minutes)) /\
  (forall prayer, trigger_at (k_draftConfig s') prayer eventType =
     if decide (prayer ∈ PRAYERS) then
       if skipped eventType prayer then trigger_at old prayer eventType
       else with_offset (clampedMinutes minutes) (trigger_at old prayer eventType)
     else trigger_at old prayer eventType) /\
  (forall prayer type, type <> eventType -> trigger_at (k_draftConfig s') prayer type = trigger_at old prayer type) /\
  (forall q, diverge ["automation"; "triggers"] q = true -> walk q (k_draftConfig s') = walk q old).
Proof.
  intros Ht E. unfold bulkUpdateOffsets in E. rewrite Ht in E. cbn [negb] in E. injection E as _ <-.
  cbv zeta. cbn [k_draftConfig set_draft]. unfold offsets_set.
  change (foldl _ (json_clone (k_draftConfig s)) PRAYERS)
    with (foldl (offset_step eventType (clampedMinutes minutes)) (json_clone (k_draftConfig s)) PRAYERS).
  split; [|split; [|split]].
  - pose proof (clamped_range minutes) as H. eexists. split; [done|]. unfold VInt, inject_Z, Qle. cbn. lia.
  - intros prayer. apply offset_loop. unfold PRAYERS. by apply (bool_decide_unpack _).
  - intros prayer type Hne. apply (offset_loop_other _ _ _ _ (trigger_path prayer type)). intros p _.
    apply trigger_diverge. right. congruence.
  - intros q Hd. apply offset_loop_other. intros p _.
    by apply (diverge_app ["automation"; "triggers"] [p; eventType]).
Qed.

(** ** The health of the triggers *)
Definition target_ready (s : client) (targetId : val) : Prop :=
  seq targetId (VStr "browser") = true \/
  ((truthy (prop (prop (prop (k_draftConfig s) "automation") "outputs") (show targetId)) = true ->
    truthy (prop (prop (prop (prop (k_draftConfig s) "automation") "outputs") (show targetId)) "enabled") = true) /\
   (truthy (prop (k_systemHealth s) (show targetId)) = true ->
    truthy (prop (prop (k_systemHealth s) (show targetId)) "healthy") = true)).

Definition trigger_ready (s : client) (t : val) : Prop :=
  truthy t = true -> truthy (prop t "enabled") = true ->
  (seq (prop t "type") (VStr "tts") = true -> truthy (prop (prop (k_systemHealth s) "tts") "healthy") = true) /\
  Forall (target_ready s) (arr_of (prop t "targets")).

Lemma target_issue_nil s name id : target_issue s name id = [] <-> target_ready s id.
Proof.
  unfold target_issue, target_ready. cbv zeta. destruct (seq id _); [by split; [left|]|].
  set (o := prop (prop (prop (k_draftConfig s) "automation") "outputs") (show id)).
  set (h := prop (k_systemHealth s) (show id)).
  destruct (truthy o), (truthy (prop o "enabled")), (truthy h), (truthy (prop h "healthy")); cbn; split; try done;
    try (intros _; by right); intros [?|[? ?]]; naive_solver.
Qed.

Lemma checkTrigger_nil s t name l : checkTrigger s t name = Ok l -> (l = [] <-> trigger_ready s t).
Proof.
  unfold checkTrigger, trigger_ready. destruct (truthy t); [|by intros [= <-]].
  destruct (truthy (prop t "enabled")); [|by intros [= <-]]. cbn [negb orb].
  unfold mbind, result_bind, targets_of. destruct (js_or (prop t "targets") (VArr [])) as [| | | | |ts|] eqn:Et; try done.
  intros [= <-]. assert (arr_of (prop t "targets") = ts) as ->.
  { unfold js_or in Et. destruct (truthy (prop t "targets")) eqn:Etr; [by rewrite Et|].
    injection Et as <-. by destruct (prop t "targets"). }
  set (b := seq (prop t "type") (VStr "tts")). set (h := truthy (prop _ "healthy")).
  assert (mjoin (target_issue s name <$> ts) = [] <-> Forall (target_ready s) ts) as E.
  { rewrite mjoin_nil, Forall_fmap. split; intros H; (eapply Forall_impl; [exact H|]); intros x; apply target_issue_nil. }
  destruct b, h; cbn; rewrite ?E; split; try done; try (by intros H; split); intros H; try apply H; try done.
  destruct (H eq_refl eq_refl) as [H1 _]. discriminate (H1 eq_refl).
Qed.

Lemma collect_nil {A} (f : A -> result (list val)) l r :
  collect f l = Ok r -> (r = [] <-> Forall (fun x => f x = Ok []) l).
Proof.
  revert r. induction l as [|x l IH]; intros r E; [by injection E as <-|]. cbn in E. unfold mbind, result_bind in E.
  destruct (f x) as [a|] eqn:Ea; [|done]. destruct (collect f l) as [b|] eqn:Eb; [|done]. injection E as <-.
  rewrite Forall_cons, <- (IH b eq_refl), Ea. split.
  - intros [-> ->]%app_nil. done.
  - intros [[= ->] ->]. done.
Qed.

Lemma collect_each {A} (f : A -> result (list val)) l r :
  collect f l = Ok r -> Forall (fun x => exists y, f x = Ok y) l.
Proof.
  revert r. induction l as [|x l IH]; intros r E; [constructor|]. cbn in E. unfold mbind, result_bind in E.
  destruct (f x) as [a|] eqn:Ea; [|done]. destruct (collect f l) as [b|] eqn:Eb; [|done].
  constructor; [by eexists|by eapply IH].
Qed.

Lemma check_prayer_nil s p ts l :
  check_prayer s p ts = Ok l -> (l = [] <-> Forall (fun kv => trigger_ready s kv.2) (props ts)).
Proof.
  unfold check_prayer, entries, mbind, result_bind. destruct (is_nullish ts); [done|]. intros E.
  rewrite (collect_nil _ _ _ E). pose proof (collect_each _ _ _ E) as He.
  rewrite !Forall_forall in *. split; intros H kv Hin; specialize (H kv Hin); destruct (He kv Hin) as [y Ey].
  - rewrite Ey in H. injection H as ->. by apply (checkTrigger_nil _ _ _ _ Ey).
  - rewrite Ey. f_equal. by apply (checkTrigger_nil _ _ _ _ Ey).
Qed.

(** The health mark of the triggers is exact: the page shows no issue exactly
    when every enabled trigger has the speech service it needs and each of its
    outputs, the browser apart, is switched on and not known to be offline. *)
Theorem triggers_health_exact s h :
  truthy (k_draftConfig s) = true -> truthy (k_systemHealth s) = true ->
  truthy (prop (prop (k_draftConfig s) "automation") "triggers") = true ->
  getSectionHealth s "automation.triggers" = Ok h ->
  (prop h "healthy" = VBool true <->
   Forall (fun pk => Forall (fun kv => trigger_ready s kv.2) (props pk.2))
     (props (prop (prop (k_draftConfig s) "automation") "triggers"))).
Proof.
  intros Hd Hh Ht E. unfold getSectionHealth in E. rewrite Hd, Hh in E. cbn [negb orb] in E.
  rewrite getVal_walk in E. change (split_on "." "automation.triggers") with ["automation"; "triggers"] in E.
  change (walk ["automation"; "triggers"] ?c) with (prop (prop c "automation") "triggers") in E.
  unfold walk in E. cbn [foldl] in E. rewrite Ht in E. cbn [negb] in E.
  unfold mbind, result_bind in E. destruct (section_issues s "automation.triggers") as [l|] eqn:Es; [|done].
  injection E as <-. unfold section_issues in Es. cbv zeta in Es.
  change (starts_with "prayers." "automation.triggers") with false in Es.
  change (String.eqb "automation.triggers" "automation" || String.eqb "automation.triggers" "automation.triggers")
    with true in Es. cbv iota in Es.
  assert (js_or (prop (prop (k_draftConfig s) "automation") "triggers") (VObj []) =
          prop (prop (k_draftConfig s) "automation") "triggers") as Ej by (unfold js_or; by rewrite Ht).
  rewrite Ej in Es.
  assert (prop (health_of l) "healthy" = VBool true <-> l = []) as -> by (by destruct l).
  rewrite (collect_nil _ _ _ Es). pose proof (collect_each _ _ _ Es) as He. rewrite !Forall_forall in *.
  split; intros H pk Hin; specialize (H pk Hin); destruct (He pk Hin) as [y Ey].
  - rewrite Ey in H. injection H as ->. by apply (check_prayer_nil _ _ _ _ Ey).
  - rewrite Ey. f_equal. by apply (check_prayer_nil _ _ _ _ Ey).
Qed.

(** ** Lemmas: what a computation sends *)

(** A computation that only appends requests with [P] to those sent *)
Section sends.
Context {W : Type} (sent : W -> list call) (P : call -> Prop).

Definition sends {A} (m : M W A) : Prop := forall w, exists l, sent (m w).2 = sent w ++ l /\ Forall P l.

Lemma sends_keeps {A} (m : M W A) : keeps sent m -> sends m.
Proof. intros H w. exists []. by rewrite app_nil_r. Qed.
Lemma sends_bind {A C} (m : M W A) (k : A -> M W C) : sends m -> (forall a, sends (k a)) -> sends (mbind k m).
Proof.
  intros Hm Hk w. munfold. destruct (Hm w) as (l & Hl & Pl). destruct (m w) as [[a|e] w1]; cbn in *; [|by exists l].
  destruct (Hk a w1) as (l' & Hl' & Pl'). exists (l ++ l'). rewrite Hl', Hl, app_assoc. split; [done|]. by apply Forall_app.
Qed.
Lemma sends_try {A} (m : M W A) h : sends m -> (forall e, sends (h e)) -> sends (try_catch m h).
Proof.
  intros Hm Hh w. munfold. destruct (Hm w) as (l & Hl & Pl). destruct (m w) as [[a|e] w1]; cbn in *; [by exists l|].
  destruct (Hh e w1) as (l' & Hl' & Pl'). exists (l ++ l'). rewrite Hl', Hl, app_assoc. split; [done|]. by apply Forall_app.
Qed.
Lemma sends_finally {A} (m : M W A) f : sends m -> (forall w, sent (f w) = sent w) -> sends (try_finally m f).
Proof. intros Hm Hf w. munfold. destruct (Hm w) as (l & Hl & Pl). destruct (m w) as [r w1]; cbn in *. rewrite Hf. by exists l. Qed.
Lemma sends_settle {A} (m : M W A) : sends m -> sends (settle m).
Proof. intros Hm w. unfold settle. destruct (Hm w) as (l & H). destruct (m w) as [r w1]. by exists l. Qed.
Lemma sends_when b (m : M W unit) : sends m -> sends (when b m).
Proof. intros H. unfold when. destruct b; [done|]. apply sends_keeps, keeps_ret. Qed.
End sends.

Ltac sends_step := repeat first
  [ progress intros
  | solve [auto 2 with azan]
  | apply sends_bind | apply sends_try | apply sends_finally | apply sends_settle | apply sends_when
  | apply sends_keeps; solve [keeps_step; done]
  | case_match ].

Lemma sends_fetch `{B : Backend} P m u b : P (Call m u b) -> sends k_sent P (fetch m u b).
Proof. intros H s. exists [Call m u b]. by split; [|constructor]. Qed.

(** ** A page at work *)
Definition friendly : Backend := fun _ c =>
  Ok (Reply 200 VNull (Ok (
    if String.eqb (q_url c) "/api/settings" then VObj [("location", VObj [("timezone", VStr "Europe/London")])]
    else VObj [("valid", VBool true); ("message", VStr "Saved"); ("warnings", VArr [])]))).
Definition any_regex : Regex := fun _ => Ok (fun _ => true).
Definition any_zone : Intl := fun _ => true.
#[local] Existing Instances friendly any_regex any_zone.

Definition adhan_url : val :=
  VObj [("enabled", VBool true); ("type", VStr "url"); ("url", VStr "https://x.org/a.mp3"); ("offsetMinutes", VInt 0);
        ("targets", VArr [VStr "local"])].
Definition adhan_tts : val :=
  VObj [("enabled", VBool true); ("type", VStr "tts"); ("template", VStr "It is time"); ("targets", VArr [VStr "browser"])].
Definition sample_config : val :=
  VObj [("location", VObj [("coordinates", VObj [("lat", VStr "51.5"); ("long", VNum (-1 # 10))]);
                           ("timezone", VStr "Europe/London")]);
        ("prayers", VObj [("fajr", VObj [("iqamahOffset", VInt 10)])]);
        ("automation", VObj [("outputs", VObj [("local", VObj [("enabled", VBool true)])]);
           ("triggers", VObj [("fajr", VObj [("adhan", adhan_url); ("preAdhan", adhan_tts)])])])].
Definition health : val := VObj [("tts", VObj [("healthy", VBool true)]); ("local", VObj [("healthy", VBool true)])].
Definition page : client :=
  Client VNull sample_config health false false false (VArr []) false VNull (VArr []) false true [].

Lemma save_sends_checked_witness :
  exists r s' l, saveSettings None page = (r, s') /\ k_sent s' = k_sent page ++ l /\
    map q_url l = ["/api/system/validate-url"; "/api/settings/update"] /\
    exists lc, sound_trigger [] lc adhan_url /\ sound_trigger [] lc adhan_tts.
Proof.
  destruct (saveSettings None page) as [r s'] eqn:E.
  destruct (save_sends_checked None page r s' E) as (l & El & Hl). exists r, s', l.
  split; [reflexivity|]. split; [exact El|].
  assert (l = [url_check adhan_url; update_call sample_config]) as ->.
  { assert (k_sent (saveSettings None page).2 = l) as <- by (by rewrite E). vm_compute. reflexivity. }
  split; [reflexivity|]. destruct Hl as [Hl|(cfg & [= <-] & [Hl|(lc & Hlc & _ & _ & _ & Hs)])]; [discriminate Hl| |].
  - apply Forall_cons in Hl as [_ Hl]. apply Forall_cons in Hl as [(x & _ & Hx) _]. discriminate Hx.
  - exists lc. change (enabled_triggers (json_clone (chosen None page)))
      with [("fajr", "preAdhan", adhan_tts); ("fajr", "adhan", adhan_url)] in Hs.
    apply Forall_cons in Hs as [H1 Hs]. apply Forall_cons in Hs as [H2 _]. by split.
Defined.

(** An enabled announcement of the sunrise is sent without its text. *)
Example sunrise_sent_without_text :
  let silent := VObj [("enabled", VBool true); ("type", VStr "tts")] in
  let cfg := setp sample_config "automation"
    (VObj [("triggers", VObj [("sunrise", VObj [("adhan", silent)])])]) in
  validateTrigger silent page = (Ok (VStr "TTS template is required"), page) /\
  k_sent (saveSettings (Some cfg) page).2 = [update_call cfg].
Proof. vm_compute. by split. Qed.

Lemma saveSettings_outcome_witness :
  exists v s', saveSettings None page = (Ok v, s') /\ k_saving s' = false /\
    prop v "success" = VBool true /\ hasUnsavedChanges s' = false.
Proof.
  destruct (saveSettings None page) as [r s'] eqn:E.
  destruct (saveSettings_outcome None page r s' E) as (v & -> & Hs & H). exists v, s'.
  assert (prop v "success" = VBool true) as Hv.
  { assert ((saveSettings None page).1 = Ok v) as E1 by (by rewrite E). vm_compute in E1. by injection E1 as <-. }
  split; [reflexivity|]. split; [exact Hs|]. split; [exact Hv|].
  destruct H as [[_ H]|[H _]]; [exact H|]. rewrite Hv in H. discriminate H.
Defined.

Lemma env_update_discards_draft_witness :
  exists s', updateEnvSetting "BASE_URL" (VStr "https://x.org") page = (Ok (VObj [("success", VBool true)]), s') /\
    prop (k_draftConfig s') "prayers" = VUndef.
Proof.
  destruct (env_update_discards_draft "BASE_URL" (VStr "https://x.org") page
    (Reply 200 VNull (Ok (VObj [("valid", VBool true); ("message", VStr "Saved"); ("warnings", VArr [])])))
    (VObj [("valid", VBool true); ("message", VStr "Saved"); ("warnings", VArr [])])
    (Reply 200 VNull (Ok (VObj [("location", VObj [("timezone", VStr "Europe/London")])])))
    (VObj [("location", VObj [("timezone", VStr "Europe/London")])])
    eq_refl eq_refl eq_refl eq_refl eq_refl eq_refl eq_refl ltac:(discriminate) eq_refl) as (s' & E & _ & Hd).
  exists s'. split; [exact E|]. rewrite Hd. reflexivity.
Defined.

Definition edited : client := (updateSetting "prayers.fajr.iqamahOffset" (VInt 20) page).2.
Lemma updateSetting_lens_witness :
  getVal (k_draftConfig edited) "prayers.fajr.iqamahOffset" = VInt 20 /\
  getVal (k_draftConfig edited) "location.timezone" = VStr "Europe/London".
Proof.
  destruct (updateSetting_lens "prayers.fajr.iqamahOffset" (VInt 20) page edited eq_refl
    ltac:(vm_compute; tauto) ltac:(vm_compute; reflexivity)) as (H1 & H2 & _).
  split; [exact H1|]. rewrite (H2 "location.timezone" eq_refl). vm_compute. reflexivity.
Defined.

Lemma bulkUpdateOffsets_spec_witness :
  exists n s', bulkUpdateOffsets "preAdhan" (VStr "90") page = (Ok n, s') /\
    prop (trigger_at (k_draftConfig s') "fajr" "preAdhan") "offsetMinutes" = VInt 60 /\
    trigger_at (k_draftConfig s') "fajr" "adhan" = json_clone adhan_url.
Proof.
  eexists _, _. split; [reflexivity|].
  destruct (bulkUpdateOffsets_spec "preAdhan" (VStr "90") page _ _ eq_refl eq_refl) as (_ & H1 & H2 & _).
  split; [rewrite H1; vm_compute; reflexivity|]. rewrite H2 by discriminate. vm_compute. reflexivity.
Defined.

Lemma triggers_health_exact_witness :
  exists h, getSectionHealth page "automation.triggers" = Ok h /\ prop h "healthy" = VBool true /\
    Forall (fun pk => Forall (fun kv => trigger_ready page kv.2) (props pk.2))
      (props (prop (prop (k_draftConfig page) "automation") "triggers")).
Proof.
  eexists. split; [reflexivity|]. split; [reflexivity|].
  apply (triggers_health_exact page (health_of []) eq_refl eq_refl eq_refl eq_refl). reflexivity.
Defined.
