(* ===== verification/ClientPrefs.v ===== *)
(** * The preferences of a browser
      ([client/src/contexts/ClientPreferencesContext.jsx],
       [client/src/utils/prayerNames.js])

    Appearance and muted announcements, kept in the browser's storage under one
    key.  The storage holds the text last written, or one that is not JSON. *)
From S2P Require Import Prelude JsString JsValue World Luxon LuxonUtc Scheduler.

Definition DEFAULT_APPEARANCE : list (string * val) :=
  [("theme", VStr "dark"); ("clockFormat", VStr "24h"); ("showSeconds", VBool true); ("countdownMode", VStr "normal");
   ("enableDateNavigation", VBool true); ("prayerNameLanguage", VStr "english");
   ("skipSunriseCountdown", VBool false); ("wakeLockAutoStart", VBool false); ("autoUnmute", VBool false)].
Definition DEFAULT_PREFERENCES : val :=
  VObj [("appearance", VObj DEFAULT_APPEARANCE); ("audioExclusions", VArr [])].

Definition mergePreferences (storedPreferences : val) : result val :=
  appearance ← get storedPreferences "appearance";
  Ok (VObj (ospread (ospread (props DEFAULT_PREFERENCES) (props storedPreferences))
    [("appearance", VObj (ospread DEFAULT_APPEARANCE (props (js_or appearance (VObj [])))));
     ("audioExclusions", if is_array (prop storedPreferences "audioExclusions")
                         then prop storedPreferences "audioExclusions" else VArr [])])).

(** The preferences of the first render *)
Definition initial (stored : option content) : val :=
  match stored with
  | None => DEFAULT_PREFERENCES
  | Some c => match (v ← json_parse c; mergePreferences v) with
              | Ok preferences => preferences
              | Throw _ => DEFAULT_PREFERENCES
              end
  end.

(** What the effect of a change leaves: the text stored, and the class of the page *)
Definition stored_after (preferences : val) : option content := Some (Json (json_clone preferences)).
Definition light_mode (preferences : val) : bool := seq (prop (prop preferences "appearance") "theme") (VStr "light").

Definition updateAppearance (key : string) (value : val) (prev : val) : val :=
  VObj (ospread (props prev)
    [("appearance", VObj (ospread (props (prop prev "appearance")) [(key, value)]))]).

Definition exclusion_key (prayer event : string) : val := VStr (prayer +:+ "-" +:+ event).
Definition audioExclusions (preferences : val) : list val :=
  arr_of (js_or (prop preferences "audioExclusions") (VArr [])).

Definition with_exclusions (l : list val) (prev : val) : val :=
  VObj (ospread (props prev) [("audioExclusions", VArr l)]).

Definition toggleAudioExclusion (prayer event : string) (prev : val) : val :=
  let key := exclusion_key prayer event in
  let current := audioExclusions prev in
  with_exclusions (flip_in key current) prev.

Definition isAudioExcluded (prayer event : string) (preferences : val) : bool :=
  array_includes (exclusion_key prayer event) (audioExclusions preferences).

Definition allPrayers : list string := ["fajr"; "sunrise"; "dhuhr"; "asr"; "maghrib"; "isha"].
Definition muted_events (p : string) : list string :=
  if String.eqb p "sunrise" then ["preAdhan"; "adhan"] else ["preAdhan"; "adhan"; "preIqamah"; "iqamah"].
Definition all_exclusions : list val := p ← allPrayers; e ← muted_events p; [exclusion_key p e].

Definition muteAll (prev : val) : val := with_exclusions all_exclusions prev.
Definition unmuteAll (prev : val) : val := with_exclusions [] prev.

(** ** Names and times of prayers *)
Definition ARABIC_PRAYER_NAMES : list (string * string) :=
  [("fajr", "فجر"); ("sunrise", "شُروق"); ("dhuhr", "ظُهْر"); ("asr", "عصر"); ("maghrib", "مغرب"); ("isha", "عِشَا")].

Definition formatPrayerLabel (name language : string) : string :=
  if String.eqb name "" then "" else
  if String.eqb language "arabic"
  then match find (fun kv => String.eqb kv.1 name) ARABIC_PRAYER_NAMES with Some kv => kv.2 | None => name end
  else capitalise name.

(** ** Operations *)
Inductive pref_op :=
| SetAppearance (key : string) (value : val)
| ToggleExclusion (prayer event : string)
| MuteAll
| UnmuteAll.

Definition apply_op (o : pref_op) (preferences : val) : val :=
  match o with
  | SetAppearance key value => updateAppearance key value preferences
  | ToggleExclusion prayer event => toggleAudioExclusion prayer event preferences
  | MuteAll => muteAll preferences
  | UnmuteAll => unmuteAll preferences
  end.
Definition apply_ops (l : list pref_op) (preferences : val) : val := foldl (fun p o => apply_op o p) preferences l.

(** A value that is its own JSON copy *)
Definition clean (v : val) : Prop := json_clone v = v /\ v <> VUndef.
Definition op_clean (o : pref_op) : Prop := match o with SetAppearance _ v => clean v | _ => True end.

(** ** Lemmas *)

(** The preferences that are reached from the default ones *)
Definition shaped (p : val) : Prop :=
  exists a l, p = VObj [("appearance", VObj a); ("audioExclusions", VArr l)] /\
    NoDup (okeys a) /\ firstn 9 (okeys a) = okeys DEFAULT_APPEARANCE /\
    Forall (fun kv => clean kv.2) a /\ Forall clean l.

Lemma clone_object a : Forall (fun kv => clean kv.2) a -> json_clone (VObj a) = VObj a.
Proof.
  intros H. cbn [json_clone]. f_equal. induction H as [|[k v] a [Hv Hu] _ IH]; [done|].
  cbn [snd] in *. destruct v; try done; by rewrite IH, Hv.
Qed.

Lemma clone_array l : Forall clean l -> json_clone (VArr l) = VArr l.
Proof.
  intros H. cbn [json_clone]. f_equal. induction H as [|v l [Hv Hu] _ IH]; [done|].
  destruct v; try done; by rewrite IH, Hv.
Qed.

Lemma clean_str s : clean (VStr s).
Proof. done. Qed.

Lemma oset_app k v a : k ∉ okeys a -> oset k v a = a ++ [(k, v)].
Proof.
  induction a as [|[k' v'] a IH]; intros Hk; [done|]. cbn in Hk. apply not_elem_of_cons in Hk as [Hn Hk].
  cbn. destruct (String.eqb_spec k k') as [->|_]; [done|]. by rewrite IH.
Qed.

Lemma ospread_disjoint a b : NoDup (okeys (a ++ b)) -> ospread a b = a ++ b.
Proof.
  revert a. induction b as [|[k v] b IH]; intros a Hn; [by rewrite app_nil_r|].
  assert (okeys (a ++ (k, v) :: b) = okeys (a ++ [(k, v)] ++ b)) as E by done.
  change (ospread a ((k, v) :: b)) with (ospread (oset k v a) b). rewrite oset_app.
  - rewrite IH; [by rewrite <- app_assoc|]. by rewrite <- app_assoc.
  - unfold okeys in Hn. rewrite fmap_app in Hn. apply NoDup_app in Hn as (_ & Hd & _). intros Hin.
    apply (Hd k Hin). left.
Qed.

(** Two lists of properties with the same keys *)
Lemma alist_ext a b : okeys a = okeys b -> NoDup (okeys a) -> (forall k, oget k a = oget k b) -> a = b.
Proof.
  revert b. induction a as [|[k v] a IH]; intros [|[k' v'] b] E Hn Hg; try done.
  cbn in E. injection E as <- E. apply NoDup_cons in Hn as [Hk Hn].
  pose proof (Hg k) as Hv. cbn in Hv. rewrite String.eqb_refl in Hv. subst v'. f_equal. apply IH; [done|done|].
  intros x. destruct (decide (x = k)) as [->|Hx].
  - assert (forall c, k ∉ okeys c -> oget k c = VUndef) as K.
    { intros c Hc. apply ohas_false_oget. apply not_true_iff_false. by rewrite ohas_okeys. }
    rewrite !K; [done| |done]. change (k ∉ b.*1). by rewrite <- E.
  - specialize (Hg x). cbn in Hg. apply String.eqb_neq in Hx. by rewrite Hx in Hg.
Qed.

Lemma okeys_ospread_in a b : (forall k, k ∈ okeys b -> k ∈ okeys a) -> okeys (ospread a b) = okeys a.
Proof.
  revert a. induction b as [|[k v] b IH]; intros a H; [done|].
  change (ospread a ((k, v) :: b)) with (ospread (oset k v a) b).
  assert (okeys (oset k v a) = okeys a) as E by (apply okeys_oset, H; left).
  rewrite IH; [done|]. intros x Hx. rewrite E. apply H. by right.
Qed.

(** Defaults under properties that begin with the keys of the defaults *)
Lemma ospread_same d o : okeys d = okeys o -> NoDup (okeys o) -> ospread d o = o.
Proof.
  intros E Hn. assert (okeys (ospread d o) = okeys o) as Ek by (rewrite okeys_ospread_in; [done|by rewrite E]).
  apply alist_ext; [done|by rewrite Ek|]. intros k. rewrite oget_ospread by done.
  destruct (ohas k o) eqn:Eh; [done|]. rewrite (ohas_false_oget k o Eh).
  apply ohas_false_oget. apply not_true_iff_false. rewrite ohas_okeys, E, <- ohas_okeys. by rewrite Eh.
Qed.

Lemma ospread_prefix d o :
  NoDup (okeys o) -> firstn (length d) (okeys o) = okeys d -> ospread d o = o.
Proof.
  intros Hn Hp. rewrite <- (firstn_skipn (length d) o).
  assert (okeys d = okeys (firstn (length d) o)) as E by (rewrite <- Hp; apply firstn_map).
  assert (NoDup (okeys (firstn (length d) o ++ skipn (length d) o))) as Hn2 by (by rewrite firstn_skipn).
  transitivity (ospread (ospread d (firstn (length d) o)) (skipn (length d) o)).
  { unfold ospread. by rewrite foldl_app. }
  rewrite (ospread_same d (firstn (length d) o)); [by apply ospread_disjoint|done|].
  unfold okeys in Hn2. rewrite fmap_app in Hn2. by apply NoDup_app in Hn2 as (H & _ & _).
Qed.

Lemma merge_shaped p : shaped p -> mergePreferences p = Ok p.
Proof.
  intros (a & l & -> & Hn & Hf & _ & _). unfold mergePreferences. cbn -[ospread DEFAULT_APPEARANCE].
  unfold js_or. cbn [truthy props]. rewrite (ospread_prefix DEFAULT_APPEARANCE a) by done. done.
Qed.

Lemma clone_shaped p : shaped p -> json_clone p = p.
Proof.
  intros (a & l & -> & Hn & Hf & Ha & Hl). apply clone_object.
  constructor; [|constructor; [|done]]; split; try done; [by apply clone_object|by apply clone_array].
Qed.

Lemma shaped_default : shaped DEFAULT_PREFERENCES.
Proof.
  exists DEFAULT_APPEARANCE, []. split; [done|]. split; [by apply (bool_decide_unpack _)|]. split; [done|].
  split; [|done]. by repeat constructor.
Qed.

Lemma appearance_keys key (value : val) a :
  firstn 9 (okeys a) = okeys DEFAULT_APPEARANCE -> firstn 9 (okeys (oset key value a)) = okeys DEFAULT_APPEARANCE.
Proof.
  intros H. destruct (decide (key ∈ okeys a)) as [Hi|Hi]; [by rewrite okeys_oset|].
  rewrite okeys_oset_new by done. rewrite firstn_app, H.
  assert (length (okeys a) >= 9)%nat as Hl.
  { assert (length (firstn 9 (okeys a)) = 9%nat) as E by (by rewrite H). rewrite length_firstn in E. lia. }
  replace (9 - length (okeys a))%nat with 0%nat by lia. by rewrite app_nil_r.
Qed.

Lemma clean_oset key value a :
  clean value -> Forall (fun kv => clean kv.2) a -> Forall (fun kv : string * val => clean kv.2) (oset key value a).
Proof.
  intros Hv H. induction H as [|[k v] a Hk H IH]; [by constructor|]. cbn.
  destruct (String.eqb key k); by constructor.
Qed.

Lemma shaped_op o p : op_clean o -> shaped p -> shaped (apply_op o p).
Proof.
  intros Ho (a & l & -> & Hn & Hf & Ha & Hl). destruct o as [key value|prayer event| |]; cbn [apply_op].
  - exists (oset key value a), l. split; [done|]. split; [by apply NoDup_oset|].
    split; [by apply appearance_keys|]. split; [by apply clean_oset|done].
  - unfold toggleAudioExclusion, audioExclusions. cbn [prop oget String.eqb js_or truthy arr_of]. cbn -[exclusion_key].
    eexists a, _. split; [done|]. split; [done|split; [done|split; [done|]]].
    unfold flip_in. destruct (array_includes _ l); [|apply Forall_app; split; [done|apply Forall_singleton, clean_str]].
    apply Forall_forall. intros x [Hx _]%list_elem_of_In%filter_In. rewrite Forall_forall in Hl.
    by apply Hl, list_elem_of_In.
  - exists a, all_exclusions. split; [done|split; [done|split; [done|split; [done|]]]].
    by repeat (constructor; [done|]).
  - exists a, []. by split_and!.
Qed.

Lemma shaped_ops l p : Forall op_clean l -> shaped p -> shaped (apply_ops l p).
Proof.
  intros Hl. revert p. induction Hl as [|o l Ho _ IH]; intros p Hp; [done|]. by apply IH, shaped_op.
Qed.

Lemma shaped_reload p : shaped p -> initial (stored_after p) = p.
Proof.
  intros Hp. unfold stored_after, initial. cbn [json_parse]. unfold mbind, result_bind.
  rewrite json_clone_idem, (clone_shaped p Hp). by rewrite merge_shaped.
Qed.

(** The preferences survive a reload of the page.  Whatever the user changed,
    mutes and appearance in any order, the first render after a reload has the
    preferences of the last one, and they are again what is stored. *)
Theorem preferences_survive_reload l :
  Forall op_clean l ->
  let p := apply_ops l DEFAULT_PREFERENCES in
  initial (stored_after p) = p /\ stored_after (initial (stored_after p)) = stored_after p.
Proof.
  intros Hl p. assert (shaped p) as Hp by (by apply shaped_ops, shaped_default).
  assert (initial (stored_after p) = p) as E by (by apply shaped_reload). by rewrite E.
Qed.

Lemma includes_elem key l : key <> VUndef -> is_string key = true -> (array_includes key l = true <-> key ∈ l).
Proof.
  intros _ Hs. destruct key as [| | | |k| |]; try done. unfold array_includes. rewrite existsb_exists.
  setoid_rewrite <- list_elem_of_In. split.
  - intros (x & Hx & E). destruct x; try done. cbn in E. apply String.eqb_eq in E. by subst.
  - intros H. exists (VStr k). split; [done|]. cbn. apply String.eqb_refl.
Qed.

(** ** Muting *)
Lemma exclusions_with l prev : audioExclusions (with_exclusions l prev) = l.
Proof.
  unfold audioExclusions, with_exclusions. cbn [prop].
  rewrite oget_ospread by (by apply (bool_decide_unpack _)). done.
Qed.

(** The switch of one announcement turns that announcement over, and no other. *)
Theorem toggle_exact prayer event prayer' event' prev :
  isAudioExcluded prayer' event' (toggleAudioExclusion prayer event prev) =
    (if String.eqb (prayer +:+ "-" +:+ event) (prayer' +:+ "-" +:+ event')
     then negb (isAudioExcluded prayer' event' prev) else isAudioExcluded prayer' event' prev).
Proof.
  unfold isAudioExcluded, toggleAudioExclusion. rewrite exclusions_with. unfold exclusion_key.
  set (key := prayer +:+ "-" +:+ event). set (other := prayer' +:+ "-" +:+ event').
  rewrite flip_in_includes. by destruct (String.eqb key other).
Qed.

Section muting.
Context `{L : Luxon}.

(** The events of a day have the names the mute switch knows. *)
Lemma day_event_names config data triggers tz t p e :
  (t, (p, e)) ∈ day_events config data triggers tz -> p ∈ allPrayers /\ e ∈ muted_events p.
Proof.
  unfold day_events. rewrite list_elem_of_join. intros (l & Hin & Hl).
  apply list_elem_of_fmap in Hl as (q & -> & Hq). unfold prayer_events in Hin. cbv zeta in Hin.
  destruct (_ && _); [|by apply elem_of_nil in Hin].
  apply list_elem_of_fmap in Hin as ([t' e'] & [= -> -> ->] & Hin). split; [exact Hq|].
  assert (forall trig time a b, (t', e') ∈ events_of_pair trig time a b -> e' ∈ [a; b]) as K.
  { intros trig time a b H. eapply elem_of_sublist; [apply (list_elem_of_fmap_2 snd _ _ H)|].
    apply events_of_pair_sub. }
  apply elem_of_app in Hin as [Hin|Hin].
  - apply K in Hin. unfold muted_events. destruct (String.eqb q "sunrise"); set_solver.
  - unfold iqamah_time in Hin. unfold muted_events. destruct (String.eqb q "sunrise"); [by apply elem_of_nil in Hin|].
    destruct (mbind _ _) as [[time|]|]; try (by apply elem_of_nil in Hin). apply K in Hin. set_solver.
Qed.

(** C28: Muting everything mutes everything: no announcement the scheduler of the
    server can book for a day, under any configuration, is left audible. *)
Theorem mute_all_silences config data triggers tz t prayer event prev :
  (t, (prayer, event)) ∈ day_events config data triggers tz ->
  isAudioExcluded prayer event (muteAll prev) = true.
Proof.
  intros H. apply day_event_names in H as [Hp He]. unfold isAudioExcluded, muteAll. rewrite exclusions_with.
  assert (forall p e, p ∈ allPrayers -> e ∈ muted_events p -> array_includes (exclusion_key p e) all_exclusions = true) as K.
  { intros p e Hp' He'. apply includes_elem; [done|done|]. apply list_elem_of_bind. exists p. split; [|done].
    apply list_elem_of_bind. exists e. split; [by left|done]. }
  by apply K.
Qed.
End muting.

(** ** A browser *)
Definition choices : list pref_op :=
  [SetAppearance "theme" (VStr "light"); ToggleExclusion "fajr" "adhan"; MuteAll; ToggleExclusion "isha" "iqamah"].
Lemma preferences_survive_reload_witness :
  let p := apply_ops choices DEFAULT_PREFERENCES in
  initial (stored_after p) = p /\ light_mode p = true /\ isAudioExcluded "isha" "iqamah" p = false.
Proof.
  destruct (preferences_survive_reload choices ltac:(by repeat constructor)) as [H _].
  split; [exact H|]. split; vm_compute; reflexivity.
Defined.

Definition booked : list (dt * event) :=
  day_events (L := utc) day_config day_times (prop (prop day_config "automation") "triggers") "Etc/UTC".
Lemma mute_all_silences_witness :
  exists t, (t, ("dhuhr", "preAdhan")) ∈ booked /\
    isAudioExcluded "dhuhr" "preAdhan" (muteAll DEFAULT_PREFERENCES) = true.
Proof.
  assert (exists t, (t, ("dhuhr", "preAdhan")) ∈ booked) as [t H].
  { eexists. apply (list_elem_of_lookup_2 _ 3). vm_compute. reflexivity. }
  exists t. split; [exact H|].
  exact (mute_all_silences (L := utc) _ _ _ _ t "dhuhr" "preAdhan" DEFAULT_PREFERENCES H).
Defined.
