(* ===== verification/Session.v ===== *)
(** * Session and pages of the browser
      ([client/src/contexts/AuthContext.jsx], [client/src/App.jsx],
       [client/src/components/layout/ProtectedRoute.jsx],
       [client/src/views/LoginView.jsx], [client/src/views/SetupView.jsx])

    Whether the user has a session, as the server's replies tell, and which page
    is shown at which address.  The server is the parameter [Backend]; the
    router that matches an address with a route is third-party ([Router]). *)
From S2P Require Import Prelude JsString JsValue ClientSettings.

(** ** The session *)
Record session := Session {
  u_isAuthenticated : val;        (* null until the first answer *)
  u_setupRequired : bool;
  u_loading : bool;
  u_connectionError : bool;
  u_sent : list call
}.

Definition set_auth (b : bool) (s : session) : session :=
  Session (VBool b) (u_setupRequired s) (u_loading s) (u_connectionError s) (u_sent s).
Definition set_setup (b : bool) (s : session) : session :=
  Session (u_isAuthenticated s) b (u_loading s) (u_connectionError s) (u_sent s).
Definition set_uloading (b : bool) (s : session) : session :=
  Session (u_isAuthenticated s) (u_setupRequired s) b (u_connectionError s) (u_sent s).
Definition set_connection (b : bool) (s : session) : session :=
  Session (u_isAuthenticated s) (u_setupRequired s) (u_loading s) b (u_sent s).
Definition first_render : session := Session VNull false true false [].

Section session.
Context `{B : Backend}.

Definition ask (method url : string) (body : val) : M session reply := fun s =>
  let c := Call method url body in
  (backend (u_sent s) c,
   Session (u_isAuthenticated s) (u_setupRequired s) (u_loading s) (u_connectionError s) (u_sent s ++ [c])).

Definition is_network_error (e : jserr) : bool :=
  String.eqb (e_name e) "TypeError" || String.eqb (e_name e) "SyntaxError" || includes "Failed to fetch" (e_msg e).

Definition checkStatus : M session unit :=
  try_finally (try_catch (
    modify (set_connection false) ;;
    statusRes ← ask "GET" "/api/auth/status" VUndef;
    if negb (res_ok statusRes) then
      when (500 <=? a_status statusRes) (modify (set_connection true)) ;;
      modify (set_auth false) ;; modify (set_uloading false)
    else
      statusData ← lift (a_json statusRes);
      requiresSetup ← lift (get statusData "requiresSetup");
      if truthy requiresSetup then modify (set_setup true) ;; modify (set_uloading false) else
      modify (set_setup false) ;;
      res ← ask "GET" "/api/auth/check" VUndef;
      modify (set_auth (res_ok res)))
    (fun e => when (is_network_error e) (modify (set_connection true)) ;; modify (set_auth false)))
    (set_uloading false).

Definition login (password : val) : M session val :=
  try_catch (
    modify (set_connection false) ;;
    res ← ask "POST" "/api/auth/login" (VObj [("password", password)]);
    if res_ok res then modify (set_auth true) ;; ret (VObj [("success", VBool true)])
    else
      data ← lift (a_json res);
      error ← lift (get data "error");
      ret (failure error))
    (fun _ => ret (failure (VStr "Network error"))).

Definition logout : M session unit :=
  try_catch (_ ← ask "POST" "/api/auth/logout" VUndef; ret tt) (fun _ => ret tt) ;;
  modify (set_auth false).

Definition clearConnectionError : M session unit := modify (set_connection false).

(** The form of the first start: the message shown, or nothing and the way home *)
Definition handleSetup (password confirm : string) : M session (option string) :=
  if negb (String.eqb password confirm) then ret (Some "Passwords do not match") else
  if utf16_length password <? 5 then ret (Some "Password must be at least 5 characters") else
  try_catch (
    res ← ask "POST" "/api/auth/setup" (VObj [("password", VStr password)]);
    data ← lift (a_json res);
    if negb (res_ok res) then
      error ← lift (get data "error");
      throw (Error (show (js_or error (VStr "Setup failed"))))
    else checkStatus ;; ret None)
    (fun e => ret (Some (e_msg e))).

(** ** Operations *)
Inductive session_op := CheckStatus | Login (password : val) | Logout | ClearError.

Definition run_op (o : session_op) (s : session) : session :=
  match o with
  | CheckStatus => (checkStatus s).2
  | Login password => (login password s).2
  | Logout => (logout s).2
  | ClearError => (clearConnectionError s).2
  end.
Definition run_ops (l : list session_op) (s : session) : session := foldl (fun s o => run_op o s) s l.
End session.

(** ** Pages *)
Inductive settings_page := General | Credentials | Prayers | AutomationPage | Files | Developer.
Inductive route := RHome | RSetup | RLogin | RSettingsIndex | RSettings (p : settings_page) | ROther.

(** The route an address matches *)
Class Router := matched : string -> route.
Class RouterLaws (R : Router) : Prop := {
  law_home : matched "/" = RHome;
  law_setup : matched "/setup" = RSetup;
  law_login : matched "/login" = RLogin;
  law_general : matched "/settings/general" = RSettings General
}.

(** An address, with the address a login is to return to ([location.state.from]) *)
Record location := Location { l_pathname : string; l_from : option string }.

Inductive screen :=
| Waiting                       (* Loading... *)
| ConnectionErrorView
| DashboardView
| SetupView
| LoginView
| SettingsView (p : settings_page)
| Redirect (l : location).

Section pages.
Context `{R : Router}.

Definition ProtectedRoute (s : session) (l : location) (children : screen) : screen :=
  if u_loading s then Waiting else
  if negb (truthy (u_isAuthenticated s)) then Redirect (Location "/login" (Some (l_pathname l))) else children.

Definition App (s : session) (l : location) : screen :=
  if u_loading s then Waiting else
  if u_connectionError s then ConnectionErrorView else
  if u_setupRequired s && negb (String.eqb (l_pathname l) "/setup") then Redirect (Location "/setup" None) else
  if negb (u_setupRequired s) && String.eqb (l_pathname l) "/setup" then Redirect (Location "/" None) else
  if truthy (u_isAuthenticated s) && String.eqb (l_pathname l) "/login" then
    Redirect (Location (match l_from l with Some from => if String.eqb from "" then "/" else from | None => "/" end) None) else
  match matched (l_pathname l) with
  | RHome => DashboardView
  | RSetup => SetupView
  | RLogin => LoginView
  | RSettingsIndex => ProtectedRoute s l (Redirect (Location "/settings/general" None))
  | RSettings p => ProtectedRoute s l (SettingsView p)
  | ROther => Redirect (Location "/" None)
  end.

(** Following the redirections *)
Fixpoint follow (fuel : nat) (s : session) (l : location) : screen :=
  match App s l, fuel with
  | Redirect l', S fuel' => follow fuel' s l'
  | shown, _ => shown
  end.
End pages.

(** ** Lemmas *)
Section lemmas.
Context `{B : Backend} `{R : Router} {RL : RouterLaws R}.

Definition session_url (u : string) : Prop := u = "/api/auth/login" \/ u = "/api/auth/check".

(** The server said yes to a login or to a check of the session. *)
Definition confirmed (sent : list call) : Prop :=
  exists before c after res, sent = before ++ c :: after /\ session_url (q_url c) /\
    backend before c = Ok res /\ res_ok res = true.

Lemma confirmed_app a b : confirmed a -> confirmed (a ++ b).
Proof.
  intros (before & c & after & res & -> & H). exists before, c, (after ++ b), res. split; [by rewrite <- app_assoc|exact H].
Qed.

Lemma confirmed_now a c res : session_url (q_url c) -> backend a c = Ok res -> res_ok res = true -> confirmed (a ++ [c]).
Proof. intros H1 H2 H3. by exists a, c, [], res. Qed.

(** The server confirmed the session the state claims. *)
Definition honest (s : session) : Prop := u_isAuthenticated s = VBool true -> confirmed (u_sent s).

Lemma honest_false s : u_isAuthenticated s = VBool false -> honest s.
Proof. intros H H'. congruence. Qed.

Lemma honest_keep s s' calls :
  honest s -> u_isAuthenticated s' = u_isAuthenticated s -> u_sent s' = u_sent s ++ calls -> honest s'.
Proof. intros H E1 E2 E. rewrite E2. apply confirmed_app, H. congruence. Qed.

Lemma checkStatus_honest s : honest s -> honest (checkStatus s).2.
Proof.
  intros H. unfold checkStatus. munfold. unfold ask at 1. cbn [u_sent set_connection].
  destruct (backend _ _) as [res1|e]; [|by destruct (is_network_error e); apply honest_false].
  destruct (res_ok res1); cbn [negb]; [|by destruct (500 <=? a_status res1); apply honest_false].
  destruct (a_json res1) as [data|e]; [|by destruct (is_network_error e); apply honest_false].
  destruct (get data "requiresSetup") as [x|e]; [|by destruct (is_network_error e); apply honest_false].
  destruct (truthy x); [by eapply honest_keep|]. unfold ask. cbn [u_sent set_setup].
  destruct (backend (u_sent s ++ _) _) as [res2|e] eqn:E2; [|by destruct (is_network_error e); apply honest_false].
  cbn. destruct (res_ok res2) eqn:Eo; [|by apply honest_false].
  intros _. cbn. eapply confirmed_now; [|exact E2|exact Eo]. by right.
Qed.

Lemma run_op_honest o s : honest s -> honest (run_op o s).
Proof.
  intros H. destruct o as [|password| |]; cbn [run_op].
  - by apply checkStatus_honest.
  - unfold login. munfold. unfold ask. cbn [u_sent set_connection].
    destruct (backend _ _) as [res|e] eqn:E; [|by eapply honest_keep].
    destruct (res_ok res) eqn:Eo; cbn.
    + intros _. cbn. eapply confirmed_now; [|exact E|exact Eo]. by left.
    + destruct (a_json res) as [data|]; [|by eapply honest_keep]. destruct (get data "error"); by eapply honest_keep.
  - unfold logout. munfold. destruct (ask _ _ _ s) as [[x|e] s1]; by apply honest_false.
  - unfold clearConnectionError. munfold. eapply (honest_keep s _ []); [done|done|by rewrite app_nil_r].
Qed.

Lemma run_ops_honest l s : honest s -> honest (run_ops l s).
Proof. revert s. induction l as [|o l IH]; intros s H; [done|]. by apply IH, run_op_honest. Qed.

Lemma App_settings s l p :
  App s l = SettingsView p -> truthy (u_isAuthenticated s) = true /\ u_setupRequired s = false /\ u_loading s = false.
Proof.
  unfold App, ProtectedRoute. destruct (u_loading s); [done|]. destruct (u_connectionError s); [done|].
  destruct (u_setupRequired s) eqn:Es; cbn [andb negb].
  - destruct (String.eqb_spec (l_pathname l) "/setup") as [E|E]; cbn [negb]; [|done].
    rewrite E, law_setup. by destruct (truthy _ && _).
  - destruct (String.eqb (l_pathname l) "/setup"); [done|]. destruct (truthy (u_isAuthenticated s)); cbn [andb negb].
    + destruct (String.eqb (l_pathname l) "/login"); [done|]. by destruct (matched _).
    + by destruct (matched _).
Qed.

Lemma follow_shown n s l x : follow n s l = x -> exists l', App s l' = x.
Proof.
  revert l. induction n as [|n IH]; intros l H; cbn in H; destruct (App s l) eqn:E; try (by exists l; rewrite E).
  by eapply IH.
Qed.

Lemma settings_authenticated n s l p :
  follow n s l = SettingsView p -> truthy (u_isAuthenticated s) = true /\ u_setupRequired s = false /\ u_loading s = false.
Proof. intros [l' H]%follow_shown. by eapply App_settings. Qed.

(** The value of the session is null or a boolean. *)
Definition known (s : session) : Prop := truthy (u_isAuthenticated s) = true -> u_isAuthenticated s = VBool true.

Lemma auth_step o s :
  u_isAuthenticated (run_op o s) = u_isAuthenticated s \/ exists b, u_isAuthenticated (run_op o s) = VBool b.
Proof.
  destruct o as [|password| |]; cbn [run_op].
  - unfold checkStatus. munfold. unfold ask.
    destruct (backend _ (Call "GET" "/api/auth/status" VUndef)) as [res1|e]; [|destruct (is_network_error e); eauto].
    destruct (res_ok res1); cbn [negb]; [|destruct (500 <=? a_status res1); eauto].
    destruct (a_json res1) as [data|e]; [|destruct (is_network_error e); eauto].
    destruct (get data "requiresSetup") as [x|e]; [|destruct (is_network_error e); eauto].
    destruct (truthy x); [by left|].
    destruct (backend _ (Call "GET" "/api/auth/check" VUndef)) as [res2|e]; [right; eexists; reflexivity|destruct (is_network_error e); eauto].
  - unfold login. munfold. unfold ask. destruct (backend _ _) as [res|e]; [|by left].
    destruct (res_ok res); [right; eexists; reflexivity|]. destruct (a_json res) as [data|]; [|by left].
    destruct (get data "error"); by left.
  - unfold logout. munfold. destruct (ask _ _ _ s) as [[x|e] s1]; eauto.
  - by left.
Qed.

Lemma run_op_known o s : known s -> known (run_op o s).
Proof. unfold known. intros H. destruct (auth_step o s) as [-> |[[|] ->]]; done. Qed.

Lemma run_ops_known l s : known s -> known (run_ops l s).
Proof. revert s. induction l as [|o l IH]; intros s H; [done|]. by apply IH, run_op_known. Qed.

(** C8: The settings are shown to nobody without a session.  Whatever the page
    did since it was opened, a page of the settings is shown, redirections
    included, only when the server has accepted a login or confirmed the
    session, and never right after a logout. *)
Theorem settings_need_confirmation ops n l p :
  (follow n (run_ops ops first_render) l = SettingsView p -> confirmed (u_sent (run_ops ops first_render))) /\
  follow n (run_op Logout (run_ops ops first_render)) l <> SettingsView p.
Proof.
  split.
  - intros H. destruct (settings_authenticated _ _ _ _ H) as [Ha _].
    apply (run_ops_honest ops first_render); [by intros ?|]. apply (run_ops_known ops first_render); [by intros ?|done].
  - intros H. destruct (settings_authenticated _ _ _ _ H) as [Ha _]. revert Ha. cbn [run_op]. unfold logout. munfold.
    by destruct (ask _ _ _ _) as [[x|e] s1].
Qed.

(** The addresses every redirection but the one after a login leads to *)
Lemma App_home s l :
  u_loading s = false -> u_connectionError s = false -> u_setupRequired s = false ->
  l_pathname l = "/" -> App s l = DashboardView.
Proof. intros E1 E2 E3 E4. unfold App. rewrite E1, E2, E3, E4, law_home. cbn. by rewrite andb_false_r. Qed.

Definition shown (x : screen) : Prop := match x with Redirect _ => False | _ => True end.

Lemma shown_now n s l : shown (App s l) -> shown (follow n s l).
Proof. destruct n; cbn; by destruct (App s l). Qed.

Lemma shown_next n s l l' : App s l = Redirect l' -> shown (follow n s l') -> shown (follow (S n) s l).
Proof. intros E H. cbn. by rewrite E. Qed.

Lemma setup_settles s l :
  u_loading s = false -> u_connectionError s = false -> u_setupRequired s = true ->
  shown (follow 2 s l).
Proof.
  intros E1 E2 E3.
  assert (forall l0, l_pathname l0 = "/setup" -> App s l0 = SetupView) as Hs.
  { intros l0 E4. unfold App. rewrite E1, E2, E3, E4, law_setup. cbn. by rewrite andb_false_r. }
  destruct (String.eqb (l_pathname l) "/setup") eqn:E.
  - apply shown_now. by rewrite Hs by (by apply String.eqb_eq).
  - assert (App s l = Redirect (Location "/setup" None)) as El by (unfold App; by rewrite E1, E2, E3, E).
    eapply shown_next; [exact El|]. apply shown_now. by rewrite Hs.
Qed.

Lemma guest_settles s l :
  u_loading s = false -> u_connectionError s = false -> u_setupRequired s = false ->
  truthy (u_isAuthenticated s) = false ->
  shown (follow 2 s l).
Proof.
  intros E1 E2 E3 E4.
  assert (forall l0, l_pathname l0 = "/login" -> App s l0 = LoginView) as Hl.
  { intros l0 E5. unfold App. by rewrite E1, E2, E3, E4, E5, law_login. }
  assert (forall l0, l_pathname l0 = "/" -> App s l0 = DashboardView) as Hh by (intros; by apply App_home).
  assert (App s l = (if String.eqb (l_pathname l) "/setup" then Redirect (Location "/" None) else
    match matched (l_pathname l) with
    | RHome => DashboardView | RSetup => SetupView | RLogin => LoginView
    | RSettingsIndex | RSettings _ => Redirect (Location "/login" (Some (l_pathname l)))
    | ROther => Redirect (Location "/" None) end)) as El.
  { unfold App, ProtectedRoute. rewrite E1, E2, E3, E4. by destruct (String.eqb (l_pathname l) "/setup"), (matched _). }
  destruct (String.eqb _ "/setup").
  { eapply shown_next; [exact El|]. apply shown_now. by rewrite Hh. }
  destruct (matched _); try (apply shown_now; by rewrite El);
    (eapply shown_next; [exact El|]; apply shown_now; first [by rewrite Hl|by rewrite Hh]).
Qed.

(** A member: the login page leads on, the rest is shown. *)
Lemma member_settles s l :
  u_loading s = false -> u_connectionError s = false -> u_setupRequired s = false ->
  truthy (u_isAuthenticated s) = true ->
  shown (follow 2 s l).
Proof.
  intros E1 E2 E3 E4.
  assert (forall l0, l_pathname l0 = "/settings/general" -> App s l0 = SettingsView General) as Hg.
  { intros l0 E5. unfold App, ProtectedRoute. by rewrite E1, E2, E3, E4, E5, law_general. }
  assert (forall l0, l_pathname l0 = "/" -> App s l0 = DashboardView) as Hh by (intros; by apply App_home).
  assert (forall l0, String.eqb (l_pathname l0) "/login" = false ->
    match App s l0 with Redirect l' => l' = Location "/" None \/ l' = Location "/settings/general" None | _ => True end) as Hn.
  { intros l0 E5. unfold App, ProtectedRoute. rewrite E1, E2, E3, E4, E5. cbn [andb negb].
    destruct (String.eqb _ "/setup"); [by left|]. destruct (matched _); try done; [by right|by left]. }
  assert (forall n l0, String.eqb (l_pathname l0) "/login" = false -> shown (follow (S n) s l0)) as H1.
  { intros n l0 E5. specialize (Hn l0 E5). destruct (App s l0) as [| | | | | |l'] eqn:Ea;
      try (apply shown_now; by rewrite Ea).
    eapply shown_next; [exact Ea|]. apply shown_now. destruct Hn as [-> | ->]; [by rewrite Hh|by rewrite Hg]. }
  destruct (String.eqb (l_pathname l) "/login") eqn:E5; [|by apply H1].
  assert (exists f, App s l = Redirect (Location f None)) as [f El].
  { unfold App. rewrite E1, E2, E3, E4, E5. cbn [andb negb].
    destruct (String.eqb_spec (l_pathname l) "/setup") as [E6|_]; [rewrite E6 in E5; discriminate E5|]. by eexists. }
  eapply shown_next; [exact El|].
  destruct (String.eqb f "/login") eqn:E6; [|by apply (H1 0%nat (Location f None))].
  apply String.eqb_eq in E6 as ->.
  eapply shown_next; [unfold App; by rewrite E1, E2, E3, E4|]. apply shown_now. by rewrite Hh.
Qed.

(** C33: Redirections end.  From any address, in any state of the session, at most
    two redirections lead to a page. *)
Theorem redirects_settle s l : shown (follow 2 s l).
Proof.
  destruct (u_loading s) eqn:E1; [by cbn; unfold App; rewrite E1|].
  destruct (u_connectionError s) eqn:E2; [by cbn; unfold App; rewrite E1, E2|].
  destruct (u_setupRequired s) eqn:E3; [by apply setup_settles|].
  destruct (truthy (u_isAuthenticated s)) eqn:E4; [by apply member_settles|by apply guest_settles].
Qed.
End lemmas.

(** ** A router that matches addresses literally, and a server *)
Definition literal : Router := fun path =>
  if String.eqb path "/" then RHome else if String.eqb path "/setup" then RSetup else
  if String.eqb path "/login" then RLogin else if String.eqb path "/settings" then RSettingsIndex else
  if String.eqb path "/settings/general" then RSettings General else
  if String.eqb path "/settings/files" then RSettings Files else ROther.
#[local] Existing Instance literal.
#[local] Instance literal_laws : RouterLaws literal.
Proof. by split. Qed.

(** It takes the password "secret". *)
Definition gatekeeper : Backend := fun _ c =>
  if String.eqb (q_url c) "/api/auth/status" then Ok (Reply 200 VNull (Ok (VObj [("requiresSetup", VBool false)]))) else
  if String.eqb (q_url c) "/api/auth/login" && seq (prop (q_body c) "password") (VStr "secret")
  then Ok (Reply 200 VNull (Ok (VObj []))) else Ok (Reply 401 VNull (Ok (VObj [("error", VStr "Unauthorized")]))).
#[local] Existing Instance gatekeeper.

Definition visit : list session_op := [CheckStatus; Login (VStr "guess"); Login (VStr "secret")].
Lemma settings_need_confirmation_witness :
  follow 2 (run_ops [CheckStatus] first_render) (Location "/settings" None) = LoginView /\
  follow 2 (run_ops visit first_render) (Location "/settings" None) = SettingsView General /\
  confirmed (u_sent (run_ops visit first_render)).
Proof.
  split; [vm_compute; reflexivity|].
  assert (follow 2 (run_ops visit first_render) (Location "/settings" None) = SettingsView General) as E
    by (vm_compute; reflexivity).
  split; [exact E|].
  exact (proj1 (settings_need_confirmation visit 2 (Location "/settings" None) General) E).
Defined.

Lemma redirects_settle_witness :
  shown (follow 2 (run_ops visit first_render) (Location "/login" (Some "/nowhere"))).
Proof. exact (redirects_settle (run_ops visit first_render) (Location "/login" (Some "/nowhere"))). Defined.
