(* ===== verification/ClientAudio.v ===== *)
(** * Sound, events and wake lock of the browser
      ([client/src/hooks/useSSE.js], [client/src/hooks/useAudio.js],
       [client/src/hooks/useWakeLock.js], and [handleAudioPlay] of
       [client/src/App.jsx])

    The page listens to the stream of the server, keeps the last lines of the
    log, and plays what it is told to when its audio context runs and the user
    has not muted the event.  What the browser decides (whether a context may
    run, a lock is granted) is part of the event. *)
From S2P Require Import Prelude JsString JsValue World Sse Outputs ClientPrefs.

(** ** The audio context *)
Inductive ctx_state := Suspended | Running | Closed.
Definition running (c : ctx_state) : bool := match c with Running => true | _ => false end.

Record audio := MkAudio {
  x_ctx : ctx_state;
  x_muted : bool;          (* isMuted *)
  x_blocked : bool;
  x_timer : bool;          (* the half second of the automatic start *)
  x_started : list val     (* the links that were fetched to be played *)
}.

(** The handler of [statechange] *)
Definition stateHandler (s : audio) : audio :=
  let isRunning := running (x_ctx s) in
  MkAudio (x_ctx s) (negb isRunning) (if isRunning then false else x_blocked s) (x_timer s) (x_started s).

(** The first render and its effects; the context starts in a state the browser
    chooses. *)
Definition mount_audio (autoUnmute : bool) (c : ctx_state) : audio :=
  MkAudio c (negb (running c)) false (autoUnmute && negb (running c)) [].

(** [toggleMute], the context being in state [c] after [resume] or [suspend] *)
Definition toggleMute (c : ctx_state) (s : audio) : audio :=
  let c := match x_ctx s with Closed => Closed | _ => c end in
  MkAudio c (negb (running c)) (if running c then false else x_blocked s) (x_timer s) (x_started s).

(** The timer of the automatic start *)
Definition autoUnmuteTimer (s : audio) : audio :=
  let isStillBlocked := negb (running (x_ctx s)) in
  MkAudio (x_ctx s) isStillBlocked isStillBlocked false (x_started s).

Definition playUrl (url : val) (s : audio) : audio :=
  match x_ctx s with
  | Suspended => MkAudio (x_ctx s) (x_muted s) true (x_timer s) (x_started s)
  | _ => MkAudio (x_ctx s) (x_muted s) (x_blocked s) (x_timer s) (x_started s ++ [url])
  end.

(** ** The stream of events *)
Record stream := Stream {
  z_logs : list val;
  z_connected : bool;
  z_status : val           (* processStatus *)
}.
Definition no_stream : stream := Stream [] false VNull.

Definition push_log (entry : val) (s : stream) : stream :=
  Stream (firstn 50 (entry :: z_logs s)) (z_connected s) (z_status s).

Definition play_entry (now : Z) (payload : val) : val :=
  VObj [("message", VStr ("Playing Audio: " +:+ show (prop payload "prayer") +:+ " " +:+ show (prop payload "event")));
        ("timestamp", iso_of now); ("type", VStr "audio")].

Definition app : Type := (audio * stream)%type.

(** [handleAudioPlay] *)
Definition handleAudioPlay (preferences prayer event url : val) (a : audio) : audio :=
  if isAudioExcluded (show prayer) (show event) preferences then a else playUrl url a.

(** [eventSource.onmessage]; what it throws is caught and reported. *)
Definition onmessage (now : Z) (preferences : val) (text : content) (s : app) : app :=
  match (data ← json_parse text; type ← get data "type"; Ok (data, type)) with
  | Throw _ => s
  | Ok (data, type) =>
      let payload := prop data "payload" in
      if seq type (VStr "LOG") then (s.1, push_log payload s.2) else
      if seq type (VStr "AUDIO_PLAY") then
        if is_nullish payload then s else
        (handleAudioPlay preferences (prop payload "prayer") (prop payload "event") (prop payload "url") s.1,
         push_log (play_entry now payload) s.2)
      else if seq type (VStr "PROCESS_UPDATE") then
        match get payload "label" with
        | Ok label => (s.1, Stream (z_logs s.2) (z_connected s.2) label)
        | Throw _ => s
        end
      else s
  end.

Definition onopen (s : app) : app := (s.1, Stream (z_logs s.2) true (z_status s.2)).
Definition onerror (s : app) : app := (s.1, Stream (z_logs s.2) false (z_status s.2)).

(** ** Events of the page *)
Inductive page_event :=
| Message (now : Z) (preferences : val) (text : content)
| Opened
| Dropped
| ContextChanges (c : ctx_state)     (* the browser, and the handler it calls *)
| Toggle (c : ctx_state)
| UnmuteTimer.

Definition on_event (e : page_event) (s : app) : app :=
  match e with
  | Message now preferences text => onmessage now preferences text s
  | Opened => onopen s
  | Dropped => onerror s
  | ContextChanges c => (stateHandler (MkAudio c (x_muted s.1) (x_blocked s.1) (x_timer s.1) (x_started s.1)), s.2)
  | Toggle c => (toggleMute c s.1, s.2)
  | UnmuteTimer => if x_timer s.1 then (autoUnmuteTimer s.1, s.2) else s
  end.
Definition on_events (l : list page_event) (s : app) : app := foldl (fun s e => on_event e s) s l.

(** ** The wake lock *)
Record wake := Wake {
  v_active : bool;             (* isActive *)
  v_error : val;
  v_sentinel : option nat;     (* sentinelRef, by identity *)
  v_listening : option nat     (* the sentinel whose release is listened to *)
}.

(** The effect of a change of [isActive] *)
Definition wake_commit (old s : wake) : wake :=
  if Bool.eqb (v_active old) (v_active s) then s else
  Wake (v_active s) (v_error s) (v_sentinel s)
    (if v_active s then match v_sentinel s with Some id => Some id | None => None end else None).

(** [request], supported: the browser's new lock, or its error *)
Definition request_lock (granted : nat + val) (s : wake) : wake :=
  match granted with
  | inl id => Wake true VNull (Some id) (v_listening s)
  | inr err => Wake false err (v_sentinel s) (v_listening s)
  end.

(** The lock [id] is released, by the browser or by [release()]. *)
Definition released (id : nat) (s : wake) : wake :=
  if bool_decide (v_listening s = Some id) then Wake false (v_error s) None (v_listening s) else s.

Definition handleVisibilityChange (visible : bool) (granted : nat + val) (s : wake) : wake :=
  if v_active s && visible && negb (bool_decide (is_Some (v_sentinel s))) then request_lock granted s else s.

Inductive wake_event :=
| RequestLock (granted : nat + val)
| Released (id : nat)
| VisibilityChange (visible : bool) (granted : nat + val).

Definition wake_step (e : wake_event) (s : wake) : wake :=
  wake_commit s (match e with
                 | RequestLock granted => request_lock granted s
                 | Released id => released id s
                 | VisibilityChange visible granted => handleVisibilityChange visible granted s
                 end).
Definition wake_run (l : list wake_event) (s : wake) : wake := foldl (fun s e => wake_step e s) s l.
Definition no_lock : wake := Wake false VNull None None.

(** ** Lemmas *)

(** The mute button shows whether the context runs; a blocked page does not run. *)
Definition truthful (a : audio) : Prop :=
  x_muted a = negb (running (x_ctx a)) /\ (x_blocked a = true -> running (x_ctx a) = false).

Lemma truthful_play url a : truthful a -> truthful (playUrl url a).
Proof. destruct a as [[] m b t st]; intros [H1 H2]; by split. Qed.

Lemma truthful_event e s : truthful s.1 -> truthful (on_event e s).1.
Proof.
  intros H. destruct e as [now p text| | |c|c|]; cbn [on_event].
  - unfold onmessage. destruct (mbind _ _) as [[data type]|]; [|done].
    destruct (seq type (VStr "LOG")); [done|]. destruct (seq type (VStr "AUDIO_PLAY")).
    + destruct (is_nullish _); [done|]. unfold handleAudioPlay. cbn [fst].
      destruct (isAudioExcluded _ _ _); [done|by apply truthful_play].
    + destruct (seq type (VStr "PROCESS_UPDATE")); [|done]. by destruct (get _ _).
  - done.
  - done.
  - unfold truthful. by destruct c.
  - unfold truthful, toggleMute. destruct H as [_ H]. cbn. destruct (x_ctx s.1) eqn:E, c; cbn in *; done.
  - destruct (x_timer s.1); [|done]. unfold truthful. cbn. by destruct (x_ctx s.1).
Qed.

Lemma bounded_event e s : (length (z_logs s.2) <= 50)%nat -> (length (z_logs (on_event e s).2) <= 50)%nat.
Proof.
  intros H. destruct e as [now p text| | |c|c|]; cbn [on_event]; try done; [|by destruct (x_timer _)].
  unfold onmessage. destruct (mbind _ _) as [[data type]|]; [|done].
  assert (forall x, (length (z_logs (push_log x s.2)) <= 50)%nat) as K
    by (intros x; unfold push_log; cbn [z_logs]; rewrite length_firstn; lia).
  destruct (seq type (VStr "LOG")); [apply K|]. destruct (seq type (VStr "AUDIO_PLAY")).
  - destruct (is_nullish _); [done|apply K].
  - destruct (seq type (VStr "PROCESS_UPDATE")); [|done]. by destruct (get _ _).
Qed.

(** The page shows the truth about its sound.  After any messages, clicks and
    decisions of the browser the mute button shows whether the audio context
    runs, the notice that sound is blocked is shown only while it does not, and
    at most fifty lines of the log are kept. *)
Theorem page_truthful l autoUnmute c :
  let s := on_events l (mount_audio autoUnmute c, no_stream) in
  x_muted s.1 = negb (running (x_ctx s.1)) /\ (x_blocked s.1 = true -> running (x_ctx s.1) = false) /\
  (length (z_logs s.2) <= 50)%nat.
Proof.
  assert (forall l s, truthful s.1 -> (length (z_logs s.2) <= 50)%nat ->
    truthful (on_events l s).1 /\ (length (z_logs (on_events l s).2) <= 50)%nat) as K.
  { clear. intros l. induction l as [|e l IH]; intros s H1 H2; [done|].
    apply IH; [by apply truthful_event|by apply bounded_event]. }
  destruct (K l (mount_audio autoUnmute c, no_stream)) as [[H1 H2] H3]; [by split; destruct c|cbn; lia|].
  cbv zeta. by split_and!.
Qed.

(** ** From the server to the loudspeaker *)

(** The message of [BrowserOutput._broadcastUrl] *)
Definition play_message (payload : val) : val :=
  VObj [("type", VStr "AUDIO_PLAY");
        ("payload", VObj [("prayer", prop payload "prayer"); ("event", prop payload "event");
                          ("url", prop (prop payload "source") "url")])].

Lemma broadcast_reaches payload metadata aborted w res msgs :
  (res, msgs) ∈ sse_clients (w_sse w) ->
  (res, msgs ++ [play_message payload]) ∈ sse_clients (w_sse (_broadcastUrl payload metadata aborted w).2).
Proof.
  intros H. cbn. apply list_elem_of_fmap. exists (res, msgs). by split.
Qed.

Lemma message_played now preferences prayer event url a z :
  onmessage now preferences (Json (play_message (VObj [("prayer", VStr prayer); ("event", VStr event);
      ("source", VObj [("url", VStr url)])]))) (a, z) =
    ((if isAudioExcluded prayer event preferences then a else playUrl (VStr url) a),
     push_log (play_entry now (VObj [("prayer", VStr prayer); ("event", VStr event); ("url", VStr url)])) z).
Proof. unfold onmessage. cbn. unfold handleAudioPlay. by destruct (isAudioExcluded _ _ _). Qed.

(** C21: An announcement reaches exactly the browsers that are to hear it.  What the
    server broadcasts for an event is the last message of every connected
    client; a page that receives it plays the link exactly when its user has
    not muted the event and its audio context is not suspended; otherwise it
    plays nothing, and says that sound is blocked when only the context stands
    in the way. *)
Theorem announcement_end_to_end now w res msgs preferences a z prayer event url :
  (res, msgs) ∈ sse_clients (w_sse w) ->
  let payload := VObj [("prayer", VStr prayer); ("event", VStr event); ("source", VObj [("url", VStr url)])] in
  let w' := (_broadcastUrl payload VNull false w).2 in
  exists m, (res, msgs ++ [m]) ∈ sse_clients (w_sse w') /\
    let a' := (onmessage now preferences (Json m) (a, z)).1 in
    (isAudioExcluded prayer event preferences = true -> a' = a) /\
    (isAudioExcluded prayer event preferences = false -> x_ctx a = Suspended ->
       x_started a' = x_started a /\ x_blocked a' = true) /\
    (isAudioExcluded prayer event preferences = false -> x_ctx a = Running ->
       x_started a' = x_started a ++ [VStr url] /\ x_blocked a' = x_blocked a).
Proof.
  intros Hin payload w'. exists (play_message payload). split; [by apply broadcast_reaches|].
  unfold payload. cbv zeta. rewrite message_played. cbn [fst].
  split; [by intros ->|]. split; intros -> Hc; unfold playUrl; by rewrite Hc.
Qed.

(** *** The wake lock *)
Definition held (s : wake) : Prop := v_active s = true -> is_Some (v_sentinel s).

Lemma held_step e s : held s -> held (wake_step e s).
Proof.
  intros H. unfold wake_step. set (s1 := match e with RequestLock _ => _ | _ => _ end).
  assert (held s1) as H1.
  { unfold s1. destruct e as [[id|err]|id|v [id|err]]; unfold held.
    - intros _. by eexists.
    - done.
    - unfold released. by destruct (bool_decide _).
    - unfold handleVisibilityChange. destruct (_ && _); [intros _; by eexists|exact H].
    - unfold handleVisibilityChange. destruct (_ && _); [done|exact H]. }
  unfold wake_commit. destruct (Bool.eqb _ _); exact H1.
Qed.

(** The wake lock is never taken again by itself.  The handler of visibility
    changes, meant to re-acquire a lock the browser released while the page was
    hidden, waits for an active lock without a sentinel; but the release that
    clears the sentinel also clears the mark.  In every state that can be
    reached the handler does nothing. *)
Theorem wake_lock_not_reacquired l visible granted :
  handleVisibilityChange visible granted (wake_run l no_lock) = wake_run l no_lock.
Proof.
  assert (forall l s, held s -> held (wake_run l s)) as K.
  { clear. intros l. induction l as [|e l IH]; intros s H; [done|]. by apply IH, held_step. }
  assert (held no_lock) as H0 by done. specialize (K l no_lock H0). unfold held in K.
  unfold handleVisibilityChange. destruct (v_active _); [|done]. specialize (K eq_refl).
  rewrite bool_decide_true by done. by rewrite andb_false_r.
Qed.

(** A lock, released while the page is hidden *)
Example lock_lost :
  wake_run [RequestLock (inl 1%nat); VisibilityChange false (inl 2%nat); Released 1%nat;
            VisibilityChange true (inl 2%nat)] no_lock = no_lock.
Proof. vm_compute. reflexivity. Qed.

(** ** A page that listens *)
Definition listening_world : world := set_sse (Sse [(7%nat, [])] []) empty_world.
Definition speaking : audio := MkAudio Running false false false [].

Lemma announcement_end_to_end_witness :
  exists m, (7%nat, [m]) ∈ sse_clients (w_sse (_broadcastUrl (VObj [("prayer", VStr "fajr"); ("event", VStr "adhan");
      ("source", VObj [("url", VStr "/public/a.mp3")])]) VNull false listening_world).2) /\
    x_started (onmessage 0 DEFAULT_PREFERENCES (Json m) (speaking, no_stream)).1 = [VStr "/public/a.mp3"] /\
    x_started (onmessage 0 (muteAll DEFAULT_PREFERENCES) (Json m) (speaking, no_stream)).1 = [].
Proof.
  assert ((7%nat, []) ∈ sse_clients (w_sse listening_world)) as Hin by (left).
  destruct (announcement_end_to_end 0 listening_world 7 [] DEFAULT_PREFERENCES speaking no_stream "fajr" "adhan"
    "/public/a.mp3" Hin) as (m & Hm & _ & _ & H1).
  exists m. split; [exact Hm|]. split; [exact (proj1 (H1 eq_refl eq_refl))|].
  cbn in Hm. apply list_elem_of_singleton in Hm. injection Hm as ->. reflexivity.
Defined.
