(* ===== verification/FileManager.v ===== *)
(** * The file manager in the browser
      ([client/src/views/settings/FileManagerView.jsx],
       [client/src/components/common/AudioTestModal.jsx] and [ConfirmModal.jsx])

    The view lists the audio files of the server, uploads, deletes, checks and
    plays them.  Each of its asynchronous functions is cut at its request: what
    runs before is a handler, what runs after is the answer to a request in
    flight, and the answers come in any order.  A handler that throws leaves
    what it set before. *)
From stdpp Require Import sorting.
From S2P Require Import Prelude JsString JsValue NodePath World Providers Storage Outputs.
From S2P Require Import AudioAssets Http SettingsController SystemController ClientSettings.

(** A [File] the user chose *)
Record blob := Blob { b_name : string; b_type : string }.

Record answer := Answer { n_reply : ClientSettings.reply; n_statusText : string }.

(** What a request in flight was made for *)
Inductive flight :=
| Listing | Registry | ModalRegistry | Upload | Deletion
| Revalidation (path : val)
| TestRun.

(** The element the browser plays with *)
Record player := Player { p_src : val; p_paused : bool; p_onended : bool }.

Record view := View {
  u_files : val;
  u_uploading : bool;
  u_error : val;
  u_playingFile : val;
  u_serverPlaying : val;
  u_strategies : val;
  u_testModalFile : val;
  u_consentGiven : bool;
  u_collapsedSections : val;
  u_pendingUpload : option blob;
  u_deleteConfirmFile : val;
  u_expandedFile : val;
  u_revalidating : val;
  u_modalStrategies : val;
  u_audio : player;
  u_timers : nat;
  u_sent : list call;
  u_flights : list flight
}.

Definition set_files (x : val) (s : view) : view :=
  View x (u_uploading s) (u_error s) (u_playingFile s) (u_serverPlaying s) (u_strategies s) (u_testModalFile s)
    (u_consentGiven s) (u_collapsedSections s) (u_pendingUpload s) (u_deleteConfirmFile s) (u_expandedFile s)
    (u_revalidating s) (u_modalStrategies s) (u_audio s) (u_timers s) (u_sent s) (u_flights s).
Definition set_uploading (x : bool) (s : view) : view :=
  View (u_files s) x (u_error s) (u_playingFile s) (u_serverPlaying s) (u_strategies s) (u_testModalFile s)
    (u_consentGiven s) (u_collapsedSections s) (u_pendingUpload s) (u_deleteConfirmFile s) (u_expandedFile s)
    (u_revalidating s) (u_modalStrategies s) (u_audio s) (u_timers s) (u_sent s) (u_flights s).
Definition set_error (x : val) (s : view) : view :=
  View (u_files s) (u_uploading s) x (u_playingFile s) (u_serverPlaying s) (u_strategies s) (u_testModalFile s)
    (u_consentGiven s) (u_collapsedSections s) (u_pendingUpload s) (u_deleteConfirmFile s) (u_expandedFile s)
    (u_revalidating s) (u_modalStrategies s) (u_audio s) (u_timers s) (u_sent s) (u_flights s).
Definition set_playingFile (x : val) (s : view) : view :=
  View (u_files s) (u_uploading s) (u_error s) x (u_serverPlaying s) (u_strategies s) (u_testModalFile s)
    (u_consentGiven s) (u_collapsedSections s) (u_pendingUpload s) (u_deleteConfirmFile s) (u_expandedFile s)
    (u_revalidating s) (u_modalStrategies s) (u_audio s) (u_timers s) (u_sent s) (u_flights s).
Definition set_serverPlaying (x : val) (s : view) : view :=
  View (u_files s) (u_uploading s) (u_error s) (u_playingFile s) x (u_strategies s) (u_testModalFile s)
    (u_consentGiven s) (u_collapsedSections s) (u_pendingUpload s) (u_deleteConfirmFile s) (u_expandedFile s)
    (u_revalidating s) (u_modalStrategies s) (u_audio s) (u_timers s) (u_sent s) (u_flights s).
Definition set_strategies (x : val) (s : view) : view :=
  View (u_files s) (u_uploading s) (u_error s) (u_playingFile s) (u_serverPlaying s) x (u_testModalFile s)
    (u_consentGiven s) (u_collapsedSections s) (u_pendingUpload s) (u_deleteConfirmFile s) (u_expandedFile s)
    (u_revalidating s) (u_modalStrategies s) (u_audio s) (u_timers s) (u_sent s) (u_flights s).
Definition set_testModalFile (x : val) (s : view) : view :=
  View (u_files s) (u_uploading s) (u_error s) (u_playingFile s) (u_serverPlaying s) (u_strategies s) x
    (u_consentGiven s) (u_collapsedSections s) (u_pendingUpload s) (u_deleteConfirmFile s) (u_expandedFile s)
    (u_revalidating s) (u_modalStrategies s) (u_audio s) (u_timers s) (u_sent s) (u_flights s).
Definition set_consentGiven (x : bool) (s : view) : view :=
  View (u_files s) (u_uploading s) (u_error s) (u_playingFile s) (u_serverPlaying s) (u_strategies s)
    (u_testModalFile s) x (u_collapsedSections s) (u_pendingUpload s) (u_deleteConfirmFile s) (u_expandedFile s)
    (u_revalidating s) (u_modalStrategies s) (u_audio s) (u_timers s) (u_sent s) (u_flights s).
Definition set_collapsedSections (x : val) (s : view) : view :=
  View (u_files s) (u_uploading s) (u_error s) (u_playingFile s) (u_serverPlaying s) (u_strategies s)
    (u_testModalFile s) (u_consentGiven s) x (u_pendingUpload s) (u_deleteConfirmFile s) (u_expandedFile s)
    (u_revalidating s) (u_modalStrategies s) (u_audio s) (u_timers s) (u_sent s) (u_flights s).
Definition set_pendingUpload (x : option blob) (s : view) : view :=
  View (u_files s) (u_uploading s) (u_error s) (u_playingFile s) (u_serverPlaying s) (u_strategies s)
    (u_testModalFile s) (u_consentGiven s) (u_collapsedSections s) x (u_deleteConfirmFile s) (u_expandedFile s)
    (u_revalidating s) (u_modalStrategies s) (u_audio s) (u_timers s) (u_sent s) (u_flights s).
Definition set_deleteConfirmFile (x : val) (s : view) : view :=
  View (u_files s) (u_uploading s) (u_error s) (u_playingFile s) (u_serverPlaying s) (u_strategies s)
    (u_testModalFile s) (u_consentGiven s) (u_collapsedSections s) (u_pendingUpload s) x (u_expandedFile s)
    (u_revalidating s) (u_modalStrategies s) (u_audio s) (u_timers s) (u_sent s) (u_flights s).
Definition set_expandedFile (x : val) (s : view) : view :=
  View (u_files s) (u_uploading s) (u_error s) (u_playingFile s) (u_serverPlaying s) (u_strategies s)
    (u_testModalFile s) (u_consentGiven s) (u_collapsedSections s) (u_pendingUpload s) (u_deleteConfirmFile s) x
    (u_revalidating s) (u_modalStrategies s) (u_audio s) (u_timers s) (u_sent s) (u_flights s).
Definition set_revalidating (x : val) (s : view) : view :=
  View (u_files s) (u_uploading s) (u_error s) (u_playingFile s) (u_serverPlaying s) (u_strategies s)
    (u_testModalFile s) (u_consentGiven s) (u_collapsedSections s) (u_pendingUpload s) (u_deleteConfirmFile s)
    (u_expandedFile s) x (u_modalStrategies s) (u_audio s) (u_timers s) (u_sent s) (u_flights s).
Definition set_modalStrategies (x : val) (s : view) : view :=
  View (u_files s) (u_uploading s) (u_error s) (u_playingFile s) (u_serverPlaying s) (u_strategies s)
    (u_testModalFile s) (u_consentGiven s) (u_collapsedSections s) (u_pendingUpload s) (u_deleteConfirmFile s)
    (u_expandedFile s) (u_revalidating s) x (u_audio s) (u_timers s) (u_sent s) (u_flights s).
Definition set_audio (x : player) (s : view) : view :=
  View (u_files s) (u_uploading s) (u_error s) (u_playingFile s) (u_serverPlaying s) (u_strategies s)
    (u_testModalFile s) (u_consentGiven s) (u_collapsedSections s) (u_pendingUpload s) (u_deleteConfirmFile s)
    (u_expandedFile s) (u_revalidating s) (u_modalStrategies s) x (u_timers s) (u_sent s) (u_flights s).
Definition set_timers (x : nat) (s : view) : view :=
  View (u_files s) (u_uploading s) (u_error s) (u_playingFile s) (u_serverPlaying s) (u_strategies s)
    (u_testModalFile s) (u_consentGiven s) (u_collapsedSections s) (u_pendingUpload s) (u_deleteConfirmFile s)
    (u_expandedFile s) (u_revalidating s) (u_modalStrategies s) (u_audio s) x (u_sent s) (u_flights s).
Definition add_request (fl : flight) (c : call) (s : view) : view :=
  View (u_files s) (u_uploading s) (u_error s) (u_playingFile s) (u_serverPlaying s) (u_strategies s)
    (u_testModalFile s) (u_consentGiven s) (u_collapsedSections s) (u_pendingUpload s) (u_deleteConfirmFile s)
    (u_expandedFile s) (u_revalidating s) (u_modalStrategies s) (u_audio s) (u_timers s) (u_sent s ++ [c])
    (u_flights s ++ [fl]).
Definition set_flights (fs : list flight) (s : view) : view :=
  View (u_files s) (u_uploading s) (u_error s) (u_playingFile s) (u_serverPlaying s) (u_strategies s)
    (u_testModalFile s) (u_consentGiven s) (u_collapsedSections s) (u_pendingUpload s) (u_deleteConfirmFile s)
    (u_expandedFile s) (u_revalidating s) (u_modalStrategies s) (u_audio s) (u_timers s) (u_sent s) fs.

(** The first render *)
Definition first_view : view :=
  View (VArr []) false VNull VNull VNull (VArr []) VNull false (VObj []) None VNull VNull VNull (VArr [])
    (Player (VStr "") true false) 0 [] [].

Definition request (fl : flight) (method url : string) (body : val) : M view unit :=
  modify (add_request fl (Call method url body)).

(** ** Lists *)
Definition loadFiles : M view unit := request Listing "GET" "/api/system/audio-files" VUndef.
Definition loadStrategies : M view unit := request Registry "GET" "/api/system/outputs/registry" VUndef.
Definition mount : M view unit := loadFiles ;; loadStrategies.

(** [files.filter((f) => f.type === type)]; anything but an array is no file. *)
Fixpoint of_type_in (type : string) (l : list val) : result (list val) :=
  match l with
  | [] => Ok []
  | f :: l' => t ← get f "type"; rest ← of_type_in type l'; Ok (if seq t (VStr type) then f :: rest else rest)
  end.
Definition of_type (type : string) (files : val) : result (list val) :=
  match files with VArr l => of_type_in type l | _ => Ok [] end.

Definition named (name : string) (l : list val) : bool := existsb (fun f => seq (prop f "name") (VStr name)) l.

(** ** Uploading *)
Definition is_audio (file : blob) : bool :=
  starts_with "audio/" (b_type file) ||
  existsb (fun ext => ends_with ext (to_lower (b_name file))) [".mp3"; ".wav"; ".aac"; ".ogg"; ".opus"; ".flac"; ".m4a"].

Definition performUpload (file : blob) : M view unit :=
  modify (set_uploading true) ;; modify (set_error VNull) ;;
  request Upload "POST" "/api/settings/upload" (VObj [("file", VStr (b_name file))]).

Definition handleUpload (chosen : option blob) : M view unit :=
  match chosen with
  | None => ret tt
  | Some file =>
      if negb (is_audio file) then modify (set_error (VStr "Invalid file type. Please upload an audio file.")) else
      files ← gets u_files;
      customFiles ← lift (of_type "custom" files);
      if named (b_name file) customFiles then modify (set_pendingUpload (Some file)) else performUpload file
  end.

(** What the server says of a upload_refusal *)
Definition upload_refusal (res : answer) : M view string :=
  try_catch
    (data ← lift (a_json (n_reply res));
     message ← lift (get data "message");
     ret (show (js_or (js_or message (prop data "error")) (VStr "Upload failed"))))
    (fun _ => ret (if a_status (n_reply res) =? 413 then "Storage Limit Exceeded"
                   else if String.eqb (n_statusText res) "" then "Upload failed" else n_statusText res)).

Definition uploadAnswered (r : result answer) : M view unit :=
  try_finally (try_catch (
    res ← lift r;
    if negb (res_ok (n_reply res)) then errorMsg ← upload_refusal res; throw (Error errorMsg) else loadFiles)
    (fun err =>
       modify (set_error (VStr
         (if String.eqb (e_name err) "TypeError" && String.eqb (e_msg err) "Failed to fetch"
          then "Upload rejected by server (likely storage limit exceeded)" else e_msg err)))))
    (set_uploading false).

Definition handleOverwriteCancel : M view unit := modify (set_pendingUpload None).
Definition handleOverwriteConfirm : M view unit :=
  pending ← gets u_pendingUpload;
  match pending with
  | Some file => performUpload file ;; modify (set_pendingUpload None)
  | None => ret tt
  end.

(** ** Deleting *)
Definition handleDelete (filename : val) : M view unit := modify (set_deleteConfirmFile filename).
Definition confirmDelete : M view unit :=
  filename ← gets u_deleteConfirmFile;
  modify (set_deleteConfirmFile VNull) ;;
  request Deletion "DELETE" "/api/settings/files" (VObj [("filename", filename)]).
Definition deletionAnswered (r : result answer) : M view unit :=
  try_catch (
    res ← lift r;
    if negb (res_ok (n_reply res)) then throw (Error "Delete failed") else loadFiles)
    (fun err => modify (set_error (VStr (e_msg err)))).

(** ** Checking again *)
Definition handleRevalidate (file : val) : M view unit :=
  modify (set_revalidating (prop file "path")) ;;
  request (Revalidation (prop file "path")) "POST" "/api/settings/files/revalidate"
    (VObj [("filename", prop file "name"); ("type", prop file "type")]).

(** [{ ...f, metadata: updatedMetadata }] for the file of the path *)
Definition with_metadata (path metadata f : val) : val :=
  if seq (prop f "path") path then VObj (ospread (props f) [("metadata", metadata)]) else f.
Definition update_metadata (path metadata files : val) : val :=
  match files with VArr l => VArr (with_metadata path metadata <$> l) | _ => files end.

Definition revalidationAnswered (path : val) (r : result answer) : M view unit :=
  try_finally (try_catch (
    res ← lift r;
    if a_status (n_reply res) =? 429 then throw (Error "Revalidation failed: Too many requests") else
    if negb (res_ok (n_reply res)) then throw (Error "Revalidation failed") else
    updatedMetadata ← lift (a_json (n_reply res));
    modify (fun s => set_files (update_metadata path updatedMetadata (u_files s)) s))
    (fun err => modify (set_error (VStr (e_msg err)))))
    (set_revalidating VNull).

(** ** Playing *)
Definition handleBrowserPlay (file : val) : M view unit :=
  playing ← gets u_playingFile;
  if seq playing (prop file "name") then
    modify (fun s => set_audio (Player (p_src (u_audio s)) true (p_onended (u_audio s))) s) ;;
    modify (set_playingFile VNull)
  else
    modify (set_audio (Player (prop file "url") false true)) ;;
    modify (set_playingFile (prop file "name")).
Definition playbackFailed (message : string) : M view unit := modify (set_error (VStr ("Playback failed: " +:+ message))).

Definition handleServerPlay (file : val) (targetId : string) : M view unit :=
  modify (set_serverPlaying (prop file "name")) ;;
  request TestRun "POST" ("/api/system/outputs/" +:+ targetId +:+ "/test")
    (VObj [("source", VObj [("path", prop file "path")])]).
Definition testAnswered (r : result answer) : M view unit :=
  try_catch (
    res ← lift r;
    if negb (res_ok (n_reply res)) then
      data ← lift (a_json (n_reply res));
      error ← lift (get data "error");
      throw (Error (show (js_or error (VStr "Test request failed"))))
    else
      modify (set_testModalFile VNull) ;;
      modify (fun s => set_timers (S (u_timers s)) s))
    (fun err =>
       modify (set_error (VStr (if String.eqb (e_msg err) "" then "Server playback request failed" else e_msg err))) ;;
       modify (set_serverPlaying VNull)).

(** *** The dialogue of the test: an output that is off or ill cannot be tried. *)
Record target := Target { t_id : val; t_label : val; t_description : string; t_disabled : bool }.

Definition target_of (c : client) (strategy : val) : result target :=
  id ← get strategy "id";
  health ← get (k_systemHealth c) (show id);
  automation ← get (k_config c) "automation";
  if seq id (VStr "browser")
  then Ok (Target id (VStr "All Dashboards") "Broadcasts to all connected browsers" false) else
  let isEnabled := truthy (prop (prop (prop automation "outputs") (show id)) "enabled") in
  let isHealthy := truthy (prop health "healthy") in
  Ok (Target id (prop strategy "label")
        (if negb isEnabled then "This output is disabled in settings"
         else if negb isHealthy then "Offline: " +:+ show (js_or (prop health "message") (VStr "Service unreachable"))
         else if seq id (VStr "local") then "Plays on the mosque local audio system"
         else "Triggers Alexa/Smart Home devices")
        (negb isEnabled || negb isHealthy)).

Fixpoint targets_in (c : client) (l : list val) : result (list target) :=
  match l with
  | [] => Ok []
  | strategy :: l' =>
      hidden ← get strategy "hidden";
      rest ← targets_in c l';
      if negb (truthy hidden) || seq (prop strategy "id") (VStr "browser")
      then t ← target_of c strategy; Ok (t :: rest) else Ok rest
  end.
Definition test_targets (c : client) (s : view) : result (list target) :=
  l ← iterate (u_modalStrategies s); targets_in c l.

(** The dialogue asks for the strategies whenever it opens. *)
Definition openTest (file : val) : M view unit :=
  before ← gets u_testModalFile;
  modify (set_testModalFile file) ;;
  when (truthy file && negb (truthy before)) (request ModalRegistry "GET" "/api/system/outputs/registry" VUndef).

(** Whether the button of a target can be pressed *)
Definition can_test (c : client) (s : view) (id : string) : bool :=
  truthy (u_testModalFile s) && u_consentGiven s &&
  match test_targets c s with
  | Ok ts => existsb (fun t => seq (t_id t) (VStr id) && negb (t_disabled t)) ts
  | Throw _ => false
  end.

(** ** What is shown *)
Definition toggleSection (section : string) : M view unit :=
  modify (fun s => set_collapsedSections
    (VObj (ospread (props (u_collapsedSections s))
             [(section, VBool (negb (truthy (prop (u_collapsedSections s) section))))])) s).

Definition expand (file : val) : M view unit :=
  modify (fun s => set_expandedFile (if seq (u_expandedFile s) (prop file "path") then VNull else prop file "path") s).

(** The row offers to delete the file. *)
Definition deletable (type : string) (file : val) : bool :=
  String.eqb type "custom" && negb (truthy (prop (prop file "metadata") "protected")).

Inductive mark := Compatible | Incompatible | Pending.
Definition mark_of (status : val) : mark :=
  if truthy (prop status "valid") then Compatible
  else if seq (prop status "valid") (VBool false) then Incompatible else Pending.

Section rows.
Context `{Loc : Locale}.

Definition label_before (a b : val) : Prop :=
  locale_le (str_of (prop a "label")) (str_of (prop b "label")) = true.
#[local] Instance label_before_dec : RelDecision label_before.
Proof. intros a b. unfold label_before. apply _. Defined.

(** The table of a row: a mark for each strategy, by label *)
Definition compatibility_table (strategies file : val) : result (list (val * mark)) :=
  l ← iterate strategies;
  let compatibility := js_or (prop (prop file "metadata") "compatibility") (VObj []) in
  Ok ((fun strategy => (prop strategy "label", mark_of (prop compatibility (show (prop strategy "id")))))
        <$> merge_sort label_before l).
End rows.

(** [name.match(/^tts_([a-z]+)_/)[1]] *)
Definition lower_letter (a : ascii) : bool := let n := nat_of_ascii a in Nat.leb 97 n && Nat.leb n 122.
Fixpoint letters (s : string) : string :=
  match s with
  | String a s' => if lower_letter a then String a (letters s') else ""
  | EmptyString => ""
  end.
Definition tts_prayer (name : string) : option string :=
  if negb (starts_with "tts_" name) then None else
  let run := letters (slice_from 4 name) in
  if negb (String.eqb run "") && starts_with "_" (slice_from (4 + String.length run) name) then Some run else None.

Definition group_of (file : val) : string :=
  match tts_prayer (str_of (prop file "name")) with
  | Some prayer => if existsb (String.eqb prayer) PRAYERS then prayer else "other"
  | None => "other"
  end.

(** [groupedCache[key].push(file)] *)
Definition push_group (groups : list (string * list val)) (file : val) : list (string * list val) :=
  (fun g => if String.eqb g.1 (group_of file) then (g.1, g.2 ++ [file]) else g) <$> groups.
Definition groupedCache (cacheFiles : list val) : list (string * list val) :=
  foldl push_group ((fun p => (p, [])) <$> "other" :: PRAYERS) cacheFiles.

(** ** The view at work *)
Inductive event :=
| Choose (file : option blob)
| ConfirmOverwrite | CancelOverwrite
| AskDelete (type : string) (file : val)
| ConfirmDelete | CancelDelete
| Revalidate (file : val)
| BrowserPlay (file : val)
| TrackEnded | PlaybackFailed (message : string)
| OpenTest (file : val) | CloseTest
| Consent (given : bool)
| ClickTest (id : string)
| Expand (file : val)
| Toggle (section : string)
| IconReset
| Answered (i : nat) (r : result answer)
| Unmount.

Definition answered (fl : flight) (r : result answer) : M view unit :=
  match fl with
  | Listing =>
      try_catch (
        res ← lift r; data ← lift (a_json (n_reply res)); files ← lift (get data "files");
        modify (set_files (js_or files (VArr []))))
        (fun _ => modify (set_error (VStr "Failed to load files")))
  | Registry =>
      try_catch (res ← lift r; data ← lift (a_json (n_reply res)); modify (set_strategies data)) (fun _ => ret tt)
  | ModalRegistry =>
      try_catch (
        res ← lift r;
        if negb (res_ok (n_reply res)) then throw (Error "Failed to fetch strategies") else
        data ← lift (a_json (n_reply res)); modify (set_modalStrategies data)) (fun _ => ret tt)
  | Upload => uploadAnswered r
  | Deletion => deletionAnswered r
  | Revalidation path => revalidationAnswered path r
  | TestRun => testAnswered r
  end.

(** A control that is disabled or not shown does nothing. *)
Definition handle_event (c : client) (e : event) : M view unit :=
  s ← getw;
  match e with
  | Choose file => when (negb (u_uploading s)) (handleUpload file)
  | ConfirmOverwrite => handleOverwriteConfirm ;; handleOverwriteCancel
  | CancelOverwrite => handleOverwriteCancel
  | AskDelete type file => when (deletable type file) (handleDelete (prop file "name"))
  | ConfirmDelete => when (truthy (u_deleteConfirmFile s)) (confirmDelete ;; modify (set_deleteConfirmFile VNull))
  | CancelDelete => modify (set_deleteConfirmFile VNull)
  | Revalidate file =>
      when (seq (u_expandedFile s) (prop file "path") && negb (seq (u_revalidating s) (prop file "path")))
        (handleRevalidate file)
  | BrowserPlay file => handleBrowserPlay file
  | TrackEnded => when (negb (p_paused (u_audio s)) && p_onended (u_audio s)) (modify (set_playingFile VNull))
  | PlaybackFailed message => playbackFailed message
  | OpenTest file => openTest file
  | CloseTest => modify (set_testModalFile VNull)
  | Consent given => when (truthy (u_testModalFile s)) (modify (set_consentGiven given))
  | ClickTest id => when (can_test c s id) (handleServerPlay (u_testModalFile s) id)
  | Expand file => expand file
  | Toggle section => toggleSection section
  | IconReset => when (Nat.ltb 0 (u_timers s))
                   (modify (set_timers (Nat.pred (u_timers s))) ;; modify (set_serverPlaying VNull))
  | Answered i r =>
      match u_flights s !! i with
      | Some fl => modify (set_flights (delete i (u_flights s))) ;; answered fl r
      | None => ret tt
      end
  | Unmount => modify (fun s => set_audio (Player (VStr "") true (p_onended (u_audio s))) s)
  end.

Definition step (s : view) (ce : client * event) : view := (handle_event ce.1 ce.2 s).2.
Definition run (l : list (client * event)) : view := foldl step (mount first_view).2 l.

(** ** Lemmas: what is asked of the server *)
Definition upload_of (file : blob) : call := Call "POST" "/api/settings/upload" (VObj [("file", VStr (b_name file))]).
Definition deletion_of (name : val) : call := Call "DELETE" "/api/settings/files" (VObj [("filename", name)]).
Definition check_of (file : val) : call :=
  Call "POST" "/api/settings/files/revalidate" (VObj [("filename", prop file "name"); ("type", prop file "type")]).
Definition test_of (file : val) (id : string) : call :=
  Call "POST" ("/api/system/outputs/" +:+ id +:+ "/test") (VObj [("source", VObj [("path", prop file "path")])]).

(** The requests that change something, and the two questions that are open *)
Definition writes (s : view) : list call := filter (fun q => q_method q <> "GET") (u_sent s).
Definition ledger (s : view) : list call * option blob * val := (writes s, u_pendingUpload s, u_deleteConfirmFile s).

Lemma writes_get fl url body s : writes (add_request fl (Call "GET" url body) s) = writes s.
Proof. unfold writes. cbn [u_sent add_request]. rewrite filter_app. cbn. by rewrite app_nil_r. Qed.

Lemma writes_add fl c s : q_method c <> "GET" -> writes (add_request fl c s) = writes s ++ [c].
Proof.
  intros H. unfold writes. cbn [u_sent add_request]. rewrite filter_app, (filter_cons_True _ c []) by done. done.
Qed.

Lemma keeps_read fl url body : keeps ledger (request fl "GET" url body).
Proof.
  apply keeps_modify. intros s. unfold ledger. by rewrite writes_get.
Qed.

Lemma keeps_answered fl r : keeps ledger (answered fl r).
Proof.
  pose proof (keeps_read Listing "/api/system/audio-files" VUndef) as Hl. fold loadFiles in Hl.
  assert (forall e, keeps ledger (modify (set_error e))) as He by (intros e; by apply keeps_modify).
  destruct fl; cbn [answered];
    unfold uploadAnswered, deletionAnswered, revalidationAnswered, testAnswered, upload_refusal; keeps_step;
    done || by apply keeps_modify.
Qed.

(** [e] happened after [before], and [stop] not since. *)
Definition since (e stop : event) (history before : list (client * event)) : Prop :=
  exists c later, history = before ++ (c, e) :: later /\ Forall (fun ce => ce.2 <> stop) later.

(** The request was asked for by the user in the course of [history]. *)
Inductive asked (history : list (client * event)) : call -> Prop :=
| asked_new before c later file l :
    history = before ++ (c, Choose (Some file)) :: later ->
    of_type "custom" (u_files (run before)) = Ok l -> named (b_name file) l = false ->
    asked history (upload_of file)
| asked_replace before c later file chosen :
    history = before ++ (c, ConfirmOverwrite) :: later ->
    since (Choose (Some file)) CancelOverwrite before chosen ->
    asked history (upload_of file)
| asked_delete before c later type file opened :
    history = before ++ (c, ConfirmDelete) :: later ->
    since (AskDelete type file) CancelDelete before opened -> deletable type file = true ->
    asked history (deletion_of (prop file "name"))
| asked_check before c later file :
    history = before ++ (c, Revalidate file) :: later -> asked history (check_of file)
| asked_test before c later id :
    history = before ++ (c, ClickTest id) :: later -> can_test c (run before) id = true ->
    asked history (test_of (u_testModalFile (run before)) id).

Definition accounted (history : list (client * event)) (s : view) : Prop :=
  (forall q, q ∈ writes s -> asked history q) /\
  (forall file, u_pendingUpload s = Some file -> exists before, since (Choose (Some file)) CancelOverwrite history before) /\
  (truthy (u_deleteConfirmFile s) = true -> exists before type file,
     since (AskDelete type file) CancelDelete history before /\ deletable type file = true /\
     u_deleteConfirmFile s = prop file "name").

Lemma since_now c e stop h : since e stop (h ++ [(c, e)]) h.
Proof. by exists c, []. Qed.

Lemma since_snoc c e stop e' h before : since e stop h before -> e' <> stop -> since e stop (h ++ [(c, e')]) before.
Proof.
  intros (c0 & later & -> & H) He. exists c0, (later ++ [(c, e')]). split; [by rewrite <- app_assoc|].
  apply Forall_app. split; [done|]. by constructor.
Qed.

Lemma asked_snoc x h q : asked h q -> asked (h ++ [x]) q.
Proof.
  intros H. destruct H; subst.
  - eapply asked_new; [by rewrite <- app_assoc|done..].
  - eapply asked_replace; [by rewrite <- app_assoc|done].
  - eapply asked_delete; [by rewrite <- app_assoc|done..].
  - eapply asked_check. by rewrite <- app_assoc.
  - eapply asked_test; [by rewrite <- app_assoc|done].
Qed.

Lemma accounted_same c e h s s' :
  accounted h s -> ledger s' = ledger s -> e <> CancelOverwrite -> e <> CancelDelete ->
  accounted (h ++ [(c, e)]) s'.
Proof.
  intros (Hw & Hp & Hd) [= E1 E2 E3] N1 N2. unfold accounted. rewrite E1, E2, E3. split; [|split].
  - intros q Hq. by apply asked_snoc, Hw.
  - intros file Hf. destruct (Hp file Hf) as [b Hb]. exists b. by apply since_snoc.
  - intros Ht. destruct (Hd Ht) as (b & type & file & Hb & H). exists b, type, file. split; [by apply since_snoc|done].
Qed.

(** One more request, which was asked for *)
Lemma accounted_more c e h s s' q :
  accounted h s -> writes s' = writes s ++ [q] -> u_pendingUpload s' = u_pendingUpload s ->
  u_deleteConfirmFile s' = u_deleteConfirmFile s -> e <> CancelOverwrite -> e <> CancelDelete ->
  asked (h ++ [(c, e)]) q -> accounted (h ++ [(c, e)]) s'.
Proof.
  intros Ha Ew Ep Ed N1 N2 Hq. destruct (accounted_same c e h s s Ha eq_refl N1 N2) as (Hw & Hp & Hd).
  unfold accounted. rewrite Ew, Ep, Ed. split; [|done].
  intros q' [H|H]%elem_of_app; [by apply Hw|]. by apply list_elem_of_singleton in H as ->.
Qed.

Lemma keeps_silent c e :
  match e with
  | Choose _ | ConfirmOverwrite | CancelOverwrite | AskDelete _ _ | ConfirmDelete | CancelDelete | Revalidate _
  | ClickTest _ => False
  | _ => True
  end -> keeps ledger (handle_event c e).
Proof.
  intros H. unfold handle_event. apply keeps_bind; [done|]. intros s.
  pose proof keeps_answered as Ha. pose proof (keeps_read ModalRegistry) as Hr.
  destruct e; try done;
    unfold handleBrowserPlay, playbackFailed, openTest, expand, toggleSection; keeps_step; try apply Ha; try apply Hr;
    by apply keeps_modify.
Qed.

Lemma run_snoc h x : run (h ++ [x]) = step (run h) x.
Proof. unfold run. by rewrite foldl_app. Qed.

Lemma writes_post s s' url body :
  u_sent s' = u_sent s ++ [Call "POST" url body] -> writes s' = writes s ++ [Call "POST" url body].
Proof. intros H. unfold writes. rewrite H, filter_app. by rewrite (filter_cons_True _ _ []). Qed.

Lemma accounted_choose c file h :
  accounted h (run h) -> accounted (h ++ [(c, Choose file)]) (step (run h) (c, Choose file)).
Proof.
  intros Ha. unfold step, handle_event. cbn [fst snd mbind M_bind getw]. unfold mbind, M_bind, getw, when, negb at 1.
  destruct (u_uploading (run h)); [by apply accounted_same with (s := run h)|].
  destruct file as [file|]; [|by apply accounted_same with (s := run h)]. cbn [handleUpload].
  destruct (is_audio file); cbn [negb]; [|by apply accounted_same with (s := run h)].
  unfold mbind, M_bind, gets, lift. destruct (of_type "custom" (u_files (run h))) as [l|] eqn:El;
    [|by apply accounted_same with (s := run h)].
  destruct (named (b_name file) l) eqn:En.
  - destruct (accounted_same c (Choose (Some file)) h _ _ Ha eq_refl ltac:(done) ltac:(done)) as (Hw & Hp & Hd).
    split; [done|]. split; [|done]. cbn. intros f' [= <-]. exists h. apply since_now.
  - eapply (accounted_more c _ h (run h) _ (upload_of file) Ha); [by eapply writes_post|done..|].
    by eapply asked_new.
Qed.

Lemma accounted_overwrite c h :
  accounted h (run h) -> accounted (h ++ [(c, ConfirmOverwrite)]) (step (run h) (c, ConfirmOverwrite)).
Proof.
  intros Ha. unfold step, handle_event. cbn [fst snd]. unfold handleOverwriteConfirm, handleOverwriteCancel, mbind, M_bind, getw, gets.
  destruct (u_pendingUpload (run h)) as [file|] eqn:Ep; cbn [fst snd].
  - destruct Ha as (Hw & Hp & Hd). destruct (Hp file Ep) as [chosen Hs]. split; [|split; [done|]].
    + intros q Hq. unfold performUpload, mbind, M_bind, modify, request in Hq. cbn [snd] in Hq.
      rewrite (writes_post (run h) _ "/api/settings/upload" (VObj [("file", VStr (b_name file))])) in Hq by done.
      apply elem_of_app in Hq as [Hq|Hq]; [by apply asked_snoc, Hw|]. apply list_elem_of_singleton in Hq as ->.
      by eapply asked_replace.
    + cbn. intros Ht. destruct (Hd Ht) as (b & type & f & Hb & H). exists b, type, f. split; [by apply since_snoc|done].
  - destruct (accounted_same c ConfirmOverwrite h _ _ Ha eq_refl ltac:(done) ltac:(done)) as (Hw & Hp & Hd).
    split; [done|]. split; [done|]. exact Hd.
Qed.

Lemma accounted_delete c h :
  accounted h (run h) -> accounted (h ++ [(c, ConfirmDelete)]) (step (run h) (c, ConfirmDelete)).
Proof.
  intros Ha. unfold step, handle_event. cbn [fst snd]. unfold confirmDelete, mbind, M_bind, getw, gets, when.
  destruct (truthy (u_deleteConfirmFile (run h))) eqn:Et; [|by apply accounted_same with (s := run h)].
  destruct Ha as (Hw & Hp & Hd). destruct (Hd Et) as (b & type & f & Hb & Hdel & Ef). split; [|split; [|done]].
  - intros q Hq. change (q ∈ writes (add_request Deletion (deletion_of (u_deleteConfirmFile (run h))) (run h))) in Hq.
    rewrite writes_add in Hq by done.
    apply elem_of_app in Hq as [Hq|Hq]; [by apply asked_snoc, Hw|]. apply list_elem_of_singleton in Hq as ->.
    rewrite Ef. by eapply asked_delete.
  - cbn. intros file Hf. destruct (Hp file Hf) as [b' Hb']. exists b'. by apply since_snoc.
Qed.

(** C27: Nothing is changed on the server that the user did not ask for.  Every
    request that is sent is an upload of a file of a name that was not among
    the listed ones, or one whose replacement was confirmed and not called off;
    the deletion of a file that can be deleted, confirmed and not called off; a
    new check of a file; or a test of an output that is enabled and well, after
    the warning was accepted. *)
Theorem requests_asked_for history q :
  q ∈ u_sent (run history) -> q_method q <> "GET" -> asked history q.
Proof.
  intros Hq Hm. assert (accounted history (run history)) as (H & _).
  - clear q Hq Hm. induction history as [|[c e] h IH] using rev_ind.
    + repeat split; try done. intros q Hq. by apply not_elem_of_nil in Hq.
    + rewrite run_snoc.
      assert (forall s', ledger s' = ledger (run h) -> e <> CancelOverwrite -> e <> CancelDelete ->
        accounted (h ++ [(c, e)]) s') as Hsame by (intros; by apply accounted_same with (s := run h)).
      destruct e as [file| | |type file| | |file| | | | | | |id| | | | |];
        try (apply Hsame; [by apply (keeps_silent c)|done..]); try clear Hsame.
      * by apply accounted_choose.
      * by apply accounted_overwrite.
      * destruct IH as (Hw & Hp & Hd). split; [intros q Hq; by apply asked_snoc, Hw|]. split; [done|].
        cbn. intros Ht. destruct (Hd Ht) as (b & type & f & Hb & H). exists b, type, f. split; [by apply since_snoc|done].
      * unfold step, handle_event. cbn [fst snd]. unfold mbind, M_bind, getw, when.
        destruct (deletable type file) eqn:Ed; [|by apply accounted_same with (s := run h)].
        destruct (accounted_same c (AskDelete type file) h _ _ IH eq_refl ltac:(done) ltac:(done)) as (Hw & Hp & _).
        split; [done|]. split; [done|]. intros _. exists h, type, file. split; [apply since_now|done].
      * by apply accounted_delete.
      * destruct IH as (Hw & Hp & Hd). split; [intros q Hq; by apply asked_snoc, Hw|]. split; [|done].
        cbn. intros f Hf. destruct (Hp f Hf) as [b Hb]. exists b. by apply since_snoc.
      * unfold step, handle_event. cbn [fst snd]. unfold mbind, M_bind, getw, when.
        destruct (_ && _); [|by apply accounted_same with (s := run h)].
        eapply (accounted_more c _ h (run h) _ (check_of file) IH); [by eapply writes_post|done..|by eapply asked_check].
      * unfold step, handle_event. cbn [fst snd]. unfold mbind, M_bind, getw, when.
        destruct (can_test c (run h) id) eqn:Et; [|by apply accounted_same with (s := run h)].
        eapply (accounted_more c _ h (run h) _ (test_of (u_testModalFile (run h)) id) IH);
          [by eapply writes_post|done..|by eapply asked_test].
  - apply H. by apply list_elem_of_filter.
Qed.

(** ** Lemmas: the listing of the server *)
Definition listed_sidecar (e : string * string) (w : world) : val :=
  let metaDir := if String.eqb e.2 "custom" then META_CUSTOM_DIR else META_CACHE_DIR in
  match (read_json (in_dir metaDir (e.1 +:+ ".json")) w).1 with Ok v => v | Throw _ => VObj [] end.
Definition entry_of (w : world) (e : string * string) : val :=
  VObj [("name", VStr e.1); ("type", VStr e.2); ("path", VStr (e.2 +:+ "/" +:+ e.1));
        ("url", VStr ("/public/audio/" +:+ e.2 +:+ "/" +:+ e.1)); ("metadata", listed_sidecar e w)].

Lemma file_entry_run e w : file_entry e w = (Ok (entry_of w e), w).
Proof.
  destruct e as [f type]. unfold file_entry, entry_of, listed_sidecar, try_catch, mbind, M_bind. cbn [fst snd].
  pose proof (fs_read_same (in_dir (if String.eqb type "custom" then META_CUSTOM_DIR else META_CACHE_DIR) (f +:+ ".json")) w) as H.
  unfold read_json, mbind, M_bind, lift. destruct (fs_read _ w) as [[v|] w1]; cbn in H; subst w1; cbn; [|done].
  by destruct (json_parse v).
Qed.

Lemma map_m_pure {W A B} (f : A -> M W B) g l w : (forall x, f x w = (Ok (g x), w)) -> map_m f l w = (Ok (g <$> l), w).
Proof.
  intros H. induction l as [|x l IH]; [done|]. cbn [map_m]. by rewrite (M_bind_ok _ _ _ _ _ (H x)), (M_bind_ok _ _ _ _ _ IH).
Qed.

Lemma mkdir_same d w w' : fs_mkdir d w = (Ok tt, w') -> w' = w.
Proof. unfold fs_mkdir. destruct (denied w d); congruence. Qed.

Definition listable (name : string) : bool := existsb (String.eqb (to_lower (extname name))) audioExtensions.

Lemma audio_entries_run dir type w :
  audio_entries dir type w =
    (Ok ((fun f => (f, type)) <$> filter (fun f => listable f = true) (dir_files dir w)), w).
Proof. unfold audio_entries. by rewrite (M_bind_ok _ _ _ _ _ (names_in_run _ _)). Qed.

Lemma listed_files w l w' :
  list_files w = (Ok l, w') ->
  let entries dir type := (fun f => (f, type)) <$> filter (fun f => listable f = true) (dir_files dir w) in
  l = filter (fun f => truthy (prop (prop f "metadata") "hidden") = false)
        (entry_of w <$> entries AUDIO_CUSTOM_DIR "custom" ++ entries AUDIO_CACHE_DIR "cache").
Proof.
  intros H. unfold list_files in H.
  do 4 (apply M_bind_inv in H as ([] & ? & E & H); apply mkdir_same in E as ->).
  rewrite (M_bind_ok _ _ _ _ _ (audio_entries_run _ _ _)), (M_bind_ok _ _ _ _ _ (audio_entries_run _ _ _)) in H.
  rewrite (M_bind_ok _ _ _ _ _ (map_m_pure _ (entry_of w) _ w (fun e => file_entry_run e w))) in H.
  unfold lift in H. injection H as H _. by apply visible_spec.
Qed.

Lemma dir_files_in dir name w f :
  files w !! in_dir dir name = Some f -> has_char "/" name = false -> name ∈ dir_files dir w.
Proof.
  intros Hf Hn. unfold dir_files. apply list_elem_of_filter. split; [done|].
  apply list_elem_of_fmap. exists (in_dir dir name, f).
  assert (in_dir dir name = (dir +:+ "/") +:+ name) as E by (unfold in_dir; by rewrite str_app_assoc).
  split.
  - cbn [fst]. rewrite E. replace (S (String.length dir)) with (String.length (dir +:+ "/")) by (rewrite str_length_app; cbn; lia).
    by rewrite slice_from_app.
  - unfold below. apply list_elem_of_filter. split; [|by apply elem_of_map_to_list].
    cbn [fst]. rewrite E. apply starts_with_app.
Qed.

Lemma of_type_named type l l' f name :
  of_type_in type l = Ok l' -> f ∈ l -> prop f "type" = VStr type -> prop f "name" = VStr name -> named name l' = true.
Proof.
  revert l'. induction l as [|g l IH]; intros l' H Hin Ht Hn; [by apply not_elem_of_nil in Hin|]. cbn [of_type_in] in H.
  destruct (get g "type") as [t|] eqn:Eg; [|done]. apply got_prop in Eg as ->. cbn [mbind result_bind] in H.
  destruct (of_type_in type l) as [rest|]; [|done]. cbn [mbind result_bind] in H. injection H as <-.
  apply elem_of_cons in Hin as [<-|Hin].
  - rewrite Ht. cbn [seq]. rewrite String.eqb_refl. unfold named. cbn [existsb]. rewrite Hn. cbn [seq]. by rewrite String.eqb_refl.
  - pose proof (IH rest eq_refl Hin Ht Hn) as H. destruct (seq _ _); [|done]. unfold named in *. cbn [existsb]. by rewrite H, orb_true_r.
Qed.

(** An upload that asks nothing replaces nothing.  The view shows the first
    page of the server's listing (the page it asks for), and all listed files
    are on it.  The name of the chosen file is one the server keeps as it is,
    with an extension it lists, and its sidecar does not hide it.  If the view
    sends the upload without a question, no file of that name is stored. *)
Theorem unasked_upload_is_new w l w' s c file :
  list_files w = (Ok l, w') -> Z.of_nat (length l) <= 50 -> u_files s = VArr (page_files l 1 50) ->
  upload_filename (b_name file) = b_name file -> listable (b_name file) = true ->
  truthy (prop (listed_sidecar (b_name file, "custom") w) "hidden") = false ->
  upload_of file ∈ drop (length (u_sent s)) (u_sent (step s (c, Choose (Some file)))) ->
  files w !! custom_file (upload_filename (b_name file)) = None.
Proof.
  intros Hl H50 Hs Hn Hext Hhid Hsent. rewrite Hn. destruct (files w !! custom_file (b_name file)) as [f|] eqn:Ef; [|done].
  exfalso. apply listed_files in Hl. cbv zeta in Hl.
  assert (has_char "/" (b_name file) = false) as Hslash.
  { rewrite <- Hn. eapply sforall_has_char; [apply upload_filename_plain|done]. }
  assert (entry_of w (b_name file, "custom") ∈ l) as Hin.
  { rewrite Hl. apply list_elem_of_filter. split; [exact Hhid|]. apply list_elem_of_fmap_2, elem_of_app. left.
    apply (list_elem_of_fmap_2 (fun f => (f, "custom"))), list_elem_of_filter. split; [done|]. by eapply dir_files_in. }
  assert (page_files l 1 50 = l) as Hp.
  { change 1 with (Z.of_nat 0 + 1). rewrite page_files_take by done. apply take_ge. cbn [Nat.mul drop]. lia. }
  rewrite Hp in Hs. revert Hsent. unfold step, handle_event. cbn [fst snd]. unfold mbind, M_bind, getw, when.
  assert (forall s', u_sent s' = u_sent s -> upload_of file ∈ drop (length (u_sent s)) (u_sent s') -> False) as Hno.
  { intros s' -> H. rewrite drop_all in H. by apply not_elem_of_nil in H. }
  destruct (u_uploading s); cbn [negb]; [by apply Hno|]. cbn [handleUpload].
  destruct (is_audio file); cbn [negb]; [|by apply Hno]. unfold mbind, M_bind, gets, lift. rewrite Hs.
  destruct (of_type_in "custom" l) as [l'|] eqn:El; cbn [of_type]; rewrite El; [|by apply Hno].
  rewrite (of_type_named "custom" l l' _ (b_name file) El Hin eq_refl eq_refl). by apply Hno.
Qed.

(** ** Lemmas: the other lists *)
Lemma push_groups keys files groups :
  groups.*1 = keys ->
  foldl push_group groups files =
    (fun g => (g.1, g.2 ++ filter (fun f => group_of f = g.1) files)) <$> groups.
Proof.
  revert groups. induction files as [|f files IH]; intros groups Hk; cbn [foldl].
  - rewrite <- (list_fmap_id groups) at 1. apply list_fmap_ext. intros i [k l] _. cbn. by rewrite app_nil_r.
  - rewrite IH.
    2: { rewrite <- Hk. unfold push_group. rewrite <- list_fmap_compose. apply list_fmap_ext.
         intros i [k l] _. cbn. by destruct (String.eqb k (group_of f)). }
    unfold push_group. rewrite <- list_fmap_compose. apply list_fmap_ext. intros i [k l] _. cbn [compose fst snd].
    rewrite filter_cons. destruct (String.eqb_spec k (group_of f)) as [->|Hne]; cbn [fst snd].
    + rewrite decide_True by done. by rewrite <- app_assoc.
    + by rewrite decide_False.
Qed.

Lemma filters_share_out {A} (key : A -> string) keys l :
  NoDup keys -> Forall (fun x => key x ∈ keys) l ->
  mjoin ((fun k => filter (fun x => key x = k) l) <$> keys) ≡ₚ l.
Proof.
  intros Hnd. induction l as [|x l IH]; intros HF.
  - clear. induction keys as [|k keys IH]; [done|]. exact IH.
  - apply Forall_cons in HF as [Hx HF]. etrans; [|apply perm_skip, (IH HF)].
    apply list_elem_of_split in Hx as (k1 & k2 & E). rewrite E in Hnd |- *.
    apply NoDup_app in Hnd as (_ & H1 & [H2 _]%NoDup_cons).
    assert (forall ks, key x ∉ ks -> (fun k => filter (fun y => key y = k) (x :: l)) <$> ks =
                                   (fun k => filter (fun y => key y = k) l) <$> ks :> list (list A)) as Hsame.
    { intros ks Hk. apply list_fmap_ext. intros i k Hi. rewrite filter_cons_False; [done|]. intros <-.
      by apply Hk, (list_elem_of_lookup_2 _ i). }
    rewrite !fmap_app, !fmap_cons, Hsame, Hsame; [|done|by intros H; apply (H1 _ H); left].
    rewrite filter_cons_True by done. rewrite !join_app. cbn [mjoin list_join].
    symmetry. apply Permutation_middle.
Qed.

(** The groups of the cached speech share the files out: each group has the
    files of its prayer in the order of the listing, what is of no prayer is
    under "other", and together they are all the files. *)
Theorem groups_share_out files :
  groupedCache files = (fun k => (k, filter (fun f => group_of f = k) files)) <$> "other" :: PRAYERS /\
  mjoin (groupedCache files).*2 ≡ₚ files.
Proof.
  assert (groupedCache files = (fun k => (k, filter (fun f => group_of f = k) files)) <$> "other" :: PRAYERS) as E.
  { unfold groupedCache. by rewrite (push_groups ("other" :: PRAYERS)). }
  split; [done|]. rewrite E. clear E. rewrite <- list_fmap_compose.
  change (snd ∘ _) with (fun k => filter (fun f => group_of f = k) files).
  apply (filters_share_out group_of); [by apply (bool_decide_unpack _)|].
  apply Forall_forall. intros f _. unfold group_of. destruct (tts_prayer _) as [p|]; [|left].
  destruct (existsb (String.eqb p) PRAYERS) eqn:Ep; [|left]. right.
  apply existsb_exists in Ep as (q & Hq & ->%String.eqb_eq). by apply list_elem_of_In.
Qed.

(** A new check touches the files of its path only: they get the metadata of
    the answer, every other file is as it was. *)
Lemma revalidation_updates_path path metadata l f :
  f ∈ arr_of (update_metadata path metadata (VArr l)) ->
  exists g, g ∈ l /\ (if seq (prop g "path") path then prop f "metadata" = metadata /\
                        (forall k, k <> "metadata" -> prop f k = oget k (props g)) else f = g).
Proof.
  intros (g & -> & Hg)%list_elem_of_fmap. exists g. split; [done|]. unfold with_metadata.
  destruct (seq (prop g "path") path); [|done]. split.
  - cbn [prop]. unfold ospread. cbn [foldl fst snd]. apply oget_oset.
  - intros k Hk. cbn [prop]. unfold ospread. cbn [foldl fst snd]. by apply oget_oset_ne.
Qed.

(** ** A page at work *)
Definition quiet_client : client :=
  Client (VObj []) VUndef (VObj []) false false false (VArr []) false VNull (VArr []) false true [].
Definition said (status : Z) (body : val) : result answer :=
  Ok (Answer (ClientSettings.Reply status VNull (Ok body)) "").
Definition user_does (l : list event) : list (client * event) := (fun e => (quiet_client, e)) <$> l.

(** The listing the server of the examples answers with *)
Definition first_page (w : world) : val :=
  match list_files w with (Ok l, _) => page_of l 1 50 | _ => VUndef end.

Definition azan_row : val :=
  VObj [("name", VStr "azan.mp3"); ("type", VStr "custom"); ("path", VStr "custom/azan.mp3");
        ("metadata", VObj [])].
Definition azan_listed : result answer := said 200 (VObj [("files", VArr [azan_row])]).

Lemma unlisted_upload_sent c file l s :
  u_uploading s = false -> is_audio file = true -> of_type "custom" (u_files s) = Ok l ->
  named (b_name file) l = false -> u_sent (step s (c, Choose (Some file))) = u_sent s ++ [upload_of file].
Proof.
  intros Hu Ha Hl Hn. unfold step, handle_event. cbn [fst snd]. unfold mbind, M_bind, getw, when. rewrite Hu. cbn [negb handleUpload].
  rewrite Ha. cbn [negb]. unfold mbind, M_bind, gets, lift. by rewrite Hl, Hn.
Qed.

(** The question is about the name on the user's disk, the server stores under
    another: "azan 1.mp3" replaces "azan_1.mp3" and its sidecar unasked. *)
Definition stored_world : world :=
  World.set_files {[ custom_file "azan_1.mp3" := File (Audio 9000 (VObj [])) 0;
               custom_meta "azan_1.mp3" := File (Json (VObj [("protected", VBool true)])) 0;
               uploaded_path "azan_1.mp3" := File (Audio 100 (VObj [])) 0 ]} empty_world.

Lemma replaced_unasked :
  let file := Blob "azan 1.mp3" "audio/mpeg" in
  let s := set_files (prop (first_page stored_world) "files") first_view in
  let w' := (uploadFile (Ho := quiet_host) (Some (upload_filename (b_name file))) stored_world).2 in
  upload_of file ∈ u_sent (step s (quiet_client, Choose (Some file))) /\
  u_pendingUpload (step s (quiet_client, Choose (Some file))) = None /\
  upload_filename (b_name file) = "azan_1.mp3" /\
  files w' !! custom_file "azan_1.mp3" = Some (File (Audio 100 (VObj [])) 0) /\
  protects (files stored_world !! custom_meta "azan_1.mp3") = true /\
  protects (files w' !! custom_meta "azan_1.mp3") = false.
Proof.
  intros file s w'. split; [|split_and!; by vm_compute].
  rewrite (unlisted_upload_sent quiet_client file (arr_of (u_files s)) s); [by left|by vm_compute..].
Qed.

(** The view asks for one page of fifty: what the server lists after it is not
    shown, and its names are free for the view. *)
Lemma later_pages_unseen l f : NoDup l -> f ∈ drop 50 l -> f ∉ page_files l 1 50.
Proof.
  intros Hnd Hf. change 1 with (Z.of_nat 0 + 1). rewrite page_files_take by done. cbn [Nat.mul drop].
  rewrite <- (take_drop 50 l) in Hnd. apply NoDup_app in Hnd as (_ & H & _). intros Hin. exact (H f Hin Hf).
Qed.

(** The mark of a check in flight is taken away by the answer to another. *)
Lemma check_mark_lost :
  let row name := VObj [("name", VStr name); ("type", VStr "custom"); ("path", VStr ("custom/" +:+ name))] in
  let s := run (user_does [Answered 0 azan_listed; Answered 0 (said 200 (VArr []));
                           Expand (row "a.mp3"); Revalidate (row "a.mp3");
                           Expand (row "b.mp3"); Revalidate (row "b.mp3"); Answered 0 (said 200 (VObj []))]) in
  u_flights s = [Revalidation (VStr "custom/b.mp3")] /\ u_revalidating s = VNull.
Proof. by vm_compute. Qed.

(** An error the server answers to the request for the strategies is stored as
    if it were the list: opening a row then throws while rendering. *)
Lemma registry_error_stored `{Loc : Locale} status body file :
  is_array body = false ->
  let s := run (user_does [Answered 1 (said status body)]) in
  u_strategies s = body /\ exists e, compatibility_table (u_strategies s) file = Throw e.
Proof. intros H. cbn. split; [done|]. destruct body; try done; by eexists. Qed.

(** ** Witnesses *)
Lemma requests_asked_for_witness :
  asked (user_does [Answered 0 azan_listed; AskDelete "custom" azan_row; ConfirmDelete])
    (deletion_of (VStr "azan.mp3")).
Proof.
  apply requests_asked_for; [|done]. vm_compute. right. right. left.
Defined.

Lemma unasked_upload_is_new_witness :
  files protected_world !! custom_file "new.mp3" = None.
Proof.
  eassert (list_files protected_world = (Ok _, _)) as El by (vm_compute; reflexivity).
  eapply (unasked_upload_is_new protected_world _ _ (set_files (VArr (page_files _ 1 50)) first_view) quiet_client
    (Blob "new.mp3" "audio/mpeg") El); [done|done|done|done|vm_compute; reflexivity|vm_compute; left].
Defined.
