(* ===== verification/TriggerCard.v ===== *)
(** * The cards of the announcements
      ([client/src/components/settings/TriggerCard.jsx],
       [client/src/views/settings/PrayerSettingsView.jsx])

    A card edits one trigger of the draft and warns of what would keep it from
    sounding.  The props of the card are arguments, the state is that of the
    settings ([ClientSettings.client]); cards are shown once these are loaded,
    so that [config], the draft and [systemHealth] are objects. *)
From S2P Require Import Prelude JsString JsValue Schemas Luxon Outputs AudioAssets Automation.
From S2P Require Import Scheduler SystemController.
From S2P Require Import ClientSettings.

(** ** The switches above the card *)
Record master := Master { ms_disabled : bool; ms_reason : string }.
Definition no_master : master := Master false "".

Definition switch_of : list (string * string) :=
  [("preAdhan", "preAdhanEnabled"); ("adhan", "adhanEnabled"); ("preIqamah", "preIqamahEnabled");
   ("iqamah", "iqamahEnabled")].

Definition masterSwitchState (config : val) (eventType : string) : master :=
  let global := prop (prop config "automation") "global" in
  if negb (truthy global) then no_master else
  if seq (prop global "enabled") (VBool false) then Master true "Global Automation Disabled" else
  match find (fun kv => String.eqb kv.1 eventType) switch_of with
  | Some kv => if seq (prop global kv.2) (VBool false)
               then Master true (trim (space_capitals eventType) +:+ " Disabled") else no_master
  | None => no_master
  end.

(** ** Editing *)
Definition with_key (trigger : val) (key : string) (value : val) : val :=
  VObj (ospread (props trigger) [(key, value)]).

Definition toggled (target : string) (trigger : val) : list val :=
  flip_in (VStr target) (arr_of (js_or (prop trigger "targets") (VArr []))).

(** The number field: what is typed, and what it shows *)
Definition clamped_offset (text : string) : Z :=
  match parse_int_any text with None => 15 | Some raw => Z.min 60 (Z.max 0 raw) end.
Definition shown_offset (trigger : val) : val := js_or (prop trigger "offsetMinutes") (VInt 15).
Definition has_offset (eventType : string) : bool := starts_with "pre" eventType.

(** ** Warnings *)
Section warnings.
Context (systemHealth config : val) (strategies : list val).

Definition strategy_of (targetId : val) : val :=
  match find (fun s => seq (prop s "id") targetId) strategies with Some s => s | None => VUndef end.
Definition label_of (targetId : val) : string := show (js_or (prop (strategy_of targetId) "label") targetId).

Definition trigger_targets (trigger : val) : list val := arr_of (js_or (prop trigger "targets") (VArr [])).
Definition source_type (trigger : val) : string := if seq (prop trigger "type") (VStr "url") then "url" else "file".

Definition health_issue (targetId : val) : list string :=
  let health := prop systemHealth (show targetId) in
  let outputConfig := prop (prop (prop config "automation") "outputs") (show targetId) in
  if truthy outputConfig && negb (truthy (prop outputConfig "enabled"))
  then [label_of targetId +:+ " Output Disabled"]
  else if truthy health && negb (truthy (prop health "healthy"))
  then [label_of targetId +:+ " Output Offline: " +:+ show (js_or (prop health "message") (VStr "Service unreachable"))]
  else [].

Definition supports (strategy : val) (sourceType : string) : bool :=
  negb (truthy (prop strategy "supportedSourceTypes")) ||
  array_includes (VStr sourceType) (arr_of (prop strategy "supportedSourceTypes")).

Definition support_issue (trigger targetId : val) : list string :=
  let sourceType := source_type trigger in
  if supports (strategy_of targetId) sourceType then []
  else [show (prop (strategy_of targetId) "label") +:+ " does not support " +:+ to_upper sourceType +:+ " sources"].

(** [key.replace("Compatible", "Issues")], the first occurrence *)
Fixpoint replace_first (fuel : nat) (p r s : string) : string :=
  if starts_with p s then r +:+ slice_from (String.length p) s else
  match fuel, s with S n, String a s' => String a (replace_first n p r s') | _, _ => s end.

Definition compatibility_issue (files : list val) (trigger targetId : val) : list string :=
  let strategy := strategy_of targetId in
  if negb (truthy (prop strategy "compatibilityKey")) then [] else
  let key := str_of (prop strategy "compatibilityKey") in
  match find (fun f => seq (prop f "path") (prop trigger "path")) files with
  | Some file =>
      if seq (prop file key) (VBool false) then
        let issues := prop file (replace_first (String.length key) "Compatible" "Issues" key) in
        [show (prop strategy "label") +:+ " Incompatible: " +:+
         (let text := join ", " (show <$> arr_of issues) in if String.eqb text "" then "Unsupported properties" else text)]
      else []
  | None => []
  end.

Definition card_issues (files : list val) (eventType : string) (trigger : val) : list string :=
  if negb (truthy (prop trigger "enabled")) || ms_disabled (masterSwitchState config eventType) then [] else
  (if seq (prop trigger "type") (VStr "tts") && negb (truthy (prop (prop systemHealth "tts") "healthy"))
   then ["TTS Service Offline"] else []) ++
  (trigger_targets trigger ≫= health_issue) ++
  (trigger_targets trigger ≫= support_issue trigger) ++
  (if seq (prop trigger "type") (VStr "file") then trigger_targets trigger ≫= compatibility_issue files trigger else []).

(** *** The chip of a target *)
Record chip := Chip { ch_id : val; ch_selected : bool; ch_warning : bool; ch_title : string }.

Definition chip_of (trigger strategy : val) : chip :=
  let id := prop strategy "id" in
  let health := prop systemHealth (show id) in
  let outputConfig := prop (prop (prop config "automation") "outputs") (show id) in
  let isDisabled := truthy outputConfig && negb (truthy (prop outputConfig "enabled")) in
  let isOffline := truthy health && negb (truthy (prop health "healthy")) in
  let isIncompatible := negb (supports strategy (source_type trigger)) in
  Chip id (array_includes id (arr_of (prop trigger "targets"))) (isDisabled || isOffline || isIncompatible)
    (if isIncompatible then show (prop strategy "label") +:+ " does not support " +:+ to_upper (source_type trigger) +:+ " sources"
     else if isDisabled then "Output Strategy Disabled"
     else if isOffline then "Offline: " +:+ show (prop health "message") else "").

Definition chips (trigger : val) : list chip :=
  chip_of trigger <$> filter (fun s => negb (truthy (prop s "hidden")) && negb (seq (prop s "id") (VStr "browser")) = true)
                        strategies.
End warnings.

(** ** The fields of a source *)
Record choice := Choice { c_value : val; c_label : val; c_sublabel : val; c_missing : bool }.

(** [s.split("/").pop()] *)
Definition last_part (s : string) : string := default "" (last (split_on "/" s)).

Definition file_options (files : list val) (trigger : val) : list choice :=
  let fileOptions := (fun f => Choice (prop f "path") (prop f "name") (prop f "type") false) <$> files in
  let path := prop trigger "path" in
  if truthy path && negb (existsb (fun f => seq (prop f "path") path) files)
  then Choice path (VStr ("Missing: " +:+ last_part (str_of path))) (VStr "File not found") true :: fileOptions
  else fileOptions.

(** [v.Name.split("(")[1].split(",")[1].replace(")", "").trim()] *)
Fixpoint drop_first (c : ascii) (s : string) : string :=
  match s with
  | EmptyString => EmptyString
  | String a s' => if Ascii.eqb a c then s' else String a (drop_first c s')
  end.
Definition part_of (c : ascii) (s : string) : result string :=
  match split_on c s !! 1%nat with
  | Some x => Ok x
  | None => Throw (TypeError "Cannot read properties of undefined")
  end.
Definition voice_label (v : val) : result val :=
  if truthy (prop v "FriendlyName") then Ok (prop v "FriendlyName") else
  name ← part_of "(" (str_of (prop v "Name")); shortened ← part_of "," name;
  Ok (VStr (trim (drop_first ")" shortened))).

Fixpoint voice_labels (l : list val) : result (list choice) :=
  match l with
  | [] => Ok []
  | v :: l' => label ← voice_label v; rest ← voice_labels l';
               Ok (Choice (prop v "ShortName") label (prop v "ShortName") false :: rest)
  end.
Definition voice_options (config voices : val) : result (list choice) :=
  rest ← voice_labels (arr_of (js_or voices (VArr [])));
  Ok (Choice (VStr "") (VStr ("System Default (" +:+
        show (js_or (prop (prop config "automation") "defaultVoice") (VStr "Fallback")) +:+ ")"))
        (VStr "Inherit global setting") false :: rest).

(** The meter of the template *)
Definition template_length (trigger : val) : Z :=
  match prop trigger "template" with VStr t => utf16_length t | _ => 0 end.
Definition near_limit (trigger : val) : bool := Z.of_nat TTS_TEMPLATE_MAX_LENGTH * 8 <? 10 * template_length trigger.

(** ** The page of a prayer *)
(** [setAudioFiles], from the answer of the listing *)
Definition audioFiles (data : val) : result (list val) :=
  files ← get data "files"; l ← iterate (js_or files (VArr []));
  Ok (filter (fun f => seq (prop f "type") (VStr "cache") = false) l).

Definition currentTriggers (s : client) (activeTab : string) : val :=
  prop (prop (prop (k_draftConfig s) "automation") "triggers") activeTab.

Definition updatePrayerConfig (activeTab key : string) (value : val) : M client unit :=
  updateSetting ("prayers." +:+ activeTab +:+ "." +:+ key) value.
Definition updateTrigger (activeTab triggerName : string) (newTriggerData : val) : M client unit :=
  updateSetting ("automation.triggers." +:+ activeTab +:+ "." +:+ triggerName) newTriggerData.

(** [update(key, val)] of the card of a trigger *)
Definition update (activeTab triggerName key : string) (value : val) : M client unit :=
  trigger ← gets (fun s => prop (currentTriggers s activeTab) triggerName);
  updateTrigger activeTab triggerName (with_key trigger key value).
Definition toggleTarget (activeTab triggerName target : string) : M client unit :=
  trigger ← gets (fun s => prop (currentTriggers s activeTab) triggerName);
  update activeTab triggerName "targets" (VArr (toggled target trigger)).
Definition typeOffset (activeTab triggerName text : string) : M client unit :=
  update activeTab triggerName "offsetMinutes" (VInt (clamped_offset text)).
Definition switchTrigger (activeTab triggerName : string) : M client unit :=
  trigger ← gets (fun s => prop (currentTriggers s activeTab) triggerName);
  update activeTab triggerName "enabled" (VBool (negb (truthy (prop trigger "enabled")))).

Definition isTriggerDirty (s : client) (prayer type : string) : bool :=
  truthy (k_config s) && truthy (k_draftConfig s) &&
  negb (stringify_eqb (trigger_at (k_config s) prayer type) (trigger_at (k_draftConfig s) prayer type)).

Definition isPrayerTabDirty (s : client) (prayer : string) : bool :=
  truthy (k_config s) && truthy (k_draftConfig s) &&
  (existsb (isTriggerDirty s prayer) ["preAdhan"; "adhan"; "preIqamah"; "iqamah"] ||
   (negb (String.eqb prayer "sunrise") &&
    negb (stringify_eqb (prop (prop (k_config s) "prayers") prayer) (prop (prop (k_draftConfig s) "prayers") prayer)))).

(** ** Lemmas *)
Definition plain_name (name : string) : Prop := has_char "." name = false.

Lemma trigger_path prayer type :
  plain_name prayer -> plain_name type ->
  split_on "." ("automation.triggers." +:+ prayer +:+ "." +:+ type) = ["automation"; "triggers"; prayer; type].
Proof.
  intros Hp Ht. change ("automation.triggers." +:+ prayer +:+ "." +:+ type)
    with (join_with "." ["automation"; "triggers"; prayer; type]).
  apply split_join; [done|]. repeat constructor; done.
Qed.

Definition trigger_path_of (prayer type : string) : list string := ["automation"; "triggers"; prayer; type].

(** What a card stores is what the scheduler reads.  After an edit on the card
    of an event the draft, once it is saved, has at the place where the scheduler
    and the announcement look ([trigger_settings]) the trigger of before with
    that one key changed; the trigger of every other event, and the stored
    configuration, are as they were; and the card is marked as changed exactly
    when the new trigger differs from the stored one. *)
Theorem card_edit_scheduled prayer type key value s s' :
  plain_name prayer -> plain_name type -> truthy (k_draftConfig s) = true ->
  no_array_on (trigger_path_of prayer type) (json_clone (k_draftConfig s)) ->
  update prayer type key value s = (Ok tt, s') ->
  prop (trigger_settings (k_draftConfig s') prayer type) key = value /\
  (forall k, k <> key -> prop (trigger_settings (k_draftConfig s') prayer type) k =
                         oget k (props (trigger_settings (k_draftConfig s) prayer type))) /\
  (forall prayer' type', (prayer', type') <> (prayer, type) ->
     trigger_settings (k_draftConfig s') prayer' type' =
     trigger_settings (json_clone (k_draftConfig s)) prayer' type') /\
  k_config s' = k_config s /\
  (truthy (k_config s) = true -> truthy (k_draftConfig s') = true ->
     isTriggerDirty s' prayer type =
     negb (stringify_eqb (trigger_settings (k_config s) prayer type)
             (with_key (trigger_settings (k_draftConfig s) prayer type) key value))).
Proof.
  intros Hp Ht Hd Hn E. unfold update, mbind, M_bind, gets, updateTrigger, updateSetting in E.
  rewrite Hd in E. cbn [negb] in E. rewrite trigger_path in E by done. fold (trigger_path_of prayer type) in E.
  destruct (set_at _ _ _) as [next|] eqn:Es; [|done]. injection E as <-.
  cbn [k_draftConfig k_config set_draft].
  set (new := with_key _ key value) in Es.
  assert (trigger_settings next prayer type = new) as Hnew by (by eapply (set_at_get (trigger_path_of prayer type))).
  split; [rewrite Hnew; unfold new, with_key, ospread; cbn [foldl prop fst snd]; apply oget_oset|].
  split; [|split; [|split; [done|]]].
  - intros k Hk. rewrite Hnew. unfold new, with_key, ospread. cbn [foldl prop fst snd]. by apply oget_oset_ne.
  - intros p' t' Hne. refine (set_at_other (trigger_path_of prayer type) (trigger_path_of p' t') _ _ _ _ Es).
    cbn. destruct (String.eqb_spec prayer p') as [->|]; [|done]. destruct (String.eqb_spec type t') as [->|]; [done|done].
  - intros Hc Hk. unfold isTriggerDirty. cbn [k_draftConfig k_config set_draft]. rewrite Hc, Hk. cbn [andb].
    change (trigger_at next prayer type) with (trigger_settings next prayer type). by rewrite Hnew.
Qed.

(** A card is covered exactly when the scheduler would not book its event. *)
Theorem cover_matches_scheduler config event :
  ms_disabled (masterSwitchState config event) = switched_off config event.
Proof.
  unfold masterSwitchState, switched_off. change switch_of with eventTypeMap. set (global := prop _ "global").
  destruct (truthy global); [|done]. cbn [negb andb]. destruct (seq _ _); [done|]. cbn [orb].
  destruct (find _ _) as [kv|]; [|done]. by destruct (seq (prop global kv.2) (VBool false)).
Qed.

(** Whatever is typed, the minutes stored are within the bounds the server
    checks. *)
Lemma typed_offset_valid text : number_between 0 60 (VInt (clamped_offset text)).
Proof.
  exists (inject_Z (clamped_offset text)). split; [done|]. unfold clamped_offset.
  change 0%Q with (inject_Z 0). change 60%Q with (inject_Z 60). rewrite <- !Zle_Qle.
  destruct (parse_int_any text); lia.
Qed.

(** A trigger without minutes, or with none, shows fifteen but is booked at the
    time of the prayer itself. *)
Lemma shown_offset_not_booked `{LL : LuxonLaws} trigger d t :
  truthy (prop trigger "offsetMinutes") = false -> dt_ms d = Some t -> representable t ->
  shown_offset trigger = VInt 15 /\
  exists d', minus_minutes d (prop trigger "offsetMinutes") = Ok d' /\ dt_ms d' = Some t.
Proof.
  intros Hf Hd Hr. unfold shown_offset, minus_minutes, js_or. rewrite Hf. split; [done|].
  exists (dt_plus_minutes d (inject_Z 0)). split; [done|].
  rewrite (law_plus_minutes d t 0 Hd); [f_equal; lia|]. by replace (t + 60000 * 0) with t by lia.
Qed.

(** The selected file is always among the choices, and marked as missing exactly
    when it is not listed. *)
Lemma selected_file_listed files trigger path :
  prop trigger "path" = VStr path -> path <> "" ->
  (exists c, c ∈ file_options files trigger /\ c_value c = VStr path /\
     (c_missing c = true <-> Forall (fun f => prop f "path" <> VStr path) files)).
Proof.
  intros Hp Hne. unfold file_options. rewrite Hp.
  assert (truthy (VStr path) = true) as -> by (by destruct path). cbn [andb].
  destruct (existsb _ files) eqn:E; cbn [negb].
  - apply existsb_exists in E as (f & Hf & Heq). exists (Choice (prop f "path") (prop f "name") (prop f "type") false).
    assert (prop f "path" = VStr path) as Ef.
    { unfold seq in Heq. destruct (prop f "path"); try done. by apply String.eqb_eq in Heq as ->. }
    split; [|split; [done|]].
    + apply (list_elem_of_fmap_2 (fun f => Choice (prop f "path") (prop f "name") (prop f "type") false)).
      by apply list_elem_of_In.
    + split; [done|]. rewrite Forall_forall. intros H. exfalso. apply (H f); [by apply list_elem_of_In|done].
  - eexists. split; [by left|]. split; [done|]. split; [|done]. intros _. apply Forall_forall. intros f Hf Hfp.
    enough (existsb (fun f => seq (prop f "path") (VStr path)) files = true) by congruence.
    apply existsb_exists. exists f. split; [by apply list_elem_of_In|]. rewrite Hfp. cbn. apply String.eqb_refl.
Qed.

(** A click on a target turns that target over, and no other. *)
Lemma toggled_exact target other trigger :
  array_includes (VStr other) (toggled target trigger) =
  xorb (String.eqb target other) (array_includes (VStr other) (arr_of (js_or (prop trigger "targets") (VArr [])))).
Proof. apply flip_in_includes. Qed.

(** The registry of the server gives no strategy the key under which the card
    looks for a file that does not suit it: the check never speaks. *)
Lemma compatibility_never_checked `{H : Host} files trigger targetId :
  compatibility_issue getAllStrategies files trigger targetId = [].
Proof.
  unfold compatibility_issue, strategy_of. destruct (find _ _) as [s|] eqn:E; [|done].
  apply find_some in E as [Hin _]. cbn in Hin. by destruct Hin as [<-|[<-|[<-|[]]]].
Qed.

(** ** A card at work *)
Definition edited_config : val :=
  VObj [("automation", VObj [("global", VObj [("enabled", VBool true)]);
     ("triggers", VObj [("fajr", VObj [("adhan", VObj [("enabled", VBool true); ("type", VStr "file");
                                                       ("path", VStr "custom/azan.mp3"); ("targets", VArr [])]);
                                       ("preAdhan", VObj [("enabled", VBool true)])])])])].
Definition editing : client :=
  Client edited_config edited_config (VObj []) false false false (VArr []) false VNull (VArr []) false true [].

Lemma card_edit_scheduled_witness :
  prop (trigger_settings (k_draftConfig (update "fajr" "adhan" "targets" (VArr [VStr "local"]) editing).2) "fajr" "adhan")
    "targets" = VArr [VStr "local"] /\
  isTriggerDirty (update "fajr" "adhan" "targets" (VArr [VStr "local"]) editing).2 "fajr" "adhan" = true.
Proof.
  destruct (card_edit_scheduled "fajr" "adhan" "targets" (VArr [VStr "local"]) editing
    (update "fajr" "adhan" "targets" (VArr [VStr "local"]) editing).2) as (H1 & _ & _ & _ & H5);
    [done|done|done|by repeat split|vm_compute; reflexivity|].
  split; [exact H1|]. rewrite H5; vm_compute; reflexivity.
Defined.
