(* ===== verification/PrayerCard.v ===== *)
(** * The table of the dashboard ([client/src/components/dashboard/PrayerCard.jsx])

    The rows of a day with the next prayer marked, the panels of a transition,
    and the keys, swipes and buttons that turn the days.  The props of the card
    come from the hook ([Dashboard]). *)
From S2P Require Import Prelude JsString JsValue Luxon LuxonUtc Calculations Providers Masking.
From S2P Require Import Dashboard ClientPrefs.

Definition PRAYER_LIST : list string := ["fajr"; "sunrise"; "dhuhr"; "asr"; "maghrib"; "isha"].
Definition SWIPE_THRESHOLD : Q := 50.

(** [l.indexOf(name)] *)
Fixpoint index_of (name : val) (l : list string) : Z :=
  match l with
  | [] => -1
  | x :: l' => if seq (VStr x) name then 0 else
               let i := index_of name l' in if i <? 0 then i else i + 1
  end.

Inductive status := Passed | Next | Future.

Definition getPrayerStatus (key : string) (activeNextPrayer : val) : status :=
  if negb (truthy activeNextPrayer) then Future else
  let idx := index_of (VStr key) PRAYER_LIST in
  let nextIdx := index_of (prop activeNextPrayer "name") PRAYER_LIST in
  if truthy (prop activeNextPrayer "isTomorrow") then Passed else
  if idx <? nextIdx then Passed else
  if idx =? nextIdx then Next else Future.

(** ** What is shown *)
Record card_props := Card {
  q_prayers : val; q_nextPrayer : val;
  q_transitionDate : val; q_transitionPrayers : val;
  q_viewedDate : val; q_referenceDate : val;
  q_back : bool; q_forward : bool;       (* canNavigateBackward, canNavigateForward *)
  q_direction : string; q_moving : bool; (* transitionDirection, isTransitioning *)
  q_enabled : bool                       (* enableDateNavigation *)
}.

Definition activeNextPrayer (c : card_props) : val :=
  if seq (q_viewedDate c) (q_referenceDate c) then q_nextPrayer c else VNull.
Definition incomingNextPrayer (c : card_props) : val :=
  if seq (q_transitionDate c) (q_referenceDate c) then q_nextPrayer c else VNull.

Definition shouldRenderTransitionPanels (c : card_props) : bool :=
  q_moving c && truthy (q_viewedDate c) && truthy (q_transitionDate c) && truthy (q_transitionPrayers c).

Record panel := Panel { pn_key : val; pn_prayers : val; pn_next : val }.

Definition panels (c : card_props) : list panel :=
  let currentPanel := Panel (js_or (q_viewedDate c) (VStr "current-day")) (q_prayers c) (activeNextPrayer c) in
  if negb (shouldRenderTransitionPanels c) then [currentPanel] else
  let incomingPanel := Panel (q_transitionDate c) (q_transitionPrayers c) (incomingNextPrayer c) in
  if String.eqb (q_direction c) "past" then [incomingPanel; currentPanel] else [currentPanel; incomingPanel].

(** The offset of the track, in panels to the left: at the start of a
    transition and at its end *)
Definition getTrackStart (direction : string) : nat := if String.eqb direction "past" then 1 else 0.
Definition getTrackEnd (direction : string) : nat := if String.eqb direction "past" then 0 else 1.

(** A row: its name, times and status *)
Record row := Row { rw_name : string; rw_time : val; rw_iqamah : val; rw_status : status }.
Definition table (p : panel) : list row :=
  (fun key => Row key (prop (prop (pn_prayers p) key) "start")
                (if String.eqb key "sunrise" then VStr "---" else prop (prop (pn_prayers p) key) "iqamah")
                (getPrayerStatus key (pn_next p))) <$> PRAYER_LIST.

(** ** Turning the days: the deltas [onNavigate] is called with *)
Inductive focused := Elsewhere | Element (tagName : string) (isContentEditable : bool).
Definition isInputFocused (f : focused) : bool :=
  match f with
  | Elsewhere => false
  | Element tagName editable =>
      String.eqb tagName "INPUT" || String.eqb tagName "TEXTAREA" || String.eqb tagName "SELECT" || editable
  end.

Definition handleKeyDown (c : card_props) (f : focused) (key : string) : list Z :=
  if negb (q_enabled c) || isInputFocused f then [] else
  (if String.eqb key "ArrowLeft" && q_back c && negb (q_moving c) then [-1] else []) ++
  (if String.eqb key "ArrowRight" && q_forward c && negb (q_moving c) then [1] else []).

(** Where the finger went down, and the result of lifting it: the ref and the calls *)
Definition point : Type := Q * Q.
Definition handleTouchStart (c : card_props) (touch : point) (touchStart : option point) : option point :=
  if q_enabled c then Some touch else touchStart.

Definition handleTouchEnd (c : card_props) (touch : point) (touchStart : option point) : option point * list Z :=
  if negb (q_enabled c) then (touchStart, []) else
  match touchStart with
  | None => (None, [])
  | Some start =>
      if q_moving c then (touchStart, []) else
      let deltaX := (start.1 - touch.1)%Q in
      let deltaY := (start.2 - touch.2)%Q in
      if negb (Qle_bool SWIPE_THRESHOLD (Qabs.Qabs deltaX)) || negb (Qle_bool (Qabs.Qabs deltaY) (Qabs.Qabs deltaX))
      then (None, [])
      else (None, (if negb (Qle_bool deltaX 0) && q_forward c then [1] else []) ++
                  (if negb (Qle_bool 0 deltaX) && q_back c then [-1] else []))
  end.

(** The two buttons *)
Definition clickPrevious (c : card_props) : list Z := if q_enabled c && q_back c && negb (q_moving c) then [-1] else [].
Definition clickNext (c : card_props) : list Z := if q_enabled c && q_forward c && negb (q_moving c) then [1] else [].
Definition canReset (c : card_props) : bool :=
  q_enabled c && truthy (q_viewedDate c) && truthy (q_referenceDate c) &&
  negb (seq (q_viewedDate c) (q_referenceDate c)) && negb (q_moving c).

(** ** The card of the dashboard ([client/src/views/DashboardView.jsx]) *)
Section dashboard.
Context `{L : Luxon} `{Loc : Locale}.

Definition viewedPrayers (s : dash) : val :=
  let d := s_data s in
  if truthy (d_viewed d) then js_or (day_of (d_calendar d) (d_viewed d)) (d_prayers d) else d_prayers d.
Definition transitionPrayers (now : Z) (s : dash) : val :=
  let target := m_target (s_motion s) in
  if truthy target
  then js_or (day_of (d_calendar (s_data s)) target)
             (if seq target (activeReferenceDate now s) then d_prayers (s_data s) else VNull)
  else VNull.

Definition card_of (enableDateNavigation : bool) (now : Z) (s : dash) : card_props :=
  Card (js_or (viewedPrayers s) (d_prayers (s_data s))) (d_next (s_data s)) (m_target (s_motion s))
    (transitionPrayers now s) (d_viewed (s_data s)) (activeReferenceDate now s)
    (canNavigateBackward s) (canNavigateForward s) (m_direction (s_motion s)) (m_moving (s_motion s))
    enableDateNavigation.
End dashboard.

(** ** Lemmas: the status of a row *)
Lemma index_before k l r : k ∈ l -> 0 <= index_of (VStr k) (l ++ r) < Z.of_nat (length l).
Proof.
  induction l as [|x l IH]; intros Hk; [by apply not_elem_of_nil in Hk|]. cbn [app index_of seq length].
  destruct (String.eqb_spec x k) as [->|Hne]; [lia|]. cbv zeta.
  apply elem_of_cons in Hk as [->|Hk]; [done|]. specialize (IH Hk).
  destruct (Z.ltb_spec (index_of (VStr k) (l ++ r)) 0); lia.
Qed.

Lemma index_at k l r : k ∉ l -> index_of (VStr k) (l ++ k :: r) = Z.of_nat (length l).
Proof.
  induction l as [|x l IH]; intros Hk; cbn [app index_of seq length]; [by rewrite String.eqb_refl|].
  apply not_elem_of_cons in Hk as [Hx Hk]. destruct (String.eqb_spec x k) as [->|_]; [done|]. rewrite IH by done. cbv zeta.
  destruct (Z.ltb_spec (Z.of_nat (length l)) 0); lia.
Qed.

(** A name after the first part of the list *)
Lemma index_after k l r : k ∉ l -> k ∈ r -> index_of (VStr k) (l ++ r) = Z.of_nat (length l) + index_of (VStr k) r /\
  0 <= index_of (VStr k) r.
Proof.
  intros Hl Hr. assert (0 <= index_of (VStr k) r) as H0 by (pose proof (index_before k r [] Hr); rewrite app_nil_r in H; lia).
  split; [|done]. induction l as [|x l IH]; [done|]. cbn [app index_of seq length]. apply not_elem_of_cons in Hl as [Hx Hl].
  destruct (String.eqb_spec x k) as [->|_]; [done|]. rewrite IH by done. cbv zeta.
  destruct (Z.ltb_spec (Z.of_nat (length l) + index_of (VStr k) r) 0); lia.
Qed.

Section status.
Context `{LL : LuxonLaws}.
Context (prayers : val) (now : dt) (n : Z) (Hn : dt_ms now = Some n).

Definition passed (name : string) : Prop := forall x, start_ms prayers name = Some x -> x <= n.
Definition to_come (name : string) : Prop := forall x, start_ms prayers name = Some x -> n < x.

(** The next prayer splits the day into what has passed and what is to come. *)
Lemma next_splits names :
  chronological prayers names ->
  (first_next prayers now names = VNull /\ Forall passed names) \/
  exists before name after, names = before ++ name :: after /\
    first_next prayers now names =
      VObj [("name", VStr name); ("time", row_start prayers name); ("isTomorrow", VBool false)] /\
    Forall passed before /\ to_come name /\ Forall to_come after.
Proof.
  induction 1 as [|a names Hc IH Ha]; [by left|]. cbn [first_next].
  pose proof (next_of_spec prayers now n a Hn) as Hspec. destruct (next_of prayers now a).
  - right. exists [], a, names. destruct (proj1 Hspec eq_refl) as (y & Hy & Hlt). split; [done|]. split; [done|].
    split; [done|]. split; [by intros x Hx; simplify_eq|].
    eapply Forall_impl; [exact Ha|]. intros k Hk x Hx. specialize (Hk y x Hy Hx). lia.
  - assert (passed a) as Hp.
    { intros x Hx. apply Z.nlt_ge. intros Hlt. by discriminate (proj2 Hspec ltac:(eauto)). }
    destruct IH as [[-> Hall]|(before & name & after & -> & E & Hb & H)]; [left; by split; [|constructor]|].
    right. exists (a :: before), name, after. rewrite E. split; [done|]. split; [done|]. by split; [constructor|].
Qed.

(** What the dashboard says of a row is true.  On the reference day, the day's
    starts being in order and the next prayer the one the server finds for them
    at that moment (tomorrow's, once it finds none), a row that is marked as
    passed has started, one marked as next or left plain has not, and the row
    marked as next is the one the server named. *)
Theorem row_status_true key x fajr :
  chronological prayers PRAYER_LIST -> key ∈ PRAYER_LIST -> start_ms prayers key = Some x ->
  let found := calculateNextPrayer prayers now in
  let next := if truthy found then found
              else VObj [("name", VStr "fajr"); ("time", fajr); ("isTomorrow", VBool true)] in
  match getPrayerStatus key next with
  | Passed => x <= n
  | Next => n < x /\ prop found "name" = VStr key
  | Future => n < x
  end.
Proof.
  intros Hc Hkey Hx. cbv zeta. unfold calculateNextPrayer. change PRAYER_NAMES with PRAYER_LIST.
  destruct (next_splits PRAYER_LIST Hc) as [[-> Hall]|(before & name & after & E & -> & Hb & Hname & Ha)].
  - cbn [truthy]. unfold getPrayerStatus. cbn. rewrite Forall_forall in Hall. by apply (Hall key).
  - cbn [truthy]. unfold getPrayerStatus. cbn [truthy negb prop oget String.eqb Ascii.eqb Bool.eqb].
    assert (NoDup PRAYER_LIST) as Hnd by (by apply (bool_decide_unpack _)). rewrite E in Hnd, Hkey |- *.
    apply NoDup_app in Hnd as (_ & Hdis & [Hna _]%NoDup_cons).
    assert (name ∉ before) as Hnb by (intros Hin; apply (Hdis _ Hin); left).
    rewrite (index_at name) by done. rewrite Forall_forall in Hb, Ha.
    apply elem_of_app in Hkey as [Hk|[->|Hk]%elem_of_cons].
    + rewrite (proj2 (Z.ltb_lt _ _)) by (apply index_before; done). by apply (Hb key).
    + rewrite index_at, Z.ltb_irrefl, Z.eqb_refl by done. split; [by apply Hname|done].
    + assert (key ∉ before) as Hkb by (intros Hin; apply (Hdis _ Hin); by right).
      assert (key <> name) as Hkn by (by intros ->).
      change (before ++ name :: after) with (before ++ [name] ++ after). rewrite app_assoc.
      destruct (index_after key (before ++ [name]) after) as [-> H0]; [set_solver|done|].
      rewrite length_app. cbn [length].
      destruct (Z.ltb_spec (Z.of_nat (length before + 1) + index_of (VStr key) after) (Z.of_nat (length before))); [lia|].
      destruct (Z.eqb_spec (Z.of_nat (length before + 1) + index_of (VStr key) after) (Z.of_nat (length before))); [lia|].
      by apply (Ha key).
Qed.
End status.

(** ** Lemmas: the transition *)
Lemma js_or_twice a b : js_or (js_or a b) b = js_or a b.
Proof. unfold js_or. by destruct (truthy a) eqn:E; rewrite ?E; [|destruct (truthy b)]. Qed.

Section transition.
Context `{L : Luxon} `{Loc : Locale}.

Lemma commit_motion now old s :
  d_reference (s_data s) = d_reference (s_data old) -> s_motion (commit now old s) = s_motion s.
Proof.
  intros E. unfold commit. rewrite bool_decide_true by done. unfold idle_effect, sync_refs. cbv zeta.
  repeat destruct (bool_decide _); cbn [andb]; done.
Qed.

(** A day transition has no jump.  The track starts on the panel that was shown
    before, slides by one panel and ends on the panel that is shown once the
    transition is over: the same day, the same times, the same mark. *)
Theorem transition_seamless enabled now now' s s' target :
  core s -> s_transition s = Some target -> truthy (d_reference (s_data s)) = true ->
  let c := card_of enabled now s in
  shouldRenderTransitionPanels c = true -> step now' TransitionEnds s = Some s' ->
  let dir := q_direction c in
  panels c !! getTrackStart dir = head (panels (Card (q_prayers c) (q_nextPrayer c) VNull VNull (q_viewedDate c)
    (q_referenceDate c) (q_back c) (q_forward c) dir false (q_enabled c))) /\
  panels c !! getTrackEnd dir = head (panels (card_of enabled now' s')) /\
  length (panels (card_of enabled now' s')) = 1%nat.
Proof.
  intros (_ & _ & _ & Ht & _) Es Href c Hshow Hstep dir. rewrite Es in Ht. destruct Ht as (_ & Hm & Htg).
  unfold step in Hstep. cbn [handle] in Hstep. rewrite Es in Hstep. cbn in Hstep. injection Hstep as <-.
  set (e := endTransition target s).
  assert (s_motion (commit now' s e) = still (s_motion s)) as Em by (by rewrite commit_motion).
  assert (s_data (commit now' s e) = set_viewed target (s_data s)) as Ed by (by rewrite commit_data).
  clearbody e.
  assert (forall n0, activeReferenceDate n0 (commit now' s e) = d_reference (s_data s)) as Ea'
    by (intros n0; unfold activeReferenceDate; rewrite Ed; by apply js_or_truthy).
  assert (activeReferenceDate now s = d_reference (s_data s)) as Ea by (by apply js_or_truthy).
  set (k := commit now' s e) in *. clearbody k.
  unfold shouldRenderTransitionPanels in Hshow. apply andb_prop in Hshow as [Hshow Htp].
  apply andb_prop in Hshow as [Hshow Htt]. apply andb_prop in Hshow as [_ Hv].
  change (truthy (d_viewed (s_data s)) = true) in Hv. change (truthy (m_target (s_motion s)) = true) in Htt.
  change (truthy (transitionPrayers now s) = true) in Htp.
  assert (panels (card_of enabled now' k) = [Panel target (transitionPrayers now s) (incomingNextPrayer c)]) as ->.
  { unfold panels, shouldRenderTransitionPanels, activeNextPrayer, incomingNextPrayer, c, card_of. cbn [q_moving q_viewedDate
      q_referenceDate q_prayers q_nextPrayer q_transitionDate]. rewrite Em. cbn [still m_moving andb negb].
    rewrite Ea', Ea, Htg. unfold viewedPrayers. rewrite Ed. cbn [set_viewed d_viewed d_calendar d_prayers d_next].
    unfold transitionPrayers in *. rewrite Htg, Ea in *. rewrite Htt in *. rewrite js_or_truthy by done.
    rewrite js_or_twice. f_equal. f_equal. unfold js_or in *. destruct (truthy (day_of _ _)); [done|].
    by destruct (seq target _). }
  unfold panels. assert (shouldRenderTransitionPanels c = true) as ->
    by (unfold shouldRenderTransitionPanels, c, card_of; cbn; by rewrite Hm, Hv, Htt, Htp).
  change (q_transitionDate c) with (m_target (s_motion s)). rewrite Htg. subst dir. unfold getTrackStart, getTrackEnd.
  by destruct (String.eqb (q_direction c) "past").
Qed.
End transition.

(** ** Turning the days *)
Inductive gesture :=
| Key (f : focused) (key : string)
| Swipe (down up : point)
| ClickPrevious | ClickNext.

Definition deltas (c : card_props) (g : gesture) : list Z :=
  match g with
  | Key f key => handleKeyDown c f key
  | Swipe down up => (handleTouchEnd c up (handleTouchStart c down None)).2
  | ClickPrevious => clickPrevious c
  | ClickNext => clickNext c
  end.

Ltac in_deltas :=
  cbn; intros Hin; repeat match type of Hin with
    | _ ∈ [] => by apply not_elem_of_nil in Hin
    | _ ∈ _ :: _ => apply elem_of_cons in Hin as [->|Hin]
    end; auto 6.

Lemma deltas_allowed c g d :
  d ∈ deltas c g ->
  q_enabled c = true /\ q_moving c = false /\ ((d = 1 /\ q_forward c = true) \/ (d = -1 /\ q_back c = true)).
Proof.
  destruct g as [f key|down up| |]; cbn [deltas].
  - unfold handleKeyDown. destruct (q_enabled c), (isInputFocused f), (q_moving c), (q_back c), (q_forward c),
      (String.eqb key "ArrowLeft"), (String.eqb key "ArrowRight"); in_deltas.
  - unfold handleTouchEnd, handleTouchStart. destruct (q_enabled c); cbn [negb]; [|by in_deltas].
    destruct (q_moving c); [by in_deltas|]. cbv zeta. destruct (_ || _); [by in_deltas|].
    destruct (negb (Qle_bool (_ - _) 0)), (negb (Qle_bool 0 _)), (q_forward c), (q_back c); in_deltas.
  - unfold clickPrevious. destruct (q_enabled c), (q_back c), (q_moving c); in_deltas.
  - unfold clickNext. destruct (q_enabled c), (q_forward c), (q_moving c); in_deltas.
Qed.

(** A gesture turns one day at most. *)
Lemma one_day_at_most c g : (length (deltas c g) <= 1)%nat.
Proof.
  destruct g as [f key|down up| |]; cbn [deltas].
  - unfold handleKeyDown. destruct (_ || _); [cbn; lia|].
    destruct (String.eqb_spec key "ArrowLeft") as [->|_]; cbn [andb app length String.eqb Ascii.eqb Bool.eqb];
      [|destruct (_ && negb _)]; repeat destruct (_ && _); cbn; lia.
  - unfold handleTouchEnd, handleTouchStart. destruct (q_enabled c); cbn [negb]; [|cbn; lia].
    destruct (q_moving c); [cbn; lia|]. cbv zeta. destruct (_ || _); [cbn; lia|].
    set (dx := (down.1 - up.1)%Q). cbn [snd]. rewrite length_app.
    destruct (Qle_bool dx 0) eqn:E1, (Qle_bool 0 dx) eqn:E2; cbn [negb andb length];
      repeat match goal with |- context [if ?b then _ else _] => destruct b end; cbn; try lia.
    exfalso. destruct (Qlt_le_dec dx 0) as [H|H].
    + apply Qlt_le_weak, Qle_bool_iff in H. congruence.
    + apply Qle_bool_iff in H. congruence.
  - unfold clickPrevious. destruct (_ && _); cbn; lia.
  - unfold clickNext. destruct (_ && _); cbn; lia.
Qed.

Section turning.
Context `{L : Luxon} `{Loc : Locale}.

Definition target_date (delta : Z) (s : dash) : val :=
  dt_toISODate (dt_plus_days (dt_fromISO (str_of (d_viewed (s_data s)))) delta).

(** The cached days have no gap next to the day in view. *)
Definition contiguous (s : dash) : Prop :=
  (js_lt (d_viewed (s_data s)) (maxCachedDate s) = true -> truthy (day_of (d_calendar (s_data s)) (target_date 1 s)) = true) /\
  (js_lt (minCachedDate s) (d_viewed (s_data s)) = true -> truthy (day_of (d_calendar (s_data s)) (target_date (-1) s)) = true).

(** No gesture is lost.  Whatever key, swipe or click the card lets through, the
    hook acts on: it starts the transition to the next or the previous day, or
    asks the server for a part of the calendar that has it. *)
Theorem gestures_take_effect now s g delta :
  core s -> contiguous s -> truthy (minCachedDate s) = true -> truthy (maxCachedDate s) = true ->
  delta ∈ deltas (card_of true now s) g ->
  let s' := navigateDay delta s in
  let direction := if 0 <? delta then "future" else "past" in
  (delta = 1 \/ delta = -1) /\
  ((s_transition s' = Some (target_date delta s) /\ m_moving (s_motion s') = true /\
    m_direction (s_motion s') = direction /\ m_target (s_motion s') = target_date delta s) \/
   exists f, last (s_flights s') = Some f /\ f_aborted f = false /\
     f_kind f = Chunk direction (target_date delta s) (r_request (s_refs s) + 1) (d_viewed (s_data s)) /\
     r_controller (s_refs s') = Some (f_id f)).
Proof.
  intros (_ & _ & _ & Ht & _) [Hf Hb] Hmin Hmax Hd s' direction.
  destruct (deltas_allowed _ _ _ Hd) as (_ & Hm & Hdir). change (m_moving (s_motion s) = false) in Hm.
  assert (r_moving (s_refs s) = false) as Hr by (destruct (s_transition s); [destruct Ht as (_ & ? & _); congruence|done]).
  assert (truthy (d_viewed (s_data s)) = true /\ (truthy (day_of (d_calendar (s_data s)) (target_date delta s)) = true \/
    (if 0 <? delta then s_future s else s_past s) = false)) as [Hv Hcan].
  { destruct Hdir as [[-> H]|[-> H]]; cbn in H; [unfold canNavigateForward in H|unfold canNavigateBackward in H];
      apply andb_prop in H as [Hv [H|H]%orb_prop]; (split; [done|]); [left|right|left|right];
      try (by apply negb_true_iff in H); apply andb_prop in H as [_ H]; [by apply Hf|by apply Hb]. }
  assert (s' = if truthy (day_of (d_calendar (s_data s)) (target_date delta s))
               then startDayTransition (target_date delta s) direction (next_request s) else
               if (if 0 <? delta then s_future s else s_past s) then next_request s else
               if negb (truthy (if 0 <? delta then maxCachedDate s else minCachedDate s)) then next_request s else
               fetchCalendarChunk (if 0 <? delta then maxCachedDate s else minCachedDate s) direction (target_date delta s)
                 (r_request (s_refs s) + 1) (d_viewed (s_data s)) (next_request s)) as ->.
  { unfold s', navigateDay. rewrite Hv, Hr. by replace (delta =? 0) with false by (symmetry; apply Z.eqb_neq; lia). }
  split; [tauto|]. clear Hf Hb. destruct (truthy (day_of (d_calendar (s_data s)) (target_date delta s))) eqn:Eday.
  - left. unfold startDayTransition. change (r_moving (s_refs (next_request s))) with (r_moving (s_refs s)).
    by rewrite Hr.
  - right. destruct Hcan as [|Hb']; [congruence|]. rewrite Hb'.
    assert (truthy (if 0 <? delta then maxCachedDate s else minCachedDate s) = true) as -> by (by destruct (0 <? delta)).
    cbn [negb]. unfold fetchCalendarChunk, send. cbn [s_flights set_flights]. rewrite last_snoc.
    eexists. split; [reflexivity|]. split; [done|]. split; [done|]. done.
Qed.
End turning.

(** A transition that the change of the reference date cuts short is never over
    for the card: its timer is gone, its mark stays.  Keys, swipes and buttons
    then do nothing, and neither does the way back to today. *)
#[local] Existing Instance bytes_locale.
#[local] Existing Instance utc.
Definition moving : list (Z * Dashboard.event) := firstn 3 browsing.
Definition sliding : dash := from_option id (mounted june_1) (run moving (mounted june_1)).
Definition cut_short : list (Z * Dashboard.event) :=
  moving ++ [(june_1 + 1100, Tick); (june_1 + 1200, Reply 2 (Body (payload_of "2024-06-02")))].
Definition stuck : dash := from_option id (mounted june_1) (run cut_short (mounted june_1)).

Lemma moving_card_dead c g : q_moving c = true -> deltas c g = [] /\ canReset c = false.
Proof.
  intros H. split; [|unfold canReset; by rewrite H, andb_false_r].
  destruct (deltas c g) as [|d l] eqn:E; [done|]. destruct (deltas_allowed c g d) as (_ & Hm & _); [|congruence].
  rewrite E. left.
Qed.

Lemma cut_transition_stuck :
  reachable stuck /\ s_transition stuck = None /\ r_moving (s_refs stuck) = false /\
  forall now g, deltas (card_of true now stuck) g = [] /\ canReset (card_of true now stuck) = false.
Proof.
  split; [|split; [|split]].
  - apply (run_reachable cut_short (mounted june_1)); [apply reach_mounted|by vm_compute].
  - by vm_compute.
  - by vm_compute.
  - intros now g. apply moving_card_dead. by vm_compute.
Qed.

(** ** Witnesses *)
Lemma row_status_true_witness :
  let next := calculateNextPrayer sample_day (dt_now 1736940000000) in
  getPrayerStatus "fajr" next = Passed /\
  exists x, start_ms sample_day "fajr" = Some x /\ x <= 1736940000000.
Proof.
  intros next. split; [by vm_compute|].
  assert (exists x, start_ms sample_day "fajr" = Some x) as [x Hx] by (vm_compute; by eexists).
  exists x. split; [exact Hx|].
  pose proof (row_status_true sample_day (dt_now 1736940000000) 1736940000000 eq_refl "fajr" x VNull) as H.
  assert (chronological sample_day PRAYER_LIST) as Hc
    by (repeat constructor; vm_compute; intros ?? [= <-] [= <-]; discriminate).
  specialize (H Hc ltac:(left) Hx). cbv zeta in H.
  assert (getPrayerStatus "fajr" (if truthy (calculateNextPrayer sample_day (dt_now 1736940000000))
    then calculateNextPrayer sample_day (dt_now 1736940000000)
    else VObj [("name", VStr "fajr"); ("time", VNull); ("isTomorrow", VBool true)]) = Passed) as E by (vm_compute; reflexivity).
  rewrite E in H. exact H.
Defined.

Lemma reached_core l s : run l (mounted june_1) = Some s -> core s.
Proof.
  assert (forall s0, core s0 /\ synced s0 -> run l s0 = Some s -> core s /\ synced s) as H.
  { induction l as [|[now e] l IH]; intros s0 Hs E; [by injection E as <-|].
    cbn [run] in E. unfold mbind, option_bind in E. destruct (step now e s0) as [s1|] eqn:E1; [|done].
    eapply IH; [|exact E]. by eapply step_keeps. }
  intros E. by apply (H _ (mounted_keeps june_1) E).
Qed.

Lemma transition_seamless_witness :
  exists s', step (june_1 + 1300) TransitionEnds sliding = Some s' /\
    panels (card_of true june_1 sliding) !! 0%nat = head (panels (card_of true june_1 s')).
Proof.
  assert (run moving (mounted june_1) = Some sliding) as Hr by (vm_compute; reflexivity).
  destruct (step (june_1 + 1300) TransitionEnds sliding) as [s'|] eqn:E.
  - exists s'. split; [done|].
    destruct (transition_seamless true june_1 june_1 sliding s' (VStr "2024-05-31") (reached_core _ _ Hr))
      as (_ & H & _); [vm_compute; reflexivity|vm_compute; reflexivity|vm_compute; reflexivity| |exact H].
    rewrite <- E. vm_compute. reflexivity.
  - exfalso. assert (is_Some (step (june_1 + 1300) TransitionEnds sliding)) as [? H] by (vm_compute; by eexists). congruence.
Defined.

Lemma gestures_take_effect_witness :
  let s' := navigateDay 1 visited in
  s_transition s' = Some (VStr "2024-06-01") /\ m_moving (s_motion s') = true.
Proof.
  intros s'. assert (run browsing (mounted june_1) = Some visited) as Hr by (vm_compute; reflexivity).
  destruct (gestures_take_effect june_1 visited ClickNext 1 (reached_core _ _ Hr)) as (_ & [(H1 & H2 & _)|H]).
  - split; [intros _; vm_compute; reflexivity|vm_compute; discriminate].
  - vm_compute. reflexivity.
  - vm_compute. reflexivity.
  - vm_compute. left.
  - split; [|exact H2]. fold s' in H1. rewrite H1. vm_compute. reflexivity.
  - exfalso. destruct H as (f & Hf & _ & Hk & _). revert Hf Hk. vm_compute. by intros [= <-].
Defined.
