(* ===== verification/IqamahCard.v ===== *)
(** * The card of the congregation times
      ([client/src/components/settings/IqamahTimingCard.jsx])

    The card says which source's congregation times are followed and which are
    calculated here, and edits the settings of the calculation.  What its
    notice promises is compared with what the scheduler books and with what the
    rows of the dashboard show. *)
From S2P Require Import Prelude JsString JsValue Schemas Luxon LuxonUtc Calculations.
From S2P Require Import Providers PrayerTimes Scheduler.
From S2P Require Import SystemController ClientSettings TriggerCard.

(** ** What the sources offer *)
Definition provider_with (providers : list val) (type : val) : val :=
  match find (fun p => seq (prop p "id") type) providers with Some p => p | None => VUndef end.
Definition provides_iqamah (provider : val) : bool :=
  seq (prop (prop provider "capabilities") "providesIqamah") (VBool true).

Definition primaryProvider (providers : list val) (sources : val) : val :=
  provider_with providers (prop (prop sources "primary") "type").
Definition backupProvider (providers : list val) (sources : val) : val :=
  let backupSource := prop sources "backup" in
  if truthy (prop backupSource "enabled") then provider_with providers (prop backupSource "type") else VNull.
Definition backupEnabled (sources : val) : bool :=
  seq (prop (prop sources "backup") "enabled") (VBool true).

(** ** The notice *)
Inductive banner :=
| CalculatedForAll | OverrideForBoth | OverrideOf (label : string)
| FollowingBoth (label : string) | FollowingPrimary (label : string) | Following (label : string)
| FollowingBackup.

Inductive tone := Blue | Green | Amber.

Definition banner_tone (n : banner) : tone :=
  match n with
  | CalculatedForAll | FollowingBackup => Blue
  | OverrideForBoth | OverrideOf _ => Amber
  | FollowingBoth _ | FollowingPrimary _ | Following _ => Green
  end.

Definition banner_text (n : banner) : string :=
  match n with
  | CalculatedForAll => "Calculating Iqamah times locally. These settings apply to all sources."
  | OverrideForBoth => "Override active. Local calculation settings apply to both sources."
  | OverrideOf label => "Override active. Using local calculation instead of " +:+ label +:+ " schedule."
  | FollowingBoth label =>
      "Following source Iqamah schedule from " +:+ label +:+ ". Both sources provide Iqamah times."
  | FollowingPrimary label =>
      "Following primary source Iqamah schedule from " +:+ label +:+
      ". Local calculation settings below apply to backup source only."
  | Following label => "Following source Iqamah schedule from " +:+ label +:+ "."
  | FollowingBackup =>
      "Primary source does not provide Iqamah times. Local calculation settings below apply to primary source only. Backup source uses its own schedule."
  end.

Section card.
Context (providers : list val) (sources currentPrayerSettings : val).

Definition primaryProvidesIqamah : bool := provides_iqamah (primaryProvider providers sources).
Definition backupProvidesIqamah : bool := provides_iqamah (backupProvider providers sources).
Definition anyProvidesIqamah : bool := primaryProvidesIqamah || backupProvidesIqamah.

Definition primary_label : string :=
  show (js_or (prop (primaryProvider providers sources) "label") (prop (prop sources "primary") "type")).

Definition override_on : bool := truthy (prop currentPrayerSettings "iqamahOverride").

Definition bannerConfig : banner :=
  match primaryProvidesIqamah, backupProvidesIqamah with
  | false, false => CalculatedForAll
  | true, true => if override_on then OverrideForBoth else FollowingBoth primary_label
  | true, false =>
      if override_on then if backupEnabled sources then OverrideForBoth else OverrideOf primary_label
      else if backupEnabled sources then FollowingPrimary primary_label else Following primary_label
  | false, true => if override_on then OverrideForBoth else FollowingBackup
  end.

(** The settings of the calculation are shown. *)
Definition settings_shown : bool :=
  negb (primaryProvidesIqamah && backupProvidesIqamah && negb override_on ||
        primaryProvidesIqamah && negb (backupEnabled sources) && negb override_on).

(** The switch, and the buttons of the mode that are lit *)
Definition switch_shown : bool := anyProvidesIqamah.
Definition offset_mode : bool := seq (prop currentPrayerSettings "fixedTime") VNull.
End card.

(** ** Editing *)
Definition typed_number (text : string) : Z := default 0 (parse_int_any text).

Inductive card_edit :=
| ToggleOverride | OffsetMode | FixedMode
| TypeOffset (text : string) | TypeRoundTo (text : string) | TypeFixedTime (text : string).

Definition edited_setting (currentPrayerSettings : val) (e : card_edit) : string * val :=
  match e with
  | ToggleOverride =>
      ("iqamahOverride", VBool (negb (truthy (prop currentPrayerSettings "iqamahOverride"))))
  | OffsetMode => ("fixedTime", VNull)
  | FixedMode => ("fixedTime", VStr "12:00")
  | TypeOffset text => ("iqamahOffset", VInt (typed_number text))
  | TypeRoundTo text => ("roundTo", VInt (typed_number text))
  | TypeFixedTime text => ("fixedTime", VStr text)
  end.

Definition edit_card (activeTab : string) (e : card_edit) : M client unit :=
  currentPrayerSettings ← gets (fun s => prop (prop (k_draftConfig s) "prayers") activeTab);
  let '(key, value) := edited_setting currentPrayerSettings e in
  updatePrayerConfig activeTab key value.

(** ** What the notice promises *)
Inductive role := Primary | Backup.
Inductive origin := Calculated | OfSource.

Definition promised (n : banner) (r : role) : origin :=
  match n, r with
  | (CalculatedForAll | OverrideForBoth | OverrideOf _), _ => Calculated
  | (FollowingBoth _ | Following _), _ => OfSource
  | FollowingPrimary _, Primary => OfSource
  | FollowingPrimary _, Backup => Calculated
  | FollowingBackup, Primary => Calculated
  | FollowingBackup, Backup => OfSource
  end.

Definition in_use (sources : val) (r : role) : Prop :=
  match r with Primary => True | Backup => backupEnabled sources = true end.
Definition role_provider (providers : list val) (sources : val) (r : role) : val :=
  match r with Primary => primaryProvider providers sources | Backup => backupProvider providers sources end.

(** ** Lemmas *)
(** A switch the schema has checked, or an absent one *)
Definition switch_like (v : val) : Prop := v = VUndef \/ exists b, v = VBool b.

Lemma switch_truthy v : switch_like v -> truthy v = seq v (VBool true).
Proof. intros [->|[[] ->]]; reflexivity. Qed.

(** A role in use is calculated when overridden or without times of its own. *)
Lemma promised_spec providers sources settings r :
  switch_like (prop (prop sources "backup") "enabled") -> in_use sources r ->
  promised (bannerConfig providers sources settings) r =
    if override_on settings then Calculated
    else if provides_iqamah (role_provider providers sources r) then OfSource else Calculated.
Proof.
  intros Hs Hr. unfold bannerConfig.
  destruct (primaryProvidesIqamah providers sources) eqn:Ep, (backupProvidesIqamah providers sources) eqn:Eb,
    (override_on settings), r; cbn [in_use role_provider] in *;
    unfold primaryProvidesIqamah in Ep; unfold backupProvidesIqamah in Eb; rewrite ?Ep, ?Eb;
    rewrite ?Hr; try done; by destruct (backupEnabled sources).
Qed.

Lemma no_backup providers sources :
  switch_like (prop (prop sources "backup") "enabled") -> backupEnabled sources = false ->
  backupProvidesIqamah providers sources = false.
Proof.
  intros Hs Hb. unfold backupProvidesIqamah, backupProvider. rewrite (switch_truthy _ Hs).
  unfold backupEnabled in Hb. by rewrite Hb.
Qed.

(** The settings are on the card exactly when some source in use needs them. *)
Theorem settings_shown_exact providers sources settings :
  switch_like (prop (prop sources "backup") "enabled") ->
  settings_shown providers sources settings = true <->
  exists r, in_use sources r /\ promised (bannerConfig providers sources settings) r = Calculated.
Proof.
  intros Hs. unfold settings_shown. pose proof (no_backup providers sources Hs) as Hn. split.
  - intros H. destruct (override_on settings) eqn:Eo; [exists Primary; by rewrite promised_spec, Eo|].
    destruct (primaryProvidesIqamah providers sources) eqn:Ep.
    + destruct (backupEnabled sources) eqn:Eb; cbn [negb andb] in H; [|by destruct (backupProvidesIqamah _ _)].
      exists Backup. split; [done|]. rewrite promised_spec, Eo by done.
      change (provides_iqamah (role_provider providers sources Backup)) with (backupProvidesIqamah providers sources).
      by destruct (backupProvidesIqamah providers sources).
    + exists Primary. rewrite promised_spec, Eo by done.
      change (provides_iqamah (role_provider providers sources Primary)) with (primaryProvidesIqamah providers sources).
      by rewrite Ep.
  - intros (r & Hr & H). rewrite promised_spec in H by done.
    destruct (override_on settings); [by destruct (primaryProvidesIqamah _ _), (backupProvidesIqamah _ _), (backupEnabled _)|].
    destruct r; cbn [in_use] in Hr.
    + change (provides_iqamah (role_provider providers sources Primary)) with (primaryProvidesIqamah providers sources) in H.
      by destruct (primaryProvidesIqamah providers sources).
    + change (provides_iqamah (role_provider providers sources Backup)) with (backupProvidesIqamah providers sources) in H.
      rewrite Hr. by destruct (backupProvidesIqamah providers sources), (primaryProvidesIqamah providers sources).
Qed.

Section times.
Context `{L : Luxon}.

(** The congregation time of the day once the overrides are applied *)
Lemma overridden_day ps config p tz t :
  let day := VObj ps in
  let settings := prop (prop config "prayers") p in
  p ∈ IQAMAH_PRAYERS -> NoDup (okeys (props (prop day "iqamah"))) ->
  prop (prop config "location") "timezone" = VStr tz ->
  truthy settings = true -> truthy (prop day p) = true ->
  calculateIqamah (prop day p) settings (VStr tz) = Ok t ->
  truthy (prop (applyOverrides day config) "iqamah") = true /\
  prop (prop (applyOverrides day config) "iqamah") p =
    if override_on settings then t else prop (prop day "iqamah") p.
Proof.
  intros day settings Hp Hnd Htz Hs Hd Ht.
  assert (truthy (prop config "prayers") = true) as Hc.
  { unfold settings in Hs. by destruct (prop config "prayers"). }
  assert (truthy config = true) as Hcc by (by destruct config).
  unfold applyOverrides. cbn [truthy day negb]. rewrite Hc, Hcc. cbn [negb orb].
  cbn [prop]. rewrite oget_oset. split; [done|]. cbn [prop]. rewrite overrides_get.
  2: { repeat constructor; set_solver. }
  rewrite bool_decide_eq_true_2 by done.
  rewrite oget_ospread_nil, prop_or_empty by (unfold js_or; case_match; [done|constructor]).
  unfold overridden. fold settings. fold (override_on settings). rewrite Hs, Hd, andb_true_r. cbn [andb].
  destruct (override_on settings); [|done].
  rewrite get_ok by (by destruct config). cbn [mbind result_bind].
  rewrite get_ok by (by destruct (prop config "location")). cbn [mbind result_bind]. by rewrite Htz, Ht.
Qed.

(** The notice tells the truth.  For the source in use, the congregation
    time the scheduler books and the one the dashboard shows are the same one:
    calculated from the settings of the card where the notice says so, and
    otherwise the source's, with the calculated one in its place when the
    source leaves the day without.  A source that does not offer congregation
    times sends none. *)
Theorem notice_true providers config p tz r ps prayerData t :
  let day := VObj ps in
  let sources := prop config "sources" in
  let settings := prop (prop config "prayers") p in
  let explicit := prop (prop day "iqamah") p in
  let start := prop day p in
  p ∈ IQAMAH_PRAYERS -> NoDup (okeys (props (prop day "iqamah"))) ->
  prop (prop config "location") "timezone" = VStr tz ->
  switch_like (prop (prop sources "backup") "enabled") -> switch_like (prop settings "iqamahOverride") ->
  truthy settings = true -> truthy start = true ->
  in_use sources r ->
  provides_iqamah (role_provider providers sources r) = true \/ truthy explicit = false ->
  calculateIqamah start settings (VStr tz) = Ok t ->
  prop prayerData "prayers" = applyOverrides day config ->
  let time := match promised (bannerConfig providers sources settings) r with
              | Calculated => t
              | OfSource => if truthy explicit then explicit else t
              end in
  iqamah_time config prayerData tz p start = Ok (Some (dt_parse (str_of time) tz)) /\
  row_iqamah prayerData config (VStr tz) p start = Ok time.
Proof.
  intros day sources settings explicit start Hp Hnd Htz Hb Ho Hs Hd Hr Hsup Ht Hdata time.
  pose proof (overridden_day ps config p tz t Hp Hnd Htz Hs Hd Ht) as [Hi Hover].
  fold day settings explicit in Hi, Hover.
  assert (truthy (prop config "prayers") = true) as Hc by (unfold settings in Hs; by destruct (prop config "prayers")).
  assert (get config "prayers" = Ok (prop config "prayers")) as Hg1 by (apply get_ok; by destruct config).
  assert (get (prop config "prayers") p = Ok settings) as Hg2 by (apply get_ok; by destruct (prop config "prayers")).
  assert (String.eqb p "sunrise" = false) as Hns.
  { apply String.eqb_neq. intros ->. unfold IQAMAH_PRAYERS in Hp. set_solver. }
  unfold iqamah_time, row_iqamah. rewrite Hns, Hdata, Hg1. cbn [mbind result_bind].
  rewrite Hg2. cbn [mbind result_bind]. rewrite Hover, Hs. rewrite <- (switch_truthy _ Ho).
  fold (override_on settings). unfold time. rewrite promised_spec by done.
  rewrite Hi. cbn [andb].
  destruct (override_on settings) eqn:Eo; cbn [negb andb].
  - rewrite Ht. split; [done|]. by destruct (truthy t).
  - destruct (provides_iqamah _) eqn:Ep.
    + destruct (truthy explicit) eqn:Ee; [by rewrite ?Hover|]. rewrite Ht. by split.
    + destruct Hsup as [|He]; [done|]. rewrite He, Ht. by split.
Qed.

(** Days of a source without congregation times have none. *)
Lemma aladhan_sends_none tz dayInfo key day p :
  aladhan_day tz dayInfo = Ok (key, day) -> truthy (prop (prop day "iqamah") p) = false.
Proof.
  unfold aladhan_day. intros H. repeat (apply result_bind_inv in H as (? & _ & H)). by injection H as _ <-.
Qed.

(** A time field that is emptied leaves the card in the mode of a fixed time,
    and the congregation time at the offset: the empty text counts as none. *)
Theorem cleared_time_uses_offset o start tz :
  let settings v := VObj (oset "fixedTime" v o) in
  edited_setting (VObj o) (TypeFixedTime "") = ("fixedTime", VStr "") /\
  offset_mode (settings (VStr "")) = false /\
  calculateIqamah start (settings (VStr "")) tz = calculateIqamah start (settings VNull) tz.
Proof.
  intros settings. split; [done|]. unfold offset_mode, settings. cbn [prop]. rewrite oget_oset. split; [done|].
  unfold calculateIqamah. cbn [truthy prop negb]. rewrite !oget_oset. cbn [truthy String.eqb negb].
  by rewrite !oget_oset_ne by done.
Qed.
End times.

(** An edit changes its one setting of its one prayer in the draft. *)
Theorem edit_card_stored tab e s s' :
  plain_name tab -> truthy (k_draftConfig s) = true ->
  let settings c := prop (prop c "prayers") tab in
  let kv := edited_setting (settings (k_draftConfig s)) e in
  no_array_on ["prayers"; tab; kv.1] (json_clone (k_draftConfig s)) ->
  edit_card tab e s = (Ok tt, s') ->
  prop (settings (k_draftConfig s')) kv.1 = kv.2 /\
  (forall key, key <> kv.1 ->
     prop (settings (k_draftConfig s')) key = prop (settings (json_clone (k_draftConfig s))) key) /\
  (forall tab' key, tab' <> tab ->
     walk ["prayers"; tab'; key] (k_draftConfig s') = walk ["prayers"; tab'; key] (json_clone (k_draftConfig s))) /\
  k_config s' = k_config s.
Proof.
  intros Hp Hd settings kv Hn E. unfold edit_card, mbind, M_bind, gets in E. fold (settings (k_draftConfig s)) in E.
  assert (edited_setting (settings (k_draftConfig s)) e = (kv.1, kv.2)) as Hkv by (unfold kv; by destruct (edited_setting _ e)).
  rewrite Hkv in E. unfold updatePrayerConfig, updateSetting in E. rewrite Hd in E. cbn [negb] in E.
  assert (split_on "." ("prayers." +:+ tab +:+ "." +:+ kv.1) = ["prayers"; tab; kv.1]) as Hsp.
  { change ("prayers." +:+ tab +:+ "." +:+ kv.1) with (join_with "." ["prayers"; tab; kv.1]).
    apply split_join; [done|]. repeat constructor; try done. unfold kv. by destruct e. }
  rewrite Hsp in E. destruct (set_at _ _ _) as [next|] eqn:Es; [|done]. injection E as <-. cbn [k_draftConfig k_config set_draft].
  split; [by eapply (set_at_get ["prayers"; tab; kv.1])|]. split; [|split; [|done]].
  - intros key Hk. refine (set_at_other ["prayers"; tab; kv.1] ["prayers"; tab; key] _ _ _ _ Es).
    cbn. rewrite String.eqb_refl. destruct (String.eqb_spec kv.1 key); [congruence|done].
  - intros tab' key Ht. refine (set_at_other ["prayers"; tab; kv.1] ["prayers"; tab'; key] _ _ _ _ Es).
    cbn. destruct (String.eqb_spec tab tab'); [congruence|done].
Qed.

(** ** A card at work *)
#[local] Instance any_order : Locale := fun _ _ => true.

Definition two_sources (override : bool) : val := VObj
  [("location", VObj [("timezone", VStr "Etc/UTC")]);
   ("sources", VObj [("primary", VObj [("type", VStr "mymasjid")]);
                     ("backup", VObj [("type", VStr "aladhan"); ("enabled", VBool true)])]);
   ("prayers", VObj [("fajr", VObj [("iqamahOffset", VInt 20); ("roundTo", VInt 15); ("fixedTime", VNull);
                                    ("iqamahOverride", VBool override)])])].
Definition backup_day : list (string * val) :=
  [("fajr", VStr "2025-01-15T05:30:00.000Z"); ("iqamah", VObj [])].

Lemma notice_true_witness :
  let config := two_sources false in
  banner_text (bannerConfig getRegisteredProviders (prop config "sources") (prop (prop config "prayers") "fajr")) =
    "Following primary source Iqamah schedule from MyMasjid. Local calculation settings below apply to backup source only." /\
  row_iqamah (L := utc) (VObj [("prayers", applyOverrides (L := utc) (VObj backup_day) config)]) config
    (VStr "Etc/UTC") "fajr" (VStr "2025-01-15T05:30:00.000Z") = Ok (VStr "2025-01-15T06:00:00.000Z").
Proof.
  split; [reflexivity|].
  destruct (notice_true (L := utc) getRegisteredProviders (two_sources false) "fajr" "Etc/UTC" Backup backup_day
    (VObj [("prayers", applyOverrides (L := utc) (VObj backup_day) (two_sources false))])
    (VStr "2025-01-15T06:00:00.000Z")) as [_ H];
    [by left|constructor|done|right; by exists true|right; by exists false|done|done|done|by right
    |vm_compute; reflexivity|done|].
  exact H.
Defined.

Definition card_page : client :=
  Client (two_sources false) (two_sources false) (VObj []) false false false (VArr []) false VNull (VArr []) false true [].

Lemma edit_card_stored_witness :
  let s' := (edit_card "fajr" (TypeRoundTo "5") card_page).2 in
  prop (prop (prop (k_draftConfig s') "prayers") "fajr") "roundTo" = VInt 5 /\ k_config s' = two_sources false.
Proof.
  intros s'. destruct (edit_card_stored "fajr" (TypeRoundTo "5") card_page s') as (H1 & _ & _ & H4);
    [done|done|by repeat split|vm_compute; reflexivity|]. by split.
Defined.
