(* ===== verification/OutputCard.v ===== *)
(** * The card of an output
      ([client/src/components/settings/OutputStrategyCard.jsx],
       [client/src/components/settings/AudioConsentModal.jsx],
       [client/src/components/settings/automation/AutomationOutputsTab.jsx])

    A card switches an output on, moves its lead time, edits its parameters,
    asks the server to check it and, once the user agreed, to sound it.  What
    runs after a request is the answer to it; answers and edits come in any
    order.  The strategy is one of the server's registry. *)
From S2P Require Import Prelude JsString JsValue NodePath World Zod Network Schemas Luxon Sse.
From S2P Require Import Providers.
From S2P Require Import LuxonUtc Masking ConfigStore Outputs AudioAssets Automation Scheduler.
From S2P Require Import Health Http.
From S2P Require Import SystemController ClientSettings TriggerCard.

(** ** The state *)
Inductive status := Idle | Online | Offline.

Record card := Card {
  oc_testingHealth : bool; oc_testingAudio : bool; oc_status : status; oc_errorMsg : val;
  oc_showConsentModal : bool;
  oc_dontAskAgain : bool;           (* of the dialogue *)
  oc_sessionConsentGiven : bool;    (* of the module, for all cards *)
  oc_sent : list call
}.

Definition set_testingHealth (b : bool) (s : card) : card :=
  Card b (oc_testingAudio s) (oc_status s) (oc_errorMsg s) (oc_showConsentModal s) (oc_dontAskAgain s)
    (oc_sessionConsentGiven s) (oc_sent s).
Definition set_testingAudio (b : bool) (s : card) : card :=
  Card (oc_testingHealth s) b (oc_status s) (oc_errorMsg s) (oc_showConsentModal s) (oc_dontAskAgain s)
    (oc_sessionConsentGiven s) (oc_sent s).
Definition set_status (x : status) (s : card) : card :=
  Card (oc_testingHealth s) (oc_testingAudio s) x (oc_errorMsg s) (oc_showConsentModal s) (oc_dontAskAgain s)
    (oc_sessionConsentGiven s) (oc_sent s).
Definition set_errorMsg (v : val) (s : card) : card :=
  Card (oc_testingHealth s) (oc_testingAudio s) (oc_status s) v (oc_showConsentModal s) (oc_dontAskAgain s)
    (oc_sessionConsentGiven s) (oc_sent s).
Definition set_showConsentModal (b : bool) (s : card) : card :=
  Card (oc_testingHealth s) (oc_testingAudio s) (oc_status s) (oc_errorMsg s) b (oc_dontAskAgain s)
    (oc_sessionConsentGiven s) (oc_sent s).
Definition set_dontAskAgain (b : bool) (s : card) : card :=
  Card (oc_testingHealth s) (oc_testingAudio s) (oc_status s) (oc_errorMsg s) (oc_showConsentModal s) b
    (oc_sessionConsentGiven s) (oc_sent s).
Definition set_sessionConsentGiven (b : bool) (s : card) : card :=
  Card (oc_testingHealth s) (oc_testingAudio s) (oc_status s) (oc_errorMsg s) (oc_showConsentModal s)
    (oc_dontAskAgain s) b (oc_sent s).
Definition send (c : call) (s : card) : card :=
  Card (oc_testingHealth s) (oc_testingAudio s) (oc_status s) (oc_errorMsg s) (oc_showConsentModal s)
    (oc_dontAskAgain s) (oc_sessionConsentGiven s) (oc_sent s ++ [c]).

Definition first_card : card := Card false false Idle VNull false false false [].

(** ** What is shown *)
Section view.
Context (strategy config : val).

Definition card_id : string := str_of (prop strategy "id").
Definition card_values : val := js_or (prop config "params") (VObj []).
Definition nullish_or (a b : val) : val := if is_nullish a then b else a.
Definition card_enabled : val := nullish_or (prop config "enabled") (VBool false).
Definition leadTimeMs : val :=
  nullish_or (nullish_or (prop config "leadTimeMs") (prop strategy "defaultLeadTimeMs")) (VInt 0).

Definition visible_params : list val :=
  filter (fun p => truthy (prop p "sensitive") = false) (arr_of (prop strategy "params")).
Definition shown_param (param : val) : val :=
  js_or (prop card_values (str_of (prop param "key"))) (js_or (prop param "default") (VStr "")).

(** The warning beside the name *)
Definition warned (s : card) : bool :=
  truthy card_enabled && match oc_status s with Offline => true | _ => false end.
End view.

(** *** The lead time *)
Definition minLead : Z := -30000.
Definition maxLead : Z := 30000.
Definition snapPoints : list Z :=
  [-30000; -25000; -20000; -15000; -10000; -5000; 0; 5000; 10000; 15000; 20000; 25000; 30000].
Definition snapThreshold : Z := 750.

Definition closer (v prev curr : Z) : Z := if Z.abs (curr - v) <? Z.abs (prev - v) then curr else prev.
Definition nearest (v : Z) : Z :=
  match snapPoints with [] => 0 | p :: l => foldl (closer v) p l end.
Definition snapped (v : Z) : Z :=
  if Z.abs (v - nearest v) <? snapThreshold then nearest v else v.

Definition lead_note (lead : Z) : string :=
  if 0 <? lead then "Starts " +:+ show_Z lead +:+ "ms before target time."
  else if lead <? 0 then "Starts " +:+ show_Z (Z.abs lead) +:+ "ms after target time."
  else "Starts exactly at target time.".

(** Where the coloured part of the track begins and how wide it is, in percent *)
Definition percent (v : Z) : Q := (inject_Z v / inject_Z (maxLead - minLead) * 100)%Q.
Definition fill_left (lead : Z) : Q := if 0 <=? lead then 50%Q else percent (lead - minLead).
Definition fill_width (lead : Z) : Q := percent (Z.abs lead).

(** ** Editing the draft *)
Definition on_change (id field : string) (value : val) : M client unit :=
  updateSetting ("automation.outputs." +:+ id +:+ "." +:+ field) value.

Definition switch_output (id : string) (enabled : val) : M client unit :=
  on_change id "enabled" (VBool (negb (truthy enabled))).
Definition slide (id text : string) : M client unit :=
  on_change id "leadTimeMs" (VInt (snapped (default 0 (parse_int_any text)))).
Definition edit_param (id : string) (values : val) (key : string) (value : val) : M client unit :=
  on_change id "params" (VObj (ospread (props values) [(key, value)])).

(** ** The handlers *)
Section handlers.
Context (strategy config systemHealth : val).

(** The effect of [systemHealth] *)
Definition follow_health : card -> card := fun s =>
  let health := prop systemHealth (card_id strategy) in
  if negb (truthy health) then s else
  if truthy (prop health "healthy") then set_errorMsg VNull (set_status Online s)
  else set_errorMsg (js_or (prop health "message") (VStr "Unknown error")) (set_status Offline s).

Definition check_call : call := Call "POST" "/api/system/health/refresh"
  (VObj [("target", VStr (card_id strategy)); ("params", card_values config)]).
Definition test_call : call := Call "POST" ("/api/system/outputs/" +:+ card_id strategy +:+ "/test")
  (VObj (ospread (props (card_values config)) [("source", VObj [("path", VStr "custom/test.mp3")])])).

Definition busy (s : card) : bool := oc_testingHealth s || oc_testingAudio s.

(** [handleParamChange], after [onChange] *)
Definition handleParamChange : M card unit := modify (set_status Idle).

Definition handleCheckHealth : M card unit :=
  modify (set_testingHealth true) ;; modify (set_errorMsg VNull) ;; modify (send check_call).

(** [await res.json().catch(() => ({}))], and the error it makes *)
Definition refused_with (res : reply) (fallback : string) : result unit :=
  let errData := match a_json res with Ok v => v | Throw _ => VObj [] end in
  message ← get errData "message";
  Throw (Error (show (js_or message (js_or (prop errData "error") (VStr fallback))))).

Definition checkAnswered (answer : result reply) : M card unit :=
  try_finally (try_catch (
    res ← lift answer;
    (if res_ok res then ret tt else lift (refused_with res "Health check failed")) ;;
    data ← lift (a_json res);
    healthData ← lift (get data (card_id strategy));
    if truthy healthData && truthy (prop healthData "healthy") then modify (set_status Online)
    else modify (set_status Offline) ;;
         modify (set_errorMsg (js_or (prop healthData "message") (VStr "Unknown error"))))
    (fun e => modify (set_status Offline) ;; modify (set_errorMsg (VStr (e_msg e)))))
    (set_testingHealth false).

Definition triggerAudioTest : M card unit :=
  modify (set_testingAudio true) ;; modify (send test_call).

Definition soundAnswered (answer : result reply) : M card unit :=
  try_finally (try_catch (
    res ← lift answer;
    if res_ok res then ret tt else lift (refused_with res "Audio test failed"))
    (fun _ => ret tt)) (set_testingAudio false).

Definition handleTestAudioClick : M card unit :=
  consent ← gets oc_sessionConsentGiven;
  if (consent : bool) then triggerAudioTest else modify (set_showConsentModal true).

Definition handleConsentConfirm (dontAskAgain : bool) : M card unit :=
  when dontAskAgain (modify (set_sessionConsentGiven true)) ;;
  triggerAudioTest.

(** [handleConfirm] of the dialogue *)
Definition handleConfirm : M card unit :=
  dontAskAgain ← gets oc_dontAskAgain;
  handleConsentConfirm dontAskAgain ;;
  modify (set_showConsentModal false).
End handlers.

(** ** What can happen, with the configuration and the health of the moment *)
Inductive event :=
| HealthChanged | ParamTyped
| CheckClicked | CheckAnswered (answer : result reply)
| TestClicked | TestAnswered (answer : result reply)
| BoxTicked (b : bool) | Confirmed | Dismissed
| ConsentElsewhere.

Definition handle_card (strategy config systemHealth : val) (e : event) : M card unit :=
  s ← getw;
  match e with
  | HealthChanged => modify (follow_health strategy systemHealth)
  | ParamTyped => handleParamChange
  | CheckClicked => when (negb (busy s)) (handleCheckHealth strategy config)
  | CheckAnswered a => when (oc_testingHealth s) (checkAnswered strategy a)
  | TestClicked => when (negb (busy s)) (handleTestAudioClick strategy config)
  | TestAnswered a => when (oc_testingAudio s) (soundAnswered a)
  | BoxTicked b => when (oc_showConsentModal s) (modify (set_dontAskAgain b))
  | Confirmed => when (oc_showConsentModal s) (handleConfirm strategy config)
  | Dismissed => modify (set_showConsentModal false)
  | ConsentElsewhere => modify (set_sessionConsentGiven true)
  end.

Definition card_step (strategy : val) (s : card) (e : val * val * event) : card :=
  (handle_card strategy e.1.1 e.1.2 e.2 s).2.
Definition card_run (strategy : val) (l : list (val * val * event)) : card :=
  foldl (card_step strategy) first_card l.

(** ** Lemmas: the lead time *)
Lemma closer_best v l p :
  let b := foldl (closer v) p l in
  b ∈ p :: l /\ forall q, q ∈ p :: l -> Z.abs (b - v) <= Z.abs (q - v).
Proof.
  revert p. induction l as [|c l IH]; intros p; cbn [foldl].
  - split; [by left|]. intros q Hq. apply list_elem_of_singleton in Hq as ->. lia.
  - destruct (IH (closer v p c)) as [Hin Hb].
    assert (closer v p c = p \/ closer v p c = c) as Hc by (unfold closer; case_match; auto).
    assert (Z.abs (closer v p c - v) <= Z.abs (p - v) /\ Z.abs (closer v p c - v) <= Z.abs (c - v)) as [H1 H2]
      by (unfold closer; destruct (Z.ltb_spec (Z.abs (c - v)) (Z.abs (p - v))); lia).
    pose proof (Hb _ (list_elem_of_here _ _)) as Hh. split.
    + apply elem_of_cons in Hin as [-> |Hin]; [|by do 2 right]. destruct Hc as [-> | ->]; [left|right; left].
    + intros q Hq. apply elem_of_cons in Hq as [-> |Hq]; [lia|].
      apply elem_of_cons in Hq as [-> |Hq]; [lia|]. apply Hb. by right.
Qed.

Lemma nearest_best v : nearest v ∈ snapPoints /\ forall q, q ∈ snapPoints -> Z.abs (nearest v - v) <= Z.abs (q - v).
Proof. apply closer_best. Qed.

Lemma snapPoints_spec q : q ∈ snapPoints <-> (minLead <= q <= maxLead /\ (5000 | q)).
Proof.
  unfold snapPoints, minLead, maxLead. split.
  - intros H. repeat (apply elem_of_cons in H as [-> |H]; [split; [lia|by apply Z.mod_divide]|]). by apply elem_of_nil in H.
  - intros [Hr [k ->]]. assert (k = -6 \/ k = -5 \/ k = -4 \/ k = -3 \/ k = -2 \/ k = -1 \/ k = 0 \/ k = 1 \/ k = 2 \/ k = 3
      \/ k = 4 \/ k = 5 \/ k = 6) as Hk by lia.
    repeat destruct Hk as [-> |Hk]; [..|subst k]; by repeat (first [apply list_elem_of_here|apply list_elem_of_further]).
Qed.

Lemma nearest_mark q : q ∈ snapPoints -> nearest q = q.
Proof. intros H. destruct (nearest_best q) as [_ Hb]. specialize (Hb q H). lia. Qed.

(** The thumb of the slider.  Between the ends of the track it settles between
    them, less than 750 ms from where it was let go: on the one mark within that
    distance, or in its place when there is none; and it stays where it is. *)
Theorem snapped_spec v :
  minLead <= v <= maxLead ->
  minLead <= snapped v <= maxLead /\ Z.abs (snapped v - v) < snapThreshold /\
  (forall q, minLead <= q <= maxLead -> (5000 | q) -> Z.abs (v - q) < snapThreshold -> snapped v = q) /\
  ((forall q, minLead <= q <= maxLead -> (5000 | q) -> snapThreshold <= Z.abs (v - q)) -> snapped v = v) /\
  snapped (snapped v) = snapped v.
Proof.
  intros Hv. destruct (nearest_best v) as [Hin Hb]. pose proof (proj1 (snapPoints_spec _) Hin) as [Hr [k Hk]].
  assert (forall u, snapped u = if Z.abs (u - nearest u) <? 750 then nearest u else u) as Hs by done.
  rewrite (Hs v). unfold snapThreshold.
  destruct (Z.ltb_spec (Z.abs (v - nearest v)) 750) as [Hc|Hc].
  - split; [done|]. split; [lia|]. split; [|split].
    + intros q Hq [j ->] Hd. lia.
    + intros Hno. specialize (Hno (nearest v) Hr ltac:(by exists k)). lia.
    + by rewrite Hs, (nearest_mark _ Hin), Z.sub_diag.
  - split; [done|]. split; [lia|]. split; [|split; [done|]].
    + intros q Hq Hd Hclose. specialize (Hb q ltac:(by apply snapPoints_spec)). lia.
    + rewrite Hs. by destruct (Z.ltb_spec (Z.abs (v - nearest v)) 750); [lia|].
Qed.

(** ** Lemmas: the draft *)
Lemma output_path id field :
  plain_name id -> plain_name field ->
  split_on "." ("automation.outputs." +:+ id +:+ "." +:+ field) = ["automation"; "outputs"; id; field].
Proof.
  intros Hi Hf. change ("automation.outputs." +:+ id +:+ "." +:+ field)
    with (join_with "." ["automation"; "outputs"; id; field]).
  apply split_join; [done|]. repeat constructor; done.
Qed.

(** An edit of a card changes its one field of its one output. *)
Lemma on_change_run id field value s s' :
  plain_name id -> plain_name field -> truthy (k_draftConfig s) = true ->
  no_array_on ["automation"; "outputs"; id; field] (json_clone (k_draftConfig s)) ->
  on_change id field value s = (Ok tt, s') ->
  k_config s' = k_config s /\
  prop (output_config (k_draftConfig s') id) field = value /\
  (forall field', field' <> field -> prop (output_config (k_draftConfig s') id) field' =
                                     prop (output_config (json_clone (k_draftConfig s)) id) field') /\
  (forall id', id' <> id -> output_config (k_draftConfig s') id' = output_config (json_clone (k_draftConfig s)) id').
Proof.
  intros Hi Hf Hd Hn E. unfold on_change, updateSetting in E. rewrite Hd in E. cbn [negb] in E.
  rewrite output_path in E by done. destruct (set_at _ _ _) as [next|] eqn:Es; [|done]. injection E as <-.
  cbn [k_config k_draftConfig set_draft]. split; [done|].
  split; [by eapply (set_at_get ["automation"; "outputs"; id; field])|]. split.
  - intros f Hne. refine (set_at_other ["automation"; "outputs"; id; field] ["automation"; "outputs"; id; f] _ _ _ _ Es).
    cbn. rewrite String.eqb_refl. destruct (String.eqb_spec field f); [congruence|done].
  - intros id' Hne. refine (set_at_other ["automation"; "outputs"; id; field] ["automation"; "outputs"; id'] _ _ _ _ Es).
    cbn. destruct (String.eqb_spec id id'); [congruence|done].
Qed.

(** What the slider shows is what is played.  Where the thumb is let go, the
    draft has the lead time it settled on, within 750 ms, which the schema
    accepts and the card shows; the other fields and outputs keep theirs.  Once
    saved, it is the lead time of the announcements: from a start [master] ms
    ahead of the event the output waits until exactly that long before it. *)
Theorem slider_played strategy id text v s s' :
  plain_name id -> truthy (k_draftConfig s) = true ->
  no_array_on ["automation"; "outputs"; id; "leadTimeMs"] (json_clone (k_draftConfig s)) ->
  parse_int_any text = Some v -> minLead <= v <= maxLead ->
  slide id text s = (Ok tt, s') ->
  exists lead, Z.abs (lead - v) < snapThreshold /\ leadTimeMs strategy (output_config (k_draftConfig s') id) = VInt lead /\
    number_between (-30000) 30000 (VInt lead) /\
    (forall field, field <> "leadTimeMs" -> prop (output_config (k_draftConfig s') id) field =
                                            prop (output_config (json_clone (k_draftConfig s)) id) field) /\
    (forall id', id' <> id -> output_config (k_draftConfig s') id' = output_config (json_clone (k_draftConfig s)) id') /\
    forall event master, lead <= master ->
      after_wait (event - master) (wait_delay (inject_Z master) (lead_time (k_draftConfig s') id)) = event - lead.
Proof.
  intros Hi Hd Hn Ht Hv E. unfold slide in E. rewrite Ht in E. cbn [default Datatypes.id] in E.
  destruct (on_change_run _ _ _ _ _ Hi (eq_refl : plain_name "leadTimeMs") Hd Hn E) as (_ & Hl & Hf & Ho).
  destruct (snapped_spec v Hv) as (Hr & Hc & _). exists (snapped v). split; [done|].
  split; [unfold leadTimeMs; by rewrite Hl|]. split.
  { exists (inject_Z (snapped v)). split; [done|]. unfold minLead, maxLead in Hr. unfold Qle; cbn; lia. }
  split; [exact Hf|]. split; [exact Ho|]. intros event master Hm.
  assert (after_wait (event - master) (wait_delay (inject_Z master) (inject_Z (snapped v))) = event - snapped v) as Ha.
  { rewrite after_wait_Z by done. lia. }
  unfold lead_time. rewrite Hl. unfold js_or. destruct (truthy (VInt (snapped v))) eqn:Et; [exact Ha|].
  assert (snapped v = 0) as Hz.
  { cbn in Et. apply negb_false_iff, Qeq_bool_iff in Et. unfold Qeq in Et. cbn in Et. lia. }
  by rewrite Hz in Ha |- *.
Qed.

(** The lead time a strategy proposes is on the card, and in no announcement. *)
Theorem default_lead_not_played config :
  prop (output_config config "voicemonkey") "leadTimeMs" = VUndef ->
  leadTimeMs VoiceMonkey_getMetadata (output_config config "voicemonkey") = VInt 2000 /\
  lead_time config "voicemonkey" = 0%Q.
Proof. intros H. unfold leadTimeMs, lead_time. by rewrite H. Qed.

Lemma percent_frac v : (percent v == v # 600)%Q.
Proof.
  unfold percent, Qdiv. change (/ inject_Z (maxLead - minLead))%Q with (1 # 60000)%Q.
  unfold Qeq, inject_Z. cbn. lia.
Qed.

(** The coloured part of the track lies on it, between its middle and the thumb. *)
Theorem fill_spec lead :
  minLead <= lead <= maxLead ->
  (0 <= fill_left lead /\ fill_left lead + fill_width lead <= 100)%Q /\
  (if 0 <=? lead then fill_left lead == 50 /\ fill_left lead + fill_width lead == percent (lead - minLead)
   else fill_left lead == percent (lead - minLead) /\ fill_left lead + fill_width lead == 50)%Q.
Proof.
  unfold fill_left, fill_width, minLead, maxLead. intros Hl.
  destruct (Z.leb_spec 0 lead) as [H|H]; rewrite !percent_frac; unfold Qle, Qeq; cbn; lia.
Qed.

(** ** Lemmas: requests and consent *)
Definition accounts (s : card) : list call * bool := (oc_sent s, oc_sessionConsentGiven s).

Lemma keeps_answers strategy config systemHealth e :
  match e with CheckClicked | TestClicked | Confirmed | ConsentElsewhere => False | _ => True end ->
  keeps accounts (handle_card strategy config systemHealth e).
Proof.
  intros H. unfold handle_card. apply keeps_bind; [done|]. intros s.
  destruct e; try done; unfold handleParamChange, checkAnswered, soundAnswered, follow_health;
    keeps_step; try done; try (apply keeps_modify; intros).
Qed.

(** What an event does to them *)
Lemma accounts_step strategy c h e s :
  accounts (card_step strategy s (c, h, e)) =
    match e with
    | CheckClicked => if busy s then accounts s else (oc_sent s ++ [check_call strategy c], oc_sessionConsentGiven s)
    | TestClicked => if negb (busy s) && oc_sessionConsentGiven s
                     then (oc_sent s ++ [test_call strategy c], true) else accounts s
    | Confirmed => if oc_showConsentModal s
                   then (oc_sent s ++ [test_call strategy c], oc_dontAskAgain s || oc_sessionConsentGiven s)
                   else accounts s
    | ConsentElsewhere => (oc_sent s, true)
    | _ => accounts s
    end.
Proof.
  unfold card_step. cbn [fst snd]. destruct e; try (by apply keeps_answers);
    unfold handle_card, handleTestAudioClick, handleConfirm, handleConsentConfirm; munfold; unfold getw, when, accounts.
  - by destruct (busy s).
  - destruct (busy s); [done|]. destruct s as [? ? ? ? ? ? [] ?]; reflexivity.
  - by destruct s as [? ? ? ? [] [] ? ?].
  - done.
Qed.

Lemma card_run_snoc strategy l x : card_run strategy (l ++ [x]) = card_step strategy (card_run strategy l) x.
Proof. unfold card_run. by rewrite foldl_app. Qed.

(** The dialogue is open and the answer is yes, here for the rest of the session *)
Definition confirms (strategy : val) (before : list (val * val * event)) (e : event) : Prop :=
  e = Confirmed /\ oc_showConsentModal (card_run strategy before) = true.
Definition agrees (strategy : val) (before : list (val * val * event)) (e : event) : Prop :=
  e = ConsentElsewhere \/ (confirms strategy before e /\ oc_dontAskAgain (card_run strategy before) = true).
Definition agreed (strategy : val) (l : list (val * val * event)) : Prop :=
  exists before c h e after, l = before ++ (c, h, e) :: after /\ agrees strategy before e.

Lemma agreed_snoc strategy l x : agreed strategy l -> agreed strategy (l ++ [x]).
Proof. intros (b & c & h & e & a & -> & H). exists b, c, h, e, (a ++ [x]). by rewrite <- app_assoc. Qed.

Lemma session_consent_agreed strategy l :
  oc_sessionConsentGiven (card_run strategy l) = true -> agreed strategy l.
Proof.
  induction l as [|[[c h] e] l IH] using rev_ind; [done|]. rewrite card_run_snoc. intros H.
  pose proof (f_equal snd (accounts_step strategy c h e (card_run strategy l))) as Ha. cbn [accounts snd] in Ha. rewrite H in Ha.
  destruct (oc_sessionConsentGiven (card_run strategy l)) eqn:E; [by apply agreed_snoc, IH|].
  exists l, c, h, e, []. split; [done|].
  destruct e; cbn [accounts snd] in Ha; rewrite ?E, ?andb_false_r in Ha; cbn [accounts snd] in Ha;
    try (destruct (busy _)); cbn [accounts snd] in Ha; try congruence; [|by left].
  destruct (oc_showConsentModal (card_run strategy l)) eqn:Em; cbn [accounts snd] in Ha; rewrite ?E in Ha; [|done].
  rewrite ?orb_false_r in Ha. right. split; [done|by symmetry].
Qed.

(** No output sounds unasked.  Every test a card ever asks the server for was
    confirmed in the dialogue it opened, or clicked after the user had agreed,
    here or on another card, not to be asked again; it carries the parameters of
    the moment, and everything else it sends are checks. *)
Theorem test_needs_consent strategy l q :
  q ∈ oc_sent (card_run strategy l) ->
  exists before c h e after, l = before ++ (c, h, e) :: after /\
    ((q = check_call strategy c /\ e = CheckClicked) \/
     (q = test_call strategy c /\
        (confirms strategy before e \/ (e = TestClicked /\ agreed strategy before)))).
Proof.
  revert q. induction l as [|[[c h] e] l IH] using rev_ind; intros q; [by intros ?%elem_of_nil|]. rewrite card_run_snoc.
  pose proof (f_equal fst (accounts_step strategy c h e (card_run strategy l))) as Ha. cbn [accounts fst] in Ha. rewrite Ha.
  assert (forall x, q ∈ oc_sent (card_run strategy l) -> exists before c' h' e' after, l ++ [x] = before ++ (c', h', e') :: after /\
    ((q = check_call strategy c' /\ e' = CheckClicked) \/
     (q = test_call strategy c' /\ (confirms strategy before e' \/ (e' = TestClicked /\ agreed strategy before))))) as Hold.
  { intros x Hq. destruct (IH q Hq) as (b & c' & h' & e' & a & -> & H). exists b, c', h', e', (a ++ [x]).
    by rewrite <- app_assoc. }
  destruct e; cbn [fst]; try apply Hold.
  - destruct (busy _); [apply Hold|]. intros [Hq|Hq]%elem_of_app; [by apply Hold|].
    apply list_elem_of_singleton in Hq as ->. exists l, c, h, CheckClicked, []. split; [done|by left].
  - destruct (negb _ && _) eqn:E; [|apply Hold]. intros [Hq|Hq]%elem_of_app; [by apply Hold|].
    apply list_elem_of_singleton in Hq as ->. apply andb_true_iff in E as [_ E].
    exists l, c, h, TestClicked, []. split; [done|]. right. split; [done|]. right. split; [done|]. by apply session_consent_agreed.
  - destruct (oc_showConsentModal _) eqn:E; [|apply Hold]. intros [Hq|Hq]%elem_of_app; [by apply Hold|].
    apply list_elem_of_singleton in Hq as ->. exists l, c, h, Confirmed, []. split; [done|]. right. split; [done|by left].
Qed.

(** ** A check, from the card to the server and back *)
Section checks.
Context `{L : Luxon} `{Zd : Zod} `{N : Net} `{H : Host}.

(** C37: A check shows what the server found.  When the button is pressed and the
    server's handler for the request it sends succeeds, the answer leaves the
    card online exactly when the server's check of that output, with the
    parameters of the card, was healthy, and otherwise offline with its message;
    the button is free again, and the health the server now keeps for every page
    shows the same on this one. *)
Theorem check_shows_server strategy config h s req r w w' a b :
  let id := card_id strategy in
  id <> "all" -> id <> "ports" -> id <> "" ->
  busy s = false ->
  let s1 := card_step strategy s (config, h, CheckClicked) in
  oc_sent s1 = oc_sent s ++ [Call "POST" "/api/system/health/refresh" (rq_body req)] ->
  forceRefreshHealth req w = (Ok r, w') ->
  prop (prop (w_health w') id) "healthy" = VBool b ->
  a_status a = rp_status r -> a_json a = Ok (rp_body r) ->
  let s2 := card_step strategy s1 (config, h, CheckAnswered (Ok a)) in
  oc_testingHealth s2 = false /\ oc_status s2 = (if b then Online else Offline) /\
  (b = false -> oc_errorMsg s2 = js_or (prop (prop (rp_body r) id) "message") (VStr "Unknown error")) /\
  (exists w1 w2 res, _refreshTarget id (card_values config) true w1 = (Ok res, w2) /\ prop res "healthy" = VBool b) /\
  oc_status (follow_health strategy (rp_body r) s2) = oc_status s2.
Proof.
  intros id Hall Hports Hne Hbusy s1 Hsent Hreq Hb Hst Hjson s2.
  assert (s1 = send (check_call strategy config) (set_errorMsg VNull (set_testingHealth true s))) as Hs1.
  { unfold s1, card_step, handle_card. cbn [fst snd]. munfold. unfold getw, when. by rewrite Hbusy. }
  assert (rq_body req = VObj [("target", VStr id); ("params", card_values config)]) as Hbody.
  { rewrite Hs1 in Hsent. cbn in Hsent. by apply app_inj_2 in Hsent as [_ [= <-]]. }
  unfold forceRefreshHealth, refresh_as in Hreq. rewrite Hbody in Hreq.
  assert (exists v, refresh_health id (card_values config) true w = (Ok v, w') /\ r = json 200 v) as (v & Hrun & ->).
  { munfold. cbn [get prop oget String.eqb Ascii.eqb Bool.eqb] in Hreq. unfold js_or in Hreq.
    change (truthy (VStr id)) with (negb (String.eqb id "")) in Hreq. apply String.eqb_neq in Hne. rewrite Hne in Hreq.
    cbn [negb show prop oget String.eqb Ascii.eqb Bool.eqb] in Hreq.
    destruct (refresh_health _ _ _ _) as [[v|e] w2]; [|done]. injection Hreq as <- <-. by exists v. }
  destruct (refresh_one _ _ _ _ _ _ Hall Hports Hrun) as (-> & w1 & w2 & res & now & old & _ & Hres & Hst').
  cbn [rp_body rp_status json] in *. set (body := json_clone (w_health w')) in *.
  assert (prop (prop body id) "healthy" = VBool b) as Hh.
  { unfold body. rewrite prop_json_clone by (intros E; by rewrite E in Hb).
    by rewrite prop_json_clone, Hb by (by rewrite Hb). }
  assert (truthy (prop body id) = true) as Ht by (by destruct (prop body id)).
  assert (get body id = Ok (prop body id)) as Hg by (apply get_ok; by destruct body).
  assert (s2 = (checkAnswered strategy (Ok a) s1).2) as Hs2.
  { unfold s2, card_step, handle_card. cbn [fst snd]. munfold. unfold getw, when. by rewrite Hs1. }
  rewrite Hs2. unfold checkAnswered, res_ok. munfold. rewrite Hst, Hjson. fold id. cbn [Z.leb Z.ltb Z.compare andb Pos.compare Pos.compare_cont].
  rewrite Hg, Ht, Hh. unfold follow_health. fold id. rewrite Ht, Hh.
  split_and!; [by destruct b| by destruct b|by intros ->| |by destruct b].
  exists w1, w2, res. split; [done|]. rewrite Hst' in Hb. unfold stamped in Hb. cbn [prop] in Hb.
  rewrite oget_ospread_not in Hb by done. by destruct res.
Qed.
End checks.

(** An edit during a check: the card goes back to unchecked, and then shows the
    edited parameters as online although the check was of the ones before. *)
Theorem edit_during_check strategy config config' h s data a :
  busy s = false -> a_status a = 200 -> a_json a = Ok data ->
  truthy (prop (prop data (card_id strategy)) "healthy") = true ->
  let s2 := foldl (card_step strategy) s [(config, h, CheckClicked); (config', h, ParamTyped)] in
  let s3 := card_step strategy s2 (config', h, CheckAnswered (Ok a)) in
  oc_sent s3 = oc_sent s ++ [check_call strategy config] /\ oc_status s2 = Idle /\ oc_status s3 = Online.
Proof.
  intros Hb Hst Hj Hh s2 s3.
  assert (s2 = set_status Idle (send (check_call strategy config) (set_errorMsg VNull (set_testingHealth true s)))) as Hs2.
  { unfold s2. cbn [foldl]. unfold card_step, handle_card, handleParamChange. cbn [fst snd]. munfold. unfold getw, when. by rewrite Hb. }
  unfold s3. rewrite Hs2. unfold card_step, handle_card, checkAnswered, res_ok. cbn [fst snd]. munfold. unfold getw, when.
  cbn [oc_testingHealth set_status send set_errorMsg set_testingHealth]. rewrite Hst, Hj.
  assert (truthy (prop data (card_id strategy)) = true) as Ht by (by destruct (prop data (card_id strategy))).
  assert (get data (card_id strategy) = Ok (prop data (card_id strategy))) as Hg by (apply get_ok; by destruct data).
  cbn [Z.leb Z.ltb Z.compare andb Pos.compare Pos.compare_cont]. rewrite Hg, Ht, Hh. done.
Qed.

(** ** A card at work *)
Definition speaker : val := VObj [("id", VStr "voicemonkey"); ("label", VStr "Alexa"); ("defaultLeadTimeMs", VInt 2000)].
Definition speaker_config : val := VObj [("enabled", VBool true); ("leadTimeMs", VInt 0); ("params", VObj [])].
Definition outputs_page : client :=
  let c := VObj [("automation", VObj [("outputs", VObj [("voicemonkey", speaker_config)])])] in
  Client c c (VObj []) false false false (VArr []) false VNull (VArr []) false true [].

Lemma slider_played_witness :
  leadTimeMs speaker (output_config (k_draftConfig (slide "voicemonkey" "4400" outputs_page).2) "voicemonkey") = VInt 5000.
Proof.
  destruct (slider_played speaker "voicemonkey" "4400" 4400 outputs_page (slide "voicemonkey" "4400" outputs_page).2)
    as (lead & _ & H & _); [done|done|by repeat split|done|by split|vm_compute; reflexivity|].
  rewrite H. vm_compute in H. by injection H as <-.
Defined.

Definition asked_to_sound : list (val * val * event) :=
  [(speaker_config, VNull, TestClicked); (speaker_config, VNull, BoxTicked true); (speaker_config, VNull, Confirmed);
   (speaker_config, VNull, TestAnswered (Throw (Error "offline"))); (speaker_config, VNull, TestClicked)].

Lemma test_needs_consent_witness :
  length (oc_sent (card_run speaker asked_to_sound)) = 2%nat /\
  exists before c h e after, asked_to_sound = before ++ (c, h, e) :: after /\ e <> CheckClicked.
Proof.
  split; [reflexivity|].
  destruct (test_needs_consent speaker asked_to_sound (test_call speaker speaker_config))
    as (b & c & h & e & a & El & [[E _]|[_ He]]).
  - vm_compute. left.
  - vm_compute in E. discriminate E.
  - exists b, c, h, e, a. split; [exact El|]. destruct He as [[-> _]|[-> _]]; discriminate.
Defined.

Definition local_output : val := VObj [("id", VStr "local"); ("label", VStr "Local")].
Definition check_request : request :=
  Request "POST" "/api/system/health/refresh" "10.0.0.2" VUndef
    (VObj [("target", VStr "local"); ("params", VObj [("audioPlayer", VStr "rm")])]) (VObj []) (VObj []) VUndef.
Definition player_config : val := VObj [("enabled", VBool true); ("params", VObj [("audioPlayer", VStr "rm")])].

Lemma check_shows_server_witness :
  exists a, let s := foldl (card_step local_output) first_card
    [(player_config, VNull, CheckClicked); (player_config, VNull, CheckAnswered (Ok a))] in
  oc_status s = Offline /\ oc_errorMsg s = VStr "Invalid Audio Player".
Proof.
  eassert (forceRefreshHealth (L := utc) (Zd := zod_ref) (N := no_net) (Ho := quiet_host) check_request day_world =
    (Ok _, _)) as E by (vm_compute; reflexivity).
  match type of E with _ = (Ok ?r, ?w') =>
    exists (Reply (rp_status r) VNull (Ok (rp_body r)));
    destruct (check_shows_server (L := utc) (Zd := zod_ref) (N := no_net) (H := quiet_host) local_output player_config VNull
      first_card check_request r day_world w' (Reply (rp_status r) VNull (Ok (rp_body r))) false)
      as (_ & H2 & H3 & _); [done|done|done|done|reflexivity|exact E|vm_compute; reflexivity|done|done|]
  end.
  specialize (H3 eq_refl). split; [exact H2|]. vm_compute in H3 |- *. exact H3.
Defined.
