(* ===== verification/SettingsShell.v ===== *)
(** * The frame of the settings pages
      ([client/src/components/layout/SettingsLayout.jsx],
       [client/src/components/common/SaveProcessModal.jsx],
       [client/src/views/settings/AutomationSettingsView.jsx],
       [client/src/components/settings/developer/StorageManagementCard.jsx])

    The frame marks the pages with unsaved changes or ill health, saves and
    resets for all of them, shows what became of a save, and leads through the
    tour; the card of the storage saves by itself.  The library of the tour is
    reduced to whether it runs. *)
From S2P Require Import Prelude JsString JsValue Schemas SystemController.
From S2P Require Import ClientSettings.

Record shell := Shell {
  sh_sidebarOpen : bool; sh_showResetConfirm : bool; sh_notification : val; sh_showAdminTourModal : bool;
  sh_showProcessModal : bool; sh_saveResult : val;
  sh_adminTourStarted : bool; sh_touring : bool;
  sh_client : client
}.

Definition set_sidebarOpen (b : bool) (s : shell) : shell :=
  Shell b (sh_showResetConfirm s) (sh_notification s) (sh_showAdminTourModal s) (sh_showProcessModal s) (sh_saveResult s)
    (sh_adminTourStarted s) (sh_touring s) (sh_client s).
Definition set_showResetConfirm (b : bool) (s : shell) : shell :=
  Shell (sh_sidebarOpen s) b (sh_notification s) (sh_showAdminTourModal s) (sh_showProcessModal s) (sh_saveResult s)
    (sh_adminTourStarted s) (sh_touring s) (sh_client s).
Definition set_notification (v : val) (s : shell) : shell :=
  Shell (sh_sidebarOpen s) (sh_showResetConfirm s) v (sh_showAdminTourModal s) (sh_showProcessModal s) (sh_saveResult s)
    (sh_adminTourStarted s) (sh_touring s) (sh_client s).
Definition set_showAdminTourModal (b : bool) (s : shell) : shell :=
  Shell (sh_sidebarOpen s) (sh_showResetConfirm s) (sh_notification s) b (sh_showProcessModal s) (sh_saveResult s)
    (sh_adminTourStarted s) (sh_touring s) (sh_client s).
Definition set_showProcessModal (b : bool) (s : shell) : shell :=
  Shell (sh_sidebarOpen s) (sh_showResetConfirm s) (sh_notification s) (sh_showAdminTourModal s) b (sh_saveResult s)
    (sh_adminTourStarted s) (sh_touring s) (sh_client s).
Definition set_saveResult (v : val) (s : shell) : shell :=
  Shell (sh_sidebarOpen s) (sh_showResetConfirm s) (sh_notification s) (sh_showAdminTourModal s) (sh_showProcessModal s) v
    (sh_adminTourStarted s) (sh_touring s) (sh_client s).
Definition set_adminTourStarted (b : bool) (s : shell) : shell :=
  Shell (sh_sidebarOpen s) (sh_showResetConfirm s) (sh_notification s) (sh_showAdminTourModal s) (sh_showProcessModal s)
    (sh_saveResult s) b (sh_touring s) (sh_client s).
Definition set_touring (b : bool) (s : shell) : shell :=
  Shell (sh_sidebarOpen s) (sh_showResetConfirm s) (sh_notification s) (sh_showAdminTourModal s) (sh_showProcessModal s)
    (sh_saveResult s) (sh_adminTourStarted s) b (sh_client s).
Definition set_client (c : client) (s : shell) : shell :=
  Shell (sh_sidebarOpen s) (sh_showResetConfirm s) (sh_notification s) (sh_showAdminTourModal s) (sh_showProcessModal s)
    (sh_saveResult s) (sh_adminTourStarted s) (sh_touring s) c.

(** The functions of the settings, on the state of the frame *)
Definition on_client {A} (m : M client A) : M shell A := fun s =>
  let '(r, c) := m (sh_client s) in (r, set_client c s).

Definition first_shell (c : client) : shell := Shell false false VNull false false VNull false false c.

(** ** The marks of the pages *)
Inductive page := GeneralPage | PrayersPage | AutomationPage | FilesPage | CredentialsPage | DeveloperPage.
Definition navItems : list page :=
  [GeneralPage; PrayersPage; AutomationPage; FilesPage; CredentialsPage; DeveloperPage].

(** [const { triggers, outputs, ...rest } = v] *)
Definition rest_of (v : val) : val :=
  VObj (odel "outputs" (odel "triggers" (props v))).

Definition item_dirty (item : page) (s : client) : bool :=
  match item with
  | GeneralPage => isSectionDirty "location" s || isSectionDirty "sources" s
  | PrayersPage => isSectionDirty "prayers" s || isSectionDirty "automation.triggers" s
  | AutomationPage =>
      truthy (k_config s) && truthy (k_draftConfig s) &&
      (negb (stringify_eqb (rest_of (js_or (prop (k_config s) "automation") (VObj [])))
                           (rest_of (js_or (prop (k_draftConfig s) "automation") (VObj [])))) ||
       isSectionDirty "automation.outputs" s)
  | FilesPage | CredentialsPage => false
  | DeveloperPage => isSectionDirty "data" s
  end.

Definition healthy : val := health_of [].
Definition offline_issue (type : string) : val := VObj [("type", VStr type)].

Definition source_issues (s : client) : list val :=
  let systemHealth := k_systemHealth s in
  (if truthy (prop systemHealth "primarySource") && negb (truthy (prop (prop systemHealth "primarySource") "healthy"))
   then [offline_issue "Primary Source Offline"] else []) ++
  (if truthy (prop (prop (prop (k_config s) "sources") "backup") "enabled") &&
      truthy (prop systemHealth "backupSource") && negb (truthy (prop (prop systemHealth "backupSource") "healthy"))
   then [offline_issue "Backup Source Offline"] else []).

Definition output_offline (s : client) (entry : string * val) : bool :=
  truthy (prop entry.2 "enabled") && truthy (prop (k_systemHealth s) entry.1) &&
  negb (truthy (prop (prop (k_systemHealth s) entry.1) "healthy")).
Definition draft_outputs (s : client) : list (string * val) :=
  props (js_or (prop (prop (k_draftConfig s) "automation") "outputs") (VObj [])).

Definition getItemHealth (item : page) (s : client) : result val :=
  match item with
  | GeneralPage => Ok (health_of (source_issues s))
  | PrayersPage => getSectionHealth s "automation.triggers"
  | AutomationPage =>
      Ok (health_of ((fun entry => offline_issue (entry.1 +:+ " Offline")) <$>
                       filter (fun entry => output_offline s entry = true) (draft_outputs s)))
  | _ => Ok healthy
  end.

(** The mark of a tab of the automation page *)
Definition getTabHealth (tabId : string) (s : client) : bool :=
  if negb (truthy (k_systemHealth s)) || negb (truthy (k_draftConfig s)) then true else
  if String.eqb tabId "outputs" then negb (existsb (output_offline s) (draft_outputs s)) else true.

(** ** The controls of the header *)
Definition isGlobalSaveVisible (pathname : string) : bool :=
  negb (existsb (fun path => includes path pathname)
          ["/settings/credentials"; "/settings/files"; "/settings/developer"]).
Definition can_save (s : client) : bool := hasUnsavedChanges s && negb (k_saving s).
Definition can_discard (s : client) : bool := hasUnsavedChanges s && negb (k_saving s).
Definition can_reset (s : client) : bool := negb (k_saving s).

(** ** The dialogue of a save *)
Inductive visual := Processing | Success | Warning | Failed.

Definition visualState (result : val) : visual :=
  if truthy result then
    if truthy (prop result "success") then if truthy (prop result "warning") then Warning else Success else Failed
  else Processing.

Definition dialog_title (processStatus result : val) : string :=
  match visualState result with
  | Processing => show (js_or processStatus (VStr "Saving Configuration..."))
  | Success => "Configuration Saved"
  | Warning => "Saved with Warnings"
  | Failed => "Configuration Not Saved"
  end.

(** [result.warningsList], or the one message *)
Definition dialog_items (result : val) : list val :=
  if truthy (prop result "warning") || truthy (prop result "error") then
    match prop result "warningsList" with
    | VArr (x :: l) => x :: l
    | _ => [js_or (prop result "error") (js_or (prop result "warning") (VStr "Unknown Issue"))]
    end
  else [].

Definition closable (result : val) : bool := match visualState result with Processing => false | _ => true end.

(** ** The handlers of the frame *)
Definition notice_of (type : string) (message : val) : val := VObj [("type", VStr type); ("message", message)].

(** What the settings give as [validateBeforeSave] *)
Definition validateBeforeSave : val := VObj [("success", VBool true)].

Section handlers.
Context `{B : Backend} `{R : Regex} `{Z1 : Intl}.

Definition handleGlobalSave : M shell unit :=
  if negb (truthy (prop validateBeforeSave "success"))
  then modify (set_notification (notice_of "error" (prop validateBeforeSave "error"))) else
  modify (set_showProcessModal true) ;;
  modify (set_saveResult VNull) ;;
  result ← on_client (saveSettings None);
  modify (set_saveResult result).

Definition handleGlobalReset : M shell unit :=
  result ← on_client resetToDefaults;
  success ← lift (get result "success");
  modify (set_notification
    (if truthy success then notice_of "success" (VStr "Factory defaults restored.")
     else notice_of "error" (VStr ("Reset failed: " +:+ show (prop result "error"))))).

Definition leave : M shell unit := on_client resetDraft ;; modify (set_touring false).

(** *** The tour *)
Definition refresh : M client unit := fun s => fetchSettings (k_pausedPolling s) (k_isAuthenticated s) s.
Definition tour_state (seen : bool) : M client reply :=
  fetch "PATCH" "/api/settings/tour-state" (VObj [("adminSeen", VBool seen)]).

(** The effect of [config] *)
Definition watch_tour : shell -> shell := fun s =>
  let tours := prop (prop (k_config (sh_client s)) "system") "tours" in
  if negb (truthy tours) || negb (seq (prop tours "adminSeen") (VBool false)) then s else
  if sh_adminTourStarted s then s else set_showAdminTourModal true (set_adminTourStarted true s).

Definition handleAdminTourComplete : M shell unit :=
  modify (set_touring false) ;;
  try_catch (_ ← on_client (tour_state true); on_client refresh) (fun _ => ret tt).
Definition handleStartAdminTour : M shell unit :=
  modify (set_showAdminTourModal false) ;; modify (set_touring true).
Definition handleSkipAdminTour : M shell unit :=
  try_catch (_ ← on_client (tour_state true); modify (set_showAdminTourModal false) ;; on_client refresh)
    (fun _ => modify (set_showAdminTourModal false)).
Definition handleRestartAdminTour : M shell unit :=
  modify (set_adminTourStarted false) ;;
  try_catch (_ ← on_client (tour_state false); modify (set_touring true)) (fun _ => ret tt).
End handlers.

(** ** The card of the storage *)
Record storage_card := StorageCard {
  so_storage : val; so_loading : bool; so_saving : bool; so_feedback : val; so_limit : val;
  so_client : client
}.

Definition set_storage (v : val) (s : storage_card) : storage_card :=
  StorageCard v (so_loading s) (so_saving s) (so_feedback s) (so_limit s) (so_client s).
Definition set_storage_loading (b : bool) (s : storage_card) : storage_card :=
  StorageCard (so_storage s) b (so_saving s) (so_feedback s) (so_limit s) (so_client s).
Definition set_storage_saving (b : bool) (s : storage_card) : storage_card :=
  StorageCard (so_storage s) (so_loading s) b (so_feedback s) (so_limit s) (so_client s).
Definition set_feedback (v : val) (s : storage_card) : storage_card :=
  StorageCard (so_storage s) (so_loading s) (so_saving s) v (so_limit s) (so_client s).
Definition set_limit (v : val) (s : storage_card) : storage_card :=
  StorageCard (so_storage s) (so_loading s) (so_saving s) (so_feedback s) v (so_client s).
Definition set_storage_client (c : client) (s : storage_card) : storage_card :=
  StorageCard (so_storage s) (so_loading s) (so_saving s) (so_feedback s) (so_limit s) c.
Definition on_settings {A} (m : M client A) : M storage_card A := fun s =>
  let '(r, c) := m (so_client s) in (r, set_storage_client c s).

Definition stored_limit (config : val) : val := prop (prop config "data") "storageLimit".
Definition first_storage_card (c : client) : storage_card :=
  StorageCard VNull true false VNull (js_or (stored_limit (k_config c)) (VInt 1)) c.

(** The effect of [config.data.storageLimit] *)
Definition follow_limit : storage_card -> storage_card := fun s =>
  let limit := stored_limit (k_config (so_client s)) in
  if is_undef limit then s else set_limit limit s.

Definition parsed_limit (limit : val) : option Q :=
  match parseFloat limit with NFin q => if Qle_bool (1 # 10) q then Some q else None | _ => None end.

(** The configuration the button of the card saves *)
Definition limited (q : Q) (config : val) : result val :=
  nextConfig ← deep_clone config;
  nextConfig ← (if truthy (prop nextConfig "data") then Ok nextConfig else put nextConfig "data" (VObj []));
  data ← put (prop nextConfig "data") "storageLimit" (VNum q);
  put nextConfig "data" data.

(** [parseFloat(limit) === config?.data?.storageLimit] *)
Definition unchanged_limit (s : storage_card) : bool :=
  match parseFloat (so_limit s) with
  | NFin q => seq (VNum q) (stored_limit (k_config (so_client s)))
  | _ => false
  end.
Definition can_save_limit (s : storage_card) : bool := negb (so_saving s || unchanged_limit s).

Section storage.
Context `{B : Backend} `{R : Regex} `{Z1 : Intl}.

Definition fetchStorage : M storage_card unit :=
  try_catch (
    res ← on_settings (fetch "GET" "/api/system/storage" VUndef);
    when (res_ok res) (data ← lift (a_json res); modify (set_storage data)) ;;
    modify (set_storage_loading false)) (fun _ => ret tt).

Definition handleSave : M storage_card unit :=
  modify (set_storage_saving true) ;; modify (set_feedback VNull) ;;
  try_finally (try_catch (
    s ← getw;
    match parsed_limit (so_limit s) with
    | None => modify (set_feedback (notice_of "error" (VStr "Invalid limit")))
    | Some parsedLimit =>
        nextConfig ← lift (limited parsedLimit (js_or (k_draftConfig (so_client s)) (k_config (so_client s))));
        on_settings (updateSetting "data.storageLimit" (VNum parsedLimit)) ;;
        result ← on_settings (saveSettings (Some nextConfig));
        if truthy result && truthy (prop result "success")
        then modify (set_feedback (notice_of "success" (VStr "Limit updated"))) ;; fetchStorage
        else modify (set_feedback (notice_of "error" (js_or (prop result "error") (VStr "Save failed"))))
    end)
    (fun _ => modify (set_feedback (notice_of "error" (VStr "Connection Error"))))) (set_storage_saving false).
End storage.

(** The bar: how full the quota is, in percent *)
Definition percentUsed (used limit : Q) : Q :=
  let p := (used / limit * 100)%Q in if Qle_bool p 100 then p else 100%Q.
Inductive bar := Calm | Warm | Full.
Definition barColor (percent : Q) : bar :=
  if negb (Qle_bool percent 90) then Full else if negb (Qle_bool percent 75) then Warm else Calm.

(** ** Lemmas *)
(** Two objects with the same names in the same order *)
Definition same_names (a b : val) : Prop :=
  exists o o', a = VObj o /\ b = VObj o' /\ NoDup (okeys o) /\ okeys o = okeys o'.

Lemma oget_ext o o' :
  NoDup (okeys o) -> okeys o = okeys o' -> (forall k, k ∈ okeys o -> oget k o = oget k o') -> o = o'.
Proof.
  revert o'. induction o as [|[k x] o IH]; intros [|[k' x'] o'] Hnd Ek H; try done.
  cbn in Ek. injection Ek as <- Ek. apply NoDup_cons in Hnd as [Hn Hnd].
  pose proof (H k ltac:(left)) as Hx. cbn in Hx. rewrite String.eqb_refl in Hx. subst x'. f_equal.
  apply IH; [done|done|]. intros q Hq. specialize (H q ltac:(by right)). cbn in H.
  destruct (String.eqb_spec q k) as [E|]; [by rewrite E in Hq|done].
Qed.

Lemma same_names_ext a b : same_names a b -> (forall k, prop a k = prop b k) -> a = b.
Proof.
  intros (o & o' & -> & -> & Hnd & Ek) H. f_equal. apply oget_ext; [done..|]. intros k _. exact (H k).
Qed.

Lemma prop_rest v k : k <> "triggers" -> k <> "outputs" -> prop (rest_of v) k = prop v k.
Proof. intros Ht Ho. unfold rest_of. cbn [prop]. rewrite !oget_odel_ne by done. by destruct v. Qed.

Lemma json_rest v : json_like v -> json_like (rest_of v).
Proof.
  intros H. unfold rest_of. assert (forall k o, Forall json_entry o -> Forall json_entry (odel k o)) as Hd.
  { intros k o. induction 1 as [|[k' x] o Hx Ho IH]; [constructor|]. cbn. destruct (String.eqb k k'); [done|by constructor]. }
  destruct v; cbn [props]; try (by apply json_obj; cbn; constructor). by apply json_obj, Hd, Hd, json_obj.
Qed.

Lemma section_dirty path s :
  json_like (k_config s) -> json_like (k_draftConfig s) ->
  truthy (k_config s) = true -> truthy (k_draftConfig s) = true ->
  isSectionDirty path s = false <-> getVal (k_config s) path = getVal (k_draftConfig s) path.
Proof.
  intros Hc Hd Tc Td. unfold isSectionDirty. rewrite Tc, Td, !getVal_walk. cbn [andb].
  assert (forall l v, json_like v -> json_like (walk l v)) as Hw.
  { induction l as [|k l IH]; intros v Hv; [done|]. apply IH. by apply json_prop. }
  rewrite <- (stringify_same _ _ (Hw _ _ Hc) (Hw _ _ Hd)). by destruct (stringify_eqb _ _).
Qed.

(** What the pages of the settings edit *)
Definition edited_sections : list string := ["location"; "sources"; "prayers"; "automation"; "data"].

(** C39: The marks of the pages account for the changes.  Whenever the draft and
    the configuration have the same names, and differ in what the pages edit at
    most, the button of the header offers a save exactly when some page is
    marked as changed. *)
Theorem marks_account_for_changes s :
  json_like (k_config s) -> json_like (k_draftConfig s) ->
  same_names (k_config s) (k_draftConfig s) ->
  same_names (prop (k_config s) "automation") (prop (k_draftConfig s) "automation") ->
  (forall k, k ∉ edited_sections -> prop (k_config s) k = prop (k_draftConfig s) k) ->
  hasUnsavedChanges s = existsb (fun item => item_dirty item s) navItems.
Proof.
  intros Hc Hd Hsame Hauto Hrest.
  assert (truthy (k_config s) = true /\ truthy (k_draftConfig s) = true) as [Tc Td]
    by (by destruct Hsame as (? & ? & -> & -> & _)).
  assert (truthy (prop (k_config s) "automation") = true /\ truthy (prop (k_draftConfig s) "automation") = true) as [Ta Tb]
    by (by destruct Hauto as (? & ? & -> & -> & _)).
  unfold hasUnsavedChanges. rewrite Tc, Td. cbn [andb].
  destruct (stringify_eqb (k_config s) (k_draftConfig s)) eqn:E; symmetry.
  - apply stringify_same in E; [|done..]. cbn [existsb navItems item_dirty]. unfold isSectionDirty. rewrite E, !Td. cbn [andb].
    assert (forall v, stringify_eqb v v = true) as Hr by (intros; unfold stringify_eqb; by apply val_eqb_eq).
    by rewrite !Hr.
  - apply not_false_iff_true. intros Hno. cbn [existsb navItems item_dirty] in Hno. unfold js_or in Hno. rewrite Tc, Td, Ta, Tb in Hno.
    cbn [andb] in Hno. rewrite !orb_false_iff, negb_false_iff in Hno.
    destruct Hno as ((H1 & H2) & (H3 & H4) & (H5 & H6) & _ & _ & H7 & _).
    rewrite section_dirty, !getVal_walk in H1, H2, H3, H4, H6, H7 by done.
    apply stringify_same in H5; [|by apply json_rest, json_prop..].
    assert (k_config s = k_draftConfig s) as Heq; [|by rewrite (proj2 (stringify_same _ _ Hc Hd)) in E].
    apply same_names_ext; [done|]. intros k. destruct (decide (k ∈ edited_sections)) as [Hk|Hk]; [|by apply Hrest].
    assert (prop (k_config s) "automation" = prop (k_draftConfig s) "automation") as H8.
    { apply same_names_ext; [done|]. intros q.
      destruct (decide (q = "triggers")) as [->|Ht]; [exact H4|]. destruct (decide (q = "outputs")) as [->|Ho]; [exact H6|].
      rewrite <- (prop_rest (prop (k_config s) "automation") q Ht Ho), H5. by apply prop_rest. }
    unfold edited_sections in Hk. repeat (apply elem_of_cons in Hk as [-> |Hk]; [done|]). by apply elem_of_nil in Hk.
Qed.

(** ** Lemmas: the reports of a save *)
Definition report (v : val) : Prop := exists b, prop v "success" = VBool b.

Section saves.
Context `{B : Backend} `{R : Regex} `{Z1 : Intl}.

Lemma report_failure x : report (failure x).
Proof. by exists false. Qed.

Lemma report_validation what : report (validation_error what).
Proof. by exists false. Qed.

Lemma check_location_reports cfg e : check_location cfg = Ok (Some e) -> report e.
Proof. unfold check_location. mcases; intros; simplify_eq; apply report_validation. Qed.

Lemma check_source_reports ps ss role e : check_source ps ss role = Ok (Some e) -> report e.
Proof.
  unfold check_source. destruct (_ || _); [done|]. intros H.
  repeat (apply result_bind_inv in H as (? & _ & H)). case_match; [|done]. injection H as <-. apply report_failure.
Qed.

Lemma check_sources_reports ps cfg e : check_sources ps cfg = Ok (Some e) -> report e.
Proof.
  unfold check_sources. destruct (negb _); [done|]. intros H. apply result_bind_inv in H as ([e'|] & H1 & H).
  - injection H as <-. by eapply check_source_reports.
  - by eapply check_source_reports.
Qed.

Definition always_reports (m : M client val) : Prop := forall s v s', m s = (Ok v, s') -> report v.

Lemma post_update_reporting cfg : always_reports (post_update cfg).
Proof.
  intros s v s'. unfold post_update. munfold. rewrite fetch_run. intros E.
  repeat (case_match; simplify_eq/=); try apply report_failure; by eexists.
Qed.

Lemma save_checked_reporting providers cfg : always_reports (save_checked providers cfg).
Proof.
  intros s v s'. unfold save_checked. munfold.
  destruct (check_location cfg) as [[e|]|e] eqn:E1; [intros [= <- _]; by eapply check_location_reports| |done].
  destruct (check_sources providers cfg) as [[e|]|e] eqn:E2; [intros [= <- _]; by eapply check_sources_reports| |done].
  destruct (check_triggers _ s) as [[[|w l]|e] s1]; [apply post_update_reporting|intros [= <- _]; by exists false|done].
Qed.

Lemma saveSettings_reporting o : always_reports (saveSettings o).
Proof.
  intros s v s'. unfold saveSettings. munfold. destruct (deep_clone _) as [cfg|e]; [|intros [= <- _]; apply report_failure].
  destruct (negb (truthy cfg)); [intros [= <- _]; apply report_failure|].
  destruct (save_checked _ cfg _) as [[x|e] s1] eqn:E; intros [= <- _]; [by eapply save_checked_reporting|apply report_failure].
Qed.

Lemma visual_report v b : prop v "success" = VBool b ->
  visualState v = if b then if truthy (prop v "warning") then Warning else Success else Failed.
Proof. intros H. unfold visualState. rewrite H. assert (truthy v = true) as -> by (by destruct v). by destruct b. Qed.

(** C31: The dialogue of a save comes to an end, and a good one is true.  However
    the server answers or fails to, the button of the header ends with a dialogue
    that can be closed and the page ready to save again.  Where it says saved,
    with warnings or without, a checked copy of the draft was sent last, it is
    now the configuration of the page, and there are no unsaved changes. *)
Theorem save_dialog_settles s r s' :
  handleGlobalSave s = (r, s') ->
  r = Ok tt /\ sh_showProcessModal s' = true /\ closable (sh_saveResult s') = true /\ k_saving (sh_client s') = false /\
  match visualState (sh_saveResult s') with
  | Processing => False
  | Success | Warning =>
      exists cfg lc, deep_clone (k_draftConfig (sh_client s)) = Ok cfg /\
        checked (k_providers (sh_client s)) cfg (k_sent (sh_client s)) lc /\
        k_sent (sh_client s') = k_sent (sh_client s) ++ lc ++ [update_call cfg] /\
        k_config (sh_client s') = cfg /\ hasUnsavedChanges (sh_client s') = false
  | Failed =>
      (k_config (sh_client s') = k_config (sh_client s) /\ k_draftConfig (sh_client s') = k_draftConfig (sh_client s)) \/
      hasUnsavedChanges (sh_client s') = false
  end.
Proof.
  intros E. unfold handleGlobalSave, on_client in E. cbn [validateBeforeSave prop oget String.eqb Ascii.eqb Bool.eqb truthy negb] in E.
  munfold. cbn [sh_client set_saveResult set_showProcessModal] in E.
  destruct (saveSettings_run None (sh_client s)) as (v & l & H).
  assert (exists c, saveSettings None (sh_client s) = (Ok v, c)) as [c Ec].
  { destruct H as [(-> & _)|(? & ? & _ & _ & _ & _ & [[-> _]| ->])]; by eexists. }
  destruct (saveSettings_reporting _ _ _ _ Ec) as [b Hb]. rewrite Ec in E, H. injection E as <- <-.
  cbn [sh_showProcessModal sh_saveResult sh_client set_client set_saveResult set_showProcessModal].
  split; [done|]. split; [done|].
  unfold closable. rewrite (visual_report v b Hb). split; [by destruct b, (truthy (prop v "warning"))|].
  rewrite Hb in H. destruct H as [([= ->] & Hf & _)|(cfg & lc & Hc & Hk & _ & -> & [[[= ->] Hf]|[= ->]])].
  - destruct b; [done|]. split; [done|]. by left.
  - destruct b; [done|]. split; [done|]. by left.
  - split; [done|]. assert (hasUnsavedChanges (set_saving false (stored cfg (add_calls (lc ++ [update_call cfg]) (sh_client s)))) = false)
      as Hu by (by apply (unsaved_clone _ cfg)).
    destruct b; [|by right].
    destruct (truthy (prop v "warning")); exists cfg, lc; done.
Qed.
End saves.

(** ** The tour, the storage and the marks of health *)
Section others.
Context `{B : Backend} `{R : Regex} `{Z1 : Intl}.

(** The settings are fetched by one request at most. *)
Lemma sends_refresh (P : call -> Prop) :
  P (Call "GET" "/api/settings" VUndef) -> P (Call "GET" "/api/settings/public" VUndef) -> sends k_sent P refresh.
Proof.
  intros H1 H2 s. unfold refresh. cut (forall p a, sends k_sent P (fetchSettings p a)); [intros H; apply H|].
  intros p a. unfold fetchSettings. sends_step; by apply sends_fetch.
Qed.

(** Ending the tour throws the draft away: the settings that are fetched
    afterwards replace it, with every unsaved change. *)
Theorem tour_discards_draft s res1 res2 data :
  let c := sh_client s in
  let c1 := Call "PATCH" "/api/settings/tour-state" (VObj [("adminSeen", VBool true)]) in
  let c2 := Call "GET" (if k_isAuthenticated c then "/api/settings" else "/api/settings/public") VUndef in
  k_pausedPolling c = false ->
  backend (k_sent c) c1 = Ok res1 ->
  backend (k_sent c ++ [c1]) c2 = Ok res2 -> res_ok res2 = true -> a_json res2 = Ok data -> data <> VUndef ->
  exists s', handleAdminTourComplete s = (Ok tt, s') /\ sh_touring s' = false /\
    k_config (sh_client s') = data /\ k_draftConfig (sh_client s') = json_clone data.
Proof.
  intros c c1 c2 Hp E1 E2 Ho Ej Hd. unfold handleAdminTourComplete, on_client, tour_state, refresh. munfold. rewrite fetch_run.
  cbn [sh_client set_touring]. fold c c1. rewrite E1. cbn [sh_client set_client].
  change (k_pausedPolling (add_calls [c1] c)) with (k_pausedPolling c). rewrite Hp.
  destruct (fetchSettings_replaces (k_isAuthenticated c) (add_calls [c1] c) res2 data E2 Ho Ej Hd) as (c' & Ec & H).
  change (k_isAuthenticated (add_calls [c1] c)) with (k_isAuthenticated c). rewrite Ec. by eexists.
Qed.

Lemma limited_props q config next :
  limited q config = Ok next ->
  is_array (prop (json_clone config) "data") = false ->
  stored_limit next = VNum q /\ (forall k, k <> "data" -> prop next k = prop (json_clone config) k).
Proof.
  unfold limited, deep_clone. destruct (is_undef config); [done|]. cbn [mbind result_bind]. intros H Ha.
  set (c := json_clone config) in *.
  assert (exists c1, (if truthy (prop c "data") then Ok c else put c "data" (VObj [])) = Ok c1 /\
    is_array (prop c1 "data") = false /\ (forall k, k <> "data" -> prop c1 k = prop c k) /\
    (d ← put (prop c1 "data") "storageLimit" (VNum q); put c1 "data" d) = Ok next) as (c1 & _ & Hc1 & Hk & H1).
  { destruct (truthy (prop c "data")) eqn:Et.
    - exists c. done.
    - destruct (put c "data" (VObj [])) as [c1|] eqn:Ep; [|done]. exists c1. cbn [mbind result_bind] in H.
      destruct (is_array c) eqn:Eac; [by destruct c; try done; injection Ep as <-; split_and!|].
      split; [done|]. split; [by rewrite (put_ok _ _ _ _ Ep Eac)|]. split; [|done].
      intros k Hk. by apply (put_other _ _ _ _ _ Ep). }
  destruct (put (prop c1 "data") _ _) as [d|] eqn:Ed; [|done]. cbn [mbind result_bind] in H1.
  assert (is_array c1 = false) as Ha1 by (destruct c1; try done; by injection H1 as <-).
  unfold stored_limit. rewrite (put_ok _ _ _ _ H1 Ha1). split; [by apply (put_ok _ _ _ _ Ed)|].
  intros k Hne. rewrite (put_other _ _ _ _ _ H1) by done. by apply Hk.
Qed.

Lemma fetchStorage_run s : exists storage loading c, fetchStorage s =
  (Ok tt, StorageCard storage loading (so_saving s) (so_feedback s) (so_limit s) (add_calls [c] (so_client s))).
Proof.
  unfold fetchStorage, on_settings. munfold. rewrite fetch_run. unfold when.
  destruct (backend _ _) as [res|e]; [|by eexists _, _, _].
  destruct (res_ok res); [|by eexists _, _, _]. destruct (a_json res); by eexists _, _, _.
Qed.

(** The button of the storage limit stores everything.  When it reports
    success, the configuration now in force is the whole draft, with whatever
    else had been edited and not been saved, and the new limit. *)
Theorem limit_save_stores_draft q s r s' :
  let draft := json_clone (k_draftConfig (so_client s)) in
  parsed_limit (so_limit s) = Some q -> truthy (k_draftConfig (so_client s)) = true ->
  is_array (prop draft "data") = false -> prop draft "nativeEvent" = VUndef ->
  handleSave s = (r, s') -> seq (prop (so_feedback s') "type") (VStr "success") = true ->
  exists cfg, update_call cfg ∈ k_sent (so_client s') /\ k_config (so_client s') = cfg /\
    stored_limit cfg = VNum (Qred q) /\
    forall k, k <> "data" -> prop draft k <> VUndef -> prop cfg k = prop draft k.
Proof.
  intros draft Hq Hd Ha Hn E Hf. unfold handleSave, on_settings in E. munfold. unfold getw in E. cbn in E. rewrite Hq in E.
  unfold js_or in E. rewrite Hd in E.
  destruct (limited q _) as [next|e] eqn:El; [|by injection E as _ <-].
  destruct (limited_props _ _ _ El Ha) as [Hlim Hprops].
  destruct (updateSetting _ _ _) as [[[]|e] c1] eqn:Eu; [|by injection E as _ <-].
  destruct (saveSettings_run (Some next) c1) as (v & l & H).
  assert (truthy next = true) as Htn by (unfold stored_limit in Hlim; by destruct next).
  assert (prop next "nativeEvent" = VUndef) as Hne by (by rewrite Hprops).
  assert (chosen (Some next) c1 = next) as Hch by (unfold chosen; by rewrite Htn, Hne).
  cbn [so_client set_storage_client] in E.
  destruct H as [(Er & Hv & _)|(cfg & lc & Hc & _ & _ & -> & [[Er Hv]|Er])]; rewrite Er in E.
  1,2: destruct (saveSettings_reporting _ _ _ _ Er) as [b Hb]; rewrite Hb in *; destruct b; [done|]; rewrite andb_false_r in E; by injection E as _ <-.
  rewrite Hch in Hc. unfold deep_clone in Hc. destruct (is_undef next); [done|]. injection Hc as <-.
  assert (k_config (so_client s') = json_clone next /\ update_call (json_clone next) ∈ k_sent (so_client s')) as [Hcfg Hin].
  { destruct (truthy v && _) eqn:Ev; cbn in E.
    - match type of E with context [fetchStorage ?x] => destruct (fetchStorage_run x) as (st & ld & c & Ef); rewrite Ef in E end.
      injection E as _ <-. cbn. split; [done|]. set_solver.
    - injection E as _ <-. cbn. split; [done|]. set_solver. }
  exists (json_clone next). split; [done|]. split; [done|]. split.
  - unfold stored_limit in *. assert (prop next "data" <> VUndef) as Hnd by (intros Hu; by rewrite Hu in Hlim).
    by rewrite prop_json_clone, prop_json_clone, Hlim by (by rewrite ?Hlim).
  - intros k Hk Hu. rewrite prop_json_clone by (by rewrite Hprops). rewrite Hprops by done.
    apply json_prop. apply json_clone_idem.
Qed.

(** The mark of the automation page and the one of its tab of outputs agree. *)
Theorem output_marks_agree s h :
  truthy (k_systemHealth s) = true -> truthy (k_draftConfig s) = true ->
  getItemHealth AutomationPage s = Ok h -> prop h "healthy" = VBool (getTabHealth "outputs" s).
Proof.
  intros Hs Hd [= <-]. unfold getTabHealth. rewrite Hs, Hd. cbn [negb orb String.eqb Ascii.eqb Bool.eqb].
  unfold health_of. cbn [prop oget String.eqb Ascii.eqb Bool.eqb]. f_equal. rewrite length_fmap.
  induction (draft_outputs s) as [|e l IH]; [done|]. cbn [existsb]. rewrite filter_cons.
  destruct (output_offline s e) eqn:E; [by rewrite decide_True|]. by rewrite decide_False by congruence.
Qed.
End others.

(** ** The frame at work *)
Definition loaded_page : client :=
  Client sample_config sample_config health false false false (VArr []) false VNull (VArr []) false true [].
Definition edited_page : client := (updateSetting "prayers.fajr.iqamahOffset" (VInt 20) loaded_page).2.

Lemma marks_account_for_changes_witness :
  hasUnsavedChanges edited_page = true /\ existsb (fun item => item_dirty item edited_page) navItems = true.
Proof.
  assert (hasUnsavedChanges edited_page = existsb (fun item => item_dirty item edited_page) navItems) as H.
  { apply marks_account_for_changes.
    - vm_compute. reflexivity.
    - vm_compute. reflexivity.
    - eexists _, _. split; [vm_compute; reflexivity|]. split; [vm_compute; reflexivity|].
      split; [|done]. apply (bool_decide_unpack _). vm_compute. exact I.
    - eexists _, _. split; [vm_compute; reflexivity|]. split; [vm_compute; reflexivity|].
      split; [|done]. apply (bool_decide_unpack _). vm_compute. exact I.
    - intros k Hk. unfold edited_sections in Hk. rewrite !not_elem_of_cons in Hk.
      destruct Hk as (H1%String.eqb_neq & _ & H3%String.eqb_neq & H4%String.eqb_neq & _).
      eassert (k_draftConfig edited_page = _) as -> by (vm_compute; reflexivity).
      eassert (k_config edited_page = _) as -> by (vm_compute; reflexivity).
      cbn [prop oget]. by rewrite H1, H3, H4. }
  split; [|rewrite <- H]; vm_compute; reflexivity.
Defined.

Lemma save_dialog_settles_witness :
  let s := first_shell edited_page in
  let s' := (handleGlobalSave (B := friendly) (R := any_regex) (Z1 := any_zone) s).2 in
  visualState (sh_saveResult s') = Success /\ hasUnsavedChanges (sh_client s') = false.
Proof.
  intros s s'. assert (visualState (sh_saveResult s') = Success) as Hv by (vm_compute; reflexivity). split; [exact Hv|].
  destruct (handleGlobalSave (B := friendly) (R := any_regex) (Z1 := any_zone) s) as [r s2] eqn:E.
  destruct (save_dialog_settles (B := friendly) (R := any_regex) (Z1 := any_zone) s r s2 E) as (_ & _ & _ & _ & H).
  change s' with s2 in *. rewrite Hv in H. by destruct H as (cfg & lc & _ & _ & _ & _ & H).
Defined.
