(* ===== verification/Credentials.v ===== *)
(** * The credentials page
      ([client/src/components/settings/CredentialStrategyCard.jsx],
       [client/src/views/settings/CredentialsSettingsView.jsx],
       [client/src/components/common/PasswordInput.jsx])

    A card edits the secrets of an output, has the server sound a test with
    them, and stores them once the user says it was heard; the page also
    changes the password of the administrator.  A verification is cut at its
    request, a save runs in one piece; [sync_props] is what a render does, after
    each event and after a save. *)
From S2P Require Import Prelude JsString JsValue SystemController.
From S2P Require Import ClientSettings.

Record cred := Cred {
  cr_verifying : bool; cr_showConfirm : bool; cr_showSafetyWarning : bool; cr_result : val; cr_showResetModal : bool;
  cr_values : val; cr_verifiedOverride : val; cr_isDirty : bool; cr_saving : bool;
  cr_prevVerified : val; cr_prevInitialValues : val;
  cr_client : client
}.

Definition set_verifying (b : bool) (s : cred) : cred :=
  Cred b (cr_showConfirm s) (cr_showSafetyWarning s) (cr_result s) (cr_showResetModal s) (cr_values s)
    (cr_verifiedOverride s) (cr_isDirty s) (cr_saving s) (cr_prevVerified s) (cr_prevInitialValues s) (cr_client s).
Definition set_showConfirm (b : bool) (s : cred) : cred :=
  Cred (cr_verifying s) b (cr_showSafetyWarning s) (cr_result s) (cr_showResetModal s) (cr_values s)
    (cr_verifiedOverride s) (cr_isDirty s) (cr_saving s) (cr_prevVerified s) (cr_prevInitialValues s) (cr_client s).
Definition set_showSafetyWarning (b : bool) (s : cred) : cred :=
  Cred (cr_verifying s) (cr_showConfirm s) b (cr_result s) (cr_showResetModal s) (cr_values s)
    (cr_verifiedOverride s) (cr_isDirty s) (cr_saving s) (cr_prevVerified s) (cr_prevInitialValues s) (cr_client s).
Definition set_result (v : val) (s : cred) : cred :=
  Cred (cr_verifying s) (cr_showConfirm s) (cr_showSafetyWarning s) v (cr_showResetModal s) (cr_values s)
    (cr_verifiedOverride s) (cr_isDirty s) (cr_saving s) (cr_prevVerified s) (cr_prevInitialValues s) (cr_client s).
Definition set_showResetModal (b : bool) (s : cred) : cred :=
  Cred (cr_verifying s) (cr_showConfirm s) (cr_showSafetyWarning s) (cr_result s) b (cr_values s)
    (cr_verifiedOverride s) (cr_isDirty s) (cr_saving s) (cr_prevVerified s) (cr_prevInitialValues s) (cr_client s).
Definition set_values (v : val) (s : cred) : cred :=
  Cred (cr_verifying s) (cr_showConfirm s) (cr_showSafetyWarning s) (cr_result s) (cr_showResetModal s) v
    (cr_verifiedOverride s) (cr_isDirty s) (cr_saving s) (cr_prevVerified s) (cr_prevInitialValues s) (cr_client s).
Definition set_verifiedOverride (v : val) (s : cred) : cred :=
  Cred (cr_verifying s) (cr_showConfirm s) (cr_showSafetyWarning s) (cr_result s) (cr_showResetModal s) (cr_values s)
    v (cr_isDirty s) (cr_saving s) (cr_prevVerified s) (cr_prevInitialValues s) (cr_client s).
Definition set_isDirty (b : bool) (s : cred) : cred :=
  Cred (cr_verifying s) (cr_showConfirm s) (cr_showSafetyWarning s) (cr_result s) (cr_showResetModal s) (cr_values s)
    (cr_verifiedOverride s) b (cr_saving s) (cr_prevVerified s) (cr_prevInitialValues s) (cr_client s).
Definition set_cred_saving (b : bool) (s : cred) : cred :=
  Cred (cr_verifying s) (cr_showConfirm s) (cr_showSafetyWarning s) (cr_result s) (cr_showResetModal s) (cr_values s)
    (cr_verifiedOverride s) (cr_isDirty s) b (cr_prevVerified s) (cr_prevInitialValues s) (cr_client s).
Definition set_prevVerified (v : val) (s : cred) : cred :=
  Cred (cr_verifying s) (cr_showConfirm s) (cr_showSafetyWarning s) (cr_result s) (cr_showResetModal s) (cr_values s)
    (cr_verifiedOverride s) (cr_isDirty s) (cr_saving s) v (cr_prevInitialValues s) (cr_client s).
Definition set_prevInitialValues (v : val) (s : cred) : cred :=
  Cred (cr_verifying s) (cr_showConfirm s) (cr_showSafetyWarning s) (cr_result s) (cr_showResetModal s) (cr_values s)
    (cr_verifiedOverride s) (cr_isDirty s) (cr_saving s) (cr_prevVerified s) v (cr_client s).
Definition set_cred_client (c : client) (s : cred) : cred :=
  Cred (cr_verifying s) (cr_showConfirm s) (cr_showSafetyWarning s) (cr_result s) (cr_showResetModal s) (cr_values s)
    (cr_verifiedOverride s) (cr_isDirty s) (cr_saving s) (cr_prevVerified s) (cr_prevInitialValues s) c.
Definition on_page {A} (m : M client A) : M cred A := fun s =>
  let '(r, c) := m (cr_client s) in (r, set_cred_client c s).

Definition outcome (success : bool) (message : val) : val :=
  VObj [("success", VBool success); ("message", message)].

(** ** The page: the strategies with secrets get a card *)
Definition sensitive_some (s : val) : bool := existsb (fun p => truthy (prop p "sensitive")) (arr_of (prop s "params")).
Definition loadStrategies `{B : Backend} (strategies : val) : M client val :=
  try_catch (
    res ← fetch "GET" "/api/system/outputs/registry" VUndef;
    (if res_ok res then ret tt else throw (Error "Failed to fetch strategies")) ;;
    data ← lift (a_json res);
    match data with
    | VArr l => ret (VArr (filter (fun s => sensitive_some s = true) l))
    | _ => throw (TypeError "data.filter is not a function")
    end) (fun _ => ret strategies).

(** ** What the page hands to a card *)
Section props.
Context (strategy : val).

Definition strategy_key : string := str_of (prop strategy "id").
Definition stored_output (c : client) : val :=
  prop (prop (prop (k_config c) "automation") "outputs") strategy_key.
Definition initialValues (c : client) : val := js_or (prop (stored_output c) "params") (VObj []).
Definition verified_prop (c : client) : val := prop (stored_output c) "verified".

Definition sensitiveParams : list val :=
  filter (fun p => truthy (prop p "sensitive") = true) (arr_of (prop strategy "params")).
Definition param_key (p : val) : string := str_of (prop p "key").
Definition all_empty (values : val) : bool :=
  forallb (fun p => negb (truthy (prop values (param_key p)))) sensitiveParams.

Definition isVerified (s : cred) : bool :=
  match cr_verifiedOverride s with VNull => truthy (verified_prop (cr_client s)) | v => truthy v end.

Definition first_cred (c : client) : cred :=
  Cred false false false VNull false (initialValues c) VNull false false (verified_prop c) (initialValues c) c.

(** What is compared with the render before *)
Definition sync_props : cred -> cred := fun s =>
  let c := cr_client s in
  let s := if seq (cr_prevVerified s) (verified_prop c) then s
           else set_verifiedOverride VNull (set_prevVerified (verified_prop c) s) in
  if stringify_eqb (cr_prevInitialValues s) (initialValues c) then s
  else set_isDirty false (set_values (json_clone (initialValues c)) (set_prevInitialValues (initialValues c) s)).

(** The buttons *)
Definition can_discard_values (s : cred) : bool := cr_isDirty s && negb (cr_saving s).
Definition can_reset_values (s : cred) : bool := negb (all_empty (initialValues (cr_client s))) && negb (cr_saving s).
Definition can_verify (s : cred) : bool :=
  negb (isVerified s || cr_verifying s || all_empty (cr_values s) || cr_saving s).

(** [newValues], emptied for a reset *)
Definition emptied (values : val) : val :=
  VObj (foldl (fun o p => oset (param_key p) (VStr "") o) (ospread [] (props values)) sensitiveParams).
End props.

(** ** The handlers *)
Section handlers.
Context `{B : Backend}.

Definition env_name (strategyId key : string) : string := to_upper strategyId +:+ "_" +:+ to_upper key.

Definition store_secret (strategyId : string) (entry : string * val) : M client unit :=
  res ← updateEnvSetting (env_name strategyId entry.1) entry.2;
  if truthy (prop res "success") then ret tt
  else throw (Error (show (js_or (prop res "error") (VStr ("Failed to save " +:+ entry.1))))).

Definition mark_verified (strategyId : string) (isReset : bool) : val :=
  VObj [("automation", VObj [("outputs", VObj [(strategyId, VObj [("verified", VBool (negb isReset))])])])].

Definition handleStrategySave (strategyId : string) (secrets : val) (isReset : bool) : M client val :=
  try_catch (
    for_each (store_secret strategyId) (props secrets) ;;
    updateRes ← fetch "POST" "/api/settings/update" (mark_verified strategyId isReset);
    (if res_ok updateRes then ret tt else
       let errData := match a_json updateRes with Ok v => v | Throw _ => VObj [] end in
       message ← lift (get errData "message");
       throw (Error (show (js_or message (js_or (prop errData "error") (VStr "Failed to update verified status")))))) ;;
    _ ← refreshHealth (VStr strategyId) VUndef;
    ret (VObj [("success", VBool true)]))
    (fun e => ret (failure (VStr (e_msg e)))).

Section card.
Context (strategy : val).
Let id := strategy_key strategy.

Definition handleParamChange (key : string) (value : val) : M cred unit :=
  modify (fun s => set_values (VObj (ospread (props (cr_values s)) [(key, value)])) s) ;;
  modify (set_isDirty true) ;; modify (set_verifiedOverride (VBool false)) ;; modify (set_result VNull).

Definition handleDiscard : M cred unit :=
  modify (fun s => set_values (initialValues strategy (cr_client s)) s) ;;
  modify (set_isDirty false) ;; modify (set_verifiedOverride VNull) ;; modify (set_result VNull).

(** A save through the page; the card is rendered with what it fetched before it goes on. *)
Definition awaited_save (values : val) (isReset : bool) : M cred val :=
  res ← on_page (handleStrategySave id values isReset); modify (sync_props strategy) ;; ret res.

Definition confirmReset : M cred unit :=
  modify (set_showResetModal false) ;;
  values ← gets cr_values;
  let newValues := emptied strategy values in
  modify (set_values newValues) ;; modify (set_isDirty true) ;; modify (set_cred_saving true) ;;
  try_finally (try_catch (
    _ ← awaited_save newValues true;
    modify (set_verifiedOverride (VBool false)) ;;
    modify (set_result (outcome true (VStr "Credentials Cleared"))))
    (fun e => modify (set_result (outcome false (js_or (VStr (e_msg e)) (VStr "Reset Failed"))))))
    (set_cred_saving false).

Definition verify_call (values : val) : call :=
  Call "POST" ("/api/system/outputs/" +:+ id +:+ "/verify") values.

Definition proceedWithVerification : M cred unit :=
  modify (set_showSafetyWarning false) ;; modify (set_verifying true) ;; modify (set_result VNull) ;;
  values ← gets cr_values;
  on_page (modify (log_call (verify_call values))).

Definition verificationAnswered (answer : result reply) : M cred unit :=
  try_finally (try_catch (
    res ← lift answer;
    (if res_ok res then ret tt else
       let errData := match a_json res with Ok v => v | Throw _ => VObj [] end in
       message ← lift (get errData "message");
       throw (Error (show (js_or message (js_or (prop errData "error") (VStr "Verification trigger failed")))))) ;;
    modify (set_showConfirm true))
    (fun e => modify (set_result (outcome false (VStr (e_msg e)))))) (set_verifying false).

Definition handleConfirmSuccess : M cred unit :=
  modify (set_showConfirm false) ;; modify (set_cred_saving true) ;;
  values ← gets cr_values;
  try_finally (try_catch (
    res ← awaited_save values false;
    success ← lift (get res "success");
    if truthy success
    then modify (set_verifiedOverride (VBool true)) ;; modify (set_result (outcome true (VStr "Verified & Saved")))
    else modify (set_result (outcome false (js_or (prop res "error") (VStr "Save Failed")))))
    (fun e => modify (set_result (outcome false (VStr (e_msg e)))))) (set_cred_saving false).

(** ** What the user and the server can do *)
Inductive cred_event :=
| TypeSecret (key : string) (value : val) | Discard
| ClickReset | ConfirmReset | CancelReset
| ClickVerify | Proceed | CancelProceed | VerifyAnswered (answer : result reply)
| HeardIt | NotHeard.

(** A dialogue covers the page. *)
Definition covered (s : cred) : bool := cr_showConfirm s || cr_showSafetyWarning s || cr_showResetModal s.

Definition cred_handler (e : cred_event) : M cred unit :=
  s ← getw;
  match e with
  | TypeSecret key value => when (negb (covered s)) (handleParamChange key value)
  | Discard => when (negb (covered s) && can_discard_values s) handleDiscard
  | ClickReset => when (negb (covered s) && can_reset_values strategy s) (modify (set_showResetModal true))
  | ConfirmReset => when (cr_showResetModal s) confirmReset
  | CancelReset => modify (set_showResetModal false)
  | ClickVerify => when (negb (covered s) && can_verify strategy s) (modify (set_showSafetyWarning true))
  | Proceed => when (cr_showSafetyWarning s) proceedWithVerification
  | CancelProceed => modify (set_showSafetyWarning false)
  | VerifyAnswered a => when (cr_verifying s) (verificationAnswered a)
  | HeardIt => when (cr_showConfirm s) handleConfirmSuccess
  | NotHeard => modify (set_showConfirm false)
  end.

Definition cred_step (s : cred) (e : cred_event) : cred := sync_props strategy (cred_handler e s).2.
Definition cred_run (c : client) (l : list cred_event) : cred := foldl cred_step (first_cred strategy c) l.
End card.

(** ** The password of the administrator *)
Record pw_form := PwForm { pf_newPassword : string; pf_confirmPassword : string; pf_passMsg : val; pf_leaving : bool; pf_client : client }.
Definition set_passMsg (v : val) (s : pw_form) : pw_form :=
  PwForm (pf_newPassword s) (pf_confirmPassword s) v (pf_leaving s) (pf_client s).
Definition clear_passwords (s : pw_form) : pw_form := PwForm "" "" (pf_passMsg s) (pf_leaving s) (pf_client s).
Definition leave_soon (s : pw_form) : pw_form :=
  PwForm (pf_newPassword s) (pf_confirmPassword s) (pf_passMsg s) true (pf_client s).

Definition pass_message (type : string) (text : val) : val := VObj [("type", VStr type); ("text", text)].
Definition pw_fetch (c : call) : M pw_form reply := fun s =>
  let '(r, k) := fetch (q_method c) (q_url c) (q_body c) (pf_client s) in
  (r, PwForm (pf_newPassword s) (pf_confirmPassword s) (pf_passMsg s) (pf_leaving s) k).

Definition can_change (s : pw_form) : bool :=
  negb (String.eqb (pf_newPassword s) "" || String.eqb (pf_confirmPassword s) "" ||
        (utf16_length (pf_newPassword s) <? 5)%Z).

Definition handleChangePassword : M pw_form unit :=
  modify (set_passMsg VNull) ;;
  s ← getw;
  if String.eqb (pf_newPassword s) "" then ret tt else
  if negb (String.eqb (pf_newPassword s) (pf_confirmPassword s))
  then modify (set_passMsg (pass_message "error" (VStr "Passwords do not match"))) else
  try_catch (
    res ← pw_fetch (Call "POST" "/api/auth/change-password" (VObj [("password", VStr (pf_newPassword s))]));
    data ← lift (a_json res);
    if res_ok res then
      modify (set_passMsg (pass_message "success" (VStr "Password updated. Logging out..."))) ;;
      modify clear_passwords ;; modify leave_soon
    else
      message ← lift (get data "message");
      modify (set_passMsg (pass_message "error" (js_or message (js_or (prop data "error") (VStr "Failed"))))))
    (fun e => modify (set_passMsg (pass_message "error" (VStr (e_msg e))))).
End handlers.

(** *** How strong a password is *)
Definition is_between (a b : ascii) (c : ascii) : bool :=
  (nat_of_ascii a <=? nat_of_ascii c)%nat && (nat_of_ascii c <=? nat_of_ascii b)%nat.
Definition upper_case (c : ascii) : bool := is_between "A" "Z" c.
Definition lower_case (c : ascii) : bool := is_between "a" "z" c.
Definition decimal (c : ascii) : bool := is_between "0" "9" c.
Definition some_char (f : ascii -> bool) (s : string) : bool := negb (sforall (fun c => negb (f c)) s).

Definition checks (p : string) : list bool :=
  [(8 <=? utf16_length p)%Z; some_char upper_case p; some_char lower_case p; some_char decimal p;
   some_char (fun c => negb (upper_case c || lower_case c || decimal c)) p].
Inductive strength := Weak | Medium | Strong.
Definition strength_of (p : string) : strength :=
  let passedCount := length (filter (fun b => b = true) (checks p)) in
  if (passedCount <=? 2)%nat then Weak else if (passedCount <? 5)%nat then Medium else Strong.

(** ** Lemmas *)
Section lemmas.
Context `{B : Backend} (strategy : val).

Definition env_post (q : call) : Prop := q_url q = "/api/settings/env".

(** What matters: the requests that store secrets, and the question being asked *)
Definition stores (s : cred) : list call := filter env_post (k_sent (cr_client s)).

Lemma stores_render s : stores (sync_props strategy s) = stores s /\ cr_showConfirm (sync_props strategy s) = cr_showConfirm s.
Proof.
  unfold sync_props. cbv zeta. destruct (seq _ _); destruct (stringify_eqb _ _); done.
Qed.

Lemma keeps_confirm_save id values reset : keeps cr_showConfirm (on_page (handleStrategySave id values reset)).
Proof. intros s. unfold on_page. by destruct (handleStrategySave _ _ _ _). Qed.
Lemma keeps_confirm_render : keeps cr_showConfirm (modify (sync_props strategy)).
Proof. intros s. apply stores_render. Qed.

Lemma strategy_save_ok id values reset k : exists x, (handleStrategySave id values reset k).1 = Ok x.
Proof.
  unfold handleStrategySave, try_catch.
  match goal with |- context [match ?m with _ => _ end] => destruct m as [[x|e] k'] end; by eexists.
Qed.

Lemma awaited_save_ok values reset s : exists x, (awaited_save strategy values reset s).1 = Ok x.
Proof.
  unfold awaited_save, on_page. munfold. destruct (strategy_save_ok (strategy_key strategy) values reset (cr_client s)) as [x Hx].
  destruct (handleStrategySave _ _ _ _) as [r k]. cbn in Hx. subst. by exists x.
Qed.

Definition quiet_event (e : cred_event) : Prop := match e with ConfirmReset | HeardIt => False | _ => True end.

Lemma keeps_stores e : quiet_event e -> keeps stores (cred_handler strategy e).
Proof.
  intros Hq. unfold cred_handler. apply keeps_bind; [done|]. intros s.
  destruct e; try done; unfold handleParamChange, handleDiscard, verificationAnswered, proceedWithVerification;
    keeps_step; try done; try (by apply keeps_modify).
  all: unfold stores, on_page, modify; cbn [snd cr_client set_cred_client]; unfold log_call; cbn [k_sent].
  all: intros w; cbn [snd cr_client set_cred_client k_sent]; rewrite filter_app, filter_cons_False, filter_nil, app_nil_r; [done|].
  all: unfold env_post, verify_call; cbn [q_url]; discriminate.
Qed.

Lemma keeps_question e :
  match e with VerifyAnswered _ | HeardIt | NotHeard => False | _ => True end -> keeps cr_showConfirm (cred_handler strategy e).
Proof.
  intros Hq. unfold cred_handler. apply keeps_bind; [done|]. intros s.
  destruct e; try done; unfold handleParamChange, handleDiscard, proceedWithVerification, confirmReset; keeps_step; try done;
    solve [by apply keeps_modify | apply keeps_confirm_save | apply keeps_confirm_render].
Qed.

Lemma question_after_answer a s :
  cr_showConfirm (cred_handler strategy (VerifyAnswered a) s).2 = true ->
  cr_showConfirm s = true \/ (cr_verifying s = true /\ exists res, a = Ok res /\ res_ok res = true).
Proof.
  unfold cred_handler, verificationAnswered. munfold. unfold getw, when. destruct (cr_verifying s); [|by left].
  destruct a as [res|e]; cbn; [|by left]. destruct (res_ok res) eqn:E; [by right; split; [done|exists res]|].
  destruct (a_json res) as [d|]; [destruct (get d "message")|]; by left.
Qed.

Lemma cred_run_snoc c l e : cred_run strategy c (l ++ [e]) = cred_step strategy (cred_run strategy c l) e.
Proof. unfold cred_run. by rewrite foldl_app. Qed.

Definition tested (l : list cred_event) : Prop := exists res, VerifyAnswered (Ok res) ∈ l /\ res_ok res = true.

Lemma question_tested c l : cr_showConfirm (cred_run strategy c l) = true -> tested l.
Proof.
  induction l as [|e l IH] using rev_ind; [done|]. rewrite cred_run_snoc. unfold cred_step.
  rewrite (proj2 (stores_render _)). intros H.
  assert (cr_showConfirm (cred_run strategy c l) = true -> tested (l ++ [e])) as Hold.
  { intros Ho. destruct (IH Ho) as (res & Hin & Hr). exists res. split; [by apply elem_of_app; left|done]. }
  assert (match e with VerifyAnswered _ | HeardIt | NotHeard => False | _ => True end -> tested (l ++ [e])) as Hother
    by (intros Hq; rewrite (keeps_question e Hq) in H; by apply Hold).
  destruct e as [| | | | | | | |a| |]; try (by apply Hother).
  - apply question_after_answer in H as [H|(_ & res & -> & Hr)]; [by apply Hold|].
    exists res. split; [by apply elem_of_app; right; left|done].
  - apply Hold. unfold cred_handler in H. cbn in H. unfold getw, when in H. munfold.
    destruct (cr_showConfirm (cred_run strategy c l)) eqn:Eo; [done|]. cbn in H. by rewrite Eo in H.
Qed.

(** C34: Secrets are stored on the user's word.  Every secret a card ever sends to
    be stored was sent either when the user confirmed to clear the credentials,
    or when, after a test the server accepted, the user said it was heard. *)
Theorem secrets_need_test c l q :
  q ∈ k_sent (cr_client (cred_run strategy c l)) -> q ∉ k_sent c -> env_post q ->
  exists before e after, l = before ++ e :: after /\
    ((e = ConfirmReset /\ cr_showResetModal (cred_run strategy c before) = true) \/ (e = HeardIt /\ tested before)).
Proof.
  intros Hq Hc Hp. assert (q ∈ stores (cred_run strategy c l)) as Hin by (by apply list_elem_of_filter).
  clear Hq. induction l as [|e l IH] using rev_ind; [by apply list_elem_of_filter in Hin as [_ Hin]|].
  rewrite cred_run_snoc in Hin. unfold cred_step in Hin. rewrite (proj1 (stores_render _)) in Hin.
  assert (q ∈ stores (cred_run strategy c l) -> exists before e' after, l ++ [e] = before ++ e' :: after /\
    ((e' = ConfirmReset /\ cr_showResetModal (cred_run strategy c before) = true) \/ (e' = HeardIt /\ tested before))) as Hold.
  { intros H. destruct (IH H) as (b & e' & a & -> & H'). exists b, e', (a ++ [e]). by rewrite <- app_assoc. }
  assert (quiet_event e -> q ∈ stores (cred_run strategy c l)) as Hquiet by (intros He; by rewrite (keeps_stores e He) in Hin).
  destruct e; try (by apply Hold, Hquiet).
  - destruct (cr_showResetModal (cred_run strategy c l)) eqn:Em.
    + exists l, ConfirmReset, []. split; [done|]. by left.
    + apply Hold. unfold cred_handler in Hin. munfold. unfold getw, when in Hin. by rewrite Em in Hin.
  - destruct (cr_showConfirm (cred_run strategy c l)) eqn:Em.
    + exists l, HeardIt, []. split; [done|]. right. split; [done|]. by eapply question_tested.
    + apply Hold. unfold cred_handler in Hin. munfold. unfold getw, when in Hin. by rewrite Em in Hin.
Qed.

(** Clearing reports success whatever becomes of it. *)
Theorem cleared_regardless s :
  (cred_handler strategy ConfirmReset s).1 = Ok tt /\
  (cr_showResetModal s = true -> cr_result (cred_handler strategy ConfirmReset s).2 = outcome true (VStr "Credentials Cleared")).
Proof.
  unfold cred_handler, confirmReset. munfold. unfold getw, when. destruct (cr_showResetModal s); [|done]. cbn.
  match goal with |- context [awaited_save _ ?v ?b ?k] => destruct (awaited_save_ok v b k) as [x Hx]; destruct (awaited_save _ v b k) end.
  cbn in Hx. by subst.
Qed.

(** What is typed while a test runs is stored untested: the server is asked to sound
    the values before, and the confirmation stores the values after. *)
Theorem typed_during_test s key value res :
  covered s = false -> can_verify strategy s = true -> res_ok res = true ->
  let s1 := foldl (fun s e => (cred_handler strategy e s).2) s
              [ClickVerify; Proceed; TypeSecret key value; VerifyAnswered (Ok res)] in
  k_sent (cr_client s1) = k_sent (cr_client s) ++ [verify_call strategy (cr_values s)] /\
  cr_values s1 = VObj (oset key value (props (cr_values s))) /\ cr_showConfirm s1 = true.
Proof.
  intros Hc Hv Hr. cbn [foldl].
  assert ((cred_handler strategy ClickVerify s).2 = set_showSafetyWarning true s) as ->.
  { unfold cred_handler. munfold. by rewrite Hc, Hv. }
  assert (forall s, cr_showSafetyWarning s = true -> (cred_handler strategy Proceed s).2 =
    set_cred_client (log_call (verify_call strategy (cr_values s)) (cr_client s))
      (set_result VNull (set_verifying true (set_showSafetyWarning false s)))) as Hp.
  { intros s' H. unfold cred_handler. munfold. by rewrite H. }
  assert (forall s, covered s = false -> (cred_handler strategy (TypeSecret key value) s).2 =
    set_result VNull (set_verifiedOverride (VBool false) (set_isDirty true
      (set_values (VObj (oset key value (props (cr_values s)))) s)))) as Ht.
  { intros s' H. unfold cred_handler. munfold. by rewrite H. }
  assert (forall s, cr_verifying s = true -> (cred_handler strategy (VerifyAnswered (Ok res)) s).2 =
    set_verifying false (set_showConfirm true s)) as Ha.
  { intros s' H. unfold cred_handler, verificationAnswered. munfold. rewrite H. cbv beta iota. by rewrite Hr. }
  destruct s as [? b1 b2 ? b3 ? ? ? ? ? ? ?]. destruct b1, b2, b3; try done.
  rewrite Hp by done. rewrite Ht by done. by rewrite Ha.
Qed.
End lemmas.

(** *** The password *)
Section password.
Context `{B : Backend}.

Definition pw_call (p : string) : call := Call "POST" "/api/auth/change-password" (VObj [("password", VStr p)]).

(** A password is sent only when it was typed twice the same, once per click; the
    session is left only when the server took it, and what was typed is kept otherwise. *)
Theorem password_change s :
  let s' := (handleChangePassword s).2 in
  let answer := backend (k_sent (pf_client s)) (pw_call (pf_newPassword s)) in
  let sent := negb (String.eqb (pf_newPassword s) "") && String.eqb (pf_newPassword s) (pf_confirmPassword s) in
  (handleChangePassword s).1 = Ok tt /\
  k_sent (pf_client s') = k_sent (pf_client s) ++ (if sent then [pw_call (pf_newPassword s)] else []) /\
  if sent && match answer with Ok res => res_ok res && match a_json res with Ok _ => true | _ => false end | _ => false end
  then pf_newPassword s' = "" /\ pf_confirmPassword s' = "" /\ pf_leaving s' = true
  else pf_newPassword s' = pf_newPassword s /\ pf_confirmPassword s' = pf_confirmPassword s /\ pf_leaving s' = pf_leaving s.
Proof.
  cbv zeta. unfold handleChangePassword, pw_fetch, fetch. munfold. cbn [pf_newPassword pf_confirmPassword set_passMsg fst snd].
  destruct (String.eqb (pf_newPassword s) "") eqn:E1; cbn [negb andb]; [by rewrite app_nil_r|].
  destruct (String.eqb (pf_newPassword s) (pf_confirmPassword s)) eqn:E2; cbn [negb andb]; [|cbn; by rewrite app_nil_r].
  cbn [pf_client q_method q_url q_body]. fold (pw_call (pf_newPassword s)).
  destruct (backend _ (pw_call (pf_newPassword s))) as [res|e]; [|done].
  cbv beta iota. destruct (a_json res) as [d|e]; cbv beta iota; [|by rewrite andb_false_r].
  rewrite andb_true_r. destruct (res_ok res); [done|]. by destruct (get d "message").
Qed.
End password.

(** Strong means that no check failed. *)
Lemma strong_exact p : strength_of p = Strong <-> forallb id (checks p) = true.
Proof. unfold strength_of. destruct (checks p) as [|[] [|[] [|[] [|[] [|[] [|]]]]]] eqn:E; try done; by unfold checks in E. Qed.

(** ** A card at work *)
Section at_work.
Definition monkey : val :=
  let p k := VObj [("key", VStr k); ("sensitive", VBool true)] in
  VObj [("id", VStr "voicemonkey"); ("params", VArr [p "token"; p "device"])].
Definition masked_config : val :=
  VObj [("automation", VObj [("outputs", VObj [("voicemonkey",
    VObj [("params", VObj [("token", VStr "********"); ("device", VStr "********")])])])])].
Definition credentials_page : client :=
  Client masked_config masked_config (VObj []) false false false (VArr []) false VNull (VArr []) false true [].
Definition accepted : reply := Reply 200 VNull (Ok (VObj [("success", VBool true)])).
Definition accepting : Backend := fun _ q =>
  Ok (if String.eqb (q_url q) "/api/settings" then Reply 200 VNull (Ok masked_config) else accepted).
Definition new_token : list cred_event :=
  [TypeSecret "token" (VStr "t2"); ClickVerify; Proceed; VerifyAnswered (Ok accepted); HeardIt].
Definition env_call (name value : string) : call :=
  Call "POST" "/api/settings/env" (VObj [("key", VStr name); ("value", VStr value)]).

Lemma secrets_need_test_witness :
  exists before after, new_token = before ++ HeardIt :: after /\ tested before.
Proof.
  destruct (secrets_need_test (B := accepting) monkey credentials_page new_token (env_call "VOICEMONKEY_TOKEN" "t2"))
    as (b & e & a & El & [[-> _]|[-> Ht]]).
  - vm_compute. right. left.
  - apply not_elem_of_nil.
  - reflexivity.
  - exfalso. assert (ConfirmReset ∈ new_token) as Hin by (rewrite El; apply elem_of_app; right; left).
    unfold new_token in Hin. set_solver.
  - exists b, a. by split.
Defined.

(** Only the token was typed, and the mask shown for the other secret is stored as its value. *)
Theorem masks_are_stored :
  In (env_call "VOICEMONKEY_DEVICE" "********") (k_sent (cr_client (cred_run (B := accepting) monkey credentials_page new_token))).
Proof. vm_compute. tauto. Qed.
End at_work.
