(* ===== verification/SourceSettings.v ===== *)
(** * The page of the sources
      ([client/src/views/settings/GeneralSettingsView.jsx],
       [client/src/components/settings/SourceConfigurator.jsx],
       [client/src/components/settings/DynamicField.jsx])

    The page picks the primary and the backup source of the prayer times and
    edits their parameters in the draft.  It keeps the two sources apart, gives
    a picked source the defaults of its provider, and its fields judge what is
    typed as the save does. *)
From S2P Require Import Prelude JsString JsValue Schemas Luxon LuxonUtc Zod.
From S2P Require Import Masking Providers SystemController ClientSettings IqamahCard.

(** ** A field of a parameter *)

(** What [onChange] gets for a text; a number that does not parse is left out
    ([NaN], which is no value here). *)
Definition field_value (param : val) (text : string) : option val :=
  let type := str_of (prop param "type") in
  if String.eqb type "select" then
    Some (match find (fun o => String.eqb (show (prop o "id")) text)
                     (arr_of (prop (prop param "constraints") "options")) with
          | Some o => prop o "id"
          | None => VStr text
          end)
  else if String.eqb type "number" then
    match parseFloat (VStr text) with NFin q => Some (VNum (Qred q)) | _ => None end
  else Some (VStr text).

(** [validate]: the error the field shows *)
Definition field_error `{R : Regex} (param v : val) : result val :=
  let isEmpty := is_nullish v || seq v (VStr "") in
  let constraints := prop param "constraints" in
  if truthy (prop constraints "required") && isEmpty then Ok (VStr (show (prop param "label") +:+ " is required")) else
  if truthy (prop constraints "pattern") && truthy v then
    test ← regex (show (prop constraints "pattern"));
    Ok (if negb ((test : string -> bool) (show v)) then VStr ("Invalid " +:+ show (prop param "label") +:+ " format") else VNull)
  else Ok VNull.

(** ** What the page reads of the draft *)
Definition primarySource (formData : val) : val :=
  js_or (prop (prop formData "sources") "primary") (VObj [("type", VStr "aladhan")]).
Definition backupSource (formData : val) : val := js_or (prop (prop formData "sources") "backup") VNull.
(** [backupEnabled] of the page: the switch is on. *)
Definition backup_shown (formData : val) : bool := truthy (backupSource formData).

Section sources.
Context (providers : list val).

Definition source_meta (source : val) : val := provider_with providers (prop source "type").
Definition activeProvider (source : val) : val :=
  provider_with providers (js_or (prop source "type") (VStr "aladhan")).
Definition parameters (provider : val) : list val := arr_of (prop provider "parameters").
Definition shows_coordinates (formData : val) : bool :=
  truthy (prop (source_meta (primarySource formData)) "requiresCoordinates") ||
  backup_shown formData && truthy (prop (source_meta (backupSource formData)) "requiresCoordinates").

(** [providers.find((p) => p.id !== type)] *)
Definition alternativeProvider (type : val) : option val :=
  find (fun p => negb (seq (prop p "id") type)) providers.

Definition param_name (param : val) : string := str_of (prop param "key").
Definition apply_default (o : list (string * val)) (param : val) : list (string * val) :=
  if is_undef (prop param "default") then o else oset (param_name param) (prop param "default") o.
Definition with_defaults (provider : val) (o : list (string * val)) : list (string * val) :=
  foldl apply_default o (parameters provider).

(** [setSourceType]: what [onChange] gets, unless the type is disabled *)
Definition setSourceType (disabledTypes : list val) (source type : val) : option val :=
  if existsb (fun t => seq t type) disabledTypes then None else
  let newSource := with_defaults (provider_with providers type) [("type", type)] in
  Some (VObj (if is_undef (prop source "enabled") then newSource else oset "enabled" (prop source "enabled") newSource)).

Definition filteredProviders (isBackup : bool) (primarySourceType : val) : list val :=
  if isBackup then List.filter (fun p => negb (seq (prop p "id") primarySourceType)) providers else providers.

Definition edit_source (source : val) (key : string) (value : val) : val := VObj (oset key value (props source)).
End sources.

(** ** The handlers *)
Definition handlePrimaryChange (newSource : val) : M client unit :=
  formData ← gets k_draftConfig; providers ← gets (fun s => arr_of (k_providers s));
  updateSetting "sources.primary" newSource ;;
  if backup_shown formData && seq (prop (backupSource formData) "type") (prop newSource "type") then
    updateSetting "sources.backup"
      (match alternativeProvider providers (prop newSource "type") with
       | Some p => edit_source (backupSource formData) "type" (prop p "id")
       | None => VNull
       end)
  else ret tt.

Definition handleBackupChange (newSource : val) : M client unit :=
  updateSetting "sources.backup" (edit_source newSource "enabled" (VBool true)).

Definition toggleBackup (enabled : bool) : M client unit :=
  formData ← gets k_draftConfig; providers ← gets (fun s => arr_of (k_providers s));
  if enabled then
    match alternativeProvider providers (prop (primarySource formData) "type") with
    | Some p =>
        updateSetting "sources.backup"
          (VObj (with_defaults p [("type", prop p "id"); ("enabled", VBool true)]))
    | None => ret tt
    end
  else updateSetting "sources.backup" VNull.

(** ** What the user can do *)
Inductive coordinate := Lat | Long.
Definition coordinate_path (c : coordinate) : string :=
  match c with Lat => "location.coordinates.lat" | Long => "location.coordinates.long" end.
(** [parseFloat(text)]; [NaN] is written as [null], and both read as no number. *)
Definition coordinate_value (text : string) : val :=
  match parseFloat (VStr text) with NFin q => VNum (Qred q) | _ => VNull end.

Inductive source_edit :=
| PickPrimary (provider : val) | EditPrimary (param : val) (text : string)
| SwitchBackup (on : bool)
| PickBackup (provider : val) | EditBackup (param : val) (text : string)
| TypeCoordinate (c : coordinate) (text : string) | TypeTimezone (text : string).

Definition among (x : val) (l : list val) : bool := existsb (val_eqb x) l.
Definition if_some {A} (o : option A) (f : A -> M client unit) : M client unit :=
  match o with Some x => f x | None => ret tt end.

(** The page is there once the draft is loaded, the choice of a source once the providers are. *)
Definition page_shown (s : client) : bool := negb (k_loading s) && truthy (k_draftConfig s).
Definition choice_shown (s : client) : bool := page_shown s && negb (k_providersLoading s).

Definition source_handler (e : source_edit) : M client unit := fun s =>
  let formData := k_draftConfig s in
  let providers := arr_of (k_providers s) in
  let primary := primarySource formData in
  let backup := backupSource formData in
  let backup_choice := choice_shown s && backup_shown formData in
  match e with
  | PickPrimary p =>
      when (choice_shown s && among p (filteredProviders providers false VUndef))
        (if_some (setSourceType providers [] primary (prop p "id")) handlePrimaryChange)
  | EditPrimary param text =>
      when (choice_shown s && among param (parameters (activeProvider providers primary)))
        (if_some (field_value param text) (fun v => handlePrimaryChange (edit_source primary (param_name param) v)))
  | SwitchBackup on => when (page_shown s) (toggleBackup on)
  | PickBackup p =>
      when (backup_choice && among p (filteredProviders providers true (prop primary "type")))
        (if_some (setSourceType providers [prop primary "type"] backup (prop p "id")) handleBackupChange)
  | EditBackup param text =>
      when (backup_choice && among param (parameters (activeProvider providers backup)))
        (if_some (field_value param text) (fun v => handleBackupChange (edit_source backup (param_name param) v)))
  | TypeCoordinate c text =>
      when (choice_shown s && shows_coordinates providers formData) (updateSetting (coordinate_path c) (coordinate_value text))
  | TypeTimezone text => when (page_shown s) (updateSetting "location.timezone" (VStr text))
  end s.

(** ** The two sources stay apart *)

(** A draft as the server sends it, with two different sources *)
Record sources_ok (d : val) : Prop := {
  so_json : json_like d;
  so_primary : exists t, prop (prop (prop d "sources") "primary") "type" = VStr t;
  so_apart : truthy (prop (prop d "sources") "backup") = true ->
    exists t, prop (prop (prop d "sources") "backup") "type" = VStr t /\
              prop (prop (prop d "sources") "primary") "type" <> VStr t
}.

(** Metadata of a provider: its type and its parameters *)
Definition param_ok (param : val) : Prop :=
  json_like param /\ param_name param <> "type" /\
  Forall (fun o => prop o "id" <> VUndef) (arr_of (prop (prop param "constraints") "options")).
Record provider_ok (p : val) : Prop := {
  pk_json : json_like p;
  pk_id : exists id, prop p "id" = VStr id;
  pk_params : Forall param_ok (parameters p)
}.

Definition with_source (role : string) (v d : val) : val :=
  VObj (oset "sources" (VObj (oset role v (props (prop d "sources")))) (props d)).

Lemma prop_obj v k : prop v k <> VUndef -> exists o, v = VObj o.
Proof. destruct v; try done. by eexists. Qed.

Definition has_sources (d : val) : Prop := json_like d /\ exists o so, d = VObj o /\ prop d "sources" = VObj so.

Lemma sources_shape d : sources_ok d -> has_sources d.
Proof.
  intros [Hj [t Ht] _]. split; [done|]. assert (prop (prop d "sources") "primary" <> VUndef) as H1 by (intros E; by rewrite E in Ht).
  destruct (prop_obj _ _ H1) as [so Hs]. assert (prop d "sources" <> VUndef) as H2 by (by rewrite Hs).
  destruct (prop_obj _ _ H2) as [o ->]. by exists o, so.
Qed.

Lemma update_source role v s :
  role = "primary" \/ role = "backup" -> has_sources (k_draftConfig s) ->
  updateSetting ("sources." +:+ role) v s = (Ok tt, set_draft (with_source role v (k_draftConfig s)) s).
Proof.
  intros Hr (Hj & o & so & Ed & Es). unfold updateSetting. rewrite Hj.
  assert (split_on "." ("sources." +:+ role) = ["sources"; role]) as -> by (by destruct Hr as [-> | ->]).
  unfold with_source. rewrite Ed in *. cbn in Es. cbn [set_at get truthy negb prop]. munfold. unfold result_bind.
  by rewrite Es.
Qed.

Lemma with_source_prop role role' v d :
  prop (prop (with_source role v d) "sources") role' =
  if String.eqb role' role then v else prop (prop d "sources") role'.
Proof.
  unfold with_source. cbn [prop]. rewrite oget_oset. cbn [prop]. destruct (String.eqb_spec role' role) as [->|Hn].
  - apply oget_oset.
  - rewrite oget_oset_ne by done. by destruct (prop d "sources").
Qed.

Lemma with_source_json role v d : json_like d -> json_value v -> json_like (with_source role v d).
Proof.
  intros Hd Hv. unfold with_source. apply json_obj, json_oset; [split; [done|]|by apply json_props].
  apply json_obj, json_oset; [done|]. by apply json_props, json_prop.
Qed.

Lemma edit_source_json source key v : json_like source -> json_value v -> json_value (edit_source source key v).
Proof. intros Hs Hv. split; [done|]. apply json_obj, json_oset; [done|]. by apply json_props. Qed.

Lemma edit_source_prop source key key' v :
  prop (edit_source source key v) key' = if String.eqb key' key then v else prop source key'.
Proof.
  unfold edit_source. cbn [prop]. destruct (String.eqb_spec key' key) as [->|Hn]; [apply oget_oset|].
  rewrite oget_oset_ne by done. by destruct source.
Qed.

(** Defaults leave the names that are no parameter, and JSON. *)
Lemma with_defaults_other p o k :
  Forall (fun param => param_name param <> k) (parameters p) -> oget k (with_defaults p o) = oget k o.
Proof.
  unfold with_defaults. intros H. revert o. induction H as [|param l Hn _ IH]; intros o; [done|]. cbn [foldl].
  rewrite IH. unfold apply_default. destruct (is_undef _); [done|]. by rewrite oget_oset_ne by congruence.
Qed.

Lemma with_defaults_json p o : Forall param_ok (parameters p) -> Forall json_entry o -> Forall json_entry (with_defaults p o).
Proof.
  unfold with_defaults. intros H. revert o. induction H as [|param l (Hj & _) _ IH]; intros o Ho; [done|]. cbn [foldl].
  apply IH. unfold apply_default. destruct (is_undef (prop param "default")) eqn:E; [done|].
  apply json_oset; [split; [|by apply json_prop]|done]. by intros Eu; rewrite Eu in E.
Qed.

Lemma params_not_type p : Forall param_ok (parameters p) -> Forall (fun param => param_name param <> "type") (parameters p).
Proof. intros H. eapply Forall_impl; [exact H|]. by intros x (_ & ? & _). Qed.

(** An absent provider has no parameters. *)
Lemma provider_with_params providers type :
  Forall provider_ok providers -> Forall param_ok (parameters (provider_with providers type)).
Proof.
  intros H. unfold provider_with. destruct (find _ providers) as [p|] eqn:E; [|constructor].
  apply find_some in E as [Hin _]. rewrite Forall_forall in H. apply pk_params, H. by apply list_elem_of_In.
Qed.

Lemma setSourceType_typed providers disabled source t v :
  Forall provider_ok providers -> json_like source -> setSourceType providers disabled source (VStr t) = Some v ->
  json_value v /\ prop v "type" = VStr t /\ existsb (fun d => seq d (VStr t)) disabled = false.
Proof.
  intros Hp Hs. unfold setSourceType. destruct (existsb _ disabled); [done|]. intros [= <-].
  pose proof (provider_with_params providers (VStr t) Hp) as Hk. set (p := provider_with providers (VStr t)) in *.
  assert (Forall json_entry (with_defaults p [("type", VStr t)])) as Hj
    by (apply with_defaults_json; [done|]; by constructor; [split|constructor]).
  assert (oget "type" (with_defaults p [("type", VStr t)]) = VStr t) as Ht
    by (by rewrite with_defaults_other by (by apply params_not_type)).
  destruct (is_undef (prop source "enabled")) eqn:Eu.
  - split; [split; [done|by apply json_obj]|by split].
  - split; [split; [done|]|split; [|done]].
    + apply json_obj, json_oset; [split; [|by apply json_prop]|done]. by intros E; rewrite E in Eu.
    + cbn [prop]. by rewrite oget_oset_ne by done.
Qed.

Lemma with_source_has role v d : json_like d -> json_value v -> has_sources (with_source role v d).
Proof.
  intros Hd Hv. split; [by apply with_source_json|]. eexists _, _. split; [done|]. cbn [with_source prop]. apply oget_oset.
Qed.

Lemma backup_shown_spec d : backup_shown d = truthy (prop (prop d "sources") "backup").
Proof. unfold backup_shown, backupSource, js_or. by destruct (truthy (prop _ "backup")) eqn:E; rewrite ?E. Qed.

Lemma backup_source_spec d : backup_shown d = true -> backupSource d = prop (prop d "sources") "backup".
Proof. rewrite backup_shown_spec. apply js_or_truthy. Qed.

Lemma primary_source_spec d : sources_ok d -> primarySource d = prop (prop d "sources") "primary".
Proof. intros [_ [t Ht] _]. apply js_or_truthy. by destruct (prop _ "primary"). Qed.

Lemma alternative_spec providers type p :
  Forall provider_ok providers -> alternativeProvider providers (VStr type) = Some p ->
  provider_ok p /\ exists id, prop p "id" = VStr id /\ id <> type.
Proof.
  intros Hp. unfold alternativeProvider. intros [Hin Hne]%find_some. rewrite Forall_forall in Hp.
  apply list_elem_of_In, Hp in Hin. split; [done|]. destruct (pk_id _ Hin) as [id Hid]. exists id. split; [done|].
  intros ->. rewrite Hid in Hne. cbn in Hne. by rewrite String.eqb_refl in Hne.
Qed.

(** Setting a source, and what it takes for the two to stay apart *)
Lemma primary_set d v t :
  sources_ok d -> json_value v -> prop v "type" = VStr t ->
  (forall tb, truthy (prop (prop d "sources") "backup") = true ->
     prop (prop (prop d "sources") "backup") "type" = VStr tb -> tb <> t) ->
  sources_ok (with_source "primary" v d).
Proof.
  intros Hs Hv Ht Hne. split; [by apply with_source_json; [apply Hs|]|..].
  - exists t. by rewrite with_source_prop.
  - rewrite !with_source_prop. cbn [String.eqb]. intros Hb. destruct (so_apart _ Hs Hb) as (tb & Htb & _).
    exists tb. split; [exact Htb|]. cbn. rewrite Ht. intros [= E]. by apply (Hne tb Hb Htb).
Qed.

Lemma backup_set d v :
  has_sources d -> (exists t, prop (prop (prop d "sources") "primary") "type" = VStr t) -> json_value v ->
  (truthy v = true -> exists tb, prop v "type" = VStr tb /\ prop (prop (prop d "sources") "primary") "type" <> VStr tb) ->
  sources_ok (with_source "backup" v d).
Proof.
  intros [Hj _] Hp Hv Hne. split; [by apply with_source_json|..]; rewrite !with_source_prop; done.
Qed.

Section steps.
Context (s : client).
Hypothesis Hproviders : Forall provider_ok (arr_of (k_providers s)).
Hypothesis Hs : sources_ok (k_draftConfig s).

Lemma primary_change_ok v t :
  json_value v -> prop v "type" = VStr t -> sources_ok (k_draftConfig (handlePrimaryChange v s).2).
Proof.
  intros Hv Ht. unfold handlePrimaryChange. munfold. rewrite (update_source "primary") by eauto using sources_shape.
  cbv beta iota. rewrite Ht. set (d := k_draftConfig s) in *.
  destruct (backup_shown d) eqn:Eb; cbn [andb]; cycle 1.
  { apply (primary_set _ v t); [done..|]. intros tb Hb. rewrite backup_shown_spec in Eb. congruence. }
  rewrite (backup_source_spec _ Eb). rewrite backup_shown_spec in Eb. destruct (so_apart _ Hs Eb) as (tb & Htb & _).
  rewrite Htb. cbn [seq]. destruct (String.eqb_spec tb t) as [->|Hne]; cycle 1.
  { apply (primary_set _ v t); [done..|]. intros tb' _ H. rewrite Htb in H. by injection H as <-. }
  assert (has_sources (with_source "primary" v d)) as Hh by (apply with_source_has; [apply Hs|done]).
  rewrite (update_source "backup") by auto. cbn [snd k_draftConfig set_draft].
  apply backup_set; [done|exists t; by rewrite with_source_prop|..];
    destruct (alternativeProvider _ _) as [p|] eqn:Ea; try done;
    destruct (alternative_spec _ _ _ Hproviders Ea) as (Hp & id & Hid & Hne); rewrite Hid.
  - apply edit_source_json; [by apply json_prop, json_prop; apply Hs|done].
  - intros _. exists id. rewrite edit_source_prop, with_source_prop. split; [done|]. cbn. rewrite Ht. congruence.
Qed.

Lemma backup_change_ok v tb :
  json_value v -> prop v "type" = VStr tb ->
  prop (prop (prop (k_draftConfig s) "sources") "primary") "type" <> VStr tb ->
  sources_ok (k_draftConfig (handleBackupChange v s).2).
Proof.
  intros Hv Ht Hne. unfold handleBackupChange. rewrite (update_source "backup") by eauto using sources_shape.
  cbn [snd k_draftConfig set_draft]. apply backup_set; [by apply sources_shape|apply Hs|by apply edit_source_json; [apply Hv|]|].
  intros _. exists tb. by rewrite edit_source_prop.
Qed.

Lemma toggle_ok on : sources_ok (k_draftConfig (toggleBackup on s).2).
Proof.
  unfold toggleBackup. munfold. destruct (so_primary _ Hs) as [t Ht]. destruct on; cycle 1.
  { rewrite (update_source "backup") by eauto using sources_shape. apply backup_set; [by apply sources_shape|apply Hs|done..]. }
  rewrite (primary_source_spec _ Hs), Ht. destruct (alternativeProvider _ _) as [p|] eqn:Ea; [|done].
  destruct (alternative_spec _ _ _ Hproviders Ea) as (Hp & id & Hid & Hne). rewrite Hid.
  rewrite (update_source "backup") by eauto using sources_shape. apply backup_set; [by apply sources_shape|apply Hs|..].
  - split; [done|]. apply json_obj, with_defaults_json; [apply Hp|]. by repeat constructor.
  - intros _. exists id. rewrite Ht. split; [|congruence]. cbn [prop].
    rewrite with_defaults_other by (by apply params_not_type, pk_params). done.
Qed.

(** An edit outside the sources *)
Lemma other_edit_ok path v :
  diverge (split_on "." path) ["sources"] = true -> json_value v -> sources_ok (k_draftConfig (updateSetting path v s).2).
Proof.
  intros Hd Hv. destruct (updateSetting_json path v s (so_json _ Hs) Hv) as [->|(E & Hj & _)]; [done|].
  pose proof (set_at_other _ _ _ _ _ Hd E) as Hw. cbn in Hw. split; [done|..]; rewrite Hw; apply Hs.
Qed.

Lemma field_value_json param text v : param_ok param -> field_value param text = Some v -> json_value v.
Proof.
  intros (Hj & _ & Ho). unfold field_value. destruct (String.eqb _ "select").
  - intros [= <-]. destruct (find _ _) as [o|] eqn:E; [|done]. apply find_some in E as [Hin%list_elem_of_In _].
    rewrite Forall_forall in Ho. split; [by apply Ho|]. apply json_prop.
    assert (json_like (prop (prop param "constraints") "options")) as Hl by (by apply json_prop, json_prop).
    destruct (prop (prop param "constraints") "options"); try (by apply elem_of_nil in Hin).
    apply json_arr in Hl. rewrite Forall_forall in Hl. by apply Hl.
  - destruct (String.eqb _ "number"); [|by intros [= <-]]. destruct (parseFloat _) as [| |q]; try done. intros [= <-].
    split; [done|]. apply (json_clone_idem (VNum q)).
Qed.

Lemma among_in x l : among x l = true <-> x ∈ l.
Proof.
  unfold among. rewrite existsb_exists. split.
  - intros (y & Hy & ->%val_eqb_eq). by apply list_elem_of_In.
  - intros H%list_elem_of_In. exists x. split; [done|]. by apply val_eqb_eq.
Qed.

Lemma active_param_ok source param : param ∈ parameters (activeProvider (arr_of (k_providers s)) source) -> param_ok param.
Proof. intros H. pose proof (provider_with_params (arr_of (k_providers s)) (js_or (prop source "type") (VStr "aladhan")) Hproviders) as Hp. rewrite Forall_forall in Hp. by apply Hp. Qed.

Lemma step_ok e : sources_ok (k_draftConfig (source_handler e s).2).
Proof.
  destruct (so_primary _ Hs) as [tp Htp]. pose proof (primary_source_spec _ Hs) as Ep.
  pose proof (so_json _ Hs) as Hj. set (d := k_draftConfig s) in *.
  unfold source_handler, when, if_some. fold d.
  assert (forall p l, among p (filteredProviders (arr_of (k_providers s)) l (prop (primarySource d) "type")) = true ->
    exists id, prop p "id" = VStr id) as Hid.
  { intros p l H%among_in. rewrite Forall_forall in Hproviders. apply pk_id, Hproviders. destruct l; [|done].
    apply list_elem_of_In, filter_In in H as [H _]. by apply list_elem_of_In. }
  destruct e as [p|param text|on|p|param text|c text|text].
  - destruct (choice_shown s && _) eqn:E; [|done]. apply andb_prop in E as [_ E].
    destruct (Hid p false E) as [id Hi]. rewrite Hi. destruct (setSourceType _ _ _ _) as [v|] eqn:Ev; [|done].
    apply setSourceType_typed in Ev as (Hv & Ht & _); [|done|rewrite Ep; by apply json_prop, json_prop].
    by apply (primary_change_ok v id).
  - destruct (choice_shown s && _) eqn:E; [|done]. apply andb_prop in E as [_ E%among_in].
    apply active_param_ok in E. destruct (field_value param text) as [v|] eqn:Ev; [|done].
    apply (field_value_json _ _ _ E) in Ev. apply (primary_change_ok _ tp).
    + apply edit_source_json; [|done]. rewrite Ep. by apply json_prop, json_prop.
    + rewrite edit_source_prop, Ep. destruct E as (_ & Hn & _).
      by rewrite (proj2 (String.eqb_neq "type" (param_name param)) (not_eq_sym Hn)).
  - destruct (page_shown s); [|done]. apply toggle_ok.
  - destruct (choice_shown s && _ && _) eqn:E; [|done]. apply andb_prop in E as [E1 E]. apply andb_prop in E1 as [_ Eb].
    destruct (Hid p true E) as [id Hi]. rewrite Hi. destruct (setSourceType _ _ _ _) as [v|] eqn:Ev; [|done].
    apply setSourceType_typed in Ev as (Hv & Ht & Hd); [|done|rewrite (backup_source_spec _ Eb); by apply json_prop, json_prop].
    apply (backup_change_ok v id); [done..|]. fold d. rewrite Ep, Htp in Hd. cbn in Hd. rewrite Htp.
    intros [= ->]. by rewrite String.eqb_refl in Hd.
  - destruct (choice_shown s && _ && _) eqn:E; [|done]. apply andb_prop in E as [E1 E%among_in]. apply andb_prop in E1 as [_ Eb].
    apply active_param_ok in E. destruct (field_value param text) as [v|] eqn:Ev; [|done].
    apply (field_value_json _ _ _ E) in Ev. rewrite (backup_source_spec _ Eb). rewrite backup_shown_spec in Eb.
    destruct (so_apart _ Hs Eb) as (tb & Htb & Hne). apply (backup_change_ok _ tb); [|..|exact Hne].
    + apply edit_source_json; [|done]. by apply json_prop, json_prop.
    + rewrite edit_source_prop. destruct E as (_ & Hn & _).
      by rewrite (proj2 (String.eqb_neq "type" (param_name param)) (not_eq_sym Hn)).
  - destruct (choice_shown s && _); [|done]. apply other_edit_ok; [by destruct c|]. unfold coordinate_value.
    destruct (parseFloat _) as [| |q]; try done. split; [done|]. apply (json_clone_idem (VNum q)).
  - destruct (page_shown s); [|done]. by apply other_edit_ok.
Qed.

End steps.

Lemma keeps_providers_update path v : keeps k_providers (updateSetting path v).
Proof. intros s. unfold updateSetting. destruct (truthy _); [|done]. by destruct (set_at _ _ _). Qed.

Lemma keeps_providers e : keeps k_providers (source_handler e).
Proof.
  assert (forall v, keeps k_providers (handlePrimaryChange v)) as Hp
    by (intros v; unfold handlePrimaryChange; keeps_step; apply keeps_providers_update).
  assert (forall v, keeps k_providers (handleBackupChange v)) as Hb by (intros v; apply keeps_providers_update).
  assert (forall b, keeps k_providers (toggleBackup b)) as Ht
    by (intros b; unfold toggleBackup; keeps_step; apply keeps_providers_update).
  intros s. unfold source_handler, when, if_some.
  destruct e; repeat case_match; try done; first [apply Hp|apply Hb|apply Ht|apply keeps_providers_update].
Qed.

Definition source_run (s : client) (l : list source_edit) : client := foldl (fun s e => (source_handler e s).2) s l.

(** C38: The two sources stay apart.  Whatever is picked, typed and switched on the
    page, in any order, a draft with two different sources keeps two different
    sources, each with a type: the backup that would fall together with a new
    primary is moved to another provider or given up. *)
Theorem sources_stay_apart s l :
  Forall provider_ok (arr_of (k_providers s)) -> sources_ok (k_draftConfig s) ->
  sources_ok (k_draftConfig (source_run s l)).
Proof.
  unfold source_run. intros Hp. revert s Hp. induction l as [|e l IH]; intros s Hp Hs; [done|]. cbn [foldl].
  apply IH; [by rewrite keeps_providers|by apply step_ok].
Qed.

(** ** A picked source *)
Lemma with_defaults_get p k o :
  NoDup (param_name <$> parameters p) ->
  oget k (with_defaults p o) =
  match find (fun param => String.eqb (param_name param) k) (parameters p) with
  | Some param => if is_undef (prop param "default") then oget k o else prop param "default"
  | None => oget k o
  end.
Proof.
  unfold with_defaults. generalize (parameters p). intros l. revert o.
  induction l as [|param l IH]; intros o Hnd; [done|]. apply NoDup_cons in Hnd as [Hn Hnd]. cbn [foldl find].
  rewrite IH by done. destruct (String.eqb_spec (param_name param) k) as [Hk|Hk].
  - assert (find (fun param => String.eqb (param_name param) k) l = None) as ->.
    { destruct (find _ l) as [x|] eqn:E; [|done]. apply find_some in E as [Hin%list_elem_of_In Hx%String.eqb_eq].
      destruct Hn. rewrite Hk, <- Hx. by apply list_elem_of_fmap_2. }
    unfold apply_default. destruct (is_undef (prop param "default")); [done|]. rewrite Hk. apply oget_oset.
  - assert (oget k (apply_default o param) = oget k o) as Ho
      by (unfold apply_default; destruct (is_undef _); [done|]; by rewrite oget_oset_ne by congruence).
    destruct (find _ l) as [x|]; [|done]. by rewrite Ho.
Qed.

(** A picked source is the provider's own.  It has the type, every parameter of
    the provider with the default it declares, whether the source before was
    enabled, and nothing else of the source before. *)
Theorem picked_source providers disabled source type v :
  let p := provider_with providers type in
  NoDup (param_name <$> parameters p) -> Forall (fun param => param_name param <> "type") (parameters p) ->
  setSourceType providers disabled source type = Some v ->
  forall k, prop v k =
    if String.eqb k "enabled" && negb (is_undef (prop source "enabled")) then prop source "enabled"
    else if String.eqb k "type" then type
    else match find (fun param => String.eqb (param_name param) k) (parameters p) with
         | Some param => prop param "default"
         | None => VUndef
         end.
Proof.
  cbv zeta. intros Hnd Hty. unfold setSourceType. destruct (existsb _ disabled); [done|]. intros [= <-] k.
  set (p := provider_with providers type) in *.
  assert (oget k (with_defaults p [("type", type)]) =
    if String.eqb k "type" then type
    else match find (fun param => String.eqb (param_name param) k) (parameters p) with
         | Some param => prop param "default" | None => VUndef end) as Hk.
  { destruct (String.eqb_spec k "type") as [->|Hne]; [by rewrite with_defaults_other by done|].
    rewrite with_defaults_get by done. apply String.eqb_neq in Hne. cbn [oget]. rewrite Hne.
    destruct (find _ _) as [param|]; [|done]. destruct (prop param "default"); done. }
  destruct (is_undef (prop source "enabled")); cbn [negb]; [by rewrite andb_false_r|]. rewrite andb_true_r. cbn [prop].
  destruct (String.eqb_spec k "enabled") as [->|Hne]; [apply oget_oset|]. by rewrite oget_oset_ne by done.
Qed.

(** ** The fields and the save *)
Section fields.
Context `{R : Regex}.

Definition same_verdict (a b : result val) : Prop :=
  match a, b with Ok x, Ok y => truthy x = truthy y | Throw e, Throw e' => e = e' | _, _ => False end.

Lemma same_verdict_refl a : same_verdict a a.
Proof. by destruct a. Qed.

(** A field judges what is typed as the save will. *)
Lemma field_verdict source param :
  prop param "key" = VStr (param_name param) ->
  same_verdict (field_error param (prop source (param_name param))) (check_param source param).
Proof.
  intros Hk. unfold field_error, check_param. assert (get param "key" = Ok (VStr (param_name param))) as ->
    by (destruct param; try done; cbn in *; by rewrite Hk).
  unfold mbind, result_bind. cbn [show]. set (v := prop source (param_name param)).
  destruct (truthy _ && _); [|destruct (truthy _ && _); [|done]].
  - done.
  - destruct (regex _) as [test|e]; [|done]. destruct (test (show v)); [done|]. cbn [negb same_verdict]. done.
Qed.

Definition clear_field (source param : val) : Prop :=
  exists e, field_error param (prop source (param_name param)) = Ok e /\ truthy e = false.

(** The save takes a source exactly when no field of it would show an error. *)
Theorem save_agrees_with_fields source p :
  truthy source = true -> seq (prop source "enabled") (VBool false) = false ->
  truthy p = true -> is_array (prop p "parameters") = true ->
  Forall (fun param => prop param "key" = VStr (param_name param)) (parameters p) ->
  (exists e, validateSourceSettings source p = Ok e /\ truthy e = false) <->
  Forall (clear_field source) (parameters p).
Proof.
  intros Hs He Hp Ha Hk. unfold validateSourceSettings. rewrite Hs, He, Hp. cbn [negb orb].
  unfold parameters in *. destruct (prop p "parameters") as [| | | | |l|]; try done. cbn [iterate arr_of] in *.
  unfold mbind, result_bind. clear Ha. induction Hk as [|param l Hk _ IH].
  { split; [by constructor|]. intros _. by exists VNull. }
  rewrite Forall_cons, <- IH. unfold clear_field. pose proof (field_verdict source param Hk) as Hv.
  cbn [check_params]. unfold mbind, result_bind.
  destruct (check_param source param) as [x|x], (field_error _ _) as [y|y]; cbn [same_verdict] in Hv; try done.
  - rewrite <- Hv. destruct (truthy y) eqn:Ey.
    + split; [intros (e & [= <-] & H); congruence|intros [(e & [= <-] & H) _]; congruence].
    + split; [by eauto|]. by intros [_ H].
  - split; [by intros (e & [=] & _)|by intros [(e & [=] & _) _]].
Qed.
End fields.

(** ** The providers of the server *)
Section shipped.
#[local] Existing Instance bytes_locale.

Lemma shipped_providers_ok : Forall provider_ok getRegisteredProviders.
Proof.
  repeat constructor; try (by vm_compute); try (by eexists); by vm_compute.
Qed.

Definition aladhan : val := Aladhan_getMetadata.
Definition mymasjid : val := MyMasjid_getMetadata.
Definition aladhan_source : val := VObj [("type", VStr "aladhan"); ("method", VInt 3)].
Definition masjid_backup : val :=
  VObj [("type", VStr "mymasjid"); ("masjidId", VStr "94f1c71b"); ("enabled", VBool false)].
Definition source_draft (backup : val) : val :=
  VObj [("sources", VObj [("primary", aladhan_source); ("backup", backup)])].
Definition source_page (backup : val) : client :=
  Client (source_draft backup) (source_draft backup) (VObj []) false false false (VArr []) false VNull
    (VArr getRegisteredProviders) false true [].

Lemma sources_stay_apart_witness :
  sources_ok (k_draftConfig (source_run (source_page masjid_backup) [PickPrimary mymasjid; SwitchBackup false; SwitchBackup true])).
Proof.
  apply (sources_stay_apart (source_page masjid_backup)).
  - exact shipped_providers_ok.
  - split; [by vm_compute|by eexists|]. intros _. exists "mymasjid". split; [reflexivity|]. discriminate.
Defined.

Lemma picked_source_witness :
  prop (VObj (with_defaults aladhan [("type", VStr "aladhan")])) "method" = VInt 15.
Proof.
  rewrite (picked_source getRegisteredProviders [] VNull (VStr "aladhan")); [reflexivity|..].
  - apply (bool_decide_unpack _). by vm_compute.
  - repeat constructor; vm_compute; discriminate.
  - reflexivity.
Defined.

(** A backup that is moved to another provider keeps the parameters of the one it
    had, and gets no default of the new one. *)
Theorem moved_backup_keeps_parameters :
  let s := source_run (source_page masjid_backup) [PickPrimary mymasjid] in
  prop (prop (k_draftConfig s) "sources") "backup" =
    VObj [("type", VStr "aladhan"); ("masjidId", VStr "94f1c71b"); ("enabled", VBool false)].
Proof. by vm_compute. Qed.

(** A backup that is stored as disabled is shown as switched on, while the card of
    the congregation times takes it for off. *)
Theorem disabled_backup_shown_on :
  backup_shown (source_draft masjid_backup) = true /\
  IqamahCard.backupEnabled (prop (source_draft masjid_backup) "sources") = false.
Proof. by vm_compute. Qed.

(** The parser of the server takes what is picked from Aladhan, with its defaults;
    a MyMasjid source it takes exactly when the field of the identifier shows no
    error, the pattern of the metadata being read as it is in the schema. *)
Definition guid_pattern : Regex := fun _ => Ok is_guid.
Definition masjid_source (id : string) : val := VObj [("type", VStr "mymasjid"); ("masjidId", VStr id)].

Theorem fields_match_schema id :
  (exists v, setSourceType getRegisteredProviders [] VNull (VStr "aladhan") = Some v /\ is_Some (zparse Aladhan_getConfigSchema v)) /\
  (Forall (clear_field (R := guid_pattern) (masjid_source id)) (parameters mymasjid) <->
   is_Some (zparse MyMasjid_getConfigSchema (masjid_source id))).
Proof.
  split; [by eexists; split; [reflexivity|vm_compute; eexists]|].
  assert (zparse MyMasjid_getConfigSchema (masjid_source id) = if is_guid id then Some (masjid_source id) else None) as ->
    by (cbv -[is_guid]; by destruct (is_guid id)).
  assert (exists param, parameters mymasjid = [param] /\ field_error (R := guid_pattern) param (VStr id) =
    Ok (if String.eqb id "" then VStr "Masjid ID (GUID) is required"
        else if is_guid id then VNull else VStr "Invalid Masjid ID (GUID) format") /\
    prop (masjid_source id) (param_name param) = VStr id) as (param & -> & Hf & Hp).
  { eexists. split; [reflexivity|]. split; [|reflexivity]. destruct id as [|a id]; [reflexivity|].
    cbv -[is_guid]. by destruct (is_guid _). }
  rewrite Forall_singleton. unfold clear_field. rewrite Hp, Hf. clear. destruct (String.eqb_spec id "") as [->|Hne].
  - split; [by intros (e & [= <-] & ?)|]. vm_compute. by intros [v [=]].
  - destruct (is_guid id); split.
    + intros _. by eexists.
    + intros _. by exists VNull.
    + intros (e & [= <-] & [=]).
    + by intros [v [=]].
Qed.
End shipped.
