(* ===== verification/SearchSelect.v ===== *)
(** * The select with a search
      ([client/src/components/common/SearchableSelect.jsx])

    A list of options that opens below the selected one and is narrowed by a
    text.  The mouse is pressed inside or outside of it. *)
From S2P Require Import Prelude JsString JsValue.

Record select := Select { sl_isOpen : bool; sl_search : string }.
Definition set_isOpen (b : bool) (s : select) : select := Select b (sl_search s).
Definition set_select_search (t : string) (s : select) : select := Select (sl_isOpen s) t.
Definition first_select : select := Select false "".

Definition option_label (opt : val) : string := str_of (prop opt "label").

Definition selectedOption (options : list val) (value : val) : option val :=
  find (fun opt => seq (prop opt "value") value) options.

Definition option_found (search : string) (opt : val) : bool :=
  includes (to_lower search) (to_lower (option_label opt)) ||
  truthy (prop opt "sublabel") && includes (to_lower search) (to_lower (str_of (prop opt "sublabel"))).
Definition filteredOptions (options : list val) (s : select) : list val :=
  List.filter (option_found (sl_search s)) options.

(** What the box says *)
Definition shown_label (options : list val) (value : val) (placeholder : string) : string :=
  match selectedOption options value with Some opt => option_label opt | None => placeholder end.

Inductive select_event := ClickBox | PressOutside | TypeSearch (text : string) | ClearSearch | Choose (opt : val).

(** The state after an event, and what [onChange] is called with *)
Definition handleSelect (val : val) (s : select) : select * list JsValue.val :=
  (set_select_search "" (set_isOpen false s), [val]).
Definition select_step (options : list val) (s : select) (e : select_event) : select * list val :=
  match e with
  | ClickBox => (set_isOpen (negb (sl_isOpen s)) s, [])
  | PressOutside => (set_isOpen false s, [])
  | TypeSearch text => (if sl_isOpen s then set_select_search text s else s, [])
  | ClearSearch => (if sl_isOpen s && negb (String.eqb (sl_search s) "") then set_select_search "" s else s, [])
  | Choose opt =>
      if sl_isOpen s && existsb (val_eqb opt) (filteredOptions options s) then handleSelect (prop opt "value") s else (s, [])
  end.

Definition select_run (options : list val) (l : list select_event) (s : select) : select * list val :=
  foldl (fun acc e => let '(s', out) := select_step options acc.1 e in (s', acc.2 ++ out)) (s, []) l.

(** ** Lemmas *)
Lemma includes_refl s : includes s s = true.
Proof. rewrite <- (str_app_nil_r s) at 2. apply includes_prefix. Qed.

Lemma filtered_in options s opt :
  opt ∈ filteredOptions options s <-> opt ∈ options /\ option_found (sl_search s) opt = true.
Proof. unfold filteredOptions. rewrite !list_elem_of_In. apply filter_In. Qed.

Lemma choose_offered options s opt :
  opt ∈ filteredOptions options s -> existsb (val_eqb opt) (filteredOptions options s) = true.
Proof. intros H%list_elem_of_In. apply existsb_exists. exists opt. split; [done|]. by apply val_eqb_eq. Qed.

(** Every option can be reached: from any state of the box, by opening it and
    typing the option's own label; the choice is handed on and closes the box with
    an empty search. *)
Theorem option_reachable options s opt :
  opt ∈ options ->
  select_run options [PressOutside; ClickBox; TypeSearch (option_label opt); Choose opt] s =
    (first_select, [prop opt "value"]).
Proof.
  intros Hin. unfold select_run. cbn [foldl select_step set_isOpen sl_isOpen negb fst snd app set_select_search sl_search].
  rewrite choose_offered; [done|]. apply filtered_in. split; [done|]. unfold option_found.
  cbn [sl_search]. by rewrite includes_refl.
Qed.

(** Nothing is handed on but the values of options, one for each choice. *)
Theorem only_options options l s v : v ∈ (select_run options l s).2 -> exists opt, opt ∈ options /\ v = prop opt "value".
Proof.
  unfold select_run. assert (forall acc, (forall v, v ∈ acc.2 -> exists opt, opt ∈ options /\ v = prop opt "value") ->
    forall v, v ∈ (foldl (fun acc e => let '(s', out) := select_step options acc.1 e in (s', acc.2 ++ out)) acc l).2 ->
    exists opt, opt ∈ options /\ v = prop opt "value") as H; [|apply H; by intros ? ?%elem_of_nil].
  induction l as [|e l IH]; intros [s0 out] Ha; [exact Ha|]. cbn [foldl fst snd] in *.
  destruct (select_step options s0 e) as [s' new] eqn:E. apply IH. cbn [snd]. intros v' [Hv|Hv]%elem_of_app; [by apply Ha|].
  destruct e; cbn in E; try (injection E as <- <-; by apply elem_of_nil in Hv).
  destruct (sl_isOpen s0 && _) eqn:Eo; injection E as <- <-; [|by apply elem_of_nil in Hv].
  apply list_elem_of_singleton in Hv as ->. exists opt. split; [|done]. apply andb_prop in Eo as [_ Eo].
  apply existsb_exists in Eo as (x & Hx & ->%val_eqb_eq). apply list_elem_of_In, filtered_in in Hx. apply Hx.
Qed.

Lemma option_reachable_witness :
  (select_run [VObj [("value", VStr "All"); ("label", VStr "All Genders")]]
     [PressOutside; ClickBox; TypeSearch "All Genders"; Choose (VObj [("value", VStr "All"); ("label", VStr "All Genders")])]
     (Select true "x")).2 = [VStr "All"].
Proof. rewrite (option_reachable _ _ (VObj [("value", VStr "All"); ("label", VStr "All Genders")])); [reflexivity|]. by left. Defined.
