(* ===== verification/VoiceLibrary.v ===== *)
(** * The library of voices
      ([client/src/components/settings/VoiceLibrary.jsx],
       [client/src/components/settings/automation/AutomationVoiceTab.jsx])

    The list of the voices of the speech service, narrowed by a text, a gender
    and a locale; a voice is played as a preview or picked as the default of the
    announcements.  A preview is cut at its request and at the end of its audio.
    The text of the filters is kept by the page around it, or by the library
    itself; both keep it as here. *)
From stdpp Require Import sorting.
From S2P Require Import Prelude JsString JsValue World Luxon Zod Network Health Voice AudioAssets.
From S2P Require Import Http.
From S2P Require Import SystemController.
From S2P Require Import ClientSettings.

(** ** Locales *)
Definition LOCALE_NAMES : list (string * string) :=
  [("af-ZA", "Afrikaans (South Africa)"); ("am-ET", "Amharic (Ethiopia)"); ("ar-AE", "Arabic (UAE)");
   ("ar-BH", "Arabic (Bahrain)"); ("ar-DZ", "Arabic (Algeria)"); ("ar-EG", "Arabic (Egypt)");
   ("ar-IQ", "Arabic (Iraq)"); ("ar-JO", "Arabic (Jordan)"); ("ar-KW", "Arabic (Kuwait)");
   ("ar-LB", "Arabic (Lebanon)"); ("ar-LY", "Arabic (Libya)"); ("ar-MA", "Arabic (Morocco)");
   ("ar-OM", "Arabic (Oman)"); ("ar-QA", "Arabic (Qatar)"); ("ar-SA", "Arabic (Saudi Arabia)");
   ("ar-SY", "Arabic (Syria)"); ("ar-TN", "Arabic (Tunisia)"); ("ar-YE", "Arabic (Yemen)");
   ("az-AZ", "Azerbaijani (Azerbaijan)"); ("bg-BG", "Bulgarian (Bulgaria)"); ("bn-BD", "Bengali (Bangladesh)");
   ("bn-IN", "Bengali (India)"); ("bs-BA", "Bosnian (Bosnia)"); ("ca-ES", "Catalan (Spain)");
   ("cs-CZ", "Czech (Czech Republic)"); ("cy-GB", "Welsh (UK)"); ("da-DK", "Danish (Denmark)");
   ("de-AT", "German (Austria)"); ("de-CH", "German (Switzerland)"); ("de-DE", "German (Germany)");
   ("el-GR", "Greek (Greece)"); ("en-AU", "English (Australia)"); ("en-CA", "English (Canada)");
   ("en-GB", "English (UK)"); ("en-HK", "English (Hong Kong)"); ("en-IE", "English (Ireland)");
   ("en-IN", "English (India)"); ("en-KE", "English (Kenya)"); ("en-NG", "English (Nigeria)");
   ("en-NZ", "English (New Zealand)"); ("en-PH", "English (Philippines)"); ("en-SG", "English (Singapore)");
   ("en-TZ", "English (Tanzania)"); ("en-US", "English (US)"); ("en-ZA", "English (South Africa)");
   ("es-AR", "Spanish (Argentina)"); ("es-BO", "Spanish (Bolivia)"); ("es-CL", "Spanish (Chile)");
   ("es-CO", "Spanish (Colombia)"); ("es-CR", "Spanish (Costa Rica)"); ("es-CU", "Spanish (Cuba)");
   ("es-DO", "Spanish (Dominican Rep.)"); ("es-EC", "Spanish (Ecuador)"); ("es-ES", "Spanish (Spain)");
   ("es-GQ", "Spanish (Equatorial Guinea)"); ("es-GT", "Spanish (Guatemala)"); ("es-HN", "Spanish (Honduras)");
   ("es-MX", "Spanish (Mexico)"); ("es-NI", "Spanish (Nicaragua)"); ("es-PA", "Spanish (Panama)");
   ("es-PE", "Spanish (Peru)"); ("es-PR", "Spanish (Puerto Rico)"); ("es-PY", "Spanish (Paraguay)");
   ("es-SV", "Spanish (El Salvador)"); ("es-US", "Spanish (US)"); ("es-UY", "Spanish (Uruguay)");
   ("es-VE", "Spanish (Venezuela)"); ("et-EE", "Estonian (Estonia)"); ("eu-ES", "Basque (Spain)");
   ("fa-IR", "Persian (Iran)"); ("fi-FI", "Finnish (Finland)"); ("fil-PH", "Filipino (Philippines)");
   ("fr-BE", "French (Belgium)"); ("fr-CA", "French (Canada)"); ("fr-CH", "French (Switzerland)");
   ("fr-FR", "French (France)"); ("ga-IE", "Irish (Ireland)"); ("gl-ES", "Galician (Spain)");
   ("gu-IN", "Gujarati (India)"); ("he-IL", "Hebrew (Israel)"); ("hi-IN", "Hindi (India)");
   ("hr-HR", "Croatian (Croatia)"); ("hu-HU", "Hungarian (Hungary)"); ("hy-AM", "Armenian (Armenia)");
   ("id-ID", "Indonesian (Indonesia)"); ("is-IS", "Icelandic (Iceland)"); ("it-IT", "Italian (Italy)");
   ("ja-JP", "Japanese (Japan)"); ("jv-ID", "Javanese (Indonesia)"); ("ka-GE", "Georgian (Georgia)");
   ("kk-KZ", "Kazakh (Kazakhstan)"); ("km-KH", "Khmer (Cambodia)"); ("kn-IN", "Kannada (India)");
   ("ko-KR", "Korean (South Korea)"); ("lo-LA", "Lao (Laos)"); ("lt-LT", "Lithuanian (Lithuania)");
   ("lv-LV", "Latvian (Latvia)"); ("mk-MK", "Macedonian (North Macedonia)"); ("ml-IN", "Malayalam (India)");
   ("mn-MN", "Mongolian (Mongolia)"); ("mr-IN", "Marathi (India)"); ("ms-MY", "Malay (Malaysia)");
   ("mt-MT", "Maltese (Malta)"); ("my-MM", "Burmese (Myanmar)"); ("nb-NO", "Norwegian (Norway)");
   ("ne-NP", "Nepali (Nepal)"); ("nl-BE", "Dutch (Belgium)"); ("nl-NL", "Dutch (Netherlands)");
   ("pl-PL", "Polish (Poland)"); ("ps-AF", "Pashto (Afghanistan)"); ("pt-BR", "Portuguese (Brazil)");
   ("pt-PT", "Portuguese (Portugal)"); ("ro-RO", "Romanian (Romania)"); ("ru-RU", "Russian (Russia)");
   ("si-LK", "Sinhala (Sri Lanka)"); ("sk-SK", "Slovak (Slovakia)"); ("sl-SI", "Slovenian (Slovenia)");
   ("so-SO", "Somali (Somalia)"); ("sq-AL", "Albanian (Albania)"); ("sr-RS", "Serbian (Serbia)");
   ("su-ID", "Sundanese (Indonesia)"); ("sv-SE", "Swedish (Sweden)"); ("sw-KE", "Swahili (Kenya)");
   ("sw-TZ", "Swahili (Tanzania)"); ("ta-IN", "Tamil (India)"); ("ta-LK", "Tamil (Sri Lanka)");
   ("ta-MY", "Tamil (Malaysia)"); ("ta-SG", "Tamil (Singapore)"); ("te-IN", "Telugu (India)");
   ("th-TH", "Thai (Thailand)"); ("tr-TR", "Turkish (Turkey)"); ("uk-UA", "Ukrainian (Ukraine)");
   ("ur-IN", "Urdu (India)"); ("ur-PK", "Urdu (Pakistan)"); ("uz-UZ", "Uzbek (Uzbekistan)");
   ("vi-VN", "Vietnamese (Vietnam)"); ("wuu-CN", "Wu Chinese (China)"); ("yue-CN", "Cantonese (China)");
   ("zh-CN", "Chinese (Mandarin, China)"); ("zh-HK", "Chinese (Hong Kong)"); ("zh-TW", "Chinese (Taiwan)");
   ("zu-ZA", "Zulu (South Africa)")].

Fixpoint locale_name_in (l : list (string * string)) (locale : string) : option string :=
  match l with
  | [] => None
  | (k, name) :: l' => if String.eqb k locale then Some name else locale_name_in l' locale
  end.
Definition locale_name : string -> option string := locale_name_in LOCALE_NAMES.

(** [s.split(sep)[0]] *)
Fixpoint before_text (sep s : string) : string :=
  if starts_with sep s then "" else match s with "" => "" | String a s' => String a (before_text sep s') end.

(** [/\(([^)]+)\)/] at the start of a text: what is captured *)
Definition bracketed (s : string) : option string :=
  match s with
  | String "(" s' =>
      let inner := before_char ")" s' in
      if has_char ")" s' && negb (String.eqb inner "") then Some inner else None
  | _ => None
  end.
Fixpoint first_bracketed (s : string) : option string :=
  match bracketed s with
  | Some inner => Some inner
  | None => match s with "" => None | String _ s' => first_bracketed s' end
  end.

Definition second_part (locale : string) : option string := split_on "-" locale !! 1%nat.

Definition getLanguage (locale : string) : string :=
  match locale_name locale with
  | Some fullName => before_text " (" fullName
  | None => to_upper (before_char "-" locale)
  end.

(** A missing second part is [undefined], which React shows as nothing. *)
Definition getRegion (locale : string) : string :=
  match locale_name locale with
  | Some fullName => match first_bracketed fullName with Some r => r | None => default "" (second_part locale) end
  | None => default "" (second_part locale)
  end.

(** ** Names *)

(** [p] at the start of [s], in either case: what follows *)
Definition after_ci (p s : string) : option string :=
  if starts_with p (to_lower s) then Some (slice_from (String.length p) s) else None.
Definition blanks_then (p s : string) : option string :=
  match s with
  | String a _ => if is_blank a then after_ci p (trim_start s) else None
  | "" => None
  end.

(** [/Microsoft\s+/i], [/\s+Online/i], [/\s*\(Natural\)/i] at the start of a text *)
Definition at_microsoft (s : string) : option string :=
  match after_ci "microsoft" s with
  | Some (String a r) => if is_blank a then Some (trim_start r) else None
  | _ => None
  end.
Definition at_online (s : string) : option string := blanks_then "online" s.
Definition at_natural (s : string) : option string := after_ci "(natural)" (trim_start s).

(** [s.replace(/../g, "")]; each match takes at least one character. *)
Fixpoint remove_all (at_match : string -> option string) (fuel : nat) (s : string) : string :=
  match fuel with
  | O => s
  | S fuel' =>
      match at_match s with
      | Some rest => remove_all at_match fuel' rest
      | None => match s with "" => "" | String a s' => String a (remove_all at_match fuel' s') end
      end
  end.
Definition remove (at_match : string -> option string) (s : string) : string :=
  remove_all at_match (String.length s) s.

(** [/\s+-\s+.*$/]: a dash between blanks, and no line break behind them *)
Definition line_break (a : ascii) : bool := Ascii.eqb a LF || Ascii.eqb a CR.
Definition at_dash (s : string) : bool :=
  match blanks_then "-" s with
  | Some (String a r) => is_blank a && sforall (fun a => negb (line_break a)) (trim_start r)
  | _ => false
  end.
Fixpoint cut_dash (s : string) : string :=
  if at_dash s then "" else match s with "" => "" | String a s' => String a (cut_dash s') end.

Definition cleanVoiceName (name : string) : string :=
  let cleaned := trim (cut_dash (remove at_natural (remove at_online (remove at_microsoft name)))) in
  if String.eqb cleaned "" then name else cleaned.

(** ** The library *)
Definition DEFAULT_PREVIEW_TEXT : string := "{minutes} minutes until {prayerArabic}".
Definition DEFAULT_MINUTES : Z := 15.
(** The keys of [ARABIC_NAMES] *)
Definition PREVIEW_PRAYERS : list string := ["Fajr"; "Sunrise"; "Dhuhr"; "Asr"; "Maghrib"; "Isha"].

(** What the browser has under way for a preview: the request, or the audio *)
Inductive stage := Idle | Asking (voice : string) | Sounding (voice : string).

Record library := Library {
  li_search : string; li_gender : string; li_locale : string;
  li_previewPrayer : string; li_previewText : string; li_previewMinutes : Z;
  li_previewing : option string; li_collapsed : bool;
  li_stage : stage; li_client : client
}.
Definition set_search (v : string) (s : library) : library :=
  Library v (li_gender s) (li_locale s) (li_previewPrayer s) (li_previewText s) (li_previewMinutes s)
    (li_previewing s) (li_collapsed s) (li_stage s) (li_client s).
Definition set_gender (v : string) (s : library) : library :=
  Library (li_search s) v (li_locale s) (li_previewPrayer s) (li_previewText s) (li_previewMinutes s)
    (li_previewing s) (li_collapsed s) (li_stage s) (li_client s).
Definition set_locale (v : string) (s : library) : library :=
  Library (li_search s) (li_gender s) v (li_previewPrayer s) (li_previewText s) (li_previewMinutes s)
    (li_previewing s) (li_collapsed s) (li_stage s) (li_client s).
Definition set_previewPrayer (v : string) (s : library) : library :=
  Library (li_search s) (li_gender s) (li_locale s) v (li_previewText s) (li_previewMinutes s)
    (li_previewing s) (li_collapsed s) (li_stage s) (li_client s).
Definition set_previewText (v : string) (s : library) : library :=
  Library (li_search s) (li_gender s) (li_locale s) (li_previewPrayer s) v (li_previewMinutes s)
    (li_previewing s) (li_collapsed s) (li_stage s) (li_client s).
Definition set_previewMinutes (v : Z) (s : library) : library :=
  Library (li_search s) (li_gender s) (li_locale s) (li_previewPrayer s) (li_previewText s) v
    (li_previewing s) (li_collapsed s) (li_stage s) (li_client s).
Definition set_previewing (v : option string) (s : library) : library :=
  Library (li_search s) (li_gender s) (li_locale s) (li_previewPrayer s) (li_previewText s) (li_previewMinutes s)
    v (li_collapsed s) (li_stage s) (li_client s).
Definition set_collapsed (v : bool) (s : library) : library :=
  Library (li_search s) (li_gender s) (li_locale s) (li_previewPrayer s) (li_previewText s) (li_previewMinutes s)
    (li_previewing s) v (li_stage s) (li_client s).
Definition set_stage (v : stage) (s : library) : library :=
  Library (li_search s) (li_gender s) (li_locale s) (li_previewPrayer s) (li_previewText s) (li_previewMinutes s)
    (li_previewing s) (li_collapsed s) v (li_client s).
Definition set_library_client (v : client) (s : library) : library :=
  Library (li_search s) (li_gender s) (li_locale s) (li_previewPrayer s) (li_previewText s) (li_previewMinutes s)
    (li_previewing s) (li_collapsed s) (li_stage s) v.
Definition first_library (c : client) : library :=
  Library "" "All" "All" "Maghrib" DEFAULT_PREVIEW_TEXT DEFAULT_MINUTES None true Idle c.

(** *** What is shown *)
Definition voices_of (s : library) : list val := arr_of (k_voices (li_client s)).
Definition voice_name (v : val) : string := str_of (prop v "ShortName").
Definition voice_locale (v : val) : string := str_of (prop v "Locale").

Definition voice_found (search gender locale : string) (v : val) : bool :=
  (includes (to_lower search) (to_lower (str_of (prop v "Name"))) ||
   includes (to_lower search) (to_lower (voice_name v))) &&
  (String.eqb gender "All" || seq (prop v "Gender") (VStr gender)) &&
  (String.eqb locale "All" || seq (prop v "Locale") (VStr locale)).
Definition filteredVoices (s : library) : list val :=
  List.filter (voice_found (li_search s) (li_gender s) (li_locale s)) (voices_of s).

Definition text_before (a b : string) : Prop := String.ltb b a = false.
#[export] Instance text_before_dec : RelDecision text_before.
Proof. intros a b. unfold text_before. apply _. Defined.
Definition locales (s : library) : list string :=
  "All" :: merge_sort text_before (remove_dups (voice_locale <$> voices_of s)).
Definition locale_label (locale : string) : string :=
  if String.eqb locale "All" then "All Languages" else default locale (locale_name locale).

(** The rows are shown when the voices have come. *)
Definition rows_shown (s : library) : bool :=
  negb (k_voicesLoading (li_client s)) && negb (truthy (k_voicesError (li_client s))).

Definition default_voice (config : val) : val := prop (prop config "automation") "defaultVoice".
Definition savedDefault (s : library) : val := default_voice (k_config (li_client s)).
Definition pendingDefault (s : library) : val := default_voice (k_draftConfig (li_client s)).
Definition hasPendingChange (s : library) : bool :=
  truthy (pendingDefault s) && negb (seq (pendingDefault s) (savedDefault s)).

Inductive row_state := PendingSave | Default | SetDefaultButton.
Definition row_of (s : library) (voice : string) : row_state :=
  if seq (pendingDefault s) (VStr voice) && negb (seq (pendingDefault s) (savedDefault s)) then PendingSave
  else if seq (savedDefault s) (VStr voice) && negb (hasPendingChange s) then Default
  else SetDefaultButton.

(** A letter from U+0600 to U+06FF, in UTF-8 *)
Definition arabic_byte (a : ascii) : bool := (216 <=? nat_of_ascii a)%nat && (nat_of_ascii a <=? 219)%nat.
Definition hasArabic (s : library) : bool :=
  includes "{prayerArabic}" (li_previewText s) || negb (sforall (fun a => negb (arabic_byte a)) (li_previewText s)).
Definition activeVoice (s : library) : option val :=
  find (fun v => seq (prop v "ShortName") (js_or (pendingDefault s) (savedDefault s))) (voices_of s).
Definition showArabicWarning (s : library) : bool :=
  hasArabic s && match activeVoice s with Some v => negb (starts_with "ar-" (voice_locale v)) | None => false end.

(** ** The handlers *)
Definition on_library {A} (m : M client A) : M library A := fun s =>
  let '(r, c) := m (li_client s) in (r, set_library_client c s).

Definition preview_call (s : library) (voice : string) : call :=
  Call "POST" "/api/system/preview-tts"
    (VObj [("template", VStr (li_previewText s)); ("prayerKey", VStr (li_previewPrayer s));
           ("offsetMinutes", VInt (li_previewMinutes s)); ("voice", VStr voice)]).

Definition handlePlayPreview (voiceShortName : string) : M library unit :=
  modify (set_previewing (Some voiceShortName)) ;;
  s ← getw;
  on_library (modify (log_call (preview_call s voiceShortName))) ;;
  modify (set_stage (Asking voiceShortName)).

Definition preview_over : M library unit := modify (set_stage Idle) ;; modify (set_previewing None).

(** Behind the [await] of the request; a failure ends the preview. *)
Definition previewAnswered (voice : string) (answer : result reply) : M library unit :=
  try_catch (
    response ← lift answer;
    (if res_ok response then ret tt else throw (Error "Network response was not ok")) ;;
    data ← lift (a_json response);
    _ ← lift (get data "url");
    modify (set_stage (Sounding voice)))
    (fun _ => preview_over).

Definition handleSetDefault (voiceShortName : string) : M library unit :=
  on_library (updateSetting "automation.defaultVoice" (VStr voiceShortName)).

Definition handleResetPreviewText : M library unit :=
  modify (set_previewText DEFAULT_PREVIEW_TEXT) ;; modify (set_previewMinutes DEFAULT_MINUTES).

(** [Math.max(0, Math.min(60, parseInt(text) || 0))] *)
Definition typed_minutes (text : string) : Z := Z.max 0 (Z.min 60 (default 0 (parse_int_any text))).

(** ** What the user and the browser can do *)
Inductive library_event :=
| TypeSearch (text : string) | PickGender (g : string) | PickLocale (l : string)
| FoldPreview | PickPrayer (p : string) | TypeTemplate (text : string) | TypeMinutes (text : string) | ResetPreview
| PlayPreview (voice : val) | PreviewAnswered (answer : result reply) | PreviewEnded | PreviewFailed
| SetDefault (voice : val).

Definition row_here (s : library) (voice : val) : bool :=
  rows_shown s && existsb (val_eqb voice) (filteredVoices s).

Definition library_handler (e : library_event) : M library unit := fun s =>
  match e with
  | TypeSearch text => modify (set_search text)
  | PickGender g => when (existsb (String.eqb g) ["All"; "Male"; "Female"]) (modify (set_gender g))
  | PickLocale l => when (existsb (String.eqb l) (locales s)) (modify (set_locale l))
  | FoldPreview => modify (set_collapsed (negb (li_collapsed s)))
  | PickPrayer p => when (existsb (String.eqb p) PREVIEW_PRAYERS) (modify (set_previewPrayer p))
  | TypeTemplate text => when (utf16_length text <=? 50) (modify (set_previewText text))
  | TypeMinutes text => modify (set_previewMinutes (typed_minutes text))
  | ResetPreview => handleResetPreviewText
  | PlayPreview voice =>
      when (row_here s voice && match li_previewing s with None => true | Some _ => false end)
        (handlePlayPreview (voice_name voice))
  | PreviewAnswered answer => match li_stage s with Asking v => previewAnswered v answer | _ => ret tt end
  | PreviewEnded | PreviewFailed => match li_stage s with Sounding _ => preview_over | _ => ret tt end
  | SetDefault voice =>
      when (row_here s voice && match row_of s (voice_name voice) with SetDefaultButton => true | _ => false end)
        (handleSetDefault (voice_name voice))
  end s.

Definition library_run (c : client) (l : list library_event) : library :=
  foldl (fun s e => (library_handler e s).2) (first_library c) l.

(** ** Lemmas: the table of the locales *)
(** The names split into language and region without loss: every name of the table
    is its language and, in brackets, its region. *)
Theorem locale_names_split l name :
  locale_name l = Some name -> name = getLanguage l +:+ " (" +:+ getRegion l +:+ ")" /\ getRegion l <> "".
Proof.
  assert (forallb (fun e => match locale_name e.1 with
      | Some name => String.eqb name (getLanguage e.1 +:+ " (" +:+ getRegion e.1 +:+ ")") && negb (String.eqb (getRegion e.1) "")
      | None => false end) LOCALE_NAMES = true) as H by (vm_compute; reflexivity).
  intros E. assert (In l LOCALE_NAMES.*1) as Hin.
  { unfold locale_name in E. revert E. clear H. induction LOCALE_NAMES as [|[k n] t IH]; [done|]. cbn.
    destruct (String.eqb_spec k l) as [->|_]; [by left|]. intros E. right. by apply IH. }
  rewrite forallb_forall in H. apply list_elem_of_In, list_elem_of_fmap in Hin as ([k n] & -> & Hin).
  apply list_elem_of_In in Hin. specialize (H _ Hin). cbn [fst] in *. rewrite E in H.
  apply andb_prop in H as [->%String.eqb_eq H]. split; [done|]. intros Hr. by rewrite Hr in H.
Qed.

(** A cleaned name is never empty unless the name is. *)
Lemma cleanVoiceName_nonempty name : cleanVoiceName name = "" <-> name = "".
Proof.
  unfold cleanVoiceName. split; [|by intros ->]. set (c := trim _).
  destruct (String.eqb_spec c "") as [E|E]; [done|]. by intros ->.
Qed.

(** ** Lemmas: the filters *)
Lemma filteredVoices_in s v :
  v ∈ filteredVoices s <-> v ∈ voices_of s /\ voice_found (li_search s) (li_gender s) (li_locale s) v = true.
Proof. unfold filteredVoices. rewrite !list_elem_of_In. apply filter_In. Qed.

Lemma includes_empty t : includes "" t = true.
Proof. by destruct t. Qed.

Lemma locales_in s l : l ∈ locales s <-> l = "All" \/ exists v, v ∈ voices_of s /\ voice_locale v = l.
Proof.
  unfold locales. rewrite elem_of_cons, merge_sort_Permutation, elem_of_remove_dups, list_elem_of_fmap. naive_solver.
Qed.

(** The filter of the locales offers what there is.  Without a search and a
    gender, each locale it offers lists exactly the voices of that locale, at
    least one, and every voice is listed under a locale it offers. *)
Theorem locale_filter_exact s :
  li_search s = "" -> li_gender s = "All" ->
  Forall (fun v => prop v "Locale" = VStr (voice_locale v) /\ voice_locale v <> "All") (voices_of s) ->
  (forall l, l ∈ locales s -> l <> "All" ->
     filteredVoices (set_locale l s) <> [] /\
     forall v, v ∈ filteredVoices (set_locale l s) <-> v ∈ voices_of s /\ voice_locale v = l) /\
  (forall v, v ∈ voices_of s -> voice_locale v ∈ locales s) /\
  filteredVoices (set_locale "All" s) = voices_of s.
Proof.
  intros Hs Hg Hv. rewrite Forall_forall in Hv.
  assert (forall l v, l <> "All" -> v ∈ filteredVoices (set_locale l s) <-> v ∈ voices_of s /\ voice_locale v = l) as Hl.
  { intros l v Hne. rewrite filteredVoices_in. unfold voice_found. cbn [li_search li_gender li_locale set_locale].
    rewrite Hs, Hg, !includes_empty. cbn [to_lower smap orb String.eqb andb Ascii.eqb Bool.eqb].
    rewrite (proj2 (String.eqb_neq l "All") Hne). cbn [orb]. split; intros [Hin H]; split; try done.
    - destruct (Hv v Hin) as [E _]. rewrite E in H. cbn in H. by apply String.eqb_eq in H.
    - destruct (Hv v Hin) as [E _]. rewrite E, H. cbn. apply String.eqb_refl. }
  split; [|split].
  - intros l Hin Hne. split; [|by intros v; apply Hl]. apply locales_in in Hin as [?|(v & Hin & <-)]; [done|].
    intros E. assert (v ∈ filteredVoices (set_locale (voice_locale v) s)) as H by (by apply Hl). by rewrite E in H; apply elem_of_nil in H.
  - intros v Hin. apply locales_in. right. by exists v.
  - unfold filteredVoices. cbn [li_search li_gender li_locale set_locale]. change (voices_of (set_locale "All" s)) with (voices_of s).
    rewrite Hs, Hg. clear. induction (voices_of s) as [|v l IH]; [done|]. cbn [List.filter]. unfold voice_found at 1.
    rewrite includes_empty. cbn [to_lower smap orb String.eqb andb Ascii.eqb Bool.eqb]. f_equal. apply IH.
Qed.

(** ** Lemmas: previews *)
Section previews.

(** What holds of the library at any time *)
Record library_ok (s : library) : Prop := {
  lo_stage : li_previewing s = match li_stage s with Idle => None | Asking v | Sounding v => Some v end;
  lo_text : utf16_length (li_previewText s) <= 50;
  lo_minutes : 0 <= li_previewMinutes s <= 60;
  lo_prayer : li_previewPrayer s ∈ PREVIEW_PRAYERS
}.

Lemma typed_minutes_range text : 0 <= typed_minutes text <= 60.
Proof. unfold typed_minutes. lia. Qed.

Lemma first_library_ok c : library_ok (first_library c).
Proof. split; cbn; try done. set_solver. Qed.

Lemma existsb_eqb_in x l : existsb (String.eqb x) l = true -> x ∈ l.
Proof. intros (y & Hy & ->%String.eqb_eq)%existsb_exists. by apply list_elem_of_In. Qed.

Lemma previewAnswered_cases voice a s :
  (previewAnswered voice a s).2 = set_stage (Sounding voice) s \/
  (previewAnswered voice a s).2 = set_previewing None (set_stage Idle s).
Proof.
  unfold previewAnswered, preview_over. munfold. destruct a as [res|e]; [|by right].
  destruct (res_ok res); [|by right]. destruct (a_json res) as [d|]; [|by right]. destruct (get d "url"); [by left|by right].
Qed.

Lemma library_step e s : library_ok s -> library_ok (library_handler e s).2.
Proof.
  intros Hok. unfold library_handler, when.
  destruct e as [text|g|l|  |p|text|text| |voice|answer| | |voice]; try (by destruct Hok; split).
  - destruct (existsb _ _); [by destruct Hok; split|done].
  - destruct (existsb _ _); [by destruct Hok; split|done].
  - destruct (existsb _ _) eqn:E; [|done]. apply existsb_eqb_in in E. by destruct Hok; split.
  - destruct (utf16_length text <=? 50) eqn:E; [|done]. apply Z.leb_le in E. by destruct Hok; split.
  - pose proof (typed_minutes_range text). by destruct Hok; split.
  - destruct (row_here s voice && _); [|done]. by destruct Hok; split.
  - destruct (li_stage s) as [|v|v] eqn:E; [done| |done]. destruct Hok as [H1 H2 H3 H4]. rewrite E in H1.
    destruct (previewAnswered_cases v answer s) as [-> | ->]; by split.
  - destruct (li_stage s); try done. by destruct Hok; split.
  - destruct (li_stage s); try done. by destruct Hok; split.
  - destruct (row_here s voice && _); [|done]. unfold handleSetDefault, on_library.
    destruct (updateSetting _ _ _) as [r c]. by destruct Hok; split.
Qed.

(** The requests the library makes *)
Definition preview_request (c : client) (q : call) : Prop :=
  exists text prayer minutes voice,
    q = Call "POST" "/api/system/preview-tts"
          (VObj [("template", VStr text); ("prayerKey", VStr prayer); ("offsetMinutes", VInt minutes); ("voice", VStr (voice_name voice))]) /\
    utf16_length text <= 50 /\ prayer ∈ PREVIEW_PRAYERS /\ 0 <= minutes <= 60 /\ voice ∈ arr_of (k_voices c).

Lemma row_here_in s voice : row_here s voice = true -> voice ∈ voices_of s.
Proof.
  intros [_ H]%andb_prop. apply existsb_exists in H as (x & Hx & ->%val_eqb_eq).
  by apply list_elem_of_In, filteredVoices_in in Hx as [Hx _].
Qed.

Lemma updateSetting_keeps path value c :
  k_voices (updateSetting path value c).2 = k_voices c /\ k_sent (updateSetting path value c).2 = k_sent c.
Proof. unfold updateSetting. destruct (truthy _); [|done]. by destruct (set_at _ _ _). Qed.

(** A step sends nothing, but a preview of a listed voice. *)
Lemma library_sends e s :
  library_ok s -> k_voices (li_client (library_handler e s).2) = k_voices (li_client s) /\
  (k_sent (li_client (library_handler e s).2) = k_sent (li_client s) \/
   exists q, k_sent (li_client (library_handler e s).2) = k_sent (li_client s) ++ [q] /\ preview_request (li_client s) q).
Proof.
  intros Hok. unfold library_handler, when.
  destruct e as [text|g|l|  |p|text|text| |voice|answer| | |voice]; try (split; [done|by left]);
    try (case_match; split; try done; by left).
  - destruct (row_here s voice && _) eqn:E; [|by split; [|left]]. apply andb_prop in E as [E _]. split; [done|right].
    eexists. split; [done|]. destruct Hok. eexists _, _, _, voice. split; [done|]. do 3 (split; [done|]). by apply row_here_in.
  - destruct (li_stage s) as [|v|v]; try (split; [done|by left]).
    destruct (previewAnswered_cases v answer s) as [-> | ->]; (split; [done|by left]).
  - destruct (row_here s voice && _); [|by split; [|left]]. unfold handleSetDefault, on_library.
    pose proof (updateSetting_keeps "automation.defaultVoice" (VStr (voice_name voice)) (li_client s)) as [H1 H2].
    destruct (updateSetting _ _ _) as [r c]. cbn in *. split; [done|by left].
Qed.

Lemma run_sends c l :
  let s := library_run c l in
  library_ok s /\ k_voices (li_client s) = k_voices c /\
  forall q, q ∈ k_sent (li_client s) -> q ∈ k_sent c \/ preview_request c q.
Proof.
  cbv zeta. induction l as [|e l (Hok & Hv & Hq)] using rev_ind; [split_and!; [apply first_library_ok|done|by left]|].
  unfold library_run in *. rewrite foldl_app. cbn [foldl]. set (s := foldl _ _ l) in *.
  destruct (library_sends e s Hok) as [Ev Es]. split; [by apply library_step|]. split; [congruence|]. intros q Hin.
  destruct Es as [Es|(x & Es & Hx)]; rewrite Es in Hin; [by apply Hq|].
  apply elem_of_app in Hin as [Hin|Hin]; [by apply Hq|]. apply list_elem_of_singleton in Hin as ->. right.
  unfold preview_request in *. by rewrite Hv in Hx.
Qed.

(** Every preview ends: the buttons are free again once the answer failed, or the
    audio ended or failed. *)
Theorem preview_ends s voice a e :
  row_here s voice = true -> li_previewing s = None -> e = PreviewEnded \/ e = PreviewFailed ->
  let step s e := (library_handler e s).2 in
  let s1 := step s (PlayPreview voice) in
  li_previewing s1 = Some (voice_name voice) /\
  k_sent (li_client s1) = k_sent (li_client s) ++ [preview_call s (voice_name voice)] /\
  (li_previewing (step s1 (PreviewAnswered a)) = None \/ li_previewing (step (step s1 (PreviewAnswered a)) e) = None).
Proof.
  intros Hr Hn He step s1. assert (s1 = set_stage (Asking (voice_name voice)) (set_library_client
    (log_call (preview_call s (voice_name voice)) (li_client s)) (set_previewing (Some (voice_name voice)) s))) as E1.
  { unfold s1, step, library_handler, when. by rewrite Hr, Hn. }
  split; [by rewrite E1|]. split; [by rewrite E1|].
  assert (step s1 (PreviewAnswered a) = (previewAnswered (voice_name voice) a s1).2) as ->
    by (unfold step, library_handler; by rewrite E1).
  destruct (previewAnswered_cases (voice_name voice) a s1) as [-> | ->]; [right|by left].
  by destruct He as [-> | ->].
Qed.
End previews.

(** *** At the server *)
Section server.
Context `{L : Luxon} `{N : Net} `{T : Tts} `{W : Words} `{G : Digest}.

(** The server refuses no preview for what the library sends.  A preview request of
    a run is within the limits the server checks: unless its template was emptied,
    the handler does not answer with a refusal of the request, but with the audio
    or the failure to make it. *)
Theorem previews_accepted c l q req w r w' :
  q ∈ k_sent (li_client (library_run c l)) -> q ∉ k_sent c ->
  Forall (fun v => voice_name v <> "") (arr_of (k_voices c)) ->
  rq_body req = q_body q -> prop (q_body q) "template" <> VStr "" ->
  previewTTS_handler req w = (Ok r, w') ->
  q_url q = "/api/system/preview-tts" /\ (Http.rp_status r = 200 \/ Http.rp_status r = 500).
Proof.
  intros Hin Hn Hv Hb Ht E. destruct (run_sends c l) as (_ & _ & H). destruct (H q Hin) as [?|Hq]; [done|].
  destruct Hq as (text & prayer & minutes & voice & -> & Hlen & Hp & _ & Hvoice). split; [done|].
  rewrite Forall_forall in Hv. specialize (Hv voice Hvoice). unfold previewTTS_handler in E. rewrite Hb in E.
  assert (prayer <> "") as Hpr by (intros ->; unfold PREVIEW_PRAYERS in Hp; set_solver).
  assert (text <> "") as Htx by (intros ->; by apply Ht).
  munfold. cbn [q_body get prop oget String.eqb Ascii.eqb Bool.eqb truthy] in E.
  apply String.eqb_neq in Hv, Hpr, Htx. rewrite Hv, Hpr, Htx in E. cbn [negb orb] in E.
  assert (longer_than 50 (VStr text) = false) as Hl.
  { unfold longer_than. cbn [js_length to_number VInt]. apply negb_false_iff, Qle_bool_iff. by rewrite <- Zle_Qle. }
  rewrite Hl in E.
  destruct (preview _ _ _ _ w) as [[data|e] w1]; injection E as <- _; [by left|by right].
Qed.
End server.

(** ** The default voice *)

(** What is picked is marked and spoken.  Picking a voice as the default marks its
    row and no other, and once the draft is the configuration of the server, every
    announcement without a voice of its own is made with it. *)
Theorem default_voice_spoken voice s s' :
  truthy (k_draftConfig (li_client s)) = true ->
  no_array_on ["automation"; "defaultVoice"] (json_clone (k_draftConfig (li_client s))) ->
  voice <> "" -> handleSetDefault voice s = (Ok tt, s') ->
  (forall other, row_of s' other = SetDefaultButton <-> other <> voice) /\
  (forall settings, effective_voice settings (k_draftConfig (li_client s')) = js_or (prop settings "voice") (VStr voice)) /\
  k_config (li_client s') = k_config (li_client s).
Proof.
  intros Hd Hn Hv E. unfold handleSetDefault, on_library in E.
  destruct (updateSetting _ _ _) as [r c] eqn:Eu. injection E as -> <-.
  destruct (updateSetting_lens "automation.defaultVoice" (VStr voice) (li_client s) c Hd Hn Eu) as (Hg & _ & Hc & _).
  rewrite getVal_walk in Hg. change (walk (split_on "." "automation.defaultVoice") (k_draftConfig c)) with (default_voice (k_draftConfig c)) in Hg.
  assert (truthy (VStr voice) = true) as Ht by (by apply truthy_str). split; [|split; [|exact Hc]].
  - intros other. unfold row_of, hasPendingChange, pendingDefault, savedDefault. cbn [li_client set_library_client].
    rewrite Hg, Ht. cbn [andb]. set (saved := default_voice (k_config c)).
    destruct (seq (VStr voice) saved) eqn:Es; cbn [negb andb]; rewrite ?andb_true_r, ?andb_false_r.
    + assert (saved = VStr voice) as ->.
      { destruct saved; try done. cbn in Es. by apply String.eqb_eq in Es as ->. }
      cbn [seq]. destruct (String.eqb_spec voice other) as [->|Hne]; [done|]. by split; [intros _ ->|].
    + cbn [seq]. destruct (String.eqb_spec voice other) as [->|Hne]; [done|]. by split; [intros _ ->|].
  - intros settings. unfold effective_voice. cbn [li_client set_library_client].
    change (prop (prop (k_draftConfig c) "automation") "defaultVoice") with (default_voice (k_draftConfig c)).
    by rewrite Hg, (js_or_truthy _ _ Ht).
Qed.

(** With no default stored, no row is marked, and the server speaks with a voice of its own. *)
Theorem unset_default_unmarked s voice :
  savedDefault s = VUndef -> pendingDefault s = VUndef ->
  row_of s voice = SetDefaultButton /\ effective_voice VUndef (k_config (li_client s)) = VStr "ar-SA-HamedNeural".
Proof.
  intros Hs Hp. unfold row_of, effective_voice. rewrite Hs, Hp. split; [done|]. unfold savedDefault, default_voice in Hs.
  by rewrite Hs.
Qed.

(** ** The library at work *)
Section at_work.
Definition voice_entry (name locale gender : string) : val :=
  VObj [("Name", VStr name); ("ShortName", VStr name); ("Locale", VStr locale); ("Gender", VStr gender)].
Definition hamed : val := voice_entry "ar-SA-HamedNeural" "ar-SA" "Male".
Definition ryan : val := voice_entry "en-GB-RyanNeural" "en-GB" "Male".
Definition voice_page : client :=
  let c := VObj [("automation", VObj [("defaultVoice", VStr "ar-SA-HamedNeural")])] in
  Client c c (VObj []) false false false (VArr [ryan; hamed]) false VNull (VArr []) false true [].

Lemma names_cleaned :
  cleanVoiceName "Microsoft Ryan Online (Natural) - English (United Kingdom)" = "Ryan" /\
  cleanVoiceName "HamedNeural" = "HamedNeural" /\ getRegion "en-GB" = "UK" /\ getLanguage "ar-SA" = "Arabic".
Proof. by vm_compute. Qed.

Lemma locale_filter_exact_witness :
  filteredVoices (set_locale "en-GB" (first_library voice_page)) <> [] /\ locales (first_library voice_page) = ["All"; "ar-SA"; "en-GB"].
Proof.
  split; [|vm_compute; reflexivity].
  apply (locale_filter_exact (first_library voice_page)); [reflexivity|reflexivity| | |discriminate].
  - repeat constructor; discriminate.
  - vm_compute. right. right. left.
Defined.

Lemma preview_ends_witness :
  li_previewing (library_handler (PlayPreview ryan) (first_library voice_page)).2 = Some "en-GB-RyanNeural".
Proof.
  apply (preview_ends (first_library voice_page) ryan (Throw (Error "offline")) PreviewEnded);
    [vm_compute; reflexivity|reflexivity|by left].
Defined.

Lemma default_voice_spoken_witness :
  exists s', handleSetDefault "en-GB-RyanNeural" (first_library voice_page) = (Ok tt, s') /\
    row_of s' "en-GB-RyanNeural" = PendingSave /\ row_of s' "ar-SA-HamedNeural" = SetDefaultButton.
Proof.
  eexists. split; [vm_compute; reflexivity|]. split; [vm_compute; reflexivity|].
  eapply (default_voice_spoken "en-GB-RyanNeural" (first_library voice_page));
    [reflexivity|vm_compute; tauto|discriminate|vm_compute; reflexivity|discriminate].
Defined.
End at_work.
