(* ===== verification/DisplaySettings.v ===== *)
(** * The display settings of a device
      ([client/src/components/settings/ClientSettingsModal.jsx])

    A dialogue over the dashboard with what this device shows and plays: the
    switches of the appearance, and a table with a button per announcement that
    mutes it here, which warns where the server does not announce at all.  The
    warnings are compared with the plan of the scheduler. *)
From S2P Require Import Prelude JsString JsValue World Luxon LuxonUtc Calculations PrayerTimes.
From S2P Require Import Scheduler ClientPrefs.
From S2P Require Import ClientSettings SettingsShell.

(** ** The table *)
Definition PRAYERS : list (string * string) :=
  [("fajr", "Fajr"); ("sunrise", "Sunrise"); ("dhuhr", "Dhuhr"); ("asr", "Asr"); ("maghrib", "Maghrib"); ("isha", "Isha")].
Definition EVENT_LABELS : list (string * string) :=
  [("preAdhan", "Pre-Adhan"); ("adhan", "Adhan"); ("preIqamah", "Pre-Iqamah"); ("iqamah", "Iqamah")].
(** [e.label.split("-")[0]] *)
Definition column_head (label : string) : string := before_char "-" label.

Definition skipped_cell (p e : string) : bool :=
  String.eqb p "sunrise" && (String.eqb e "preIqamah" || String.eqb e "iqamah").

(** [v ?? d] *)
Definition nullish (v d : val) : val := if is_nullish v then d else v.

Section cells.
Context (config : val).

Definition globalEnabled : bool :=
  truthy (nullish (prop (prop (prop config "automation") "global") "enabled") (VBool true)).
Definition eventTypeEnabled (e : string) : bool :=
  truthy (nullish (prop (prop (prop config "automation") "global") (e +:+ "Enabled")) (VBool true)).
Definition triggerEnabled (p e : string) : bool :=
  truthy (nullish (prop (prop (prop (prop (prop config "automation") "triggers") p) e) "enabled") (VBool false)).
Definition isActive (p e : string) : bool := globalEnabled && eventTypeEnabled e && triggerEnabled p e.

Definition disabledReason (p e label : string) : option string :=
  if negb globalEnabled then Some "Automation is globally disabled"
  else if negb (eventTypeEnabled e) then Some (label +:+ " events are disabled globally")
  else if negb (triggerEnabled p e) then Some "This automation is disabled system-wide"
  else None.

Record cell := Cell { ce_muted : bool; ce_warning : option string }.
Definition cell_of (preferences : val) (p e : string) : option cell :=
  if skipped_cell p e then None else
  let label := match find (fun kv => String.eqb kv.1 e) EVENT_LABELS with Some kv => kv.2 | None => "" end in
  Some (Cell (isAudioExcluded p e preferences) (if isActive p e then None else disabledReason p e label)).
End cells.

(** ** The dialogue *)
Record modal := Modal { md_tab : string; md_open : bool; md_preferences : val; md_client : client }.
Definition set_tab (t : string) (s : modal) : modal := Modal t (md_open s) (md_preferences s) (md_client s).
Definition onClose (s : modal) : modal := Modal (md_tab s) false (md_preferences s) (md_client s).
Definition change_preferences (o : pref_op) (s : modal) : modal :=
  Modal (md_tab s) (md_open s) (apply_op o (md_preferences s)) (md_client s).
Definition first_modal (preferences : val) (c : client) : modal := Modal "appearance" true preferences c.

Section handlers.
Context `{B : Backend}.

Definition on_modal {A} (m : M client A) : M modal A := fun s =>
  let '(r, c) := m (md_client s) in (r, Modal (md_tab s) (md_open s) (md_preferences s) c).

(** The settings are fetched and the dialogue closes; [refresh] is not awaited. *)
Definition handleRestartDashboardTour : M modal unit :=
  try_catch (
    _ ← on_modal (fetch "PATCH" "/api/settings/tour-state" (VObj [("dashboardSeen", VBool false)]));
    _ ← settle (on_modal refresh);
    modify onClose)
    (fun _ => modify onClose).

(** The buttons; a switch is turned over, a choice is one of those shown. *)
Inductive modal_event :=
| PickTab (tab : string) | Close | RestartTour
| Pick (key : string) (choice : string) | Flip (key : string)
| FlipCell (p e : string) | Mute | Unmute.

Definition CHOICES : list (string * list string) :=
  [("clockFormat", ["12h"; "24h"]); ("prayerNameLanguage", ["english"; "arabic"]);
   ("countdownMode", ["normal"; "digital"; "minimal"]); ("theme", ["dark"; "light"])].
Definition APPEARANCE_SWITCHES : list string := ["showSeconds"; "enableDateNavigation"].
Definition SYSTEM_SWITCHES : list string := ["skipSunriseCountdown"; "wakeLockAutoStart"; "autoUnmute"].

Definition shown_choice (tab key choice : string) : bool :=
  String.eqb tab "appearance" &&
  existsb (fun kv => String.eqb kv.1 key && existsb (String.eqb choice) kv.2) CHOICES.
Definition shown_switch (wakeLock_isSupported : bool) (tab key : string) : bool :=
  String.eqb tab "appearance" && existsb (String.eqb key) APPEARANCE_SWITCHES ||
  String.eqb tab "system" && existsb (String.eqb key) SYSTEM_SWITCHES &&
    (negb (String.eqb key "wakeLockAutoStart") || wakeLock_isSupported).
Definition shown_cell (tab p e : string) : bool :=
  String.eqb tab "prayers" && existsb (fun kv => String.eqb kv.1 p) PRAYERS &&
  existsb (fun kv => String.eqb kv.1 e) EVENT_LABELS && negb (skipped_cell p e).

Definition modal_handler (wakeLock_isSupported : bool) (e : modal_event) : M modal unit := fun s =>
  when (md_open s) (match e with
  | PickTab tab => when (existsb (String.eqb tab) ["appearance"; "prayers"; "system"]) (modify (set_tab tab))
  | Close => modify onClose
  | RestartTour => when (String.eqb (md_tab s) "system") handleRestartDashboardTour
  | Pick key choice =>
      when (shown_choice (md_tab s) key choice) (modify (change_preferences (SetAppearance key (VStr choice))))
  | Flip key =>
      when (shown_switch wakeLock_isSupported (md_tab s) key)
        (modify (change_preferences (SetAppearance key
           (VBool (negb (truthy (prop (prop (md_preferences s) "appearance") key)))))))
  | FlipCell p e => when (shown_cell (md_tab s) p e) (modify (change_preferences (ToggleExclusion p e)))
  | Mute => when (String.eqb (md_tab s) "prayers") (modify (change_preferences MuteAll))
  | Unmute => when (String.eqb (md_tab s) "prayers") (modify (change_preferences UnmuteAll))
  end) s.

Definition modal_run (wakeLock_isSupported : bool) (preferences : val) (c : client) (l : list modal_event) : modal :=
  foldl (fun s e => (modal_handler wakeLock_isSupported e s).2) (first_modal preferences c) l.
End handlers.

(** ** The warnings and the plan *)

(** A switch as the schema has it: a boolean, or not there *)
Definition switch_ok (v : val) : Prop := is_nullish v = true \/ exists b, v = VBool b.

Lemma switch_on v : switch_ok v -> truthy (nullish v (VBool true)) = negb (seq v (VBool false)).
Proof. intros [H|[[] ->]]; try done. unfold nullish. rewrite H. by destruct v. Qed.

Lemma trigger_on v : truthy (nullish v (VBool false)) = truthy v.
Proof. unfold nullish. destruct (is_nullish v) eqn:E; [by destruct v|done]. Qed.

Definition switches_ok (config : val) : Prop :=
  let global := prop (prop config "automation") "global" in
  Forall (fun k => switch_ok (prop global k)) ("enabled" :: eventTypeMap.*2).

(** The switches of the table are those of the scheduler. *)
Lemma switches_match config e :
  switches_ok config -> e ∈ eventTypeMap.*1 ->
  globalEnabled config && eventTypeEnabled config e = negb (switched_off config e).
Proof.
  intros H He. unfold globalEnabled, eventTypeEnabled, switched_off. unfold switches_ok in H.
  set (global := prop (prop config "automation") "global") in *. apply Forall_cons in H as [Hg Ht].
  assert (exists kv, find (fun kv => String.eqb kv.1 e) eventTypeMap = Some kv /\ kv.2 = e +:+ "Enabled" /\ kv.2 ∈ eventTypeMap.*2)
    as (kv & Hf & Hk & Hin).
  { unfold eventTypeMap in *. cbn [fmap list_fmap fst snd] in *. set_unfold in He.
    destruct He as [->|[->|[->|[->|[]]]]]; eexists; (split; [reflexivity|]); (split; [reflexivity|]); set_solver. }
  rewrite Hf, <- Hk. rewrite Forall_forall in Ht. rewrite (switch_on _ Hg), (switch_on _ (Ht _ Hin)).
  destruct (truthy global) eqn:Eg; cbn [andb]; [by destruct (seq _ _), (seq _ _)|].
  by rewrite !(prop_falsy global) by done.
Qed.

Section table.
Context `{L : Luxon}.

Lemma in_pair triggers time event preEvent e :
  event <> preEvent -> is_ok (duration_unit (js_or (prop (prop triggers preEvent) "offsetMinutes") (VInt 0))) = true ->
  (exists t, (t, e) ∈ events_of_pair triggers time event preEvent) <->
  (e = event \/ e = preEvent) /\ enabled_trigger triggers e = true.
Proof.
  intros Hne Hok. unfold events_of_pair, minus_minutes. destruct (duration_unit _) as [q|]; [|done]. cbn [mbind result_bind].
  split.
  - intros (t & [H|H]%elem_of_app).
    + destruct (enabled_trigger triggers event) eqn:E; [|by apply elem_of_nil in H].
      apply list_elem_of_singleton in H as [= -> ->]. auto.
    + destruct (enabled_trigger triggers preEvent) eqn:E; [|by apply elem_of_nil in H].
      apply list_elem_of_singleton in H as [= -> ->]. auto.
  - intros [[-> | ->] E]; rewrite E; eexists; apply elem_of_app; [left|right]; apply list_elem_of_singleton; reflexivity.
Qed.

Lemma ex_in_app (a b : list (dt * string)) e :
  (exists t, (t, e) ∈ a ++ b) <-> (exists t, (t, e) ∈ a) \/ (exists t, (t, e) ∈ b).
Proof. setoid_rewrite elem_of_app. naive_solver. Qed.

(** The events of a day with a start and, but for sunrise, a congregation time *)
Lemma in_day config data triggers tz p e :
  p ∈ AudioAssets.PRAYER_NAMES -> e ∈ EVENT_LABELS.*1 ->
  truthy (prop (prop data "prayers") p) = true -> computable config data triggers tz = true ->
  (p <> "sunrise" -> exists t, iqamah_time config data tz p (prop (prop data "prayers") p) = Ok (Some t)) ->
  (exists t, (t, (p, e)) ∈ day_events config data triggers tz) <->
  skipped_cell p e = false /\ enabled_trigger (prop triggers p) e = true.
Proof.
  intros Hp He Hs Hc Hi.
  assert ((exists t, (t, (p, e)) ∈ day_events config data triggers tz) <->
          (exists t, (t, (p, e)) ∈ prayer_events config data triggers tz p)) as ->.
  { unfold day_events. split.
    - intros (t & H). exists t. apply list_elem_of_join in H as (l & Hin & Hl). apply list_elem_of_fmap in Hl as (q & -> & Hq).
      assert (q = p) as ->; [|done]. unfold prayer_events in Hin. cbv zeta in Hin. destruct (_ && _); [|by apply elem_of_nil in Hin].
      apply list_elem_of_fmap in Hin as ([? ?] & [= _ -> _] & _). done.
    - intros (t & H). exists t. apply list_elem_of_join. eexists. split; [exact H|]. by apply list_elem_of_fmap_2. }
  unfold prayer_events. cbv zeta. rewrite Hs, andb_true_r.
  destruct (truthy (prop triggers p)) eqn:Et; cycle 1.
  { unfold enabled_trigger. rewrite (prop_falsy _ e Et). split; [by intros (t & H%elem_of_nil)|by intros [_ ?]]. }
  unfold computable in Hc. rewrite forallb_forall in Hc. specialize (Hc p ltac:(by apply list_elem_of_In)).
  cbv zeta in Hc. rewrite Et, Hs in Hc. cbn [andb negb orb] in Hc. apply andb_prop in Hc as [_ Hd].
  rewrite forallb_forall in Hd. pose proof (Hd "preAdhan" (or_introl eq_refl)) as Hd1.
  pose proof (Hd "preIqamah" (or_intror (or_introl eq_refl))) as Hd2. clear Hd.
  set (start := dt_parse _ _).
  assert (forall l : list (dt * string), (exists t, (t, (p, e)) ∈ (fun te : dt * string => (te.1, (p, te.2))) <$> l) <-> exists t, (t, e) ∈ l) as Hmap.
  { intros l. split; intros (t & H).
    - apply list_elem_of_fmap in H as ([t' e'] & [= -> ->] & H). by exists t'.
    - exists t. apply list_elem_of_fmap. by exists (t, e). }
  rewrite Hmap. rewrite ex_in_app.
  rewrite (in_pair (prop triggers p) start "adhan" "preAdhan") by done.
  destruct (decide (p = "sunrise")) as [->|Hne].
  - unfold iqamah_time. cbn [String.eqb Ascii.eqb Bool.eqb]. split.
    + intros [[[-> | ->] H]|[t H%elem_of_nil]]; done.
    + intros [Hk H]. left. split; [|done]. cbn in He. set_unfold in He.
      destruct He as [->|[->|[->|[->|[]]]]]; cbn in Hk; auto; done.
  - destruct (Hi Hne) as [time ->]. rewrite (in_pair (prop triggers p) time "iqamah" "preIqamah") by done.
    assert (skipped_cell p e = false) as -> by (unfold skipped_cell; by rewrite (proj2 (String.eqb_neq _ _) Hne)).
    split; [by intros [[_ H]|[_ H]]|]. intros [_ H]. cbn in He. set_unfold in He.
    destruct He as [->|[->|[->|[->|[]]]]]; auto.
Qed.

(** C36: The warnings of the table are true.  On a day whose times are there, the
    scheduler plans an announcement, to be played, made up for or just missed,
    exactly when the table has a button for it without a warning; where it
    warns, or has no button, nothing is announced. *)
Theorem table_matches_plan config data now preferences p e :
  let triggers := prop (prop config "automation") "triggers" in
  switches_ok config -> p ∈ PRAYERS.*1 -> e ∈ EVENT_LABELS.*1 ->
  truthy (prop (prop data "prayers") p) = true -> computable config data triggers (zone_of config) = true ->
  (p <> "sunrise" -> exists t, iqamah_time config data (zone_of config) p (prop (prop data "prayers") p) = Ok (Some t)) ->
  (exists o, ((p, e), o) ∈ plan config data now /\ o <> Off) <->
  exists muted, cell_of config preferences p e = Some (Cell muted None).
Proof.
  intros triggers Hsw Hp He Hs Hc Hi.
  assert ((exists muted, cell_of config preferences p e = Some (Cell muted None)) <->
          skipped_cell p e = false /\ isActive config p e = true) as ->.
  { unfold cell_of, disabledReason, isActive. destruct (skipped_cell p e); [split; [by intros [? ?]|by intros [? _]]|].
    destruct (globalEnabled config); cbn [andb negb]; [|split; [by intros [? [=]]|by intros [_ ?]]].
    destruct (eventTypeEnabled config e); cbn [andb negb]; [|split; [by intros [? [=]]|by intros [_ ?]]].
    destruct (triggerEnabled config p e); cbn [negb]; [|split; [by intros [? [=]]|by intros [_ ?]]].
    split; [done|]. intros _. by eexists. }
  assert (e ∈ eventTypeMap.*1) as Hm by exact He.
  unfold isActive. rewrite (switches_match config e Hsw Hm).
  assert (triggerEnabled config p e = enabled_trigger (prop triggers p) e) as -> by apply trigger_on.
  assert (skipped_cell p e = false /\ negb (switched_off config e) && enabled_trigger (prop triggers p) e = true <->
          switched_off config e = false /\ (skipped_cell p e = false /\ enabled_trigger (prop triggers p) e = true)) as ->.
  { rewrite andb_true_iff, negb_true_iff. tauto. }
  rewrite <- (in_day config data triggers (zone_of config)) by done.
  unfold plan, outcomes. fold triggers. split.
  - intros (o & H & Ho). apply list_elem_of_fmap in H as ([t [p' e']] & [= -> -> ->] & H). cbn in Ho. split; [|by exists t].
    unfold outcome_of in Ho. cbn in Ho. by destruct (switched_off config e').
  - intros (Hoff & t & H). eexists. split; [apply list_elem_of_fmap; exists (t, (p, e)); split; [reflexivity|exact H]|].
    cbn. unfold outcome_of. cbn. rewrite Hoff. destruct (dt_ms _); [|done]. by repeat case_match.
Qed.
End table.

(** ** The preferences of the dialogue *)
Section preferences.
Context `{B : Backend}.

Lemma restart_keeps s : md_preferences (handleRestartDashboardTour s).2 = md_preferences s /\ md_open (handleRestartDashboardTour s).2 = false.
Proof.
  unfold handleRestartDashboardTour, on_modal. munfold. destruct (fetch _ _ _ _) as [[x|x] c]; [|done].
  cbn [md_client md_tab md_open md_preferences]. unfold settle. by destruct (refresh c) as [[y|y] c'].
Qed.

(** A click makes at most one change, of a setting the dialogue shows. *)
Lemma modal_step wake e s :
  md_preferences (modal_handler wake e s).2 = md_preferences s \/
  exists o, op_clean o /\ md_preferences (modal_handler wake e s).2 = apply_op o (md_preferences s).
Proof.
  unfold modal_handler, when. destruct (md_open s); [|by left].
  destruct e as [tab| | |key choice|key|p e| |]; try (by left);
    try (destruct (_ : bool); [right; eexists; split; [|reflexivity]; done|by left]);
    try (case_match; [right; eexists; split; [|reflexivity]; done|by left]).
  - destruct (existsb _ _); by left.
  - destruct (String.eqb _ _); [left; apply restart_keeps|by left].
Qed.

(** Whatever is clicked in the dialogue is there again after a reload of the page. *)
Theorem modal_survives_reload wake c l :
  let p := md_preferences (modal_run wake DEFAULT_PREFERENCES c l) in
  initial (stored_after p) = p /\ exists ops, Forall op_clean ops /\ p = apply_ops ops DEFAULT_PREFERENCES.
Proof.
  cbv zeta. assert (exists ops, Forall op_clean ops /\
    md_preferences (modal_run wake DEFAULT_PREFERENCES c l) = apply_ops ops DEFAULT_PREFERENCES) as (ops & Ho & E).
  { induction l as [|e l (ops & Ho & E)] using rev_ind; [by exists []|]. unfold modal_run in *. rewrite foldl_app. cbn [foldl].
    destruct (modal_step wake e (foldl (fun s e => (modal_handler wake e s).2) (first_modal DEFAULT_PREFERENCES c) l)) as [-> |(o & Hc & ->)].
    - by exists ops.
    - exists (ops ++ [o]). split; [by apply Forall_app; split; [|constructor]|].
      unfold apply_ops. rewrite foldl_app. by rewrite E. }
  rewrite E. split; [|by exists ops].
  by apply shaped_reload, shaped_ops, shaped_default.
Qed.
End preferences.

(** ** The table on a day *)
Lemma table_matches_plan_witness :
  (exists o, (("dhuhr", "preAdhan"), o) ∈ plan (L := utc) day_config day_times early_morning /\ o <> Off) /\
  exists muted, cell_of day_config DEFAULT_PREFERENCES "dhuhr" "preAdhan" = Some (Cell muted None).
Proof.
  assert (exists muted, cell_of day_config DEFAULT_PREFERENCES "dhuhr" "preAdhan" = Some (Cell muted None)) as H
    by (eexists; vm_compute; reflexivity).
  split; [|exact H].
  apply (table_matches_plan (L := utc) day_config day_times early_morning DEFAULT_PREFERENCES "dhuhr" "preAdhan"); [..|exact H].
  - unfold switches_ok. repeat (apply List.Forall_cons; [first [left; reflexivity|right; eexists; reflexivity]|]). constructor.
  - apply (bool_decide_unpack _); vm_compute; reflexivity.
  - left.
  - reflexivity.
  - vm_compute; reflexivity.
  - intros _. eexists. vm_compute. reflexivity.
Defined.
