(* ===== verification/HealthTab.v ===== *)
(** * The health page
      ([client/src/components/settings/developer/HealthTab.jsx],
       [client/src/components/settings/developer/NetworkConfigCard.jsx])

    A row per service, source and output, with its last status, the switch of
    its daily check and a button that checks it now; and the card of the address
    the server is reached at.  A handler runs in one piece; the messages that go
    away after three seconds are cleared by an event. *)
From S2P Require Import Prelude JsString JsValue World Luxon LuxonUtc Zod Network Health.
From S2P Require Import ConfigStore Outputs.
From S2P Require Import Providers AudioAssets Scheduler.
From S2P Require Import SystemController.
From S2P Require Import ClientSettings SettingsShell.

(** ** A row *)
Inductive row_status := Online | Offline | Disabled.
Inductive lamp := LampOnline | LampOffline | LampWarning | LampDisabled | LampNotMonitored.

Definition uncheckedMessages : list string := ["Initialising..."; "Monitoring Disabled"].
Definition configWarnings : list string :=
  ["Token Missing"; "No API Key"; "HTTPS Base URL required"; "Not Configured"].

Section row.
Context (id : string) (status : row_status) (enabled : bool) (lastChecked systemHealth : val).

Definition isMonitored : bool := enabled && match status with Disabled => false | _ => true end.
Definition healthData : val := prop systemHealth id.
Definition message : string := str_of (js_or (prop healthData "message") (VStr "")).
Definition hasBeenChecked : bool := truthy healthData && negb (existsb (String.eqb message) uncheckedMessages).
Definition isConfigIssue : bool :=
  negb (String.eqb message "") && existsb (fun w => includes w message) configWarnings.
Definition healthy : bool := truthy (prop healthData "healthy").

Definition displayStatus : lamp :=
  match status with
  | Disabled => LampDisabled
  | _ =>
    if hasBeenChecked then if isConfigIssue then LampWarning else if healthy then LampOnline else LampOffline
    else if isMonitored then match status with Online => LampOnline | _ => LampOffline end
    else LampNotMonitored
  end.

Definition state_text (b : bool) : string := if b then "Healthy / Online" else "Unreachable / Offline".
Definition getDisplayMessage : string :=
  match status with
  | Disabled => "Output Strategy Disabled"
  | _ =>
    if hasBeenChecked then if isConfigIssue then message else state_text healthy
    else if isMonitored then
      if isConfigIssue then message else state_text (match status with Online => true | _ => false end)
    else "Automated Monitoring Disabled"
  end.
Definition showLastChecked : bool := truthy lastChecked && (isMonitored || hasBeenChecked).
End row.

(** ** The rows of the page *)
Record hrow := HRow { hr_id : string; hr_label : string; hr_status : row_status; hr_enabled : bool }.

Definition reported (systemHealth : val) (id : string) : row_status :=
  if truthy (prop (prop systemHealth id) "healthy") then Online else Offline.
Definition checked_daily (config : val) (id : string) : bool :=
  seq (prop (js_or (prop (prop config "system") "healthChecks") (VObj [])) id) (VBool true).
Definition entry_id (v : val) : string := str_of (prop v "id").
Definition entry_label (v : val) : string := str_of (prop v "label").

Section rows.
Context (config systemHealth : val).

Definition service_row (service : val) : hrow :=
  let id := entry_id service in
  HRow id (entry_label service) (if String.eqb id "api" then Online else reported systemHealth id) (checked_daily config id).
Definition primary_row : hrow :=
  HRow "primarySource" ("Primary: " +:+ show (js_or (prop (prop (prop config "sources") "primary") "type") (VStr "Not Set")))
    (reported systemHealth "primarySource") (checked_daily config "primarySource").
Definition backup_rows : list hrow :=
  let backup := prop (prop config "sources") "backup" in
  if truthy backup then
    [HRow "backupSource" ("Backup: " +:+ show (prop backup "type"))
       (if seq (prop backup "enabled") (VBool false) then Disabled else reported systemHealth "backupSource")
       (checked_daily config "backupSource")]
  else [].
Definition output_row (output : val) : hrow :=
  let id := entry_id output in
  HRow id (entry_label output)
    (if seq (prop (prop (prop (prop config "automation") "outputs") id) "enabled") (VBool false)
     then Disabled else reported systemHealth id) (checked_daily config id).

(** The lists of the registries are mapped: anything but an array throws. *)
Definition all_rows (systemServices outputs : val) : result (list hrow) :=
  services ← iterate systemServices;
  strategies ← iterate outputs;
  Ok ((service_row <$> services) ++ primary_row :: backup_rows ++
      (output_row <$> List.filter (fun o => negb (truthy (prop o "hidden"))) strategies)).

Definition lamp_of (r : hrow) : lamp := displayStatus (hr_id r) (hr_status r) (hr_enabled r) systemHealth.
Definition text_of (r : hrow) : string := getDisplayMessage (hr_id r) (hr_status r) (hr_enabled r) systemHealth.
End rows.

(** ** The page *)
Record health_tab := Tab { ht_services : val; ht_outputs : val; ht_refreshing : val; ht_feedback : val; ht_client : client }.
Definition set_services (v : val) (s : health_tab) : health_tab := Tab v (ht_outputs s) (ht_refreshing s) (ht_feedback s) (ht_client s).
Definition set_outputs (v : val) (s : health_tab) : health_tab := Tab (ht_services s) v (ht_refreshing s) (ht_feedback s) (ht_client s).
Definition set_refreshing (v : val) (s : health_tab) : health_tab := Tab (ht_services s) (ht_outputs s) v (ht_feedback s) (ht_client s).
Definition set_tab_feedback (target : string) (v : val) (s : health_tab) : health_tab :=
  Tab (ht_services s) (ht_outputs s) (ht_refreshing s) (VObj (ospread (props (ht_feedback s)) [(target, v)])) (ht_client s).
Definition first_tab (c : client) : health_tab := Tab (VArr []) (VArr []) VNull (VObj []) c.

Section handlers.
Context `{B : Backend}.

Definition on_tab {A} (m : M client A) : M health_tab A := fun s =>
  let '(r, c) := m (ht_client s) in (r, Tab (ht_services s) (ht_outputs s) (ht_refreshing s) (ht_feedback s) c).

Definition fallback_services : val :=
  VArr [VObj [("id", VStr "api"); ("label", VStr "API Server")]; VObj [("id", VStr "tts"); ("label", VStr "TTS Service")]].

(** The status of the answers is not looked at. *)
Definition load_registries : M health_tab unit :=
  try_catch
    (res ← on_tab (fetch "GET" "/api/system/services/registry" VUndef);
     data ← lift (a_json res); modify (set_services data))
    (fun _ => modify (set_services fallback_services)) ;;
  try_catch
    (res ← on_tab (fetch "GET" "/api/system/outputs/registry" VUndef);
     data ← lift (a_json res); modify (set_outputs data))
    (fun _ => ret tt).

Definition handleToggle (serviceId : string) (enabled : bool) : M health_tab unit :=
  try_catch
    (res ← on_tab (fetch "POST" "/api/system/health/toggle" (VObj [("serviceId", VStr serviceId); ("enabled", VBool enabled)]));
     when (res_ok res) (on_tab refresh))
    (fun _ => ret tt).

Definition handleForceRefresh (target : string) : M health_tab unit :=
  modify (set_refreshing (VStr target)) ;;
  try_finally (try_catch
    (res ← on_tab (fetch "POST" "/api/system/health/refresh" (VObj [("target", VStr target)]));
     if res_ok res then
       modify (set_tab_feedback target (VStr "Refreshed")) ;;
       _ ← on_tab (ClientSettings.refreshHealth (VStr target) VUndef); ret tt
     else modify (set_tab_feedback target (VStr "Failed")))
    (fun _ => modify (set_tab_feedback target (VStr "Network Error")))) (set_refreshing VNull).

Definition feedback_over (target : string) : M health_tab unit := modify (set_tab_feedback target VNull).
Definition can_refresh (r : hrow) (s : health_tab) : bool :=
  negb (seq (ht_refreshing s) (VStr (hr_id r))) && match hr_status r with Disabled => false | _ => true end.
Definition can_toggle (r : hrow) : bool := match hr_status r with Disabled => false | _ => true end.

(** ** The address of the server *)
Record network_card := NetCard { nc_baseUrl : string; nc_saving : bool; nc_feedback : val; nc_client : client }.
Definition set_baseUrl (v : string) (s : network_card) : network_card := NetCard v (nc_saving s) (nc_feedback s) (nc_client s).
Definition set_net_saving (b : bool) (s : network_card) : network_card := NetCard (nc_baseUrl s) b (nc_feedback s) (nc_client s).
Definition set_net_feedback (v : val) (s : network_card) : network_card := NetCard (nc_baseUrl s) (nc_saving s) v (nc_client s).
Definition on_card {A} (m : M client A) : M network_card A := fun s =>
  let '(r, c) := m (nc_client s) in (r, NetCard (nc_baseUrl s) (nc_saving s) (nc_feedback s) c).

Definition stored_url (c : client) : val := prop (prop (k_config c) "automation") "baseUrl".
Definition first_network (c : client) : network_card := NetCard (str_of (js_or (stored_url c) (VStr ""))) false VNull c.
(** The effect of [config?.automation?.baseUrl] *)
Definition follow_url (s : network_card) : network_card :=
  if is_undef (stored_url (nc_client s)) then s else set_baseUrl (str_of (stored_url (nc_client s))) s.

Definition isValid (s : network_card) : bool := starts_with "https://" (nc_baseUrl s).
Definition net_message (type text : string) : val := VObj [("type", VStr type); ("message", VStr text)].

Definition handleSave : M network_card unit :=
  s ← getw;
  if negb (isValid s) then ret tt else
  modify (set_net_saving true) ;; modify (set_net_feedback VNull) ;;
  try_finally (try_catch
    (result ← on_card (updateEnvSetting "BASE_URL" (VStr (nc_baseUrl s)));
     success ← lift (get result "success");
     if truthy success then
       modify (set_net_feedback (net_message "success" "Saved")) ;;
       _ ← on_card (ClientSettings.refreshHealth (VStr "voiceMonkey") VUndef); ret tt
     else modify (set_net_feedback (net_message "error" (show (js_or (prop result "error") (VStr "Failed"))))))
    (fun _ => modify (set_net_feedback (net_message "error" "Save failed")))) (set_net_saving false).
End handlers.

(** ** Lemmas *)

(** The lamp and the text of a row say the same. *)
Theorem lamp_agrees id status enabled systemHealth :
  (displayStatus id status enabled systemHealth = LampOnline <-> getDisplayMessage id status enabled systemHealth = "Healthy / Online") /\
  (displayStatus id status enabled systemHealth = LampWarning ->
     getDisplayMessage id status enabled systemHealth = message id systemHealth).
Proof.
  unfold displayStatus, getDisplayMessage.
  assert (isConfigIssue id systemHealth = true -> message id systemHealth <> "Healthy / Online") as Hm.
  { unfold isConfigIssue. intros H E. by rewrite E in H. }
  assert (hasBeenChecked id systemHealth = false -> isConfigIssue id systemHealth = false) as Hu.
  { unfold hasBeenChecked, isConfigIssue, message, healthData. destruct (truthy (prop systemHealth id)) eqn:Et; cbn [andb].
    - intros H%negb_false_iff. apply existsb_exists in H as (x & Hx & ->%String.eqb_eq).
      by destruct Hx as [<-|[<-|[]]].
    - by rewrite (prop_falsy _ "message" Et). }
  destruct status; destruct (hasBeenChecked id systemHealth) eqn:Ec;
    try (rewrite (Hu eq_refl)); destruct (isConfigIssue id systemHealth) eqn:Ei; cbn;
    try destruct (healthy id systemHealth); try destruct (isMonitored _ _); try done;
    split; try done; split; try done; intros E; by destruct (Hm eq_refl).
Qed.

(** Checking a row now has the service checked twice: once for the answer of the
    button, and once more when the page fetches the result. *)
Theorem forced_refresh_checks_twice `{B : Backend} target s res :
  let q := Call "POST" "/api/system/health/refresh" (VObj [("target", VStr target)]) in
  backend (k_sent (ht_client s)) q = Ok res -> res_ok res = true ->
  k_sent (ht_client (handleForceRefresh target s).2) =
    k_sent (ht_client s) ++ [q; Call "POST" "/api/system/health/refresh" (VObj [("target", VStr target); ("mode", VUndef)])].
Proof.
  intros q Eq Hok. unfold handleForceRefresh, on_tab, ClientSettings.refreshHealth. munfold. rewrite fetch_run.
  cbn [ht_client set_refreshing]. fold q. rewrite Eq. cbn [fst snd]. rewrite Hok. cbn [ht_client set_tab_feedback].
  rewrite fetch_run. set (q2 := Call _ _ (VObj [("target", _); _])).
  assert (k_sent (add_calls [q2] (add_calls [q] (ht_client s))) = k_sent (ht_client s) ++ [q; q2]) as <- by (cbn; by rewrite <- app_assoc).
  destruct (backend _ q2) as [r2|e]; [|done]. destruct (a_status r2 =? 429).
  - destruct (a_json r2) as [d|]; [|done]. by destruct (get d "message").
  - destruct (res_ok r2); [|done]. by destruct (a_json r2).
Qed.

(** *** At the server *)
Section server.
Context `{L : Luxon} `{Zd : Zod} `{N : Net} `{H : Host}.

Definition shown_lamp (r : hrow) (m : string) (healthy : bool) : lamp :=
  if existsb (String.eqb m) uncheckedMessages then
    if hr_enabled r then match hr_status r with Online => LampOnline | _ => LampOffline end else LampNotMonitored
  else if negb (String.eqb m "") && existsb (fun w => includes w m) configWarnings then LampWarning
  else if healthy then LampOnline else LampOffline.

(** A row shows what the server found.  After the server has refreshed the
    health of a service, the row of the service, unless it is disabled, shows the
    result of the check that ran: healthy as online, a missing setting as a
    warning, anything else as offline.  A service whose daily check is switched
    off is left alone by the daily run, and its row says that it is not watched. *)
Theorem row_shows_check r params force w v w' :
  let id := hr_id r in
  id <> "all" -> id <> "ports" -> hr_status r <> Disabled ->
  refresh_health id params force w = (Ok v, w') ->
  exists w1 w2 res, _refreshTarget id params force w1 = (Ok res, w2) /\
    (forall m b, prop res "message" = VStr m -> prop res "healthy" = VBool b -> lamp_of v r = shown_lamp r m b) /\
    (forall config, configured config w -> id <> "api" -> force = false ->
       prop (prop (prop config "system") "healthChecks") id = VBool false -> hr_enabled r = checked_daily config id ->
       lamp_of v r = LampNotMonitored /\ w2 = w1).
Proof.
  intros id Ha Hp Hd E. destruct (refresh_one _ _ _ _ _ _ Ha Hp E) as (-> & w1 & w2 & res & now & old & Hcfg & Hres & Hst).
  assert (forall m b, prop res "message" = VStr m -> prop res "healthy" = VBool b ->
    lamp_of (json_clone (w_health w')) r = shown_lamp r m b) as Hl.
  { intros m b Hm Hb. fold id in Hst.
    assert (prop (w_health w') id <> VUndef) as Hu by (rewrite Hst; discriminate).
    assert (forall k x, prop res k = x -> x <> VUndef -> k <> "lastChecked" -> prop (prop (json_clone (w_health w')) id) k = json_clone x) as Hk.
    { intros k x Hx Hn Hne. rewrite prop_json_clone by done. rewrite prop_json_clone; rewrite Hst; unfold stamped; cbn [prop];
        (rewrite oget_ospread_not by (cbn; by apply orb_false_iff; split; [apply String.eqb_neq|])); destruct res; try done;
        cbn [props prop] in *; by rewrite Hx. }
    assert (truthy (prop (json_clone (w_health w')) id) = true) as Ht by (rewrite prop_json_clone, truthy_json_clone, Hst by done; done).
    pose proof (Hk "message" _ Hm ltac:(done) ltac:(done)) as Em. pose proof (Hk "healthy" _ Hb ltac:(done) ltac:(done)) as Eb.
    unfold lamp_of, displayStatus, shown_lamp, hasBeenChecked, isConfigIssue, healthy, message, healthData, isMonitored.
    fold id. rewrite Ht, Em, Eb. cbn [json_clone truthy andb].
    assert (str_of (js_or (VStr m) (VStr "")) = m) as -> by (unfold js_or; cbn; by destruct (String.eqb_spec m "") as [->|]).
    destruct (hr_status r) eqn:Es; [| |done]; destruct (existsb (String.eqb m) uncheckedMessages); cbn [negb]; try done;
      by destruct (hr_enabled r). }
  exists w1, w2, res. split; [exact Hres|]. split; [exact Hl|].
  intros config Hconf Hapi -> Hoff Hen. fold id in Hres.
  assert (configured config w1) as Hc1 by (by destruct Hconf as [Hc Ht]; split; [rewrite Hcfg|]).
  unfold _refreshTarget in Hres. rewrite (M_bind_ok _ _ _ _ _ (config_get_ok _ _ Hc1)) in Hres. cbv zeta in Hres.
  rewrite (proj2 (String.eqb_neq id "api") Hapi), Hoff in Hres. cbn [negb andb seq Bool.eqb eqb] in Hres.
  injection Hres as <- <-. split; [|done]. rewrite (Hl "Monitoring Disabled" false eq_refl eq_refl).
  unfold shown_lamp. rewrite Hen. unfold checked_daily.
  assert (prop (js_or (prop (prop config "system") "healthChecks") (VObj [])) id = VBool false) as ->; [|done].
  rewrite js_or_truthy; [done|]. by destruct (prop (prop config "system") "healthChecks").
Qed.

(** The card of the address has an output checked that there is not: the output is
    called [voicemonkey], and the status of the one asked for is an error. *)
Theorem address_checks_unknown params config w :
  configured config w ->
  exists m, _refreshTarget "voiceMonkey" params true w = (Ok (health_status false m), w).
Proof.
  intros Hc. unfold _refreshTarget. rewrite (M_bind_ok _ _ _ _ _ (config_get_ok _ _ Hc)). cbv zeta.
  cbn [negb andb String.eqb Ascii.eqb Bool.eqb]. munfold. eexists. vm_compute (getStrategy _). reflexivity.
Qed.
End server.

(** ** The page at work *)
Definition health_page : client :=
  let c := VObj [("automation", VObj []); ("sources", VObj [("primary", VObj [("type", VStr "aladhan")])])] in
  Client c c (VObj []) false false false (VArr []) false VNull (VArr []) false true [].

(** A refused request for a registry leaves its answer as the list of the rows,
    and the page cannot be drawn. *)
Definition limited : Backend := fun _ _ =>
  Ok (ClientSettings.Reply 429 VNull (Ok (VObj [("message", VStr "Too many requests")]))).
Theorem refused_registry_breaks :
  let s := (load_registries (B := limited) (first_tab health_page)).2 in
  is_ok (all_rows (k_config (ht_client s)) (k_systemHealth (ht_client s)) (ht_services s) (ht_outputs s)) = false.
Proof. by vm_compute. Qed.

(** Saving the address asks for the unknown output. *)
Definition takes_all : Backend := fun _ q =>
  Ok (ClientSettings.Reply 200 VNull (Ok (if String.eqb (q_url q) "/api/settings" then k_config health_page else VObj [("success", VBool true)]))).
Lemma address_save_asks :
  In (Call "POST" "/api/system/health/refresh" (VObj [("target", VStr "voiceMonkey"); ("mode", VUndef)]))
    (k_sent (nc_client (handleSave (B := takes_all) (set_baseUrl "https://x.org" (first_network health_page))).2)).
Proof. vm_compute. tauto. Qed.

Definition tts_row : hrow := HRow "tts" "TTS Service" Offline false.
Lemma row_shows_check_witness :
  exists v w', refresh_health (L := utc) (Zd := zod_ref) (N := no_net) (H := quiet_host) "tts" VNull true Scheduler.day_world = (Ok v, w') /\
    lamp_of v tts_row = LampOnline.
Proof.
  eassert (refresh_health (L := utc) (Zd := zod_ref) (N := no_net) (H := quiet_host) "tts" VNull true Scheduler.day_world =
    (Ok _, _)) as E by (vm_compute; reflexivity).
  match type of E with _ = (Ok ?v, ?w') =>
    exists v, w'; split; [exact E|];
    destruct (row_shows_check (L := utc) (Zd := zod_ref) (N := no_net) (H := quiet_host) tts_row VNull true Scheduler.day_world v w')
      as (w1 & w2 & res & _ & _ & _); [discriminate|discriminate|discriminate|exact E|]
  end.
  vm_compute. reflexivity.
Defined.
