(* ===== verification/Developer.v ===== *)
(** * The developer page
      ([client/src/views/settings/DeveloperSettingsView.jsx],
       [components/settings/developer/DiagnosticsTab.jsx],
       [components/settings/developer/AutomationTTSTab.jsx],
       [components/settings/developer/StatusCells.jsx] under [client/src/])

    The buttons that have the server do something at once, the maintenance jobs
    with a button to run each, and the tables of the day's announcements and of
    the speech files.  An action and the run of a job are cut at their request;
    everything else runs in one piece, and what goes away after some seconds is
    an event. *)
From S2P Require Import Prelude JsString JsValue World Luxon LuxonUtc Zod Calculations Network.
From S2P Require Import Providers.
From S2P Require Import Schemas Encryption Masking ConfigService.
From S2P Require Import PrayerTimes AudioAssets Voice ConfigStore Outputs Automation Scheduler.
From S2P Require Import Frames Diagnostics.
From S2P Require Import Sse Http SystemController.
From S2P Require Import ClientSettings SettingsShell.

(** ** The state *)
Record developer := Developer {
  dv_tab : string;
  dv_jobs : val; dv_loading : val; dv_message : val; dv_automationStatus : val; dv_ttsStatus : val;
  dv_refreshing : val; dv_feedback : val; dv_apiOnline : bool; dv_jobStatuses : val;
  dv_refreshStatus : string;
  (** The action and the jobs whose answers are awaited *)
  dv_action : option string; dv_runs : list string;
  dv_client : client
}.
Definition set_activeTab v s := Developer v (dv_jobs s) (dv_loading s) (dv_message s) (dv_automationStatus s) (dv_ttsStatus s)
  (dv_refreshing s) (dv_feedback s) (dv_apiOnline s) (dv_jobStatuses s) (dv_refreshStatus s) (dv_action s) (dv_runs s) (dv_client s).
Definition set_jobs v s := Developer (dv_tab s) v (dv_loading s) (dv_message s) (dv_automationStatus s) (dv_ttsStatus s)
  (dv_refreshing s) (dv_feedback s) (dv_apiOnline s) (dv_jobStatuses s) (dv_refreshStatus s) (dv_action s) (dv_runs s) (dv_client s).
Definition set_dev_loading v s := Developer (dv_tab s) (dv_jobs s) v (dv_message s) (dv_automationStatus s) (dv_ttsStatus s)
  (dv_refreshing s) (dv_feedback s) (dv_apiOnline s) (dv_jobStatuses s) (dv_refreshStatus s) (dv_action s) (dv_runs s) (dv_client s).
Definition set_message v s := Developer (dv_tab s) (dv_jobs s) (dv_loading s) v (dv_automationStatus s) (dv_ttsStatus s)
  (dv_refreshing s) (dv_feedback s) (dv_apiOnline s) (dv_jobStatuses s) (dv_refreshStatus s) (dv_action s) (dv_runs s) (dv_client s).
Definition set_statuses a t s := Developer (dv_tab s) (dv_jobs s) (dv_loading s) (dv_message s) a t
  (dv_refreshing s) (dv_feedback s) (dv_apiOnline s) (dv_jobStatuses s) (dv_refreshStatus s) (dv_action s) (dv_runs s) (dv_client s).
Definition set_dev_refreshing v s := Developer (dv_tab s) (dv_jobs s) (dv_loading s) (dv_message s) (dv_automationStatus s)
  (dv_ttsStatus s) v (dv_feedback s) (dv_apiOnline s) (dv_jobStatuses s) (dv_refreshStatus s) (dv_action s) (dv_runs s) (dv_client s).
Definition put_feedback (target : string) v s := Developer (dv_tab s) (dv_jobs s) (dv_loading s) (dv_message s)
  (dv_automationStatus s) (dv_ttsStatus s) (dv_refreshing s) (VObj (ospread (props (dv_feedback s)) [(target, v)]))
  (dv_apiOnline s) (dv_jobStatuses s) (dv_refreshStatus s) (dv_action s) (dv_runs s) (dv_client s).
Definition set_apiOnline v s := Developer (dv_tab s) (dv_jobs s) (dv_loading s) (dv_message s) (dv_automationStatus s)
  (dv_ttsStatus s) (dv_refreshing s) (dv_feedback s) v (dv_jobStatuses s) (dv_refreshStatus s) (dv_action s) (dv_runs s) (dv_client s).
Definition put_job_status (jobName : string) v s := Developer (dv_tab s) (dv_jobs s) (dv_loading s) (dv_message s)
  (dv_automationStatus s) (dv_ttsStatus s) (dv_refreshing s) (dv_feedback s) (dv_apiOnline s)
  (VObj (ospread (props (dv_jobStatuses s)) [(jobName, v)])) (dv_refreshStatus s) (dv_action s) (dv_runs s) (dv_client s).
Definition set_refreshStatus v s := Developer (dv_tab s) (dv_jobs s) (dv_loading s) (dv_message s) (dv_automationStatus s)
  (dv_ttsStatus s) (dv_refreshing s) (dv_feedback s) (dv_apiOnline s) (dv_jobStatuses s) v (dv_action s) (dv_runs s) (dv_client s).
Definition set_action v s := Developer (dv_tab s) (dv_jobs s) (dv_loading s) (dv_message s) (dv_automationStatus s)
  (dv_ttsStatus s) (dv_refreshing s) (dv_feedback s) (dv_apiOnline s) (dv_jobStatuses s) (dv_refreshStatus s) v (dv_runs s) (dv_client s).
Definition set_runs v s := Developer (dv_tab s) (dv_jobs s) (dv_loading s) (dv_message s) (dv_automationStatus s)
  (dv_ttsStatus s) (dv_refreshing s) (dv_feedback s) (dv_apiOnline s) (dv_jobStatuses s) (dv_refreshStatus s) (dv_action s) v (dv_client s).
Definition set_dev_client v s := Developer (dv_tab s) (dv_jobs s) (dv_loading s) (dv_message s) (dv_automationStatus s)
  (dv_ttsStatus s) (dv_refreshing s) (dv_feedback s) (dv_apiOnline s) (dv_jobStatuses s) (dv_refreshStatus s) (dv_action s) (dv_runs s) v.
Definition first_developer (c : client) : developer :=
  Developer "diagnostics" (VArr []) VNull VNull VNull VNull VNull (VObj []) true (VObj []) "idle" None [] c.

Definition TABS : list string := ["diagnostics"; "health"; "automation"; "logs"].

(** The buttons of the card of the actions: name and address *)
Definition ACTIONS : list (string * string) :=
  [("tts", "/api/system/regenerate-tts"); ("scheduler", "/api/system/restart-scheduler");
   ("config", "/api/settings/refresh-cache"); ("tempCleanup", "/api/system/cleanup-temp-tts")].
Definition action_disabled (action : string) (s : developer) : bool :=
  negb (seq (dv_loading s) VNull) ||
  String.eqb action "tts" && negb (truthy (prop (k_systemHealth (dv_client s)) "tts")).
Definition action_subtext (s : developer) : string :=
  if truthy (prop (k_systemHealth (dv_client s)) "tts") then "Rebuilds audio files for today's cache" else "TTS Service Offline".

(** The two lamps, and the ports beside them *)
Definition tts_online (s : developer) : bool := truthy (prop (prop (k_systemHealth (dv_client s)) "tts") "healthy").
Definition port_text (s : developer) (service d : string) : string :=
  show (js_or (prop (prop (k_systemHealth (dv_client s)) "ports") service) (VStr d)).

(** The rows of the jobs: a name, and the button's mark *)
Definition job_status (s : developer) (jobName : string) : val := prop (dv_jobStatuses s) jobName.
Definition job_names (s : developer) : result (list string) :=
  match iterate (dv_jobs s) with Ok jobs => Ok ((fun job => str_of (prop job "name")) <$> jobs) | Throw e => Throw e end.
Definition job_disabled (s : developer) (jobName : string) : bool := seq (job_status s jobName) (VStr "loading").

(** [w && w.length > 0] of a list or a text *)
Definition has_items (w : val) : bool :=
  match w with VArr l => negb (Nat.eqb (length l) 0) | VStr t => negb (String.eqb t "") | _ => false end.

Fixpoint remove_first (x : string) (l : list string) : list string :=
  match l with [] => [] | y :: l' => if String.eqb x y then l' else y :: remove_first x l' end.

(** ** The handlers *)
Section handlers.
Context `{B : Backend}.

Definition on_dev {A} (m : M client A) : M developer A := fun s =>
  let '(r, c) := m (dv_client s) in (r, set_dev_client c s).

(** A lamp checked now; the server is asked for the speech service only. *)
Definition executeRefresh (target : string) : M developer unit :=
  modify (set_dev_refreshing (VStr target)) ;;
  modify (put_feedback target VNull) ;;
  feedbackMsg ←
    (if String.eqb target "api" then
       try_catch (
         res ← on_dev (fetch "GET" "/api/health" VUndef);
         if res_ok res then modify (set_apiOnline true) ;; ret (VStr "Online")
         else throw (Error ("Status " +:+ show (VInt (a_status res)))))
         (fun _ => modify (set_apiOnline false) ;; ret (VStr "Unreachable"))
     else
       res ← on_dev (ClientSettings.refreshHealth (VStr target) VUndef);
       let item := prop res target in
       if truthy res && truthy item then
         ret (js_or (prop item "message") (VStr (if truthy (prop item "healthy") then "Online" else "Offline")))
       else if truthy res && truthy (prop res "error") then ret (prop res "error")
       else ret VNull);
  when (truthy feedbackMsg) (modify (put_feedback target feedbackMsg)) ;;
  modify (set_dev_refreshing VNull).

(** Only the maintenance jobs are listed. *)
Definition shown_jobs (data : val) : val :=
  if is_array data then data
  else if truthy data && (truthy (prop data "maintenance") || truthy (prop data "automation"))
  then js_or (prop data "maintenance") (VArr [])
  else VArr [].
Definition fetchJobs : M developer unit :=
  try_catch (
    res ← on_dev (fetch "GET" "/api/system/jobs" VUndef);
    data ← lift (a_json res);
    modify (set_jobs (shown_jobs data)))
    (fun _ => ret tt).

(** Both requests are sent, whatever becomes of the first. *)
Definition fetchDiagnostics : M developer bool :=
  try_catch (
    r1 ← settle (on_dev (fetch "GET" "/api/system/status/automation" VUndef));
    r2 ← settle (on_dev (fetch "GET" "/api/system/status/tts" VUndef));
    autoRes ← lift r1;
    ttsRes ← lift r2;
    (if res_ok autoRes && res_ok ttsRes then ret tt else throw (Error "Refresh failed")) ;;
    autoData ← lift (a_json autoRes);
    ttsData ← lift (a_json ttsRes);
    modify (set_statuses autoData ttsData) ;;
    ret true)
    (fun _ => ret false).

(** Every ten seconds, and when the page opens *)
Definition poll : M developer unit := fetchJobs ;; _ ← fetchDiagnostics; ret tt.

(** What the message box says of a failed request *)
Definition dev_message (type : string) (rest : list (string * val)) : val := VObj (("type", VStr type) :: rest).
Definition refused (res : reply) (data : val) (fallback : string) : M developer unit :=
  if res_ok res then ret tt else
  message ← lift (get data "message");
  throw (Error (show (js_or (js_or message (prop data "error")) (VStr fallback)))).

(** The address an action posts to *)
Definition endpoint_of (action : string) : string :=
  match find (fun kv => String.eqb kv.1 action) ACTIONS with Some kv => kv.2 | None => "" end.
Definition action_call (action : string) : call := Call "POST" (endpoint_of action) VUndef.

Definition callSystemAction (action : string) : M developer unit :=
  modify (set_dev_loading (VStr action)) ;;
  modify (set_message VNull) ;;
  on_dev (modify (log_call (action_call action))) ;;
  modify (set_action (Some action)).

(** Behind the [await] of the request *)
Definition showAnswer (answer : result reply) : M developer unit :=
  try_catch (
    res ← lift answer;
    data ← lift (a_json res);
    refused res data "Failed" ;;
    warnings ← lift (get data "warnings");
    modify (set_message (dev_message (if truthy warnings && has_items warnings then "warning" else "success")
      [("text", prop data "message"); ("warnings", warnings)])))
    (fun err => modify (set_message (dev_message "error" [("text", VStr (e_msg err))]))).
Definition finishAction (action : string) : M developer unit :=
  modify (set_dev_loading VNull) ;;
  when (String.eqb action "config") (
    on_dev refresh ;;
    _ ← on_dev (ClientSettings.refreshHealth (VStr "primarySource") VUndef);
    _ ← on_dev (ClientSettings.refreshHealth (VStr "backupSource") VUndef);
    ret tt) ;;
  poll.
Definition actionAnswered (action : string) (answer : result reply) : M developer unit :=
  modify (set_action None) ;; showAnswer answer ;; finishAction action.

Definition run_call (jobName : string) : call :=
  Call "POST" "/api/system/run-job" (VObj [("jobName", VStr jobName)]).
Definition handleRunJob (jobName : string) : M developer unit :=
  modify (put_job_status jobName (VStr "loading")) ;;
  on_dev (modify (log_call (run_call jobName))) ;;
  modify (fun s => set_runs (dv_runs s ++ [jobName]) s).

Definition runAnswered (jobName : string) (answer : result reply) : M developer unit :=
  modify (fun s => set_runs (remove_first jobName (dv_runs s)) s) ;;
  try_catch (
    res ← lift answer;
    data ← lift (a_json res);
    refused res data "Failed to trigger job" ;;
    modify (set_message (dev_message "success" [("text", VStr ("Job " +:+ quoted jobName +:+ " executed successfully."))])) ;;
    modify (put_job_status jobName (VStr "success")) ;;
    fetchJobs)
    (fun error =>
       modify (set_message (dev_message "error" [("text", VStr (e_msg error))])) ;;
       modify (put_job_status jobName (VStr "error"))).

(** The timer set when the run of a job is over *)
Definition run_mark_over (jobName : string) : M developer unit := modify (put_job_status jobName VNull).

(** The button above both tables ([AutomationTTSTab.jsx]) *)
Definition handleRefresh : M developer unit := fun s =>
  if negb (String.eqb (dv_refreshStatus s) "idle") then (Ok tt, s) else
  (modify (set_refreshStatus "loading") ;;
   success ← fetchDiagnostics;
   modify (set_refreshStatus (if success : bool then "success" else "error"))) s.
Definition refresh_over : M developer unit := modify (set_refreshStatus "idle").
End handlers.

(** ** What can happen *)
Inductive dev_event :=
| PickTab (tab : string) | CloseMessage | Poll
| RefreshLamp (target : string) | FeedbackOver (target : string)
| Act (action : string) | ActionAnswered (answer : result reply)
| RunJob (jobName : string) | RunAnswered (jobName : string) (answer : result reply) | RunMarkOver (jobName : string)
| RefreshTables | RefreshOver.

Section steps.
Context `{B : Backend}.

Definition offered (x : string) (l : list string) : bool := existsb (String.eqb x) l.
Definition listed (jobName : string) (s : developer) : bool :=
  match job_names s with Ok l => offered jobName l | Throw _ => false end.
Definition in_tab (tab : string) (s : developer) : bool := String.eqb (dv_tab s) tab.

Definition dev_handler (e : dev_event) : M developer unit := fun s =>
  match e with
  | PickTab tab => when (offered tab TABS) (modify (set_activeTab tab))
  | CloseMessage => modify (set_message VNull)
  | Poll => poll
  | RefreshLamp target =>
      when (in_tab "diagnostics" s && offered target ["api"; "tts"] && negb (seq (dv_refreshing s) (VStr target)))
        (executeRefresh target)
  | FeedbackOver target => modify (put_feedback target VNull)
  | Act action =>
      when (in_tab "diagnostics" s && offered action ACTIONS.*1 && negb (action_disabled action s)) (callSystemAction action)
  | ActionAnswered answer => match dv_action s with Some action => actionAnswered action answer | None => ret tt end
  | RunJob jobName =>
      when (in_tab "diagnostics" s && listed jobName s && negb (job_disabled s jobName)) (handleRunJob jobName)
  | RunAnswered jobName answer => when (offered jobName (dv_runs s)) (runAnswered jobName answer)
  | RunMarkOver jobName => run_mark_over jobName
  | RefreshTables => when (in_tab "automation" s) handleRefresh
  | RefreshOver => refresh_over
  end s.

Definition dev_step (s : developer) (e : dev_event) : developer := (dev_handler e s).2.
Definition dev_run (c : client) (l : list dev_event) : developer := foldl dev_step (first_developer c) l.
End steps.

(** ** The tables *)

(** A time is shown as the device writes it. *)
Inductive cell_label := Label (v : val) | TimeOf (iso : val).
Inductive cell_tone := Plain | Emerald | Blue | Amber | Red | Indigo.
Record status_cell := Cell { sc_tone : cell_tone; sc_label : cell_label; sc_title : cell_label }.

Definition AutomationStatusCell (p : val) : status_cell :=
  let status := prop p "status" in
  let time := prop p "time" in
  let details := prop p "details" in
  let shown t := if truthy time then TimeOf time else Label (VStr t) in
  let title := if truthy details then
      VStr ("Type: " +:+ show (prop details "type") +:+ String LF "" +:+ "Source: " +:+ show (prop details "source") +:+
            String LF "" +:+ "Targets: " +:+ show (prop details "targets"))
    else status in
  if seq status (VStr "PASSED") then Cell Emerald (shown "Done") (Label title)
  else if seq status (VStr "UPCOMING") then Cell Blue (shown "Pending") (Label title)
  else Cell Plain (Label status) (Label title).

Definition TTSStatusCell (p : val) : status_cell :=
  let status := prop p "status" in
  let detail := prop p "detail" in
  let title := Label (js_or detail status) in
  if seq status (VStr "GENERATED") then Cell Emerald (Label (VStr "Ready")) (if truthy detail then TimeOf detail else title)
  else if seq status (VStr "MISMATCH")
  then Cell Amber (Label (VStr "Mismatch")) (Label (VStr "Template changed - Regeneration Required"))
  else if seq status (VStr "MISSING") || seq status (VStr "ERROR") then Cell Red (Label status) title
  else if seq status (VStr "CUSTOM_FILE") || seq status (VStr "URL")
  then Cell Indigo (Label (VStr (if seq status (VStr "URL") then "URL" else "File"))) title
  else Cell Plain (Label status) title.

Definition COLUMNS : list string := ["preAdhan"; "adhan"; "preIqamah"; "iqamah"].
Definition no_iqamah (prayer e : string) : bool :=
  String.eqb prayer "sunrise" && (String.eqb e "preIqamah" || String.eqb e "iqamah").

(** [None] is the cell of nothing. *)
Definition table_cell (cell : val -> status_cell) (prayer e : string) (events : val) : result (option status_cell) :=
  if no_iqamah prayer e then Ok None else
  match get events e with Ok p => Ok (Some (cell p)) | Throw err => Throw err end.

Definition table_row (cell : val -> status_cell) (prayer : string) (events : val) : result (list (option status_cell)) :=
  foldr (fun e acc => c ← table_cell cell prayer e events; rest ← acc; Ok (c :: rest)) (Ok []) COLUMNS.

(** Nothing of a table can be drawn when a row cannot. *)
Definition table_rows (cell : val -> status_cell) (status : val) : result (list (string * list (option status_cell))) :=
  foldr (fun kv acc => row ← table_row cell kv.1 kv.2; rest ← acc; Ok ((kv.1, row) :: rest)) (Ok []) (props status).

Section switches.
Context (config : val).
Definition global_switch (k : string) : val := prop (prop (prop config "automation") "global") k.
Definition isGlobalDisabled : bool := seq (global_switch "enabled") (VBool false).
Definition column_disabled (e : string) : bool := seq (global_switch (e +:+ "Enabled")) (VBool false).
(** A cell of the timeline that is greyed *)
Definition dimmed (e : string) : bool := isGlobalDisabled || column_disabled e.
End switches.
Definition tts_dimmed (s : developer) : bool := negb (tts_online s).

(** ** Lemmas: the timeline *)
Definition timeline (status : val) (prayer e : string) : result (option status_cell) :=
  table_cell AutomationStatusCell prayer e (prop status prayer).

(** The greyed columns are the ones the scheduler leaves out. *)
Lemma dimmed_off config e : e ∈ COLUMNS -> dimmed config e = switched_off config e.
Proof.
  intros He. unfold dimmed, isGlobalDisabled, column_disabled, global_switch, switched_off.
  set (global := prop (prop config "automation") "global").
  assert (find (fun kv => String.eqb kv.1 e) eventTypeMap = Some (e, e +:+ "Enabled")) as ->.
  { unfold COLUMNS in He. set_unfold in He. by destruct He as [->|[->|[->|[->|[]]]]]. }
  cbn [snd]. destruct (truthy global) eqn:E; [done|]. by rewrite !(prop_falsy global) by done.
Qed.

Section timeline.
Context `{L : Luxon} `{Zd : Zod} `{N : Net}.

Lemma in_pair_name triggers time event preEvent t e :
  (t, e) ∈ events_of_pair triggers time event preEvent -> e = event \/ e = preEvent.
Proof.
  unfold events_of_pair. intros [H|H]%elem_of_app.
  - destruct (enabled_trigger _ _); [|by apply elem_of_nil in H]. apply list_elem_of_singleton in H as [= -> ->]. by left.
  - destruct (enabled_trigger _ _); [|by apply elem_of_nil in H]. destruct (minus_minutes _ _); [|by apply elem_of_nil in H].
    apply list_elem_of_singleton in H as [= -> ->]. by right.
Qed.

(** No congregation is called at sunrise. *)
Lemma day_event_possible config data triggers tz date p e :
  (date, (p, e)) ∈ day_events config data triggers tz -> no_iqamah p e = false.
Proof.
  unfold day_events. intros H. apply list_elem_of_join in H as (l & Hin & Hl).
  apply list_elem_of_fmap in Hl as (q & -> & _). unfold prayer_events in Hin. cbv zeta in Hin.
  destruct (_ && _); [|by apply elem_of_nil in Hin]. apply list_elem_of_fmap in Hin as ([t e'] & [= -> -> ->] & Hin).
  unfold no_iqamah. destruct (String.eqb_spec q "sunrise") as [->|]; [|done]. cbn [andb].
  apply elem_of_app in Hin as [[-> | ->]%in_pair_name|Hin]; [done|done|].
  unfold iqamah_time in Hin. cbn [String.eqb Ascii.eqb Bool.eqb] in Hin. by apply elem_of_nil in Hin.
Qed.

(** The cell of an entry of the status *)
Lemma entry_cell now date details :
  let c := AutomationStatusCell (json_clone (event_entry now date details)) in
  sc_tone c = (if dt_lt date now then Emerald else Blue) /\
  (truthy (dt_toISO date) = true -> sc_label c = TimeOf (json_clone (dt_toISO date))).
Proof.
  cbv zeta. unfold AutomationStatusCell.
  assert (prop (json_clone (event_entry now date details)) "status" = VStr (if dt_lt date now then "PASSED" else "UPCOMING")) as ->
    by (rewrite prop_json_clone; done).
  assert (truthy (dt_toISO date) = true -> prop (json_clone (event_entry now date details)) "time" = json_clone (dt_toISO date)) as Ht.
  { intros Ht. rewrite prop_json_clone; [done|]. cbn. by intros E; rewrite E in Ht. }
  destruct (dt_lt date now); (split; [done|]); intros Hd; rewrite (Ht Hd), truthy_json_clone, Hd; done.
Qed.

Lemma silent_plain v : silent v -> sc_tone (AutomationStatusCell (json_clone v)) = Plain.
Proof. by intros [-> | ->]. Qed.

(** A key without a value is not part of the JSON, if it is there once. *)
Lemma prop_clone_undef k o : NoDup (okeys o) -> oget k o = VUndef -> prop (json_clone (VObj o)) k = VUndef.
Proof.
  intros Hn H. cbn. induction o as [|[k' v] o IH]; [done|]. apply NoDup_cons in Hn as [Hk Hn]. cbn [oget] in H.
  destruct (String.eqb_spec k k') as [->|Hne]; cycle 1.
  - specialize (IH Hn H). destruct v; cbn; try exact IH; by rewrite (proj2 (String.eqb_neq k k') Hne).
  - subst v. cbn. apply IH; [done|]. clear IH Hn. induction o as [|[q v] o IH]; [done|]. cbn in Hk |- *.
    destruct (String.eqb_spec k' q) as [->|]; [by destruct Hk; left|]. apply IH. set_solver.
Qed.

Lemma toned_entry result prayer e c :
  NoDup (okeys (props result)) -> NoDup (okeys (props (prop result prayer))) ->
  timeline (json_clone result) prayer e = Ok (Some c) -> sc_tone c <> Plain ->
  c = AutomationStatusCell (json_clone (prop (prop result prayer) e)) /\ (e, prop (prop result prayer) e) ∈ props (prop result prayer).
Proof.
  intros Hn1 Hn2. unfold timeline, table_cell. destruct (no_iqamah prayer e); [done|]. intros H Ht.
  destruct (get (prop (json_clone result) prayer) e) as [p|] eqn:Eg; [|done]. injection H as <-.
  apply got_prop in Eg as ->.
  destruct (decide (prop result prayer = VUndef)) as [Eu|Hu].
  { exfalso. apply Ht. destruct result as [| | | | | |o]; try done. rewrite (prop_clone_undef prayer o); done. }
  rewrite prop_json_clone in Ht |- * by done. destruct (prop result prayer) as [| | | | | |o] eqn:Ep; try done.
  destruct (decide (oget e o = VUndef)) as [Eu|He].
  { exfalso. apply Ht. rewrite (prop_clone_undef e o); done. }
  rewrite prop_json_clone by done. split; [done|]. cbn [props prop]. by apply oget_elem.
Qed.

(** C24: The timeline is the plan of the scheduler.  For a prayer with a time, a
    planned announcement is shown at its time, as passed or upcoming by the
    clock; and a cell is coloured, and not greyed, exactly where the scheduler
    has an announcement that is not switched off. *)
Theorem timeline_true config w result w' data w1 prayer e :
  getAutomationStatus config w = (Ok result, w') -> getPrayerTimes config (today config w) w = (Ok data, w1) ->
  prayer ∈ PRAYER_NAMES -> e ∈ COLUMNS -> truthy (prop (prop data "prayers") prayer) = true ->
  let triggers := prop (prop config "automation") "triggers" in
  let status := json_clone result in
  (forall date, (date, (prayer, e)) ∈ day_events config data triggers (zone_of config) ->
     exists c, timeline status prayer e = Ok (Some c) /\
       sc_tone c = (if dt_lt date (today config w) then Emerald else Blue) /\
       (truthy (dt_toISO date) = true -> sc_label c = TimeOf (json_clone (dt_toISO date)))) /\
  ((exists c, timeline status prayer e = Ok (Some c) /\ sc_tone c <> Plain /\ dimmed config e = false) <->
   exists o, ((prayer, e), o) ∈ plan config data (w_clock w) /\ o <> Off).
Proof.
  intros H Hd Hp He Hs triggers status.
  destruct (status_matches_plan _ _ _ _ _ _ H Hd) as (_ & Hn & Hall). destruct (Hall prayer Hp Hs) as (Hn' & A & B). clear Hall.
  fold triggers in A, B.
  assert (forall date, (date, (prayer, e)) ∈ day_events config data triggers (zone_of config) ->
     exists c, timeline status prayer e = Ok (Some c) /\
       sc_tone c = (if dt_lt date (today config w) then Emerald else Blue) /\
       (truthy (dt_toISO date) = true -> sc_label c = TimeOf (json_clone (dt_toISO date)))) as Hshow.
  { intros date Hin. destruct (A date e Hin) as (details & _ & Hv).
    assert (prop (prop result prayer) e <> VUndef) as H2 by (by rewrite Hv).
    assert (prop result prayer <> VUndef) as H1 by (by intros E; rewrite E in H2).
    exists (AutomationStatusCell (json_clone (event_entry (today config w) date details))). split; [|apply entry_cell].
    unfold timeline, table_cell, status. rewrite (day_event_possible _ _ _ _ _ _ _ Hin), prop_json_clone by done.
    rewrite <- Hv, <- (prop_json_clone (prop result prayer) e) by done. by destruct (prop result prayer). }
  split; [exact Hshow|]. unfold plan, outcomes. fold triggers. split.
  - intros (c & Hc & Ht & Hg). destruct (toned_entry _ _ _ _ Hn Hn' Hc Ht) as [-> Hin].
    destruct (B _ _ Hin) as [Hsil|(date & Hev & _)]; [by rewrite silent_plain in Ht|].
    exists (outcome_of config (w_clock w) date (prayer, e)).
    split; [apply list_elem_of_fmap; by exists (date, (prayer, e))|].
    unfold outcome_of. cbn [snd]. rewrite <- dimmed_off, Hg by done. by repeat case_match.
  - intros (o & Hin & Ho). apply list_elem_of_fmap in Hin as ([date [p' e']] & [= -> -> ->] & Hin).
    destruct (Hshow date Hin) as (c & Hc & Ht & _). exists c. split; [done|]. split; [rewrite Ht; by destruct (dt_lt _ _)|].
    rewrite dimmed_off by done. cbn [fst snd] in Ho. unfold outcome_of in Ho. cbn [snd] in Ho. by destruct (switched_off config e').
Qed.
End timeline.

(** ** Lemmas: what the page sends *)
Section requests.
Context `{B : Backend}.

Definition sent_of (s : developer) : list call := k_sent (dv_client s).
(** Not a request of an action *)
Definition no_action (q : call) : Prop := bool_decide (q_url q ∈ ACTIONS.*2) = false.

Lemma sends_on_dev {A} P (m : M client A) : sends k_sent P m -> sends sent_of P (on_dev m).
Proof. intros H s. unfold on_dev. destruct (H (dv_client s)) as (l & Hl & Pl). destruct (m (dv_client s)) as [r c]. by exists l. Qed.

Lemma sends_refreshHealth target : sends k_sent no_action (ClientSettings.refreshHealth target VUndef).
Proof. unfold ClientSettings.refreshHealth. sends_step. by apply sends_fetch. Qed.

Lemma sends_refresh_here : sends k_sent no_action refresh.
Proof. by apply sends_refresh. Qed.
Hint Resolve sends_refreshHealth sends_refresh_here sends_on_dev : azan.

Lemma sends_fetchJobs : sends sent_of no_action fetchJobs.
Proof. unfold fetchJobs. sends_step. by apply sends_on_dev, sends_fetch. Qed.
Lemma sends_fetchDiagnostics : sends sent_of no_action fetchDiagnostics.
Proof. unfold fetchDiagnostics. sends_step; by apply sends_on_dev, sends_fetch. Qed.
Hint Resolve sends_fetchJobs sends_fetchDiagnostics : azan.
Lemma sends_poll : sends sent_of no_action poll.
Proof. unfold poll. sends_step. Qed.
Hint Resolve sends_poll : azan.

Lemma sends_executeRefresh target : sends sent_of no_action (executeRefresh target).
Proof. unfold executeRefresh. sends_step; by apply sends_on_dev, sends_fetch. Qed.
Lemma sends_actionAnswered action answer : sends sent_of no_action (actionAnswered action answer).
Proof. unfold actionAnswered, showAnswer, finishAction, refused. sends_step. Qed.
Lemma sends_runAnswered jobName answer : sends sent_of no_action (runAnswered jobName answer).
Proof. unfold runAnswered, refused. sends_step. Qed.
Lemma sends_handleRunJob jobName : sends sent_of no_action (handleRunJob jobName).
Proof. intros s. exists [run_call jobName]. by split; [|constructor]. Qed.
Lemma sends_handleRefresh : sends sent_of no_action handleRefresh.
Proof.
  intros s. unfold handleRefresh. destruct (negb _); [exists []; by rewrite app_nil_r|].
  revert s. sends_step.
Qed.

(** *** The action under way *)
Definition flight (s : developer) : val * option string := (dv_loading s, dv_action s).
Lemma keeps_on_dev {A} (m : M client A) : keeps flight (on_dev m).
Proof. intros s. unfold on_dev. by destruct (m (dv_client s)). Qed.
Hint Resolve keeps_on_dev : azan.
Lemma keeps_poll : keeps flight poll.
Proof. unfold poll, fetchJobs, fetchDiagnostics. keeps_step; done. Qed.
Lemma keeps_executeRefresh target : keeps flight (executeRefresh target).
Proof. unfold executeRefresh. keeps_step; done. Qed.
Lemma keeps_handleRefresh : keeps flight handleRefresh.
Proof.
  intros s. unfold handleRefresh. destruct (negb _); [done|]. revert s. unfold fetchDiagnostics. keeps_step; done.
Qed.
Lemma keeps_runAnswered jobName answer : keeps flight (runAnswered jobName answer).
Proof. unfold runAnswered, refused, fetchJobs. keeps_step; done. Qed.

(** What the message box says of an answer *)
Definition answer_message (answer : result reply) : val :=
  match (res ← answer; data ← a_json res; Ok (res, data)) with
  | Throw e => dev_message "error" [("text", VStr (e_msg e))]
  | Ok (res, data) =>
      match get data (if res_ok res then "warnings" else "message") with
      | Throw e => dev_message "error" [("text", VStr (e_msg e))]
      | Ok _ =>
          if res_ok res then
            dev_message (if truthy (prop data "warnings") && has_items (prop data "warnings") then "warning" else "success")
              [("text", prop data "message"); ("warnings", prop data "warnings")]
          else dev_message "error" [("text", VStr (show (js_or (js_or (prop data "message") (prop data "error")) (VStr "Failed"))))]
      end
  end.

Lemma showAnswer_run answer s : showAnswer answer s = (Ok tt, set_message (answer_message answer) s).
Proof.
  unfold showAnswer, answer_message, refused. destruct answer as [res|e]; [|done]. munfold.
  cbn [mbind result_bind]. destruct (a_json res) as [data|e]; [|done]. cbn [mbind result_bind].
  destruct (res_ok res); cbn [negb].
  - destruct (get data "warnings") as [v|] eqn:E; [|done]. by apply got_prop in E as ->.
  - destruct (get data "message") as [v|] eqn:E; [|done]. by apply got_prop in E as ->.
Qed.

Lemma finishAction_settles action s : dv_action s = None -> flight (finishAction action s).2 = (VNull, None).
Proof.
  intros H. unfold finishAction.
  assert (keeps flight (when (String.eqb action "config") (
    on_dev refresh ;;
    _ ← on_dev (ClientSettings.refreshHealth (VStr "primarySource") VUndef);
    _ ← on_dev (ClientSettings.refreshHealth (VStr "backupSource") VUndef);
    ret tt) ;; poll)) as Hk by (keeps_step; done).
  rewrite (M_bind_ok _ _ _ tt (set_dev_loading VNull s)) by done. rewrite Hk. unfold flight. cbn. by rewrite H.
Qed.

Lemma actionAnswered_settles action answer s : flight (actionAnswered action answer s).2 = (VNull, None).
Proof.
  unfold actionAnswered. rewrite (M_bind_ok _ _ _ tt (set_action None s)) by done.
  rewrite (M_bind_ok _ _ _ _ _ (showAnswer_run _ _)). by apply finishAction_settles.
Qed.

(** *** Every step *)
Definition dev_ok (s : developer) : Prop := dv_loading s = match dv_action s with Some action => VStr action | None => VNull end.

Lemma flight_ok s s' : flight s' = flight s -> dev_ok s -> dev_ok s'.
Proof. intros [= H1 H2] Hs. unfold dev_ok. by rewrite H1, H2. Qed.

Lemma dev_handler_keeps e : (forall action, e <> Act action) -> (forall answer, e <> ActionAnswered answer) ->
  keeps flight (dev_handler e) /\ sends sent_of no_action (dev_handler e).
Proof.
  intros H1 H2. split.
  - intros s. unfold dev_handler, when. destruct e; try done; try (case_match; try done); try apply keeps_poll;
      first [apply keeps_executeRefresh|apply keeps_handleRefresh|apply keeps_runAnswered|exfalso; naive_solver].
  - intros s. assert (forall r : result unit * developer, sent_of r.2 = sent_of s -> exists l, sent_of r.2 = sent_of s ++ l /\ Forall no_action l)
      as Hs by (intros r Hr; exists []; by rewrite app_nil_r).
    unfold dev_handler, when.
    destruct e as [tab| | |target|target|action|answer|name|name answer|name| |];
      [destruct (offered tab TABS); by apply Hs|by apply Hs|apply sends_poll| |by apply Hs
      |by destruct (H1 action)|by destruct (H2 answer)| | |by apply Hs| |by apply Hs].
    + destruct (_ && _); [apply sends_executeRefresh|by apply Hs].
    + destruct (_ && _); [apply sends_handleRunJob|by apply Hs].
    + destruct (offered _ _); [apply sends_runAnswered|by apply Hs].
    + destruct (in_tab _ _); [apply sends_handleRefresh|by apply Hs].
Qed.

Lemma dev_step_flight e s : dev_ok s ->
  dev_ok (dev_step s e) /\ exists l, sent_of (dev_step s e) = sent_of s ++ l /\
    (Forall no_action l \/ exists action, l = [action_call action] /\ dv_action s = None /\ dv_action (dev_step s e) = Some action).
Proof.
  intros Hs. unfold dev_step.
  assert (forall s', flight s' = flight s -> sent_of s' = sent_of s -> dev_ok s' /\ exists l, sent_of s' = sent_of s ++ l /\
    (Forall no_action l \/ exists action, l = [action_call action] /\ dv_action s = None /\ dv_action s' = Some action)) as Hsame.
  { intros s' H1 H2. split; [by apply (flight_ok s)|]. exists []. rewrite app_nil_r. split; [done|]. by left. }
  assert ((forall action, e <> Act action) -> (forall answer, e <> ActionAnswered answer) ->
    dev_ok (dev_handler e s).2 /\ exists l, sent_of (dev_handler e s).2 = sent_of s ++ l /\
    (Forall no_action l \/ exists action, l = [action_call action] /\ dv_action s = None /\ dv_action (dev_handler e s).2 = Some action)) as Hother.
  { intros H1 H2. destruct (dev_handler_keeps e H1 H2) as [Hk Hse]. split; [by apply (flight_ok s)|].
    destruct (Hse s) as (l & Hl & Pl). exists l. split; [done|]. by left. }
  destruct e as [? | | |?|?|action|answer|?|? ?|?| |]; try (apply Hother; done); clear Hother; unfold dev_handler, when.
  - destruct (_ && negb (action_disabled action s)) eqn:E; [|by apply Hsame]. apply andb_prop in E as [_ E].
    apply negb_true_iff, orb_false_iff in E as [E _]. apply negb_false_iff in E.
    assert (dv_action s = None) as Hn by (unfold dev_ok in Hs; rewrite Hs in E; by destruct (dv_action s)).
    split; [done|]. exists [action_call action]. split; [done|]. right. by exists action.
  - destruct (dv_action s) as [action|] eqn:E; [|by apply Hsame].
    pose proof (actionAnswered_settles action answer s) as Hf.
    split; [unfold flight in Hf; injection Hf as H1 H2; unfold dev_ok; by rewrite H1, H2|].
    destruct (sends_actionAnswered action answer s) as (l & Hl & Pl). exists l. split; [done|]. by left.
Qed.

(** The actions run one by one.  Whatever is clicked, answered and refreshed, in any
    order, the page names the action whose answer is awaited; a request of an
    action is sent alone and only when none is awaited. *)
Theorem actions_one_by_one c l e :
  let s := dev_run c l in
  dv_loading s = match dv_action s with Some action => VStr action | None => VNull end /\
  exists sent, k_sent (dv_client (dev_step s e)) = k_sent (dv_client s) ++ sent /\
    (Forall (fun q => q_url q ∉ ACTIONS.*2) sent \/
     exists action, sent = [action_call action] /\ dv_action s = None /\ dv_action (dev_step s e) = Some action).
Proof.
  cbv zeta. assert (dev_ok (dev_run c l)) as Hok.
  { induction l as [|x l IH] using rev_ind; [done|]. unfold dev_run in *. rewrite foldl_app. cbn [foldl]. by apply dev_step_flight. }
  split; [exact Hok|]. destruct (dev_step_flight e _ Hok) as (_ & sent & Hs & H). exists sent. split; [done|].
  destruct H as [H|H]; [left|by right]. eapply Forall_impl; [exact H|]. intros q Hq. by apply bool_decide_eq_false in Hq.
Qed.

(** What is left of an answer: its message *)
Lemma keeps_message_finish action : keeps dv_message (finishAction action).
Proof.
  assert (forall A (m : M client A), keeps dv_message (on_dev m)) as Hd by (intros A m s; unfold on_dev; by destruct (m (dv_client s))).
  unfold finishAction, poll, fetchJobs, fetchDiagnostics. keeps_step; done.
Qed.

(** An answer ends its action, with a message: of an error exactly when the request
    failed or was refused, or its answer cannot be read. *)
Theorem action_reports s action answer :
  dv_action s = Some action ->
  let s' := dev_step s (ActionAnswered answer) in
  dv_loading s' = VNull /\ dv_action s' = None /\ dv_message s' = answer_message answer /\
  (prop (dv_message s') "type" <> VStr "error" <->
   exists res data, answer = Ok res /\ res_ok res = true /\ a_json res = Ok data /\ is_nullish data = false).
Proof.
  intros Ha. cbv zeta. unfold dev_step, dev_handler. rewrite Ha.
  pose proof (actionAnswered_settles action answer s) as Hf. unfold flight in Hf. injection Hf as H1 H2.
  split; [done|]. split; [done|].
  assert (dv_message (actionAnswered action answer s).2 = answer_message answer) as Hm.
  { unfold actionAnswered. rewrite (M_bind_ok _ _ _ tt (set_action None s)) by done.
    rewrite (M_bind_ok _ _ _ _ _ (showAnswer_run _ _)). by rewrite keeps_message_finish. }
  split; [done|]. rewrite Hm. unfold answer_message.
  destruct answer as [res|e]; cbn [mbind result_bind]; [|split; [done|by intros (? & ? & ? & _)]].
  destruct (a_json res) as [data|e] eqn:Ej; cbn [mbind result_bind];
    [|split; [done|intros (? & ? & [= <-] & _ & Hj & _); congruence]].
  assert (forall k, is_nullish data = false -> get data k = Ok (prop data k)) as Hg by (by destruct data).
  assert (forall k, is_nullish data = true -> is_ok (get data k) = false) as Hn by (by destruct data).
  destruct (is_nullish data) eqn:En.
  - specialize (Hn (if res_ok res then "warnings" else "message") eq_refl). destruct (get data _); [done|].
    split; [done|]. intros (? & ? & [= <-] & _ & Hj & H). congruence.
  - rewrite Hg by done. destruct (res_ok res) eqn:Eo.
    + split; [by exists res, data|]. intros _. by destruct (truthy _ && _).
    + split; [done|]. intros (? & ? & [= <-] & Ho & _). congruence.
Qed.
End requests.

(** ** At the server: the jobs *)
Section jobs.
Context `{L : Luxon} `{Tm : Timer} `{Zd : Zod} `{N : Net} `{Ho : Host} `{T : Tts} `{W : Words}
  `{P : Pace} `{Loc : Locale} `{I : Intl} `{C : Crypto} `{D : Dotenv} `{B : Backend}.

(** The answer of a handler, as the page gets it *)
Definition answer_of (r : Http.reply) : reply := Reply (Http.rp_status r) VNull (Ok (json_clone (Http.rp_body r))).

Lemma fetchJobs_ok s : (fetchJobs s).1 = Ok tt.
Proof. unfold fetchJobs. munfold. by repeat case_match; simplify_eq/=. Qed.

(** A scheduler as its initialisation leaves it lists the five maintenance jobs,
    and the server has an action for each name the page can ask to run. *)
Theorem listed_jobs_known w day s :
  shape <$> s_jobs (w_sched w) = maintenance_shapes ++ queued_shapes day ->
  job_names (set_jobs (shown_jobs (json_clone (getJobs w))) s) = Ok maintenance_specs.*1 /\
  Forall (fun name => is_Some (own_callback name)) maintenance_specs.*1.
Proof.
  intros Hj. split; [|repeat (apply List.Forall_cons; [by eexists|]); constructor].
  assert (j_name <$> of_category "maintenance" (s_jobs (w_sched w)) = maintenance_specs.*1) as Hn.
  { assert (forall l, j_name <$> of_category "maintenance" l =
      (fun x => x.1.1.1) <$> filter (fun x => x.1.1.2 = "maintenance") (shape <$> l)) as Hf.
    { induction l as [|j l IH]; [done|]. unfold of_category in *. rewrite (fmap_cons shape), !filter_cons. cbn [shape fst snd].
      destruct (decide (j_category j = "maintenance")); cbn [fmap list_fmap]; [f_equal|]; apply IH. }
    rewrite Hf, Hj, filter_app, fmap_app.
    assert (filter (fun x : string * string * trigger_time * event => x.1.1.2 = "maintenance") (queued_shapes day) = []) as ->;
      [|by rewrite app_nil_r].
    unfold queued_shapes. clear Hj. induction day as [|[ev o] day IH]; [done|]. cbn [omap list_omap snd].
    destruct o as [|time| |]; [exact IH| |exact IH|exact IH]. cbn iota beta. rewrite filter_cons_False; [exact IH|done]. }
  set (jobs := of_category "maintenance" (s_jobs (w_sched w))) in *.
  assert (job_names (set_jobs (VArr (json_clone <$> (formatJob (w_clock w) <$> jobs))) s) = Ok maintenance_specs.*1) as Hok.
  { unfold job_names. cbn [dv_jobs set_jobs iterate]. f_equal. rewrite <- Hn. rewrite <- !list_fmap_compose.
    assert (Forall (fun n => n <> "") (j_name <$> jobs)) as Hne
      by (rewrite Hn; repeat (apply List.Forall_cons; [discriminate|]); constructor).
    clear Hn. induction jobs as [|j l IH]; [done|]. cbn [fmap list_fmap] in *. apply Forall_cons in Hne as [H1 H2].
    f_equal; [|by apply IH]. unfold formatJob, compose. rewrite (proj2 (String.eqb_neq _ _) H1). done. }
  unfold shown_jobs, getJobs. fold jobs.
  assert (forall l, json_clone (VArr (formatJob (w_clock w) <$> l)) = VArr (json_clone <$> (formatJob (w_clock w) <$> l))) as Hc.
  { intros l. cbn. f_equal. induction l as [|j l IH]; [done|]. cbn. by f_equal. }
  change (json_clone (VObj [("maintenance", ?a); ("automation", ?b)])) with (VObj [("maintenance", json_clone a); ("automation", json_clone b)]).
  rewrite !Hc. cbn [is_array prop oget String.eqb Ascii.eqb Bool.eqb truthy andb orb js_or]. exact Hok.
Qed.

(** The mark of a run is the truth: it says success exactly when the action of the
    job ended without an error. *)
Theorem run_reports jobName action req w r w' s :
  jobName <> "" -> rq_body req = q_body (run_call jobName) ->
  s_callbacks (w_sched w) = true -> own_callback jobName = Some action ->
  runJob_handler req w = (Ok r, w') ->
  let s' := (runAnswered jobName (Ok (answer_of r)) s).2 in
  job_status s' jobName = VStr (if is_ok (action w).1 then "success" else "error").
Proof.
  intros Hne Hb Hs Ha E s'.
  pose proof (runJob_reports jobName w Hs) as Hr. rewrite Ha in Hr.
  assert (r = json (if is_ok (action w).1 then 200 else 400) (job_result (is_ok (action w).1)
    (match (action w).1 with
     | Ok _ => "Job " +:+ quoted jobName +:+ " executed successfully."
     | Throw e => if String.eqb (e_msg e) "" then "Job execution failed." else e_msg e
     end))) as ->.
  { unfold runJob_handler in E. rewrite Hb in E. munfold. cbn [q_body run_call get prop oget String.eqb Ascii.eqb Bool.eqb] in E.
    rewrite (truthy_str _ Hne) in E. cbn [negb show] in E. rewrite Hr in E.
    destruct (action w) as [[[]|e] w1]; cbn in E; by injection E as <- _. }
  assert (forall st name v, job_status (put_job_status name v st) name = v) as Hput.
  { intros st name v. unfold job_status, put_job_status. cbn [dv_jobStatuses]. unfold ospread. cbn [foldl prop fst snd].
    apply oget_oset. }
  assert (keeps dv_jobStatuses fetchJobs) as Hk.
  { assert (forall A (m : M client A), keeps dv_jobStatuses (on_dev m)) as Hd
      by (intros A m st; unfold on_dev; by destruct (m (dv_client st))).
    unfold fetchJobs. keeps_step; done. }
  subst s'. unfold runAnswered, refused. munfold. destruct (action w) as [[[]|e] w1];
    cbn [answer_of a_json a_status res_ok Http.rp_status Http.rp_body json fst is_ok Z.leb Z.ltb Z.compare Pos.compare Pos.compare_cont andb].
  - match goal with |- context [fetchJobs ?st] => pose proof (Hk st) as Hst; pose proof (fetchJobs_ok st) as Hok;
      destruct (fetchJobs st) as [[[]|] s2]; [|done] end.
    cbn [snd] in *. unfold job_status. rewrite Hst. apply Hput.
  - apply Hput.
Qed.
End jobs.

(** ** The page at work *)
Definition dev_page : client :=
  let c := VObj [("automation", VObj [])] in
  Client c c (VObj [("tts", VObj [("healthy", VBool false)])]) false false false (VArr []) false VNull (VArr []) false true [].

(** A server with one job listed, whose runs succeed *)
Definition one_job : Backend := fun _ q =>
  Ok (ClientSettings.Reply 200 VNull (Ok (if String.eqb (q_url q) "/api/system/jobs"
    then VObj [("maintenance", VArr [VObj [("name", VStr JOB_AUDIO_ASSETS)]]); ("automation", VArr [])] else job_result true "done"))).
Definition ran : result reply := Ok (ClientSettings.Reply 200 VNull (Ok (job_result true "done"))).

(** The mark of a run is lost to the timer of the one before: a job run again within
    three seconds can be started once more while it runs. *)
Theorem job_mark_lost :
  let s := dev_run (B := one_job) dev_page
    [Poll; RunJob JOB_AUDIO_ASSETS; RunAnswered JOB_AUDIO_ASSETS ran; RunJob JOB_AUDIO_ASSETS; RunMarkOver JOB_AUDIO_ASSETS] in
  dv_runs s = [JOB_AUDIO_ASSETS] /\ job_disabled s JOB_AUDIO_ASSETS = false /\
  dv_runs (dev_step (B := one_job) s (RunJob JOB_AUDIO_ASSETS)) = [JOB_AUDIO_ASSETS; JOB_AUDIO_ASSETS].
Proof. by vm_compute. Qed.

(** The button of the speech files looks for the status of the service, not for its
    health: with the service down it is offered as with the service up. *)
Theorem speech_button_when_down :
  let s := first_developer dev_page in
  tts_online s = false /\ action_disabled "tts" s = false /\ action_subtext s = "Rebuilds audio files for today's cache".
Proof. by vm_compute. Qed.

Lemma timeline_true_witness :
  exists result date c, (getAutomationStatus (L := utc) (Zd := zod_ref) (N := no_net) day_config day_world).1 = Ok result /\
    (date, ("fajr", "adhan")) ∈ day_events (L := utc) day_config day_times (prop (prop day_config "automation") "triggers") (zone_of day_config) /\
    timeline (json_clone result) "fajr" "adhan" = Ok (Some c) /\ sc_tone c <> Plain.
Proof.
  destruct (getAutomationStatus (L := utc) (Zd := zod_ref) (N := no_net) day_config day_world) as [r w'] eqn:E.
  assert (is_ok r = true) as Hr.
  { change r with (r, w').1. rewrite <- E. vm_compute. reflexivity. }
  destruct r as [result|]; [|done].
  destruct (timeline_true (L := utc) (Zd := zod_ref) (N := no_net) day_config day_world result w' day_times day_world "fajr" "adhan" E)
    as [Hshow _];
    [vm_compute; reflexivity|by apply (bool_decide_unpack _); vm_compute|by apply (bool_decide_unpack _); vm_compute|reflexivity|].
  assert (exists date l, day_events (L := utc) day_config day_times
    (prop (prop day_config "automation") "triggers") (zone_of day_config) = (date, ("fajr", "adhan")) :: l) as (date & l & Hd)
    by (vm_compute; eauto).
  assert ((date, ("fajr", "adhan")) ∈ day_events (L := utc) day_config day_times
    (prop (prop day_config "automation") "triggers") (zone_of day_config)) as Hin by (rewrite Hd; apply list_elem_of_here).
  destruct (Hshow date Hin) as (c & Hc & Hc' & _). exists result, date, c.
  split; [done|]. split; [done|]. split; [done|]. rewrite Hc'. by destruct (dt_lt _ _).
Defined.
