(* ===== verification/DashboardControls.v ===== *)
(** * The controls of the dashboard
      ([client/src/components/layout/TopControls.jsx],
       [client/src/views/DashboardView.jsx], [client/src/hooks/useTour.js],
       [client/src/config/tourSteps.js])

    The warning at the settings button, the button that keeps the screen awake,
    by itself when the device is set so, and the welcome of the first visit with
    its tour.  An effect runs when what it depends on has changed; the tour
    itself is drawn by a library.  What the browser answers to a request for a
    lock is an event. *)
From S2P Require Import Prelude JsString JsValue World Luxon ConfigStore Automation ClientPrefs.
From S2P Require Import ClientAudio.
From S2P Require Import ClientSettings SettingsShell.

(** ** The warning at the settings button *)

(** [l.some(f)], which stops at the first *)
Fixpoint some_of {A} (f : A -> result bool) (l : list A) : result bool :=
  match l with
  | [] => Ok false
  | x :: l' => b ← f x; if b : bool then Ok true else some_of f l'
  end.

(** [Array.from(new Set(l))] *)
Definition distinct (l : list val) : list val :=
  foldl (fun acc v => if existsb (val_eqb v) acc then acc else acc ++ [v]) [] l.

Section warning.
Context (systemHealth config : val).

Definition triggers_of : val := prop (prop config "automation") "triggers".

Definition speech_trigger (kv : string * val) : result bool :=
  enabled ← get kv.2 "enabled"; Ok (truthy enabled && seq (prop kv.2 "type") (VStr "tts")).
Definition ttsTriggersEnabled : result bool :=
  if negb (truthy triggers_of) then Ok false else
  some_of (fun pk : string * val => l ← entries pk.2; some_of speech_trigger l) (props triggers_of).

(** A service with a status that is not healthy *)
Definition down (id : string) : bool :=
  truthy (prop systemHealth id) && negb (truthy (prop (prop systemHealth id) "healthy")).
Definition down_issue (title id : string) : list val :=
  if down id then [VStr (title +:+ ": " +:+ show (js_or (prop (prop systemHealth id) "message") (VStr "Offline")))] else [].

Definition used_issue (prayer type : string) (targetId : val) : list val :=
  if seq targetId (VStr "browser") then [] else
  let id := show targetId in
  let text := show (js_or (prop (prop systemHealth id) "label") (VStr (capitalise id))) +:+
              " is used by " +:+ prayer +:+ " " +:+ type +:+ " but is " in
  if truthy (output_config config id) && negb (truthy (prop (output_config config id) "enabled"))
  then [VStr (text +:+ "DISABLED")]
  else if down id then [VStr (text +:+ "OFFLINE")] else [].

Definition trigger_issues (prayer : string) (kv : string * val) : result (list val) :=
  enabled ← get kv.2 "enabled";
  if negb (truthy enabled) then Ok [] else
  targets ← targets_of kv.2; Ok (mjoin (used_issue prayer kv.1 <$> targets)).
Definition prayer_issues (pk : string * val) : result (list val) :=
  l ← entries pk.2; collect (trigger_issues pk.1) l.

Definition healthIssues : result (list val) :=
  if negb (truthy systemHealth) || negb (truthy config) then Ok [] else
  speech ← ttsTriggersEnabled;
  used ← collect prayer_issues (props (js_or triggers_of (VObj [])));
  Ok (down_issue "Primary Source" "primarySource" ++
      (if speech : bool then down_issue "TTS Service" "tts" else []) ++ distinct used).
Definition isDegraded : bool := match healthIssues with Ok l => negb (Nat.eqb (length l) 0) | Throw _ => false end.
End warning.

(** ** Lemmas: the warning *)
Lemma distinct_nil l : distinct l = [] <-> l = [].
Proof.
  split; [|by intros ->]. unfold distinct. destruct l as [|v l]; [done|]. cbn [foldl existsb app]. intros H. exfalso.
  assert (forall acc, acc <> [] ->
    foldl (fun acc v => if existsb (val_eqb v) acc then acc else acc ++ [v]) acc l <> []) as Hg; [|by apply (Hg [v])].
  clear. induction l as [|v l IH]; intros acc Ha; [done|]. cbn [foldl]. apply IH. destruct (existsb _ _); [done|]. by destruct acc.
Qed.

Lemma some_of_false {A} (P : A -> Prop) (f : A -> result bool) l b :
  (forall x y, f x = Ok y -> (y = false <-> P x)) -> some_of f l = Ok b -> (b = false <-> Forall P l).
Proof.
  intros Hf. revert b. induction l as [|x l IH]; intros b; cbn [some_of]; [by intros [= <-]|]. unfold mbind, result_bind.
  rewrite Forall_cons. destruct (f x) as [y|] eqn:E; [|done]. specialize (Hf x y E). destruct y.
  - intros [= <-]. split; [done|]. intros [H _]. by apply Hf in H.
  - intros H. rewrite (IH b H). split; [split; [by apply Hf|done]|by intros [_ ?]].
Qed.

Lemma down_issue_nil systemHealth title id : down_issue systemHealth title id = [] <-> down systemHealth id = false.
Proof. unfold down_issue. by destruct (down _ _). Qed.

(** The page of the settings without unsaved changes *)
Section agreement.
Context (s : client) (Hdraft : k_draftConfig s = k_config s).
Let health := k_systemHealth s.
Let config := k_config s.

Lemma used_issue_nil prayer type id : used_issue health config prayer type id = [] <-> target_ready s id.
Proof.
  rewrite <- (target_issue_nil s ""). unfold used_issue, target_issue, down, output_config. rewrite Hdraft. cbv zeta.
  destruct (seq id _); [done|]. fold config health.
  destruct (truthy (prop (prop (prop config "automation") "outputs") (show id)) && _); [by split|].
  by destruct (truthy (prop health (show id)) && _).
Qed.

Lemma trigger_issues_nil prayer kv l :
  trigger_issues health config prayer kv = Ok l ->
  (l = [] <-> (truthy (prop kv.2 "enabled") = true -> Forall (target_ready s) (arr_of (prop kv.2 "targets")))).
Proof.
  unfold trigger_issues, mbind, result_bind. destruct (get kv.2 "enabled") as [v|] eqn:Eg; [|done]. apply got_prop in Eg as ->.
  destruct (truthy (prop kv.2 "enabled")); [|by intros [= <-]]. cbn [negb]. unfold targets_of.
  destruct (js_or (prop kv.2 "targets") (VArr [])) as [| | | | |ts|] eqn:Et; try done. intros [= <-].
  assert (arr_of (prop kv.2 "targets") = ts) as ->.
  { unfold js_or in Et. destruct (truthy (prop kv.2 "targets")) eqn:Etr; [by rewrite Et|].
    injection Et as <-. by destruct (prop kv.2 "targets"). }
  rewrite mjoin_nil, Forall_fmap. split.
  - intros H _. eapply Forall_impl; [exact H|]. intros x. apply used_issue_nil.
  - intros H. eapply Forall_impl; [exact (H eq_refl)|]. intros x. apply used_issue_nil.
Qed.

Lemma used_nil triggers used :
  collect (prayer_issues health config) (props triggers) = Ok used ->
  (used = [] <-> Forall (fun pk => Forall (fun kv => truthy (prop kv.2 "enabled") = true ->
     Forall (target_ready s) (arr_of (prop kv.2 "targets"))) (props pk.2)) (props triggers)).
Proof.
  intros E. rewrite (collect_nil _ _ _ E). pose proof (collect_each _ _ _ E) as He. rewrite !Forall_forall in *.
  assert (forall pk y, prayer_issues health config pk = Ok y -> (y = [] <->
    Forall (fun kv => truthy (prop kv.2 "enabled") = true -> Forall (target_ready s) (arr_of (prop kv.2 "targets"))) (props pk.2))) as Hp.
  { intros pk y. unfold prayer_issues, entries, mbind, result_bind. destruct (is_nullish pk.2); [done|]. intros Ep.
    rewrite (collect_nil _ _ _ Ep). pose proof (collect_each _ _ _ Ep) as Hx. rewrite !Forall_forall in *.
    split; intros H kv Hin; specialize (H kv Hin); destruct (Hx kv Hin) as [z Ez].
    - rewrite Ez in H. injection H as ->. by apply (trigger_issues_nil _ _ _ Ez).
    - rewrite Ez. f_equal. by apply (trigger_issues_nil _ _ _ Ez). }
  split; intros H pk Hin; specialize (H pk Hin); destruct (He pk Hin) as [y Ey].
  - rewrite Ey in H. injection H as ->. by apply (Hp _ _ Ey).
  - rewrite Ey. f_equal. by apply (Hp _ _ Ey).
Qed.

Lemma speech_false triggers b :
  some_of (fun pk : string * val => l ← entries pk.2; some_of speech_trigger l) (props triggers) = Ok b ->
  (b = false <-> Forall (fun pk => Forall (fun kv => truthy (prop kv.2 "enabled") = true ->
     seq (prop kv.2 "type") (VStr "tts") = false) (props pk.2)) (props triggers)).
Proof.
  apply some_of_false. intros pk y. unfold mbind, result_bind, entries. destruct (is_nullish pk.2); [done|].
  apply some_of_false. intros kv z. unfold speech_trigger, mbind, result_bind.
  destruct (get kv.2 "enabled") as [v|] eqn:Eg; [|done]. apply got_prop in Eg as ->. intros [= <-].
  destruct (truthy (prop kv.2 "enabled")); cbn [andb]; [by split; [|intros H; apply H]|done].
Qed.

(** The dashboard and the settings warn of the same.  Without unsaved changes,
    and with the status of the speech service known, the warning at the settings
    button stays away exactly when the primary source is not known to be down and
    the page of the triggers is marked as healthy. *)
Theorem warning_agrees h l :
  truthy config = true -> truthy health = true -> truthy (prop health "tts") = true ->
  truthy (prop (prop config "automation") "triggers") = true ->
  healthIssues health config = Ok l -> getSectionHealth s "automation.triggers" = Ok h ->
  (isDegraded health config = false <->
   down health "primarySource" = false /\ prop h "healthy" = VBool true).
Proof.
  intros Hc Hh Htts Ht E Es.
  assert (forall v k, truthy (prop v k) = true -> truthy v = true) as Hobj by (intros v k; by destruct v).
  rewrite (triggers_health_exact s h) by (rewrite ?Hdraft; done). rewrite Hdraft. fold config.
  assert (isDegraded health config = false <-> l = []) as ->.
  { unfold isDegraded. rewrite E. by destruct l. }
  unfold healthIssues in E. rewrite Hc, Hh in E. cbn [negb orb] in E. unfold mbind, result_bind in E.
  unfold ttsTriggersEnabled, triggers_of in E. rewrite Ht in E. cbn [negb] in E.
  assert (js_or (prop (prop config "automation") "triggers") (VObj []) = prop (prop config "automation") "triggers") as Ej
    by (by rewrite js_or_truthy).
  rewrite Ej in E. set (triggers := prop (prop config "automation") "triggers") in *.
  destruct (some_of _ (props triggers)) as [speech|] eqn:Esp; [|done]. destruct (collect _ (props triggers)) as [used|] eqn:Eu; [|done].
  injection E as <-. pose proof (speech_false _ _ Esp) as Hs. pose proof (used_nil _ _ Eu) as Hu.
  assert (forall a b c : list val, a ++ b ++ c = [] <-> a = [] /\ b = [] /\ c = []) as Happ.
  { intros a b c. split; [intros [-> [-> ->]%app_nil]%app_nil; done|by intros (-> & -> & ->)]. }
  rewrite Happ, down_issue_nil, distinct_nil, Hu. clear Happ Hu Eu.
  assert ((if speech : bool then down_issue health "TTS Service" "tts" else []) = [] <->
    (speech = false \/ truthy (prop (prop health "tts") "healthy") = true)) as ->.
  { destruct speech; [rewrite down_issue_nil; unfold down; rewrite Htts|by split; [left|]].
    destruct (truthy (prop (prop health "tts") "healthy")); cbn; split; try done; [by right|by intros [?|?]]. }
  rewrite Hs. clear Hs Esp. rewrite !Forall_forall. split.
  - intros (Hp & Hsp & Hu). split; [done|]. intros pk Hin. rewrite Forall_forall. intros kv Hkv _ Hen. split.
    + intros Hty. destruct Hsp as [Hsp|Hsp]; [|done]. specialize (Hsp pk Hin). rewrite Forall_forall in Hsp.
      by rewrite (Hsp kv Hkv Hen) in Hty.
    + specialize (Hu pk Hin). rewrite Forall_forall in Hu. by apply Hu.
  - intros (Hp & H). split; [done|]. split.
    + destruct (truthy (prop (prop health "tts") "healthy")) eqn:Eh; [by right|left]. intros pk Hin. rewrite Forall_forall.
      intros kv Hkv Hen. specialize (H pk Hin). rewrite Forall_forall in H.
      destruct (H kv Hkv (Hobj _ _ Hen) Hen) as [H1 _]. destruct (seq _ _) eqn:Ety; [|done].
      fold health in H1. rewrite Eh in H1. by specialize (H1 eq_refl).
    + intros pk Hin. rewrite Forall_forall. intros kv Hkv Hen. specialize (H pk Hin). rewrite Forall_forall in H.
      by apply (H kv Hkv (Hobj _ _ Hen)).
Qed.

(** Where there is no warning the server plays: every output an enabled trigger
    names, and the configuration knows, is one the announcement is executed on. *)
Theorem quiet_means_played prayer event id :
  truthy config = true -> truthy health = true -> healthIssues health config = Ok [] ->
  let settings := trigger_settings config prayer event in
  truthy (prop settings "enabled") = true -> VStr id ∈ arr_of (prop settings "targets") -> id <> "browser" ->
  truthy (output_config config id) = true ->
  target_enabled config id = true /\ down health id = false.
Proof.
  intros Hc Hh E settings Hen Hin Hb Ho. unfold healthIssues in E. rewrite Hc, Hh in E. cbn [negb orb] in E.
  unfold mbind, result_bind in E. destruct (ttsTriggersEnabled config) as [speech|]; [|done].
  destruct (collect _ _) as [used|] eqn:Eu; [|done]. injection E as [_ [_ Ed]%app_nil]%app_nil. apply distinct_nil in Ed as ->.
  assert (forall v k, truthy (prop v k) = true -> truthy v = true) as Hobj by (intros v k; by destruct v).
  assert (forall v k, truthy (prop v k) = true -> (k, prop v k) ∈ props v) as Hprop.
  { intros v k H. destruct v as [| | | | | |o]; try done. cbn [prop props] in *. apply oget_elem. intros E0. by rewrite E0 in H. }
  unfold settings, trigger_settings in Hen, Hin. set (triggers := prop (prop config "automation") "triggers") in *.
  pose proof (Hobj _ _ Hen) as H1. pose proof (Hobj _ _ H1) as H2. pose proof (Hobj _ _ H2) as H3.
  unfold triggers_of in Eu. fold triggers in Eu. rewrite (js_or_truthy _ _ H3) in Eu.
  pose proof (proj1 (used_nil _ _ Eu) eq_refl) as Hall. rewrite Forall_forall in Hall.
  specialize (Hall _ (Hprop _ _ H2)). rewrite Forall_forall in Hall. specialize (Hall _ (Hprop _ _ H1) Hen).
  rewrite Forall_forall in Hall. destruct (Hall _ Hin) as [Hx|[Hx Hy]].
  - cbn in Hx. by apply String.eqb_eq in Hx.
  - rewrite Hdraft in Hx. unfold target_enabled. rewrite (proj2 (String.eqb_neq _ _) Hb). split; [by apply Hx|].
    unfold down. destruct (truthy (prop health id)) eqn:Et; [|done]. cbn [show] in Hy. fold health in Hy. by rewrite (Hy Et).
Qed.
End agreement.

(** ** The wake lock *)
Record controls := Controls {
  tc_wake : wake; tc_paused : bool; tc_prevAutoStart : bool;
  tc_auto : bool;              (* preferences.appearance.wakeLockAutoStart *)
  tc_requests : nat;           (* the requests made *)
  tc_held : list nat           (* the locks the browser holds for the page *)
}.
Definition set_wake v s := Controls v (tc_paused s) (tc_prevAutoStart s) (tc_auto s) (tc_requests s) (tc_held s).
Definition set_isManuallyPaused v s := Controls (tc_wake s) v (tc_prevAutoStart s) (tc_auto s) (tc_requests s) (tc_held s).
Definition set_prevAutoStart v s := Controls (tc_wake s) (tc_paused s) v (tc_auto s) (tc_requests s) (tc_held s).
Definition set_auto v s := Controls (tc_wake s) (tc_paused s) (tc_prevAutoStart s) v (tc_requests s) (tc_held s).
Definition set_held v s := Controls (tc_wake s) (tc_paused s) (tc_prevAutoStart s) (tc_auto s) (tc_requests s) v.
Definition count_request s := Controls (tc_wake s) (tc_paused s) (tc_prevAutoStart s) (tc_auto s) (S (tc_requests s)) (tc_held s).
Definition first_controls (auto : bool) : controls := Controls no_lock false auto auto 0 [].

Section controls.
Context (isSupported : bool).

Definition isActive (s : controls) : bool := v_active (tc_wake s).
Definition request (s : controls) : controls := if isSupported then count_request s else s.
(** [release]: the lock last given, if there is one; its event comes later. *)
Definition release (s : controls) : controls :=
  match v_sentinel (tc_wake s) with Some id => set_held (filter (fun i => i <> id) (tc_held s)) s | None => s end.

Definition shouldAutoStart (s : controls) : bool := tc_auto s && isSupported && negb (isActive s) && negb (tc_paused s).
(** The effect, when the setting, the lock's state or error, or the pause has changed *)
Definition auto_start (changed : bool) (s : controls) : controls := if changed && shouldAutoStart s then request s else s.

Definition handleWakeLockToggle (s : controls) : controls :=
  if isActive s then release (set_isManuallyPaused true s)
  else auto_start (tc_paused s) (request (set_isManuallyPaused false s)).

(** A change of the setting takes the pause back. *)
Definition auto_changed (auto : bool) (s : controls) : controls :=
  if Bool.eqb auto (tc_prevAutoStart s) then set_auto auto s
  else auto_start true (set_isManuallyPaused false (set_prevAutoStart auto (set_auto auto s))).

(** Each error is an object of its own. *)
Definition lock_answered (answer : nat + val) (s : controls) : controls :=
  let s' := set_wake (wake_step (RequestLock answer) (tc_wake s)) s in
  match answer with
  | inl id => auto_start (negb (isActive s) || truthy (v_error (tc_wake s))) (set_held (tc_held s ++ [id]) s')
  | inr _ => auto_start true s'
  end.
Definition lock_released (id : nat) (s : controls) : controls :=
  let s' := set_wake (wake_step (Released id) (tc_wake s)) s in
  auto_start (negb (Bool.eqb (isActive s) (isActive s'))) s'.

Inductive controls_event :=
| Mounted | ClickWake | AutoSet (auto : bool) | LockAnswered (answer : nat + val) | LockReleased (id : nat).
Definition controls_step (s : controls) (e : controls_event) : controls :=
  match e with
  | Mounted => auto_start true s
  | ClickWake => if isSupported then handleWakeLockToggle s else s
  | AutoSet auto => auto_changed auto s
  | LockAnswered answer => lock_answered answer s
  | LockReleased id => lock_released id s
  end.
Definition controls_run (l : list controls_event) (s : controls) : controls := foldl controls_step s l.

(** What the button is called *)
Definition getWakeLockTitle (s : controls) : string :=
  if negb isSupported then "Not supported (Requires HTTPS)"
  else if truthy (v_error (tc_wake s)) then "Error: " +:+ show (prop (v_error (tc_wake s)) "message") +:+ ". Click to retry."
  else if isActive s then "Wake Lock Active (Screen will stay on)"
  else if tc_auto s then "Wake Lock paused for this session"
  else "Enable Screen Wake Lock".

(** ** Lemmas: the wake lock *)

(** A pause lasts.  Once the user has paused the lock, and until they click again or
    change the setting, the page asks for no lock, whatever the browser answers
    and releases. *)
Theorem pause_lasts s l :
  tc_paused s = true ->
  Forall (fun e => match e with ClickWake | AutoSet _ => False | _ => True end) l ->
  tc_requests (controls_run l s) = tc_requests s /\ tc_paused (controls_run l s) = true.
Proof.
  revert s. induction l as [|e l IH]; intros s Hp H; [done|]. apply Forall_cons in H as [He H].
  assert (forall b s', tc_paused s' = true -> auto_start b s' = s') as Ha.
  { intros b s' Hs. unfold auto_start, shouldAutoStart. by rewrite Hs, !andb_false_r. }
  assert (tc_paused (controls_step s e) = true /\ tc_requests (controls_step s e) = tc_requests s) as [H1 H2].
  { destruct e as [| | |answer|id]; cbn [controls_step]; try done; unfold lock_answered, lock_released.
    - by rewrite Ha.
    - destruct answer; rewrite Ha; done.
    - rewrite Ha; done. }
  unfold controls_run in *. cbn [foldl]. destruct (IH _ H1 H) as [-> ->]. by rewrite H2.
Qed.

(** A refused lock is asked for again at once, without end: with the setting on,
    every refusal is followed by another request. *)
Theorem refusals_repeat s errs :
  isSupported = true -> tc_auto s = true -> tc_paused s = false ->
  tc_requests (controls_run ((fun err => LockAnswered (inr err)) <$> errs) s) = (length errs + tc_requests s)%nat.
Proof.
  intros Hs. revert s. induction errs as [|err errs IH]; intros s Ha Hp; [done|]. cbn [fmap list_fmap length].
  unfold controls_run in *. cbn [foldl].
  assert (controls_step s (LockAnswered (inr err)) = count_request (set_wake (wake_step (RequestLock (inr err)) (tc_wake s)) s)) as ->.
  { cbn [controls_step lock_answered]. unfold auto_start, shouldAutoStart, request, isActive.
    cbn [tc_auto tc_paused set_wake tc_wake]. rewrite Ha, Hs, Hp. unfold wake_step, wake_commit. cbn [request_lock v_active].
    by destruct (Bool.eqb _ _). }
  rewrite IH by done. cbn. lia.
Qed.
End controls.

(** With the setting on, a pause can be made once only: taking the lock back by a
    click asks for two, of which one is forgotten, and from then on the button
    neither lets the screen sleep nor shows the pause. *)
Theorem second_pause_fails :
  let s := controls_run true
    [Mounted; LockAnswered (inl 1%nat); ClickWake; LockReleased 1%nat; ClickWake; LockAnswered (inl 2%nat);
     LockAnswered (inl 3%nat); ClickWake; LockReleased 3%nat] (first_controls true) in
  tc_paused s = true /\ isActive s = true /\ tc_held s = [2%nat].
Proof. by vm_compute. Qed.

(** ** The welcome and the tours *)

(** The steps: the element each points at *)
Definition dashboardTourSteps : list string :=
  ["#tour-focus-card"; "#tour-prayer-card"; "#tour-wake-lock"; "#tour-mute-btn"; "#tour-display-settings"; "#tour-admin-settings"].
Definition adminTourSteps : list string :=
  ["#tour-nav-general"; "#tour-nav-prayers"; "#tour-nav-automation"; "#tour-nav-files"; "#tour-nav-credentials"; "#tour-nav-developer"].

Record tour := Tour { tr_isActive : bool; tr_currentTour : option string; tr_driver : option (list string) }.
Definition no_tour : tour := Tour false None None.

(** With no element on the page the tour is complete at once: [true]. *)
Definition startTour (on_page : string -> bool) (tourName : string) (steps : list string) (t : tour) : tour * bool :=
  match List.filter on_page steps with
  | [] => (t, true)
  | filteredSteps => (Tour true (Some tourName) (Some filteredSteps), false)
  end.
Definition stopTour (_ : tour) : tour := no_tour.

Record welcome := Welcome { wl_show : bool; wl_initialLoad : bool; wl_tour : tour; wl_client : client }.
Definition set_showWelcomeModal b w := Welcome b (wl_initialLoad w) (wl_tour w) (wl_client w).
Definition set_initialLoad b w := Welcome (wl_show w) b (wl_tour w) (wl_client w).
Definition set_tour t w := Welcome (wl_show w) (wl_initialLoad w) t (wl_client w).
Definition first_welcome (c : client) : welcome := Welcome false true no_tour c.

(** The effect of the configuration *)
Definition watch_config (w : welcome) : welcome :=
  let config := k_config (wl_client w) in
  let shown := seq (prop (prop (prop config "system") "tours") "dashboardSeen") (VBool false) && wl_initialLoad w in
  let w' := if shown then set_showWelcomeModal true w else w in
  if is_undef config then w' else set_initialLoad false w'.

Section welcome.
Context `{B : Backend} (on_page : string -> bool).

Definition on_welcome {A} (m : M client A) : M welcome A := fun w =>
  let '(r, c) := m (wl_client w) in (r, Welcome (wl_show w) (wl_initialLoad w) (wl_tour w) c).
Definition tour_seen : M client reply := fetch "PATCH" "/api/settings/tour-state" (VObj [("dashboardSeen", VBool true)]).

Definition handleTourComplete : M welcome unit :=
  try_catch (_ ← on_welcome tour_seen; on_welcome refresh) (fun _ => ret tt).
Definition handleStartTour : M welcome unit := fun w =>
  let '(t, complete) := startTour on_page "dashboard" dashboardTourSteps (wl_tour (set_showWelcomeModal false w)) in
  when complete handleTourComplete (set_tour t (set_showWelcomeModal false w)).
Definition handleSkipTour : M welcome unit :=
  try_catch (_ ← on_welcome tour_seen; modify (set_showWelcomeModal false) ;; on_welcome refresh)
    (fun _ => modify (set_showWelcomeModal false)).

(** The settings come, or come again. *)
Definition settings_come (config : val) (w : welcome) : welcome :=
  watch_config (Welcome (wl_show w) (wl_initialLoad w) (wl_tour w) (set_config config (wl_client w))).

(** Whatever the server says, skipping closes the welcome, and it stays closed
    however often the settings come again. *)
Lemma settings_come_again configs w :
  wl_initialLoad w = false ->
  wl_show (foldl (fun w c => settings_come c w) w configs) = wl_show w /\
  wl_initialLoad (foldl (fun w c => settings_come c w) w configs) = false.
Proof.
  revert w. induction configs as [|c configs IH]; intros w H; [done|]. cbn [foldl].
  assert (wl_show (settings_come c w) = wl_show w /\ wl_initialLoad (settings_come c w) = false) as [H1 H2].
  { unfold settings_come, watch_config. cbn [wl_initialLoad wl_client]. rewrite H, andb_false_r. by destruct (is_undef _). }
  destruct (IH _ H2) as [-> ->]. by rewrite H1.
Qed.

(** The welcome is shown for the settings the page starts with, and for no other:
    settings that come after the page, and a tour restarted from the display
    settings, show no welcome until the page is loaded again. *)
Theorem welcome_at_start c first configs :
  is_undef first = false ->
  wl_show (foldl (fun w c => settings_come c w) (settings_come first (first_welcome c)) configs) =
    seq (prop (prop (prop first "system") "tours") "dashboardSeen") (VBool false).
Proof.
  intros Hu. assert (wl_initialLoad (settings_come first (first_welcome c)) = false) as Hi.
  { unfold settings_come, watch_config. cbn [wl_client k_config set_config]. by rewrite Hu. }
  destruct (settings_come_again configs _ Hi) as [-> _]. unfold settings_come, watch_config. cbn [wl_client k_config set_config wl_initialLoad first_welcome].
  rewrite Hu, andb_true_r. by destruct (seq _ _).
Qed.

(** The first rendering has no settings yet ([null]). *)
Theorem late_settings_unwelcomed c configs :
  wl_show (foldl (fun w c => settings_come c w) (settings_come VNull (first_welcome c)) configs) = false.
Proof. by rewrite welcome_at_start. Qed.

Theorem skip_closes w configs :
  wl_initialLoad w = false ->
  wl_show (foldl (fun w c => settings_come c w) (handleSkipTour w).2 configs) = false /\
  exists sent, k_sent (wl_client (handleSkipTour w).2) = k_sent (wl_client w) ++
    Call "PATCH" "/api/settings/tour-state" (VObj [("dashboardSeen", VBool true)]) :: sent.
Proof.
  intros Hi. assert (wl_show (handleSkipTour w).2 = false /\ wl_initialLoad (handleSkipTour w).2 = false /\
    exists sent, k_sent (wl_client (handleSkipTour w).2) = k_sent (wl_client w) ++
      Call "PATCH" "/api/settings/tour-state" (VObj [("dashboardSeen", VBool true)]) :: sent) as (H1 & H2 & H3); cycle 1.
  { split; [|done]. destruct (settings_come_again configs _ H2) as [-> _]. done. }
  unfold handleSkipTour, on_welcome, tour_seen. munfold. rewrite fetch_run. set (q := Call _ _ _).
  assert (k_sent (add_calls [q] (wl_client w)) = k_sent (wl_client w) ++ [q]) as Es by done.
  destruct (backend _ q) as [res|e]; cbn [wl_client wl_show wl_initialLoad wl_tour set_showWelcomeModal snd];
    [|split_and!; [done..|]; exists []; by rewrite Es].
  destruct (sends_refresh (fun _ => True) I I (add_calls [q] (wl_client w))) as (l & Hl & _).
  destruct (refresh _) as [[y|y] c']; cbn [wl_client wl_show wl_initialLoad snd] in *;
    (split_and!; [done..|]; exists l; cbn in Hl |- *; by rewrite Hl, <- app_assoc).
Qed.

(** Every step of the tour points at something on the dashboard. *)
Theorem tour_of_dashboard t :
  Forall (fun step => on_page step = true) dashboardTourSteps ->
  startTour on_page "dashboard" dashboardTourSteps t = (Tour true (Some "dashboard") (Some dashboardTourSteps), false).
Proof.
  intros H. unfold startTour. assert (List.filter on_page dashboardTourSteps = dashboardTourSteps) as ->; [|done].
  induction H as [|x l Hx _ IH]; [done|]. cbn. by rewrite Hx, IH.
Qed.
End welcome.

(** ** A dashboard at work *)
Definition saved_page : client :=
  Client sample_config sample_config ClientSettings.health false false false (VArr []) false VNull (VArr []) false true [].

Lemma warning_agrees_witness :
  exists h, getSectionHealth saved_page "automation.triggers" = Ok h /\
    isDegraded (k_systemHealth saved_page) (k_config saved_page) = false.
Proof.
  eexists. split; [vm_compute; reflexivity|].
  eapply (warning_agrees saved_page eq_refl); [vm_compute; reflexivity..|]. split; vm_compute; reflexivity.
Defined.
