(* ===== verification/AutomationGeneral.v ===== *)
(** * The switches and batches of the automation
      ([client/src/components/settings/automation/AutomationGeneralTab.jsx])

    The master switch and one per kind of announcement, and the batches that set
    an offset for all prayers at once, with a note of what they did. *)
From S2P Require Import Prelude JsString JsValue Luxon LuxonUtc Calculations Scheduler Providers.
From S2P Require Import Http SystemController.
From S2P Require Import ClientSettings IqamahCard DisplaySettings.

(** ** The page *)
Record general := General { gt_batchVals : val; gt_toast : option string; gt_client : client }.
Definition set_batchVal (k : string) (v : val) (s : general) : general :=
  General (VObj (ospread (props (gt_batchVals s)) [(k, v)])) (gt_toast s) (gt_client s).
Definition set_toast (v : option string) (s : general) : general := General (gt_batchVals s) v (gt_client s).
Definition set_general_client (c : client) (s : general) : general := General (gt_batchVals s) (gt_toast s) c.
Definition first_general (c : client) : general :=
  General (VObj [("preAdhan", VInt 15); ("preIqamah", VInt 10); ("iqamahOffset", VInt 15)]) None c.
Definition on_general {A} (m : M client A) : M general A := fun s =>
  let '(r, c) := m (gt_client s) in (r, set_general_client c s).

(** The switches: the event, and whether it shows as on *)
Definition SWITCHES : list string := ["enabled"; "preAdhanEnabled"; "adhanEnabled"; "preIqamahEnabled"; "iqamahEnabled"].
Definition switch_path (key : string) : string := "automation.global." +:+ key.
Definition toggle_shown (draft : val) (key : string) : bool :=
  truthy (nullish (prop (prop (prop draft "automation") "global") key) (VBool true)).
Definition flip_switch (key : string) : M general unit := fun s =>
  on_general (updateSetting (switch_path key) (VBool (negb (toggle_shown (k_draftConfig (gt_client s)) key)))) s.
Definition switches_changed (s : client) : bool :=
  negb (stringify_eqb (prop (prop (k_config s) "automation") "global") (prop (prop (k_draftConfig s) "automation") "global")).

(** The batches *)
Definition handleBulkUpdate (type : string) : M general unit :=
  s ← getw;
  count ← on_general (bulkUpdateOffsets type (prop (gt_batchVals s) type));
  modify (set_toast (Some ("Successfully updated " +:+ show (VInt count) +:+ " " +:+ to_lower (spaced type) +:+ " triggers."))).

Section iqamah.
Context (providers : list val) (sources : val).

Definition capable (provider : val) : bool := truthy (prop (prop provider "capabilities") "providesIqamah").
Definition anySourceProvides : bool :=
  capable (primaryProvider providers sources) || capable (backupProvider providers sources).
Definition anyOverrideOff (draft : val) : bool :=
  anySourceProvides &&
  existsb (fun p => negb (truthy (prop (prop (prop draft "prayers") p) "iqamahOverride"))) ["fajr"; "dhuhr"; "asr"; "maghrib"; "isha"].
Definition batch_note : string :=
  " Note: Your active source provides Iqamah times. Prayers without override enabled will use source times instead.".

(** The note looks at the draft of the rendering, before the batch. *)
Definition handleIqamahBulkUpdate : M general unit :=
  s ← getw;
  count ← on_general (bulkUpdateIqamahOffsets (prop (gt_batchVals s) "iqamahOffset"));
  modify (set_toast (Some ("Successfully updated " +:+ show (VInt count) +:+ " iqamah offset values." +:+
    (if anyOverrideOff (k_draftConfig (gt_client s)) then batch_note else "")))).
End iqamah.
Definition toast_over : M general unit := modify (set_toast None).

(** ** Lemmas *)
(** *** The text of a number is read back *)
Lemma digit_char x : (x < 10)%N -> digit_val (pretty_N_char x) = Some (Z.of_N x).
Proof.
  intros H. assert (exists n, x = N.of_nat n /\ (n < 10)%nat) as (n & -> & Hn) by (exists (N.to_nat x); lia).
  do 10 (destruct n as [|n]; [reflexivity|]). lia.
Qed.

Lemma read_digits_go x : forall s acc k, (0 < x)%N -> exists d : nat, (0 < d)%nat /\
  read_digits (pretty_N_go x s) acc k = read_digits s (acc * 10 ^ Z.of_nat d + Z.of_N x) (k + d).
Proof.
  induction (N.lt_wf_0 x) as [x _ IH]; intros s acc k Hx. rewrite pretty_N_go_step by done.
  assert (digit_val (pretty_N_char (x `mod` 10)) = Some (Z.of_N (x `mod` 10))) as Hd by (by apply digit_char, N.mod_lt).
  pose proof (N.div_mod x 10 ltac:(done)) as Hm. destruct (decide (x `div` 10 = 0)%N) as [E|E].
  - exists 1%nat. split; [lia|]. rewrite E, pretty_N_go_0. cbn [read_digits]. rewrite Hd. f_equal; lia.
  - destruct (IH (x `div` 10)%N ltac:(by apply N.div_lt) (String (pretty_N_char (x `mod` 10)) s) acc k
      (proj1 (N.neq_0_lt_0 _) E)) as (d & Hp & ->).
    exists (S d). split; [lia|]. cbn [read_digits]. rewrite Hd, Nat2Z.inj_succ, Z.pow_succ_r by lia. f_equal; lia.
Qed.

Lemma read_digits_pretty (x : N) : exists d, read_digits (pretty x) 0 0 = (Z.of_N x, S d, "").
Proof.
  unfold pretty, pretty_N. case_decide as E; [subst; by exists 0%nat|].
  destruct (read_digits_go x "" 0 0 ltac:(lia)) as (d & Hd & ->). exists (pred d). cbn [read_digits].
  repeat f_equal; lia.
Qed.

Definition is_digit (a : ascii) : bool := match digit_val a with Some _ => true | None => false end.

Lemma read_all s : forall acc k n m, read_digits s acc k = (n, m, "") -> sforall is_digit s = true.
Proof.
  induction s as [|a s IH]; intros acc k n m H; [done|]. cbn [read_digits sforall] in *. unfold is_digit.
  destruct (digit_val a); [|done]. by eapply IH.
Qed.

(** Nothing in front of digits is taken for a blank, a sign or a radix. *)
Lemma digits_plain s : sforall is_digit s = true -> parse_int_any s = parse_int s /\ parse_int_any ("-" +:+ s) = parse_int ("-" +:+ s) /\
  trim_start s = s /\ trim_start ("-" +:+ s) = "-" +:+ s /\ forall r, s <> String "-" r /\ s <> String "+" r.
Proof.
  intros H. assert (trim_start s = s) as Ht.
  { destruct s as [|a s]; [done|]. cbn in *. apply andb_prop in H as [Ha _].
    destruct a as [[] [] [] [] [] [] [] []]; done. }
  split_and!; [..|done|done|].
  - unfold parse_int_any. rewrite Ht. destruct s as [|a [|b s]]; [done|..]; cbn in H; repeat apply andb_prop in H as [? H].
    + by destruct a as [[] [] [] [] [] [] [] []].
    + destruct a as [[] [] [] [] [] [] [] []]; try done. by destruct b as [[] [] [] [] [] [] [] []].
  - unfold parse_int_any. cbn [trim_start String.append]. destruct s as [|a [|b s]]; [done|..]; cbn in H; repeat apply andb_prop in H as [? H].
    + by destruct a as [[] [] [] [] [] [] [] []].
    + cbn. destruct a as [[] [] [] [] [] [] [] []]; try done. by destruct b as [[] [] [] [] [] [] [] []].
  - intros r. by split; intros ->.
Qed.

(** A number is read back from its text. *)
Lemma parse_show k : parse_int_any (show_Z k) = Some k.
Proof.
  assert (forall x : N, parse_int_any (pretty x) = Some (Z.of_N x) /\ parse_int_any ("-" +:+ pretty x) = Some (- Z.of_N x)) as Hn.
  { intros x. destruct (read_digits_pretty x) as [d Hd].
    destruct (digits_plain (pretty x)) as (H1 & H2 & H3 & H4 & H5); [by eapply read_all|].
    rewrite H1, H2. unfold parse_int. rewrite H3, H4. split; [|change ("-" +:+ pretty x) with (String "-" (pretty x)); cbv beta iota; by rewrite Hd].
    revert Hd H5. generalize (pretty x). intros s Hd H5.
    assert (match s with String "-" r => (true, r) | String "+" r => (false, r) | _ => (false, s) end = (false, s)) as ->; [|by rewrite Hd].
    destruct s as [|a s]; [done|]. destruct (H5 s) as [Ha Hb]. destruct a as [[] [] [] [] [] [] [] []]; done. }
  unfold show_Z, pretty, pretty_Z. destruct k as [|p|p]; [reflexivity|apply (Hn (N.pos p))|].
  pose proof (proj2 (Hn (N.pos p))) as H. exact H.
Qed.

(** *** The switches *)

(** The switch of a kind of announcement decides for the scheduler.  Flipping it
    turns it over and no other switch, and with the draft as the configuration the
    scheduler leaves an event out exactly when the page shows the master switch or
    the one of its kind as off. *)
Theorem flip_decides e s s' :
  let draft := k_draftConfig (gt_client s) in
  let draft' := k_draftConfig (gt_client s') in
  truthy draft = true -> e ∈ EVENT_LABELS.*1 ->
  no_array_on (split_on "." (switch_path (e +:+ "Enabled"))) (json_clone draft) ->
  flip_switch (e +:+ "Enabled") s = (Ok tt, s') -> switches_ok (json_clone draft) ->
  toggle_shown draft' (e +:+ "Enabled") = negb (toggle_shown draft (e +:+ "Enabled")) /\
  (forall key, key ∈ SWITCHES -> key <> e +:+ "Enabled" -> toggle_shown draft' key = toggle_shown (json_clone draft) key) /\
  (forall e', e' ∈ EVENT_LABELS.*1 ->
     switched_off draft' e' = negb (toggle_shown draft' "enabled" && toggle_shown draft' (e' +:+ "Enabled"))).
Proof.
  intros draft draft' Hd He Hn E Hok. unfold flip_switch, on_general in E.
  destruct (updateSetting _ _ _) as [r c] eqn:Eu. injection E as -> <-.
  destruct (updateSetting_lens _ _ _ _ Hd Hn Eu) as (Hg & Ho & _ & _).
  assert (forall key, key ∈ SWITCHES -> split_on "." (switch_path key) = ["automation"; "global"; key]) as Hsp.
  { intros key Hk. unfold SWITCHES in Hk. set_unfold in Hk. by destruct Hk as [->|[->|[->|[->|[->|[]]]]]]. }
  assert (e +:+ "Enabled" ∈ SWITCHES) as Hin.
  { cbn in He. set_unfold in He. by destruct He as [->|[->|[->|[->|[]]]]]; apply (bool_decide_unpack _); vm_compute. }
  assert (forall v key, key ∈ SWITCHES -> getVal v (switch_path key) = prop (prop (prop v "automation") "global") key) as Hw
    by (intros v key Hk; rewrite getVal_walk, Hsp by done; done).
  assert (forall key, key ∈ SWITCHES -> key <> e +:+ "Enabled" ->
    prop (prop (prop draft' "automation") "global") key = prop (prop (prop (json_clone draft) "automation") "global") key) as Hother.
  { intros key Hk Hne. unfold draft'. cbn [gt_client set_general_client]. rewrite <- !Hw by done.
    apply Ho. rewrite !Hsp by done. cbn. by rewrite (proj2 (String.eqb_neq _ _) (not_eq_sym Hne)). }
  assert (prop (prop (prop draft' "automation") "global") (e +:+ "Enabled") = VBool (negb (toggle_shown draft (e +:+ "Enabled")))) as Hthis
    by (unfold draft'; cbn [gt_client set_general_client]; by rewrite <- Hw).
  assert (switches_ok draft') as Hok'.
  { unfold switches_ok in *. rewrite Forall_forall in *. intros key Hk.
    destruct (decide (key = e +:+ "Enabled")) as [->|Hne]; [rewrite Hthis; right; by eexists|].
    rewrite Hother; [by apply Hok| |done]. exact Hk. }
  split; [unfold toggle_shown at 1; by rewrite Hthis|]. split.
  - intros key Hk Hne. unfold toggle_shown. by rewrite Hother.
  - intros e' He'. pose proof (switches_match draft' e' Hok' He') as Hm. unfold globalEnabled, eventTypeEnabled in Hm.
    unfold toggle_shown. rewrite Hm. by rewrite negb_involutive.
Qed.

(** C35: A batch is what the scheduler counts back.  A number typed into the field
    of a batch is cut to the minutes of an hour; after the batch, with the draft as
    the configuration, the announcement ahead of every prayer with such a trigger is
    planned exactly that many minutes before its event.  No other trigger and
    nothing outside the triggers has changed. *)
Theorem batch_planned `{L : Luxon} type s s' start :
  let old := json_clone (k_draftConfig (gt_client s)) in
  let new := k_draftConfig (gt_client s') in
  let minutes := clampedMinutes (prop (gt_batchVals s) type) in
  truthy (k_draftConfig (gt_client s)) = true -> handleBulkUpdate type s = (Ok tt, s') ->
  0 <= minutes <= 60 /\
  (forall k, prop (gt_batchVals s) type = VStr (show_Z k) -> minutes = Z.min 60 (Z.max 0 k)) /\
  (forall prayer, prayer ∈ ClientSettings.PRAYERS -> skipped type prayer = false ->
     is_object (trigger_at old prayer type) = true -> is_array (trigger_at old prayer type) = false ->
     minus_minutes start (prop (trigger_at new prayer type) "offsetMinutes") =
       Ok (dt_plus_minutes start (- inject_Z minutes)%Q)) /\
  (forall prayer t, t <> type -> trigger_at new prayer t = trigger_at old prayer t) /\
  (forall prayer, skipped type prayer = true -> trigger_at new prayer type = trigger_at old prayer type) /\
  (forall q, diverge ["automation"; "triggers"] q = true -> walk q new = walk q old).
Proof.
  intros old new minutes Hd E. unfold new. unfold handleBulkUpdate, on_general in E. munfold.
  destruct (bulkUpdateOffsets type (prop (gt_batchVals s) type) (gt_client s)) as [[count|err] c] eqn:Eb; [|done].
  injection E as <-. cbn [gt_client set_toast set_general_client].
  destruct (bulkUpdateOffsets_spec _ _ _ _ _ Hd Eb) as (_ & Hset & Hoth & Hrest).
  split; [apply clamped_range|]. split; [intros k Hk; unfold minutes, clampedMinutes; rewrite Hk; cbn [show]; by rewrite parse_show|].
  split; [|split; [exact Hoth|split; [|exact Hrest]]].
  2:{ intros prayer Hs. rewrite Hset, Hs. by case_decide. }
  intros prayer Hp Hs Hobj Harr. rewrite Hset, decide_True, Hs by done.
  fold old minutes. unfold with_offset. set (t := trigger_at old prayer type) in *.
  assert (truthy t = true) as -> by (by destruct t). rewrite prop_setp by done.
  unfold minus_minutes, js_or. destruct (truthy (VInt minutes)) eqn:Et; cbn [duration_unit VInt mbind result_bind]; rewrite Qred_inject; [done|].
  assert (minutes = 0) as ->; [|done]. unfold VInt in Et. cbn [truthy] in Et. apply negb_false_iff, Qeq_bool_eq in Et.
  unfold Qeq in Et. cbn in Et. lia.
Qed.

(** The batch of the congregations says when it has no effect.  Without the note,
    while a source gives congregation times of its own, these play no part for any
    prayer: the scheduler books the time it calculates. *)
Theorem no_note_all_calculated `{L : Luxon} providers sources draft prayer data tz start :
  anySourceProvides providers sources = true -> anyOverrideOff providers sources draft = false ->
  prayer ∈ ["fajr"; "dhuhr"; "asr"; "maghrib"; "isha"] ->
  is_bool (prop (prop (prop draft "prayers") prayer) "iqamahOverride") = true ->
  iqamah_time draft data tz prayer start = iqamah_time draft VUndef tz prayer start.
Proof.
  intros Ha Hn Hp Hb. unfold anyOverrideOff in Hn. rewrite Ha in Hn. cbn [andb] in Hn.
  assert (prop (prop (prop draft "prayers") prayer) "iqamahOverride" = VBool true) as Ho.
  { assert (truthy (prop (prop (prop draft "prayers") prayer) "iqamahOverride") = true) as Ht.
    { destruct (truthy _) eqn:E; [done|]. exfalso.
      assert (existsb (fun p => negb (truthy (prop (prop (prop draft "prayers") p) "iqamahOverride")))
        ["fajr"; "dhuhr"; "asr"; "maghrib"; "isha"] = true) as Hx; [|by rewrite Hx in Hn].
      apply existsb_exists. exists prayer. split; [by apply list_elem_of_In|]. by rewrite E. }
    by destruct (prop (prop (prop draft "prayers") prayer) "iqamahOverride") as [| |[]| | | |]. }
  unfold iqamah_time. destruct (String.eqb prayer "sunrise"); [done|].
  destruct (get draft "prayers") as [prayers|] eqn:E1; [|done]. apply got_prop in E1 as ->. cbn [mbind result_bind].
  destruct (get (prop draft "prayers") prayer) as [own|] eqn:E2; [|done]. apply got_prop in E2 as ->. cbn [mbind result_bind].
  by rewrite Ho.
Qed.

(** ** Witness: ninety minutes asked for *)
Lemma batch_planned_witness :
  let s := set_batchVal "preAdhan" (VStr "90") (first_general page) in
  let s' := (handleBulkUpdate "preAdhan" s).2 in
  let start := dt_now (Luxon := utc) 1736943000000 in
  clampedMinutes (VStr "90") = 60 /\
  minus_minutes (L := utc) start (prop (trigger_at (k_draftConfig (gt_client s')) "fajr" "preAdhan") "offsetMinutes") =
    Ok (dt_plus_minutes (Luxon := utc) start (- 60)%Q).
Proof.
  intros s s' start. destruct (batch_planned (L := utc) "preAdhan" s s' start) as (_ & Hk & Hp & _); [done|reflexivity|].
  assert (clampedMinutes (VStr "90") = 60) as E by (exact (Hk 90 eq_refl)). split; [exact E|].
  rewrite Hp; [|apply (bool_decide_unpack _); vm_compute; exact I|reflexivity..]. reflexivity.
Defined.
