(* ===== verification/SourceStatus.v ===== *)
(** * The status of the sources of the prayer times
      ([client/src/components/settings/PrayerSourceStatusCard.jsx])

    The source the served times came from, and a row per source with its status
    and a test of its connection.  A test is cut at its request; its mark goes
    away by an event. *)
From S2P Require Import Prelude JsString JsValue World Luxon Zod Network Providers.
From S2P Require Import Schemas Encryption Masking ConfigService.
From S2P Require Import PrayerTimes AudioAssets Voice ConfigStore Outputs Automation Scheduler.
From S2P Require Import Sse Http SystemController.
From S2P Require Import ClientSettings SettingsShell SearchSelect.

(** ** The card *)
Record source_card := SourceCard {
  sc_activeSource : val; sc_loading : val; sc_results : val; sc_testing : list string; sc_client : client
}.
Definition set_activeSource v s := SourceCard v (sc_loading s) (sc_results s) (sc_testing s) (sc_client s).
Definition set_source_loading v s := SourceCard (sc_activeSource s) v (sc_results s) (sc_testing s) (sc_client s).
Definition put_result (target : string) v s :=
  SourceCard (sc_activeSource s) (sc_loading s) (VObj (ospread (props (sc_results s)) [(target, v)])) (sc_testing s) (sc_client s).
Definition set_testing v s := SourceCard (sc_activeSource s) (sc_loading s) (sc_results s) v (sc_client s).
Definition first_source_card (c : client) : source_card := SourceCard VNull VNull (VObj []) [] c.

Definition health_key (target : string) : string := if String.eqb target "primary" then "primarySource" else "backupSource".

(** *** What is shown *)
Section shown.
Context (s : source_card).
Let config := k_config (sc_client s).
Let health := k_systemHealth (sc_client s).

Definition shown_source (target : string) : val := prop (prop config "sources") target.
Definition isBackupEnabled : bool :=
  truthy (shown_source "backup") && negb (seq (prop (shown_source "backup") "enabled") (VBool false)).

(** [includes(undefined)] looks for its name. *)
Definition sourceMatch : bool :=
  includes (match prop (shown_source "primary") "type" with VStr t => to_lower t | _ => "undefined" end)
           (to_lower (str_of (sc_activeSource s))).

Definition is_down (key : string) : bool := seq (prop (prop health key) "healthy") (VBool false).
Definition isUsingCache : bool := is_down "primarySource" && (negb isBackupEnabled || is_down "backupSource").

Definition getStatusText : string :=
  if isUsingCache then "Dashboard Cache" else show (js_or (sc_activeSource s) (VStr "Detecting...")).

Inductive source_tone := Indigo | Dim | Emerald | Amber.
Definition getStatusColor : source_tone :=
  if isUsingCache then Indigo
  else if negb (truthy (sc_activeSource s)) then Dim
  else if sourceMatch then Emerald else Amber.

(** A row: whether its button is off, what its last test said, and its badge *)
Definition row_disabled (target : string) : bool := String.eqb target "backup" && negb isBackupEnabled.
Definition test_disabled (target : string) : bool := seq (sc_loading s) (VStr target) || row_disabled target.
Definition test_text (target : string) : option string :=
  let result := prop (sc_results s) target in
  if truthy result then
    Some (if truthy (prop result "success") then "Connection Success" else show (prop result "message"))
  else None.
Definition badge (target : string) : option (bool * string) :=
  let h := prop health (health_key target) in
  if truthy h then
    Some (truthy (prop h "healthy"), show (js_or (prop h "message") (VStr (if truthy (prop h "healthy") then "Online" else "Offline"))))
  else None.
Definition provider_label (target : string) : string :=
  let provider := find (fun p => seq (prop p "id") (prop (shown_source target) "type")) (arr_of (k_providers (sc_client s))) in
  show (js_or (js_or (match provider with Some p => prop p "label" | None => VUndef end) (prop (shown_source target) "type")) (VStr "Not Set")).
End shown.

(** ** The handlers *)
Section handlers.
Context `{B : Backend}.

Definition on_source_card {A} (m : M client A) : M source_card A := fun s =>
  let '(r, c) := m (sc_client s) in (r, SourceCard (sc_activeSource s) (sc_loading s) (sc_results s) (sc_testing s) c).

(** When the card appears, and when the configuration changes *)
Definition fetchActiveSource : M source_card unit :=
  try_catch (
    res ← on_source_card (fetch "GET" "/api/prayers" VUndef);
    data ← lift (a_json res);
    meta ← lift (get data "meta");
    when (truthy meta && truthy (prop meta "source")) (modify (set_activeSource (prop meta "source"))))
    (fun _ => ret tt).

Definition source_test_call (target : string) : call := Call "POST" "/api/system/source/test" (VObj [("target", VStr target)]).
Definition testConnection (target : string) : M source_card unit :=
  modify (set_source_loading (VStr target)) ;;
  modify (put_result target VNull) ;;
  on_source_card (modify (log_call (source_test_call target))) ;;
  modify (fun s => set_testing (sc_testing s ++ [target]) s).

(** What is kept of an answer *)
Definition test_result (data : val) : result val :=
  success ← get data "success";
  Ok (VObj [("success", success);
            ("message", if truthy success then prop data "message" else js_or (prop data "message") (prop data "error"))]).

Definition sourceTestAnswered (target : string) (answer : result reply) : M source_card unit :=
  modify (fun s => set_testing (List.filter (fun t => negb (String.eqb t target)) (sc_testing s)) s) ;;
  try_finally (try_catch (
    res ← lift answer;
    data ← lift (a_json res);
    result ← lift (test_result data);
    modify (put_result target result) ;;
    _ ← on_source_card (ClientSettings.refreshHealth (VStr (health_key target)) VUndef);
    ret tt)
    (fun err => modify (put_result target (VObj [("success", VBool false); ("message", VStr (e_msg err))]))))
    (set_source_loading VNull).

Definition result_over (target : string) : M source_card unit := modify (put_result target VNull).
End handlers.

(** ** Lemmas *)

Lemma fetched_from `{L : Luxon} `{Zd : Zod} `{N : Net} config year w m src w1 :
  fetch_bulk config year w = (Ok (m, src), w1) ->
  src = prop (prop (prop config "sources") "primary") "type" \/ src = prop (prop (prop config "sources") "backup") "type".
Proof.
  unfold fetch_bulk. intros H. apply M_bind_inv in H as (res & w2 & _ & H).
  assert (forall m0 e w0, empty_map m0 = true -> failover config year m0 e w0 = (Ok (m, src), w1) ->
    src = prop (prop (prop config "sources") "backup") "type") as Hf.
  { intros m0 e w0 Hm Hr. unfold failover in Hr. destruct (is_validation_error e); [done|]. cbv zeta in Hr.
    apply M_bind_inv in Hr as (r & w3 & Er & Hr). destruct (empty_map r.1) eqn:Em; [done|]. injection Hr as -> <-.
    cbn [fst] in Em. destruct (backup_enabled config); [|injection Er as E1 _ _; congruence].
    apply M_bind_inv in Er as (res0 & w4 & _ & Er). injection Er as Er _. destruct res0 as [m1|]; injection Er as E1 E2; [|congruence].
    subst m1. by rewrite Em in E2. }
  destruct res as [m0|e].
  - destruct (empty_map m0) eqn:Em; [right; by eapply Hf|]. left. by injection H as _ <- _.
  - right. by eapply (Hf VNull).
Qed.

(** The lamp tells the sources apart.  When times have just been fetched, from
    whichever source, and the health of the sources is not known to be bad, the card
    names the source, green for the primary and amber for the backup. *)
Theorem lamp_names_source `{L : Luxon} `{Zd : Zod} `{N : Net} year w m src w1 s p b :
  let config := k_config (sc_client s) in
  fetch_bulk config year w = (Ok (m, src), w1) ->
  prop (prop (prop config "sources") "primary") "type" = VStr p -> p <> "" ->
  prop (prop (prop config "sources") "backup") "type" = VStr b -> b <> "" ->
  includes (to_lower p) (to_lower b) = false -> isUsingCache s = false ->
  let shown := set_activeSource src s in
  getStatusText shown = show src /\
  (getStatusColor shown = Emerald <-> src = VStr p) /\ (getStatusColor shown = Amber <-> src = VStr b).
Proof.
  intros config E Hp Hpn Hb Hbn Hpb Hc shown.
  assert (isUsingCache shown = false) as Hc' by exact Hc.
  assert (includes (to_lower p) (to_lower p) = true) as Hpp by apply SearchSelect.includes_refl.
  assert (p <> b) as Hne by (intros ->; congruence).
  unfold getStatusText, getStatusColor. rewrite Hc'. unfold sourceMatch, shown_source, shown. cbn [sc_activeSource sc_client set_activeSource].
  fold config. rewrite Hp. apply fetched_from in E. fold config in E. rewrite Hp, Hb in E.
  assert (truthy (VStr p) = true /\ truthy (VStr b) = true) as [Tp Tb] by (split; by apply truthy_str).
  destruct E as [-> | ->]; cbn [str_of].
  - rewrite Tp, (js_or_truthy _ _ Tp), Hpp. cbn [negb]. split; [done|]. split; [done|]. split; [done|]. intros [= ?]; congruence.
  - rewrite Tb, (js_or_truthy _ _ Tb), Hpb. cbn [negb]. split; [done|]. split; [|done]. split; [done|]. intros [= ?]; congruence.
Qed.

Lemma always_caught {W A} (m : M W A) x w : exists v w', try_catch m (fun _ => ret x) w = (Ok v, w').
Proof. unfold try_catch. destruct (m w) as [[v|e] w']; by repeat eexists. Qed.

(** *** At the server *)
Section server.
Context `{L : Luxon} `{Tm : Timer} `{Zd : Zod} `{N : Net} `{Ho : Host} `{T : Tts} `{W : Words} `{P : Pace} `{Loc : Locale}
  `{I : Intl} `{C : Crypto} `{D : Dotenv} `{B : Backend}.

Lemma testSource_reply req w r w' :
  testSource req w = (Ok r, w') -> exists b m, r = if (b : bool) then json 200 (success_message m) else json 400 (failure_body m).
Proof.
  intros E. unfold testSource in E. apply M_bind_inv in E as (t & w1 & _ & E).
  destruct (_ || _); [injection E as <- _; by exists false; eexists|].
  apply M_bind_inv in E as (? & w2 & _ & E). apply M_bind_inv in E as (config & w3 & _ & E).
  apply M_bind_inv in E as (sources & w4 & _ & E). apply M_bind_inv in E as (ts & w5 & _ & E).
  destruct (negb (truthy ts)); [injection E as <- _; by exists false; eexists|].
  destruct (_ && _); [injection E as <- _; by exists false; eexists|].
  apply M_bind_inv in E as (result & w6 & _ & E). injection E as <- _.
  destruct (truthy (prop (prop result _) "healthy")); [by exists true; eexists|by exists false; eexists].
Qed.

(** A test says what the server found.  Whatever the server answers to a test, if it
    answers, the row says success exactly when it does and shows its error otherwise,
    whether or not the badge is refreshed, and the button is free again. *)
Theorem test_reports target req w r w' s :
  testSource req w = (Ok r, w') ->
  let s' := (sourceTestAnswered target (Ok (ClientSettings.Reply (Http.rp_status r) VNull (Ok (json_clone (Http.rp_body r))))) s).2 in
  test_text s' target =
    Some (if Http.rp_status r =? 200 then "Connection Success" else show (prop (Http.rp_body r) "error")) /\
  sc_loading s' = VNull.
Proof.
  intros E s'. destruct (testSource_reply _ _ _ _ E) as (ok & m & ->).
  assert (forall st, exists v, exists st', on_source_card (ClientSettings.refreshHealth (VStr (health_key target)) VUndef) st = (Ok v, st') /\
    sc_results st' = sc_results st) as Hr.
  { intros st. unfold on_source_card, ClientSettings.refreshHealth. edestruct (fun m => always_caught m VUndef (sc_client st)) as (v & c & ->).
    by eexists v, _. }
  subst s'. unfold sourceTestAnswered. munfold.
  destruct ok; cbn.
  all: match goal with |- context [on_source_card _ ?st] => destruct (Hr st) as (v & st' & -> & Hs) end.
  all: cbn; rewrite ?Hs; cbn; unfold test_text; cbn [sc_results set_source_loading]; rewrite ?Hs; cbn.
  all: by rewrite ?oget_oset.
Qed.
End server.
