(* ===== verification/Console.v ===== *)
(** * The console of the server, and the page of its log
      ([src/utils/loggerInitializer.js];
       [components/settings/developer/SystemLogsTab.jsx] under [client/src/])

    A line printed by the server is made one text, which goes to the stream of
    events and to the log file; the page shows the last lines the stream has
    brought, the oldest first.  What the server prints after the interception on
    its own standard output is left out, and so are objects that contain
    themselves, whose text throws. *)
From S2P Require Import Prelude JsString JsValue World Luxon LuxonUtc Sse Logger.
From S2P Require Import Outputs ClientPrefs ClientAudio.

(** ** The interception *)
(** What is printed: a value, or an error object with the properties set on it; its
    message is not enumerable. *)
Inductive arg := Value (v : val) | ErrorObject (message : string) (own : list (string * val)).

Definition arg_text (a : arg) : string :=
  match a with
  | Value ((VNull | VArr _ | VObj _) as v) => stringified v
  | Value v => show v
  | ErrorObject _ own => stringified (VObj own)
  end.
Definition printed (args : list arg) : string := join " " (arg_text <$> args).

Inductive method := ConsoleLog | ConsoleError | ConsoleWarn.
Definition level_of (m : method) : string :=
  match m with ConsoleLog => "info" | ConsoleError => "error" | ConsoleWarn => "warn" end.

Definition console `{L : Luxon} (m : method) (args : list arg) : M world unit :=
  log (printed args) (level_of m) ;;
  entry ← gets (fun w => log_entry (w_clock w) (printed args) (level_of m));
  writeToFile entry.

(** ** The page *)
Inductive line_tone := RedLine | AmberLine | GreenLine.
Definition line_tone_of (level : val) : line_tone :=
  if seq level (VStr "ERROR") then RedLine else if seq level (VStr "WARN") then AmberLine else GreenLine.

Record log_row := LogRow { lr_time : string; lr_tone : line_tone; lr_level : val; lr_message : val }.
Definition line_row (time_text : val -> string) (entry : val) : log_row :=
  LogRow (time_text (prop entry "timestamp")) (line_tone_of (prop entry "level")) (prop entry "level") (prop entry "message").
Definition log_rows (time_text : val -> string) (logs : list val) : list log_row := line_row time_text <$> rev logs.

Example printed_error : printed [Value (VStr "[Startup] Failed:"); ErrorObject "ENOENT" []] = "[Startup] Failed: {}".
Proof. reflexivity. Qed.
Example printed_object :
  printed [Value (VObj [("a", VArr [VUndef; VInt 1; VStr (String "010" "x")]); ("b", VUndef)]); Value VNull; Value VUndef] =
  "{" +:+ json_quote "a" +:+ ":[null,1," +:+ String "034" "\nx" +:+ String "034" "]} null undefined".
Proof. vm_compute. reflexivity. Qed.

(** *** The stream at the page *)
Definition deliver (now : Z) (preferences : val) (msgs : list val) (s : app) : app :=
  foldl (fun s m => onmessage now preferences (Json m) s) s msgs.

(** What a message adds to the log of the page *)
Definition line_of (now : Z) (m : val) : list val :=
  let data := json_clone m in
  let payload := prop data "payload" in
  if is_nullish data then [] else
  if seq (prop data "type") (VStr "LOG") then [payload] else
  if seq (prop data "type") (VStr "AUDIO_PLAY") && negb (is_nullish payload) then [play_entry now payload] else [].
(** No broadcast of these adds a line. *)
Definition adds_no_line (now : Z) (o : Z * sse_op) : Prop :=
  match o.2 with Broadcast data => line_of now data = [] | _ => True end.

(** ** Lemmas *)
Lemma json_printable_quote c : sforall (fun a => Nat.leb 32 (nat_of_ascii a)) (quote_char c) = true.
Proof. destruct c as [[] [] [] [] [] [] [] []]; reflexivity. Qed.

Lemma last_n_app {A} n (l l' : list A) : (n <= length l')%nat -> last_n n (l ++ l') = last_n n l'.
Proof.
  intros H. unfold last_n. rewrite length_app.
  replace (length l + length l' - n)%nat with (length l + (length l' - n))%nat by lia. by rewrite drop_app_add.
Qed.

Lemma last_n_split {A} n (l : list A) : exists before, l = before ++ last_n n l.
Proof. exists (take (length l - n) l). unfold last_n. by rewrite take_drop. Qed.

Lemma last_n_full {A} n m (l : list A) : (m <= n)%nat -> (m <= length l)%nat -> (m <= length (last_n n l))%nat.
Proof. intros. unfold last_n. rewrite length_drop. lia. Qed.

Lemma firstn_rev {A} n (l : list A) : firstn n (rev l) = rev (last_n n l).
Proof. unfold last_n. by rewrite firstn_rev. Qed.

Lemma firstn_app_short {A} n (l l' : list A) : firstn n (l ++ firstn n l') = firstn n (l ++ l').
Proof. rewrite !firstn_app, firstn_firstn. do 2 f_equal. lia. Qed.

(** A message adds its line, if any, at the front. *)
Lemma onmessage_line now preferences m s :
  z_logs (onmessage now preferences (Json m) s).2 =
  match line_of now m with [line] => firstn 50 (line :: z_logs s.2) | _ => z_logs s.2 end.
Proof.
  unfold onmessage, line_of. cbn [json_parse]. generalize (json_clone m) as d. intros d.
  cbn [mbind result_bind]. assert (get d "type" = if is_nullish d then get d "type" else Ok (prop d "type")) as -> by (by destruct d).
  destruct (is_nullish d) eqn:Ed; [by destruct d|]. cbn [mbind result_bind].
  destruct (seq _ (VStr "LOG")); [done|]. destruct (seq _ (VStr "AUDIO_PLAY")); cbn [andb].
  - by destruct (is_nullish (prop d "payload")).
  - destruct (seq _ _); [|done]. by destruct (get (prop d "payload") "label").
Qed.

Lemma line_of_cases now m : line_of now m = [] \/ exists line, line_of now m = [line].
Proof. unfold line_of. repeat case_match; eauto. Qed.

Lemma deliver_logs now preferences msgs s :
  (length (z_logs s.2) <= 50)%nat ->
  z_logs (deliver now preferences msgs s).2 = firstn 50 (rev (msgs ≫= line_of now) ++ z_logs s.2).
Proof.
  revert s. induction msgs as [|m msgs IH]; intros s Hs; cbn [deliver foldl mbind list_bind rev].
  { cbn. by rewrite firstn_all2. }
  fold (deliver now preferences msgs (onmessage now preferences (Json m) s)).
  pose proof (onmessage_line now preferences m s) as Hl. rewrite IH; rewrite Hl.
  - destruct (line_of_cases now m) as [-> | [line ->]]; [done|].
    change ([line] ++ (msgs ≫= line_of now)) with (line :: (msgs ≫= line_of now)). cbn [rev]. rewrite <- app_assoc. cbn [app].
    apply firstn_app_short.
  - destruct (line_of_cases now m) as [-> | [line ->]]; [done|]. rewrite length_firstn. lia.
Qed.

(** What the stream writes about an entry adds the entry. *)
Lemma line_of_entry t now message level : line_of t (log_message (log_entry now message level)) = [log_entry now message level].
Proof. done. Qed.

Definition is_entry (e : val) : Prop := exists now message level, e = log_entry now message level.

Lemma entries_logged ops s : Forall is_entry (along entry_of ops s).
Proof.
  revert s. induction ops as [|[now o] ops IH]; intros s; cbn [along]; [constructor|]. apply Forall_app. split; [|apply IH].
  destruct o; cbn -[log_entry]; repeat constructor; by repeat eexists.
Qed.

Lemma lines_of_entries t l : Forall is_entry l -> (log_message <$> l) ≫= line_of t = l.
Proof.
  induction 1 as [|e l (now & message & level & ->) _ IH]; [done|].
  rewrite fmap_cons, bind_cons, line_of_entry, IH. done.
Qed.

Lemma lines_sent t ops s : Forall (adds_no_line t) ops -> along sent_by ops s ≫= line_of t = along entry_of ops s.
Proof.
  intros H. revert s. induction H as [|[now o] ops Ho _ IH]; intros s; [done|]. cbn [along]. rewrite bind_app, IH. f_equal.
  unfold adds_no_line in Ho. destruct o as [r|r|data|mm l]; try done. cbn [sent_by snd entry_of] in *. rewrite bind_cons. cbn [snd] in Ho. by rewrite Ho.
Qed.

Lemma along_app f ops ops' s : along f (ops ++ ops') s = along f ops s ++ along f ops' (sse_run ops s).
Proof. revert s. induction ops as [|o ops IH]; intros s; [done|].
  change ((o :: ops) ++ ops') with (o :: (ops ++ ops')). cbn [along]. by rewrite IH, app_assoc.
Qed.

(** ** Properties *)

(** The page shows the end of the log.  A page that connects, for the first time or
    again and whatever it shows, and receives what the stream writes to it, shows the
    last fifty entries of all the server has logged, the oldest first, once each,
    provided that fifty had been logged when it connected. *)
Theorem log_page_tail ops now res ops' t preferences page time_text :
  let before := Sse [] [] in
  let s' := sse_run (ops ++ [(now, Add res)]) before in
  let logged := along entry_of (ops ++ (now, Add res) :: ops') before in
  forallb (fun o => negb (touches res o.2)) ops' = true -> Forall (adds_no_line t) ops' ->
  (length (z_logs page.2) <= 50)%nat -> (50 <= length (along entry_of (ops ++ [(now, Add res)]) before))%nat ->
  exists msgs, (res, msgs) ∈ sse_clients (sse_run ops' s') /\
    log_rows time_text (z_logs (deliver t preferences msgs page).2) = line_row time_text <$> last_n 50 logged.
Proof.
  intros before s' logged Hres Hadd Hpage Hlen.
  set (s := sse_run ops before). set (notice := log_entry now (client_notice "connected" (sse_join res s)) "info").
  set (first := along entry_of (ops ++ [(now, Add res)]) before) in *.
  assert (s' = sse_add now res s) as Hs by (unfold s', sse_run; by rewrite foldl_app).
  assert (sse_history s' = last_n MAX_HISTORY first) as Hh by (by apply (history_run _ before [])).
  assert (logged = first ++ along entry_of ops' s') as Hlog.
  { unfold logged. replace (ops ++ (now, Add res) :: ops') with ((ops ++ [(now, Add res)]) ++ ops') by by rewrite <- app_assoc.
    by rewrite along_app. }
  exists ([log_message notice] ++ (log_message <$> sse_history s') ++ along sent_by ops' s'). split.
  - rewrite app_assoc. apply received_run; [|done]. rewrite Hs at 2. apply list_elem_of_fmap.
    exists (res, [log_message notice]). cbn [fst snd]. rewrite Nat.eqb_refl. split; [by rewrite Hs|].
    apply list_elem_of_fmap. exists (res, []). split; [done|]. apply elem_of_app. right. set_solver.
  - rewrite deliver_logs by done. rewrite !bind_app, lines_sent by done. rewrite lines_of_entries.
    2:{ rewrite Hh. unfold last_n. apply Forall_drop, entries_logged. }
    change ([log_message notice] ≫= line_of t) with [notice].
    unfold log_rows. f_equal. rewrite <- (rev_involutive (z_logs page.2)), <- rev_app_distr, firstn_rev, rev_involutive.
    change (notice :: sse_history s' ++ along entry_of ops' s') with ([notice] ++ (sse_history s' ++ along entry_of ops' s')).
    rewrite Hlog, Hh. destruct (last_n_split MAX_HISTORY first) as [old Hold].
    rewrite Hold at 2. rewrite <- app_assoc.
    assert (50 <= length (last_n MAX_HISTORY first ++ along entry_of ops' s'))%nat as Hl.
    { rewrite length_app. pose proof (last_n_full MAX_HISTORY 50 first). unfold MAX_HISTORY in *. lia. }
    set (shown := last_n MAX_HISTORY first ++ along entry_of ops' s') in *.
    by rewrite app_assoc, !(last_n_app 50 _ shown) by exact Hl.
Qed.

(** No line of the server is marked.  The page compares the level in capitals, the
    server writes it in small letters: whatever the console is given to print, errors
    and warnings are shown like any other line. *)
Theorem errors_look_normal time_text now m args : lr_tone (line_row time_text (log_entry now (printed args) (level_of m))) = GreenLine.
Proof. by destruct m. Qed.

(** An error object loses its message.  What is printed of an error depends on the
    properties set on it alone. *)
Theorem error_message_lost before message message' own after :
  printed (before ++ ErrorObject message own :: after) = printed (before ++ ErrorObject message' own :: after).
Proof. unfold printed. by rewrite !fmap_app, !fmap_cons. Qed.

(** *** The texts of objects *)
Definition printable (c : ascii) : bool := Nat.leb 32 (nat_of_ascii c).

Lemma quote_printable s : sforall printable (json_quote s) = true.
Proof.
  unfold json_quote. cbn [sforall]. rewrite sforall_app. apply andb_true_iff. split; [done|]. rewrite andb_true_r.
  induction s as [|c s IH]; [done|]. cbn [quote_chars]. by rewrite sforall_app, IH, json_printable_quote.
Qed.

Lemma join_printable sep l :
  sforall printable sep = true -> Forall (fun s => sforall printable s = true) l -> sforall printable (join sep l) = true.
Proof. intros Hs H. induction H as [|x [|y l] Hx Hl IH]; [done..|]. unfold join in *. cbn [String.concat] in *. by rewrite !sforall_app, Hx, Hs, IH. Qed.

Lemma pretty_N_printable (x : N) : sforall printable (pretty x) = true.
Proof.
  unfold pretty, pretty_N. case_decide; [done|]. assert (sforall printable "" = true) as H0 by done. revert H0. generalize "".
  induction (N.lt_wf_0 x) as [y _ IH]; intros s Hs. destruct (decide (0 < y)%N) as [Hy|Hy].
  - rewrite pretty_N_go_step by done. destruct (decide (y / 10 = 0)%N) as [E|E].
    + rewrite E, pretty_N_go_0. cbn [sforall]. rewrite Hs, andb_true_r. unfold pretty_N_char. by repeat case_match.
    + apply IH; [by apply N.div_lt|done|]. cbn [sforall]. rewrite Hs, andb_true_r. unfold pretty_N_char. by repeat case_match.
  - replace y with 0%N by lia. by rewrite pretty_N_go_0.
Qed.

Lemma show_Z_printable z : sforall printable (show_Z z) = true.
Proof. unfold show_Z. destruct z; [done|apply pretty_N_printable|]. cbn. apply pretty_N_printable. Qed.

Lemma show_Q_printable q : sforall printable (show_Q q) = true.
Proof.
  assert (forall n num den, sforall printable (frac_digits n num den) = true) as Hf.
  { induction n as [|n IH]; intros num den; [done|]. cbn [frac_digits]. destruct (num =? 0); [done|].
    by rewrite sforall_app, show_Z_printable, IH. }
  unfold show_Q. destruct (Qnum q <? 0); rewrite ?sforall_app, show_Z_printable; destruct (_ =? 0); rewrite ?sforall_app, ?Hf; done.
Qed.

Lemma stringified_printable v : sforall printable (stringified v) = true.
Proof.
  induction v as [| |[]|q|s|l IH|o IH] using val_ind; try done; cbn [stringified].
  - apply show_Q_printable.
  - apply quote_printable.
  - rewrite !sforall_app. rewrite join_printable; [done..|]. by apply Forall_fmap.
  - rewrite !sforall_app. rewrite join_printable; [done..|]. induction IH as [|[k v] o Hv _ IHo]; [constructor|].
    cbn. destruct v; try exact IHo; constructor; try exact IHo; rewrite !sforall_app, quote_printable; exact Hv.
Qed.

(** Only texts break a line of the log.  What is printed of objects, whatever texts they
    hold, and of other values has no line break; so an entry is one line of the file
    unless a text it was given has a break. *)
Theorem only_texts_break_lines args :
  has_char "010" (printed args) =
  existsb (fun a => match a with Value (VStr s) => has_char "010" s | _ => false end) args.
Proof.
  assert (forall s, sforall printable s = true -> has_char "010" s = false) as Hp by (intros s H; by eapply sforall_has_char).
  assert (forall a, has_char "010" (arg_text a) = match a with Value (VStr s) => has_char "010" s | _ => false end) as Ha.
  { intros [[| |[]|q|s|l|o]|m own]; try done; apply Hp; [apply show_Q_printable|apply stringified_printable..]. }
  unfold printed. induction args as [|a [|b args] IH]; [done|unfold join; cbn [fmap list_fmap String.concat existsb]; by rewrite Ha, orb_false_r|].
  unfold join in *. rewrite !fmap_cons in *. cbn [String.concat existsb] in *. by rewrite !has_char_app, Ha, IH.
Qed.

(** A connection that is taken up again repeats lines: the history is written once
    more, and the page adds it to what it shows. *)
Example reconnection_repeats :
  let s := sse_add 1 1%nat (sse_run [(0, Log "boot" "info")] (Sse [] [])) in
  let page := deliver 1 VNull (default [] (list_find (fun c => c.1 = 1%nat) (sse_clients s) ≫= fun x => Some x.2.2)) (mount_audio false Suspended, no_stream) in
  let s2 := sse_add 2 2%nat (sse_close 2 1%nat s) in
  let page2 := deliver 2 VNull (default [] (list_find (fun c => c.1 = 2%nat) (sse_clients s2) ≫= fun x => Some x.2.2)) page in
  length (filter (fun r => lr_message r = VStr "boot") (log_rows show (z_logs page2.2))) = 2%nat.
Proof. vm_compute. reflexivity. Qed.
