(* ===== verification/Login.v ===== *)
(** * The login page ([client/src/views/LoginView.jsx])

    The form, and the way back to the page that was asked for.  The way is taken
    twice over: by the page itself, and by [App], which sends whoever has a session
    away from the login page. *)
From S2P Require Import Prelude JsString JsValue ClientSettings Session.

Record login_form := LoginForm { lf_password : val; lf_error : val; lf_session : session; lf_location : location }.
Definition first_form (s : session) (l : location) : login_form := LoginForm (VStr "") (VStr "") s l.
Definition setPassword (v : val) (f : login_form) : login_form := LoginForm v (lf_error f) (lf_session f) (lf_location f).
Definition setError (v : val) (f : login_form) : login_form := LoginForm (lf_password f) v (lf_session f) (lf_location f).
Definition navigate (l : location) (f : login_form) : login_form := LoginForm (lf_password f) (lf_error f) (lf_session f) l.

(** [location.state?.from?.pathname || "/settings"] *)
Definition destination (l : location) : string :=
  match l_from l with Some from => if String.eqb from "" then "/settings" else from | None => "/settings" end.

Section form.
Context `{B : Backend}.

Definition on_session {A} (m : M session A) : M login_form A := fun f =>
  let '(r, s) := m (lf_session f) in (r, LoginForm (lf_password f) (lf_error f) s (lf_location f)).

Definition handleLogin : M login_form unit :=
  modify (setError (VStr "")) ;;
  f ← getw;
  result ← on_session (login (lf_password f));
  success ← lift (get result "success");
  if truthy success then modify (fun f => navigate (Location (destination (lf_location f)) None) f)
  else modify (setError (js_or (prop result "error") (VStr "Invalid Password"))).
End form.

(** ** Lemmas *)
Section lemmas.
Context `{B : Backend}.

(** The request of the form *)
Definition login_request (password : val) : call := Call "POST" "/api/auth/login" (VObj [("password", password)]).

Lemma login_ok password s res :
  backend (u_sent s) (login_request password) = Ok res -> res_ok res = true ->
  login password s = (Ok (VObj [("success", VBool true)]),
    Session (VBool true) (u_setupRequired s) (u_loading s) false (u_sent s ++ [login_request password])).
Proof. intros E H. unfold login, ask. munfold. cbn. fold (login_request password). rewrite E. cbn. by rewrite H. Qed.

Lemma login_refused password s :
  (forall res, backend (u_sent s) (login_request password) = Ok res -> res_ok res = false) ->
  exists error, login password s = (Ok (failure error),
    Session (u_isAuthenticated s) (u_setupRequired s) (u_loading s) false (u_sent s ++ [login_request password])).
Proof.
  intros H. unfold login, ask. munfold. cbn. fold (login_request password).
  destruct (backend _ _) as [res|e]; [|by eexists]. cbn. rewrite (H res) by done. cbn.
  destruct (a_json res) as [data|e]; [|by eexists]. cbn. destruct (get data "error") as [error|e]; by eexists.
Qed.
End lemmas.

(** ** Properties *)
Section properties.
Context `{B : Backend} `{R : Router} {RL : RouterLaws R}.

(** A login leads to the page that was asked for.  A visitor without a session who asks
    for a page of the settings is sent to the login page, which is shown; the right
    password then brings up the page asked for, whether the form or [App] is first to
    lead there. *)
Theorem login_returns s path p state res password error :
  u_loading s = false -> u_connectionError s = false -> u_setupRequired s = false ->
  truthy (u_isAuthenticated s) = false -> matched path = RSettings p -> path <> "" ->
  backend (u_sent s) (login_request password) = Ok res -> res_ok res = true ->
  let asked := Location path state in
  let page := Location "/login" (Some path) in
  let f := (handleLogin (LoginForm password error s page)).2 in
  App s asked = Redirect page /\ App s page = LoginView /\
  App (lf_session f) (lf_location f) = SettingsView p /\
  App (lf_session f) page = Redirect (lf_location f).
Proof.
  intros Hl Hc Hs Ha Hp Hne E Hok asked page f.
  assert (String.eqb path "/setup" = false) as Hsetup.
  { apply String.eqb_neq. intros ->. rewrite law_setup in Hp. done. }
  assert (String.eqb path "/login" = false) as Hlogin.
  { apply String.eqb_neq. intros ->. rewrite law_login in Hp. done. }
  assert (String.eqb path "" = false) as Hempty by by apply String.eqb_neq.
  assert (f = LoginForm password (VStr "") (Session (VBool true) (u_setupRequired s) (u_loading s) false
    (u_sent s ++ [login_request password])) (Location path None)) as ->.
  { unfold f, handleLogin, on_session. munfold. cbn. rewrite (login_ok _ _ _ E Hok). cbn. unfold destination. cbn. by rewrite Hempty. }
  unfold App, ProtectedRoute, asked, page. cbn -[String.eqb]. rewrite Hl, Hc, Hs, Ha, Hsetup, Hlogin, Hp. cbn -[String.eqb].
  rewrite law_login, Hempty. done.
Qed.

(** A refused login stays.  Without an answer, or with one that refuses, the session
    and the address are what they were and a reason is shown. *)
Theorem refused_login_stays f :
  (forall res, backend (u_sent (lf_session f)) (login_request (lf_password f)) = Ok res -> res_ok res = false) ->
  let f' := (handleLogin f).2 in
  u_isAuthenticated (lf_session f') = u_isAuthenticated (lf_session f) /\ lf_location f' = lf_location f /\
  truthy (lf_error f') = true.
Proof.
  intros H f'. unfold f', handleLogin, on_session. munfold. cbn.
  destruct (login_refused (lf_password f) (lf_session f) H) as (error & ->). cbn. split_and!; try done.
  unfold js_or. by destruct (truthy error) eqn:E.
Qed.

(** The two ways differ for a visitor who opened the login page of himself: the form
    leads to the settings, [App] to the dashboard. *)
Theorem ways_differ s :
  u_loading s = false -> u_connectionError s = false -> u_setupRequired s = false -> truthy (u_isAuthenticated s) = true ->
  forall from, App s (Location "/login" from) = Redirect (Location (destination (Location "/login" from)) None) <->
    exists path, from = Some path /\ path <> "".
Proof.
  intros Hl Hc Hs Ha from. unfold App, destination. cbn -[String.eqb]. rewrite Hl, Hc, Hs, Ha. cbn -[String.eqb].
  change (String.eqb "/login" "/setup") with false. change (String.eqb "/login" "/login") with true. cbn -[String.eqb].
  destruct from as [path|]; [|split; [intros [=]|intros (? & [=] & _)]].
  destruct (String.eqb path "") eqn:E; split.
  - intros [=].
  - intros (q & [= <-] & Hn). by apply String.eqb_eq in E.
  - intros _. exists path. split; [done|]. by apply String.eqb_neq.
  - done.
Qed.
End properties.

(** A visitor asks for the page of the files, and gives the right password. *)
Lemma login_returns_witness :
  let l := Location "/settings/files" None in
  let R : Router := fun path => if String.eqb path "/settings/files" then RSettings Files else literal path in
  let B : Backend := fun _ _ => Ok (Reply 200 VNull (Ok VNull)) in
  let s := Session (VBool false) false false false [] in
  let page := Location "/login" (Some "/settings/files") in
  App (lf_session (handleLogin (LoginForm (VStr "secret") VNull s page)).2)
    (lf_location (handleLogin (LoginForm (VStr "secret") VNull s page)).2) = SettingsView Files.
Proof.
  intros l R B s page. assert (RouterLaws R) as RL by (split; reflexivity).
  apply (login_returns s "/settings/files" Files None (Reply 200 VNull (Ok VNull)) (VStr "secret") VNull); reflexivity || discriminate.
Defined.
