(* ===== verification/SettingsPages.v ===== *)
(** * The lists and tabs of the settings pages
      ([client/src/views/settings/PrayerSettingsView.jsx],
       [client/src/views/settings/AutomationSettingsView.jsx],
       [client/src/components/settings/automation/AutomationOutputsTab.jsx],
       [client/src/hooks/useConstants.js])

    What the pages of the prayers and of the automation fetch when they appear, what
    they draw of it, and the tab that the address names. *)
From S2P Require Import Prelude JsString JsValue.
From S2P Require Import ConfigStore Outputs ClientSettings TriggerCard OutputCard SettingsShell.

(** [x.map(...)], [x.filter(...)] *)
Definition js_elements (x : val) : result (list val) :=
  match x with VArr l => Ok l | _ => Throw (TypeError "is not a function") end.

(** ** The page of the prayers *)
Record prayer_page := PrayerPage {
  pp_activeTab : string; pp_audioFiles : list val; pp_strategies : val; pp_client : client
}.
Definition set_prayerTab v s := PrayerPage v (pp_audioFiles s) (pp_strategies s) (pp_client s).
Definition set_audioFiles v s := PrayerPage (pp_activeTab s) v (pp_strategies s) (pp_client s).
Definition set_prayerStrategies v s := PrayerPage (pp_activeTab s) (pp_audioFiles s) v (pp_client s).
Definition first_prayer_page (c : client) : prayer_page := PrayerPage "fajr" [] (VArr []) c.

Section prayers.
Context `{B : Backend}.

Definition on_prayer_page {A} (m : M client A) : M prayer_page A := fun s =>
  let '(r, c) := m (pp_client s) in (r, PrayerPage (pp_activeTab s) (pp_audioFiles s) (pp_strategies s) c).

Definition loadAudioFiles : M prayer_page unit :=
  try_catch (
    res ← on_prayer_page (fetch "GET" "/api/system/audio-files" VUndef);
    data ← lift (a_json res);
    files ← lift (audioFiles data);
    modify (set_audioFiles files))
    (fun _ => ret tt).

Definition loadPrayerStrategies : M prayer_page unit :=
  try_catch (
    res ← on_prayer_page (fetch "GET" "/api/system/outputs/registry" VUndef);
    data ← lift (a_json res);
    modify (set_prayerStrategies data))
    (fun _ => ret tt).

Definition appear : M prayer_page unit := loadAudioFiles ;; loadPrayerStrategies.
End prayers.

(** The cards of a prayer, by event: the sunrise has no congregation *)
Definition card_events (activeTab : string) : list string :=
  ["preAdhan"; "adhan"] ++ (if String.eqb activeTab "sunrise" then [] else ["preIqamah"; "iqamah"]).
Definition card_label (activeTab event : string) : string :=
  if String.eqb event "preAdhan" then if String.eqb activeTab "sunrise" then "1. Pre-Sunrise" else "1. Pre-Adhan"
  else if String.eqb event "adhan" then if String.eqb activeTab "sunrise" then "2. Sunrise Time" else "2. Adhan"
  else if String.eqb event "preIqamah" then "3. Pre-Iqamah" else "4. Iqamah".

(** The chips of a card that is open *)
Definition opened (config : val) (event : string) (trigger : val) : bool :=
  truthy (prop trigger "enabled") && negb (ms_disabled (masterSwitchState config event)).
Definition card_chips (s : prayer_page) (event : string) : result (list chip) :=
  let trigger := prop (currentTriggers (pp_client s) (pp_activeTab s)) event in
  if opened (k_config (pp_client s)) event trigger then
    l ← js_elements (pp_strategies s);
    Ok (chips (k_systemHealth (pp_client s)) (k_config (pp_client s)) l trigger)
  else Ok [].

(** ** The page of the automation *)
Record automation_page := AutomationPage {
  ap_tab : option string;          (* "tab" of the address *)
  ap_strategies : val;
  ap_voiceSearch : string; ap_voiceLocale : string; ap_voiceGender : string;
  ap_client : client
}.
Definition set_tab_param v s := AutomationPage v (ap_strategies s) (ap_voiceSearch s) (ap_voiceLocale s) (ap_voiceGender s) (ap_client s).
Definition set_tabStrategies v s := AutomationPage (ap_tab s) v (ap_voiceSearch s) (ap_voiceLocale s) (ap_voiceGender s) (ap_client s).
Definition first_automation_page (tab : option string) (c : client) : automation_page :=
  AutomationPage tab (VArr []) "" "All" "All" c.

Definition tab_of (s : automation_page) : string :=
  match ap_tab s with Some t => if String.eqb t "" then "general" else t | None => "general" end.
Definition setTab (tab : string) : M automation_page unit := modify (set_tab_param (Some tab)).

Record tab_button := TabButton { tb_id : string; tb_label : string; tb_healthy : bool }.
Definition automation_tabs (s : automation_page) : list tab_button :=
  [TabButton "general" "General" true; TabButton "outputs" "Outputs" (getTabHealth "outputs" (ap_client s));
   TabButton "voice" "Voice Library" true].

Section automation.
Context `{B : Backend}.

Definition on_automation_page {A} (m : M client A) : M automation_page A := fun s =>
  let '(r, c) := m (ap_client s) in
  (r, AutomationPage (ap_tab s) (ap_strategies s) (ap_voiceSearch s) (ap_voiceLocale s) (ap_voiceGender s) c).

Definition loadAutomationStrategies : M automation_page unit :=
  try_catch (
    res ← on_automation_page (fetch "GET" "/api/system/outputs/registry" VUndef);
    if negb (res_ok res) then throw (Error "Failed to fetch strategies") else
    data ← lift (a_json res);
    modify (set_tabStrategies data))
    (fun _ => ret tt).
End automation.

(** What a tab draws: the settings of each output with its strategy *)
Inductive tab_content :=
| LoadingTab | GeneralTab | OutputsTab (cards : list (val * val)) | VoiceTab (search locale gender : string) | NoTab.

Definition output_cards (strategies formData : val) : result (list (val * val)) :=
  l ← js_elements strategies;
  Ok (map (fun strategy => (strategy, output_config formData (show (prop strategy "id")))) l).

Definition tab_drawn (s : automation_page) : result tab_content :=
  let c := ap_client s in
  if k_loading c || negb (truthy (k_draftConfig c)) then Ok LoadingTab else
  if String.eqb (tab_of s) "general" then Ok GeneralTab else
  if String.eqb (tab_of s) "outputs" then
    cards ← output_cards (ap_strategies s) (k_draftConfig c); Ok (OutputsTab cards) else
  if String.eqb (tab_of s) "voice" then Ok (VoiceTab (ap_voiceSearch s) (ap_voiceLocale s) (ap_voiceGender s)) else Ok NoTab.

(** ** The constants *)
Record constants := Constants { co_constants : val; co_loading : bool; co_error : option jserr; co_client : client }.
Definition first_constants (c : client) : constants :=
  Constants (VObj [("calculationMethods", VArr []); ("madhabs", VArr []); ("latitudeAdjustments", VArr []); ("midnightModes", VArr [])])
    true None c.

Definition fetchConstants `{B : Backend} : M constants unit :=
  try_finally (try_catch (
    res ← (fun s => let '(r, c) := fetch "GET" "/api/system/constants" VUndef (co_client s) in
                    (r, Constants (co_constants s) (co_loading s) (co_error s) c));
    if negb (res_ok res) then throw (Error "Failed to fetch constants") else
    data ← lift (a_json res);
    modify (fun s => Constants data (co_loading s) (co_error s) (co_client s)))
    (fun err => modify (fun s => Constants (co_constants s) (co_loading s) (Some err) (co_client s))))
    (fun s => Constants (co_constants s) false (co_error s) (co_client s)).

(** ** Lemmas *)
Definition registry_call : call := Call "GET" "/api/system/outputs/registry" VUndef.

(** What the pages do with the answer about the outputs *)
Lemma automation_strategies `{B : Backend} s :
  ap_strategies (loadAutomationStrategies s).2 =
  match backend (k_sent (ap_client s)) registry_call with
  | Ok res => if res_ok res then default (ap_strategies s) (match a_json res with Ok data => Some data | _ => None end) else ap_strategies s
  | Throw _ => ap_strategies s
  end.
Proof.
  unfold loadAutomationStrategies, on_automation_page, fetch. munfold. fold registry_call. cbn.
  destruct (backend _ _) as [res|e]; [|done]. cbn. destruct (res_ok res); cbn; [|done]. by destruct (a_json res).
Qed.

Lemma prayer_strategies `{B : Backend} s :
  pp_strategies (loadPrayerStrategies s).2 =
  match backend (k_sent (pp_client s)) registry_call with
  | Ok res => default (pp_strategies s) (match a_json res with Ok data => Some data | _ => None end)
  | Throw _ => pp_strategies s
  end.
Proof.
  unfold loadPrayerStrategies, on_prayer_page, fetch. munfold. fold registry_call. cbn.
  destruct (backend _ _) as [res|e]; [|done]. cbn. by destruct (a_json res).
Qed.

(** ** Properties *)

(** The page of the outputs is always drawn.  Whatever the server, or a limit in front of
    it, answers with an error, and without an answer, the list stays the empty one; with
    an array it is that array. *)
Theorem outputs_drawn `{B : Backend} s :
  ap_strategies s = VArr [] ->
  (forall res data, backend (k_sent (ap_client s)) registry_call = Ok res -> res_ok res = true -> a_json res = Ok data ->
     is_array data = true) ->
  is_ok (tab_drawn (loadAutomationStrategies s).2) = true.
Proof.
  intros Hs H. assert (exists l, ap_strategies (loadAutomationStrategies s).2 = VArr l) as [l Hl].
  { rewrite automation_strategies, Hs. destruct (backend _ _) as [res|e]; [|by eexists].
    destruct (res_ok res) eqn:Hok; [|by eexists]. destruct (a_json res) as [data|e] eqn:Ej; [|by eexists].
    specialize (H res data eq_refl Hok Ej). destruct data; try done. by eexists. }
  unfold tab_drawn, output_cards. rewrite Hl. by repeat case_match.
Qed.

(** The page of the prayers is not.  A refused answer that is an object becomes the list
    of the strategies, and then no open card can be drawn. *)
Theorem refused_list_breaks_cards `{B : Backend} s res o event :
  backend (k_sent (pp_client s)) registry_call = Ok res -> a_json res = Ok (VObj o) ->
  let s' := (loadPrayerStrategies s).2 in
  opened (k_config (pp_client s')) event (prop (currentTriggers (pp_client s') (pp_activeTab s')) event) = true ->
  is_ok (card_chips s' event) = false.
Proof.
  intros E Hj s' Ho. unfold card_chips. rewrite Ho. unfold s'. rewrite prayer_strategies, E. cbn [a_json]. by rewrite Hj.
Qed.

(** The tab is in the address: one that was chosen is the one shown, whatever else has
    been fetched; with an unknown one nothing is drawn under the tabs. *)
Theorem tab_chosen `{B : Backend} s tab :
  tab <> "" -> tab_of (setTab tab s).2 = tab /\ tab_of (loadAutomationStrategies (setTab tab s).2).2 = tab.
Proof.
  intros Hne. apply String.eqb_neq in Hne. assert (forall s', ap_tab s' = Some tab -> tab_of s' = tab) as Ht
    by (intros s' E; unfold tab_of; by rewrite E, Hne).
  split; apply Ht; [done|]. unfold loadAutomationStrategies, on_automation_page, fetch. munfold. cbn.
  destruct (backend _ _) as [res|e]; [|done]. cbn. destruct (res_ok res); cbn; [|done]. by destruct (a_json res).
Qed.

(** Each card edits its own output.  What a card changes is in its own settings at the
    next drawing, and the cards of the other outputs are given what they were given. *)
Theorem card_edits_own_output s s' strategies id field value cards :
  let draft := json_clone (k_draftConfig s) in
  plain_name id -> plain_name field -> truthy (k_draftConfig s) = true ->
  no_array_on ["automation"; "outputs"; id; field] draft -> on_change id field value s = (Ok tt, s') ->
  output_cards strategies draft = Ok cards ->
  exists cards', output_cards strategies (k_draftConfig s') = Ok cards' /\ map fst cards' = map fst cards /\ Forall2 (fun before after =>
      if String.eqb (show (prop before.1 "id")) id then prop after.2 field = value else after.2 = before.2) cards cards'.
Proof.
  intros draft Hi Hf Hd Hn E Hc. destruct (on_change_run _ _ _ _ _ Hi Hf Hd Hn E) as (_ & Hv & _ & Ho).
  unfold output_cards in *. destruct (js_elements strategies) as [l|]; [|done]. cbn [mbind result_bind] in *. injection Hc as <-.
  eexists. split; [reflexivity|]. clear -Hv Ho. induction l as [|x l [IH1 IH2]]; [done|]. cbn [map fmap list_fmap fst]. split; [by f_equal|].
  constructor; [|done]. cbn [fst snd]. destruct (String.eqb_spec (show (prop x "id")) id) as [->|Hne]; [done|]. by apply Ho.
Qed.

(** The constants come to rest: when the request is over the hook no longer loads, and it
    has either what the server said or the error. *)
Theorem constants_settle `{B : Backend} c :
  let s := (fetchConstants (first_constants c)).2 in
  co_loading s = false /\
  match co_error s with
  | None => exists res, backend (k_sent c) (Call "GET" "/api/system/constants" VUndef) = Ok res /\ res_ok res = true /\
              a_json res = Ok (co_constants s)
  | Some _ => co_constants s = co_constants (first_constants c)
  end.
Proof.
  intros s. subst s. unfold fetchConstants, fetch. munfold. cbn.
  destruct (backend _ _) as [res|e]; [|done]. cbn. destruct (res_ok res) eqn:Hok; cbn; [|done].
  destruct (a_json res) as [data|e] eqn:Ej; cbn; [|done]. split; [done|]. by exists res.
Qed.
