(* ===== verification/AppDashboard.v ===== *)
(** * The dashboard as the application shows it ([client/src/App.jsx])

    The preference that lets the days be turned stands between the hook of the prayer
    times ([Dashboard]) and the table ([PrayerCard]): while it is off the table is given
    the day of today and nothing that moves, and an effect brings the hook back to today. *)
From S2P Require Import Prelude JsString JsValue Luxon LuxonUtc Calculations Providers Masking.
From S2P Require Import Dashboard ClientPrefs PrayerCard.

Section app.
Context `{L : Luxon} `{Loc : Locale}.

(** *** What the dashboard is given *)
Definition dashboardViewedDate (enabled : bool) (now : Z) (s : dash) : val :=
  if enabled then d_viewed (s_data s) else activeReferenceDate now s.
Definition dashboardViewedPrayers (enabled : bool) (s : dash) : val :=
  if enabled then js_or (viewedPrayers s) (d_prayers (s_data s)) else d_prayers (s_data s).
Definition dashboardTransitionDate (enabled : bool) (s : dash) : val := if enabled then m_target (s_motion s) else VNull.
Definition dashboardTransitionPrayers (enabled : bool) (now : Z) (s : dash) : val :=
  if enabled then transitionPrayers now s else VNull.
Definition dashboardCanNavigateBackward (enabled : bool) (s : dash) : bool := if enabled then canNavigateBackward s else false.
Definition dashboardCanNavigateForward (enabled : bool) (s : dash) : bool := if enabled then canNavigateForward s else false.
Definition dashboardTransitionDirection (enabled : bool) (s : dash) : string :=
  if enabled then m_direction (s_motion s) else "future".
Definition dashboardIsTransitioning (enabled : bool) (s : dash) : bool := if enabled then m_moving (s_motion s) else false.

Definition app_card (enabled : bool) (now : Z) (s : dash) : card_props :=
  Card (js_or (dashboardViewedPrayers enabled s) (d_prayers (s_data s))) (d_next (s_data s))
    (dashboardTransitionDate enabled s) (dashboardTransitionPrayers enabled now s)
    (dashboardViewedDate enabled now s) (activeReferenceDate now s)
    (dashboardCanNavigateBackward enabled s) (dashboardCanNavigateForward enabled s)
    (dashboardTransitionDirection enabled s) (dashboardIsTransitioning enabled s) enabled.

(** *** The effect *)
Definition astray (enabled : bool) (now : Z) (s : dash) : bool :=
  negb enabled &&
  (m_moving (s_motion s) ||
   (truthy (d_viewed (s_data s)) && truthy (activeReferenceDate now s) &&
    negb (seq (d_viewed (s_data s)) (activeReferenceDate now s)))).
Definition return_to_today (enabled : bool) (now : Z) (s : dash) : dash :=
  if astray enabled now s then commit now s (syncViewedDateToReference now s) else s.

(** An event of the hook, and the effect after it *)
Definition app_step (now : Z) (enabled : bool) (e : event) (s : dash) : option dash :=
  return_to_today enabled now <$> step now e s.
Fixpoint app_run (l : list (Z * bool * event)) (s : dash) : option dash :=
  match l with
  | [] => Some s
  | (now, enabled, e) :: l => s' ← app_step now enabled e s; app_run l s'
  end.

(** ** Lemmas *)
Lemma return_is_step enabled now s :
  return_to_today enabled now s = s \/ step now SyncView s = Some (return_to_today enabled now s).
Proof. unfold return_to_today. destruct (astray _ _ _); [by right|by left]. Qed.

(** The states of the application are states of the hook. *)
Lemma app_run_reachable l s s' : reachable s -> app_run l s = Some s' -> reachable s'.
Proof.
  revert s. induction l as [|[[now enabled] e] l IH]; intros s Hs E; cbn [app_run] in E; [by injection E as <-|].
  unfold app_step in E. destruct (step now e s) as [s1|] eqn:E1; [|done].
  cbn [fmap option_fmap option_map mbind option_bind] in E. refine (IH _ _ E).
  assert (reachable s1) as H1 by by eapply reach_step. destruct (return_is_step enabled now s1) as [-> | H]; [done|].
  by eapply reach_step.
Qed.

Lemma reachable_core s : reachable s -> core s.
Proof.
  intros H. assert (core s /\ synced s) as [Hc _]; [|done].
  induction H as [now|now e s s' _ IH E]; [apply mounted_keeps|by eapply step_keeps].
Qed.

Lemma commit_same now s : commit now s s = s.
Proof.
  unfold commit, sync_refs. cbv zeta. repeat (case_bool_decide; try done). unfold idle_effect. cbv zeta.
  by repeat (case_bool_decide; try done).
Qed.

Lemma synced_view now s day :
  activeReferenceDate now s = VStr day -> day <> "" ->
  let s' := commit now s (syncViewedDateToReference now s) in
  d_viewed (s_data s') = VStr day /\ m_moving (s_motion s') = false /\ activeReferenceDate now s' = VStr day.
Proof.
  intros Ha Hne s'. set (t := syncViewedDateToReference now s).
  assert (s_data t = set_viewed (VStr day) (s_data s) /\ s_motion t = still (s_motion s) /\
          s_observed t = s_observed s) as (E1 & E2 & E3).
  { unfold t, syncViewedDateToReference. rewrite Ha, (truthy_str day Hne). by split_and!. }
  assert (s_data s' = s_data t) as Ed by apply commit_data.
  assert (s_motion s' = s_motion t) as Em by (apply commit_motion; by rewrite E1).
  assert (s_observed s' = s_observed t) as Eo.
  { unfold s', commit. fold t. rewrite bool_decide_true by (by rewrite E1). unfold idle_effect, sync_refs. cbv zeta.
    repeat destruct (bool_decide _); done. }
  rewrite Ed, Em, E2, E1. split_and!; [done..|]. rewrite <- Ha. unfold activeReferenceDate, referenceDate. by rewrite Ed, Eo, E1, E3.
Qed.

Lemma return_active enabled now s day :
  activeReferenceDate now (return_to_today enabled now s) = VStr day -> day <> "" -> activeReferenceDate now s = VStr day.
Proof.
  intros Ha Hne. unfold return_to_today in Ha. destruct (astray _ _ _); [|done].
  unfold syncViewedDateToReference in Ha. destruct (truthy (activeReferenceDate now s)) eqn:Et; cbn [negb] in Ha;
    [|by rewrite commit_same in Ha].
  rewrite <- Ha. symmetry. unfold activeReferenceDate at 1, referenceDate. rewrite commit_data. cbn [s_data set_timers set_motion on_data on_refs next_request].
  unfold commit. rewrite bool_decide_true by done. unfold activeReferenceDate, referenceDate, idle_effect, sync_refs. cbv zeta.
  repeat destruct (bool_decide _); done.
Qed.

Lemma on_course now s day :
  astray false now s = false -> activeReferenceDate now s = VStr day -> day <> "" ->
  m_moving (s_motion s) = false /\ (truthy (d_viewed (s_data s)) = true -> d_viewed (s_data s) = VStr day).
Proof.
  unfold astray. intros Hs Ha Hne. rewrite Ha, (truthy_str day Hne), andb_true_r in Hs. cbn [negb andb] in Hs.
  apply orb_false_iff in Hs as [Hm Hv]. split; [done|]. intros Ht. rewrite Ht in Hv. cbn [andb] in Hv.
  by apply negb_false_iff, seq_text in Hv.
Qed.

(** ** Properties *)

(** With the turning of days on, the table is given what the hook has. *)
Theorem enabled_card now s : app_card true now s = card_of true now s.
Proof.
  unfold app_card, card_of, dashboardViewedPrayers. f_equal. unfold js_or.
  destruct (truthy (viewedPrayers s)) eqn:E; rewrite ?E; [done|]. by destruct (truthy (d_prayers (s_data s))).
Qed.

(** With it off, the table is today's.  In whatever state the hook is, however it got
    there, there is one panel: the day of today with its times and the mark of the next
    prayer; nothing moves, and no key, swipe or button turns a day. *)
Theorem disabled_shows_today now s day :
  activeReferenceDate now s = VStr day -> day <> "" ->
  let c := app_card false now s in
  panels c = [Panel (VStr day) (d_prayers (s_data s)) (d_next (s_data s))] /\
  (forall f key, handleKeyDown c f key = []) /\ (forall touch start, (handleTouchEnd c touch start).2 = []) /\
  clickPrevious c = [] /\ clickNext c = [] /\ canReset c = false.
Proof.
  intros Ha Hne c. split; [|done].
  unfold panels, shouldRenderTransitionPanels, activeNextPrayer, c, app_card, dashboardViewedDate, dashboardViewedPrayers.
  cbn -[js_or seq]. rewrite Ha. cbn [seq]. rewrite String.eqb_refl, js_or_truthy by by apply truthy_str.
  do 2 f_equal. unfold js_or. by destruct (truthy (d_prayers (s_data s))).
Qed.

(** With it off, the hook comes to rest at today.  After every event of the application,
    wherever it has got to, nothing moves, no turn of a day is due, and the date in view is
    the one of today, or is not known. *)
Theorem disabled_rests l start now e s s' day :
  app_run l (mounted start) = Some s -> app_step now false e s = Some s' ->
  activeReferenceDate now s' = VStr day -> day <> "" ->
  m_moving (s_motion s') = false /\ s_transition s' = None /\
  (truthy (d_viewed (s_data s')) = true -> d_viewed (s_data s') = VStr day).
Proof.
  intros Hr E Ha Hne. assert (core s') as Hc.
  { apply reachable_core, (app_run_reachable (l ++ [(now, false, e)]) (mounted start)); [constructor|].
    revert Hr E. generalize (mounted start). induction l as [|[[n en] e0] l IH]; intros s0 Hr E; cbn [app app_run] in *.
    - injection Hr as ->. by rewrite E.
    - destruct (app_step n en e0 s0) as [s1|]; [|done]. by apply IH. }
  unfold app_step in E. destruct (step now e s) as [s1|]; [|done]. injection E as <-.
  pose proof (return_active _ _ _ _ Ha Hne) as Ha1.
  assert (m_moving (s_motion (return_to_today false now s1)) = false /\
    (truthy (d_viewed (s_data (return_to_today false now s1))) = true -> d_viewed (s_data (return_to_today false now s1)) = VStr day))
    as [Hm Hv].
  { unfold return_to_today. destruct (astray false now s1) eqn:Eas; [|by apply (on_course now)].
    destruct (synced_view now s1 day Ha1 Hne) as (Hv & Hm & _). by split. }
  split; [done|]. split; [|done]. destruct Hc as (_ & _ & _ & Ht & _). destruct (s_transition _); [|done].
  destruct Ht as (_ & Ht & _). congruence.
Qed.

(** Turning it on again changes nothing that is seen: the table shows today, as it did,
    provided the calendar has no other times for today than those on show. *)
Theorem enabling_seamless now s day :
  astray false now s = false -> activeReferenceDate now s = VStr day -> day <> "" -> truthy (d_viewed (s_data s)) = true ->
  (truthy (day_of (d_calendar (s_data s)) (VStr day)) = true -> day_of (d_calendar (s_data s)) (VStr day) = d_prayers (s_data s)) ->
  panels (app_card true now s) = panels (app_card false now s).
Proof.
  intros Hs Ha Hne Hv Hd. destruct (on_course now s day Hs Ha Hne) as [Hm Hview]. specialize (Hview Hv).
  assert (viewedPrayers s = d_prayers (s_data s)) as Hp.
  { unfold viewedPrayers. rewrite Hview, (truthy_str day Hne). unfold js_or. destruct (truthy (day_of _ _)) eqn:Et; [by apply Hd|done]. }
  unfold panels, shouldRenderTransitionPanels, activeNextPrayer, app_card, dashboardViewedDate, dashboardViewedPrayers, dashboardIsTransitioning.
  cbn -[js_or seq]. rewrite Hm, Ha, Hview, Hp. cbn [andb negb]. do 2 f_equal. unfold js_or. by destruct (truthy (d_prayers (s_data s))) eqn:E; rewrite ?E.
Qed.
End app.

(** ** The timer of midnight ([client/src/hooks/useMidnightObserver.js]) *)
Section midnight_timer.
Context `{L : Luxon}.

Definition getNow (timezone : val) (now : Z) : dt := if truthy timezone then dt_setZone (dt_now now) (str_of timezone) else dt_now now.

(** In milliseconds; [None] is not a number, with which a timer fires at once. *)
Definition getDelayUntilMidnight (timezone : val) (now : Z) : option Z :=
  let n := getNow timezone now in
  next ← dt_ms (dt_startOf_day (dt_plus_days n 1)); t ← dt_ms n;
  Some (Z.max 1 (next - t)).
End midnight_timer.

(** The timer fires with the new day.  Without a change of clocks it waits no longer than
    a day, to the first millisecond of the next one, and what is then read as the date of
    today is the date of that day. *)
Theorem midnight_next_day timezone now :
  representable now -> representable (now + day_ms) ->
  exists delay, getDelayUntilMidnight (L := utc) timezone now = Some delay /\ 1 <= delay <= day_ms /\
    (now + delay) mod day_ms = 0 /\
    getReferenceDate (L := utc) timezone (now + delay) = VStr (date_text (now / day_ms + 1)).
Proof.
  intros Hr Hr'. exists (day_ms - now mod day_ms).
  assert (0 <= now mod day_ms < day_ms) as Hm by by apply Z.mod_pos_bound.
  pose proof (Z.div_mod now day_ms ltac:(done)) as Hd.
  assert (now + (day_ms - now mod day_ms) = (now / day_ms + 1) * day_ms) as Hn by lia.
  assert ((now + day_ms) mod day_ms = now mod day_ms) as Hm' by (replace (now + day_ms) with (now + 1 * day_ms) by lia; by rewrite Z.mod_add).
  assert (representable (now + day_ms - now mod day_ms)) as Hr2 by (unfold representable in *; lia).
  split; [|split; [lia|split; [by rewrite Hn, Z.mod_mul|]]].
  - unfold getDelayUntilMidnight, getNow. destruct (truthy timezone); cbn; rewrite !clip_Some by done; cbn; rewrite ?Z.mul_1_r.
    all: rewrite !clip_Some by done; cbn; rewrite Hm', clip_Some by done; cbn; f_equal; lia.
  - unfold getReferenceDate. replace (now + day_ms - now mod day_ms) with (now + (day_ms - now mod day_ms)) in Hr2 by lia.
    destruct (truthy timezone); cbn; rewrite clip_Some by done; by rewrite Hn, Z.div_mul.
Qed.
